(* ===== verification/_CoqProject ===== *)
-Q . S2P
Prelude.v
Htab.v
Huri.v
Hutil.v
Hstor.v
HstorProps.v
Dirent.v
Wire.v
Bdb.v
Srv.v
Cldb.v
Outq.v
Msg.v
Session.v
Server.v
Logic.v
OutqSpec.v
Abs.v
Inv.v
MsgSpec.v
SessionSpec.v
Mem.v
System.v
ServerSpec.v
Transport.v
Timer.v
Atcp.v
ObjCache.v
Fs.v
BeFs.v
BeFsSpec.v
BeFsProps.v
BeFsList.v
Chunkd.v
ChunkLogic.v
ChunkReq.v
ChunkPut.v
ChunkGet.v
ChunkPart.v
ChunkCp.v
ChunkProps.v
Chunkdc.v
ChunkdcProps.v
Selfcheck.v
SelfcheckProps.v
DirCur.v
Cldc.v
CldcLogic.v
CldcSys.v
CldcWf.v
CldcHear.v
CldcWire.v
CldcProps.v
Ncld.v
NcldLogic.v
NcldInv.v
NcldProps.v
NcldHang.v
Props.v
Corner.v
Startup.v
Dns.v
Cldu.v
CldApi.v
ClduProps.v
Config.v
ConfigProps.v
Cldcli.v
MemDb.v
Demo.v
Witness.v
TransportWitness.v
CliDemo.v
CliWitness.v
NcldWitness.v
ChunkWitness.v
ChunkdcWitness.v
SelfcheckWitness.v
HstorWitness.v
StartWitness.v
