(* ===== verification/Prelude.v ===== *)
(** * A verification of the Hail cluster daemons

    Project Hail (src/) is a pair of cluster services with their client
    libraries: CLD, a replicated lock-and-small-file service in the manner of
    Chubby (src/cld, src/lib/cldc*.c), and chunkd, an object store (src/chunkd,
    src/lib/chunkdc.c, src/lib/hstor.c), over a few shared libraries (src/lib).
    This development models the CLD server and its client library, from the
    bytes of a packet to the records in the database and the callbacks of the
    application, and the chunk server, from the bytes on a connection to the
    files on disk, with the clients of both, the start of a chunk server and the
    command line of CLD, and proves what makes them correct.

    ** CLD: the server

    A client's packet arrives framed by a UBBP header and is read into its
    client's buffer; [cli_rd_pkt] (cld/server.c) parses the header, finds the
    session in a hash table (lib/htab.c), checks session and signature,
    collects the fragments of a message and calls the handler of the
    operation.  Handlers (cld/msg.c) run one Berkeley DB transaction each over
    sessions, inodes, data, handles and locks (cld/cldb.c) and answer through
    the session's queue of signed packets, which is retransmitted until
    acknowledged (cld/session.c).  Timers expire silent sessions.

    - [Prelude]  fixed-width integers, little- and big-endian bytes, list
                 lemmas, the hint database and tactics shared by all files.
    - [Htab]     lib/htab.c: [htab] is [struct htab]; one definition per
                 function.  Theorems: the table implements a map, growing keeps
                 lookups, and what goes wrong in a put that grows the table.
    - [Dirent]   names and directory data of cld/msg.c ([valid_inode_name],
                 [pathname_parse], [dirent_find], [dirdata_append],
                 [dirdata_delete]) on bytes.
    - [Wire]     constants and structures of lib/cld_msg_rpc.x, footers, UBBP,
                 the signatures of lib/pkt.c.  XDR ([XdrLib], [XdrOk]) and
                 HMAC ([HmacLib]) are parameters.
    - [Bdb]      the records of cld/cldb.h, the key and comparison callbacks,
                 and Berkeley DB as a parameter: [Bdb] its calls, [BdbOk] its
                 documented behaviour (any call may fail and then changes
                 nothing; a failed commit or an abort restores what the
                 transaction began with), [BdbReliable] that none fails.
    - [Srv]      the server's state - database, session table, session objects
                 on a heap, clock, sockets - and the state monad the code runs
                 in.  Outcomes of malloc, rand, timers and writes come from an
                 arbitrary oracle.
    - [Cldb]     the accessors of cld/cldb.c.
    - [Outq]     sending: [sess_sendmsg], [simple_sendmsg], [msg_ack],
                 [session_retry], [tcp_tx] (cld/session.c, cld/server.c).
    - [Msg]      the request handlers of cld/msg.c.
    - [Session]  cld/session.c: creation, timers, removal, reload.
    - [Server]   cld/server.c: packet reception, dispatch, [ensure_root].
    - [Logic]    a weakest-precondition calculus for the monad and the frame
                 predicates ([quiet], [calm_env], [lucky]).
    - [OutqSpec], [MsgSpec], [SessionSpec], [ServerSpec]  specifications of the
                 components, proved with [Logic].
    - [Abs]      the abstract service: [astep], one atomic transition on the
                 contents per request.
    - [Inv]      [db_inv], the invariant of the contents, kept by [astep].
    - [Mem]      [mem_inv], the invariant of table and session objects.
    - [System]   the event loop as a step relation; reachable states.
    - [Props], [Corner]  the properties, stated on the code's definitions.
    - [MemDb], [Demo], [Witness]  instances of the parameters (an in-memory
                 database, XDR after RFC 4506, a stand-in digest), concrete
                 runs, and each property applied to one.

    ** CLD: the client library

    A call of the application (lib/cldc.c) is marshalled into a message, cut
    into signed packets, queued and sent, retransmitted by the session's
    timer, and completed when the server's response has arrived in order.

    - [Timer]    lib/libtimer.c: the sorted timer list.
    - [Atcp]     lib/atcp.c: the write queues of a connection.
    - [DirCur]   reading a directory: [cldc_dirent_*], the loop of cmd_ls.
    - [Cldc]     the session object with its messages, packets and handles on
                 a heap; every call, [sess_timer], [cldc_receive_pkt].
    - [CldcLogic], [CldcSys], [CldcWf], [CldcWire]  the calculus, runs of the
                 library as a step relation, its invariant, and the packets of
                 both sides against each other.
    - [CldcProps]  the properties.
    - [CliDemo], [CliWitness]  instances and witnesses.

    ** chunkd: the chunk server

    A connection is a state machine over socket events (chunkd/server.c): it
    reads a header, the key and possibly a second record, checks the
    signature, executes the request (chunkd/object.c) against objects stored
    as files with per-block digests (chunkd/be-fs.c), and queues answers that
    leave as the socket accepts them.  Keys being written are marked in a
    table shared with the worker threads (chunkd/objcache.c).

    - [ObjCache] chunkd/objcache.c: the table of active objects.
    - [Fs]       the files, directories and system calls be-fs.c uses; every
                 call may fail or be short as an oracle says.
    - [BeFs], [BeFsList]  chunkd/be-fs.c: objects, tables, listing.
    - [BeFsSpec], [BeFsProps]  writing and reading objects; the properties of
                 the store.
    - [Chunkd]   the connection: [client] is [struct client] with the kernel's
                 side of its socket; one definition per function of server.c
                 and object.c.
    - [ChunkLogic], [ChunkReq], [ChunkPut], [ChunkGet], [ChunkPart], [ChunkCp]
                 the calculus, reception of a request, and the requests.
    - [ChunkProps], [ChunkWitness]  properties and witnesses.
    - [Selfcheck] chunkd/selfcheck.c: the thread that reads every object again
                 and hides the spoiled ones.
    - [SelfcheckProps], [SelfcheckWitness]  what a pass spares, what it
                 finds, and runs.

    ** The chunk client and the storage client

    - [Chunkdc]  lib/chunkdc.c: every operation of the client over a socket
                 whose calls may be short or fail; [enc_req] lays out the
                 header the server of [Chunkd] decodes.
    - [ChunkdcProps], [ChunkdcWitness]  the client against the server, and that
                 its loops return.
    - [Huri]     lib/huri.c: URIs, field escaping, query strings.
    - [Hutil]    lib/hutil.c: HTTP requests, dates, canonical
                 strings and signatures.
    - [Hstor], [HstorProps], [HstorWitness]  lib/hstor.c: the requests of the
                 storage client and the answers it parses.  libcurl and libxml2
                 are parameters.

    ** CLD over TCP

    - [Transport]  the read queue of a server connection (cld/server.c) with
                 the callbacks that chain UBBP header, body and packet, and
                 lib/cldc-tcp.c, the client's end.
    - [TransportWitness]  runs; packets crossing the connection are theorems
                 of [Transport].

    ** The blocking calls of the CLD client

    - [Ncld]     ncld_* of lib/cldc.c: the helper thread and the application
                 threads of a session ([nworld] is [struct ncld_sess] with all
                 it points to), one step per section under the mutex; sleeping
                 on the condition variable is a state of its own.
    - [CldcHear] what [Cldc] completes when a packet is received.
    - [NcldLogic], [NcldInv]  what a step of the library does to the waiting
                 calls; the invariant of all interleavings.
    - [NcldProps], [NcldHang], [NcldWitness]  results of the calls, when they
                 do and do not return, and runs.

    ** A chunk server starts

    - [Startup]  the pid file (chunkd/util.c), the port file ([net_write_port]
                 and [hail_readport] of lib/common.c) and the listening sockets
                 (chunkd/server.c) over a small kernel of files and
                 descriptors.
    - [Config]   chunkd/config.c: the handlers of the markup parser, and the
                 checks that follow.  [config_context] is the structure of the
                 same name, [server_cfg] what [struct server] gets of it.
    - [Dns]      lib/cldc-dns.c: CLD servers found in the DNS.
    - [Cldu]     chunkd/cldu.c: the session with CLD in which the server keeps
                 a locked file that describes it.  The blocking calls are the
                 interface [NcldApi]; [CldApi.NcldOk] states in terms of the
                 transitions of [Abs] what a successful call has done.
    - [ConfigProps], [CldApi], [ClduProps]  their properties;
                 [StartWitness]: a small service that implements the
                 interface, and runs.
    - [Cldcli]   tools/cldcli.c, the command line of CLD, over the same
                 interface: paths, commands, lines and the main loop.

    ** What is shown

    - CLD, reachable states ([Props], first section): mutual exclusion of
      locks, valid handles, a consistent name space and sizes, live sessions.
      Reachability is over packets of arbitrary bytes, timers and checkpoints
      in any order, with arbitrary failures.  Two side conditions: directory
      data stays below 2^31 bytes (offsets are C ints), and a session dropped
      by its timer is one the table's lookups find (the code leaves a dangling
      pointer otherwise, see [Corner.session_free_dangling]).
    - Refinement: every event is at most one transition of the abstract service.
    - Handlers: what each answer means, on every path, errors included.
    - Sessions: complete removal, survival and expiry.
    - Wire: fragmentation and reassembly are inverse, packets are authentic,
      acknowledgement and retransmission treat the queue as they should; the
      packet gate.
    - Client library: a call reaches its handler and its response completes
      it, once and with the server's data; runs keep the invariant; silent
      sessions are given up.
    - Data structures: hash table, directory records, lock order, records,
      timers, write queues, reference counts.
    - Object store: what is stored is what is read, by its owner only, and
      spoiled blocks are detected.  Over the wire: PUT, GET, GET_PART and COPY
      do what they say for objects of any size on an undisturbed server, and a
      request that is not signed is not executed.
    - Self-check: a pass touches no sound object, and a spoiled one is gone
      from its place afterwards.  Chunk client: a PUT then a GET through the
      library and the server return the bytes that were put; its blocking
      calls but the listing return, whatever arrives, unless the socket takes
      nothing for ever.
    - Storage client: requests are signed over what they send, header order
      does not matter to the signature, listings are parsed back as answered,
      escaping and parsing of URIs agree with their definitions.
    - CLD over TCP: however the stream is cut, the server handles the packets
      the client sent, in order; what a header split between two reads does to
      the client's end.
    - Blocking calls: a call returns the code its own request was answered
      with; a lost session ends every wait; closing waits for the I/Os on the
      handle; a write or a close can be left waiting.
    - A starting chunk server: a configuration that is written is read, and
      only usable ones are accepted; a port file says the port; a registered
      server's file held its description under its own lock; a session marked
      dead is replaced, and how the failure of a replacement is lost.
    - The command line: no input overflows its buffers; a copy in or out that
      reports nothing has moved the contents.
    - The places where the code does not do what it means to.

    ** Fuel

    [Outq.build_pkts] recurses on [S (length msg)]: each round but the last
    takes 1024 bytes, and [Props.sendmsg_fragments] shows the message is always
    sent.  [Dirent.dirent_scan] runs on one more round than there are bytes,
    each round consuming at least 8; [Dirent.dirent_find_safe] shows more fuel
    changes nothing.  [Cldb.inode_new_loop]'s bound is the code's own limit.
    [Timer.run_loop] and [DirCur.count_loop] have one round per element and one
    more.  [BeFs.fs_obj_write_loop] has a round per byte of the buffer,
    [BeFs.do_sum_loop] one per byte of the file and one more,
    [BeFsList.list_objs_loop] one per name on the volume.
    [Chunkd.writable_loop] has one per byte that is queued or still to be
    read, [Chunkd.state_loop] eight per byte that has arrived and eight more,
    [Chunkd.cp_loop] one per byte of the source: the theorems about events show
    that they are enough, since running out is undefined.
    [Huri.unescape_loop] has a round per byte of the string, the query parser
    one per byte; [Chunkdc.net_read_loop] and the body loops one per byte still
    expected, the write loops one per byte and one per interrupted call that
    the socket's oracle grants ([ChunkdcProps.calls_return] shows no call runs
    out).  [Selfcheck.chk_loop] restarts its listing after each page; its bound
    is shown enough in [SelfcheckProps.selfcheck_finds].  [Transport.atcp_read]
    needs fuel only to go on after failed allocations.  [Startup.pid_loop] is
    given a write per byte, [Cldu.make_path_loop] a round per character and one
    more (see [ClduProps.make_path_equiv]).  [Cldu.trylock_loop] and
    [Config.wait_port] wait for others, without a bound in the code: their fuel
    is how often they ask, and running out is not an answer.
    [Cldcli.main_loop] has a line per byte of the input and one more.

    ** What is not modelled

    Not modelled, being process set-up and pure I/O: options, signals, the
    main loops and daemonising of the servers, opening and replicating the
    Berkeley DB environment, logging and statistics output.
    Stack allocation ([alloca]) never fails.  A freed CLD session object is
    absent from the heap; timers fire for live objects only, since freeing a
    session removes its timers.
    tools/chcli.c and tools/cldfuse.c are user interface over the client
    libraries; cld/cldbadm.c prints the databases; test/ holds test programs.
    The start-up code of cld/server.c is the twin of the chunk server's and is
    not modelled again. *)

From stdpp Require Export base decidable numbers list gmap fin_maps.
#[local] Open Scope Z_scope.

(** ** Machine integers

    A [w]-bit C integer is a [Z]; [uw w] reduces modulo [2^w] (what a store
    into an unsigned field does) and [sw w] is the two's-complement
    reading used when a wide value is converted to a signed type. *)
Definition uw (w z : Z) : Z := z mod 2 ^ w.
Definition sw (w z : Z) : Z := (z + 2 ^ (w - 1)) mod 2 ^ w - 2 ^ (w - 1).
Definition u8 : Z -> Z := uw 8.
Definition u16 : Z -> Z := uw 16.
Definition u32 : Z -> Z := uw 32.
Definition u64 : Z -> Z := uw 64.
Definition s32 : Z -> Z := sw 32.
Definition s64 : Z -> Z := sw 64.

(** [x & m], as a C truth value. *)
Definition flag (x m : Z) : bool := negb (Z.land x m =? 0).

Lemma uw_bound (w z : Z) : 0 <= w -> 0 <= uw w z < 2 ^ w.
Proof. intros Hw. apply Z.mod_pos_bound, Z.pow_pos_nonneg; lia. Qed.

Lemma uw_small (w z : Z) : 0 <= z < 2 ^ w -> uw w z = z.
Proof. apply Z.mod_small. Qed.

Lemma sw_small (w z : Z) : 0 < w -> - 2 ^ (w - 1) <= z < 2 ^ (w - 1) -> sw w z = z.
Proof.
  intros Hw Hz. unfold sw. rewrite Z.mod_small; [lia|].
  replace (2 ^ w) with (2 * 2 ^ (w - 1)); [lia|]. rewrite <- Z.pow_succ_r by lia. f_equal. lia.
Qed.

Lemma uw_idemp (w z : Z) : uw w (uw w z) = uw w z.
Proof. apply Zmod_mod. Qed.

Lemma u64_bound (z : Z) : 0 <= u64 z < 2 ^ 64.
Proof. by apply uw_bound. Qed.

(** Storing a flag word in a 32-bit field keeps the flags below bit 32. *)
Lemma flag_u32 (x m : Z) : Z.land (Z.ones 32) m = m -> flag (u32 x) m = flag x m.
Proof.
  intros Hm. unfold flag, u32, uw. do 2 f_equal.
  rewrite <- Z.land_ones, <- Z.land_assoc, Hm by lia. done.
Qed.

(** ** Bytes *)

Abbreviation bytes := (list Z).

Definition is_byte (b : Z) : bool := (0 <=? b) && (b <? 256).

(** The [n] low-order bytes of [z], least significant first. *)
Fixpoint le_bytes (n : nat) (z : Z) : bytes :=
  match n with
  | O => []
  | S n => z mod 256 :: le_bytes n (z / 256)
  end.

Fixpoint le_val (bs : bytes) : Z :=
  match bs with
  | [] => 0
  | b :: bs => b + 256 * le_val bs
  end.

(** Big-endian (network order, as XDR uses it). *)
Definition be_bytes (n : nat) (z : Z) : bytes := reverse (le_bytes n z).
Definition be_val (bs : bytes) : Z := le_val (reverse bs).

Lemma length_le_bytes (n : nat) (z : Z) : length (le_bytes n z) = n.
Proof. revert z; induction n as [|n IH]; intros z; simpl; [done|]. by rewrite IH. Qed.

Lemma length_be_bytes (n : nat) (z : Z) : length (be_bytes n z) = n.
Proof. unfold be_bytes. by rewrite length_reverse, length_le_bytes. Qed.

Lemma le_val_le_bytes (n : nat) (z : Z) :
  le_val (le_bytes n z) = z mod 256 ^ Z.of_nat n.
Proof.
  revert z; induction n as [|n IH]; intros z.
  { simpl. by rewrite Z.mod_1_r. }
  cbn [le_bytes le_val]. rewrite IH, Nat2Z.inj_succ, Z.pow_succ_r by lia.
  rewrite (Z.rem_mul_r z 256) by (try apply Z.pow_pos_nonneg; lia). lia.
Qed.

Lemma be_val_be_bytes (n : nat) (z : Z) :
  be_val (be_bytes n z) = z mod 256 ^ Z.of_nat n.
Proof. unfold be_val, be_bytes. rewrite reverse_involutive. apply le_val_le_bytes. Qed.

Lemma le_val_le_bytes_small (n : nat) (z : Z) :
  0 <= z < 256 ^ Z.of_nat n -> le_val (le_bytes n z) = z.
Proof. intros. rewrite le_val_le_bytes. by apply Z.mod_small. Qed.

Lemma le_bytes_is_byte (n : nat) (z : Z) : Forall (fun b => is_byte b) (le_bytes n z).
Proof.
  revert z; induction n as [|n IH]; intros z; simpl; constructor; [|done].
  pose proof (Z.mod_pos_bound z 256 ltac:(lia)).
  unfold is_byte. apply andb_True; split; apply Is_true_true_2; lia.
Qed.

Lemma le_val_bound (bs : bytes) :
  Forall (fun b => is_byte b) bs -> 0 <= le_val bs < 256 ^ Z.of_nat (length bs).
Proof.
  induction 1 as [|b bs Hb Hbs IH]; [cbn; lia|].
  unfold is_byte in Hb. apply andb_True in Hb as [H1%Is_true_true_1 H2%Is_true_true_1].
  cbn [le_val length]. rewrite Nat2Z.inj_succ, Z.pow_succ_r by lia. lia.
Qed.

#[global] Arguments le_bytes : simpl never.
#[global] Arguments le_val : simpl never.

(** ** C strings and memory *)

(** A C string: up to the first NUL. *)
Fixpoint cstr (b : bytes) : bytes :=
  match b with
  | [] => []
  | x :: b => if x =? 0 then [] else x :: cstr b
  end.

(** [memcpy] of [b] to position [pos] of [d]. *)
Definition splice (pos : nat) (b d : bytes) : bytes := take pos d ++ b ++ drop (pos + length b) d.

(** ["%lu"]: at most twenty digits. *)
Fixpoint fmt_lu_loop (fuel : nat) (n : Z) (acc : bytes) : bytes :=
  match fuel with
  | O => acc
  | S fuel =>
      let acc := 48 + n mod 10 :: acc in
      if n / 10 =? 0 then acc else fmt_lu_loop fuel (n / 10) acc
  end.
Definition fmt_lu (n : Z) : bytes := fmt_lu_loop 20 n [].

Lemma cstr_id s : Forall (fun x => x <> 0) s -> cstr s = s.
Proof. induction 1 as [|x s Hx _ IH]; [done|]. cbn. rewrite (proj2 (Z.eqb_neq x 0)) by done. by rewrite IH. Qed.

Lemma cstr_app s t : Forall (fun x => x <> 0) s -> cstr (s ++ t) = s ++ cstr t.
Proof. induction 1 as [|x s Hx _ IH]; [done|]. cbn. rewrite (proj2 (Z.eqb_neq x 0)) by done. by rewrite IH. Qed.

Lemma cstr_le (b : bytes) : (List.length (cstr b) <= List.length b)%nat.
Proof. induction b as [|x b IH]; cbn; [lia|]. destruct (x =? 0); cbn; lia. Qed.

Lemma cstr_nonzero s : Forall (fun x => x <> 0) (cstr s).
Proof. induction s as [|x s IH]; [done|]. cbn. destruct (Z.eqb_spec x 0); [done|]. by constructor. Qed.

(** ** Digests: HMAC-SHA1 (OpenSSL) and base64 (GLib); parameters of what signs. *)

Class Sig : Type := { HMAC_SHA1 : bytes -> bytes -> bytes; base64 : bytes -> bytes }.

(** ** Results of fallible calls: a value or a non-zero C return code *)

Inductive res (A : Type) : Type :=
| Ok (a : A)
| Err (rc : Z).
Arguments Ok {A} _.
Arguments Err {A} _.

Definition is_ok {A} (r : res A) : bool := if r is Ok _ then true else false.

(** The [int] a C caller sees. *)
Definition rc_of {A} (r : res A) : Z := match r with Ok _ => 0 | Err e => e end.

(** errno values the sources return. *)
Definition EINVAL : Z := 22.
Definition ENOMEM : Z := 12.
Definition EPERM : Z := 1.
Definition EBADMSG : Z := 74.

(** ** Lists shared by the components *)

Section lists.
Context {A : Type}.

(** [list_upd l i f]: apply [f] to slot [i] of an array. *)
Lemma lookup_total_alter (f : A -> A) (l : list A) (i j : nat) `{!Inhabited A} :
  (i < length l)%nat ->
  alter f i l !!! j = if decide (i = j) then f (l !!! j) else l !!! j.
Proof.
  intros Hi. rewrite !list_lookup_total_alt. case_decide as Hij.
  - subst j. rewrite list_lookup_alter_eq.
    destruct (lookup_lt_is_Some_2 l i Hi) as [x ->]. done.
  - by rewrite list_lookup_alter_ne.
Qed.

Lemma filter_all_false (P : A -> Prop) `{!forall x, Decision (P x)} (l : list A) :
  (forall x, x ∈ l -> ~ P x) -> filter P l = [].
Proof.
  induction l as [|x l IH]; intros Hl; [done|].
  rewrite filter_cons_False by (apply Hl; left). apply IH. intros y Hy. apply Hl. by right.
Qed.

Lemma filter_all_true (P : A -> Prop) `{!forall x, Decision (P x)} (l : list A) :
  (forall x, x ∈ l -> P x) -> filter P l = l.
Proof.
  induction l as [|x l IH]; intros Hl; [done|].
  rewrite filter_cons_True by (apply Hl; left). f_equal. apply IH. intros y Hy. apply Hl. by right.
Qed.

Lemma sublist_elem (l1 l2 : list A) (x : A) : sublist l1 l2 -> x ∈ l1 -> x ∈ l2.
Proof. intros Hs Hx. eapply elem_of_submseteq; [done|by apply sublist_submseteq]. Qed.

Lemma sublist_Forall (P : A -> Prop) (l1 l2 : list A) : sublist l1 l2 -> Forall P l2 -> Forall P l1.
Proof. rewrite !Forall_forall. intros Hs HP x Hx. by eapply HP, sublist_elem. Qed.

End lists.

(** [l] without its first [x], and with its first [x] replaced by [y]. *)
Fixpoint remove_first {A} `{!EqDecision A} (x : A) (l : list A) : list A :=
  match l with
  | [] => []
  | z :: l => if decide (z = x) then l else z :: remove_first x l
  end.

Fixpoint replace_first {A} `{!EqDecision A} (x y : A) (l : list A) : list A :=
  match l with
  | [] => []
  | z :: l => if decide (z = x) then y :: l else z :: replace_first x y l
  end.

Lemma replace_first_same {A} `{!EqDecision A} (x : A) (l : list A) : replace_first x x l = l.
Proof.
  induction l as [|z l IH]; simpl; [done|]. case_decide; [by subst|by rewrite IH].
Qed.

Lemma remove_first_sublist {A} `{!EqDecision A} (x : A) (l : list A) : sublist (remove_first x l) l.
Proof.
  induction l as [|z l IH]; simpl; [done|].
  case_decide; [by apply sublist_cons|by apply sublist_skip].
Qed.

Lemma remove_first_app_not {A} `{!EqDecision A} (x : A) (l1 l2 : list A) :
  x ∉ l1 -> remove_first x (l1 ++ l2) = l1 ++ remove_first x l2.
Proof.
  induction l1 as [|z l1 IH]; simpl; [done|]. intros [Hz Hl]%not_elem_of_cons.
  rewrite decide_False by done. by rewrite IH.
Qed.

(** ** Automation *)

Create HintDb cld discriminated.
#[export] Hint Resolve u64_bound : cld.

Ltac simplify_bool :=
  repeat match goal with
  | H : (_ && _)%bool = true |- _ => apply andb_true_iff in H; destruct H
  | H : (_ || _)%bool = false |- _ => apply orb_false_iff in H; destruct H
  | H : negb _ = true |- _ => apply negb_true_iff in H
  | H : negb _ = false |- _ => apply negb_false_iff in H
  end.

(** Split on the scrutinee of the first [if] or [match] of the goal. *)
Ltac case_goal :=
  match goal with
  | |- context [if ?b then _ else _] =>
      lazymatch type of b with bool => destruct b eqn:? end
  | |- context [match ?x with _ => _ end] => destruct x eqn:?
  end.
