(* ===== verification/Htab.v ===== *)
(** * Htab: the chained hash table of lib/htab.c

    [htab] is [struct htab]: an index into the table of primes, an array of
    bucket chains and the entry count.  A chain (a [list_head] ring of
    include/elist.h) is a list, first element first.  The function pointers
    [hash_fn] and [cmp_fn] are the section variables; the destructors are the
    two flags [free_key_fn]/[free_value_fn] (is the pointer non-NULL) and the
    calls made to them are logged, in order, in [freed].  The outcome of each
    [calloc] is an argument of the operation that performs it. *)

From S2P Require Import Prelude.
#[local] Open Scope Z_scope.

(** The bucket counts. *)
Definition primes : list Z :=
  [5; 769; 6151; 49157; 98317; 196613; 393241; 786433; 1572869; 3145739;
   6291469; 12582917; 25165843; 50331653; 100663319; 201326611; 402653189;
   805306457; 1610612741].

Record htab_entry (K V : Type) : Type := mkEnt {
  ent_key : K;
  ent_value : V;
  ent_hash : Z }.
Arguments mkEnt {K V} _ _ _.
Arguments ent_key {K V} _.
Arguments ent_value {K V} _.
Arguments ent_hash {K V} _.

Record htab (K V : Type) : Type := mkHtab {
  free_key_fn : bool;
  free_value_fn : bool;
  prime_idx : nat;
  buckets : list (list (htab_entry K V));
  n_ent : Z;
  freed : list (K + V) }.
Arguments mkHtab {K V} _ _ _ _ _ _.
Arguments free_key_fn {K V} _.
Arguments free_value_fn {K V} _.
Arguments prime_idx {K V} _.
Arguments buckets {K V} _.
Arguments n_ent {K V} _.
Arguments freed {K V} _.

Section htab.
Context {K V : Type}.
Variable hash_fn : K -> Z.
Variable cmp_fn : K -> K -> Z.

Implicit Types (h : htab K V) (e : htab_entry K V) (k : K) (v : V).

Definition htab_sz h : Z := primes !!! prime_idx h.

Definition htab_init_buckets (sz : Z) : list (list (htab_entry K V)) :=
  replicate (Z.to_nat sz) [].

Definition htab_size h : Z := n_ent h.

(** [alloc]: outcomes of the two [calloc]s. *)
Definition htab_new (alloc_tab alloc_buckets free_key free_value : bool) : option (htab K V) :=
  if negb alloc_tab then None else
  if negb alloc_buckets then None else
  Some (mkHtab free_key free_value 0 (htab_init_buckets (primes !!! 0%nat)) 0 []).

(** [htab_free_ent]: run the destructors and account for the entry; the chain
    itself is edited by the callers below. *)
Definition htab_free_ent h e : htab K V :=
  mkHtab (free_key_fn h) (free_value_fn h) (prime_idx h) (buckets h)
    (u32 (n_ent h - 1))
    (freed h ++ (if free_key_fn h then [inl (ent_key e)] else [])
             ++ (if free_value_fn h then [inr (ent_value e)] else [])).

Definition set_buckets h (bs : list (list (htab_entry K V))) : htab K V :=
  mkHtab (free_key_fn h) (free_value_fn h) (prime_idx h) bs (n_ent h) (freed h).

Definition htab_clear h : htab K V :=
  set_buckets (foldl htab_free_ent h (concat (buckets h)))
    (htab_init_buckets (htab_sz h)).

(** [htab_free]: the destructor calls made while tearing the table down. *)
Definition htab_free (oh : option (htab K V)) : list (K + V) :=
  match oh with None => [] | Some h => freed (htab_clear h) end.

Definition htab_need_resize h : bool :=
  let sz := htab_sz h in
  let threshold := u32 (sz * 2) / 3 in
  threshold <? n_ent h.

(** Move every entry, bucket by bucket and in chain order, to the tail of its
    new chain. *)
Definition rehash_ent (new_sz : Z) (bs : list (list (htab_entry K V))) e :=
  alter (fun c => c ++ [e]) (Z.to_nat (ent_hash e mod new_sz)) bs.

Definition htab_resize (alloc : bool) h : bool * htab K V :=
  let new_sz := primes !!! S (prime_idx h) in
  if negb alloc then (false, h) else
  let new_buckets :=
    foldl (rehash_ent new_sz) (htab_init_buckets new_sz) (concat (buckets h)) in
  (true, mkHtab (free_key_fn h) (free_value_fn h) (S (prime_idx h)) new_buckets
           (n_ent h) (freed h)).

Definition htab_put (alloc_tbl alloc_ent : bool) h k v : bool * htab K V :=
  let hash := hash_fn k in
  let bucket := Z.to_nat (hash mod htab_sz h) in
  let '(ok, h) :=
    if htab_need_resize h then htab_resize alloc_tbl h else (true, h) in
  if negb ok then (false, h) else
  if negb alloc_ent then (false, h) else
  let ent := mkEnt k v hash in
  (true, mkHtab (free_key_fn h) (free_value_fn h) (prime_idx h)
           (alter (fun c => ent :: c) bucket (buckets h))
           (u32 (n_ent h + 1)) (freed h)).

Definition ent_match k e : bool :=
  (ent_hash e =? hash_fn k) && (cmp_fn (ent_key e) k =? 0).

(** The chain [htab_get] and [htab_del] walk. *)
Definition chain h k : list (htab_entry K V) :=
  buckets h !!! Z.to_nat (hash_fn k mod htab_sz h).

Definition htab_get h k : option V :=
  ent_value <$> head (filter (fun e => ent_match k e) (chain h k)).

Definition htab_del h k : bool * htab K V :=
  let dead := filter (fun e => ent_match k e) (chain h k) in
  let h' := foldl htab_free_ent h dead in
  (match dead with [] => false | _ => true end,
   set_buckets h' (alter (filter (fun e => ~ ent_match k e))
                     (Z.to_nat (hash_fn k mod htab_sz h)) (buckets h))).

(** [htab_foreach]: the (key, value) pairs [iter_fn] is called on, in order. *)
Definition htab_foreach h : list (K * V) :=
  (fun e => (ent_key e, ent_value e)) <$> concat (buckets h).

End htab.

(** ** The hash and comparison functions offered to users *)

(** ["djb2"]: [hash * 33 ^ c] on [unsigned long]. *)
Fixpoint htab_djb_hash (hash : Z) (buf : bytes) : Z :=
  match buf with
  | [] => hash
  | c :: buf => htab_djb_hash (Z.lxor (u64 (u64 (Z.shiftl hash 5) + hash)) c) buf
  end.

(** The 8 bytes at the key, read as an [unsigned long] (little endian host). *)
Definition htab_direct_hash (buf : bytes) : Z := le_val (take 8 buf).

Definition htab_str_hash (s : bytes) : Z := htab_djb_hash 5381 s.

(** [strcmp] on NUL-free strings: the difference of the first bytes that
    differ, the terminator counting as 0. *)
Fixpoint htab_str_cmp (a b : bytes) : Z :=
  match a, b with
  | [], [] => 0
  | [], y :: _ => 0 - y
  | x :: _, [] => x
  | x :: a, y :: b => if x =? y then htab_str_cmp a b else x - y
  end.

Definition htab_str_new (alloc_tab alloc_buckets free_key free_value : bool)
  : option (htab bytes bytes) := htab_new alloc_tab alloc_buckets free_key free_value.

(** ** Correctness *)

Section htab_spec.
Context {K V : Type} `{!EqDecision K}.
Variable hash_fn : K -> Z.
Variable cmp_fn : K -> K -> Z.
Hypothesis cmp_fn_eq : forall a b : K, cmp_fn a b = 0 <-> a = b.

Implicit Types (h : htab K V) (e : htab_entry K V) (k : K) (v : V).

#[local] Abbreviation chain := (chain hash_fn).
#[local] Abbreviation ent_match := (ent_match hash_fn cmp_fn).
#[local] Abbreviation htab_get := (htab_get hash_fn cmp_fn).
#[local] Abbreviation htab_put := (htab_put hash_fn).
#[local] Abbreviation htab_del := (htab_del hash_fn cmp_fn).

(** The values stored under a key, the one [htab_get] returns first. *)
Definition lookups h k : list V := ent_value <$> filter (fun e => ent_match k e) (chain h k).

(** Well-formedness: every entry sits in the chain its hash selects, and the
    count is the number of entries. *)
Record htab_wf h : Prop := {
  wf_idx : (prime_idx h < length primes)%nat;
  wf_len : length (buckets h) = Z.to_nat (htab_sz h);
  wf_ent : forall b c e, buckets h !! b = Some c -> e ∈ c ->
    ent_hash e = hash_fn (ent_key e) /\ Z.to_nat (ent_hash e mod htab_sz h) = b;
  wf_cnt : n_ent h = u32 (Z.of_nat (length (concat (buckets h)))) }.

(** The abstract table: a stack of values per key. *)
Definition push (m : K -> list V) k v : K -> list V :=
  fun k' => if decide (k = k') then v :: m k' else m k'.
Definition clear (m : K -> list V) k : K -> list V :=
  fun k' => if decide (k = k') then [] else m k'.
Definition rep h (m : K -> list V) : Prop := htab_wf h /\ forall k, lookups h k = m k.

Lemma primes_pos (i : nat) : (i < length primes)%nat -> 0 < primes !!! i.
Proof.
  intros Hi. assert (Forall (Z.lt 0) primes) as HF by (repeat constructor; lia).
  rewrite Forall_lookup in HF. destruct (lookup_lt_is_Some_2 _ _ Hi) as [p Hp].
  rewrite list_lookup_total_alt, Hp. by apply (HF i).
Qed.

Lemma htab_sz_pos h : (prime_idx h < length primes)%nat -> 0 < htab_sz h.
Proof. apply primes_pos. Qed.

Lemma bucket_lt (x sz : Z) : 0 < sz -> (Z.to_nat (x mod sz) < Z.to_nat sz)%nat.
Proof. intros. pose proof (Z.mod_pos_bound x sz). lia. Qed.

Lemma ent_match_spec k e :
  ent_match k e = true <-> ent_hash e = hash_fn k /\ ent_key e = k.
Proof. unfold ent_match. rewrite andb_true_iff, !Z.eqb_eq, cmp_fn_eq. done. Qed.

Lemma elem_of_concat (e : htab_entry K V) (bs : list (list (htab_entry K V))) :
  e ∈ concat bs <-> exists b c, bs !! b = Some c /\ e ∈ c.
Proof.
  induction bs as [|c bs IH]; simpl.
  - split; [intros H; inversion H|]. by intros (b & c & Hb & _).
  - rewrite elem_of_app, IH. split.
    + intros [H|(b & c' & Hb & H)]; [by exists 0%nat, c|by exists (S b), c'].
    + intros ([|b] & c' & Hb & H); simpl in Hb; simplify_eq; [by left|right; eauto].
Qed.

(** Only the chain of [k] can hold matching entries, so the table can be
    viewed as the flat list of its entries. *)
Lemma filter_concat_chain k (bs : list (list (htab_entry K V))) (b : nat) :
  (forall b' c e, bs !! b' = Some c -> e ∈ c -> ent_match k e -> b' = b) ->
  filter (fun e => ent_match k e) (concat bs) = filter (fun e => ent_match k e) (bs !!! b).
Proof.
  revert b. induction bs as [|c bs IH]; intros b Hb; [done|].
  simpl. rewrite filter_app. destruct b as [|b].
  - rewrite (filter_all_false _ (concat bs)), app_nil_r; [done|].
    intros e (b' & c' & Hb' & He)%elem_of_concat Hm. by specialize (Hb (S b') c' e Hb' He Hm).
  - rewrite (filter_all_false _ c); [|intros e He Hm; by specialize (Hb 0%nat c e eq_refl He Hm)].
    apply IH. intros b' c' e Hb' He Hm. specialize (Hb (S b') c' e Hb' He Hm). congruence.
Qed.

Lemma wf_match_bucket h k : htab_wf h ->
  forall b c e, buckets h !! b = Some c -> e ∈ c -> ent_match k e ->
  b = Z.to_nat (hash_fn k mod htab_sz h).
Proof.
  intros Hwf b c e Hb He [Hh _]%Is_true_true_1%ent_match_spec.
  destruct (wf_ent h Hwf b c e Hb He) as [_ <-]. by rewrite Hh.
Qed.

Lemma lookups_flat h k : htab_wf h ->
  lookups h k = ent_value <$> filter (fun e => ent_match k e) (concat (buckets h)).
Proof.
  intros Hwf. unfold lookups, chain. f_equal. symmetry.
  apply filter_concat_chain. by apply wf_match_bucket.
Qed.

Lemma htab_get_lookups h k : htab_get h k = head (lookups h k).
Proof. unfold htab_get, lookups. by destruct (filter _ _). Qed.

(** *** Insertion without a resize *)

Lemma length_concat_alter {A} (f : list A -> list A) (d : nat) (bs : list (list A)) (b : nat) :
  (b < length bs)%nat -> (forall c, length (f c) = length c + d)%nat ->
  length (concat (alter f b bs)) = (length (concat bs) + d)%nat.
Proof.
  revert b; induction bs as [|c bs IH]; intros b Hb Hf; simpl in *; [lia|].
  destruct b as [|b]; simpl; rewrite !length_app; [rewrite Hf; lia|].
  change (list_alter f b bs) with (alter f b bs). rewrite IH by (done || lia). lia.
Qed.

Lemma init_buckets_lookup (sz : Z) (i : nat) :
  (htab_init_buckets sz : list (list (htab_entry K V))) !!! i = [].
Proof.
  unfold htab_init_buckets. rewrite list_lookup_total_alt.
  destruct (replicate (Z.to_nat sz) ([] : list (htab_entry K V)) !! i) as [c|] eqn:E; [|done].
  by apply lookup_replicate in E as [-> _].
Qed.

Lemma concat_init_buckets (sz : Z) :
  concat (htab_init_buckets sz : list (list (htab_entry K V))) = [].
Proof. unfold htab_init_buckets. induction (Z.to_nat sz); simpl; auto. Qed.

Lemma htab_new_wf (a b fk fv : bool) h :
  htab_new a b fk fv = Some h -> rep h (fun _ => []).
Proof.
  unfold htab_new. intros H. repeat (case_match; simplify_eq).
  split; [split|]; simpl.
  - lia.
  - done.
  - intros b' c e [-> _]%lookup_replicate H. inversion H.
  - done.
  - intros k. unfold lookups, Htab.chain, htab_sz; simpl.
    pose proof (init_buckets_lookup 5 (Z.to_nat (hash_fn k mod 5))) as H. simpl in H.
    by rewrite H.
Qed.

Lemma htab_put_noresize_eq (at_ : bool) h k v :
  htab_need_resize h = false ->
  htab_put at_ true h k v =
    (true, mkHtab (free_key_fn h) (free_value_fn h) (prime_idx h)
       (alter (cons (mkEnt k v (hash_fn k))) (Z.to_nat (hash_fn k mod htab_sz h)) (buckets h))
       (u32 (n_ent h + 1)) (freed h)).
Proof. unfold htab_put. by intros ->. Qed.

Lemma htab_put_noresize (at_ : bool) h k v (m : K -> list V) :
  rep h m -> htab_need_resize h = false ->
  exists h', htab_put at_ true h k v = (true, h') /\ rep h' (push m k v).
Proof.
  intros [Hwf Hm] Hn. rewrite htab_put_noresize_eq by done. eexists; split; [done|].
  pose proof (htab_sz_pos h (wf_idx h Hwf)) as Hpos.
  pose proof (bucket_lt (hash_fn k) (htab_sz h) Hpos) as Hlt.
  rewrite <- (wf_len h Hwf) in Hlt.
  split; [split|]; simpl.
  - apply Hwf.
  - rewrite length_alter. apply Hwf.
  - intros b c e Hb He. change (htab_sz (mkHtab _ _ (prime_idx h) _ _ _)) with (htab_sz h).
    rewrite list_lookup_alter in Hb. case_decide as Hd.
    + apply fmap_Some in Hb as (c0 & Hc0 & ->).
      apply elem_of_cons in He as [->|He]; [by split|].
      rewrite <- Hd. by apply (wf_ent h Hwf _ c0).
    + by apply (wf_ent h Hwf b c).
  - rewrite (length_concat_alter _ 1) by (done || (intros; simpl; lia)).
    rewrite (wf_cnt h Hwf). unfold u32, uw. rewrite Zplus_mod_idemp_l. f_equal. lia.
  - intros k'. unfold lookups, Htab.chain; simpl.
    change (htab_sz (mkHtab _ _ (prime_idx h) _ _ _)) with (htab_sz h).
    rewrite lookup_total_alter by done. unfold push.
    rewrite <- (Hm k'). unfold lookups, Htab.chain.
    case_decide as Hb; case_decide as Hk; subst.
    + rewrite filter_cons_True; [done|]. apply Is_true_true_2, ent_match_spec. done.
    + rewrite filter_cons_False; [done|].
      intros [_ Heq]%Is_true_true_1%ent_match_spec. done.
    + done.
    + done.
Qed.

(** *** Resizing *)

Lemma length_rehash (sz : Z) (es : list (htab_entry K V)) bs :
  length (foldl (rehash_ent sz) bs es) = length bs.
Proof.
  revert bs. induction es as [|e es IH]; intros bs; simpl; [done|].
  rewrite IH. apply length_alter.
Qed.

Lemma rehash_lookup (sz : Z) (es : list (htab_entry K V)) bs (b : nat) :
  0 < sz -> length bs = Z.to_nat sz ->
  foldl (rehash_ent sz) bs es !!! b =
    (bs !!! b) ++ filter (fun e => Z.to_nat (ent_hash e mod sz) = b) es.
Proof.
  intros Hsz. revert bs. induction es as [|e es IH]; intros bs Hl; simpl.
  { by rewrite app_nil_r. }
  pose proof (bucket_lt (ent_hash e) sz Hsz) as Hb. rewrite <- Hl in Hb.
  rewrite IH by (unfold rehash_ent; by rewrite length_alter). unfold rehash_ent.
  rewrite lookup_total_alter by done. case_decide as Hd.
  - rewrite filter_cons_True by done. by rewrite <- app_assoc.
  - by rewrite filter_cons_False.
Qed.

Lemma rehash_perm (sz : Z) (es : list (htab_entry K V)) bs :
  0 < sz -> length bs = Z.to_nat sz ->
  length (concat (foldl (rehash_ent sz) bs es)) = (length (concat bs) + length es)%nat.
Proof.
  intros Hsz. revert bs. induction es as [|e es IH]; intros bs Hl; simpl; [lia|].
  pose proof (bucket_lt (ent_hash e) sz Hsz) as Hb. rewrite <- Hl in Hb.
  rewrite IH by (unfold rehash_ent; by rewrite length_alter). unfold rehash_ent.
  rewrite (length_concat_alter _ 1) by (done || (intros; rewrite length_app; simpl; lia)). lia.
Qed.

Lemma wf_ent_flat h e : htab_wf h -> e ∈ concat (buckets h) -> ent_hash e = hash_fn (ent_key e).
Proof. intros Hwf (b & c & Hb & He)%elem_of_concat. by apply (wf_ent h Hwf b c). Qed.

(** What [htab_resize] leaves in a bucket. *)
Lemma resize_bucket h (b : nat) :
  (S (prime_idx h) < length primes)%nat ->
  buckets (htab_resize true h).2 !!! b =
    filter (fun e => Z.to_nat (ent_hash e mod primes !!! S (prime_idx h)) = b) (concat (buckets h)).
Proof.
  intros Hi. pose proof (primes_pos _ Hi) as Hpos.
  cbn [htab_resize negb snd buckets].
  rewrite rehash_lookup by (done || apply length_replicate). by rewrite init_buckets_lookup.
Qed.

Lemma htab_resize_rep h (m : K -> list V) :
  (S (prime_idx h) < length primes)%nat -> rep h m -> rep (htab_resize true h).2 m.
Proof.
  intros Hi [Hwf Hm]. pose proof (primes_pos _ Hi) as Hpos.
  set (sz := primes !!! S (prime_idx h)) in *.
  assert (Hlen : length (buckets (htab_resize true h).2) = Z.to_nat sz).
  { cbn [htab_resize negb snd buckets]. rewrite length_rehash. apply length_replicate. }
  assert (htab_wf (htab_resize true h).2) as Hwf'.
  { split.
    - done.
    - done.
    - intros b c e Hb He.
      assert (buckets (htab_resize true h).2 !!! b = c) as Hc by by rewrite list_lookup_total_alt, Hb.
      rewrite resize_bucket in Hc by done. subst c. apply list_elem_of_filter in He as [He Hin].
      split; [by apply (wf_ent_flat h)|done].
    - cbn [htab_resize negb snd buckets n_ent]. rewrite rehash_perm by (done || apply length_replicate).
      rewrite concat_init_buckets. apply (wf_cnt h Hwf). }
  split; [done|]. intros k. rewrite <- Hm, (lookups_flat h) by done.
  unfold lookups, Htab.chain. rewrite resize_bucket by done. f_equal.
  rewrite list_filter_filter. apply list_filter_iff. intros e. split; [tauto|].
  intros He. split; [done|]. apply Is_true_true_1, ent_match_spec in He as [-> _]. done.
Qed.

(** *** Deletion *)

Lemma free_ents_frame (es : list (htab_entry K V)) h :
  let h' := foldl htab_free_ent h es in
  buckets h' = buckets h /\ prime_idx h' = prime_idx h /\
  n_ent h' = (if decide (es = []) then n_ent h else u32 (n_ent h - Z.of_nat (length es))).
Proof.
  revert h. induction es as [|e es IH]; intros h; simpl; [done|].
  destruct (IH (htab_free_ent h e)) as (-> & -> & ->). split_and!; [done|done|].
  simpl. unfold u32, uw. case_decide; subst; simpl; [done|].
  rewrite Zminus_mod_idemp_l. f_equal. lia.
Qed.

Lemma length_concat_alter_filter (P : htab_entry K V -> Prop) `{!forall x, Decision (P x)}
    (bs : list (list (htab_entry K V))) (b : nat) :
  (b < length bs)%nat ->
  (length (concat (alter (filter (fun e => ~ P e)) b bs)) + length (filter P (bs !!! b)))%nat
    = length (concat bs).
Proof.
  revert b; induction bs as [|c bs IH]; intros b Hb; simpl in *; [lia|].
  destruct b as [|b]; simpl; rewrite !length_app.
  - clear. induction c as [|e c IH]; simpl; [lia|].
    destruct (decide (P e)).
    + rewrite filter_cons_False by tauto. rewrite filter_cons_True by done. simpl. lia.
    + rewrite filter_cons_True by done. rewrite filter_cons_False by done. simpl. lia.
  - change (list_alter ?f b bs) with (alter f b bs).
    specialize (IH b ltac:(lia)). unfold alter in *. lia.
Qed.

Lemma htab_del_rep h k (m : K -> list V) :
  rep h m ->
  exists h', htab_del h k = (match m k with [] => false | _ => true end, h') /\ rep h' (clear m k).
Proof.
  intros [Hwf Hm]. eexists. split.
  { unfold htab_del. f_equal. rewrite <- Hm. unfold lookups. by destruct (filter _ _). }
  destruct (free_ents_frame (filter (fun e => ent_match k e) (chain h k)) h) as (Hb & Hi & Hn).
  assert (Hsz : forall bs, htab_sz (set_buckets (foldl htab_free_ent h
      (filter (fun e => ent_match k e) (chain h k))) bs) = htab_sz h)
    by (intros bs; unfold htab_sz; cbn [set_buckets prime_idx]; by rewrite Hi).
  pose proof (bucket_lt (hash_fn k) (htab_sz h) (htab_sz_pos h (wf_idx h Hwf))) as Hlt.
  rewrite <- (wf_len h Hwf) in Hlt.
  split; [split|].
  - cbn [set_buckets prime_idx]. rewrite Hi. apply Hwf.
  - rewrite Hsz. cbn [set_buckets buckets]. rewrite length_alter. apply Hwf.
  - intros b c e Hbc He. rewrite Hsz. cbn [set_buckets buckets] in Hbc.
    rewrite list_lookup_alter in Hbc. case_decide as Hd.
    + apply fmap_Some in Hbc as (c0 & Hc0 & ->). apply list_elem_of_filter in He as [_ He].
      rewrite <- Hd. by apply (wf_ent h Hwf _ c0).
    + by apply (wf_ent h Hwf b c).
  - cbn [set_buckets buckets n_ent]. rewrite Hn.
    pose proof (length_concat_alter_filter (fun e => ent_match k e) (buckets h) _ Hlt) as Hl.
    fold (chain h k) in Hl. rewrite (wf_cnt h Hwf). unfold u32 in *.
    case_decide as Hd.
    + rewrite Hd in Hl. simpl in Hl. do 2 f_equal. lia.
    + unfold uw. rewrite Zminus_mod_idemp_l. f_equal. lia.
  - clear Hn. intros k'. unfold lookups, Htab.chain. rewrite Hsz. cbn [set_buckets buckets].
    rewrite lookup_total_alter by done. unfold clear. rewrite <- (Hm k').
    unfold lookups, Htab.chain. case_decide as Hbk; case_decide as Hk; subst.
    + rewrite list_filter_filter, filter_all_false; [done|]. intros e _. tauto.
    + f_equal. rewrite list_filter_filter. apply list_filter_iff. intros e. split; [tauto|].
      intros He. split; [done|]. intros He'.
      apply Is_true_true_1, ent_match_spec in He as [_ <-].
      apply Is_true_true_1, ent_match_spec in He' as [_ <-]. done.
    + done.
    + done.
Qed.

(** *** A put that grows the table *)

(** [htab_put] computes the bucket number before resizing, so after the
    table has grown the entry sits in the chain the *old* size selects. *)
Lemma htab_put_resize_get h k v :
  (S (prime_idx h) < length primes)%nat -> htab_wf h -> htab_need_resize h = true ->
  htab_get (htab_put true true h k v).2 k =
    if decide (Z.to_nat (hash_fn k mod htab_sz h)
               = Z.to_nat (hash_fn k mod primes !!! S (prime_idx h)))
    then Some v else htab_get h k.
Proof.
  intros Hi Hwf Hn.
  destruct (htab_resize_rep h (lookups h) Hi (conj Hwf (fun k => eq_refl))) as [Hwf' Hm'].
  pose proof (primes_pos _ Hi) as Hpos.
  assert (Z.to_nat (hash_fn k mod htab_sz h) < length (buckets (htab_resize true h).2))%nat as Hlt.
  { rewrite (wf_len _ Hwf'). change (htab_sz (htab_resize true h).2) with (primes !!! S (prime_idx h)).
    pose proof (bucket_lt (hash_fn k) _ (htab_sz_pos h (wf_idx h Hwf))) as Hb.
    enough (htab_sz h <= primes !!! S (prime_idx h)) by lia.
    assert (forall i, (S i < length primes)%nat -> primes !!! i <= primes !!! S i) as Hmono.
    { intros i Hi'. repeat (destruct i as [|i]; [vm_compute; congruence|]). simpl in Hi'. lia. }
    by apply Hmono. }
  unfold Htab.htab_put. rewrite Hn. cbn [htab_resize negb snd] in *.
  unfold Htab.htab_get at 1, Htab.chain, htab_sz at 2. cbn [snd buckets prime_idx] in *.
  rewrite lookup_total_alter by done. case_decide as Hd.
  - rewrite decide_True, filter_cons_True; [done| |done]. by apply Is_true_true_2, ent_match_spec.
  - rewrite decide_False by done. rewrite (htab_get_lookups h), <- Hm'.
    unfold lookups, Htab.chain, htab_sz. cbn [buckets prime_idx]. by destruct (filter _ _).
Qed.

(** *** Sequences of operations *)

Inductive hop : Type := HPut (k : K) (v : V) | HDel (k : K).

Definition run_hop h (o : hop) : htab K V :=
  match o with HPut k v => (htab_put true true h k v).2 | HDel k => (htab_del h k).2 end.
Definition run_hops h (os : list hop) : htab K V := foldl run_hop h os.

Definition abs_hop (m : K -> list V) (o : hop) : K -> list V :=
  match o with HPut k v => push m k v | HDel k => clear m k end.
Definition abs_hops (m : K -> list V) (os : list hop) : K -> list V := foldl abs_hop m os.

(** No put of the sequence grows the table. *)
Fixpoint fits h (os : list hop) : bool :=
  match os with
  | [] => true
  | o :: os => (match o with HPut _ _ => negb (htab_need_resize h) | HDel _ => true end)
               && fits (run_hop h o) os
  end.

Lemma run_hops_rep (os : list hop) h (m : K -> list V) :
  rep h m -> fits h os = true -> rep (run_hops h os) (abs_hops m os).
Proof.
  revert h m. induction os as [|o os IH]; intros h m Hr Hf; [done|]. cbn [fits] in Hf.
  apply andb_true_iff in Hf as [Ho Hf].
  change (rep (run_hops (run_hop h o) os) (abs_hops (abs_hop m o) os)). apply IH; [|done].
  destruct o as [k v|k]; cbn [run_hop abs_hop].
  - apply negb_true_iff in Ho. destruct (htab_put_noresize true h k v m Hr Ho) as (h' & -> & Hr'). done.
  - destruct (htab_del_rep h k m Hr) as (h' & -> & Hr'). done.
Qed.

(** Nothing is found under a key just deleted. *)
Lemma htab_del_sz h k : htab_sz (htab_del h k).2 = htab_sz h.
Proof.
  unfold Htab.htab_del, htab_sz. cbn [snd prime_idx set_buckets].
  by destruct (free_ents_frame (filter (fun e => ent_match k e) (chain h k)) h) as (_ & -> & _).
Qed.

Lemma del_get_none h k : htab_get (htab_del h k).2 k = None.
Proof.
  unfold Htab.htab_get, Htab.chain at 1. rewrite htab_del_sz.
  unfold Htab.htab_del. cbn [snd buckets set_buckets].
  rewrite list_lookup_total_alt, list_lookup_alter, decide_True by done.
  destruct (buckets h !! _); cbn; [|done].
  rewrite list_filter_filter, filter_all_false; [done|]. intros e _. tauto.
Qed.

(** Starting from a new table, any sequence of puts and deletes that does
    not grow the table implements the map it stands for: a put shadows the
    earlier values of its key, a delete drops all of them, and [htab_get]
    returns the latest value. *)
Theorem htab_ops_refine (a b fk fv : bool) h (os : list hop) k :
  htab_new a b fk fv = Some h -> fits h os = true ->
  htab_get (run_hops h os) k = head (abs_hops (fun _ => []) os k).
Proof.
  intros Hn Hf. destruct (run_hops_rep os h _ (htab_new_wf a b fk fv h Hn) Hf) as [_ Hl].
  by rewrite htab_get_lookups, Hl.
Qed.

(** Growing the table keeps every lookup. *)
Theorem htab_resize_get h k :
  (S (prime_idx h) < length primes)%nat -> htab_wf h -> htab_get (htab_resize true h).2 k = htab_get h k.
Proof.
  intros Hi Hwf. destruct (htab_resize_rep h (lookups h) Hi (conj Hwf (fun k => eq_refl))) as [_ Hl].
  by rewrite !htab_get_lookups, Hl.
Qed.

(** A put that grows the table loses its entry unless the key's bucket
    is the same at both sizes: the bucket number was computed before the
    resize.  The key then looks up as it did before the put. *)
Theorem htab_put_lost h k v :
  (S (prime_idx h) < length primes)%nat -> htab_wf h -> htab_need_resize h = true ->
  Z.to_nat (hash_fn k mod htab_sz h) <> Z.to_nat (hash_fn k mod primes !!! S (prime_idx h)) ->
  (htab_put true true h k v).1 = true /\ htab_get (htab_put true true h k v).2 k = htab_get h k.
Proof.
  intros Hi Hwf Hn Hb. split.
  - unfold Htab.htab_put. rewrite Hn. done.
  - rewrite htab_put_resize_get by done. by rewrite decide_False.
Qed.

End htab_spec.
