(* ===== verification/Huri.v ===== *)
(** * Huri: URIs (lib/huri.c, [struct http_uri] of include/hstor.h)

    Text is a C string; a pointer into it is the text from there on.  The
    parser sets pointer and length of each part; escaping and unescaping work
    on buffers, where [None] is an access outside. *)

From S2P Require Import Prelude.
#[local] Open Scope Z_scope.

(** ** Data *)

(** A pointer and a length; the pointer may be NULL. *)
Record token : Type := mkTok { tk_ptr : option bytes; tk_len : Z }.
Definition no_token : token := mkTok None 0.
Definition tok (p : bytes) (n : nat) : token := mkTok (Some p) (u32 (Z.of_nat n)).

(** [struct http_uri] *)
Record http_uri : Type := mkUri {
  scheme : token; userinfo : token; hostname : token; port : Z; path : token; query : token; fragment : token }.

(** The bytes of a part. *)
Definition tk_text (t : token) : option bytes := take (Z.to_nat (tk_len t)) <$> tk_ptr t.

(** ** Parsing *)

Definition ISSPACE (c : Z) : bool := ((9 <=? c) && (c <=? 13)) || (c =? 32).
Definition isdigit (c : Z) : bool := (48 <=? c) && (c <=? 57).

(** [*p], which is NUL at the end. *)
Definition at_ (p : bytes) : Z := default 0 (head p).
Definition is_one (s : list Z) (c : Z) : bool := bool_decide (c ∈ s).

(** [while ( *p && !stop( *p)) ++p]: what was passed, and [p]. *)
Fixpoint span (stop : Z -> bool) (p : bytes) : bytes * bytes :=
  match p with
  | [] => ([], [])
  | c :: q => if stop c then ([], p) else let '(a, r) := span stop q in (c :: a, r)
  end.

Fixpoint parse_port (n : Z) (p : bytes) : Z * bytes :=
  match p with
  | c :: q => if isdigit c then parse_port (u32 (n * 10 + (c - 48))) q else (n, p)
  | [] => (n, p)
  end.

(** From [path:] on. *)
Definition parse_path (sch ui host : token) (prt : Z) (p : bytes) : http_uri :=
  let '(a, r) := span (is_one [63; 35]) p in
  let pth := match a with [] => no_token | _ => tok p (length a) end in
  let '(qry, r) :=
    if at_ r =? 63 then let '(b, r') := span (is_one [35]) r in (tok (tail r) (length b - 1), r') else (no_token, r) in
  let frag := if at_ r =? 35 then mkTok (Some (tail r)) 0 else no_token in
  mkUri sch ui host prt pth qry frag.

Definition parse_host (p : bytes) : option (token * bytes) :=
  if at_ p =? 91 then
    let p := tail p in
    let '(a, r) := span (is_one [93]) p in
    match a with [] => None | _ => Some (tok p (length a), tail r) end
  else
    let '(a, r) := span (is_one [47; 63; 35; 58]) p in
    match a with [] => None | _ => Some (tok p (length a), r) end.

Definition huri_parse (uri_text : bytes) : option http_uri :=
  let p := (span (fun c => negb (ISSPACE c)) (cstr uri_text)).2 in
  match p with
  | [] => None
  | _ =>
      let '(a, r) := span (is_one [58; 47; 63; 35]) p in
      let '(sch, p) := if at_ r =? 58 then (tok p (length a), tail r) else (no_token, p) in
      if (at_ p =? 47) && (at_ (tail p) =? 47) then
        let p := drop 2 p in
        let '(a, r) := span (is_one [64; 47]) p in
        let '(ui, p) := if at_ r =? 64 then (tok p (length a), tail r) else (no_token, p) in
        if at_ p =? 47 then Some (parse_path sch ui no_token 0 p) else
        match parse_host p with
        | None => None
        | Some (host, p) =>
            let '(prt, p) := if at_ p =? 58 then parse_port 0 (tail p) else (0, p) in
            Some (parse_path sch ui host prt p)
        end
      else Some (parse_path sch no_token no_token 0 p)
  end.

(** ** Unescaping, in place *)

Definition hexval (c : Z) : option Z :=
  if (97 <=? c) && (c <=? 102) then Some (c - 97 + 10) else
  if (65 <=? c) && (c <=? 70) then Some (c - 65 + 10) else
  if (48 <=? c) && (c <=? 57) then Some (c - 48) else None.

(** [src], [dst] are indices into [s]; a round for every character left. *)
Fixpoint unescape_loop (fuel : nat) (s : bytes) (src dst dst_len s_len : nat) : option (bytes * nat) :=
  match s_len, fuel with
  | O, _ => Some (s, dst_len)
  | _, O => None
  | S n, S fuel =>
      match s !! src with
      | None => None
      | Some c0 =>
          let copy :=
            let s := if (dst =? src)%nat then s else <[dst := c0]> s in
            unescape_loop fuel s (S src) (S dst) (S dst_len) n in
          if (c0 =? 37) && (2 <? s_len)%nat then
            match s !! (src + 1)%nat, s !! (src + 2)%nat with
            | Some c1, Some c2 =>
                match hexval c1, hexval c2 with
                | Some high, Some low =>
                    unescape_loop fuel (<[dst := u8 (Z.shiftl high 4 + low)]> s) (src + 3) (S dst) (S dst_len) (n - 2)
                | _, _ => copy
                end
            | _, _ => None
            end
          else copy
      end
  end.

(** The buffer afterwards, and the new length. *)
Definition huri_field_unescape (s : bytes) (s_len : nat) : option (bytes * nat) := unescape_loop s_len s 0 0 0 s_len.

(** ** Escaping *)

Definition neednt_escape_table : list Z :=
  replicate 32 0 ++
  [0x00; 0x0f; 0x00; 0x00; 0x0f; 0x00; 0x0f; 0x0f;  0x0f; 0x0f; 0x0f; 0x0f; 0x0f; 0x0f; 0x0f; 0x0e;
   0x0f; 0x0f; 0x0f; 0x0f; 0x0f; 0x0f; 0x0f; 0x0f;  0x0f; 0x0f; 0x0f; 0x0f; 0x00; 0x0f; 0x00; 0x0c;
   0x0e; 0x0f; 0x0f; 0x0f; 0x0f; 0x0f; 0x0f; 0x0f;  0x0f; 0x0f; 0x0f; 0x0f; 0x0f; 0x0f; 0x0f; 0x0f;
   0x0f; 0x0f; 0x0f; 0x0f; 0x0f; 0x0f; 0x0f; 0x0f;  0x0f; 0x0f; 0x0f; 0x00; 0x0f; 0x00; 0x00; 0x0f;
   0x00; 0x0f; 0x0f; 0x0f; 0x0f; 0x0f; 0x0f; 0x0f;  0x0f; 0x0f; 0x0f; 0x0f; 0x0f; 0x0f; 0x0f; 0x0f;
   0x0f; 0x0f; 0x0f; 0x0f; 0x0f; 0x0f; 0x0f; 0x0f;  0x0f; 0x0f; 0x0f; 0x00; 0x00; 0x00; 0x0f; 0x00] ++
  replicate 128 0.

Definition PATH_ESCAPE_MASK : Z := 0x02.
Definition QUERY_ESCAPE_MASK : Z := 0x04.

Definition plain (mask c : Z) : bool := flag (default 0 (neednt_escape_table !! Z.to_nat c)) mask.

Fixpoint escape_len (mask : Z) (str : bytes) : nat :=
  match str with
  | [] => 0
  | c :: str => ((if plain mask c then 1 else 3) + escape_len mask str)%nat
  end.

Definition esc_digit (n : Z) : Z := if n <? 10 then n + 48 else n + 97 - 10.

(** A store at [dst[j]]; [None] outside the buffer. *)
Definition store (j : nat) (c : Z) (dst : bytes) : option bytes := if (j <? length dst)%nat then Some (<[j := c]> dst) else None.

Fixpoint escape_copy (mask : Z) (str : bytes) (j : nat) (dst : bytes) : option bytes :=
  match str with
  | [] => store j 0 dst
  | c :: str =>
      if plain mask c then dst ← store j c dst; escape_copy mask str (j + 1) dst
      else
        dst ← store j 37 dst;
        dst ← store (j + 1) (esc_digit (Z.shiftr (Z.land c 0xf0) 4)) dst;
        dst ← store (j + 2) (esc_digit (Z.land c 0x0f)) dst;
        escape_copy mask str (j + 3) dst
  end.

(** [mem]: the allocation succeeds, [junk] is what [malloc] returns.  The
    string, or NULL. *)
Definition huri_field_escape (mem : bool) (junk : nat -> bytes) (signed_str : option bytes) (mask : Z) : option (option bytes) :=
  match signed_str with
  | None => Some None
  | Some str =>
      let str := cstr str in
      if forallb (plain mask) str then Some (if mem then Some str else None) else
      if negb mem then Some None else
      dst ← escape_copy mask str 0 (junk (escape_len mask str + 1)%nat);
      Some (Some (cstr dst))
  end.

(** ** Escaping, unescaping and parsing URIs

    The in-place loops against the functions they compute, their round trip,
    and the parser against a printer. *)

(** ** Reference definitions *)

Fixpoint unescape (s : bytes) : bytes :=
  match s with
  | [] => []
  | c :: t =>
      if c =? 37 then
        match t with
        | h :: l :: r =>
            match hexval h, hexval l with
            | Some a, Some b => 16 * a + b :: unescape r
            | _, _ => c :: unescape t
            end
        | _ => c :: unescape t
        end
      else c :: unescape t
  end.

Definition esc (mask c : Z) : bytes :=
  if plain mask c then [c] else [37; esc_digit (Z.shiftr (Z.land c 0xf0) 4); esc_digit (Z.land c 0x0f)].
Definition escape (mask : Z) (s : bytes) : bytes := concat (esc mask <$> s).

(** ** The loops *)

Lemma splice_nil (dst : nat) (s : bytes) : splice dst [] s = s.
Proof. unfold splice. cbn [length app]. by rewrite Nat.add_0_r, take_drop. Qed.

Lemma splice_cons (dst : nat) (c : Z) (u s : bytes) :
  (dst < length s)%nat -> splice (S dst) u (<[dst := c]> s) = splice dst (c :: u) s.
Proof.
  intros Hd. unfold splice. cbn [length]. rewrite (take_S_r _ _ c) by (by apply list_lookup_insert_eq).
  rewrite take_insert_ge by lia. rewrite <- app_assoc. cbn [app]. do 2 f_equal. rewrite drop_insert_lt by lia. f_equal. f_equal. lia.
Qed.

Lemma hexval_range c v : hexval c = Some v -> 0 <= v < 16.
Proof.
  unfold hexval. repeat match goal with |- context [if ?b then _ else _] => destruct b eqn:? end; intros [= <-]; lia.
Qed.

Lemma unescape_loop_spec fuel : forall s src dst dl n,
  (n <= fuel)%nat -> (src + n <= length s)%nat -> (dst <= src)%nat ->
  let u := unescape (take n (drop src s)) in
  unescape_loop fuel s src dst dl n = Some (splice dst u s, (dl + length u)%nat) /\ (length u <= n)%nat.
Proof.
  induction fuel as [|fuel IH]; intros s src dst dl n Hf Hs Hd; (destruct n as [|n]; [|]).
  1,3: rewrite take_0; cbn [unescape unescape_loop length]; rewrite splice_nil, Nat.add_0_r; by (split; [|lia]).
  { lia. }
  destruct (lookup_lt_is_Some_2 s src) as [c0 Hc]; [lia|]. cbn [unescape_loop]. rewrite Hc. rewrite (drop_S _ _ _ Hc), firstn_cons.
  assert (forall s1, s1 = (if (dst =? src)%nat then s else <[dst := c0]> s) ->
    unescape_loop fuel s1 (S src) (S dst) (S dl) n =
      Some (splice dst (c0 :: unescape (take n (drop (S src) s))) s, (dl + length (c0 :: unescape (take n (drop (S src) s))))%nat) /\
    (length (c0 :: unescape (take n (drop (S src) s))) <= S n)%nat) as Hcopy.
  { intros s1 E1. assert (s1 = <[dst := c0]> s) as ->.
    { rewrite E1. destruct (Nat.eqb_spec dst src) as [->|]; [|done]. by rewrite list_insert_id. }
    destruct (IH (<[dst := c0]> s) (S src) (S dst) (S dl) n) as [E Hl]; [lia|rewrite length_insert; lia|lia|].
    rewrite drop_insert_lt in E, Hl by lia. rewrite E, splice_cons by lia. cbn [length]. split; [do 2 f_equal; lia|lia]. }
  cbn [unescape]. destruct (Z.eqb_spec c0 37) as [->|Hne]; cbn [andb]; [|by apply Hcopy].
  destruct (Nat.ltb_spec 2 (S n)) as [Hn|Hn].
  - destruct (lookup_lt_is_Some_2 s (src + 1)) as [c1 H1]; [lia|]. destruct (lookup_lt_is_Some_2 s (src + 2)) as [c2 H2]; [lia|].
    rewrite H1, H2. replace (src + 1)%nat with (S src) in H1 by lia. replace (src + 2)%nat with (S (S src)) in H2 by lia.
    assert (take n (drop (S src) s) = c1 :: c2 :: take (n - 2) (drop (src + 3) s)) as Et.
    { rewrite (drop_S _ _ _ H1), (drop_S _ _ _ H2). destruct n as [|[|n]]; [lia|lia|]. cbn [firstn]. do 3 f_equal; [lia|]. f_equal. lia. }
    rewrite Et in Hcopy |- *. destruct (hexval c1) as [a|] eqn:Ha; [|by apply Hcopy]. destruct (hexval c2) as [b|] eqn:Hb; [|by apply Hcopy].
    apply hexval_range in Ha, Hb. assert (u8 (Z.shiftl a 4 + b) = 16 * a + b) as ->.
    { rewrite Z.shiftl_mul_pow2 by lia. unfold u8. rewrite uw_small; lia. }
    destruct (IH (<[dst := 16 * a + b]> s) (src + 3)%nat (S dst) (S dl) (n - 2)%nat) as [E Hl]; [lia|rewrite length_insert; lia|lia|].
    rewrite drop_insert_lt in E, Hl by lia. rewrite E, splice_cons by lia. cbn [length]. split; [do 2 f_equal; lia|lia].
  - assert (length (take n (drop (S src) s)) <= 1)%nat as Hl by (rewrite length_take; lia).
    destruct (take n (drop (S src) s)) as [|h [|l r]] eqn:Et; [by apply Hcopy|by apply Hcopy|cbn in Hl; lia].
Qed.

(** Unescaping a field in place is the substitution of its [%xx] sequences:
    the buffer begins with the result, its length is returned, and nothing
    behind it changes. *)
Theorem unescape_equiv s n :
  (n <= length s)%nat ->
  let u := unescape (take n s) in
  huri_field_unescape s n = Some (splice 0 u s, length u) /\ (length u <= n)%nat.
Proof.
  intros Hn u. destruct (unescape_loop_spec n s 0 0 0 n) as [E Hl]; [lia|lia|lia|]. rewrite drop_0 in E, Hl. by split.
Qed.

Lemma store_ok j c dst : (j < length dst)%nat -> store j c dst = Some (<[j := c]> dst).
Proof. intros Hj. unfold store. by rewrite (proj2 (Nat.ltb_lt _ _) Hj). Qed.

Lemma length_esc mask c : length (esc mask c) = if plain mask c then 1%nat else 3%nat.
Proof. unfold esc. by destruct (plain mask c). Qed.

Lemma escape_len_ok mask s : escape_len mask s = length (escape mask s).
Proof. induction s as [|c s IH]; [done|]. unfold escape in *. cbn. rewrite length_app, length_esc, IH. done. Qed.

Lemma escape_copy_spec mask s : forall j dst,
  (j + length (escape mask s) < length dst)%nat ->
  escape_copy mask s j dst = Some (splice j (escape mask s ++ [0]) dst).
Proof.
  induction s as [|c s IH]; intros j dst Hj; cbn [escape_copy].
  - cbn in Hj. rewrite store_ok by lia. cbn [escape concat fmap list_fmap app]. by rewrite <- splice_cons, splice_nil by lia.
  - unfold escape in *. cbn [fmap list_fmap concat] in *. rewrite length_app, length_esc in Hj. unfold esc at 1.
    destruct (plain mask c); cbn [app]; rewrite !store_ok by (rewrite ?length_insert; lia); cbn [mbind option_bind];
      do 2 (rewrite ?store_ok by (rewrite ?length_insert; lia); cbn [mbind option_bind]).
    + rewrite IH by (rewrite length_insert; lia). by rewrite Nat.add_1_r, splice_cons by lia.
    + rewrite IH by (rewrite !length_insert; lia). replace (j + 3)%nat with (S (S (S j))) by lia. replace (j + 2)%nat with (S (S j)) by lia.
      rewrite Nat.add_1_r. by rewrite !splice_cons by (rewrite ?length_insert; lia).
Qed.

Lemma esc_digit_range d : 0 <= d < 16 -> esc_digit d <> 0 /\ hexval (esc_digit d) = Some d.
Proof.
  intros Hd. unfold esc_digit. destruct (Z.ltb_spec d 10).
  - split; [lia|]. unfold hexval. rewrite (proj2 (Z.leb_gt 97 _)), (proj2 (Z.leb_gt 65 _)) by lia. cbn [andb].
    rewrite (proj2 (Z.leb_le 48 _)), (proj2 (Z.leb_le _ 57)) by lia. cbn [andb]. f_equal. lia.
  - split; [lia|]. unfold hexval. rewrite (proj2 (Z.leb_le 97 _)), (proj2 (Z.leb_le _ 102)) by lia. cbn [andb]. f_equal. lia.
Qed.

Lemma nibbles c : 0 <= c < 256 -> 0 <= Z.shiftr (Z.land c 0xf0) 4 < 16 /\ 0 <= Z.land c 0x0f < 16 /\
  16 * Z.shiftr (Z.land c 0xf0) 4 + Z.land c 0x0f = c.
Proof.
  intros Hc. rewrite Z.shiftr_land. change (Z.shiftr 240 4) with (Z.ones 4). change 15 with (Z.ones 4).
  rewrite !Z.land_ones, Z.shiftr_div_pow2 by lia. change (2 ^ 4) with 16.
  pose proof (Z.div_mod c 16 ltac:(lia)). pose proof (Z.mod_pos_bound c 16 ltac:(lia)).
  pose proof (Z.div_lt_upper_bound c 16 16 ltac:(lia) ltac:(lia)). pose proof (Z.div_pos c 16 ltac:(lia) ltac:(lia)).
  rewrite (Z.mod_small (c / 16)) by lia. lia.
Qed.

Definition char (c : Z) : Prop := 0 < c < 256.

Lemma escape_nonzero mask s : Forall char s -> Forall (fun x => x <> 0) (escape mask s).
Proof.
  intros Hs. apply Forall_concat, Forall_fmap. eapply Forall_impl; [exact Hs|]. intros c Hc. cbn. unfold char in Hc. unfold esc.
  destruct (plain mask c); [repeat constructor; lia|]. destruct (nibbles c) as (H1 & H2 & _); [lia|].
  repeat constructor; [lia|by apply esc_digit_range..].
Qed.

(** Escaping stays within the buffer it allocated; only a failed allocation gives NULL. *)
Lemma escape_correct mem junk s mask :
  (forall n, length (junk n) = n) -> Forall char s ->
  huri_field_escape mem junk (Some s) mask = Some (if mem then Some (escape mask s) else None).
Proof.
  intros Hj Hs. unfold huri_field_escape. assert (cstr s = s) as ->.
  { apply cstr_id. eapply Forall_impl; [exact Hs|]. unfold char. cbn. lia. }
  destruct (forallb (plain mask) s) eqn:Ef.
  - assert (escape mask s = s) as ->; [|done]. clear Hs. induction s as [|c s IH]; [done|]. cbn in Ef. apply andb_true_iff in Ef as [E1 E2].
    unfold escape in *. cbn. unfold esc at 1. rewrite E1, IH by done. done.
  - destruct mem; [|done]. cbn [negb]. rewrite escape_copy_spec by (rewrite Hj, escape_len_ok; lia). cbn [mbind option_bind]. do 2 f_equal.
    unfold splice. cbn [take app Nat.add]. rewrite take_0. cbn [app]. rewrite <- app_assoc.
    rewrite cstr_app by (by apply escape_nonzero). cbn. by rewrite app_nil_r.
Qed.

Lemma unescape_escape mask s : Forall char s -> unescape (escape mask s) = s.
Proof.
  induction 1 as [|c s Hc _ IH]; [done|]. unfold escape in *. cbn [fmap list_fmap concat]. unfold esc at 1. unfold char in Hc.
  destruct (plain mask c) eqn:Ep.
  - cbn [app unescape]. destruct (Z.eqb_spec c 37) as [->|]; [|by rewrite IH]. exfalso. by vm_compute in Ep.
  - cbn [app unescape]. destruct (nibbles c) as (H1 & H2 & H3); [lia|].
    rewrite (proj2 (esc_digit_range _ H1)), (proj2 (esc_digit_range _ H2)). cbn [Z.eqb Pos.eqb]. by rewrite IH, H3.
Qed.

(** A field that was escaped for any purpose - within the buffer allocated
    for it - unescapes to itself. *)
Theorem field_roundtrip junk s mask :
  (forall n, length (junk n) = n) -> Forall char s ->
  exists e b, huri_field_escape true junk (Some s) mask = Some (Some e) /\
    huri_field_unescape e (length e) = Some (b, length s) /\ take (length s) b = s.
Proof.
  intros Hj Hs. pose proof (escape_correct true junk s mask Hj Hs) as E. set (e := escape mask s) in *.
  destruct (unescape_loop_spec (length e) e 0 0 0 (length e)) as [E2 _]; [lia|lia|lia|].
  rewrite drop_0, take_ge, (unescape_escape mask s Hs : unescape e = s) in E2 by lia. exists e, (splice 0 s e). split; [exact E|]. split; [exact E2|].
  unfold splice. rewrite take_0. cbn [app]. by rewrite take_app_length.
Qed.

(** ** Parsing what was printed *)

Record parts : Type := mkParts {
  p_scheme : bytes; p_userinfo : option bytes; p_host : bytes; p_port : option Z; p_path : bytes;
  p_query : option bytes; p_fragment : option bytes }.

Definition after (x : option bytes) (c : Z) : bytes := match x with Some b => b ++ [c] | None => [] end.
Definition before (c : Z) (x : option bytes) : bytes := match x with Some b => c :: b | None => [] end.

Definition uri_print (u : parts) : bytes :=
  p_scheme u ++ [58; 47; 47] ++ after (p_userinfo u) 64 ++ p_host u ++ before 58 (fmt_lu <$> p_port u) ++
  p_path u ++ before 63 (p_query u) ++ before 35 (p_fragment u).

(** No character of [s] stops. *)
Definition free_of (stop : list Z) (s : bytes) : Prop := Forall (fun c => is_one stop c = false) s.

(** Nothing that would end a part early; the path is absolute. *)
Record parts_ok (u : parts) : Prop := {
  ok_scheme : free_of [58; 47; 63; 35] (p_scheme u);
  ok_space : ISSPACE (at_ (p_scheme u ++ [58])) = false;
  ok_userinfo : forall x, p_userinfo u = Some x -> free_of [64; 47] x;
  ok_host : p_host u <> [] /\ free_of [64; 47; 63; 35; 58] (p_host u) /\ at_ (p_host u) <> 91;
  ok_port : forall n, p_port u = Some n -> 0 <= n < 2 ^ 32;
  ok_path : exists x, p_path u = 47 :: x;
  ok_path_free : free_of [63; 35] (p_path u);
  ok_query : forall x, p_query u = Some x -> free_of [35] x;
  ok_text : Forall (fun c => c <> 0) (uri_print u);
  ok_len : Z.of_nat (length (uri_print u)) < 2 ^ 32 }.

Lemma span_app stop a r :
  Forall (fun c => stop c = false) a -> (r = [] \/ stop (at_ r) = true) -> span stop (a ++ r) = (a, r).
Proof.
  intros Ha Hr. induction Ha as [|c a Hc _ IH]; cbn.
  - destruct Hr as [->|Hr]; [done|]. destruct r as [|c r]; [done|]. cbn in *. by rewrite Hr.
  - by rewrite Hc, IH.
Qed.

Lemma free_sub (l l' : list Z) s : l ⊆ l' -> free_of l' s -> free_of l s.
Proof.
  intros Hl Hs. eapply Forall_impl; [exact Hs|]. intros c. cbn. unfold is_one. rewrite !bool_decide_eq_false. intros Hn Hi. by apply Hn, Hl.
Qed.

Lemma fmt_lu_app fuel : forall n acc r, fmt_lu_loop fuel n acc ++ r = fmt_lu_loop fuel n (acc ++ r).
Proof. induction fuel as [|fuel IH]; intros n acc r; cbn; [done|]. destruct (_ =? 0); [done|]. apply IH. Qed.

Lemma parse_fmt fuel : forall n acc, 0 <= n < 10 ^ Z.of_nat fuel -> n < 2 ^ 32 -> (0 < fuel)%nat ->
  parse_port 0 (fmt_lu_loop fuel n acc) = parse_port n acc.
Proof.
  induction fuel as [|fuel IH]; intros n acc Hn Hm Hf; [lia|]. cbn [fmt_lu_loop].
  pose proof (Z.div_mod n 10 ltac:(lia)) as Hd. pose proof (Z.mod_pos_bound n 10 ltac:(lia)) as Hr.
  assert (isdigit (48 + n mod 10) = true) as Hdig by (unfold isdigit; rewrite !(proj2 (Z.leb_le _ _)) by lia; done).
  destruct (Z.eqb_spec (n / 10) 0) as [E|E].
  - cbn [parse_port]. rewrite Hdig. f_equal. unfold u32. rewrite uw_small; lia.
  - assert (0 <= n / 10) by (apply Z.div_pos; lia).
    assert (n / 10 < 10 ^ Z.of_nat fuel) by (apply Z.div_lt_upper_bound; [lia|]; rewrite Nat2Z.inj_succ, Z.pow_succ_r in Hn; lia).
    rewrite IH; [|lia|lia|destruct fuel; [cbn in *; lia|lia]]. cbn [parse_port]. rewrite Hdig. f_equal. unfold u32. rewrite uw_small; lia.
Qed.

Lemma fmt_lu_digits n : 0 <= n -> Forall (fun c => 48 <= c <= 57) (fmt_lu n).
Proof.
  unfold fmt_lu. assert (forall fuel n acc, Forall (fun c => 48 <= c <= 57) acc -> Forall (fun c => 48 <= c <= 57) (fmt_lu_loop fuel n acc)) as H.
  { induction fuel as [|fuel IH]; intros m acc Ha; cbn; [done|]. pose proof (Z.mod_pos_bound m 10 ltac:(lia)).
    destruct (_ =? 0); [|apply IH]; (constructor; [lia|done]). }
  intros _. by apply H.
Qed.

Lemma parse_port_fmt n r : 0 <= n < 2 ^ 32 -> isdigit (at_ r) = false -> parse_port 0 (fmt_lu n ++ r) = (n, r).
Proof.
  intros Hn Hr. unfold fmt_lu. rewrite fmt_lu_app. cbn [app]. rewrite parse_fmt; [|cbn; lia|lia|lia].
  destruct r as [|c r]; [done|]. cbn in *. by rewrite Hr.
Qed.

Lemma tok_text p n : Z.of_nat n < 2 ^ 32 -> tk_text (tok p n) = Some (take n p).
Proof. intros Hn. unfold tk_text, tok. cbn. unfold u32. rewrite uw_small by lia. by rewrite Nat2Z.id. Qed.

Lemma parse_path_print sch ui host prt u :
  parts_ok u -> let r := parse_path sch ui host prt (p_path u ++ before 63 (p_query u) ++ before 35 (p_fragment u)) in
  scheme r = sch /\ userinfo r = ui /\ hostname r = host /\ port r = prt /\
  tk_text (path r) = Some (p_path u) /\ tk_text (query r) = p_query u /\
  tk_ptr (fragment r) = p_fragment u /\ tk_len (fragment r) = 0.
Proof.
  intros [_ _ _ _ _ [x Hp] Hpf Hq _ Hl]. unfold uri_print in Hl. rewrite !length_app in Hl. cbn zeta. unfold parse_path.
  rewrite (span_app (is_one [63; 35])); [|exact Hpf|].
  2:{ destruct (p_query u); cbn; [by right|]. destruct (p_fragment u); cbn; [by right|by left]. }
  assert (forall r, (match p_path u with [] => no_token | _ :: _ => tok (p_path u ++ r) (length (p_path u)) end) = tok (p_path u ++ r) (length (p_path u))) as Et
    by (intros; by rewrite Hp).
  rewrite Et. destruct (p_query u) as [q|] eqn:Eq; cbn [before app].
  - change (at_ (63 :: q ++ before 35 (p_fragment u)) =? 63) with true. specialize (Hq q eq_refl). cbn [before length] in Hl.
    change (63 :: q ++ before 35 (p_fragment u)) with ((63 :: q) ++ before 35 (p_fragment u)).
    rewrite (span_app (is_one [35])); [|by constructor|destruct (p_fragment u); cbn; [by right|by left]].
    cbn [scheme userinfo hostname port path query fragment length]. split_and!; try done.
    + rewrite tok_text by lia. by rewrite take_app_length.
    + rewrite tok_text by lia. replace (S (length q) - 1)%nat with (length q) by lia. cbn [app tail]. by rewrite take_app_length.
    + destruct (p_fragment u); done.
    + destruct (p_fragment u); done.
  - destruct (p_fragment u) as [f|]; cbn [before].
    + change (at_ (35 :: f) =? 63) with false. cbn [scheme userinfo hostname port path query fragment]. split_and!; try done.
      rewrite tok_text by lia. by rewrite take_app_length.
    + change (at_ [] =? 63) with false. cbn [scheme userinfo hostname port path query fragment]. split_and!; try done.
      rewrite tok_text by lia. by rewrite take_app_length.
Qed.

Lemma at_app a b : a <> [] -> at_ (a ++ b) = at_ a.
Proof. by destruct a. Qed.

Lemma huri_parse_print u :
  parts_ok u ->
  exists r, huri_parse (uri_print u) = Some r /\ tk_text (scheme r) = Some (p_scheme u) /\ tk_text (userinfo r) = p_userinfo u /\
    tk_text (hostname r) = Some (p_host u) /\ port r = default 0 (p_port u) /\
    tk_text (path r) = Some (p_path u) /\ tk_text (query r) = p_query u /\
  tk_ptr (fragment r) = p_fragment u /\ tk_len (fragment r) = 0.
Proof.
  intros Ok. pose proof Ok as [Hs Hsp Hui (Hh0 & Hh & Hh1) Hport [x Hp] Hpf Hq Ht Hl].
  unfold huri_parse. rewrite (cstr_id _ Ht).
  set (tl := p_path u ++ before 63 (p_query u) ++ before 35 (p_fragment u)).
  set (prt := before 58 (fmt_lu <$> p_port u)).
  assert (uri_print u = p_scheme u ++ 58 :: 47 :: 47 :: after (p_userinfo u) 64 ++ p_host u ++ prt ++ tl) as E by done.
  assert (exists c t, uri_print u = c :: t /\ ISSPACE c = false) as (c & t & Ec & Hc).
  { rewrite E. destruct (p_scheme u) as [|c s]; [by exists 58; eexists|]. exists c. eexists. by split. }
  assert (span (fun c => negb (ISSPACE c)) (uri_print u) = ([], uri_print u)) as Es by (rewrite Ec; cbn; by rewrite Hc).
  rewrite Es. cbn [snd]. rewrite Ec. cbn beta iota. rewrite <- Ec, E. clear Es c t Ec Hc.
  assert (Z.of_nat (length (p_scheme u)) < 2 ^ 32 /\ Z.of_nat (length (after (p_userinfo u) 64)) < 2 ^ 32 /\ Z.of_nat (length (p_host u)) < 2 ^ 32) as (L1 & L2 & L3).
  { rewrite E in Hl. rewrite length_app in Hl. cbn [length] in Hl. rewrite !length_app in Hl. lia. }
  rewrite (span_app _ (p_scheme u)); [|exact Hs|by right].
  change (at_ (58 :: _) =? 58) with true. cbn beta iota. cbn [tail].
  set (auth := after (p_userinfo u) 64 ++ p_host u ++ prt ++ tl).
  change (at_ (47 :: 47 :: auth) =? 47) with true. change (at_ (tail (47 :: 47 :: auth)) =? 47) with true. cbn [andb]. cbn [drop skipn].
  (* user *)
  set (hp := p_host u ++ prt ++ tl) in *.
  assert (exists ui, (let '(a, r) := span (is_one [64; 47]) auth in if at_ r =? 64 then (tok auth (length a), tail r) else (no_token, auth)) = (ui, hp) /\
    tk_text ui = p_userinfo u) as (ui & Eui & Hui').
  { unfold auth. destruct (p_userinfo u) as [y|] eqn:Ey; cbn [after] in *.
    - rewrite <- app_assoc. cbn [app]. rewrite (span_app _ y); [|by apply Hui|by right]. change (at_ (64 :: hp) =? 64) with true.
      eexists. split; [done|]. rewrite length_app in L2. rewrite tok_text by lia. by rewrite take_app_length.
    - cbn [app]. exists no_token. split; [|done]. unfold hp. rewrite app_assoc. rewrite (span_app _ (p_host u ++ prt)).
      + unfold tl. by rewrite Hp.
      + apply Forall_app. split; [eapply free_sub; [|exact Hh]; set_solver|]. unfold prt. destruct (p_port u) as [n|] eqn:En; [|done].
        cbn [fmap option_fmap option_map before]. constructor; [done|]. eapply Forall_impl; [apply fmt_lu_digits; apply Hport; done|].
        intros c Hc. cbn in *. apply bool_decide_eq_false_2. rewrite !elem_of_cons, elem_of_nil. intros [ ->|[ ->|[]]]; lia.
      + right. unfold tl. by rewrite Hp. }
  change (at_ (47 :: auth) =? 47) with true. rewrite !drop_0. destruct (span (is_one [64; 47]) auth) as [a r]. cbn beta iota in Eui |- *. rewrite Eui.
  assert (at_ hp <> 47 /\ at_ hp <> 91) as [Ha1 Ha2].
  { unfold hp. rewrite at_app by done. destruct (p_host u) as [|c h]; [done|]. apply Forall_cons in Hh as [Hc _]. split; [|done].
    cbn. intros ->. done. }
  rewrite (proj2 (Z.eqb_neq _ 47)) by done. unfold parse_host. rewrite (proj2 (Z.eqb_neq _ 91)) by done.
  assert (span (is_one [47; 63; 35; 58]) hp = (p_host u, prt ++ tl)) as ->.
  { apply span_app; [eapply free_sub; [|exact Hh]; set_solver|]. right. unfold prt, tl. rewrite Hp. by destruct (p_port u). }
  assert (forall T (y : T), match p_host u with [] => None | _ :: _ => Some y end = Some y) as Em by (intros; by destruct (p_host u)).
  rewrite Em.
  assert ((if at_ (prt ++ tl) =? 58 then parse_port 0 (tail (prt ++ tl)) else (0, prt ++ tl)) = (default 0 (p_port u), tl)) as ->.
  { unfold prt. destruct (p_port u) as [n|] eqn:En; cbn [fmap option_fmap option_map before app].
    - change (at_ (58 :: fmt_lu n ++ tl) =? 58) with true. cbn [tail]. rewrite parse_port_fmt; [done|by apply Hport|]. unfold tl. by rewrite Hp.
    - unfold tl. by rewrite Hp. }
  destruct (parse_path_print (tok (p_scheme u ++ 58 :: 47 :: 47 :: auth) (length (p_scheme u))) ui (tok hp (length (p_host u))) (default 0 (p_port u)) u Ok)
    as (R1 & R2 & R3 & R4 & R5 & R6 & R7 & R8).
  fold tl in R1, R2, R3, R4, R5, R6, R7, R8. eexists. split; [done|]. rewrite R1, R2, R3, R4. split_and!; try done.
  - rewrite tok_text by lia. by rewrite take_app_length.
  - rewrite tok_text by lia. unfold hp. by rewrite take_app_length.
Qed.

(** C38.  Parsing takes a URI apart into the parts it was printed from: scheme,
    user, host, port, path and query come out exactly, as texts.  Of a fragment
    only the place is recorded: it points to the fragment's text, which is the
    rest of the string, but its length is never set and stays 0.  The path is
    absolute and not empty, the host not empty and not in brackets, and no part
    contains a character that ends it. *)
Theorem parse_print u :
  parts_ok u ->
  exists r, huri_parse (uri_print u) = Some r /\ tk_text (scheme r) = Some (p_scheme u) /\ tk_text (userinfo r) = p_userinfo u /\
    tk_text (hostname r) = Some (p_host u) /\ port r = default 0 (p_port u) /\
    tk_text (path r) = Some (p_path u) /\ tk_text (query r) = p_query u /\
  tk_ptr (fragment r) = p_fragment u /\ tk_len (fragment r) = 0.
Proof. apply huri_parse_print. Qed.

(** The user is looked for up to the first slash, beyond the end of the host. *)
Lemma userinfo_in_query :
  exists r, huri_parse ([104; 58; 47; 47] ++ [119] ++ [63; 97; 64; 98]) = Some r /\ tk_text (userinfo r) = Some [119; 63; 97] /\
    tk_text (hostname r) = Some [98] /\ tk_text (query r) = None.
Proof. eexists. split; [vm_compute; reflexivity|]. by vm_compute. Qed.
