(* ===== verification/Hutil.v ===== *)
(** * Hutil: HTTP requests and their signatures (lib/hutil.c, include/hstor.h)

    Strings are C strings; the headers of a request are a list in order.  The
    outcomes of [malloc] and what [qsort] does with equal keys are parameters;
    a signature is HMAC-SHA1 of the bytes fed to it, in base64. *)

From Stdlib Require Import Sorted.
From stdpp Require Import sorting.
From S2P Require Import Prelude Htab Huri.
#[local] Open Scope Z_scope.

Definition HREQ_MAX_HDR : nat := 128.
Definition URIQNUM : Z := 4.
Definition ACLCNUM : Z := 4.
Definition ENOSPC : Z := 28.

(** ** Characters *)

Definition tolower (c : Z) : Z := if (65 <=? c) && (c <=? 90) then c + 32 else c.
Definition lower (s : bytes) : bytes := tolower <$> s.

(** [!strcasecmp(a, b)], [!strncasecmp(a, b, length a)]. *)
Definition caseeq (a b : bytes) : bool := bool_decide (lower a = lower b).
Definition caseprefix (a b : bytes) : bool := bool_decide (lower a = lower (take (length a) b)).

(** ** Data *)

(** [struct http_hdr], [struct http_req] *)
Record http_hdr : Type := mkHdr { hdr_key : bytes; hdr_val : bytes }.
Record http_req : Type := mkReq {
  rq_method : bytes; rq_uri : http_uri; rq_major : Z; rq_minor : Z; rq_orig_path : bytes; rq_hdr : list http_hdr }.

Definition no_uri : http_uri := mkUri no_token no_token no_token 0 no_token no_token no_token.

(** ** Headers *)

Fixpoint skip_space (v : bytes) : bytes :=
  match v with
  | c :: v' => if ISSPACE c then skip_space v' else v
  | [] => []
  end.

Definition hreq_hdr_push (req : http_req) (key val : bytes) : Z * http_req :=
  if (length (rq_hdr req) =? HREQ_MAX_HDR)%nat then (- ENOSPC, req) else
  (0, mkReq (rq_method req) (rq_uri req) (rq_major req) (rq_minor req) (rq_orig_path req)
        (rq_hdr req ++ [mkHdr key (skip_space val)])).

Definition hreq_hdr (req : http_req) (key : bytes) : option bytes :=
  (fun p => hdr_val p.2) <$> list_find (fun h => caseeq key (hdr_key h)) (rq_hdr req).

Definition hreq_http11 (req : http_req) : bool :=
  (1 <? rq_major req) || ((rq_major req =? 1) && (0 <? rq_minor req)).

(** ** The custom headers *)

(** [struct custom_hdr] *)
Record custom_hdr : Type := mkCust { cu_key : bytes; cu_val : bytes }.

(** [qsort] with [cust_cmp]: nothing added or lost, and C strings sorted. *)
Definition cust_cmp (a b : custom_hdr) : Z := htab_str_cmp (cu_key a) (cu_key b).
Class Qsort : Type := {
  qsort : list custom_hdr -> list custom_hdr;
  qsort_perm l : qsort l ≡ₚ l;
  qsort_sorted l : Forall (fun h => Forall (fun c => 0 < c < 256) (cu_key h)) l -> StronglySorted (fun a b => cust_cmp a b <= 0) (qsort l) }.

Definition amzpfx : bytes := [120; 45; 97; 109; 122; 45].

Section hutil.
Context {SG : Sig} {QS : Qsort}.

(** [mem i]: the allocation for the [i]-th header kept. *)
Fixpoint cust_collect (mem : nat -> bool) (hdrs : list http_hdr) (cnt : nat) : option (list custom_hdr) :=
  match hdrs with
  | [] => Some []
  | h :: hdrs =>
      if caseprefix amzpfx (hdr_key h) then
        if negb (mem cnt) then None else
        cv ← cust_collect mem hdrs (S cnt);
        Some (mkCust (lower (drop (length amzpfx) (hdr_key h))) (hdr_val h) :: cv)
      else cust_collect mem hdrs cnt
  end.
Definition cust_init (mem : nat -> bool) (req : http_req) : option (list custom_hdr) := qsort <$> cust_collect mem (rq_hdr req) 0.

(** What is fed to the digest. *)
Definition hreq_sign_hdr (req : http_req) (hdr : bytes) : bytes := default [] (hreq_hdr req hdr) ++ [10].

Definition amz_name (p : custom_hdr) : bytes := amzpfx ++ cu_key p ++ [58].

Fixpoint sign_amz_loop (prev : option custom_hdr) (cv : list custom_hdr) : bytes :=
  match cv with
  | [] => match prev with Some _ => [10] | None => [] end
  | p :: cv =>
      match prev with
      | Some q =>
          if htab_str_cmp (cu_key q) (cu_key p) =? 0 then [44] ++ cu_val p ++ sign_amz_loop prev cv
          else [10] ++ amz_name p ++ cu_val p ++ sign_amz_loop (Some p) cv
      | None => amz_name p ++ cu_val p ++ sign_amz_loop (Some p) cv
      end
  end.
Definition hreq_sign_amz (mem : nat -> bool) (req : http_req) : bytes :=
  match cust_init mem req with
  | None => []
  | Some cv => sign_amz_loop None cv
  end.

Definition s_acl : bytes := [97; 99; 108].
Definition s_location : bytes := [108; 111; 99; 97; 116; 105; 111; 110].
Definition s_logging : bytes := [108; 111; 103; 103; 105; 110; 103].
Definition s_torrent : bytes := [116; 111; 114; 114; 101; 110; 116].
Definition hreq_query_sign : list bytes := [s_acl; s_location; s_logging; s_torrent].

Fixpoint index_of (s : bytes) (l : list bytes) (i : Z) : option Z :=
  match l with
  | [] => None
  | x :: l => if caseeq s x then Some i else index_of s l (i + 1)
  end.

(** The query is compared as the string it points to, which runs to the end of
    the text. *)
Definition hreq_is_query (req : http_req) : Z :=
  match tk_ptr (query (rq_uri req)) with
  | Some q => if tk_len (query (rq_uri req)) =? 0 then -1 else default (-1) (index_of q hreq_query_sign 0)
  | None => -1
  end.

Definition s_content_md5 : bytes := [99; 111; 110; 116; 101; 110; 116; 45; 109; 100; 53].
Definition s_content_type : bytes := [99; 111; 110; 116; 101; 110; 116; 45; 116; 121; 112; 101].
Definition s_date : bytes := [100; 97; 116; 101].
Definition s_amz_date : bytes := amzpfx ++ s_date.

Definition sign_text (mem : nat -> bool) (req : http_req) (bucket : option bytes) : bytes :=
  rq_method req ++ [10] ++ hreq_sign_hdr req s_content_md5 ++ hreq_sign_hdr req s_content_type ++
  (match hreq_hdr req s_amz_date with Some _ => [10] | None => hreq_sign_hdr req s_date end) ++
  hreq_sign_amz mem req ++
  (match bucket with Some b => [47] ++ b | None => [] end) ++ rq_orig_path req ++
  (if hreq_is_query req =? -1 then [] else [63] ++ default [] (tk_text (query (rq_uri req)))).

Definition hreq_sign (mem : nat -> bool) (req : http_req) (bucket : option bytes) (key : bytes) : bytes :=
  base64 (HMAC_SHA1 key (sign_text mem req bucket)).

(** ** The query *)

(** [memchr]: the position of [c]. *)
Definition memchr (c : Z) (s : bytes) : option nat := fst <$> list_find (fun x => x = c) s.

(** [huri_field_unescape] of a copy; the copy is long enough. *)
Definition unescaped (s : bytes) : option bytes :=
  r ← huri_field_unescape (s ++ [0]) (length s);
  Some (cstr (take r.2 r.1)).

(** The pairs put into the table; [None]: an access outside. *)
Fixpoint query_pairs (fuel : nat) (q : bytes) : option (list (bytes * bytes)) :=
  match q, fuel with
  | [], _ => Some []
  | _, O => None
  | _, S fuel =>
      match memchr 61 q with
      | None | Some O => Some []
      | Some keylen =>
          let e := memchr 38 (drop keylen q) in
          key ← unescaped (cstr (take keylen q));
          let v := drop (keylen + 1) q in
          let vallen := match e with Some e => (e - 1)%nat | None => length v end in
          val ← unescaped (take vallen v);
          rest ← query_pairs fuel (drop (match e with Some _ => vallen + 1 | None => vallen end) v);
          Some ((lower key, val) :: rest)
      end
  end.

(** [alloc i]: outcomes of the [i]-th put's two allocations. *)
Fixpoint put_pairs (alloc : nat -> bool * bool) (i : nat) (kvs : list (bytes * bytes)) (ht : htab bytes bytes) : htab bytes bytes :=
  match kvs with
  | [] => ht
  | (k, v) :: kvs => put_pairs alloc (S i) kvs (htab_put htab_str_hash (alloc i).1 (alloc i).2 ht k v).2
  end.

(** The table, or NULL. *)
Definition hreq_query (mem : bool * bool) (alloc : nat -> bool * bool) (req : http_req) : option (option (htab bytes bytes)) :=
  match htab_str_new mem.1 mem.2 true true with
  | None => Some None
  | Some ht =>
      let q := default [] (tk_text (query (rq_uri req))) in
      kvs ← query_pairs (length q) q;
      Some (Some (put_pairs alloc 0 kvs ht))
  end.

(** ** Canned policies *)

Definition s_private : bytes := [112; 114; 105; 118; 97; 116; 101].
Definition s_public_read : bytes := [112; 117; 98; 108; 105; 99; 45; 114; 101; 97; 100].
Definition s_public_rw : bytes := s_public_read ++ [45; 119; 114; 105; 116; 101].
Definition s_auth_read : bytes := [97; 117; 116; 104; 101; 110; 116; 105; 99; 97; 116; 101; 100; 45; 114; 101; 97; 100].
Definition hreq_acl_cans : list bytes := [s_private; s_public_read; s_public_rw; s_auth_read].

Definition hreq_acl_canned (req : http_req) : Z :=
  match hreq_hdr req (amzpfx ++ s_acl) with
  | None => -1
  | Some h => default ACLCNUM (index_of h hreq_acl_cans 0)
  end.

End hutil.

(** ** Signatures do not depend on header order; queries parse back *)

(** ** [strcmp] *)

Lemma str_cmp_refl a : htab_str_cmp a a = 0.
Proof. induction a as [|x a IH]; [done|]. cbn. by rewrite Z.eqb_refl. Qed.

Lemma str_cmp_antisym a b :
  Forall char a -> Forall char b -> htab_str_cmp a b <= 0 -> htab_str_cmp b a <= 0 -> a = b.
Proof.
  revert b. induction a as [|x a IH]; intros [|y b] Ha Hb; cbn; [done|..].
  - apply Forall_cons in Hb as [Hy _]. unfold char in Hy. lia.
  - apply Forall_cons in Ha as [Hx _]. unfold char in Hx. lia.
  - apply Forall_cons in Ha as [_ Ha]. apply Forall_cons in Hb as [_ Hb]. rewrite (Z.eqb_sym y x).
    destruct (Z.eqb_spec x y) as [->|]; [|lia]. intros. f_equal. by apply IH.
Qed.

Lemma str_cmp_eq a b : Forall char a -> Forall char b -> htab_str_cmp a b = 0 <-> a = b.
Proof.
  intros Ha Hb. split; [|intros ->; apply str_cmp_refl]. revert b Hb.
  induction a as [|x a IH]; intros [|y b] Hb; cbn; [done|..].
  - apply Forall_cons in Hb as [Hy _]. unfold char in Hy. lia.
  - apply Forall_cons in Ha as [Hx _]. unfold char in Hx. lia.
  - apply Forall_cons in Ha as [_ Ha]. apply Forall_cons in Hb as [_ Hb].
    destruct (Z.eqb_spec x y) as [->|]; [|lia]. intros. f_equal. by apply IH.
Qed.

Lemma lower_char s : Forall char s -> Forall char (lower s).
Proof.
  intros Hs. apply Forall_fmap. eapply Forall_impl; [exact Hs|]. intros c Hc. unfold compose, char, tolower in *.
  destruct ((65 <=? c) && (c <=? 90)) eqn:E; simplify_bool; lia.
Qed.

(** ** Headers *)

(** Names of C characters, distinct up to case. *)
Definition names_ok (hs : list http_hdr) : Prop :=
  NoDup ((fun h => lower (hdr_key h)) <$> hs) /\ Forall (fun h => Forall char (hdr_key h)) hs.

#[export] Instance names_ok_proper : Proper ((≡ₚ) ==> iff) names_ok.
Proof. intros l l' E. unfold names_ok. by rewrite E. Qed.

Lemma list_find_perm {A} (P : A -> Prop) `{!forall x, Decision (P x)} (l l' : list A) :
  (forall x y, x ∈ l -> y ∈ l -> P x -> P y -> x = y) -> l ≡ₚ l' -> snd <$> list_find P l = snd <$> list_find P l'.
Proof.
  intros Hu E. destruct (list_find P l) as [[i x]|] eqn:El; destruct (list_find P l') as [[j y]|] eqn:El'; cbn; try done.
  - apply list_find_Some in El as (Hx & Px & _). apply list_find_Some in El' as (Hy & Py & _). f_equal.
    apply list_elem_of_lookup_2 in Hx, Hy. rewrite <- E in Hy. by apply Hu.
  - apply list_find_Some in El as (Hx & Px & _). apply list_find_None in El'. rewrite Forall_forall in El'.
    apply list_elem_of_lookup_2 in Hx. rewrite E in Hx. by destruct (El' x).
  - apply list_find_Some in El' as (Hy & Py & _). apply list_find_None in El. rewrite Forall_forall in El.
    apply list_elem_of_lookup_2 in Hy. rewrite <- E in Hy. by destruct (El y).
Qed.

Lemma names_inj hs x y : names_ok hs -> x ∈ hs -> y ∈ hs -> lower (hdr_key x) = lower (hdr_key y) -> x = y.
Proof.
  intros [Hn _] [i Hi]%list_elem_of_lookup_1 [j Hj]%list_elem_of_lookup_1 E.
  assert (i = j) as ->; [|congruence]. eapply NoDup_lookup; [exact Hn|..]; rewrite list_lookup_fmap; [by rewrite Hi|].
  rewrite Hj. cbn. by rewrite E.
Qed.

Lemma hreq_hdr_perm r r' k : rq_hdr r ≡ₚ rq_hdr r' -> names_ok (rq_hdr r) -> hreq_hdr r k = hreq_hdr r' k.
Proof.
  intros E Hn. unfold hreq_hdr. pose proof (list_find_perm (fun h => caseeq k (hdr_key h)) (rq_hdr r) (rq_hdr r')) as H.
  assert (forall o : option (nat * http_hdr), (fun p => hdr_val p.2) <$> o = hdr_val <$> (snd <$> o)) as Ef by (intros [[]|]; done).
  rewrite !Ef, H; [done| |done]. intros x y Hx Hy Ex%Is_true_true_1%bool_decide_eq_true Ey%Is_true_true_1%bool_decide_eq_true.
  eapply names_inj; [done..|congruence].
Qed.

(** ** The custom headers *)

Definition is_amz (h : http_hdr) : bool := caseprefix amzpfx (hdr_key h).
Definition cust_of (h : http_hdr) : custom_hdr := mkCust (lower (drop (length amzpfx) (hdr_key h))) (hdr_val h).

Lemma cust_collect_spec mem hs n : (forall i, mem i = true) -> cust_collect mem hs n = Some (cust_of <$> filter is_amz hs).
Proof.
  intros Hm. revert n. induction hs as [|h hs IH]; intros n; [done|]. cbn [cust_collect].
  fold (is_amz h). rewrite filter_cons. destruct (is_amz h).
  - rewrite Hm, IH. done.
  - rewrite IH. done.
Qed.

Lemma amz_split h : is_amz h = true -> lower (hdr_key h) = amzpfx ++ cu_key (cust_of h).
Proof.
  unfold is_amz, caseprefix, cust_of, lower. rewrite bool_decide_eq_true. cbn [cu_key]. intros E.
  rewrite <- (take_drop (length amzpfx) (hdr_key h)) at 1. rewrite fmap_app, <- E. done.
Qed.

Lemma cust_keys hs : names_ok hs ->
  NoDup (cu_key <$> (cust_of <$> filter is_amz hs)) /\ Forall (fun p => Forall char (cu_key p)) (cust_of <$> filter is_amz hs).
Proof.
  intros [Hn Hc]. split.
  - induction hs as [|h hs IH]; [constructor|]. apply NoDup_cons in Hn as [Hn1 Hn2]. apply Forall_cons in Hc as [_ Hc].
    rewrite filter_cons. case_decide as Ha; [|by apply IH]. cbn [fmap list_fmap]. constructor; [|by apply IH].
    intros (p & Ep & Hp)%list_elem_of_fmap. apply list_elem_of_fmap in Hp as (g & -> & Hg). apply list_elem_of_filter in Hg as [Hg Hin].
    apply Hn1. apply list_elem_of_fmap. exists g. split; [|done].
    rewrite (amz_split h), (amz_split g) by (by apply Is_true_true_1). by rewrite Ep.
  - apply Forall_fmap, Forall_forall. intros h [_ Hh]%list_elem_of_filter. rewrite Forall_forall in Hc. specialize (Hc h Hh).
    cbn. apply lower_char. by apply Forall_drop.
Qed.

Section sign.
Context {SG : Sig} {QS : Qsort}.

Lemma qsort_unique l l' :
  l ≡ₚ l' -> NoDup (cu_key <$> l) -> Forall (fun p => Forall char (cu_key p)) l -> qsort l = qsort l'.
Proof.
  intros E Hn Hc. eapply (StronglySorted_unique_strong (fun a b => cust_cmp a b <= 0)).
  - intros x y Hx Hy Hxy Hyx. rewrite qsort_perm in Hx. rewrite qsort_perm, <- E in Hy. rewrite Forall_forall in Hc.
    assert (cu_key x = cu_key y) as Ek by (apply str_cmp_antisym; auto).
    apply list_elem_of_lookup_1 in Hx as [i Hi]. apply list_elem_of_lookup_1 in Hy as [j Hj].
    assert (i = j) as ->; [|congruence]. eapply NoDup_lookup; [exact Hn|..]; rewrite list_lookup_fmap; [by rewrite Hi|]. rewrite Hj. cbn. by rewrite Ek.
  - by apply qsort_sorted.
  - apply qsort_sorted. by rewrite <- E.
  - by rewrite !qsort_perm.
Qed.

(** With distinct names, the headers one per line. *)
Definition amz_line (p : custom_hdr) : bytes := amz_name p ++ cu_val p ++ [10].

Lemma sign_amz_some q cv :
  NoDup (cu_key <$> q :: cv) -> Forall (fun p => Forall char (cu_key p)) (q :: cv) ->
  sign_amz_loop (Some q) cv = [10] ++ concat (amz_line <$> cv).
Proof.
  revert q. induction cv as [|p cv IH]; intros q Hn Hc; [done|]. cbn [sign_amz_loop fmap list_fmap concat].
  cbn [fmap list_fmap] in Hn. apply NoDup_cons in Hn as [Hq Hn]. apply Forall_cons in Hc as [Hcq Hc]. pose proof (Forall_inv Hc) as Hcp.
  rewrite (proj2 (Z.eqb_neq _ 0)).
  - rewrite IH by done. unfold amz_line. by rewrite <- !app_assoc.
  - rewrite str_cmp_eq by done. intros E. apply Hq. rewrite E. left.
Qed.

Lemma sign_amz_lines cv :
  NoDup (cu_key <$> cv) -> Forall (fun p => Forall char (cu_key p)) cv -> sign_amz_loop None cv = concat (amz_line <$> cv).
Proof.
  destruct cv as [|p cv]; intros Hn Hc; [done|]. cbn [sign_amz_loop]. rewrite sign_amz_some by done.
  cbn [fmap list_fmap concat]. unfold amz_line. by rewrite <- !app_assoc.
Qed.

Lemma sign_amz_text mem r :
  (forall i, mem i = true) -> names_ok (rq_hdr r) ->
  hreq_sign_amz mem r = concat (amz_line <$> qsort (cust_of <$> filter is_amz (rq_hdr r))).
Proof.
  intros Hm Hn. destruct (cust_keys _ Hn) as [Hk Hc]. unfold hreq_sign_amz, cust_init. rewrite cust_collect_spec by done.
  cbn [fmap option_fmap option_map]. apply sign_amz_lines; by rewrite qsort_perm.
Qed.

Lemma sign_amz_perm mem r r' :
  (forall i, mem i = true) -> names_ok (rq_hdr r) -> names_ok (rq_hdr r') -> filter is_amz (rq_hdr r) ≡ₚ filter is_amz (rq_hdr r') ->
  hreq_sign_amz mem r = hreq_sign_amz mem r'.
Proof.
  intros Hm Hn Hn' E. rewrite !sign_amz_text by done. do 2 f_equal. destruct (cust_keys _ Hn) as [Hk Hc]. apply qsort_unique; [by rewrite E|done..].
Qed.

(** The signature of a request depends on its headers as a set: two requests
    with the same method, path and query and the same headers in any order, no
    name twice, have the same signature, and the extension headers enter it
    one per line, in the order of their names, whatever [qsort] is used. *)
Theorem sign_order mem r r' bucket key :
  (forall i, mem i = true) -> rq_hdr r ≡ₚ rq_hdr r' -> names_ok (rq_hdr r) ->
  rq_method r = rq_method r' -> rq_uri r = rq_uri r' -> rq_orig_path r = rq_orig_path r' ->
  hreq_sign mem r bucket key = hreq_sign mem r' bucket key /\
  exists cv, StronglySorted (fun a b => cust_cmp a b <= 0) cv /\ cv ≡ₚ cust_of <$> filter is_amz (rq_hdr r) /\
    hreq_sign_amz mem r = concat (amz_line <$> cv).
Proof.
  intros Hm E Hn E1 E2 E3. split.
  - unfold hreq_sign, sign_text, hreq_sign_hdr, hreq_is_query. rewrite (sign_amz_perm mem r r'), E1, E2, E3; [|done|done|by rewrite <- E|by rewrite E].
    do 3 f_equal. by rewrite !(hreq_hdr_perm r r').
  - eexists. split; [apply qsort_sorted; by apply cust_keys|]. split; [apply qsort_perm|by apply sign_amz_text].
Qed.

(** Headers that are not signed. *)
Definition unsigned (h : http_hdr) : Prop :=
  is_amz h = false /\ lower (hdr_key h) ∉ [s_content_md5; s_content_type; s_date; s_amz_date].

Lemma hreq_hdr_extra r hs extra k :
  Forall (fun h => lower (hdr_key h) <> lower k) extra -> rq_hdr r = hs ++ extra ->
  hreq_hdr r k = hreq_hdr (mkReq (rq_method r) no_uri 0 0 (rq_orig_path r) hs) k.
Proof.
  intros Hx E. unfold hreq_hdr. rewrite E. cbn [rq_hdr]. destruct (list_find _ hs) as [[i x]|] eqn:Ef.
  { by rewrite (list_find_app_l _ _ _ _ _ Ef). }
  rewrite (list_find_app_r _ _ _ Ef). rewrite (proj2 (list_find_None _ extra)); [done|]. eapply Forall_impl; [exact Hx|]. intros h Hh Hc. apply Hh. symmetry.
  by apply Is_true_true_1, bool_decide_eq_true in Hc.
Qed.

(** What is signed does not change when headers are reordered and unsigned ones added. *)
Lemma sign_extra mem m u a b p hs hs' extra bucket key :
  (forall i, mem i = true) -> names_ok (hs ++ extra) -> Forall unsigned extra -> hs' ≡ₚ hs ++ extra ->
  hreq_is_query (mkReq m u a b p hs') = -1 ->
  hreq_sign mem (mkReq m u a b p hs') bucket key = hreq_sign mem (mkReq m no_uri 0 0 p hs) bucket key.
Proof.
  intros Hm Hn Hx E Hq. unfold hreq_sign, sign_text. do 2 f_equal. rewrite Hq. cbn [rq_method rq_orig_path].
  assert (names_ok hs) as Hn'.
  { destruct Hn as [H1 H2]. rewrite fmap_app in H1. apply NoDup_app in H1 as (H1 & _ & _). apply Forall_app in H2 as [H2 _]. by split. }
  assert (forall k, k ∈ [s_content_md5; s_content_type; s_date; s_amz_date] -> hreq_hdr (mkReq m u a b p hs') k = hreq_hdr (mkReq m no_uri 0 0 p hs) k) as Hh.
  { intros k Hk. rewrite (hreq_hdr_perm (mkReq m u a b p hs') (mkReq m u a b p (hs ++ extra))) by (cbn [rq_hdr]; by rewrite ?E).
    erewrite (hreq_hdr_extra (mkReq m u a b p (hs ++ extra)) hs extra); [done| |done]. eapply Forall_impl; [exact Hx|]. intros h [_ Hu] El. apply Hu.
    assert (lower k = k) as Ek; [|by rewrite El, Ek]. clear El. repeat (apply elem_of_cons in Hk as [->|Hk]; [done|]). by apply elem_of_nil in Hk. }
  unfold hreq_sign_hdr. rewrite !Hh by set_solver. rewrite (sign_amz_perm mem _ (mkReq m no_uri 0 0 p hs)); [done|done|cbn [rq_hdr]; by rewrite E|done|].
  cbn [rq_hdr]. rewrite E, filter_app. rewrite (filter_all_false _ extra); [by rewrite app_nil_r|]. intros h Hin Ha.
  rewrite Forall_forall in Hx. destruct (Hx h Hin) as [Hf _]. by rewrite Hf in Ha.
Qed.

End sign.

(** ** Queries *)

Definition pair_print (kv : bytes * bytes) : bytes := kv.1 ++ [61] ++ escape QUERY_ESCAPE_MASK kv.2.
Fixpoint query_print (kvs : list (bytes * bytes)) : bytes :=
  match kvs with
  | [] => []
  | [kv] => pair_print kv
  | kv :: kvs => pair_print kv ++ [38] ++ query_print kvs
  end.

(** Names as they are written: lower case, nothing to unescape. *)
Definition key_ok (k : bytes) : Prop := k <> [] /\ Forall char k /\ Forall (fun c => c <> 61 /\ c <> 37) k /\ lower k = k.
Definition val_ok (v : bytes) : Prop := Forall (fun c => char c /\ c <> 38) v.

Lemma memchr_app c a r : Forall (fun x => x <> c) a -> memchr c (a ++ c :: r) = Some (length a).
Proof.
  unfold memchr. induction 1 as [|x a Hx _ IH]; cbn.
  - by rewrite decide_True.
  - rewrite decide_False by done. destruct (list_find _ (a ++ c :: r)) as [[i y]|]; cbn in *; [|done]. by injection IH as ->.
Qed.

Lemma memchr_none c a : Forall (fun x => x <> c) a -> memchr c a = None.
Proof. intros Ha. unfold memchr. by rewrite (proj2 (list_find_None _ _)). Qed.

Lemma unescape_plain s : Forall (fun c => c <> 37) s -> unescape s = s.
Proof. induction 1 as [|c s Hc _ IH]; [done|]. cbn. rewrite (proj2 (Z.eqb_neq c 37)) by done. by rewrite IH. Qed.

Lemma unescaped_spec s : Forall (fun c => c <> 0) (unescape s) -> unescaped s = Some (unescape s).
Proof.
  intros Hs. unfold unescaped. destruct (unescape_loop_spec (length s) (s ++ [0]) 0 0 0 (length s)) as [E _]; [lia|rewrite length_app; cbn; lia|lia|].
  unfold huri_field_unescape. rewrite E. cbn [mbind option_bind fst snd Nat.add]. rewrite drop_0, take_app_length. unfold splice. rewrite take_0. cbn [app].
  rewrite take_app_length. by rewrite cstr_id.
Qed.

Lemma plain_sub mask c : plain mask c = true -> c <> 37.
Proof. intros H ->. by vm_compute in H. Qed.

Lemma escape_no_amp v : val_ok v -> Forall (fun c => c <> 38) (escape QUERY_ESCAPE_MASK v).
Proof.
  intros Hv. apply Forall_concat, Forall_fmap. eapply Forall_impl; [exact Hv|]. intros c [Hc H38]. cbn. unfold esc. unfold char in Hc.
  destruct (plain QUERY_ESCAPE_MASK c); [by repeat constructor|]. destruct (nibbles c) as (H1 & H2 & _); [lia|].
  assert (forall d, 0 <= d < 16 -> esc_digit d <> 38) as He by (intros d Hd; unfold esc_digit; destruct (Z.ltb_spec d 10); lia).
  repeat constructor; [done|by apply He..].
Qed.

Lemma query_pairs_print kvs fuel :
  Forall (fun kv => key_ok kv.1 /\ val_ok kv.2) kvs -> (length (query_print kvs) <= fuel)%nat ->
  query_pairs fuel (query_print kvs) = Some kvs.
Proof.
  revert fuel. induction kvs as [|[k v] kvs IH]; intros fuel Hok Hf; [by destruct fuel|].
  apply Forall_cons in Hok as [[(Hk0 & Hkc & Hk1 & Hkl) Hv] Hok]. cbn [fst snd] in *.
  set (e := escape QUERY_ESCAPE_MASK v). pose proof (escape_no_amp v Hv) as He. fold e in He.
  assert (Forall char v) as Hvc by (eapply Forall_impl; [exact Hv|]; by intros c []).
  assert (unescaped k = Some k) as Eku.
  { rewrite unescaped_spec; rewrite unescape_plain; try done.
    all: first [eapply Forall_impl; [exact Hkc|]; unfold char; cbn; lia | eapply Forall_impl; [exact Hk1|]; by intros c []]. }
  assert (unescaped e = Some v) as Evu.
  { rewrite unescaped_spec; unfold e; rewrite (unescape_escape _ _ Hvc); [done|]. eapply Forall_impl; [exact Hvc|]. unfold char. cbn. lia. }
  assert (cstr k = k) as Ekc by (apply cstr_id; eapply Forall_impl; [exact Hkc|]; unfold char; cbn; lia).
  assert (exists tl, query_print ((k, v) :: kvs) = k ++ 61 :: e ++ tl /\ (length tl < length (query_print ((k, v) :: kvs)))%nat /\
    (tl = [] /\ kvs = [] \/ tl = 38 :: query_print kvs)) as (tl & Eq & Hlt & Htl).
  { destruct kvs as [|kv' kvs]; [exists []|exists (38 :: query_print (kv' :: kvs))]; cbn [query_print]; unfold pair_print; cbn [fst snd];
      rewrite ?length_app; cbn [length app]; rewrite ?length_app, ?app_nil_r, <- ?app_assoc; cbn [app length]; fold e.
    - split_and!; [done|lia|by left].
    - split_and!; [done|lia|by right]. }
  rewrite Eq in *. clear Eq. destruct fuel as [|fuel]; [rewrite length_app in Hf; cbn in Hf; lia|].
  destruct k as [|k0 k']; [done|]. cbn [app query_pairs]. change (k0 :: k' ++ 61 :: e ++ tl) with ((k0 :: k') ++ 61 :: e ++ tl).
  rewrite memchr_app by (eapply Forall_impl; [exact Hk1|]; by intros c []). cbn [length]. cbn zeta.
  set (k := k0 :: k') in *. change (S (length k')) with (length k). rewrite take_app_length, Ekc, Eku. cbn [mbind option_bind].
  rewrite drop_app_length, <- (drop_drop _ 1 (length k)), drop_app_length. change (drop 1 (61 :: e ++ tl)) with (e ++ tl).
  destruct Htl as [[-> ->]| ->].
  - rewrite app_nil_r. rewrite (memchr_none 38 (61 :: e)) by (by constructor). rewrite take_ge, Evu by lia. cbn [mbind option_bind].
    rewrite drop_ge by lia. assert (query_pairs fuel [] = Some []) as -> by (by destruct fuel). cbn [mbind option_bind]. by rewrite Hkl.
  - assert (memchr 38 (61 :: e ++ 38 :: query_print kvs) = Some (S (length e))) as ->.
    { change (61 :: e ++ 38 :: query_print kvs) with ((61 :: e) ++ 38 :: query_print kvs). by rewrite memchr_app by (by constructor). }
    replace (S (length e) - 1)%nat with (length e) by lia. rewrite take_app_length, Evu. cbn [mbind option_bind].
    rewrite <- (drop_drop _ 1 (length e)), drop_app_length. change (drop 1 (38 :: query_print kvs)) with (query_print kvs).
    rewrite IH; [cbn [mbind option_bind]; by rewrite Hkl|done|]. cbn [length] in Hlt. rewrite length_app in Hf. cbn [length] in Hf. rewrite length_app in Hf. cbn [length] in Hf. lia.
Qed.

(** ** The table *)

#[local] Abbreviation get := (htab_get htab_str_hash htab_str_cmp).

(** A table not yet grown, with room for [n] more. *)
Definition room (n : Z) (h : htab bytes bytes) : Prop := prime_idx h = 0%nat /\ length (buckets h) = 5%nat /\ 0 <= n_ent h /\ n_ent h + n <= 4.

Lemma put_get n h k v :
  room n h -> 0 < n -> Forall char k ->
  room (n - 1) (htab_put htab_str_hash true true h k v).2 /\
  forall k', Forall char k' -> get (htab_put htab_str_hash true true h k v).2 k' = if decide (k = k') then Some v else get h k'.
Proof.
  intros (Hi & Hl & H0 & Hn) Hpos Hk. assert (htab_need_resize h = false) as Hr.
  { unfold htab_need_resize, htab_sz. rewrite Hi. change (u32 (primes !!! 0%nat * 2) / 3) with 3. apply Z.ltb_ge. lia. }
  rewrite htab_put_noresize_eq by done. cbn [snd]. split.
  - unfold room. cbn [prime_idx buckets n_ent]. rewrite length_alter. unfold u32. rewrite uw_small by lia. split_and!; try done; lia.
  - intros k' Hk'. unfold htab_get, chain, htab_sz. cbn [buckets prime_idx].
    rewrite lookup_total_alter by (rewrite Hl, Hi; apply bucket_lt; done).
    case_decide as Hb; case_decide as Hkk; try done.
    + subst k'. rewrite filter_cons_True; [done|]. unfold ent_match. cbn. by rewrite Z.eqb_refl, str_cmp_refl.
    + rewrite filter_cons_False; [done|]. unfold ent_match. cbn. intros H%Is_true_true_1. apply andb_true_iff in H as [_ H].
      apply Hkk, str_cmp_eq; [done..|]. by apply Z.eqb_eq.
    + by subst k'.
Qed.

Lemma put_pairs_get alloc kvs i h :
  (forall j, alloc j = (true, true)) -> room (Z.of_nat (length kvs)) h -> NoDup kvs.*1 -> Forall (fun kv => Forall char kv.1) kvs ->
  forall k, Forall char k -> get (put_pairs alloc i kvs h) k =
    match list_find (fun kv => kv.1 = k) kvs with Some (_, kv) => Some kv.2 | None => get h k end.
Proof.
  intros Ha. revert i h. induction kvs as [|[k v] kvs IH]; intros i h Hr Hn Hc k1 Hk1; [done|].
  cbn [fmap list_fmap] in Hn. apply NoDup_cons in Hn as [Hk Hn]. apply Forall_cons in Hc as [Hck Hc]. cbn [fst] in *. cbn [put_pairs length] in *. rewrite Ha.
  destruct (put_get _ h k v Hr ltac:(lia) Hck) as [Hr' Hg]. replace (Z.of_nat (S (length kvs)) - 1) with (Z.of_nat (length kvs)) in Hr' by lia.
  cbn [fst snd]. rewrite (IH (S i) _ Hr' Hn Hc k1 Hk1), (Hg k1 Hk1). cbn. destruct (decide (k = k1)) as [->|Hne].
  - rewrite (proj2 (list_find_None _ kvs)); [done|]. apply Forall_forall. intros kv Hkv E. apply Hk. rewrite <- E. by apply list_elem_of_fmap_2.
  - by destruct (list_find _ kvs) as [[]|].
Qed.

(** Parameters survive the query string: for up to four parameters with
    distinct lower-case names, whose values hold any character but ["&"],
    the table made of the query they are written as returns each of them and
    nothing else. *)
Lemma query_roundtrip mem alloc r kvs :
  mem = (true, true) -> (forall i, alloc i = (true, true)) -> (length kvs <= 4)%nat -> NoDup kvs.*1 ->
  Forall (fun kv => key_ok kv.1 /\ val_ok kv.2) kvs -> tk_text (query (rq_uri r)) = Some (query_print kvs) ->
  exists ht, hreq_query mem alloc r = Some (Some ht) /\
    (forall k v, (k, v) ∈ kvs -> get ht k = Some v) /\ (forall k, Forall char k -> k ∉ kvs.*1 -> get ht k = None).
Proof.
  intros -> Ha Hl Hn Hok Eq. unfold hreq_query. cbn [fst snd htab_str_new htab_new negb]. rewrite Eq. cbn zeta. change (default [] (Some (query_print kvs))) with (query_print kvs). rewrite query_pairs_print by done.
  cbn [mbind option_bind]. eexists. split; [done|]. unfold htab_str_new, htab_new. cbn [negb].
  set (h0 := mkHtab _ _ _ _ _ _).
  assert (room (Z.of_nat (length kvs)) h0) as Hr by (unfold room, h0; cbn; split_and!; try done; lia).
  assert (Forall (fun kv : bytes * bytes => Forall char kv.1) kvs) as Hc by (eapply Forall_impl; [exact Hok|]; by intros kv [(? & ? & ?) _]).
  assert (forall k, get h0 k = None) as H0.
  { intros k. rewrite htab_get_lookups. destruct (htab_new_wf htab_str_hash htab_str_cmp true true true true h0 eq_refl) as [_ E]. by rewrite E. }
  split.
  - intros k v Hkv. pose proof (proj1 (Forall_forall _ _) Hc _ Hkv) as Hk. cbn in Hk. rewrite put_pairs_get by done.
    destruct (list_find _ kvs) as [[i kv]|] eqn:Ef.
    + apply list_find_Some in Ef as (Hi & E & _). f_equal. apply list_elem_of_lookup_1 in Hkv as [j Hj].
      assert (i = j) as ->; [|rewrite Hj in Hi; by injection Hi as <-]. eapply NoDup_lookup; [exact Hn|..]; rewrite list_lookup_fmap; [by rewrite Hi|]. rewrite Hj. cbn. by rewrite <- E.
    + apply list_find_None in Ef. rewrite Forall_forall in Ef. by destruct (Ef _ Hkv).
  - intros k Hk Hnk. rewrite put_pairs_get by done. rewrite (proj2 (list_find_None _ kvs)); [by rewrite H0|].
    apply Forall_forall. intros kv Hkv E. apply Hnk. rewrite <- E. by apply list_elem_of_fmap_2.
Qed.

(** A value with ["&"] in it, escaped for a query, is cut there: the mask
    leaves the separator as it is. *)
Lemma query_amp_cut : escape QUERY_ESCAPE_MASK [97; 38; 98] = [97; 38; 98] /\
  query_pairs 5 (query_print [([112], [97; 38; 98])]) = Some [([112], [97])].
Proof. by vm_compute. Qed.

(** Two names that differ in case only: the order [qsort] leaves equal keys in
    decides what is signed. *)
Lemma sign_dup_order p q : cu_key p = cu_key q ->
  sign_amz_loop None [p; q] = amz_name p ++ cu_val p ++ [44] ++ cu_val q ++ [10].
Proof. intros E. cbn. by rewrite E, str_cmp_refl. Qed.
