(* ===== verification/Hstor.v ===== *)
(** * Hstor: the storage client (lib/hstor.c, lib/hutil.c's dates)

    An operation builds a request, signs it, lets libcurl perform it and reads
    the answer.  libcurl and libxml2 are parameters: [curl_easy_perform] takes
    the options set and gives the return code and the pieces of the answer it
    hands to the write callback; libxml2 gives the document of a text.
    Operations run in a monad that threads the outcomes of the allocations and
    the state of the network; [None] is an access outside an object.  Strings
    are C strings, a NULL one is [None]. *)

From Stdlib Require Import String Ascii.
From S2P Require Import Prelude Htab Huri Hutil.
#[local] Open Scope Z_scope.
#[local] Set Warnings "-abstract-large-number".

(** The bytes of a literal. *)
Definition str (s : string) : bytes := (fun a => Z.of_N (N_of_ascii a)) <$> list_ascii_of_string s.
Arguments str _%_string : simpl never.

(** ** Dates *)

(** [struct tm] of UTC, as far as it is printed. *)
Record tm : Type := mkTm { tm_sec : Z; tm_min : Z; tm_hour : Z; tm_mday : Z; tm_mon : Z; tm_year : Z; tm_wday : Z }.

(** [gmtime_r]: the Gregorian date of a day, counted from March of year 0. *)
Definition gmtime (t : Z) : tm :=
  let days := t / 86400 in
  let s := t mod 86400 in
  let z := days + 719468 in
  let doe := z mod 146097 in
  let yoe := (doe - doe / 1460 + doe / 36524 - doe / 146096) / 365 in
  let doy := doe - (365 * yoe + yoe / 4 - yoe / 100) in
  let mp := (5 * doy + 2) / 153 in
  let mon := if mp <? 10 then mp + 3 else mp - 9 in
  mkTm (s mod 60) (s / 60 mod 60) (s / 3600) (doy - (153 * mp + 2) / 5 + 1) mon
    (yoe + 400 * (z / 146097) + if mon <=? 2 then 1 else 0) ((days + 4) mod 7).

Definition wdays : list bytes := str <$> ["Sun"; "Mon"; "Tue"; "Wed"; "Thu"; "Fri"; "Sat"]%string.
Definition months : list bytes := str <$> ["Jan"; "Feb"; "Mar"; "Apr"; "May"; "Jun"; "Jul"; "Aug"; "Sep"; "Oct"; "Nov"; "Dec"]%string.
Definition d2 (n : Z) : bytes := [48 + n / 10 mod 10; 48 + n mod 10].

(** ["%a, %d %b %Y %H:%M:%S %z"] *)
Definition rfc822 (d : tm) : bytes :=
  wdays !!! Z.to_nat (tm_wday d) ++ str ", " ++ d2 (tm_mday d) ++ str " " ++ months !!! Z.to_nat (tm_mon d - 1) ++ str " " ++
  fmt_lu (tm_year d) ++ str " " ++ d2 (tm_hour d) ++ str ":" ++ d2 (tm_min d) ++ str ":" ++ d2 (tm_sec d) ++ str " +0000".

(** [strftime] writes nothing, and returns 0, where the text does not fit. *)
Definition hutil_time2str (buflen : Z) (src_time : Z) : option bytes :=
  if buflen <=? 0 then None else
  let s := rfc822 (gmtime src_time) in
  if Z.of_nat (length s) <? buflen then Some s else Some [].

(** ** Data *)

Inductive hstor_calling_format : Type := HFMT_ORDINARY | HFMT_SUBDOMAIN | HFMT_other.

(** [struct hstor_client] *)
Record hstor_client : Type := mkClient { acc : bytes; host : bytes; user : bytes; key : bytes; verbose : bool; subdomain : bool }.

(** [struct hstor_bucket], [struct hstor_blist] *)
Record hstor_bucket : Type := mkBucket { bk_name : option bytes; bk_time_create : option bytes }.
Record hstor_blist : Type := mkBlist { bl_own_id : option bytes; bl_own_name : option bytes; bl_list : list hstor_bucket }.

(** [struct hstor_object], [struct hstor_keylist] *)
Record hstor_object : Type := mkObject {
  ob_key : option bytes; ob_time_mod : option bytes; ob_etag : option bytes; ob_size : Z; ob_storage : option bytes;
  ob_own_id : option bytes; ob_own_name : option bytes }.
Record hstor_keylist : Type := mkKeylist {
  kl_name : option bytes; kl_prefix : option bytes; kl_marker : option bytes; kl_delim : option bytes;
  kl_max_keys : Z; kl_trunc : bool; kl_contents : list hstor_object; kl_common_pfx : list (option bytes) }.

(** [struct hstor_put_info]: what is left to send. *)
Record hstor_put_info : Type := mkPutInfo { spi_data : bytes; spi_len : Z }.

(** ** libcurl and libxml2 *)

(** A read callback with its data: called with [size] and [nmemb], it stores
    some bytes and returns their number. *)
Record reader : Type := mkReader { rd_state : Type; rd_cb : Z -> Z -> rd_state -> option (bytes * Z * rd_state); rd_data : rd_state }.

Record curl_opts : Type := mkOpts {
  co_url : bytes; co_httpheader : list bytes; co_customrequest : option bytes; co_header : bool; co_encoding : bool;
  co_failonerror : bool; co_upload : option (Z * reader) }.

Class Curl : Type := { net : Type; curl_easy_perform : curl_opts -> net -> Z * list bytes * net }.

Inductive node : Type := Element (name : bytes) (children : list node) | Text (content : bytes) | Other.

(** The root of a document, if any; the text of a node list, NULL for no node. *)
Class Libxml : Type := {
  xmlReadMemory : bytes -> option (option (bytes * list node));
  xmlNodeListGetString : list node -> option bytes;
  get_string_nil : xmlNodeListGetString [] = None;
  get_string_text t : t <> [] -> xmlNodeListGetString [Text t] = Some t }.

(** A write callback that does not take all it is given ends the transfer. *)
Definition CURLE_WRITE_ERROR : Z := 23.

Section hstor.
Context {SG : Sig} {QS : Qsort} {CU : Curl} {LX : Libxml}.

(** [mem i]: the [i]-th allocation succeeds; [junk n]: what is in [n] fresh
    bytes; [now]: the clock. *)
Context (mem : nat -> bool) (junk : nat -> bytes) (now : Z).

Record world : Type := mkWorld { w_mem : nat; w_net : net }.
Definition M (A : Type) : Type := world -> option (A * world).
#[global] Instance M_ret : MRet M := fun A a w => Some (a, w).
#[global] Instance M_bind : MBind M := fun A B f m w => match m w with Some (a, w) => f a w | None => None end.

Definition ub {A} : M A := fun _ => None.
Definition alloc : M bool := fun w => Some (mem (w_mem w), mkWorld (S (w_mem w)) (w_net w)).
Definition lift {A} (o : option A) : M A := match o with Some a => mret a | None => ub end.

(** [sprintf] into [n] bytes; [asprintf], [strdup], [calloc] give NULL where memory is short. *)
Definition sprintf (n : nat) (s : bytes) : M bytes := if (length s <? n)%nat then mret s else ub.
Definition asprintf (s : bytes) : M (option bytes) := b ← alloc; mret (if b : bool then Some s else None).
Definition strdup (s : option bytes) : M (option bytes) := match s with Some s => asprintf s | None => ub end.
Definition curl_slist_append (l : list bytes) (s : bytes) : M (list bytes) := b ← alloc; mret (if b : bool then l ++ [s] else []).

(** ** The client *)

(** [curl_ok]: what [curl_global_init] and [curl_easy_init] give. *)
Definition hstor_new (curl_ok : bool * bool) (service_acc service_host user secret_key : bytes) : M (option hstor_client) :=
  b ← alloc;
  if negb b then mret None else
  acc ← asprintf service_acc; host ← asprintf service_host; user ← asprintf user; key ← asprintf secret_key;
  mret (match acc, host, user, key with
        | Some acc, Some host, Some user, Some key =>
            if curl_ok.1 && curl_ok.2 then Some (mkClient acc host user key false false) else None
        | _, _, _, _ => None
        end).

Definition hstor_set_format (hstor : hstor_client) (f : hstor_calling_format) : bool * hstor_client :=
  let set s := mkClient (acc hstor) (host hstor) (user hstor) (key hstor) (verbose hstor) s in
  match f with
  | HFMT_ORDINARY => (true, set false)
  | HFMT_SUBDOMAIN => (true, set true)
  | HFMT_other => (false, hstor)
  end.

(** ** Requests *)

Definition field_escape (s : bytes) (mask : Z) : M (option bytes) := b ← alloc; lift (huri_field_escape b junk (Some s) mask).

(** The URL, the Host header and the escaped path. *)
Definition hstor_resplit (hstor : hstor_client) (bucket key : bytes) : M (option (bytes * bytes * bytes)) :=
  unesc_path ← asprintf (if subdomain hstor then str "/" ++ key else str "/" ++ bucket ++ str "/" ++ key);
  match unesc_path with
  | None => mret None
  | Some unesc_path =>
      path ← field_escape unesc_path PATH_ESCAPE_MASK;
      match path with
      | None => mret None
      | Some path =>
          hosthdr ← asprintf (if subdomain hstor then str "Host: " ++ bucket ++ str "." ++ host hstor else str "Host: " ++ host hstor);
          match hosthdr with
          | None => mret None
          | Some hosthdr =>
              url ← asprintf (if subdomain hstor then str "http://" ++ bucket ++ str "." ++ acc hstor ++ path else str "http://" ++ acc hstor ++ path);
              mret (url ≫= fun url => Some (url, hosthdr, path))
          end
      end
  end.

(** A zeroed request with a method and a path. *)
Definition new_req (method orig_path : bytes) : http_req := mkReq method no_uri 0 0 orig_path [].

(** [datestr], and the request with the header pushed. *)
Definition push_date (req : http_req) : M (bytes * http_req) :=
  timestr ← lift (hutil_time2str 64 now);
  datestr ← sprintf 80 (str "Date: " ++ timestr);
  mret (datestr, (hreq_hdr_push req (str "Date") timestr).2).

(** [auth]; the allocations of [hreq_sign] are [sgn]'s. *)
Definition sign_auth (hstor : hstor_client) (sgn : nat -> bool) (req : http_req) (bucket : option bytes) : M bytes :=
  hmac ← sprintf 64 (hreq_sign sgn req bucket (key hstor));
  sprintf 128 (str "Authorization: AWS " ++ user hstor ++ str ":" ++ hmac).

Definition std_headers (headers : list bytes) (host datestr auth : bytes) : M (list bytes) :=
  headers ← curl_slist_append headers host; headers ← curl_slist_append headers datestr; curl_slist_append headers auth.

Definition perform (o : curl_opts) : M (Z * list bytes) :=
  fun w => let '(rc, data, n) := curl_easy_perform o (w_net w) in Some ((rc, data), mkWorld (w_mem w) n).

(** libcurl hands the pieces of an answer to the write callback. *)
Fixpoint deliver {W} (write_cb : bytes -> Z -> Z -> W -> option (Z * W)) (pieces : list bytes) (rc : Z) (w : W) : option (Z * W) :=
  match pieces with
  | [] => Some (rc, w)
  | p :: pieces =>
      r ← write_cb p 1 (Z.of_nat (length p)) w;
      if r.1 =? Z.of_nat (length p) then deliver write_cb pieces rc r.2 else Some (CURLE_WRITE_ERROR, r.2)
  end.

Definition all_data_cb (ptr : bytes) (size nmemb : Z) (all_data : bytes) : option (Z * bytes) :=
  let len := s32 (u64 (size * nmemb)) in
  if Z.of_nat (length ptr) <? u32 len then None else Some (u64 len, all_data ++ take (Z.to_nat (u32 len)) ptr).

Definition sub_bucket (hstor : hstor_client) (bucket : bytes) : option bytes := if subdomain hstor then Some bucket else None.

Section ops.
Context (sgn : nat -> bool).

Definition __hstor_ad_bucket (hstor : hstor_client) (name : bytes) (delete : bool) : M bool :=
  r ← hstor_resplit hstor name [];
  match r with
  | None => mret false
  | Some (url, host, orig_path) =>
      let method := if delete then str "DELETE" else str "PUT" in
      '(datestr, req) ← push_date (new_req method orig_path);
      auth ← sign_auth hstor sgn req (sub_bucket hstor name);
      headers ← std_headers [] host datestr auth;
      '(rc, _) ← perform (mkOpts url headers (Some method) false false true None);
      mret (rc =? 0)
  end.

Definition hstor_add_bucket (hstor : hstor_client) (name : bytes) : M bool := __hstor_ad_bucket hstor name false.
Definition hstor_del_bucket (hstor : hstor_client) (name : bytes) : M bool := __hstor_ad_bucket hstor name true.

(** The callback's state is returned. *)
Definition hstor_get {W} (hstor : hstor_client) (bucket key : bytes) (write_cb : bytes -> Z -> Z -> W -> option (Z * W))
    (user_data : W) (want_headers : bool) : M (bool * W) :=
  r ← hstor_resplit hstor bucket key;
  match r with
  | None => mret (false, user_data)
  | Some (url, host, orig_path) =>
      '(datestr, req) ← push_date (new_req (str "GET") orig_path);
      auth ← sign_auth hstor sgn req (sub_bucket hstor bucket);
      headers ← std_headers [] host datestr auth;
      '(rc, data) ← perform (mkOpts url headers None want_headers true true None);
      '(rc, user_data) ← lift (deliver write_cb data rc user_data);
      mret (rc =? 0, user_data)
  end.

(** The data; its length is what [*len] is set to. *)
Definition hstor_get_inline (hstor : hstor_client) (bucket key : bytes) (want_headers : bool) : M (option bytes) :=
  '(rcb, all_data) ← hstor_get hstor bucket key all_data_cb [] want_headers;
  mret (if rcb : bool then Some all_data else None).

(** Bytes the headers take, and the headers parsed into [uhdr_buf] from [p] on. *)
Definition uhdr_len (user_hdrs : list bytes) : Z := foldr (fun h n => Z.of_nat (length h) + 2 + n) 0 user_hdrs.

Fixpoint push_user_hdrs (uhdr_len p : Z) (user_hdrs : list bytes) (req : http_req) : M http_req :=
  match user_hdrs with
  | [] => mret req
  | h :: user_hdrs =>
      match memchr 58 h with
      | Some ukey_len =>
          let uval := skip_space (drop (S ukey_len) h) in
          let p := p + Z.of_nat ukey_len + 1 + Z.of_nat (length uval) + 1 in
          if uhdr_len <? p then ub else
          push_user_hdrs uhdr_len p user_hdrs (hreq_hdr_push req (take ukey_len h) uval).2
      | None => push_user_hdrs uhdr_len p user_hdrs req
      end
  end.

Fixpoint append_all (headers user_hdrs : list bytes) : M (list bytes) :=
  match user_hdrs with
  | [] => mret headers
  | h :: user_hdrs => headers ← curl_slist_append headers h; append_all headers user_hdrs
  end.

Definition hstor_put (hstor : hstor_client) (bucket key : bytes) (read_cb : reader) (len : Z) (user_hdrs : option (list bytes)) : M bool :=
  r ← hstor_resplit hstor bucket key;
  match r with
  | None => mret false
  | Some (url, host, orig_path) =>
      '(datestr, req) ← push_date (new_req (str "PUT") orig_path);
      let send (headers : list bytes) (req : http_req) : M bool :=
        auth ← sign_auth hstor sgn req (sub_bucket hstor bucket);
        headers ← std_headers headers host datestr auth;
        '(rc, _) ← perform (mkOpts url headers (Some (str "PUT")) false false true (Some (len, read_cb)));
        mret (rc =? 0) in
      match user_hdrs with
      | None => send [] req
      | Some user_hdrs =>
          headers ← append_all [] user_hdrs;
          uhdr_buf ← alloc;
          if negb uhdr_buf then mret false else
          req ← push_user_hdrs (uhdr_len user_hdrs) 0 user_hdrs req;
          send headers req
      end
  end.

Definition read_inline_cb (size nmemb : Z) (spi : hstor_put_info) : option (bytes * Z * hstor_put_info) :=
  let len := s32 (u64 (size * nmemb)) in
  let len := s32 (Z.min (u64 len) (spi_len spi)) in
  if len =? 0 then Some ([], 0, spi) else
  if (len <? 0) || (Z.of_nat (length (spi_data spi)) <? len) then None else
  Some (take (Z.to_nat len) (spi_data spi), len, mkPutInfo (drop (Z.to_nat len) (spi_data spi)) (u64 (spi_len spi - len))).

Definition hstor_put_inline (hstor : hstor_client) (bucket key data : bytes) (user_hdrs : option (list bytes)) : M bool :=
  let len := Z.of_nat (length data) in
  hstor_put hstor bucket key (mkReader hstor_put_info read_inline_cb (mkPutInfo data len)) len user_hdrs.

Definition hstor_del (hstor : hstor_client) (bucket key : bytes) : M bool :=
  r ← hstor_resplit hstor bucket key;
  match r with
  | None => mret false
  | Some (url, host, orig_path) =>
      '(datestr, req) ← push_date (new_req (str "DELETE") orig_path);
      auth ← sign_auth hstor sgn req None;
      headers ← std_headers [] host datestr auth;
      '(rc, _) ← perform (mkOpts url headers (Some (str "DELETE")) false false true None);
      mret (rc =? 0)
  end.

End ops.

(** ** Bucket lists *)

Definition is_name (name : bytes) (s : string) : bool := bool_decide (name = str s).

Fixpoint parse_bucket (tmp : list node) (buck : hstor_bucket) : hstor_bucket :=
  match tmp with
  | [] => buck
  | Element name children :: tmp =>
      parse_bucket tmp
        (if is_name name "Name" then mkBucket (xmlNodeListGetString children) (bk_time_create buck)
         else if is_name name "CreationDate" then mkBucket (bk_name buck) (xmlNodeListGetString children)
         else buck)
  | _ :: tmp => parse_bucket tmp buck
  end.

Fixpoint hstor_parse_buckets (nodes : list node) (blist : hstor_blist) : M hstor_blist :=
  match nodes with
  | [] => mret blist
  | Element name children :: nodes =>
      if negb (is_name name "Bucket") then hstor_parse_buckets nodes blist else
      b ← alloc;
      if negb b then hstor_parse_buckets nodes blist else
      let buck := parse_bucket children (mkBucket None None) in
      hstor_parse_buckets nodes
        (match bk_name buck with
         | None => blist
         | Some _ => mkBlist (bl_own_id blist) (bl_own_name blist) (bl_list blist ++ [buck])
         end)
  | _ :: nodes => hstor_parse_buckets nodes blist
  end.

(** [own_id] and [own_name] from an [Owner]. *)
Fixpoint parse_owner (tmp : list node) (own_id own_name : option bytes) : M (option bytes * option bytes) :=
  match tmp with
  | [] => mret (own_id, own_name)
  | Element name children :: tmp =>
      if is_name name "ID" then
        s ← strdup (xmlNodeListGetString children);
        parse_owner tmp s own_name
      else if is_name name "DisplayName" then
        s ← strdup (xmlNodeListGetString children);
        parse_owner tmp own_id s
      else parse_owner tmp own_id own_name
  | _ :: tmp => parse_owner tmp own_id own_name
  end.

Fixpoint parse_blist (nodes : list node) (blist : hstor_blist) : M hstor_blist :=
  match nodes with
  | [] => mret blist
  | Element name children :: nodes =>
      if is_name name "Owner" then
        o ← parse_owner children (bl_own_id blist) (bl_own_name blist);
        parse_blist nodes (mkBlist o.1 o.2 (bl_list blist))
      else if is_name name "Buckets" then
        blist ← hstor_parse_buckets children blist;
        parse_blist nodes blist
      else parse_blist nodes blist
  | _ :: nodes => parse_blist nodes blist
  end.

(** The root of the answer, if it has the name, and its children. *)
Definition read_doc (data : bytes) (root : string) : option (list node) :=
  match xmlReadMemory data with
  | Some (Some (name, children)) => if is_name name root then Some children else None
  | _ => None
  end.

Definition hstor_list_buckets (sgn : nat -> bool) (hstor : hstor_client) : M (option hstor_blist) :=
  '(datestr, req) ← push_date (new_req (str "GET") (str "/"));
  auth ← sign_auth hstor sgn req None;
  hosthdr ← asprintf (str "Host: " ++ host hstor);
  match hosthdr with
  | None => mret None
  | Some hosthdr =>
      url ← asprintf (str "http://" ++ acc hstor ++ str "/");
      match url with
      | None => mret None
      | Some url =>
          headers ← std_headers [] hosthdr datestr auth;
          '(rc, data) ← perform (mkOpts url headers None false true true None);
          '(rc, all_data) ← lift (deliver all_data_cb data rc []);
          if negb (rc =? 0) then mret None else
          match read_doc all_data "ListAllMyBucketsResult" with
          | None => mret None
          | Some nodes =>
              b ← alloc;
              if negb b then mret None else
              blist ← parse_blist nodes (mkBlist None None []);
              mret (Some blist)
          end
      end
  end.

(** ** Key lists *)

(** [atoi], [atoll]: [None] where the number does not fit the result. *)
Fixpoint digits (s : bytes) (n : Z) : Z :=
  match s with
  | c :: s => if isdigit c then digits s (10 * n + (c - 48)) else n
  | [] => n
  end.
Definition ato (w : Z) (s : option bytes) : option Z :=
  s ← s;
  let s := skip_space s in
  let n := match s with
           | c :: s' => if c =? 45 then - digits s' 0 else if c =? 43 then digits s' 0 else digits s 0
           | [] => 0
           end in
  if (- 2 ^ (w - 1) <=? n) && (n <? 2 ^ (w - 1)) then Some n else None.

Fixpoint parse_object (nodes : list node) (obj : hstor_object) : M hstor_object :=
  match nodes with
  | [] => mret obj
  | Element name children :: nodes =>
      let '(mkObject key time_mod etag size storage own_id own_name) := obj in
      let xs := xmlNodeListGetString children in
      if is_name name "Key" then
        s ← strdup xs; parse_object nodes (mkObject s time_mod etag size storage own_id own_name)
      else if is_name name "LastModified" then
        s ← strdup xs; parse_object nodes (mkObject key s etag size storage own_id own_name)
      else if is_name name "ETag" then
        s ← strdup xs; parse_object nodes (mkObject key time_mod s size storage own_id own_name)
      else if is_name name "Size" then
        n ← lift (ato 64 xs); parse_object nodes (mkObject key time_mod etag (u64 n) storage own_id own_name)
      else if is_name name "StorageClass" then
        s ← strdup xs; parse_object nodes (mkObject key time_mod etag size s own_id own_name)
      else if is_name name "Owner" then
        o ← parse_owner children own_id own_name; parse_object nodes (mkObject key time_mod etag size storage o.1 o.2)
      else parse_object nodes obj
  | _ :: nodes => parse_object nodes obj
  end.

Definition add_contents (kl : hstor_keylist) (obj : hstor_object) : hstor_keylist :=
  mkKeylist (kl_name kl) (kl_prefix kl) (kl_marker kl) (kl_delim kl) (kl_max_keys kl) (kl_trunc kl) (kl_contents kl ++ [obj]) (kl_common_pfx kl).

Definition hstor_parse_key (nodes : list node) (keylist : hstor_keylist) : M hstor_keylist :=
  b ← alloc;
  if negb b then mret keylist else
  obj ← parse_object nodes (mkObject None None None 0 None None None);
  mret (match ob_key obj with Some _ => add_contents keylist obj | None => keylist end).

Fixpoint parse_prefixes (tmp : list node) (pfx : list (option bytes)) : M (list (option bytes)) :=
  match tmp with
  | [] => mret pfx
  | Element name children :: tmp =>
      if is_name name "Prefix" then
        s ← strdup (xmlNodeListGetString children); parse_prefixes tmp (pfx ++ [s])
      else parse_prefixes tmp pfx
  | _ :: tmp => parse_prefixes tmp pfx
  end.

(** [xmlStrcasecmp] of a NULL string is a difference. *)
Definition is_case (xs : option bytes) (s : string) : bool := match xs with Some xs => caseeq xs (str s) | None => false end.

Fixpoint parse_keylist (nodes : list node) (kl : hstor_keylist) : M hstor_keylist :=
  match nodes with
  | [] => mret kl
  | Element name children :: nodes =>
      let '(mkKeylist nm prefix marker delim max_keys trunc contents pfx) := kl in
      let xs := xmlNodeListGetString children in
      if is_name name "Name" then
        s ← strdup xs; parse_keylist nodes (mkKeylist s prefix marker delim max_keys trunc contents pfx)
      else if is_name name "Prefix" then
        s ← asprintf (default [] xs); parse_keylist nodes (mkKeylist nm s marker delim max_keys trunc contents pfx)
      else if is_name name "Marker" then
        s ← asprintf (default [] xs); parse_keylist nodes (mkKeylist nm prefix s delim max_keys trunc contents pfx)
      else if is_name name "Delimiter" then
        s ← asprintf (default [] xs); parse_keylist nodes (mkKeylist nm prefix marker s max_keys trunc contents pfx)
      else if is_name name "MaxKeys" then
        n ← lift (ato 32 xs); parse_keylist nodes (mkKeylist nm prefix marker delim (u32 n) trunc contents pfx)
      else if is_name name "IsTruncated" then
        parse_keylist nodes (mkKeylist nm prefix marker delim max_keys (is_case xs "true" || is_case xs "1") contents pfx)
      else if is_name name "CommonPrefixes" then
        p ← parse_prefixes children pfx; parse_keylist nodes (mkKeylist nm prefix marker delim max_keys trunc contents p)
      else if is_name name "Contents" then
        kl ← hstor_parse_key children kl; parse_keylist nodes kl
      else parse_keylist nodes kl
  | _ :: nodes => parse_keylist nodes kl
  end.

(** The text and the next separator. *)
Definition append_qparam (s : bytes) (key val arg_char : bytes) : M (bytes * bytes) :=
  stmp ← field_escape val QUERY_ESCAPE_MASK;
  mret (s ++ arg_char ++ key ++ str "=" ++ default [] stmp, str "&").

Definition opt_qparam (s : bytes) (key : bytes) (val : option bytes) (arg_char : bytes) : M (bytes * bytes) :=
  match val with Some val => append_qparam s key val arg_char | None => mret (s, arg_char) end.

Definition hstor_keys (sgn : nat -> bool) (hstor : hstor_client) (bucket : bytes) (prefix marker delim : option bytes) (max_keys : Z)
    : M (option hstor_keylist) :=
  orig_path ← asprintf (if subdomain hstor then str "/" else str "/" ++ bucket ++ str "/");
  match orig_path with
  | None => mret None
  | Some orig_path =>
      '(datestr, req) ← push_date (new_req (str "GET") orig_path);
      auth ← sign_auth hstor sgn req (sub_bucket hstor bucket);
      hosthdr ← asprintf (if subdomain hstor then str "Host: " ++ bucket ++ str "." ++ host hstor else str "Host: " ++ host hstor);
      match hosthdr with
      | None => mret None
      | Some hosthdr =>
          headers ← std_headers [] hosthdr datestr auth;
          let url := str "http://" ++ (if subdomain hstor then bucket ++ str "." else []) ++ acc hstor ++ orig_path in
          '(url, arg_char) ← opt_qparam url (str "prefix") prefix (str "?");
          '(url, arg_char) ← opt_qparam url (str "marker") marker arg_char;
          '(url, arg_char) ← opt_qparam url (str "delimiter") delim arg_char;
          mk ← (if max_keys =? 0 then mret [] else sprintf 32 (arg_char ++ str "max-keys=" ++ fmt_lu max_keys));
          '(rc, data) ← perform (mkOpts (url ++ mk) headers None false true true None);
          '(rc, all_data) ← lift (deliver all_data_cb data rc []);
          if negb (rc =? 0) then mret None else
          match read_doc all_data "ListBucketResult" with
          | None => mret None
          | Some nodes =>
              b ← alloc;
              if negb b then mret None else
              keylist ← parse_keylist nodes (mkKeylist None None None None 0 false [] []);
              mret (Some keylist)
          end
      end
  end.

End hstor.

Example epoch : hutil_time2str 64 0 = Some (str "Thu, 01 Jan 1970 00:00:00 +0000").
Proof. by vm_compute. Qed.
Example leap : hutil_time2str 64 951827696 = Some (str "Tue, 29 Feb 2000 12:34:56 +0000").
Proof. by vm_compute. Qed.
