(* ===== verification/HstorProps.v ===== *)
(** * HstorProps: what the storage client sends, and what it makes of the answer

    The receiving end is specified with the library's own functions: the URL is
    taken apart by [huri_parse], its query by [hreq_query], and the signature
    is recomputed by [hreq_sign] from the headers that arrive. *)

From Stdlib Require Import String.
From S2P Require Import Prelude Htab Huri Hutil Hstor.
#[local] Open Scope Z_scope.

(** ** The receiving end *)

Definition split_hdr (h : bytes) : option http_hdr := i ← memchr 58 h; Some (mkHdr (take i h) (skip_space (drop (S i) h))).

Definition received (o : curl_opts) : option http_req :=
  u ← huri_parse (co_url o);
  p ← tk_text (path u);
  Some (mkReq (default (str "GET") (co_customrequest o)) u 1 1 p (omap split_hdr (co_httpheader o))).

Section verify.
Context {SG : Sig} {QS : Qsort}.

(** The request names its sender and carries the signature of what arrives. *)
Definition verifies (user key : bytes) (bucket : option bytes) (o : curl_opts) : Prop :=
  exists r, received o = Some r /\ forall sgn, (forall i, sgn i = true) ->
    hreq_hdr r (str "Authorization") = Some (str "AWS " ++ user ++ str ":" ++ hreq_sign sgn r bucket key).

End verify.

(** ** Paths *)

Lemma path_free s : Forall char s -> free_of [63; 35] (escape PATH_ESCAPE_MASK s).
Proof.
  intros Hs. apply Forall_concat, Forall_fmap. eapply Forall_impl; [exact Hs|]. intros c Hc. unfold char in Hc. cbn. unfold esc, is_one.
  assert (forall x, x <> 63 -> x <> 35 -> bool_decide (x ∈ [63; 35]) = false) as H.
  { intros x H1 H2. apply bool_decide_eq_false_2. rewrite !elem_of_cons, elem_of_nil. intros [?|[?|[]]]; lia. }
  destruct (plain PATH_ESCAPE_MASK c) eqn:Ep.
  - constructor; [|done]. apply H; intros ->; by vm_compute in Ep.
  - destruct (nibbles c) as (H1 & H2 & _); [lia|].
    assert (forall d, 0 <= d < 16 -> esc_digit d <> 63 /\ esc_digit d <> 35) as He by (intros d Hd; unfold esc_digit; destruct (Z.ltb_spec d 10); lia).
    constructor; [done|]. constructor; [by apply H; apply He|]. constructor; [by apply H; apply He|done].
Qed.

(** The service's name and port, in the form of an authority. *)
Record acc_ok (a host : bytes) (prt : option Z) : Prop := {
  ac_text : a = host ++ before 58 (fmt_lu <$> prt);
  ac_host : host <> [] /\ free_of [64; 47; 63; 35; 58] host /\ at_ host <> 91 /\ Forall char host;
  ac_port : forall n, prt = Some n -> 0 <= n < 2 ^ 32 }.

(** A bucket name that may be part of a host name. *)
Definition sub_ok (sub : bool) (bucket : bytes) : Prop := sub = true -> free_of [64; 47; 63; 35; 58] bucket /\ at_ (bucket ++ str ".") <> 91.

Definition url_host (sub : bool) (bucket h : bytes) : bytes := if sub then bucket ++ str "." ++ h else h.

Definition url_rec (sub : bool) (bucket h : bytes) (prt : option Z) (pth : bytes) (q : option bytes) : parts :=
  mkParts (str "http") None (url_host sub bucket h) prt pth q None.

Lemma url_print sub bucket a h prt pth q :
  acc_ok a h prt -> uri_print (url_rec sub bucket h prt pth q) = str "http://" ++ (if sub then bucket ++ str "." else []) ++ a ++ pth ++ before 63 q.
Proof.
  intros [-> _ _]. unfold uri_print, url_rec. cbn [p_scheme p_userinfo p_host p_port p_path p_query p_fragment after]. unfold url_host.
  change (str "http://") with (str "http" ++ [58; 47; 47]). destruct sub; rewrite <- !app_assoc; cbn [before]; by rewrite app_nil_r.
Qed.

Lemma url_parts sub bucket a h prt pth q :
  acc_ok a h prt -> sub_ok sub bucket -> Forall char bucket -> Forall char pth -> (exists x, pth = 47 :: x) -> free_of [63; 35] pth ->
  (forall x, q = Some x -> Forall char x /\ free_of [35] x) ->
  Z.of_nat (length (uri_print (url_rec sub bucket h prt pth q))) < 2 ^ 32 -> parts_ok (url_rec sub bucket h prt pth q).
Proof.
  intros Ha Hb Hbc Hpc Hpx Hpf Hq Hlen. pose proof (url_print sub bucket a h prt pth q Ha) as Eu. destruct Ha as [-> (Hh1 & Hh2 & Hh3 & Hhc) Hp].
  assert (forall s, Forall char s -> Forall (fun c => c <> 0) s) as Hnz by (intros s Hs; eapply Forall_impl; [exact Hs|]; unfold char; cbn; lia).
  split; try done.
  - repeat constructor.
  - cbn. unfold url_host. destruct sub; [|done]. destruct (Hb eq_refl) as [Hb1 Hb2]. split_and!.
    + by destruct bucket.
    + apply Forall_app. split; [done|]. apply Forall_app. split; [by repeat constructor|done].
    + rewrite app_assoc, at_app; [done|by destruct bucket].
  - intros x Ex. by apply Hq.
  - rewrite Eu. repeat (apply Forall_app; split); try by apply Hnz.
    + by repeat constructor.
    + destruct sub; [|done]. apply Forall_app. split; [by apply Hnz|by repeat constructor].
    + destruct prt as [n|]; [|done]. cbn. constructor; [done|]. eapply Forall_impl; [apply fmt_lu_digits; by apply Hp|]. cbn. lia.
    + destruct q as [x|]; [|done]. cbn. constructor; [done|]. by apply Hnz, Hq.
Qed.

(** ** Running an operation *)

Section run.
Context {SG : Sig} {QS : Qsort} {CU : Curl} {LX : Libxml}.
Context (mem : nat -> bool) (junk : nat -> bytes) (now : Z).
Hypothesis mem_ok : forall i, mem i = true.
Hypothesis junk_ok : forall n, length (junk n) = n.

Implicit Types (h : hstor_client) (w : world).

Lemma bind_run {A B} (m : M A) (f : A -> M B) w a w' : m w = Some (a, w') -> (m ≫= f) w = f a w'.
Proof. intros E. unfold mbind, M_bind. by rewrite E. Qed.

Definition tick w : world := mkWorld (S (w_mem w)) (w_net w).

Lemma asprintf_run s w : asprintf mem s w = Some (Some s, tick w).
Proof. unfold asprintf. erewrite bind_run; [|unfold alloc; by rewrite mem_ok]. done. Qed.

Lemma append_run l s w : curl_slist_append mem l s w = Some (l ++ [s], tick w).
Proof. unfold curl_slist_append. erewrite bind_run; [|unfold alloc; by rewrite mem_ok]. done. Qed.

Lemma escape_run s mask w : Forall char s -> field_escape mem junk s mask w = Some (Some (escape mask s), tick w).
Proof. intros Hs. unfold field_escape. erewrite bind_run; [|unfold alloc; by rewrite mem_ok]. by rewrite escape_correct. Qed.

Lemma sprintf_run n s w : (length s < n)%nat -> sprintf n s w = Some (s, w).
Proof. intros Hn. unfold sprintf. by rewrite (proj2 (Nat.ltb_lt _ _) Hn). Qed.

Definition hosthdr h bucket : bytes := str "Host: " ++ (if subdomain h then bucket ++ str "." else []) ++ host h.
Definition url_of h bucket pth : bytes := str "http://" ++ (if subdomain h then bucket ++ str "." else []) ++ acc h ++ pth.
Definition path_of h bucket k : bytes := if subdomain h then str "/" ++ k else str "/" ++ bucket ++ str "/" ++ k.
Definition epath h bucket k : bytes := escape PATH_ESCAPE_MASK (path_of h bucket k).

Lemma path_of_char h bucket k : Forall char bucket -> Forall char k -> Forall char (path_of h bucket k).
Proof.
  intros Hb Hk. unfold path_of. assert (Forall char (str "/")) by (repeat constructor; unfold char; lia).
  destruct (subdomain h); repeat (apply Forall_app; split); done.
Qed.

Lemma resplit_run h bucket k w : Forall char bucket -> Forall char k ->
  exists w', w_net w' = w_net w /\
    hstor_resplit mem junk h bucket k w = Some (Some (url_of h bucket (epath h bucket k), hosthdr h bucket, epath h bucket k), w').
Proof.
  intros Hb Hk. exists (tick (tick (tick (tick w)))). split; [done|]. unfold hstor_resplit.
  change (if subdomain h then str "/" ++ k else str "/" ++ bucket ++ str "/" ++ k) with (path_of h bucket k).
  rewrite (bind_run _ _ _ _ _ (asprintf_run _ _)). rewrite (bind_run _ _ _ _ _ (escape_run _ _ _ (path_of_char h bucket k Hb Hk))).
  rewrite (bind_run _ _ _ _ _ (asprintf_run _ _)). rewrite (bind_run _ _ _ _ _ (asprintf_run _ _)). cbn [mbind option_bind].
  unfold mret, M_ret, url_of, hosthdr, epath. destruct (subdomain h); by rewrite <- ?app_assoc.
Qed.

Lemma std_headers_run l a b c w : exists w', w_net w' = w_net w /\ std_headers mem l a b c w = Some (l ++ [a; b; c], w').
Proof.
  exists (tick (tick (tick w))). split; [done|]. unfold std_headers. rewrite (bind_run _ _ _ _ _ (append_run _ _ _)).
  rewrite (bind_run _ _ _ _ _ (append_run _ _ _)). rewrite append_run. by rewrite <- !app_assoc.
Qed.

(** *** Date and signature *)

Definition date_text : bytes := default [] (hutil_time2str 64 now).

Lemma date_len : (length date_text < 64)%nat.
Proof. unfold date_text, hutil_time2str. cbn [Z.leb]. change (64 <=? 0) with false. cbn beta iota. destruct (Z.ltb_spec (Z.of_nat (length (rfc822 (gmtime now)))) 64); cbn [default]; [cbn; lia|cbn; lia]. Qed.

Definition date_hdr : http_hdr := mkHdr (str "Date") (skip_space date_text).

Lemma push_date_run m p w :
  push_date now (new_req m p) w = Some ((str "Date: " ++ date_text, mkReq m no_uri 0 0 p [date_hdr]), w).
Proof.
  unfold push_date. assert (exists s, hutil_time2str 64 now = Some s) as [s Es].
  { unfold hutil_time2str. change (64 <=? 0) with false. cbn beta iota zeta. by destruct (_ <? _); eexists. }
  pose proof date_len as Hl. unfold date_text, date_hdr, date_text in *. rewrite Es in *. cbn [default from_option id] in *.
  erewrite bind_run by done. erewrite bind_run by (apply sprintf_run; rewrite length_app; change (length (str "Date: ")) with 6%nat; cbn in *; lia). done.
Qed.

(** A SHA-1 digest is 20 bytes, 28 characters of base64. *)
Hypothesis sig_len : forall k t, length (base64 (HMAC_SHA1 k t)) = 28%nat.

Definition auth_text h (sig : bytes) : bytes := str "Authorization: AWS " ++ user h ++ str ":" ++ sig.

Lemma sign_auth_run h sgn req bucket w :
  (length (user h) < 80)%nat ->
  sign_auth h sgn req bucket w = Some (auth_text h (hreq_sign sgn req bucket (key h)), w).
Proof.
  intros Hu. unfold sign_auth. erewrite bind_run by (apply sprintf_run; unfold hreq_sign; rewrite sig_len; lia).
  apply sprintf_run. unfold auth_text. rewrite !length_app. unfold hreq_sign. rewrite sig_len. change (length (str "Authorization: AWS ")) with 19%nat.
  change (length (str ":")) with 1%nat. lia.
Qed.

(** A longer name does not fit [auth]. *)
Lemma sign_auth_overflow h sgn req bucket w : (80 <= length (user h))%nat -> sign_auth h sgn req bucket w = None.
Proof.
  intros Hu. unfold sign_auth. erewrite bind_run by (apply sprintf_run; unfold hreq_sign; rewrite sig_len; lia).
  unfold sprintf. rewrite (proj2 (Nat.ltb_ge _ _)); [done|]. rewrite !length_app. unfold hreq_sign. rewrite sig_len.
  change (length (str "Authorization: AWS ")) with 19%nat. change (length (str ":")) with 1%nat. lia.
Qed.

(** *** The signature verifies *)

Lemma split_lit k v : Forall (fun c => c <> 58) k -> split_hdr (k ++ 58 :: v) = Some (mkHdr k (skip_space v)).
Proof.
  intros Hk. unfold split_hdr. rewrite memchr_app by done. cbn [mbind option_bind]. rewrite take_app_length. do 3 f_equal.
  rewrite <- Nat.add_1_r, <- drop_drop, drop_app_length. done.
Qed.

Lemma index_of_none q l i : Forall (fun x => at_ (lower x) <> at_ (lower q)) l -> index_of q l i = None.
Proof.
  intros Hl. revert i. induction Hl as [|x l Hx _ IH]; intros i; [done|]. cbn. unfold caseeq. rewrite bool_decide_eq_false_2; [apply IH|].
  intros E. apply Hx. by rewrite E.
Qed.

(** A query that is not one of those signed. *)
Definition query_free (q : option bytes) : Prop := forall x, q = Some x -> x <> [] /\ Forall (fun y => at_ (lower y) <> at_ (lower x)) hreq_query_sign.

Lemma is_query_free m u a b p hs q : tk_text (query u) = q -> query_free q -> hreq_is_query (mkReq m u a b p hs) = -1.
Proof.
  intros Eq Hq. unfold hreq_is_query. cbn [rq_uri]. unfold tk_text in Eq. destruct (tk_ptr (query u)) as [t|] eqn:Et; [|done].
  destruct (tk_len (query u) =? 0); [done|]. cbn in Eq. destruct q as [x|]; [|done]. injection Eq as Ex.
  destruct (Hq x eq_refl) as [Hx0 Hx]. rewrite index_of_none; [done|]. eapply Forall_impl; [exact Hx|]. intros y Hy.
  assert (at_ (lower t) = at_ (lower x)) as ->; [|done]. rewrite <- Ex in *. destruct t as [|c t]; [by rewrite take_nil|].
  destruct (Z.to_nat (tk_len (query u))); [done|]. done.
Qed.

Lemma sign_mem sgn sgn' r bucket k :
  (forall i, sgn i = true) -> (forall i, sgn' i = true) -> hreq_sign sgn r bucket k = hreq_sign sgn' r bucket k.
Proof. intros H H'. unfold hreq_sign, sign_text, hreq_sign_amz, cust_init. by rewrite !cust_collect_spec. Qed.

(** Headers a caller may add. *)
Record user_hdrs_ok (uh : list bytes) : Prop := {
  uh_names : names_ok (omap split_hdr uh);
  uh_free : Forall (fun x => lower (hdr_key x) ∉ [str "host"; s_date; str "authorization"]) (omap split_hdr uh) }.

Lemma user_hdrs_nil : user_hdrs_ok [].
Proof. split; [split; constructor|constructor]. Qed.

Definition host_hdr h bucket : http_hdr := mkHdr (str "Host") (skip_space ((if subdomain h then bucket ++ str "." else []) ++ host h)).
Definition auth_hdr h sig : http_hdr := mkHdr (str "Authorization") (str "AWS " ++ user h ++ str ":" ++ sig).

Lemma omap_std h bucket uh sig :
  omap split_hdr (uh ++ [hosthdr h bucket; str "Date: " ++ date_text; auth_text h sig]) =
  omap split_hdr uh ++ [host_hdr h bucket; date_hdr; auth_hdr h sig].
Proof.
  by rewrite omap_app.
Qed.

Lemma std_names uh h bucket sig :
  user_hdrs_ok uh -> names_ok ((date_hdr :: omap split_hdr uh) ++ [host_hdr h bucket; auth_hdr h sig]).
Proof.
  intros [[Hn Hc] Hf]. split.
  - set (l := omap split_hdr uh) in *.
    assert (forall x, x ∈ [str "host"; s_date; str "authorization"] -> x ∉ (fun g : http_hdr => lower (hdr_key g)) <$> l) as Hni.
    { intros x Hx (y & -> & Hy)%list_elem_of_fmap. rewrite Forall_forall in Hf. by apply (Hf y Hy). }
    cbn [app fmap list_fmap]. rewrite fmap_app. cbn [fmap list_fmap]. constructor.
    + rewrite elem_of_app. intros [Hi|Hi]; [|revert Hi; change (s_date ∉ [str "host"; str "authorization"]); by apply (bool_decide_unpack _)].
      apply (Hni s_date); [set_solver|done].
    + apply NoDup_app. split; [done|]. split.
      * intros x Hx Hi. change (x ∈ [str "host"; str "authorization"]) in Hi. apply (Hni x); [set_solver|done].
      * constructor; [|apply NoDup_singleton]. rewrite list_elem_of_singleton. done.
  - assert (forall s, Forall char (str s) <-> forallb (fun c => (0 <? c) && (c <? 256)) (str s) = true) as Hs.
    { intros s. rewrite forallb_forall, Forall_forall. split; intros H x Hx.
      - apply list_elem_of_In, H in Hx. unfold char in Hx. apply andb_true_iff. lia.
      - apply list_elem_of_In, H, andb_true_iff in Hx. unfold char. lia. }
    constructor; [by apply Hs|]. apply Forall_app. split; [done|]. repeat constructor; by apply Hs.
Qed.

Lemma std_unsigned h bucket sig : Forall unsigned [host_hdr h bucket; auth_hdr h sig].
Proof.
  repeat (constructor; [split; [done|]|]); try done; by apply (bool_decide_unpack _).
Qed.

Lemma verifies_std h bucket bk m pth q uh sgn hosta prt o :
  acc_ok (acc h) hosta prt -> sub_ok (subdomain h) bucket -> Forall char bucket -> Forall char pth -> (exists x, pth = 47 :: x) -> free_of [63; 35] pth ->
  (forall x, q = Some x -> Forall char x /\ free_of [35] x) -> query_free q -> user_hdrs_ok uh -> (forall i, sgn i = true) ->
  default (str "GET") (co_customrequest o) = m -> co_url o = url_of h bucket pth ++ before 63 q -> Z.of_nat (length (co_url o)) < 2 ^ 32 ->
  co_httpheader o = uh ++ [hosthdr h bucket; str "Date: " ++ date_text;
    auth_text h (hreq_sign sgn (mkReq m no_uri 0 0 pth (date_hdr :: omap split_hdr uh)) bk (key h))] ->
  verifies (user h) (key h) bk o /\
  exists r, received o = Some r /\ rq_method r = m /\ tk_text (query (rq_uri r)) = q /\ tk_text (path (rq_uri r)) = Some pth /\
    tk_text (hostname (rq_uri r)) = Some (url_host (subdomain h) bucket hosta).
Proof.
  intros Ha Hs Hb Hpc Hpx Hpf Hq Hqf Hu Hsgn Em Eu Hl Eh. set (sig := hreq_sign _ _ _ _) in Eh.
  pose proof (url_print (subdomain h) bucket (acc h) hosta prt pth q Ha) as Ep.
  assert (co_url o = uri_print (url_rec (subdomain h) bucket hosta prt pth q)) as Eurl by (rewrite Ep, Eu; unfold url_of; by rewrite <- !app_assoc).
  pose proof (url_parts (subdomain h) bucket (acc h) hosta prt pth q Ha Hs Hb Hpc Hpx Hpf Hq ltac:(by rewrite <- Eurl)) as Hok.
  destruct (huri_parse_print _ Hok) as (u & Eup & _ & _ & Ehost & _ & Epath & Equery & _). cbn [url_rec p_path p_query p_host] in *.
  assert (received o = Some (mkReq m u 1 1 pth (omap split_hdr uh ++ [host_hdr h bucket; date_hdr; auth_hdr h sig]))) as Er.
  { unfold received. rewrite Eurl, Eup. cbn [mbind option_bind]. rewrite Epath. cbn [mbind option_bind]. by rewrite Eh, Em, omap_std. }
  split; [|eexists; split; [exact Er|]; by cbn].
  eexists. split; [exact Er|]. intros sgn' Hsgn'. pose proof (std_names uh h bucket sig Hu) as Hn.
  assert (omap split_hdr uh ++ [host_hdr h bucket; date_hdr; auth_hdr h sig] ≡ₚ (date_hdr :: omap split_hdr uh) ++ [host_hdr h bucket; auth_hdr h sig]) as Hperm.
  { solve_Permutation. }
  rewrite (sign_extra _ _ _ _ _ _ _ _ _ _ _ Hsgn' Hn (std_unsigned h bucket sig) Hperm) by (by eapply is_query_free).
  rewrite (sign_mem sgn' sgn) by done. fold sig.
  rewrite (hreq_hdr_perm _ (mkReq m u 1 1 pth (auth_hdr h sig :: (date_hdr :: omap split_hdr uh) ++ [host_hdr h bucket]))).
  - done.
  - cbn [rq_hdr]. solve_Permutation.
  - cbn [rq_hdr]. by rewrite Hperm.
Qed.

(** ** The operations *)

(** A client, a bucket and a key the requests of which are well formed. *)
Record client_ok h (bucket k : bytes) : Prop := {
  cl_acc : exists hosta prt, acc_ok (acc h) hosta prt;
  cl_sub : sub_ok (subdomain h) bucket;
  cl_bucket : Forall char bucket;
  cl_key : Forall char k;
  cl_user : (length (user h) < 80)%nat;
  cl_url : Z.of_nat (length (url_of h bucket (epath h bucket k))) < 2 ^ 32 }.

Lemma skip_space_idem v : skip_space (skip_space v) = skip_space v.
Proof. induction v as [|c v IH]; [done|]. cbn. destruct (ISSPACE c) eqn:E; [done|]. cbn. by rewrite E. Qed.

Lemma skip_space_len v : (length (skip_space v) <= length v)%nat.
Proof. induction v as [|c v IH]; [done|]. cbn. destruct (ISSPACE c); cbn; lia. Qed.

Lemma uhdr_len_nonneg uh : 0 <= uhdr_len uh.
Proof. induction uh as [|x uh IH]; [done|]. cbn. change (foldr _ 0 uh) with (uhdr_len uh). lia. Qed.

Lemma push_user_run uh total p req w :
  0 <= p -> p + uhdr_len uh <= total -> (length (rq_hdr req) + length uh <= HREQ_MAX_HDR)%nat ->
  push_user_hdrs total p uh req w =
    Some (mkReq (rq_method req) (rq_uri req) (rq_major req) (rq_minor req) (rq_orig_path req) (rq_hdr req ++ omap split_hdr uh), w).
Proof.
  revert p req. induction uh as [|x uh IH]; intros p req Hp Ht Hn.
  { cbn. rewrite app_nil_r. by destruct req. }
  cbn [push_user_hdrs uhdr_len foldr length] in *. change (foldr _ 0 uh) with (uhdr_len uh) in Ht.
  pose proof (uhdr_len_nonneg uh).
  assert (split_hdr x = (i ← memchr 58 x; Some (mkHdr (take i x) (skip_space (drop (S i) x))))) as Es by done.
  destruct (memchr 58 x) as [i|] eqn:Ei.
  - assert (i < length x)%nat as Hi.
    { unfold memchr in Ei. destruct (list_find _ x) as [[j y]|] eqn:Ef; [|done]. injection Ei as <-. apply list_find_Some in Ef as (Hj & _). by eapply lookup_lt_Some. }
    pose proof (skip_space_len (drop (S i) x)) as Hl. rewrite length_drop in Hl. rewrite (proj2 (Z.ltb_ge _ _)) by lia.
    unfold hreq_hdr_push. rewrite (proj2 (Nat.eqb_neq _ _)) by lia. cbn [snd].
    rewrite IH; cbn [rq_method rq_uri rq_major rq_minor rq_orig_path rq_hdr]; [|lia|lia|rewrite length_app; cbn; lia].
    cbn [omap list_omap]. rewrite Es. cbn [mbind option_bind]. rewrite skip_space_idem. by rewrite <- app_assoc.
  - rewrite IH; [|lia|lia|lia]. cbn [omap list_omap]. by rewrite Es.
Qed.

Lemma append_all_run uh l w : exists w', w_net w' = w_net w /\ append_all mem l uh w = Some (l ++ uh, w').
Proof.
  revert l w. induction uh as [|x uh IH]; intros l w; [exists w; by rewrite app_nil_r|]. cbn [append_all].
  rewrite (bind_run _ _ _ _ _ (append_run _ _ _)). destruct (IH (l ++ [x]) (tick w)) as (w' & En & E). exists w'. split; [done|].
  by rewrite E, <- app_assoc.
Qed.

Lemma epath_facts h bucket k : Forall char bucket -> Forall char k ->
  Forall char (epath h bucket k) /\ (exists x, epath h bucket k = 47 :: x) /\ free_of [63; 35] (epath h bucket k).
Proof.
  intros Hb Hk. pose proof (path_of_char h bucket k Hb Hk) as Hp. split; [|split; [|by apply path_free]].
  - apply Forall_concat, Forall_fmap. eapply Forall_impl; [exact Hp|]. intros c Hc. cbn. unfold esc. destruct (plain _ c); [constructor; [exact Hc|done]|].
    unfold char in Hc. destruct (nibbles c) as (H1 & H2 & _); [lia|].
    assert (forall d, 0 <= d < 16 -> char (esc_digit d)) as He by (intros d Hd; unfold char, esc_digit; destruct (Z.ltb_spec d 10); lia).
    do 3 (constructor; [first [by apply He | unfold char; lia]|]). done.
  - unfold epath, path_of. destruct (subdomain h); by eexists.
Qed.

(** The outcome of an operation that performs [o]. *)
Definition performs {A} (m : M A) w (o : curl_opts) (res : Z -> list bytes -> option A) : Prop :=
  let '(rc, data, n) := curl_easy_perform o (w_net w) in
  match res rc data with
  | Some a => exists w', m w = Some (a, w') /\ w_net w' = n
  | None => m w = None
  end.

Lemma put_opts h sgn bucket k rd len uh w :
  client_ok h bucket k -> user_hdrs_ok (default [] uh) -> (length (default [] uh) < HREQ_MAX_HDR)%nat -> (forall i, sgn i = true) ->
  exists o, performs (hstor_put mem junk now sgn h bucket k rd len uh) w o (fun rc _ => Some (rc =? 0)) /\
    verifies (user h) (key h) (sub_bucket h bucket) o /\
    co_upload o = Some (len, rd) /\ co_failonerror o = true /\ (forall x, x ∈ default [] uh -> x ∈ co_httpheader o) /\
    exists r, received o = Some r /\ rq_method r = str "PUT" /\ tk_text (path (rq_uri r)) = Some (epath h bucket k).
Proof.
  intros [(hosta & prt & Ha) Hs Hb Hk Hu Hl] Huh Hn Hsgn. destruct (epath_facts h bucket k Hb Hk) as (E1 & E2 & E3).
  set (req0 := mkReq (str "PUT") no_uri 0 0 (epath h bucket k) (date_hdr :: omap split_hdr (default [] uh))).
  set (o := mkOpts (url_of h bucket (epath h bucket k)) (default [] uh ++ [hosthdr h bucket; str "Date: " ++ date_text;
     auth_text h (hreq_sign sgn req0 (sub_bucket h bucket) (key h))]) (Some (str "PUT")) false false true (Some (len, rd))).
  destruct (verifies_std h bucket (sub_bucket h bucket) (str "PUT") (epath h bucket k) None (default [] uh) sgn hosta prt o) as [V (r & R1 & R2 & _ & R3 & _)];
    try done; [by cbn; rewrite app_nil_r|].
  exists o. split; [|split; [done|split; [done|split; [done|split; [|by eexists]]]]].
  2:{ intros x Hx. cbn. apply elem_of_app. by left. }
  unfold performs. destruct (curl_easy_perform o (w_net w)) as [[rc data] n] eqn:Eo.
  unfold hstor_put. destruct (resplit_run h bucket k w Hb Hk) as (w1 & N1 & Erun). rewrite (bind_run _ _ _ _ _ Erun). clear Erun. rewrite (bind_run _ _ _ _ _ (push_date_run _ _ _)).
  cbn beta iota zeta.
  assert (forall hd w2, w_net w2 = w_net w -> hd = default [] uh -> exists w',
    (auth ← sign_auth h sgn req0 (sub_bucket h bucket);
     headers ← std_headers mem hd (hosthdr h bucket) (str "Date: " ++ date_text) auth;
     '(rc, _) ← perform (mkOpts (url_of h bucket (epath h bucket k)) headers (Some (str "PUT")) false false true (Some (len, rd)));
     mret (rc =? 0)) w2 = Some (rc =? 0, w') /\ w_net w' = n) as Hsend.
  { intros hd w2 N2 ->. rewrite (bind_run _ _ _ _ _ (sign_auth_run _ _ _ _ _ Hu)).
    destruct (std_headers_run (default [] uh) (hosthdr h bucket) (str "Date: " ++ date_text) (auth_text h (hreq_sign sgn req0 (sub_bucket h bucket) (key h))) w2) as (w3 & N3 & Erun). rewrite (bind_run _ _ _ _ _ Erun). clear Erun.
    erewrite bind_run; [|unfold perform; fold o; rewrite N3, N2, Eo; done]. by eexists. }
  destruct uh as [uh|]; cbn [default from_option id] in *.
  - destruct (append_all_run uh [] w1) as (w2 & N2 & Erun). rewrite (bind_run _ _ _ _ _ Erun). clear Erun. erewrite bind_run; [|unfold alloc; by rewrite mem_ok]. cbn [negb].
    erewrite bind_run; [|apply push_user_run; cbn; lia]. apply Hsend; [by rewrite <- N1, <- N2|done].
  - by apply Hsend.
Qed.

(** What libcurl gets by calling a reader with buffers of these sizes. *)
Fixpoint read_calls {S} (cb : Z -> Z -> S -> option (bytes * Z * S)) (sizes : list Z) (st : S) : option bytes :=
  match sizes with
  | [] => Some []
  | n :: sizes =>
      r ← cb 1 n st;
      if r.1.2 =? 0 then Some [] else b ← read_calls cb sizes r.2; Some (r.1.1 ++ b)
  end.

Lemma read_inline_run n d :
  0 < n < 2 ^ 31 -> Z.of_nat (length d) < 2 ^ 64 ->
  let m := Z.min n (Z.of_nat (length d)) in
  read_inline_cb 1 n (mkPutInfo d (Z.of_nat (length d))) =
    Some (take (Z.to_nat m) d, m, mkPutInfo (drop (Z.to_nat m) d) (Z.of_nat (length (drop (Z.to_nat m) d)))).
Proof.
  intros Hn Hd m. unfold read_inline_cb. cbn [spi_len spi_data].
  assert (s32 (u64 (1 * n)) = n) as -> by (unfold u64; rewrite uw_small by lia; unfold s32; rewrite sw_small; lia).
  assert (u64 n = n) as -> by (unfold u64; rewrite uw_small; lia). fold m.
  assert (s32 m = m) as -> by (unfold s32; rewrite sw_small; lia). cbn zeta.
  destruct (Z.eqb_spec m 0) as [E|E].
  { rewrite E. done. }
  rewrite (proj2 (Z.ltb_ge _ 0)), (proj2 (Z.ltb_ge _ m)) by lia. cbn [orb]. do 3 f_equal. rewrite length_drop. unfold u64. rewrite uw_small; lia.
Qed.

Lemma read_inline_calls sizes d :
  Forall (fun n => 0 < n < 2 ^ 31) sizes -> Z.of_nat (length d) < 2 ^ 64 ->
  read_calls read_inline_cb sizes (mkPutInfo d (Z.of_nat (length d))) = Some (take (Z.to_nat (foldr Z.add 0 sizes)) d).
Proof.
  intros Hs. revert d. induction Hs as [|n sizes Hn Hs IH]; intros d Hd; [done|]. cbn [read_calls foldr].
  assert (0 <= foldr Z.add 0 sizes) as H0 by (clear -Hs; induction Hs; cbn; lia).
  rewrite read_inline_run by done. cbn [mbind option_bind fst snd]. set (L := Z.of_nat (length d)) in *.
  destruct (Z.eqb_spec (Z.min n L) 0) as [E|E].
  { destruct d; [by rewrite take_nil|unfold L in E; cbn in E; lia]. }
  rewrite IH by (rewrite length_drop; lia). cbn [mbind option_bind]. f_equal.
  destruct (Z.le_gt_cases n L) as [Hc|Hc].
  - rewrite Z.min_l by lia. rewrite Z2Nat.inj_add by lia. by rewrite take_take_drop.
  - rewrite Z.min_r by lia. rewrite !(take_ge d), drop_ge, take_nil, app_nil_r by lia. done.
Qed.

(** A put sends what it was given: the request performed carries a signature
    that verifies against what arrives - the URL, the method and the headers,
    the caller's included - its path is the object's, the length announced is
    that of the data, and whatever sizes libcurl reads the body in, it reads
    the data in order to the end; the result is that of the transfer. *)
Theorem put_signed h sgn bucket k data uh w :
  client_ok h bucket k -> user_hdrs_ok (default [] uh) -> (length (default [] uh) < HREQ_MAX_HDR)%nat -> (forall i, sgn i = true) ->
  Z.of_nat (length data) < 2 ^ 64 ->
  exists o rd, performs (hstor_put_inline mem junk now sgn h bucket k data uh) w o (fun rc _ => Some (rc =? 0)) /\
    verifies (user h) (key h) (sub_bucket h bucket) o /\
    (exists r, received o = Some r /\ rq_method r = str "PUT" /\ tk_text (path (rq_uri r)) = Some (epath h bucket k)) /\
    (forall x, x ∈ default [] uh -> x ∈ co_httpheader o) /\
    co_upload o = Some (Z.of_nat (length data), rd) /\
    forall sizes, Forall (fun n => 0 < n < 2 ^ 31) sizes -> read_calls (rd_cb rd) sizes (rd_data rd) = Some (take (Z.to_nat (foldr Z.add 0 sizes)) data).
Proof.
  intros Hc Hu Hn Hs Hd. set (rd := mkReader _ read_inline_cb (mkPutInfo data (Z.of_nat (length data)))).
  destruct (put_opts h sgn bucket k rd (Z.of_nat (length data)) uh w Hc Hu Hn Hs) as (o & P & V & U & _ & X & R).
  exists o, rd. split_and!; try done. intros sizes Hz. by apply read_inline_calls.
Qed.

Lemma deliver_all pieces rc acc0 :
  Forall (fun p => Z.of_nat (length p) < 2 ^ 31) pieces -> deliver all_data_cb pieces rc acc0 = Some (rc, acc0 ++ concat pieces).
Proof.
  intros Hp. revert acc0. induction Hp as [|p pieces Hp _ IH]; intros acc0; [by rewrite app_nil_r|]. cbn [deliver concat].
  assert (all_data_cb p 1 (Z.of_nat (length p)) acc0 = Some (Z.of_nat (length p), acc0 ++ p)) as ->.
  { unfold all_data_cb. assert (s32 (u64 (1 * Z.of_nat (length p))) = Z.of_nat (length p)) as -> by (unfold u64; rewrite uw_small by lia; unfold s32; rewrite sw_small; lia).
    assert (u32 (Z.of_nat (length p)) = Z.of_nat (length p)) as -> by (unfold u32; rewrite uw_small; lia). rewrite (proj2 (Z.ltb_ge _ _)) by lia.
    unfold u64. rewrite uw_small by lia. by rewrite Nat2Z.id, take_ge by lia. }
  cbn [mbind option_bind fst snd]. rewrite Z.eqb_refl, IH. by rewrite app_assoc.
Qed.

(** A get fetches the object: the request performed verifies and its path is
    the object's; when libcurl reports success the result is the answer's
    bytes, put together from the pieces, and otherwise there is none. *)
Theorem get_signed h sgn bucket k hdrs w :
  client_ok h bucket k -> (forall i, sgn i = true) ->
  (forall o n, Forall (fun p => Z.of_nat (length p) < 2 ^ 31) (curl_easy_perform o n).1.2) ->
  exists o, performs (hstor_get_inline mem junk now sgn h bucket k hdrs) w o (fun rc data => Some (if rc =? 0 then Some (concat data) else None)) /\
    verifies (user h) (key h) (sub_bucket h bucket) o /\
    exists r, received o = Some r /\ rq_method r = str "GET" /\ tk_text (path (rq_uri r)) = Some (epath h bucket k).
Proof.
  intros [(hosta & prt & Ha) Hs Hb Hk Hu Hl] Hsgn Hcurl. destruct (epath_facts h bucket k Hb Hk) as (E1 & E2 & E3).
  set (o := mkOpts (url_of h bucket (epath h bucket k)) ([hosthdr h bucket; str "Date: " ++ date_text;
     auth_text h (hreq_sign sgn (mkReq (str "GET") no_uri 0 0 (epath h bucket k) [date_hdr]) (sub_bucket h bucket) (key h))]) None hdrs true true None).
  destruct (verifies_std h bucket (sub_bucket h bucket) (str "GET") (epath h bucket k) None [] sgn hosta prt o) as [V (r & R1 & R2 & _ & R3 & _)];
    try done; [apply user_hdrs_nil|by cbn; rewrite app_nil_r|].
  exists o. split; [|split; [done|by eexists]].
  specialize (Hcurl o (w_net w)). unfold performs. destruct (curl_easy_perform o (w_net w)) as [[rc data] n] eqn:Eo. cbn in Hcurl.
  assert (exists w', hstor_get mem junk now sgn h bucket k all_data_cb [] hdrs w = Some ((rc =? 0, concat data), w') /\ w_net w' = n) as (w' & Eg & Nw).
  2:{ exists w'. split; [|done]. unfold hstor_get_inline. by rewrite (bind_run _ _ _ _ _ Eg). }
  unfold hstor_get. destruct (resplit_run h bucket k w Hb Hk) as (w1 & N1 & Erun). rewrite (bind_run _ _ _ _ _ Erun). clear Erun. rewrite (bind_run _ _ _ _ _ (push_date_run _ _ _)).
  rewrite (bind_run _ _ _ _ _ (sign_auth_run _ _ _ _ _ Hu)).
  edestruct (std_headers_run [] (hosthdr h bucket) (str "Date: " ++ date_text)) as (w3 & N3 & Erun). rewrite (bind_run _ _ _ _ _ Erun). clear Erun.
  erewrite bind_run; [|unfold perform; cbn [app]; fold o; rewrite N3, N1, Eo; done]. cbn beta iota.
  rewrite deliver_all by done. by eexists.
Qed.

(** A delete is signed without the bucket, also where the bucket is part of the
    host name and not of the path: what is signed then is never what the
    other operations sign. *)
Lemma del_unsigned_bucket h sgn bucket k w :
  client_ok h bucket k -> (forall i, sgn i = true) ->
  exists o, performs (hstor_del mem junk now sgn h bucket k) w o (fun rc _ => Some (rc =? 0)) /\
    verifies (user h) (key h) None o /\
    forall r, received o = Some r -> sign_text sgn r (Some bucket) <> sign_text sgn r None.
Proof.
  intros [(hosta & prt & Ha) Hs Hb Hk Hu Hl] Hsgn. destruct (epath_facts h bucket k Hb Hk) as (E1 & E2 & E3).
  set (o := mkOpts (url_of h bucket (epath h bucket k)) ([hosthdr h bucket; str "Date: " ++ date_text;
     auth_text h (hreq_sign sgn (mkReq (str "DELETE") no_uri 0 0 (epath h bucket k) [date_hdr]) None (key h))]) (Some (str "DELETE")) false false true None).
  destruct (verifies_std h bucket None (str "DELETE") (epath h bucket k) None [] sgn hosta prt o) as [V _];
    try done; [apply user_hdrs_nil|by cbn; rewrite app_nil_r|].
  exists o. split; [|split; [done|]].
  - unfold performs. destruct (curl_easy_perform o (w_net w)) as [[rc data] n] eqn:Eo.
    unfold hstor_del. destruct (resplit_run h bucket k w Hb Hk) as (w1 & N1 & Erun). rewrite (bind_run _ _ _ _ _ Erun). clear Erun. rewrite (bind_run _ _ _ _ _ (push_date_run _ _ _)).
    rewrite (bind_run _ _ _ _ _ (sign_auth_run _ _ _ _ _ Hu)).
    edestruct (std_headers_run [] (hosthdr h bucket) (str "Date: " ++ date_text)) as (w3 & N3 & Erun). rewrite (bind_run _ _ _ _ _ Erun). clear Erun.
    erewrite bind_run; [|unfold perform; cbn [app]; fold o; rewrite N3, N1, Eo; done]. by eexists.
  - intros r _ E. apply (f_equal length) in E. unfold sign_text in E. rewrite !length_app in E. cbn [length] in E. lia.
Qed.

(** The buffer for the authorization holds the names of users of up to 79
    characters, and no longer ones: with such a name every operation that gets
    as far as signing writes past its end. *)
Theorem auth_bound h sgn bucket k del :
  Forall char bucket -> Forall char k -> (80 <= length (user h))%nat ->
  (forall w, hstor_list_buckets mem now sgn h w = None) /\
  (forall w, __hstor_ad_bucket mem junk now sgn h bucket del w = None) /\
  (forall W cb (d : W) hd w, hstor_get mem junk now sgn h bucket k cb d hd w = None) /\
  (forall rd len w, hstor_put mem junk now sgn h bucket k rd len None w = None) /\
  (forall w, hstor_del mem junk now sgn h bucket k w = None) /\
  (forall p m d n w, hstor_keys mem junk now sgn h bucket p m d n w = None).
Proof.
  intros Hb Hk Hu. pose proof (fun req b w => sign_auth_overflow h sgn req b w Hu) as Ho.
  assert (forall A (m : M bytes) (f : bytes -> M A) w, m w = None -> (m ≫= f) w = None) as Hn by (intros A m f w E; unfold mbind, M_bind; by rewrite E).
  split_and!; intros.
  - unfold hstor_list_buckets. rewrite (bind_run _ _ _ _ _ (push_date_run _ _ _)). by apply Hn.
  - unfold __hstor_ad_bucket. destruct (resplit_run h bucket [] w Hb ltac:(done)) as (w1 & _ & E). rewrite (bind_run _ _ _ _ _ E). rewrite (bind_run _ _ _ _ _ (push_date_run _ _ _)). by apply Hn.
  - unfold hstor_get. destruct (resplit_run h bucket k w Hb Hk) as (w1 & _ & E). rewrite (bind_run _ _ _ _ _ E). rewrite (bind_run _ _ _ _ _ (push_date_run _ _ _)). by apply Hn.
  - unfold hstor_put. destruct (resplit_run h bucket k w Hb Hk) as (w1 & _ & E). rewrite (bind_run _ _ _ _ _ E). rewrite (bind_run _ _ _ _ _ (push_date_run _ _ _)). by apply Hn.
  - unfold hstor_del. destruct (resplit_run h bucket k w Hb Hk) as (w1 & _ & E). rewrite (bind_run _ _ _ _ _ E). rewrite (bind_run _ _ _ _ _ (push_date_run _ _ _)). by apply Hn.
  - unfold hstor_keys. rewrite (bind_run _ _ _ _ _ (asprintf_run _ _)). cbn beta iota. rewrite (bind_run _ _ _ _ _ (push_date_run _ _ _)). by apply Hn.
Qed.

End run.

(** ** Listing a bucket, from the parameters to the list returned *)

(** ** The query *)

Definition params (prefix marker delim : option bytes) (max_keys : Z) : list (bytes * bytes) :=
  option_list (pair (str "prefix") <$> prefix) ++ option_list (pair (str "marker") <$> marker) ++
  option_list (pair (str "delimiter") <$> delim) ++ (if max_keys =? 0 then [] else [(str "max-keys", fmt_lu max_keys)]).

Definition sep (ps : list (bytes * bytes)) : bytes := match ps with [] => str "?" | _ => str "&" end.
Definition qs (ps : list (bytes * bytes)) : option bytes := match ps with [] => None | _ => Some (query_print ps) end.

Lemma query_print_snoc ps kv : ps <> [] -> query_print (ps ++ [kv]) = query_print ps ++ str "&" ++ pair_print kv.
Proof.
  induction ps as [|a ps IH]; [done|]. intros _. destruct ps as [|b ps]; [done|]. change ((a :: b :: ps) ++ [kv]) with (a :: (b :: ps) ++ [kv]).
  cbn [query_print app]. cbn [query_print app] in IH. rewrite IH by done. by rewrite <- !app_assoc.
Qed.

Lemma qs_snoc ps kv : before 63 (qs (ps ++ [kv])) = before 63 (qs ps) ++ sep ps ++ pair_print kv.
Proof.
  destruct ps as [|a ps]; [done|]. assert (qs ((a :: ps) ++ [kv]) = Some (query_print ((a :: ps) ++ [kv]))) as -> by done.
  rewrite query_print_snoc by done. done.
Qed.

Lemma sep_snoc ps kv : sep (ps ++ [kv]) = str "&".
Proof. by destruct ps. Qed.

Lemma escape_digits mask n : 0 <= n -> mask = QUERY_ESCAPE_MASK -> escape mask (fmt_lu n) = fmt_lu n.
Proof.
  intros Hn ->. pose proof (fmt_lu_digits n Hn) as Hd. induction Hd as [|c s Hc _ IH]; [done|]. unfold escape in *. cbn [fmap list_fmap concat].
  rewrite IH. unfold esc. assert (plain QUERY_ESCAPE_MASK c = true) as ->; [|done].
  assert (c ∈ [48; 49; 50; 51; 52; 53; 54; 55; 56; 57]) as Hi by (rewrite !elem_of_cons; lia).
  repeat (apply elem_of_cons in Hi as [->|Hi]; [done|]). by apply elem_of_nil in Hi.
Qed.

Lemma fmt_lu_len n : (length (fmt_lu n) <= 20)%nat.
Proof.
  unfold fmt_lu. assert (forall fuel n acc, (length (fmt_lu_loop fuel n acc) <= fuel + length acc)%nat) as H.
  { induction fuel as [|fuel IH]; intros m acc; cbn; [lia|]. destruct (_ =? 0); [cbn; lia|]. specialize (IH (m / 10) (48 + m mod 10 :: acc)). cbn in IH. lia. }
  specialize (H 20%nat n []). by rewrite Nat.add_0_r in H.
Qed.

Lemma escape_no_hash v : Forall char v -> Forall char (escape QUERY_ESCAPE_MASK v) /\ free_of [35] (escape QUERY_ESCAPE_MASK v).
Proof.
  intros Hv. unfold free_of. split; apply Forall_concat, Forall_fmap; (eapply Forall_impl; [exact Hv|]); intros c Hc; cbn; unfold esc;
    (destruct (plain QUERY_ESCAPE_MASK c) eqn:Ep; [constructor; [|done]|]); unfold char in Hc; try (by unfold char).
  2:{ unfold is_one. apply bool_decide_eq_false_2. rewrite elem_of_cons, elem_of_nil. intros [ ->|[]]. by vm_compute in Ep. }
  all: destruct (nibbles c) as (H1 & H2 & _); [lia|].
  - assert (forall d, 0 <= d < 16 -> char (esc_digit d)) as He by (intros d Hd; unfold char, esc_digit; destruct (Z.ltb_spec d 10); lia).
    do 3 (constructor; [first [by apply He | unfold char; lia]|]). done.
  - assert (forall d, 0 <= d < 16 -> is_one [35] (esc_digit d) = false) as He.
    { intros d Hd. unfold is_one. apply bool_decide_eq_false_2. rewrite elem_of_cons, elem_of_nil. intros [E|[]]. unfold esc_digit in E. destruct (Z.ltb_spec d 10); lia. }
    do 3 (constructor; [first [by apply He | done]|]). done.
Qed.

(** Values a listing may be asked with. *)
Definition val_opt (v : option bytes) : Prop := forall x, v = Some x -> val_ok x.

Lemma params_ok prefix marker delim max_keys :
  val_opt prefix -> val_opt marker -> val_opt delim -> 0 <= max_keys ->
  Forall (fun kv => key_ok kv.1 /\ val_ok kv.2) (params prefix marker delim max_keys) /\
  NoDup (params prefix marker delim max_keys).*1 /\ (length (params prefix marker delim max_keys) <= 4)%nat.
Proof.
  intros Hp Hm Hd Hk.
  assert (forall s, forallb (fun c => (0 <? c) && (c <? 256) && negb (c =? 61) && negb (c =? 37)) (str s) = true -> str s <> [] -> lower (str s) = str s -> key_ok (str s)) as Hkey.
  { intros s Hs H0 Hl. rewrite forallb_forall in Hs. split_and!; try done; apply Forall_forall; intros c Hc; apply list_elem_of_In, Hs in Hc; simplify_bool; unfold char; lia. }
  assert (forall n, 0 <= n -> val_ok (fmt_lu n)) as Hfmt.
  { intros n Hn. eapply Forall_impl; [by apply fmt_lu_digits|]. unfold char. cbn. lia. }
  unfold params. split_and!.
  - assert (forall s v, key_ok (str s) -> val_opt v -> Forall (fun kv => key_ok kv.1 /\ val_ok kv.2) (option_list (pair (str s) <$> v))) as Hopt.
    { intros s [v|] Hs Hv; [|constructor]. cbn. constructor; [|constructor]. split; [exact Hs|by apply Hv]. }
    repeat (apply Forall_app; split); try (apply Hopt; [by apply Hkey|done]). destruct (max_keys =? 0); [constructor|]. constructor; [|constructor].
    split; [by apply Hkey|by apply Hfmt].
  - destruct prefix, marker, delim, (max_keys =? 0); cbn [fmap option_fmap option_map option_list app list_fmap]; apply (bool_decide_unpack _); by vm_compute.
  - rewrite !length_app. destruct prefix, marker, delim, (max_keys =? 0); cbn; lia.
Qed.

Lemma query_print_chars ps : Forall (fun kv => key_ok kv.1 /\ val_ok kv.2) ps -> Forall (fun kv => free_of [35] kv.1) ps ->
  Forall char (query_print ps) /\ free_of [35] (query_print ps).
Proof.
  intros Hk. induction Hk as [|[k v] ps [(_ & Hkc & _) Hv] _ IH]; intros Hf; [by repeat constructor|]. apply Forall_cons in Hf as [Hf1 Hf]. cbn [fst snd] in *.
  assert (Forall char v) as Hvc by (eapply Forall_impl; [exact Hv|]; by intros c []). destruct (escape_no_hash v Hvc) as [He1 He2].
  assert (Forall char (pair_print (k, v)) /\ free_of [35] (pair_print (k, v))) as [Hp1 Hp2].
  { unfold pair_print. cbn [fst snd]. split; repeat (apply Forall_app; split); try done; constructor; try done; unfold char; lia. }
  destruct (IH Hf) as [IH1 IH2]. destruct ps as [|kv ps]; [done|].
  change (query_print ((k, v) :: kv :: ps)) with (pair_print (k, v) ++ [38] ++ query_print (kv :: ps)).
  split; repeat (apply Forall_app; split); try done; constructor; try done; unfold char; lia.
Qed.

(** ** The answer *)

(** The document a service answers with. *)
Definition text (s : bytes) : list node := match s with [] => [] | _ => [Text s] end.
Definition field (name : string) (v : option bytes) : list node := match v with Some s => [Element (str name) (text s)] | None => [] end.

Definition owner_xml (id name : option bytes) : list node := [Element (str "Owner") (field "ID" id ++ field "DisplayName" name)].
Definition obj_xml (o : hstor_object) : list node :=
  field "Key" (ob_key o) ++ field "LastModified" (ob_time_mod o) ++ field "ETag" (ob_etag o) ++ field "Size" (Some (fmt_lu (ob_size o))) ++
  field "StorageClass" (ob_storage o) ++ owner_xml (ob_own_id o) (ob_own_name o).
Definition kl_xml (kl : hstor_keylist) : list node :=
  field "Name" (kl_name kl) ++ field "Prefix" (kl_prefix kl) ++ field "Marker" (kl_marker kl) ++ field "Delimiter" (kl_delim kl) ++
  field "MaxKeys" (Some (fmt_lu (kl_max_keys kl))) ++ field "IsTruncated" (Some (if kl_trunc kl then str "true" else str "false")) ++
  ((fun o => Element (str "Contents") (obj_xml o)) <$> kl_contents kl) ++
  ((fun p => Element (str "CommonPrefixes") (field "Prefix" p)) <$> kl_common_pfx kl).

Definition nonempty (v : option bytes) : Prop := v <> Some [].

(** Lists such a document stands for: [strdup] is not given NULL. *)
Record obj_ok (o : hstor_object) : Prop := {
  oo_key : exists k, ob_key o = Some k /\ k <> [];
  oo_opt : Forall nonempty [ob_time_mod o; ob_etag o; ob_storage o; ob_own_id o; ob_own_name o];
  oo_size : 0 <= ob_size o < 2 ^ 63 }.
Record kl_ok (kl : hstor_keylist) : Prop := {
  ko_name : nonempty (kl_name kl);
  ko_max : 0 <= kl_max_keys kl < 2 ^ 31;
  ko_contents : Forall obj_ok (kl_contents kl);
  ko_pfx : Forall (fun p => exists x, p = Some x /\ x <> []) (kl_common_pfx kl) }.

Lemma digits_fmt fuel : forall n acc, 0 <= n < 10 ^ Z.of_nat fuel -> (0 < fuel)%nat -> digits (fmt_lu_loop fuel n acc) 0 = digits acc n.
Proof.
  induction fuel as [|fuel IH]; intros n acc Hn Hf; [lia|]. cbn [fmt_lu_loop].
  pose proof (Z.div_mod n 10 ltac:(lia)) as Hd. pose proof (Z.mod_pos_bound n 10 ltac:(lia)) as Hr.
  assert (isdigit (48 + n mod 10) = true) as Hdig by (unfold isdigit; rewrite !(proj2 (Z.leb_le _ _)) by lia; done).
  destruct (Z.eqb_spec (n / 10) 0) as [E|E].
  - cbn [digits]. rewrite Hdig. f_equal. lia.
  - assert (0 <= n / 10) by (apply Z.div_pos; lia).
    assert (n / 10 < 10 ^ Z.of_nat fuel) by (apply Z.div_lt_upper_bound; [lia|]; rewrite Nat2Z.inj_succ, Z.pow_succ_r in Hn; lia).
    rewrite IH; [|lia|destruct fuel; [cbn in *; lia|lia]]. cbn [digits]. rewrite Hdig. f_equal. lia.
Qed.

Lemma fmt_lu_cons n : exists c s, fmt_lu n = c :: s.
Proof.
  unfold fmt_lu. assert (forall fuel n c acc, exists c' s, fmt_lu_loop fuel n (c :: acc) = c' :: s) as H.
  { induction fuel as [|fuel IH]; intros m c acc; cbn; [by eexists _, _|]. destruct (_ =? 0); [by eexists _, _|]. apply IH. }
  cbn [fmt_lu_loop]. destruct (_ =? 0); [by eexists _, _|]. apply (H 19%nat).
Qed.

Lemma ato_fmt w n : 0 <= n < 2 ^ (w - 1) -> n < 10 ^ 20 -> ato w (Some (fmt_lu n)) = Some n.
Proof.
  intros Hn Hm. assert (digits (fmt_lu n) 0 = n) as Hdig by (unfold fmt_lu; rewrite digits_fmt; [done|cbn; lia|lia]).
  pose proof (fmt_lu_digits n ltac:(lia)) as Hd. destruct (fmt_lu_cons n) as (c & s & E). rewrite E in *. apply Forall_cons in Hd as [Hc _].
  unfold ato. cbn [mbind option_bind skip_space].
  assert (ISSPACE c = false) as -> by (unfold ISSPACE; rewrite (proj2 (Z.leb_gt c 13)), (proj2 (Z.eqb_neq c 32)), andb_false_r by lia; done).
  rewrite (proj2 (Z.eqb_neq c 45)), (proj2 (Z.eqb_neq c 43)), Hdig by lia.
  rewrite (proj2 (Z.leb_le _ _)), (proj2 (Z.ltb_lt _ _)) by lia. done.
Qed.

(** ** Reading it *)

(** Decide the comparisons of literal names. *)
Ltac names :=
  repeat match goal with
  | |- context [is_name (str ?a) ?b] => let v := eval vm_compute in (is_name (str a) b) in change (is_name (str a) b) with v
  end; cbn beta iota.

Section read.
Context {SG : Sig} {QS : Qsort} {CU : Curl} {LX : Libxml}.
Context (mem : nat -> bool) (junk : nat -> bytes) (now : Z).
Hypothesis mem_ok : forall i, mem i = true.
Hypothesis junk_ok : forall n, length (junk n) = n.

Implicit Types (w : world) (rest : list node).

(** [m] leaves the network alone and goes on as [m']. *)
Definition goes {A} (m m' : M A) : Prop := forall w, exists w', w_net w' = w_net w /\ m w = m' w'.

Lemma goes_trans {A} (m1 m2 m3 : M A) : goes m1 m2 -> goes m2 m3 -> goes m1 m3.
Proof.
  intros H1 H2 w. destruct (H1 w) as (w1 & N1 & ->). destruct (H2 w1) as (w2 & N2 & ->). exists w2. split; [congruence|done].
Qed.

Lemma goes_refl {A} (m : M A) : goes m m.
Proof. intros w. by exists w. Qed.

Lemma get_text s : s <> [] -> xmlNodeListGetString (text s) = Some s.
Proof. destruct s; [done|]. intros _. by apply get_string_text. Qed.

Lemma get_text_default s : default [] (xmlNodeListGetString (text s)) = s.
Proof. destruct s; cbn; [by rewrite get_string_nil|by rewrite get_string_text]. Qed.

Lemma goes_strdup {A} s (f : option bytes -> M A) : s <> [] -> goes (strdup mem (xmlNodeListGetString (text s)) ≫= f) (f (Some s)).
Proof.
  intros Hs w. exists (tick w). split; [done|]. rewrite get_text by done. by rewrite (bind_run _ _ _ _ _ (asprintf_run mem mem_ok s w)).
Qed.

Lemma goes_text {A} s (f : option bytes -> M A) : goes (asprintf mem (default [] (xmlNodeListGetString (text s))) ≫= f) (f (Some s)).
Proof. intros w. exists (tick w). split; [done|]. by rewrite get_text_default, (bind_run _ _ _ _ _ (asprintf_run mem mem_ok s w)). Qed.

Lemma goes_bind {A B} (m : M A) (f : A -> M B) a : goes m (mret a) -> goes (m ≫= f) (f a).
Proof. intros H w. destruct (H w) as (w' & N & E). exists w'. split; [done|]. by rewrite (bind_run _ _ _ _ _ E). Qed.

(** A field that is there, or is not. *)
Lemma goes_field {A X} (P : list node -> X -> M A) n v rest (upd : option bytes -> X) :
  nonempty v -> (forall s, s <> [] -> goes (P (Element (str n) (text s) :: rest) (upd None)) (P rest (upd (Some s)))) ->
  goes (P (field n v ++ rest) (upd None)) (P rest (upd v)).
Proof. intros Hv H. destruct v as [s|]; [|apply goes_refl]. apply H. intros ->. by apply Hv. Qed.

Lemma owner_goes id name : nonempty id -> nonempty name -> goes (parse_owner mem (field "ID" id ++ field "DisplayName" name) None None) (mret (id, name)).
Proof.
  intros Hi Hn. eapply goes_trans.
  { apply (goes_field (fun l v => parse_owner mem l v None) "ID" id _ (fun v => v)); [done|]. intros s Hs. cbn [parse_owner]. names. by apply goes_strdup. }
  rewrite <- (app_nil_r (field "DisplayName" name)).
  apply (goes_field (fun l v => parse_owner mem l id v) "DisplayName" name [] (fun v => v)); [done|]. intros s Hs. cbn [parse_owner]. names. by apply goes_strdup.
Qed.

Lemma size_goes k t e n rest :
  0 <= n < 2 ^ 63 -> goes (parse_object mem (field "Size" (Some (fmt_lu n)) ++ rest) (mkObject k t e 0 None None None)) (parse_object mem rest (mkObject k t e n None None None)).
Proof.
  intros Hn. cbn [field app parse_object]. names. replace (mkObject k t e n None None None) with (mkObject k t e (u64 n) None None None) by (unfold u64; rewrite uw_small by lia; done).
  apply (goes_bind (lift _) (fun n => parse_object mem rest (mkObject k t e (u64 n) None None None)) n). intros w. exists w. split; [done|].
  destruct (fmt_lu_cons n) as (c & s & E). rewrite get_text by (by rewrite E). by rewrite ato_fmt by lia.
Qed.

Lemma object_goes o : obj_ok o -> goes (parse_object mem (obj_xml o) (mkObject None None None 0 None None None)) (mret o).
Proof.
  intros [(k & Ek & Hk) Ho Hs]. destruct o as [ok tmd etag size sto oid onm]. cbn [ob_key ob_time_mod ob_etag ob_size ob_storage ob_own_id ob_own_name] in *.
  subst ok. rewrite !Forall_cons in Ho. destruct Ho as (H1 & H2 & H3 & H4 & H5 & _). unfold obj_xml. cbn [ob_key ob_time_mod ob_etag ob_size ob_storage ob_own_id ob_own_name].
  eapply goes_trans. { apply (goes_field (parse_object mem) "Key" (Some k) _ (fun v => mkObject v None None 0 None None None)); [by intros [= ->]|]. intros s Hn. cbn [parse_object]. names. by apply goes_strdup. }
  eapply goes_trans. { apply (goes_field (parse_object mem) "LastModified" tmd _ (fun v => mkObject (Some k) v None 0 None None None)); [done|]. intros s Hn. cbn [parse_object]. names. by apply goes_strdup. }
  eapply goes_trans. { apply (goes_field (parse_object mem) "ETag" etag _ (fun v => mkObject (Some k) tmd v 0 None None None)); [done|]. intros s Hn. cbn [parse_object]. names. by apply goes_strdup. }
  eapply goes_trans. { by apply size_goes. }
  eapply goes_trans. { apply (goes_field (parse_object mem) "StorageClass" sto _ (fun v => mkObject (Some k) tmd etag size v None None)); [done|]. intros s Hn. cbn [parse_object]. names. by apply goes_strdup. }
  unfold owner_xml. cbn [parse_object]. names. eapply goes_trans; [apply goes_bind; by apply owner_goes|]. apply goes_refl.
Qed.

(** A field the value of which may be empty. *)
Lemma goes_text_field {A X} (P : list node -> X -> M A) n v rest (upd : option bytes -> X) :
  (forall s, goes (P (Element (str n) (text s) :: rest) (upd None)) (P rest (upd (Some s)))) ->
  goes (P (field n v ++ rest) (upd None)) (P rest (upd v)).
Proof. intros H. destruct v as [s|]; [|apply goes_refl]. apply H. Qed.

Lemma max_goes nm p m d n rest :
  0 <= n < 2 ^ 31 ->
  goes (parse_keylist mem (field "MaxKeys" (Some (fmt_lu n)) ++ rest) (mkKeylist nm p m d 0 false [] [])) (parse_keylist mem rest (mkKeylist nm p m d n false [] [])).
Proof.
  intros Hn. cbn [field app parse_keylist]. names. replace (mkKeylist nm p m d n false [] []) with (mkKeylist nm p m d (u32 n) false [] []) by (unfold u32; rewrite uw_small by lia; done).
  apply (goes_bind (lift _) (fun n => parse_keylist mem rest (mkKeylist nm p m d (u32 n) false [] [])) n). intros w. exists w. split; [done|].
  destruct (fmt_lu_cons n) as (c & s & E). rewrite get_text by (by rewrite E). by rewrite ato_fmt by lia.
Qed.

Lemma trunc_goes nm p m d n (t : bool) rest :
  goes (parse_keylist mem (field "IsTruncated" (Some (if t then str "true" else str "false")) ++ rest) (mkKeylist nm p m d n false [] []))
       (parse_keylist mem rest (mkKeylist nm p m d n t [] [])).
Proof. cbn [field app parse_keylist]. names. rewrite get_text by (by destruct t). destruct t; apply goes_refl. Qed.

Lemma contents_goes os kl rest : Forall obj_ok os ->
  goes (parse_keylist mem (((fun o => Element (str "Contents") (obj_xml o)) <$> os) ++ rest) kl) (parse_keylist mem rest (foldl add_contents kl os)).
Proof.
  intros Ho. revert kl. induction Ho as [|o os Ho _ IH]; intros kl; [apply goes_refl|]. cbn [fmap list_fmap app foldl]. eapply goes_trans; [|apply IH].
  set (l := ((fun o => Element (str "Contents") (obj_xml o)) <$> os) ++ rest). destruct kl as [nm p m d n t c x]. cbn [parse_keylist]. names.
  apply (goes_bind (hstor_parse_key mem (obj_xml o) _) (fun kl => parse_keylist mem l kl)). unfold hstor_parse_key.
  intros w. destruct (object_goes o Ho (tick w)) as (w' & N & E). exists w'. split; [done|].
  erewrite bind_run; [|unfold alloc; by rewrite mem_ok]. cbn [negb]. fold (tick w). rewrite (bind_run _ _ _ _ _ E). destruct Ho as [(k & -> & _) _ _]. done.
Qed.

Lemma prefixes_goes ps nm p m d n t c x rest : Forall (fun p => exists x, p = Some x /\ x <> []) ps ->
  goes (parse_keylist mem (((fun p => Element (str "CommonPrefixes") (field "Prefix" p)) <$> ps) ++ rest) (mkKeylist nm p m d n t c x))
       (parse_keylist mem rest (mkKeylist nm p m d n t c (x ++ ps))).
Proof.
  intros Hp. revert x. induction Hp as [|y ps (s & -> & Hs) _ IH]; intros x; [rewrite app_nil_r; apply goes_refl|]. cbn [fmap list_fmap app].
  eapply goes_trans; [|specialize (IH (x ++ [Some s])); rewrite <- app_assoc in IH; exact IH].
  set (l := ((fun p => Element (str "CommonPrefixes") (field "Prefix" p)) <$> ps) ++ rest). cbn [parse_keylist]. names.
  apply (goes_bind (parse_prefixes mem (field "Prefix" (Some s)) x) (fun p' => parse_keylist mem l (mkKeylist nm p m d n t c p'))).
  cbn [field parse_prefixes]. names. by apply goes_strdup.
Qed.

Lemma foldl_contents os nm p m d n t c x : foldl add_contents (mkKeylist nm p m d n t c x) os = mkKeylist nm p m d n t (c ++ os) x.
Proof.
  revert c. induction os as [|o os IH]; intros c; cbn [foldl]; [by rewrite app_nil_r|]. unfold add_contents at 2. cbn. by rewrite IH, <- app_assoc.
Qed.

Lemma keylist_goes kl : kl_ok kl -> goes (parse_keylist mem (kl_xml kl) (mkKeylist None None None None 0 false [] [])) (mret kl).
Proof.
  intros [H1 H2 H3 H4]. destruct kl as [nm p m d n t c x]. unfold kl_xml. cbn [kl_name kl_prefix kl_marker kl_delim kl_max_keys kl_trunc kl_contents kl_common_pfx] in *.
  eapply goes_trans. { apply (goes_field (parse_keylist mem) "Name" nm _ (fun v => mkKeylist v None None None 0 false [] [])); [done|]. intros s Hs. cbn [parse_keylist]. names. by apply goes_strdup. }
  eapply goes_trans. { apply (goes_text_field (parse_keylist mem) "Prefix" p _ (fun v => mkKeylist nm v None None 0 false [] [])). intros s. cbn [parse_keylist]. names. apply goes_text. }
  eapply goes_trans. { apply (goes_text_field (parse_keylist mem) "Marker" m _ (fun v => mkKeylist nm p v None 0 false [] [])). intros s. cbn [parse_keylist]. names. apply goes_text. }
  eapply goes_trans. { apply (goes_text_field (parse_keylist mem) "Delimiter" d _ (fun v => mkKeylist nm p m v 0 false [] [])). intros s. cbn [parse_keylist]. names. apply goes_text. }
  eapply goes_trans. { by apply max_goes. }
  eapply goes_trans. { apply trunc_goes. }
  eapply goes_trans. { by apply contents_goes. }
  rewrite foldl_contents. rewrite <- (app_nil_r (_ <$> x)). eapply goes_trans. { by apply prefixes_goes. }
  apply goes_refl.
Qed.

End read.

(** ** The operation *)

Section keys.
Context {SG : Sig} {QS : Qsort} {CU : Curl} {LX : Libxml}.
Context (mem : nat -> bool) (junk : nat -> bytes) (now : Z).
Hypothesis mem_ok : forall i, mem i = true.
Hypothesis junk_ok : forall n, length (junk n) = n.
Hypothesis sig_len : forall k t, length (base64 (HMAC_SHA1 k t)) = 28%nat.

Implicit Types (h : hstor_client) (w : world).

Lemma qparam_goes {A} ps u k v (f : bytes * bytes -> M A) :
  val_opt v ->
  goes (opt_qparam mem junk (u ++ before 63 (qs ps)) k v (sep ps) ≫= f)
       (f (u ++ before 63 (qs (ps ++ option_list (pair k <$> v))), sep (ps ++ option_list (pair k <$> v)))).
Proof.
  intros Hv w. destruct v as [v|]; [|exists w; split; [done|]; change (option_list (pair k <$> None)) with (@nil (bytes * bytes)); by rewrite app_nil_r].
  change (option_list (pair k <$> Some v)) with [(k, v)]. cbn [opt_qparam].
  exists (tick w). split; [done|]. unfold append_qparam.
  assert (Forall char v) as Hc by (eapply Forall_impl; [exact (Hv v eq_refl)|]; by intros c []).
  erewrite bind_run. 2:{ rewrite (bind_run _ _ _ _ _ (escape_run mem junk mem_ok junk_ok v QUERY_ESCAPE_MASK w Hc)). reflexivity. }
  rewrite qs_snoc, sep_snoc. unfold pair_print. cbn [fst snd]. by rewrite <- !app_assoc.
Qed.

Lemma query_run u prefix marker delim max_keys w :
  val_opt prefix -> val_opt marker -> val_opt delim -> 0 <= max_keys < 2 ^ 32 ->
  exists w' url mk, w_net w' = w_net w /\ url ++ mk = u ++ before 63 (qs (params prefix marker delim max_keys)) /\
    forall A (f : bytes -> bytes -> M A),
      ('(url, arg_char) ← opt_qparam mem junk u (str "prefix") prefix (str "?");
       '(url, arg_char) ← opt_qparam mem junk url (str "marker") marker arg_char;
       '(url, arg_char) ← opt_qparam mem junk url (str "delimiter") delim arg_char;
       mk ← (if max_keys =? 0 then mret [] else sprintf 32 (arg_char ++ str "max-keys=" ++ fmt_lu max_keys));
       f url mk) w = f url mk w'.
Proof.
  intros Hp Hm Hd Hk. set (p1 := option_list (pair (str "prefix") <$> prefix)). set (p2 := p1 ++ option_list (pair (str "marker") <$> marker)).
  set (p3 := p2 ++ option_list (pair (str "delimiter") <$> delim)).
  set (mk := if max_keys =? 0 then [] else sep p3 ++ str "max-keys=" ++ fmt_lu max_keys).
  destruct (qparam_goes (A := bytes * bytes) [] u (str "prefix") prefix mret Hp w) as (w1 & N1 & E1).
  destruct (qparam_goes (A := bytes * bytes) p1 u (str "marker") marker mret Hm w1) as (w2 & N2 & E2).
  destruct (qparam_goes (A := bytes * bytes) p2 u (str "delimiter") delim mret Hd w2) as (w3 & N3 & E3).
  assert (forall B (m : M B) w r, (m ≫= mret) w = r -> m w = r) as Hret.
  { intros B m w0 r <-. unfold mbind, M_bind. destruct (m w0) as [[]|]; done. }
  apply Hret in E1, E2, E3. change (before 63 (qs [])) with (@nil Z) in E1. rewrite app_nil_r in E1. fold p1 p2 p3 in E1, E2, E3.
  exists w3, (u ++ before 63 (qs p3)), mk. split; [congruence|]. split.
  - unfold mk, params. rewrite <- app_assoc. fold p1. rewrite (app_assoc p1), (app_assoc p2). fold p2 p3. destruct (max_keys =? 0); [by rewrite !app_nil_r|].
    rewrite qs_snoc. unfold pair_print. cbn [fst snd]. rewrite escape_digits by lia. done.
  - intros A f. rewrite (bind_run _ _ _ _ _ E1). cbn beta iota. rewrite (bind_run _ _ _ _ _ E2). cbn beta iota. rewrite (bind_run _ _ _ _ _ E3). cbn beta iota.
    unfold mk. destruct (max_keys =? 0); [done|]. pose proof (fmt_lu_len max_keys) as Hl. erewrite bind_run; [done|]. apply sprintf_run. rewrite !length_app.
    change (length (str "max-keys=")) with 9%nat. assert (length (sep p3) = 1%nat) as -> by (by destruct p3). lia.
Qed.

Definition kpath h bucket : bytes := if subdomain h then str "/" else str "/" ++ bucket ++ str "/".

(** The parameters, in the URL. *)
Definition keys_url h bucket prefix marker delim max_keys : bytes :=
  url_of h bucket (kpath h bucket) ++ before 63 (qs (params prefix marker delim max_keys)).

Lemma keys_run h sgn bucket prefix marker delim max_keys w :
  val_opt prefix -> val_opt marker -> val_opt delim -> 0 <= max_keys < 2 ^ 32 -> (length (user h) < 80)%nat ->
  (forall o n, Forall (fun p => Z.of_nat (length p) < 2 ^ 31) (curl_easy_perform o n).1.2) ->
  let o := mkOpts (keys_url h bucket prefix marker delim max_keys)
    [hosthdr h bucket; str "Date: " ++ date_text now;
     auth_text h (hreq_sign sgn (mkReq (str "GET") no_uri 0 0 (kpath h bucket) [date_hdr now]) (sub_bucket h bucket) (key h))]
    None false true true None in
  let '(rc, data, n) := curl_easy_perform o (w_net w) in
  exists w', w_net w' = n /\ hstor_keys mem junk now sgn h bucket prefix marker delim max_keys w =
    (if negb (rc =? 0) then mret None else
     match read_doc (concat data) "ListBucketResult" with
     | None => mret None
     | Some nodes => b ← alloc mem; if negb b then mret None else
                     keylist ← parse_keylist mem nodes (mkKeylist None None None None 0 false [] []); mret (Some keylist)
     end) w'.
Proof.
  intros Hp Hm Hd Hk Hu Hcurl o. specialize (Hcurl o (w_net w)). destruct (curl_easy_perform o (w_net w)) as [[rc data] n] eqn:Eo. cbn in Hcurl.
  unfold hstor_keys. rewrite (bind_run _ _ _ _ _ (asprintf_run mem mem_ok _ _)). cbn beta iota. fold (kpath h bucket).
  rewrite (bind_run _ _ _ _ _ (push_date_run now _ _ _)). rewrite (bind_run _ _ _ _ _ (sign_auth_run sig_len _ _ _ _ _ Hu)).
  rewrite (bind_run _ _ _ _ _ (asprintf_run mem mem_ok _ _)). cbn beta iota.
  replace (if subdomain h then str "Host: " ++ bucket ++ str "." ++ host h else str "Host: " ++ host h) with (hosthdr h bucket)
    by (unfold hosthdr; destruct (subdomain h); by rewrite <- ?app_assoc).
  edestruct (std_headers_run mem mem_ok [] (hosthdr h bucket) (str "Date: " ++ date_text now)) as (w3 & N3 & Erun). rewrite (bind_run _ _ _ _ _ Erun). clear Erun.
  cbn zeta. fold (url_of h bucket (kpath h bucket)).
  destruct (query_run (url_of h bucket (kpath h bucket)) prefix marker delim max_keys w3 Hp Hm Hd Hk) as (w4 & url & mk & N4 & Eu & E4).
  rewrite E4. clear E4. rewrite Eu. fold (keys_url h bucket prefix marker delim max_keys).
  erewrite bind_run; [|unfold perform; cbn [app]; fold o; rewrite N4, N3; cbn [w_net tick]; rewrite Eo; done]. cbn beta iota.
  rewrite deliver_all by done. cbn [lift app]. eexists. split; [|reflexivity]. done.
Qed.

Lemma elem_opt s (v : option bytes) k x : (k, x) ∈ option_list (pair (str s) <$> v) <-> k = str s /\ v = Some x.
Proof.
  destruct v as [v|].
  - change (option_list (pair (str s) <$> Some v)) with [(str s, v)]. rewrite list_elem_of_singleton. split; [by intros [= -> ->]|by intros [-> [= ->]]].
  - change (option_list (pair (str s) <$> None)) with (@nil (bytes * bytes)). rewrite elem_of_nil. split; [done|by intros []].
Qed.

Lemma params_elem prefix marker delim max_keys k x :
  (k, x) ∈ params prefix marker delim max_keys <->
  (k = str "prefix" /\ prefix = Some x) \/ (k = str "marker" /\ marker = Some x) \/ (k = str "delimiter" /\ delim = Some x) \/
  (k = str "max-keys" /\ (if max_keys =? 0 then None else Some (fmt_lu max_keys)) = Some x).
Proof.
  unfold params. rewrite !elem_of_app, !elem_opt.
  assert ((if max_keys =? 0 then [] else [(str "max-keys", fmt_lu max_keys)]) =
    option_list (pair (str "max-keys") <$> (if max_keys =? 0 then None else Some (fmt_lu max_keys)))) as -> by (by destruct (max_keys =? 0)).
  by rewrite elem_opt.
Qed.

Lemma params_free prefix marker delim max_keys : Forall (fun kv => free_of [35] kv.1) (params prefix marker delim max_keys).
Proof.
  apply Forall_forall. intros [k x] Hx. rewrite params_elem in Hx. unfold free_of. cbn [fst].
  destruct Hx as [[-> _]|[[-> _]|[[-> _]|[-> _]]]]; apply (bool_decide_unpack _); by vm_compute.
Qed.

Lemma params_query_free prefix marker delim max_keys : query_free (qs (params prefix marker delim max_keys)).
Proof.
  intros x Ex. assert (exists k v r, x = k ++ [61] ++ v ++ r /\ k ∈ [str "prefix"; str "marker"; str "delimiter"; str "max-keys"]) as (k & v & r & -> & Hk).
  { unfold params in Ex. assert (forall kv ps, query_print (kv :: ps) = kv.1 ++ [61] ++ escape QUERY_ESCAPE_MASK kv.2 ++ match ps with [] => [] | _ => [38] ++ query_print ps end) as Eq.
    { intros kv [|b ps]; [by rewrite app_nil_r|]. change (query_print (kv :: b :: ps)) with (pair_print kv ++ [38] ++ query_print (b :: ps)). unfold pair_print. by rewrite <- !app_assoc. }
    assert (forall kv ps, qs (kv :: ps) = Some x -> exists v r, x = kv.1 ++ [61] ++ v ++ r) as Hc.
    { intros kv ps E. assert (x = query_print (kv :: ps)) as -> by (unfold qs in E; congruence). rewrite Eq. by eexists _, _. }
    destruct prefix as [p|]; [exists (str "prefix")|destruct marker as [p|]; [exists (str "marker")|destruct delim as [p|]; [exists (str "delimiter")|destruct (max_keys =? 0); [done|exists (str "max-keys")]]]];
      apply Hc in Ex as (v & r & ->); exists v, r; (split; [done|set_solver]). }
  split; [by destruct k|]. repeat (apply elem_of_cons in Hk as [->|Hk]; [by repeat (constructor; [done|])|]). by apply elem_of_nil in Hk.
Qed.

(** C37.  Listing a bucket, end to end, when neither prefix, marker nor delimiter
    contains an ampersand (which is not escaped and would cut the value short)
    and the user's name has less than 80 bytes: the request performed verifies,
    the parameters the receiver reads out of its query are those given and no
    other, and when the answer is the document of a key list without empty
    elements, that list is returned; when libcurl reports an error, none is. *)
Theorem keys_answered h sgn bucket prefix marker delim max_keys alloc0 hosta prt w :
  acc_ok (acc h) hosta prt -> sub_ok (subdomain h) bucket -> Forall char bucket -> free_of [63; 35] bucket -> (length (user h) < 80)%nat ->
  val_opt prefix -> val_opt marker -> val_opt delim -> 0 <= max_keys < 2 ^ 32 ->
  Z.of_nat (length (keys_url h bucket prefix marker delim max_keys)) < 2 ^ 32 -> (forall i, sgn i = true) -> (forall i, alloc0 i = (true, true)) ->
  (forall o n, Forall (fun p => Z.of_nat (length p) < 2 ^ 31) (curl_easy_perform o n).1.2) ->
  exists o, verifies (user h) (key h) (sub_bucket h bucket) o /\
    (exists r, received o = Some r /\ tk_text (path (rq_uri r)) = Some (kpath h bucket) /\
      (qs (params prefix marker delim max_keys) <> None -> exists ht, hreq_query (true, true) alloc0 r = Some (Some ht) /\
        let get := htab_get htab_str_hash htab_str_cmp ht in
        get (str "prefix") = prefix /\ get (str "marker") = marker /\ get (str "delimiter") = delim /\
        get (str "max-keys") = if max_keys =? 0 then None else Some (fmt_lu max_keys))) /\
    let '(rc, data, n) := curl_easy_perform o (w_net w) in
    (rc <> 0 -> exists w', hstor_keys mem junk now sgn h bucket prefix marker delim max_keys w = Some (None, w') /\ w_net w' = n) /\
    (forall kl, rc = 0 -> kl_ok kl -> read_doc (concat data) "ListBucketResult" = Some (kl_xml kl) ->
      exists w', hstor_keys mem junk now sgn h bucket prefix marker delim max_keys w = Some (Some kl, w') /\ w_net w' = n).
Proof.
  intros Ha Hs Hb Hbf Hu Hp Hm Hd Hk Hl Hsgn Hal Hcurl. pose proof (keys_run h sgn bucket prefix marker delim max_keys w Hp Hm Hd Hk Hu Hcurl) as Hrun. cbn zeta in Hrun.
  set (o := mkOpts _ _ _ _ _ _ _) in Hrun. exists o. set (ps := params prefix marker delim max_keys) in *.
  destruct (params_ok prefix marker delim max_keys Hp Hm Hd ltac:(lia)) as (Hps & Hnd & Hlen). fold ps in Hps, Hnd, Hlen.
  destruct (query_print_chars ps Hps (params_free _ _ _ _)) as [Hqc Hqf].
  assert (Forall char (str "/")) as Hsl by (repeat constructor; unfold char; lia).
  destruct (verifies_std mem junk now mem_ok junk_ok sig_len h bucket (sub_bucket h bucket) (str "GET") (kpath h bucket) (qs ps) [] sgn hosta prt o) as [V (r & R1 & _ & R2 & R3 & _)]; try done.
  { unfold kpath. destruct (subdomain h); [done|]. repeat (apply Forall_app; split); done. }
  { unfold kpath. destruct (subdomain h); by eexists. }
  { unfold kpath. destruct (subdomain h); [by repeat constructor|]. repeat (apply Forall_app; split); try done; by repeat constructor. }
  { intros x Ex. assert (x = query_print ps) as -> by (by destruct ps; [done|injection Ex]). done. }
  { apply params_query_free. }
  { apply user_hdrs_nil. }
  split; [exact V|]. split.
  - exists r. split; [done|]. split; [done|]. intros Hq. destruct (query_roundtrip (true, true) alloc0 r ps) as (ht & Eht & G1 & G2); try done.
    { rewrite R2. by destruct ps. }
    exists ht. split; [done|]. cbn zeta.
    assert (forall s, forallb (fun c => (0 <? c) && (c <? 256)) (str s) = true -> Forall char (str s)) as Hch.
    { intros s Hf. rewrite forallb_forall in Hf. apply Forall_forall. intros c Hc. apply list_elem_of_In, Hf in Hc. simplify_bool. unfold char. lia. }
    assert (forall s v, forallb (fun c => (0 <? c) && (c <? 256)) (str s) = true -> (forall x, (str s, x) ∈ ps <-> v = Some x) ->
      htab_get htab_str_hash htab_str_cmp ht (str s) = v) as Hget.
    { intros s [v|] Hc H1; [by apply G1, H1|]. apply G2; [by apply Hch|]. intros ([k' v] & Ek & Hin)%list_elem_of_fmap. cbn in Ek. subst k'. by apply H1 in Hin. }
    split_and!; (apply Hget; [done|]); intros x; unfold ps; rewrite params_elem; (split; [|by tauto]); intros H; decompose [and or] H; try done.
  - destruct (curl_easy_perform o (w_net w)) as [[rc data] n]. destruct Hrun as (w' & N & E). split.
    + intros Hrc. exists w'. split; [|done]. rewrite E. by rewrite (proj2 (Z.eqb_neq rc 0)).
    + intros kl -> Hkl Hdoc. rewrite E, Hdoc. cbn [Z.eqb negb]. erewrite bind_run; [|unfold alloc; by rewrite mem_ok]. cbn [negb].
      destruct (keylist_goes mem mem_ok kl Hkl (tick w')) as (w2 & N2 & E2). exists w2. split; [|by rewrite N2].
      fold (tick w'). by rewrite (bind_run _ _ _ _ _ E2).
Qed.

End keys.
