(* ===== verification/Dirent.v ===== *)
(** * Dirent: inode names and directory data of cld/msg.c

    A directory inode's data is a sequence of records, one per child: a
    16-bit little-endian length, the child's base name and zero padding up to
    a multiple of 8 bytes.  This file models [valid_inode_name],
    [pathname_parse], [dirent_find], [dirdata_delete] and [dirdata_append] on
    byte lists, and relates the last three to the list of names they store.

    A C buffer is the list of its bytes; a pointer into it is the list of the
    bytes from there on, and a (pointer, length) pair handed to a caller is
    the slice it denotes. *)

From S2P Require Import Prelude.
#[local] Open Scope Z_scope.

Definition slash : Z := 47.

(** [strnlen(s, n)]: bytes before the first NUL, at most [n]. *)
Fixpoint strnlen (s : bytes) (n : nat) : nat :=
  match n, s with
  | O, _ => O
  | _, [] => O
  | S n, c :: s => if c =? 0 then O else S (strnlen s n)
  end.

(** [memmem(s, |s|, "//", 2) != NULL] *)
Fixpoint has_dslash (s : bytes) : bool :=
  match s with
  | a :: ((b :: _) as s') => ((a =? slash) && (b =? slash)) || has_dslash s'
  | _ => false
  end.

(** [memrchr(s, '/', |s|)], as an index. *)
Fixpoint memrchr_slash (s : bytes) : option nat :=
  match s with
  | [] => None
  | c :: s =>
      match memrchr_slash s with
      | Some i => Some (S i)
      | None => if c =? slash then Some O else None
      end
  end.

(** [name]: the buffer, NUL-terminated when it is a C string. *)
Definition valid_inode_name (name : option bytes) (name_len : nat) : bool :=
  match name with
  | None => false
  | Some name =>
      if (nth 0 name 0 =? 0) || (name_len =? 0)%nat then false else
      if negb (strnlen name name_len =? name_len)%nat then false else
      if negb (nth 0 name 0 =? slash) then false else
      if (1 <? name_len)%nat && (nth (name_len - 1) name 0 =? slash) then false else
      if has_dslash (take name_len name) then false else true
  end.

Record pathname_info : Type := mkPinfo { pi_dir : bytes; pi_base : bytes }.

Definition pathname_parse (path : bytes) : pathname_info :=
  match memrchr_slash path with
  | None => mkPinfo [] path
  | Some O =>
      (* special-case root *)
      mkPinfo (take 1 path)
        (if (length path =? 1)%nat then take 1 path else drop 1 path)
  | Some lsl =>
      let ofs := S lsl in
      mkPinfo (take (ofs - 1) path) (drop ofs path)
  end.

(** [CLD_ALIGN8(n)] *)
Definition cld_align8 (n : Z) : Z := Z.land (8 - Z.land n 7) 7.

(** One record at [p]: string length and total (padded) record length. *)
Definition rec_str_len (p : bytes) : Z := le_val (take 2 p).
Definition rec_total_len (str_len : Z) : Z := str_len + 2 + cld_align8 (str_len + 2).

(** The scan of [dirent_find].  [p] is the rest of the data ([tmp_len] is its
    length), [ofs] is [p - data].  [Err (-2)]: malformed; [Err (-1)]: absent. *)
Fixpoint dirent_scan (fuel : nat) (name p : bytes) (ofs : Z) : res (Z * Z) :=
  match fuel with
  | O => Err (-2)
  | S fuel =>
      let tmp_len := Z.of_nat (length p) in
      if tmp_len =? 0 then Err (-1) else
      if tmp_len <? 2 then Err (-2) else
      let str_len := rec_str_len p in
      let total_len := rec_total_len str_len in
      if tmp_len <? total_len then Err (-2) else
      if (Z.of_nat (length name) =? str_len) &&
         bool_decide (take (length name) (drop 2 p) = name)
      then Ok (s32 ofs, total_len)
      else dirent_scan fuel name (drop (Z.to_nat total_len) p) (ofs + total_len)
  end.

(** A record is never shorter than 2 bytes, so [length data] rounds and the
    one that finds the end are enough (see [dirent_scan_fuel]). *)
Definition dirent_find (data name : bytes) : res (Z * Z) :=
  dirent_scan (S (length data)) name data 0.

(** Returns the success flag and the data up to the new length. *)
Definition dirdata_delete (data name : bytes) : bool * bytes :=
  match dirent_find data name with
  | Err _ => (false, data)
  | Ok (ofs, ent_len) =>
      let data_len := Z.of_nat (length data) in
      let new_len := data_len - ent_len in
      let moved :=
        if ofs + ent_len <? data_len
        then take (Z.to_nat ofs) data ++ drop (Z.to_nat (ofs + ent_len)) data
             ++ drop (Z.to_nat new_len) data
        else data in
      (true, take (Z.to_nat new_len) moved)
  end.

(** [alloc]: outcome of the [realloc]. *)
Definition dirdata_append (alloc : bool) (data name : bytes) : bool * bytes :=
  let rec_len := Z.of_nat (length name) + 2 in
  let pad := cld_align8 rec_len in
  if negb alloc then (false, data) else
  (true, data ++ le_bytes 2 (Z.of_nat (length name)) ++ name
           ++ replicate (Z.to_nat pad) 0).

(** ** The abstract directory: a list of names *)

Definition enc_ent (name : bytes) : bytes :=
  le_bytes 2 (Z.of_nat (length name)) ++ name
    ++ replicate (Z.to_nat (cld_align8 (Z.of_nat (length name) + 2))) 0.

Definition enc_dir (names : list bytes) : bytes := concat (enc_ent <$> names).

#[global] Arguments enc_ent : simpl never.
#[global] Arguments enc_dir : simpl never.

(** A base name short enough for the 16-bit length. *)
Definition name_fits (name : bytes) : Prop := Z.of_nat (length name) < 65536.

(** ** Lemmas *)

Lemma cld_align8_spec (n : Z) : cld_align8 n = (- n) mod 8.
Proof.
  unfold cld_align8. change 7 with (Z.ones 3). rewrite !Z.land_ones by lia.
  change (2 ^ 3) with 8. rewrite <- Zminus_mod_idemp_l, Z.mod_same, Zminus_mod_idemp_r by lia.
  f_equal.
Qed.

Lemma cld_align8_bound (n : Z) : 0 <= cld_align8 n < 8.
Proof. rewrite cld_align8_spec. by apply Z.mod_pos_bound. Qed.

Lemma cld_align8_aligned (n : Z) : (n + cld_align8 n) mod 8 = 0.
Proof. rewrite cld_align8_spec, Zplus_mod_idemp_r, Z.add_opp_diag_r. done. Qed.

Lemma rec_total_len_ge (l : Z) : l + 2 <= rec_total_len l.
Proof. unfold rec_total_len. pose proof (cld_align8_bound (l + 2)). lia. Qed.

Lemma rec_str_len_nonneg (p : bytes) : Forall (fun b => is_byte b) p -> 0 <= rec_str_len p.
Proof. intros Hp. apply le_val_bound. by apply Forall_take. Qed.

Lemma length_enc_ent (name : bytes) :
  Z.of_nat (length (enc_ent name)) = rec_total_len (Z.of_nat (length name)).
Proof.
  unfold enc_ent, rec_total_len. pose proof (cld_align8_bound (Z.of_nat (length name) + 2)).
  rewrite !length_app, length_le_bytes, length_replicate. lia.
Qed.

Lemma enc_ent_str_len (name rest : bytes) :
  name_fits name -> rec_str_len (enc_ent name ++ rest) = Z.of_nat (length name).
Proof.
  intros Hf. unfold rec_str_len, enc_ent. rewrite <- !app_assoc.
  rewrite take_app_length' by by rewrite length_le_bytes.
  apply le_val_le_bytes_small. unfold name_fits in Hf. lia.
Qed.

Lemma enc_ent_name (name rest : bytes) :
  take (length name) (drop 2 (enc_ent name ++ rest)) = name.
Proof.
  unfold enc_ent. rewrite <- !app_assoc.
  rewrite drop_app_length' by by rewrite length_le_bytes. by rewrite take_app_length.
Qed.

Lemma enc_dir_app (ns1 ns2 : list bytes) : enc_dir (ns1 ++ ns2) = enc_dir ns1 ++ enc_dir ns2.
Proof. unfold enc_dir. by rewrite fmap_app, concat_app. Qed.

(** One round of the scan over an encoded directory. *)
Lemma dirent_scan_cons (fuel : nat) (name n : bytes) (rest : bytes) (ofs : Z) :
  name_fits n ->
  dirent_scan (S fuel) name (enc_ent n ++ rest) ofs =
    if decide (n = name) then Ok (s32 ofs, Z.of_nat (length (enc_ent n)))
    else dirent_scan fuel name rest (ofs + Z.of_nat (length (enc_ent n))).
Proof.
  intros Hn. cbn [dirent_scan]. rewrite enc_ent_str_len by done.
  rewrite <- length_enc_ent.
  pose proof (length_enc_ent n) as Hl. pose proof (rec_total_len_ge (Z.of_nat (length n))).
  rewrite length_app, Nat2Z.inj_add.
  rewrite (proj2 (Z.eqb_neq _ 0)), (proj2 (Z.ltb_ge _ 2)), (proj2 (Z.ltb_ge _ _)) by lia.
  rewrite Nat2Z.id, drop_app_length. case_decide as Hd.
  - subst n. rewrite Z.eqb_refl, enc_ent_name, bool_decide_true by done. done.
  - destruct (Z.eqb_spec (Z.of_nat (length name)) (Z.of_nat (length n))) as [He|He]; [|done].
    apply Nat2Z.inj in He. rewrite He, enc_ent_name, bool_decide_false by congruence. done.
Qed.

Lemma s32_small (z : Z) : 0 <= z < 2 ^ 31 -> s32 z = z.
Proof. intros. unfold s32, sw. rewrite Z.mod_small by (change (32-1) with 31; lia). lia. Qed.

Lemma dirent_scan_enc (names : list bytes) (name : bytes) (fuel : nat) (ofs : Z) :
  Forall name_fits names -> (length names < fuel)%nat ->
  dirent_scan fuel name (enc_dir names) ofs =
    match list_find (fun n => n = name) names with
    | Some (i, n) => Ok (s32 (ofs + Z.of_nat (length (enc_dir (take i names)))),
                         Z.of_nat (length (enc_ent n)))
    | None => Err (-1)
    end.
Proof.
  intros HF. revert fuel ofs. induction HF as [|n ns Hn HF IH]; intros fuel ofs Hfuel.
  { destruct fuel; [simpl in Hfuel; lia|]. done. }
  destruct fuel as [|fuel]; [simpl in Hfuel; lia|].
  change (enc_dir (n :: ns)) with (enc_ent n ++ enc_dir ns).
  rewrite dirent_scan_cons by done. cbn [list_find]. case_decide as Hd.
  { cbn [take]. by rewrite Z.add_0_r. }
  rewrite IH by (simpl in Hfuel; lia).
  destruct (list_find _ ns) as [[i m]|] eqn:E; cbn [fmap option_fmap option_map prod_map fst snd]; [|done].
  change (enc_dir (take (S i) (n :: ns))) with (enc_ent n ++ enc_dir (take i ns)).
  rewrite length_app, Nat2Z.inj_add. by rewrite Z.add_assoc.
Qed.

Lemma length_enc_dir_ge (names : list bytes) : (length names <= length (enc_dir names))%nat.
Proof.
  induction names as [|n ns IH]; [simpl; lia|].
  change (enc_dir (n :: ns)) with (enc_ent n ++ enc_dir ns). rewrite length_app.
  pose proof (length_enc_ent n). pose proof (rec_total_len_ge (Z.of_nat (length n))). simpl. lia.
Qed.

Lemma dirent_find_enc (names : list bytes) (name : bytes) :
  Forall name_fits names ->
  dirent_find (enc_dir names) name =
    match list_find (fun n => n = name) names with
    | Some (i, n) => Ok (s32 (Z.of_nat (length (enc_dir (take i names)))),
                         Z.of_nat (length (enc_ent n)))
    | None => Err (-1)
    end.
Proof.
  intros HF. unfold dirent_find. rewrite dirent_scan_enc; [done|done|].
  pose proof (length_enc_dir_ge names). lia.
Qed.

(** *** Append and delete act on the name list *)

Lemma dirdata_append_enc (names : list bytes) (name : bytes) :
  dirdata_append true (enc_dir names) name = (true, enc_dir (names ++ [name])).
Proof.
  unfold dirdata_append. cbn [negb]. f_equal. rewrite enc_dir_app. f_equal.
  unfold enc_dir. cbn [fmap list_fmap concat]. by rewrite app_nil_r.
Qed.

Lemma remove_first_split (name : bytes) (names : list bytes) (i : nat) (n : bytes) :
  list_find (fun n => n = name) names = Some (i, n) ->
  n = name /\ names = take i names ++ name :: drop (S i) names /\
  remove_first name names = take i names ++ drop (S i) names.
Proof.
  revert i; induction names as [|m ns IH]; intros i; cbn [list_find]; [done|].
  case_decide as Hd; [intros; simplify_eq; simpl; rewrite decide_True by done; by split_and!|].
  intros ([j x] & Hj & [= -> ->])%fmap_Some. destruct (IH j Hj) as (-> & Hs & Hr).
  simpl. rewrite decide_False by done. split_and!; [done|by f_equal|by f_equal].
Qed.

Lemma remove_first_none (name : bytes) (names : list bytes) :
  list_find (fun n => n = name) names = None -> name ∉ names.
Proof. intros H%list_find_None. rewrite Forall_forall in H. naive_solver. Qed.

Lemma dirdata_delete_enc (names : list bytes) (name : bytes) :
  Forall name_fits names -> Z.of_nat (length (enc_dir names)) < 2 ^ 31 ->
  dirdata_delete (enc_dir names) name =
    (bool_decide (name ∈ names), enc_dir (remove_first name names)).
Proof.
  intros HF Hlen. unfold dirdata_delete. rewrite dirent_find_enc by done.
  destruct (list_find _ names) as [[i n]|] eqn:E.
  2:{ apply remove_first_none in E. rewrite bool_decide_false by done. f_equal. f_equal.
      clear -E. induction names as [|m ns IH]; [done|]. apply not_elem_of_cons in E as [Hm Hns].
      simpl. rewrite decide_False by done. f_equal. by apply IH. }
  apply remove_first_split in E as (-> & Hs & Hr).
  rewrite bool_decide_true by (rewrite Hs; set_solver). f_equal.
  rewrite Hr, enc_dir_app.
  set (A := enc_dir (take i names)). set (C := enc_dir (drop (S i) names)).
  assert (enc_dir names = A ++ enc_ent name ++ C) as ->.
  { rewrite Hs at 1. rewrite enc_dir_app. done. }
  assert (Z.of_nat (length (A ++ enc_ent name ++ C)) < 2 ^ 31) as Hl2.
  { replace (A ++ enc_ent name ++ C) with (enc_dir names) by (rewrite Hs at 1; by rewrite enc_dir_app).
    done. }
  rewrite !length_app, !Nat2Z.inj_add in *. rewrite s32_small by lia.
  replace (Z.to_nat (Z.of_nat (length A) + (Z.of_nat (length (enc_ent name)) + Z.of_nat (length C))
    - Z.of_nat (length (enc_ent name)))) with (length A + length C)%nat by lia.
  case_match eqn:Hc.
  - rewrite Nat2Z.id, take_app_length.
    replace (Z.to_nat (Z.of_nat (length A) + Z.of_nat (length (enc_ent name))))
      with (length A + length (enc_ent name))%nat by lia.
    rewrite <- drop_drop, drop_app_length, drop_app_length, app_assoc.
    apply take_app_length'. rewrite length_app. lia.
  - assert (length C = 0%nat) as HC by lia. apply length_zero_iff_nil in HC. rewrite HC.
    rewrite !app_nil_r, Nat.add_0_r. apply take_app_length.
Qed.

(** *** Arbitrary data: termination and bounds *)

(** More fuel than the data is long never changes the answer. *)
Lemma dirent_scan_fuel (name : bytes) (f1 f2 : nat) (p : bytes) (ofs : Z) :
  Forall (fun b => is_byte b) p -> (length p < f1)%nat -> (length p < f2)%nat ->
  dirent_scan f1 name p ofs = dirent_scan f2 name p ofs.
Proof.
  revert f2 p ofs. induction f1 as [|f1 IH]; intros f2 p ofs Hp H1 H2; [lia|].
  destruct f2 as [|f2]; [lia|]. cbn [dirent_scan].
  destruct (Z.eqb_spec (Z.of_nat (length p)) 0); [done|].
  destruct (Z.ltb_spec (Z.of_nat (length p)) 2); [done|].
  destruct (Z.ltb_spec (Z.of_nat (length p)) (rec_total_len (rec_str_len p))); [done|].
  case_match; [done|].
  pose proof (rec_str_len_nonneg p Hp). pose proof (rec_total_len_ge (rec_str_len p)).
  apply IH; [by apply Forall_drop| |]; rewrite length_drop; lia.
Qed.

Lemma dirent_scan_bounds (name : bytes) (fuel : nat) (p : bytes) (ofs o n : Z) :
  Forall (fun b => is_byte b) p -> 0 <= ofs -> ofs + Z.of_nat (length p) < 2 ^ 31 ->
  dirent_scan fuel name p ofs = Ok (o, n) ->
  ofs <= o /\ 2 <= n /\ o + n <= ofs + Z.of_nat (length p) /\ (o - ofs) mod 8 = 0 /\ n mod 8 = 0 /\
  n = rec_total_len (Z.of_nat (length name)) /\
  take (length name) (drop (Z.to_nat (o - ofs) + 2) p) = name.
Proof.
  revert p ofs. induction fuel as [|fuel IH]; intros p ofs Hp Ho Hb; [done|]. cbn [dirent_scan].
  destruct (Z.eqb_spec (Z.of_nat (length p)) 0); [done|].
  destruct (Z.ltb_spec (Z.of_nat (length p)) 2); [done|].
  destruct (Z.ltb_spec (Z.of_nat (length p)) (rec_total_len (rec_str_len p))) as [|Ht]; [done|].
  pose proof (rec_str_len_nonneg p Hp) as Hn0. pose proof (rec_total_len_ge (rec_str_len p)) as Hg.
  assert (rec_total_len (rec_str_len p) mod 8 = 0) as Ha.
  { unfold rec_total_len. apply cld_align8_aligned. }
  destruct (_ && _) eqn:Hm.
  - intros [= <- <-]. apply andb_true_iff in Hm as [Hm%Z.eqb_eq Hm2%bool_decide_eq_true].
    rewrite s32_small by lia. replace (ofs - ofs) with 0 by lia. rewrite Hm. simpl. split_and!; try lia; done.
  - intros Hr. apply IH in Hr; [|by apply Forall_drop|lia|rewrite length_drop; lia].
    destruct Hr as (H1 & H2 & H3 & H4 & H5 & H6 & H7). rewrite length_drop in H3.
    rewrite drop_drop in H7. split_and!; try lia; [|].
    + replace (o - ofs) with ((o - (ofs + rec_total_len (rec_str_len p))) + rec_total_len (rec_str_len p))
        by lia.
      rewrite Z.add_mod, H4, Ha by lia. done.
    + etransitivity; [|exact H7]. do 2 f_equal. lia.
Qed.

(** *** Paths *)

Lemma memrchr_slash_spec (s : bytes) (i : nat) :
  memrchr_slash s = Some i -> s = take i s ++ slash :: drop (S i) s /\ (slash ∉ drop (S i) s).
Proof.
  revert i. induction s as [|c s IH]; intros i; simpl; [done|].
  destruct (memrchr_slash s) as [j|] eqn:E.
  - intros [= <-]. destruct (IH j eq_refl) as [Hs Hn]. simpl. split; [by f_equal|done].
  - destruct (Z.eqb_spec c slash) as [->|]; [|done]. intros [= <-]. split; [done|].
    clear IH. revert E. induction s as [|d s IH]; simpl; [set_solver|].
    destruct (memrchr_slash s); [done|]. destruct (Z.eqb_spec d slash); [done|].
    intros _. apply not_elem_of_cons. split; [done|]. by apply IH.
Qed.

Lemma memrchr_slash_None (s : bytes) : memrchr_slash s = None -> slash ∉ s.
Proof.
  induction s as [|c s IH]; simpl; [set_solver|].
  destruct (memrchr_slash s); [done|]. destruct (Z.eqb_spec c slash); [done|].
  intros _. apply not_elem_of_cons. split; [done|by apply IH].
Qed.

Lemma strnlen_full (s : bytes) : strnlen s (length s) = length s -> 0 ∉ s.
Proof.
  induction s as [|c s IH]; cbn [strnlen length]; [set_solver|].
  destruct (Z.eqb_spec c 0); [done|]. intros [= H]. apply not_elem_of_cons; split; [done|]. by apply IH.
Qed.

(** What [valid_inode_name] accepts, for a name passed with its own length. *)
Lemma valid_inode_name_spec (path : bytes) :
  valid_inode_name (Some path) (length path) = true <->
  (exists rest, path = slash :: rest /\ (rest <> [] -> last path <> Some slash)) /\
  (0 ∉ path) /\ has_dslash path = false.
Proof.
  unfold valid_inode_name. destruct path as [|c path]; [naive_solver|].
  rewrite firstn_all. change (nth 0 (c :: path) 0) with c.
  assert (nth (length (c :: path) - 1) (c :: path) 0 = default 0 (last (c :: path))) as ->.
  { rewrite last_lookup. rewrite (nth_lookup (c :: path)). do 2 f_equal. simpl. lia. }
  destruct (Z.eqb_spec c 0) as [->|Hc0]; simpl orb.
  { split; [done|]. intros (_ & H & _). set_solver. }
  destruct (Nat.eqb_spec (strnlen (c :: path) (length (c :: path))) (length (c :: path))) as [Hl|Hl];
    cbn [negb Nat.eqb length].
  2:{ split; [done|]. intros (_ & H & _). destruct Hl. clear -H.
      induction (c :: path) as [|d l IH]; [done|]. apply not_elem_of_cons in H as [Hd Hl].
      cbn [strnlen length]. rewrite (proj2 (Z.eqb_neq d 0)) by done. f_equal. by apply IH. }
  apply strnlen_full in Hl.
  destruct (Z.eqb_spec c slash) as [->|Hc]; cbn [negb]; [|naive_solver].
  destruct path as [|d path].
  { split; [|done]. intros _. split_and!; [exists []; done|done|done]. }
  destruct (last_is_Some (slash :: d :: path)) as [_ [z Hz]]; [done|].
  rewrite Hz. cbn [length Nat.ltb Nat.leb andb default from_option id].
  destruct (Z.eqb_spec z slash) as [->|Hz'].
  { split; [done|]. intros ((r & [= <-] & H) & _). exfalso. by apply H. }
  destruct (has_dslash _) eqn:Hd; [naive_solver|]. split; [|done].
  intros _. split_and!; [|done|done]. exists (d :: path). split; [done|]. congruence.
Qed.

(** An accepted name other than the root splits into its directory and a
    non-empty, slash-free base name. *)
Lemma pathname_parse_valid (path : bytes) :
  valid_inode_name (Some path) (length path) = true -> (2 <= length path)%nat ->
  let '(mkPinfo dir base) := pathname_parse path in
  base <> [] /\ (slash ∉ base) /\
  (path = dir ++ slash :: base \/ (dir = [slash] /\ path = slash :: base)).
Proof.
  rewrite valid_inode_name_spec. intros [(rest & -> & Hlast) _] H2.
  assert (exists j, memrchr_slash (slash :: rest) = Some j) as [j Hj].
  { simpl. destruct (memrchr_slash rest); eauto. }
  destruct (memrchr_slash_spec _ _ Hj) as [Hs Hn]. unfold pathname_parse. rewrite Hj.
  assert (rest <> []) as Hr by (intros ->; simpl in H2; lia).
  destruct j as [|j].
  - rewrite (proj2 (Nat.eqb_neq _ 1)) by lia. split_and!; [done|done|by right].
  - rewrite Nat.sub_succ, Nat.sub_0_r. split_and!; [|done|by left].
    intros Hd. rewrite Hd in Hs. apply (Hlast Hr). by rewrite Hs, last_snoc.
Qed.

(** The base and directory of an accepted name are shorter than it. *)
Lemma pathname_parse_length (path : bytes) :
  valid_inode_name (Some path) (length path) = true -> (2 <= length path)%nat ->
  (length (pi_dir (pathname_parse path)) < length path)%nat /\
  (length (pi_base (pathname_parse path)) < length path)%nat.
Proof.
  intros Hv H2. pose proof (pathname_parse_valid path Hv H2) as Hp.
  destruct (pathname_parse path) as [dir base]. destruct Hp as (Hb & _ & [E|[E1 E2]]); simpl.
  - rewrite E, length_app. simpl. destruct base; [done|]. simpl. lia.
  - subst. simpl in *. lia.
Qed.

(** An accepted name is determined by its directory and base. *)
Lemma pathname_parse_inj (m1 m2 : bytes) :
  valid_inode_name (Some m1) (length m1) = true -> (2 <= length m1)%nat ->
  valid_inode_name (Some m2) (length m2) = true -> (2 <= length m2)%nat ->
  pathname_parse m1 = pathname_parse m2 -> m1 = m2.
Proof.
  assert (forall b, valid_inode_name (Some (slash :: slash :: b)) (length (slash :: slash :: b)) = true -> False) as Hss.
  { intros b (_ & _ & Hd)%valid_inode_name_spec. done. }
  intros V1 L1 V2 L2 E. pose proof (pathname_parse_valid m1 V1 L1) as P1.
  pose proof (pathname_parse_valid m2 V2 L2) as P2. rewrite E in P1.
  destruct (pathname_parse m2) as [dir base].
  destruct P1 as (_ & _ & [E1|[D1 E1]]), P2 as (_ & _ & [E2|[D2 E2]]); subst; try done;
    exfalso; first [exact (Hss _ V1)|exact (Hss _ V2)].
Qed.

(** Directory data determines the names stored in it. *)
Lemma enc_dir_inj (ns1 ns2 : list bytes) :
  Forall name_fits ns1 -> Forall name_fits ns2 -> enc_dir ns1 = enc_dir ns2 -> ns1 = ns2.
Proof.
  intros H1. revert ns2. induction H1 as [|n1 ns1 Hn1 H1 IH]; intros ns2 H2 E.
  { destruct ns2 as [|n2 ns2]; [done|]. pose proof (length_enc_dir_ge (n2 :: ns2)) as Hl.
    rewrite <- E in Hl. simpl in Hl. lia. }
  destruct H2 as [|n2 ns2 Hn2 H2].
  { pose proof (length_enc_dir_ge (n1 :: ns1)) as Hl. rewrite E in Hl. simpl in Hl. lia. }
  change (enc_ent n1 ++ enc_dir ns1 = enc_ent n2 ++ enc_dir ns2) in E.
  assert (length n1 = length n2) as Hlen.
  { apply Nat2Z.inj. rewrite <- (enc_ent_str_len n1 (enc_dir ns1)), E by done. by apply enc_ent_str_len. }
  assert (n1 = n2) as ->.
  { rewrite <- (enc_ent_name n1 (enc_dir ns1)), E, Hlen. apply enc_ent_name. }
  f_equal. apply IH; [done|]. by apply app_inv_head in E.
Qed.

(** ** Properties *)

(** On directory data, [dirent_find] decides membership: it fails with -1
    exactly when the name is absent, and otherwise the bytes it points at are
    the name's record. *)
Theorem dirent_find_correct (names : list bytes) (name : bytes) :
  Forall name_fits names -> Z.of_nat (length (enc_dir names)) < 2 ^ 31 ->
  match dirent_find (enc_dir names) name with
  | Ok (ofs, len) => name ∈ names /\
      take (Z.to_nat len) (drop (Z.to_nat ofs) (enc_dir names)) = enc_ent name
  | Err rc => rc = -1 /\ (name ∉ names)
  end.
Proof.
  intros HF Hlen. rewrite dirent_find_enc by done.
  destruct (list_find _ names) as [[i n]|] eqn:E; [|split; [done|by apply remove_first_none]].
  apply remove_first_split in E as (-> & Hs & _). split; [rewrite Hs; set_solver|].
  assert (enc_dir names = enc_dir (take i names) ++ enc_ent name ++ enc_dir (drop (S i) names)) as Ed.
  { rewrite Hs at 1. by rewrite enc_dir_app. }
  rewrite s32_small by (rewrite Ed, length_app in Hlen; lia).
  rewrite !Nat2Z.id, Ed, drop_app_length, take_app_length. done.
Qed.

(** Appending a name and deleting it again gives back the directory; other
    names are not touched, and deleting an absent name fails and changes
    nothing. *)
Theorem dirdata_append_delete (names : list bytes) (name : bytes) :
  Forall name_fits names -> name_fits name -> Z.of_nat (length (enc_dir (names ++ [name]))) < 2 ^ 31 ->
  let '(ok1, d1) := dirdata_append true (enc_dir names) name in
  let '(ok2, d2) := dirdata_delete d1 name in
  ok1 = true /\ ok2 = true /\ d1 = enc_dir (names ++ [name]) /\
  (name ∉ names -> d2 = enc_dir names /\ dirdata_delete d2 name = (false, d2)).
Proof.
  intros HF Hn Hlen. rewrite dirdata_append_enc. rewrite dirdata_delete_enc.
  - rewrite bool_decide_true by set_solver. split_and!; try done. intros Hni.
    rewrite remove_first_app_not by done. simpl. rewrite decide_True, app_nil_r by done. split; [done|].
    rewrite dirdata_delete_enc; [|done|rewrite enc_dir_app, length_app in Hlen; lia].
    rewrite bool_decide_false by done. f_equal. f_equal. pose proof (remove_first_app_not name names []) as E.
    rewrite !app_nil_r in E. by apply E.
  - apply Forall_app. split; [done|by constructor].
  - done.
Qed.

(** On any bytes at all, [dirent_find] stays inside the data: a record it
    reports lies within it, is 8-byte aligned and sized, and holds the name.
    (The scan takes at most [length data] rounds, whatever the data.) *)
Theorem dirent_find_safe (data name : bytes) (ofs len : Z) :
  Forall (fun b => is_byte b) data -> Z.of_nat (length data) < 2 ^ 31 ->
  (dirent_find data name = Ok (ofs, len) ->
     0 <= ofs /\ 2 <= len /\ ofs + len <= Z.of_nat (length data) /\ ofs mod 8 = 0 /\ len mod 8 = 0 /\
     take (length name) (drop (Z.to_nat ofs + 2) data) = name) /\
  (forall fuel, (length data < fuel)%nat -> dirent_scan fuel name data 0 = dirent_find data name).
Proof.
  intros Hb Hl. split.
  - intros Hf. apply dirent_scan_bounds in Hf; [|done|lia|lia].
    rewrite !Z.sub_0_r, Z.add_0_l in Hf. naive_solver.
  - intros fuel Hfu. unfold dirent_find. apply dirent_scan_fuel; [done|done|lia].
Qed.

(** [valid_inode_name] accepts exactly the absolute paths without NUL,
    double or trailing slash, and [pathname_parse] splits such a path, other
    than the root, into its parent's path and a non-empty slash-free base,
    from which it can be put together again. *)
Theorem valid_name_split (path : bytes) :
  (valid_inode_name (Some path) (length path) = true <->
     (exists rest, path = slash :: rest /\ (rest <> [] -> last path <> Some slash)) /\
     (0 ∉ path) /\ has_dslash path = false) /\
  (valid_inode_name (Some path) (length path) = true -> (2 <= length path)%nat ->
     let '(mkPinfo dir base) := pathname_parse path in
     base <> [] /\ (slash ∉ base) /\
     (path = dir ++ slash :: base \/ (dir = [slash] /\ path = slash :: base))).
Proof. split; [apply valid_inode_name_spec|apply pathname_parse_valid]. Qed.
