(* ===== verification/Wire.v ===== *)
(** * Wire: the CLD protocol's data, signatures and framing

    The constants, enumerations and structures of lib/cld_msg_rpc.x, the
    packet footer of include/cld_common.h, the UBBP header of include/ubbp.h,
    the signature functions of lib/pkt.c and [user_key] of cld/server.c.

    The XDR routines ([xdr_cld_*]) are generated by rpcgen on top of the RPC
    library, and HMAC-SHA1 is OpenSSL's: both are parameters, the classes
    [XdrLib] and [HmacLib]; what the server relies on of them is [XdrOk] and
    the length law of [HmacLib]. *)

From S2P Require Import Prelude.
#[local] Open Scope Z_scope.

(** ** Constants *)

Definition CLD_SID_SZ : Z := 8.
Definition CLD_INODE_NAME_MAX : Z := 256.
Definition CLD_MAX_USERNAME : Z := 32.
Definition CLD_MAX_PKT_MSG_SZ : Z := 1024.
Definition CLD_MAX_PAYLOAD_SZ : Z := 131072.
Definition CLD_MAX_MSG_SZ : Z := 196608.
Definition CLD_RAW_MSG_SZ : Z := 4096.
Definition SHA_DIGEST_LENGTH : Z := 20.
(** [sizeof(struct cld_pkt_ftr)]: packed 64-bit seqid and the signature. *)
Definition CLD_PKT_FTR_LEN : Z := 28.

(** ["CLDc1pkt"] and ["CLD1"] *)
Definition CLD_PKT_MAGIC : bytes := [67; 76; 68; 99; 49; 112; 107; 116].
Definition CLD_UBBP_MAGIC : bytes := [67; 76; 68; 49].

(** [enum cld_msg_op] *)
Definition CMO_NOP : Z := 0.
Definition CMO_NEW_SESS : Z := 1.
Definition CMO_OPEN : Z := 2.
Definition CMO_GET_META : Z := 3.
Definition CMO_GET : Z := 4.
Definition CMO_PUT : Z := 6.
Definition CMO_CLOSE : Z := 7.
Definition CMO_DEL : Z := 8.
Definition CMO_LOCK : Z := 9.
Definition CMO_UNLOCK : Z := 10.
Definition CMO_TRYLOCK : Z := 11.
Definition CMO_ACK : Z := 12.
Definition CMO_END_SESS : Z := 13.
Definition CMO_PING : Z := 14.
Definition CMO_NOT_MASTER : Z := 15.
Definition CMO_EVENT : Z := 16.
Definition CMO_ACK_FRAG : Z := 17.

(** [enum cle_err_codes] *)
Inductive cle_err : Type :=
| CLE_OK | CLE_SESS_EXISTS | CLE_SESS_INVAL | CLE_DB_ERR | CLE_BAD_PKT
| CLE_INODE_INVAL | CLE_NAME_INVAL | CLE_OOM | CLE_FH_INVAL | CLE_DATA_INVAL
| CLE_LOCK_INVAL | CLE_LOCK_CONFLICT | CLE_LOCK_PENDING | CLE_MODE_INVAL
| CLE_INODE_EXISTS | CLE_DIR_NOTEMPTY | CLE_INTERNAL_ERR | CLE_TIMEOUT
| CLE_SIG_INVAL.

#[global] Instance cle_err_eq_dec : EqDecision cle_err.
Proof. solve_decision. Defined.

(** [enum cld_open_modes], [cld_events], [cld_inode_flags], [cld_lock_flags] *)
Definition COM_READ : Z := 0x01.
Definition COM_WRITE : Z := 0x02.
Definition COM_LOCK : Z := 0x04.
Definition COM_ACL : Z := 0x08.
Definition COM_CREATE : Z := 0x10.
Definition COM_EXCL : Z := 0x20.
Definition COM_DIRECTORY : Z := 0x40.
Definition CE_UPDATED : Z := 0x01.
Definition CE_DELETED : Z := 0x02.
Definition CE_LOCKED : Z := 0x04.
Definition CE_MASTER_FAILOVER : Z := 0x08.
Definition CE_SESS_FAILED : Z := 0x10.
Definition CIFL_DIR : Z := 0x01.
Definition CLF_SHARED : Z := 0x01.

Definition CLD_PKT_IS_FIRST : Z := 0x1.
Definition CLD_PKT_IS_LAST : Z := 0x2.

(** ** Packets *)

Record cld_pkt_msg_infos : Type := mkInfos { mi_xid : Z; mi_op : Z }.

(** [union cld_pkt_msg_info], by [enum cld_pkt_order_t]. *)
Inductive cld_pkt_msg_info : Type :=
| CLD_PKT_ORD_MID
| CLD_PKT_ORD_FIRST (mi : cld_pkt_msg_infos)
| CLD_PKT_ORD_LAST
| CLD_PKT_ORD_FIRST_LAST (mi : cld_pkt_msg_infos).

Definition pkt_order (i : cld_pkt_msg_info) : Z :=
  match i with
  | CLD_PKT_ORD_MID => 0
  | CLD_PKT_ORD_FIRST _ => 1
  | CLD_PKT_ORD_LAST => 2
  | CLD_PKT_ORD_FIRST_LAST _ => 3
  end.

Definition pkt_infos (i : cld_pkt_msg_info) : cld_pkt_msg_infos :=
  match i with
  | CLD_PKT_ORD_FIRST mi | CLD_PKT_ORD_FIRST_LAST mi => mi
  | _ => mkInfos 0 0
  end.

Record cld_pkt_hdr : Type := mkHdr {
  ph_magic : Z;
  ph_sid : Z;
  ph_user : bytes;
  ph_mi : cld_pkt_msg_info }.

(** Messages the server sends. *)
Record cld_msg_get_resp : Type := mkGetResp {
  gr_code : cle_err; gr_xid_in : Z;
  gr_inum : Z; gr_vers : Z; gr_time_create : Z; gr_time_modify : Z; gr_flags : Z;
  gr_inode_name : bytes; gr_data : bytes }.

Inductive msg_out : Type :=
| MGenericResp (code : cle_err) (xid_in : Z)
| MOpenResp (code : cle_err) (xid_in fh : Z)
| MGetResp (r : cld_msg_get_resp)
| MEvent (fh events : Z)
| MAckFrag (seqid : Z)
| MVoid.

(** Messages it receives. *)
Record cld_msg_open : Type := mkOpen { mo_mode : Z; mo_events : Z; mo_inode_name : bytes }.
Record cld_msg_put : Type := mkPut { mp_fh : Z; mp_data : bytes }.
Record cld_msg_lock : Type := mkLock { ml_fh : Z; ml_flags : Z }.

(** ** The XDR library *)

Class XdrLib : Type := {
  (** encoders; [None]: the routine returned FALSE *)
  xdr_hdr_enc : cld_pkt_hdr -> option bytes;
  xdr_msg_enc : msg_out -> option bytes;
  (** header decoder: the structure and [xdr_getpos] afterwards *)
  xdr_hdr_dec : bytes -> option (cld_pkt_hdr * nat);
  xdr_get_dec : bytes -> option Z;
  xdr_open_dec : bytes -> option cld_msg_open;
  xdr_put_dec : bytes -> option cld_msg_put;
  xdr_close_dec : bytes -> option Z;
  xdr_del_dec : bytes -> option bytes;
  xdr_unlock_dec : bytes -> option Z;
  xdr_lock_dec : bytes -> option cld_msg_lock }.

(** A header the .x definition can carry: 64-bit [hyper]s, a NUL-free user of
    at most [CLD_MAX_USERNAME] bytes, a non-negative enum value. *)
Definition hdr_ok (h : cld_pkt_hdr) : Prop :=
  0 <= ph_magic h < 2 ^ 64 /\ 0 <= ph_sid h < 2 ^ 64 /\
  Z.of_nat (length (ph_user h)) <= CLD_MAX_USERNAME /\
  Forall (fun b => 0 < b < 256) (ph_user h) /\
  0 <= mi_xid (pkt_infos (ph_mi h)) < 2 ^ 64 /\
  0 <= mi_op (pkt_infos (ph_mi h)) < 2 ^ 31.

(** What XDR (RFC 4506) promises: a header can be encoded, and decoding the
    encoding followed by any bytes gives it back and stops at its end;
    decoded [hyper]s are 64-bit values, the position never passes the end of
    the buffer, and decoded strings respect their declared bound. *)
Class XdrOk `{!XdrLib} : Prop := {
  xdr_hdr_rt (h : cld_pkt_hdr) : hdr_ok h ->
    exists b, xdr_hdr_enc h = Some b /\
      forall rest, xdr_hdr_dec (b ++ rest) = Some (h, length b);
  xdr_hdr_bounds (b : bytes) (h : cld_pkt_hdr) (n : nat) :
    xdr_hdr_dec b = Some (h, n) -> 0 <= ph_sid h < 2 ^ 64 /\ (n <= length b)%nat;
  xdr_open_bounds (b : bytes) (o : cld_msg_open) :
    xdr_open_dec b = Some o -> Z.of_nat (length (mo_inode_name o)) <= CLD_INODE_NAME_MAX }.

(** [xdr_sizeof]: the encoding's length, 0 when it fails. *)
Definition xdr_sizeof (b : option bytes) : Z :=
  match b with Some b => Z.of_nat (length b) | None => 0 end.

(** ** Signatures (lib/pkt.c) *)

Class HmacLib : Type := {
  HMAC_sha1 : bytes -> bytes -> bytes;
  HMAC_len (k m : bytes) : Z.of_nat (length (HMAC_sha1 k m)) = SHA_DIGEST_LENGTH }.

Section auth.
Context `{!HmacLib}.

(** [key]: a C string or NULL. *)
Definition cld_authcheck (key : option bytes) (buf sha : bytes) : Z :=
  match key with
  | None | Some [] => - EINVAL
  | Some key =>
      let md := HMAC_sha1 key buf in
      if negb (Z.of_nat (length md) =? SHA_DIGEST_LENGTH) then - EBADMSG else
      if bool_decide (md = take 20 sha) then 0 else - EPERM
  end.

(** The return code and, on success, the signature written to [sha]. *)
Definition cld_authsign (key : option bytes) (buf : bytes) : Z * bytes :=
  match key with
  | None | Some [] => (- EINVAL, [])
  | Some key =>
      let md := HMAC_sha1 key buf in
      if negb (Z.of_nat (length md) =? SHA_DIGEST_LENGTH) then (- EBADMSG, [])
      else (0, md)
  end.

End auth.

(** [user_key]: user name = password, for names of 1 to 31 bytes. *)
Definition user_key (user : option bytes) : option bytes :=
  match user with
  | None => None
  | Some user =>
      if (length user =? 0)%nat || (32 <=? Nat.min (length user) 32)%nat then None
      else Some user
  end.

(** ** UBBP framing *)

Definition UBBP_OP (op_size : Z) : Z := Z.land op_size 0xff.
Definition UBBP_SIZE (op_size : Z) : Z := Z.shiftr op_size 8.

(** The 8-byte header [tcp_tx] sends ahead of a packet of [data_len] bytes. *)
Definition ubbp_hdr (data_len : Z) : bytes :=
  CLD_UBBP_MAGIC ++ le_bytes 4 (u32 (Z.lor (Z.shiftl data_len 8) 2)).

(** ** Footers *)

Definition pkt_foot (pkt : bytes) : bytes := drop (length pkt - 28) pkt.

(** [le64_to_cpu(foot->seqid)] and [foot->sha] of a packet. *)
Definition foot_seqid (pkt : bytes) : Z := le_val (take 8 (pkt_foot pkt)).
Definition foot_sha (pkt : bytes) : bytes := take 20 (drop 8 (pkt_foot pkt)).

Lemma foot_seqid_app (body sha : bytes) (seqid : Z) :
  length sha = 20%nat -> foot_seqid (body ++ le_bytes 8 seqid ++ sha) = u64 seqid.
Proof.
  intros Hs. unfold foot_seqid, pkt_foot.
  rewrite drop_app_length' by (rewrite !length_app, length_le_bytes; lia).
  rewrite take_app_length' by by rewrite length_le_bytes.
  rewrite le_val_le_bytes. done.
Qed.

Lemma foot_sha_app (body sha : bytes) (seqid : Z) :
  length sha = 20%nat -> foot_sha (body ++ le_bytes 8 seqid ++ sha) = sha.
Proof.
  intros Hs. unfold foot_sha, pkt_foot.
  rewrite drop_app_length' by (rewrite !length_app, length_le_bytes; lia).
  rewrite drop_app_length' by by rewrite length_le_bytes. by apply take_ge; lia.
Qed.

Lemma authsign_check `{!HmacLib} (key : option bytes) (buf sha : bytes) :
  cld_authsign key buf = (0, sha) -> cld_authcheck key buf sha = 0 /\ length sha = 20%nat.
Proof.
  unfold cld_authsign, cld_authcheck. destruct key as [[|c key]|]; [done| |done].
  rewrite HMAC_len. intros [= <-]. pose proof (HMAC_len (c :: key) buf) as Hl.
  unfold SHA_DIGEST_LENGTH in Hl. simpl.
  rewrite take_ge, bool_decide_true by (done || lia). split; [done|lia].
Qed.

Lemma authsign_ok `{!HmacLib} (user : bytes) (buf : bytes) :
  (0 < length user < 32)%nat ->
  exists sha, cld_authsign (user_key (Some user)) buf = (0, sha) /\ length sha = 20%nat.
Proof.
  intros Hu. unfold user_key.
  rewrite (proj2 (Nat.eqb_neq _ 0)), (proj2 (Nat.leb_gt _ _)) by lia. simpl.
  unfold cld_authsign. destruct user as [|c user]; [simpl in Hu; lia|].
  rewrite HMAC_len. simpl. pose proof (HMAC_len (c :: user) buf) as Hl.
  eexists; split; [done|]. unfold SHA_DIGEST_LENGTH in Hl. lia.
Qed.
