(* ===== verification/Bdb.v ===== *)
(** * Bdb: the records of cld/cldb.h and the database they are kept in

    CLD stores its state in a Berkeley DB environment: five databases and two
    secondary indices, used inside transactions.  Berkeley DB is not part of
    this repository, so it is a parameter: [Bdb D] gives the calls the server
    makes on an environment of type [D], and [BdbOk D] states what Berkeley DB
    documents about them, through the contents [view d] an open transaction
    (or, outside one, an auto-commit call) sees.  Any call may fail with an
    error of its own and then leaves the contents as they were.

    Integer fields stored little-endian are modelled by their value at the
    field's width; keys compare as the C code's byte keys do. *)

From Stdlib Require Import Sorted.
From S2P Require Import Prelude Wire.
#[local] Open Scope Z_scope.

(** ** Records *)

Record raw_session : Type := mkRawSess {
  rs_sid : Z; rs_addr_len : Z; rs_addr : bytes; rs_user : bytes;
  rs_last_contact : Z; rs_next_fh : Z; rs_next_seqid_in : Z; rs_next_seqid_out : Z }.

Record raw_handle : Type := mkRawHandle {
  rh_sid : Z; rh_fh : Z; rh_inum : Z; rh_mode : Z; rh_events : Z }.

(** [ri_name]: the bytes that follow the fixed part. *)
Record raw_inode : Type := mkRawInode {
  ri_inum : Z; ri_ino_len : Z; ri_size : Z; ri_version : Z;
  ri_time_create : Z; ri_time_modify : Z; ri_flags : Z; ri_name : bytes }.

Record raw_lock : Type := mkRawLock {
  rl_inum : Z; rl_sid : Z; rl_fh : Z; rl_ctime : Z; rl_flags : Z }.

#[global] Instance raw_lock_eq_dec : EqDecision raw_lock.
Proof. solve_decision. Defined.
#[global] Instance raw_session_eq_dec : EqDecision raw_session.
Proof. solve_decision. Defined.
#[global] Instance raw_inode_eq_dec : EqDecision raw_inode.
Proof. solve_decision. Defined.
#[global] Instance raw_handle_eq_dec : EqDecision raw_handle.
Proof. solve_decision. Defined.

Definition CLD_INO_ROOT : Z := 10.
Definition CLD_INO_RESERVED_LAST : Z := 50.
Definition CLFL_SHARED : Z := 1.
Definition CLFL_PENDING : Z := 2.

(** Berkeley DB's own error numbers. *)
Definition DB_NOTFOUND : Z := -30988.
Definition DB_KEYEXIST : Z := -30995.

(** ** Keys and comparison callbacks *)

(** [memcmp]: difference of the first differing bytes. *)
Fixpoint memcmp (a b : bytes) : Z :=
  match a, b with
  | x :: a, y :: b => if x =? y then memcmp a b else x - y
  | _, _ => 0
  end.

Definition sid_bytes (sid : Z) : bytes := le_bytes 8 sid.

(** [struct raw_handle_key] as the bytes the btree orders. *)
Definition hkey_bytes (sid fh : Z) : bytes := le_bytes 8 sid ++ le_bytes 8 fh.
Definition rh_key (h : raw_handle) : Z * Z := (rh_sid h, rh_fh h).

(** [inode_name_key]: the secondary key of an inode record of [size] bytes
    past the fixed part; [None] is the error return. *)
Definition inode_name_key (ino : raw_inode) : option bytes :=
  if Z.of_nat (length (ri_name ino)) =? ri_ino_len ino then Some (ri_name ino) else None.

(** [handle_idx_key] *)
Definition handle_idx_key (h : raw_handle) : Z := rh_inum h.

(** [lock_compare]: 64-bit differences, returned through an [int]. *)
Definition lock_compare (a b : raw_lock) : Z :=
  let v := s64 (rl_inum a - rl_inum b) in
  if negb (v =? 0) then s32 v else
  let v := s64 (rl_ctime a - rl_ctime b) in
  if negb (v =? 0) then s32 v else
  let v := memcmp (sid_bytes (rl_sid a)) (sid_bytes (rl_sid b)) in
  if negb (v =? 0) then s32 v else
  s32 (rl_fh a - rl_fh b).

(** [lock_compare] behaves as a total order on these records. *)
Definition lock_cmp_total (ls : list raw_lock) : Prop :=
  (forall a b, a ∈ ls -> b ∈ ls -> Z.sgn (lock_compare a b) = - Z.sgn (lock_compare b a)) /\
  (forall a b c, a ∈ ls -> b ∈ ls -> c ∈ ls ->
     lock_compare a b <= 0 -> lock_compare b c <= 0 -> lock_compare a c <= 0).

Definition locks_sorted (ls : list raw_lock) : Prop :=
  StronglySorted (fun a b => lock_compare a b <= 0) ls.

(** *** Byte order of handle keys *)

Lemma memcmp_app (a b c d : bytes) : length a = length c ->
  memcmp (a ++ b) (c ++ d) = if memcmp a c =? 0 then memcmp b d else memcmp a c.
Proof.
  revert c. induction a as [|x a IH]; intros [|y c]; simpl; try done. intros [= Hl].
  destruct (Z.eqb_spec x y); [by apply IH|]. rewrite (proj2 (Z.eqb_neq _ _)) by lia. done.
Qed.

Lemma memcmp_antisym (a b : bytes) : length a = length b -> memcmp b a = - memcmp a b.
Proof.
  revert b. induction a as [|x a IH]; intros [|y b]; simpl; try done. intros [= Hl].
  rewrite (Z.eqb_sym y x). destruct (Z.eqb_spec x y); [by apply IH|lia].
Qed.

Lemma memcmp_0 (a b : bytes) : length a = length b -> memcmp a b = 0 -> a = b.
Proof.
  revert b. induction a as [|x a IH]; intros [|y b]; simpl; try done. intros [= Hl].
  destruct (Z.eqb_spec x y) as [->|]; [|lia]. intros Hm. f_equal. by apply IH.
Qed.

Lemma memcmp_trans (a b c : bytes) : length a = length b -> length b = length c ->
  memcmp a b <= 0 -> memcmp b c <= 0 -> memcmp a c <= 0.
Proof.
  revert b c. induction a as [|x a IH]; intros [|y b] [|z c]; simpl; try done. intros [= H1] [= H2].
  destruct (Z.eqb_spec x y), (Z.eqb_spec y z), (Z.eqb_spec x z); subst; try lia. by apply IH.
Qed.

Lemma memcmp_bound (a b : bytes) : Forall (fun x => is_byte x) a -> Forall (fun x => is_byte x) b ->
  - 256 < memcmp a b < 256.
Proof.
  intros Ha. revert b. induction Ha as [|x a Hx Ha IH]; intros b Hb; [simpl; lia|].
  destruct Hb as [|y b Hy Hb]; simpl; [lia|]. case_match; [by apply IH|].
  unfold is_byte in *. apply andb_True in Hx as [H1%Is_true_true_1 H2%Is_true_true_1].
  apply andb_True in Hy as [H3%Is_true_true_1 H4%Is_true_true_1]. lia.
Qed.

Lemma sid_bytes_inj (a b : Z) : 0 <= a < 2 ^ 64 -> 0 <= b < 2 ^ 64 -> sid_bytes a = sid_bytes b -> a = b.
Proof.
  intros Ha Hb E. rewrite <- (le_val_le_bytes_small 8 a), <- (le_val_le_bytes_small 8 b) by done.
  unfold sid_bytes in E. by rewrite E.
Qed.

Lemma sid_cmp_ne (a b : Z) : 0 <= a < 2 ^ 64 -> 0 <= b < 2 ^ 64 -> a <> b ->
  memcmp (sid_bytes a) (sid_bytes b) <> 0.
Proof.
  intros Ha Hb Hne E. apply Hne, sid_bytes_inj; try done. apply memcmp_0; [|done].
  unfold sid_bytes. by rewrite !length_le_bytes.
Qed.

Lemma hkey_cmp (a b x y : Z) :
  memcmp (hkey_bytes a x) (hkey_bytes b y) =
    if memcmp (sid_bytes a) (sid_bytes b) =? 0 then memcmp (sid_bytes x) (sid_bytes y)
    else memcmp (sid_bytes a) (sid_bytes b).
Proof. apply (memcmp_app (sid_bytes a)). unfold sid_bytes. by rewrite !length_le_bytes. Qed.

Lemma memcmp_zeros (b : bytes) (n : nat) :
  Forall (fun x => is_byte x) b -> memcmp (replicate n 0) b <= 0.
Proof.
  intros Hb. revert n. induction Hb as [|x b Hx Hb IH]; intros [|n]; cbn; try done.
  unfold is_byte in Hx. apply andb_True in Hx as [H1%Is_true_true_1 _]. case_match; [apply IH|lia].
Qed.

(** Every handle of a session sorts at or after the key [session_remove]
    starts from. *)
Lemma hkey_start (sid fh : Z) : memcmp (hkey_bytes sid 0) (hkey_bytes sid fh) <= 0.
Proof.
  rewrite hkey_cmp. assert (memcmp (sid_bytes sid) (sid_bytes sid) = 0) as ->.
  { generalize (sid_bytes sid). intros l. induction l as [|x l IH]; cbn; [done|]. by rewrite Z.eqb_refl. }
  apply (memcmp_zeros (sid_bytes fh) 8), le_bytes_is_byte.
Qed.

(** ** Contents of the environment *)

Record dbview : Type := mkView {
  v_sessions : gmap Z raw_session;
  v_inodes : gmap Z raw_inode;
  v_data : gmap Z bytes;
  v_handles : gmap (Z * Z) raw_handle;
  v_locks : gmap Z (list raw_lock) }.

Definition empty_view : dbview := mkView ∅ ∅ ∅ ∅ ∅.

Definition upd_sessions (f : gmap Z raw_session -> gmap Z raw_session) (v : dbview) : dbview :=
  mkView (f (v_sessions v)) (v_inodes v) (v_data v) (v_handles v) (v_locks v).
Definition upd_inodes (f : gmap Z raw_inode -> gmap Z raw_inode) (v : dbview) : dbview :=
  mkView (v_sessions v) (f (v_inodes v)) (v_data v) (v_handles v) (v_locks v).
Definition upd_data (f : gmap Z bytes -> gmap Z bytes) (v : dbview) : dbview :=
  mkView (v_sessions v) (v_inodes v) (f (v_data v)) (v_handles v) (v_locks v).
Definition upd_handles (f : gmap (Z * Z) raw_handle -> gmap (Z * Z) raw_handle) (v : dbview) : dbview :=
  mkView (v_sessions v) (v_inodes v) (v_data v) (f (v_handles v)) (v_locks v).
Definition upd_locks (f : gmap Z (list raw_lock) -> gmap Z (list raw_lock)) (v : dbview) : dbview :=
  mkView (v_sessions v) (v_inodes v) (v_data v) (v_handles v) (f (v_locks v)).

(** The lock records of an inode, in duplicate order. *)
Definition locks_of (v : dbview) (inum : Z) : list raw_lock := default [] (v_locks v !! inum).

(** ** The calls

    A cursor is opened with the sequence of records its [get]s will visit
    (duplicates of a key, or a key range): within a transaction only the
    cursor's own [put]/[del] of the current record change that sequence, and
    they do not disturb what remains to be visited.  Each [get] is then a
    [CurGet]; running off the end of the sequence is its [DB_NOTFOUND]. *)
Inductive dbreq : Type -> Type :=
| SessGet (sid : Z) : dbreq raw_session
| SessPut (r : raw_session) (no_overwrite : bool) : dbreq unit
| SessDel (sid : Z) : dbreq unit
| SessScan : dbreq (list raw_session)
| InodeGet (inum : Z) : dbreq raw_inode
| InodePut (ino : raw_inode) : dbreq unit
| InodeDel (inum : Z) : dbreq unit
| NameGet (name : bytes) : dbreq raw_inode
| DataGet (inum : Z) : dbreq bytes
| DataPut (inum : Z) (data : bytes) : dbreq unit
| DataDel (inum : Z) : dbreq unit
| HandleGet (sid fh : Z) : dbreq raw_handle
| HandlePut (h : raw_handle) : dbreq unit
| HandleDel (sid fh : Z) : dbreq unit
| HandleCurDel (h : raw_handle) : dbreq unit
| HandleIdxDel (inum : Z) : dbreq unit
| HandleIdxScan (inum : Z) : dbreq (list raw_handle)
| HandleRange (sid : Z) : dbreq (list raw_handle)
| LockPut (l : raw_lock) : dbreq unit
| LockScan (inum : Z) : dbreq (list raw_lock)
| LockCurPut (cur new : raw_lock) : dbreq unit
| LockCurDel (cur : raw_lock) : dbreq unit
| CurGet : dbreq unit
| CurClose : dbreq unit.

Definition lookup_res {A} (o : option A) : res A :=
  match o with Some a => Ok a | None => Err DB_NOTFOUND end.

(** [x] is one of the handles of the map, listed once each. *)
Definition lists_handles (m : gmap (Z * Z) raw_handle) (P : raw_handle -> Prop) (l : list raw_handle) : Prop :=
  NoDup l /\ forall h, h ∈ l <-> (exists k, m !! k = Some h) /\ P h.

Definition inode_named (v : dbview) (name : bytes) (inum : Z) (ino : raw_inode) : Prop :=
  v_inodes v !! inum = Some ino /\ inode_name_key ino = Some name.

(** Documented behaviour of a call that does not hit an internal error. *)
Definition dbdoc {A} (q : dbreq A) (v : dbview) : res A -> dbview -> Prop :=
  match q in dbreq A return res A -> dbview -> Prop with
  | SessGet sid => fun r v' => v' = v /\ r = lookup_res (v_sessions v !! sid)
  | SessPut rec noov => fun r v' =>
      if noov && bool_decide (is_Some (v_sessions v !! rs_sid rec))
      then r = Err DB_KEYEXIST /\ v' = v
      else r = Ok tt /\ v' = upd_sessions (insert (rs_sid rec) rec) v
  | SessDel sid => fun r v' =>
      if bool_decide (is_Some (v_sessions v !! sid))
      then r = Ok tt /\ v' = upd_sessions (delete sid) v
      else r = Err DB_NOTFOUND /\ v' = v
  | SessScan => fun r v' => v' = v /\ exists l, r = Ok l /\ NoDup l /\
      forall x, x ∈ l <-> exists k, v_sessions v !! k = Some x
  | InodeGet inum => fun r v' => v' = v /\ r = lookup_res (v_inodes v !! inum)
  | InodePut ino => fun r v' =>
      (* the name index takes no duplicates *)
      (exists name, inode_name_key ino = Some name /\
         (forall i x, inode_named v name i x -> i = ri_inum ino) /\
         r = Ok tt /\ v' = upd_inodes (insert (ri_inum ino) ino) v) \/
      (inode_name_key ino = None \/
       exists name i x, inode_name_key ino = Some name /\ inode_named v name i x /\ i <> ri_inum ino) /\
      r = Err EINVAL /\ v' = v
  | InodeDel inum => fun r v' =>
      if bool_decide (is_Some (v_inodes v !! inum))
      then r = Ok tt /\ v' = upd_inodes (delete inum) v
      else r = Err DB_NOTFOUND /\ v' = v
  | NameGet name => fun r v' => v' = v /\
      ((exists inum ino, inode_named v name inum ino /\ r = Ok ino) \/
       (forall inum ino, ~ inode_named v name inum ino) /\ r = Err DB_NOTFOUND)
  | DataGet inum => fun r v' => v' = v /\ r = lookup_res (v_data v !! inum)
  | DataPut inum data => fun r v' => r = Ok tt /\ v' = upd_data (insert inum data) v
  | DataDel inum => fun r v' =>
      if bool_decide (is_Some (v_data v !! inum))
      then r = Ok tt /\ v' = upd_data (delete inum) v
      else r = Err DB_NOTFOUND /\ v' = v
  | HandleGet sid fh => fun r v' => v' = v /\ r = lookup_res (v_handles v !! (sid, fh))
  | HandlePut h => fun r v' => r = Ok tt /\ v' = upd_handles (insert (rh_key h) h) v
  | HandleDel sid fh => fun r v' =>
      if bool_decide (is_Some (v_handles v !! (sid, fh)))
      then r = Ok tt /\ v' = upd_handles (delete (sid, fh)) v
      else r = Err DB_NOTFOUND /\ v' = v
  | HandleCurDel h => fun r v' =>
      if bool_decide (is_Some (v_handles v !! rh_key h))
      then r = Ok tt /\ v' = upd_handles (delete (rh_key h)) v
      else r = Err EINVAL /\ v' = v
  | HandleIdxDel inum => fun r v' =>
      let gone := filter (fun kh => handle_idx_key kh.2 = inum) (v_handles v) in
      if bool_decide (gone = ∅)
      then r = Err DB_NOTFOUND /\ v' = v
      else r = Ok tt /\
           v' = upd_handles (filter (fun kh => handle_idx_key kh.2 <> inum)) v
  | HandleIdxScan inum => fun r v' => v' = v /\ exists l, r = Ok l /\
      lists_handles (v_handles v) (fun h => handle_idx_key h = inum) l
  | HandleRange sid => fun r v' => v' = v /\ exists l, r = Ok l /\
      lists_handles (v_handles v)
        (fun h => memcmp (hkey_bytes sid 0) (hkey_bytes (rh_sid h) (rh_fh h)) <= 0) l /\
      StronglySorted (fun a b => memcmp (hkey_bytes (rh_sid a) (rh_fh a))
                                        (hkey_bytes (rh_sid b) (rh_fh b)) <= 0) l
  | LockPut lock => fun r v' =>
      let old := locks_of v (rl_inum lock) in
      (exists l1 l2, old = l1 ++ l2 /\ (forall e, e ∈ old -> lock_compare e lock <> 0) /\ r = Ok tt /\
         v' = upd_locks (insert (rl_inum lock) (l1 ++ lock :: l2)) v /\
         (lock_cmp_total (lock :: old) -> locks_sorted old -> locks_sorted (l1 ++ lock :: l2))) \/
      (* an equal duplicate is already there: refused, or overwritten *)
      (exists l1 e l2, old = l1 ++ e :: l2 /\ lock_compare e lock = 0 /\
         ((r = Err DB_KEYEXIST /\ v' = v) \/
          (r = Ok tt /\ v' = upd_locks (insert (rl_inum lock) (l1 ++ lock :: l2)) v)))
  | LockScan inum => fun r v' => v' = v /\ r = Ok (locks_of v inum)
  | LockCurPut cur new => fun r v' =>
      (* DB_CURRENT must not change the record's sort position *)
      if bool_decide (cur ∈ locks_of v (rl_inum cur)) && (lock_compare cur new =? 0)
      then r = Ok tt /\
           v' = upd_locks (insert (rl_inum cur) (replace_first cur new (locks_of v (rl_inum cur)))) v
      else r = Err EINVAL /\ v' = v
  | LockCurDel cur => fun r v' =>
      if bool_decide (cur ∈ locks_of v (rl_inum cur))
      then r = Ok tt /\
           v' = upd_locks (insert (rl_inum cur) (remove_first cur (locks_of v (rl_inum cur)))) v
      else r = Err EINVAL /\ v' = v
  | CurGet => fun r v' => r = Ok tt /\ v' = v
  | CurClose => fun r v' => r = Ok tt /\ v' = v
  end.

(** A call fails with an internal error and changes nothing, or does what is
    documented. *)
Definition dbstep {A} (q : dbreq A) (v : dbview) (r : res A) (v' : dbview) : Prop :=
  (exists e, r = Err e /\ e <> 0 /\ e <> DB_NOTFOUND /\ e <> DB_KEYEXIST /\ v' = v) \/
  dbdoc q v r v'.

(** ** The library *)

Class Bdb (D : Type) : Type := {
  db_call : forall {A : Type}, dbreq A -> D -> res A * D;
  db_txn_begin : D -> Z * D;
  db_txn_commit : D -> Z * D;
  db_txn_abort : D -> Z * D }.

(** [view]: contents; [saved]: contents when the open transaction began. *)
Class BdbOk (D : Type) `{!Bdb D} : Type := {
  view : D -> dbview;
  saved : D -> dbview;
  db_call_ok {A} (q : dbreq A) (d : D) :
    dbstep q (view d) (db_call q d).1 (view (db_call q d).2) /\
    saved (db_call q d).2 = saved d;
  db_txn_begin_ok (d : D) :
    view (db_txn_begin d).2 = view d /\
    ((db_txn_begin d).1 = 0 -> saved (db_txn_begin d).2 = view d);
  (** a failed commit aborts the transaction *)
  db_txn_commit_ok (d : D) :
    view (db_txn_commit d).2 = if (db_txn_commit d).1 =? 0 then view d else saved d;
  db_txn_abort_ok (d : D) : view (db_txn_abort d).2 = saved d }.

(** An environment without internal errors. *)
Class BdbReliable (D : Type) `{!Bdb D, !BdbOk D} : Prop := {
  rel_call {A} (q : dbreq A) (d : D) : dbdoc q (view d) (db_call q d).1 (view (db_call q d).2);
  rel_begin (d : D) : (db_txn_begin d).1 = 0;
  rel_commit (d : D) : (db_txn_commit d).1 = 0 }.
