(* ===== verification/Srv.v ===== *)
(** * Srv: the state of the CLD server and the monad its code runs in

    [struct session] and [struct session_outpkt] of cld/cld.h and
    cld/session.c, the parts of [struct server] the code changes, and the
    primitives the C code gets from libc, libevent and its socket.

    Sessions live in a heap and are named by pointers, because the session
    table, the handlers and the timers share them.  What the environment
    decides (the value of [rand], whether an allocation or a timer call
    succeeds, how much of a [write] is taken) is read from an oracle, an
    arbitrary sequence: theorems hold for all of them. *)

From S2P Require Import Prelude Htab Wire Bdb.
#[local] Open Scope Z_scope.

Definition CLD_SESS_TIMEOUT : Z := 60.
Definition CLD_RETRY_START : Z := 2.

Abbreviation sptr := nat (only parsing).

(** The completion callbacks the code passes to [sess_sendmsg]. *)
Inductive done_cb : Type := cb_null | cb_session_ping_done | cb_end_sess_done.

Record session_outpkt : Type := mkOutpkt {
  op_sess : sptr;
  op_pkt_data : bytes;
  op_next_retry : Z;
  op_refs : Z;
  op_done_cb : done_cb }.

(** A libevent timer: [Some tv] once added with a delay of [tv] seconds. *)
Record session : Type := mkSess {
  s_sid : Z;
  s_sock_fd : Z;
  s_addr : bytes;
  s_addr_len : Z;
  s_ipaddr : bytes;
  s_last_contact : Z;
  s_next_fh : Z;
  s_timer : option Z;
  s_next_seqid_in : Z;
  s_next_seqid_out : Z;
  s_out_q : list session_outpkt;
  s_retry_timer : option Z;
  s_user : bytes;
  s_ping_open : bool;
  s_dead : bool;
  s_msg_op : Z;
  s_msg_xid : Z;
  s_msg_buf : bytes }.

(** [calloc]'d: all zero. *)
Definition zero_session : session :=
  mkSess 0 0 [] 0 [] 0 0 None 0 0 [] None [] false false 0 0 [].
#[global] Instance session_inhabited : Inhabited session := populate zero_session.

(** Field updates. *)
Definition set_sock_fd (x : Z) (s : session) : session :=
  mkSess (s_sid s) x (s_addr s) (s_addr_len s) (s_ipaddr s) (s_last_contact s) (s_next_fh s)
    (s_timer s) (s_next_seqid_in s) (s_next_seqid_out s) (s_out_q s) (s_retry_timer s) (s_user s)
    (s_ping_open s) (s_dead s) (s_msg_op s) (s_msg_xid s) (s_msg_buf s).
Definition set_last_contact (x : Z) (s : session) : session :=
  mkSess (s_sid s) (s_sock_fd s) (s_addr s) (s_addr_len s) (s_ipaddr s) x (s_next_fh s)
    (s_timer s) (s_next_seqid_in s) (s_next_seqid_out s) (s_out_q s) (s_retry_timer s) (s_user s)
    (s_ping_open s) (s_dead s) (s_msg_op s) (s_msg_xid s) (s_msg_buf s).
Definition set_next_fh (x : Z) (s : session) : session :=
  mkSess (s_sid s) (s_sock_fd s) (s_addr s) (s_addr_len s) (s_ipaddr s) (s_last_contact s) x
    (s_timer s) (s_next_seqid_in s) (s_next_seqid_out s) (s_out_q s) (s_retry_timer s) (s_user s)
    (s_ping_open s) (s_dead s) (s_msg_op s) (s_msg_xid s) (s_msg_buf s).
Definition set_timer (x : option Z) (s : session) : session :=
  mkSess (s_sid s) (s_sock_fd s) (s_addr s) (s_addr_len s) (s_ipaddr s) (s_last_contact s) (s_next_fh s)
    x (s_next_seqid_in s) (s_next_seqid_out s) (s_out_q s) (s_retry_timer s) (s_user s)
    (s_ping_open s) (s_dead s) (s_msg_op s) (s_msg_xid s) (s_msg_buf s).
Definition set_seqid_in (x : Z) (s : session) : session :=
  mkSess (s_sid s) (s_sock_fd s) (s_addr s) (s_addr_len s) (s_ipaddr s) (s_last_contact s) (s_next_fh s)
    (s_timer s) x (s_next_seqid_out s) (s_out_q s) (s_retry_timer s) (s_user s)
    (s_ping_open s) (s_dead s) (s_msg_op s) (s_msg_xid s) (s_msg_buf s).
Definition set_seqid_out (x : Z) (s : session) : session :=
  mkSess (s_sid s) (s_sock_fd s) (s_addr s) (s_addr_len s) (s_ipaddr s) (s_last_contact s) (s_next_fh s)
    (s_timer s) (s_next_seqid_in s) x (s_out_q s) (s_retry_timer s) (s_user s)
    (s_ping_open s) (s_dead s) (s_msg_op s) (s_msg_xid s) (s_msg_buf s).
Definition set_out_q (x : list session_outpkt) (s : session) : session :=
  mkSess (s_sid s) (s_sock_fd s) (s_addr s) (s_addr_len s) (s_ipaddr s) (s_last_contact s) (s_next_fh s)
    (s_timer s) (s_next_seqid_in s) (s_next_seqid_out s) x (s_retry_timer s) (s_user s)
    (s_ping_open s) (s_dead s) (s_msg_op s) (s_msg_xid s) (s_msg_buf s).
Definition set_retry_timer (x : option Z) (s : session) : session :=
  mkSess (s_sid s) (s_sock_fd s) (s_addr s) (s_addr_len s) (s_ipaddr s) (s_last_contact s) (s_next_fh s)
    (s_timer s) (s_next_seqid_in s) (s_next_seqid_out s) (s_out_q s) x (s_user s)
    (s_ping_open s) (s_dead s) (s_msg_op s) (s_msg_xid s) (s_msg_buf s).
Definition set_ping_open (x : bool) (s : session) : session :=
  mkSess (s_sid s) (s_sock_fd s) (s_addr s) (s_addr_len s) (s_ipaddr s) (s_last_contact s) (s_next_fh s)
    (s_timer s) (s_next_seqid_in s) (s_next_seqid_out s) (s_out_q s) (s_retry_timer s) (s_user s)
    x (s_dead s) (s_msg_op s) (s_msg_xid s) (s_msg_buf s).
Definition set_dead (x : bool) (s : session) : session :=
  mkSess (s_sid s) (s_sock_fd s) (s_addr s) (s_addr_len s) (s_ipaddr s) (s_last_contact s) (s_next_fh s)
    (s_timer s) (s_next_seqid_in s) (s_next_seqid_out s) (s_out_q s) (s_retry_timer s) (s_user s)
    (s_ping_open s) x (s_msg_op s) (s_msg_xid s) (s_msg_buf s).
Definition set_msg (op xid : Z) (buf : bytes) (s : session) : session :=
  mkSess (s_sid s) (s_sock_fd s) (s_addr s) (s_addr_len s) (s_ipaddr s) (s_last_contact s) (s_next_fh s)
    (s_timer s) (s_next_seqid_in s) (s_next_seqid_out s) (s_out_q s) (s_retry_timer s) (s_user s)
    (s_ping_open s) (s_dead s) op xid buf.

(** ** Hash and comparison of sessions (cld/session.c) *)

Definition sess_hash (sid : Z) : Z := le_val (sid_bytes sid).
Definition sess_equal (a b : Z) : Z := memcmp (sid_bytes a) (sid_bytes b).

(** ** Server state *)

Section srv.
Context {D : Type}.

Record srv : Type := mkSrv {
  db : D;                           (* cldb: environment and databases *)
  is_master : bool;
  db_up : bool;
  sessions : htab Z sptr;           (* cld_srv.sessions *)
  heap : gmap sptr session;         (* session objects *)
  next_ptr : sptr;
  current_time : Z;                 (* current_time.tv_sec *)
  net : list (Z * bytes);           (* bytes taken by the sockets, oldest first *)
  garbage : Z;                      (* stats.garbage *)
  oracle : nat -> Z;
  oracle_i : nat }.

Definition set_db (d : D) (s : srv) : srv :=
  mkSrv d (is_master s) (db_up s) (sessions s) (heap s) (next_ptr s) (current_time s) (net s)
    (garbage s) (oracle s) (oracle_i s).
Definition set_sessions (h : htab Z sptr) (s : srv) : srv :=
  mkSrv (db s) (is_master s) (db_up s) h (heap s) (next_ptr s) (current_time s) (net s)
    (garbage s) (oracle s) (oracle_i s).
Definition set_heap (h : gmap sptr session) (s : srv) : srv :=
  mkSrv (db s) (is_master s) (db_up s) (sessions s) h (next_ptr s) (current_time s) (net s)
    (garbage s) (oracle s) (oracle_i s).
Definition set_next_ptr (n : sptr) (s : srv) : srv :=
  mkSrv (db s) (is_master s) (db_up s) (sessions s) (heap s) n (current_time s) (net s)
    (garbage s) (oracle s) (oracle_i s).
Definition set_time (t : Z) (s : srv) : srv :=
  mkSrv (db s) (is_master s) (db_up s) (sessions s) (heap s) (next_ptr s) t (net s)
    (garbage s) (oracle s) (oracle_i s).
Definition set_net (n : list (Z * bytes)) (s : srv) : srv :=
  mkSrv (db s) (is_master s) (db_up s) (sessions s) (heap s) (next_ptr s) (current_time s) n
    (garbage s) (oracle s) (oracle_i s).
Definition set_garbage (g : Z) (s : srv) : srv :=
  mkSrv (db s) (is_master s) (db_up s) (sessions s) (heap s) (next_ptr s) (current_time s) (net s)
    g (oracle s) (oracle_i s).
Definition set_oracle_i (i : nat) (s : srv) : srv :=
  mkSrv (db s) (is_master s) (db_up s) (sessions s) (heap s) (next_ptr s) (current_time s) (net s)
    (garbage s) (oracle s) i.

(** ** The monad *)

Definition M (A : Type) : Type := srv -> A * srv.
Definition ret {A} (a : A) : M A := fun s => (a, s).
Definition bind {A B} (m : M A) (k : A -> M B) : M B :=
  fun s => let '(a, s) := m s in k a s.
Definition get : M srv := fun s => (s, s).
Definition modify (f : srv -> srv) : M unit := fun s => (tt, f s).

(** The environment's next decision. *)
Definition nondet : M Z := fun s => (oracle s (oracle_i s), set_oracle_i (S (oracle_i s)) s).

End srv.
Arguments srv : clear implicits.
Arguments M : clear implicits.

Declare Scope srv_scope.
Delimit Scope srv_scope with srv.
Notation "'let!' x ':=' m 'in' k" := (bind m (fun x => k))
  (at level 10, x name, m at level 100, k at level 200) : srv_scope.
Notation "m ';;;' k" := (bind m (fun _ => k))
  (at level 199, right associativity) : srv_scope.
#[global] Open Scope srv_scope.

Section prims.
Context {D : Type}.

(** [malloc]/[calloc]/[realloc] succeed unless the oracle says 0. *)
Definition malloc_ok : M D bool := let! x := nondet in ret (negb (x =? 0)).

(** [rand()]: 0 .. RAND_MAX = 2^31 - 1 *)
Definition rand : M D Z := let! x := nondet in ret (x mod 2 ^ 31).

(** [cld_rand64] (lib/common.c): two 32-bit halves. *)
Definition cld_rand64 : M D Z :=
  let! lo := rand in let! hi := rand in ret (lo + Z.shiftl hi 32).

(** [evtimer_add] / [evtimer_del] report success unless the oracle is negative. *)
Definition ev_ok : M D bool := let! x := nondet in ret (0 <=? x).

(** [write(fd, buf, len)]: an error (negative), or the number of bytes taken. *)
Definition sys_write (fd : Z) (buf : bytes) : M D Z :=
  let! x := nondet in
  if x <? 0 then ret x else
  let n := Nat.min (Z.to_nat x) (length buf) in
  modify (fun s => set_net (net s ++ [(fd, take n buf)]) s) ;;;
  ret (Z.of_nat n).

(** Session objects. *)
Definition get_sess (p : sptr) : M D session := fun s => (heap s !!! p, s).
Definition upd_sess (p : sptr) (f : session -> session) : M D unit :=
  modify (fun s => set_heap (alter f p (heap s)) s).

(** The session table. *)
Definition sess_get (sid : Z) : M D (option sptr) :=
  fun s => (htab_get sess_hash sess_equal (sessions s) sid, s).
Definition sess_del (sid : Z) : M D bool :=
  fun s => let '(b, h) := htab_del sess_hash sess_equal (sessions s) sid in (b, set_sessions h s).
Definition sess_put (sid : Z) (p : sptr) : M D bool :=
  let! a := malloc_ok in
  let! b := malloc_ok in
  fun s => let '(r, h) := htab_put sess_hash a b (sessions s) sid p in (r, set_sessions h s).

Context `{!Bdb D}.

Definition dbcall {A} (q : dbreq A) : M D (res A) :=
  fun s => let '(r, d) := db_call q (db s) in (r, set_db d s).
Definition txn_begin : M D Z := fun s => let '(r, d) := db_txn_begin (db s) in (r, set_db d s).
Definition txn_commit : M D Z := fun s => let '(r, d) := db_txn_commit (db s) in (r, set_db d s).
Definition txn_abort : M D Z := fun s => let '(r, d) := db_txn_abort (db s) in (r, set_db d s).

End prims.
