(* ===== verification/Cldb.v ===== *)
(** * Cldb: the database accessors of cld/cldb.c

    One definition per function; each returns the [int] of the C function (or
    the record it hands out) and issues the Berkeley DB calls the function
    makes.  The open/close functions ([cldb_init], [open_db], [cldb_up],
    [cldb_down], [cldb_fini]) only set the library up and are not modelled. *)

From S2P Require Import Prelude Wire Bdb Srv.
#[local] Open Scope Z_scope.

(** After a cursor loop: running off the end is not an error
    ([if (rc == DB_NOTFOUND) rc = 0;]). *)
Definition end_of_scan (rc : Z) : Z := if rc =? DB_NOTFOUND then 0 else rc.

Section cldb.
Context {D : Type} `{!Bdb D}.

(** ** Sessions *)

Definition cldb_session_del (sid : Z) : M D Z :=
  let! r := dbcall (SessDel sid) in ret (rc_of r).

Definition cldb_session_get (sid : Z) : M D (res raw_session) := dbcall (SessGet sid).

Definition cldb_session_put (sess : raw_session) : M D Z :=
  let! r := dbcall (SessPut sess false) in ret (rc_of r).

(** ** Inodes *)

Definition cldb_inode_get (inum : Z) : M D (res raw_inode) := dbcall (InodeGet inum).

Definition cldb_inode_get_byname (name : bytes) : M D (res raw_inode) := dbcall (NameGet name).

(** [sizeof(struct raw_inode)] is 48. *)
Definition raw_ino_size (ino : raw_inode) : Z := 48 + ri_ino_len ino.

Definition cldb_inode_put (ino : raw_inode) : M D Z :=
  let! r := dbcall (InodePut ino) in ret (rc_of r).

(** Build the in-memory inode; [None] when out of memory. *)
Definition cldb_inode_mem (name : bytes) (flags new_inum : Z) : M D (option raw_inode) :=
  let! ok := malloc_ok in
  if negb ok then ret None else
  let! s := get in
  let t := u64 (current_time s) in
  ret (Some (mkRawInode new_inum (u32 (Z.of_nat (length name))) 0 0 t t (u32 flags) name)).

(** The search for an unused inode number: at most [limit] draws. *)
Fixpoint inode_new_loop (limit : nat) : M D (option Z) :=
  match limit with
  | O => ret None
  | S limit =>
      let! new_inum := rand in
      if new_inum <=? CLD_INO_RESERVED_LAST then inode_new_loop limit else
      let! r := cldb_inode_get new_inum in
      match r with
      | Err e => if e =? DB_NOTFOUND then ret (Some new_inum) else ret None
      | Ok _ => inode_new_loop limit
      end
  end.

Definition INODE_NEW_LIMIT : nat := Z.to_nat 100000.

Definition cldb_inode_new (name : bytes) (flags : Z) : M D (option raw_inode) :=
  let! found := inode_new_loop INODE_NEW_LIMIT in
  match found with
  | None => ret None
  | Some new_inum => cldb_inode_mem name flags new_inum
  end.

(** ** Data *)

Definition cldb_data_get (inum : Z) : M D (res bytes) := dbcall (DataGet inum).

Definition cldb_data_put (inum : Z) (data : bytes) : M D Z :=
  let! r := dbcall (DataPut inum data) in ret (rc_of r).

(** ** Handles *)

(** Takes the session's next handle number. *)
Definition cldb_handle_new (p : sptr) (inum mode events : Z) : M D (option raw_handle) :=
  let! ok := malloc_ok in
  if negb ok then ret None else
  let! sess := get_sess p in
  let fh := s_next_fh sess in
  upd_sess p (fun sess => set_next_fh (u64 (s_next_fh sess + 1)) sess) ;;;
  ret (Some (mkRawHandle (s_sid sess) fh inum (u32 mode) (u32 events))).

Definition cldb_handle_get (sid fh : Z) : M D (res raw_handle) := dbcall (HandleGet sid fh).

Definition cldb_handle_put (h : raw_handle) : M D Z :=
  let! r := dbcall (HandlePut h) in ret (rc_of r).

Definition cldb_handle_del (sid fh : Z) : M D Z :=
  let! r := dbcall (HandleDel sid fh) in ret (rc_of r).

(** ** Locks *)

Fixpoint lock_del_loop (sid fh : Z) (ls : list raw_lock) : M D Z :=
  let! r := dbcall CurGet in
  match r with
  | Err e => ret e
  | Ok _ =>
      match ls with
      | [] => ret DB_NOTFOUND
      | lock :: ls =>
          if (rl_sid lock =? sid) && (fh =? rl_fh lock) then
            let! r := dbcall (LockCurDel lock) in ret (rc_of r)
          else lock_del_loop sid fh ls
      end
  end.

Definition cldb_lock_del (sid fh inum : Z) : M D Z :=
  let! r := dbcall (LockScan inum) in
  match r with
  | Err e => ret e
  | Ok ls =>
      let! rc := lock_del_loop sid fh ls in
      dbcall CurClose ;;;
      ret rc
  end.

(** 0: an acquired lock conflicts; DB_NOTFOUND: none does. *)
Fixpoint lock_find_loop (want_shared : bool) (ls : list raw_lock) : M D Z :=
  let! r := dbcall CurGet in
  match r with
  | Err e => ret e
  | Ok _ =>
      match ls with
      | [] => ret DB_NOTFOUND
      | lock :: ls =>
          let lflags := rl_flags lock in
          if flag lflags CLFL_PENDING then lock_find_loop want_shared ls else
          if negb want_shared || (want_shared && negb (flag lflags CLFL_SHARED))
          then ret 0
          else lock_find_loop want_shared ls
      end
  end.

Definition cldb_lock_find (inum : Z) (want_shared : bool) : M D Z :=
  let! r := dbcall (LockScan inum) in
  match r with
  | Err e => ret e
  | Ok ls =>
      let! rc := lock_find_loop want_shared ls in
      dbcall CurClose ;;;
      ret rc
  end.

(** Return code and [*acquired]. *)
Definition cldb_lock_add (sid fh inum : Z) (shared wait : bool) : M D (Z * bool) :=
  let! rc := cldb_lock_find inum shared in
  if negb (rc =? 0) && negb (rc =? DB_NOTFOUND) then ret (rc, false) else
  let have_conflict := rc =? 0 in
  if negb wait && have_conflict then ret (DB_KEYEXIST, false) else
  let lock_flags := Z.lor (if shared then CLFL_SHARED else 0)
                          (if wait && have_conflict then CLFL_PENDING else 0) in
  let! s := get in
  let lock := mkRawLock inum sid fh (u64 (current_time s)) lock_flags in
  let! r := dbcall (LockPut lock) in
  ret (rc_of r, negb have_conflict && is_ok r).

End cldb.
