(* ===== verification/Outq.v ===== *)
(** * Outq: sending messages and the retransmission queue of a session

    The output side of cld/session.c ([sess_sendmsg] and its helpers,
    [session_outq], [sess_retry_output], [session_retry], [msg_ack] and the
    completion callbacks) and [tcp_tx] of cld/server.c.

    A message is cut into packets of at most [CLD_MAX_PKT_MSG_SZ] payload
    bytes; each packet is header, payload, 64-bit sequence number, signature.
    The packets are written once and kept in the session's queue until the
    client acknowledges their sequence numbers. *)

From S2P Require Import Prelude Htab Wire Bdb Srv.
#[local] Open Scope Z_scope.

Section outq.
Context {D : Type} `{!XdrLib, !HmacLib}.

(** Two writes: the UBBP header and the packet; a short write is not noticed. *)
Definition tcp_tx (fd : Z) (data : bytes) : M D Z :=
  let! src := sys_write fd (ubbp_hdr (Z.of_nat (length data))) in
  if src <? 0 then ret src else
  let! src := sys_write fd data in
  if src <? 0 then ret src else
  ret 0.

(** The value handed out is the one stored, at 64 bits. *)
Definition next_seqid_le (p : sptr) : M D Z :=
  let! sess := get_sess p in
  let tmp := s_next_seqid_out sess in
  upd_sess p (set_seqid_out (u64 (tmp + 1))) ;;;
  ret (u64 tmp).

(** Zeroed packet buffer with one reference; [None]: out of memory. *)
Definition op_alloc (pkt_len : Z) : M D (option session_outpkt) :=
  let! a := malloc_ok in
  if negb a then ret None else
  let! b := malloc_ok in
  if negb b then ret None else
  ret (Some (mkOutpkt 0%nat (replicate (Z.to_nat pkt_len) 0) 0 1 cb_null)).

(** [None]: the packet was freed. *)
Definition op_unref (op : session_outpkt) : option session_outpkt :=
  let refs := if op_refs op =? 0 then 0 else op_refs op - 1 in
  if (op_refs op =? 0) || (refs =? 0) then None
  else Some (mkOutpkt (op_sess op) (op_pkt_data op) (op_next_retry op) refs (op_done_cb op)).

(** The header of one packet of a message. *)
Definition outpkt_hdr (sess : session) (first last : bool) (xid msg_op : Z) : cld_pkt_hdr :=
  mkHdr (le_val CLD_PKT_MAGIC) (s_sid sess) (s_user sess)
    (if first then
       if last then CLD_PKT_ORD_FIRST_LAST (mkInfos xid msg_op)
       else CLD_PKT_ORD_FIRST (mkInfos xid msg_op)
     else if last then CLD_PKT_ORD_LAST else CLD_PKT_ORD_MID).

(** The do/while loop: one packet per round, footer still zero.  [rem] is what
    is left of the message; [None] is the jump to [err_out]. *)
Fixpoint build_pkts (fuel : nat) (p : sptr) (msg_op : Z) (cb : done_cb)
    (first : bool) (rem : bytes) : M D (option (list session_outpkt)) :=
  match fuel with
  | O => ret None
  | S fuel =>
      let last := Z.of_nat (length rem) <=? CLD_MAX_PKT_MSG_SZ in
      let chunk_len := if last then length rem else Z.to_nat CLD_MAX_PKT_MSG_SZ in
      let! sess := get_sess p in
      let! xid := (if first then cld_rand64 else ret 0) in
      let hdr := xdr_hdr_enc (outpkt_hdr sess first last xid msg_op) in
      let hdr_len := xdr_sizeof hdr in
      let! op := op_alloc (hdr_len + Z.of_nat chunk_len + CLD_PKT_FTR_LEN) in
      match op with
      | None => ret None
      | Some op =>
          let! s := get in
          match hdr with
          | None => ret None
          | Some hb =>
              let op := mkOutpkt p (hb ++ take chunk_len rem ++ replicate 28 0)
                          (u64 (current_time s + CLD_RETRY_START)) (op_refs op) cb in
              if last then ret (Some [op]) else
              let! rest := build_pkts fuel p msg_op cb false (drop chunk_len rem) in
              match rest with
              | None => ret None
              | Some ops => ret (Some (op :: ops))
              end
          end
      end
  end.

(** Sequence numbers and signatures, packet by packet. *)
Fixpoint sign_pkts (p : sptr) (secret_key : option bytes) (ops : list session_outpkt)
  : M D (option (list session_outpkt)) :=
  match ops with
  | [] => ret (Some [])
  | op :: ops =>
      let! seqid := next_seqid_le p in
      let body := take (length (op_pkt_data op) - 28) (op_pkt_data op) ++ le_bytes 8 seqid in
      let '(rc, sha) := cld_authsign secret_key body in
      if negb (rc =? 0) then ret None else
      let op' := mkOutpkt (op_sess op) (body ++ sha) (op_next_retry op) (op_refs op) (op_done_cb op) in
      let! rest := sign_pkts p secret_key ops in
      match rest with
      | None => ret None
      | Some ops' => ret (Some (op' :: ops'))
      end
  end.

Fixpoint send_pkts (fd : Z) (ops : list session_outpkt) : M D unit :=
  match ops with
  | [] => ret tt
  | op :: ops => tcp_tx fd (op_pkt_data op) ;;; send_pkts fd ops
  end.

Definition session_outq (p : sptr) (new_pkts : list session_outpkt) : M D unit :=
  let! sess := get_sess p in
  (if (length (s_out_q sess) =? 0)%nat then
     let! ok := ev_ok in
     if ok then upd_sess p (set_retry_timer (Some CLD_RETRY_START)) else ret tt
   else ret tt) ;;;
  upd_sess p (fun sess => set_out_q (s_out_q sess ++ new_pkts) sess).

(** [true] only if the message was queued. *)
Definition sess_sendmsg (p : sptr) (msg : msg_out) (msg_op : Z) (cb : done_cb) : M D bool :=
  let! sess := get_sess p in
  let secret_key := user_key (Some (s_user sess)) in
  let msg_len := xdr_sizeof (xdr_msg_enc msg) in
  if CLD_MAX_MSG_SZ <? msg_len then ret false else
  match xdr_msg_enc msg with
  | None => ret false
  | Some msg_bytes =>
      let! pkts := build_pkts (S (length msg_bytes)) p msg_op cb true msg_bytes in
      match pkts with
      | None => ret false
      | Some pkts =>
          let! signed := sign_pkts p secret_key pkts in
          match signed with
          | None => ret false
          | Some pkts =>
              let! sess := get_sess p in
              send_pkts (s_sock_fd sess) pkts ;;;
              session_outq p pkts ;;;
              ret true
          end
      end
  end.

Definition sess_sendresp_generic (p : sptr) (code : cle_err) : M D unit :=
  let! sess := get_sess p in
  sess_sendmsg p (MGenericResp code (s_msg_xid sess)) (s_msg_op sess) cb_null ;;;
  ret tt.

(** ** Single unacknowledged packets *)

(** The packet [simple_sendmsg] builds in a stack buffer of
    [hdr_len + msg_len + CLD_PKT_FTR_LEN] bytes.  The footer pointer is
    [buf + (buf_len - SHA_DIGEST_LENGTH)], so the sequence number lands where
    the signature belongs and the last 8 signature bytes land past the buffer.
    [junk] is the uninitialised memory where the sequence number belongs,
    [stale] what is at [foot->sha], kept when signing fails.
    Result: the bytes of the buffer and those written behind it. *)
Definition simple_pkt (user : bytes) (seqid : Z) (hdr msg junk stale : bytes) : bytes * bytes :=
  let signed := hdr ++ msg ++ junk in
  let '(rc, md) := cld_authsign (user_key (Some user)) signed in
  let sha := if rc =? 0 then md else stale in
  (signed ++ le_bytes 8 seqid ++ take 12 sha, drop 12 sha).

Definition simple_sendmsg (fd : Z) (sid : Z) (user : bytes) (seqid : Z) (msg : msg_out) (op : Z)
  : M D unit :=
  let! xid := cld_rand64 in
  let hdr := mkHdr (le_val CLD_PKT_MAGIC) sid user (CLD_PKT_ORD_FIRST_LAST (mkInfos xid op)) in
  if CLD_MAX_MSG_SZ <? xdr_sizeof (xdr_msg_enc msg) then ret tt else
  match xdr_hdr_enc hdr, xdr_msg_enc msg with
  | Some hb, Some mb =>
      let! junk := nondet in
      let! stale := nondet in
      let '(pkt, _) := simple_pkt user seqid hb mb (le_bytes 8 junk) (le_bytes 20 stale) in
      tcp_tx fd pkt ;;;
      ret tt
  | _, _ => ret tt
  end.

(** ** Retransmission *)

(** One pass over the queue.  Result: return code, [*next_retry_out], and the
    queue with the retransmitted packets pushed back by 5 seconds. *)
Fixpoint retry_loop (fd : Z) (next_retry : Z) (q : list session_outpkt)
  : M D (Z * Z * list session_outpkt) :=
  match q with
  | [] => ret (0, next_retry, [])
  | op :: q =>
      let next_retry :=
        if (next_retry =? 0) || (op_next_retry op <? next_retry)
        then op_next_retry op else next_retry in
      let! s := get in
      if current_time s <? op_next_retry op then
        let! r := retry_loop fd next_retry q in
        let '(rc, nr, q) := r in ret (rc, nr, op :: q)
      else
        let! rc := tcp_tx fd (op_pkt_data op) in
        if negb (rc =? 0) then ret (rc, next_retry, op :: q) else
        let op := mkOutpkt (op_sess op) (op_pkt_data op) (u64 (op_next_retry op + 5))
                    (op_refs op) (op_done_cb op) in
        let! r := retry_loop fd next_retry q in
        let '(rc, nr, q) := r in ret (rc, nr, op :: q)
  end.

Definition sess_retry_output (p : sptr) : M D (Z * Z) :=
  let! sess := get_sess p in
  let! r := retry_loop (s_sock_fd sess) 0 (s_out_q sess) in
  let '(rc, next_retry, q) := r in
  upd_sess p (set_out_q q) ;;;
  ret (rc, next_retry).

(** Retry timer callback; [now] is [time(NULL)]. *)
Definition session_retry (p : sptr) (now : Z) : M D unit :=
  let! sess := get_sess p in
  if (length (s_out_q sess) =? 0)%nat then ret tt else
  let! r := sess_retry_output p in
  let '(_, next_retry) := r in
  let! ok := ev_ok in
  if ok then upd_sess p (set_retry_timer (Some (next_retry - now))) else ret tt.

(** ** Acknowledgement *)

Definition session_trash (p : sptr) : M D unit := upd_sess p (set_dead true).

Definition session_ping_done (op : session_outpkt) : M D unit :=
  upd_sess (op_sess op) (set_ping_open false).

Definition end_sess_done (op : session_outpkt) : M D unit := session_trash (op_sess op).

Definition run_done_cb (op : session_outpkt) : M D unit :=
  match op_done_cb op with
  | cb_null => ret tt
  | cb_session_ping_done => session_ping_done op
  | cb_end_sess_done => end_sess_done op
  end.

(** The packets still queued after the walk. *)
Fixpoint ack_loop (seqid : Z) (q : list session_outpkt) : M D (list session_outpkt) :=
  match q with
  | [] => ret []
  | op :: q =>
      if negb (seqid =? foot_seqid (op_pkt_data op)) then
        let! rest := ack_loop seqid q in ret (op :: rest)
      else
        run_done_cb op ;;;
        ack_loop seqid q
  end.

Definition msg_ack (p : sptr) (seqid : Z) : M D unit :=
  let! sess := get_sess p in
  if (length (s_out_q sess) =? 0)%nat then ret tt else
  let! q := ack_loop seqid (s_out_q sess) in
  upd_sess p (set_out_q q) ;;;
  if (length q =? 0)%nat then upd_sess p (set_retry_timer None) else ret tt.

End outq.
