(* ===== verification/Msg.v ===== *)
(** * Msg: the request handlers of cld/msg.c and lock removal

    Notification of handle owners, the lock rescan, the handlers for GET,
    OPEN, PUT, CLOSE, DEL, UNLOCK and LOCK/TRYLOCK, and [session_remove_locks]
    of cld/session.c, which CLOSE shares with session removal.

    A handler body that jumps to [err_out] returns [inl code]; [run_txn] is
    the common frame: begin, body, abort or commit. *)

From S2P Require Import Prelude Htab Dirent Wire Bdb Srv Cldb Outq.
#[local] Open Scope Z_scope.

Section em.
Context {D : Type}.

(** Code that may jump to [err_out] with a response code. *)
Abbreviation EM A := (M D (cle_err + A)).

Definition fail {A} (e : cle_err) : EM A := ret (inl e).
Definition ebind {A B} (m : EM A) (k : A -> EM B) : EM B :=
  bind m (fun r => match r with inl e => ret (inl e) | inr a => k a end).

(** [if (rc) { resp_rc = f(rc); goto err_out; }] *)
Definition or_fail {A} (m : M D (res A)) (f : Z -> cle_err) : EM A :=
  bind m (fun r => match r with Ok a => ret (inr a) | Err e => ret (inl (f e)) end).
Definition rc_or_fail (m : M D Z) (e : cle_err) : EM unit :=
  bind m (fun rc => if rc =? 0 then ret (inr tt) else ret (inl e)).
Definition some_or_fail {A} (m : M D (option A)) (e : cle_err) : EM A :=
  bind m (fun o => match o with Some a => ret (inr a) | None => ret (inl e) end).
Definition lift {A} (m : M D A) : EM A := bind m (fun a => ret (inr a)).

End em.
Notation "'try!' x ':=' m 'in' k" := (ebind m (fun x => k))
  (at level 10, x name, m at level 100, k at level 200) : srv_scope.

Section msg.
Context {D : Type} `{!Bdb D, !XdrLib, !HmacLib}.

(** ** Notification *)

Fixpoint notify_loop (deleted : bool) (hs : list raw_handle) : M D unit :=
  let! r := dbcall CurGet in
  match r with
  | Err _ => ret tt
  | Ok _ =>
      match hs with
      | [] => ret tt
      | h :: hs =>
          if negb deleted && negb (flag (rh_events h) CE_UPDATED) then notify_loop deleted hs else
          let! sess := sess_get (rh_sid h) in
          match sess with
          | None => notify_loop deleted hs
          | Some q =>
              let! sess := get_sess q in
              if s_sock_fd sess =? 0 then notify_loop deleted hs else
              let! sent := sess_sendmsg q (MEvent (rh_fh h) (if deleted then CE_DELETED else CE_UPDATED))
                             CMO_EVENT cb_null in
              if sent then notify_loop deleted hs else ret tt
          end
      end
  end.

Definition inode_notify (inum : Z) (deleted : bool) : M D Z :=
  let! r := dbcall (HandleIdxScan inum) in
  match r with
  | Err e => ret e
  | Ok hs =>
      notify_loop deleted hs ;;;
      dbcall CurClose ;;;
      ret 0
  end.

(** The inode as [inode_touch] rewrites it: the version is read and written
    back through the 32-bit conversions. *)
Definition touched (now : Z) (ino : raw_inode) : raw_inode :=
  mkRawInode (ri_inum ino) (ri_ino_len ino) (ri_size ino)
    (u32 (u32 (ri_version ino) + 1))
    (if ri_time_create ino =? 0 then u64 now else ri_time_create ino)
    (u64 now) (ri_flags ino) (ri_name ino).

Definition inode_touch (ino : raw_inode) : M D Z :=
  let! s := get in
  let ino := touched (current_time s) ino in
  let! rc := cldb_inode_put ino in
  if negb (rc =? 0) then ret rc else
  let! rc := inode_notify (ri_inum ino) false in
  if negb (rc =? 0) then ret rc else
  ret 0.

(** ** Locks *)

(** The rescan after locks went away.  [lflags] loses CLFL_PENDING in the
    local variable only: the record put back is the one that was read. *)
Fixpoint rescan_loop (acq : Z) (ls : list raw_lock) : M D Z :=
  let! r := dbcall CurGet in
  match r with
  | Err e => ret (end_of_scan e)
  | Ok _ =>
      match ls with
      | [] => ret 0
      | lock :: ls =>
          let lflags := rl_flags lock in
          if negb (flag lflags CLFL_PENDING) then ret 0 else
          if negb (acq =? 0) && negb (flag lflags CLFL_SHARED) then ret 0 else
          let! r := dbcall (LockCurPut lock lock) in
          match r with
          | Err e => ret e
          | Ok _ =>
              let acq := acq + 1 in
              let! sess := sess_get (rl_sid lock) in
              match sess with
              | None => ret 0
              | Some q =>
                  let! sess := get_sess q in
                  if s_sock_fd sess =? 0 then rescan_loop acq ls else
                  let! sent := sess_sendmsg q (MEvent (rl_fh lock) CE_LOCKED) CMO_EVENT cb_null in
                  if sent then rescan_loop acq ls else ret 0
              end
          end
      end
  end.

Definition inode_lock_rescan (inum : Z) : M D Z :=
  let! r := dbcall (LockScan inum) in
  match r with
  | Err e => ret e
  | Ok ls =>
      let! rc := rescan_loop 0 ls in
      dbcall CurClose ;;;
      ret rc
  end.

(** [lmatch]: [fh == 0] matches every lock of the session. *)
Definition lmatch (lock : raw_lock) (sid fh : Z) : bool :=
  (rl_sid lock =? sid) && ((fh =? 0) || (rl_fh lock =? fh)).

Fixpoint remove_locks_loop (sid fh : Z) (waiter : bool) (ls : list raw_lock) : M D (Z * bool) :=
  let! r := dbcall CurGet in
  match r with
  | Err e => ret (e, waiter)
  | Ok _ =>
      match ls with
      | [] => ret (0, waiter)
      | l :: ls =>
          if negb (lmatch l sid fh) then
            remove_locks_loop sid fh (waiter || flag (rl_flags l) CLFL_PENDING) ls
          else
            let! r := dbcall (LockCurDel l) in
            match r with
            | Err e => ret (e, waiter)
            | Ok _ => remove_locks_loop sid fh waiter ls
            end
      end
  end.

(** Return code and [*waiter]. *)
Definition session_remove_locks (sid fh inum : Z) : M D (Z * bool) :=
  let! r := dbcall (LockScan inum) in
  match r with
  | Err e => ret (e, false)
  | Ok ls =>
      let! r := remove_locks_loop sid fh false ls in
      let '(rc, waiter) := r in
      let rc := end_of_scan rc in
      let! c := dbcall CurClose in
      if negb (rc =? 0) then ret (rc, waiter) else ret (rc_of c, waiter)
  end.

(** ** Transactions *)

(** Begin, run [body], commit; on an error of any of them the transaction is
    rolled back and the code is the response. *)
Definition run_txn {A} (body : M D (cle_err + A)) : M D (cle_err + A) :=
  let! rc := txn_begin in
  if negb (rc =? 0) then ret (inl CLE_DB_ERR) else
  let! r := body in
  match r with
  | inl e => txn_abort ;;; ret (inl e)
  | inr a =>
      let! rc := txn_commit in
      if negb (rc =? 0) then ret (inl CLE_DB_ERR) else ret (inr a)
  end.

(** ** GET / GET_META *)

Definition msg_get_body (p : sptr) (fh : Z) : M D (cle_err + unit) :=
  let! sess := get_sess p in
  try! h := or_fail (cldb_handle_get (s_sid sess) fh) (fun _ => CLE_FH_INVAL) in
  let inum := rh_inum h in
  if negb (flag (rh_mode h) COM_READ) then fail CLE_MODE_INVAL else
  try! inode := or_fail (cldb_inode_get inum) (fun _ => CLE_INODE_INVAL) in
  try! data :=
    (if s_msg_op sess =? CMO_GET then
       let! r := cldb_data_get inum in
       match r with
       | Ok data => if Z.of_nat (length data) =? ri_size inode then ret (inr data) else fail CLE_DB_ERR
       | Err e => if e =? DB_NOTFOUND then ret (inr []) else fail CLE_DB_ERR
       end
     else ret (inr [])) in
  lift (sess_sendmsg p
    (MGetResp (mkGetResp CLE_OK (s_msg_xid sess) (ri_inum inode) (ri_version inode)
       (ri_time_create inode) (ri_time_modify inode) (ri_flags inode)
       (take (Z.to_nat (ri_ino_len inode)) (ri_name inode)) data))
    CMO_GET cb_null ;;; ret tt).

(** The response goes out before the (read-only) commit, whose failure is
    only logged. *)
Definition msg_get (p : sptr) (fh : Z) : M D unit :=
  let! rc := txn_begin in
  if negb (rc =? 0) then sess_sendresp_generic p CLE_DB_ERR else
  let! r := msg_get_body p fh in
  match r with
  | inl e => txn_abort ;;; sess_sendresp_generic p e
  | inr _ => txn_commit ;;; ret tt
  end.

(** ** OPEN *)

(** [session_encode] / [session_new_raw] (cld/session.c) *)
Definition session_encode (sess : session) : raw_session :=
  mkRawSess (s_sid sess) (u16 (s_addr_len sess)) (take (Z.to_nat (s_addr_len sess)) (s_addr sess))
    (take 32 (s_user sess)) (s_last_contact sess) (s_next_fh sess)
    (s_next_seqid_in sess) (s_next_seqid_out sess).

Definition session_new_raw (p : sptr) : M D (option raw_session) :=
  let! ok := malloc_ok in
  if negb ok then ret None else
  let! sess := get_sess p in
  ret (Some (session_encode sess)).

Definition set_ri_size (n : Z) (i : raw_inode) : raw_inode :=
  mkRawInode (ri_inum i) (ri_ino_len i) (u32 n) (ri_version i) (ri_time_create i)
    (ri_time_modify i) (ri_flags i) (ri_name i).
Definition set_ri_flags (f : Z) (i : raw_inode) : raw_inode :=
  mkRawInode (ri_inum i) (ri_ino_len i) (ri_size i) (ri_version i) (ri_time_create i)
    (ri_time_modify i) f (ri_name i).

(** The inode to open and whether it is being created. *)
Definition open_lookup (open : cld_msg_open) : M D (cle_err + option raw_inode) :=
  let name := mo_inode_name open in
  let create := flag (mo_mode open) COM_CREATE in
  let excl := flag (mo_mode open) COM_EXCL in
  let do_dir := flag (mo_mode open) COM_DIRECTORY in
  if negb (valid_inode_name (Some name) (length name)) || (create && (length name <? 2)%nat)
  then fail CLE_NAME_INVAL else
  let! r := cldb_inode_get_byname name in
  match r with
  | Err e =>
      if negb (e =? DB_NOTFOUND) then fail CLE_DB_ERR else
      if negb create then fail CLE_NAME_INVAL else
      ret (inr None)
  | Ok inode =>
      if create && excl then fail CLE_INODE_EXISTS else
      if negb (Bool.eqb do_dir (flag (ri_flags inode) CIFL_DIR)) then fail CLE_MODE_INVAL else
      ret (inr (Some inode))
  end.

(** A new inode, linked into its parent's directory data. *)
Definition open_create (open : cld_msg_open) : M D (cle_err + raw_inode) :=
  let name := mo_inode_name open in
  let pinfo := pathname_parse name in
  try! inode := some_or_fail (cldb_inode_new name 0) CLE_OOM in
  let inode := if flag (mo_mode open) COM_DIRECTORY
               then set_ri_flags (Z.lor (ri_flags inode) CIFL_DIR) inode else inode in
  try! parent := or_fail (cldb_inode_get_byname (pi_dir pinfo)) (fun _ => CLE_DB_ERR) in
  try! parent_data :=
    (let! r := cldb_data_get (ri_inum parent) in
     match r with
     | Ok d => ret (inr d)
     | Err e => if e =? DB_NOTFOUND then ret (inr []) else fail CLE_DB_ERR
     end) in
  let! alloc := malloc_ok in
  let '(ok, parent_data) := dirdata_append alloc parent_data (pi_base pinfo) in
  if negb ok then fail CLE_OOM else
  try! _ := rc_or_fail (cldb_data_put (ri_inum parent) parent_data) CLE_DB_ERR in
  let parent := set_ri_size (Z.of_nat (length parent_data)) parent in
  try! _ := rc_or_fail (inode_touch parent) CLE_DB_ERR in
  ret (inr inode).

Definition msg_open_body (p : sptr) (open : cld_msg_open) : M D (cle_err + Z) :=
  try! found := open_lookup open in
  try! inode := (match found with
                 | Some inode => ret (inr inode)
                 | None => open_create open
                 end) in
  try! h := some_or_fail (cldb_handle_new p (ri_inum inode) (mo_mode open) (mo_events open)) CLE_OOM in
  try! _ := rc_or_fail (cldb_handle_put h) CLE_DB_ERR in
  try! _ := (match found with
             | Some _ => ret (inr tt)
             | None => rc_or_fail (inode_touch inode) CLE_DB_ERR
             end) in
  try! raw_sess := some_or_fail (session_new_raw p) CLE_OOM in
  try! _ := rc_or_fail (cldb_session_put raw_sess) CLE_DB_ERR in
  ret (inr (rh_fh h)).

Definition msg_open (p : sptr) (open : cld_msg_open) : M D unit :=
  let! r := run_txn (msg_open_body p open) in
  match r with
  | inl e => sess_sendresp_generic p e
  | inr fh =>
      let! sess := get_sess p in
      sess_sendmsg p (MOpenResp CLE_OK (s_msg_xid sess) fh) CMO_OPEN cb_null ;;; ret tt
  end.

(** ** PUT *)

Definition msg_put_body (p : sptr) (put : cld_msg_put) : M D (cle_err + unit) :=
  let! sess := get_sess p in
  try! h := or_fail (cldb_handle_get (s_sid sess) (mp_fh put)) (fun _ => CLE_FH_INVAL) in
  let inum := rh_inum h in
  if negb (flag (rh_mode h) COM_WRITE) || flag (rh_mode h) COM_DIRECTORY then fail CLE_MODE_INVAL else
  try! inode := or_fail (cldb_inode_get inum) (fun _ => CLE_INODE_INVAL) in
  try! _ := rc_or_fail (cldb_data_put inum (mp_data put)) CLE_DB_ERR in
  let inode := set_ri_size (Z.of_nat (length (mp_data put))) inode in
  rc_or_fail (inode_touch inode) CLE_DB_ERR.

(** Response for the handlers that answer with a bare code. *)
Definition resp_of (r : cle_err + unit) : cle_err := match r with inl e => e | inr _ => CLE_OK end.

Definition msg_put (p : sptr) (put : cld_msg_put) : M D unit :=
  let! r := run_txn (msg_put_body p put) in
  sess_sendresp_generic p (resp_of r).

(** ** CLOSE *)

Definition msg_close_body (p : sptr) (fh : Z) : M D (cle_err + unit) :=
  let! sess := get_sess p in
  try! h := or_fail (cldb_handle_get (s_sid sess) fh)
              (fun e => if e =? DB_NOTFOUND then CLE_FH_INVAL else CLE_DB_ERR) in
  let lock_inum := if flag (rh_mode h) COM_LOCK then rh_inum h else 0 in
  try! _ := rc_or_fail (cldb_handle_del (s_sid sess) fh) CLE_DB_ERR in
  let! r := session_remove_locks (s_sid sess) fh lock_inum in
  let '(rc, waiter) := r in
  if negb (rc =? 0) then fail CLE_DB_ERR else
  if waiter then rc_or_fail (inode_lock_rescan lock_inum) CLE_DB_ERR
  else ret (inr tt).

Definition msg_close (p : sptr) (fh : Z) : M D unit :=
  let! r := run_txn (msg_close_body p fh) in
  sess_sendresp_generic p (resp_of r).

(** ** DEL *)

Definition msg_del_body (inode_name : bytes) : M D (cle_err + unit) :=
  let pinfo := pathname_parse inode_name in
  try! parent := or_fail (cldb_inode_get_byname (pi_dir pinfo)) (fun _ => CLE_DB_ERR) in
  try! parent_data := or_fail (cldb_data_get (ri_inum parent)) (fun _ => CLE_DB_ERR) in
  try! ino := or_fail (cldb_inode_get_byname inode_name)
                (fun e => if e =? DB_NOTFOUND then CLE_NAME_INVAL else CLE_DB_ERR) in
  try! _ :=
    (if flag (ri_flags ino) CIFL_DIR then
       let! r := dbcall (DataGet (ri_inum ino)) in
       match r with
       | Ok d => if (0 <? length d)%nat then fail CLE_DIR_NOTEMPTY else ret (inr tt)
       | Err e => if e =? DB_NOTFOUND then ret (inr tt) else fail CLE_DB_ERR
       end
     else ret (inr tt)) in
  let del_inum := ri_inum ino in
  try! _ := rc_or_fail (inode_notify del_inum true) CLE_DB_ERR in
  try! _ := or_fail (dbcall (InodeDel del_inum))
              (fun e => if e =? DB_NOTFOUND then CLE_INODE_INVAL else CLE_DB_ERR) in
  let! r := dbcall (DataDel del_inum) in
  if negb (rc_of r =? 0) && negb (rc_of r =? DB_NOTFOUND) then fail CLE_DB_ERR else
  let! r := dbcall (HandleIdxDel del_inum) in
  if negb (rc_of r =? 0) && negb (rc_of r =? DB_NOTFOUND) then fail CLE_DB_ERR else
  let '(ok, parent_data) := dirdata_delete parent_data (pi_base pinfo) in
  if negb ok then fail CLE_DB_ERR else
  try! _ := rc_or_fail (cldb_data_put (ri_inum parent) parent_data) CLE_DB_ERR in
  let parent := set_ri_size (Z.of_nat (length parent_data)) parent in
  rc_or_fail (inode_touch parent) CLE_DB_ERR.

Definition msg_del (p : sptr) (inode_name : bytes) : M D unit :=
  if negb (valid_inode_name (Some inode_name) (length inode_name)) || (length inode_name <? 2)%nat
  then sess_sendresp_generic p CLE_NAME_INVAL else
  let! r := run_txn (msg_del_body inode_name) in
  sess_sendresp_generic p (resp_of r).

(** ** UNLOCK *)

Definition msg_unlock_body (p : sptr) (fh : Z) : M D (cle_err + unit) :=
  let! sess := get_sess p in
  try! h := or_fail (cldb_handle_get (s_sid sess) fh) (fun _ => CLE_FH_INVAL) in
  if negb (flag (rh_mode h) COM_LOCK) then fail CLE_MODE_INVAL else
  rc_or_fail (cldb_lock_del (s_sid sess) fh (rh_inum h)) CLE_LOCK_INVAL.

Definition msg_unlock (p : sptr) (fh : Z) : M D unit :=
  let! r := run_txn (msg_unlock_body p fh) in
  sess_sendresp_generic p (resp_of r).

(** ** LOCK / TRYLOCK *)

Definition msg_lock_body (p : sptr) (lock : cld_msg_lock) : M D (cle_err + bool) :=
  let! sess := get_sess p in
  let wait := s_msg_op sess =? CMO_LOCK in
  try! h := or_fail (cldb_handle_get (s_sid sess) (ml_fh lock)) (fun _ => CLE_FH_INVAL) in
  if negb (flag (rh_mode h) COM_LOCK) then fail CLE_MODE_INVAL else
  let! r := cldb_lock_add (s_sid sess) (ml_fh lock) (rh_inum h) (flag (ml_flags lock) CLF_SHARED) wait in
  let '(rc, acquired) := r in
  if negb (rc =? 0) then fail (if rc =? DB_KEYEXIST then CLE_LOCK_CONFLICT else CLE_DB_ERR)
  else ret (inr acquired).

Definition msg_lock (p : sptr) (lock : cld_msg_lock) : M D unit :=
  let! r := run_txn (msg_lock_body p lock) in
  sess_sendresp_generic p
    (match r with
     | inl e => e
     | inr acquired => if acquired then CLE_OK else CLE_LOCK_PENDING
     end).

End msg.
