(* ===== verification/Session.v ===== *)
(** * Session: the life cycle of sessions (cld/session.c)

    Creation (NEW_SESS), the keep-alive timer, END_SESS, removal with all the
    handles and locks of the session, and reloading from the database. *)

From S2P Require Import Prelude Htab Wire Bdb Srv Cldb Outq Msg.
#[local] Open Scope Z_scope.

(** The parts of [struct client] the session code reads. *)
Record cli_info : Type := mkCli {
  cli_fd : Z;
  cli_addr : bytes;
  cli_addr_len : Z;
  cli_addr_host : bytes }.

(** [struct pkt_info]; [pi_sess] is NULL or a session. *)
Record pkt_info : Type := mkPktInfo {
  pi_pkt : cld_pkt_hdr;
  pi_sess : option sptr;
  pi_seqid : Z;
  pi_xid : Z;
  pi_op : Z;
  pi_hdr_len : nat }.

Section session.
Context {D : Type} `{!Bdb D, !XdrLib, !HmacLib}.

(** ** Allocation *)

Definition session_new : M D (option sptr) :=
  let! ok := malloc_ok in
  if negb ok then ret None else
  let! seqid := cld_rand64 in
  let! s := get in
  let p := next_ptr s in
  let sess := set_seqid_out seqid (set_next_fh 2 zero_session) in
  modify (fun s => set_next_ptr (S p) (set_heap (<[p := sess]> (heap s)) s)) ;;;
  ret (Some p).

(** Timers go, queued packets are dropped, the object is freed. *)
Definition session_free (op : option sptr) (hash_remove : bool) : M D unit :=
  match op with
  | None => ret tt
  | Some p =>
      let! sess := get_sess p in
      (if hash_remove then sess_del (s_sid sess) ;;; ret tt else ret tt) ;;;
      modify (fun s => set_heap (delete p (heap s)) s)
  end.

(** [sessions_free]: every session of the table, which keeps its entries. *)
Definition sessions_free : M D unit :=
  let! s := get in
  foldr (fun kv k => session_free (Some kv.2) false ;;; k) (ret tt) (htab_foreach (sessions s)).

(** ** Removal *)

(** The growable arrays of inode numbers: appending may need a [realloc];
    [None]: it failed. *)
Definition array_push (arr : list Z) (alloc : nat) (x : Z) : M D (option (list Z * nat)) :=
  let arr := arr ++ [x] in
  if (length arr =? alloc)%nat then
    let! ok := malloc_ok in
    if ok then ret (Some (arr, (alloc * 2)%nat)) else ret None
  else ret (Some (arr, alloc)).

(** First loop: delete the session's handles, collecting the inodes of those
    opened for locking.  [inl rc]: jump to [err_out] with [rc]. *)
Fixpoint remove_handles_loop (sid : Z) (locks : list Z) (alloc : nat) (hs : list raw_handle)
  : M D (Z + (Z * list Z)) :=
  let! r := dbcall CurGet in
  match r with
  | Err e => ret (inr (e, locks))
  | Ok _ =>
      match hs with
      | [] => ret (inr (0, locks))
      | h :: hs =>
          if negb (rh_sid h =? sid) then ret (inr (0, locks)) else
          let! pushed :=
            (if flag (rh_mode h) COM_LOCK then array_push locks alloc (rh_inum h)
             else ret (Some (locks, alloc))) in
          match pushed with
          | None => ret (inl 0)
          | Some (locks, alloc) =>
              let! r := dbcall (HandleCurDel h) in
              match r with
              | Err e => ret (inr (e, locks))
              | Ok _ => remove_handles_loop sid locks alloc hs
              end
          end
      end
  end.

(** Second loop: drop the session's locks on each inode, collecting the
    inodes others wait for. *)
Fixpoint scan_waiters_loop (sid : Z) (waiters : list Z) (alloc : nat) (locks : list Z)
  : M D (Z + list Z) :=
  match locks with
  | [] => ret (inr waiters)
  | inum :: locks =>
      let! r := session_remove_locks sid 0 inum in
      let '(rc, waiter) := r in
      if negb (rc =? 0) then ret (inl rc) else
      let! pushed := (if waiter then array_push waiters alloc inum
                      else ret (Some (waiters, alloc))) in
      match pushed with
      | None => ret (inl 0)
      | Some (waiters, alloc) => scan_waiters_loop sid waiters alloc locks
      end
  end.

Fixpoint rescan_waiters_loop (waiters : list Z) : M D Z :=
  match waiters with
  | [] => ret 0
  | inum :: waiters =>
      let! rc := inode_lock_rescan inum in
      if negb (rc =? 0) then ret rc else rescan_waiters_loop waiters
  end.

Definition session_remove (p : sptr) : M D Z :=
  let! sess := get_sess p in
  let sid := s_sid sess in
  let! a := malloc_ok in
  if negb a then ret (- ENOMEM) else
  let! b := malloc_ok in
  if negb b then ret (- ENOMEM) else
  let! r := dbcall (HandleRange sid) in
  match r with
  | Err e => ret e
  | Ok hs =>
      let! r := remove_handles_loop sid [] 128 hs in
      match r with
      | inl rc => ret rc
      | inr (rc, locks) =>
          let rc := end_of_scan rc in
          let! c := dbcall CurClose in
          let rc := if rc =? 0 then rc_of c else rc in
          if negb (rc =? 0) then ret rc else
          let! r := scan_waiters_loop sid [] 64 locks in
          match r with
          | inl rc => ret rc
          | inr waiters =>
              let! rc := rescan_waiters_loop waiters in
              if negb (rc =? 0) then ret rc else
              cldb_session_del sid
          end
      end
  end.

Definition session_dispose (op : option sptr) : M D Z :=
  match op with
  | None => ret (- EINVAL)
  | Some p =>
      let! rc := session_remove p in
      session_free (Some p) true ;;;
      ret rc
  end.

(** ** The session timer; [now] is [time(NULL)] *)

(** The ping condition, with the parentheses where the source has them: the
    right operand of [>] is the 0/1 value of a conjunction. *)
Definition ping_due (sess : session) (sess_expire : Z) : bool :=
  negb (s_ping_open sess) &&
  ((if negb (u64 (s_last_contact sess + CLD_SESS_TIMEOUT / 2) =? 0) && (0 <? s_sock_fd sess)
    then 1 else 0) <? sess_expire).

Definition session_timeout (p : sptr) (now : Z) : M D unit :=
  let! sess := get_sess p in
  let sess_expire := u64 (s_last_contact sess + CLD_SESS_TIMEOUT) in
  if negb (s_dead sess) && (now <? sess_expire) then
    (if ping_due sess sess_expire then
       upd_sess p (set_ping_open true) ;;;
       sess_sendmsg p MVoid CMO_PING cb_session_ping_done ;;; ret tt
     else ret tt) ;;;
    let! ok := ev_ok in
    if ok then upd_sess p (set_timer (Some ((sess_expire - now) / 2 + 1))) else ret tt
  else
    let! rc := txn_begin in
    if negb (rc =? 0) then ret tt else
    let! rc := session_dispose (Some p) in
    if negb (rc =? 0) then txn_abort ;;; ret tt
    else txn_commit ;;; ret tt.

(** ** NEW_SESS and END_SESS *)

Definition msg_new_sess (sock_fd : Z) (cli : cli_info) (info : pkt_info) : M D unit :=
  let pkt := pi_pkt info in
  let err_out (op : option sptr) (code : cle_err) : M D unit :=
    session_free op true ;;;
    simple_sendmsg sock_fd (ph_sid pkt) (ph_user pkt) 0xdeadbeef
      (MGenericResp code (pi_xid info)) CMO_NEW_SESS in
  let! op := session_new in
  match op with
  | None => err_out None CLE_OOM
  | Some p =>
      let! s := get in
      upd_sess p (fun sess =>
        mkSess (ph_sid pkt) sock_fd (take 28 (cli_addr cli)) (cli_addr_len cli)
          (take 64 (cli_addr_host cli)) (u64 (current_time s)) (s_next_fh sess) (s_timer sess)
          (u64 (pi_seqid info + 1)) (s_next_seqid_out sess) (s_out_q sess) (s_retry_timer sess)
          (take 31 (ph_user pkt)) (s_ping_open sess) (s_dead sess) (s_msg_op sess) (s_msg_xid sess)
          (s_msg_buf sess)) ;;;
      let! sess := get_sess p in
      let! r := dbcall (SessPut (session_encode sess) true) in
      match r with
      | Err e => err_out (Some p) (if e =? DB_KEYEXIST then CLE_SESS_EXISTS else CLE_DB_ERR)
      | Ok _ =>
          sess_put (s_sid sess) p ;;;
          (let! ok := ev_ok in
           if ok then upd_sess p (set_timer (Some (CLD_SESS_TIMEOUT / 2))) else ret tt) ;;;
          sess_sendmsg p (MGenericResp CLE_OK (pi_xid info)) CMO_NEW_SESS cb_null ;;;
          ret tt
      end
  end.

Definition msg_end_sess (p : sptr) (xid : Z) : M D unit :=
  sess_sendmsg p (MGenericResp CLE_OK xid) CMO_END_SESS cb_end_sess_done ;;; ret tt.

(** ** Reloading *)

(** [host]: what [getnameinfo] prints for an address. *)
Definition session_decode (host : bytes -> bytes) (raw : raw_session) (sess : session) : session :=
  mkSess (rs_sid raw) (s_sock_fd sess) (take (Z.to_nat (rs_addr_len raw)) (rs_addr raw))
    (rs_addr_len raw) (take 63 (host (rs_addr raw))) (rs_last_contact raw) (rs_next_fh raw)
    (s_timer sess) (rs_next_seqid_in raw) (rs_next_seqid_out raw) (s_out_q sess)
    (s_retry_timer sess) (take 32 (rs_user raw)) (s_ping_open sess) (s_dead sess)
    (s_msg_op sess) (s_msg_xid sess) (s_msg_buf sess).

Fixpoint sess_load_loop (host : bytes -> bytes) (raws : list raw_session) : M D Z :=
  let! r := dbcall CurGet in
  match r with
  | Err e => if e =? DB_NOTFOUND then ret 0 else ret (-1)
  | Ok _ =>
      match raws with
      | [] => ret 0
      | raw :: raws =>
          let! op := session_new in
          match op with
          | None => ret (-1)
          | Some p =>
              upd_sess p (session_decode host raw) ;;;
              sess_put (rs_sid raw) p ;;;
              let! ok := ev_ok in
              if ok then
                upd_sess p (set_timer (Some (CLD_SESS_TIMEOUT / 2))) ;;;
                sess_load_loop host raws
              else ret 0
          end
      end
  end.

Definition sess_load_db (host : bytes -> bytes) : M D Z :=
  let! r := dbcall SessScan in
  match r with
  | Err _ => ret (-1)
  | Ok raws =>
      let! rc := sess_load_loop host raws in
      dbcall CurClose ;;;
      ret rc
  end.

Definition sess_load (host : bytes -> bytes) : M D Z :=
  let! rc := txn_begin in
  if negb (rc =? 0) then ret (-1) else
  let! rc := sess_load_db host in
  if negb (rc =? 0) then txn_abort ;;; ret (-1) else
  txn_commit ;;; ret 0.

End session.
