(* ===== verification/Server.v ===== *)
(** * Server: packet reception and dispatch (cld/server.c)

    From a complete packet in the client's buffer to the handler it selects:
    header parsing, session lookup and validation, signature check, message
    reassembly, dispatch.  Also the UBBP length check ahead of it, the root
    inode and the checkpoint timer. *)

From S2P Require Import Prelude Htab Dirent Wire Bdb Srv Cldb Outq Msg Session.
#[local] Open Scope Z_scope.

(** Outcome of [tcp_rx]: done, an error code to answer with, or a handler
    called with a NULL session. *)
Inductive rx_result : Type := RxOk | RxErr (e : cle_err) | RxNull.

(** [cli_rd_ubbp]: the packet size to read next, or [None] when the
    connection is dropped. *)
Definition cli_rd_ubbp (ubbp : bytes) : option Z :=
  let op_size := le_val (take 4 (drop 4 ubbp)) in
  if negb (bool_decide (take 4 ubbp = CLD_UBBP_MAGIC)) then None else
  if negb (UBBP_OP op_size =? 1) then None else
  let sz := UBBP_SIZE op_size in
  if CLD_RAW_MSG_SZ <? sz then None else Some sz.

Section server.
Context {D : Type} `{!Bdb D, !XdrLib, !HmacLib}.

(** The header and its length, or [None] for garbage. *)
Definition parse_pkt_header (raw_pkt : bytes) : option (cld_pkt_hdr * nat) :=
  if Z.of_nat (length raw_pkt) <=? CLD_PKT_FTR_LEN then None else
  match xdr_hdr_dec (take (length raw_pkt - 28) raw_pkt) with
  | None => None
  | Some (pkt, hdr_len) =>
      if ph_magic pkt =? le_val CLD_PKT_MAGIC then Some (pkt, hdr_len) else None
  end.

Definition get_pkt_info (pkt : cld_pkt_hdr) (raw_pkt : bytes) (hdr_len : nat) : M D (option pkt_info) :=
  let! s := sess_get (ph_sid pkt) in
  let seqid := foot_seqid raw_pkt in
  if flag (pkt_order (ph_mi pkt)) CLD_PKT_IS_FIRST then
    let mi := pkt_infos (ph_mi pkt) in
    ret (Some (mkPktInfo pkt s seqid (mi_xid mi) (mi_op mi) hdr_len))
  else
    match s with
    | None => ret None
    | Some p =>
        let! sess := get_sess p in
        ret (Some (mkPktInfo pkt s seqid (s_msg_xid sess) (s_msg_op sess) hdr_len))
    end.

(** [CLE_OK]: accepted. *)
Definition validate_pkt_session (info : pkt_info) (cli : cli_info) : M D cle_err :=
  match pi_sess info with
  | None => ret (if negb (pi_op info =? CMO_NEW_SESS) then CLE_SESS_INVAL else CLE_OK)
  | Some p =>
      if pi_op info =? CMO_NEW_SESS then ret CLE_SESS_EXISTS else
      let! sess := get_sess p in
      let n := Z.to_nat (s_addr_len sess) in
      if negb (s_addr_len sess =? cli_addr_len cli)
         || negb (bool_decide (take n (s_addr sess) = take n (cli_addr cli)))
      then ret CLE_SESS_INVAL else
      if negb (bool_decide (take 32 (ph_user (pi_pkt info)) = take 32 (s_user sess)))
      then ret CLE_SESS_INVAL else
      if s_dead sess then ret CLE_SESS_INVAL else
      ret CLE_OK
  end.

Definition pkt_chk_sig (raw_pkt : bytes) (pkt : cld_pkt_hdr) : cle_err :=
  let secret_key := user_key (Some (ph_user pkt)) in
  let auth_rc := cld_authcheck secret_key (take (length raw_pkt - 20) raw_pkt) (foot_sha raw_pkt) in
  if negb (auth_rc =? 0) then CLE_SIG_INVAL else CLE_OK.

Definition simple_sendresp (fd : Z) (info : pkt_info) (code : cle_err) : M D unit :=
  simple_sendmsg fd (ph_sid (pi_pkt info)) (ph_user (pi_pkt info)) (pi_seqid info)
    (MGenericResp code (pi_xid info)) (pi_op info).

(** [tcp_rx_handle]: decode the reassembled message and run its handler. *)
Definition tcp_rx_handle {A} (osess : option sptr) (handler : sptr -> A -> M D unit)
    (dec : bytes -> option A) : M D rx_result :=
  match osess with
  | None => ret RxNull
  | Some p =>
      let! sess := get_sess p in
      match dec (s_msg_buf sess) with
      | None => ret (RxErr CLE_BAD_PKT)
      | Some v => handler p v ;;; ret RxOk
      end
  end.

(** Handlers that take the session only. *)
Definition rx_sess (osess : option sptr) (handler : sptr -> M D unit) : M D rx_result :=
  match osess with
  | None => ret RxNull
  | Some p => handler p ;;; ret RxOk
  end.

(** First half of [tcp_rx]: session bookkeeping and reassembly; [false]: the
    message would exceed [CLD_MAX_MSG_SZ]. *)
Definition rx_fragment (fd : Z) (info : pkt_info) (raw_pkt : bytes) (p : sptr) : M D bool :=
  let! s := get in
  upd_sess p (set_last_contact (u64 (current_time s))) ;;;
  upd_sess p (set_sock_fd fd) ;;;
  (if negb (pi_op info =? CMO_ACK)
   then upd_sess p (fun sess => set_seqid_in (u64 (s_next_seqid_in sess + 1)) sess)
   else ret tt) ;;;
  (if flag (pkt_order (ph_mi (pi_pkt info))) CLD_PKT_IS_FIRST
   then upd_sess p (set_msg (pi_op info) (pi_xid info) [])
   else ret tt) ;;;
  let! sess := get_sess p in
  let msg_len := (length raw_pkt - pi_hdr_len info - 28)%nat in
  if CLD_MAX_MSG_SZ <? Z.of_nat (length (s_msg_buf sess) + msg_len) then ret false else
  upd_sess p (fun sess => set_msg (s_msg_op sess) (s_msg_xid sess)
    (s_msg_buf sess ++ take msg_len (drop (pi_hdr_len info) raw_pkt)) sess) ;;;
  ret true.

(** Second half: the switch on the operation. *)
Definition rx_dispatch (fd : Z) (cli : cli_info) (info : pkt_info) : M D rx_result :=
  let op := pi_op info in
  let sess := pi_sess info in
  if (op =? CMO_GET) || (op =? CMO_GET_META) then tcp_rx_handle sess msg_get xdr_get_dec else
  if op =? CMO_OPEN then tcp_rx_handle sess msg_open xdr_open_dec else
  if op =? CMO_PUT then tcp_rx_handle sess msg_put xdr_put_dec else
  if op =? CMO_CLOSE then tcp_rx_handle sess msg_close xdr_close_dec else
  if op =? CMO_DEL then tcp_rx_handle sess msg_del xdr_del_dec else
  if op =? CMO_UNLOCK then tcp_rx_handle sess msg_unlock xdr_unlock_dec else
  if (op =? CMO_TRYLOCK) || (op =? CMO_LOCK) then tcp_rx_handle sess msg_lock xdr_lock_dec else
  if op =? CMO_ACK then rx_sess sess (fun p => msg_ack p (pi_seqid info)) else
  if op =? CMO_NOP then rx_sess sess (fun p => sess_sendresp_generic p CLE_OK) else
  if op =? CMO_NEW_SESS then msg_new_sess fd cli info ;;; ret RxOk else
  if op =? CMO_END_SESS then rx_sess sess (fun p => msg_end_sess p (pi_xid info)) else
  ret RxOk.

Definition tcp_rx (fd : Z) (cli : cli_info) (info : pkt_info) (raw_pkt : bytes) : M D rx_result :=
  let pkt := pi_pkt info in
  let! fits := (match pi_sess info with
                | Some p => rx_fragment fd info raw_pkt p
                | None => ret true
                end) in
  if negb fits then ret (RxErr CLE_BAD_PKT) else
  if negb (flag (pkt_order (ph_mi pkt)) CLD_PKT_IS_LAST) then
    simple_sendmsg fd (ph_sid pkt) (ph_user pkt) 0xdeadbeef (MAckFrag (pi_seqid info)) CMO_ACK_FRAG ;;;
    ret RxOk
  else rx_dispatch fd cli info.

Definition count_garbage : M D unit := modify (fun s => set_garbage (u64 (garbage s + 1)) s).

(** A packet has been read into the client's buffer.  The result tells how
    [tcp_rx] ended, if it ran, and whether the next header read was queued. *)
Definition cli_rd_pkt (cli : cli_info) (raw_pkt : bytes) : M D (option rx_result * bool) :=
  let fd := cli_fd cli in
  match parse_pkt_header raw_pkt with
  | None => count_garbage ;;; ret (None, false)
  | Some (pkt, hdr_len) =>
      let! oinfo := get_pkt_info pkt raw_pkt hdr_len in
      match oinfo with
      | None => count_garbage ;;; ret (None, false)
      | Some info =>
          let! err := validate_pkt_session info cli in
          if negb (bool_decide (err = CLE_OK)) then
            simple_sendresp fd info err ;;; ret (None, false) else
          let err := pkt_chk_sig raw_pkt pkt in
          if negb (bool_decide (err = CLE_OK)) then
            simple_sendresp fd info err ;;; ret (None, false) else
          let! s := get in
          if negb (is_master s && db_up s) then
            simple_sendmsg fd (ph_sid pkt) (ph_user pkt) 0xdeadbeef MVoid CMO_NOT_MASTER ;;;
            ret (None, false) else
          let! r := tcp_rx fd cli info raw_pkt in
          match r with
          | RxErr e => simple_sendresp fd info e ;;; ret (Some r, false)
          | _ => ret (Some r, true)
          end
      end
  end.

(** [cldb_checkpoint]: refreshes [current_time] ([now] is [gettimeofday]). *)
Definition cldb_checkpoint (now : Z) : M D unit := modify (set_time now).

(** [ensure_root]; [false]: [exit(1)]. *)
Definition ensure_root : M D bool :=
  let! rc := txn_begin in
  if negb (rc =? 0) then ret false else
  let! r := cldb_inode_get_byname [slash] in
  let! ok :=
    (match r with
     | Ok _ => ret true
     | Err e =>
         if e =? DB_NOTFOUND then
           let! oino := cldb_inode_mem [slash] CIFL_DIR CLD_INO_ROOT in
           match oino with
           | None => ret false
           | Some ino =>
               let! s := get in
               let t := u64 (current_time s) in
               let! rc := cldb_inode_put
                 (mkRawInode (ri_inum ino) (ri_ino_len ino) (ri_size ino) 1 t t (ri_flags ino) (ri_name ino)) in
               ret (rc =? 0)
           end
         else ret false
     end) in
  if ok then
    let! rc := txn_commit in ret (rc =? 0)
  else txn_abort ;;; ret false.

End server.
