(* ===== verification/Logic.v ===== *)
(** * Logic: reasoning about code in the server monad

    [wp m Q s]: running [m] from state [s] ends with a result and a state that
    satisfy [Q] (the monad is total, so this is a total-correctness
    statement).  [quiet] relates two states that differ at most in what
    sending a message or allocating a handle number changes: sequence and
    handle numbers, output queue and retry timer of a session, the network and
    the oracle position.  [calm] also lets the
    contents of the database change inside the open transaction. *)

From S2P Require Import Prelude Htab Wire Bdb Srv.
#[local] Open Scope Z_scope.

Section wp.
Context {D : Type}.
Implicit Types s : srv D.

Definition wp {A} (m : M D A) (Q : A -> srv D -> Prop) s : Prop := Q (m s).1 (m s).2.

Lemma wp_ret {A} (a : A) (Q : A -> srv D -> Prop) s : Q a s -> wp (ret a) Q s.
Proof. done. Qed.

Lemma wp_bind {A B} (m : M D A) (k : A -> M D B) (Q : B -> srv D -> Prop) s :
  wp m (fun a s' => wp (k a) Q s') s -> wp (bind m k) Q s.
Proof. unfold wp, bind. by destruct (m s). Qed.

Lemma wp_mono {A} (m : M D A) (Q R : A -> srv D -> Prop) s :
  wp m Q s -> (forall a s', Q a s' -> R a s') -> wp m R s.
Proof. unfold wp. auto. Qed.

Lemma wp_get (Q : srv D -> srv D -> Prop) s : Q s s -> wp get Q s.
Proof. done. Qed.

Lemma wp_modify (f : srv D -> srv D) (Q : unit -> srv D -> Prop) s : Q tt (f s) -> wp (modify f) Q s.
Proof. done. Qed.

Lemma wp_get_sess (p : nat) (Q : session -> srv D -> Prop) s : Q (heap s !!! p) s -> wp (get_sess p) Q s.
Proof. done. Qed.

Lemma wp_upd_sess (p : nat) (f : session -> session) (Q : unit -> srv D -> Prop) s :
  Q tt (set_heap (alter f p (heap s)) s) -> wp (upd_sess p f) Q s.
Proof. done. Qed.

Lemma wp_sess_get (sid : Z) (Q : option nat -> srv D -> Prop) s :
  Q (htab_get sess_hash sess_equal (sessions s) sid) s -> wp (sess_get sid) Q s.
Proof. done. Qed.

(** A run as an equation. *)
Lemma wp_run {A} (m : M D A) (Q : A -> srv D -> Prop) s a s' : wp m Q s -> m s = (a, s') -> Q a s'.
Proof. unfold wp. intros HQ E. by rewrite E in HQ. Qed.

Lemma wp_intro {A} (m : M D A) (Q : A -> srv D -> Prop) s :
  (forall a s', m s = (a, s') -> Q a s') -> wp m Q s.
Proof. unfold wp. destruct (m s) as [a s'] eqn:E. auto. Qed.

End wp.

(** ** States that differ by sending only *)

(** What sending, and opening a handle, leaves of a session. *)
Definition core (sess : session) : session :=
  set_next_fh 0 (set_seqid_out 0 (set_out_q [] (set_retry_timer None sess))).
#[global] Arguments core : simpl never.

Section quiet.
Context {D : Type}.
Implicit Types s : srv D.

(** Everything but the database. *)
Record calm_env s s' : Prop := {
  ce_master : is_master s' = is_master s;
  ce_up : db_up s' = db_up s;
  ce_sessions : sessions s' = sessions s;
  ce_ptr : next_ptr s' = next_ptr s;
  ce_time : current_time s' = current_time s;
  ce_garbage : garbage s' = garbage s;
  ce_oracle : oracle s' = oracle s;
  ce_heap : core <$> heap s' = core <$> heap s }.

(** Handle numbers are handed out by [cldb_handle_new] alone. *)
Definition fh_same s s' : Prop := s_next_fh <$> heap s' = s_next_fh <$> heap s.

Definition quiet s s' : Prop := calm_env s s' /\ db s' = db s /\ fh_same s s'.

#[export] Instance calm_env_pre : PreOrder calm_env.
Proof. split; [by split|]. intros s1 s2 s3 [] []. split; congruence. Qed.

#[export] Instance quiet_pre : PreOrder quiet.
Proof.
  split; [by split|]. intros s1 s2 s3 (H1 & E1 & F1) (H2 & E2 & F2).
  split_and!; [by etrans|congruence|]. unfold fh_same in *. congruence.
Qed.

Lemma fmap_lookup_total {A} `{!Inhabited A} (f : session -> A) (h h' : gmap nat session) (p : nat) :
  f <$> h' = f <$> h -> f (h' !!! p) = f (h !!! p).
Proof.
  intros Hh. assert (f <$> h' !! p = f <$> h !! p) as E by by rewrite <- !lookup_fmap, Hh.
  rewrite !lookup_total_alt. destruct (h' !! p), (h !! p); simpl in *; congruence.
Qed.

Lemma core_lookup s s' (p : nat) : calm_env s s' -> core (heap s' !!! p) = core (heap s !!! p).
Proof.
  intros Hc. apply fmap_lookup_total, Hc.
Qed.

Lemma alter_fmap_same {A} (g : session -> A) (f : session -> session) (h : gmap nat session) (p : nat) :
  (forall x, g (f x) = g x) -> g <$> alter f p h = g <$> h.
Proof.
  intros Hf. apply map_eq. intros i. rewrite !lookup_fmap. destruct (decide (p = i)) as [->|Hi].
  - rewrite lookup_alter_eq. destruct (h !! i); simpl; [by rewrite Hf|done].
  - by rewrite lookup_alter_ne.
Qed.

Lemma set_db_calm (d : D) s : calm_env s (set_db d s).
Proof. by split. Qed.

Lemma upd_sess_calm (p : nat) (f : session -> session) s :
  (forall x, core (f x) = core x) -> calm_env s (set_heap (alter f p (heap s)) s).
Proof.
  intros Hf. split; try done. by apply alter_fmap_same.
Qed.

(** [m] sends at most. *)
Definition is_quiet {A} (m : M D A) : Prop := forall s, quiet s (m s).2.

Lemma quiet_ret {A} (a : A) : is_quiet (ret a).
Proof. intros s. by split. Qed.

Lemma quiet_bind {A B} (m : M D A) (k : A -> M D B) :
  is_quiet m -> (forall a, is_quiet (k a)) -> is_quiet (bind m k).
Proof.
  intros Hm Hk s. unfold bind. specialize (Hm s). destruct (m s) as [a s1].
  etrans; [apply Hm|apply Hk].
Qed.

Lemma quiet_get : is_quiet get.
Proof. intros s. by split. Qed.
Lemma quiet_nondet : is_quiet nondet.
Proof. intros s. by split. Qed.
Lemma quiet_get_sess (p : nat) : is_quiet (get_sess p).
Proof. intros s. by split. Qed.
Lemma quiet_sess_get (sid : Z) : is_quiet (sess_get sid).
Proof. intros s. by split. Qed.
Lemma quiet_upd_sess (p : nat) (f : session -> session) :
  (forall x, core (f x) = core x /\ s_next_fh (f x) = s_next_fh x) -> is_quiet (upd_sess p f).
Proof.
  intros Hf s. split_and!; [apply upd_sess_calm; intros x; apply Hf|done|].
  apply alter_fmap_same. intros x. apply Hf.
Qed.
Lemma quiet_set_net (f : srv D -> list (Z * bytes)) : is_quiet (modify (fun s => set_net (f s) s)).
Proof. intros s. by split. Qed.

Lemma wp_quiet {A} (m : M D A) (Q : A -> srv D -> Prop) s :
  is_quiet m -> (forall a s', quiet s s' -> Q a s') -> wp m Q s.
Proof. intros Hm HQ. apply HQ, Hm. Qed.

End quiet.

#[export] Hint Resolve quiet_ret quiet_get quiet_nondet quiet_get_sess quiet_sess_get quiet_set_net : cld.

(** Split a quiet computation into its primitives. *)
Ltac quiet_step :=
  match goal with
  | |- forall _, _ => intro
  | |- is_quiet (bind _ _) => apply quiet_bind
  | |- is_quiet (upd_sess _ _) => apply quiet_upd_sess
  | |- is_quiet (if ?b then _ else _) => destruct b
  | |- is_quiet (match ?x with _ => _ end) => destruct x
  | |- is_quiet (let '_ := ?x in _) => destruct x
  | |- is_quiet _ => solve [eauto with cld]
  | |- core _ = core _ /\ _ => split; reflexivity
  end.
Ltac solve_quiet := repeat quiet_step.

Section prims_quiet.
Context {D : Type}.
Lemma quiet_malloc_ok : is_quiet (@malloc_ok D).
Proof. unfold malloc_ok. solve_quiet. Qed.
Lemma quiet_rand : is_quiet (@rand D).
Proof. unfold rand. solve_quiet. Qed.
Lemma quiet_ev_ok : is_quiet (@ev_ok D).
Proof. unfold ev_ok. solve_quiet. Qed.
Lemma quiet_sys_write (fd : Z) (buf : bytes) : is_quiet (@sys_write D fd buf).
Proof. unfold sys_write. solve_quiet. Qed.
End prims_quiet.
#[export] Hint Resolve quiet_malloc_ok quiet_rand quiet_ev_ok quiet_sys_write : cld.

(** The environment never refuses: no allocation, timer call or write fails. *)
Definition lucky {D} (s : srv D) : Prop := forall i, 0 < oracle s i.

Lemma lucky_calm {D} (s s' : srv D) : calm_env s s' -> lucky s -> lucky s'.
Proof. intros Hc Hl i. rewrite (ce_oracle _ _ Hc). apply Hl. Qed.

(** Allocation and the random generator leave the sessions alone. *)
Section prims_wp.
Context {D : Type}.
Implicit Types s : srv D.

Lemma wp_malloc_ok (Q : bool -> srv D -> Prop) s :
  (forall b s', quiet s s' -> heap s' = heap s -> net s' = net s -> (lucky s -> b = true) -> Q b s') ->
  wp malloc_ok Q s.
Proof.
  intros HQ. apply HQ; try done. intros Hl. simpl. specialize (Hl (oracle_i s)).
  apply negb_true_iff, Z.eqb_neq. lia.
Qed.
Lemma wp_ev_ok (Q : bool -> srv D -> Prop) s :
  (forall b s', quiet s s' -> heap s' = heap s -> net s' = net s -> (lucky s -> b = true) -> Q b s') ->
  wp ev_ok Q s.
Proof.
  intros HQ. apply HQ; try done. intros Hl. simpl. specialize (Hl (oracle_i s)).
  apply Z.leb_le. lia.
Qed.
Lemma wp_rand (Q : Z -> srv D -> Prop) s :
  (forall x s', quiet s s' -> heap s' = heap s -> net s' = net s -> 0 <= x < 2 ^ 31 -> Q x s') ->
  wp rand Q s.
Proof. intros HQ. apply HQ; try done. by apply Z.mod_pos_bound. Qed.
Lemma wp_cld_rand64 (Q : Z -> srv D -> Prop) s :
  (forall x s', quiet s s' -> heap s' = heap s -> net s' = net s -> 0 <= x < 2 ^ 64 -> Q x s') ->
  wp cld_rand64 Q s.
Proof.
  intros HQ. unfold cld_rand64. apply wp_bind, wp_rand. intros lo s1 H1 E1 N1 B1.
  apply wp_bind, wp_rand. intros hi s2 H2 E2 N2 B2. apply wp_ret, HQ.
  - by etrans.
  - congruence.
  - congruence.
  - rewrite Z.shiftl_mul_pow2 by lia. lia.
Qed.
End prims_wp.

Section cld_rand.
Context {D : Type}.
Lemma quiet_cld_rand64 : is_quiet (@cld_rand64 D).
Proof. unfold cld_rand64. solve_quiet. Qed.
End cld_rand.
#[export] Hint Resolve quiet_cld_rand64 : cld.

(** ** Database calls *)

Section dbwp.
Context {D : Type} `{!Bdb D, !BdbOk D}.
Implicit Types s : srv D.

(** The contents the running code sees. *)
Definition vw s : dbview := view (db s).

(** Changes at most the database, inside the open transaction, besides what
    [quiet] allows. *)
Definition calm s s' : Prop := calm_env s s' /\ saved (db s') = saved (db s).

#[export] Instance calm_pre : PreOrder calm.
Proof.
  split; [by split|]. intros s1 s2 s3 [H1 E1] [H2 E2].
  split; [by etrans|congruence].
Qed.

Lemma quiet_calm s s' : quiet s s' -> calm s s'.
Proof. intros (H1 & E & _). split; [done|by rewrite E]. Qed.

Lemma quiet_vw s s' : quiet s s' -> vw s' = vw s.
Proof. intros (_ & E & _). unfold vw. by rewrite E. Qed.

Lemma wp_dbcall {A} (q : dbreq A) (Q : res A -> srv D -> Prop) s :
  (forall r s', calm s s' -> heap s' = heap s -> dbstep q (vw s) r (vw s') -> Q r s') ->
  wp (dbcall q) Q s.
Proof.
  intros HQ. unfold wp, dbcall. pose proof (db_call_ok q (db s)) as [Hs Hd].
  destruct (db_call q (db s)) as [r d']. apply HQ; [|done|done].
  split; [apply set_db_calm|done].
Qed.

Lemma wp_txn_begin (Q : Z -> srv D -> Prop) s :
  (forall rc s', calm_env s s' -> heap s' = heap s -> vw s' = vw s ->
     (rc = 0 -> saved (db s') = vw s) -> Q rc s') -> wp txn_begin Q s.
Proof.
  intros HQ. unfold wp, txn_begin. pose proof (db_txn_begin_ok (db s)) as [Hv Hs].
  destruct (db_txn_begin (db s)) as [r d']. by apply HQ; [apply set_db_calm|..].
Qed.

Lemma wp_txn_commit (Q : Z -> srv D -> Prop) s :
  (forall rc s', calm_env s s' -> heap s' = heap s ->
     vw s' = (if rc =? 0 then vw s else saved (db s)) -> Q rc s') -> wp txn_commit Q s.
Proof.
  intros HQ. unfold wp, txn_commit. pose proof (db_txn_commit_ok (db s)) as Hv.
  destruct (db_txn_commit (db s)) as [r d']. by apply HQ; [apply set_db_calm|..].
Qed.

Lemma wp_txn_abort (Q : Z -> srv D -> Prop) s :
  (forall rc s', calm_env s s' -> heap s' = heap s -> vw s' = saved (db s) -> Q rc s') ->
  wp txn_abort Q s.
Proof.
  intros HQ. unfold wp, txn_abort. pose proof (db_txn_abort_ok (db s)) as Hv.
  destruct (db_txn_abort (db s)) as [r d']. by apply HQ; [apply set_db_calm|..].
Qed.

End dbwp.

(** One step of a [wp] proof: the leading primitive. *)
Ltac wp_step :=
  match goal with
  | |- wp (bind _ _) _ _ => apply wp_bind
  | |- wp (ret _) _ _ => apply wp_ret
  | |- wp get _ _ => apply wp_get
  | |- wp (modify _) _ _ => apply wp_modify
  | |- wp (get_sess _) _ _ => apply wp_get_sess
  | |- wp (upd_sess _ _) _ _ => apply wp_upd_sess
  | |- wp (sess_get _) _ _ => apply wp_sess_get
  end.
Ltac wp_steps := repeat (wp_step; cbv beta).
