(* ===== verification/OutqSpec.v ===== *)
(** * OutqSpec: what sending guarantees

    Sending is quiet (it never touches the database or the session table);
    the packets of a message are contiguous slices of at most
    [CLD_MAX_PKT_MSG_SZ] bytes with consecutive sequence numbers and valid
    signatures; acknowledgements take exactly the acknowledged packets off
    the queue; retransmission never loses one. *)

From S2P Require Import Prelude Htab Wire Bdb Srv Outq Logic.
#[local] Open Scope Z_scope.

Section quiet_outq.
Context {D : Type} `{!XdrLib, !HmacLib}.

Lemma quiet_tcp_tx (fd : Z) (data : bytes) : is_quiet (@tcp_tx D fd data).
Proof. unfold tcp_tx. solve_quiet. Qed.

Lemma quiet_next_seqid_le (p : nat) : is_quiet (@next_seqid_le D p).
Proof. unfold next_seqid_le. solve_quiet. Qed.

Lemma quiet_op_alloc (n : Z) : is_quiet (@op_alloc D n).
Proof. unfold op_alloc. solve_quiet. Qed.

Lemma quiet_build_pkts (fuel p : nat) (op : Z) (cb : done_cb) (first : bool) (rem : bytes) :
  is_quiet (@build_pkts D _ fuel p op cb first rem).
Proof.
  revert first rem. induction fuel as [|fuel IH]; intros first rem; cbn [build_pkts]; [solve_quiet|].
  solve_quiet; auto using quiet_op_alloc.
Qed.

Lemma quiet_sign_pkts (p : nat) (key : option bytes) (ops : list session_outpkt) :
  is_quiet (@sign_pkts D _ p key ops).
Proof. induction ops; cbn [sign_pkts]; solve_quiet; auto using quiet_next_seqid_le. Qed.

Lemma quiet_send_pkts (fd : Z) (ops : list session_outpkt) : is_quiet (@send_pkts D fd ops).
Proof. induction ops; cbn [send_pkts]; solve_quiet; auto using quiet_tcp_tx. Qed.

Lemma quiet_session_outq (p : nat) (ops : list session_outpkt) : is_quiet (@session_outq D p ops).
Proof. unfold session_outq. solve_quiet. Qed.

End quiet_outq.
#[export] Hint Resolve quiet_tcp_tx quiet_next_seqid_le quiet_op_alloc quiet_build_pkts
  quiet_sign_pkts quiet_send_pkts quiet_session_outq : cld.

Section quiet_send.
Context {D : Type} `{!XdrLib, !HmacLib}.

Lemma quiet_sess_sendmsg (p : nat) (m : msg_out) (op : Z) (cb : done_cb) :
  is_quiet (@sess_sendmsg D _ _ p m op cb).
Proof. unfold sess_sendmsg. solve_quiet. Qed.

Lemma quiet_sendresp_generic (p : nat) (code : cle_err) :
  is_quiet (@sess_sendresp_generic D _ _ p code).
Proof. unfold sess_sendresp_generic. solve_quiet. auto using quiet_sess_sendmsg. Qed.

Lemma quiet_simple_sendmsg (fd sid : Z) (user : bytes) (seqid : Z) (m : msg_out) (op : Z) :
  is_quiet (@simple_sendmsg D _ _ fd sid user seqid m op).
Proof. unfold simple_sendmsg. solve_quiet. Qed.

End quiet_send.
#[export] Hint Resolve quiet_sess_sendmsg quiet_sendresp_generic quiet_simple_sendmsg : cld.

Section fragment.
Context {D : Type} `{!XdrLib, !HmacLib}.
Implicit Types s : srv D.

(** ** The packets of a message *)

Section packets.
Variables (sess : session) (msg_op : Z).

(** One packet per slice, footers still zero. *)
Inductive built (p : nat) (cb : done_cb) : bool -> bytes -> list session_outpkt -> Prop :=
| built_last first mb xid hb op :
    Z.of_nat (length mb) <= CLD_MAX_PKT_MSG_SZ -> 0 <= xid < 2 ^ 64 ->
    xdr_hdr_enc (outpkt_hdr sess first true xid msg_op) = Some hb ->
    op_pkt_data op = hb ++ mb ++ replicate 28 0 -> op_sess op = p -> op_done_cb op = cb ->
    built p cb first mb [op]
| built_more first chunk rest xid hb op ops :
    Z.of_nat (length chunk) = CLD_MAX_PKT_MSG_SZ -> rest <> [] -> 0 <= xid < 2 ^ 64 ->
    xdr_hdr_enc (outpkt_hdr sess first false xid msg_op) = Some hb ->
    op_pkt_data op = hb ++ chunk ++ replicate 28 0 -> op_sess op = p -> op_done_cb op = cb ->
    built p cb false rest ops ->
    built p cb first (chunk ++ rest) (op :: ops).

(** The signed packets of message [mb], the first one numbered [seq]. *)
Inductive packets (key : option bytes) : bool -> Z -> bytes -> list bytes -> Prop :=
| packets_last first seq mb xid hb sha :
    Z.of_nat (length mb) <= CLD_MAX_PKT_MSG_SZ -> 0 <= xid < 2 ^ 64 ->
    xdr_hdr_enc (outpkt_hdr sess first true xid msg_op) = Some hb ->
    cld_authsign key (hb ++ mb ++ le_bytes 8 seq) = (0, sha) ->
    packets key first seq mb [hb ++ mb ++ le_bytes 8 seq ++ sha]
| packets_more first seq chunk rest xid hb sha ps :
    Z.of_nat (length chunk) = CLD_MAX_PKT_MSG_SZ -> rest <> [] -> 0 <= xid < 2 ^ 64 ->
    xdr_hdr_enc (outpkt_hdr sess first false xid msg_op) = Some hb ->
    cld_authsign key (hb ++ chunk ++ le_bytes 8 seq) = (0, sha) ->
    packets key false (u64 (seq + 1)) rest ps ->
    packets key first seq (chunk ++ rest) ((hb ++ chunk ++ le_bytes 8 seq ++ sha) :: ps).

End packets.

(** The header of every packet of the session can be encoded. *)
Definition hdrs_encodable (sess : session) (msg_op : Z) : Prop :=
  forall first last xid, 0 <= xid < 2 ^ 64 ->
    is_Some (xdr_hdr_enc (outpkt_hdr sess first last xid msg_op)).

Lemma wp_op_alloc (n : Z) (Q : option session_outpkt -> srv D -> Prop) s :
  (forall o s', quiet s s' -> heap s' = heap s -> (lucky s -> is_Some o) -> Q o s') -> wp (op_alloc n) Q s.
Proof.
  intros HQ. unfold op_alloc. apply wp_bind, wp_malloc_ok. intros b s1 H1 E1 _ L1.
  destruct b; cbn [negb].
  2:{ apply HQ; [done|done|]. intros L. by specialize (L1 L). }
  apply wp_bind, wp_malloc_ok. intros b s2 H2 E2 _ L2. destruct b; cbn [negb]; apply wp_ret, HQ.
  1,4: by etrans. 1,3: congruence. 1: done.
  intros L. by specialize (L2 (lucky_calm _ _ (proj1 H1) L)).
Qed.

Lemma build_pkts_spec (fuel p : nat) (msg_op : Z) (cb : done_cb) (first : bool) (rem : bytes) s :
  (length rem < fuel)%nat ->
  wp (build_pkts fuel p msg_op cb first rem) (fun r s' =>
    quiet s s' /\ heap s' = heap s /\
    (forall ops, r = Some ops -> built (heap s !!! p) msg_op p cb first rem ops) /\
    (lucky s -> hdrs_encodable (heap s !!! p) msg_op -> is_Some r)) s.
Proof.
  revert first rem s. induction fuel as [|fuel IH]; intros first rem s Hf; [lia|].
  cbn [build_pkts]. apply wp_bind, wp_get_sess.
  assert (forall (Q : Z -> srv D -> Prop), (forall x s', quiet s s' -> heap s' = heap s -> 0 <= x < 2 ^ 64 -> Q x s') ->
    wp (if first then cld_rand64 else ret 0) Q s) as Hx.
  { intros Q HQ. destruct first; [apply wp_cld_rand64; auto|apply wp_ret, HQ; done]. }
  apply wp_bind, Hx. clear Hx. intros xid s1 H1 E1 Bx. cbv zeta.
  set (last := Z.of_nat (length rem) <=? CLD_MAX_PKT_MSG_SZ).
  apply wp_bind, wp_op_alloc. intros o s2 H2 E2 L2.
  assert (quiet s s2) as H12 by by etrans.
  assert (heap s2 = heap s) as E12 by congruence.
  destruct o as [op|].
  2:{ apply wp_ret. split_and!; [done|done|done|].
      intros L _. by destruct (L2 (lucky_calm _ _ (proj1 H1) L)). }
  apply wp_bind, wp_get.
  destruct (xdr_hdr_enc _) as [hb|] eqn:Eh.
  2:{ apply wp_ret. split_and!; [done|done|done|]. intros _ He.
      destruct (He first last xid Bx) as [? He']. congruence. }
  unfold last in *. destruct (Z.leb_spec (Z.of_nat (length rem)) CLD_MAX_PKT_MSG_SZ) as [Hl|Hl].
  - apply wp_ret. split_and!; [done|done| |done].
    intros ops [= <-]. econstructor; try done. cbn. by rewrite firstn_all.
  - apply wp_bind. eapply wp_mono; [apply IH; rewrite length_drop; unfold CLD_MAX_PKT_MSG_SZ in *; lia|].
    intros r s3 (H3 & E3 & B3 & L3). rewrite E12 in *.
    destruct r as [ops|]; apply wp_ret.
    + split_and!; [by etrans|congruence| |done]. intros ops' [= <-].
      rewrite <- (take_drop (Z.to_nat CLD_MAX_PKT_MSG_SZ) rem) at 1.
      econstructor; try done; [| |by apply B3].
      * rewrite length_take. unfold CLD_MAX_PKT_MSG_SZ in *. lia.
      * intros He%(f_equal length). rewrite length_drop in He. unfold CLD_MAX_PKT_MSG_SZ in *. simpl in He. lia.
    + split_and!; [by etrans|congruence|done|]. intros L He.
      by destruct (L3 (lucky_calm _ _ (proj1 H12) L) He).
Qed.

(** The sequence number the [n]-th packet after [seq] gets. *)
Definition seq_after (seq : Z) (n : nat) : Z := Nat.iter n (fun x => u64 (x + 1)) seq.

Lemma seq_after_S (seq : Z) (n : nat) : seq_after (u64 (seq + 1)) n = seq_after seq (S n).
Proof. unfold seq_after. by rewrite Nat.iter_succ_r. Qed.

Lemma next_seqid_le_eq (p : nat) s x :
  heap s !! p = Some x -> 0 <= s_next_seqid_out x < 2 ^ 64 ->
  next_seqid_le p s =
    (s_next_seqid_out x, set_heap (<[p := set_seqid_out (u64 (s_next_seqid_out x + 1)) x]> (heap s)) s).
Proof.
  intros Hx Hb. unfold next_seqid_le, bind, get_sess, upd_sess, modify, ret.
  rewrite (lookup_total_correct _ _ _ Hx). f_equal; [by apply uw_small|].
  by rewrite (alter_alt_Some _ _ _ _ Hx).
Qed.

(** The body of a packet, its footer zeroed, up to the footer. *)
Lemma take_body (hb mb : bytes) :
  take (length (hb ++ mb ++ replicate 28 0) - 28) (hb ++ mb ++ replicate 28 0) = hb ++ mb.
Proof. rewrite app_assoc, take_app_length'; [done|]. rewrite !length_app, length_replicate. lia. Qed.

Lemma sign_pkts_spec (sess : session) (msg_op : Z) (cb : done_cb) (p : nat) (key : option bytes)
    (first : bool) (mb : bytes) (ops : list session_outpkt) :
  built sess msg_op p cb first mb ops -> forall s x,
  heap s !! p = Some x -> 0 <= s_next_seqid_out x < 2 ^ 64 ->
  wp (sign_pkts p key ops) (fun r s' =>
    (forall ops', r = Some ops' ->
       heap s' = <[p := set_seqid_out (seq_after (s_next_seqid_out x) (length ops')) x]> (heap s) /\
       packets sess msg_op key first (s_next_seqid_out x) mb (op_pkt_data <$> ops') /\
       Forall (fun op => op_sess op = p /\ op_done_cb op = cb) ops') /\
    ((forall b, (cld_authsign key b).1 = 0) -> is_Some r)) s.
Proof.
  induction 1 as [first mb xid hb op Hl Hx He Hd Hp Hcb|
                  first chunk rest xid hb op ops Hl Hr Hx He Hd Hp Hcb Hb IH];
    intros s x Hs Hq; cbn [sign_pkts]; rewrite Hd, take_body; apply wp_bind;
    unfold wp at 1; rewrite next_seqid_le_eq with (x := x) by done; cbn [fst snd];
    rewrite <- app_assoc; destruct (cld_authsign key _) as [rc sha] eqn:Es;
    (destruct (Z.eqb_spec rc 0) as [->|Hrc]; cbn [negb];
     [|apply wp_ret; split; [done|]; intros Ha; exfalso; apply Hrc;
       apply (f_equal fst) in Es; by rewrite Ha in Es]).
  - apply wp_bind, wp_ret, wp_ret. split; [|done]. intros ops' [= <-].
    split_and!; [done| |by repeat constructor].
    rewrite fmap_cons, fmap_nil. cbn [op_pkt_data]. rewrite <- !app_assoc. eauto using packets.
  - apply wp_bind. eapply wp_mono; [apply (IH _ (set_seqid_out (u64 (s_next_seqid_out x + 1)) x))|].
    { cbn. by rewrite lookup_insert_eq. }
    { apply u64_bound. }
    intros r s' [H1 H2]. destruct r as [ops'|]; apply wp_ret; split; try done.
    intros ops'' [= <-]. destruct (H1 ops' eq_refl) as (E & Hpk & Hf). split_and!.
    + rewrite E. cbn. rewrite insert_insert_eq, seq_after_S. done.
    + rewrite fmap_cons. cbn [op_pkt_data]. rewrite <- !app_assoc. eauto using packets.
    + by constructor.
Qed.

(** Writing to the socket leaves the sessions alone. *)
Lemma tcp_tx_heap (fd : Z) (data : bytes) s : heap (tcp_tx fd data s).2 = heap s.
Proof.
  unfold tcp_tx, sys_write, bind, nondet, modify, ret. simpl.
  repeat (case_match; simplify_eq/=; try done).
Qed.

Lemma send_pkts_heap (fd : Z) (ops : list session_outpkt) s : heap (send_pkts fd ops s).2 = heap s.
Proof.
  revert s. induction ops as [|op ops IH]; intros s; [done|]. cbn [send_pkts]. unfold bind.
  pose proof (tcp_tx_heap fd (op_pkt_data op) s) as Ht. destruct (tcp_tx _ _ s) as [rc s1].
  by rewrite IH.
Qed.

Lemma session_outq_heap (p : nat) (ops : list session_outpkt) s x :
  heap s !! p = Some x ->
  wp (session_outq p ops) (fun _ s' => exists x', heap s' !! p = Some x' /\
    s_out_q x' = s_out_q x ++ ops /\ s_next_seqid_out x' = s_next_seqid_out x /\
    (s_out_q x = [] -> lucky s -> s_retry_timer x' = Some CLD_RETRY_START)) s.
Proof.
  intros Hx. unfold session_outq. apply wp_bind, wp_get_sess. rewrite (lookup_total_correct _ _ _ Hx).
  apply wp_bind. destruct (Nat.eqb_spec (length (s_out_q x)) 0) as [Hn|Hn].
  - apply wp_bind, wp_ev_ok. intros b s1 _ E1 _ L1. destruct b.
    + apply wp_upd_sess, wp_upd_sess. cbn. rewrite E1, !lookup_alter_eq, Hx. cbn. eauto.
    + apply wp_ret, wp_upd_sess. cbn. rewrite E1, lookup_alter_eq, Hx. cbn.
      eexists; split_and!; [done..|]. intros _ L. by specialize (L1 L).
  - apply wp_ret, wp_upd_sess. cbn. rewrite lookup_alter_eq, Hx. cbn.
    eexists; split_and!; [done..|]. intros E. by rewrite E in Hn.
Qed.

(** What [sess_sendmsg] does when it succeeds, and when it does. *)
Lemma sess_sendmsg_spec (p : nat) (msg : msg_out) (msg_op : Z) (cb : done_cb) s x :
  heap s !! p = Some x -> 0 <= s_next_seqid_out x < 2 ^ 64 ->
  wp (sess_sendmsg p msg msg_op cb) (fun ok s' =>
    (ok = true -> exists mb ops x',
       xdr_msg_enc msg = Some mb /\ Z.of_nat (length mb) <= CLD_MAX_MSG_SZ /\
       packets x msg_op (user_key (Some (s_user x))) true (s_next_seqid_out x) mb (op_pkt_data <$> ops) /\
       Forall (fun op => op_sess op = p /\ op_done_cb op = cb) ops /\
       heap s' !! p = Some x' /\ s_out_q x' = s_out_q x ++ ops /\
       s_next_seqid_out x' = seq_after (s_next_seqid_out x) (length ops)) /\
    (lucky s -> hdrs_encodable x msg_op -> (0 < length (s_user x) < 32)%nat ->
     (exists mb, xdr_msg_enc msg = Some mb /\ Z.of_nat (length mb) <= CLD_MAX_MSG_SZ) -> ok = true)) s.
Proof.
  intros Hx Hq. pose proof (lookup_total_correct _ _ _ Hx) as Hx'.
  unfold sess_sendmsg. apply wp_bind, wp_get_sess. rewrite Hx'. cbv zeta.
  destruct (Z.ltb_spec CLD_MAX_MSG_SZ (xdr_sizeof (xdr_msg_enc msg))) as [Hm|Hm].
  { apply wp_ret. split; [done|]. intros _ _ _ (mb & E & Hl). rewrite E in Hm. simpl in Hm. lia. }
  destruct (xdr_msg_enc msg) as [mb|].
  2:{ apply wp_ret. split; [done|]. intros _ _ _ (mb & E & Hl). done. }
  apply wp_bind. eapply wp_mono; [apply build_pkts_spec; lia|].
  intros r s1 (H1 & E1 & B1 & L1). rewrite Hx' in *. destruct r as [ops|].
  2:{ apply wp_ret. split; [done|]. intros L He _ _. by destruct (L1 L He). }
  specialize (B1 ops eq_refl). apply wp_bind.
  eapply wp_mono; [by eapply (sign_pkts_spec _ _ _ _ _ _ _ _ B1 s1 x); [rewrite E1|]|].
  intros r s2 [H2 A2]. destruct r as [ops'|].
  2:{ apply wp_ret. split; [done|]. intros L He Hu _.
      assert (forall b, (cld_authsign (user_key (Some (s_user x))) b).1 = 0) as Ha.
      { intros b. by destruct (authsign_ok (s_user x) b Hu) as (sha & -> & _). }
      by destruct (A2 Ha). }
  destruct (H2 ops' eq_refl) as (E2 & P2 & F2).
  apply wp_bind, wp_get_sess. apply wp_bind. apply wp_intro. intros [] s3 E3.
  pose proof (send_pkts_heap (s_sock_fd (heap s2 !!! p)) ops' s2) as Hh. rewrite E3 in Hh. simpl in Hh.
  apply wp_bind. eapply wp_mono; [eapply session_outq_heap; rewrite Hh, E2; apply lookup_insert_eq|].
  intros _ s4 (x' & Hx4 & Hq4 & Hs4 & _). apply wp_ret. split; [|done]. intros _.
  exists mb, ops', x'. by split_and!.
Qed.

End fragment.

(** ** Acknowledgement *)

Section ack.
Context {D : Type}.
Implicit Types s : srv D.

(** The callbacks of the packets [ops] of a session, applied to it. *)
Definition run_cbs (ops : list session_outpkt) (x : session) : session :=
  foldl (fun x op => match op_done_cb op with
                     | cb_null => x
                     | cb_session_ping_done => set_ping_open false x
                     | cb_end_sess_done => set_dead true x
                     end) x ops.

Definition acked_by (seqid : Z) (op : session_outpkt) : Prop := seqid = foot_seqid (op_pkt_data op).
#[export] Instance acked_by_dec (seqid : Z) (op : session_outpkt) : Decision (acked_by seqid op).
Proof. unfold acked_by. apply _. Defined.

(** The session after an acknowledgement of [seqid]. *)
Definition acked (seqid : Z) (x : session) : session :=
  let q := filter (fun op => ~ acked_by seqid op) (s_out_q x) in
  let x' := set_out_q q (run_cbs (filter (acked_by seqid) (s_out_q x)) x) in
  if (length (s_out_q x) =? 0)%nat then x
  else if (length q =? 0)%nat then set_retry_timer None x' else x'.

Lemma set_heap_id s : set_heap (heap s) s = s.
Proof. by destruct s. Qed.

Lemma run_done_cb_eq (op : session_outpkt) (p : nat) s x :
  op_sess op = p -> heap s !! p = Some x ->
  run_done_cb op s = (tt, set_heap (<[p := run_cbs [op] x]> (heap s)) s).
Proof.
  intros <- Hx. unfold run_done_cb, run_cbs, session_ping_done, end_sess_done, session_trash,
    upd_sess, modify, ret. cbn [foldl].
  destruct (op_done_cb op); rewrite ?(alter_alt_Some _ _ _ _ Hx); try done.
  by rewrite insert_id, set_heap_id.
Qed.

Lemma ack_loop_eq (seqid : Z) (p : nat) (q : list session_outpkt) s x :
  Forall (fun op => op_sess op = p) q -> heap s !! p = Some x ->
  ack_loop seqid q s =
    (filter (fun op => ~ acked_by seqid op) q,
     set_heap (<[p := run_cbs (filter (acked_by seqid) q) x]> (heap s)) s).
Proof.
  intros Hq. revert s x. induction Hq as [|op q Hop Hq IH]; intros s x Hx.
  { cbn. by rewrite insert_id, set_heap_id. }
  cbn [ack_loop]. destruct (Z.eqb_spec seqid (foot_seqid (op_pkt_data op))) as [Ha|Ha]; cbn [negb].
  - rewrite filter_cons_False by (unfold acked_by; tauto).
    rewrite filter_cons_True by done. unfold bind. rewrite (run_done_cb_eq op p s x) by done.
    rewrite (IH _ (run_cbs [op] x)) by (cbn; by rewrite lookup_insert_eq).
    cbn. by rewrite insert_insert_eq.
  - rewrite filter_cons_True by done. rewrite filter_cons_False by done. unfold bind.
    by rewrite (IH _ x Hx).
Qed.

Lemma msg_ack_eq (p : nat) (seqid : Z) s x :
  heap s !! p = Some x -> Forall (fun op => op_sess op = p) (s_out_q x) ->
  msg_ack p seqid s = (tt, set_heap (<[p := acked seqid x]> (heap s)) s).
Proof.
  intros Hx Hq. unfold msg_ack, acked, bind, get_sess. rewrite (lookup_total_correct _ _ _ Hx).
  destruct (length (s_out_q x) =? 0)%nat; [unfold ret; by rewrite insert_id, set_heap_id|].
  rewrite (ack_loop_eq seqid p (s_out_q x) s x) by done. unfold upd_sess, modify. cbn.
  rewrite (alter_insert_eq _ p). case_match; unfold ret; cbn; [|done].
  by rewrite (alter_insert_eq _ p).
Qed.

(** What the callbacks of the acknowledged packets do to the two flags. *)
Lemma run_cbs_flags (seqid : Z) (q : list session_outpkt) (x : session) :
  s_dead (run_cbs (filter (acked_by seqid) q) x) =
    s_dead x || existsb (fun op => bool_decide (acked_by seqid op) &&
      match op_done_cb op with cb_end_sess_done => true | _ => false end) q /\
  s_ping_open (run_cbs (filter (acked_by seqid) q) x) =
    s_ping_open x && negb (existsb (fun op => bool_decide (acked_by seqid op) &&
      match op_done_cb op with cb_session_ping_done => true | _ => false end) q).
Proof.
  revert x. induction q as [|op q IH]; intros x; [cbn; by rewrite orb_false_r, andb_true_r|].
  destruct (decide (acked_by seqid op)) as [Ha|Ha].
  - rewrite filter_cons_True by done. cbn [existsb]. rewrite bool_decide_true by done.
    change (run_cbs (op :: ?l) x) with (run_cbs l (run_cbs [op] x)).
    destruct (IH (run_cbs [op] x)) as [-> ->]. unfold run_cbs. cbn [foldl].
    destruct (op_done_cb op); cbn; by rewrite ?orb_true_r, ?andb_false_r.
  - rewrite filter_cons_False by done. cbn [existsb]. rewrite bool_decide_false by done. apply IH.
Qed.

End ack.

(** ** Retransmission *)

Section retry.
Context {D : Type}.
Implicit Types s : srv D.

(** A queued packet after a pass at time [now]: pushed back if it was due. *)
Definition retried (now : Z) (op : session_outpkt) : session_outpkt :=
  if now <? op_next_retry op then op
  else mkOutpkt (op_sess op) (op_pkt_data op) (u64 (op_next_retry op + 5)) (op_refs op) (op_done_cb op).

(** The earliest retry time seen, 0 standing for none yet. *)
Definition retry_min (nr : Z) (q : list session_outpkt) : Z :=
  foldl (fun nr op => if (nr =? 0) || (op_next_retry op <? nr) then op_next_retry op else nr) nr q.

Lemma wp_tcp_tx (fd : Z) (data : bytes) (Q : Z -> srv D -> Prop) s :
  (forall rc s', quiet s s' -> heap s' = heap s -> (lucky s -> rc = 0) -> Q rc s') -> wp (tcp_tx fd data) Q s.
Proof.
  intros HQ. unfold wp. apply HQ; [apply quiet_tcp_tx|apply tcp_tx_heap|].
  intros L. unfold tcp_tx, sys_write, bind, nondet, modify, ret. cbn.
  rewrite (proj2 (Z.ltb_ge _ _)) by (specialize (L (oracle_i s)); lia).
  rewrite (proj2 (Z.ltb_ge _ _)) by lia. cbn.
  rewrite (proj2 (Z.ltb_ge _ _)) by (specialize (L (S (oracle_i s))); lia).
  by rewrite (proj2 (Z.ltb_ge _ _)) by lia.
Qed.

Lemma retry_loop_spec (fd nr : Z) (q : list session_outpkt) s :
  wp (retry_loop fd nr q) (fun r s' =>
    quiet s s' /\ heap s' = heap s /\
    Forall2 (fun op op' => op' = op \/ op' = retried (current_time s) op) q r.2 /\
    (lucky s -> r = (0, retry_min nr q, retried (current_time s) <$> q))) s.
Proof.
  revert nr s. induction q as [|op q IH]; intros nr s; cbn [retry_loop]; [apply wp_ret; by split_and!|].
  cbv zeta. apply wp_bind, wp_get. unfold retry_min. cbn [foldl]. fold (retry_min (if (nr =? 0) ||
    (op_next_retry op <? nr) then op_next_retry op else nr) q).
  set (nr' := if (nr =? 0) || (op_next_retry op <? nr) then op_next_retry op else nr).
  destruct (current_time s <? op_next_retry op) eqn:Et.
  - apply wp_bind. eapply wp_mono; [apply (IH nr')|]. intros [[rc m] q'] s' (H1 & E1 & F1 & L1).
    apply wp_ret. split_and!; [done|done|by constructor; [left|]|].
    intros L. specialize (L1 L). simplify_eq. rewrite fmap_cons. unfold retried at 2. by rewrite Et.
  - apply wp_bind, wp_tcp_tx. intros rc s1 H1 E1 L1.
    destruct (Z.eqb_spec rc 0) as [->|Hrc]; cbn [negb].
    + apply wp_bind. eapply wp_mono; [apply (IH nr')|]. intros [[rc m] q'] s' (H2 & E2 & F2 & L2).
      rewrite (ce_time _ _ (proj1 H1)) in *. apply wp_ret.
      split_and!; [by etrans|congruence|constructor; [right; unfold retried; by rewrite Et|done]|].
      intros L. specialize (L2 (lucky_calm _ _ (proj1 H1) L)). simplify_eq.
      rewrite fmap_cons. unfold retried at 2. by rewrite Et.
    + apply wp_ret. split_and!; [done|done| |intros L; by specialize (L1 L)].
      constructor; [by left|]. apply Forall2_same_length_lookup_2; [done|]. intros. simplify_eq. by left.
Qed.

(** Nothing is due yet: the pass changes nothing. *)
Lemma retry_loop_idle (fd nr : Z) (q : list session_outpkt) s :
  Forall (fun op => current_time s < op_next_retry op) q ->
  retry_loop fd nr q s = (0, retry_min nr q, q, s).
Proof.
  intros Hq. revert nr. induction Hq as [|op q Hop Hq IH]; intros nr; [done|].
  cbn [retry_loop]. unfold bind, get. rewrite (proj2 (Z.ltb_lt _ _)) by done. by rewrite IH.
Qed.

Lemma retry_min_le (nr : Z) (q : list session_outpkt) :
  0 <= nr -> Forall (fun op => 0 < op_next_retry op) q ->
  (0 < nr -> retry_min nr q <= nr) /\ forall op, op ∈ q -> retry_min nr q <= op_next_retry op.
Proof.
  intros Hnr Hq. revert nr Hnr. induction Hq as [|op q Hop Hq IH]; intros nr Hnr.
  { split; [done|]. intros op H. inversion H. }
  unfold retry_min in *. cbn [foldl].
  set (nr' := if (nr =? 0) || (op_next_retry op <? nr) then op_next_retry op else nr).
  assert (0 < nr' /\ nr' <= op_next_retry op /\ (0 < nr -> nr' <= nr)) as (A & B & C).
  { unfold nr'. destruct (Z.eqb_spec nr 0), (Z.ltb_spec (op_next_retry op) nr); simpl; lia. }
  destruct (IH nr' ltac:(lia)) as [I1 I2]. split; [lia|].
  intros op' [->|Hin]%elem_of_cons; [lia|by apply I2].
Qed.

End retry.
