(* ===== verification/Abs.v ===== *)
(** * Abs: the abstract coordination service

    What a client is promised, as transitions on the contents of the database
    alone: a name space of inodes with data, handles, sessions and locks.  Each
    transition is atomic; [astep now a v v'] is the effect of one completed
    request (or of one session removal) [a] at time [now].  MsgSpec and
    SessionSpec show that the handlers implement it. *)

From S2P Require Import Prelude Htab Dirent Wire Bdb Srv Msg.
#[local] Open Scope Z_scope.

Definition put_sess (r : raw_session) : dbview -> dbview := upd_sessions (insert (rs_sid r) r).
Definition put_handle (h : raw_handle) : dbview -> dbview := upd_handles (insert (rh_key h) h).
Definition put_inode (ino : raw_inode) : dbview -> dbview := upd_inodes (insert (ri_inum ino) ino).
Definition put_data (inum : Z) (d : bytes) : dbview -> dbview := upd_data (insert inum d).

Definition is_dir (ino : raw_inode) : bool := flag (ri_flags ino) CIFL_DIR.
Definition data_of (v : dbview) (inum : Z) : bytes := default [] (v_data v !! inum).

(** ** Locks *)

Definition acquired (l : raw_lock) : bool := negb (flag (rl_flags l) CLFL_PENDING).
Definition shared (l : raw_lock) : bool := flag (rl_flags l) CLFL_SHARED.

(** [l] keeps a lock of the wanted kind from being granted. *)
Definition blocks (want_shared : bool) (l : raw_lock) : bool :=
  acquired l && (negb want_shared || negb (shared l)).

(** The inode's data and size, and its other fields, after a write. *)
Definition write_inode (now : Z) (ino : raw_inode) (d : bytes) (v : dbview) : dbview :=
  put_inode (touched now (set_ri_size (Z.of_nat (length d)) ino)) (put_data (ri_inum ino) d v).

(** [v'] is [v] with other locks. *)
Definition same_but_locks (v v' : dbview) : Prop :=
  v_sessions v' = v_sessions v /\ v_inodes v' = v_inodes v /\ v_data v' = v_data v /\
  v_handles v' = v_handles v.

(** [lock] is added to the locks of its inode, in place of one that compares
    equal if there is one. *)
Definition lock_added (lock : raw_lock) (v v' : dbview) : Prop :=
  exists l1 old l2, locks_of v (rl_inum lock) = l1 ++ old ++ l2 /\
    (old = [] \/ exists e, old = [e] /\ lock_compare e lock = 0) /\
    v' = upd_locks (insert (rl_inum lock) (l1 ++ lock :: l2)) v.

(** ** Requests *)

Inductive alabel : Type :=
| AOpen (sid : Z) (o : cld_msg_open) (fh : Z)
| APut (sid : Z) (put : cld_msg_put)
| AClose (sid fh : Z)
| ADel (name : bytes)
| AUnlock (sid fh : Z)
| ALock (sid fh : Z) (want_shared wait got : bool)
| ANewSess (sid : Z)
| ARemove (sid : Z).

(** The inode a creating open makes. *)
Definition new_inode (now : Z) (o : cld_msg_open) (n : Z) : raw_inode :=
  let name := mo_inode_name o in
  touched now
    (mkRawInode n (u32 (Z.of_nat (length name))) 0 0 (u64 now) (u64 now)
       (if flag (mo_mode o) COM_DIRECTORY then Z.lor (u32 0) CIFL_DIR else u32 0) name).

Definition open_handle (sid fh : Z) (o : cld_msg_open) (n : Z) : raw_handle :=
  mkRawHandle sid fh n (u32 (mo_mode o)) (u32 (mo_events o)).

(** The lock a handle's session asks for. *)
Definition new_lock (now sid fh inum : Z) (want_shared pending : bool) : raw_lock :=
  mkRawLock inum sid fh (u64 now)
    (Z.lor (if want_shared then CLFL_SHARED else 0) (if pending then CLFL_PENDING else 0)).

Inductive astep (now : Z) : alabel -> dbview -> dbview -> Prop :=
| astep_open_old sid o fh v i ino raw :
    valid_inode_name (Some (mo_inode_name o)) (length (mo_inode_name o)) = true ->
    inode_named v (mo_inode_name o) i ino ->
    flag (mo_mode o) COM_CREATE && flag (mo_mode o) COM_EXCL = false ->
    flag (mo_mode o) COM_DIRECTORY = is_dir ino ->
    rs_sid raw = sid -> 0 <= sid < 2 ^ 64 -> rs_next_fh raw = u64 (fh + 1) ->
    astep now (AOpen sid o fh) v (put_sess raw (put_handle (open_handle sid fh o (ri_inum ino)) v))
| astep_open_new sid o fh v i parent n raw :
    valid_inode_name (Some (mo_inode_name o)) (length (mo_inode_name o)) = true ->
    (2 <= length (mo_inode_name o))%nat ->
    Z.of_nat (length (mo_inode_name o)) <= CLD_INODE_NAME_MAX ->
    flag (mo_mode o) COM_CREATE = true ->
    (forall j ino, ~ inode_named v (mo_inode_name o) j ino) ->
    inode_named v (pi_dir (pathname_parse (mo_inode_name o))) i parent ->
    v_inodes v !! n = None -> CLD_INO_RESERVED_LAST < n < 2 ^ 31 ->
    rs_sid raw = sid -> 0 <= sid < 2 ^ 64 -> rs_next_fh raw = u64 (fh + 1) ->
    astep now (AOpen sid o fh) v
      (put_sess raw (put_inode (new_inode now o n) (put_handle (open_handle sid fh o n)
        (write_inode now parent
           (data_of v (ri_inum parent) ++ enc_ent (pi_base (pathname_parse (mo_inode_name o)))) v))))
| astep_put sid put v h ino :
    v_handles v !! (sid, mp_fh put) = Some h ->
    flag (rh_mode h) COM_WRITE = true -> flag (rh_mode h) COM_DIRECTORY = false ->
    v_inodes v !! rh_inum h = Some ino -> ri_inum ino = rh_inum h ->
    astep now (APut sid put) v (write_inode now ino (mp_data put) v)
| astep_close sid fh v v' h :
    v_handles v !! (sid, fh) = Some h ->
    same_but_locks (upd_handles (delete (sid, fh)) v) v' ->
    (forall i, locks_of v' i =
       if decide (i = if flag (rh_mode h) COM_LOCK then rh_inum h else 0)
       then filter (fun l => lmatch l sid fh = false) (locks_of v i) else locks_of v i) ->
    astep now (AClose sid fh) v v'
| astep_del name v i parent j ino pd pd' :
    valid_inode_name (Some name) (length name) = true -> (2 <= length name)%nat ->
    inode_named v (pi_dir (pathname_parse name)) i parent ->
    v_data v !! ri_inum parent = Some pd ->
    inode_named v name j ino ->
    (is_dir ino = true -> data_of v (ri_inum ino) = []) ->
    dirdata_delete pd (pi_base (pathname_parse name)) = (true, pd') ->
    astep now (ADel name) v
      (write_inode now parent pd'
        (upd_handles (filter (fun kh => handle_idx_key kh.2 <> ri_inum ino))
          (upd_data (delete (ri_inum ino)) (upd_inodes (delete (ri_inum ino)) v))))
| astep_unlock sid fh v h l1 lock l2 :
    v_handles v !! (sid, fh) = Some h -> flag (rh_mode h) COM_LOCK = true ->
    locks_of v (rh_inum h) = l1 ++ lock :: l2 ->
    Forall (fun l => ~ (rl_sid l = sid /\ rl_fh l = fh)) l1 ->
    rl_sid lock = sid -> rl_fh lock = fh ->
    astep now (AUnlock sid fh) v (upd_locks (insert (rh_inum h) (l1 ++ l2)) v)
| astep_lock sid fh want wait v v' h pending :
    v_handles v !! (sid, fh) = Some h -> flag (rh_mode h) COM_LOCK = true ->
    pending = existsb (blocks want) (locks_of v (rh_inum h)) ->
    (pending = true -> wait = true) ->
    lock_added (new_lock now sid fh (rh_inum h) want pending) v v' ->
    astep now (ALock sid fh want wait (negb pending)) v v'
| astep_new_sess sid v raw :
    v_sessions v !! sid = None -> rs_sid raw = sid -> 0 <= sid < 2 ^ 64 ->
    astep now (ANewSess sid) v (put_sess raw v)
| astep_remove sid v v' :
    v_inodes v' = v_inodes v -> v_data v' = v_data v ->
    (forall k h, v_handles v' !! k = Some h -> v_handles v !! k = Some h) ->
    (forall k h, v_handles v !! k = Some h -> v_handles v' !! k = Some h \/ rh_sid h = sid) ->
    (forall i, locks_of v' i = locks_of v i \/
               locks_of v' i = filter (fun l => rl_sid l <> sid) (locks_of v i)) ->
    (v_sessions v' = v_sessions v \/
     v_sessions v' = delete sid (v_sessions v) /\
     forall k h, v_handles v' !! k = Some h -> rh_sid h <> sid) ->
    astep now (ARemove sid) v v'.

(** ** Reading *)

(** The reply to GET ([want_data]) and GET_META. *)
Definition get_reply (v : dbview) (sid fh xid : Z) (want_data : bool) : cle_err + cld_msg_get_resp :=
  match v_handles v !! (sid, fh) with
  | None => inl CLE_FH_INVAL
  | Some h =>
      if negb (flag (rh_mode h) COM_READ) then inl CLE_MODE_INVAL else
      match v_inodes v !! rh_inum h with
      | None => inl CLE_INODE_INVAL
      | Some ino =>
          let d := if want_data then data_of v (rh_inum h) else [] in
          if want_data && bool_decide (is_Some (v_data v !! rh_inum h)) &&
             negb (Z.of_nat (length d) =? ri_size ino) then inl CLE_DB_ERR else
          inr (mkGetResp CLE_OK xid (ri_inum ino) (ri_version ino) (ri_time_create ino) (ri_time_modify ino)
                 (ri_flags ino) (take (Z.to_nat (ri_ino_len ino)) (ri_name ino)) d)
      end
  end.

(** What a write leaves is what a later read returns. *)
Lemma write_then_get (now sid sid2 fh2 xid : Z) (put : cld_msg_put) (v v' : dbview) (h h2 : raw_handle) :
  v_handles v !! (sid, mp_fh put) = Some h -> v_handles v !! (sid2, fh2) = Some h2 ->
  rh_inum h2 = rh_inum h -> flag (rh_mode h2) COM_READ = true ->
  Z.of_nat (length (mp_data put)) < 2 ^ 32 ->
  astep now (APut sid put) v v' ->
  exists r, get_reply v' sid2 fh2 xid true = inr r /\ gr_data r = mp_data put /\ gr_code r = CLE_OK /\
    gr_time_modify r = u64 now.
Proof.
  intros Hh Hh2 Ei Hr Hl Hst. inversion Hst as [| |sid' put' v0 h' ino Hh' Hw Hd Hino Hk| | | | | |]; subst.
  assert (h' = h) as -> by congruence. unfold get_reply, write_inode, data_of. cbn.
  rewrite Hh2, Hr, Ei, Hk, !lookup_insert_eq. cbn. unfold u32. rewrite uw_small by lia.
  rewrite Z.eqb_refl. cbn. eauto.
Qed.
