(* ===== verification/Inv.v ===== *)
(** * Inv: the invariant of the database and its preservation

    [db_inv] collects what the server maintains of its database: keys agree
    with records, names are unique and valid, handles refer to existing
    inodes and sessions, sizes agree with the data, directory data lists
    existing children once each, the root exists, and no two acquired locks
    of an inode conflict.  Every transition of the abstract service
    preserves it. *)

From S2P Require Import Prelude Htab Dirent Wire Bdb Srv Msg Abs.
#[local] Open Scope Z_scope.

(** ** Lock exclusion *)

(** Two locks may be held together. *)
Definition compat (a b : raw_lock) : Prop :=
  acquired a = true -> acquired b = true -> shared a = true /\ shared b = true.

Fixpoint excl_ok (ls : list raw_lock) : Prop :=
  match ls with
  | [] => True
  | a :: ls => Forall (compat a) ls /\ excl_ok ls
  end.

Lemma compat_sym (a b : raw_lock) : compat a b -> compat b a.
Proof. unfold compat. naive_solver. Qed.

Lemma excl_ok_insert (l1 l2 : list raw_lock) (x : raw_lock) :
  excl_ok (l1 ++ l2) -> Forall (compat x) (l1 ++ l2) -> excl_ok (l1 ++ x :: l2).
Proof.
  induction l1 as [|a l1 IH]; simpl; [done|].
  intros [Ha Hl] [Hxa Hx]%Forall_cons. split; [|by apply IH].
  rewrite Forall_app in Ha |- *. destruct Ha. split; [done|]. constructor; [by apply compat_sym|done].
Qed.

Lemma excl_ok_sublist (l1 l2 : list raw_lock) : sublist l1 l2 -> excl_ok l2 -> excl_ok l1.
Proof.
  induction 1 as [|x l1 l2 Hs IH|x l1 l2 Hs IH]; simpl; [done| |naive_solver].
  intros [Hx Hl]. split; [|by apply IH]. by eapply sublist_Forall.
Qed.

Lemma excl_ok_lookup (ls : list raw_lock) (i j : nat) (a b : raw_lock) :
  excl_ok ls -> i <> j -> ls !! i = Some a -> ls !! j = Some b -> compat a b.
Proof.
  revert i j. induction ls as [|x ls IH]; intros i j; [done|]. intros [Hx Hl] Hij.
  rewrite Forall_forall in Hx. destruct i as [|i], j as [|j]; simpl; [done| | |].
  - intros [= ->] Hb. apply Hx. by eapply list_elem_of_lookup_2.
  - intros Ha [= ->]. apply compat_sym, Hx. by eapply list_elem_of_lookup_2.
  - apply IH; [done|lia].
Qed.

(** ** The name space *)

Definition child_of (m dir base : bytes) : Prop :=
  (2 <= length m)%nat /\ pathname_parse m = mkPinfo dir base.

(** The directory data of [v] are entries of existing inodes, once each. *)
Definition dir_ok (v : dbview) (ino : raw_inode) : Prop :=
  exists bases, data_of v (ri_inum ino) = enc_dir bases /\ NoDup bases /\
    forall b, b ∈ bases -> exists m i x, inode_named v m i x /\ child_of m (ri_name ino) b.

Record db_inv (v : dbview) : Prop := {
  di_sess k r : v_sessions v !! k = Some r -> rs_sid r = k /\ 0 <= k < 2 ^ 64;
  di_ino i ino : v_inodes v !! i = Some ino ->
    ri_inum ino = i /\ inode_name_key ino = Some (ri_name ino) /\
    valid_inode_name (Some (ri_name ino)) (length (ri_name ino)) = true /\
    Z.of_nat (length (ri_name ino)) <= CLD_INODE_NAME_MAX;
  di_names m i x j y : inode_named v m i x -> inode_named v m j y -> i = j;
  di_hkey k h : v_handles v !! k = Some h -> rh_key h = k;
  di_href k h : v_handles v !! k = Some h ->
    exists ino, v_inodes v !! rh_inum h = Some ino /\ flag (rh_mode h) COM_DIRECTORY = is_dir ino;
  di_hsess k h : v_handles v !! k = Some h -> is_Some (v_sessions v !! rh_sid h);
  di_data i d : v_data v !! i = Some d -> is_Some (v_inodes v !! i);
  di_size i ino : v_inodes v !! i = Some ino -> ri_size ino = u32 (Z.of_nat (length (data_of v i)));
  di_lkey i : Forall (fun l => rl_inum l = i) (locks_of v i);
  di_excl i : excl_ok (locks_of v i);
  di_dirs i ino : v_inodes v !! i = Some ino -> is_dir ino = true -> dir_ok v ino;
  di_root : exists i ino, inode_named v [slash] i ino /\ is_dir ino = true }.

(** A named inode, with what the invariant says of it. *)
Lemma inv_named (v : dbview) (m : bytes) (i : Z) (x : raw_inode) :
  db_inv v -> inode_named v m i x ->
  v_inodes v !! ri_inum x = Some x /\ i = ri_inum x /\ ri_name x = m.
Proof.
  intros Hinv [Hi Hn]. destruct (di_ino v Hinv i x Hi) as (<- & Hk & _).
  split_and!; [done|done|congruence].
Qed.

Lemma named_intro (v : dbview) (i : Z) (x : raw_inode) :
  db_inv v -> v_inodes v !! i = Some x -> inode_named v (ri_name x) i x.
Proof. intros Hinv Hi. split; [done|]. by apply (di_ino v Hinv i x Hi). Qed.

Lemma inv_valid (v : dbview) (m : bytes) (i : Z) (x : raw_inode) :
  db_inv v -> inode_named v m i x ->
  valid_inode_name (Some m) (length m) = true /\ Z.of_nat (length m) <= CLD_INODE_NAME_MAX.
Proof.
  intros Hinv Hm. destruct (inv_named v m i x Hinv Hm) as (Hx & -> & <-).
  by destruct (di_ino v Hinv _ x Hx) as (_ & _ & ? & ?).
Qed.

(** The names listed in directory data fit their records. *)
Lemma bases_fit (v : dbview) (n : bytes) (bases : list bytes) : db_inv v ->
  (forall b, b ∈ bases -> exists m i x, inode_named v m i x /\ child_of m n b) ->
  Forall name_fits bases.
Proof.
  intros Hinv Hb. apply Forall_forall. intros b (m & i & x & Hm & H2 & Hp)%Hb.
  destruct (inv_valid v m i x Hinv Hm) as [Hv Hl].
  pose proof (proj2 (pathname_parse_length m Hv H2)) as Hlen. rewrite Hp in Hlen. simpl in Hlen.
  unfold name_fits, CLD_INODE_NAME_MAX in *. lia.
Qed.

(** ** Elementary updates *)

Lemma inv_put_sess (v : dbview) (r : raw_session) :
  db_inv v -> 0 <= rs_sid r < 2 ^ 64 -> db_inv (put_sess r v).
Proof.
  intros [I1 I2 I3 I4 I5 I6 I7 I8 I9 I10 I11 I12] Hr. split; try done.
  - intros k r'. cbn. rewrite lookup_insert. case_decide; [naive_solver|apply I1].
  - intros k h Hh. cbn. rewrite lookup_insert. case_decide; [done|by eapply I6].
Qed.

Lemma inv_put_handle (v : dbview) (h : raw_handle) (ino : raw_inode) :
  db_inv v -> v_inodes v !! rh_inum h = Some ino -> flag (rh_mode h) COM_DIRECTORY = is_dir ino ->
  is_Some (v_sessions v !! rh_sid h) -> db_inv (put_handle h v).
Proof.
  intros [I1 I2 I3 I4 I5 I6 I7 I8 I9 I10 I11 I12] Hi Hd Hs. split; try done.
  - intros k h'. cbn. rewrite lookup_insert. case_decide; [naive_solver|apply I4].
  - intros k h'. cbn. rewrite lookup_insert. case_decide; [naive_solver|apply I5].
  - intros k h'. cbn. rewrite lookup_insert. case_decide; [naive_solver|apply I6].
Qed.

Lemma inv_locks (v v' : dbview) : db_inv v -> same_but_locks v v' ->
  (forall i, Forall (fun l => rl_inum l = i) (locks_of v' i) /\ excl_ok (locks_of v' i)) -> db_inv v'.
Proof.
  destruct v, v'. intros [I1 I2 I3 I4 I5 I6 I7 I8 I9 I10 I11 I12] (E1 & E2 & E3 & E4) Hl.
  cbn in E1, E2, E3, E4. subst. split; try done; intros i; apply Hl.
Qed.

Lemma inv_sub_handles (v : dbview) (f : gmap (Z * Z) raw_handle -> gmap (Z * Z) raw_handle) :
  db_inv v -> (forall k h, f (v_handles v) !! k = Some h -> v_handles v !! k = Some h) ->
  db_inv (upd_handles f v).
Proof.
  intros [I1 I2 I3 I4 I5 I6 I7 I8 I9 I10 I11 I12] Hf. split; try done; cbn; intros k h Hh%Hf; eauto.
Qed.

Lemma put_inode_named (v : dbview) (ino : raw_inode) (m : bytes) (i : Z) (x : raw_inode) :
  inode_named (put_inode ino v) m i x <->
  (i = ri_inum ino /\ x = ino /\ inode_name_key ino = Some m) \/ (i <> ri_inum ino /\ inode_named v m i x).
Proof.
  unfold inode_named. cbn. rewrite lookup_insert. case_decide; naive_solver.
Qed.

(** Writing keeps an inode's number, name and flags. *)
Lemma written_key (now n : Z) (ino : raw_inode) :
  let w := touched now (set_ri_size n ino) in
  ri_inum w = ri_inum ino /\ ri_name w = ri_name ino /\ ri_flags w = ri_flags ino /\
  inode_name_key w = inode_name_key ino /\ is_dir w = is_dir ino.
Proof. done. Qed.

Lemma data_of_put (v : dbview) (i j : Z) (d : bytes) :
  data_of (put_data i d v) j = if decide (i = j) then d else data_of v j.
Proof. unfold data_of. cbn. rewrite lookup_insert. by case_decide. Qed.

Section write.
Variables (now : Z) (v : dbview) (ino : raw_inode) (d : bytes).
Hypothesis Hinv : db_inv v.
Hypothesis Hino : v_inodes v !! ri_inum ino = Some ino.
#[local] Abbreviation v' := (write_inode now ino d v).

Lemma write_lookup (i : Z) (x : raw_inode) : v_inodes v' !! i = Some x ->
  exists y, v_inodes v !! i = Some y /\ ri_inum x = ri_inum y /\ ri_name x = ri_name y /\
    inode_name_key x = inode_name_key y /\ is_dir x = is_dir y /\
    ri_size x = (if decide (i = ri_inum ino) then u32 (Z.of_nat (length d)) else ri_size y).
Proof using Hino.
  cbn. rewrite lookup_insert. case_decide as Hi.
  - intros [= <-]. exists ino. subst i. rewrite decide_True by done. by split_and!.
  - intros Hx. exists x. rewrite decide_False by congruence. by split_and!.
Qed.

Lemma write_lookup_inv (i : Z) (y : raw_inode) : v_inodes v !! i = Some y ->
  exists x, v_inodes v' !! i = Some x /\ ri_name x = ri_name y /\
    inode_name_key x = inode_name_key y /\ is_dir x = is_dir y.
Proof using Hino.
  intros Hy. cbn. rewrite lookup_insert. case_decide as Hi; [|by exists y].
  cbn in Hi. subst i. eexists. split_and!; [done|..]; by simplify_eq.
Qed.

Lemma write_named (m : bytes) (i : Z) (y : raw_inode) :
  inode_named v m i y -> exists x, inode_named v' m i x /\ ri_name x = ri_name y /\ is_dir x = is_dir y.
Proof using Hino.
  intros [Hy Hk]. destruct (write_lookup_inv i y Hy) as (x & Hx & E1 & E2 & E3).
  exists x. split_and!; [split; [done|congruence]|done|done].
Qed.

Lemma write_named_inv (m : bytes) (i : Z) (x : raw_inode) :
  inode_named v' m i x -> exists y, inode_named v m i y /\ ri_name x = ri_name y /\ is_dir x = is_dir y.
Proof using Hino.
  intros [Hx Hk]. destruct (write_lookup i x Hx) as (y & Hy & E1 & E2 & E3 & E4 & _).
  exists y. split_and!; [split; [done|congruence]|done|done].
Qed.

Lemma inv_write :
  (is_dir ino = true -> exists bases, d = enc_dir bases /\ NoDup bases /\
     forall b, b ∈ bases -> exists m i x, inode_named v m i x /\ child_of m (ri_name ino) b) ->
  db_inv v'.
Proof using Hino Hinv.
  intros Hdir. destruct Hinv as [I1 I2 I3 I4 I5 I6 I7 I8 I9 I10 I11 I12]. split; try done.
  - intros i x (y & Hy & -> & En & -> & _)%write_lookup. rewrite En. by apply I2.
  - intros m i x j y (x' & Hx & _)%write_named_inv (y' & Hy & _)%write_named_inv. by eapply I3.
  - intros k h (y & Hy & Hf)%I5. destruct (write_lookup_inv _ _ Hy) as (x & Hx & _ & _ & E).
    exists x. split; [done|congruence].
  - intros i d'. cbn. rewrite !lookup_insert. cbn. case_decide; [done|]. apply I7.
  - intros i x (y & Hy & _ & _ & _ & _ & ->)%write_lookup.
    change (data_of v' i) with (data_of (put_data (ri_inum ino) d v) i). rewrite data_of_put.
    repeat case_decide; try congruence. by apply I8.
  - intros i x Hx Hd. destruct (write_lookup i x Hx) as (y & Hy & E1 & E2 & E3 & E4 & _).
    unfold dir_ok. rewrite E1. destruct (I2 i y Hy) as [E0 _].
    change (data_of v' (ri_inum y)) with (data_of (put_data (ri_inum ino) d v) (ri_inum y)).
    rewrite data_of_put, E2.
    assert (exists bases, (if decide (ri_inum ino = ri_inum y) then d else data_of v (ri_inum y))
        = enc_dir bases /\ NoDup bases /\
        forall b, b ∈ bases -> exists m i x, inode_named v m i x /\ child_of m (ri_name y) b)
      as (bases & Hb1 & Hb2 & Hb3).
    { case_decide as Hi; [|apply (I11 i); [done|congruence]].
      assert (y = ino) as -> by congruence. apply Hdir. congruence. }
    exists bases. split_and!; [done|done|]. intros b (m & j & z & Hz & Hc)%Hb3.
    destruct (write_named m j z Hz) as (z' & Hz' & _). eauto.
  - destruct I12 as (i & x & Hx & Hd). destruct (write_named _ _ _ Hx) as (x' & Hx' & _ & E).
    exists i, x'. split; [done|congruence].
Qed.

End write.

(** A fresh inode without data. *)
Lemma inv_new_inode (v : dbview) (x : raw_inode) : db_inv v ->
  v_inodes v !! ri_inum x = None ->
  inode_name_key x = Some (ri_name x) -> valid_inode_name (Some (ri_name x)) (length (ri_name x)) = true ->
  Z.of_nat (length (ri_name x)) <= CLD_INODE_NAME_MAX -> ri_size x = 0 ->
  (forall j y, ~ inode_named v (ri_name x) j y) ->
  db_inv (put_inode x v).
Proof.
  intros Hinv Hf Hk Hv Hl Hs Hn. destruct Hinv as [I1 I2 I3 I4 I5 I6 I7 I8 I9 I10 I11 I12].
  assert (forall i y, v_inodes v !! i = Some y -> v_inodes (put_inode x v) !! i = Some y) as Hmono.
  { intros i y Hy. cbn. rewrite lookup_insert_ne; [done|]. congruence. }
  assert (data_of v (ri_inum x) = []) as Hd.
  { unfold data_of. destruct (v_data v !! ri_inum x) as [d|] eqn:E; [|done].
    destruct (I7 _ _ E) as [? ?]. congruence. }
  split; try done.
  - intros i y. cbn. rewrite lookup_insert. case_decide as Hi; [|apply I2].
    intros [= <-]. by split_and!.
  - intros m i a j b. rewrite !put_inode_named.
    intros [(-> & -> & Ea)|[Hi Ha]] [(-> & -> & Eb)|[Hj Hb]]; [done| | |by eapply I3].
    + exfalso. apply (Hn j b). congruence.
    + exfalso. apply (Hn i a). congruence.
  - intros k h (y & Hy & Hm)%I5. eauto.
  - intros i d' (y & Hy)%I7. exists y. by apply Hmono.
  - intros i y. change (data_of (put_inode x v) i) with (data_of v i). cbn.
    rewrite lookup_insert. case_decide as Hi; [|apply I8]. intros [= <-]. subst i. by rewrite Hd.
  - intros i y Hy Hdir. unfold dir_ok.
    change (data_of (put_inode x v) (ri_inum y)) with (data_of v (ri_inum y)).
    cbn in Hy. rewrite lookup_insert in Hy. case_decide as Hi.
    + simplify_eq. exists []. split_and!; [done|constructor|]. intros b Hb. inversion Hb.
    + destruct (I11 i y Hy Hdir) as (bases & Hb1 & Hb2 & Hb3). exists bases. split_and!; [done|done|].
      intros b (m & j & z & [Hz1 Hz2] & Hc)%Hb3. exists m, j, z. split; [|done]. split; [by apply Hmono|done].
  - destruct I12 as (i & y & [Hy Hyk] & Hdir). exists i, y. split; [|done]. split; [by apply Hmono|done].
Qed.

(** Removing an inode that no directory lists, with its data and handles. *)
Lemma inv_del_inode (v : dbview) (x : raw_inode) : db_inv v ->
  v_inodes v !! ri_inum x = Some x -> ri_name x <> [slash] ->
  (forall i y bases b, v_inodes v !! i = Some y -> is_dir y = true -> data_of v i = enc_dir bases ->
     Forall name_fits bases -> b ∈ bases -> ~ child_of (ri_name x) (ri_name y) b) ->
  db_inv (upd_handles (filter (fun kh => handle_idx_key kh.2 <> ri_inum x))
           (upd_data (delete (ri_inum x)) (upd_inodes (delete (ri_inum x)) v))).
Proof.
  intros Hinv Hx Hr Hb. pose proof (bases_fit v) as Hfit.
  pose proof Hinv as [I1 I2 I3 I4 I5 I6 I7 I8 I9 I10 I11 I12].
  set (v' := upd_handles _ _).
  assert (forall i y, v_inodes v' !! i = Some y -> v_inodes v !! i = Some y /\ i <> ri_inum x) as Hdel.
  { intros i y Hy. cbn in Hy. apply lookup_delete_Some in Hy as [Hi Hy]. done. }
  assert (forall m i y, inode_named v m i y -> i <> ri_inum x -> inode_named v' m i y) as Hnamed.
  { intros m i y [Hy Hk] Hi. split; [cbn; by rewrite lookup_delete_ne|done]. }
  assert (forall i, i <> ri_inum x -> data_of v' i = data_of v i) as Hdata.
  { intros i Hi. unfold data_of. cbn. by rewrite lookup_delete_ne. }
  split; try done.
  - intros i y [Hy _]%Hdel. by apply I2.
  - intros m i a j b [[Ha _]%Hdel Ka] [[Hb' _]%Hdel Kb]. by eapply (I3 m i a j b).
  - intros k h Hh. cbn in Hh. apply map_lookup_filter_Some in Hh as [Hh _]. by apply I4.
  - intros k h Hh. cbn in Hh. apply map_lookup_filter_Some in Hh as [Hh Hne]. destruct (I5 k h Hh) as (y & Hy & E). exists y.
    split; [|done]. cbn. by rewrite lookup_delete_ne.
  - intros k h Hh. cbn in Hh. apply map_lookup_filter_Some in Hh as [Hh _]. by eapply I6.
  - intros i d Hd. cbn in Hd. apply lookup_delete_Some in Hd as [Hi Hd]. destruct (I7 i d Hd) as [y Hy]. exists y. cbn.
    by rewrite lookup_delete_ne.
  - intros i y [Hy Hi]%Hdel. rewrite Hdata by done. by apply I8.
  - intros i y [Hy Hi]%Hdel Hd. destruct (I2 i y Hy) as [Ei _].
    destruct (I11 i y Hy Hd) as (bases & Hb1 & Hb2 & Hb3). exists bases.
    rewrite Hdata by congruence. split_and!; [done|done|].
    intros b Hin. destruct (Hb3 b Hin) as (m & j & z & Hz & Hc). exists m, j, z. split; [|done].
    apply Hnamed; [done|]. intros ->. destruct (inv_named v m _ z Hinv Hz) as (Hz1 & Ez & Em).
    assert (z = x) as -> by congruence. subst m. eapply (Hb i y bases b); eauto; congruence.
  - destruct I12 as (i & y & Hy & Hd). exists i, y. split; [|done]. apply Hnamed; [done|]. intros ->.
    destruct (inv_named v _ _ y Hinv Hy) as (Hy1 & Ey & En). congruence.
Qed.

(** ** Transitions *)

(** Directory data stay below what [dirent_find]'s [int] offsets can address. *)
Definition small_data (v : dbview) : Prop :=
  forall i d, v_data v !! i = Some d -> Z.of_nat (length d) < 2 ^ 31.

Lemma new_lock_kind (now sid fh inum : Z) (want pending : bool) :
  acquired (new_lock now sid fh inum want pending) = negb pending /\
  shared (new_lock now sid fh inum want pending) = want.
Proof. by destruct want, pending. Qed.

Lemma new_lock_compat (now sid fh inum : Z) (want : bool) (ls : list raw_lock) :
  Forall (compat (new_lock now sid fh inum want (existsb (blocks want) ls))) ls.
Proof.
  apply Forall_forall. intros l Hl. unfold compat.
  destruct (new_lock_kind now sid fh inum want (existsb (blocks want) ls)) as [-> ->].
  intros Hn Ha. apply negb_true_iff in Hn. assert (blocks want l = false) as Hb.
  { destruct (blocks want l) eqn:E; [|done]. rewrite (proj2 (existsb_exists _ _)) in Hn; [done|].
    exists l. split; [by apply list_elem_of_In|done]. }
  unfold blocks in Hb. rewrite Ha in Hb. destruct want, (shared l); simpl in Hb; try done.
Qed.

Lemma locks_of_insert (v : dbview) (i j : Z) (ls : list raw_lock) :
  locks_of (upd_locks (insert i ls) v) j = if decide (i = j) then ls else locks_of v j.
Proof. unfold locks_of. cbn. rewrite lookup_insert. by case_decide. Qed.

Lemma inv_insert_locks (v : dbview) (i : Z) (ls : list raw_lock) : db_inv v ->
  Forall (fun l => rl_inum l = i) ls -> excl_ok ls -> db_inv (upd_locks (insert i ls) v).
Proof.
  intros Hinv Hk He. apply (inv_locks v); [done|done|]. intros j. rewrite locks_of_insert.
  case_decide; [by subst|]. split; [by apply (di_lkey v)|by apply (di_excl v)].
Qed.

Lemma inv_lock_added (v v' : dbview) (now sid fh inum : Z) (want : bool) : db_inv v ->
  lock_added (new_lock now sid fh inum want (existsb (blocks want) (locks_of v inum))) v v' ->
  db_inv v'.
Proof.
  intros Hinv (l1 & old & l2 & Hl & _ & ->).
  change (rl_inum (new_lock _ _ _ _ _ _)) with inum in *.
  pose proof (new_lock_compat now sid fh inum want (locks_of v inum)) as Hc.
  pose proof (di_lkey v Hinv inum) as Hk. pose proof (di_excl v Hinv inum) as He.
  set (x := new_lock _ _ _ _ _ _) in *. rewrite Hl in *.
  assert (sublist (l1 ++ l2) (l1 ++ old ++ l2)) as Hs.
  { apply sublist_app; [done|]. by apply sublist_inserts_l. }
  apply inv_insert_locks; [done| |].
  - rewrite !Forall_app in Hk. rewrite Forall_app, Forall_cons. naive_solver.
  - apply excl_ok_insert; [by eapply excl_ok_sublist|].
    rewrite !Forall_app in *. naive_solver.
Qed.

Lemma inv_unlink (now : Z) (v : dbview) (name pd pd' : bytes) (i j : Z) (parent ino : raw_inode) :
  db_inv v -> small_data v ->
  valid_inode_name (Some name) (length name) = true -> (2 <= length name)%nat ->
  inode_named v (pi_dir (pathname_parse name)) i parent ->
  v_data v !! ri_inum parent = Some pd -> inode_named v name j ino ->
  dirdata_delete pd (pi_base (pathname_parse name)) = (true, pd') ->
  db_inv (write_inode now parent pd'
        (upd_handles (filter (fun kh => handle_idx_key kh.2 <> ri_inum ino))
          (upd_data (delete (ri_inum ino)) (upd_inodes (delete (ri_inum ino)) v)))).
Proof.
  intros Hinv Hsm Hv H2 Hpar Hpd Hino Hdel.
  destruct (inv_named v _ _ _ Hinv Hpar) as (Hp & -> & En).
  destruct (inv_named v _ _ _ Hinv Hino) as (Hx & -> & Em).
  pose proof (pathname_parse_length name Hv H2) as [Hlen _].
  assert (ri_inum parent <> ri_inum ino) as Hne.
  { intros E. assert (parent = ino) as -> by congruence. rewrite <- En, Em in Hlen. lia. }
  assert (data_of v (ri_inum parent) = pd) as Hpd' by (unfold data_of; by rewrite Hpd).
  (* the directory without the entry *)
  assert (is_dir parent = true -> exists bases, pd = enc_dir bases /\ Forall name_fits bases /\
     pd' = enc_dir (remove_first (pi_base (pathname_parse name)) bases) /\ NoDup bases /\
     forall b, b ∈ bases -> exists m i x, inode_named v m i x /\ child_of m (ri_name parent) b) as Hdir.
  { intros Hd. destruct (di_dirs v Hinv _ _ Hp Hd) as (bases & Hb1 & Hb2 & Hb3). exists bases.
    pose proof (bases_fit v _ _ Hinv Hb3) as Hfit. rewrite Hpd' in Hb1. rewrite Hb1 in Hdel, Hpd.
    rewrite dirdata_delete_enc in Hdel; [|done|by eapply Hsm]. injection Hdel as _ <-. by split_and!. }
  replace (write_inode _ _ _ _) with
    (upd_handles (filter (fun kh => handle_idx_key kh.2 <> ri_inum ino))
      (upd_data (delete (ri_inum ino)) (upd_inodes (delete (ri_inum ino)) (write_inode now parent pd' v)))).
  2:{ unfold write_inode, put_inode, put_data, upd_inodes, upd_data, upd_handles. cbn.
      by rewrite !delete_insert_ne by done. }
  assert (db_inv (write_inode now parent pd' v)) as Hw.
  { apply inv_write; [done|done|]. intros Hd. destruct (Hdir Hd) as (bases & -> & Hf & -> & Hnd & Hc).
    eexists. split_and!; [done| |].
    - eapply sublist_NoDup; [done|apply remove_first_sublist].
    - intros b Hb. apply Hc. by eapply sublist_elem; [apply remove_first_sublist|]. }
  set (w := write_inode now parent pd' v) in *.
  assert (v_inodes w !! ri_inum ino = Some ino) as Hxw by (cbn; by rewrite lookup_insert_ne).
  apply inv_del_inode; [done|done| |].
  { rewrite Em. intros ->. simpl in H2. lia. }
  intros k y bases b Hy Hyd Hyb Hfit Hb [_ Hc]. rewrite Em in Hc.
  destruct (write_lookup now v parent pd' Hp k y Hy) as (z & Hz & Ez1 & Ez2 & _ & Ez4 & _).
  destruct (di_ino v Hinv k z Hz) as (Ek & Hkey & _).
  assert (inode_named v (pi_dir (pathname_parse name)) k z) as Hzn.
  { split; [done|]. rewrite Hkey, <- Ez2, Hc. done. }
  assert (k = ri_inum parent) as -> by by eapply (di_names v Hinv).
  assert (z = parent) as -> by congruence.
  destruct (Hdir ltac:(congruence)) as (bs & -> & Hf & -> & Hnd & Hcs).
  unfold w in Hyb. change (data_of (write_inode ?n ?p ?d v) ?k) with (data_of (put_data (ri_inum p) d v) k) in Hyb.
  rewrite data_of_put, decide_True in Hyb by done.
  apply enc_dir_inj in Hyb; [|by eapply sublist_Forall; [apply remove_first_sublist|]|done].
  subst bases. rewrite Hc in Hb. cbn [pi_base] in Hb.
  clear -Hnd Hb. induction Hnd as [|a l Ha Hl IH]; simpl in Hb; [by inversion Hb|].
  case_decide; [by subst|]. apply elem_of_cons in Hb as [->|Hb]; [done|by apply IH].
Qed.

Lemma inv_create (now sid fh n i : Z) (o : cld_msg_open) (v : dbview) (parent : raw_inode) (raw : raw_session) :
  db_inv v ->
  valid_inode_name (Some (mo_inode_name o)) (length (mo_inode_name o)) = true ->
  (2 <= length (mo_inode_name o))%nat ->
  Z.of_nat (length (mo_inode_name o)) <= CLD_INODE_NAME_MAX ->
  (forall j ino, ~ inode_named v (mo_inode_name o) j ino) ->
  inode_named v (pi_dir (pathname_parse (mo_inode_name o))) i parent ->
  v_inodes v !! n = None -> rs_sid raw = sid -> 0 <= sid < 2 ^ 64 ->
  db_inv (put_sess raw (put_inode (new_inode now o n) (put_handle (open_handle sid fh o n)
        (write_inode now parent
           (data_of v (ri_inum parent) ++ enc_ent (pi_base (pathname_parse (mo_inode_name o)))) v)))).
Proof.
  intros Hinv Hv H2 Hl Hfree Hpar Hn Hsid Hr.
  set (base := pi_base (pathname_parse (mo_inode_name o))).
  destruct (inv_named v _ _ _ Hinv Hpar) as (Hp & -> & En).
  assert (ri_inum parent <> n) as Hne by congruence.
  set (x := new_inode now o n). set (d := data_of v (ri_inum parent) ++ enc_ent base).
  replace (put_sess raw _) with
    (put_handle (open_handle sid fh o n) (put_sess raw (write_inode now parent d (put_inode x v)))).
  2:{ unfold put_sess, put_handle, write_inode, put_inode, put_data, upd_inodes, upd_data, upd_handles,
        upd_sessions. cbn. by rewrite insert_insert_ne by done. }
  assert (inode_name_key x = Some (ri_name x)) as Hk.
  { unfold inode_name_key. cbn. unfold u32. rewrite uw_small, Z.eqb_refl; [done|].
    unfold CLD_INODE_NAME_MAX in Hl. lia. }
  assert (db_inv (put_inode x v)) as Hx by by apply inv_new_inode.
  assert (is_dir x = flag (mo_mode o) COM_DIRECTORY) as Hxd.
  { unfold is_dir, x, new_inode. cbn. by destruct (flag (mo_mode o) COM_DIRECTORY). }
  assert (db_inv (write_inode now parent d (put_inode x v))) as Hw.
  { apply inv_write; [done|cbn; by rewrite lookup_insert_ne|]. intros Hd.
    destruct (di_dirs v Hinv _ _ Hp Hd) as (bases & Hb1 & Hb2 & Hb3). exists (bases ++ [base]). split_and!.
    - unfold d. rewrite Hb1, enc_dir_app. f_equal. unfold enc_dir. cbn [fmap list_fmap concat].
      by rewrite app_nil_r.
    - apply NoDup_app. split_and!; [done| |by apply NoDup_singleton].
      intros b Hb ->%list_elem_of_singleton. destruct (Hb3 base Hb) as (m & j & y & Hy & Hm2 & Hc).
      destruct (inv_valid v m j y Hinv Hy) as [Hvm _].
      assert (m = mo_inode_name o) as ->; [|by eapply Hfree].
      apply pathname_parse_inj; try done. rewrite Hc, En. by destruct (pathname_parse (mo_inode_name o)).
    - intros b [Hb| ->%list_elem_of_singleton]%elem_of_app.
      + destruct (Hb3 b Hb) as (m & j & y & Hy & Hc). exists m, j, y. split; [|done].
        apply put_inode_named. right. split; [|done]. destruct Hy as [Hy _]. cbn. congruence.
      + exists (mo_inode_name o), n, x. split; [apply put_inode_named; by left|].
        split; [done|]. rewrite En. by destruct (pathname_parse (mo_inode_name o)). }
  eapply (inv_put_handle _ _ x).
  - apply inv_put_sess; [done|by rewrite Hsid].
  - cbn. rewrite lookup_insert_ne by done. by rewrite lookup_insert_eq.
  - cbn [rh_mode open_handle]. rewrite Hxd. by apply flag_u32.
  - cbn. rewrite Hsid, lookup_insert_eq. done.
Qed.

Lemma inv_remove (sid : Z) (v v' : dbview) : db_inv v ->
  v_inodes v' = v_inodes v -> v_data v' = v_data v ->
  (forall k h, v_handles v' !! k = Some h -> v_handles v !! k = Some h) ->
  (forall i, locks_of v' i = locks_of v i \/
             locks_of v' i = filter (fun l => rl_sid l <> sid) (locks_of v i)) ->
  (v_sessions v' = v_sessions v \/
   v_sessions v' = delete sid (v_sessions v) /\
   forall k h, v_handles v' !! k = Some h -> rh_sid h <> sid) ->
  db_inv v'.
Proof.
  intros Hinv Ei Ed Hh Hl Hs.
  assert (db_inv (upd_handles (fun _ => v_handles v') v)) as H1 by by apply inv_sub_handles.
  assert (db_inv (upd_sessions (fun _ => v_sessions v') (upd_handles (fun _ => v_handles v') v))) as H2.
  { destruct Hs as [->|[-> Hgone]]; [by destruct v|].
    destruct H1 as [I1 I2 I3 I4 I5 I6 I7 I8 I9 I10 I11 I12]. split; try done.
    - intros k r Hr. cbn in Hr. apply lookup_delete_Some in Hr as [_ Hr]. by apply I1.
    - intros k h Hk. cbn in *. rewrite lookup_delete_ne; [by eapply I6|]. by apply not_eq_sym, (Hgone k). }
  eapply inv_locks; [exact H2|by split_and!|]. intros i.
  pose proof (di_lkey v Hinv i). pose proof (di_excl v Hinv i).
  destruct (Hl i) as [->| ->]; [done|]. split; [by eapply sublist_Forall; [apply sublist_filter|]|].
  by eapply excl_ok_sublist; [apply sublist_filter|].
Qed.

(** Every transition of the abstract service preserves the invariant. *)
Lemma astep_inv (now : Z) (a : alabel) (v v' : dbview) :
  db_inv v -> small_data v -> astep now a v v' -> db_inv v'.
Proof.
  intros Hinv Hsm Hst. destruct Hst as
    [sid o fh v i ino raw Hv Hn Hex Hd Hs Hr _ | sid o fh v i parent n raw Hv H2 Hl _ Hf Hp Hn _ Hs Hr _ |
     sid put v h ino Hh _ Hd Hi Hk | sid fh v v' h Hh Hsame Hlocks |
     name v i parent j ino pd pd' Hv H2 Hp Hpd Hi _ Hdel | sid fh v h l1 lock l2 _ _ Hl _ _ _ |
     sid fh want wait v v' h pending _ _ -> _ Hadd | sid v raw Hfree Hs Hr |
     sid v v' Ei Ed Hh1 Hh2 Hl Hs].
  - destruct (inv_named v _ _ _ Hinv Hn) as (Hx & -> & _).
    change (db_inv (put_handle (open_handle sid fh o (ri_inum ino)) (put_sess raw v))).
    eapply (inv_put_handle _ _ ino); [apply inv_put_sess; [done|by rewrite Hs]|done| |].
    + cbn [rh_mode open_handle]. rewrite flag_u32 by done. done.
    + cbn. rewrite Hs, lookup_insert_eq. done.
  - by eapply inv_create.
  - apply inv_write; [done|congruence|]. destruct (di_href v Hinv _ _ Hh) as (y & Hy & Hm).
    assert (y = ino) as -> by congruence. congruence.
  - eapply inv_locks; [|done|].
    { apply inv_sub_handles; [done|]. intros k h' Hk%lookup_delete_Some. by destruct Hk. }
    intros i. rewrite Hlocks. pose proof (di_lkey v Hinv i). pose proof (di_excl v Hinv i).
    case_decide; [|done]. split; [by eapply sublist_Forall; [apply sublist_filter|]|].
    by eapply excl_ok_sublist; [apply sublist_filter|].
  - by eapply inv_unlink.
  - apply inv_insert_locks; [done|..].
    + pose proof (di_lkey v Hinv (rh_inum h)) as Hk. rewrite Hl, Forall_app, Forall_cons in Hk.
      rewrite Forall_app. naive_solver.
    + eapply excl_ok_sublist; [|apply (di_excl v Hinv (rh_inum h))]. rewrite Hl.
      apply sublist_app; [done|by apply sublist_cons].
  - by eapply inv_lock_added.
  - apply inv_put_sess; [done|by rewrite Hs].
  - by eapply inv_remove.
Qed.

(** A database that holds the root directory only. *)
Lemma inv_root (ino : raw_inode) :
  ri_name ino = [slash] -> ri_ino_len ino = 1 -> ri_size ino = 0 -> is_dir ino = true ->
  db_inv (put_inode ino empty_view).
Proof.
  intros Hn Hl Hs Hd.
  assert (inode_name_key ino = Some (ri_name ino)) as Hk by (unfold inode_name_key; by rewrite Hn, Hl).
  assert (forall i x, v_inodes (put_inode ino empty_view) !! i = Some x -> i = ri_inum ino /\ x = ino) as Hone.
  { intros i x. cbn. by intros [[<- <-]|[_ ?]]%lookup_insert_Some. }
  split; try done.
  - intros i x [-> ->]%Hone. rewrite Hk, Hn. by split_and!.
  - intros m i x j y [[-> _]%Hone _] [[-> _]%Hone _]. done.
  - intros i x [-> ->]%Hone. by rewrite Hs.
  - intros i x [-> ->]%Hone _. exists []. split_and!; [done|constructor|]. intros b Hb. inversion Hb.
  - exists (ri_inum ino), ino. split; [|done]. split; [cbn; by rewrite lookup_insert_eq|by rewrite Hk, Hn].
Qed.
