(* ===== verification/MsgSpec.v ===== *)
(** * MsgSpec: the handlers implement the abstract service

    For each handler body: if it does not jump to [err_out], the contents of
    the database changed by one transition of Abs; [run_txn] turns that into
    "one transition or nothing", whatever the database, the allocator and the
    network do. *)

From S2P Require Import Prelude Htab Dirent Wire Bdb Srv Cldb Outq Msg Logic OutqSpec Abs Inv.
#[local] Open Scope Z_scope.

(** ** Database calls that return *)

Lemma dbstep_Err {A} (q : dbreq A) (v v' : dbview) (e : Z) : dbstep q v (Err e) v' -> v' = v /\ e <> 0.
Proof.
  intros [(e' & [= ->] & H0 & _ & _ & ->)|Hd]; [done|].
  destruct q; cbn in Hd; unfold lookup_res in Hd;
    repeat match goal with
    | H : _ /\ _ |- _ => destruct H
    | H : _ \/ _ |- _ => destruct H
    | H : exists _, _ |- _ => destruct H
    | H : context [match ?x with _ => _ end] |- _ => destruct x
    | H : Err _ = Ok _ |- _ => discriminate H
    | H : Err _ = Err _ |- _ => injection H as ->
    end; subst; try done.
Qed.

Lemma dbstep_Ok {A} (q : dbreq A) (v v' : dbview) (a : A) : dbstep q v (Ok a) v' -> dbdoc q v (Ok a) v'.
Proof. by intros [(e' & [=] & _)|Hd]. Qed.

(** Requests that only read. *)
Definition read_only {A} (q : dbreq A) : Prop := forall v r v', dbstep q v r v' -> v' = v.

Ltac solve_read_only :=
  let v := fresh in let r := fresh in let v' := fresh in
  intros v r v'; destruct r; [intros Hd%dbstep_Ok; cbn in Hd; naive_solver|by intros [-> _]%dbstep_Err].

Lemma ro_CurGet : read_only CurGet. Proof. solve_read_only. Qed.
Lemma ro_CurClose : read_only CurClose. Proof. solve_read_only. Qed.
Lemma ro_LockScan (i : Z) : read_only (LockScan i). Proof. solve_read_only. Qed.
Lemma ro_HandleIdxScan (i : Z) : read_only (HandleIdxScan i). Proof. solve_read_only. Qed.
Lemma ro_HandleRange (i : Z) : read_only (HandleRange i). Proof. solve_read_only. Qed.
Lemma ro_SessScan : read_only SessScan. Proof. solve_read_only. Qed.
Lemma ro_InodeGet (i : Z) : read_only (InodeGet i). Proof. solve_read_only. Qed.
Lemma ro_NameGet (n : bytes) : read_only (NameGet n). Proof. solve_read_only. Qed.
Lemma ro_DataGet (i : Z) : read_only (DataGet i). Proof. solve_read_only. Qed.
Lemma ro_HandleGet (sid fh : Z) : read_only (HandleGet sid fh). Proof. solve_read_only. Qed.
Lemma ro_SessGet (sid : Z) : read_only (SessGet sid). Proof. solve_read_only. Qed.
(** Putting a record back as it was read. *)
Lemma ro_LockCurPut (l : raw_lock) : read_only (LockCurPut l l).
Proof.
  intros v r v'; destruct r; [|by intros [-> _]%dbstep_Err]. intros Hd%dbstep_Ok. cbn in Hd.
  case_match eqn:E; [|by destruct Hd]. destruct Hd as [_ ->]. simplify_bool.
  rewrite replace_first_same. unfold upd_locks, locks_of. destruct v as [v1 v2 v3 v4 ls]; cbn. f_equal.
  apply bool_decide_eq_true in H. unfold locks_of in H. cbn in H.
  apply insert_id. destruct (ls !! rl_inum l); [done|]. by inversion H.
Qed.

#[export] Hint Resolve ro_CurGet ro_CurClose ro_LockScan ro_HandleIdxScan ro_HandleRange ro_SessScan
  ro_InodeGet ro_NameGet ro_DataGet ro_HandleGet ro_SessGet ro_LockCurPut : cld.

Section still.
Context {D : Type} `{!Bdb D, !BdbOk D}.
Implicit Types s : srv D.

(** Inside the transaction, contents unchanged. *)
Definition still s s' : Prop := (calm s s' /\ fh_same s s') /\ vw s' = vw s.

#[export] Instance still_pre : PreOrder still.
Proof.
  split; [by split|]. intros s1 s2 s3 [[H1 F1] E1] [[H2 F2] E2].
  split; [split; [by etrans|unfold fh_same in *; congruence]|congruence].
Qed.

Lemma still_calm s s' : still s s' -> calm s s'.
Proof. by intros [[? _] _]. Qed.

Lemma still_intro s s' : calm s s' -> heap s' = heap s -> vw s' = vw s -> still s s'.
Proof. intros Hc Hh Hv. split; [split; [done|by unfold fh_same; rewrite Hh]|done]. Qed.

Definition is_still {A} (m : M D A) : Prop := forall s, still s (m s).2.

Lemma quiet_still s s' : quiet s s' -> still s s'.
Proof. intros Hq. split; [split; [by apply quiet_calm|apply Hq]|by apply quiet_vw]. Qed.

Lemma still_quiet {A} (m : M D A) : is_quiet m -> is_still m.
Proof. intros Hm s. apply quiet_still, Hm. Qed.

Lemma still_bind {A B} (m : M D A) (k : A -> M D B) :
  is_still m -> (forall a, is_still (k a)) -> is_still (bind m k).
Proof.
  intros Hm Hk s. unfold bind. specialize (Hm s). destruct (m s) as [a s1].
  etrans; [apply Hm|apply Hk].
Qed.

Lemma still_dbcall {A} (q : dbreq A) : read_only q -> is_still (dbcall q).
Proof.
  intros Hq. intros s. apply (wp_dbcall q (fun _ s' => still s s') s).
  intros r s' Hc Hh Hd. apply still_intro; [done|done|]. by apply (Hq _ r).
Qed.

Lemma wp_still {A} (m : M D A) (Q : A -> srv D -> Prop) s :
  is_still m -> (forall a s', still s s' -> Q a s') -> wp m Q s.
Proof. intros Hm HQ. apply HQ, Hm. Qed.

Lemma calm_core s s' (p : nat) : calm s s' -> core (heap s' !!! p) = core (heap s !!! p).
Proof. intros [Hc _]. by apply core_lookup. Qed.

Lemma calm_sid s s' (p : nat) : calm s s' -> s_sid (heap s' !!! p) = s_sid (heap s !!! p).
Proof. intros Hc. exact (f_equal s_sid (calm_core s s' p Hc)). Qed.

Lemma calm_time s s' : calm s s' -> current_time s' = current_time s.
Proof. intros [Hc _]. by apply ce_time. Qed.

End still.

Ltac still_step :=
  match goal with
  | |- forall _, _ => intro
  | |- is_still (bind _ _) => apply still_bind
  | |- is_still (if ?b then _ else _) => destruct b
  | |- is_still (match ?x with _ => _ end) => destruct x
  | |- is_still (dbcall _) => apply still_dbcall; solve [auto with cld]
  | |- is_still _ => solve [auto with cld | apply still_quiet; auto with cld]
  end.
Ltac solve_still := repeat still_step.

Section notify.
Context {D : Type} `{!Bdb D, !BdbOk D, !XdrLib, !HmacLib}.

Lemma still_notify_loop (deleted : bool) (hs : list raw_handle) : is_still (@notify_loop D _ _ _ deleted hs).
Proof. induction hs; cbn [notify_loop]; solve_still. Qed.

Lemma still_inode_notify (inum : Z) (deleted : bool) : is_still (@inode_notify D _ _ _ inum deleted).
Proof. unfold inode_notify. solve_still. apply still_notify_loop. Qed.

(** The rescan sends its events, and leaves every lock as it was. *)
Lemma still_rescan_loop (acq : Z) (ls : list raw_lock) : is_still (@rescan_loop D _ _ _ acq ls).
Proof. revert acq. induction ls; intros acq; cbn [rescan_loop]; solve_still. Qed.

Lemma still_lock_rescan (inum : Z) : is_still (@inode_lock_rescan D _ _ _ inum).
Proof. unfold inode_lock_rescan. solve_still. apply still_rescan_loop. Qed.

Lemma still_lock_find_loop (want : bool) (ls : list raw_lock) : is_still (@lock_find_loop D _ want ls).
Proof. induction ls; cbn [lock_find_loop]; solve_still. Qed.

End notify.
#[export] Hint Resolve still_notify_loop still_inode_notify still_rescan_loop still_lock_rescan
  still_lock_find_loop : cld.

(** ** Handler bodies *)

Section tspec.
Context {D : Type} `{!Bdb D, !BdbOk D}.
Implicit Types s : srv D.

(** The body stays inside its transaction and, when it succeeds, [Q] holds. *)
Definition tspec {A} (m : M D (cle_err + A)) (Q : A -> srv D -> Prop) s : Prop :=
  wp m (fun r s' => calm s s' /\ match r with inl _ => True | inr a => Q a s' end) s.

Lemma tspec_fail {A} (e : cle_err) (Q : A -> srv D -> Prop) s : tspec (fail e) Q s.
Proof. by apply wp_ret. Qed.

Lemma tspec_ret {A} (a : A) (Q : A -> srv D -> Prop) s : Q a s -> tspec (ret (inr a)) Q s.
Proof. intros HQ. by apply wp_ret. Qed.

Lemma tspec_bind {A B} (m : M D B) (k : B -> M D (cle_err + A)) (Q : A -> srv D -> Prop) s :
  wp m (fun b s' => calm s s' /\ tspec (k b) Q s') s -> tspec (bind m k) Q s.
Proof.
  unfold tspec. intros Hm. apply wp_bind. eapply wp_mono; [exact Hm|]. intros b s1 [H1 Hk].
  eapply wp_mono; [exact Hk|]. intros r s2 [H2 HQ]. split; [by etrans|done].
Qed.

Lemma tspec_ebind {A B} (m : M D (cle_err + B)) (k : B -> M D (cle_err + A)) (Q : A -> srv D -> Prop) s :
  tspec m (fun b s' => calm s s' -> tspec (k b) Q s') s -> tspec (ebind m k) Q s.
Proof.
  intros Hm. apply tspec_bind. unfold tspec in Hm. eapply wp_mono; [exact Hm|]. intros [e|b] s1 [H1 Hk]; (split; [done|]).
  - apply tspec_fail.
  - by apply Hk.
Qed.

Lemma tspec_mono {A} (m : M D (cle_err + A)) (Q R : A -> srv D -> Prop) s :
  tspec m Q s -> (forall a s', calm s s' -> Q a s' -> R a s') -> tspec m R s.
Proof.
  unfold tspec. intros Hm HQ. eapply wp_mono; [exact Hm|]. intros r s' [Hc Hr]. split; [done|].
  destruct r; auto.
Qed.

Lemma tspec_get_sess {A} (p : nat) (k : session -> M D (cle_err + A)) (Q : A -> srv D -> Prop) s :
  tspec (k (heap s !!! p)) Q s -> tspec (bind (get_sess p) k) Q s.
Proof. intros Hk. apply tspec_bind, wp_get_sess. by split. Qed.

Lemma tspec_still {A B} (m : M D B) (k : B -> M D (cle_err + A)) (Q : A -> srv D -> Prop) s :
  is_still m -> (forall b s', still s s' -> tspec (k b) Q s') -> tspec (bind m k) Q s.
Proof.
  intros Hm Hk. apply tspec_bind, wp_still; [done|]. intros b s' Hs. split; [by apply still_calm|by apply Hk].
Qed.

Lemma tspec_lift {A} (m : M D A) (Q : A -> srv D -> Prop) s :
  is_still m -> (forall a s', still s s' -> Q a s') -> tspec (lift m) Q s.
Proof.
  intros Hm HQ. apply tspec_still; [done|]. intros b s' Hs. by apply tspec_ret, HQ.
Qed.

Lemma tspec_or_fail {A} (q : dbreq A) (f : Z -> cle_err) (Q : A -> srv D -> Prop) s :
  (forall a s', calm s s' -> heap s' = heap s -> dbdoc q (vw s) (Ok a) (vw s') -> Q a s') ->
  tspec (or_fail (dbcall q) f) Q s.
Proof.
  intros HQ. apply tspec_bind, wp_dbcall. intros r s' Hc Hh Hd. split; [done|].
  destruct r as [a|e]; [|apply tspec_fail]. apply tspec_ret, HQ; [done|done|by apply dbstep_Ok].
Qed.

(** The same for the accessors that return the [int]. *)
Lemma tspec_rc_dbcall {A} (q : dbreq A) (e : cle_err) (Q : unit -> srv D -> Prop) s :
  (forall a s', calm s s' -> heap s' = heap s -> dbdoc q (vw s) (Ok a) (vw s') -> Q tt s') ->
  tspec (rc_or_fail (bind (dbcall q) (fun r => ret (rc_of r))) e) Q s.
Proof.
  intros HQ. apply tspec_bind, wp_bind, wp_dbcall. intros r s' Hc Hh Hd. apply wp_ret. split; [done|].
  destruct r as [a|e']; cbn [rc_of].
  - apply tspec_ret, (HQ a); [done|done|by apply dbstep_Ok].
  - apply dbstep_Err in Hd as [_ Hne]. rewrite (proj2 (Z.eqb_neq _ _)) by done. apply tspec_fail.
Qed.

Lemma tspec_malloc {A} (k : bool -> M D (cle_err + A)) (Q : A -> srv D -> Prop) s :
  (forall b s', quiet s s' -> heap s' = heap s -> tspec (k b) Q s') -> tspec (bind malloc_ok k) Q s.
Proof.
  intros Hk. apply tspec_bind, wp_malloc_ok. intros b s' Hq Hh _ _. split; [by apply quiet_calm|by apply Hk].
Qed.

(** ** Transactions *)

(** A transaction does what its body does, or nothing. *)
Lemma run_txn_spec {A} (body : M D (cle_err + A)) (Q : A -> srv D -> Prop) s :
  (forall s1, calm_env s s1 -> heap s1 = heap s -> vw s1 = vw s -> tspec body Q s1) ->
  (forall a s1 s2, Q a s1 -> calm_env s1 s2 -> vw s2 = vw s1 -> Q a s2) ->
  wp (run_txn body) (fun r s' => calm_env s s' /\
    match r with inl _ => vw s' = vw s | inr a => Q a s' end) s.
Proof.
  unfold tspec. intros Hb HQ. unfold run_txn. apply wp_bind, wp_txn_begin. intros rc s1 H1 Hh1 Hv1 Hs1.
  destruct (Z.eqb_spec rc 0) as [->|Hrc]; cbn [negb]; [|by apply wp_ret].
  apply wp_bind. eapply wp_mono; [by apply Hb|]. intros r s2 [[H2 Hsv2] Hr].
  assert (calm_env s s2) as H12 by by etrans. destruct r as [e|a].
  - apply wp_bind, wp_txn_abort. intros rc s3 H3 _ Hv3. apply wp_ret. split; [by etrans|].
    rewrite Hv3, Hsv2. by apply Hs1.
  - apply wp_bind, wp_txn_commit. intros rc s3 H3 _ Hv3.
    destruct (Z.eqb_spec rc 0) as [->|Hrc]; cbn [negb]; apply wp_ret; (split; [by etrans|]).
    + by eapply HQ.
    + rewrite Hv3, Hsv2. by apply Hs1.
Qed.

End tspec.

Section handlers.
Context {D : Type} `{!Bdb D, !BdbOk D, !XdrLib, !HmacLib}.
Implicit Types s : srv D.

Lemma inode_put_Ok (ino : raw_inode) (v v' : dbview) (a : unit) :
  dbdoc (InodePut ino) v (Ok a) v' -> v' = put_inode ino v.
Proof. cbn. naive_solver. Qed.

Lemma lock_put_added (lock : raw_lock) (v v' : dbview) (a : unit) :
  dbdoc (LockPut lock) v (Ok a) v' -> lock_added lock v v'.
Proof.
  intros [(l1 & l2 & E & _ & _ & -> & _)|(l1 & e & l2 & E & Hc & [[? _]|[_ ->]])]; [| done |].
  - exists l1, [], l2. by split_and!; [|left|].
  - exists l1, [e], l2. split_and!; [done|right; eauto|done].
Qed.

Lemma inode_touch_spec (ino : raw_inode) (e : cle_err) (Q : unit -> srv D -> Prop) s :
  (forall s', calm s s' -> fh_same s s' ->
     vw s' = put_inode (touched (current_time s) ino) (vw s) -> Q tt s') ->
  tspec (rc_or_fail (inode_touch ino) e) Q s.
Proof.
  intros HQ. apply tspec_bind. unfold inode_touch. apply wp_bind, wp_get. cbv zeta.
  apply wp_bind. unfold cldb_inode_put. apply wp_bind, wp_dbcall. intros r s1 H1 Hh1 Hd. apply wp_ret.
  destruct r as [a|e1]; cbn [rc_of Z.eqb negb].
  2:{ apply dbstep_Err in Hd as [_ He1]. rewrite (proj2 (Z.eqb_neq _ _)) by done. cbn [negb].
      apply wp_ret. split; [done|]. rewrite (proj2 (Z.eqb_neq _ _)) by done. apply tspec_fail. }
  apply wp_bind, wp_still; [auto with cld|]. intros rc s2 [[H2 F2] V2].
  assert (calm s s2) as H12 by by etrans.
  destruct (Z.eqb_spec rc 0) as [->|Hrc]; cbn [negb]; apply wp_ret; (split; [done|]).
  - apply tspec_ret, HQ; [done|by unfold fh_same in *; rewrite F2, Hh1|].
    rewrite V2. by apply dbstep_Ok, inode_put_Ok in Hd.
  - rewrite (proj2 (Z.eqb_neq _ _)) by done. apply tspec_fail.
Qed.

(** [p]'s session id, the same throughout a handler. *)
#[local] Abbreviation sid_of s p := (s_sid (heap s !!! p)).

Lemma lookup_res_Ok {A} (o : option A) (a : A) : Ok a = lookup_res o -> o = Some a.
Proof. destruct o; simpl; congruence. Qed.

(** A read of the database inside a body. *)
Lemma tspec_handle_get (sid fh : Z) (f : Z -> cle_err) (Q : raw_handle -> srv D -> Prop) s :
  (forall h s', still s s' -> v_handles (vw s) !! (sid, fh) = Some h -> Q h s') ->
  tspec (or_fail (cldb_handle_get sid fh) f) Q s.
Proof.
  intros HQ. apply tspec_or_fail. intros h s' Hc Hh [Hv Hr]. apply HQ; [by apply still_intro|by apply lookup_res_Ok].
Qed.

Lemma tspec_inode_get (inum : Z) (f : Z -> cle_err) (Q : raw_inode -> srv D -> Prop) s :
  (forall ino s', still s s' -> v_inodes (vw s) !! inum = Some ino -> Q ino s') ->
  tspec (or_fail (cldb_inode_get inum) f) Q s.
Proof.
  intros HQ. apply tspec_or_fail. intros h s' Hc Hh [Hv Hr]. apply HQ; [by apply still_intro|by apply lookup_res_Ok].
Qed.

Lemma tspec_byname (name : bytes) (f : Z -> cle_err) (Q : raw_inode -> srv D -> Prop) s :
  (forall i ino s', still s s' -> inode_named (vw s) name i ino -> Q ino s') ->
  tspec (or_fail (cldb_inode_get_byname name) f) Q s.
Proof.
  intros HQ. apply tspec_or_fail. intros ino s' Hc Hh [Hv Hr].
  destruct Hr as [(i & ino' & Hn & [= ->])|[_ ?]]; [|done]. eapply HQ; [by apply still_intro|done].
Qed.

Lemma tspec_data_put (inum : Z) (d : bytes) (e : cle_err) (Q : unit -> srv D -> Prop) s :
  (forall s', calm s s' -> vw s' = put_data inum d (vw s) -> Q tt s') ->
  tspec (rc_or_fail (cldb_data_put inum d) e) Q s.
Proof. intros HQ. apply tspec_rc_dbcall. intros a s' Hc _ [_ Hv]. by apply HQ. Qed.

(** *** PUT *)

Lemma msg_put_body_spec (p : nat) (put : cld_msg_put) s : db_inv (vw s) ->
  tspec (msg_put_body p put)
    (fun _ s' => astep (current_time s) (APut (sid_of s p) put) (vw s) (vw s')) s.
Proof.
  intros Hinv. unfold msg_put_body. apply tspec_get_sess. cbv zeta.
  apply tspec_ebind, tspec_handle_get. intros h s1 [[H1 _] V1] Hh _.
  destruct (flag (rh_mode h) COM_WRITE) eqn:Hw; cbn [negb orb]; [|apply tspec_fail].
  destruct (flag (rh_mode h) COM_DIRECTORY) eqn:Hd; [apply tspec_fail|].
  apply tspec_ebind, tspec_inode_get. rewrite V1. intros ino s2 [[H2 _] V2] Hi _.
  destruct (di_ino _ Hinv _ _ Hi) as (Hk & _).
  apply tspec_ebind, tspec_data_put. rewrite V2, V1. intros s3 H3 V3 _.
  apply inode_touch_spec. intros s4 H4 _ V4.
  assert (current_time s3 = current_time s) as Ht.
  { rewrite (calm_time _ _ H3), (calm_time _ _ H2). by apply calm_time. }
  rewrite V4, V3, Ht, <- Hk. by apply (astep_put _ _ _ _ h).
Qed.

(** *** UNLOCK *)

Lemma lock_del_loop_spec (sid fh inum : Z) (l1 ls : list raw_lock) s :
  locks_of (vw s) inum = l1 ++ ls -> Forall (fun l => rl_inum l = inum) (l1 ++ ls) ->
  Forall (fun l => ~ (rl_sid l = sid /\ rl_fh l = fh)) l1 ->
  wp (lock_del_loop sid fh ls) (fun rc s' => calm s s' /\
    (rc = 0 -> exists k1 lock k2, l1 ++ ls = k1 ++ lock :: k2 /\
       Forall (fun l => ~ (rl_sid l = sid /\ rl_fh l = fh)) k1 /\ rl_sid lock = sid /\ rl_fh lock = fh /\
       vw s' = upd_locks (insert inum (k1 ++ k2)) (vw s))) s.
Proof.
  revert l1 s. induction ls as [|lock ls IH]; intros l1 s Hls Hk Hf; cbn [lock_del_loop].
  - apply wp_bind, wp_dbcall. intros r s1 H1 _ Hd. destruct r as [a|e]; apply wp_ret; (split; [done|]); [done|].
    apply dbstep_Err in Hd as [_ ?]. done.
  - apply wp_bind, wp_dbcall. intros r s1 H1 _ Hd. destruct r as [a|e].
    2:{ apply wp_ret. split; [done|]. apply dbstep_Err in Hd as [_ ?]. done. }
    apply ro_CurGet in Hd. destruct ((rl_sid lock =? sid) && (fh =? rl_fh lock)) eqn:Em.
    + apply andb_true_iff in Em as [Em1 Em2]. apply wp_bind, wp_dbcall. intros r s2 H2 _ Hd2. apply wp_ret. split; [by etrans|].
      destruct r as [u|e]; [|by intros ?; apply dbstep_Err in Hd2 as [_ ?]]. intros _.
      apply dbstep_Ok in Hd2. cbn in Hd2. rewrite Hd in Hd2.
      assert (rl_inum lock = inum) as Hi by (rewrite Forall_app, Forall_cons in Hk; naive_solver).
      assert (lock ∉ l1) as Hn.
      { intros Hin. rewrite Forall_forall in Hf. apply (Hf lock Hin). lia. }
      rewrite Hi, Hls, bool_decide_true in Hd2 by set_solver. destruct Hd2 as [_ Hv].
      exists l1, lock, ls. split_and!; [done|done|lia|lia|].
      rewrite Hv, remove_first_app_not by done. simpl. by rewrite decide_True.
    + replace (l1 ++ lock :: ls) with ((l1 ++ [lock]) ++ ls) in * by by rewrite <- app_assoc.
      eapply wp_mono; [apply (IH (l1 ++ [lock]))|].
      * by rewrite Hd.
      * done.
      * apply Forall_app. split; [done|]. constructor; [|done]. intros [E1 E2].
        apply andb_false_iff in Em. rewrite !Z.eqb_neq in Em. naive_solver.
      * intros rc s2 [H2 HQ]. split; [by etrans|]. intros Hrc. rewrite <- Hd. by apply HQ.
Qed.

Lemma msg_unlock_body_spec (p : nat) (fh : Z) s : db_inv (vw s) ->
  tspec (msg_unlock_body p fh)
    (fun _ s' => astep (current_time s) (AUnlock (sid_of s p) fh) (vw s) (vw s')) s.
Proof.
  intros Hinv. unfold msg_unlock_body. apply tspec_get_sess. cbv zeta.
  apply tspec_ebind, tspec_handle_get. intros h s1 [[H1 _] V1] Hh _.
  destruct (flag (rh_mode h) COM_LOCK) eqn:Hw; cbn [negb]; [|apply tspec_fail].
  apply tspec_bind. unfold cldb_lock_del. apply wp_bind, wp_dbcall. intros r s2 H2 _ Hd.
  destruct r as [ls|e].
  2:{ apply dbstep_Err in Hd as [_ He]. apply wp_ret. split; [done|].
      rewrite (proj2 (Z.eqb_neq _ _)) by done. apply tspec_fail. }
  pose proof (ro_LockScan _ _ _ _ Hd) as V2. apply dbstep_Ok in Hd as [_ [= ->]]. rewrite V1 in *.
  apply wp_bind. eapply wp_mono; [apply (lock_del_loop_spec _ _ (rh_inum h) []); simpl|].
  - by rewrite V2.
  - apply (di_lkey _ Hinv).
  - done.
  - intros rc s3 [H3 HQ]. apply wp_bind, wp_still; [solve_still|]. intros _ s4 [[H4 _] V4].
    apply wp_ret. split; [by repeat (etrans; [eassumption|])|].
    destruct (Z.eqb_spec rc 0) as [->|Hrc]; [|apply tspec_fail].
    apply tspec_ret. destruct (HQ eq_refl) as (k1 & lock & k2 & E & Hf & E1 & E2 & Hv).
    rewrite V4, Hv, V2. by eapply astep_unlock.
Qed.

(** *** LOCK and TRYLOCK *)

(** An error of Berkeley DB's own is neither 0 nor "not found". *)
Lemma CurGet_Err (v v' : dbview) (e : Z) : dbstep CurGet v (Err e) v' -> e <> 0 /\ e <> DB_NOTFOUND.
Proof. intros [(e' & [= ->] & ?)|[? _]]; [naive_solver|done]. Qed.

Lemma LockCurDel_Err (v v' : dbview) (cur : raw_lock) (e : Z) :
  dbstep (LockCurDel cur) v (Err e) v' -> e <> 0 /\ e <> DB_NOTFOUND.
Proof. intros [(e' & [= ->] & ?)|Hd]; [naive_solver|]. cbn in Hd. case_match; [naive_solver|]. by destruct Hd as [[= ->] _]. Qed.

Lemma HandleCurDel_Err (v v' : dbview) (h : raw_handle) (e : Z) :
  dbstep (HandleCurDel h) v (Err e) v' -> e <> 0 /\ e <> DB_NOTFOUND.
Proof. intros [(e' & [= ->] & ?)|Hd]; [naive_solver|]. cbn in Hd. case_match; [naive_solver|]. by destruct Hd as [[= ->] _]. Qed.

Lemma end_of_scan_id (rc : Z) : rc <> DB_NOTFOUND -> end_of_scan rc = rc.
Proof. intros Hne. unfold end_of_scan. by rewrite (proj2 (Z.eqb_neq _ _)). Qed.

Lemma lock_find_loop_spec (want : bool) (ls : list raw_lock) s :
  wp (lock_find_loop want ls) (fun rc s' => still s s' /\
    (rc = 0 -> existsb (blocks want) ls = true) /\ (rc = DB_NOTFOUND -> existsb (blocks want) ls = false)) s.
Proof.
  revert s. induction ls as [|l ls IH]; intros s; cbn [lock_find_loop existsb]; apply wp_bind, wp_dbcall;
    intros r s1 H1 Hh1 Hd; pose proof (ro_CurGet _ _ _ Hd) as V1; (destruct r as [a|e];
    [|apply CurGet_Err in Hd; apply wp_ret; split; [by apply still_intro|naive_solver]]).
  { apply wp_ret. split; [by apply still_intro|done]. }
  unfold blocks at 1 3, acquired, shared. destruct (flag (rl_flags l) CLFL_PENDING); cbn [negb andb orb].
  - eapply wp_mono; [apply IH|]. intros rc s2 [H2 HQ]. split; [|done]. etrans; [|done]. by apply still_intro.
  - replace (negb want || want && negb (flag (rl_flags l) CLFL_SHARED))
      with (negb want || negb (flag (rl_flags l) CLFL_SHARED)) by by destruct want.
    destruct (negb want || negb (flag (rl_flags l) CLFL_SHARED)); cbn [orb].
    + apply wp_ret. split; [by apply still_intro|done].
    + eapply wp_mono; [apply IH|]. intros rc s2 [H2 HQ]. split; [|done]. etrans; [|done]. by apply still_intro.
Qed.

Lemma lock_find_spec (inum : Z) (want : bool) s :
  wp (cldb_lock_find inum want) (fun rc s' => still s s' /\
    (rc = 0 -> existsb (blocks want) (locks_of (vw s) inum) = true) /\
    (rc = DB_NOTFOUND -> existsb (blocks want) (locks_of (vw s) inum) = false)) s.
Proof.
  unfold cldb_lock_find. apply wp_bind, wp_dbcall. intros r s1 H1 Hh1 Hd.
  pose proof (ro_LockScan _ _ _ _ Hd) as V1. destruct r as [ls|e].
  - apply dbstep_Ok in Hd as [_ [= ->]]. apply wp_bind.
    eapply wp_mono; [apply lock_find_loop_spec|]. intros rc s2 [H2 HQ].
    apply wp_bind, wp_still; [solve_still|]. intros _ s3 H3. apply wp_ret. split; [|done].
    etrans; [by apply still_intro|by etrans].
  - apply wp_ret. split; [by apply still_intro|]. destruct Hd as [(e' & [= ->] & ?)|[_ [=]]]. naive_solver.
Qed.

(** The effect of [cldb_lock_add] and what its two results say. *)
Lemma cldb_lock_add_spec (sid fh inum : Z) (want wait : bool) s :
  wp (cldb_lock_add sid fh inum want wait) (fun r s' => calm s s' /\
    let pending := existsb (blocks want) (locks_of (vw s) inum) in
    (r.1 = 0 -> r.2 = negb pending /\ (pending = true -> wait = true) /\
       lock_added (new_lock (current_time s) sid fh inum want pending) (vw s) (vw s')) /\
    (r.1 <> 0 -> r.2 = false /\ vw s' = vw s)) s.
Proof.
  unfold cldb_lock_add. apply wp_bind. eapply wp_mono; [apply lock_find_spec|].
  intros rc s1 [[[H1 _] V1] [Hc Hn]]. cbv zeta.
  destruct (Z.eqb_spec rc 0) as [->|Hrc]; cbn [negb andb].
  - rewrite (Hc eq_refl). destruct wait; cbn [negb andb].
    2:{ apply wp_ret. split; [done|]. by split. }
    apply wp_bind, wp_get, wp_bind, wp_dbcall. intros r s2 H2 _ Hd. apply wp_ret. split; [by etrans|].
    rewrite V1, (calm_time _ _ H1) in Hd. cbn [fst snd]. destruct r as [a|e]; cbn [rc_of is_ok andb].
    + split; [|done]. intros _. split_and!; [done|done|]. apply dbstep_Ok in Hd. by apply lock_put_added in Hd.
    + apply dbstep_Err in Hd as [-> ?]. by split.
  - destruct (Z.eqb_spec rc DB_NOTFOUND) as [->|Hrc']; cbn [negb].
    2:{ apply wp_ret. split; [done|]. by split. }
    rewrite (Hn eq_refl), andb_false_r. cbn [negb andb].
    apply wp_bind, wp_get, wp_bind, wp_dbcall. intros r s2 H2 _ Hd. apply wp_ret. split; [by etrans|].
    rewrite V1, (calm_time _ _ H1), andb_false_r in Hd. cbn [fst snd]. destruct r as [a|e]; cbn [rc_of is_ok andb].
    + split; [|done]. intros _. split_and!; [done|done|]. apply dbstep_Ok in Hd. by apply lock_put_added in Hd.
    + apply dbstep_Err in Hd as [-> ?]. by split.
Qed.

Lemma msg_lock_body_spec (p : nat) (lock : cld_msg_lock) s : db_inv (vw s) ->
  tspec (msg_lock_body p lock)
    (fun got s' => astep (current_time s)
       (ALock (sid_of s p) (ml_fh lock) (flag (ml_flags lock) CLF_SHARED)
              (s_msg_op (heap s !!! p) =? CMO_LOCK) got) (vw s) (vw s')) s.
Proof.
  intros Hinv. unfold msg_lock_body. apply tspec_get_sess. cbv zeta.
  apply tspec_ebind, tspec_handle_get. intros h s1 [[H1 _] V1] Hh _.
  destruct (flag (rh_mode h) COM_LOCK) eqn:Hw; cbn [negb]; [|apply tspec_fail].
  apply tspec_bind. eapply wp_mono; [apply cldb_lock_add_spec|]. intros [rc got] s2 [H2 [HQ _]].
  split; [done|]. cbn [fst snd] in HQ. destruct (Z.eqb_spec rc 0) as [->|Hrc]; cbn [negb]; [|apply tspec_fail].
  apply tspec_ret. destruct (HQ eq_refl) as (-> & Hwait & Hadd). rewrite V1, (calm_time _ _ H1) in *.
  by eapply astep_lock.
Qed.

(** *** CLOSE *)

(** Everything but the locks of [inum] is as it was. *)
Definition locks_frame (inum : Z) (v v' : dbview) : Prop :=
  same_but_locks v v' /\ forall i, i <> inum -> locks_of v' i = locks_of v i.

#[local] Instance locks_frame_pre (inum : Z) : PreOrder (locks_frame inum).
Proof.
  split; [by split|]. intros v1 v2 v3 [(A1 & A2 & A3 & A4) A5] [(B1 & B2 & B3 & B4) B5].
  split; [split_and!; congruence|]. intros i Hi. rewrite B5 by done. by apply A5.
Qed.

Lemma locks_frame_insert (inum : Z) (v : dbview) (ls : list raw_lock) :
  locks_frame inum v (upd_locks (insert inum ls) v).
Proof. split; [done|]. intros i Hi. by rewrite locks_of_insert, decide_False. Qed.

Lemma remove_locks_loop_spec (sid fh inum : Z) (waiter : bool) (l1 ls : list raw_lock) s :
  locks_of (vw s) inum = filter (fun l => lmatch l sid fh = false) l1 ++ ls ->
  Forall (fun l => rl_inum l = inum) ls ->
  wp (remove_locks_loop sid fh waiter ls) (fun r s' => calm s s' /\ r.1 <> DB_NOTFOUND /\
    (r.1 = 0 -> locks_frame inum (vw s) (vw s') /\
       locks_of (vw s') inum = filter (fun l => lmatch l sid fh = false) (l1 ++ ls) /\
       r.2 = waiter || existsb (fun l => negb (lmatch l sid fh) && flag (rl_flags l) CLFL_PENDING) ls)) s.
Proof.
  revert waiter l1 s. induction ls as [|l ls IH]; intros waiter l1 s Hls Hk;
    cbn [remove_locks_loop existsb]; apply wp_bind, wp_dbcall;
    intros r s1 H1 _ Hd; pose proof (ro_CurGet _ _ _ Hd) as V1; (destruct r as [a|e];
    [|apply CurGet_Err in Hd; apply wp_ret; split_and!; [done|naive_solver..]]).
  { apply wp_ret. split_and!; [done|done|]. intros _. rewrite V1, orb_false_r. split_and!; [done| |done].
    by rewrite Hls, !app_nil_r. }
  apply Forall_cons in Hk as [Hi Hk].
  replace (l1 ++ l :: ls) with ((l1 ++ [l]) ++ ls) by by rewrite <- app_assoc.
  destruct (lmatch l sid fh) eqn:Em; cbn [negb andb orb].
  - apply wp_bind, wp_dbcall. intros r s2 H2 _ Hd2. destruct r as [u|e].
    2:{ apply wp_ret. apply LockCurDel_Err in Hd2 as [??]. split_and!; [by etrans|done|done]. }
    apply dbstep_Ok in Hd2. cbn in Hd2. rewrite V1, Hi, Hls, bool_decide_true in Hd2 by set_solver.
    destruct Hd2 as [_ V2]. rewrite remove_first_app_not in V2.
    2:{ intros [? _]%list_elem_of_filter. congruence. }
    cbn [remove_first] in V2. rewrite decide_True in V2 by done.
    eapply wp_mono; [apply (IH _ (l1 ++ [l]))|].
    + rewrite V2, locks_of_insert, decide_True by done. rewrite filter_app, filter_cons_False by congruence.
      by rewrite filter_nil, app_nil_r.
    + done.
    + intros r s3 (H3 & N3 & HQ). split_and!; [by repeat (etrans; [eassumption|])|done|].
      intros (F & L & W)%HQ. split_and!; [|done|done]. etrans; [|done]. rewrite V2. apply locks_frame_insert.
  - eapply wp_mono; [apply (IH _ (l1 ++ [l]))|].
    + rewrite V1, Hls, filter_app, filter_cons_True by done. by rewrite filter_nil, <- app_assoc.
    + done.
    + intros r s3 (H3 & N3 & HQ). split_and!; [by etrans|done|]. intros (F & L & W)%HQ. rewrite V1 in F.
      split_and!; [done|done|]. by rewrite W, <- orb_assoc.
Qed.

Lemma session_remove_locks_spec (sid fh inum : Z) s :
  Forall (fun l => rl_inum l = inum) (locks_of (vw s) inum) ->
  wp (session_remove_locks sid fh inum) (fun r s' => calm s s' /\
    (r.1 = 0 -> locks_frame inum (vw s) (vw s') /\
       locks_of (vw s') inum = filter (fun l => lmatch l sid fh = false) (locks_of (vw s) inum) /\
       r.2 = existsb (fun l => negb (lmatch l sid fh) && flag (rl_flags l) CLFL_PENDING)
               (locks_of (vw s) inum))) s.
Proof.
  intros Hk. unfold session_remove_locks. apply wp_bind, wp_dbcall. intros r s1 H1 _ Hd.
  pose proof (ro_LockScan _ _ _ _ Hd) as V1. destruct r as [ls|e].
  2:{ apply wp_ret. split; [done|]. by apply dbstep_Err in Hd as [_ ?]. }
  apply dbstep_Ok in Hd as [_ [= ->]]. apply wp_bind.
  eapply wp_mono; [apply (remove_locks_loop_spec _ _ inum _ [])|].
  - by rewrite V1.
  - done.
  - intros [rc w] s2 (H2 & N2 & HQ). cbn [fst] in N2. cbv zeta. rewrite end_of_scan_id by done.
    apply wp_bind, wp_dbcall. intros c s3 H3 _ Hd3.
    apply ro_CurClose in Hd3. cbn [fst snd] in HQ.
    assert (calm s s3) as H13 by by repeat (etrans; [eassumption|]).
    destruct (Z.eqb_spec rc 0) as [->|Hrc]; cbn [negb]; apply wp_ret; (split; [done|]); [|done].
    intros _. rewrite Hd3. destruct (HQ eq_refl) as (F & L & W). rewrite V1 in F. by split_and!.
Qed.

Lemma msg_close_body_spec (p : nat) (fh : Z) s : db_inv (vw s) ->
  tspec (msg_close_body p fh)
    (fun _ s' => astep (current_time s) (AClose (sid_of s p) fh) (vw s) (vw s')) s.
Proof.
  intros Hinv. unfold msg_close_body. apply tspec_get_sess. cbv zeta.
  apply tspec_ebind, tspec_handle_get. intros h s1 [[H1 _] V1] Hh _.
  set (inum := if flag (rh_mode h) COM_LOCK then rh_inum h else 0).
  apply tspec_ebind, tspec_rc_dbcall. rewrite V1. intros a s2 H2 _ Hd _. cbn in Hd.
  rewrite bool_decide_true in Hd by by rewrite Hh. destruct Hd as [_ V2].
  apply tspec_bind. eapply wp_mono; [apply session_remove_locks_spec|].
  { rewrite V2. apply (di_lkey _ Hinv). }
  intros [rc w] s3 [H3 HQ]. split; [done|]. cbn [fst snd] in HQ.
  destruct (Z.eqb_spec rc 0) as [->|Hrc]; cbn [negb]; [|apply tspec_fail].
  destruct (HQ eq_refl) as ([F1 F2] & L & _).
  assert (astep (current_time s) (AClose (sid_of s p) fh) (vw s) (vw s3)) as Hst.
  { eapply (astep_close _ _ _ _ _ h); [done|by rewrite <- V2|]. fold inum. intros i. case_decide as Hi.
    - subst i. by rewrite L, V2.
    - rewrite F2 by done. by rewrite V2. }
  destruct w; [|by apply tspec_ret].
  apply tspec_still; [auto with cld|]. intros rc s4 [[H4 _] V4].
  case_match; [|apply tspec_fail]. apply tspec_ret. by rewrite V4.
Qed.

(** *** DEL *)

(** A deletion that may find nothing to delete. *)
Lemma tspec_del_optional {A B} (q : dbreq A) (e : cle_err) (k : M D (cle_err + B))
    (del : dbview -> dbview) (Q : B -> srv D -> Prop) s :
  (forall a v', dbdoc q (vw s) (Ok a) v' -> v' = del (vw s)) ->
  (forall v', dbdoc q (vw s) (Err DB_NOTFOUND) v' -> v' = del (vw s)) ->
  (forall s', calm s s' -> vw s' = del (vw s) -> tspec k Q s') ->
  tspec (let! r := dbcall q in
         if negb (rc_of r =? 0) && negb (rc_of r =? DB_NOTFOUND) then fail e else k) Q s.
Proof.
  intros Hok Hnf Hk. apply tspec_bind, wp_dbcall. intros r s' Hc _ Hd. split; [done|].
  destruct r as [a|e']; cbn [rc_of Z.eqb negb andb].
  - apply Hk; [done|]. eapply Hok. by apply dbstep_Ok.
  - pose proof (dbstep_Err _ _ _ _ Hd) as [_ He]. rewrite (proj2 (Z.eqb_neq e' 0)) by done. cbn [negb andb].
    destruct (Z.eqb_spec e' DB_NOTFOUND) as [->|]; cbn [negb]; [|apply tspec_fail].
    apply Hk; [done|]. apply Hnf. destruct Hd as [(x & [= <-] & _ & Hx & _)|Hd]; done.
Qed.

Lemma data_del_doc (inum : Z) (v v' : dbview) (r : res unit) :
  dbdoc (DataDel inum) v r v' -> v' = upd_data (delete inum) v.
Proof.
  cbn. case_bool_decide as Hs; intros [_ ->]; [done|]. destruct v as [v1 v2 v3 v4 v5]; cbn in *.
  unfold upd_data. cbn. rewrite delete_id; [done|]. by apply eq_None_not_Some.
Qed.

Lemma handle_idx_del_doc (inum : Z) (v v' : dbview) (r : res unit) :
  dbdoc (HandleIdxDel inum) v r v' ->
  v' = upd_handles (filter (fun kh => handle_idx_key kh.2 <> inum)) v.
Proof.
  cbn. case_bool_decide as Hs; intros [_ ->]; [|done]. destruct v as [v1 v2 v3 v4 v5]; cbn in *.
  unfold upd_handles. cbn. f_equal. symmetry. apply map_filter_id. intros k h Hh Hk.
  apply (f_equal (lookup k)) in Hs. rewrite lookup_empty in Hs.
  apply map_lookup_filter_None in Hs as [Hs|Hs]; [congruence|]. by apply (Hs h).
Qed.

Lemma inode_del_doc (inum : Z) (v v' : dbview) (a : unit) :
  dbdoc (InodeDel inum) v (Ok a) v' -> v' = upd_inodes (delete inum) v.
Proof. cbn. case_bool_decide; intros [? ->]; done. Qed.

Lemma msg_del_body_spec (name : bytes) s : db_inv (vw s) ->
  valid_inode_name (Some name) (length name) = true -> (2 <= length name)%nat ->
  tspec (msg_del_body name) (fun _ s' => astep (current_time s) (ADel name) (vw s) (vw s')) s.
Proof.
  intros Hinv Hv H2'. unfold msg_del_body. cbv zeta.
  apply tspec_ebind, tspec_byname. intros i parent s1 [[H1 _] V1] Hp _.
  apply tspec_ebind, tspec_or_fail. intros pd s2 H2 _ [V2 Hpd%lookup_res_Ok] _. rewrite V1 in *.
  apply tspec_ebind, tspec_byname. rewrite V2. intros j ino s3 [[H3 _] V3] Hi _.
  assert (calm s s3) as H13 by by repeat (etrans; [eassumption|]). rewrite V2 in V3.
  assert (forall (Q : unit -> srv D -> Prop),
    (forall s', still s3 s' -> (is_dir ino = true -> data_of (vw s) (ri_inum ino) = []) -> Q tt s') ->
    tspec (if flag (ri_flags ino) CIFL_DIR then
       let! r := dbcall (DataGet (ri_inum ino)) in
       match r with
       | Ok d => if (0 <? length d)%nat then fail CLE_DIR_NOTEMPTY else ret (inr tt)
       | Err e => if e =? DB_NOTFOUND then ret (inr tt) else fail CLE_DB_ERR
       end else ret (inr tt)) Q s3) as Hempty.
  { intros Q HQ. unfold is_dir in HQ. destruct (flag (ri_flags ino) CIFL_DIR); [|apply tspec_ret, HQ; done].
    apply tspec_bind, wp_dbcall. intros r s4 H4 Hh4 Hd. pose proof (ro_DataGet _ _ _ _ Hd) as V4.
    split; [done|]. rewrite V3 in *. destruct r as [d|e].
    - apply dbstep_Ok in Hd as [_ Hd%lookup_res_Ok].
      destruct (Nat.ltb_spec 0 (length d)); [apply tspec_fail|]. apply tspec_ret, HQ; [apply still_intro; congruence|].
      intros _. unfold data_of. rewrite Hd. simpl. destruct d; [done|simpl in *; lia].
    - destruct (Z.eqb_spec e DB_NOTFOUND) as [->|]; [|apply tspec_fail].
      apply tspec_ret, HQ; [apply still_intro; congruence|]. intros _. unfold data_of.
      destruct Hd as [(x & [= <-] & _ & ? & _)|[_ Hd]]; [done|].
      by destruct (v_data (vw s) !! ri_inum ino). }
  apply tspec_ebind, Hempty. clear Hempty. intros s4 [[H4 _] V4] Hd _.
  apply tspec_ebind, tspec_still; [auto with cld|]. intros rc s5 [[H5 _] V5].
  destruct (rc =? 0); [|apply tspec_fail]. apply tspec_ret. intros _.
  apply tspec_ebind, tspec_or_fail. intros u s6 H6 _ V6%inode_del_doc _.
  apply (tspec_del_optional _ _ _ (upd_data (delete (ri_inum ino)))); [by eauto using data_del_doc..|].
  intros s7 H7 V7.
  apply (tspec_del_optional _ _ _ (upd_handles (filter (fun kh => handle_idx_key kh.2 <> ri_inum ino))));
    [by eauto using handle_idx_del_doc..|].
  intros s8 H8 V8. destruct (dirdata_delete pd _) as [ok pd'] eqn:Edel.
  destruct ok; cbn [negb]; [|apply tspec_fail].
  apply tspec_ebind, tspec_data_put. intros s9 H9 V9 _.
  apply inode_touch_spec. intros s10 H10 _ V10.
  assert (current_time s9 = current_time s) as Ht.
  { rewrite <- (calm_time _ _ H13), <- (calm_time _ _ H4), <- (calm_time _ _ H5), <- (calm_time _ _ H6),
      <- (calm_time _ _ H7), <- (calm_time _ _ H8). by apply calm_time. }
  rewrite V10, V9, V8, V7, V6, V5, V4, V3, Ht. by eapply astep_del.
Qed.

(** *** OPEN *)

Lemma inode_new_loop_spec (limit : nat) s :
  wp (inode_new_loop limit) (fun r s' => still s s' /\
    forall n, r = Some n -> v_inodes (vw s) !! n = None /\ CLD_INO_RESERVED_LAST < n < 2 ^ 31) s.
Proof.
  revert s. induction limit as [|limit IH]; intros s; cbn [inode_new_loop]; [apply wp_ret; by split|].
  apply wp_bind, wp_rand. intros n s1 H1%quiet_still _ _ Hb.
  destruct (Z.leb_spec n CLD_INO_RESERVED_LAST) as [Hn|Hn].
  { eapply wp_mono; [apply IH|]. intros r s2 [H2 HQ]. split; [by etrans|]. by rewrite (proj2 H1) in HQ. }
  apply wp_bind, wp_dbcall. intros r s2 H2 Hh2 Hd. pose proof (ro_InodeGet _ _ _ _ Hd) as V2.
  assert (still s s2) as H12 by (etrans; [done|by apply still_intro]).
  destruct r as [ino|e].
  { eapply wp_mono; [apply IH|]. intros r s3 [H3 HQ]. split; [by etrans|]. by rewrite (proj2 H12) in HQ. }
  destruct (Z.eqb_spec e DB_NOTFOUND) as [->|He]; apply wp_ret; (split; [done|]); [|done].
  intros n' [= <-]. rewrite (proj2 H1) in Hd. destruct Hd as [(x & [= <-] & _ & ? & _)|[_ Hd]]; [done|].
  split; [by destruct (v_inodes (vw s) !! n)|lia].
Qed.

(** The inode before its first [inode_touch]. *)
Definition fresh_inode (now : Z) (o : cld_msg_open) (n : Z) : raw_inode :=
  mkRawInode n (u32 (Z.of_nat (length (mo_inode_name o)))) 0 0 (u64 now) (u64 now)
    (if flag (mo_mode o) COM_DIRECTORY then Z.lor (u32 0) CIFL_DIR else u32 0) (mo_inode_name o).

Lemma tspec_inode_new (o : cld_msg_open) (e : cle_err) (Q : raw_inode -> srv D -> Prop) s :
  (forall n ino s', still s s' -> v_inodes (vw s) !! n = None -> CLD_INO_RESERVED_LAST < n < 2 ^ 31 ->
     (if flag (mo_mode o) COM_DIRECTORY then set_ri_flags (Z.lor (ri_flags ino) CIFL_DIR) ino else ino)
       = fresh_inode (current_time s) o n -> Q ino s') ->
  tspec (some_or_fail (cldb_inode_new (mo_inode_name o) 0) e) Q s.
Proof.
  intros HQ. apply tspec_bind. unfold cldb_inode_new. apply wp_bind.
  eapply wp_mono; [apply inode_new_loop_spec|]. intros r s1 [H1 Hr]. destruct r as [n|].
  2:{ apply wp_ret. split; [by apply still_calm|apply tspec_fail]. }
  destruct (Hr n eq_refl) as [Hfree Hb]. unfold cldb_inode_mem.
  apply wp_bind, wp_malloc_ok. intros b s2 H2%quiet_still _ _ _. assert (still s s2) as H12 by by etrans.
  destruct b; cbn [negb]; [|apply wp_ret; split; [by apply still_calm|apply tspec_fail]].
  apply wp_bind, wp_get, wp_ret. split; [by apply still_calm|].
  apply tspec_ret, (HQ n); [done|done|done|]. rewrite (calm_time _ _ (still_calm _ _ H12)).
  unfold fresh_inode. by destruct (flag (mo_mode o) COM_DIRECTORY).
Qed.

Lemma open_create_spec (o : cld_msg_open) s :
  tspec (open_create o) (fun ino s' => fh_same s s' /\ exists i parent n,
    inode_named (vw s) (pi_dir (pathname_parse (mo_inode_name o))) i parent /\
    v_inodes (vw s) !! n = None /\ CLD_INO_RESERVED_LAST < n < 2 ^ 31 /\
    ino = fresh_inode (current_time s) o n /\
    vw s' = write_inode (current_time s) parent
      (data_of (vw s) (ri_inum parent) ++ enc_ent (pi_base (pathname_parse (mo_inode_name o)))) (vw s)) s.
Proof.
  unfold open_create. cbv zeta. set (pi := pathname_parse (mo_inode_name o)).
  apply tspec_ebind, tspec_inode_new. intros n ino s1 H1 Hfree Hb Hino _. rewrite Hino.
  apply tspec_ebind, tspec_byname. rewrite (proj2 H1). intros i parent s2 H2 Hp _.
  assert (still s s2) as H12 by by etrans. clear H1 H2.
  assert (forall (Q : bytes -> srv D -> Prop),
    (forall s', still s s' -> Q (data_of (vw s) (ri_inum parent)) s') ->
    tspec (let! r := cldb_data_get (ri_inum parent) in
           match r with
           | Ok d => ret (inr d)
           | Err e => if e =? DB_NOTFOUND then ret (inr []) else fail CLE_DB_ERR
           end) Q s2) as Hdata.
  { intros Q HQ. apply tspec_bind, wp_dbcall. intros r s3 H3 Hh3 Hd.
    assert (still s s3) as H13 by (etrans; [done|]; apply still_intro; [done|done|by apply ro_DataGet in Hd]).
    split; [done|]. rewrite (proj2 H12) in Hd. unfold data_of in HQ.
    destruct r as [d|e]; [apply dbstep_Ok in Hd as [_ Hd%lookup_res_Ok]; rewrite Hd in HQ; by apply tspec_ret, HQ|].
    destruct (Z.eqb_spec e DB_NOTFOUND) as [->|]; [|apply tspec_fail].
    destruct Hd as [(x & [= <-] & _ & ? & _)|[_ Hd]]; [done|].
    destruct (v_data (vw s) !! ri_inum parent); [done|]. by apply tspec_ret, HQ. }
  apply tspec_ebind, Hdata. clear Hdata. intros s3 H3 _.
  apply tspec_malloc. intros alloc s4 H4%quiet_still _. assert (still s s4) as H34 by by etrans. clear H3 H4.
  unfold dirdata_append. destruct alloc; cbn [negb]; [|apply tspec_fail].
  apply tspec_ebind, tspec_rc_dbcall. intros u s5 H5 Hh5 [_ V5] _.
  apply tspec_ebind, inode_touch_spec. intros s6 H6 F6 V6 _. apply tspec_ret. split.
  - unfold fh_same in *. rewrite F6, Hh5. apply H34.
  - exists i, parent, n. split_and!; try done; try lia.
    rewrite V6, V5, (proj2 H34), (calm_time _ _ H5), (calm_time _ _ (still_calm _ _ H34)). done.
Qed.

Lemma tspec_handle_new (p : nat) (inum mode events : Z) (e : cle_err) (Q : raw_handle -> srv D -> Prop) s :
  is_Some (heap s !! p) ->
  (forall s', calm s s' -> vw s' = vw s ->
     s_next_fh (heap s' !!! p) = u64 (s_next_fh (heap s !!! p) + 1) ->
     Q (mkRawHandle (sid_of s p) (s_next_fh (heap s !!! p)) inum (u32 mode) (u32 events)) s') ->
  tspec (some_or_fail (cldb_handle_new p inum mode events) e) Q s.
Proof.
  intros [x Hx] HQ. apply tspec_bind. unfold cldb_handle_new.
  apply wp_bind, wp_malloc_ok. intros b s1 H1%quiet_still E1 _ _.
  destruct b; cbn [negb]; [|apply wp_ret; split; [by apply still_calm|apply tspec_fail]].
  apply wp_bind, wp_get_sess, wp_bind, wp_upd_sess, wp_ret. rewrite E1.
  assert (calm s (set_heap (alter (fun sess => set_next_fh (u64 (s_next_fh sess + 1)) sess) p (heap s)) s1)) as Hc.
  { etrans; [by apply still_calm|]. rewrite <- E1. split; [|done]. by apply upd_sess_calm. }
  split; [done|]. apply tspec_ret, HQ; [done| |].
  - exact (proj2 H1).
  - cbn. rewrite !lookup_total_alt, lookup_alter_eq, Hx. done.
Qed.

Lemma open_lookup_spec (o : cld_msg_open) s :
  tspec (open_lookup o) (fun found s' => still s s' /\
    valid_inode_name (Some (mo_inode_name o)) (length (mo_inode_name o)) = true /\
    match found with
    | Some ino => (exists i, inode_named (vw s) (mo_inode_name o) i ino) /\
        flag (mo_mode o) COM_CREATE && flag (mo_mode o) COM_EXCL = false /\
        flag (mo_mode o) COM_DIRECTORY = is_dir ino
    | None => (2 <= length (mo_inode_name o))%nat /\ flag (mo_mode o) COM_CREATE = true /\
        forall j ino, ~ inode_named (vw s) (mo_inode_name o) j ino
    end) s.
Proof.
  unfold open_lookup. cbv zeta. destruct (valid_inode_name _ _) eqn:Hv; cbn [negb orb]; [|apply tspec_fail].
  destruct (flag (mo_mode o) COM_CREATE) eqn:Hc; cbn [andb].
  - destruct (Nat.ltb_spec (length (mo_inode_name o)) 2) as [Hl|Hl]; [apply tspec_fail|].
    apply tspec_bind, wp_dbcall. intros r s1 H1 Hh1 Hd.
    assert (still s s1) as Hs by (apply still_intro; [done|done|by apply ro_NameGet in Hd]).
    split; [done|]. destruct r as [ino|e].
    + apply dbstep_Ok in Hd as [_ [(i & x & Hn & [= <-])|[_ ?]]]; [|done].
      destruct (flag (mo_mode o) COM_EXCL); [apply tspec_fail|].
      destruct (Bool.eqb_spec (flag (mo_mode o) COM_DIRECTORY) (flag (ri_flags ino) CIFL_DIR)) as [Ed|];
        cbn [negb]; [|apply tspec_fail]. apply tspec_ret. split_and!; eauto.
    + destruct (Z.eqb_spec e DB_NOTFOUND) as [->|]; cbn [negb]; [|apply tspec_fail].
      apply tspec_ret. split_and!; try done.
      destruct Hd as [(x & [= <-] & _ & ? & _)|[_ [(? & ? & _ & ?)|[? _]]]]; done.
  - apply tspec_bind, wp_dbcall. intros r s1 H1 Hh1 Hd.
    assert (still s s1) as Hs by (apply still_intro; [done|done|by apply ro_NameGet in Hd]).
    split; [done|]. destruct r as [ino|e]; [|case_match; apply tspec_fail].
    apply dbstep_Ok in Hd as [_ [(i & x & Hn & [= <-])|[_ ?]]]; [|done].
    destruct (Bool.eqb_spec (flag (mo_mode o) COM_DIRECTORY) (flag (ri_flags ino) CIFL_DIR)) as [Ed|];
      cbn [negb]; [|apply tspec_fail]. apply tspec_ret. split_and!; eauto.
Qed.

(** The session record written at the end of OPEN. *)
Lemma tspec_sess_put (p : nat) (Q : Z -> srv D -> Prop) (fh : Z) s :
  (forall s', calm s s' -> vw s' = put_sess (session_encode (heap s !!! p)) (vw s) -> Q fh s') ->
  tspec (try! raw_sess := some_or_fail (session_new_raw p) CLE_OOM in
         try! _ := rc_or_fail (cldb_session_put raw_sess) CLE_DB_ERR in
         ret (inr fh)) Q s.
Proof.
  intros HQ. apply tspec_ebind, tspec_bind. unfold session_new_raw.
  apply wp_bind, wp_malloc_ok. intros b s1 H1%quiet_still E1 _ _. destruct b; cbn [negb];
    [|apply wp_ret; split; [by apply still_calm|apply tspec_fail]].
  apply wp_bind, wp_get_sess, wp_ret. split; [by apply still_calm|]. apply tspec_ret. intros _.
  apply tspec_ebind, tspec_rc_dbcall. intros u s2 H2 _ Hd _. apply tspec_ret.
  apply HQ; [etrans; [by apply still_calm|done]|].
  cbn in Hd. destruct Hd as [_ ->]. by rewrite E1, (proj2 H1).
Qed.

Lemma calm_heap_some s s' (p : nat) : calm s s' -> is_Some (heap s !! p) -> is_Some (heap s' !! p).
Proof.
  intros [Hc _] Hp. pose proof (f_equal (lookup p) (ce_heap _ _ Hc)) as E. rewrite !lookup_fmap in E.
  destruct (heap s' !! p), (heap s !! p); done.
Qed.

Lemma msg_open_body_spec (p : nat) (o : cld_msg_open) s : db_inv (vw s) -> is_Some (heap s !! p) ->
  0 <= sid_of s p < 2 ^ 64 ->
  Z.of_nat (length (mo_inode_name o)) <= CLD_INODE_NAME_MAX ->
  tspec (msg_open_body p o)
    (fun fh s' => fh = s_next_fh (heap s !!! p) /\
       astep (current_time s) (AOpen (sid_of s p) o fh) (vw s) (vw s')) s.
Proof.
  intros Hinv Hp Hr Hlen. unfold msg_open_body. apply tspec_ebind.
  eapply tspec_mono; [apply open_lookup_spec|]. intros found s1 H1 (S1 & Hv & Hf) _.
  pose proof (calm_sid _ _ p H1) as Esid. pose proof (fmap_lookup_total s_next_fh _ _ p (proj2 (proj1 S1))) as Efh.
  pose proof (calm_time _ _ H1) as Et. pose proof (calm_heap_some _ _ p H1 Hp) as Hp1.
  pose proof (proj2 S1) as V1. destruct found as [ino|].
  - destruct Hf as ((i & Hi) & Hex & Hd). apply tspec_ebind, tspec_ret. intros _.
    apply tspec_ebind, tspec_handle_new; [done|]. intros s2 H2 V2 Hfh2 _.
    apply tspec_ebind, tspec_rc_dbcall. intros u s3 H3 Hh3 [_ V3] _.
    apply tspec_ebind, tspec_ret. intros _. apply tspec_sess_put. intros s4 H4 V4.
    cbn [rh_fh]. split; [done|]. rewrite Esid, Efh in *. rewrite V4, V3, V2, V1, Hh3.
    eapply (astep_open_old _ _ _ _ _ i); try done.
    cbn. rewrite (calm_sid _ _ p H2). done.
  - destruct Hf as (H2' & Hc & Hfree). apply tspec_ebind.
    eapply tspec_mono; [apply open_create_spec|].
    intros ino s2 H2 (F2 & i & parent & n & Hpar & Hn & Hb & -> & V2) _.
    pose proof (fmap_lookup_total s_next_fh _ _ p F2) as Efh2. rewrite V1, Et in *.
    apply tspec_ebind, tspec_handle_new; [by eapply calm_heap_some|]. intros s3 H3 V3 Hfh3 _.
    apply tspec_ebind, tspec_rc_dbcall. intros u s4 H4 Hh4 [_ V4] _.
    apply tspec_ebind, inode_touch_spec. intros s5 H5 F5 V5 _.
    pose proof (fmap_lookup_total s_next_fh _ _ p F5) as Efh5.
    apply tspec_sess_put. intros s6 H6 V6.
    assert (calm s s4) as H14 by (etrans; [exact H1|etrans; [exact H2|by etrans]]).
    cbn [rh_fh]. split; [by rewrite Efh2|].
    rewrite (calm_sid _ _ p H2), Esid, Efh2, Efh, (calm_time _ _ H14), Hh4 in *.
    rewrite V6, V5, V4, V3, V2. eapply (astep_open_new _ _ _ _ _ i parent n); try done.
    + cbn. rewrite (calm_sid _ _ p H5), (calm_sid _ _ p H14). done.
    + cbn. by rewrite Efh5.
Qed.

End handlers.

(** ** Replies *)

(** An [err_out] jump never carries [CLE_OK]. *)
Definition codes_fail {D A} (m : M D (cle_err + A)) : Prop := forall s e, (m s).1 = inl e -> e <> CLE_OK.

Section codes.
Context {D : Type}.

Lemma cf_fail {A} (e : cle_err) : e <> CLE_OK -> codes_fail (fail e : M D (cle_err + A)).
Proof. by intros He s e' [= <-]. Qed.
Lemma cf_ret {A} (a : A) : codes_fail (ret (inr a) : M D (cle_err + A)).
Proof. done. Qed.
Lemma cf_bind {A B} (m : M D B) (k : B -> M D (cle_err + A)) :
  (forall b, codes_fail (k b)) -> codes_fail (bind m k).
Proof. intros Hk s e. unfold bind. destruct (m s). apply Hk. Qed.
Lemma cf_ebind {A B} (m : M D (cle_err + B)) (k : B -> M D (cle_err + A)) :
  codes_fail m -> (forall b, codes_fail (k b)) -> codes_fail (ebind m k).
Proof.
  intros Hm Hk s e. unfold ebind, bind. specialize (Hm s). destruct (m s) as [[e'|b] s1]; [|apply Hk].
  intros [= <-]. by apply Hm.
Qed.
Lemma cf_or_fail {A} (m : M D (res A)) (f : Z -> cle_err) :
  (forall x, f x <> CLE_OK) -> codes_fail (or_fail m f).
Proof. intros Hf. apply cf_bind. intros [a|x]; [apply cf_ret|by apply cf_fail]. Qed.
Lemma cf_rc_or_fail (m : M D Z) (e : cle_err) : e <> CLE_OK -> codes_fail (rc_or_fail m e).
Proof. intros He. apply cf_bind. intros rc. case_match; [apply cf_ret|by apply cf_fail]. Qed.
Lemma cf_some_or_fail {A} (m : M D (option A)) (e : cle_err) : e <> CLE_OK -> codes_fail (some_or_fail m e).
Proof. intros He. apply cf_bind. intros [a|]; [apply cf_ret|by apply cf_fail]. Qed.
Lemma cf_lift {A} (m : M D A) : codes_fail (lift m).
Proof. apply cf_bind. intros a. apply cf_ret. Qed.

End codes.

Ltac cf_step :=
  match goal with
  | |- forall _, _ => intro
  | |- codes_fail (fail _) => apply cf_fail
  | |- codes_fail (ret _) => apply cf_ret
  | |- codes_fail (ebind _ _) => apply cf_ebind
  | |- codes_fail (or_fail _ _) => apply cf_or_fail
  | |- codes_fail (rc_or_fail _ _) => apply cf_rc_or_fail
  | |- codes_fail (some_or_fail _ _) => apply cf_some_or_fail
  | |- codes_fail (lift _) => apply cf_lift
  | |- codes_fail (bind _ _) => apply cf_bind
  | |- codes_fail (if ?b then _ else _) => destruct b
  | |- codes_fail (match ?x with _ => _ end) => destruct x
  | |- codes_fail (let '_ := ?x in _) => destruct x
  | |- _ <> CLE_OK => repeat case_match; discriminate
  end.
Ltac solve_codes := cbv zeta; repeat (cf_step; cbv zeta).

Section replies.
Context {D : Type} `{!Bdb D, !BdbOk D, !XdrLib, !HmacLib}.
Implicit Types s : srv D.

Lemma cf_put (p : nat) (put : cld_msg_put) : codes_fail (@msg_put_body D _ _ _ p put).
Proof. unfold msg_put_body. solve_codes. Qed.
Lemma cf_close (p : nat) (fh : Z) : codes_fail (@msg_close_body D _ _ _ p fh).
Proof. unfold msg_close_body. solve_codes. Qed.
Lemma cf_del (name : bytes) : codes_fail (@msg_del_body D _ _ _ name).
Proof. unfold msg_del_body. solve_codes. Qed.
Lemma cf_unlock (p : nat) (fh : Z) : codes_fail (@msg_unlock_body D _ p fh).
Proof. unfold msg_unlock_body. solve_codes. Qed.
Lemma cf_lock (p : nat) (lock : cld_msg_lock) : codes_fail (@msg_lock_body D _ p lock).
Proof. unfold msg_lock_body. solve_codes. Qed.
Lemma cf_open (p : nat) (o : cld_msg_open) : codes_fail (@msg_open_body D _ _ _ p o).
Proof. unfold msg_open_body, open_lookup, open_create. solve_codes. Qed.

(** Before the response of a transaction is sent. *)
Lemma run_txn_reply {A} (body : M D (cle_err + A)) (Q : A -> dbview -> Prop) s :
  codes_fail body ->
  (forall s1, calm_env s s1 -> heap s1 = heap s -> vw s1 = vw s -> tspec body (fun a s2 => Q a (vw s2)) s1) ->
  exists r s1, run_txn body s = (r, s1) /\ calm_env s s1 /\
    match r with inl e => e <> CLE_OK /\ vw s1 = vw s | inr a => Q a (vw s1) end.
Proof.
  intros Hc Hb. assert (codes_fail (run_txn body)) as Hc'.
  { unfold run_txn. apply cf_bind. intros rc. destruct (negb (rc =? 0)); [by apply cf_fail|].
    intros s1 e. unfold bind. specialize (Hc s1). destruct (body s1) as [[e'|a] s2].
    - unfold txn_abort. destruct (db_txn_abort (db s2)). intros [= <-]. by apply Hc.
    - unfold txn_commit. destruct (db_txn_commit (db s2)). case_match; [by intros [= <-]|done]. }
  destruct (run_txn body s) as [r s1] eqn:E. exists r, s1. split; [done|].
  specialize (Hc' s). rewrite E in Hc'.
  eapply wp_run in E; [|apply (run_txn_spec body (fun a s2 => Q a (vw s2))); [done|]].
  - destruct E as [H1 Hr]. split; [done|]. destruct r as [e|a]; [|done]. split; [|done]. by apply Hc'.
  - intros a s2 s3 HQ _ ->. done.
Qed.

(** The reply [code] went out after an atomic change of the database: the
    transition [a] if it is [CLE_OK], none otherwise. *)
Definition replies (p : nat) (s : srv D) (res : unit * srv D) (a : alabel) : Prop :=
  exists code s1, res = sess_sendresp_generic p code s1 /\ calm_env s s1 /\
    ((code = CLE_OK /\ astep (current_time s) a (vw s) (vw s1)) \/ (code <> CLE_OK /\ vw s1 = vw s)).

Lemma txn_replies (p : nat) (body : M D (cle_err + unit)) (a : alabel) s :
  codes_fail body ->
  (forall s1, calm_env s s1 -> heap s1 = heap s -> vw s1 = vw s ->
     tspec body (fun _ s2 => astep (current_time s) a (vw s) (vw s2)) s1) ->
  replies p s ((let! r := run_txn body in sess_sendresp_generic p (resp_of r)) s) a.
Proof.
  intros Hc Hb.
  destruct (run_txn_reply body (fun _ v => astep (current_time s) a (vw s) v) s Hc Hb)
    as (r & s1 & E & H1 & Hr).
  exists (resp_of r), s1. unfold bind. rewrite E. split_and!; [done|done|].
  destruct r as [e|u]; [by right|by left].
Qed.

(** Whatever the reply, the database made at most the transition. *)
Lemma replies_vw (p : nat) s (res : unit * srv D) (a : alabel) : replies p s res a ->
  calm_env s res.2 /\ (vw res.2 = vw s \/ astep (current_time s) a (vw s) (vw res.2)).
Proof.
  intros (code & s1 & -> & H1 & Hr). pose proof (quiet_sendresp_generic p code s1) as Hq.
  split; [etrans; [done|apply Hq]|]. rewrite (quiet_vw _ _ Hq). naive_solver.
Qed.

End replies.

(** ** GET *)

Section get.
Context {D : Type} `{!Bdb D, !BdbOk D, !BdbReliable D} {XL : XdrLib} {HL : HmacLib}.
Implicit Types s : srv D.

Lemma wp_dbcall_rel {A} (q : dbreq A) (Q : res A -> srv D -> Prop) s :
  (forall r s', calm s s' -> heap s' = heap s -> dbdoc q (vw s) r (vw s') -> Q r s') -> wp (dbcall q) Q s.
Proof.
  intros HQ. unfold wp, dbcall. pose proof (rel_call q (db s)) as Hs. pose proof (db_call_ok q (db s)) as [_ Hd].
  destruct (db_call q (db s)) as [r d']. apply HQ; [|done|done]. split; [apply set_db_calm|done].
Qed.

(** The reply leaves from a state that shows the same contents. *)
Definition sends_reply (p : nat) s (g : cle_err + cld_msg_get_resp) (r : cle_err + unit) s' : Prop :=
  exists s1, calm s s1 /\ heap s1 = heap s /\ vw s1 = vw s /\
    match g with
    | inl e => r = inl e /\ s' = s1
    | inr m => r = inr tt /\ s' = (sess_sendmsg p (MGetResp m) CMO_GET cb_null s1).2
    end.

Lemma msg_get_body_spec (p : nat) (fh : Z) s :
  wp (msg_get_body p fh)
    (sends_reply p s (get_reply (vw s) (s_sid (heap s !!! p)) fh (s_msg_xid (heap s !!! p))
                        (s_msg_op (heap s !!! p) =? CMO_GET))) s.
Proof.
  unfold msg_get_body, get_reply, ebind, or_fail. apply wp_bind, wp_get_sess. set (x := heap s !!! p).
  apply wp_bind, wp_bind, wp_dbcall_rel. intros r1 s1 C1 Hh1 [V1 ->].
  destruct (v_handles (vw s) !! (s_sid x, fh)) as [h|]; cbn [lookup_res]; apply wp_ret; [|apply wp_ret; exists s1; done].
  destruct (flag (rh_mode h) COM_READ); cbn [negb]; [|apply wp_ret; exists s1; done].
  apply wp_bind, wp_bind, wp_dbcall_rel. rewrite V1. intros r2 s2 C2 Hh2 [V2 ->].
  assert (calm s s2 /\ heap s2 = heap s) as [C12 Hh12] by (split; [by etrans|congruence]).
  destruct (v_inodes (vw s) !! rh_inum h) as [ino|]; cbn [lookup_res]; apply wp_ret; [|apply wp_ret; exists s2; done].
  assert (forall d (s3 : srv D), calm s s3 -> heap s3 = heap s -> vw s3 = vw s ->
    wp (lift (sess_sendmsg p (MGetResp (mkGetResp CLE_OK (s_msg_xid x) (ri_inum ino) (ri_version ino)
         (ri_time_create ino) (ri_time_modify ino) (ri_flags ino)
         (take (Z.to_nat (ri_ino_len ino)) (ri_name ino)) d)) CMO_GET cb_null ;;; ret tt))
      (sends_reply p s (inr (mkGetResp CLE_OK (s_msg_xid x) (ri_inum ino) (ri_version ino)
         (ri_time_create ino) (ri_time_modify ino) (ri_flags ino)
         (take (Z.to_nat (ri_ino_len ino)) (ri_name ino)) d))) s3) as Hsend.
  { intros d s3 C3 H3 V3. unfold lift. apply wp_bind, wp_bind. apply wp_intro. intros ok s4 E4.
    apply wp_ret, wp_ret. exists s3. by rewrite E4. }
  apply wp_bind. destruct (s_msg_op x =? CMO_GET); cbn [andb].
  - apply wp_bind, wp_dbcall_rel. rewrite V2. intros r3 s3 C3 Hh3 [V3 ->].
    assert (calm s s3 /\ heap s3 = heap s) as [C13 Hh13] by (split; [by etrans|congruence]).
    unfold data_of. destruct (v_data (vw s) !! rh_inum h) as [d|] eqn:Ed; cbn [lookup_res default from_option id].
    + rewrite bool_decide_true by done. destruct (Z.of_nat (length d) =? ri_size ino); cbn [negb andb];
        apply wp_ret; [by apply Hsend|]. apply wp_ret. by exists s3.
    + rewrite bool_decide_false by by intros [? ?]. cbn. apply wp_ret. by apply Hsend.
  - apply wp_ret. by apply Hsend.
Qed.

End get.
