(* ===== verification/SessionSpec.v ===== *)
(** * SessionSpec: removal and expiry of sessions

    [session_remove] makes the [ARemove] transition of the abstract service;
    when no allocation fails it removes every handle of the session and its
    locks on the inodes it opened for locking.  The session timer either keeps
    the session or disposes of it, and changes the database by at most that
    transition. *)

From Stdlib Require Import Sorted.
From S2P Require Import Prelude Htab Dirent Wire Bdb Srv Cldb Outq Msg Session Logic OutqSpec Abs Inv MsgSpec.
#[local] Open Scope Z_scope.

(** ** The handles of a session are a prefix of the key range *)

Lemma sorted_tail {A} (R : A -> A -> Prop) (l1 l2 : list A) (x : A) :
  StronglySorted R (l1 ++ x :: l2) -> Forall (R x) l2.
Proof.
  induction l1 as [|a l1 IH]; simpl; intros Hs; inversion Hs; subst; [done|by apply IH].
Qed.

Definition sid_range (v : dbview) : Prop := forall k h, v_handles v !! k = Some h -> 0 <= rh_sid h < 2 ^ 64.

Lemma inv_sid_range (v : dbview) : db_inv v -> sid_range v.
Proof.
  intros Hinv k h Hh. destruct (di_hsess v Hinv k h Hh) as [r Hr]. by apply (di_sess v Hinv _ r).
Qed.

Lemma range_prefix (sid : Z) (v : dbview) (hs1 hs2 : list raw_handle) :
  0 <= sid < 2 ^ 64 -> sid_range v ->
  lists_handles (v_handles v)
    (fun h => memcmp (hkey_bytes sid 0) (hkey_bytes (rh_sid h) (rh_fh h)) <= 0) (hs1 ++ hs2) ->
  StronglySorted (fun a b => memcmp (hkey_bytes (rh_sid a) (rh_fh a)) (hkey_bytes (rh_sid b) (rh_fh b)) <= 0)
    (hs1 ++ hs2) ->
  (hs2 = [] \/ exists g t, hs2 = g :: t /\ rh_sid g <> sid) ->
  forall k h, v_handles v !! k = Some h -> rh_sid h = sid -> h ∈ hs1.
Proof.
  intros Hsid Hrange [_ Hl] Hsort Hend k h Hh Es.
  assert (h ∈ hs1 ++ hs2) as Hin.
  { apply Hl. split; [by exists k|]. rewrite Es. apply hkey_start. }
  apply elem_of_app in Hin as [Hin|Hin]; [done|]. exfalso.
  destruct Hend as [->|(g & t & -> & Hg)]; [by inversion Hin|].
  apply elem_of_cons in Hin as [->|Hin]; [done|].
  assert (g ∈ hs1 ++ g :: t) as Hgin by set_solver. apply Hl in Hgin as [[kg Hkg] Hge].
  apply sorted_tail in Hsort. rewrite Forall_forall in Hsort. specialize (Hsort h Hin). cbn in Hsort.
  rewrite hkey_cmp in Hge, Hsort. rewrite Es in Hsort.
  pose proof (Hrange kg g Hkg) as Hgr.
  pose proof (sid_cmp_ne sid (rh_sid g) Hsid Hgr (not_eq_sym Hg)) as Hne.
  pose proof (memcmp_antisym (sid_bytes sid) (sid_bytes (rh_sid g))) as Ha.
  unfold sid_bytes in Ha at 1 2. rewrite !length_le_bytes in Ha. specialize (Ha eq_refl).
  rewrite Ha in Hsort. rewrite (proj2 (Z.eqb_neq _ _)) in Hge by done.
  rewrite (proj2 (Z.eqb_neq _ _)) in Hsort by lia. lia.
Qed.

(** ** Deleting handles *)

Definition del_handles (hs : list raw_handle) (v : dbview) : dbview :=
  foldl (fun v h => upd_handles (delete (rh_key h)) v) v hs.

Lemma del_handles_frame (hs : list raw_handle) (v : dbview) :
  let v' := del_handles hs v in
  v_sessions v' = v_sessions v /\ v_inodes v' = v_inodes v /\ v_data v' = v_data v /\ v_locks v' = v_locks v.
Proof.
  revert v. induction hs as [|h hs IH]; intros v; [done|]. cbn.
  destruct (IH (upd_handles (delete (rh_key h)) v)) as (A & B & C & E).
  unfold del_handles in *. rewrite A, B, C, E. done.
Qed.

Lemma del_handles_lookup (hs : list raw_handle) (v : dbview) (k : Z * Z) :
  v_handles (del_handles hs v) !! k = if decide (k ∈ rh_key <$> hs) then None else v_handles v !! k.
Proof.
  revert v. induction hs as [|h hs IH]; intros v; [done|]. cbn [del_handles foldl].
  fold (del_handles hs (upd_handles (delete (rh_key h)) v)). rewrite IH, fmap_cons. cbn.
  destruct (decide (k ∈ rh_key <$> hs)) as [Hk|Hk].
  - rewrite decide_True; [done|]. by right.
  - destruct (decide (k = rh_key h)) as [->|Hne].
    + rewrite lookup_delete_eq, decide_True; [done|]. left.
    + rewrite lookup_delete_ne, decide_False; [done| |done]. by rewrite elem_of_cons; intros [?|?].
Qed.

Section remove.
Context {D : Type} `{!Bdb D, !BdbOk D, !XdrLib, !HmacLib}.
Implicit Types s : srv D.

Lemma array_push_spec (arr : list Z) (alloc : nat) (x : Z) s :
  wp (array_push arr alloc x) (fun r s' => still s s' /\ (lucky s -> is_Some r) /\
    forall arr' alloc', r = Some (arr', alloc') -> arr' = arr ++ [x]) s.
Proof.
  unfold array_push. destruct (_ =? alloc)%nat.
  - apply wp_bind, wp_malloc_ok. intros b s1 H1%quiet_still _ _ L1.
    destruct b; apply wp_ret; (split_and!; [done| |]); try done.
    + by intros arr' alloc' [= <- _].
    + intros L. by specialize (L1 L).
  - apply wp_ret. split_and!; [done|done|]. by intros arr' alloc' [= <- _].
Qed.

Definition lock_inums (hs : list raw_handle) : list Z :=
  rh_inum <$> filter (fun h => flag (rh_mode h) COM_LOCK = true) hs.

Lemma remove_handles_loop_spec (sid : Z) (locks : list Z) (alloc : nat) (hs : list raw_handle) s :
  wp (remove_handles_loop sid locks alloc hs) (fun r s' => calm s s' /\
    exists hs1 hs2, hs = hs1 ++ hs2 /\ Forall (fun h => rh_sid h = sid) hs1 /\
      vw s' = del_handles hs1 (vw s) /\ (forall rc, r = inl rc -> rc = 0 /\ ~ lucky s) /\
      (forall rc locks', r = inr (rc, locks') -> rc <> DB_NOTFOUND) /\
      forall locks', r = inr (0, locks') ->
        (hs2 = [] \/ exists g t, hs2 = g :: t /\ rh_sid g <> sid) /\ locks' = locks ++ lock_inums hs1) s.
Proof.
  revert locks alloc s. induction hs as [|h hs IH]; intros locks alloc s; cbn [remove_handles_loop];
    apply wp_bind, wp_dbcall; intros r s1 H1 _ Hd; pose proof (ro_CurGet _ _ _ Hd) as V1;
    (destruct r as [a|e]; [|apply CurGet_Err in Hd; apply wp_ret; split; [done|];
       eexists [], _; split_and!; [done|done|done|done|naive_solver..]]).
  { apply wp_ret. split; [done|]. exists [], []. split_and!; try done; [by intros rc l [= <- _]|].
    intros locks' [= <-]. split; [by left|]. by rewrite app_nil_r. }
  destruct (Z.eqb_spec (rh_sid h) sid) as [Es|Es]; cbn [negb].
  2:{ apply wp_ret. split; [done|]. exists [], (h :: hs). split_and!; try done; [by intros rc l [= <- _]|].
      intros locks' [= <-]. split; [right; eauto|]. by rewrite app_nil_r. }
  set (locks1 := if flag (rh_mode h) COM_LOCK then locks ++ [rh_inum h] else locks).
  assert (forall Q : option (list Z * nat) -> srv D -> Prop,
    (forall o s', still s1 s' -> (lucky s1 -> is_Some o) -> (forall a b, o = Some (a, b) -> a = locks1) -> Q o s') ->
    wp (if flag (rh_mode h) COM_LOCK then array_push locks alloc (rh_inum h) else ret (Some (locks, alloc))) Q s1)
    as Hpush.
  { intros Q HQ. unfold locks1 in HQ. destruct (flag (rh_mode h) COM_LOCK).
    - eapply wp_mono; [apply array_push_spec|]. intros o s' (A & B & C). by apply HQ.
    - apply wp_ret, HQ; [done|done|]. by intros a' b [= <- _]. }
  apply wp_bind, Hpush. clear Hpush. intros o s2 S2 L2 E2.
  assert (calm s s2) as H12 by (etrans; [done|by apply still_calm]).
  destruct o as [[l1 al1]|].
  2:{ apply wp_ret. split; [done|]. exists [], (h :: hs). split_and!; try done.
      - cbn. by rewrite (proj2 S2).
      - intros rc [= <-]. split; [done|]. intros L. by destruct (L2 (lucky_calm _ _ (proj1 H1) L)). }
  rewrite (E2 _ _ eq_refl). apply wp_bind, wp_dbcall. intros r s3 H3 _ Hd3. destruct r as [u|e].
  2:{ pose proof (dbstep_Err _ _ _ _ Hd3) as [V3 _]. apply HandleCurDel_Err in Hd3 as [??]. apply wp_ret. split; [by etrans|].
      exists [], (h :: hs). split_and!; try done; [cbn; by rewrite V3, (proj2 S2)|naive_solver..]. }
  assert (vw s3 = upd_handles (delete (rh_key h)) (vw s)) as V3.
  { apply dbstep_Ok in Hd3. cbn in Hd3. rewrite <- V1, <- (proj2 S2). case_match; [|by destruct Hd3].
    by destruct Hd3. }
  eapply wp_mono; [apply IH|]. intros r s4 (H4 & hs1 & hs2 & -> & Hf & V4 & Hl & Hn & Hr).
  split; [etrans; [done|by etrans]|]. exists (h :: hs1), hs2. split_and!; [done|by constructor| | |done|].
  - by rewrite V4, V3.
  - intros rc Hrc. destruct (Hl rc Hrc) as [? Hnl]. split; [done|]. intros L. apply Hnl.
    eapply lucky_calm; [|exact L]. etrans; [apply H12|apply H3].
  - intros locks' Hl'. destruct (Hr locks' Hl') as [He ->]. split; [done|].
    unfold locks1, lock_inums. destruct (flag (rh_mode h) COM_LOCK) eqn:Ef.
    + rewrite filter_cons_True by done. by rewrite <- app_assoc.
    + by rewrite filter_cons_False by congruence.
Qed.

(** The locks of [inums] without those of the session; everything else as it
    was. *)
Definition locks_cleared (sid : Z) (inums : list Z) (v v' : dbview) : Prop :=
  same_but_locks v v' /\ forall i, locks_of v' i =
    if decide (i ∈ inums) then filter (fun l => rl_sid l <> sid) (locks_of v i) else locks_of v i.

Lemma lmatch_0 (l : raw_lock) (sid : Z) : lmatch l sid 0 = false <-> rl_sid l <> sid.
Proof. unfold lmatch. simpl. rewrite andb_true_r. apply Z.eqb_neq. Qed.

Lemma locks_cleared_nil (sid : Z) (v : dbview) : locks_cleared sid [] v v.
Proof. by split. Qed.

Lemma locks_cleared_cons (sid inum : Z) (inums : list Z) (v1 v2 v3 : dbview) :
  locks_frame inum v1 v2 ->
  locks_of v2 inum = filter (fun l => lmatch l sid 0 = false) (locks_of v1 inum) ->
  locks_cleared sid inums v2 v3 -> locks_cleared sid (inum :: inums) v1 v3.
Proof.
  intros [(A1 & A2 & A3 & A4) A5] E [(B1 & B2 & B3 & B4) B5].
  assert (locks_of v2 inum = filter (fun l => rl_sid l <> sid) (locks_of v1 inum)) as E'.
  { rewrite E. apply list_filter_iff. intros l. apply lmatch_0. }
  split; [split_and!; congruence|]. intros i. rewrite B5. destruct (decide (i = inum)) as [->|Hi].
  - rewrite (decide_True (P := inum ∈ inum :: inums)) by left. rewrite E'. case_decide; [|done].
    rewrite list_filter_filter. apply list_filter_iff. tauto.
  - rewrite A5 by done. repeat case_decide; try done; set_solver.
Qed.

Lemma scan_waiters_loop_spec (sid : Z) (waiters : list Z) (alloc : nat) (locks : list Z) s :
  (forall i, Forall (fun l => rl_inum l = i) (locks_of (vw s) i)) ->
  wp (scan_waiters_loop sid waiters alloc locks) (fun r s' => calm s s' /\
    ((forall rc, r = inl rc -> rc = 0) -> exists inums, inums ⊆ locks /\ locks_cleared sid inums (vw s) (vw s')) /\
    (forall w, r = inr w -> locks_cleared sid locks (vw s) (vw s')) /\
    (r = inl 0 -> ~ lucky s)) s.
Proof.
  revert waiters alloc s. induction locks as [|inum locks IH]; intros waiters alloc s Hk; cbn [scan_waiters_loop].
  { apply wp_ret. split_and!; [done| |intros; apply locks_cleared_nil|done].
    intros _. exists []. split; [done|apply locks_cleared_nil]. }
  apply wp_bind. eapply wp_mono; [by apply session_remove_locks_spec|].
  intros [rc w] s1 [H1 HQ]. cbn [fst snd] in HQ.
  destruct (Z.eqb_spec rc 0) as [->|Hrc]; cbn [negb].
  2:{ apply wp_ret. split_and!; [done|naive_solver|done|congruence]. }
  destruct (HQ eq_refl) as (F & L & _).
  assert (forall Q : option (list Z * nat) -> srv D -> Prop,
    (forall o s', still s1 s' -> (lucky s1 -> is_Some o) -> Q o s') ->
    wp (if w then array_push waiters alloc inum else ret (Some (waiters, alloc))) Q s1) as Hpush.
  { intros Q HQ'. destruct w; [|apply wp_ret, HQ'; done].
    eapply wp_mono; [apply array_push_spec|]. intros o s' (A & B & _). by apply HQ'. }
  apply wp_bind, Hpush. clear Hpush. intros o s2 S2 L2.
  assert (calm s s2) as H12 by (etrans; [done|by apply still_calm]).
  assert (locks_cleared sid [inum] (vw s) (vw s2)) as Hc1.
  { rewrite (proj2 S2). eapply locks_cleared_cons; [done|done|apply locks_cleared_nil]. }
  destruct o as [[w1 al1]|].
  2:{ apply wp_ret. split_and!; [done| |done|].
      - intros _. exists [inum]. split; [set_solver|done].
      - intros _ L'. by destruct (L2 (lucky_calm _ _ (proj1 H1) L')). }
  eapply wp_mono; [apply IH|].
  { intros i. rewrite (proj2 S2). destruct (decide (i = inum)) as [->|Hi].
    - rewrite L. eapply sublist_Forall; [apply sublist_filter|apply Hk].
    - rewrite (proj2 F) by done. apply Hk. }
  intros r s3 (H3 & P3 & W3 & L3). rewrite (proj2 S2) in *. split_and!; [by etrans| | |].
  - intros (inums & Hsub & Hc)%P3. exists (inum :: inums). split; [set_solver|by eapply locks_cleared_cons].
  - intros w' Hw. eapply locks_cleared_cons; [done|done|by eapply W3].
  - intros Hr L'. apply (L3 Hr). eapply lucky_calm; [apply H12|done].
Qed.

Lemma still_rescan_waiters (waiters : list Z) : is_still (@rescan_waiters_loop D _ _ _ waiters).
Proof. induction waiters; cbn [rescan_waiters_loop]; solve_still. Qed.

(** What [session_remove] has done when it returns 0. *)
Record removed (sid : Z) (full : Prop) (v v' : dbview) : Prop := {
  rm_inodes : v_inodes v' = v_inodes v;
  rm_data : v_data v' = v_data v;
  rm_handles1 k h : v_handles v' !! k = Some h -> v_handles v !! k = Some h;
  rm_handles2 k h : v_handles v !! k = Some h -> v_handles v' !! k = Some h \/ rh_sid h = sid;
  rm_locks i : locks_of v' i = locks_of v i \/ locks_of v' i = filter (fun l => rl_sid l <> sid) (locks_of v i);
  rm_sess : v_sessions v' = v_sessions v \/
    v_sessions v' = delete sid (v_sessions v) /\ forall k h, v_handles v' !! k = Some h -> rh_sid h <> sid;
  rm_full : full ->
    v_sessions v' = delete sid (v_sessions v) /\
    (forall k h, v_handles v' !! k = Some h -> rh_sid h <> sid) /\
    forall k h, v_handles v !! k = Some h -> rh_sid h = sid -> flag (rh_mode h) COM_LOCK = true ->
      Forall (fun l => rl_sid l <> sid) (locks_of v' (rh_inum h)) }.

Lemma removed_intro (sid : Z) (hs1 : list raw_handle) (inums : list Z) (full : Prop) (v v1 : dbview)
    (del : bool) :
  db_inv v -> Forall (fun h => rh_sid h = sid) hs1 ->
  (forall h, h ∈ hs1 -> exists k, v_handles v !! k = Some h) ->
  locks_cleared sid inums (del_handles hs1 v) v1 ->
  (del = true -> (forall k h, v_handles v !! k = Some h -> rh_sid h = sid -> h ∈ hs1) /\
                 inums = lock_inums hs1) ->
  (full -> del = true) ->
  removed sid full v (if del then upd_sessions (delete sid) v1 else v1).
Proof.
  intros Hinv Hf Hin [(A1 & A2 & A3 & A4) A5] Hdel Hfull.
  destruct (del_handles_frame hs1 v) as (B1 & B2 & B3 & B4). cbv zeta in *.
  assert (forall i, locks_of (del_handles hs1 v) i = locks_of v i) as B4'.
  { intros i. unfold locks_of. by rewrite B4. }
  set (v2 := if del then upd_sessions (delete sid) v1 else v1).
  assert (v_inodes v2 = v_inodes v1 /\ v_data v2 = v_data v1 /\ v_handles v2 = v_handles v1 /\
    (forall i, locks_of v2 i = locks_of v1 i) /\
    v_sessions v2 = if del then delete sid (v_sessions v1) else v_sessions v1)
    as (C1 & C2 & C3 & C4 & C5) by by unfold v2; destruct del.
  assert (forall k h, v_handles v2 !! k = Some h -> v_handles v !! k = Some h /\ (k ∉ rh_key <$> hs1)) as Hsub.
  { intros k h. rewrite C3, A4, del_handles_lookup. by case_decide. }
  assert (del = true -> forall k h, v_handles v2 !! k = Some h -> rh_sid h <> sid) as Hgone.
  { intros Ed k h [Hh Hk]%Hsub Es. destruct (Hdel Ed) as [Hall _]. apply Hk.
    rewrite <- (di_hkey v Hinv k h Hh). apply list_elem_of_fmap_2. by eapply Hall. }
  split.
  - congruence.
  - congruence.
  - intros k h Hh. by apply Hsub in Hh as [? _].
  - intros k h Hh. rewrite C3, A4, del_handles_lookup. case_decide as Hk; [right|by left].
    apply list_elem_of_fmap in Hk as (g & -> & Hg). destruct (Hin g Hg) as [kg Hkg].
    pose proof (di_hkey v Hinv kg g Hkg) as Ek. rewrite Ek in Hh. assert (h = g) as -> by congruence.
    rewrite Forall_forall in Hf. by apply Hf.
  - intros i. rewrite C4, A5, B4'. case_decide; [by right|by left].
  - rewrite C5, A1, B1. destruct del; [right|by left]. split; [done|by apply Hgone].
  - intros Hfl. specialize (Hfull Hfl). subst del. split_and!; [by rewrite C5, A1, B1|by apply Hgone|].
    intros k h Hh Es Hl. destruct (Hdel eq_refl) as [Hall ->]. rewrite C4, A5, B4', decide_True.
    + apply Forall_forall. by intros l [? _]%list_elem_of_filter.
    + apply list_elem_of_fmap_2, list_elem_of_filter. split; [done|by eapply Hall].
Qed.

Lemma session_remove_spec (p : nat) s : db_inv (vw s) -> 0 <= s_sid (heap s !!! p) < 2 ^ 64 ->
  wp (session_remove p) (fun rc s' => calm s s' /\
    (rc = 0 -> removed (s_sid (heap s !!! p)) (lucky s) (vw s) (vw s'))) s.
Proof.
  intros Hinv Hsid. unfold session_remove. apply wp_bind, wp_get_sess. cbv zeta.
  set (sid := s_sid (heap s !!! p)) in *.
  apply wp_bind, wp_malloc_ok. intros b1 s1 S1%quiet_still _ _ _.
  destruct b1; cbn [negb]; [|apply wp_ret; split; [by apply still_calm|done]].
  apply wp_bind, wp_malloc_ok. intros b2 s2 S2%quiet_still _ _ _.
  assert (still s s2) as S12 by by etrans. clear S1 S2.
  destruct b2; cbn [negb]; [|apply wp_ret; split; [by apply still_calm|done]].
  apply wp_bind, wp_dbcall. intros r s3 H3 Hh3 Hd. destruct r as [hs|e].
  2:{ apply dbstep_Err in Hd as [_ ?]. apply wp_ret. split; [|done]. etrans; [by apply still_calm|done]. }
  assert (still s s3) as S13 by (etrans; [done|apply still_intro; [done|done|by apply ro_HandleRange in Hd]]).
  rewrite (proj2 S12) in Hd. apply dbstep_Ok in Hd as (_ & hs' & [= <-] & Hlist & Hsort). clear S12 H3 Hh3.
  pose proof (still_calm _ _ S13) as H13. pose proof (proj2 S13) as V13.
  apply wp_bind. eapply wp_mono; [apply remove_handles_loop_spec|].
  intros r s4 (H4 & hs1 & hs2 & -> & Hf & V4 & Hl4 & Hn4 & Hr4). rewrite V13 in V4.
  assert (calm s s4) as H14 by by etrans.
  assert (forall h, h ∈ hs1 -> exists k, v_handles (vw s) !! k = Some h) as Hin.
  { intros h Hh. apply Hlist. set_solver. }
  destruct r as [rc|[rc locks]].
  { destruct (Hl4 rc eq_refl) as [-> Hnl]. apply wp_ret. split; [done|]. intros _.
    rewrite V4. apply (removed_intro sid hs1 [] (lucky s) (vw s) _ false); try done.
    intros L. exfalso. apply Hnl. eapply lucky_calm; [apply H13|done]. }
  cbv zeta. rewrite (end_of_scan_id rc) by by eapply Hn4.
  apply wp_bind, wp_dbcall. intros c s5 H5 Hh5 Hd5. pose proof (ro_CurClose _ _ _ Hd5) as V5.
  assert (calm s s5) as H15 by by etrans.
  destruct (Z.eqb_spec rc 0) as [->|Hrc].
  2:{ rewrite (proj2 (Z.eqb_neq _ _)) by done. apply wp_ret. done. }
  destruct c as [u|e]; cbn [rc_of Z.eqb negb].
  2:{ apply dbstep_Err in Hd5 as [_ He]. rewrite (proj2 (Z.eqb_neq _ _)) by done. apply wp_ret. done. }
  destruct (Hr4 locks eq_refl) as [Hend ->]. cbn [app].
  pose proof (range_prefix sid (vw s) hs1 hs2 Hsid (inv_sid_range _ Hinv) Hlist Hsort Hend) as Hall.
  apply wp_bind. eapply wp_mono; [apply scan_waiters_loop_spec|].
  { intros i. rewrite V5, V4. unfold locks_of. destruct (del_handles_frame hs1 (vw s)) as (_ & _ & _ & ->).
    apply (di_lkey _ Hinv). }
  intros r s6 (H6 & P6 & W6 & L6). rewrite V5, V4 in *.
  assert (calm s s6) as H16 by by etrans. destruct r as [rc|waiters].
  { apply wp_ret. split; [done|]. intros ->. destruct P6 as (inums & _ & Hc); [by intros rc [= <-]|].
    apply (removed_intro sid hs1 inums (lucky s) (vw s) _ false); try done.
    intros L. exfalso. apply (L6 eq_refl). eapply lucky_calm; [apply H15|done]. }
  specialize (W6 waiters eq_refl).
  apply wp_bind, wp_still; [apply still_rescan_waiters|]. intros rc s7 S7.
  assert (calm s s7) as H17 by (etrans; [done|by apply still_calm]).
  destruct (Z.eqb_spec rc 0) as [->|Hrc]; cbn [negb]; [|apply wp_ret; done].
  unfold cldb_session_del. apply wp_bind, wp_dbcall. intros r s8 H8 _ Hd8. apply wp_ret.
  split; [by etrans|]. destruct r as [u'|e]; [|by apply dbstep_Err in Hd8 as [_ ?]]. intros _.
  apply dbstep_Ok in Hd8. cbn in Hd8. rewrite (proj2 S7) in Hd8.
  assert (vw s8 = upd_sessions (delete sid) (vw s6)) as -> by (case_match; by destruct Hd8).
  by apply (removed_intro sid hs1 (lock_inums hs1) (lucky s) (vw s) _ true).
Qed.

Lemma removed_astep (now sid : Z) (full : Prop) (v v' : dbview) :
  removed sid full v v' -> astep now (ARemove sid) v v'.
Proof. intros []. by apply astep_remove. Qed.

End remove.
