(* ===== verification/Mem.v ===== *)
(** * Mem: the session table and the session objects

    [mem_inv]: every entry of the session table points to a live object with
    that session id; pointers not yet handed out are free; session ids are
    64-bit and reassembly buffers bounded.  A put that grows the table files
    the new entry under the old size (see Htab), which keeps the invariant;
    freeing such an entry's session does not, because the entry is not found
    and stays behind: [filed] excludes that. *)

From S2P Require Import Prelude Htab Dirent Wire Bdb Srv Cldb Outq Msg Session Logic OutqSpec.
#[local] Open Scope Z_scope.

Lemma sess_hash_id (sid : Z) : 0 <= sid < 2 ^ 64 -> sess_hash sid = sid.
Proof. intros Hs. unfold sess_hash, sid_bytes. by apply le_val_le_bytes_small. Qed.

Lemma sess_equal_refl (sid : Z) : sess_equal sid sid = 0.
Proof.
  unfold sess_equal. generalize (sid_bytes sid). intros l. induction l; simpl; [done|]. by rewrite Z.eqb_refl.
Qed.

Section mem.
Context {D : Type}.
Implicit Types s : srv D.

Definition sid_ok (sid : Z) : Prop := 0 <= sid < 2 ^ 64.

(** An entry of the table, over the session objects [h]. *)
Record ent_ok (h : gmap nat session) (e : htab_entry Z nat) : Prop := {
  eo_hash : ent_hash e = sess_hash (ent_key e);
  eo_key : sid_ok (ent_key e);
  eo_obj : exists x, h !! ent_value e = Some x /\ s_sid x = ent_key e }.

Definition tab_ok (t : htab Z nat) (h : gmap nat session) : Prop :=
  forall e, e ∈ concat (buckets t) -> ent_ok h e.

(** The entries for object [p] are in the buckets where lookups go. *)
Definition filed s (p : nat) : Prop :=
  forall b c e, buckets (sessions s) !! b = Some c -> e ∈ c -> ent_value e = p ->
    b = Z.to_nat (ent_hash e mod htab_sz (sessions s)).

Definition obj_ok (x : session) : Prop :=
  sid_ok (s_sid x) /\ Z.of_nat (length (s_msg_buf x)) <= CLD_MAX_MSG_SZ.

Record mem_inv s : Prop := {
  mi_tab : tab_ok (sessions s) (heap s);
  mi_obj p x : heap s !! p = Some x -> obj_ok x;
  mi_ptr p x : heap s !! p = Some x -> (p < next_ptr s)%nat }.

(** A table lookup yields a live session with the id asked for. *)
Lemma mem_get s (sid : Z) (p : nat) : mem_inv s -> sid_ok sid ->
  htab_get sess_hash sess_equal (sessions s) sid = Some p ->
  exists x, heap s !! p = Some x /\ s_sid x = sid.
Proof.
  intros [Ht _ _] Hs. unfold htab_get. set (c := chain _ _ _).
  destruct (head (filter _ c)) as [e|] eqn:E; [|done]. intros [= <-].
  apply head_Some_elem_of in E. apply list_elem_of_filter in E as [Hm Hin].
  unfold c, chain in Hin. rewrite list_lookup_total_alt in Hin.
  destruct (buckets (sessions s) !! _) as [c'|] eqn:Eb; [|by inversion Hin].
  destruct (Ht e) as [Hh Hk (x & Hx & Ex)]; [apply elem_of_concat; eauto|]. exists x. split; [done|].
  unfold ent_match in Hm. apply andb_True in Hm as [Hm%Is_true_true_1%Z.eqb_eq _].
  rewrite Hh, !sess_hash_id in Hm by done. congruence.
Qed.

Lemma tab_ok_mono (t : htab Z nat) (h h' : gmap nat session) : tab_ok t h ->
  (forall p x, h !! p = Some x -> exists x', h' !! p = Some x' /\ s_sid x' = s_sid x) -> tab_ok t h'.
Proof.
  intros Ht Hh e He. destruct (Ht e He) as [A C (x & Hx & Ex)]. split; try done.
  destruct (Hh _ _ Hx) as (x' & Hx' & Es). exists x'. split; [done|congruence].
Qed.

(** Updates that keep ids and bounds. *)
Lemma mem_heap s (h : gmap nat session) : mem_inv s ->
  (forall p, s_sid <$> h !! p = s_sid <$> heap s !! p) ->
  (forall p x, h !! p = Some x -> obj_ok x) -> mem_inv (set_heap h s).
Proof.
  intros [Ht Ho Hp] Hs Hok. split; cbn; [|done|].
  - eapply tab_ok_mono; [done|]. intros p x Hx. specialize (Hs p). rewrite Hx in Hs.
    destruct (h !! p) as [x'|]; simpl in Hs; [|done]. exists x'. split; [done|congruence].
  - intros p x Hx. specialize (Hs p). rewrite Hx in Hs.
    destruct (heap s !! p) as [y|] eqn:Ey; [by eapply Hp|done].
Qed.

Lemma mem_upd_sess s (p : nat) (f : session -> session) : mem_inv s ->
  (forall x, heap s !! p = Some x -> s_sid (f x) = s_sid x /\ obj_ok (f x)) ->
  mem_inv (set_heap (alter f p (heap s)) s).
Proof.
  intros Hm Hf. apply mem_heap; [done|..].
  - intros q. destruct (decide (p = q)) as [->|Hq]; [|by rewrite lookup_alter_ne].
    rewrite lookup_alter_eq. destruct (heap s !! q) as [x|] eqn:E; [|done]. simpl.
    f_equal. by apply Hf.
  - intros q x. destruct (decide (p = q)) as [->|Hq].
    + rewrite lookup_alter_eq. intros (y & Hy & ->)%fmap_Some. by apply Hf.
    + rewrite lookup_alter_ne by done. apply Hm.
Qed.

Lemma mem_calm s s' : calm_env s s' -> mem_inv s -> mem_inv s'.
Proof.
  intros Hc [Ht Ho Hp].
  assert (forall p x', heap s' !! p = Some x' -> exists x, heap s !! p = Some x /\ core x' = core x) as Hh.
  { intros p x' Hx'. pose proof (f_equal (lookup p) (ce_heap _ _ Hc)) as E. rewrite !lookup_fmap, Hx' in E.
    destruct (heap s !! p) as [x|]; simpl in E; [|done]. exists x. split; [done|congruence]. }
  split.
  - rewrite (ce_sessions _ _ Hc). eapply tab_ok_mono; [done|]. intros p x Hx.
    pose proof (f_equal (lookup p) (ce_heap _ _ Hc)) as E. rewrite !lookup_fmap, Hx in E.
    destruct (heap s' !! p) as [x'|]; simpl in E; [|done]. exists x'. split; [done|].
    apply (inj Some) in E. exact (f_equal s_sid E).
  - intros p x' Hx'. destruct (Hh p x' Hx') as (x & Hx & E). destruct (Ho p x Hx) as [A B].
    unfold obj_ok. assert (s_sid x' = s_sid x) as -> by exact (f_equal s_sid E).
    by assert (s_msg_buf x' = s_msg_buf x) as -> by exact (f_equal s_msg_buf E).
  - intros p x' Hx'. destruct (Hh p x' Hx') as (x & Hx & _). rewrite (ce_ptr _ _ Hc). by eapply Hp.
Qed.

(** A new object at a fresh pointer. *)
Lemma mem_alloc s (x : session) : mem_inv s -> obj_ok x ->
  mem_inv (set_next_ptr (S (next_ptr s)) (set_heap (<[next_ptr s := x]> (heap s)) s)).
Proof.
  intros [Ht Ho Hp] Hx. split; cbn.
  - eapply tab_ok_mono; [done|]. intros p y Hy. exists y. split; [|done].
    rewrite lookup_insert_ne; [done|]. intros <-. apply Hp in Hy. lia.
  - intros p y. rewrite lookup_insert. case_decide; [by intros [= <-]|apply Ho].
  - intros p y. rewrite lookup_insert. case_decide; [intros; lia|]. intros Hy%Hp. lia.
Qed.

Lemma elem_of_rehash (sz : Z) (es : list (htab_entry Z nat)) bs (e : htab_entry Z nat) :
  e ∈ concat (foldl (rehash_ent sz) bs es) -> e ∈ concat bs \/ e ∈ es.
Proof.
  revert bs. induction es as [|e' es IH]; intros bs; [by left|]. cbn [foldl]. intros [H|H]%IH; [|right; set_solver].
  unfold rehash_ent in H. apply elem_of_concat in H as (b & c & Hc & He). rewrite list_lookup_alter in Hc.
  case_decide as Hb; [|left; apply elem_of_concat; eauto].
  apply fmap_Some in Hc as (c0 & Hc0 & ->). apply elem_of_app in He as [He|He]; [left; apply elem_of_concat; eauto|].
  right. set_solver.
Qed.

Lemma elem_of_put (t : htab Z nat) (a b : bool) (sid : Z) (p : nat) (e : htab_entry Z nat) :
  e ∈ concat (buckets (htab_put sess_hash a b t sid p).2) ->
  e ∈ concat (buckets t) \/ e = mkEnt sid p (sess_hash sid).
Proof.
  unfold htab_put. set (r := if htab_need_resize t then htab_resize a t else (true, t)).
  assert (forall e, e ∈ concat (buckets r.2) -> e ∈ concat (buckets t)) as Hr.
  { intros e'. unfold r. destruct (htab_need_resize t); [|done]. unfold htab_resize.
    destruct a; [|done]. cbn [negb snd buckets]. intros [H|H]%elem_of_rehash; [|done].
    rewrite concat_init_buckets in H. by apply elem_of_nil in H. }
  destruct r as [ok t']. cbn [snd] in Hr. destruct ok; cbn [negb snd]; [|auto].
  destruct b; cbn [negb snd buckets]; [|auto]. intros (i & c & Hc & He)%elem_of_concat.
  rewrite list_lookup_alter in Hc. case_decide as Hi.
  - apply fmap_Some in Hc as (c0 & Hc0 & ->). apply elem_of_cons in He as [->|He]; [by right|].
    left. apply Hr, elem_of_concat. eauto.
  - left. apply Hr, elem_of_concat. eauto.
Qed.

(** Registering a live session, also when that grows the table. *)
Lemma mem_put s (a b : bool) (sid : Z) (p : nat) (x : session) :
  mem_inv s -> sid_ok sid -> heap s !! p = Some x -> s_sid x = sid ->
  mem_inv (set_sessions (htab_put sess_hash a b (sessions s) sid p).2 s).
Proof.
  intros [Ht Ho Hp] Hs Hx Ex. split; [cbn|apply Ho|apply Hp].
  intros e [He| ->]%elem_of_put; [by apply Ht|]. split; cbn; eauto.
Qed.

(** Dropping a session from the table and the heap. *)
Lemma mem_free s (p : nat) : mem_inv s -> filed s p ->
  mem_inv (set_heap (delete p (heap s))
             (set_sessions (htab_del sess_hash sess_equal (sessions s) (s_sid (heap s !!! p))).2 s)).
Proof.
  intros [Ht Ho Hp] Hf. split; cbn [sessions heap next_ptr set_heap set_sessions].
  2:{ intros q x [_ Hx]%lookup_delete_Some. by eapply Ho. }
  2:{ intros q x [_ Hx]%lookup_delete_Some. by eapply Hp. }
  set (sid := s_sid (heap s !!! p)). set (t := sessions s) in *.
  intros e (b & c & Hc & He)%elem_of_concat. unfold htab_del in Hc. cbn [snd buckets set_buckets] in Hc.
  rewrite list_lookup_alter in Hc.
  assert (exists c0, buckets t !! b = Some c0 /\ e ∈ c0 /\
    (b = Z.to_nat (sess_hash sid mod htab_sz t) -> ~ ent_match sess_hash sess_equal sid e)) as (c0 & Hc0 & He0 & Hne).
  { case_decide as Hb; [|exists c; split_and!; [done|done|by intros ->]].
    rewrite Hb in Hc. apply fmap_Some in Hc as (c0 & Hc0 & ->). apply list_elem_of_filter in He as [Hm He].
    exists c0. by split_and!. }
  destruct (Ht e) as [A C (x & Hx & Ex)]; [apply elem_of_concat; eauto|]. split; [done|done|].
  exists x. split; [|done]. rewrite lookup_delete_ne; [done|]. intros Ep.
  assert (ent_key e = sid) as Ek by (unfold sid; by rewrite Ep, (lookup_total_correct _ _ _ Hx)).
  apply Hne.
  - rewrite (Hf b c0 e Hc0 He0 (eq_sym Ep)), A, Ek. done.
  - unfold ent_match. by rewrite A, Ek, Z.eqb_refl, sess_equal_refl.
Qed.

(** A session whose entry is not where lookups go leaves it behind. *)
Lemma free_leaves_entry s (p : nat) (b : nat) (c : list (htab_entry Z nat)) (e : htab_entry Z nat) :
  buckets (sessions s) !! b = Some c -> e ∈ c ->
  b <> Z.to_nat (sess_hash (s_sid (heap s !!! p)) mod htab_sz (sessions s)) ->
  e ∈ concat (buckets (htab_del sess_hash sess_equal (sessions s) (s_sid (heap s !!! p))).2).
Proof.
  intros Hb He Hne. apply elem_of_concat. exists b, c. split; [|done].
  unfold htab_del. cbn [snd buckets set_buckets]. by rewrite list_lookup_alter_ne.
Qed.

End mem.
