(* ===== verification/System.v ===== *)
(** * System: the server as a transition system

    [step]: what the event loop runs - a packet, a session timer, a retry
    timer, the checkpoint timer.  Every step changes the database by at most
    one transition of the abstract service ([one_step]), and [sys_inv]
    (Inv's [db_inv] and Mem's [mem_inv]) holds in every reachable state,
    provided directory data stays below 2^31 bytes and a session dropped by
    its timer is filed where the table's lookups find it (see Mem). *)

From S2P Require Import Prelude Htab Dirent Wire Bdb Srv Cldb Outq Msg Session Server Logic OutqSpec.
From S2P Require Import Abs Inv MsgSpec SessionSpec Mem.
#[local] Open Scope Z_scope.

Section memquiet.
Context {D : Type}.
Implicit Types s : srv D.

(** Only session objects change, and not their ids. *)
Record memstep s s' : Prop := {
  ms_inv : mem_inv s';
  ms_db : db s' = db s;
  ms_sessions : sessions s' = sessions s;
  ms_time : current_time s' = current_time s;
  ms_sid p : s_sid <$> heap s' !! p = s_sid <$> heap s !! p }.

Definition is_memquiet {A} (m : M D A) : Prop := forall s, mem_inv s -> memstep s (m s).2.

Lemma memstep_trans s1 s2 s3 : memstep s1 s2 -> memstep s2 s3 -> memstep s1 s3.
Proof. intros [A1 B1 C1 D1 E1] [A2 B2 C2 D2 E2]. split; try congruence. Qed.

Lemma quiet_memstep s s' : quiet s s' -> mem_inv s -> memstep s s'.
Proof.
  intros (Hc & Hd & _) Hm. split; [by eapply mem_calm|done|apply Hc|apply Hc|]. intros p.
  pose proof (f_equal (lookup p) (ce_heap _ _ Hc)) as E. rewrite !lookup_fmap in E.
  destruct (heap s' !! p) as [x'|], (heap s !! p) as [x|]; simpl in *; try done.
  f_equal. apply (inj Some) in E. exact (f_equal s_sid E).
Qed.

Lemma mq_quiet {A} (m : M D A) : is_quiet m -> is_memquiet m.
Proof. intros Hq s Hm. apply quiet_memstep; [apply Hq|done]. Qed.

Lemma mq_bind {A B} (m : M D A) (k : A -> M D B) :
  is_memquiet m -> (forall a, is_memquiet (k a)) -> is_memquiet (bind m k).
Proof.
  intros Hm Hk s Hs. unfold bind. specialize (Hm s Hs). destruct (m s) as [a s1].
  eapply memstep_trans; [done|]. apply Hk, Hm.
Qed.

Lemma mq_upd_sess (p : nat) (f : session -> session) :
  (forall x, s_sid (f x) = s_sid x /\ (obj_ok x -> obj_ok (f x))) -> is_memquiet (upd_sess p f).
Proof.
  intros Hf s Hm. split; [|done|done|done|].
  - apply mem_upd_sess; [done|]. intros x Hx. split; [apply Hf|]. apply Hf. by eapply mi_obj.
  - intros q. cbn. destruct (decide (p = q)) as [->|Hq]; [|by rewrite lookup_alter_ne].
    rewrite lookup_alter_eq. destruct (heap s !! q); [|done]. simpl. f_equal. apply Hf.
Qed.

End memquiet.

Ltac mq_step :=
  match goal with
  | |- forall _, _ => intro
  | |- is_memquiet (bind _ _) => apply mq_bind
  | |- is_memquiet (upd_sess _ _) => apply mq_upd_sess; done
  | |- is_memquiet (if ?b then _ else _) => destruct b
  | |- is_memquiet (match ?x with _ => _ end) => destruct x
  | |- is_memquiet (let '_ := ?x in _) => destruct x
  | |- is_memquiet _ => apply mq_quiet; solve [auto with cld]
  end.
Ltac solve_mq := repeat mq_step.

Section mq_outq.
Context {D : Type} `{!XdrLib, !HmacLib}.

Lemma mq_ack_loop (seqid : Z) (q : list session_outpkt) : is_memquiet (@ack_loop D seqid q).
Proof.
  induction q as [|op q IH]; cbn [ack_loop]; [solve_mq|].
  destruct (negb _); solve_mq; try done.
  unfold run_done_cb, session_ping_done, end_sess_done, session_trash. solve_mq.
Qed.

Lemma mq_msg_ack (p : nat) (seqid : Z) : is_memquiet (@msg_ack D p seqid).
Proof. unfold msg_ack. solve_mq. apply mq_ack_loop. Qed.

Lemma mq_retry_loop (fd nr : Z) (q : list session_outpkt) : is_memquiet (@retry_loop D fd nr q).
Proof. revert nr. induction q as [|op q IH]; intros nr; cbn [retry_loop]; solve_mq; apply IH. Qed.

Lemma mq_session_retry (p : nat) (now : Z) : is_memquiet (@session_retry D p now).
Proof. unfold session_retry, sess_retry_output. solve_mq. apply mq_retry_loop. Qed.

End mq_outq.

Section system.
Context {D : Type} `{!Bdb D, !BdbOk D} {XL : XdrLib} {XO : XdrOk} {HL : HmacLib}.
Implicit Types s : srv D.

(** At most one transition of the abstract service. *)
Definition one_step s s' : Prop :=
  vw s' = vw s \/ exists a, astep (current_time s) a (vw s) (vw s').

Definition good s s' : Prop := mem_inv s' /\ one_step s s'.

Definition sys_inv s : Prop := mem_inv s /\ db_inv (vw s).

Lemma good_quiet s s' : mem_inv s -> quiet s s' -> good s s'.
Proof. intros Hm Hq. split; [eapply mem_calm; [apply Hq|done]|left; by apply quiet_vw]. Qed.

Lemma good_mem s s' : memstep s s' -> good s s'.
Proof. intros [A B _ _ _]. split; [done|]. left. unfold vw. by rewrite B. Qed.

Lemma memstep_good s1 s2 s3 : memstep s1 s2 -> good s2 s3 -> good s1 s3.
Proof.
  intros [A B C E F] [Hm Ho]. split; [done|].
  unfold one_step, vw in *. by rewrite B, E in Ho.
Qed.

Lemma good_then_quiet s1 s2 s3 : good s1 s2 -> quiet s2 s3 -> good s1 s3.
Proof.
  intros [Hm Ho] Hq. split; [eapply mem_calm; [apply Hq|done]|]. unfold one_step in *. by rewrite (quiet_vw _ _ Hq).
Qed.

(** *** Request handlers *)

Lemma good_replies (p : nat) s (r : unit * srv D) (a : alabel) : mem_inv s -> replies p s r a -> good s r.2.
Proof.
  intros Hm [Hc Hv]%replies_vw. split; [by eapply mem_calm|]. destruct Hv; [by left|right; eauto].
Qed.

(** Runs of a transaction body from a state that only the begin call separates
    from [s]. *)
Lemma body_at {A} (body : M D (cle_err + A)) (a : Z -> Z -> A -> alabel) (p : nat) s :
  (forall s1, db_inv (vw s1) ->
     tspec body (fun x s2 => astep (current_time s1) (a (s_sid (heap s1 !!! p)) (s_msg_op (heap s1 !!! p)) x)
                               (vw s1) (vw s2)) s1) ->
  db_inv (vw s) -> forall s1, calm_env s s1 -> heap s1 = heap s -> vw s1 = vw s ->
  tspec body (fun x s2 => astep (current_time s) (a (s_sid (heap s !!! p)) (s_msg_op (heap s !!! p)) x)
                            (vw s) (vw s2)) s1.
Proof.
  intros Hb Hinv s1 Hc Hh Hv. specialize (Hb s1). rewrite Hv, Hh, (ce_time _ _ Hc) in Hb. by apply Hb.
Qed.

Lemma msg_put_good (p : nat) (put : cld_msg_put) s : mem_inv s -> db_inv (vw s) -> wp (msg_put p put) (fun _ => good s) s.
Proof.
  intros Hm Hinv. eapply good_replies; [done|]. apply txn_replies; [apply cf_put|].
  by apply (body_at _ (fun sid _ _ => APut sid put) p); [intros; apply msg_put_body_spec|].
Qed.

Lemma msg_close_good (p : nat) (fh : Z) s : mem_inv s -> db_inv (vw s) -> wp (msg_close p fh) (fun _ => good s) s.
Proof.
  intros Hm Hinv. eapply good_replies; [done|]. apply txn_replies; [apply cf_close|].
  by apply (body_at _ (fun sid _ _ => AClose sid fh) p); [intros; apply msg_close_body_spec|].
Qed.

Lemma msg_unlock_good (p : nat) (fh : Z) s : mem_inv s -> db_inv (vw s) -> wp (msg_unlock p fh) (fun _ => good s) s.
Proof.
  intros Hm Hinv. eapply good_replies; [done|]. apply txn_replies; [apply cf_unlock|].
  by apply (body_at _ (fun sid _ _ => AUnlock sid fh) p); [intros; apply msg_unlock_body_spec|].
Qed.

Lemma msg_del_good (p : nat) (name : bytes) s : mem_inv s -> db_inv (vw s) -> wp (msg_del p name) (fun _ => good s) s.
Proof.
  intros Hm Hinv. unfold msg_del. destruct (valid_inode_name _ _) eqn:Hv; cbn [negb orb].
  2:{ apply wp_quiet; [auto with cld|]. intros. by apply good_quiet. }
  destruct (Nat.ltb_spec (length name) 2).
  { apply wp_quiet; [auto with cld|]. intros. by apply good_quiet. }
  eapply (good_replies p s _ (ADel name)); [done|]. apply txn_replies; [apply cf_del|].
  by apply (body_at _ (fun _ _ _ => ADel name) p); [intros; apply msg_del_body_spec|].
Qed.

(** A transaction whose result decides the reply. *)
Lemma txn_good {A} (body : M D (cle_err + A)) (k : cle_err + A -> M D unit) (lab : A -> alabel) s :
  mem_inv s -> codes_fail body -> (forall r, is_quiet (k r)) ->
  (forall s1, calm_env s s1 -> heap s1 = heap s -> vw s1 = vw s ->
     tspec body (fun x s2 => astep (current_time s) (lab x) (vw s) (vw s2)) s1) ->
  wp (bind (run_txn body) k) (fun _ => good s) s.
Proof.
  intros Hm Hc Hk Hb. destruct (run_txn_reply body (fun x v => astep (current_time s) (lab x) (vw s) v) s Hc Hb)
    as (r & s1 & E & H1 & Hr).
  apply wp_bind. unfold wp at 1. rewrite E. cbn [fst snd].
  apply wp_quiet; [done|]. intros _ s2 Hq. eapply good_then_quiet; [|done].
  split; [by eapply mem_calm|]. destruct r as [e|x]; [left; by destruct Hr|right; eauto].
Qed.

Lemma msg_lock_good (p : nat) (lock : cld_msg_lock) s :
  mem_inv s -> db_inv (vw s) -> wp (msg_lock p lock) (fun _ => good s) s.
Proof.
  intros Hm Hinv. eapply (txn_good _ _ (fun got => ALock _ _ _ _ got)); [done|apply cf_lock|auto with cld|].
  by apply (body_at _ (fun sid op got => ALock sid (ml_fh lock) (flag (ml_flags lock) CLF_SHARED) (op =? CMO_LOCK) got) p);
    [intros; apply msg_lock_body_spec|].
Qed.

Lemma msg_open_good (p : nat) (o : cld_msg_open) s :
  mem_inv s -> db_inv (vw s) -> is_Some (heap s !! p) ->
  Z.of_nat (length (mo_inode_name o)) <= CLD_INODE_NAME_MAX -> wp (msg_open p o) (fun _ => good s) s.
Proof.
  intros Hm Hinv [x Hx] Hl.
  assert (0 <= s_sid (heap s !!! p) < 2 ^ 64) as Hr.
  { rewrite (lookup_total_correct _ _ _ Hx). by destruct (mi_obj _ Hm _ _ Hx). }
  eapply (txn_good _ _ (fun fh => AOpen (s_sid (heap s !!! p)) o fh)); [done|apply cf_open| |].
  - intros [e|fh]; solve_quiet.
  - intros s1 Hc Hh Hv. eapply tspec_mono; [apply msg_open_body_spec|].
    + by rewrite Hv.
    + rewrite Hh. eauto.
    + by rewrite Hh.
    + done.
    + intros fh s2 _ [_ Hst]. by rewrite Hh, Hv, (ce_time _ _ Hc) in Hst.
Qed.

Lemma still_get_body (p : nat) (fh : Z) : is_still (@msg_get_body D _ _ _ p fh).
Proof.
  unfold msg_get_body, ebind, or_fail, lift, fail, cldb_handle_get, cldb_inode_get, cldb_data_get. solve_still.
Qed.

Lemma msg_get_good (p : nat) (fh : Z) s : mem_inv s -> wp (msg_get p fh) (fun _ => good s) s.
Proof.
  intros Hm. unfold msg_get. apply wp_bind, wp_txn_begin. intros rc s1 H1 Hh1 Hv1 Hs1.
  assert (good s s1) as G1 by (split; [by eapply mem_calm|by left]).
  destruct (Z.eqb_spec rc 0) as [->|Hrc]; cbn [negb].
  2:{ apply wp_quiet; [auto with cld|]. intros _ s2 Hq. by eapply good_then_quiet. }
  specialize (Hs1 eq_refl). apply wp_bind, wp_still; [apply still_get_body|]. intros r s2 S2.
  assert (vw s2 = vw s /\ saved (db s2) = vw s /\ calm_env s s2) as (V2 & Sv2 & H2).
  { destruct S2 as [[[A B] _] E]. split_and!; [congruence|congruence|by etrans]. }
  destruct r as [e|u].
  - apply wp_bind, wp_txn_abort. intros rc s3 H3 _ V3. apply wp_quiet; [auto with cld|].
    intros _ s4 Hq. eapply good_then_quiet; [|done].
    split; [eapply mem_calm; [|done]; by etrans|left; congruence].
  - apply wp_bind, wp_txn_commit. intros rc s3 H3 _ V3. apply wp_ret.
    split; [eapply mem_calm; [|done]; by etrans|]. left. rewrite V3. by case_match.
Qed.

(** *** Sessions *)

(** Freeing a session, from the table too. *)
Lemma session_free_eq (p : nat) s :
  session_free (Some p) true s =
    (tt, set_heap (delete p (heap s))
           (set_sessions (htab_del sess_hash sess_equal (sessions s) (s_sid (heap s !!! p))).2 s)).
Proof.
  unfold session_free, bind, get_sess, sess_del, modify, ret. by destruct (htab_del _ _ _ _).
Qed.

Lemma filed_calm s s' (p : nat) : calm_env s s' -> filed s p -> filed s' p.
Proof. intros Hc Hf. unfold filed. by rewrite (ce_sessions _ _ Hc). Qed.

Lemma session_timeout_good (p : nat) (now : Z) s : mem_inv s -> db_inv (vw s) -> is_Some (heap s !! p) ->
  (heap (session_timeout p now s).2 !! p = None -> filed s p) ->
  wp (session_timeout p now) (fun _ => good s) s.
Proof.
  intros Hm Hinv [x Hx] Hf. revert Hf.
  change (wp (session_timeout p now) (fun _ s' => (heap s' !! p = None -> filed s p) -> good s s') s).
  unfold session_timeout. apply wp_bind, wp_get_sess. cbv zeta.
  rewrite (lookup_total_correct _ _ _ Hx). case_match.
  - match goal with |- wp ?m _ _ => assert (is_memquiet m) as Hq by solve_mq end.
    specialize (Hq s Hm). intros _. by apply good_mem.
  - apply wp_bind, wp_txn_begin. intros rc s1 H1 Hh1 V1 Sv1.
    destruct (Z.eqb_spec rc 0) as [->|Hrc]; cbn [negb].
    2:{ apply wp_ret. intros _. split; [by eapply mem_calm|by left]. }
    specialize (Sv1 eq_refl). apply wp_bind. unfold session_dispose. apply wp_bind.
    assert (0 <= s_sid (heap s1 !!! p) < 2 ^ 64) as Hsid.
    { rewrite Hh1, (lookup_total_correct _ _ _ Hx). by destruct (mi_obj _ Hm _ _ Hx). }
    eapply wp_mono; [apply session_remove_spec; [by rewrite V1|done]|].
    intros rc s2 [[H2 Sv2] Hrm]. rewrite V1 in Hrm. apply wp_bind. unfold wp at 1.
    rewrite session_free_eq. cbn [fst snd]. apply wp_ret.
    assert (calm_env s s2) as H12 by by etrans.
    pose proof (mem_calm _ _ H12 Hm) as Hm2. pose proof (mem_free s2 p Hm2) as Hm3.
    set (s3 := set_heap _ _) in *.
    assert (forall s4, calm_env s3 s4 -> heap s4 = heap s3 -> (heap s4 !! p = None -> filed s p) -> mem_inv s4) as Hend.
    { intros s4 H4 Hh4 Hf. eapply mem_calm; [exact H4|]. apply Hm3, (filed_calm s s2); [done|]. apply Hf.
      rewrite Hh4. cbn. apply lookup_delete_eq. }
    destruct (Z.eqb_spec rc 0) as [->|Hrc]; cbn [negb].
    + apply wp_bind, wp_txn_commit. intros rc s4 H4 Hh4 V4. apply wp_ret. intros Hf.
      split; [by apply Hend|]. unfold one_step. rewrite V4. change (vw s3) with (vw s2).
      change (db s3) with (db s2). rewrite Sv2, Sv1. case_match; [right|by left].
      exists (ARemove (s_sid (heap s1 !!! p))). eapply removed_astep. by apply Hrm.
    + apply wp_bind, wp_txn_abort. intros rc' s4 H4 Hh4 V4. apply wp_ret. intros Hf.
      split; [by apply Hend|]. left. rewrite V4. change (db s3) with (db s2). congruence.
Qed.

Lemma session_new_spec s : mem_inv s ->
  wp session_new (fun o s' => match o with
    | None => quiet s s'
    | Some p => exists s0 seqid, quiet s s0 /\ p = next_ptr s0 /\ 0 <= seqid < 2 ^ 64 /\
        s' = set_next_ptr (S p) (set_heap (<[p := set_seqid_out seqid (set_next_fh 2 zero_session)]> (heap s0)) s0)
    end) s.
Proof.
  intros Hm. unfold session_new. apply wp_bind, wp_malloc_ok. intros b s1 H1 _ _ _.
  destruct b; cbn [negb]; [|by apply wp_ret].
  apply wp_bind, wp_cld_rand64. intros seqid s2 H2 _ _ Hb.
  apply wp_bind, wp_get, wp_bind, wp_modify, wp_ret. exists s2, seqid. split_and!; [by etrans|done|lia|lia|done].
Qed.

(** The end of NEW_SESS: arm the timer, answer. *)
Lemma new_sess_tail (p : nat) (xid : Z) s :
  wp ((let! ok := ev_ok in
       if ok then upd_sess p (set_timer (Some (CLD_SESS_TIMEOUT / 2))) else ret tt) ;;;
      sess_sendmsg p (MGenericResp CLE_OK xid) CMO_NEW_SESS cb_null ;;; ret tt)
    (fun _ s' => mem_inv s -> memstep s s') s.
Proof.
  match goal with |- wp ?m _ _ => assert (is_memquiet m) as Hq by solve_mq end.
  intros Hm. by apply Hq.
Qed.

(** The table has no entry for an object not handed out yet. *)
Lemma filed_fresh s s' : mem_inv s -> sessions s' = sessions s -> filed s' (next_ptr s).
Proof.
  intros [Ht _ Hp] Es b c e Hb He Ep. rewrite Es in Hb.
  destruct (Ht e) as [_ _ (x & Hx & _)]; [apply elem_of_concat; eauto|]. rewrite Ep in Hx. apply Hp in Hx. lia.
Qed.

Lemma msg_new_sess_good (fd : Z) (cli : cli_info) (info : pkt_info) s :
  mem_inv s -> sid_ok (ph_sid (pi_pkt info)) -> wp (msg_new_sess fd cli info) (fun _ => good s) s.
Proof.
  intros Hm Hsid. unfold msg_new_sess. cbv zeta. apply wp_bind.
  eapply wp_mono; [by apply session_new_spec|]. intros o s1 Ho. destruct o as [p|].
  2:{ apply wp_bind, wp_ret. apply wp_quiet; [auto with cld|]. intros _ s2 Hq. apply good_quiet; [done|by etrans]. }
  destruct Ho as (s0 & seqid & Q0 & -> & _ & ->).
  apply wp_bind, wp_get, wp_bind, wp_upd_sess. cbn [heap set_next_ptr set_heap current_time].
  rewrite (alter_insert_eq _ (next_ptr s0)).
  set (x := mkSess (ph_sid (pi_pkt info)) _ _ _ _ _ _ _ _ _ _ _ _ _ _ _ _ _).
  assert (s_sid x = ph_sid (pi_pkt info)) as Ex by done.
  assert (obj_ok x) as Hx by by split.
  pose proof (mem_calm _ _ (proj1 Q0) Hm) as Hm0.
  pose proof (mem_alloc s0 x Hm0 Hx) as Hm2.
  match goal with |- wp _ _ ?st => set (s2 := st) end.
  change (mem_inv s2) in Hm2.
  assert (vw s2 = vw s) as V2 by exact (quiet_vw _ _ Q0).
  assert (current_time s2 = current_time s) as C2 by exact (ce_time _ _ (proj1 Q0)).
  assert (heap s2 !! next_ptr s0 = Some x) as Hp2 by (cbn; by rewrite lookup_insert_eq).
  apply wp_bind, wp_get_sess. rewrite (lookup_total_correct _ _ _ Hp2).
  apply wp_bind, wp_dbcall. intros r s3 [H3 _] Hh3 Hd. pose proof (mem_calm _ _ H3 Hm2) as Hm3.
  assert (filed s3 (next_ptr s0)) as Hf3.
  { apply (filed_fresh s0); [done|]. exact (ce_sessions _ _ H3). }
  destruct r as [u|e].
  2:{ apply dbstep_Err in Hd as [V3 _]. apply wp_bind. unfold wp at 1. rewrite session_free_eq. cbn [fst snd].
      apply wp_quiet; [auto with cld|]. intros _ s4 Hq. eapply good_then_quiet; [|done].
      split; [by apply mem_free|]. left. change (vw (set_heap ?h (set_sessions ?t s3))) with (vw s3). congruence. }
  assert (one_step s s3) as Ho.
  { right. exists (ANewSess (ph_sid (pi_pkt info))). apply dbstep_Ok in Hd. cbn [dbdoc] in Hd.
    case_bool_decide as Hs; [by destruct Hd|]. destruct Hd as [_ ->]. rewrite V2 in *.
    apply astep_new_sess; [by apply eq_None_not_Some|done|done]. }
  apply wp_bind. unfold sess_put.
  apply wp_bind, wp_malloc_ok. intros a s4 Q4 E4 _ _. apply wp_bind, wp_malloc_ok. intros b s5 Q5 E5 _ _.
  assert (quiet s3 s5) as Q35 by by etrans.
  unfold wp at 1. destruct (htab_put sess_hash a b (sessions s5) (s_sid x) (next_ptr s0)) as [ok t] eqn:Et.
  cbn [fst snd]. set (s6 := set_sessions t s5).
  eapply wp_mono; [apply (new_sess_tail (next_ptr s0))|]. intros [] s7 M7.
  assert (mem_inv s6) as Hm6.
  { assert (t = (htab_put sess_hash a b (sessions s5) (s_sid x) (next_ptr s0)).2) as E by by rewrite Et.
    unfold s6. rewrite E. eapply mem_put; [by eapply mem_calm; [apply Q35|]|done| |done].
    rewrite E5, E4, Hh3. exact Hp2. }
  specialize (M7 Hm6). split; [by apply M7|]. unfold one_step, vw in *. rewrite (ms_db _ _ M7).
  change (db s6) with (db s5). by rewrite (proj1 (proj2 Q35)).
Qed.

(** *** Packets *)

Lemma mq_rx_fragment (fd : Z) (info : pkt_info) (raw_pkt : bytes) (p : nat) :
  is_memquiet (@rx_fragment D fd info raw_pkt p).
Proof.
  unfold rx_fragment. apply mq_bind; [solve_mq|]. intros sv. apply mq_bind; [solve_mq|]. intros _.
  apply mq_bind; [solve_mq|]. intros _. apply mq_bind; [solve_mq|]. intros _.
  apply mq_bind.
  { destruct (flag _ _); [|solve_mq]. apply mq_upd_sess. intros x. split; [done|]. intros [A _]. split; [done|].
    cbn. unfold CLD_MAX_MSG_SZ. lia. }
  intros _ s Hm. unfold bind at 1, get_sess.
  destruct (Z.ltb_spec CLD_MAX_MSG_SZ
    (Z.of_nat (length (s_msg_buf (heap s !!! p)) + (length raw_pkt - pi_hdr_len info - 28)))) as [Hl|Hl].
  { apply quiet_memstep; [by split|done]. }
  unfold bind, upd_sess, modify, ret. cbn [snd]. split; [|done|done|done|].
  - apply mem_upd_sess; [done|]. intros x Hx. split; [done|].
    rewrite (lookup_total_correct _ _ _ Hx) in Hl. destruct (mi_obj _ Hm _ _ Hx) as [A _]. split; [done|].
    cbn. rewrite length_app, length_take. lia.
  - intros q. cbn. destruct (decide (p = q)) as [->|Hq]; [|by rewrite lookup_alter_ne].
    rewrite lookup_alter_eq. by destruct (heap s !! q).
Qed.

Lemma rx_handle_good {A} (p : nat) (h : nat -> A -> M D unit) (dec : bytes -> option A) s :
  mem_inv s -> (forall b v, dec b = Some v -> wp (h p v) (fun _ => good s) s) ->
  wp (tcp_rx_handle (Some p) h dec) (fun r s' => good s s' /\ r <> RxNull) s.
Proof.
  intros Hm Hh. unfold tcp_rx_handle. apply wp_bind, wp_get_sess.
  destruct (dec (s_msg_buf (heap s !!! p))) as [v|] eqn:E.
  - apply wp_bind. eapply wp_mono; [by eapply Hh|]. intros [] s1 Hg. by apply wp_ret.
  - apply wp_ret. split; [|done]. apply good_quiet; [done|by split].
Qed.

Lemma rx_sess_good (p : nat) (h : nat -> M D unit) s :
  mem_inv s -> wp (h p) (fun _ => good s) s -> wp (rx_sess (Some p) h) (fun r s' => good s s' /\ r <> RxNull) s.
Proof.
  intros Hm Hh. unfold rx_sess. apply wp_bind. eapply wp_mono; [exact Hh|]. intros [] s1 Hg. by apply wp_ret.
Qed.

Lemma rx_dispatch_good (fd : Z) (cli : cli_info) (info : pkt_info) s :
  mem_inv s -> db_inv (vw s) -> sid_ok (ph_sid (pi_pkt info)) ->
  (forall p, pi_sess info = Some p -> is_Some (heap s !! p)) ->
  (pi_sess info = None -> pi_op info = CMO_NEW_SESS) ->
  wp (rx_dispatch fd cli info) (fun r s' => good s s' /\ r <> RxNull) s.
Proof.
  intros Hm Hinv Hsid Hp Hnone. unfold rx_dispatch. cbv zeta.
  destruct (pi_sess info) as [p|].
  2:{ rewrite (Hnone eq_refl). cbn. apply wp_bind. eapply wp_mono; [by apply msg_new_sess_good|].
      intros [] s1 Hg. by apply wp_ret. }
  specialize (Hp p eq_refl). clear Hnone.
  assert (forall m : M D unit, is_quiet m -> wp m (fun _ => good s) s) as Hquiet.
  { intros m Hq. apply wp_quiet; [done|]. intros _ s' Hs. by apply good_quiet. }
  repeat case_match; try (apply rx_handle_good; [done|intros b v Hdec]); try (apply rx_sess_good; [done|]).
  - by apply msg_get_good.
  - apply msg_open_good; try done. by eapply xdr_open_bounds.
  - by apply msg_put_good.
  - by apply msg_close_good.
  - by apply msg_del_good.
  - by apply msg_unlock_good.
  - by apply msg_lock_good.
  - apply good_mem. by apply mq_msg_ack.
  - apply Hquiet. auto with cld.
  - apply wp_bind. eapply wp_mono; [by apply msg_new_sess_good|]. intros [] s1 Hg. by apply wp_ret.
  - apply Hquiet. unfold msg_end_sess. solve_quiet.
  - apply wp_ret. split; [|done]. apply good_quiet; [done|by split].
Qed.

Lemma tcp_rx_good (fd : Z) (cli : cli_info) (info : pkt_info) (raw_pkt : bytes) s :
  mem_inv s -> db_inv (vw s) -> sid_ok (ph_sid (pi_pkt info)) ->
  (forall p, pi_sess info = Some p -> is_Some (heap s !! p)) ->
  (pi_sess info = None -> pi_op info = CMO_NEW_SESS) ->
  wp (tcp_rx fd cli info raw_pkt) (fun r s' => good s s' /\ r <> RxNull) s.
Proof.
  intros Hm Hinv Hsid Hp Hnone. unfold tcp_rx. apply wp_bind.
  set (m := match pi_sess info with Some p => rx_fragment fd info raw_pkt p | None => ret true end).
  assert (is_memquiet m) as Hq.
  { unfold m. destruct (pi_sess info); [apply mq_rx_fragment|apply mq_quiet; auto with cld]. }
  specialize (Hq s Hm). unfold wp at 1. destruct (m s) as [fits s1]. cbn [fst snd] in *.
  assert (forall r s2, good s1 s2 /\ r <> RxNull -> good s s2 /\ r <> RxNull) as Hlift.
  { intros r s2 [Hg Hr]. split; [by eapply memstep_good|done]. }
  destruct fits; cbn [negb].
  2:{ apply wp_ret. apply Hlift. split; [|done]. apply good_quiet; [apply Hq|by split]. }
  eapply wp_mono; [|apply Hlift]. destruct (flag _ CLD_PKT_IS_LAST); cbn [negb].
  - apply rx_dispatch_good; try done; [apply Hq|unfold vw; by rewrite (ms_db _ _ Hq)|].
    intros p Hp'. pose proof (ms_sid _ _ Hq p) as Hs. destruct (Hp p Hp') as [x Hx]. rewrite Hx in Hs.
    by destruct (heap s1 !! p).
  - apply wp_bind, wp_quiet; [auto with cld|]. intros _ s2 Q2. apply wp_ret. split; [|done].
    apply good_quiet; [apply Hq|done].
Qed.

Lemma parse_pkt_sid (raw_pkt : bytes) (pkt : cld_pkt_hdr) (n : nat) :
  parse_pkt_header raw_pkt = Some (pkt, n) -> sid_ok (ph_sid pkt).
Proof.
  unfold parse_pkt_header. repeat case_match; try done. intros [= <- <-].
  by match goal with H : xdr_hdr_dec _ = Some _ |- _ => apply xdr_hdr_bounds in H as [? _] end.
Qed.

(** One packet, whatever it contains: at most one transition, and no handler
    ever runs without a session. *)
Lemma cli_rd_pkt_good (cli : cli_info) (raw_pkt : bytes) s : mem_inv s -> db_inv (vw s) ->
  wp (cli_rd_pkt cli raw_pkt) (fun (r : option rx_result * bool) s' => good s s' /\ r.1 <> Some RxNull) s.
Proof.
  intros Hm Hinv. unfold cli_rd_pkt. cbv zeta.
  assert (forall m : M D unit, is_quiet m -> forall b,
    wp (m ;;; ret (None, b)) (fun (r : option rx_result * bool) s' => good s s' /\ r.1 <> Some RxNull) s) as Hquiet.
  { intros m Hq b. apply wp_bind, wp_quiet; [done|]. intros _ s' Hs. apply wp_ret.
    split; [by apply good_quiet|done]. }
  assert (wp (count_garbage ;;; ret (None, false)) (fun (r : option rx_result * bool) s' => good s s' /\ r.1 <> Some RxNull) s) as Hgarb.
  { apply wp_bind, wp_modify, wp_ret. split; [|done]. split; [by destruct Hm; split|by left]. }
  destruct (parse_pkt_header raw_pkt) as [[pkt hdr_len]|] eqn:Ep; [|done].
  pose proof (parse_pkt_sid _ _ _ Ep) as Hsid.
  apply wp_bind. unfold get_pkt_info. apply wp_bind, wp_sess_get. cbv zeta.
  set (osess := htab_get sess_hash sess_equal (sessions s) (ph_sid pkt)).
  assert (forall p, osess = Some p -> is_Some (heap s !! p)) as Hp.
  { intros p Ho. destruct (mem_get s _ _ Hm Hsid Ho) as (x & Hx & _). eauto. }
  assert (forall info, pi_sess info = osess -> pi_pkt info = pkt ->
    wp (let! err := validate_pkt_session info cli in
        if negb (bool_decide (err = CLE_OK)) then
          simple_sendresp (cli_fd cli) info err ;;; ret (None, false) else
        let err := pkt_chk_sig raw_pkt pkt in
        if negb (bool_decide (err = CLE_OK)) then
          simple_sendresp (cli_fd cli) info err ;;; ret (None, false) else
        let! s := get in
        if negb (is_master s && db_up s) then
          simple_sendmsg (cli_fd cli) (ph_sid pkt) (ph_user pkt) 0xdeadbeef MVoid CMO_NOT_MASTER ;;;
          ret (None, false) else
        let! r := tcp_rx (cli_fd cli) cli info raw_pkt in
        match r with
        | RxErr e => simple_sendresp (cli_fd cli) info e ;;; ret (Some r, false)
        | _ => ret (Some r, true)
        end) (fun (r : option rx_result * bool) s' => good s s' /\ r.1 <> Some RxNull) s) as Hrest.
  { intros info Es Epk. apply wp_bind.
    assert (wp (validate_pkt_session info cli) (fun err s' => s' = s /\
      (err = CLE_OK -> pi_sess info = None -> pi_op info = CMO_NEW_SESS)) s) as Hval.
    { unfold validate_pkt_session. destruct (pi_sess info) as [p|].
      - destruct (pi_op info =? CMO_NEW_SESS); [by apply wp_ret|]. apply wp_bind, wp_get_sess.
        repeat case_match; by apply wp_ret.
      - apply wp_ret. split; [done|]. destruct (Z.eqb_spec (pi_op info) CMO_NEW_SESS); done. }
    eapply wp_mono; [exact Hval|]. intros err s' [-> Hop].
    case_bool_decide as He; cbn [negb]; [|apply Hquiet; unfold simple_sendresp; auto with cld].
    cbv zeta. case_bool_decide as He2; cbn [negb]; [|apply Hquiet; unfold simple_sendresp; auto with cld].
    apply wp_bind, wp_get. destruct (is_master s && db_up s); cbn [negb]; [|apply Hquiet; auto with cld].
    apply wp_bind. eapply wp_mono; [apply tcp_rx_good; [done|done|by rewrite Epk|by rewrite Es|by apply Hop]|].
    intros r s1 [Hg Hr]. destruct r as [|e|]; [by apply wp_ret| |done].
    apply wp_bind, wp_quiet; [unfold simple_sendresp; auto with cld|]. intros _ s2 Q2. apply wp_ret.
    split; [by eapply good_then_quiet|done]. }
  destruct (flag _ CLD_PKT_IS_FIRST).
  - apply wp_ret. by apply Hrest.
  - destruct osess as [p|] eqn:Eo; [|by apply wp_ret].
    apply wp_bind, wp_get_sess, wp_ret. by apply Hrest.
Qed.

(** ** Reachable states *)

(** One event of the server's loop: a packet, a session's timer, its retry
    timer, the checkpoint timer. *)
Inductive step : srv D -> srv D -> Prop :=
| step_packet cli raw_pkt s : step s (cli_rd_pkt cli raw_pkt s).2
| step_timeout p now s : is_Some (heap s !! p) ->
    (heap (session_timeout p now s).2 !! p = None -> filed s p) -> step s (session_timeout p now s).2
| step_retry p now s : is_Some (heap s !! p) -> step s (session_retry p now s).2
| step_checkpoint now s : step s (cldb_checkpoint now s).2.

Lemma step_good s s' : mem_inv s -> db_inv (vw s) -> step s s' -> good s s'.
Proof.
  intros Hm Hinv Hst. revert Hm Hinv.
  destruct Hst as [cli raw_pkt s1|p now s1 Hp Hf|p now s1 Hp|now s1]; intros Hm Hinv.
  - by apply (cli_rd_pkt_good cli raw_pkt s1).
  - by apply (session_timeout_good p now s1).
  - apply good_mem. by apply mq_session_retry.
  - split; [by destruct Hm; split|by left].
Qed.

(** Runs in which directory data stays addressable. *)
Inductive reachable (s0 : srv D) : srv D -> Prop :=
| reach_init : reachable s0 s0
| reach_step s s' : reachable s0 s -> small_data (vw s) -> step s s' -> reachable s0 s'.

Lemma step_inv s s' : sys_inv s -> small_data (vw s) -> step s s' -> sys_inv s'.
Proof.
  intros [Hm Hinv] Hsm Hst. destruct (step_good s s' Hm Hinv Hst) as [Hm' [Hv|[a Ha]]].
  - split; [done|by rewrite Hv].
  - split; [done|by eapply astep_inv].
Qed.

Lemma reachable_sys_inv s0 s : sys_inv s0 -> reachable s0 s -> sys_inv s.
Proof. intros H0 Hr. induction Hr; [done|by eapply step_inv]. Qed.

(** ** Start-up *)

(** The server before any event: no sessions, the table just allocated. *)
Definition boot (d : D) (now : Z) (orc : nat -> Z) : srv D :=
  mkSrv d true true (mkHtab false false 0 (htab_init_buckets 5) 0 []) ∅ 0%nat now [] 0 orc 0%nat.

Lemma boot_mem (d : D) (now : Z) (orc : nat -> Z) : mem_inv (boot d now orc).
Proof.
  split; try done. intros e He. cbn in He. inversion He.
Qed.

Lemma ensure_root_inv s : mem_inv s -> vw s = empty_view \/ db_inv (vw s) ->
  wp ensure_root (fun ok s' => ok = true -> sys_inv s') s.
Proof.
  intros Hm Hv. unfold ensure_root. apply wp_bind, wp_txn_begin. intros rc s1 H1 Hh1 V1 _.
  destruct (negb (rc =? 0)); [by apply wp_ret|].
  apply wp_bind, wp_dbcall. intros r s2 [H2 _] _ Hd.
  assert (calm_env s s2) as H12 by by etrans.
  assert (forall s3 (ok : bool), calm_env s s3 -> (ok = true -> db_inv (vw s3)) ->
    wp (if ok then let! rc := txn_commit in ret (rc =? 0) else txn_abort ;;; ret false)
       (fun ok s' => ok = true -> sys_inv s') s3) as Hend.
  { intros s3 ok H3 Hok. destruct ok.
    - apply wp_bind, wp_txn_commit. intros rc' s4 H4 _ V4. apply wp_ret. intros Hrc. rewrite Hrc in V4.
      split; [eapply mem_calm; [|done]; by etrans|]. rewrite V4. by apply Hok.
    - apply wp_bind, wp_txn_abort. intros. by apply wp_ret. }
  pose proof (ro_NameGet _ _ _ _ Hd) as V2. rewrite V1 in *.
  apply wp_bind. destruct r as [ino|e].
  { apply wp_ret, (Hend s2 true); [done|]. intros _. rewrite V2. destruct Hv as [Hv|Hv]; [|done].
    apply dbstep_Ok in Hd as [_ [(i & x & [Hi _] & _)|[_ ?]]]; [|done].
    rewrite Hv in Hi. cbn in Hi. by rewrite lookup_empty in Hi. }
  destruct (Z.eqb_spec e DB_NOTFOUND) as [->|]; [|by apply wp_ret, (Hend s2 false)].
  assert (vw s = empty_view) as He.
  { destruct Hv as [Hv|Hv]; [done|]. destruct Hd as [(x & [= <-] & _ & ? & _)|[_ [(? & ? & _ & ?)|[Hno _]]]]; try done.
    destruct (di_root _ Hv) as (i & ino & Hi & _). by destruct (Hno i ino). }
  apply wp_bind. unfold cldb_inode_mem. apply wp_bind, wp_malloc_ok. intros b s3 Q3 _ _ _.
  assert (calm_env s s3) as H13 by (etrans; [done|apply Q3]).
  destruct b; cbn [negb]; [|by apply wp_ret, wp_ret, (Hend s3 false)].
  apply wp_bind, wp_get, wp_ret, wp_bind, wp_get. cbv zeta.
  apply wp_bind. unfold cldb_inode_put. apply wp_bind, wp_dbcall. intros r s4 [H4 _] _ Hd4. apply wp_ret, wp_ret.
  apply (Hend s4); [by etrans|]. destruct r as [u|e4].
  - intros _. apply dbstep_Ok, inode_put_Ok in Hd4. rewrite Hd4, (quiet_vw _ _ Q3), V2, He. by apply inv_root.
  - apply dbstep_Err in Hd4 as [_ Hne]. cbn. rewrite (proj2 (Z.eqb_neq _ _)) by done. done.
Qed.

End system.
