(* ===== verification/ServerSpec.v ===== *)
(** * ServerSpec: acceptance and reassembly of packets

    Which packets reach a handler, and that the fragments a sender makes of a
    message are put together again. *)

From S2P Require Import Prelude Htab Dirent Wire Bdb Srv Cldb Outq Msg Session Server Logic OutqSpec.
#[local] Open Scope Z_scope.

(** ** Acceptance *)

Section gate.
Context {D : Type} `{!Bdb D} {XL : XdrLib} {HL : HmacLib}.
Implicit Types s : srv D.

(** The packet has a footer and a header with the protocol's magic, its user
    name has 1 to 31 bytes, its last 20 bytes are the keyed hash, under that
    user's key, of everything before them, and the server is master with an
    open database. *)
Definition authentic s (raw_pkt : bytes) (pkt : cld_pkt_hdr) : Prop :=
  CLD_PKT_FTR_LEN < Z.of_nat (length raw_pkt) /\
  (exists n, xdr_hdr_dec (take (length raw_pkt - 28) raw_pkt) = Some (pkt, n)) /\
  ph_magic pkt = le_val CLD_PKT_MAGIC /\
  (0 < length (ph_user pkt) < 32)%nat /\
  drop (length raw_pkt - 20) raw_pkt = HMAC_sha1 (ph_user pkt) (take (length raw_pkt - 20) raw_pkt) /\
  is_master s = true /\ db_up s = true.

Lemma parse_pkt_header_some raw_pkt pkt n : parse_pkt_header raw_pkt = Some (pkt, n) ->
  CLD_PKT_FTR_LEN < Z.of_nat (length raw_pkt) /\
  xdr_hdr_dec (take (length raw_pkt - 28) raw_pkt) = Some (pkt, n) /\ ph_magic pkt = le_val CLD_PKT_MAGIC.
Proof.
  unfold parse_pkt_header. destruct (Z.leb_spec (Z.of_nat (length raw_pkt)) CLD_PKT_FTR_LEN); [done|].
  destruct (xdr_hdr_dec _) as [[h m]|]; [|done].
  destruct (Z.eqb_spec (ph_magic h) (le_val CLD_PKT_MAGIC)); [|done]. intros [= -> ->]. done.
Qed.

(** The check accepts nothing but the hash under the user's own name as key. *)
Lemma authcheck_hmac (user buf sha : bytes) : cld_authcheck (user_key (Some user)) buf sha = 0 ->
  (0 < length user < 32)%nat /\ take 20 sha = HMAC_sha1 user buf.
Proof.
  unfold cld_authcheck, user_key. destruct user as [|c user]; [done|].
  set (u := c :: user). change (length u =? 0)%nat with false. cbn [orb].
  destruct (Nat.leb_spec 32 (Nat.min (length u) 32)) as [|Hu]; [done|]. unfold u at 1.
  destruct (negb _); [done|]. case_bool_decide as E; [|done]. intros _. split; [|by rewrite E].
  split; [cbn; lia|]. revert Hu. generalize (length u). lia.
Qed.

Lemma foot_sha_last (raw : bytes) : (28 <= length raw)%nat -> take 20 (foot_sha raw) = drop (length raw - 20) raw.
Proof.
  intros Hl. unfold foot_sha, pkt_foot. rewrite drop_drop.
  replace (length raw - 28 + 8)%nat with (length raw - 20)%nat by lia.
  rewrite take_take, take_ge; [done|]. rewrite length_drop. lia.
Qed.

(** The packet's session, if there is one, is this client's and alive. *)
Definition sess_matches s (cli : cli_info) (pkt : cld_pkt_hdr) : Prop :=
  match htab_get sess_hash sess_equal (sessions s) (ph_sid pkt) with
  | None => flag (pkt_order (ph_mi pkt)) CLD_PKT_IS_FIRST = true /\
            mi_op (pkt_infos (ph_mi pkt)) = CMO_NEW_SESS
  | Some p =>
      let x := heap s !!! p in
      s_dead x = false /\ take 32 (ph_user pkt) = take 32 (s_user x) /\
      s_addr_len x = cli_addr_len cli /\
      take (Z.to_nat (s_addr_len x)) (s_addr x) = take (Z.to_nat (s_addr_len x)) (cli_addr cli)
  end.

Lemma validate_ok s (info : pkt_info) (cli : cli_info) :
  (validate_pkt_session info cli s).2 = s /\
  ((validate_pkt_session info cli s).1 = CLE_OK ->
   match pi_sess info with
   | None => pi_op info = CMO_NEW_SESS
   | Some p =>
      let x := heap s !!! p in
      s_dead x = false /\ take 32 (ph_user (pi_pkt info)) = take 32 (s_user x) /\
      s_addr_len x = cli_addr_len cli /\
      take (Z.to_nat (s_addr_len x)) (s_addr x) = take (Z.to_nat (s_addr_len x)) (cli_addr cli)
   end).
Proof.
  unfold validate_pkt_session. destruct (pi_sess info) as [p|].
  - destruct (pi_op info =? CMO_NEW_SESS); [done|]. unfold bind, get_sess, ret. cbv zeta.
    destruct (Z.eqb_spec (s_addr_len (heap s !!! p)) (cli_addr_len cli)); cbn [negb orb]; [|done].
    repeat case_bool_decide; cbn [negb]; try done. by destruct (s_dead (heap s !!! p)).
  - cbn. split; [done|]. destruct (Z.eqb_spec (pi_op info) CMO_NEW_SESS); done.
Qed.

(** All that has happened is that at most [n] pieces were written to this
    socket: no other field of the server's state differs - every session object
    with its queue, timers and numbers, the table of sessions and the database
    are the very same. *)
Definition wrote (n : nat) (fd : Z) s s' : Prop :=
  exists out, (length out <= n)%nat /\ Forall (fun w => w.1 = fd) out /\
    s' = set_oracle_i (oracle_i s') (set_net (net s ++ out) s).

Definition writes (n : nat) (fd : Z) {A} (m : M D A) : Prop := forall s, wrote n fd s (m s).2.

Lemma wrote_trans n1 n2 fd s1 s2 s3 : wrote n1 fd s1 s2 -> wrote n2 fd s2 s3 -> wrote (n1 + n2) fd s1 s3.
Proof.
  intros (o1 & L1 & F1 & E1) (o2 & L2 & F2 & E2). exists (o1 ++ o2). rewrite length_app, app_assoc.
  split; [lia|]. split; [by apply Forall_app|]. rewrite E2 at 1. rewrite E1. by destruct s1.
Qed.

Lemma wrote_le n1 n2 fd s s' : (n1 <= n2)%nat -> wrote n1 fd s s' -> wrote n2 fd s s'.
Proof. intros Hn (o & L & F & E). exists o. split_and!; [lia|done|done]. Qed.

Lemma writes_ret {A} n fd (a : A) : writes n fd (ret a).
Proof.
  intros s. exists []. split; [cbn; lia|]. split; [done|]. cbn. rewrite app_nil_r. by destruct s.
Qed.

Lemma writes_bind {A B} n1 n2 n fd (m : M D A) (k : A -> M D B) :
  writes n1 fd m -> (forall a, writes n2 fd (k a)) -> (n1 + n2 <= n)%nat -> writes n fd (bind m k).
Proof.
  intros Hm Hk Hn s. unfold bind. specialize (Hm s). destruct (m s) as [a s1].
  eapply wrote_le; [exact Hn|]. eapply wrote_trans; [exact Hm|apply Hk].
Qed.

Lemma writes_nondet n fd : writes n fd (@nondet D).
Proof.
  intros s. exists []. split; [cbn; lia|]. split; [done|]. cbn. rewrite app_nil_r. by destruct s.
Qed.

Lemma writes_rand64 n fd : writes n fd (@cld_rand64 D).
Proof.
  intros s. exists []. split; [cbn; lia|]. split; [done|]. cbn. rewrite app_nil_r. by destruct s.
Qed.

Lemma writes_sys_write fd (buf : bytes) : writes 1 fd (@sys_write D fd buf).
Proof.
  unfold sys_write. apply (writes_bind 0 1); [apply writes_nondet| |done]. intros x.
  destruct (x <? 0); [apply writes_ret|]. intros s. exists [(fd, take (Nat.min (Z.to_nat x) (length buf)) buf)].
  split; [cbn; apply Nat.le_refl|]. split; [apply Forall_singleton; reflexivity|]. by destruct s.
Qed.

(** An answer outside a session is at most one frame: its length and its packet. *)
Lemma writes_simple_sendmsg fd sid user seqid msg op : writes 2 fd (@simple_sendmsg D _ _ fd sid user seqid msg op).
Proof.
  unfold simple_sendmsg. apply (writes_bind 0 2); [apply writes_rand64|intros xid|done]. cbv zeta.
  destruct (_ <? _); [apply writes_ret|].
  destruct (xdr_hdr_enc _) as [hb|]; [|apply writes_ret]. destruct (xdr_msg_enc msg) as [mb|]; [|apply writes_ret].
  apply (writes_bind 0 2); [apply writes_nondet|intros junk|done].
  apply (writes_bind 0 2); [apply writes_nondet|intros stale|done].
  destruct (simple_pkt _ _ _ _ _ _) as [pkt ?].
  apply (writes_bind 2 0); [|intros; apply writes_ret|done]. unfold tcp_tx.
  apply (writes_bind 1 1); [apply writes_sys_write|intros r|done]. destruct (r <? 0); [apply writes_ret|].
  apply (writes_bind 1 0); [apply writes_sys_write|intros r'|done]. destruct (r' <? 0); apply writes_ret.
Qed.

(** A packet that is turned away: no handler has run and the connection is
    answered with one frame at most, or the packet is counted as garbage. *)
Definition rejected (fd : Z) s (r : option rx_result * bool) s' : Prop :=
  r = (None, false) /\ (wrote 2 fd s s' \/ s' = set_garbage (u64 (garbage s + 1)) s).

Lemma cli_rd_pkt_gate (cli : cli_info) (raw_pkt : bytes) s :
  wp (cli_rd_pkt cli raw_pkt) (fun r s' => rejected (cli_fd cli) s r s' \/
    exists pkt, authentic s raw_pkt pkt /\ sess_matches s cli pkt) s.
Proof.
  unfold cli_rd_pkt. cbv zeta.
  assert (forall m : M D unit, writes 2 (cli_fd cli) m -> forall Q : Prop,
    wp (m ;;; ret (None, false)) (fun r s' => rejected (cli_fd cli) s r s' \/ Q) s) as Hrej.
  { intros m Hq Q. apply wp_bind. unfold wp at 1. specialize (Hq s). destruct (m s) as [u s'].
    apply wp_ret. left. split; [done|by left]. }
  destruct (parse_pkt_header raw_pkt) as [[pkt hdr_len]|] eqn:Ep.
  2:{ apply wp_bind, wp_modify, wp_ret. left. split; [done|by right]. }
  assert (forall info, pi_sess info = htab_get sess_hash sess_equal (sessions s) (ph_sid pkt) -> pi_pkt info = pkt ->
    (pi_sess info = None -> flag (pkt_order (ph_mi pkt)) CLD_PKT_IS_FIRST = true /\
       pi_op info = mi_op (pkt_infos (ph_mi pkt))) ->
    wp (let! err := validate_pkt_session info cli in
        if negb (bool_decide (err = CLE_OK)) then
          simple_sendresp (cli_fd cli) info err ;;; ret (None, false) else
        let err := pkt_chk_sig raw_pkt pkt in
        if negb (bool_decide (err = CLE_OK)) then
          simple_sendresp (cli_fd cli) info err ;;; ret (None, false) else
        let! s := get in
        if negb (is_master s && db_up s) then
          simple_sendmsg (cli_fd cli) (ph_sid pkt) (ph_user pkt) 0xdeadbeef MVoid CMO_NOT_MASTER ;;;
          ret (None, false) else
        let! r := tcp_rx (cli_fd cli) cli info raw_pkt in
        match r with
        | RxErr e => simple_sendresp (cli_fd cli) info e ;;; ret (Some r, false)
        | _ => ret (Some r, true)
        end) (fun r s' => rejected (cli_fd cli) s r s' \/ exists pkt, authentic s raw_pkt pkt /\ sess_matches s cli pkt) s) as Hrest.
  { intros info Es Epk Hnone. destruct (validate_ok s info cli) as [Hs1 Hv].
    apply wp_bind. unfold wp at 1. rewrite Hs1. set (err := (validate_pkt_session info cli s).1) in *.
    case_bool_decide as He; cbn [negb]; [|apply Hrej, writes_simple_sendmsg].
    specialize (Hv He). cbv zeta. unfold pkt_chk_sig.
    destruct (Z.eqb_spec (cld_authcheck (user_key (Some (ph_user pkt))) (take (length raw_pkt - 20) raw_pkt)
      (foot_sha raw_pkt)) 0) as [Ha|Ha]; cbn [negb].
    2:{ rewrite bool_decide_false by done. apply Hrej, writes_simple_sendmsg. }
    rewrite bool_decide_true by done. cbn [negb].
    apply wp_bind, wp_get. destruct (is_master s) eqn:E1, (db_up s) eqn:E2; cbn [andb negb];
      try (apply Hrej, writes_simple_sendmsg).
    apply wp_intro. intros r s' _. right. exists pkt. split.
    { apply parse_pkt_header_some in Ep as (P1 & P2 & P3). apply authcheck_hmac in Ha as (U & E).
      rewrite foot_sha_last in E by (unfold CLD_PKT_FTR_LEN in P1; lia). split_and!; eauto; lia. }
    unfold sess_matches. rewrite <- Es. destruct (pi_sess info) as [p|]; [by rewrite <- Epk|].
    destruct (Hnone eq_refl) as [Hf <-]. done. }
  apply wp_bind. unfold get_pkt_info. apply wp_bind, wp_sess_get. cbv zeta.
  destruct (flag _ CLD_PKT_IS_FIRST) eqn:Ef.
  - apply wp_ret. by apply Hrest.
  - destruct (htab_get _ _ _ _) as [p|] eqn:Eo.
    + apply wp_bind, wp_get_sess, wp_ret. by apply Hrest.
    + apply wp_ret, wp_bind, wp_modify, wp_ret. left. split; [done|by right].
Qed.

End gate.

(** ** Reassembly *)

Section reassembly.
Context {D : Type} {XL : XdrLib} {XO : XdrOk} {HL : HmacLib}.
Implicit Types s : srv D.

(** An encoded header is not empty. *)
Lemma hdr_enc_nonempty (h : cld_pkt_hdr) (b : bytes) :
  hdr_ok h -> xdr_hdr_enc h = Some b -> b <> [].
Proof.
  intros Hh He ->. destruct (xdr_hdr_rt h Hh) as (b' & E & Hd). assert (b' = []) as -> by congruence.
  set (m := if ph_magic h =? 0 then 1 else 0).
  set (h' := mkHdr m (ph_sid h) (ph_user h) (ph_mi h)).
  assert (hdr_ok h') as Hh'.
  { destruct Hh as (_ & ?). split; [|done]. unfold h', m. cbn. case_match; lia. }
  destruct (xdr_hdr_rt h' Hh') as (b & _ & Hd'). specialize (Hd b). specialize (Hd' []).
  rewrite app_nil_r in Hd'. cbn in Hd. rewrite Hd' in Hd. injection Hd as E1 _.
  apply (f_equal ph_magic) in E1. cbn in E1. unfold m in E1. destruct (Z.eqb_spec (ph_magic h) 0); lia.
Qed.

Lemma outpkt_hdr_ok (x : session) (first last : bool) (xid msg_op : Z) :
  0 <= s_sid x < 2 ^ 64 -> Z.of_nat (length (s_user x)) <= CLD_MAX_USERNAME ->
  Forall (fun b => 0 < b < 256) (s_user x) -> 0 <= xid < 2 ^ 64 -> 0 <= msg_op < 2 ^ 31 ->
  hdr_ok (outpkt_hdr x first last xid msg_op).
Proof.
  intros Hs Hl Hu Hx Ho. unfold hdr_ok. cbn [ph_magic ph_sid ph_user ph_mi outpkt_hdr].
  split; [split; vm_compute; congruence|]. split; [done|]. split; [done|]. split; [done|].
  destruct first, last; cbn [pkt_infos mi_xid mi_op]; lia.
Qed.

Lemma outpkt_order (x : session) (first last : bool) (xid msg_op : Z) :
  let i := ph_mi (outpkt_hdr x first last xid msg_op) in
  flag (pkt_order i) CLD_PKT_IS_FIRST = first /\ flag (pkt_order i) CLD_PKT_IS_LAST = last /\
  (first = true -> pkt_infos i = mkInfos xid msg_op).
Proof. by destruct first, last. Qed.

(** Parsing a packet gives back header and header length. *)
Lemma parse_packet (h : cld_pkt_hdr) (hb chunk sha : bytes) (seq : Z) :
  hdr_ok h -> xdr_hdr_enc h = Some hb -> ph_magic h = le_val CLD_PKT_MAGIC -> length sha = 20%nat ->
  parse_pkt_header (hb ++ chunk ++ le_bytes 8 seq ++ sha) = Some (h, length hb).
Proof.
  intros Hh He Hm Hs. unfold parse_pkt_header. pose proof (hdr_enc_nonempty h hb Hh He) as Hne.
  assert (length (hb ++ chunk ++ le_bytes 8 seq ++ sha) = length (hb ++ chunk) + 28)%nat as Hl.
  { rewrite !length_app, length_le_bytes. lia. }
  rewrite Hl, (proj2 (Z.leb_gt _ _)).
  2:{ rewrite length_app. destruct hb; [done|]. cbn [length]. unfold CLD_PKT_FTR_LEN. lia. }
  rewrite Nat.add_sub, (app_assoc hb chunk), take_app_length.
  destruct (xdr_hdr_rt h Hh) as (b & E & Hd). assert (b = hb) as -> by congruence.
  rewrite Hd, Hm, Z.eqb_refl. done.
Qed.

(** A receiver that has looked the session up: the loop body of the packet
    reader for the fragments of one message. *)
Fixpoint rx_fragments (fd : Z) (p : nat) (raws : list bytes) : M D bool :=
  match raws with
  | [] => ret true
  | raw :: raws =>
      match parse_pkt_header raw with
      | None => ret false
      | Some (pkt, hdr_len) =>
          let! sess := get_sess p in
          let mi := if flag (pkt_order (ph_mi pkt)) CLD_PKT_IS_FIRST then pkt_infos (ph_mi pkt)
                    else mkInfos (s_msg_xid sess) (s_msg_op sess) in
          let! ok := rx_fragment fd (mkPktInfo pkt (Some p) (foot_seqid raw) (mi_xid mi) (mi_op mi) hdr_len) raw p in
          if ok then rx_fragments fd p raws else ret false
      end
  end.

(** One fragment that fits is appended to what the session has (nothing, when
    it is a first one). *)
Lemma rx_fragment_spec (fd : Z) (info : pkt_info) (hb chunk foot : bytes) (p : nat) s y :
  heap s !! p = Some y -> pi_hdr_len info = length hb -> length foot = 28%nat ->
  let first := flag (pkt_order (ph_mi (pi_pkt info))) CLD_PKT_IS_FIRST in
  let have := if first then [] else s_msg_buf y in
  Z.of_nat (length (have ++ chunk)) <= CLD_MAX_MSG_SZ ->
  wp (rx_fragment fd info (hb ++ chunk ++ foot) p) (fun ok s' => ok = true /\ exists y',
    heap s' !! p = Some y' /\ s_msg_buf y' = have ++ chunk /\
    s_msg_op y' = (if first then pi_op info else s_msg_op y) /\
    s_msg_xid y' = (if first then pi_xid info else s_msg_xid y)) s.
Proof.
  intros Hy Hh Hf first have Hl. unfold rx_fragment.
  apply wp_bind, wp_get, wp_bind, wp_upd_sess, wp_bind, wp_upd_sess, wp_bind.
  assert (forall (Q : unit -> srv D -> Prop) st y1, heap st !! p = Some y1 ->
    (forall s' y2, heap s' !! p = Some y2 -> s_msg_buf y2 = s_msg_buf y1 -> s_msg_op y2 = s_msg_op y1 ->
       s_msg_xid y2 = s_msg_xid y1 -> Q tt s') ->
    wp (if negb (pi_op info =? CMO_ACK)
        then upd_sess p (fun sess => set_seqid_in (u64 (s_next_seqid_in sess + 1)) sess) else ret tt) Q st) as Hseq.
  { intros Q st y1 Hy1 HQ. destruct (negb _); [|by eapply wp_ret, HQ].
    apply wp_upd_sess. eapply HQ; [cbn; rewrite lookup_alter_eq, Hy1; done|done..]. }
  eapply Hseq; [cbn; rewrite !lookup_alter_eq, Hy; done|]. clear Hseq. cbn.
  intros s1 y1 Hy1 B1 O1 X1. apply wp_bind. fold first.
  assert (forall (Q : unit -> srv D -> Prop),
    (forall s' y2, heap s' !! p = Some y2 -> s_msg_buf y2 = have ->
       s_msg_op y2 = (if first then pi_op info else s_msg_op y) ->
       s_msg_xid y2 = (if first then pi_xid info else s_msg_xid y) -> Q tt s') ->
    wp (if first then upd_sess p (set_msg (pi_op info) (pi_xid info) []) else ret tt) Q s1) as Hfirst.
  { intros Q HQ. unfold have in HQ. destruct first.
    - apply wp_upd_sess. eapply HQ; [cbn; rewrite lookup_alter_eq, Hy1; done|done..].
    - by eapply wp_ret, HQ. }
  apply Hfirst. clear Hfirst. intros s2 y2 Hy2 B2 O2 X2.
  apply wp_bind, wp_get_sess. rewrite (lookup_total_correct _ _ _ Hy2), B2, Hh.
  assert (length (hb ++ chunk ++ foot) - length hb - 28 = length chunk)%nat as ->.
  { rewrite !length_app. lia. }
  rewrite length_app in Hl. rewrite (proj2 (Z.ltb_ge _ _)) by lia.
  apply wp_bind, wp_upd_sess, wp_ret. split; [done|]. eexists. split; [cbn; rewrite lookup_alter_eq, Hy2; done|].
  cbn. rewrite B2, drop_app_length, take_app_length. done.
Qed.

Lemma rx_fragments_spec (x : session) (msg_op : Z) (key : option bytes) (fd : Z) (p : nat)
    (first : bool) (seq : Z) (mb : bytes) (ps : list bytes) :
  (forall f l xid, 0 <= xid < 2 ^ 64 -> hdr_ok (outpkt_hdr x f l xid msg_op)) ->
  packets x msg_op key first seq mb ps -> forall s y, heap s !! p = Some y ->
  let have := if first then [] else s_msg_buf y in
  Z.of_nat (length (have ++ mb)) <= CLD_MAX_MSG_SZ ->
  wp (rx_fragments fd p ps) (fun ok s' => ok = true /\ exists y', heap s' !! p = Some y' /\
    s_msg_buf y' = have ++ mb /\ s_msg_op y' = (if first then msg_op else s_msg_op y)) s.
Proof.
  intros Hok. induction 1 as [first seq mb xid hb sha Hl Hx He Ha|first seq chunk rest xid hb sha ps Hl Hr Hx He Ha Hp IH];
    intros s y Hy; cbv zeta; intros Hlen; cbn [rx_fragments];
    apply authsign_check in Ha as [_ Hs20];
    rewrite (parse_packet _ _ _ _ _ (Hok _ _ _ Hx) He eq_refl Hs20);
    apply wp_bind, wp_get_sess, wp_bind; cbv zeta;
    (eapply wp_mono; [apply (rx_fragment_spec _ _ hb _ (le_bytes 8 seq ++ sha) p s y Hy);
      [reflexivity|rewrite length_app, length_le_bytes; lia|cbn [pi_pkt]]|]; cbn [pi_pkt pi_op]);
    first [destruct (outpkt_order x first true xid msg_op) as (-> & _ & Hmi)
          |destruct (outpkt_order x first false xid msg_op) as (-> & _ & Hmi)].
  - exact Hlen.
  - intros ok s1 [-> (y1 & Hy1 & B1 & O1 & X1)]. apply wp_ret. split; [done|]. exists y1.
    split_and!; [done|done|]. rewrite O1. destruct first; [by rewrite Hmi|done].
  - rewrite app_assoc, length_app in Hlen. lia.
  - intros ok s1 [-> (y1 & Hy1 & B1 & O1 & X1)].
    eapply wp_mono; [apply (IH s1 y1 Hy1)|].
    + by rewrite B1, <- app_assoc.
    + intros ok s2 [-> (y2 & Hy2 & B2 & O2)]. split; [done|]. exists y2. split; [done|].
      rewrite B2, B1, O2, O1, <- app_assoc. split; [done|]. destruct first; [by rewrite Hmi|done].
Qed.

End reassembly.
