(* ===== verification/Transport.v ===== *)
(** * Transport: packets over TCP (the read queue of cld/server.c, lib/cldc-tcp.c)

    Each packet goes in a UBBP frame: a header of eight bytes with the length,
    then the packet.  The server reads frames through a queue of requested
    reads with callbacks, the client with counters of what it has read so far.
    The kernel hands out any number of bytes per [read].  [None]: freed memory
    is used, or callbacks call each other without end. *)

From S2P Require Import Prelude Htab Dirent Wire Bdb Srv Cldb Outq Msg Session Server.
#[local] Open Scope Z_scope.

Definition ubbp_sz : nat := 8.

(** [struct ubbp_header] of a packet of [data_len] bytes *)
Definition ubbp_enc (op data_len : Z) : bytes := CLD_UBBP_MAGIC ++ le_bytes 4 (u32 (Z.lor (Z.shiftl data_len 8) op)).
Definition frame (op : Z) (pkt : bytes) : bytes := ubbp_enc op (Z.of_nat (length pkt)) ++ pkt.

(** ** The server's side *)

Inductive rd_cb : Type := CbUbbp | CbPkt.

(** [struct atcp_read]: the buffer is the one its callback works on;
    [bytes_wanted] is [buf_size] less [bytes_read]. *)
Record atcp_rd : Type := mkRd { ard_size : nat; ard_read : nat; ard_cb : rd_cb }.

(** [struct client]: the read queue and its buffers; [cn_rx] is what the kernel
    has for the connection. *)
Record conn : Type := mkConn { cn_q : list atcp_rd; cn_ubbp : bytes; cn_raw : bytes; cn_raw_size : nat; cn_open : bool; cn_rx : bytes; cn_allocs : nat }.

Definition set_cn_q (q : list atcp_rd) (c : conn) : conn := mkConn q (cn_ubbp c) (cn_raw c) (cn_raw_size c) (cn_open c) (cn_rx c) (cn_allocs c).
Definition set_cn_raw_size (n : nat) (c : conn) : conn := mkConn (cn_q c) (cn_ubbp c) (cn_raw c) n (cn_open c) (cn_rx c) (cn_allocs c).
Definition set_cn_rx (b : bytes) (c : conn) : conn := mkConn (cn_q c) (cn_ubbp c) (cn_raw c) (cn_raw_size c) (cn_open c) b (cn_allocs c).
Definition cn_alloc (c : conn) : conn := mkConn (cn_q c) (cn_ubbp c) (cn_raw c) (cn_raw_size c) (cn_open c) (cn_rx c) (S (cn_allocs c)).
Definition conn_free (c : conn) : conn := mkConn [] (cn_ubbp c) (cn_raw c) (cn_raw_size c) false (cn_rx c) (cn_allocs c).

(** [b] arrives at position [pos] of the callback's buffer. *)
Definition store (cb : rd_cb) (pos : nat) (b : bytes) (c : conn) : conn :=
  match cb with
  | CbUbbp => mkConn (cn_q c) (splice pos b (cn_ubbp c)) (cn_raw c) (cn_raw_size c) (cn_open c) (cn_rx c) (cn_allocs c)
  | CbPkt => mkConn (cn_q c) (cn_ubbp c) (splice pos b (cn_raw c)) (cn_raw_size c) (cn_open c) (cn_rx c) (cn_allocs c)
  end.

Section read.
Context {X : Type}.

(** [rd_pkt]: what [cli_rd_pkt] does with a packet, and whether it asks for the
    next header; [mem n]: does the [n]-th allocation succeed? *)
Context (rd_pkt : bytes -> X -> X * bool) (mem : nat -> bool).

(** [atcp_read] and the callbacks, which it calls itself when memory is short
    (with whatever the buffers hold). *)
Fixpoint atcp_read (fuel : nat) (size : nat) (cb : rd_cb) (c : conn) (x : X) : option (conn * X) :=
  let ok := mem (cn_allocs c) in
  let c := cn_alloc c in
  if ok then Some (set_cn_q (cn_q c ++ [mkRd size 0 cb]) c, x) else
  match fuel with
  | O => None
  | S fuel =>
      match cb with
      | CbUbbp =>
          match cli_rd_ubbp (cn_ubbp c) with
          | None => Some (conn_free c, x)
          | Some sz => atcp_read fuel (Z.to_nat sz) CbPkt (set_cn_raw_size (Z.to_nat sz) c) x
          end
      | CbPkt =>
          let '(x, next) := rd_pkt (take (cn_raw_size c) (cn_raw c)) x in
          if next then atcp_read fuel ubbp_sz CbUbbp c x else Some (c, x)
      end
  end.

Definition run_cb (fuel : nat) (cb : rd_cb) (c : conn) (x : X) : option (conn * X) :=
  match cb with
  | CbUbbp =>
      match cli_rd_ubbp (cn_ubbp c) with
      | None => Some (conn_free c, x)
      | Some sz => atcp_read fuel (Z.to_nat sz) CbPkt (set_cn_raw_size (Z.to_nat sz) c) x
      end
  | CbPkt =>
      let '(x, next) := rd_pkt (take (cn_raw_size c) (cn_raw c)) x in
      if next then atcp_read fuel ubbp_sz CbUbbp c x else Some (c, x)
  end.

(** [read]: at most [S lim] bytes; none when there are none, the connection is
    at its end or none were asked for; [lim = None]: an error. *)
Definition cn_read (lim : option nat) (wanted : nat) (c : conn) : option (bytes * conn) :=
  match lim with
  | None => None
  | Some k => let n := Nat.min wanted (S k) in Some (take n (cn_rx c), set_cn_rx (drop n (cn_rx c)) c)
  end.

(** The loop from the [k]-th entry of the queue on.  Its next entry is looked
    up before the callback runs; when the callback has freed the connection,
    the loop reads the list head in freed memory. *)
Fixpoint read_loop (fuel : nat) (lims : list (option nat)) (k : nat) (c : conn) (x : X) : option (conn * X) :=
  match cn_q c !! k, lims with
  | None, _ | _, [] => Some (c, x)
  | Some rd, lim :: lims =>
      let last := (S k =? length (cn_q c))%nat in
      match cn_read lim (ard_size rd - ard_read rd) c with
      | None => Some (c, x)
      | Some ([], c) => Some (c, x)
      | Some (b, c) =>
          let c := store (ard_cb rd) (ard_read rd) b c in
          let rd := mkRd (ard_size rd) (ard_read rd + length b) (ard_cb rd) in
          if (ard_read rd =? ard_size rd)%nat then
            match run_cb fuel (ard_cb rd) (set_cn_q (delete k (cn_q c)) c) x with
            | None => None
            | Some (c, x) =>
                if negb (cn_open c) then None else
                if last then Some (c, x) else read_loop fuel lims k c x
            end
          else
            let c := set_cn_q (<[k := rd]> (cn_q c)) c in
            if last then Some (c, x) else read_loop fuel lims (S k) c x
      end
  end.

(** A closed connection has no event any more.  One [read] per queued entry. *)
Definition atcp_read_event (fuel : nat) (lims : list (option nat)) (c : conn) (x : X) : option (conn * X) :=
  if negb (cn_open c) then Some (c, x) else read_loop fuel lims 0 c x.

(** [tcp_srv_event], once the socket is set up *)
Definition cli_accept (fuel : nat) (x : X) : option (conn * X) :=
  atcp_read fuel ubbp_sz CbUbbp (mkConn [] (replicate ubbp_sz 0) (replicate (Z.to_nat CLD_RAW_MSG_SZ) 0) 0 true [] 0) x.

(** What happens to a connection: bytes arrive, or it is found readable. *)
Inductive net_ev : Type := Arrive (b : bytes) | Ready (lim : option nat).

Definition net_step (fuel : nat) (e : net_ev) (c : conn) (x : X) : option (conn * X) :=
  match e with
  | Arrive b => Some (set_cn_rx (cn_rx c ++ b) c, x)
  | Ready lim => atcp_read_event fuel [lim] c x
  end.

Fixpoint net_run (fuel : nat) (evs : list net_ev) (c : conn) (x : X) : option (conn * X) :=
  match evs with
  | [] => Some (c, x)
  | e :: evs => match net_step fuel e c x with Some (c, x) => net_run fuel evs c x | None => None end
  end.

Definition arrived (evs : list net_ev) : bytes := concat ((fun e => match e with Arrive b => b | Ready _ => [] end) <$> evs).

End read.

(** ** The client's side *)

(** [struct cldc_tcp] and the static buffer *)
Record cldc_tcp : Type := mkTcp { ct_ubbp : bytes; ct_ubbp_read : nat; ct_raw_size : nat; ct_raw_read : nat; ct_buf : bytes; ct_rx : bytes }.

Definition cldc_tcp_new (rx : bytes) : cldc_tcp := mkTcp (replicate ubbp_sz 0) 0 0 0 (replicate (Z.to_nat CLD_RAW_MSG_SZ) 0) rx.

Definition EAGAIN : Z := 11.
Definition EIO : Z := 5.

(** [read], blocking or not: an errno, or at most so many bytes and one more. *)
Definition ct_read (lim : Z + nat) (n : nat) (t : cldc_tcp) : Z + (bytes * cldc_tcp) :=
  match lim with
  | inl e => inl e
  | inr k => let m := Nat.min n (S k) in
      inr (take m (ct_rx t), mkTcp (ct_ubbp t) (ct_ubbp_read t) (ct_raw_size t) (ct_raw_read t) (ct_buf t) (drop m (ct_rx t)))
  end.

Section receive.
Context {Y : Type}.

(** [cldc_receive_pkt] *)
Context (receive : bytes -> Y -> Z * Y).

(** The part after the header.  After a refused header the size it named is
    still set, and a later call writes past the buffer. *)
Definition receive_raw (lim : Z + nat) (t : cldc_tcp) (y : Y) : option (Z * cldc_tcp * Y) :=
  if (ct_raw_size t =? 0)%nat then Some (0, t, y) else
  if CLD_RAW_MSG_SZ <? Z.of_nat (ct_raw_size t) then None else
  match ct_read lim (ct_raw_size t - ct_raw_read t) t with
  | inl e => Some (if e =? EAGAIN then 0 else - e, t, y)
  | inr (b, t) =>
      let t := mkTcp (ct_ubbp t) (ct_ubbp_read t) (ct_raw_size t) (ct_raw_read t + length b) (splice (ct_raw_read t) b (ct_buf t)) (ct_rx t) in
      if (ct_raw_read t <? ct_raw_size t)%nat then Some (0, t, y) else
      let t := mkTcp (ct_ubbp t) 0 (ct_raw_size t) (ct_raw_read t) (ct_buf t) (ct_rx t) in
      let '(crc, y) := receive (take (ct_raw_size t) (ct_buf t)) y in
      Some (crc, t, y)
  end.

(** [l1], [l2]: the two reads. *)
Definition cldc_tcp_receive_pkt_data (l1 l2 : Z + nat) (t : cldc_tcp) (y : Y) : option (Z * cldc_tcp * Y) :=
  if (ct_ubbp_read t <? ubbp_sz)%nat then
    match ct_read l1 (ubbp_sz - ct_ubbp_read t) t with
    | inl e => Some (if e =? EAGAIN then 0 else - e, t, y)
    | inr (b, t) =>
        let t := mkTcp (splice (ct_ubbp_read t) b (ct_ubbp t)) (ct_ubbp_read t + length b) (ct_raw_size t) (ct_raw_read t) (ct_buf t) (ct_rx t) in
        if (ct_ubbp_read t =? ubbp_sz)%nat then
          let op_size := le_val (take 4 (drop 4 (ct_ubbp t))) in
          if negb (bool_decide (take 4 (ct_ubbp t) = CLD_UBBP_MAGIC)) then Some (- EIO, t, y) else
          if negb (UBBP_OP op_size =? 2) then Some (- EIO, t, y) else
          let t := mkTcp (ct_ubbp t) (ct_ubbp_read t) (Z.to_nat (UBBP_SIZE op_size)) 0 (ct_buf t) (ct_rx t) in
          if CLD_RAW_MSG_SZ <? UBBP_SIZE op_size then Some (- EIO, t, y) else receive_raw l2 t y
        else receive_raw l2 t y
    end
  else receive_raw l2 t y.

(** The application calls whenever there is something to read. *)
Fixpoint receive_calls (lims : list (nat * nat)) (t : cldc_tcp) (y : Y) : option (cldc_tcp * Y) :=
  match lims with
  | [] => Some (t, y)
  | (l1, l2) :: lims =>
      match cldc_tcp_receive_pkt_data (inr l1) (inr l2) t y with
      | None => None
      | Some (_, t, y) => receive_calls lims t y
      end
  end.

End receive.

(** [w1], [w2]: the two writes fail with an errno, or take at most so many
    bytes, which is not looked at. *)
Definition cldc_tcp_pkt_send (w1 w2 : Z + nat) (buf tx : bytes) : Z * bytes :=
  match w1 with
  | inl e => (- e, tx)
  | inr k1 =>
      let tx := tx ++ take k1 (ubbp_enc 1 (Z.of_nat (length buf))) in
      match w2 with
      | inl e => (- e, tx)
      | inr k2 => (0, tx ++ take k2 buf)
      end
  end.

(** ** Packets cross the connection

    However the network cuts the stream, the server handles exactly the
    packets the client sent; the client's side, where the headers are not
    cut, and where they are. *)

(** A packet that can be framed. *)
Definition fits (p : bytes) : Prop := 0 < Z.of_nat (length p) <= CLD_RAW_MSG_SZ.

Lemma length_ubbp_enc op n : length (ubbp_enc op n) = ubbp_sz.
Proof. unfold ubbp_enc. rewrite length_app, length_le_bytes. done. Qed.

(** What a header says. *)
Lemma ubbp_dec op n : 0 <= op < 256 -> 0 <= n <= CLD_RAW_MSG_SZ ->
  let op_size := le_val (take 4 (drop 4 (ubbp_enc op n))) in
  take 4 (ubbp_enc op n) = CLD_UBBP_MAGIC /\ UBBP_OP op_size = op /\ UBBP_SIZE op_size = n.
Proof.
  intros Ho Hn. unfold CLD_RAW_MSG_SZ in Hn. cbn zeta. change (drop 4 (ubbp_enc op n)) with (le_bytes 4 (u32 (Z.lor (Z.shiftl n 8) op))). split; [done|].
  assert (u32 (Z.lor (Z.shiftl n 8) op) = n * 256 + op) as ->.
  { pose proof (Z.add_lor_land (Z.shiftl n 8) op) as E. rewrite Z.shiftl_mul_pow2 in * by lia. change (2 ^ 8) with 256 in *.
    assert (Z.land (n * 256) op = 0) as El; [|unfold u32; rewrite uw_small; lia].
    apply Z.bits_inj'. intros k Hk. rewrite Z.land_spec, Z.bits_0. destruct (Z.ltb_spec k 8).
    - change 256 with (2 ^ 8). rewrite Z.mul_pow2_bits_low by lia. done.
    - rewrite (Z.bits_above_log2 op), andb_false_r; [done|lia|]. destruct (Z.eq_dec op 0) as [->|]; [cbn; lia|]. apply Z.log2_lt_pow2; [lia|].
      apply Z.lt_le_trans with (2 ^ 8); [lia|]. apply Z.pow_le_mono_r; lia. }
  rewrite take_ge by (rewrite length_le_bytes; lia). rewrite le_val_le_bytes_small by (cbn; lia). unfold UBBP_OP, UBBP_SIZE.
  change 255 with (Z.ones 8). rewrite Z.land_ones, Z.shiftr_div_pow2 by lia. change (2 ^ 8) with 256. split.
  - rewrite Z.add_comm, Z.mod_add by lia. apply Z.mod_small. lia.
  - rewrite Z.add_comm, Z.div_add by lia. rewrite Z.div_small by lia. lia.
Qed.

Lemma rd_ubbp_ok p : fits p -> cli_rd_ubbp (ubbp_enc 1 (Z.of_nat (length p))) = Some (Z.of_nat (length p)).
Proof.
  intros Hp. unfold fits in Hp. destruct (ubbp_dec 1 (Z.of_nat (length p)) ltac:(lia) ltac:(lia)) as (E1 & E2 & E3). unfold cli_rd_ubbp. rewrite E1, E2, E3.
  rewrite bool_decide_eq_true_2 by done. cbn [negb]. rewrite Z.eqb_refl. cbn [negb]. by rewrite (proj2 (Z.ltb_ge _ _)) by lia.
Qed.

(** ** The server's side *)

Lemma splice_grow (pos : nat) (b buf s : bytes) :
  take pos buf = take pos s -> b = take (length b) (drop pos s) -> (pos + length b <= length buf)%nat -> (pos <= length s)%nat ->
  take (pos + length b) (splice pos b buf) = take (pos + length b) s /\ length (splice pos b buf) = length buf.
Proof.
  intros Hp Hb Hl Hs. unfold splice. split.
  - rewrite app_assoc, take_app_le by (rewrite length_app, length_take; lia). rewrite take_ge by (rewrite length_app, length_take; lia).
    rewrite Hp, <- take_take_drop. by rewrite <- Hb.
  - rewrite !length_app, length_take, length_drop. lia.
Qed.

Section server.
Context {X : Type} (rd_pkt : bytes -> X -> X * bool) (mem : nat -> bool) (mem_ok : forall n, mem n = true) (fuel : nat).
Implicit Types (c : conn) (x : X).

(** Packets handled one after the other, until one asks for no more. *)
Fixpoint feed (ps : list bytes) x : X * bool :=
  match ps with
  | [] => (x, true)
  | p :: ps => let '(x, next) := rd_pkt p x in if next then feed ps x else (x, false)
  end.

Lemma feed_snoc ps p x : feed (ps ++ [p]) x = if (feed ps x).2 then rd_pkt p (feed ps x).1 else feed ps x.
Proof.
  revert x. induction ps as [|q ps IH]; intros x; cbn [feed app fst snd]; [by destruct (rd_pkt p x) as [? []]|]. destruct (rd_pkt q x) as [x' []]; [apply IH|done].
Qed.

Lemma feed_stuck ps ps' x : (feed ps x).2 = false -> feed (ps ++ ps') x = feed ps x.
Proof. revert x. induction ps as [|q ps IH]; intros x; cbn [feed app]; [done|]. destruct (rd_pkt q x) as [x' []]; [apply IH|done]. Qed.

Definition frames (op : Z) (ps : list bytes) : bytes := concat (frame op <$> ps).

(** [ps] and nothing else are still to come: the first [k] bytes of the next
    header, or of the packet after its header, are in the buffer, and [rest]
    is not read yet. *)
Record ready c : Prop := { rd_open : cn_open c = true; rd_ubbp : length (cn_ubbp c) = ubbp_sz; rd_raw : length (cn_raw c) = Z.to_nat CLD_RAW_MSG_SZ }.

Record at_header (ps : list bytes) (rest : bytes) (k : nat) c : Prop := {
  ah_q : cn_q c = [mkRd ubbp_sz k CbUbbp];
  ah_k : (k < ubbp_sz)%nat;
  ah_len : (k <= length (frames 1 ps))%nat;
  ah_got : take k (cn_ubbp c) = take k (frames 1 ps);
  ah_rest : rest = drop k (frames 1 ps) }.

Record at_packet (p : bytes) (ps : list bytes) (rest : bytes) (k : nat) c : Prop := {
  ap_q : cn_q c = [mkRd (length p) k CbPkt];
  ap_size : cn_raw_size c = length p;
  ap_k : (k < length p)%nat;
  ap_got : take k (cn_raw c) = take k p;
  ap_rest : rest = drop k p ++ frames 1 ps }.

Definition at_frame (ps : list bytes) (rest : bytes) c : Prop :=
  ready c /\ ((exists k, at_header ps rest k c) \/ exists p ps' k, ps = p :: ps' /\ at_packet p ps' rest k c).

(** All frames are read or to come; or the handler wanted no more. *)
Definition tracks (all : list bytes) (x0 : X) (rest : bytes) c x : Prop :=
  exists did ps, all = did ++ ps /\ x = (feed did x0).1 /\
    (((feed did x0).2 = true /\ at_frame ps rest c) \/ ((feed did x0).2 = false /\ cn_open c = true /\ cn_q c = [])).

Lemma read_atcp size cb c x : atcp_read rd_pkt mem fuel size cb c x = Some (set_cn_q (cn_q c ++ [mkRd size 0 cb]) (cn_alloc c), x).
Proof. destruct fuel; cbn [atcp_read]; by rewrite mem_ok. Qed.

(** The kernel gives [b], the beginning of what is to come. *)
Lemma rx_split (n : nat) (rx fut s : bytes) : rx ++ fut = s -> take n rx = take (length (take n rx)) s /\ drop n rx ++ fut = drop (length (take n rx)) s.
Proof.
  intros <-. rewrite length_take. split.
  - rewrite take_app_le by lia. destruct (Nat.le_gt_cases n (length rx)); [by rewrite Nat.min_l|]. rewrite Nat.min_r, !take_ge by lia. done.
  - rewrite drop_app_le by lia. destruct (Nat.le_gt_cases n (length rx)); [by rewrite Nat.min_l|]. rewrite Nat.min_r, !drop_ge by lia. done.
Qed.

Lemma header_step all did ps x0 k c x fut j :
  Forall fits all -> all = did ++ ps -> x = (feed did x0).1 -> (feed did x0).2 = true -> ready c -> at_header ps (cn_rx c ++ fut) j c -> cn_rx c <> [] ->
  exists c' x', atcp_read_event rd_pkt mem fuel [Some k] c x = Some (c', x') /\ tracks all x0 (cn_rx c' ++ fut) c' x' /\ (length (cn_rx c') < length (cn_rx c))%nat.
Proof.
  intros Hall Eall Ex Hgo [Ho L1 L2] [Hq Hj Hjl Hgot Hrest] Hne. unfold atcp_read_event. rewrite Ho. cbn [negb read_loop]. rewrite Hq.
  cbn [lookup list_lookup ard_size ard_read ard_cb length Nat.eqb cn_read]. set (n := Nat.min (ubbp_sz - j) (S k)). assert (0 < n <= ubbp_sz - j)%nat as Hn by lia. clearbody n.
  destruct (rx_split n _ _ _ Hrest) as [Hb Hd].
  assert (0 < length (cn_rx c))%nat as Lr by (destruct (cn_rx c); [done|cbn; lia]). pose proof (length_take (cn_rx c) n) as Lb.
  destruct (take n (cn_rx c)) as [|b0 b']; [change (length (@nil Z)) with 0%nat in Lb; lia|]. set (b := b0 :: b') in *. clearbody b. cbn beta iota zeta. cbn [ard_read ard_size].
  destruct (splice_grow j b (cn_ubbp c) (frames 1 ps)) as [G1 G2]; [done|done|lia|done|]. set (ub := splice j b (cn_ubbp c)) in *.
  assert (length b <= length (frames 1 ps) - j)%nat as Lbf by (rewrite <- length_drop, <- Hrest, length_app; lia).
  assert (length (drop n (cn_rx c)) < length (cn_rx c))%nat as Hless by (rewrite length_drop; lia).
  rewrite drop_drop in Hd.
  destruct (Nat.eqb_spec (j + length b) ubbp_sz) as [E8|E8].
  - (* the header is complete *) rewrite E8 in *.
    destruct ps as [|p ps]; [cbn in Lbf; lia|]. assert (fits p) as Hp by (subst all; apply Forall_app in Hall as [_ Hall]; by inversion Hall).
    assert (ub = ubbp_enc 1 (Z.of_nat (length p))) as Eub.
    { rewrite take_ge in G1 by lia. rewrite G1. unfold frames, frame. cbn [fmap list_fmap concat]. rewrite <- app_assoc. apply take_app_length'. by rewrite length_ubbp_enc. }
    cbn [store set_cn_rx cn_q cn_ubbp cn_raw cn_raw_size cn_open cn_rx cn_allocs run_cb set_cn_q]. fold ub. rewrite Eub, (rd_ubbp_ok p Hp), read_atcp. cbn [cn_open set_cn_q cn_alloc set_cn_raw_size negb]. rewrite Ho. cbn [negb].
    eexists _, x. split; [reflexivity|]. cbn [cn_rx set_cn_q cn_alloc set_cn_raw_size]. split; [|done].
    exists did, (p :: ps). split; [done|]. split; [done|]. left. split; [done|]. split; [split; cbn; try done; by rewrite <- Eub|]. right. exists p, ps, 0%nat. split; [done|].
    split; cbn [cn_q cn_raw_size cn_raw set_cn_q cn_alloc set_cn_raw_size]; rewrite ?Hq, ?Nat2Z.id; try done.
    unfold fits in Hp. lia.
  - eexists _, x. split; [reflexivity|]. cbn [store set_cn_rx cn_q cn_ubbp cn_raw cn_raw_size cn_open cn_rx cn_allocs set_cn_q]. fold ub. split; [|done].
    exists did, ps. split; [done|]. split; [done|]. left. split; [done|]. split; [split; cbn; congruence|]. left. exists (j + length b)%nat.
    split; cbn [cn_q cn_ubbp]; rewrite ?Hq; try done; lia.
Qed.

Lemma packet_step all did p ps x0 k c x fut j :
  Forall fits all -> all = did ++ p :: ps -> x = (feed did x0).1 -> (feed did x0).2 = true -> ready c -> at_packet p ps (cn_rx c ++ fut) j c -> cn_rx c <> [] ->
  exists c' x', atcp_read_event rd_pkt mem fuel [Some k] c x = Some (c', x') /\ tracks all x0 (cn_rx c' ++ fut) c' x' /\ (length (cn_rx c') < length (cn_rx c))%nat.
Proof.
  intros Hall Eall Ex Hgo [Ho L1 L2] [Hq Hsz Hj Hgot Hrest] Hne. unfold atcp_read_event. rewrite Ho. cbn [negb read_loop]. rewrite Hq.
  cbn [lookup list_lookup ard_size ard_read ard_cb length Nat.eqb cn_read]. set (n := Nat.min (length p - j) (S k)). assert (0 < n <= length p - j)%nat as Hn by lia. clearbody n.
  destruct (rx_split n _ _ _ Hrest) as [Hb Hd].
  assert (0 < length (cn_rx c))%nat as Lr by (destruct (cn_rx c); [done|cbn; lia]). pose proof (length_take (cn_rx c) n) as Lb.
  destruct (take n (cn_rx c)) as [|b0 b']; [change (length (@nil Z)) with 0%nat in Lb; lia|]. set (b := b0 :: b') in *. clearbody b. cbn beta iota zeta. cbn [ard_read ard_size].
  assert (fits p) as Hp by (subst all; apply Forall_app in Hall as [_ Hall]; by inversion Hall). unfold fits in Hp.
  assert (length b <= length p - j)%nat as Lbp by lia. rewrite take_app_le in Hb by (rewrite length_drop; lia). rewrite drop_app_le, drop_drop in Hd by (rewrite length_drop; lia).
  destruct (splice_grow j b (cn_raw c) p) as [G1 G2]; [done|done|unfold CLD_RAW_MSG_SZ in *; lia|lia|]. set (raw := splice j b (cn_raw c)) in *.
  assert (length (drop n (cn_rx c)) < length (cn_rx c))%nat as Hless by (rewrite length_drop; lia).
  destruct (Nat.eqb_spec (j + length b) (length p)) as [E8|E8].
  - (* the packet is complete *) rewrite E8 in *. rewrite (take_ge p) in G1 by lia. rewrite (drop_ge p) in Hd by lia.
    cbn [store set_cn_rx cn_q cn_ubbp cn_raw cn_raw_size cn_open cn_rx cn_allocs run_cb set_cn_q]. fold raw. rewrite Hsz, G1.
    assert (feed (did ++ [p]) x0 = rd_pkt p x) as Ef by (by rewrite feed_snoc, Hgo, Ex). destruct (rd_pkt p x) as [x' next] eqn:Erd.
    assert (all = (did ++ [p]) ++ ps) as Eall' by (by rewrite <- app_assoc). destruct next.
    + rewrite read_atcp. cbn [cn_open set_cn_q cn_alloc set_cn_raw_size negb]. rewrite Ho. cbn [negb]. eexists _, x'. split; [reflexivity|]. cbn [cn_rx set_cn_q cn_alloc set_cn_raw_size]. split; [|done].
      exists (did ++ [p]), ps. rewrite Ef. split; [done|]. split; [done|]. left. split; [done|]. split; [split; cbn; congruence|]. left. exists 0%nat.
      split; cbn [cn_q cn_ubbp set_cn_q cn_alloc]; rewrite ?Hq; try done; try lia. unfold ubbp_sz. lia.
    + rewrite Ho. cbn [negb]. eexists _, x'. split; [reflexivity|]. cbn [cn_rx]. split; [|done]. exists (did ++ [p]), ps. rewrite Ef. split; [done|]. split; [done|]. right. cbn. by rewrite Hq.
  - eexists _, x. split; [reflexivity|]. cbn [store set_cn_rx cn_q cn_ubbp cn_raw cn_raw_size cn_open cn_rx cn_allocs set_cn_q]. fold raw. split; [|done].
    exists did, (p :: ps). split; [done|]. split; [done|]. left. split; [done|]. split; [split; cbn; congruence|]. right. exists p, ps, (j + length b)%nat. split; [done|].
    split; cbn [cn_q cn_raw cn_raw_size]; rewrite ?Hq; try done; lia.
Qed.

Lemma tracks_rx all x0 rest c x b : tracks all x0 rest c x -> tracks all x0 rest (set_cn_rx b c) x.
Proof.
  intros (did & ps & E & Ex & Hc). exists did, ps. split; [done|]. split; [done|]. destruct Hc as [[Hg [[R1 R2 R3] Ha]]|Hs]; [left|by right]. split; [done|]. split; [by split|].
  destruct Ha as [(k & [A1 A2 A3 A4 A5])|(p & ps' & k & -> & [A1 A2 A3 A4 A5])]; [left; exists k; by split|right; exists p, ps', k; split; [done|by split]].
Qed.

Lemma ready_step all x0 k c x fut :
  Forall fits all -> tracks all x0 (cn_rx c ++ fut) c x ->
  exists c' x', atcp_read_event rd_pkt mem fuel [Some k] c x = Some (c', x') /\ tracks all x0 (cn_rx c' ++ fut) c' x' /\
    ((length (cn_rx c') < length (cn_rx c))%nat \/ cn_rx c' = [] \/ (c' = c /\ x' = x /\ cn_q c = [] /\ x = (feed all x0).1)).
Proof.
  intros Hall Htr. pose proof Htr as (did & ps & Eall & Ex & [[Hgo [Hr Hat]]|(Hst & Ho & Hq)]).
  - destruct (decide (cn_rx c = [])) as [E0|Hne].
    + destruct Hr as [Ho _ _]. unfold atcp_read_event. rewrite Ho. cbn [negb read_loop].
      assert (exists rd, cn_q c = [rd]) as [rd ->] by (destruct Hat as [(j & A)|(p & ps' & j & _ & A)]; [rewrite (ah_q _ _ _ _ A)|rewrite (ap_q _ _ _ _ _ A)]; eauto).
      cbn [lookup list_lookup cn_read]. rewrite E0, take_nil, drop_nil. eexists _, x. split; [reflexivity|]. cbn [cn_rx set_cn_rx]. rewrite E0 in Htr. split; [by apply tracks_rx|auto].
    + destruct Hat as [(j & A)|(p & ps' & j & -> & A)];
        [destruct (header_step all did ps x0 k c x fut j) as (c' & x' & E & T & L)|destruct (packet_step all did p ps' x0 k c x fut j) as (c' & x' & E & T & L)]; try done; exists c', x'; auto.
  - unfold atcp_read_event. rewrite Ho. cbn [negb read_loop]. rewrite Hq. exists c, x. split; [done|]. split; [done|]. right; right. split_and!; try done. by rewrite Eall, feed_stuck.
Qed.

Lemma net_run_tracks all x0 evs c x fut :
  Forall fits all -> tracks all x0 (cn_rx c ++ arrived evs ++ fut) c x ->
  exists c' x', net_run rd_pkt mem fuel evs c x = Some (c', x') /\ tracks all x0 (cn_rx c' ++ fut) c' x' /\ (length (cn_rx c') <= length (cn_rx c) + length (arrived evs))%nat.
Proof.
  intros Hall. revert c x. induction evs as [|[b|[k|]] evs IH]; intros c x T; cbn [net_run net_step]; [exists c, x; split_and!; try done; lia| | |].
  - destruct (IH (set_cn_rx (cn_rx c ++ b) c) x) as (c' & x' & E & T' & L).
    + cbn [cn_rx set_cn_rx]. apply tracks_rx. unfold arrived in *. cbn in T. by rewrite <- !app_assoc in *.
    + exists c', x'. split_and!; [done|done|]. cbn [cn_rx set_cn_rx] in L. rewrite length_app in L. unfold arrived in *. cbn. rewrite length_app. lia.
  - destruct (ready_step all x0 k c x (arrived evs ++ fut) Hall T) as (c1 & x1 & E & T' & Hp). rewrite E. destruct (IH c1 x1 T') as (c' & x' & E' & T2 & L).
    assert (length (cn_rx c1) <= length (cn_rx c))%nat by (destruct Hp as [?|[->|(-> & _)]]; cbn; lia). exists c', x'. split_and!; [done|done|]. change (arrived (Ready (Some k) :: evs)) with (arrived evs). lia.
  - unfold atcp_read_event. destruct (cn_open c); cbn [negb read_loop]; [|by apply IH]. destruct (cn_q c !! 0%nat); cbn [cn_read]; by apply IH.
Qed.

(** Nothing is left to come. *)
Lemma tracks_end all x0 c x : tracks all x0 [] c x -> x = (feed all x0).1.
Proof.
  intros (did & ps & -> & -> & [[Hgo [_ [(k & A)|(p & ps' & k & -> & A)]]]|(Hst & _)]); [| |by rewrite feed_stuck].
  - destruct ps as [|p ps]; [by rewrite app_nil_r|]. pose proof (ah_rest _ _ _ _ A) as E. apply (f_equal length) in E. rewrite length_drop in E. pose proof (ah_k _ _ _ _ A).
    unfold frames, frame in E. cbn [fmap list_fmap concat] in E. rewrite !length_app, length_ubbp_enc in E. cbn [length] in E. lia.
  - pose proof (ap_rest _ _ _ _ _ A) as E. apply (f_equal length) in E. rewrite length_app, length_drop in E. pose proof (ap_k _ _ _ _ _ A). cbn [length] in E. lia.
Qed.

Lemma drain all x0 ks c x :
  Forall fits all -> tracks all x0 (cn_rx c) c x -> (length (cn_rx c) <= length ks)%nat ->
  exists c' x', net_run rd_pkt mem fuel ((fun k => Ready (Some k)) <$> ks) c x = Some (c', x') /\ x' = (feed all x0).1.
Proof.
  intros Hall. revert c x. induction ks as [|k ks IH]; intros c x T L.
  { exists c, x. split; [done|]. destruct (cn_rx c); [by eapply tracks_end|cbn in L; lia]. }
  cbn [fmap list_fmap net_run net_step]. destruct (ready_step all x0 k c x [] Hall) as (c' & x' & E & T' & Hp); [by rewrite app_nil_r|]. rewrite E. rewrite app_nil_r in T'.
  destruct Hp as [Hp|[E0|(-> & -> & Hq & Ef)]]; [apply IH; [done|cbn in L; lia]|apply IH; [done|rewrite E0; cbn; lia]|]. clear - Hq Ef.
  exists c, x. split; [|done]. induction ks as [|k ks IH]; [done|]. cbn [fmap list_fmap net_run net_step]. unfold atcp_read_event at 1.
  destruct (cn_open c); cbn [negb read_loop]; [rewrite Hq|]; exact IH.
Qed.

Lemma accept_tracks all x0 : exists c0, cli_accept rd_pkt mem fuel x0 = Some (c0, x0) /\ cn_rx c0 = [] /\ tracks all x0 (frames 1 all) c0 x0.
Proof.
  unfold cli_accept. rewrite read_atcp. eexists. split; [reflexivity|]. split; [done|]. exists [], all. split; [done|]. split; [done|]. left. split; [done|].
  split; [split; cbn; rewrite ?length_replicate; done|]. left. exists 0%nat. split; try done; unfold ubbp_sz; lia.
Qed.

Lemma net_run_app evs evs' c x : net_run rd_pkt mem fuel (evs ++ evs') c x =
  match net_run rd_pkt mem fuel evs c x with Some (c, x) => net_run rd_pkt mem fuel evs' c x | None => None end.
Proof. revert c x. induction evs as [|e evs IH]; intros c x; [done|]. cbn [app net_run]. destruct (net_step _ _ _ _ _ _) as [[]|]; [apply IH|done]. Qed.

Lemma arrived_app evs evs' : arrived (evs ++ evs') = arrived evs ++ arrived evs'.
Proof. unfold arrived. by rewrite fmap_app, concat_app. Qed.

(** Every stage of a run has handled the packets up to some point, and once
    everything has arrived and been read, all of them. *)
Lemma stream_delivered all evs ks x0 :
  Forall fits all -> arrived evs = frames 1 all -> (length (frames 1 all) <= length ks)%nat ->
  exists c0, cli_accept rd_pkt mem fuel x0 = Some (c0, x0) /\
    (exists c, net_run rd_pkt mem fuel (evs ++ ((fun k => Ready (Some k)) <$> ks)) c0 x0 = Some (c, (feed all x0).1)) /\
    forall evs1 evs2, evs = evs1 ++ evs2 -> exists n c, net_run rd_pkt mem fuel evs1 c0 x0 = Some (c, (feed (take n all) x0).1).
Proof.
  intros Hall Harr Hks. destruct (accept_tracks all x0) as (c0 & E0 & R0 & T0). exists c0. split; [done|]. split.
  - destruct (net_run_tracks all x0 evs c0 x0 [] Hall) as (c1 & x1 & E1 & T1 & L1); [by rewrite R0, Harr, app_nil_r|]. rewrite app_nil_r in T1.
    destruct (drain all x0 ks c1 x1 Hall T1) as (c2 & x2 & E2 & ->); [|exists c2; by rewrite net_run_app, E1]. rewrite R0, Harr in L1. cbn in L1. lia.
  - intros evs1 evs2 ->. rewrite arrived_app in Harr. destruct (net_run_tracks all x0 evs1 c0 x0 (arrived evs2) Hall) as (c1 & x1 & E1 & T1 & _); [by rewrite R0, Harr|].
    destruct T1 as (did & ps & -> & -> & _). exists (length did), c1. by rewrite take_app_length.
Qed.

End server.

(** ** From client to server *)

Section ends.
Context {D : Type} `{!Bdb D, !XdrLib, !HmacLib}.

(** What the server does with the packets of a connection. *)
Definition serve (cli : cli_info) (pkt : bytes) (s : srv D) : srv D * bool := let '(r, s) := cli_rd_pkt cli pkt s in (s, r.2).

(** The client sends packets; a write takes up to [m] bytes. *)
Definition send_all (m : nat) (ps : list bytes) : bytes := foldl (fun tx p => (cldc_tcp_pkt_send (inr m) (inr m) p tx).2) [] ps.

Lemma send_all_frames m ps : (ubbp_sz <= m)%nat -> Forall (fun p => (length p <= m)%nat) ps -> send_all m ps = frames 1 ps.
Proof.
  intros Hm Hps. unfold send_all, frames. assert (forall tx, foldl (fun tx p => (cldc_tcp_pkt_send (inr m) (inr m) p tx).2) tx ps = tx ++ concat (frame 1 <$> ps)) as Hgen; [|apply (Hgen [])].
  induction Hps as [|p ps Hp Hps IH]; intros tx; cbn [foldl]; [by rewrite app_nil_r|]. rewrite IH. cbn [cldc_tcp_pkt_send snd fmap list_fmap concat]. unfold frame.
  rewrite !take_ge by (rewrite ?length_ubbp_enc; done). by rewrite <- !app_assoc.
Qed.

(** C12. Packets cross the connection: when the client's writes are taken whole,
    then however the network cuts and delays the stream and however much each
    read of the server gets, the server handles a prefix of the packets at any
    time, and once all has arrived and been read exactly the packets sent, in
    order, up to the first one its handler asks for no more after. *)
Theorem packets_cross cli mem fuel m ps evs ks (s0 : srv D) :
  (forall n, mem n = true) -> Forall fits ps -> (ubbp_sz <= m)%nat -> Forall (fun p => (length p <= m)%nat) ps ->
  arrived evs = send_all m ps -> (length (send_all m ps) <= length ks)%nat ->
  exists c0, cli_accept (serve cli) mem fuel s0 = Some (c0, s0) /\
    (exists c, net_run (serve cli) mem fuel (evs ++ ((fun k => Ready (Some k)) <$> ks)) c0 s0 = Some (c, (feed (serve cli) ps s0).1)) /\
    forall evs1 evs2, evs = evs1 ++ evs2 -> exists n c, net_run (serve cli) mem fuel evs1 c0 s0 = Some (c, (feed (serve cli) (take n ps) s0).1).
Proof. intros Hm Hf H8 Hl Ha Hk. rewrite (send_all_frames m ps H8 Hl) in *. by apply stream_delivered. Qed.

End ends.

(** ** The client's side *)

Section client.
Context {Y : Type} (receive : bytes -> Y -> Z * Y) (tail : bytes).
Implicit Types (t : cldc_tcp) (y : Y).

Record bufs t : Prop := { bf_ubbp : length (ct_ubbp t) = ubbp_sz; bf_buf : length (ct_buf t) = Z.to_nat CLD_RAW_MSG_SZ }.

(** [tail] is what follows the frames.  Before a header; or after it with [k] bytes of [p] read. *)
Record boundary (ps : list bytes) t : Prop := { bd_bufs : bufs t; bd_read : ct_ubbp_read t = 0%nat; bd_rx : ct_rx t = frames 2 ps ++ tail }.
Record midway (p : bytes) (ps : list bytes) (k : nat) t : Prop := {
  mw_bufs : bufs t; mw_read : ct_ubbp_read t = ubbp_sz; mw_size : ct_raw_size t = length p; mw_pos : ct_raw_read t = k; mw_k : (k < length p)%nat;
  mw_got : take k (ct_buf t) = take k p; mw_rx : ct_rx t = drop k p ++ frames 2 ps ++ tail }.

Lemma raw_step p ps k l t y : fits p -> midway p ps k t ->
  exists crc t' y', receive_raw receive (inr l) t y = Some (crc, t', y') /\ (length (ct_rx t') < length (ct_rx t))%nat /\
    ((boundary ps t' /\ y' = (receive p y).2 /\ ct_raw_size t' = length p /\ ct_raw_read t' = length p /\ take (length p) (ct_buf t') = p) \/
     (y' = y /\ exists k', midway p ps k' t')) /\ ((length p - k <= S l)%nat -> boundary ps t').
Proof.
  intros Hp [[B1 B2] M1 M2 M3 M4 M5 M6]. unfold fits in Hp. unfold receive_raw. rewrite M2, (proj2 (Nat.eqb_neq _ 0)), (proj2 (Z.ltb_ge _ _)) by lia.
  cbn [ct_read]. rewrite M3. set (n := Nat.min (length p - k) (S l)). assert (0 < n <= length p - k)%nat as Hn by lia.
  assert (take n (ct_rx t) = take n (drop k p)) as Et by (rewrite M6, take_app_le by (rewrite length_drop; lia); done).
  assert (length (take n (drop k p)) = n) as Ln by (rewrite length_take, length_drop; lia). rewrite Et. cbn [ct_raw_read ct_raw_size ct_buf ct_ubbp ct_rx ct_ubbp_read]. rewrite Ln, ?M2, ?M3.
  destruct (splice_grow k (take n (drop k p)) (ct_buf t) p) as [G1 G2]; [done|by rewrite Ln|rewrite Ln, B2; unfold CLD_RAW_MSG_SZ in *; lia|lia|]. rewrite Ln in G1. set (buf := splice k _ _) in *.
  assert (drop n (ct_rx t) = drop (k + n) p ++ frames 2 ps ++ tail) as Ed by (rewrite M6, drop_app_le, drop_drop by (rewrite length_drop; lia); done).
  assert (length (drop n (ct_rx t)) < length (ct_rx t))%nat as Hless by (rewrite length_drop, M6, length_app, length_drop; lia).
  destruct (Nat.ltb_spec (k + n) (length p)) as [L|L].
  - eexists _, _, _. split; [reflexivity|]. split; [done|]. split; [|intros; unfold n in *; lia]. right. split; [done|]. exists (k + n)%nat. split; try done. split; [done|cbn; congruence].
  - assert (k + n = length p)%nat as Ekn by lia. rewrite Ekn in *. rewrite (take_ge p) in G1 by done. rewrite G1. destruct (receive p y) as [crc y'] eqn:Er. eexists _, _, _. split; [reflexivity|].
    assert (boundary ps (mkTcp (ct_ubbp t) 0 (length p) (length p) buf (drop n (ct_rx t)))) as Hbd by (split; [split; [done|cbn; congruence]|done|cbn; by rewrite Ed, (drop_ge p)]).
    split; [done|]. split; [|done]. left. done.
Qed.

(** The header is read in one piece. *)
Lemma boundary_step p ps l1 l2 t y : fits p -> (ubbp_sz <= S l1)%nat -> boundary (p :: ps) t ->
  exists t1, midway p ps 0 t1 /\ (length (ct_rx t1) < length (ct_rx t))%nat /\ cldc_tcp_receive_pkt_data receive (inr l1) (inr l2) t y = receive_raw receive (inr l2) t1 y.
Proof.
  intros Hp Hl [[B1 B2] R Hrx]. unfold fits in Hp. unfold cldc_tcp_receive_pkt_data. rewrite R. cbn [Nat.ltb Nat.leb ct_read]. rewrite Nat.sub_0_r, Nat.min_l by done.
  destruct (ubbp_dec 2 (Z.of_nat (length p)) ltac:(lia) ltac:(lia)) as (E1 & E2 & E3). set (h := ubbp_enc 2 (Z.of_nat (length p))) in *. assert (length h = ubbp_sz) as Lh by apply length_ubbp_enc.
  assert (ct_rx t = h ++ p ++ frames 2 ps ++ tail) as Erx by (rewrite Hrx; unfold frames, frame; cbn [fmap list_fmap concat]; by rewrite <- !app_assoc).
  rewrite Erx, take_app_length', drop_app_length' by done. cbn [ct_ubbp ct_ubbp_read ct_raw_size ct_raw_read ct_buf ct_rx]. rewrite R, Lh. cbn [Nat.add].
  assert (splice 0 h (ct_ubbp t) = h) as -> by (unfold splice; rewrite take_0; cbn [app]; rewrite drop_ge, app_nil_r by (rewrite Lh, B1; done); done).
  rewrite Nat.eqb_refl, E1, E2, E3. rewrite bool_decide_eq_true_2 by done. cbn [negb]. rewrite Z.eqb_refl. cbn [negb]. rewrite (proj2 (Z.ltb_ge _ _)), Nat2Z.id by lia.
  eexists. split; [|split; [|reflexivity]]; [|cbn [ct_rx]; rewrite !length_app, Lh; unfold ubbp_sz; lia]. split; try done. cbn. lia.
Qed.

Lemma tcp_receive_all lims : forall ps t y, Forall fits ps -> Forall (fun l => ubbp_sz <= S l.1)%nat lims ->
  (boundary ps t /\ (length (ct_rx t) <= length lims + length tail)%nat -> exists n t', receive_calls receive (take n lims) t y = Some (t', foldl (fun y p => (receive p y).2) y ps) /\ boundary [] t') /\
  (forall p k, fits p -> midway p ps k t /\ (length (ct_rx t) <= length lims + length tail)%nat ->
     exists n t', receive_calls receive (take n lims) t y = Some (t', foldl (fun y p => (receive p y).2) y (p :: ps)) /\ boundary [] t').
Proof.
  induction lims as [|[l1 l2] lims IH]; intros ps t y Hps Hl.
  { split.
    - intros [Hb L]. exists 0%nat, t. destruct ps as [|p ps]; [done|]. rewrite (bd_rx _ _ Hb) in L. unfold frames, frame in L. cbn [fmap list_fmap concat] in L. rewrite !length_app, length_ubbp_enc in L. cbn in L. lia.
    - intros p k Hp [Hm L]. rewrite (mw_rx _ _ _ _ Hm), !length_app, length_drop in L. pose proof (mw_k _ _ _ _ Hm). cbn in L. lia. }
  inversion_clear Hl as [|? ? Hl1 Hl']. cbn [fst] in Hl1.
  assert (forall p ps' k t1, fits p -> Forall fits ps' -> midway p ps' k t1 -> (length (ct_rx t1) <= S (length lims) + length tail)%nat ->
    forall r, r = receive_raw receive (inr l2) t1 y -> exists n t', match r with None => None | Some (_, t, y) => receive_calls receive (take n lims) t y end = Some (t', foldl (fun y p => (receive p y).2) y (p :: ps')) /\ boundary [] t') as Hraw.
  { intros p ps' k t1 Hp Hps' Hm L r ->. destruct (raw_step p ps' k l2 t1 y Hp Hm) as (crc & t2 & y2 & E & Hlt & Hc & _). rewrite E.
    destruct Hc as [(Hb & -> & _)|[-> [k' Hm']]].
    - destruct (proj1 (IH ps' t2 (receive p y).2 Hps' Hl')) as (n & t' & En & Hb'); [split; [done|lia]|]. by exists n, t'.
    - destruct (proj2 (IH ps' t2 y Hps' Hl') p k' Hp) as (n & t' & En & Hb'); [split; [done|lia]|]. by exists n, t'. }
  split.
  - intros [Hb L]. destruct ps as [|p ps]; [exists 0%nat, t; split; [done|done]|]. inversion_clear Hps as [|? ? Hp Hps'].
    destruct (boundary_step p ps l1 l2 t y Hp Hl1 Hb) as (t1 & Hm & Hlt & E). cbn [length] in L. destruct (Hraw p ps 0%nat t1 Hp Hps' Hm ltac:(lia) _ eq_refl) as (n & t' & En & Hb').
    exists (S n), t'. split; [|done]. cbn [take receive_calls]. rewrite E. exact En.
  - intros p k Hp [Hm L]. destruct (Hraw p ps k t Hp Hps Hm L _ eq_refl) as (n & t' & En & Hb'). exists (S n), t'. split; [|done]. cbn [take receive_calls].
    unfold cldc_tcp_receive_pkt_data. rewrite (mw_read _ _ _ _ Hm). exact En.
Qed.

End client.

(** The client hands exactly the packets of the stream to its session, in
    order and once, however little of a packet each read gets, as long as no
    header is cut in two; enough calls get to the end of the stream. *)
Theorem client_receives {Y} (receive : bytes -> Y -> Z * Y) ps lims y :
  Forall fits ps -> Forall (fun l => ubbp_sz <= S l.1)%nat lims -> (length (frames 2 ps) <= length lims)%nat ->
  exists n t, receive_calls receive (take n lims) (cldc_tcp_new (frames 2 ps)) y = Some (t, foldl (fun y p => (receive p y).2) y ps) /\ ct_rx t = [] /\ ct_ubbp_read t = 0%nat.
Proof.
  intros Hps Hl Hn. destruct (proj1 (tcp_receive_all receive [] lims ps (cldc_tcp_new (frames 2 ps)) y Hps Hl)) as (n & t & E & [_ B1 B2]).
  - split; [|cbn [length]; cbn [ct_rx cldc_tcp_new]; lia]. split; [split; cbn [ct_ubbp ct_buf cldc_tcp_new]; by rewrite length_replicate|done|by rewrite app_nil_r].
  - by exists n, t.
Qed.

(** C13. A header that arrives in two parts breaks the client's connection: after
    a packet [p], a read that gets fewer than eight bytes (or none, at the end
    of the connection) hands [p] to the session a second time, and the bytes
    read are dropped. *)
Theorem split_header_replays {Y} (receive : bytes -> Y -> Z * Y) p b y :
  fits p -> (length b < ubbp_sz)%nat ->
  exists t1, receive_calls receive [(7%nat, length p)] (cldc_tcp_new (frame 2 p ++ b)) y = Some (t1, (receive p y).2) /\ ct_rx t1 = b /\
    forall l1 l2 y1, (length b <= S l1)%nat -> exists crc t2, cldc_tcp_receive_pkt_data receive (inr l1) (inr l2) t1 y1 = Some (crc, t2, (receive p y1).2) /\
      ct_rx t2 = [] /\ ct_ubbp_read t2 = 0%nat.
Proof.
  intros Hp Hb.
  assert (boundary b [p] (cldc_tcp_new (frame 2 p ++ b))) as B0.
  { split; [split; cbn [ct_ubbp ct_buf cldc_tcp_new]; by rewrite length_replicate|done|]. cbn [ct_rx cldc_tcp_new]. unfold frames. cbn. by rewrite app_nil_r. }
  destruct (boundary_step receive b p [] 7 (length p) _ y Hp ltac:(unfold ubbp_sz; lia) B0) as (t0 & Hm & _ & E0).
  destruct (raw_step receive b p [] 0 (length p) t0 y Hp Hm) as (crc & t1 & y1 & E1 & _ & Hc & Hbd). specialize (Hbd ltac:(lia)).
  destruct Hc as [([[B1 B2] R Hrx] & -> & S1 & S2 & S3)|[_ [k' Hm']]]; [|pose proof (mw_read _ _ _ _ _ Hm'); pose proof (bd_read _ _ _ Hbd); unfold ubbp_sz in *; congruence].
  exists t1. split; [cbn [receive_calls]; by rewrite E0, E1|]. split; [done|]. intros l1 l2 y1 Hl. unfold cldc_tcp_receive_pkt_data. rewrite R. cbn [Nat.ltb Nat.leb ct_read]. rewrite Nat.sub_0_r.
  cbn [frames fmap list_fmap concat app] in Hrx. change (frames 2 [] ++ b) with b in Hrx. rewrite Hrx. rewrite !take_ge, !drop_ge by lia.
  cbn [ct_ubbp ct_ubbp_read ct_raw_size ct_raw_read ct_buf ct_rx]. rewrite R. cbn [Nat.add]. rewrite (proj2 (Nat.eqb_neq _ _)) by lia.
  unfold fits in Hp. unfold receive_raw. cbn [ct_ubbp ct_ubbp_read ct_raw_size ct_raw_read ct_buf ct_rx ct_read]. rewrite S1, S2, (proj2 (Nat.eqb_neq _ 0)), (proj2 (Z.ltb_ge _ _)) by lia.
  rewrite Nat.sub_diag. cbn [Nat.min take drop ct_ubbp ct_ubbp_read ct_raw_size ct_raw_read ct_buf ct_rx length]. rewrite Nat.add_0_r, Nat.ltb_irrefl.
  assert (splice (length p) [] (ct_buf t1) = ct_buf t1) as -> by (unfold splice; cbn [length app]; by rewrite Nat.add_0_r, take_drop). rewrite S3.
  destruct (receive p y1) as [crc' y2]. by eexists _, _.
Qed.
