(* ===== verification/Timer.v ===== *)
(** * Timer: the timer list (lib/libtimer.c, [struct cld_timer] of
    include/cld_common.h)

    Timers are objects owned by the callers; the list keeps pointers to them,
    sorted by expiry.  A timer's callback may add and delete timers, its own
    included: [cb p st] is the sequence of such calls the callback of timer [p]
    makes, an arbitrary function of the state it finds. *)

From S2P Require Import Prelude.
From stdpp Require Import sorting.
#[local] Open Scope Z_scope.

Record cld_timer : Type := mkTimer {
  t_fired : bool;
  t_on_list : bool;
  t_expires : Z }.

(** [cld_timer_init] *)
Definition cld_timer_init : cld_timer := mkTimer false false 0.
#[global] Instance cld_timer_inhabited : Inhabited cld_timer := populate cld_timer_init.

(** [struct cld_timer_list], the timers, and the callbacks run so far. *)
Record timers : Type := mkTimers {
  tl_list : list nat;
  tl_runmark : Z;
  tl_heap : gmap nat cld_timer;
  tl_log : list nat }.

Definition expires (st : timers) (p : nat) : Z := t_expires (tl_heap st !!! p).

(** [cld_timer_cmp] *)
Definition cld_timer_cmp (a b : Z) : Z := if b <? a then 1 else if a =? b then 0 else -1.

(** [g_list_insert_sorted]: ahead of the first element that is not smaller. *)
Fixpoint insert_sorted (h : gmap nat cld_timer) (p : nat) (l : list nat) : list nat :=
  match l with
  | [] => [p]
  | q :: l =>
      if 0 <? cld_timer_cmp (t_expires (h !!! p)) (t_expires (h !!! q)) then q :: insert_sorted h p l
      else p :: q :: l
  end.

Definition cld_timer_add (p : nat) (expires : Z) (st : timers) : timers :=
  let t := tl_heap st !!! p in
  let timer_list := if t_on_list t then remove_first p (tl_list st) else tl_list st in
  let expires := if expires <? tl_runmark st + 1 then tl_runmark st + 1 else expires in
  let h := <[p := mkTimer false true expires]> (tl_heap st) in
  mkTimers (insert_sorted h p timer_list) (tl_runmark st) h (tl_log st).

Definition cld_timer_del (p : nat) (st : timers) : timers :=
  let t := tl_heap st !!! p in
  if negb (t_on_list t) then st else
  mkTimers (remove_first p (tl_list st)) (tl_runmark st)
    (<[p := mkTimer (t_fired t) false (t_expires t)]> (tl_heap st)) (tl_log st).

(** Calls a callback may make. *)
Inductive timer_op : Type := TAdd (p : nat) (expires : Z) | TDel (p : nat).

Definition run_timer_op (st : timers) (o : timer_op) : timers :=
  match o with TAdd p e => cld_timer_add p e st | TDel p => cld_timer_del p st end.

Definition op_target (o : timer_op) : nat := match o with TAdd p _ => p | TDel p => p end.

Section run.
Variable cb : nat -> timers -> list timer_op.

(** Take the head off, mark it fired, run its callback. *)
Definition fire (p : nat) (rest : list nat) (st : timers) : timers :=
  let t := tl_heap st !!! p in
  let st := mkTimers rest (tl_runmark st) (<[p := mkTimer true false (t_expires t)]> (tl_heap st)) (tl_log st ++ [p]) in
  foldl run_timer_op st (cb p st).

(** The loop; [None]: out of fuel. *)
Fixpoint run_loop (fuel : nat) (now : Z) (st : timers) : option timers :=
  match fuel with
  | O => None
  | S fuel =>
      match tl_list st with
      | [] => Some st
      | p :: rest =>
          if now <? expires st p then Some st
          else run_loop fuel now (fire p rest st)
      end
  end.

(** [cld_timers_run] at time [now]: the next timeout (0: none) and the state.
    Every round takes a timer off that was on the list at the start (see
    [run_loop_spec]), so one round more than its length is enough. *)
Definition cld_timers_run (now : Z) (st : timers) : option (Z * timers) :=
  let st := mkTimers (tl_list st) now (tl_heap st) (tl_log st) in
  match run_loop (S (length (tl_list st))) now st with
  | None => None
  | Some st =>
      let next_timeout :=
        match tl_list st with
        | [] => 0
        | p :: _ => if now <? expires st p then expires st p - now else 1
        end in
      Some (next_timeout, st)
  end.

End run.

(** ** The invariant *)

Definition earlier (st : timers) (p q : nat) : Prop := expires st p <= expires st q.

Record timers_wf (st : timers) : Prop := {
  tw_sorted : StronglySorted (earlier st) (tl_list st);
  tw_nodup : NoDup (tl_list st);
  tw_on_list p : p ∈ tl_list st <-> t_on_list (tl_heap st !!! p) = true }.

Lemma heap_insert (h : gmap nat cld_timer) (p q : nat) (t : cld_timer) :
  <[p := t]> h !!! q = if decide (q = p) then t else h !!! q.
Proof.
  case_decide as E; [subst; apply lookup_total_insert_eq|]. by rewrite lookup_total_insert_ne.
Qed.

Lemma elem_of_insert_sorted h p l q : q ∈ insert_sorted h p l <-> q = p \/ q ∈ l.
Proof.
  induction l as [|a l IH]; cbn [insert_sorted]; [set_solver|]. case_match; set_solver.
Qed.

Lemma insert_sorted_nodup h p l : p ∉ l -> NoDup l -> NoDup (insert_sorted h p l).
Proof.
  intros Hp Hl. induction Hl as [|a l Ha Hl IH]; cbn [insert_sorted]; [by apply NoDup_singleton|].
  apply not_elem_of_cons in Hp as [H1 H2]. case_match.
  - constructor; [|auto]. rewrite elem_of_insert_sorted. intros [->|?]; done.
  - constructor; [set_solver|]. by constructor.
Qed.

Lemma insert_sorted_sorted h p l :
  StronglySorted (fun a b => t_expires (h !!! a) <= t_expires (h !!! b)) l ->
  StronglySorted (fun a b => t_expires (h !!! a) <= t_expires (h !!! b)) (insert_sorted h p l).
Proof.
  induction 1 as [|a l Hl IH Ha]; cbn [insert_sorted]; [constructor; constructor|].
  unfold cld_timer_cmp. destruct (Z.ltb_spec (t_expires (h !!! a)) (t_expires (h !!! p))) as [Hc|Hc]; cbn [Z.ltb Z.compare].
  - constructor; [done|]. rewrite Forall_forall in *. intros q [->|Hq]%elem_of_insert_sorted; [lia|auto].
  - assert (0 <? (if t_expires (h !!! p) =? t_expires (h !!! a) then 0 else -1) = false) as -> by by case_match.
    constructor; [by constructor|]. constructor; [lia|]. eapply Forall_impl; [done|]. cbn. intros q Hq. lia.
Qed.

(** Sortedness only looks at the expiry of the members. *)
Lemma sorted_ext (f g : nat -> Z) l : (forall p, p ∈ l -> f p = g p) ->
  StronglySorted (fun a b => f a <= f b) l -> StronglySorted (fun a b => g a <= g b) l.
Proof.
  intros Hfg. induction 1 as [|a l Hl IH Ha]; constructor.
  - apply IH. intros p Hp. apply Hfg. by right.
  - rewrite Forall_forall in *. intros q Hq. rewrite <- !Hfg by (by left || by right). auto.
Qed.

Lemma remove_first_nodup (p : nat) l : NoDup l -> NoDup (remove_first p l) /\ forall q, q ∈ remove_first p l <-> q ∈ l /\ q <> p.
Proof.
  intros Hl. split; [eapply sublist_NoDup; [done|apply remove_first_sublist]|].
  induction Hl as [|a l Ha Hl IH]; intros q; cbn [remove_first]; [set_solver|]. case_decide; subst; set_solver.
Qed.

Lemma sorted_sublist {A} (R : A -> A -> Prop) l1 l2 : sublist l1 l2 -> StronglySorted R l2 -> StronglySorted R l1.
Proof.
  induction 1 as [|x l1 l2 Hs IH|x l1 l2 Hs IH]; intros H; [constructor| |]; inversion H; subst.
  - constructor; [auto|]. by eapply sublist_Forall.
  - auto.
Qed.

Lemma timer_add_wf p e st : timers_wf st -> timers_wf (cld_timer_add p e st).
Proof.
  intros [S N O]. unfold cld_timer_add. set (t := tl_heap st !!! p).
  set (l := if t_on_list t then _ else _). set (e' := if _ <? _ then _ else _).
  assert (NoDup l /\ (forall q, q ∈ l <-> q ∈ tl_list st /\ q <> p) /\ sublist l (tl_list st)) as (Nl & El & Sl).
  { unfold l. destruct (t_on_list t) eqn:Et.
    - destruct (remove_first_nodup p _ N) as [H1 H2]. split_and!; [done|done|apply remove_first_sublist].
    - split_and!; [done| |done]. intros q. split; [|tauto]. intros Hq. split; [done|]. intros ->.
      apply O in Hq. unfold t in Et. congruence. }
  set (h := <[p := mkTimer false true e']> (tl_heap st)). split; cbn.
  - apply insert_sorted_sorted. apply (sorted_ext (expires st)); [|by eapply sorted_sublist].
    intros q Hq. unfold expires, h. rewrite heap_insert, decide_False; [done|]. by apply El in Hq as [_ ?].
  - apply insert_sorted_nodup; [|done]. rewrite El. tauto.
  - intros q. rewrite elem_of_insert_sorted, El, O. unfold h. rewrite heap_insert. case_decide; [|tauto]. cbn. tauto.
Qed.

Lemma timer_del_wf p st : timers_wf st -> timers_wf (cld_timer_del p st).
Proof.
  intros [S N O]. unfold cld_timer_del. destruct (t_on_list (tl_heap st !!! p)) eqn:Et; cbn [negb]; [|by split].
  destruct (remove_first_nodup p _ N) as [H1 H2]. split; cbn; [|done|].
  - apply (sorted_ext (expires st)); [|eapply sorted_sublist; [apply remove_first_sublist|done]].
    intros q Hq. unfold expires. cbn. rewrite heap_insert, decide_False; [done|]. by apply H2 in Hq as [_ ?].
  - intros q. rewrite H2, O, heap_insert. case_decide as Hq; [|tauto]. cbn. split; [tauto|done].
Qed.

Lemma timer_op_wf o st : timers_wf st -> timers_wf (run_timer_op st o).
Proof. destruct o; [apply timer_add_wf|apply timer_del_wf]. Qed.

Lemma timer_ops_wf os st : timers_wf st -> timers_wf (foldl run_timer_op st os).
Proof. revert st. induction os as [|o os IH]; intros st H; [done|]. apply IH. by apply timer_op_wf. Qed.

(** Adding and deleting keeps the mark and the log. *)
Lemma timer_op_mark o st : tl_runmark (run_timer_op st o) = tl_runmark st /\ tl_log (run_timer_op st o) = tl_log st.
Proof. destruct o as [p e|p]; cbn; [done|]. unfold cld_timer_del. by case_match. Qed.

Lemma timer_ops_mark os st :
  tl_runmark (foldl run_timer_op st os) = tl_runmark st /\ tl_log (foldl run_timer_op st os) = tl_log st.
Proof.
  revert st. induction os as [|o os IH]; intros st; [done|]. cbn. destruct (IH (run_timer_op st o)) as [-> ->].
  apply timer_op_mark.
Qed.

(** The due timers of a state, in order. *)
Definition due_list (now : Z) (st : timers) : list nat := filter (fun p => expires st p <= now) (tl_list st).

Lemma filter_ext_in {A} (P Q : A -> Prop) `{!forall x, Decision (P x), !forall x, Decision (Q x)} (l : list A) :
  (forall x, x ∈ l -> P x <-> Q x) -> filter P l = filter Q l.
Proof.
  induction l as [|a l IH]; intros Hpq; [done|]. rewrite !filter_cons.
  destruct (decide (P a)) as [Hp|Hp], (decide (Q a)) as [Hq|Hq]; try (destruct Hp || destruct Hq; apply Hpq; [left|done]);
    rewrite IH; try done; intros x Hx; apply Hpq; by right.
Qed.

Lemma sublist_filter {A} (P : A -> Prop) `{!forall x, Decision (P x)} (l1 l2 : list A) :
  sublist l1 l2 -> sublist (filter P l1) (filter P l2).
Proof.
  induction 1 as [|x l1 l2 Hs IH|x l1 l2 Hs IH]; [done| |]; rewrite !filter_cons; case_decide; try done;
    by constructor.
Qed.

Lemma filter_insert_sorted (P : nat -> Prop) `{!forall x, Decision (P x)} h p l :
  ~ P p -> filter P (insert_sorted h p l) = filter P l.
Proof.
  intros Hp. induction l as [|a l IH]; cbn [insert_sorted]; [by rewrite filter_cons_False|].
  case_match; [|by rewrite filter_cons_False]. rewrite !filter_cons, IH. done.
Qed.

(** Adding and deleting during a run only takes due timers away. *)
Lemma timer_op_due o st : timers_wf st -> sublist (due_list (tl_runmark st) (run_timer_op st o)) (due_list (tl_runmark st) st).
Proof.
  intros [S N O]. unfold due_list. destruct o as [p e|p]; cbn; unfold cld_timer_add, cld_timer_del.
  - cbn. set (e' := if _ <? _ then _ else _). set (h := <[p := _]> _).
    assert (tl_runmark st < e') as He by (unfold e'; destruct (Z.ltb_spec e (tl_runmark st + 1)); lia).
    rewrite filter_insert_sorted by (unfold expires; cbn; unfold h; rewrite heap_insert, decide_True by done; cbn; lia).
    set (l := if t_on_list _ then _ else _).
    assert (sublist l (tl_list st) /\ p ∉ l) as [Hs Hp].
    { unfold l. destruct (t_on_list _) eqn:Et.
      - split; [apply remove_first_sublist|]. destruct (remove_first_nodup p _ N) as [_ H]. rewrite H. tauto.
      - split; [done|]. rewrite O. congruence. }
    rewrite (filter_ext_in _ (fun q => expires st q <= tl_runmark st)); [by apply sublist_filter|].
    intros q Hq. unfold expires. cbn. unfold h. rewrite heap_insert, decide_False; [done|]. by intros ->.
  - destruct (negb _); [done|]. cbn.
    rewrite (filter_ext_in _ (fun q => expires st q <= tl_runmark st)); [apply sublist_filter, remove_first_sublist|].
    intros q Hq. unfold expires. cbn. rewrite heap_insert. case_decide; [by subst|done].
Qed.

Lemma timer_ops_due os st :
  timers_wf st -> sublist (due_list (tl_runmark st) (foldl run_timer_op st os)) (due_list (tl_runmark st) st).
Proof.
  revert st. induction os as [|o os IH]; intros st W; [done|]. cbn.
  destruct (timer_op_mark o st) as [M _]. specialize (IH _ (timer_op_wf o st W)). rewrite M in IH.
  etrans; [done|by apply timer_op_due].
Qed.

Lemma filter_remove_first (P : nat -> Prop) `{!forall x, Decision (P x)} p l :
  (p ∈ l -> ~ P p) -> filter P (remove_first p l) = filter P l.
Proof.
  induction l as [|a l IH]; intros Hp; [done|]. cbn [remove_first]. case_decide as E.
  - subst a. rewrite filter_cons_False; [done|]. apply Hp. by left.
  - rewrite !filter_cons, IH; [done|]. intros Hl. apply Hp. by right.
Qed.

Definition is_due (st : timers) (p : nat) : Prop := p ∈ tl_list st /\ expires st p <= tl_runmark st.

(** An operation on a timer that is not due leaves the due ones alone. *)
Lemma timer_op_due_eq o st : timers_wf st -> ~ is_due st (op_target o) ->
  due_list (tl_runmark st) (run_timer_op st o) = due_list (tl_runmark st) st /\
  ~ is_due (run_timer_op st o) (op_target o).
Proof.
  intros [S N O] Hd. unfold due_list, is_due in *. destruct o as [p e|p]; cbn in *; unfold cld_timer_add, cld_timer_del.
  - cbn. set (e' := if _ <? _ then _ else _). set (h := <[p := _]> _).
    assert (tl_runmark st < e') as He by (unfold e'; destruct (Z.ltb_spec e (tl_runmark st + 1)); lia).
    assert (forall m l g, expires (mkTimers l m h g) p = e') as Ep
      by (intros; unfold expires; cbn; unfold h; rewrite heap_insert, decide_True by done; done).
    rewrite Ep. split; [|lia]. rewrite filter_insert_sorted by (rewrite Ep; lia).
    set (l := if t_on_list _ then _ else _).
    assert (p ∉ l /\ filter (fun q => expires st q <= tl_runmark st) l = filter (fun q => expires st q <= tl_runmark st) (tl_list st)) as [Hp El].
    { unfold l. destruct (t_on_list _) eqn:Et.
      - split; [|apply filter_remove_first; tauto]. destruct (remove_first_nodup p _ N) as [_ H]. rewrite H. tauto.
      - split; [|done]. rewrite O. congruence. }
    rewrite <- El. apply filter_ext_in. intros q Hq. unfold expires. cbn. unfold h. rewrite heap_insert, decide_False; [done|].
    by intros ->.
  - destruct (negb _); [done|]. cbn. split.
    + rewrite <- (filter_remove_first (fun q => expires st q <= tl_runmark st) p (tl_list st)) by tauto. apply filter_ext_in. intros q Hq. unfold expires. cbn.
      rewrite heap_insert. case_decide; [by subst|done].
    + destruct (remove_first_nodup p _ N) as [_ H]. rewrite H. tauto.
Qed.

Lemma timer_ops_due_eq p os st : timers_wf st -> Forall (fun o => op_target o = p) os -> ~ is_due st p ->
  due_list (tl_runmark st) (foldl run_timer_op st os) = due_list (tl_runmark st) st.
Proof.
  intros W Ho. revert st W. induction Ho as [|o os Eo Ho IH]; intros st W Hd; [done|]. cbn. subst p.
  destruct (timer_op_due_eq o st W Hd) as [E Hd']. destruct (timer_op_mark o st) as [M _].
  specialize (IH _ (timer_op_wf o st W) Hd'). rewrite M in IH. congruence.
Qed.

(** ** A run *)

Section run_spec.
Variable cb : nat -> timers -> list timer_op.

(** Callbacks that arm or delete their own timer only. *)
Definition cb_own : Prop := forall p st, Forall (fun o => op_target o = p) (cb p st).

Lemma fire_wf p rest st : timers_wf st -> tl_list st = p :: rest ->
  timers_wf (mkTimers rest (tl_runmark st) (<[p := mkTimer true false (expires st p)]> (tl_heap st)) (tl_log st ++ [p])).
Proof.
  intros [S N O] E. rewrite E in *. inversion S; subst. apply NoDup_cons in N as [Hp N]. split; cbn; [|done|].
  - apply (sorted_ext (expires st)); [|done]. intros q Hq. unfold expires. cbn.
    rewrite heap_insert, decide_False; [done|]. by intros ->.
  - intros q. rewrite heap_insert. case_decide as Hq; cbn.
    + subst q. split; done.
    + rewrite <- O, elem_of_cons. tauto.
Qed.

Lemma run_loop_spec (fuel : nat) now st :
  timers_wf st -> tl_runmark st = now -> (length (due_list now st) < fuel)%nat ->
  exists st' fired, run_loop cb fuel now st = Some st' /\ timers_wf st' /\ tl_runmark st' = now /\
    (forall p, p ∈ tl_list st' -> now < expires st' p) /\
    tl_log st' = tl_log st ++ fired /\ sublist fired (due_list now st) /\ (cb_own -> fired = due_list now st).
Proof.
  revert st. induction fuel as [|fuel IH]; intros st W Hm Hf; [lia|]. cbn [run_loop].
  destruct (tl_list st) as [|p rest] eqn:El.
  { exists st, []. rewrite app_nil_r, El. split_and!; try done; [|apply sublist_nil_l|].
    - intros p Hp. inversion Hp.
    - unfold due_list. by rewrite El. }
  pose proof (tw_sorted _ W) as S. rewrite El in S. inversion S as [|? ? S' Hp]; subst.
  destruct (Z.ltb_spec (tl_runmark st) (expires st p)) as [Hd|Hd].
  { assert (forall q, q ∈ p :: rest -> tl_runmark st < expires st q) as Hlate.
    { intros q [->|Hq]%elem_of_cons; [done|]. rewrite Forall_forall in Hp. specialize (Hp q Hq). unfold earlier in Hp. lia. }
    exists st, []. rewrite app_nil_r, El. split_and!; try done; [apply sublist_nil_l|].
    intros _. unfold due_list. rewrite El, filter_all_false; [done|]. intros q Hq. specialize (Hlate q Hq). lia. }
  set (now := tl_runmark st) in *.
  pose proof (fire_wf p rest st W El) as W1. unfold fire. fold (expires st p). set (st1 := mkTimers rest _ _ _) in *.
  set (os := cb p st1). pose proof (timer_ops_wf os st1 W1) as W2. destruct (timer_ops_mark os st1) as [M2 L2].
  set (st2 := foldl run_timer_op st1 os) in *.
  assert (p ∉ rest) as Hpr. { pose proof (tw_nodup _ W) as N. rewrite El in N. by apply NoDup_cons in N as [? _]. }
  assert (due_list now st = p :: filter (fun q => expires st q <= now) rest) as Edl.
  { unfold due_list. rewrite El, filter_cons_True by done. done. }
  (* what is due afterwards was due before, in the same order *)
  assert (sublist (due_list now st2) (filter (fun q => expires st q <= now) rest)) as Hsub.
  { pose proof (timer_ops_due os st1 W1) as H. cbn in H. fold now st2 in H. etrans; [exact H|]. unfold due_list. cbn.
    rewrite (filter_ext_in _ (fun q => expires st q <= now)); [done|]. intros q Hq. unfold expires. cbn.
    rewrite heap_insert, decide_False; [done|]. by intros ->. }
  assert (cb_own -> due_list now st2 = filter (fun q => expires st q <= now) rest) as Hown.
  { intros Hcb. pose proof (timer_ops_due_eq p os st1 W1 (Hcb p st1) ltac:(unfold is_due; cbn; tauto)) as H.
    cbn in H. fold now st2 in H. rewrite H. unfold due_list. cbn. apply filter_ext_in. intros q Hq. unfold expires. cbn.
    rewrite heap_insert, decide_False; [done|]. by intros ->. }
  destruct (IH st2 W2 M2) as (st' & fired & E & W' & M' & Hr & L' & Hs & Hall).
  { apply sublist_length in Hsub. rewrite Edl in Hf. cbn in Hf. unfold now in *. lia. }
  exists st', (p :: fired). split_and!; try done.
  - rewrite L', L2. cbn. by rewrite <- app_assoc.
  - rewrite Edl. apply sublist_skip. by etrans.
  - intros Hcb. rewrite Edl, Hall, Hown by done. done.
Qed.

(** C40.  Running the timers ends, whatever the callbacks do: a callback that arms a
    timer in the past is pushed past the current second, so no round can feed
    the loop.  Afterwards no timer is due, the list is sorted and its flags are
    right, the callbacks that ran are due timers, each at most once and in
    order of expiry, and the returned timeout is exactly the time to the next
    timer (0 for none). *)
Theorem timers_run_terminates now st :
  timers_wf st ->
  exists next st' fired, cld_timers_run cb now st = Some (next, st') /\ timers_wf st' /\
    (forall p, p ∈ tl_list st' -> now < expires st' p) /\
    tl_log st' = tl_log st ++ fired /\ sublist fired (due_list now st) /\ NoDup fired /\
    next = match tl_list st' with [] => 0 | p :: _ => expires st' p - now end.
Proof.
  intros W. unfold cld_timers_run. set (st0 := mkTimers _ now _ _).
  assert (timers_wf st0) as W0 by (by destruct W; split).
  destruct (run_loop_spec (S (length (tl_list st0))) now st0 W0 eq_refl) as (st' & fired & E & W' & M' & Hr & L' & Hs & _).
  { unfold due_list. cbn. pose proof (length_filter (fun p => expires st p <= now) (tl_list st)).
    change (expires st0) with (expires st). unfold st0. cbn. lia. }
  rewrite E. eexists _, st', fired. split; [done|]. split_and!; try done.
  - eapply sublist_NoDup; [|exact Hs]. unfold due_list. apply NoDup_filter, W.
  - destruct (tl_list st') as [|p l] eqn:El; [done|]. by rewrite (proj2 (Z.ltb_lt _ _)) by (apply Hr; by left).
Qed.

(** Every timer that is due fires: when callbacks arm or delete their own timer
    only (as the users of the list do), the run calls back exactly the timers
    due at its start, once each, in list order. *)
Theorem timers_run_fires_due now st :
  timers_wf st -> cb_own ->
  exists next st', cld_timers_run cb now st = Some (next, st') /\ tl_log st' = tl_log st ++ due_list now st.
Proof.
  intros W Hcb. unfold cld_timers_run. set (st0 := mkTimers _ now _ _).
  assert (timers_wf st0) as W0 by (by destruct W; split).
  destruct (run_loop_spec (S (length (tl_list st0))) now st0 W0 eq_refl) as (st' & fired & E & _ & _ & _ & L' & _ & Hall).
  { unfold due_list. cbn. pose proof (length_filter (fun p => expires st p <= now) (tl_list st)).
    change (expires st0) with (expires st). unfold st0. cbn. lia. }
  rewrite E. eexists _, st'. split; [done|]. by rewrite L', Hall.
Qed.

End run_spec.
