(* ===== verification/Atcp.v ===== *)
(** * Atcp: queued writes on a non-blocking socket (lib/atcp.c, include/anet.h)

    Buffers are queued, handed to [writev] up to 32 at a time, and moved to a
    completion queue once all their bytes are taken; completion callbacks run
    later.  The kernel's answers to [writev] and of the event functions are
    arguments.  A completion callback may queue further buffers: [on_done id] is
    its result and the [atcp_writeq] calls it makes.  Buffers are shorter than
    2 GB (lengths are C ints). *)

From S2P Require Import Prelude.
#[local] Open Scope Z_scope.

Definition ATCP_MAX_WR_IOV : nat := 32.

(** [struct atcp_write]: [w_rest] is what [buf] and [togo] still describe. *)
Record atcp_write : Type := mkWrite { w_rest : bytes; w_length : Z; w_cb : option nat }.

(** [struct atcp_wr_state], with the bytes the socket has taken and the
    callbacks run, oldest first. *)
Record wr_state : Type := mkWst {
  writing : bool;
  write_cnt : Z;
  write_cnt_max : Z;
  write_q : list atcp_write;
  write_compl_q : list atcp_write;
  opt_write : Z;
  sent : bytes;
  cb_log : list (nat * bool) }.

(** [atcp_wr_init] *)
Definition atcp_wr_init : wr_state := mkWst false 0 0 [] [] 0 [] [].

Definition set_writing (b : bool) (w : wr_state) : wr_state :=
  mkWst b (write_cnt w) (write_cnt_max w) (write_q w) (write_compl_q w) (opt_write w) (sent w) (cb_log w).

Definition atcp_wq_empty (w : wr_state) : bool := match write_q w with [] => true | _ => false end.

(** A call of [atcp_writeq]: outcome of [calloc], buffer ([None]: NULL), callback. *)
Record wr_req : Type := mkReq { rq_alloc : bool; rq_buf : option bytes; rq_cb : option nat }.

Definition atcp_writeq (r : wr_req) (w : wr_state) : Z * wr_state :=
  match rq_buf r with
  | None | Some [] => (- EINVAL, w)
  | Some buf =>
      if negb (rq_alloc r) then (- ENOMEM, w) else
      let buflen := Z.of_nat (length buf) in
      let cnt := write_cnt w + buflen in
      (0, mkWst (writing w) cnt (if write_cnt_max w <? cnt then cnt else write_cnt_max w)
            (write_q w ++ [mkWrite buf buflen (rq_cb r)]) (write_compl_q w) (opt_write w) (sent w) (cb_log w))
  end.

Definition writeq_all (rs : list wr_req) (w : wr_state) : wr_state := foldl (fun w r => (atcp_writeq r w).2) w rs.

(** What [writev] reports (after any EINTR). *)
Inductive writev_result : Type := WvAgain | WvError | WvOk (n : nat).

Section atcp.
Variable on_done : nat -> bool * list wr_req.

(** [atcp_write_free] of a record already taken off its list. *)
Definition atcp_write_free (tmp : atcp_write) (done : bool) (w : wr_state) : bool * wr_state :=
  let w := mkWst (writing w) (write_cnt w - w_length tmp) (write_cnt_max w) (write_q w) (write_compl_q w)
             (opt_write w) (sent w) (cb_log w ++ match w_cb tmp with Some i => [(i, done)] | None => [] end) in
  match w_cb tmp with
  | None => (false, w)
  | Some i => if done then ((on_done i).1, writeq_all (on_done i).2 w) else (false, w)
  end.

(** The loop of [atcp_write_run_compl]; callbacks do not add to the completion queue. *)
Fixpoint run_compl_loop (cq : list atcp_write) (do_loop : bool) (w : wr_state) : bool * wr_state :=
  match cq with
  | [] => (do_loop, w)
  | wr :: cq =>
      let w := mkWst (writing w) (write_cnt w) (write_cnt_max w) (write_q w) cq (opt_write w) (sent w) (cb_log w) in
      let '(b, w) := atcp_write_free wr true w in
      run_compl_loop cq (do_loop || b) w
  end.

Definition atcp_write_run_compl (w : wr_state) : bool * wr_state := run_compl_loop (write_compl_q w) false w.

(** The loop of [atcp_write_free_all] over what is still unsent. *)
Fixpoint free_all_loop (q : list atcp_write) (w : wr_state) : wr_state :=
  match q with
  | [] => w
  | wr :: q =>
      let w := mkWst (writing w) (write_cnt w) (write_cnt_max w) q (write_compl_q w) (opt_write w) (sent w) (cb_log w) in
      free_all_loop q (atcp_write_free wr false w).2
  end.

Definition atcp_write_free_all (w : wr_state) : wr_state :=
  let w := (atcp_write_run_compl w).2 in free_all_loop (write_q w) w.

(** The bytes offered to [writev]. *)
Definition atcp_wr_iov (w : wr_state) : bytes := concat (w_rest <$> take ATCP_MAX_WR_IOV (write_q w)).

(** [atcp_wr_completed]: [rc] bytes were taken.  Finished records and the rest
    of the queue; [None]: the loop runs past the end of the queue. *)
Fixpoint wr_completed_loop (q : list atcp_write) (rc : nat) : option (list atcp_write * list atcp_write) :=
  match rc with
  | O => Some ([], q)
  | _ =>
      match q with
      | [] => None
      | tmp :: q =>
          let sz := Nat.min (length (w_rest tmp)) rc in
          let tmp' := mkWrite (drop sz (w_rest tmp)) (w_length tmp) (w_cb tmp) in
          if (length (w_rest tmp) - sz =? 0)%nat then
            match wr_completed_loop q (rc - sz) with
            | None => None
            | Some (done, rest) => Some (tmp' :: done, rest)
            end
          else Some ([], tmp' :: q)
      end
  end.

Definition atcp_wr_completed (rc : nat) (w : wr_state) : option wr_state :=
  match wr_completed_loop (write_q w) rc with
  | None => None
  | Some (done, rest) =>
      Some (mkWst (writing w) (write_cnt w) (write_cnt_max w) rest (write_compl_q w ++ done) (opt_write w)
              (sent w ++ take rc (atcp_wr_iov w)) (cb_log w))
  end.

(** [del_ok]: outcome of [ev_del]. *)
Definition atcp_writable (r : writev_result) (del_ok : bool) (w : wr_state) : option (bool * wr_state) :=
  match r with
  | WvAgain => Some (true, w)
  | WvError => Some (false, atcp_write_free_all w)
  | WvOk rc =>
      match atcp_wr_completed rc w with
      | None => None
      | Some w =>
          if atcp_wq_empty w then
            let w := set_writing false w in
            if del_ok then Some (true, w) else Some (false, atcp_write_free_all w)
          else Some (true, w)
      end
  end.

Definition atcp_wr_event (r : writev_result) (del_ok : bool) (w : wr_state) : option wr_state :=
  match atcp_writable r del_ok w with
  | None => None
  | Some (_, w) => Some (atcp_write_run_compl w).2
  end.

(** [true]: loop, [false]: wait for the poll. *)
Definition atcp_write_start (r : writev_result) (del_ok add_ok : bool) (w : wr_state) : option (bool * wr_state) :=
  if atcp_wq_empty w then Some (true, w) else
  if writing w then Some (false, w) else
  match atcp_writable r del_ok w with
  | None => None
  | Some (_, w) =>
      if atcp_wq_empty w then
        Some (true, mkWst (writing w) (write_cnt w) (write_cnt_max w) (write_q w) (write_compl_q w)
                      (opt_write w + 1) (sent w) (cb_log w))
      else if negb add_ok then Some (true, w)
      else Some (false, set_writing true w)
  end.

Definition atcp_wr_exit (w : wr_state) : wr_state := atcp_write_free_all w.

(** ** What was accepted, and what became of it *)

(** Bytes and callbacks of the accepted buffers of a list of requests. *)
Definition accepted (rs : list wr_req) : list (bytes * option nat) :=
  omap (fun r => match rq_buf r with
                 | Some (b :: buf) => if rq_alloc r then Some (b :: buf, rq_cb r) else None
                 | _ => None
                 end) rs.

Definition ok_log (w : wr_state) : list nat := omap (fun e : nat * bool => if e.2 then Some e.1 else None) (cb_log w).

(** [acc]: what [atcp_writeq] has accepted so far. *)
Record wr_inv (acc : list (bytes * option nat)) (w : wr_state) : Prop := {
  wi_bytes : sent w ++ concat (w_rest <$> write_q w) = concat (fst <$> acc);
  wi_cnt : write_cnt w = foldr Z.add 0 (w_length <$> (write_compl_q w ++ write_q w));
  wi_max : write_cnt w <= write_cnt_max w;
  wi_q : Forall (fun x => w_rest x <> []) (write_q w);
  wi_cq : Forall (fun x => w_rest x = []) (write_compl_q w);
  wi_len : Forall (fun x => 0 < w_length x) (write_compl_q w ++ write_q w);
  wi_cbs : ok_log w ++ omap w_cb (write_compl_q w ++ write_q w) = omap snd acc }.

Lemma wr_init_inv : wr_inv [] atcp_wr_init.
Proof. split; cbn; try done; constructor. Qed.

Lemma sum_app (l1 l2 : list Z) : foldr Z.add 0 (l1 ++ l2) = foldr Z.add 0 l1 + foldr Z.add 0 l2.
Proof. induction l1 as [|x l1 IH]; cbn; [done|]. rewrite IH. lia. Qed.

Lemma writeq_inv acc r w : wr_inv acc w -> wr_inv (acc ++ accepted [r]) (atcp_writeq r w).2.
Proof.
  intros I. unfold atcp_writeq, accepted. cbn [omap list_omap].
  destruct (rq_buf r) as [[|b buf]|]; cbn [snd]; rewrite ?app_nil_r; try done.
  destruct (rq_alloc r); cbn [negb snd]; rewrite ?app_nil_r; [|done].
  assert (0 < Z.of_nat (length (b :: buf))) as Hn by (cbn; lia). set (n := Z.of_nat _) in *. clearbody n.
  destruct I as [I1 I2 I3 I4 I5 I6 I7]. split; cbn [writing write_cnt write_cnt_max write_q write_compl_q sent].
  - rewrite !fmap_app, !concat_app, app_assoc, I1. done.
  - rewrite app_assoc, fmap_app, sum_app, <- I2. cbn. lia.
  - destruct (Z.ltb_spec (write_cnt_max w) (write_cnt w + n)); lia.
  - apply Forall_app. split; [done|]. by repeat constructor.
  - done.
  - rewrite app_assoc. apply Forall_app. split; [done|]. repeat constructor; cbn; lia.
  - rewrite app_assoc, !omap_app, app_assoc. unfold ok_log in *. cbn. rewrite <- I7. by rewrite !omap_app, !app_assoc.
Qed.

Lemma accepted_app rs1 rs2 : accepted (rs1 ++ rs2) = accepted rs1 ++ accepted rs2.
Proof. apply omap_app. Qed.

Lemma writeq_all_inv acc rs w : wr_inv acc w -> wr_inv (acc ++ accepted rs) (writeq_all rs w).
Proof.
  revert acc w. induction rs as [|r rs IH]; intros acc w I; cbn [writeq_all foldl]; [by rewrite app_nil_r|].
  change (r :: rs) with ([r] ++ rs). rewrite accepted_app, app_assoc. apply (IH _ (atcp_writeq r w).2). by apply writeq_inv.
Qed.

(** Buffers the completion callbacks of [cq] queue. *)
Definition compl_reqs (cq : list atcp_write) : list wr_req :=
  concat ((fun x => match w_cb x with Some i => (on_done i).2 | None => [] end) <$> cq).

Lemma write_free_inv acc wr cq w :
  wr_inv acc (mkWst (writing w) (write_cnt w) (write_cnt_max w) (write_q w) (wr :: cq) (opt_write w) (sent w) (cb_log w)) ->
  write_compl_q w = cq ->
  wr_inv (acc ++ accepted (compl_reqs [wr])) (atcp_write_free wr true w).2 /\
  (atcp_write_free wr true w).2 =
    writeq_all (compl_reqs [wr]) (mkWst (writing w) (write_cnt w - w_length wr) (write_cnt_max w) (write_q w) cq (opt_write w) (sent w)
      (cb_log w ++ match w_cb wr with Some i => [(i, true)] | None => [] end)).
Proof.
  intros [I1 I2 I3 I4 I5 I6 I7] <-. cbn in *. unfold compl_reqs. cbn [fmap list_fmap concat]. rewrite app_nil_r.
  set (w1 := mkWst _ (write_cnt w - w_length wr) _ _ _ _ _ _).
  assert (wr_inv acc w1) as I.
  { apply Forall_cons in I6 as [I6 I6']. apply Forall_cons in I5 as [I5 I5'].
    split; cbn; try done; [lia|lia|]. unfold ok_log in *. cbn in *. rewrite <- I7, omap_app, <- app_assoc.
    f_equal. destruct (w_cb wr); done. }
  unfold atcp_write_free. fold w1. destruct (w_cb wr) as [j|] eqn:Ej; cbn [snd].
  - split; [|done]. by apply writeq_all_inv.
  - cbn [accepted omap list_omap writeq_all foldl]. by rewrite app_nil_r.
Qed.

(** Queueing only adds at the end. *)
Lemma writeq_all_frame rs w :
  write_compl_q (writeq_all rs w) = write_compl_q w /\ sent (writeq_all rs w) = sent w /\
  cb_log (writeq_all rs w) = cb_log w /\ writing (writeq_all rs w) = writing w.
Proof.
  revert w. induction rs as [|r rs IH]; intros w; [done|]. cbn [writeq_all foldl].
  destruct (IH (atcp_writeq r w).2) as (H1 & H2 & H3 & H4). unfold writeq_all in *. rewrite H1, H2, H3, H4.
  unfold atcp_writeq. destruct (rq_buf r) as [[|b buf]|]; try done. by destruct (rq_alloc r).
Qed.

Lemma run_compl_loop_inv cq acc b w :
  wr_inv acc w -> write_compl_q w = cq ->
  let w' := (run_compl_loop cq b w).2 in
  wr_inv (acc ++ accepted (compl_reqs cq)) w' /\ write_compl_q w' = [] /\ sent w' = sent w /\
  cb_log w' = cb_log w ++ ((fun i => (i, true)) <$> omap w_cb cq).
Proof.
  revert acc b w. induction cq as [|wr cq IH]; intros acc b w I E; cbn [run_compl_loop].
  { cbn. by rewrite !app_nil_r. }
  set (w0 := mkWst _ _ _ _ cq _ _ _).
  destruct (write_free_inv acc wr cq w0) as [I1 E1]; [|done|].
  { destruct w; cbn in *. by subst. }
  destruct (atcp_write_free wr true w0) as [b1 w1] eqn:Ef. cbn [snd] in *.
  destruct (writeq_all_frame (compl_reqs [wr]) (mkWst (writing w0) (write_cnt w0 - w_length wr) (write_cnt_max w0)
    (write_q w0) cq (opt_write w0) (sent w0) (cb_log w0 ++ match w_cb wr with Some i => [(i, true)] | None => [] end)))
    as (F1 & F2 & F3 & F4). rewrite <- E1 in F1, F2, F3, F4. cbn in F1, F2, F3, F4.
  destruct (IH _ (b || b1) w1 I1 F1) as (I' & H1 & H2 & H3). split_and!; [|done|congruence|].
  - change (wr :: cq) with ([wr] ++ cq). unfold compl_reqs in *. by rewrite fmap_app, concat_app, accepted_app, app_assoc.
  - rewrite H3, F3. cbn. destruct (w_cb wr); cbn; by rewrite <- ?app_assoc, ?app_nil_r.
Qed.

Lemma wr_completed_spec q rc :
  Forall (fun x => w_rest x <> []) q -> (rc <= length (concat (w_rest <$> q)))%nat ->
  exists done rest, wr_completed_loop q rc = Some (done, rest) /\
    concat (w_rest <$> rest) = drop rc (concat (w_rest <$> q)) /\
    Forall (fun x => w_rest x = []) done /\ Forall (fun x => w_rest x <> []) rest /\
    w_length <$> (done ++ rest) = w_length <$> q /\ omap w_cb (done ++ rest) = omap w_cb q /\
    (rc = length (concat (w_rest <$> q)) -> rest = []).
Proof.
  revert rc. induction q as [|x q IH]; intros rc Hq Hl.
  { cbn in Hl. assert (rc = 0)%nat as -> by lia. exists [], []. by split_and!. }
  apply Forall_cons in Hq as [Hx Hq]. cbn [fmap list_fmap concat] in *. rewrite length_app in *.
  assert (0 < length (w_rest x))%nat as Hxl by (destruct (w_rest x); [done|cbn; lia]).
  destruct rc as [|rc].
  { exists [], (x :: q). cbn [wr_completed_loop]. split_and!; try done; [by constructor|]. lia. }
  cbn [wr_completed_loop]. set (sz := Nat.min _ _).
  destruct (Nat.eqb_spec (length (w_rest x) - sz) 0) as [E|E].
  - assert (sz = length (w_rest x)) as Esz by lia. rewrite Esz.
    destruct (IH (S rc - length (w_rest x))%nat Hq ltac:(lia)) as (dn & rest & Er & H1 & H2 & H3 & H4 & H5 & H6). rewrite Er.
    eexists _, rest. split; [done|]. split_and!.
    + rewrite H1. rewrite drop_app_ge by lia. done.
    + constructor; [|done]. cbn. apply drop_ge. lia.
    + done.
    + cbn. by rewrite H4.
    + cbn. by rewrite H5.
    + intros Hr. apply H6. lia.
  - assert (sz = S rc) as Esz by lia. rewrite Esz. eexists [], _. split; [done|]. split_and!.
    + cbn [fmap list_fmap concat w_rest]. rewrite drop_app_le by lia. done.
    + done.
    + constructor; [|done]. cbn. intros Hn. apply (f_equal length) in Hn. rewrite length_drop in Hn. cbn in Hn. lia.
    + done.
    + done.
    + lia.
Qed.

Lemma iov_prefix w : exists rest, concat (w_rest <$> write_q w) = atcp_wr_iov w ++ rest.
Proof.
  unfold atcp_wr_iov. exists (concat (w_rest <$> drop ATCP_MAX_WR_IOV (write_q w))).
  by rewrite <- concat_app, <- fmap_app, take_drop.
Qed.

(** The kernel takes a prefix of what it was offered. *)
Lemma completed_inv acc rc w :
  wr_inv acc w -> (rc <= length (atcp_wr_iov w))%nat ->
  exists w', atcp_wr_completed rc w = Some w' /\ wr_inv acc w' /\ sent w' = sent w ++ take rc (atcp_wr_iov w) /\
    cb_log w' = cb_log w.
Proof.
  intros [I1 I2 I3 I4 I5 I6 I7] Hrc. destruct (iov_prefix w) as [rest0 E0].
  destruct (wr_completed_spec (write_q w) rc I4) as (dn & rest & Er & H1 & H2 & H3 & H4 & H5 & _).
  { rewrite E0, length_app. lia. }
  unfold atcp_wr_completed. rewrite Er. eexists. split; [done|]. split; [|done].
  assert (w_length <$> (write_compl_q w ++ dn) ++ rest = w_length <$> (write_compl_q w ++ write_q w)) as El.
  { rewrite <- app_assoc, !(fmap_app _ (write_compl_q w)), H4. done. }
  split; cbn.
  - rewrite H1, <- app_assoc, E0, drop_app_le by lia. rewrite <- I1, E0. f_equal. by rewrite app_assoc, take_drop.
  - by rewrite El.
  - done.
  - done.
  - by apply Forall_app.
  - apply (Forall_fmap w_length (fun z => 0 < z)). rewrite El. by apply Forall_fmap.
  - rewrite <- I7. unfold ok_log. cbn. f_equal. rewrite <- app_assoc, !(omap_app _ (write_compl_q w)), H5. done.
Qed.

(** ** Runs without errors *)

Inductive wr_op : Type :=
| WQueue (r : wr_req)
| WCompl
| WEvent (r : writev_result)
| WStart (r : writev_result) (add_ok : bool).

(** The operation, and what it makes [atcp_writeq] accept. *)
Definition run_wr_op (o : wr_op) (w : wr_state) : option (list (bytes * option nat) * wr_state) :=
  match o with
  | WQueue r => Some (accepted [r], (atcp_writeq r w).2)
  | WCompl => Some (accepted (compl_reqs (write_compl_q w)), (atcp_write_run_compl w).2)
  | WEvent r =>
      match atcp_writable r true w with
      | None => None
      | Some (_, w1) => Some (accepted (compl_reqs (write_compl_q w1)), (atcp_write_run_compl w1).2)
      end
  | WStart r add_ok =>
      match atcp_write_start r true add_ok w with None => None | Some (_, w) => Some ([], w) end
  end.

(** The socket works: [writev] takes a prefix of what it is offered, or nothing. *)
Definition socket_ok (r : writev_result) (w : wr_state) : Prop :=
  match r with
  | WvAgain => True
  | WvError => False
  | WvOk n => (n <= length (atcp_wr_iov w))%nat
  end.

Definition op_ok (o : wr_op) (w : wr_state) : Prop :=
  match o with WQueue _ | WCompl => True | WEvent r | WStart r _ => socket_ok r w end.

Inductive wr_reach : list (bytes * option nat) -> wr_state -> Prop :=
| wr_reach_init : wr_reach [] atcp_wr_init
| wr_reach_op acc w o new w' :
    wr_reach acc w -> op_ok o w -> run_wr_op o w = Some (new, w') -> wr_reach (acc ++ new) w'.

Lemma wr_inv_irrelevant acc w w' :
  write_cnt w' = write_cnt w -> write_cnt_max w' = write_cnt_max w -> write_q w' = write_q w ->
  write_compl_q w' = write_compl_q w -> sent w' = sent w -> cb_log w' = cb_log w -> wr_inv acc w -> wr_inv acc w'.
Proof.
  intros E1 E2 E3 E4 E5 E6 [I1 I2 I3 I4 I5 I6 I7]. split; unfold ok_log in *; rewrite ?E1, ?E2, ?E3, ?E4, ?E5, ?E6; done.
Qed.

Lemma writable_inv acc r w :
  wr_inv acc w -> socket_ok r w -> exists w', atcp_writable r true w = Some (true, w') /\ wr_inv acc w' /\ cb_log w' = cb_log w.
Proof.
  intros I Hr. destruct r as [| |n]; [by exists w|done|]. cbn in *.
  destruct (completed_inv acc n w I Hr) as (w1 & -> & I1 & _ & L1). destruct (atcp_wq_empty w1); [|by exists w1].
  exists (set_writing false w1). split; [done|]. split; [|done]. by eapply wr_inv_irrelevant; [..|exact I1].
Qed.

Lemma wr_op_inv acc o w :
  wr_inv acc w -> op_ok o w -> exists new w', run_wr_op o w = Some (new, w') /\ wr_inv (acc ++ new) w'.
Proof.
  intros I Ho. destruct o as [r| |r|r add_ok]; cbn in *.
  - eexists _, _. split; [done|]. by apply writeq_inv.
  - eexists _, _. split; [done|]. unfold atcp_write_run_compl. by apply run_compl_loop_inv.
  - destruct (writable_inv acc r w I Ho) as (w1 & -> & I1 & _). eexists _, _. split; [done|].
    unfold atcp_write_run_compl. by apply run_compl_loop_inv.
  - unfold atcp_write_start. destruct (atcp_wq_empty w); [exists [], w; by rewrite app_nil_r|].
    destruct (writing w); [exists [], w; by rewrite app_nil_r|].
    destruct (writable_inv acc r w I Ho) as (w1 & -> & I1 & _).
    destruct (atcp_wq_empty w1); [|destruct (negb add_ok)]; eexists [], _; (split; [done|]); rewrite app_nil_r;
      try done; by eapply wr_inv_irrelevant; [..|exact I1].
Qed.

Lemma wr_reach_inv acc w : wr_reach acc w -> wr_inv acc w.
Proof.
  induction 1 as [|acc w o new w' _ IH Ho E]; [apply wr_init_inv|].
  destruct (wr_op_inv acc o w IH Ho) as (new1 & w1 & E1 & I1). rewrite E1 in E. by simplify_eq.
Qed.

(** The stream is kept: however the socket splits the writes and whenever the
    completions run, the bytes the socket has taken followed by those still
    queued are exactly the accepted buffers, in order; callbacks run in that
    order, each after the last byte of its buffer was taken and none twice; and
    the water level is the size of what is queued or not yet completed. *)
Theorem atcp_stream acc w :
  wr_reach acc w ->
  sent w ++ concat (w_rest <$> write_q w) = concat (fst <$> acc) /\
  ok_log w ++ omap w_cb (write_compl_q w ++ write_q w) = omap snd acc /\
  write_cnt w = foldr Z.add 0 (w_length <$> (write_compl_q w ++ write_q w)) /\ write_cnt w <= write_cnt_max w /\
  (write_q w = [] -> write_compl_q w = [] -> sent w = concat (fst <$> acc) /\ ok_log w = omap snd acc /\ write_cnt w = 0).
Proof.
  intros Hr. destruct (wr_reach_inv _ _ Hr) as [I1 I2 I3 I4 I5 I6 I7]. split_and!; try done.
  intros Eq Ec. rewrite Eq, Ec in *. cbn in *. by rewrite !app_nil_r in *.
Qed.

Lemma ok_true (l : list nat) :
  omap (fun e : nat * bool => if e.2 then Some e.1 else None) ((fun i => (i, true)) <$> l) = l.
Proof. induction l as [|j l IH]; cbn; [done|]. f_equal. exact IH. Qed.

Lemma free_all_loop_spec q w :
  write_q w = q ->
  write_q (free_all_loop q w) = [] /\ write_compl_q (free_all_loop q w) = write_compl_q w /\
  write_cnt (free_all_loop q w) = write_cnt w - foldr Z.add 0 (w_length <$> q) /\
  sent (free_all_loop q w) = sent w /\
  cb_log (free_all_loop q w) = cb_log w ++ ((fun i => (i, false)) <$> omap w_cb q).
Proof.
  revert w. induction q as [|x q IH]; intros w E; cbn [free_all_loop].
  { cbn. split_and!; try done; [lia|]. by rewrite app_nil_r. }
  set (w0 := (atcp_write_free x false _).2).
  assert (write_q w0 = q /\ write_compl_q w0 = write_compl_q w /\ write_cnt w0 = write_cnt w - w_length x /\ sent w0 = sent w /\
          cb_log w0 = cb_log w ++ match w_cb x with Some i => [(i, false)] | None => [] end) as (E1 & E2 & E3 & E4 & E5).
  { unfold w0, atcp_write_free. by destruct (w_cb x). }
  destruct (IH w0 E1) as (H1 & H2 & H3 & H4 & H5). split_and!; [done|congruence| |congruence|].
  - rewrite H3, E3. cbn. lia.
  - rewrite H5, E5. cbn. destruct (w_cb x); cbn; by rewrite <- ?app_assoc, ?app_nil_r.
Qed.

(** The error path: [atcp_write_free_all], reached on a broken socket or at
    exit, leaves nothing behind.  Both queues are empty, the water level is back
    at zero, and the callbacks it runs are those still owed, in order: [true] for
    every buffer wholly sent, [false] for the others, those the callbacks of the
    first kind queue included; so each accepted buffer is reported exactly once. *)
Theorem free_all_settles acc w :
  wr_reach acc w ->
  let w' := atcp_write_free_all w in
  let late := accepted (compl_reqs (write_compl_q w)) in
  write_q w' = [] /\ write_compl_q w' = [] /\ write_cnt w' = 0 /\ sent w' = sent w /\
  cb_log w' = cb_log w ++ ((fun i => (i, true)) <$> omap w_cb (write_compl_q w))
                       ++ ((fun i => (i, false)) <$> omap w_cb (write_q (atcp_write_run_compl w).2)) /\
  ok_log w ++ omap w_cb (write_compl_q w) ++ omap w_cb (write_q (atcp_write_run_compl w).2) = omap snd (acc ++ late).
Proof.
  intros Hr w' late. unfold w', atcp_write_free_all, atcp_write_run_compl.
  destruct (run_compl_loop_inv _ acc false w (wr_reach_inv _ _ Hr) eq_refl) as (I & Ec & Es & El).
  set (w1 := (run_compl_loop _ _ _).2) in *. destruct (free_all_loop_spec (write_q w1) w1 eq_refl) as (H1 & H2 & H3 & H4 & H5).
  destruct I as [_ I2 _ _ _ _ I7]. rewrite Ec in *. cbn [app] in *. split_and!; try congruence.
  - rewrite H3, I2. lia.
  - by rewrite H5, El, <- app_assoc.
  - fold late in I7. rewrite <- I7. unfold ok_log. by rewrite El, omap_app, ok_true, <- !app_assoc.
Qed.

End atcp.
