(* ===== verification/ObjCache.v ===== *)
(** * ObjCache: the chunk server's table of active objects (chunkd/objcache.c,
    include/objcache.h)

    Requests and the self-check thread take and return references to entries
    named by the hash of an object's key.  Every operation holds the table's
    mutex throughout, so the threads' interleavings are the sequences of whole
    operations.  Entries are heap objects the clients keep pointers to.
    [None]: the process crashes (freed or NULL memory is used, or [abort]). *)

From S2P Require Import Prelude.
#[local] Open Scope Z_scope.

Record objcache_entry : Type := mkEntry { oe_hash : Z; oe_flags : Z; oe_ref : Z }.

(** [oc_table] is the GLib hash table, by [g_int_equal]. *)
Record objcache : Type := mkCache { oc_table : gmap Z nat; oc_heap : gmap nat objcache_entry; oc_next : nat }.

Definition OC_F_DIRTY : Z := 1.

Definition hash_byte (hash c : Z) : Z :=
  let hash := Z.lxor hash (u32 (Z.shiftl hash 16)) in
  let hash := Z.lxor hash c in
  Z.lor (u32 (Z.shiftl hash 8)) (Z.shiftr hash 24).

Definition objcache_hash (key : bytes) : Z := foldl hash_byte 0x55555555 key.

(** [mem]: does the allocation succeed? *)
Definition objcache_insert (mem : bool) (hash : Z) (c : objcache) : option nat * objcache :=
  if negb mem then (None, c) else
  let p := oc_next c in
  (Some p, mkCache (<[hash := p]> (oc_table c)) (<[p := mkEntry hash 0 1]> (oc_heap c)) (S p)).

Definition objcache_get (mem : bool) (key : bytes) (flag : Z) (c : objcache) : option (nat * objcache) :=
  let hash := objcache_hash key in
  let '(cep, c) :=
    match oc_table c !! hash with
    | Some p =>
        (Some p, mkCache (oc_table c) (alter (fun e => mkEntry (oe_hash e) (oe_flags e) (oe_ref e + 1)) p (oc_heap c)) (oc_next c))
    | None => objcache_insert mem hash c
    end in
  match cep with
  | None => None
  | Some p =>
      match oc_heap c !! p with
      | None => None
      | Some e => Some (p, mkCache (oc_table c) (<[p := mkEntry (oe_hash e) (Z.lor (oe_flags e) flag) (oe_ref e)]> (oc_heap c)) (oc_next c))
      end
  end.

Definition objcache_test_dirty (p : nat) (c : objcache) : option bool :=
  match oc_heap c !! p with
  | None => None
  | Some e => Some (flag (oe_flags e) OC_F_DIRTY)
  end.

Definition objcache_put (p : nat) (c : objcache) : option objcache :=
  match oc_heap c !! p with
  | None => None
  | Some e =>
      if oe_ref e =? 0 then Some c else
      let e := mkEntry (oe_hash e) (oe_flags e) (oe_ref e - 1) in
      if oe_ref e =? 0 then
        match oc_table c !! oe_hash e with
        | None => None
        | Some _ => Some (mkCache (delete (oe_hash e) (oc_table c)) (delete p (oc_heap c)) (oc_next c))
        end
      else Some (mkCache (oc_table c) (<[p := e]> (oc_heap c)) (oc_next c))
  end.

Definition objcache_count (c : objcache) : Z := Z.of_nat (size (oc_table c)).

Definition objcache_init : objcache := mkCache ∅ ∅ 0.

(** The table goes; entries still referenced are not freed. *)
Definition objcache_fini (c : objcache) : objcache := mkCache ∅ (oc_heap c) (oc_next c).

(** ** What it promises: a count of references and a flag per hash *)

Abbreviation aref := (gmap Z (Z * bool)).

Definition aget (h : Z) (dirty : bool) (a : aref) : aref :=
  <[h := match a !! h with Some (n, d) => (n + 1, d || dirty) | None => (1, dirty) end]> a.

Definition aput (h : Z) (a : aref) : aref :=
  match a !! h with
  | Some (n, d) => if n =? 1 then delete h a else <[h := (n - 1, d)]> a
  | None => a
  end.

(** ** Steps of the threads *)

(** A get by any thread, or the return of a reference. *)
Inductive oc_op : Type :=
| OcGet (key : bytes) (dirty : bool)
| OcPut (p : nat).

Definition dirty_flag (dirty : bool) : Z := if dirty then OC_F_DIRTY else 0.

(** [held]: the references handed out and not returned yet. *)
Definition run_oc (o : oc_op) (held : list nat) (c : objcache) : option (list nat * objcache) :=
  match o with
  | OcGet key dirty => '(p, c) ← objcache_get true key (dirty_flag dirty) c; Some (p :: held, c)
  | OcPut p => c ← objcache_put p c; Some (remove_first p held, c)
  end.

(** Threads return only what they hold. *)
Definition oc_fair (o : oc_op) (held : list nat) : Prop :=
  match o with OcGet _ _ => True | OcPut p => p ∈ held end.

Inductive oc_reach : list nat -> objcache -> Prop :=
| oc_reach_init : oc_reach [] objcache_init
| oc_reach_step held c o held' c' :
    oc_reach held c -> oc_fair o held -> run_oc o held c = Some (held', c') -> oc_reach held' c'.

Definition count (p : nat) (l : list nat) : nat := length (filter (eq p) l).

Record oc_inv (held : list nat) (c : objcache) : Prop := {
  ci_table h p : oc_table c !! h = Some p <-> exists e, oc_heap c !! p = Some e /\ oe_hash e = h;
  ci_ref p e : oc_heap c !! p = Some e -> oe_ref e = Z.of_nat (count p held) /\ 0 < oe_ref e;
  ci_held p : p ∈ held -> is_Some (oc_heap c !! p);
  ci_next p : is_Some (oc_heap c !! p) -> (p < oc_next c)%nat }.

Definition abs_entry (c : objcache) (p : nat) : option (Z * bool) :=
  e ← oc_heap c !! p; Some (oe_ref e, flag (oe_flags e) OC_F_DIRTY).

Definition oc_abs (c : objcache) : aref := omap (abs_entry c) (oc_table c).

Lemma count_cons p q l : count p (q :: l) = (if decide (p = q) then S (count p l) else count p l).
Proof. unfold count. rewrite filter_cons. by case_decide. Qed.

Lemma count_remove p q l : q ∈ l -> count p (remove_first q l) = (if decide (p = q) then count p l - 1 else count p l)%nat.
Proof.
  induction l as [|a l IH]; intros Hq; [by apply elem_of_nil in Hq|]. cbn [remove_first].
  destruct (decide (a = q)) as [->|E].
  - rewrite count_cons. case_decide; [lia|done].
  - apply elem_of_cons in Hq as [->|Hq]; [done|]. rewrite !count_cons, IH by done.
    assert (0 < count q l)%nat.
    { unfold count. assert (q ∈ filter (eq q) l) as H by (by apply list_elem_of_filter).
      destruct (filter _ l); [by apply elem_of_nil in H|cbn; lia]. }
    repeat case_decide; subst; try done; lia.
Qed.

Lemma flag_dirty_lor (f : Z) (d : bool) : flag (Z.lor f (dirty_flag d)) OC_F_DIRTY = flag f OC_F_DIRTY || d.
Proof.
  unfold flag, OC_F_DIRTY. rewrite Z.land_lor_distr_l. destruct d; cbn [dirty_flag].
  - rewrite orb_true_r, negb_true_iff. apply Z.eqb_neq. unfold OC_F_DIRTY. rewrite Z.land_diag.
    intros H. apply Z.lor_eq_0_iff in H as [_ H]. done.
  - by rewrite Z.lor_0_r, orb_false_r.
Qed.

Lemma oc_init_inv : oc_inv [] objcache_init.
Proof.
  split; cbn.
  - intros h p. rewrite lookup_empty. split; [done|]. intros (e & E & _). by rewrite lookup_empty in E.
  - intros p e. by rewrite lookup_empty.
  - by intros p ?%elem_of_nil.
  - intros p [e E]. by rewrite lookup_empty in E.
Qed.

Lemma count_pos p l : p ∈ l <-> (0 < count p l)%nat.
Proof.
  induction l as [|q l IH]; [split; [by intros ?%elem_of_nil|cbn; lia]|]. rewrite elem_of_cons, count_cons, IH.
  case_decide; [subst; split; [lia|by left]|]. split; [intros [|]; done|by right].
Qed.

(** What a get leaves behind: the entry of the hash, new or counted up. *)
Lemma objcache_get_eq held key d c :
  oc_inv held c ->
  exists p e, let h := objcache_hash key in
    objcache_get true key (dirty_flag d) c =
      Some (p, mkCache (<[h := p]> (oc_table c)) (<[p := e]> (oc_heap c)) (if decide (is_Some (oc_table c !! h)) then oc_next c else S (oc_next c))) /\
    oe_hash e = h /\
    match oc_table c !! h with
    | Some q => q = p /\ exists e0, oc_heap c !! p = Some e0 /\ oe_hash e0 = h /\ oe_ref e = oe_ref e0 + 1 /\ oe_flags e = Z.lor (oe_flags e0) (dirty_flag d)
    | None => p = oc_next c /\ oc_heap c !! p = None /\ oe_ref e = 1 /\ oe_flags e = Z.lor 0 (dirty_flag d)
    end.
Proof.
  intros [I1 I2 I3 I4]. unfold objcache_get. set (h := objcache_hash key). destruct (oc_table c !! h) as [p|] eqn:Et.
  - destruct (proj1 (I1 h p) Et) as (e0 & E0 & Eh). cbn [oc_heap oc_table oc_next]. rewrite lookup_alter_eq, E0. cbn.
    eexists p, _. cbn zeta. rewrite decide_True by (by exists p). rewrite <- (insert_id (oc_table c) h p) at 1 by done.
    split; [f_equal; f_equal; f_equal|].
    + apply map_eq. intros i. destruct (decide (i = p)) as [->|]; [by rewrite !lookup_insert_eq|].
      by rewrite !lookup_insert_ne, lookup_alter_ne by done.
    + cbn. split; [done|]. split; [done|]. exists e0. done.
  - cbn. rewrite lookup_insert_eq. cbn. eexists (oc_next c), _. rewrite decide_False by (intros [? ?]; done).
    split; [by rewrite insert_insert_eq|]. cbn. split_and!; try done.
    destruct (oc_heap c !! oc_next c) eqn:E; [|done]. specialize (I4 (oc_next c) ltac:(eauto)). lia.
Qed.

Lemma abs_lookup c h : oc_abs c !! h = oc_table c !! h ≫= abs_entry c.
Proof. apply lookup_omap. Qed.

(** Pointers of other hashes are other pointers. *)
Lemma table_ne held c h h' p q :
  oc_inv held c -> oc_table c !! h = Some p -> oc_table c !! h' = Some q -> h <> h' -> p <> q.
Proof.
  intros [I1 _ _ _] Hp Hq Hn ->. apply I1 in Hp as (e & E & Eh). apply I1 in Hq as (e' & E' & Eh'). congruence.
Qed.

(** Changing the entry of one hash, and nothing else. *)
Lemma abs_insert held c h p e n :
  oc_inv held c -> oe_hash e = h ->
  match oc_table c !! h with Some q => q = p | None => oc_heap c !! p = None end ->
  oc_abs (mkCache (<[h := p]> (oc_table c)) (<[p := e]> (oc_heap c)) n) =
    <[h := (oe_ref e, flag (oe_flags e) OC_F_DIRTY)]> (oc_abs c).
Proof.
  intros I Eh Hp. apply map_eq. intros i. rewrite abs_lookup. cbn [oc_table].
  destruct (decide (i = h)) as [->|Hi].
  - rewrite !lookup_insert_eq. cbn. unfold abs_entry. cbn.
    by rewrite lookup_insert_eq.
  - rewrite lookup_insert_ne, (lookup_insert_ne (oc_abs c)), abs_lookup by done.
    destruct (oc_table c !! i) as [q|] eqn:Eq; [|done]. cbn.
    unfold abs_entry. cbn. rewrite lookup_insert_ne; [done|]. intros <-.
    destruct (oc_table c !! h) as [p'|] eqn:Et.
    + subst p'. exact (table_ne held c h i p p I Et Eq (not_eq_sym Hi) eq_refl).
    + apply (ci_table _ _ I) in Eq as (e' & E' & _). congruence.
Qed.

Lemma objcache_get_spec held key d c :
  oc_inv held c ->
  exists p c', objcache_get true key (dirty_flag d) c = Some (p, c') /\ oc_inv (p :: held) c' /\
    oc_abs c' = aget (objcache_hash key) d (oc_abs c) /\ oc_table c' !! objcache_hash key = Some p.
Proof.
  intros I. destruct (objcache_get_eq held key d c I) as (p & e & E & Eh & Hp). cbn zeta in *. set (h := objcache_hash key) in *.
  eexists p, _. split; [exact E|]. split; [|split; [|cbn; apply lookup_insert_eq]].
  - destruct I as [I1 I2 I3 I4]. split; cbn [oc_table oc_heap oc_next].
    + intros i q. destruct (decide (i = h)) as [->|Hi].
      * rewrite lookup_insert_eq. split.
        -- intros [= <-]. exists e. by rewrite lookup_insert_eq.
        -- intros (e' & E' & Eh'). destruct (decide (q = p)) as [->|Hq]; [done|]. rewrite lookup_insert_ne in E' by done.
           assert (oc_table c !! h = Some q) as Ht by (apply I1; eauto). rewrite Ht in Hp. by destruct Hp as [-> _].
      * rewrite lookup_insert_ne, I1 by done. split; intros (e' & E' & Eh').
        -- destruct (decide (q = p)) as [->|Hq]; [|exists e'; by rewrite lookup_insert_ne].
           destruct (oc_table c !! h) as [p'|] eqn:Et.
           ++ destruct Hp as [-> (e0 & E0 & Eh0 & _)]. congruence.
           ++ destruct Hp as (_ & Hn & _). congruence.
        -- destruct (decide (q = p)) as [->|Hq]; [|exists e'; by rewrite lookup_insert_ne in E'].
           rewrite lookup_insert_eq in E'. injection E' as <-. congruence.
    + intros q e'. rewrite count_cons. destruct (decide (q = p)) as [->|Hq].
      * rewrite lookup_insert_eq. intros [= <-]. destruct (oc_table c !! h) as [p'|] eqn:Et.
        -- destruct Hp as [-> (e0 & E0 & _ & -> & _)]. destruct (I2 p e0 E0). lia.
        -- destruct Hp as (-> & Hn & -> & _). enough (count (oc_next c) held = 0%nat) by lia.
           destruct (count (oc_next c) held) eqn:Ec; [done|].
           destruct (I3 (oc_next c)) as [x Hx]; [apply count_pos; lia|]. congruence.
      * rewrite lookup_insert_ne by done. apply I2.
    + intros q [->|Hq]%elem_of_cons; [rewrite lookup_insert_eq; eauto|].
      destruct (decide (q = p)) as [->|]; [rewrite lookup_insert_eq; eauto|]. rewrite lookup_insert_ne by done. by apply I3.
    + intros q. assert (p < (if decide (is_Some (oc_table c !! h)) then oc_next c else S (oc_next c)))%nat as Hlt.
      { destruct (oc_table c !! h) as [p'|] eqn:Et.
        - destruct Hp as [-> (e0 & E0 & _)]. rewrite decide_True by eauto. apply I4. eauto.
        - destruct Hp as [-> _]. rewrite decide_False by (intros [? ?]; done). lia. }
      destruct (decide (q = p)) as [->|Hq]; [done|]. rewrite lookup_insert_ne by done. intros Hs%I4. case_decide; lia.
  - rewrite (abs_insert held) by (done || (destruct (oc_table c !! h); [by destruct Hp|by destruct Hp as (_ & ? & _)])).
    unfold aget. rewrite abs_lookup. destruct (oc_table c !! h) as [p'|] eqn:Et; cbn.
    + destruct Hp as [-> (e0 & E0 & _ & -> & ->)]. unfold abs_entry. rewrite E0. cbn. by rewrite flag_dirty_lor.
    + destruct Hp as (_ & _ & -> & ->). rewrite flag_dirty_lor. done.
Qed.

Lemma objcache_put_spec held p c :
  oc_inv held c -> p ∈ held ->
  exists e c', oc_heap c !! p = Some e /\ objcache_put p c = Some c' /\ oc_inv (remove_first p held) c' /\
    oc_abs c' = aput (oe_hash e) (oc_abs c).
Proof.
  intros I Hp. pose proof I as [I1 I2 I3 I4]. destruct (I3 p Hp) as [e E]. destruct (I2 p e E) as [Er Hr]. exists e.
  assert (oc_table c !! oe_hash e = Some p) as Et by (apply I1; eauto).
  unfold objcache_put. rewrite E, (proj2 (Z.eqb_neq _ 0)) by lia. cbn [oe_ref oe_hash].
  assert (oc_abs c !! oe_hash e = Some (oe_ref e, flag (oe_flags e) OC_F_DIRTY)) as Ea.
  { rewrite abs_lookup, Et. cbn. unfold abs_entry. by rewrite E. }
  destruct (Z.eqb_spec (oe_ref e - 1) 0) as [Ez|Ez].
  - rewrite Et. eexists. split; [done|]. split; [done|].
    assert (forall q, q ∈ remove_first p held -> q <> p) as Hne.
    { intros q Hq%count_pos ->. rewrite count_remove, decide_True in Hq by done. lia. }
    split.
    + split; cbn.
      * intros i q. destruct (decide (i = oe_hash e)) as [->|Hi].
        -- rewrite lookup_delete_eq. split; [done|]. intros (e' & E' & Eh'). destruct (decide (q = p)) as [->|Hq].
           ++ by rewrite lookup_delete_eq in E'.
           ++ rewrite lookup_delete_ne in E' by done. assert (oc_table c !! oe_hash e = Some q) by (apply I1; eauto). congruence.
        -- rewrite lookup_delete_ne, I1 by done. split; intros (e' & E' & Eh').
           ++ exists e'. split; [|done]. rewrite lookup_delete_ne; [done|]. intros <-. congruence.
           ++ apply lookup_delete_Some in E' as [_ E']. eauto.
      * intros q e' [Hq E']%lookup_delete_Some. rewrite count_remove, decide_False by done. by apply I2.
      * intros q Hq. rewrite lookup_delete_ne by (intros ->; by apply (Hne q)). apply I3.
        eapply sublist_elem; [apply remove_first_sublist|done].
      * intros q [e' [_ E']%lookup_delete_Some]. apply I4. eauto.
    + unfold aput. rewrite Ea, (proj2 (Z.eqb_eq _ 1)) by lia. apply map_eq. intros i. rewrite abs_lookup. cbn.
      destruct (decide (i = oe_hash e)) as [->|Hi]; [by rewrite !lookup_delete_eq|].
      rewrite lookup_delete_ne, (lookup_delete_ne (oc_abs c)), abs_lookup by done. destruct (oc_table c !! i) as [q|] eqn:Eq; [|done]. cbn.
      unfold abs_entry. cbn. rewrite lookup_delete_ne; [done|]. by eapply table_ne.
  - eexists. split; [done|]. split; [done|]. set (e1 := mkEntry _ _ _). split.
    + split; cbn.
      * intros i q. rewrite I1. split; intros (e' & E' & Eh').
        -- destruct (decide (q = p)) as [->|Hq]; [|exists e'; by rewrite lookup_insert_ne]. exists e1.
           rewrite lookup_insert_eq. split; [done|]. cbn. congruence.
        -- destruct (decide (q = p)) as [->|Hq]; [|exists e'; by rewrite lookup_insert_ne in E'].
           rewrite lookup_insert_eq in E'. injection E' as <-. eauto.
      * intros q e'. rewrite count_remove by done. destruct (decide (q = p)) as [->|Hq].
        -- rewrite lookup_insert_eq. intros [= <-]. cbn. lia.
        -- rewrite lookup_insert_ne by done. apply I2.
      * intros q Hq. destruct (decide (q = p)) as [->|Hn]; [rewrite lookup_insert_eq; eauto|]. rewrite lookup_insert_ne by done.
        apply I3. eapply sublist_elem; [apply remove_first_sublist|done].
      * intros q Hq. apply I4. destruct (decide (q = p)) as [->|Hn]; [eauto|by rewrite lookup_insert_ne in Hq].
    + rewrite <- (insert_id (oc_table c) (oe_hash e) p) at 1 by done. rewrite (abs_insert held) by (done || by rewrite Et).
      unfold aput. rewrite Ea, (proj2 (Z.eqb_neq _ 1)) by lia. done.
Qed.

Lemma oc_op_inv held c o :
  oc_inv held c -> oc_fair o held -> exists held' c', run_oc o held c = Some (held', c') /\ oc_inv held' c'.
Proof.
  intros I Hf. destruct o as [key d|p]; cbn in *.
  - destruct (objcache_get_spec held key d c I) as (p & c' & -> & I' & _). cbn. eauto.
  - destruct (objcache_put_spec held p c I Hf) as (e & c' & _ & -> & I' & _). cbn. eauto.
Qed.

Lemma oc_reach_inv held c : oc_reach held c -> oc_inv held c.
Proof.
  induction 1 as [|held c o held' c' _ IH Hf E]; [apply oc_init_inv|].
  destruct (oc_op_inv held c o IH Hf) as (h1 & c1 & E1 & I1). rewrite E1 in E. by injection E as <- <-.
Qed.

(** C39.  The table of active objects implements reference counting: in any
    interleaving of gets, and puts of references still held, nothing crashes;
    an entry is there exactly while somebody holds a reference to its hash,
    its count is the number of such references, and each operation is the
    corresponding one on counts and flags. *)
Theorem objcache_refines held c o :
  oc_reach held c -> oc_fair o held ->
  exists held' c', run_oc o held c = Some (held', c') /\
    oc_abs c' = match o with
                | OcGet key dirty => aget (objcache_hash key) dirty (oc_abs c)
                | OcPut p => from_option (fun e => aput (oe_hash e) (oc_abs c)) (oc_abs c) (oc_heap c !! p)
                end /\
    (forall p e, oc_heap c' !! p = Some e -> oe_ref e = Z.of_nat (count p held') /\ 0 < oe_ref e) /\
    (forall p, p ∈ held' -> is_Some (oc_heap c' !! p)) /\
    objcache_count c' = Z.of_nat (size (oc_abs c')).
Proof.
  intros Hr Hf. pose proof (oc_reach_inv _ _ Hr) as I.
  assert (forall h' c', oc_inv h' c' -> objcache_count c' = Z.of_nat (size (oc_abs c'))) as Hsz.
  { intros h' c' I'. unfold objcache_count. f_equal. rewrite <- !size_dom. f_equal. apply set_eq. intros i.
    rewrite !elem_of_dom, abs_lookup. destruct (oc_table c' !! i) as [q|] eqn:Eq; cbn; [|done].
    apply (ci_table _ _ I') in Eq as (e & E & _). unfold abs_entry. rewrite E. cbn. split; eauto. }
  destruct o as [key d|p]; cbn in *.
  - destruct (objcache_get_spec held key d c I) as (p & c' & -> & I' & Ha & _). cbn. eexists _, c'.
    split; [done|]. split; [done|]. pose proof I' as [_ I2 I3 _]. eauto.
  - destruct (objcache_put_spec held p c I Hf) as (e & c' & E & -> & I' & Ha). cbn. rewrite E. eexists _, c'.
    split; [done|]. split; [done|]. pose proof I' as [_ I2 I3 _]. eauto.
Qed.

(** Operations of any threads during which a reference to [p] is always held. *)
Inductive oc_while (p : nat) : list nat -> objcache -> list nat -> objcache -> Prop :=
| oc_while_refl held c : p ∈ held -> oc_while p held c held c
| oc_while_step held c held1 c1 o held2 c2 :
    oc_while p held c held1 c1 -> oc_fair o held1 -> run_oc o held1 c1 = Some (held2, c2) -> p ∈ held2 ->
    oc_while p held c held2 c2.

(** The dirty flag of an entry stays while the entry does. *)
Definition stays_dirty (p : nat) (h : Z) (c : objcache) : Prop :=
  exists e, oc_heap c !! p = Some e /\ oe_hash e = h /\ flag (oe_flags e) OC_F_DIRTY = true.

Lemma op_stays_dirty p h o held c held' c' :
  oc_inv held c -> oc_fair o held -> run_oc o held c = Some (held', c') -> p ∈ held' ->
  stays_dirty p h c -> stays_dirty p h c'.
Proof.
  intros I Hf E Hp (e & He & Hh & Hd). destruct o as [key d|q]; cbn in *.
  - destruct (objcache_get_eq held key d c I) as (q & e' & Eg & Eh & Hq). cbn zeta in *. rewrite Eg in E. cbn in E.
    injection E as <- <-. destruct (decide (p = q)) as [->|Hn].
    + exists e'. cbn. rewrite lookup_insert_eq. split; [done|]. destruct (oc_table c !! objcache_hash key) as [q'|].
      * destruct Hq as [-> (e0 & E0 & E0h & _ & ->)]. rewrite He in E0. injection E0 as <-. split; [congruence|].
        by rewrite flag_dirty_lor, Hd.
      * destruct Hq as (_ & Hn & _). congruence.
    + exists e. cbn. by rewrite lookup_insert_ne.
  - destruct (objcache_put_spec held q c I Hf) as (e' & c1 & He' & Ep & I' & _). rewrite Ep in E. cbn in E. injection E as <- <-.
    destruct (ci_held _ _ I' p Hp) as [e1 He1]. unfold objcache_put in Ep. rewrite He' in Ep.
    destruct (oe_ref e' =? 0) eqn:Er; [injection Ep as <-; by exists e|]. cbn in Ep. destruct (oe_ref e' - 1 =? 0) eqn:Ez.
    + destruct (oc_table c !! oe_hash e'); [|done]. injection Ep as <-. cbn in *.
      apply lookup_delete_Some in He1 as [Hn He1]. exists e. cbn. by rewrite lookup_delete_ne.
    + injection Ep as <-. cbn in *. destruct (decide (p = q)) as [->|Hn]; [|exists e; cbn; by rewrite lookup_insert_ne].
      rewrite He in He'. injection He' as <-. eexists. cbn. rewrite lookup_insert_eq. done.
Qed.

(** A writer is seen: while a reference taken with the dirty flag is held,
    whatever other threads do in between, anyone who takes a reference for a
    key with the same hash finds the flag set.  So the self-check never judges
    an object that is being written. *)
Theorem dirty_visible held c key key' p c1 held2 c2 :
  oc_reach held c -> objcache_get true key OC_F_DIRTY c = Some (p, c1) -> oc_while p (p :: held) c1 held2 c2 ->
  objcache_hash key' = objcache_hash key ->
  exists c3, objcache_get true key' 0 c2 = Some (p, c3) /\ objcache_test_dirty p c3 = Some true.
Proof.
  intros Hr Hg Hw Hk. pose proof (oc_reach_inv _ _ Hr) as I.
  destruct (objcache_get_spec held key true c I) as (p' & c' & Eg & I1 & _ & Ht). cbn in Eg. rewrite Hg in Eg. injection Eg as <- <-.
  assert (stays_dirty p (objcache_hash key) c1) as Hd.
  { destruct (objcache_get_eq held key true c I) as (q & e & Eg & Eh & Hq). cbn zeta in *. cbn in Eg. rewrite Hg in Eg.
    injection Eg as <- ->. exists e. cbn. rewrite lookup_insert_eq. split; [done|]. split; [done|].
    destruct (oc_table c !! objcache_hash key); [destruct Hq as [-> (e0 & _ & _ & _ & ->)]|destruct Hq as (_ & _ & _ & ->)];
      rewrite (flag_dirty_lor _ true); apply orb_true_r. }
  assert (oc_inv held2 c2 /\ stays_dirty p (objcache_hash key) c2) as [I2 (e & He & Hh & Hf)].
  { clear Ht Hg. remember (p :: held) as h0. induction Hw as [h c0 Hp|h c0 h1 c1' o h2 c2' Hw IH Hfair E Hp]; [done|].
    destruct (IH Heqh0 I1 Hd) as [I2 Hd2]. destruct (oc_op_inv h1 c1' o I2 Hfair) as (h' & c' & E' & I').
    rewrite E' in E. injection E as <- <-. split; [done|]. by eapply (op_stays_dirty p _ o h1 c1'). }
  assert (oc_table c2 !! objcache_hash key' = Some p) as Ht2 by (rewrite Hk; apply (ci_table _ _ I2); eauto).
  destruct (objcache_get_eq held2 key' false c2 I2) as (q & e' & Eg & Eh & Hq). cbn zeta in *. rewrite Ht2 in Hq.
  destruct Hq as [<- (e0 & E0 & _ & _ & Ef)]. cbn in Eg. rewrite Eg. eexists. split; [done|]. unfold objcache_test_dirty. cbn.
  rewrite lookup_insert_eq. rewrite He in E0. injection E0 as <-. by rewrite Ef, flag_dirty_lor, Hf.
Qed.

(** Out of memory, a get for a hash that is not there writes through NULL;
    the callers' tests for NULL come too late. *)
Lemma objcache_get_oom key fl c : oc_table c !! objcache_hash key = None -> objcache_get false key fl c = None.
Proof. intros E. unfold objcache_get. by rewrite E. Qed.

(** Hashes are 32-bit numbers. *)
Lemma objcache_hash_bound key : Forall (fun b => 0 <= b < 256) key -> 0 <= objcache_hash key < 2 ^ 32.
Proof.
  unfold objcache_hash. assert (0 <= 0x55555555 < 2 ^ 32) as H0 by lia. revert H0. generalize 0x55555555.
  induction key as [|b key IH]; intros h Hh Hk; [done|]. apply Forall_cons in Hk as [Hb Hk]. cbn. apply IH; [|done].
  unfold hash_byte. set (h1 := Z.lxor h _). set (h2 := Z.lxor h1 b).
  assert (forall a, 0 <= u32 a < 2 ^ 32) as Hu by (intros a; unfold u32, uw; apply Z.mod_pos_bound; lia).
  assert (forall a c, 0 <= a < 2 ^ 32 -> 0 <= c < 2 ^ 32 -> 0 <= Z.lxor a c < 2 ^ 32) as Hx.
  { intros a c Ha Hc. assert (0 <= Z.lxor a c) by (by apply Z.lxor_nonneg; lia). split; [done|].
    destruct (Z.eq_dec (Z.lxor a c) 0) as [->|Hn]; [lia|]. apply Z.log2_lt_pow2; [lia|].
    pose proof (Z.log2_lxor a c ltac:(lia) ltac:(lia)).
    assert (Z.log2 a < 32) by (destruct (Z.eq_dec a 0) as [->|]; [done|apply Z.log2_lt_pow2; lia]).
    assert (Z.log2 c < 32) by (destruct (Z.eq_dec c 0) as [->|]; [done|apply Z.log2_lt_pow2; lia]). lia. }
  assert (0 <= h2 < 2 ^ 32) as H2 by (apply Hx; [apply Hx; [done|apply Hu]|lia]).
  assert (0 <= Z.shiftr h2 24 < 256).
  { rewrite Z.shiftr_div_pow2 by lia. split; [apply Z.div_pos; lia|]. apply Z.div_lt_upper_bound; lia. }
  specialize (Hu (Z.shiftl h2 8)). assert (0 <= Z.lor (u32 (Z.shiftl h2 8)) (Z.shiftr h2 24)) by (apply Z.lor_nonneg; lia).
  split; [done|]. set (x := Z.lor _ _) in *. destruct (Z.eq_dec x 0) as [->|Hn]; [lia|]. apply Z.log2_lt_pow2; [lia|].
  unfold x. rewrite Z.log2_lor by lia.
  assert (Z.log2 (u32 (Z.shiftl h2 8)) < 32) by (destruct (Z.eq_dec (u32 (Z.shiftl h2 8)) 0) as [->|]; [done|apply Z.log2_lt_pow2; lia]).
  assert (Z.log2 (Z.shiftr h2 24) < 32) by (destruct (Z.eq_dec (Z.shiftr h2 24) 0) as [->|]; [done|apply Z.log2_lt_pow2; lia]). lia.
Qed.
