(* ===== verification/Fs.v ===== *)
(** * Fs: the file system the chunk server stores objects in

    Regular files are inodes reached by absolute path; an open file keeps its
    inode, so it outlives an unlink.  System calls may fail, and reads and
    writes may be short: what happens is decided by an arbitrary oracle (a
    negative value is a failure with that errno, a positive one allows that
    many bytes; 0 is a failed allocation).  [None]: undefined behaviour.

    [fw U m Q s]: running [m] from [s] ends in [Q], or is undefined and [U]. *)

From S2P Require Import Prelude.
#[local] Open Scope Z_scope.

Record ifile : Type := mkFile { fi_data : bytes; fi_mtime : Z }.

Record fsys : Type := mkFs {
  f_names : gmap bytes nat;
  f_inodes : gmap nat ifile;
  f_dirs : gset bytes;
  f_next : nat;
  f_now : Z;
  f_oracle : nat -> Z;
  f_oi : nat }.

Definition set_f_names (x : gmap bytes nat) (s : fsys) : fsys :=
  mkFs x (f_inodes s) (f_dirs s) (f_next s) (f_now s) (f_oracle s) (f_oi s).
Definition set_f_inodes (x : gmap nat ifile) (s : fsys) : fsys :=
  mkFs (f_names s) x (f_dirs s) (f_next s) (f_now s) (f_oracle s) (f_oi s).
Definition set_f_dirs (x : gset bytes) (s : fsys) : fsys :=
  mkFs (f_names s) (f_inodes s) x (f_next s) (f_now s) (f_oracle s) (f_oi s).
Definition set_f_next (x : nat) (s : fsys) : fsys :=
  mkFs (f_names s) (f_inodes s) (f_dirs s) x (f_now s) (f_oracle s) (f_oi s).
Definition set_f_oi (x : nat) (s : fsys) : fsys :=
  mkFs (f_names s) (f_inodes s) (f_dirs s) (f_next s) (f_now s) (f_oracle s) x.

(** ** The monad *)

Definition F (A : Type) : Type := fsys -> option (A * fsys).
#[global] Instance F_ret : MRet F := fun A a s => Some (a, s).
#[global] Instance F_bind : MBind F := fun A B k m s =>
  match m s with
  | Some (a, s') => k a s'
  | None => None
  end.

Definition f_ub {A} : F A := fun _ => None.
Definition f_get : F fsys := fun s => Some (s, s).
Definition f_modify (f : fsys -> fsys) : F unit := fun s => Some (tt, f s).
Definition f_nondet : F Z := fun s => Some (f_oracle s (f_oi s), set_f_oi (S (f_oi s)) s).
Definition f_malloc_ok : F bool := x ← f_nondet; mret (negb (x =? 0)).

(** ** System calls *)

Definition ENOENT : Z := 2.
Definition EEXIST : Z := 17.
Definition EIO : Z := 5.

(** An error out of the blue: [Some errno]. *)
Definition f_fault : F (option Z) := x ← f_nondet; mret (if x <? 0 then Some (- x) else None).

Inductive stat_result : Type := StDir | StFile (ino : nat) | StErr (errno : Z).

Definition sys_stat (path : bytes) : F stat_result :=
  e ← f_fault;
  s ← f_get;
  mret (match e with
        | Some e => StErr e
        | None =>
            if bool_decide (path ∈ f_dirs s) then StDir
            else match f_names s !! path with Some i => StFile i | None => StErr ENOENT end
        end).

(** 0 or errno *)
Definition sys_mkdir (path : bytes) : F Z :=
  e ← f_fault;
  s ← f_get;
  match e with
  | Some e => mret e
  | None =>
      if bool_decide (path ∈ f_dirs s) || bool_decide (is_Some (f_names s !! path)) then mret EEXIST
      else _ ← f_modify (set_f_dirs ({[path]} ∪ f_dirs s)); mret 0
  end.

(** [open(path, O_WRONLY | O_CREAT | O_EXCL)]: the new inode. *)
Definition sys_creat_excl (path : bytes) : F (res nat) :=
  e ← f_fault;
  s ← f_get;
  match e with
  | Some e => mret (Err e)
  | None =>
      if bool_decide (path ∈ f_dirs s) || bool_decide (is_Some (f_names s !! path)) then mret (Err EEXIST) else
      let i := f_next s in
      _ ← f_modify (fun s => set_f_next (S i) (set_f_inodes (<[i := mkFile [] (f_now s)]> (f_inodes s))
                                                (set_f_names (<[path := i]> (f_names s)) s)));
      mret (Ok i)
  end.

(** [open(path, O_RDONLY)] *)
Definition sys_open (path : bytes) : F (res nat) :=
  e ← f_fault;
  s ← f_get;
  mret (match e with
        | Some e => Err e
        | None => match f_names s !! path with Some i => Ok i | None => Err ENOENT end
        end).

Definition file_of (s : fsys) (i : nat) : ifile := default (mkFile [] 0) (f_inodes s !! i).

(** [fstat]: size and modification time. *)
Definition sys_fstat (i : nat) : F (res (Z * Z)) :=
  e ← f_fault;
  s ← f_get;
  mret (match e with
        | Some e => Err e
        | None => Ok (Z.of_nat (length (fi_data (file_of s i))), fi_mtime (file_of s i))
        end).

(** Up to [n] bytes at [pos]; fewer at the end of the file or as it happens,
    none only at the end. *)
Definition sys_read (i : nat) (pos n : Z) : F (res bytes) :=
  x ← f_nondet;
  s ← f_get;
  mret (if x <? 0 then Err (- x)
        else Ok (take (Z.to_nat (Z.min n (Z.max x 1))) (drop (Z.to_nat pos) (fi_data (file_of s i))))).

(** [b] written at [pos], a gap filled with zeros. *)
Definition write_at (pos : Z) (b d : bytes) : bytes :=
  let p := Z.to_nat pos in
  take p d ++ replicate (p - length d) 0 ++ b ++ drop (p + length b) d.

(** Up to all of [b], at least one byte of a non-empty [b]: how many. *)
Definition sys_write (i : nat) (pos : Z) (b : bytes) : F (res nat) :=
  x ← f_nondet;
  if x <? 0 then mret (Err (- x)) else
  let n := Nat.min (length b) (Z.to_nat (Z.max x 1)) in
  _ ← f_modify (fun s => set_f_inodes (alter (fun f => mkFile (write_at pos (take n b) (fi_data f)) (f_now s)) i (f_inodes s)) s);
  mret (Ok n).

(** 0 or errno *)
Definition sys_unlink (path : bytes) : F Z :=
  e ← f_fault;
  s ← f_get;
  match e with
  | Some e => mret e
  | None =>
      match f_names s !! path with
      | None => mret ENOENT
      | Some _ => _ ← f_modify (set_f_names (delete path (f_names s))); mret 0
      end
  end.

Definition sys_rename (old new : bytes) : F Z :=
  e ← f_fault;
  s ← f_get;
  match e with
  | Some e => mret e
  | None =>
      match f_names s !! old with
      | None => mret ENOENT
      | Some i => _ ← f_modify (set_f_names (<[new := i]> (delete old (f_names s)))); mret 0
      end
  end.

(** [lseek], [fsync], [close]: 0 or errno. *)
Definition sys_other : F Z := e ← f_fault; mret (default 0 e).

(** ** Reasoning *)

Section fw.
Variable U : Prop.

Definition fw {A} (m : F A) (Q : A -> fsys -> Prop) (s : fsys) : Prop :=
  match m s with Some (a, s') => Q a s' | None => U end.

Lemma fw_ret {A} (a : A) (Q : A -> fsys -> Prop) s : Q a s -> fw (mret a) Q s.
Proof. done. Qed.

Lemma fw_bind {A B} (m : F A) (k : A -> F B) (Q : B -> fsys -> Prop) s :
  fw m (fun a s' => fw (k a) Q s') s -> fw (m ≫= k) Q s.
Proof. unfold fw, mbind, F_bind. by destruct (m s) as [[a s']|]. Qed.

Lemma fw_mono {A} (m : F A) (Q R : A -> fsys -> Prop) s :
  fw m Q s -> (forall a s', Q a s' -> R a s') -> fw m R s.
Proof. unfold fw. destruct (m s) as [[a s']|]; auto. Qed.

Lemma fw_run {A} (m : F A) (Q : A -> fsys -> Prop) s a s' : fw m Q s -> m s = Some (a, s') -> Q a s'.
Proof. unfold fw. intros HQ E. by rewrite E in HQ. Qed.

End fw.
#[global] Arguments fw : simpl never.

Lemma fw_total {A} (m : F A) (Q : A -> fsys -> Prop) s : fw False m Q s -> exists a s', m s = Some (a, s') /\ Q a s'.
Proof. unfold fw. destruct (m s) as [[a s']|]; [|done]. eauto. Qed.

(** Same files, names, directories and clock. *)
Definition same_fs (s s' : fsys) : Prop :=
  f_names s' = f_names s /\ f_inodes s' = f_inodes s /\ f_dirs s' = f_dirs s /\ f_next s' = f_next s /\ f_now s' = f_now s /\
  f_oracle s' = f_oracle s.

#[global] Instance same_fs_equiv : Equivalence same_fs.
Proof.
  unfold same_fs. split.
  - by intros s.
  - intros s s' (? & ? & ? & ? & ? & ?). by split_and!.
  - intros s1 s2 s3 (? & ? & ? & ? & ? & ?) (? & ? & ? & ? & ? & ?). split_and!; congruence.
Qed.

Lemma file_of_same s s' i : same_fs s s' -> file_of s' i = file_of s i.
Proof. intros (_ & E & _). unfold file_of. by rewrite E. Qed.

(** Nothing fails and nothing is short. *)
Definition calm (s : fsys) : Prop := forall i, 2 ^ 48 <= f_oracle s i.

(** What a path holds. *)
Definition content (s : fsys) (path : bytes) : option bytes := i ← f_names s !! path; fi_data <$> f_inodes s !! i.

(** Names lead to files, each to its own; new inodes are new. *)
Record fs_wf (s : fsys) : Prop := {
  fs_live p i : f_names s !! p = Some i -> is_Some (f_inodes s !! i);
  fs_next i : is_Some (f_inodes s !! i) -> (i < f_next s)%nat;
  fs_inj p q i : f_names s !! p = Some i -> f_names s !! q = Some i -> p = q;
  fs_dirs p : p ∈ f_dirs s -> f_names s !! p = None }.

(** Directories apart, nothing has changed. *)
Definition dirs_only (s s' : fsys) : Prop :=
  f_names s' = f_names s /\ f_inodes s' = f_inodes s /\ f_next s' = f_next s /\ f_now s' = f_now s /\ f_oracle s' = f_oracle s.

#[global] Instance dirs_only_preorder : PreOrder dirs_only.
Proof.
  unfold dirs_only. split; [by intros s|].
  intros s1 s2 s3 (? & ? & ? & ? & ?) (? & ? & ? & ? & ?). split_and!; congruence.
Qed.

Lemma same_dirs_only s s' : same_fs s s' -> dirs_only s s'.
Proof. intros (? & ? & ? & ? & ? & ?). by split_and!. Qed.

Lemma dirs_only_content s s' path : dirs_only s s' -> content s' path = content s path.
Proof. intros (E1 & E2 & _). unfold content. by rewrite E1, E2. Qed.

Lemma calm_oracle s s' : f_oracle s' = f_oracle s -> calm s -> calm s'.
Proof. intros E H i. rewrite E. apply H. Qed.

(** ** The calls *)

Section calls.
Variable U : Prop.
Implicit Types s : fsys.

Lemma fw_nondet (Q : Z -> fsys -> Prop) s :
  (forall x s', same_fs s s' -> (calm s -> 2 ^ 48 <= x) -> Q x s') -> fw U f_nondet Q s.
Proof. intros H. unfold fw, f_nondet. apply H; [by split_and!|]. intros C. apply C. Qed.

Lemma fw_malloc_ok (Q : bool -> fsys -> Prop) s :
  (forall b s', same_fs s s' -> (calm s -> b = true) -> Q b s') -> fw U f_malloc_ok Q s.
Proof.
  intros H. unfold f_malloc_ok. apply fw_bind, fw_nondet. intros x s' Hs Hc. apply fw_ret, H; [done|].
  intros C%Hc. apply negb_true_iff, Z.eqb_neq. lia.
Qed.

Lemma fw_fault (Q : option Z -> fsys -> Prop) s :
  (forall e s', same_fs s s' -> (calm s -> e = None) -> (forall x, e = Some x -> 0 < x) -> Q e s') -> fw U f_fault Q s.
Proof.
  intros H. unfold f_fault. apply fw_bind, fw_nondet. intros x s' Hs Hc. apply fw_ret, H; [done| |].
  - intros C%Hc. by rewrite (proj2 (Z.ltb_ge _ _)) by lia.
  - intros y. destruct (Z.ltb_spec x 0); [|done]. intros [= <-]. lia.
Qed.

Lemma fw_get (Q : fsys -> fsys -> Prop) s : Q s s -> fw U f_get Q s.
Proof. done. Qed.

Lemma fw_modify (f : fsys -> fsys) (Q : unit -> fsys -> Prop) s : Q tt (f s) -> fw U (f_modify f) Q s.
Proof. done. Qed.

Lemma fw_other (Q : Z -> fsys -> Prop) s :
  (forall rc s', same_fs s s' -> (calm s -> rc = 0) -> Q rc s') -> fw U sys_other Q s.
Proof.
  intros H. unfold sys_other. apply fw_bind, fw_fault. intros e s' Hs Hc _. apply fw_ret, H; [done|]. by intros ->%Hc.
Qed.

Lemma fw_open path (Q : res nat -> fsys -> Prop) s :
  (forall r s', same_fs s s' ->
     match r with
     | Ok i => f_names s !! path = Some i
     | Err e => 0 < e /\ (calm s -> f_names s !! path = None /\ e = ENOENT)
     end -> Q r s') -> fw U (sys_open path) Q s.
Proof.
  intros H. unfold sys_open. apply fw_bind, fw_fault. intros e s' Hs Hc He. apply fw_bind, fw_get, fw_ret, H; [done|].
  destruct Hs as (E & _). rewrite E. destruct e as [e|].
  - split; [by apply He|]. intros C. by specialize (Hc C).
  - destruct (f_names s !! path); done.
Qed.

Lemma fw_read i pos n (Q : res bytes -> fsys -> Prop) s :
  0 <= pos -> 0 <= n ->
  (forall r s', same_fs s s' ->
     match r with
     | Ok b => exists k, (k <= Z.to_nat n)%nat /\ b = take k (drop (Z.to_nat pos) (fi_data (file_of s i))) /\
         (0 < n -> (0 < k)%nat) /\ (calm s -> n <= 2 ^ 48 -> k = Z.to_nat n)
     | Err e => 0 < e /\ ~ calm s
     end -> Q r s') -> fw U (sys_read i pos n) Q s.
Proof.
  intros Hp Hn H. unfold sys_read. apply fw_bind, fw_nondet. intros x s' Hs Hc. apply fw_bind, fw_get, fw_ret, H; [done|].
  destruct (Z.ltb_spec x 0).
  - split; [lia|]. intros C%Hc. lia.
  - rewrite (file_of_same s s' i Hs). eexists. split; [|split; [done|]]; [lia|]. split; [lia|]. intros C%Hc Hl. lia.
Qed.

Lemma fw_stat path (Q : stat_result -> fsys -> Prop) s :
  (forall r s', same_fs s s' ->
     match r with
     | StDir => path ∈ f_dirs s
     | StFile i => f_names s !! path = Some i
     | StErr e => 0 < e /\ (calm s -> e = ENOENT /\ path ∉ f_dirs s /\ f_names s !! path = None)
     end -> Q r s') -> fw U (sys_stat path) Q s.
Proof.
  intros H. unfold sys_stat. apply fw_bind, fw_fault. intros e s' Hs Hc He. apply fw_bind, fw_get, fw_ret, H; [done|].
  destruct Hs as (E1 & _ & E3 & _). rewrite E1, E3. destruct e as [e|].
  - split; [by apply He|]. intros C. by specialize (Hc C).
  - case_bool_decide; [done|]. destruct (f_names s !! path); done.
Qed.

Lemma fw_mkdir path (Q : Z -> fsys -> Prop) s :
  (forall rc s', dirs_only s s' ->
     (rc = 0 /\ f_names s !! path = None /\ f_dirs s' = {[path]} ∪ f_dirs s) \/ (0 < rc /\ f_dirs s' = f_dirs s) ->
     (calm s -> path ∉ f_dirs s -> f_names s !! path = None -> rc = 0) -> Q rc s') -> fw U (sys_mkdir path) Q s.
Proof.
  intros H. unfold sys_mkdir. apply fw_bind, fw_fault. intros e s' Hs Hc He. apply fw_bind, fw_get.
  pose proof (same_dirs_only _ _ Hs) as Hd. destruct Hs as (E1 & E2 & E3 & E4 & E5 & E6). destruct e as [e|].
  - apply fw_ret, H; [done|right; split; [by apply He|done]|]. intros C. by specialize (Hc C).
  - rewrite E1, E3. case_bool_decide as B1; cbn [orb]; [apply fw_ret, H; [done|by right|done]|].
    case_bool_decide as B2; [apply fw_ret, H; [done|by right|]|].
    + intros _ _ En. rewrite En in B2. by destruct B2.
    + apply fw_bind, fw_modify, fw_ret, H; [by split_and!| |done]. left. split; [done|]. cbn.
      destruct (f_names s !! path) eqn:En; [|done]. destruct B2. eauto.
Qed.

(** A new, empty file. *)
Definition created (path : bytes) (s s' : fsys) : Prop :=
  f_names s' = <[path := f_next s]> (f_names s) /\ f_inodes s' = <[f_next s := mkFile [] (f_now s)]> (f_inodes s) /\
  f_dirs s' = f_dirs s /\ f_next s' = S (f_next s) /\ f_now s' = f_now s /\ f_oracle s' = f_oracle s.

Lemma fw_creat path (Q : res nat -> fsys -> Prop) s :
  (forall r s',
     match r with
     | Ok i => i = f_next s /\ f_names s !! path = None /\ path ∉ f_dirs s /\ created path s s'
     | Err e => 0 < e /\ same_fs s s' /\ (calm s -> e = EEXIST /\ (path ∈ f_dirs s \/ is_Some (f_names s !! path)))
     end -> Q r s') -> fw U (sys_creat_excl path) Q s.
Proof.
  intros H. unfold sys_creat_excl. apply fw_bind, fw_fault. intros e s' Hs Hc He. apply fw_bind, fw_get.
  pose proof Hs as (E1 & E2 & E3 & E4 & E5 & E6). destruct e as [e|].
  - apply fw_ret, H. split; [by apply He|]. split; [done|]. intros C. by specialize (Hc C).
  - rewrite E1, E3. case_bool_decide as B1; cbn [orb]; [apply fw_ret, H; split; [done|]; split; [done|]; eauto|].
    case_bool_decide as B2; [apply fw_ret, H; split; [done|]; split; [done|]; eauto|].
    apply fw_bind, fw_modify, fw_ret, H. split; [done|]. split; [destruct (f_names s !! path) eqn:En; [destruct B2; eauto|done]|].
    split; [done|]. unfold created. cbn. by rewrite E1, E2, E3, E4, E5.
Qed.

Lemma fw_unlink path (Q : Z -> fsys -> Prop) s :
  (forall rc s',
     (rc = 0 /\ is_Some (f_names s !! path) /\ f_names s' = delete path (f_names s) /\ f_inodes s' = f_inodes s /\
      f_dirs s' = f_dirs s /\ f_next s' = f_next s /\ f_now s' = f_now s /\ f_oracle s' = f_oracle s) \/
     (0 < rc /\ same_fs s s' /\ (calm s -> f_names s !! path = None)) -> Q rc s') -> fw U (sys_unlink path) Q s.
Proof.
  intros H. unfold sys_unlink. apply fw_bind, fw_fault. intros e s' Hs Hc He. apply fw_bind, fw_get.
  pose proof Hs as (E1 & E2 & E3 & E4 & E5 & E6). destruct e as [e|].
  - apply fw_ret, H. right. split; [by apply He|]. split; [done|]. intros C. by specialize (Hc C).
  - rewrite E1. destruct (f_names s !! path) eqn:En.
    + apply fw_bind, fw_modify, fw_ret, H. left. cbn. split_and!; eauto; congruence.
    + apply fw_ret, H. right. by split.
Qed.

(** [n] bytes of [b] written to inode [i]. *)
Definition wrote (i : nat) (pos : Z) (b : bytes) (s s' : fsys) : Prop :=
  f_names s' = f_names s /\ f_dirs s' = f_dirs s /\ f_next s' = f_next s /\ f_now s' = f_now s /\ f_oracle s' = f_oracle s /\
  f_inodes s' = alter (fun f => mkFile (write_at pos b (fi_data f)) (f_now s)) i (f_inodes s).

Lemma fw_write i pos b (Q : res nat -> fsys -> Prop) s :
  (forall r s',
     match r with
     | Ok n => (n <= length b)%nat /\ (b <> [] -> (0 < n)%nat) /\ wrote i pos (take n b) s s' /\
               (calm s -> Z.of_nat (length b) <= 2 ^ 48 -> n = length b)
     | Err e => same_fs s s' /\ ~ calm s
     end -> Q r s') -> fw U (sys_write i pos b) Q s.
Proof.
  intros H. unfold sys_write. apply fw_bind, fw_nondet. intros x s' Hs Hc. pose proof Hs as (E1 & E2 & E3 & E4 & E5 & E6).
  destruct (Z.ltb_spec x 0).
  - apply fw_ret, H. split; [done|]. intros C%Hc. lia.
  - apply fw_bind, fw_modify, fw_ret, H. split; [lia|]. split; [destruct b; [done|cbn [length]; lia]|]. split.
    + unfold wrote. cbn. rewrite E2, E5. by split_and!.
    + intros C%Hc Hl. lia.
Qed.

End calls.
