(* ===== verification/BeFs.v ===== *)
(** * BeFs: objects on disk (chunkd/be-fs.c, hexstr of chunkd/util.c,
    include/chunk-private.h, include/chunk_msg.h)

    An object is one file: a fixed header, the key, a table with the SHA-1 of
    every 64 KB block, the data.  Its name is the SHA-256 of the key.  The
    digests ([Sha]) and Tokyo Cabinet, which maps table names to numbers
    ([TcHdb]), are parameters; [garbage] is what freshly allocated memory
    holds. *)

From S2P Require Import Prelude Fs.
#[local] Open Scope Z_scope.

Class Sha : Type := {
  SHA1 : bytes -> bytes;
  SHA256 : bytes -> bytes;
  length_SHA1 b : length (SHA1 b) = 20%nat;
  length_SHA256 b : length (SHA256 b) = 32%nat;
  byte_SHA256 b : Forall (fun x => 0 <= x < 256) (SHA256 b) }.

(** Tokyo Cabinet: get, store, and the counter at a key ([None]: failed). *)
Class TcHdb (H : Type) : Type := {
  tchdbget : H -> bytes -> option bytes;
  tchdbput : bytes -> bytes -> H -> bool * H;
  tchdbaddint : bytes -> Z -> H -> option Z * H }.

(** ** Constants *)

Definition CHD_KEY_SZ : Z := 1024.
Definition CHD_CSUM_SZ : Z := 20.
Definition CHUNK_BLK_ORDER : Z := 16.
Definition CHUNK_BLK_SZ : Z := 65536.
Definition PREFIX_LEN : nat := 3.
Definition BE_FS_OBJ_MAGIC : bytes := [67; 72; 85; 49].
Definition MDB_TABLE_ID : bytes :=
  [95; 95; 99; 104; 117; 110; 107; 100; 95; 116; 97; 98; 108; 101; 95; 105; 100].

Inductive chunk_errcode : Type :=
| che_Success | che_AccessDenied | che_InternalError | che_InvalidArgument | che_InvalidURI | che_NoSuchKey
| che_SignatureDoesNotMatch | che_InvalidKey | che_InvalidTable | che_Busy | che_KeyExists | che_InvalidSeek.

(** ** Data *)

(** [struct be_fs_obj_hdr] without its reserved bytes. *)
Record be_fs_obj_hdr : Type := mkOHdr {
  oh_magic : bytes; oh_key_len : Z; oh_value_len : Z; oh_n_blk : Z; oh_hash : bytes; oh_owner : bytes }.

Definition hdr_sz : Z := 180.

Definition enc_hdr (h : be_fs_obj_hdr) : bytes :=
  oh_magic h ++ le_bytes 4 (oh_key_len h) ++ le_bytes 8 (oh_value_len h) ++ le_bytes 4 (oh_n_blk h) ++ replicate 12 0 ++
  oh_hash h ++ oh_owner h.

Definition slice (pos n : nat) (b : bytes) : bytes := take n (drop pos b).

Definition dec_hdr (b : bytes) : be_fs_obj_hdr :=
  mkOHdr (slice 0 4 b) (le_val (slice 4 4 b)) (le_val (slice 8 8 b)) (le_val (slice 16 4 b)) (slice 32 20 b) (slice 52 128 b).

(** [strncpy] into a field of [n] bytes. *)
Definition strncpy (n : nat) (b : bytes) : bytes := take n b ++ replicate (n - length b) 0.

(** [struct fs_obj] with its [struct backend_obj]; [out_ino], [in_ino] stand
    for the descriptors, with their file offsets; [checksum] is what the SHA-1
    context has absorbed. *)
Record fs_obj : Type := mkObj {
  bo_key : bytes; bo_size : Z; bo_mtime : Z; bo_hash : bytes;
  out_ino : option nat; out_off : Z; out_fn : option bytes; written_bytes : Z;
  in_ino : option nat; in_off : Z; in_pos : Z; sendfile_ofs : Z;
  value_ofs : Z; tail_pos : Z; tail_len : Z;
  checked_bytes : Z; checksum : bytes; csum_idx : Z; csum_tbl : bytes; n_blk : Z }.

Definition csum_tbl_sz (o : fs_obj) : Z := Z.of_nat (length (csum_tbl o)).

Definition fs_obj_alloc : fs_obj := mkObj [] 0 0 [] None 0 None 0 None 0 0 0 0 0 0 0 [] 0 [] 0.

(** The output side moves: offset, written and checked bytes, digest. *)
Definition set_out (off written checked : Z) (ctx : bytes) (o : fs_obj) : fs_obj :=
  mkObj (bo_key o) (bo_size o) (bo_mtime o) (bo_hash o) (out_ino o) off (out_fn o) written
    (in_ino o) (in_off o) (in_pos o) (sendfile_ofs o) (value_ofs o) (tail_pos o) (tail_len o)
    checked ctx (csum_idx o) (csum_tbl o) (n_blk o).
Definition set_csum (idx : Z) (tbl : bytes) (o : fs_obj) : fs_obj :=
  mkObj (bo_key o) (bo_size o) (bo_mtime o) (bo_hash o) (out_ino o) (out_off o) (out_fn o) (written_bytes o)
    (in_ino o) (in_off o) (in_pos o) (sendfile_ofs o) (value_ofs o) (tail_pos o) (tail_len o)
    (checked_bytes o) (checksum o) idx tbl (n_blk o).
Definition set_in (off pos sf : Z) (o : fs_obj) : fs_obj :=
  mkObj (bo_key o) (bo_size o) (bo_mtime o) (bo_hash o) (out_ino o) (out_off o) (out_fn o) (written_bytes o)
    (in_ino o) off pos sf (value_ofs o) (tail_pos o) (tail_len o)
    (checked_bytes o) (checksum o) (csum_idx o) (csum_tbl o) (n_blk o).

(** ** Names *)

Definition hexdigit (n : Z) : Z := if n <? 10 then 48 + n else 87 + n.
Definition hexstr (buf : bytes) : bytes :=
  concat ((fun b => [hexdigit (Z.shiftr (Z.land b 0xF0) 4); hexdigit (Z.land b 0x0F)]) <$> buf).

(** ["%X"] of a 32-bit number: at most eight digits. *)
Definition Hexdigit (n : Z) : Z := if n <? 10 then 48 + n else 55 + n.
Fixpoint fmt_X_loop (fuel : nat) (n : Z) (acc : bytes) : bytes :=
  match fuel with
  | O => acc
  | S fuel =>
      let acc := Hexdigit (n mod 16) :: acc in
      if n / 16 =? 0 then acc else fmt_X_loop fuel (n / 16) acc
  end.
Definition fmt_X (n : Z) : bytes := fmt_X_loop 8 n [].

Definition SL : Z := 47.

Section be_fs.
Context {SH : Sha}.
Variable vol_path : bytes.
Variable garbage : Z -> bytes.

(** MDB_TPATH_FMT *)
Definition table_path (table_id : Z) : bytes := vol_path ++ [SL] ++ fmt_X table_id.

Definition obj_dir (table_id : Z) (key : bytes) : bytes :=
  table_path table_id ++ [SL] ++ take PREFIX_LEN (hexstr (SHA256 key)).
Definition obj_path (table_id : Z) (key : bytes) : bytes :=
  obj_dir table_id key ++ [SL] ++ drop PREFIX_LEN (hexstr (SHA256 key)).

(** The directory at [path] is there, created on the fly: [false] on errors. *)
Definition ensure_dir (path : bytes) : F bool :=
  st ← sys_stat path;
  match st with
  | StErr e => if e =? ENOENT then rc ← sys_mkdir path; mret ((rc =? 0) || (rc =? EEXIST)) else mret false
  | StFile _ => mret false
  | StDir => mret true
  end.

Definition fs_obj_pathname (table_id : Z) (key : bytes) : F (option bytes) :=
  if (table_id =? 0) || (length key =? 0)%nat then mret None else
  ok ← f_malloc_ok;
  if negb ok then mret None else
  ok ← ensure_dir (obj_dir table_id key);
  mret (if ok : bool then Some (obj_path table_id key) else None).

Definition fs_obj_badname (tag : Z) : F (option bytes) :=
  ok ← f_malloc_ok;
  if negb ok then mret None else
  ok ← ensure_dir (vol_path ++ [47; 98; 97; 100]);
  if negb ok then mret None else
  ok ← f_malloc_ok;
  mret (if ok : bool then Some (vol_path ++ [47; 98; 97; 100; 47] ++ fmt_lu tag) else None).

Definition key_valid (key : bytes) : bool :=
  negb ((length key <? 1)%nat || (CHD_KEY_SZ <? Z.of_nat (length key))).

Definition fs_blk_count (data_len : Z) : Z :=
  let n_blk := Z.shiftr data_len CHUNK_BLK_ORDER in
  u32 (if flag data_len (CHUNK_BLK_SZ - 1) then n_blk + 1 else n_blk).

(** [obj->n_blk * CHD_CSUM_SZ], an unsigned int. *)
Definition csum_bytes_of (n_blk : Z) : Z := u32 (n_blk * CHD_CSUM_SZ).

(** ** Tables *)

(** [chunkd_srv.tbl_master] is threaded through; result, table id, error. *)
Definition fs_table_open {H} `{TcHdb H} (kbuf : bytes) (tbl_creat excl_creat : bool) (hdb : H)
  : F (bool * option Z * chunk_errcode * H) :=
  if negb tbl_creat && excl_creat then mret (false, None, che_InvalidArgument, hdb) else
  let klen := Z.of_nat (length kbuf) in
  if (klen <? 1) || (CHD_KEY_SZ <? klen) || ((17 <=? klen) && bool_decide (take 17 kbuf = MDB_TABLE_ID))
  then mret (false, None, che_InvalidArgument, hdb) else
  match tchdbget hdb kbuf with
  | Some val =>
      if tbl_creat && excl_creat then mret (false, None, che_InvalidArgument, hdb)
      else mret (true, Some (le_val (take 4 val)), che_Success, hdb)
  | None =>
      if negb tbl_creat then mret (false, None, che_InvalidArgument, hdb) else
      let '(r, hdb) := tchdbaddint (MDB_TABLE_ID ++ [0]) 1 hdb in
      match r with
      | None => mret (false, None, che_InternalError, hdb)
      | Some next_num =>
          let id := u32 next_num in
          ok ← f_malloc_ok;
          if negb ok then mret (false, Some id, che_InternalError, hdb) else
          rc ← sys_mkdir (table_path id);
          if negb (rc =? 0) && negb (rc =? EEXIST) then mret (false, Some id, che_InternalError, hdb) else
          let '(ok, hdb) := tchdbput kbuf (le_bytes 4 id) hdb in
          if ok then mret (true, Some id, che_Success, hdb) else mret (false, Some id, che_InternalError, hdb)
      end
  end.

(** ** Freeing *)

Definition fs_obj_free (o : fs_obj) : F unit :=
  match out_fn o with
  | Some fn => _ ← sys_unlink fn; mret tt
  | None => mret tt
  end.

(** ** Writing *)

Definition fs_obj_new (table_id : Z) (key : bytes) (data_len : Z) : F (option fs_obj * chunk_errcode) :=
  if negb (key_valid key) then mret (None, che_InvalidKey) else
  ok ← f_malloc_ok;
  if negb ok then mret (None, che_InternalError) else
  let n_blk := fs_blk_count data_len in
  let csum_bytes := csum_bytes_of n_blk in
  ok ← f_malloc_ok;
  if negb ok then mret (None, che_InternalError) else
  fn ← fs_obj_pathname table_id key;
  match fn with
  | None => mret (None, che_InternalError)
  | Some fn =>
      fd ← sys_creat_excl fn;
      match fd with
      | Err e => mret (None, if e =? EEXIST then che_KeyExists else che_InternalError)
      | Ok ino =>
          let skip_len := hdr_sz + Z.of_nat (length key) + csum_bytes in
          let o := mkObj key data_len 0 [] (Some ino) skip_len (Some fn) 0 None 0 0 0
                     skip_len (s64 (Z.land data_len (Z.lnot (CHUNK_BLK_SZ - 1)))) (Z.land data_len (CHUNK_BLK_SZ - 1))
                     0 [] 0 (garbage csum_bytes) n_blk in
          rc ← sys_other;
          if negb (rc =? 0) then _ ← fs_obj_free o; mret (None, che_InternalError) else
          ok ← f_malloc_ok;
          if negb ok then _ ← fs_obj_free o; mret (None, che_InternalError) else
          mret (Some o, che_Success)
      end
  end.

(** [memcpy] of a digest to [pos] of the checksum table. *)
(** Undefined when the entry lies outside the table. *)
Definition obj_flush_csum (o : fs_obj) : F fs_obj :=
  if n_blk o <=? csum_idx o then mret o else
  let md := SHA1 (checksum o) in
  let pos := csum_bytes_of (csum_idx o) in
  if csum_tbl_sz o <? pos + CHD_CSUM_SZ then f_ub else
  mret (set_out (out_off o) (written_bytes o) 0 []
          (set_csum (u32 (csum_idx o + 1)) (splice (Z.to_nat pos) md (csum_tbl o)) o)).

(** The loop; the fuel is the length of the buffer, of which every round
    writes at least one byte. *)
Fixpoint fs_obj_write_loop (fuel : nat) (ptr : bytes) (total : Z) (o : fs_obj) : F (Z * fs_obj) :=
  match ptr, fuel with
  | [], _ | _, O => mret (total, o)
  | _, S fuel =>
      match out_ino o with
      | None => f_ub
      | Some ino =>
          let unchecked := CHUNK_BLK_SZ - checked_bytes o in
          r ← sys_write ino (out_off o) (take (Z.to_nat unchecked) ptr);
          match r with
          | Err e => mret (-1, o)
          | Ok wrc =>
              let w := Z.of_nat wrc in
              let o := set_out (out_off o + w) (u64 (written_bytes o + w)) (checked_bytes o + w)
                         (checksum o ++ take wrc ptr) o in
              o ← (if checked_bytes o =? CHUNK_BLK_SZ then obj_flush_csum o else mret o);
              fs_obj_write_loop fuel (drop wrc ptr) (total + w) o
          end
      end
  end.

Definition fs_obj_write (o : fs_obj) (ptr : bytes) : F (Z * fs_obj) := fs_obj_write_loop (length ptr) ptr 0 o.

Definition fs_obj_write_commit (o : fs_obj) (user md : bytes) (sync_data : bool) : F (bool * fs_obj) :=
  if negb (bo_size o =? written_bytes o) then mret (false, o) else
  let hdr := mkOHdr BE_FS_OBJ_MAGIC (Z.of_nat (length (bo_key o))) (written_bytes o) (n_blk o) md (strncpy 128 user) in
  o ← (if 0 <? checked_bytes o then obj_flush_csum o else mret o);
  if negb (csum_idx o =? n_blk o) then mret (false, o) else
  let o := set_csum 0 (csum_tbl o) o in
  rc ← sys_other;
  if negb (rc =? 0) then mret (false, o) else
  match out_ino o with
  | None => f_ub
  | Some ino =>
      let b := enc_hdr hdr ++ bo_key o ++ csum_tbl o in
      r ← sys_write ino 0 b;
      match r with
      | Err _ => mret (false, o)
      | Ok wrc =>
          if negb (wrc =? length b)%nat then mret (false, o) else
          rc ← (if sync_data then sys_other else mret 0);
          if negb (rc =? 0) then mret (false, o) else
          _ ← sys_other;
          mret (true, mkObj (bo_key o) (bo_size o) (bo_mtime o) (bo_hash o) None (out_off o) None 0
                        (in_ino o) (in_off o) (in_pos o) (sendfile_ofs o) (value_ofs o) (tail_pos o) (tail_len o)
                        (checked_bytes o) (checksum o) (csum_idx o) (csum_tbl o) (n_blk o))
      end
  end.

(** ** Reading *)

Definition fs_obj_open (table_id : Z) (user key : bytes) : F (option fs_obj * chunk_errcode) :=
  let fail e := mret (None, e) in
  if negb (key_valid key) then fail che_InvalidKey else
  ok ← f_malloc_ok;
  if negb ok then fail che_InternalError else
  fn ← fs_obj_pathname table_id key;
  match fn with
  | None => fail che_InternalError
  | Some fn =>
      fd ← sys_open fn;
      match fd with
      | Err e => fail (if e =? ENOENT then che_NoSuchKey else che_InternalError)
      | Ok ino =>
          st ← sys_fstat ino;
          match st with
          | Err _ => fail che_InternalError
          | Ok (st_size, st_mtime) =>
              r ← sys_read ino 0 hdr_sz;
              match r with
              | Err _ => fail che_InternalError
              | Ok b =>
                  if negb (Z.of_nat (length b) =? hdr_sz) then fail che_InternalError else
                  let hdr := dec_hdr b in
                  if negb (bool_decide (oh_magic hdr = BE_FS_OBJ_MAGIC)) then fail che_InternalError else
                  if negb (bool_decide (cstr (oh_owner hdr) = user)) then fail che_AccessDenied else
                  let key_len := Z.of_nat (length key) in
                  if negb (oh_key_len hdr =? key_len) then fail che_InternalError else
                  let value_len := oh_value_len hdr in
                  let n_blk := oh_n_blk hdr in
                  let csum_bytes := csum_bytes_of n_blk in
                  let vofs := hdr_sz + key_len + csum_bytes in
                  if st_size <? u64 (vofs + value_len) then fail che_InternalError else
                  if negb (fs_blk_count value_len =? n_blk) then fail che_InternalError else
                  ok ← f_malloc_ok;
                  if negb ok then fail che_InternalError else
                  ok ← f_malloc_ok;
                  if negb ok then fail che_InternalError else
                  r ← sys_read ino hdr_sz (key_len + csum_bytes);
                  match r with
                  | Err _ => fail che_InternalError
                  | Ok b =>
                      if negb (Z.of_nat (length b) =? key_len + csum_bytes)
                         || negb (bool_decide (take (length key) b = key)) then fail che_InternalError else
                      mret (Some (mkObj (take (length key) b) value_len st_mtime (oh_hash hdr) None 0 None 0
                                    (Some ino) vofs 0 0 vofs
                                    (s64 (Z.land value_len (Z.lnot (CHUNK_BLK_SZ - 1)))) (Z.land value_len (CHUNK_BLK_SZ - 1))
                                    0 [] 0 (drop (length key) b) n_blk), che_Success)
                  end
              end
          end
      end
  end.

Definition can_csum_range (o : fs_obj) (len : Z) : bool :=
  if len =? 0 then false else
  if flag (in_pos o) (CHUNK_BLK_SZ - 1) then false else
  let end_pos := tail_pos o + tail_len o in
  let want_pos := in_pos o + len in
  if end_pos <? want_pos then false else
  if negb (flag want_pos (CHUNK_BLK_SZ - 1)) then true else
  want_pos =? end_pos.

(** [abs_ofs] is a signed offset; a negative one is refused by [lseek]. *)
Definition fs_obj_seek (o : fs_obj) (rel_ofs : Z) : F (Z * fs_obj) :=
  let abs_ofs := s64 (u64 (value_ofs o + rel_ofs)) in
  rc ← sys_other;
  if negb (rc =? 0) then mret (- rc, o) else
  if abs_ofs <? 0 then mret (- EINVAL, o) else
  mret (0, set_in abs_ofs (abs_ofs - value_ofs o) (sendfile_ofs o) o).

(** The check of [n] blocks from number [idx] on, their bytes in [p];
    [None]: memory outside the buffer or the table is read. *)
Fixpoint csum_loop (o : fs_obj) (n : nat) (idx : Z) (p : bytes) : option bool :=
  match n with
  | O => Some true
  | S n =>
      let blk_len := if (idx =? u32 (n_blk o - 1)) && (0 <? tail_len o) then tail_len o else CHUNK_BLK_SZ in
      if (Z.of_nat (length p) <? blk_len) || (csum_tbl_sz o <? csum_bytes_of idx + CHD_CSUM_SZ) then None else
      if bool_decide (SHA1 (take (Z.to_nat blk_len) p) = slice (Z.to_nat (csum_bytes_of idx)) 20 (csum_tbl o))
      then csum_loop o n (idx + 1) (drop (Z.to_nat blk_len) p)
      else Some false
  end.

(** What was read, or an error code. *)
Definition fs_obj_read (o : fs_obj) (len : Z) : F (res bytes * fs_obj) :=
  match in_ino o with
  | None => f_ub
  | Some ino =>
      r ← sys_read ino (in_off o) len;
      match r with
      | Err e => mret (Err (- e), o)
      | Ok b =>
          let rc := Z.of_nat (length b) in
          if rc =? 0 then mret (Ok [], o) else
          let o' := set_in (in_off o + rc) (in_pos o + rc) (sendfile_ofs o) o in
          if negb (can_csum_range o rc) then mret (Ok b, o') else
          match csum_loop o (Z.to_nat (fs_blk_count rc)) (fs_blk_count (in_pos o)) b with
          | None => f_ub
          | Some false => mret (Err (- EIO), set_in (in_off o + rc) (in_pos o) (sendfile_ofs o) o)
          | Some true => mret (Ok b, o')
          end
      end
  end.

(** [sendfile] (Linux): the bytes that went to the socket, or an error. *)
Definition fs_obj_sendfile (o : fs_obj) (len : Z) : F (res bytes * fs_obj) :=
  match in_ino o with
  | None => f_ub
  | Some ino =>
      let ofs := if sendfile_ofs o =? 0 then hdr_sz + Z.of_nat (length (bo_key o)) + csum_tbl_sz o else sendfile_ofs o in
      r ← sys_read ino ofs len;
      match r with
      | Err e => mret (Err (-1), set_in (in_off o) (in_pos o) ofs o)
      | Ok b => mret (Ok b, set_in (in_off o) (in_pos o) (ofs + Z.of_nat (length b)) o)
      end
  end.

(** ** Deleting *)

Definition fs_obj_delete (table_id : Z) (user key : bytes) : F (bool * chunk_errcode) :=
  let fail e := mret (false, e) in
  if negb (key_valid key) then fail che_InvalidKey else
  fn ← fs_obj_pathname table_id key;
  match fn with
  | None => fail che_InternalError
  | Some fn =>
      fd ← sys_open fn;
      match fd with
      | Err e => fail (if e =? ENOENT then che_NoSuchKey else che_InternalError)
      | Ok ino =>
          r ← sys_read ino 0 hdr_sz;
          match r with
          | Err _ => fail che_InternalError
          | Ok b =>
              if negb (Z.of_nat (length b) =? hdr_sz) then fail che_InternalError else
              rc ← sys_other;
              if negb (rc =? 0) then fail che_InternalError else
              let hdr := dec_hdr b in
              if negb (bool_decide (oh_magic hdr = BE_FS_OBJ_MAGIC)) then fail che_InternalError else
              if negb (bool_decide (cstr (oh_owner hdr) = user)) then fail che_AccessDenied else
              rc ← sys_unlink fn;
              if negb (rc =? 0) then fail (if rc =? ENOENT then che_NoSuchKey else che_InternalError) else
              mret (true, che_InternalError)
          end
      end
  end.

(** Moved aside under its inode number; 0 or a negated errno.  A name that
    could not be made is passed on as NULL, which [rename] refuses. *)
Definition fs_obj_disable (fn : bytes) : F Z :=
  st ← sys_stat fn;
  match st with
  | StErr e => mret (- e)
  | StDir => f_ub
  | StFile ino =>
      bad ← fs_obj_badname (Z.of_nat ino);
      match bad with
      | None => mret (- 14)
      | Some bad => rc ← sys_rename fn bad; mret (- rc)
      end
  end.

(** ** Listing *)

(** What [fs_obj_hdr_read] returns. *)
Record obj_info : Type := mkInfo {
  oi_owner : bytes; oi_hash : bytes; oi_key : bytes; oi_csumlen : Z; oi_size : Z; oi_mtime : Z }.

Definition fs_obj_hdr_read (fn : bytes) : F (option obj_info) :=
  fd ← sys_open fn;
  match fd with
  | Err _ => mret None
  | Ok ino =>
      st ← sys_fstat ino;
      match st with
      | Err _ => mret None
      | Ok (st_size, st_mtime) =>
          r ← sys_read ino 0 hdr_sz;
          match r with
          | Err _ => mret None
          | Ok b =>
              if negb (Z.of_nat (length b) =? hdr_sz) then mret None else
              let hdr := dec_hdr b in
              if negb (bool_decide (oh_magic hdr = BE_FS_OBJ_MAGIC)) then mret None else
              let klen_in := oh_key_len hdr in
              if (klen_in <? 1) || (CHD_KEY_SZ <? klen_in) then mret None else
              let vlen_in := oh_value_len hdr in
              if u64 (st_size - hdr_sz - klen_in) <? vlen_in then mret None else
              ok ← f_malloc_ok;
              if negb ok then mret None else
              r ← sys_read ino hdr_sz klen_in;
              match r with
              | Err _ => mret None
              | Ok key_in =>
                  if negb (Z.of_nat (length key_in) =? klen_in) then mret None else
                  ok ← f_malloc_ok;
                  if negb ok then mret None else
                  mret (Some (mkInfo (cstr (oh_owner hdr)) (oh_hash hdr) key_in (csum_bytes_of (oh_n_blk hdr)) vlen_in st_mtime))
              end
          end
      end
  end.

(** The SHA-1 of everything from the data on; the file is read to a short
    read. *)
Fixpoint do_sum_loop (fuel : nat) (ino : nat) (pos : Z) (ctx : bytes) : F (res bytes) :=
  match fuel with
  | O => f_ub
  | S fuel =>
      r ← sys_read ino pos (128 * 1024);
      match r with
      | Err e => mret (Err (- e))
      | Ok b =>
          let ctx := ctx ++ b in
          if Z.of_nat (length b) <? 128 * 1024 then mret (Ok (SHA1 ctx))
          else do_sum_loop fuel ino (pos + Z.of_nat (length b)) ctx
      end
  end.

(** One round per full buffer of the file, and one more. *)
Definition fs_obj_do_sum (fn : bytes) (klen csumlen : Z) : F (res bytes) :=
  ok ← f_malloc_ok;
  if negb ok then mret (Err (- ENOMEM)) else
  fd ← sys_open fn;
  match fd with
  | Err e => mret (Err (- e))
  | Ok ino =>
      rc ← sys_other;
      if negb (rc =? 0) then mret (Err (- rc)) else
      s ← f_get;
      do_sum_loop (S (length (fi_data (file_of s ino)))) ino (hdr_sz + klen + csumlen) []
  end.

End be_fs.
