(* ===== verification/BeFsSpec.v ===== *)
(** * BeFsSpec: what an object on disk is, and that writing makes one *)

From S2P Require Import Prelude Fs BeFs.
#[local] Open Scope Z_scope.

(** ** The format *)

(** Block [i] of the data, and the digests of the first [n] blocks. *)
Definition blk (d : bytes) (i : nat) : bytes :=
  take (Z.to_nat CHUNK_BLK_SZ) (drop (Z.to_nat (Z.of_nat i * CHUNK_BLK_SZ)) d).
Definition csums {SH : Sha} (d : bytes) (n : nat) : bytes := concat ((fun i => SHA1 (blk d i)) <$> seq 0 n).

(** Number of blocks, rounded up. *)
Definition nblk (len : Z) : Z := (len + CHUNK_BLK_SZ - 1) / CHUNK_BLK_SZ.

Definition obj_hdr (user key md : bytes) (len : Z) : be_fs_obj_hdr :=
  mkOHdr BE_FS_OBJ_MAGIC (Z.of_nat (length key)) len (nblk len) md (strncpy 128 user).

(** The file of an object. *)
Definition obj_file {SH : Sha} (user key md data : bytes) : bytes :=
  let len := Z.of_nat (length data) in
  enc_hdr (obj_hdr user key md len) ++ key ++ csums data (Z.to_nat (nblk len)) ++ data.

(** Sizes for which the 32-bit arithmetic on block counts is exact: below 14 TB. *)
Definition max_obj : Z := 214748364 * CHUNK_BLK_SZ.

Lemma land_blk z : 0 <= z -> Z.land z (CHUNK_BLK_SZ - 1) = z mod CHUNK_BLK_SZ.
Proof. intros Hz. change (CHUNK_BLK_SZ - 1) with (Z.ones 16). by rewrite Z.land_ones. Qed.

Lemma land_lnot_blk z : 0 <= z -> Z.land z (Z.lnot (CHUNK_BLK_SZ - 1)) = z - z mod CHUNK_BLK_SZ.
Proof.
  intros Hz. change (CHUNK_BLK_SZ - 1) with (Z.ones 16). rewrite <- Z.ldiff_land, Z.ldiff_ones_r by lia.
  rewrite Z.shiftr_div_pow2, Z.shiftl_mul_pow2 by lia. change (2 ^ 16) with CHUNK_BLK_SZ.
  pose proof (Z.div_mod z CHUNK_BLK_SZ ltac:(done)). lia.
Qed.

Lemma flag_blk z : 0 <= z -> flag z (CHUNK_BLK_SZ - 1) = negb (z mod CHUNK_BLK_SZ =? 0).
Proof. intros Hz. unfold flag. by rewrite land_blk. Qed.

Lemma blk_count z : 0 <= z <= max_obj -> fs_blk_count z = nblk z.
Proof.
  intros Hz. unfold fs_blk_count, nblk, max_obj, CHUNK_BLK_ORDER in *. rewrite flag_blk by lia.
  rewrite Z.shiftr_div_pow2 by lia. change (2 ^ 16) with 65536. unfold CHUNK_BLK_SZ in *.
  pose proof (Z.div_mod z 65536 ltac:(lia)). pose proof (Z.mod_pos_bound z 65536 ltac:(lia)).
  destruct (Z.eqb_spec (z mod 65536) 0) as [E|E]; cbn [negb]; unfold u32; rewrite uw_small by lia.
  - apply Z.div_unique with 65535; lia.
  - apply Z.div_unique with (z mod 65536 - 1); lia.
Qed.

Lemma nblk_bound z : 0 <= z <= max_obj -> 0 <= nblk z <= 214748364.
Proof.
  intros Hz. unfold nblk, max_obj, CHUNK_BLK_SZ in *. split; [apply Z.div_pos; lia|].
  apply Z.lt_succ_r, Z.div_lt_upper_bound; lia.
Qed.

Lemma csum_bytes_exact n : 0 <= n <= 214748364 -> csum_bytes_of n = 20 * n.
Proof. intros Hn. unfold csum_bytes_of, CHD_CSUM_SZ, u32. rewrite uw_small by lia. lia. Qed.

Section spec.
Context {SH : Sha}.

Lemma csums_S d n : csums d (S n) = csums d n ++ SHA1 (blk d n).
Proof. unfold csums. rewrite seq_S, fmap_app, concat_app. cbn. by rewrite app_nil_r. Qed.

Lemma length_csums d n : length (csums d n) = (20 * n)%nat.
Proof. induction n as [|n IH]; [done|]. rewrite csums_S, length_app, IH, length_SHA1. lia. Qed.

(** Whole blocks do not change when data is added. *)
Lemma blk_app d p i : CHUNK_BLK_SZ * (Z.of_nat i + 1) <= Z.of_nat (length d) -> blk (d ++ p) i = blk d i.
Proof.
  intros H. unfold blk, CHUNK_BLK_SZ in *. rewrite drop_app_le by lia. rewrite take_app_le; [done|]. rewrite length_drop. lia.
Qed.

Lemma csums_app d p n : CHUNK_BLK_SZ * Z.of_nat n <= Z.of_nat (length d) -> csums (d ++ p) n = csums d n.
Proof.
  induction n as [|n IH]; intros H; [done|]. unfold CHUNK_BLK_SZ in *.
  rewrite !csums_S, IH, blk_app; [done|unfold CHUNK_BLK_SZ; lia|lia].
Qed.

Lemma length_enc_hdr h :
  length (oh_magic h) = 4%nat -> length (oh_hash h) = 20%nat -> length (oh_owner h) = 128%nat -> length (enc_hdr h) = 180%nat.
Proof. intros H1 H2 H3. unfold enc_hdr. rewrite !length_app, !length_le_bytes, length_replicate, H1, H2, H3. done. Qed.

Lemma length_strncpy n b : length (strncpy n b) = n.
Proof. unfold strncpy. rewrite length_app, length_take, length_replicate. lia. Qed.

Lemma slice_app pos n (a b c : bytes) : length a = pos -> length b = n -> slice pos n (a ++ b ++ c) = b.
Proof. intros <- <-. unfold slice. by rewrite drop_app_length, take_app_length. Qed.

Lemma dec_enc_hdr h rest :
  length (oh_magic h) = 4%nat -> length (oh_hash h) = 20%nat -> length (oh_owner h) = 128%nat ->
  0 <= oh_key_len h < 2 ^ 32 -> 0 <= oh_value_len h < 2 ^ 64 -> 0 <= oh_n_blk h < 2 ^ 32 ->
  dec_hdr (enc_hdr h ++ rest) = h.
Proof.
  intros H1 H2 H3 H4 H5 H6. destruct h as [m kl vl nb ha ow].
  cbn [oh_magic oh_key_len oh_value_len oh_n_blk oh_hash oh_owner] in *. unfold dec_hdr, enc_hdr.
  cbn [oh_magic oh_key_len oh_value_len oh_n_blk oh_hash oh_owner]. f_equal.
  - rewrite <- !app_assoc. by apply (slice_app 0 4 []).
  - rewrite <- !app_assoc. rewrite (slice_app 4 4 m) by (done || by rewrite length_le_bytes).
    apply le_val_le_bytes_small. exact H4.
  - replace ((m ++ le_bytes 4 kl ++ _) ++ rest) with ((m ++ le_bytes 4 kl) ++ le_bytes 8 vl ++ le_bytes 4 nb ++ replicate 12 0 ++ ha ++ ow ++ rest)
      by (by rewrite <- !app_assoc).
    rewrite slice_app by (rewrite ?length_app, ?length_le_bytes; lia). apply le_val_le_bytes_small. exact H5.
  - replace ((m ++ le_bytes 4 kl ++ _) ++ rest) with ((m ++ le_bytes 4 kl ++ le_bytes 8 vl) ++ le_bytes 4 nb ++ replicate 12 0 ++ ha ++ ow ++ rest)
      by (by rewrite <- !app_assoc).
    rewrite slice_app by (rewrite ?length_app, ?length_le_bytes; lia). apply le_val_le_bytes_small. exact H6.
  - replace ((m ++ le_bytes 4 kl ++ _) ++ rest) with ((m ++ le_bytes 4 kl ++ le_bytes 8 vl ++ le_bytes 4 nb ++ replicate 12 0) ++ ha ++ ow ++ rest)
      by (by rewrite <- !app_assoc).
    apply slice_app; [|done]. rewrite ?length_app, ?length_le_bytes, length_replicate. lia.
  - replace ((m ++ le_bytes 4 kl ++ _) ++ rest) with ((m ++ le_bytes 4 kl ++ le_bytes 8 vl ++ le_bytes 4 nb ++ replicate 12 0 ++ ha) ++ ow ++ rest)
      by (by rewrite <- !app_assoc).
    apply slice_app; [|done]. rewrite ?length_app, ?length_le_bytes, length_replicate. lia.
Qed.

(** The owner field gives the user name back. *)
Lemma cstr_strncpy n user : Forall (fun x => x <> 0) user -> (length user < n)%nat -> cstr (strncpy n user) = user.
Proof.
  intros Hu Hn. unfold strncpy. rewrite take_ge by lia. destruct (n - length user)%nat as [|k] eqn:Ek; [lia|]. clear Hn Ek.
  induction Hu as [|x user Hx Hu IH]; [done|]. cbn. rewrite (proj2 (Z.eqb_neq _ _)) by done. by f_equal.
Qed.

(** ** Writing *)

Section writing.
Variable vol_path : bytes.

Definition vofs (key : bytes) (len : Z) : Z := hdr_sz + Z.of_nat (length key) + 20 * nblk len.

(** File contents while [d] has been written: nothing, or a gap for the header. *)
Definition partial (key : bytes) (len : Z) (d : bytes) : bytes :=
  match d with [] => [] | _ => replicate (Z.to_nat (vofs key len)) 0 ++ d end.

(** Digests and counters after the data [d]. *)
Record summed (len : Z) (d : bytes) (o : fs_obj) (k : nat) : Prop := {
  sm_idx : csum_idx o = Z.of_nat k;
  sm_len : Z.of_nat (length d) = CHUNK_BLK_SZ * Z.of_nat k + checked_bytes o;
  sm_ctx : checksum o = drop (Z.to_nat (CHUNK_BLK_SZ * Z.of_nat k)) d;
  sm_tbl : take (20 * k) (csum_tbl o) = csums d k;
  sm_size : Z.of_nat (length (csum_tbl o)) = 20 * nblk len;
  sm_nblk : n_blk o = nblk len;
  sm_max : Z.of_nat (length d) <= len <= max_obj }.

(** [o] is an object of [key] and final size [len], being written at inode
    [i] of [s]; [d] is there already. *)
Record writing (fn key : bytes) (len : Z) (i : nat) (o : fs_obj) (s : fsys) (d : bytes) : Prop := {
  wg_key : bo_key o = key;
  wg_klen : Z.of_nat (length key) <= CHD_KEY_SZ;
  wg_size : bo_size o = len;
  wg_ino : out_ino o = Some i;
  wg_fn : out_fn o = Some fn;
  wg_name : f_names s !! fn = Some i;
  wg_file : exists m, f_inodes s !! i = Some (mkFile (partial key len d) m);
  wg_off : out_off o = vofs key len + Z.of_nat (length d);
  wg_written : written_bytes o = Z.of_nat (length d);
  wg_sum : exists k, summed len d o k /\ 0 <= checked_bytes o < CHUNK_BLK_SZ }.

(** Only the file at inode [i] has changed. *)
Definition only (i : nat) (s s' : fsys) : Prop :=
  f_names s' = f_names s /\ f_dirs s' = f_dirs s /\ f_next s' = f_next s /\ f_now s' = f_now s /\ f_oracle s' = f_oracle s /\
  forall j, j <> i -> f_inodes s' !! j = f_inodes s !! j.

#[export] Instance only_preorder i : PreOrder (only i).
Proof.
  unfold only. split.
  - by intros s.
  - intros s1 s2 s3 (A1 & A2 & A3 & A4 & A5 & A6) (B1 & B2 & B3 & B4 & B5 & B6). split_and!; try congruence.
    intros j Hj. by rewrite B6, A6.
Qed.

Lemma same_only i s s' : same_fs s s' -> only i s s'.
Proof. intros (E1 & E2 & E3 & E4 & E5 & E6). split_and!; try done. intros; by rewrite E2. Qed.

Lemma write_at_end (d b : bytes) (pos : Z) : pos = Z.of_nat (length d) -> write_at pos b d = d ++ b.
Proof.
  intros ->. unfold write_at. rewrite Nat2Z.id, take_ge, Nat.sub_diag, drop_ge, app_nil_r by lia. done.
Qed.

Lemma write_partial key len d w :
  Z.of_nat (length key) <= CHD_KEY_SZ -> 0 <= nblk len -> w <> [] ->
  write_at (vofs key len + Z.of_nat (length d)) w (partial key len d) = partial key len (d ++ w).
Proof.
  intros Hk Hn Hw. assert (0 <= vofs key len) by (unfold vofs, hdr_sz; lia). destruct d as [|x d]; cbn [partial app].
  - cbn [length]. rewrite Z.add_0_r. unfold write_at. rewrite take_nil, drop_nil, app_nil_r. cbn. rewrite Nat.sub_0_r.
    destruct w; done.
  - rewrite write_at_end; [by rewrite <- app_assoc|]. rewrite length_app, length_replicate. lia.
Qed.

Lemma nblk_gt len k c : 0 < c -> CHUNK_BLK_SZ * k + c <= len -> k < nblk len.
Proof.
  intros Hc Hl. unfold nblk, CHUNK_BLK_SZ in *. assert (k + 1 <= (len + 65536 - 1) / 65536); [|lia].
  apply Z.div_le_lower_bound; lia.
Qed.

Lemma splice_take (pos : nat) (b d : bytes) :
  (pos + length b <= length d)%nat ->
  take (pos + length b) (splice pos b d) = take pos d ++ b /\ length (splice pos b d) = length d.
Proof.
  intros H. unfold splice. split.
  - rewrite app_assoc, take_app_length'; [done|]. rewrite length_app, length_take. lia.
  - rewrite !length_app, length_take, length_drop. lia.
Qed.

(** Closing a block. *)
Lemma flush_eq len d o k s :
  summed len d o k -> 0 < checked_bytes o <= CHUNK_BLK_SZ ->
  exists tbl, obj_flush_csum o s = Some (set_out (out_off o) (written_bytes o) 0 [] (set_csum (Z.of_nat (S k)) tbl o), s) /\
    take (20 * S k) tbl = csums d (S k) /\ length tbl = length (csum_tbl o).
Proof.
  intros [I1 I2 I3 I4 I5 I6 I7] Hc.
  assert (Z.of_nat k < nblk len) as Hk by (apply (nblk_gt len (Z.of_nat k) (checked_bytes o)); lia).
  pose proof (nblk_bound len ltac:(lia)) as Hb.
  unfold obj_flush_csum. rewrite I1, I6, (proj2 (Z.leb_gt _ _)) by lia.
  rewrite csum_bytes_exact by lia. unfold csum_tbl_sz, CHD_CSUM_SZ. rewrite I5, (proj2 (Z.ltb_ge _ _)) by lia.
  destruct (splice_take (Z.to_nat (20 * Z.of_nat k)) (SHA1 (checksum o)) (csum_tbl o)) as [Ht Hl].
  { rewrite length_SHA1. lia. }
  rewrite length_SHA1 in Ht. eexists. split; [|split; [|exact Hl]].
  - unfold u32. rewrite uw_small by lia. unfold mret, F_ret. do 4 f_equal. lia.
  - replace (20 * S k)%nat with (Z.to_nat (20 * Z.of_nat k) + 20)%nat by lia. rewrite Ht, csums_S.
    replace (Z.to_nat (20 * Z.of_nat k)) with (20 * k)%nat by lia. rewrite I4. do 2 f_equal.
    rewrite I3. unfold blk. rewrite take_ge; [f_equal; f_equal; lia|]. rewrite length_drop. unfold CHUNK_BLK_SZ in *. lia.
Qed.

(** One write: the data grows by a prefix of the buffer, to the end of the
    block at most. *)
Lemma write_step fn key len i o s d w s1 :
  writing fn key len i o s d -> w <> [] -> Z.of_nat (length w) <= CHUNK_BLK_SZ - checked_bytes o ->
  Z.of_nat (length d) + Z.of_nat (length w) <= len ->
  wrote i (out_off o) w s s1 ->
  let n := Z.of_nat (length w) in
  let o1 := set_out (out_off o + n) (u64 (written_bytes o + n)) (checked_bytes o + n) (checksum o ++ w) o in
  exists o2, (if checked_bytes o1 =? CHUNK_BLK_SZ then obj_flush_csum o1 else mret o1) s1 = Some (o2, s1) /\
    writing fn key len i o2 s1 (d ++ w) /\ only i s s1.
Proof.
  intros [G1 G2 G3 G4 G5 G6 [m G7] G8 G9 (k & [I1 I2 I3 I4 I5 I6 I7] & Hc)] Hw Hn Hl (A1 & A2 & A3 & A4 & A5 & A6) n o1.
  assert (0 < n) as Hn0 by (unfold n; destruct w; [done|cbn; lia]). fold n in Hn, Hl.
  assert (Z.of_nat (length (d ++ w)) = Z.of_nat (length d) + n) as Ed by (rewrite length_app; lia).
  pose proof (nblk_bound len ltac:(unfold max_obj, CHUNK_BLK_SZ in *; lia)) as Hb.
  assert (only i s s1) as Ho.
  { unfold only. split_and!; try done. intros j Hj. by rewrite A6, lookup_alter_ne. }
  assert (exists m', f_inodes s1 !! i = Some (mkFile (partial key len (d ++ w)) m')) as Hf.
  { exists (f_now s). rewrite A6, lookup_alter_eq, G7. cbn. by rewrite G8, write_partial by (done || lia). }
  assert (csums (d ++ w) k = csums d k) as Ecs by (apply csums_app; unfold CHUNK_BLK_SZ in *; lia).
  assert (checksum o ++ w = drop (Z.to_nat (CHUNK_BLK_SZ * Z.of_nat k)) (d ++ w)) as Ectx.
  { rewrite drop_app_le by (unfold CHUNK_BLK_SZ in *; lia). by rewrite I3. }
  assert (u64 (written_bytes o + n) = Z.of_nat (length (d ++ w))) as Ewr.
  { rewrite Ed, G9. unfold u64. apply uw_small. unfold max_obj, CHUNK_BLK_SZ in *. lia. }
  assert (summed len (d ++ w) o1 k) as Sm.
  { split; cbn [csum_idx checked_bytes checksum csum_tbl n_blk set_out o1];
      [exact I1|lia|exact Ectx|by rewrite Ecs|exact I5|exact I6|lia]. }
  destruct (Z.eqb_spec (checked_bytes o1) CHUNK_BLK_SZ) as [Ec|Ec].
  - destruct (flush_eq len (d ++ w) o1 k s1 Sm) as (tbl & -> & Ht & Hlt); [cbn [checked_bytes set_out o1] in *; unfold CHUNK_BLK_SZ in *; lia|].
    eexists. split; [done|]. split; [|done]. cbn [checked_bytes set_out o1] in Ec.
    split; cbn [bo_key bo_size out_ino out_fn out_off written_bytes checked_bytes set_out set_csum o1];
      [done..|by rewrite A1|done|by rewrite G8, Ed, Z.add_assoc|done|]. exists (S k). split; [|unfold CHUNK_BLK_SZ; lia].
    split; cbn [csum_idx checked_bytes checksum csum_tbl n_blk set_out set_csum o1]; [done| | |exact Ht|by rewrite Hlt|done|lia].
    + unfold CHUNK_BLK_SZ in *. lia.
    + rewrite drop_ge; [done|]. unfold CHUNK_BLK_SZ in *. lia.
  - eexists. split; [done|]. split; [|done]. cbn [checked_bytes set_out o1] in Ec.
    split; cbn [bo_key bo_size out_ino out_fn out_off written_bytes checked_bytes set_out set_csum o1];
      [done..|by rewrite A1|done|by rewrite G8, Ed, Z.add_assoc|done|].
    exists k. split; [done|]. cbn [checked_bytes set_out o1]. lia.
Qed.

Lemma write_loop_spec fuel fn key len i : forall ptr total o s d,
  (length ptr <= fuel)%nat -> writing fn key len i o s d -> Z.of_nat (length d) + Z.of_nat (length ptr) <= len ->
  fw False (fs_obj_write_loop fuel ptr total o)
    (fun r s' => only i s s' /\ out_fn r.2 = Some fn /\
       ((r.1 = -1 /\ ~ calm s) \/ (r.1 = total + Z.of_nat (length ptr) /\ writing fn key len i r.2 s' (d ++ ptr)))) s.
Proof.
  induction fuel as [|fuel IH]; intros ptr total o s d Hf G Hl.
  { destruct ptr; [|cbn in Hf; lia]. apply fw_ret. split; [done|]. split; [apply G|]. right. split; [cbn; lia|by rewrite app_nil_r]. }
  destruct ptr as [|x ptr].
  { apply fw_ret. split; [done|]. split; [apply G|]. right. split; [cbn; lia|by rewrite app_nil_r]. }
  cbn [fs_obj_write_loop]. rewrite (wg_ino _ _ _ _ _ _ _ G). set (p := x :: ptr) in *.
  destruct (wg_sum _ _ _ _ _ _ _ G) as (k & Sm & Hc).
  set (u := Z.to_nat (CHUNK_BLK_SZ - checked_bytes o)). assert (0 < u)%nat as Hu by (unfold u; lia).
  assert (Z.of_nat u <= CHUNK_BLK_SZ - checked_bytes o) as Hu' by (unfold u; lia). clearbody u.
  apply fw_bind, fw_write. intros [n|e] s1 Hw.
  2:{ destruct Hw as [Hs Hc']. apply fw_ret. cbn. split; [by apply same_only|]. split; [apply G|]. left. done. }
  destruct Hw as (Hn & Hn0 & Hw & _). rewrite length_take in Hn. assert (0 < n)%nat as Hn1 by (apply Hn0; unfold p; destruct u; [lia|done]).
  rewrite take_take, Nat.min_l in Hw by lia. set (w := take n p) in *.
  assert (length w = n) as El by (unfold w; rewrite length_take; lia).
  destruct (write_step fn key len i o s d w s1 G) as (o2 & E2 & G2 & O2); [|lia|lia|done|].
  { intros E. rewrite E in El. cbn in El. lia. }
  rewrite El in E2. apply fw_bind. unfold fw at 1. rewrite E2.
  eapply fw_mono; [apply (IH (drop n p) (total + Z.of_nat n) o2 _ (d ++ w))|].
  - rewrite length_drop. unfold p in *. cbn in *. lia.
  - done.
  - rewrite length_app, El, length_drop. lia.
  - cbn. intros [r o3] s3 (O3 & F3 & H3). cbn in *. split; [by etrans|]. split; [done|].
    destruct H3 as [[-> Hnc]|[-> G3]].
    + left. split; [done|]. intros C. apply Hnc. eapply calm_oracle; [|done]. by destruct O2 as (_ & _ & _ & _ & ? & _).
    + right. rewrite length_drop. split; [unfold p in *; cbn in *; lia|]. unfold w in G3. by rewrite <- app_assoc, take_drop in G3.
Qed.

Lemma same_wf s s' : same_fs s s' -> fs_wf s -> fs_wf s'.
Proof. intros (E1 & E2 & E3 & E4 & E5 & E6) [W1 W2 W3 W4]. split; rewrite ?E1, ?E2, ?E3, ?E4; done. Qed.

Lemma ensure_dir_spec U path s :
  fw U (ensure_dir path) (fun b s' => dirs_only s s' /\ (fs_wf s -> fs_wf s') /\ f_dirs s' ⊆ {[path]} ∪ f_dirs s /\
    (calm s -> f_names s !! path = None -> b = true)) s.
Proof.
  unfold ensure_dir. apply fw_bind, fw_stat. intros r s1 S1 Hr. pose proof (same_dirs_only _ _ S1) as D1.
  assert (f_dirs s1 ⊆ {[path]} ∪ f_dirs s) as Hd1 by (destruct S1 as (_ & _ & -> & _); set_solver).
  destruct r as [|i|e]; [apply fw_ret; split; [done|]; split; [by apply same_wf|done]| |].
  - apply fw_ret. split; [done|]. split; [by apply same_wf|]. split; [done|]. intros _ E. congruence.
  - destruct Hr as [He Hc]. destruct (Z.eqb_spec e ENOENT) as [->|Hn].
    2:{ apply fw_ret. split; [done|]. split; [by apply same_wf|]. split; [done|]. intros C _. by destruct (Hc C). }
    apply fw_bind, fw_mkdir. intros rc s2 D2 Hrc Hc2. apply fw_ret. split; [by etrans|]. split; [|split].
    + intros W. apply (same_wf _ _ S1) in W. destruct W as [W1 W2 W3 W4]. destruct D2 as (F1 & F2 & F3 & F4 & F5).
      split; rewrite ?F1, ?F2, ?F3; try done. intros q Hq.
      destruct Hrc as [(-> & Hp & Ed)|[_ Ed]]; rewrite Ed in Hq; [|by apply W4].
      apply elem_of_union in Hq as [->%elem_of_singleton|Hq]; [done|by apply W4].
    + destruct Hrc as [(_ & _ & ->)|[_ ->]]; set_solver.
    + intros C Hp. destruct (Hc C) as (_ & Hd & _). destruct S1 as (E1 & E2 & E3 & E4 & E5 & E6).
      rewrite Hc2; [done|by eapply calm_oracle|by rewrite E3|by rewrite E1].
Qed.

Lemma pathname_spec U table key s :
  fw U (fs_obj_pathname vol_path table key) (fun r s' => dirs_only s s' /\ (fs_wf s -> fs_wf s') /\
    (r = None \/ r = Some (obj_path vol_path table key)) /\ f_dirs s' ⊆ {[obj_dir vol_path table key]} ∪ f_dirs s /\
    (calm s -> table <> 0 -> key <> [] -> f_names s !! obj_dir vol_path table key = None -> r <> None)) s.
Proof.
  unfold fs_obj_pathname. destruct ((table =? 0) || (length key =? 0)%nat) eqn:E0.
  { apply fw_ret. split; [done|]. split; [done|]. split; [by left|]. split; [set_solver|]. intros _ Ht Hk _. exfalso.
    apply orb_true_iff in E0 as [->%Z.eqb_eq|E%Nat.eqb_eq]; [done|]. by destruct key. }
  apply fw_bind, fw_malloc_ok. intros b s1 S1 Hb. pose proof (same_dirs_only _ _ S1) as D1. destruct b; cbn [negb].
  2:{ apply fw_ret. split; [done|]. split; [by apply same_wf|]. split; [by left|].
      split; [destruct S1 as (_ & _ & -> & _); set_solver|]. intros C. by specialize (Hb C). }
  apply fw_bind. eapply fw_mono; [apply ensure_dir_spec|]. cbn. intros b s2 (D2 & W2 & Hd2 & C2). apply fw_ret.
  split; [by etrans|]. split; [intros W; by apply W2, (same_wf s)|]. split; [destruct b; auto|].
  split; [destruct S1 as (_ & _ & E3 & _); by rewrite <- E3|]. intros C _ _ Hn. destruct S1 as (E1 & _ & _ & _ & _ & E6). rewrite C2; [done|by eapply calm_oracle|by rewrite E1].
Qed.

Variable garbage : Z -> bytes.
Hypothesis garbage_len : forall n, 0 <= n -> Z.of_nat (length (garbage n)) = n.

Lemma created_wf path s s' : fs_wf s -> f_names s !! path = None -> path ∉ f_dirs s -> created path s s' -> fs_wf s'.
Proof.
  intros [W1 W2 W3 W4] Hp Hd (E1 & E2 & E3 & E4 & _ & _).
  assert (f_inodes s !! f_next s = None) as Hf.
  { destruct (f_inodes s !! f_next s) eqn:E; [|done]. specialize (W2 (f_next s) ltac:(eauto)). lia. }
  split; rewrite ?E1, ?E2, ?E3, ?E4.
  - intros q i. destruct (decide (q = path)) as [->|Hq].
    + rewrite lookup_insert_eq. intros [= <-]. rewrite lookup_insert_eq. eauto.
    + rewrite lookup_insert_ne by done. intros Hi%W1. destruct (decide (i = f_next s)) as [->|]; [rewrite lookup_insert_eq; eauto|].
      by rewrite lookup_insert_ne.
  - intros i. destruct (decide (i = f_next s)) as [->|]; [lia|]. rewrite lookup_insert_ne by done. intros Hi%W2. lia.
  - intros q r i. destruct (decide (q = path)) as [->|Hq], (decide (r = path)) as [->|Hr]; rewrite ?lookup_insert_eq, ?lookup_insert_ne by done.
    + done.
    + intros [= <-] Hi%W1. destruct Hi as [? Hi]. congruence.
    + intros Hi%W1 [= <-]. destruct Hi as [? Hi]. congruence.
    + apply W3.
  - intros q Hq. rewrite lookup_insert_ne by (intros ->; done). by apply W4.
Qed.

Lemma free_spec U fn o s :
  out_fn o = Some fn ->
  fw U (fs_obj_free o) (fun _ s' => (fs_wf s -> fs_wf s') /\ f_inodes s' = f_inodes s /\ f_oracle s' = f_oracle s /\
    (forall p, p <> fn -> f_names s' !! p = f_names s !! p) /\
    (f_names s' !! fn = None \/ (f_names s' !! fn = f_names s !! fn /\ ~ calm s))) s.
Proof.
  intros E. unfold fs_obj_free. rewrite E. apply fw_bind, fw_unlink. intros rc s' H. apply fw_ret.
  destruct H as [(-> & Hs & E1 & E2 & E3 & E4 & E5 & E6)|(Hrc & Hs & Hc)].
  - split_and!; try done.
    + intros [W1 W2 W3 W4]. split; rewrite ?E1, ?E2, ?E3, ?E4; try done.
      * intros p i [_ Hp]%lookup_delete_Some. by apply (W1 p).
      * intros p q i [_ Hp]%lookup_delete_Some [_ Hq]%lookup_delete_Some. by apply (W3 p q i).
      * intros p Hp. apply lookup_delete_None. right. by apply W4.
    + intros p Hp. rewrite E1. by rewrite lookup_delete_ne.
    + left. rewrite E1. by rewrite lookup_delete_eq.
  - pose proof Hs as (E1 & E2 & _ & _ & _ & E6). split_and!; try done; [by apply same_wf|intros; by rewrite E1|].
    destruct (f_names s !! fn) as [i|] eqn:En; [|left; by rewrite E1, En]. right. rewrite E1. split; [by rewrite En|].
    intros C. by specialize (Hc C).
Qed.

Lemma obj_path_ne_dir table key :
  length (obj_path vol_path table key) <> length (obj_dir vol_path table key).
Proof.
  unfold obj_path. rewrite !length_app. cbn [length]. lia.
Qed.

(** What [fs_obj_new] promises. *)
Definition new_post (table : Z) (key : bytes) (len : Z) (s : fsys) (r : option fs_obj * chunk_errcode) (s' : fsys) : Prop :=
  let fn := obj_path vol_path table key in
  fs_wf s' /\ f_oracle s' = f_oracle s /\ (forall p, p <> fn -> content s' p = content s p) /\
  (is_Some (content s fn) -> content s' fn = content s fn) /\
  (forall j, is_Some (f_inodes s !! j) -> f_inodes s' !! j = f_inodes s !! j) /\
  match r.1 with
  | Some o => r.2 = che_Success /\ content s fn = None /\ exists i, writing fn key len i o s' [] /\ f_inodes s !! i = None
  | None => r.2 <> che_Success /\ (calm s -> content s' fn = content s fn)
  end /\
  (calm s -> key_valid key = true -> table <> 0 -> f_names s !! obj_dir vol_path table key = None -> fn ∉ f_dirs s ->
   if content s fn is Some _ then r = (None, che_KeyExists) else is_Some (r.1)).

Lemma new_fails table key len s e s' : dirs_only s s' -> fs_wf s' -> e <> che_Success ->
  (calm s -> key_valid key = true -> table <> 0 -> f_names s !! obj_dir vol_path table key = None -> obj_path vol_path table key ∉ f_dirs s ->
   is_Some (content s (obj_path vol_path table key)) /\ e = che_KeyExists) -> new_post table key len s (None, e) s'.
Proof.
  intros D W' He Hc. unfold new_post. cbn. split; [done|]. split; [apply D|]. split; [intros; by apply dirs_only_content|].
  split; [intros; by apply dirs_only_content|]. split; [by destruct D as (_ & -> & _)|].
  split; [split; [done|]; intros; by apply dirs_only_content|]. intros C H1 H2 H3 H4. destruct (Hc C H1 H2 H3 H4) as [[? ->] ->]. done.
Qed.

(** [s2]: the file has been created, and otherwise directories at most. *)
Record made (fn : bytes) (i : nat) (s s2 : fsys) : Prop := {
  md_wf : fs_wf s2;
  md_oracle : f_oracle s2 = f_oracle s;
  md_none : content s fn = None;
  md_other p : p <> fn -> content s2 p = content s p;
  md_fresh : f_inodes s !! i = None;
  md_inodes j : is_Some (f_inodes s !! j) -> f_inodes s2 !! j = f_inodes s !! j;
  md_name : f_names s2 !! fn = Some i;
  md_file : exists m, f_inodes s2 !! i = Some (mkFile [] m) }.

Lemma created_made fn s s1 s2 : dirs_only s s1 -> fs_wf s1 -> f_names s1 !! fn = None -> fn ∉ f_dirs s1 -> created fn s1 s2 ->
  made fn (f_next s1) s s2.
Proof.
  intros D W1 Hnone Hnd Cr. pose proof (created_wf _ _ _ W1 Hnone Hnd Cr) as W2. pose proof Cr as (E1 & E2 & _ & _ & _ & E6).
  assert (f_inodes s !! f_next s1 = None) as Hfr.
  { destruct D as (_ & <- & _). destruct (f_inodes s1 !! f_next s1) eqn:E; [|done]. pose proof (fs_next _ W1 (f_next s1) ltac:(eauto)). lia. }
  split; try done.
  - rewrite E6. apply D.
  - rewrite <- (dirs_only_content s s1 fn) by done. unfold content. by rewrite Hnone.
  - intros p Hp. rewrite <- (dirs_only_content s s1 p) by done. unfold content.
    rewrite E1, lookup_insert_ne by done. destruct (f_names s1 !! p) as [i|] eqn:Ei; [|done]. cbn. rewrite E2.
    rewrite lookup_insert_ne; [done|]. intros <-. destruct (fs_live _ W1 p _ Ei) as [f Hf].
    pose proof (fs_next _ W1 (f_next s1) ltac:(eauto)). lia.
  - intros j [x Hj]. rewrite E2, lookup_insert_ne by (intros <-; congruence). by destruct D as (_ & -> & _).
  - by rewrite E1, lookup_insert_eq.
  - exists (f_now s1). by rewrite E2, lookup_insert_eq.
Qed.

Lemma made_same fn i s s2 s3 : made fn i s s2 -> same_fs s2 s3 -> made fn i s s3.
Proof.
  intros [H1 H2 H3 H4 H5 H6 H7 H8] S. pose proof S as (N & I & _ & _ & _ & O). split; rewrite ?N, ?I, ?O; try done; [by eapply same_wf|].
  intros p Hp. unfold content. rewrite N, I. by apply H4.
Qed.

(** The file is removed again. *)
Lemma new_undone table key len i s s2 s3 : let fn := obj_path vol_path table key in
  made fn i s s2 -> ~ calm s -> (fs_wf s2 -> fs_wf s3) -> f_inodes s3 = f_inodes s2 -> f_oracle s3 = f_oracle s2 ->
  (forall p, p <> fn -> f_names s3 !! p = f_names s2 !! p) -> new_post table key len s (None, che_InternalError) s3.
Proof.
  intros fn [H1 H2 H3 H4 H5 H6 H7 H8] Hnc W3 E3 O3 N3. unfold new_post. fold fn. cbn. split; [auto|]. split; [congruence|].
  split; [|split; [|split; [by rewrite E3|split; [by split|by intros C]]]].
  - intros p Hp. rewrite <- (H4 p Hp). unfold content. by rewrite E3, N3.
  - rewrite H3. intros [? ?]. done.
Qed.

Lemma new_made table key len i s s2 : let fn := obj_path vol_path table key in
  key_valid key = true -> 0 <= len <= max_obj -> made fn i s s2 ->
  let skip := hdr_sz + Z.of_nat (length key) + csum_bytes_of (fs_blk_count len) in
  new_post table key len s (Some (mkObj key len 0 [] (Some i) skip (Some fn) 0 None 0 0 0
    skip (s64 (Z.land len (Z.lnot (CHUNK_BLK_SZ - 1)))) (Z.land len (CHUNK_BLK_SZ - 1))
    0 [] 0 (garbage (csum_bytes_of (fs_blk_count len))) (fs_blk_count len)), che_Success) s2.
Proof.
  intros fn Hkey Hl [H1 H2 H3 H4 H5 H6 H7 [m H8]] skip. pose proof (nblk_bound len Hl) as Hb. unfold new_post. fold fn. cbn.
  split; [done|]. split; [done|]. split; [done|]. split; [rewrite H3; by intros [? ?]|]. split; [done|]. split; [|rewrite H3; eauto].
  split; [done|]. split; [done|]. exists i. split; [|done].
  assert (csum_bytes_of (fs_blk_count len) = 20 * nblk len) as Ecs by (rewrite blk_count by done; by apply csum_bytes_exact).
  assert (vofs key len = skip) as Ev by (unfold vofs, skip; lia).
  split; cbn [bo_key bo_size out_ino out_fn out_off written_bytes checked_bytes]; try done.
  - unfold key_valid in Hkey. apply negb_true_iff, orb_false_iff in Hkey as [_ Hkey%Z.ltb_ge]. done.
  - by exists m.
  - rewrite Ev. cbn. lia.
  - exists 0%nat. split; [|unfold CHUNK_BLK_SZ; lia]. split; cbn [csum_idx checked_bytes checksum csum_tbl n_blk length];
      [done|lia|by rewrite drop_nil|done| |by apply blk_count|lia].
    rewrite garbage_len, Ecs by lia. done.
Qed.

Lemma new_spec table key len s :
  fs_wf s -> 0 <= len <= max_obj ->
  let fn := obj_path vol_path table key in
  fw False (fs_obj_new vol_path garbage table key len) (fun r s' =>
    fs_wf s' /\ f_oracle s' = f_oracle s /\ (forall p, p <> fn -> content s' p = content s p) /\
    (is_Some (content s fn) -> content s' fn = content s fn) /\
    (forall j, is_Some (f_inodes s !! j) -> f_inodes s' !! j = f_inodes s !! j) /\
    match r.1 with
    | Some o => r.2 = che_Success /\ content s fn = None /\ exists i, writing fn key len i o s' [] /\ f_inodes s !! i = None
    | None => r.2 <> che_Success /\ (calm s -> content s' fn = content s fn)
    end /\
    (calm s -> key_valid key = true -> table <> 0 -> f_names s !! obj_dir vol_path table key = None -> fn ∉ f_dirs s ->
     if content s fn is Some _ then r = (None, che_KeyExists) else is_Some (r.1))) s.
Proof.
  intros W Hl fn. change (fw False (fs_obj_new vol_path garbage table key len) (new_post table key len s) s). pose proof (nblk_bound len Hl) as Hb.
  unfold fs_obj_new. destruct (key_valid key) eqn:Ek; cbn [negb]; [|apply fw_ret, new_fails; congruence || done].
  apply fw_bind, fw_malloc_ok. intros b1 s1 S1 H1. pose proof (same_wf _ _ S1 W) as W1. pose proof (same_dirs_only _ _ S1) as D1.
  destruct b1; cbn [negb]; [|apply fw_ret, new_fails; [done..|intros C; by specialize (H1 C)]].
  apply fw_bind, fw_malloc_ok. intros b2 s2 S2 H2. assert (same_fs s s2) as S12 by (by etrans).
  pose proof (same_wf _ _ S12 W) as W2. pose proof (same_dirs_only _ _ S12) as D2.
  assert (calm s -> calm s2) as C2 by (apply calm_oracle, S12).
  destruct b2; cbn [negb]; [|apply fw_ret, new_fails; [done..|intros C; exfalso; by specialize (H2 (calm_oracle _ _ (proj2 (proj2 (proj2 (proj2 (proj2 S1))))) C))]].
  apply fw_bind. eapply fw_mono; [apply pathname_spec|]. cbn. intros ofn s3 (D23 & W3 & Hfn & Hdirs & Hc3).
  assert (dirs_only s s3) as D3 by (by etrans). specialize (W3 W2).
  destruct ofn as [fn'|].
  2:{ apply fw_ret, new_fails; [done..|]. intros C _ Ht Hd _. exfalso. apply Hc3; try done; [by apply C2| |].
      - intros ->. done.
      - by rewrite (proj1 S12). }
  destruct Hfn as [|[= ->]]; [done|]. fold fn. apply fw_bind, fw_creat. intros r s4 Hr. destruct r as [ino|e].
  2:{ destruct Hr as (He & S4 & Hc4). apply fw_ret, new_fails.
      - etrans; [done|by apply same_dirs_only].
      - by eapply same_wf.
      - by destruct (e =? EEXIST).
      - intros C _ _ _ Hnd. destruct Hc4 as [-> Hex]; [eapply calm_oracle; [|done]; apply D3|]. split; [|done].
        rewrite <- (dirs_only_content s s3 _) by done. destruct Hex as [Hex|[i Hi]].
        + apply Hdirs, elem_of_union in Hex as [Hex%elem_of_singleton|Hex].
          * exfalso. apply (obj_path_ne_dir table key). unfold fn in Hex. by rewrite Hex.
          * destruct S12 as (_ & _ & Ed & _). by rewrite Ed in Hex.
        + unfold content. fold fn. rewrite Hi. cbn. destruct (fs_live _ W3 fn i Hi) as [f ->]. cbn. eauto. }
  destruct Hr as (-> & Hnone & Hnd & Cr). pose proof (created_made fn s s3 s4 D3 W3 Hnone Hnd Cr) as M4.
  set (o := mkObj _ _ _ _ _ _ _ _ _ _ _ _ _ _ _ _ _ _ _ _).
  apply fw_bind, fw_other. intros rc s5 S5 H5. pose proof (made_same _ _ _ _ _ M4 S5) as M5.
  destruct (Z.eqb_spec rc 0) as [->|Hrc]; cbn [negb].
  2:{ apply fw_bind. eapply fw_mono; [apply (free_spec False fn o); done|]. cbn. intros _ s6 (F1 & F2 & F3 & F4 & F5). apply fw_ret.
      eapply (new_undone table key len _ s s5); try done. intros C. apply Hrc, H5. eapply calm_oracle; [apply M4|done]. }
  apply fw_bind, fw_malloc_ok. intros b6 s6 S6 H6. pose proof (made_same _ _ _ _ _ M5 S6) as M6. destruct b6; cbn [negb].
  2:{ apply fw_bind. eapply fw_mono; [apply (free_spec False fn o); done|]. cbn. intros _ s7 (F1 & F2 & F3 & F4 & F5). apply fw_ret.
      eapply (new_undone table key len _ s s6); try done. intros C. assert (calm s5) as C5 by (eapply calm_oracle; [apply M5|done]). by specialize (H6 C5). }
  apply fw_ret. by apply new_made.
Qed.

Lemma nblk_exact k c : 0 <= c < CHUNK_BLK_SZ -> nblk (CHUNK_BLK_SZ * k + c) = if 0 <? c then k + 1 else k.
Proof.
  intros Hc. unfold nblk, CHUNK_BLK_SZ in *. symmetry. destruct (Z.ltb_spec 0 c).
  - apply Z.div_unique with (c - 1); lia.
  - apply Z.div_unique with 65535; lia.
Qed.

(** Closing the last block: the table is complete. *)
Lemma last_flush fn key len i o s d :
  writing fn key len i o s d -> Z.of_nat (length d) = len ->
  exists c ctx tbl, (if 0 <? checked_bytes o then obj_flush_csum o else mret o) s =
      Some (set_out (out_off o) (written_bytes o) c ctx (set_csum (nblk len) tbl o), s) /\
    tbl = csums d (Z.to_nat (nblk len)).
Proof.
  intros G Hl. destruct (wg_sum _ _ _ _ _ _ _ G) as (k & Sm & Hc). pose proof Sm as [I1 I2 I3 I4 I5 I6 I7].
  pose proof (nblk_exact (Z.of_nat k) (checked_bytes o) Hc) as En. rewrite <- I2, Hl in En.
  destruct (Z.ltb_spec 0 (checked_bytes o)) as [H0|H0].
  - destruct (flush_eq len d o k s Sm ltac:(lia)) as (tbl & -> & Ht & Hlt). exists 0, [], tbl.
    replace (nblk len) with (Z.of_nat (S k)) by lia. split; [done|]. rewrite Nat2Z.id, <- Ht, take_ge; [done|]. lia.
  - exists (checked_bytes o), (checksum o), (csum_tbl o). split.
    + unfold mret, F_ret. do 2 f_equal. destruct o. cbn in *. unfold set_out, set_csum. cbn. by rewrite En, I1.
    + rewrite En, Nat2Z.id, <- I4, take_ge; [done|]. lia.
Qed.

(** The header goes into the gap that was left for it. *)
Lemma write_front (h d : bytes) key len :
  Z.of_nat (length h) = vofs key len -> write_at 0 h (partial key len d) = h ++ d.
Proof.
  intros Hh. unfold write_at. cbn [Z.to_nat Pos.to_nat take app Nat.add]. rewrite take_0. cbn [app].
  destruct d as [|x d]; cbn [partial]; [by rewrite drop_nil|].
  rewrite drop_app_length'; [done|]. rewrite length_replicate. lia.
Qed.

Lemma commit_spec fn key len i o s d user md sync :
  writing fn key len i o s d -> length md = 20%nat ->
  fw False (fs_obj_write_commit o user md sync) (fun r s' =>
    only i s s' /\
    (if r.1 : bool then Z.of_nat (length d) = len /\ out_fn r.2 = None /\
       exists m, f_inodes s' !! i = Some (mkFile (obj_file user key md d) m)
     else out_fn r.2 = Some fn) /\
    (calm s -> Z.of_nat (length d) = len -> r.1 = true)) s.
Proof.
  intros G Hm. pose proof G as [G1 G2 G3 G4 G5 G6 [m G7] G8 G9 (k & Sm & Hc)].
  unfold fs_obj_write_commit. rewrite G3, G9. destruct (Z.eqb_spec len (Z.of_nat (length d))) as [El|El]; cbn [negb].
  2:{ apply fw_ret. split; [done|]. split; [done|]. intros _ E. by destruct El. }
  destruct (last_flush fn key len i o s d G (eq_sym El)) as (c & ctx & tbl & Ef & Et).
  apply fw_bind. unfold fw at 1. rewrite Ef. clear Ef. rewrite (sm_nblk _ _ _ _ Sm).
  cbn [csum_idx set_out set_csum n_blk bo_key csum_tbl out_ino]. rewrite (sm_nblk _ _ _ _ Sm), Z.eqb_refl. cbn [negb].
  apply fw_bind, fw_other. intros rc s1 S1 H1. pose proof (same_only i _ _ S1) as O1.
  destruct (Z.eqb_spec rc 0) as [->|Hrc]; cbn [negb]; [|apply fw_ret; split; [done|]; split; [done|]; intros C; by specialize (H1 C)].
  rewrite G4, G1, <- El. set (b := _ ++ key ++ tbl).
  assert (Z.of_nat (length b) = vofs key len) as Hb.
  { pose proof (nblk_bound len ltac:(destruct Sm; lia)). unfold b, vofs, hdr_sz. rewrite !length_app, Et, length_csums, length_enc_hdr; [lia|done|done|].
    apply length_strncpy. }
  assert (Z.of_nat (length b) <= 2 ^ 48) as Hb2.
  { rewrite Hb. pose proof (nblk_bound len ltac:(destruct Sm; lia)). unfold vofs, hdr_sz, CHD_KEY_SZ in *. lia. }
  apply fw_bind, fw_write. intros [n|e] s2 Hw.
  2:{ destruct Hw as [S2 Hnc]. apply fw_ret. split; [|split; [done|]].
      - etrans; [done|by apply same_only].
      - intros C. destruct Hnc. eapply calm_oracle; [|done]. apply S1. }
  destruct Hw as (Hn & _ & (A1 & A2 & A3 & A4 & A5 & A6) & Hn2).
  assert (only i s s2) as O2.
  { etrans; [done|]. split_and!; try done. intros j Hj. by rewrite A6, lookup_alter_ne. }
  destruct (Nat.eqb_spec n (length b)) as [->|Hne]; cbn [negb].
  2:{ apply fw_ret. split; [done|]. split; [done|]. intros C. destruct Hne. apply Hn2; [|done]. eapply calm_oracle; [|done]. apply S1. }
  rewrite take_ge in A6 by lia.
  assert (f_inodes s2 !! i = Some (mkFile (obj_file user key md d) (f_now s1))) as Hf.
  { rewrite A6, lookup_alter_eq. destruct S1 as (_ & E2 & _). rewrite E2, G7. cbn [fmap option_fmap option_map fi_data].
    rewrite write_front by done. do 2 f_equal. unfold b, obj_file, obj_hdr. rewrite Et, <- El, <- !app_assoc. done. }
  apply fw_bind. eapply (fw_mono _ _ (fun rc s3 => same_fs s2 s3 /\ (calm s2 -> rc = 0))).
  { destruct sync; [apply fw_other; done|by apply fw_ret]. }
  intros rc s3 [S3 H3]. assert (only i s s3) as O3 by (etrans; [done|by apply same_only]).
  destruct (Z.eqb_spec rc 0) as [->|Hrc]; cbn [negb].
  2:{ apply fw_ret. split; [done|]. split; [done|]. intros C. destruct Hrc. apply H3. eapply calm_oracle; [|done]. apply O2. }
  apply fw_bind, fw_other. intros _ s4 S4 _. apply fw_ret. cbn [fst snd out_fn].
  pose proof S3 as (_ & I3 & _). pose proof S4 as (_ & I4 & _).
  split; [etrans; [done|by apply same_only]|]. split; [|done]. split; [done|]. split; [done|].
  exists (f_now s1). by rewrite I4, I3.
Qed.

End writing.
End spec.

(** ** Reading objects back (the reading half of chunkd/be-fs.c)

    [reading]: an open object whose header and digest table were made for
    [data]; the data in the file now is [cur], which differs from [data] when
    the disk has spoiled it. *)

Section reading.
Context {SH : Sha}.
Variable vol_path : bytes.

(** Everything in front of the data. *)
Definition obj_front (user key md data : bytes) : bytes :=
  let len := Z.of_nat (length data) in
  enc_hdr (obj_hdr user key md len) ++ key ++ csums data (Z.to_nat (nblk len)).

Lemma obj_file_front user key md data : obj_file user key md data = obj_front user key md data ++ data.
Proof. unfold obj_file, obj_front. by rewrite <- !app_assoc. Qed.

Lemma length_front user key md data :
  length md = 20%nat -> Z.of_nat (length (obj_front user key md data)) = vofs key (Z.of_nat (length data)).
Proof.
  intros Hm. unfold obj_front, vofs, hdr_sz. rewrite !length_app, length_csums, length_enc_hdr; [|done|done|apply length_strncpy].
  assert (0 <= nblk (Z.of_nat (length data))) by (unfold nblk, CHUNK_BLK_SZ; apply Z.div_pos; lia). lia.
Qed.

Record reading (key md data cur : bytes) (i : nat) (o : fs_obj) (s : fsys) (pos : Z) : Prop := {
  rd_fn : out_fn o = None;
  rd_key : bo_key o = key;
  rd_size : bo_size o = Z.of_nat (length data);
  rd_hash : bo_hash o = md;
  rd_ino : in_ino o = Some i;
  rd_vofs : value_ofs o = vofs key (Z.of_nat (length data));
  rd_off : in_off o = value_ofs o + pos;
  rd_pos : in_pos o = pos;
  rd_tpos : tail_pos o = Z.of_nat (length data) - Z.of_nat (length data) mod CHUNK_BLK_SZ;
  rd_tlen : tail_len o = Z.of_nat (length data) mod CHUNK_BLK_SZ;
  rd_tbl : csum_tbl o = csums data (Z.to_nat (nblk (Z.of_nat (length data))));
  rd_nblk : n_blk o = nblk (Z.of_nat (length data));
  rd_file : exists m front, Z.of_nat (length front) = value_ofs o /\ f_inodes s !! i = Some (mkFile (front ++ cur) m);
  rd_cur : length cur = length data;
  rd_klen : Z.of_nat (length key) <= CHD_KEY_SZ;
  rd_range : 0 <= pos <= Z.of_nat (length data);
  rd_max : Z.of_nat (length data) <= max_obj }.

(** ** The block check *)

Lemma nblk_spec len : 0 < len -> CHUNK_BLK_SZ * (nblk len - 1) < len <= CHUNK_BLK_SZ * nblk len.
Proof.
  intros Hl. unfold nblk, CHUNK_BLK_SZ. pose proof (Z.div_mod (len + 65536 - 1) 65536 ltac:(lia)).
  pose proof (Z.mod_pos_bound (len + 65536 - 1) 65536 ltac:(lia)). lia.
Qed.

Lemma nblk_pos len : 0 <= len -> 0 < nblk len -> 0 < len.
Proof. intros Hl Hn. destruct (Z.eq_dec len 0) as [->|]; [by vm_compute in Hn|lia]. Qed.

Lemma slice_csums data n i : (i < n)%nat -> slice (20 * i) 20 (csums data n) = SHA1 (blk data i).
Proof.
  induction n as [|n IH]; intros Hi; [lia|]. rewrite csums_S. destruct (decide (i = n)) as [->|].
  - pose proof (slice_app (20 * n) 20 (csums data n) (SHA1 (blk data n)) []) as E. rewrite app_nil_r in E.
    apply E; [apply length_csums|apply length_SHA1].
  - unfold slice in *. rewrite drop_app_le, take_app_le; [apply IH; lia| |].
    + rewrite length_drop, length_csums. lia.
    + rewrite length_csums. lia.
Qed.

(** Block [idx] of the data, as long as the code takes it to be. *)
Lemma blk_len_ok len idx n : 0 <= idx -> 0 < n -> idx + n <= nblk len -> 0 <= len <= max_obj ->
  (if (idx =? u32 (nblk len - 1)) && (0 <? len mod CHUNK_BLK_SZ) then len mod CHUNK_BLK_SZ else CHUNK_BLK_SZ) =
  Z.min CHUNK_BLK_SZ (len - CHUNK_BLK_SZ * idx).
Proof.
  intros Hi Hn Hb Hl. pose proof (nblk_bound len Hl) as Hm.
  assert (0 < len) as H0 by (apply nblk_pos; lia).
  pose proof (nblk_spec len H0) as Hs. unfold u32. rewrite uw_small by lia.
  pose proof (Z.div_mod len CHUNK_BLK_SZ ltac:(done)) as Hd. pose proof (Z.mod_pos_bound len CHUNK_BLK_SZ ltac:(done)) as Hr.
  unfold CHUNK_BLK_SZ in *. destruct (Z.eqb_spec idx (nblk len - 1)) as [->|Hne]; cbn [andb]; [|lia].
  destruct (Z.ltb_spec 0 (len mod 65536)); lia.
Qed.

Lemma csum_loop_spec key md data cur i o s pos n : forall idx p,
  reading key md data cur i o s pos ->
  0 <= idx -> idx + Z.of_nat n <= nblk (Z.of_nat (length data)) ->
  Z.of_nat (length p) = Z.min (CHUNK_BLK_SZ * Z.of_nat n) (Z.of_nat (length data) - CHUNK_BLK_SZ * idx) ->
  csum_loop o n idx p = Some (bool_decide (Forall (fun j => SHA1 (blk p j) = SHA1 (blk data (Z.to_nat idx + j))) (seq 0 n))).
Proof.
  intros idx p R. revert idx p. induction n as [|n IH]; intros idx p Hi Hn Hp.
  { cbn [csum_loop seq]. rewrite bool_decide_eq_true_2; [done|]. by apply Forall_nil. }
  cbn [csum_loop]. rewrite (rd_nblk _ _ _ _ _ _ _ _ R), (rd_tlen _ _ _ _ _ _ _ _ R).
  set (len := Z.of_nat (length data)) in *. pose proof (rd_max _ _ _ _ _ _ _ _ R) as Hmax. fold len in Hmax.
  rewrite (blk_len_ok len idx (Z.of_nat (S n))) by lia. pose proof (nblk_bound len ltac:(lia)) as Hb.
  assert (0 < len) as H0 by (apply nblk_pos; lia).
  pose proof (nblk_spec len H0) as Hs.
  assert (0 < len - CHUNK_BLK_SZ * idx) as Hpos by (unfold CHUNK_BLK_SZ in *; lia).
  rewrite csum_bytes_exact by lia. unfold csum_tbl_sz, CHD_CSUM_SZ. rewrite (rd_tbl _ _ _ _ _ _ _ _ R), length_csums. fold len.
  rewrite (proj2 (Z.ltb_ge _ _)) by (unfold CHUNK_BLK_SZ in *; lia). rewrite (proj2 (Z.ltb_ge _ _)) by lia. cbn [orb].
  replace (Z.to_nat (20 * idx)) with (20 * Z.to_nat idx)%nat by lia. rewrite slice_csums by lia.
  assert (take (Z.to_nat (Z.min CHUNK_BLK_SZ (len - CHUNK_BLK_SZ * idx))) p = blk p 0) as E0.
  { unfold blk. cbn [Z.of_nat Z.mul Z.to_nat drop]. rewrite drop_0. destruct (Z.le_gt_cases CHUNK_BLK_SZ (len - CHUNK_BLK_SZ * idx)).
    - by rewrite Z.min_l.
    - rewrite !take_ge; [done| |]; unfold CHUNK_BLK_SZ in *; lia. }
  rewrite E0. rewrite <- (cons_seq n 0).
  case_bool_decide as B0.
  2:{ rewrite bool_decide_eq_false_2; [done|]. intros H. apply Forall_cons_1 in H as [H _]. rewrite Nat.add_0_r in H. done. }
  destruct n as [|n].
  { cbn [csum_loop]. rewrite bool_decide_eq_true_2; [done|]. apply Forall_cons. split; [|by apply Forall_nil]. by rewrite Nat.add_0_r. }
  assert (CHUNK_BLK_SZ <= len - CHUNK_BLK_SZ * idx) as Hfull by (unfold CHUNK_BLK_SZ in *; lia).
  rewrite Z.min_l by done. rewrite IH; [|lia|lia|rewrite length_drop; unfold CHUNK_BLK_SZ in *; lia].
  f_equal. apply bool_decide_ext. rewrite Forall_cons, Nat.add_0_r.
  assert (forall j, blk (drop (Z.to_nat CHUNK_BLK_SZ) p) j = blk p (S j)) as Eb.
  { intros j. unfold blk. rewrite drop_drop. do 2 f_equal. unfold CHUNK_BLK_SZ. lia. }
  rewrite !Forall_seq. split.
  - intros H. split; [done|]. intros [|j] Hj; [lia|]. specialize (H j ltac:(lia)). rewrite Eb in H. rewrite H. do 2 f_equal. lia.
  - intros [_ H] j Hj. rewrite Eb. rewrite (H (S j)) by lia. do 2 f_equal. lia.
Qed.

(** Blocks of a range that starts at a block and ends at a block or at the end. *)
Lemma blk_range (cur : bytes) (idx rc : nat) j :
  let b := take rc (drop (Z.to_nat (CHUNK_BLK_SZ * Z.of_nat idx)) cur) in
  (Z.of_nat rc mod CHUNK_BLK_SZ = 0 \/ CHUNK_BLK_SZ * Z.of_nat idx + Z.of_nat rc = Z.of_nat (length cur)) ->
  CHUNK_BLK_SZ * Z.of_nat j < Z.of_nat rc -> blk b j = blk cur (idx + j).
Proof.
  intros b Hr Hj. unfold blk, b. rewrite skipn_firstn_comm, drop_drop, take_take.
  replace (Z.to_nat (CHUNK_BLK_SZ * Z.of_nat idx) + Z.to_nat (Z.of_nat j * CHUNK_BLK_SZ))%nat
    with (Z.to_nat (Z.of_nat (idx + j) * CHUNK_BLK_SZ)) by (unfold CHUNK_BLK_SZ; lia).
  destruct Hr as [Hr|Hr].
  - pose proof (Z.div_mod (Z.of_nat rc) CHUNK_BLK_SZ ltac:(done)) as Hd. rewrite Hr, Z.add_0_r in Hd.
    rewrite Nat.min_l; [done|]. unfold CHUNK_BLK_SZ in *. lia.
  - destruct (Nat.le_gt_cases (Z.to_nat CHUNK_BLK_SZ) (rc - Z.to_nat (Z.of_nat j * CHUNK_BLK_SZ))); [by rewrite Nat.min_l|].
    rewrite Nat.min_r by lia. rewrite !take_ge; [done| |]; rewrite length_drop; unfold CHUNK_BLK_SZ in *; lia.
Qed.

Lemma can_csum_spec key md data cur i o s pos rc :
  reading key md data cur i o s pos -> 0 <= rc -> pos + rc <= Z.of_nat (length data) ->
  can_csum_range o rc = true <->
  0 < rc /\ pos mod CHUNK_BLK_SZ = 0 /\ ((pos + rc) mod CHUNK_BLK_SZ = 0 \/ pos + rc = Z.of_nat (length data)).
Proof.
  intros R Hrc Hle. unfold can_csum_range. rewrite (rd_pos _ _ _ _ _ _ _ _ R), (rd_tpos _ _ _ _ _ _ _ _ R), (rd_tlen _ _ _ _ _ _ _ _ R).
  pose proof (rd_range _ _ _ _ _ _ _ _ R) as Hr. rewrite !flag_blk by lia.
  destruct (Z.eqb_spec rc 0); [split; [done|lia]|]. destruct (Z.eqb_spec (pos mod CHUNK_BLK_SZ) 0) as [E1|]; cbn [negb]; [|split; [done|lia]].
  rewrite (proj2 (Z.ltb_ge _ _)) by lia.
  destruct (Z.eqb_spec ((pos + rc) mod CHUNK_BLK_SZ) 0) as [E2|]; cbn [negb]; [split; [|done]; intros _; split_and!; [lia|done|by left]|].
  rewrite Z.eqb_eq. split; [intros E; split_and!; [lia|done|right; lia]|intros (_ & _ & [?|?]); [done|lia]].
Qed.

(** The digests of a checkable range. *)
Definition range_ok (data : bytes) (pos : Z) (b : bytes) : Prop :=
  Forall (fun j => SHA1 (blk b j) = SHA1 (blk data (Z.to_nat (pos / CHUNK_BLK_SZ) + j))) (seq 0 (Z.to_nat (nblk (Z.of_nat (length b))))).
#[local] Instance range_ok_dec data pos b : Decision (range_ok data pos b) := _.

Lemma csum_range_spec key md data cur i o s pos b :
  reading key md data cur i o s pos -> pos + Z.of_nat (length b) <= Z.of_nat (length data) ->
  can_csum_range o (Z.of_nat (length b)) = true ->
  csum_loop o (Z.to_nat (fs_blk_count (Z.of_nat (length b)))) (fs_blk_count (in_pos o)) b = Some (bool_decide (range_ok data pos b)).
Proof.
  intros R Hle Hc. pose proof (rd_range _ _ _ _ _ _ _ _ R) as Hr. pose proof (rd_max _ _ _ _ _ _ _ _ R) as Hm.
  destruct (proj1 (can_csum_spec _ _ _ _ _ _ _ _ (Z.of_nat (length b)) R ltac:(lia) Hle) Hc) as (H0 & Ha & He).
  rewrite (rd_pos _ _ _ _ _ _ _ _ R), !blk_count by lia. set (rc := Z.of_nat (length b)) in *.
  pose proof (Z.div_mod pos CHUNK_BLK_SZ ltac:(done)) as Hd. rewrite Ha, Z.add_0_r in Hd. set (q := pos / CHUNK_BLK_SZ) in *.
  assert (nblk pos = q) as Eq by (rewrite Hd, <- (Z.add_0_r (CHUNK_BLK_SZ * q)), nblk_exact by done; done).
  pose proof (nblk_spec rc H0) as Hs. pose proof (nblk_spec (Z.of_nat (length data)) ltac:(lia)) as Hs2.
  assert (rc = CHUNK_BLK_SZ * nblk rc \/ pos + rc = Z.of_nat (length data)) as Hcase.
  { destruct He as [He|]; [left|by right]. rewrite Hd, Z.add_comm, Z.mul_comm, Z_mod_plus_full in He.
    pose proof (Z.div_mod rc CHUNK_BLK_SZ ltac:(done)). unfold CHUNK_BLK_SZ in *. lia. }
  rewrite Eq, (csum_loop_spec key md data cur i o s pos); [done|done|unfold CHUNK_BLK_SZ in *; lia| |]; unfold CHUNK_BLK_SZ in *; lia.
Qed.

(** ** Reading *)

(** What the inode holds from the data on. *)
Lemma reading_data key md data cur i o s pos :
  reading key md data cur i o s pos -> drop (Z.to_nat (in_off o)) (fi_data (file_of s i)) = drop (Z.to_nat pos) cur.
Proof.
  intros R. destruct (rd_file _ _ _ _ _ _ _ _ R) as (m & front & Hf & Hi). unfold file_of. rewrite Hi. change (default _ (Some ?f)) with f. cbn [fi_data].
  pose proof (rd_range _ _ _ _ _ _ _ _ R). rewrite (rd_off _ _ _ _ _ _ _ _ R).
  replace (Z.to_nat (value_ofs o + pos)) with (length front + Z.to_nat pos)%nat by lia.
  by rewrite drop_app_add.
Qed.

Lemma reading_move key md data cur i o s s' pos pos' sf :
  reading key md data cur i o s pos -> same_fs s s' -> 0 <= pos' <= Z.of_nat (length data) ->
  reading key md data cur i (set_in (value_ofs o + pos') pos' sf o) s' pos'.
Proof.
  intros [] (_ & Ei & _) Hp. split; cbn [out_fn bo_key bo_size bo_hash in_ino value_ofs in_off in_pos tail_pos tail_len csum_tbl n_blk set_in]; try done.
  by rewrite Ei.
Qed.

Lemma read_spec key md data cur i o s pos n :
  reading key md data cur i o s pos -> 0 <= n ->
  fw False (fs_obj_read o n) (fun r s' => same_fs s s' /\
    match r.1 with
    | Ok b => exists k, (k <= Z.to_nat n)%nat /\ b = take k (drop (Z.to_nat pos) cur) /\ (0 < n -> (0 < k)%nat) /\
        (calm s -> n <= 2 ^ 48 -> k = Z.to_nat n) /\
        reading key md data cur i r.2 s' (pos + Z.of_nat (length b)) /\
        (can_csum_range o (Z.of_nat (length b)) = true -> range_ok data pos b)
    | Err e => out_fn r.2 = None /\ (~ calm s \/ exists j, blk cur j <> blk data j)
    end) s.
Proof.
  intros R Hn. pose proof (rd_range _ _ _ _ _ _ _ _ R) as Hr. pose proof (rd_cur _ _ _ _ _ _ _ _ R) as Hc.
  unfold fs_obj_read. rewrite (rd_ino _ _ _ _ _ _ _ _ R).
  apply fw_bind, fw_read; [|done|].
  { rewrite (rd_off _ _ _ _ _ _ _ _ R), (rd_vofs _ _ _ _ _ _ _ _ R). unfold vofs, hdr_sz, nblk, CHUNK_BLK_SZ.
    pose proof (Z.div_pos (Z.of_nat (length data) + 65536 - 1) 65536). lia. }
  intros [b|e] s1 S1 Hb; [|apply fw_ret; split; [done|]; split; [apply R|]; left; by destruct Hb].
  destruct Hb as (k & Hk & Eb & Hk0 & Hkc). rewrite (reading_data _ _ _ _ _ _ _ _ R) in Eb.
  assert (pos + Z.of_nat (length b) <= Z.of_nat (length data)) as Hle by (rewrite Eb, length_take, length_drop; lia).
  assert (in_off o = value_ofs o + pos) as Eo by apply R.
  destruct (Z.eqb_spec (Z.of_nat (length b)) 0) as [E0|E0].
  { destruct b as [|x b]; [|cbn in E0; lia]. apply fw_ret. split; [done|]. exists k. split_and!; try done.
    - cbn [length]. rewrite Z.add_0_r. destruct R. split; try done. destruct S1 as (_ & -> & _). done. }
  assert (reading key md data cur i (set_in (in_off o + Z.of_nat (length b)) (in_pos o + Z.of_nat (length b)) (sendfile_ofs o) o) s1
            (pos + Z.of_nat (length b))) as R1.
  { rewrite (rd_pos _ _ _ _ _ _ _ _ R), Eo, <- Z.add_assoc. apply (reading_move _ _ _ _ _ _ s s1 pos); try done. lia. }
  destruct (can_csum_range o (Z.of_nat (length b))) eqn:Ec; cbn [negb].
  2:{ apply fw_ret. split; [done|]. exists k. split_and!; try done. intros ?; congruence. }
  rewrite (csum_range_spec _ _ _ _ _ _ _ _ _ R Hle Ec). case_bool_decide as Hok; apply fw_ret; (split; [done|]); cbn [fst snd].
  - exists k. by split_and!.
  - split; [apply R|]. right. apply not_Forall_Exists in Hok; [|intros ?; apply _]. apply Exists_exists in Hok as (j & Hj%elem_of_seq & Hne).
    destruct (proj1 (can_csum_spec _ _ _ _ _ _ _ _ (Z.of_nat (length b)) R ltac:(lia) Hle) Ec) as (H0 & Ha & He).
    pose proof (Z.div_mod pos CHUNK_BLK_SZ ltac:(done)) as Hd. rewrite Ha, Z.add_0_r in Hd. set (q := pos / CHUNK_BLK_SZ) in *.
    pose proof (nblk_spec _ H0) as Hs. exists (Z.to_nat q + j)%nat. intros E. apply Hne. rewrite <- E. f_equal.
    assert (b = take (length b) (drop (Z.to_nat (CHUNK_BLK_SZ * Z.of_nat (Z.to_nat q))) cur)) as Eb2.
    { replace (CHUNK_BLK_SZ * Z.of_nat (Z.to_nat q)) with pos by (unfold CHUNK_BLK_SZ in *; lia). rewrite Eb at 2.
      rewrite length_take. rewrite Eb at 1. rewrite length_drop. destruct (Nat.le_gt_cases k (length cur - Z.to_nat pos)).
      - by rewrite Nat.min_l.
      - rewrite Nat.min_r by lia. rewrite !take_ge; [done| |]; rewrite length_drop; lia. }
    rewrite Eb2 at 1. apply blk_range; [|unfold CHUNK_BLK_SZ in *; lia].
    destruct He as [He|He]; [left|right; unfold CHUNK_BLK_SZ in *; lia].
    by rewrite Hd, Z.add_comm, Z.mul_comm, Z_mod_plus_full in He.
Qed.

(** ** What the check catches *)

Lemma take_blks d n : concat (blk d <$> seq 0 n) = take (Z.to_nat (CHUNK_BLK_SZ * Z.of_nat n)) d.
Proof.
  induction n as [|n IH]; [by rewrite Z.mul_0_r, take_0|]. rewrite seq_S, fmap_app, concat_app, IH. cbn [fmap list_fmap concat Nat.add].
  rewrite app_nil_r. unfold blk. rewrite (Z.mul_comm (Z.of_nat n)), take_take_drop. f_equal. unfold CHUNK_BLK_SZ. lia.
Qed.

(** Digests of a different range agree only by a collision. *)
Lemma range_ok_data data pos b :
  0 <= pos -> pos mod CHUNK_BLK_SZ = 0 -> pos + Z.of_nat (length b) <= Z.of_nat (length data) -> 0 < Z.of_nat (length b) ->
  ((pos + Z.of_nat (length b)) mod CHUNK_BLK_SZ = 0 \/ pos + Z.of_nat (length b) = Z.of_nat (length data)) ->
  range_ok data pos b ->
  b = take (length b) (drop (Z.to_nat pos) data) \/ exists x y, x <> y /\ SHA1 x = SHA1 y.
Proof.
  intros Hp Ha Hle H0 He Hok. set (b' := take (length b) (drop (Z.to_nat pos) data)).
  assert (length b' = length b) as El by (unfold b'; rewrite length_take, length_drop; lia).
  pose proof (Z.div_mod pos CHUNK_BLK_SZ ltac:(done)) as Hd. rewrite Ha, Z.add_0_r in Hd.
  unfold range_ok in Hok. set (q := pos / CHUNK_BLK_SZ) in *. set (n := Z.to_nat (nblk (Z.of_nat (length b)))) in *.
  pose proof (nblk_spec _ H0) as Hs.
  destruct (decide (blk b <$> seq 0 n = blk b' <$> seq 0 n)) as [E|E].
  - left. apply (f_equal (@concat Z)) in E. rewrite !take_blks, !take_ge in E; [done| |]; unfold CHUNK_BLK_SZ in *; lia.
  - right. destruct (decide (Forall (fun j => blk b j = blk b' j) (seq 0 n))) as [F|F].
    { destruct E. apply list_fmap_ext. intros j x Hj. apply (proj1 (Forall_lookup _ _) F j x Hj). }
    apply not_Forall_Exists in F; [|intros ?; apply _]. apply Exists_exists in F as (j & Hj & Hne). exists (blk b j), (blk b' j). split; [done|].
    rewrite (proj1 (Forall_forall _ _) Hok j Hj). apply elem_of_seq in Hj. f_equal. symmetry. unfold b'.
    replace pos with (CHUNK_BLK_SZ * Z.of_nat (Z.to_nat q)) by (unfold CHUNK_BLK_SZ in *; lia).
    apply blk_range; [|unfold CHUNK_BLK_SZ in *; lia].
    destruct He as [He|He]; [left|right; unfold CHUNK_BLK_SZ in *; lia].
    by rewrite Hd, Z.add_comm, Z.mul_comm, Z_mod_plus_full in He.
Qed.

(** ** Seeking *)

Lemma seek_spec key md data cur i o s pos ofs :
  reading key md data cur i o s pos -> 0 <= ofs <= Z.of_nat (length data) ->
  fw False (fs_obj_seek o ofs) (fun r s' => same_fs s s' /\ (calm s -> r.1 = 0) /\
    (r.1 = 0 -> reading key md data cur i r.2 s' ofs)) s.
Proof.
  intros R Ho. unfold fs_obj_seek. pose proof (rd_max _ _ _ _ _ _ _ _ R) as Hm. pose proof (rd_klen _ _ _ _ _ _ _ _ R) as Hk.
  pose proof (nblk_bound (Z.of_nat (length data)) ltac:(lia)) as Hb.
  assert (s64 (u64 (value_ofs o + ofs)) = value_ofs o + ofs) as E.
  { rewrite (rd_vofs _ _ _ _ _ _ _ _ R). unfold vofs, hdr_sz, max_obj, CHUNK_BLK_SZ, CHD_KEY_SZ in *.
    unfold u64. rewrite uw_small by lia. unfold s64. apply sw_small; lia. }
  rewrite E. apply fw_bind, fw_other. intros rc s1 S1 H1. destruct (Z.eqb_spec rc 0) as [->|Hrc]; cbn [negb].
  2:{ apply fw_ret. split; [done|]. split; [intros C; by specialize (H1 C)|]. cbn [fst]. intros E1. lia. }
  assert (0 <= value_ofs o) by (rewrite (rd_vofs _ _ _ _ _ _ _ _ R); unfold vofs, hdr_sz; lia).
  rewrite (proj2 (Z.ltb_ge _ _)) by lia. apply fw_ret. split; [done|]. split; [done|]. intros _.
  replace (value_ofs o + ofs - value_ofs o) with ofs by lia. by apply (reading_move _ _ _ _ _ _ s s1 pos).
Qed.

(** ** Opening *)

(** [cur] is stored as an object that was written as [data]. *)
Record stored (owner key md data cur : bytes) (path : bytes) (s : fsys) : Prop := {
  st_content : content s path = Some (obj_front owner key md data ++ cur);
  st_cur : length cur = length data;
  st_max : Z.of_nat (length data) <= max_obj;
  st_key : key_valid key = true;
  st_md : length md = 20%nat;
  st_owner : Forall (fun x => x <> 0) owner /\ (length owner < 128)%nat }.

Lemma full_read (k n : nat) (a b : bytes) : length (take k (a ++ b)) = n -> length a = n -> take k (a ++ b) = a.
Proof.
  intros Hk Ha. rewrite length_take, length_app in Hk. rewrite take_app. rewrite (take_ge a) by lia.
  destruct b as [|x b]; [by rewrite take_nil, app_nil_r|]. cbn [length] in Hk. replace (k - length a)%nat with 0%nat by lia.
  by rewrite take_0, app_nil_r.
Qed.

(** A read of a part that is there gets it, unless a call fails or is short. *)
Lemma fw_read_part i (pre a rest : bytes) mt pos n (Q : res bytes -> fsys -> Prop) s :
  file_of s i = mkFile (pre ++ a ++ rest) mt -> pos = Z.of_nat (length pre) -> n = Z.of_nat (length a) -> n <= 2 ^ 48 ->
  (forall r s', same_fs s s' -> r = Ok a \/ ~ calm s /\ (forall b, r = Ok b -> Z.of_nat (length b) <> n) -> Q r s') ->
  fw False (sys_read i pos n) Q s.
Proof.
  intros Hf -> -> Ha H. apply fw_read; [lia|lia|]. intros [b|e] s' S Hr; apply H; try done; [|right; split; [apply Hr|done]].
  destruct Hr as (k & Hk & -> & _ & Hc). rewrite Hf, Nat2Z.id in *. cbn [fi_data] in *. rewrite drop_app_length.
  destruct (decide (length (take k (a ++ rest)) = length a)) as [E|E]; [left; f_equal; by eapply full_read|].
  right. split; [|intros b [= <-]; lia]. intros C. apply E. by rewrite (Hc C Ha), take_app_length.
Qed.

Lemma dec_obj_hdr owner key md len : length md = 20%nat -> Z.of_nat (length key) <= CHD_KEY_SZ -> 0 <= len <= max_obj ->
  let h := enc_hdr (obj_hdr owner key md len) in length h = 180%nat /\ dec_hdr h = obj_hdr owner key md len.
Proof.
  intros Hmd Hk Hl h. pose proof (nblk_bound len Hl) as Hb. split; [unfold h; rewrite length_enc_hdr; [done|done|done|apply length_strncpy]|].
  pose proof (dec_enc_hdr (obj_hdr owner key md len) []) as E. rewrite app_nil_r in E. apply E; cbn; try done.
  - apply length_strncpy.
  - unfold CHD_KEY_SZ in *. lia.
  - unfold max_obj, CHUNK_BLK_SZ in *. lia.
  - lia.
Qed.

(** The object made of a file that is read. *)
Lemma opened_reading owner key md data cur i mt s : length md = 20%nat -> Z.of_nat (length key) <= CHD_KEY_SZ ->
  Z.of_nat (length data) <= max_obj -> length cur = length data ->
  f_inodes s !! i = Some (mkFile (obj_front owner key md data ++ cur) mt) ->
  let len := Z.of_nat (length data) in
  reading key md data cur i (mkObj key len mt md None 0 None 0 (Some i) (vofs key len) 0 0 (vofs key len)
    (s64 (Z.land len (Z.lnot (CHUNK_BLK_SZ - 1)))) (Z.land len (CHUNK_BLK_SZ - 1)) 0 [] 0 (csums data (Z.to_nat (nblk len))) (nblk len)) s 0.
Proof.
  intros Hmd Hk Hmax Hcur Hf len. pose proof (length_front owner key md data Hmd) as Hlf. fold len in Hlf.
  pose proof (Z.div_mod len CHUNK_BLK_SZ ltac:(done)) as Hd. pose proof (Z.mod_pos_bound len CHUNK_BLK_SZ ltac:(done)) as Hmod.
  split; cbn [out_fn bo_key bo_size bo_hash in_ino value_ofs in_off in_pos tail_pos tail_len csum_tbl n_blk]; try done.
  - lia.
  - fold len. rewrite land_lnot_blk by lia. unfold s64. apply sw_small; [lia|]. unfold max_obj, CHUNK_BLK_SZ in *. lia.
  - apply land_blk. lia.
  - by exists mt, (obj_front owner key md data).
  - lia.
Qed.

Lemma obj_open_spec table owner user key md data cur s :
  let fn := obj_path vol_path table key in
  stored owner key md data cur fn s ->
  fw False (fs_obj_open vol_path table user key) (fun r s' =>
    dirs_only s s' /\ (fs_wf s -> fs_wf s') /\
    match r.1 with
    | Some o => user = owner /\ r.2 = che_Success /\ exists i, f_names s !! fn = Some i /\ sendfile_ofs o = 0 /\ reading key md data cur i o s' 0 /\
        f_dirs s' ⊆ {[obj_dir vol_path table key]} ∪ f_dirs s
    | None => r.2 <> che_Success
    end /\
    (calm s -> table <> 0 -> f_names s !! obj_dir vol_path table key = None ->
     if decide (user = owner) then is_Some (r.1) else r = (None, che_AccessDenied))) s.
Proof.
  intros fn [Hct Hcur Hmax Hkey Hmd [Ho1 Ho2]]. unfold fs_obj_open. rewrite Hkey. cbn [negb].
  unfold key_valid in Hkey. apply negb_true_iff, orb_false_iff in Hkey as [Hk0%Nat.ltb_ge Hk%Z.ltb_ge]. set (len := Z.of_nat (length data)) in *.
  pose proof (nblk_bound len ltac:(lia)) as Hb. pose proof (length_front owner key md data Hmd) as Hf. fold len in Hf.
  set (Post := fun r s' => _).
  assert (forall e s1, dirs_only s s1 -> (fs_wf s -> fs_wf s1) -> e <> che_Success ->
    (calm s -> table <> 0 -> f_names s !! obj_dir vol_path table key = None -> user <> owner /\ e = che_AccessDenied) -> Post (None, e) s1) as Hfail.
  { intros e s1 D W He Hc. unfold Post. cbn. split_and!; try done. intros C Ht Hn. destruct (Hc C Ht Hn) as [Hu ->].
    by rewrite decide_False. }
  apply fw_bind, fw_malloc_ok. intros b1 s1 S1 H1. destruct b1; cbn [negb].
  2:{ apply fw_ret, Hfail; [by apply same_dirs_only|by apply same_wf|done|]. intros C. by specialize (H1 C). }
  apply fw_bind. eapply fw_mono; [apply pathname_spec|]. cbn beta. intros ofn s2 (D2 & W2 & Hfn & Hdirs & Hc2).
  rewrite (proj1 (proj2 (proj2 S1))) in Hdirs.
  assert (dirs_only s s2) as D by (etrans; [by apply same_dirs_only|done]).
  assert (fs_wf s -> fs_wf s2) as W by (intros ?; apply W2; by apply (same_wf s)).
  assert (f_oracle s1 = f_oracle s) as O1 by apply S1.
  destruct ofn as [fn'|].
  2:{ apply fw_ret, Hfail; try done. intros C Ht Hn. exfalso. apply Hc2; try done; [by eapply calm_oracle| |].
      - intros ->. cbn in Hk0. lia.
      - by destruct S1 as (-> & _). }
  destruct Hfn as [|[= ->]]; [done|]. fold fn.
  assert (calm s -> calm s2) as C2 by (apply calm_oracle, D). clear D2 W2 Hc2 H1 S1 O1.
  rewrite <- (dirs_only_content _ _ fn D) in Hct. unfold content in Hct. destruct (f_names s2 !! fn) as [i|] eqn:Ei; [|done].
  cbn in Hct. destruct (f_inodes s2 !! i) as [[fd m]|] eqn:Ef; [|done]. cbn in Hct. injection Hct as ->.
  assert (forall s3, same_fs s2 s3 -> file_of s3 i = mkFile (obj_front owner key md data ++ cur) m) as Hfile.
  { intros s3 (_ & E & _). unfold file_of. by rewrite E, Ef. }
  assert (forall e s3, same_fs s2 s3 -> ~ calm s -> e <> che_Success -> Post (None, e) s3) as Hf2.
  { intros e s3 S3 Hnc He. apply Hfail; try done; [etrans; [done|by apply same_dirs_only]|by intros ?; apply (same_wf s2); auto]. }
  apply fw_bind, fw_open. intros [i'|e] s3 S3 Hr.
  2:{ apply fw_ret, Hf2; [done| |by destruct (e =? ENOENT)]. intros C. destruct Hr as [_ Hr]. destruct (Hr (C2 C)) as [Hr' _]. congruence. }
  assert (i' = i) as -> by congruence. clear Hr.
  apply fw_bind. unfold sys_fstat. apply fw_bind, fw_fault. intros e s4 S4 H4 _. assert (same_fs s2 s4) as S24 by (by etrans).
  assert (forall s', same_fs s2 s' -> calm s -> calm s') as Cs. { intros s' S' C. eapply calm_oracle; [|by apply C2]. apply S'. }
  apply fw_bind, fw_get, fw_ret. destruct e as [e|]; [apply fw_ret, Hf2; [done| |done]; intros C; by specialize (H4 (Cs _ S3 C))|].
  rewrite (Hfile _ S24). cbn [fi_data fi_mtime].
  destruct (dec_obj_hdr owner key md len Hmd Hk ltac:(lia)) as [Hh Edec]. set (hd := enc_hdr (obj_hdr owner key md len)) in *.
  set (tbl := csums data (Z.to_nat (nblk len))) in *.
  assert (obj_front owner key md data ++ cur = hd ++ (key ++ tbl) ++ cur) as Efr by (unfold obj_front; fold len hd tbl; by rewrite <- !app_assoc).
  apply fw_bind. eapply (fw_read_part i [] hd ((key ++ tbl) ++ cur)); [rewrite (Hfile _ S24), Efr; done|done|by rewrite Hh|done|].
  intros r s5 S5 Hr. assert (same_fs s2 s5) as S25 by (by etrans).
  destruct Hr as [->|[Hnc Hr]]; [|destruct r as [b|e]; [rewrite (proj2 (Z.eqb_neq _ _)) by by apply Hr|]; apply fw_ret, Hf2; try done; intros C; by apply Hnc, Cs].
  rewrite Hh, Edec. change (Z.of_nat 180 =? hdr_sz) with true. cbn [negb].
  cbn [oh_magic oh_owner oh_key_len oh_value_len oh_n_blk oh_hash obj_hdr].
  rewrite bool_decide_eq_true_2 by done. cbn [negb]. rewrite cstr_strncpy by done.
  case_bool_decide as Hu; cbn [negb].
  2:{ apply fw_ret, Hfail; [etrans; [done|by apply same_dirs_only]|intros ?; apply (same_wf s2); auto|done|]. by intros. }
  rewrite Z.eqb_refl. cbn [negb]. rewrite csum_bytes_exact by done. fold (vofs key len).
  assert (u64 (vofs key len + len) = vofs key len + len) as Eu.
  { unfold u64. apply uw_small. unfold vofs, hdr_sz, CHD_KEY_SZ, max_obj, CHUNK_BLK_SZ in *. lia. }
  rewrite Eu, length_app, (proj2 (Z.ltb_ge _ _)) by lia. rewrite blk_count, Z.eqb_refl by lia. cbn [negb].
  apply fw_bind, fw_malloc_ok. intros b6 s6 S6 H6. assert (same_fs s2 s6) as S26 by (by etrans). destruct b6; cbn [negb].
  2:{ apply fw_ret, Hf2; [done| |done]. intros C. by specialize (H6 (Cs _ S25 C)). }
  apply fw_bind, fw_malloc_ok. intros b7 s7 S7 H7. assert (same_fs s2 s7) as S27 by (by etrans). destruct b7; cbn [negb].
  2:{ apply fw_ret, Hf2; [done| |done]. intros C. by specialize (H7 (Cs _ S26 C)). }
  assert (Z.of_nat (length (key ++ tbl)) = Z.of_nat (length key) + 20 * nblk len) as Ekt by (rewrite length_app; unfold tbl; rewrite length_csums; lia).
  apply fw_bind. eapply (fw_read_part i hd (key ++ tbl) cur); [rewrite (Hfile _ S27), Efr; done|by rewrite Hh|done|unfold CHD_KEY_SZ in *; lia|].
  intros r s8 S8 Hr. assert (same_fs s2 s8) as S28 by (by etrans).
  destruct Hr as [->|[Hnc Hr]]; [|destruct r as [b|e]; [rewrite (proj2 (Z.eqb_neq _ _)) by by apply Hr|]; apply fw_ret, Hf2; try done; intros C; by apply Hnc, Cs].
  rewrite Ekt, Z.eqb_refl, take_app_length, drop_app_length, bool_decide_eq_true_2 by done. cbn [negb orb].
  apply fw_ret. unfold Post. cbn [fst snd].
  split; [etrans; [done|by apply same_dirs_only]|]. split; [intros ?; apply (same_wf s2); auto|]. split; [|intros; by rewrite decide_True].
  split; [done|]. split; [done|]. exists i. split; [destruct D as (<- & _); done|]. split; [done|].
  split; [|by destruct S28 as (_ & _ & -> & _)].
  eapply (opened_reading owner); try done. destruct S28 as (_ & -> & _). done.
Qed.

End reading.
