(* ===== verification/BeFsProps.v ===== *)
(** * BeFsProps: what chunkd/be-fs.c guarantees about objects *)

From S2P Require Import Prelude Fs BeFs BeFsSpec.
#[local] Open Scope Z_scope.

Section props.
Context {SH : Sha}.
Variable vol_path : bytes.

(** The name of the directory an object belongs in is free for one. *)
Definition dir_free (table : Z) (key : bytes) (s : fsys) : Prop :=
  table <> 0 /\ f_names s !! obj_dir vol_path table key = None /\ obj_path vol_path table key ∉ f_dirs s.

Lemma only_content i s s' fn p :
  fs_wf s -> f_names s !! fn = Some i -> only i s s' -> p <> fn -> content s' p = content s p.
Proof.
  intros W Hi (E1 & _ & _ & _ & _ & Ho) Hp. unfold content. rewrite E1. destruct (f_names s !! p) as [j|] eqn:Ej; [|done]. cbn.
  rewrite Ho; [done|]. intros ->. apply Hp. by apply (fs_inj _ W p fn i).
Qed.

(** Freeing an unfinished object leaves the other files alone. *)
Lemma free_rest fn i o s0 s U :
  fs_wf s0 -> f_names s0 !! fn = Some i -> only i s0 s -> out_fn o = Some fn ->
  fw U (fs_obj_free o) (fun _ s' => f_oracle s' = f_oracle s0 /\ (forall p, p <> fn -> content s' p = content s0 p) /\
    (content s' fn = None \/ ~ calm s0)) s.
Proof.
  intros W Hi O Ho. eapply fw_mono; [by apply (free_spec U fn o s)|]. cbn beta. intros _ s' (_ & E2 & E3 & E4 & E5).
  pose proof O as (N1 & _ & _ & _ & O5 & _).
  split; [congruence|]. split.
  - intros p Hp. rewrite <- (only_content i s0 s fn p) by done. unfold content. by rewrite E4, E2.
  - destruct E5 as [E5|[_ Hnc]]; [left; unfold content; by rewrite E5|]. right. intros C. apply Hnc. by eapply calm_oracle.
Qed.

Lemma only_wf i s s' :
  fs_wf s -> only i s s' -> is_Some (f_inodes s !! i) -> is_Some (f_inodes s' !! i) -> fs_wf s'.
Proof.
  intros [W1 W2 W3 W4] (E1 & E2 & E3 & _ & _ & Ho) Hi Hi'. split; rewrite ?E1, ?E2, ?E3; try done.
  - intros p j Hp. destruct (decide (j = i)) as [->|]; [done|]. rewrite Ho by done. by eapply W1.
  - intros j. destruct (decide (j = i)) as [->|]; [by auto|]. rewrite Ho by done. apply W2.
Qed.

(** C26.  What the digests catch: whatever has become of the data of a stored
    object, its owner opening it, seeking and reading gets bytes of the
    file; if they start at a block boundary and end at one or at the end of
    the object they are the bytes that were written, or a collision of SHA-1
    is at hand; an error means a failing system call or a spoiled block. *)
Theorem read_detects_corruption table owner user key md data cur ofs n s :
  let fn := obj_path vol_path table key in
  stored owner key md data cur fn s -> 0 <= ofs <= Z.of_nat (length data) -> 0 <= n ->
  fw False
    (r ← fs_obj_open vol_path table user key;
     match r.1 with
     | None => mret None
     | Some o => q ← fs_obj_seek o ofs; if q.1 =? 0 then b ← fs_obj_read q.2 n; mret (Some b.1) else mret None
     end)
    (fun r _ =>
       match r with
       | None => user <> owner \/ ~ calm s \/ ~ dir_free table key s
       | Some (Err _) => ~ calm s \/ exists j, blk cur j <> blk data j
       | Some (Ok b) => user = owner /\ b = take (length b) (drop (Z.to_nat ofs) cur) /\
           (ofs mod CHUNK_BLK_SZ = 0 ->
            (ofs + Z.of_nat (length b)) mod CHUNK_BLK_SZ = 0 \/ ofs + Z.of_nat (length b) = Z.of_nat (length data) ->
            b = take (length b) (drop (Z.to_nat ofs) data) \/ exists x y, x <> y /\ SHA1 x = SHA1 y)
       end) s.
Proof.
  intros fn St Ho Hn. apply fw_bind. eapply fw_mono; [by apply obj_open_spec|]. cbn beta.
  intros [[o|] e] s1 (D1 & _ & Hr & Hc); cbn [fst snd] in *.
  2:{ apply fw_ret. destruct (decide (user = owner)) as [->|]; [|by left]. right.
      destruct (decide (table = 0 \/ is_Some (f_names s !! obj_dir vol_path table key))) as [Hd|Hd].
      - right. intros (Ht & Hd' & _). destruct Hd as [|[? Hd]]; [done|congruence].
      - left. intros C. destruct Hc as [? ?]; [done|tauto|by destruct (f_names s !! obj_dir vol_path table key); [destruct Hd; eauto|]|done]. }
  destruct Hr as (-> & _ & i & _ & _ & R & _). assert (calm s -> calm s1) as C1 by (apply calm_oracle, D1).
  apply fw_bind. eapply fw_mono; [by apply (seek_spec _ _ _ _ _ _ _ _ ofs R)|]. cbn beta. intros [rc o2] s2 (S2 & Hc2 & R2). cbn [fst snd] in *.
  destruct (Z.eqb_spec rc 0) as [->|Hrc]; [|apply fw_ret; right; left; intros C; by apply Hrc, Hc2, C1]. specialize (R2 eq_refl).
  assert (calm s -> calm s2) as C2 by (intros C; eapply calm_oracle; [apply S2|by apply C1]).
  apply fw_bind. eapply fw_mono; [by apply (read_spec _ _ _ _ _ _ _ _ n R2)|]. cbn beta.
  intros [[b|e'] o3] s3 (S3 & H3); cbn [fst snd] in *; apply fw_ret; [|tauto].
  destruct H3 as (k & Hk & Eb & Hk0 & _ & R3 & Hok). pose proof (rd_range _ _ _ _ _ _ _ _ R3) as Hr3.
  assert (b = take (length b) (drop (Z.to_nat ofs) cur)) as Eb2.
  { rewrite Eb at 2. rewrite length_take, Eb at 1. destruct (Nat.le_gt_cases k (length (drop (Z.to_nat ofs) cur))).
    - by rewrite Nat.min_l.
    - rewrite Nat.min_r by lia. by rewrite !take_ge by lia. }
  split; [done|]. split; [done|]. intros Ha He. destruct (decide (b = [])) as [->|Hb]; [by left|].
  assert (0 < Z.of_nat (length b)) as H0 by (destruct b; [done|cbn; lia]).
  apply range_ok_data; [lia|done|lia|done|done|]. apply Hok. apply (can_csum_spec _ _ _ _ _ _ _ _ _ R2); [lia|lia|done].
Qed.

(** ** Access *)

(** The owner recorded in a file. *)
Definition owner_of (file : bytes) : bytes := cstr (slice 52 128 file).

Lemma hdr_owner k file b :
  b = take k (drop (Z.to_nat 0) file) -> Z.of_nat (length b) = hdr_sz -> oh_owner (dec_hdr b) = slice 52 128 file.
Proof.
  intros -> Hl. cbn [Z.to_nat] in *. rewrite drop_0 in *. rewrite length_take in Hl. unfold hdr_sz in Hl.
  cbn [dec_hdr oh_owner]. unfold slice. rewrite skipn_firstn_comm, take_take. f_equal. lia.
Qed.

Lemma open_content i path s s' : fs_wf s -> dirs_only s s' -> f_names s' !! path = Some i ->
  content s path = Some (fi_data (file_of s' i)).
Proof.
  intros W (E1 & E2 & _) Hi. unfold content, file_of. rewrite E1 in Hi. rewrite Hi, E2. cbn.
  destruct (fs_live _ W _ _ Hi) as [f Hf]. by rewrite Hf.
Qed.

(** One call that changes nothing; [S] says what came before. *)
Tactic Notation "quiet_call" constr(S) "as" simple_intropattern(r) ident(s') ident(S') simple_intropattern(H) :=
  apply fw_bind;
  match goal with
  | |- fw _ f_malloc_ok _ _ => apply fw_malloc_ok
  | |- fw _ sys_other _ _ => apply fw_other
  | |- fw _ (sys_read _ _ _) _ _ => apply fw_read; [unfold hdr_sz; lia|unfold hdr_sz; lia|]
  end;
  let S1 := fresh in intros r s' S1 H; pose proof (transitivity S S1) as S'; clear S1.

Lemma opened table user key s :
  let fn := obj_path vol_path table key in
  fs_wf s ->
  fw False (fs_obj_open vol_path table user key) (fun r s' =>
    dirs_only s s' /\ (is_Some (r.1) -> exists f, content s fn = Some f /\ owner_of f = user)) s.
Proof.
  intros fn W. unfold fs_obj_open. destruct (key_valid key) eqn:Ek; cbn [negb]; [|apply fw_ret; split; [done|by intros [? ?]]].
  set (Post := fun r s' => _). assert (forall e s', dirs_only s s' -> Post (None, e) s') as Hfail.
  { intros e s' D. split; [done|]. by intros [? ?]. }
  apply fw_bind, fw_malloc_ok. intros b s1 S1 _. pose proof (same_dirs_only _ _ S1) as D1.
  destruct b; cbn [negb]; [|by apply fw_ret, Hfail].
  apply fw_bind. eapply fw_mono; [apply pathname_spec|]. cbn beta. intros ofn s2 (D2 & _ & Hfn & _ & _).
  assert (dirs_only s s2) as D by (by etrans). destruct ofn as [fn'|]; [|by apply fw_ret, Hfail].
  destruct Hfn as [|[= ->]]; [done|]. fold fn. clear D1 D2 S1.
  assert (forall e s', same_fs s2 s' -> Post (None, e) s') as Hf2 by (intros; apply Hfail; etrans; [done|by apply same_dirs_only]).
  apply fw_bind, fw_open. intros [i|e] s3 S3 Hi; [|by apply fw_ret, Hf2].
  pose proof (open_content i fn s s2 W D Hi) as Hct.
  apply fw_bind. unfold sys_fstat. apply fw_bind, fw_fault. intros e s4 S4 _ _. assert (same_fs s2 s4) as S24 by (by etrans).
  apply fw_bind, fw_get, fw_ret. destruct e as [e|]; [by apply fw_ret, Hf2|].
  quiet_call S24 as [b|] s5 S5 H; [|by apply fw_ret, Hf2]. destruct H as (k & _ & Eb & _). rewrite (file_of_same _ _ i S24) in Eb.
  destruct (Z.eqb_spec (Z.of_nat (length b)) hdr_sz) as [El|]; cbn [negb]; [|by apply fw_ret, Hf2].
  destruct (bool_decide (oh_magic _ = _)); cbn [negb]; [|by apply fw_ret, Hf2].
  case_bool_decide as Hu; cbn [negb]; [|by apply fw_ret, Hf2].
  destruct (_ =? _); cbn [negb]; [|by apply fw_ret, Hf2]. destruct (_ <? _); [by apply fw_ret, Hf2|].
  destruct (_ =? _); cbn [negb]; [|by apply fw_ret, Hf2].
  quiet_call S5 as [|] s6 S6 _; cbn [negb]; [|by apply fw_ret, Hf2].
  quiet_call S6 as [|] s7 S7 _; cbn [negb]; [|by apply fw_ret, Hf2].
  apply fw_bind, fw_read; [unfold hdr_sz; lia|unfold csum_bytes_of, u32, uw; pose proof (Z.mod_pos_bound (oh_n_blk (dec_hdr b) * CHD_CSUM_SZ) (2 ^ 32) ltac:(lia)); lia|].
  intros [b2|] s8 S8 _; [|by apply fw_ret, Hf2; etrans]. destruct (_ || _); [by apply fw_ret, Hf2; etrans|].
  apply fw_ret. split; [etrans; [done|]; apply same_dirs_only; by etrans|]. intros _. eexists. split; [exact Hct|].
  by rewrite <- Hu, (hdr_owner _ _ _ Eb El).
Qed.

(** Only the owner gets at an object, whatever the files hold and
    whatever fails: opening succeeds only for the user the file names as its
    owner and changes no file; deleting succeeds only for that user, removes
    that one file, and otherwise changes none. *)
Theorem owner_only table user key s :
  let fn := obj_path vol_path table key in
  fs_wf s ->
  fw False (fs_obj_open vol_path table user key) (fun r s' =>
    (forall p, content s' p = content s p) /\ (is_Some (r.1) -> exists f, content s fn = Some f /\ owner_of f = user)) s /\
  fw False (fs_obj_delete vol_path table user key) (fun r s' =>
    (forall p, p <> fn -> content s' p = content s p) /\
    (if r.1 : bool then content s' fn = None /\ exists f, content s fn = Some f /\ owner_of f = user
     else content s' fn = content s fn)) s.
Proof.
  intros fn W. split.
  { eapply fw_mono; [by apply opened|]. cbn beta. intros r s' [D H]. split; [|done]. intros p. by apply dirs_only_content. }
  unfold fs_obj_delete. destruct (key_valid key) eqn:Ek; cbn [negb]; [|by apply fw_ret].
  set (Post := fun r s' => _). assert (forall e s', dirs_only s s' -> Post (false, e) s') as Hfail.
  { intros e s' D. split; [intros p _|]; by apply dirs_only_content. }
  apply fw_bind. eapply fw_mono; [apply pathname_spec|]. cbn beta. intros ofn s2 (D & W2 & Hfn & _ & _).
  destruct ofn as [fn'|]; [|by apply fw_ret, Hfail]. destruct Hfn as [|[= ->]]; [done|]. fold fn.
  assert (forall e s', same_fs s2 s' -> Post (false, e) s') as Hf2 by (intros; apply Hfail; etrans; [done|by apply same_dirs_only]).
  apply fw_bind, fw_open. intros [i|e] s3 S3 Hi; [|by apply fw_ret, Hf2].
  pose proof (open_content i fn s s2 W D Hi) as Hct.
  quiet_call S3 as [b|] s4 S4 H; [|by apply fw_ret, Hf2]. destruct H as (k & _ & Eb & _). rewrite (file_of_same _ _ i S3) in Eb.
  destruct (Z.eqb_spec (Z.of_nat (length b)) hdr_sz) as [El|]; cbn [negb]; [|by apply fw_ret, Hf2].
  quiet_call S4 as rc s5 S5 _. destruct (_ =? _); cbn [negb]; [|by apply fw_ret, Hf2].
  destruct (bool_decide (oh_magic _ = _)); cbn [negb]; [|by apply fw_ret, Hf2].
  case_bool_decide as Hu; cbn [negb]; [|by apply fw_ret, Hf2].
  apply fw_bind, fw_unlink. intros rc' s6 H6. destruct H6 as [(-> & _ & E1 & E2 & _)|(Hrc & S6 & _)].
  - cbn [Z.eqb negb]. apply fw_ret. destruct S5 as (N1 & I1 & _). destruct D as (N2 & I2 & _). split; cbn [fst].
    + intros p Hp. unfold content. by rewrite E1, E2, I1, I2, lookup_delete_ne, N1, N2.
    + split; [unfold content; by rewrite E1, lookup_delete_eq|]. eexists. split; [exact Hct|]. by rewrite <- Hu, (hdr_owner _ _ _ Eb El).
  - rewrite (proj2 (Z.eqb_neq _ _)) by lia. cbn [negb]. apply fw_ret, Hf2. by etrans.
Qed.

(** A 32-bit product of block count and digest size: an object announced
    with 214748365 blocks (14 TB) gets a digest table of 4 bytes, and closing
    any block then writes outside it. *)
Theorem csum_table_overflow o s :
  let len := 214748365 * CHUNK_BLK_SZ in
  n_blk o = fs_blk_count len -> csum_tbl_sz o = csum_bytes_of (n_blk o) -> 0 <= csum_idx o < n_blk o ->
  csum_tbl_sz o = 4 /\ obj_flush_csum o s = None.
Proof.
  intros len Hn Ht Hi. assert (csum_bytes_of (n_blk o) = 4) as E by (rewrite Hn; done). rewrite E in Ht. split; [done|].
  unfold obj_flush_csum. rewrite (proj2 (Z.leb_gt _ _)) by lia. rewrite Ht.
  assert (0 <= csum_bytes_of (csum_idx o)) as Hp by (unfold csum_bytes_of, u32, uw; apply Z.mod_pos_bound; lia).
  unfold CHD_CSUM_SZ in *. by rewrite (proj2 (Z.ltb_lt _ _)) by lia.
Qed.

(** ** Storing *)

Section storing.
Variable garbage : Z -> bytes.

(** The calls a request makes to store an object: create, write, commit,
    free. *)
Definition store (table : Z) (user key : bytes) (len : Z) (data md : bytes) (sync : bool) : F (bool * chunk_errcode) :=
  r ← fs_obj_new vol_path garbage table key len;
  match r.1 with
  | None => mret (false, r.2)
  | Some o =>
      w ← fs_obj_write o data;
      if w.1 <? 0 then _ ← fs_obj_free w.2; mret (false, che_InternalError) else
      c ← fs_obj_write_commit w.2 user md sync;
      _ ← fs_obj_free c.2;
      mret (c.1, if c.1 : bool then che_Success else che_InternalError)
  end.

Lemma store_spec table user key len data md sync s :
  (forall n, 0 <= n -> Z.of_nat (length (garbage n)) = n) ->
  fs_wf s -> Z.of_nat (length data) <= len <= max_obj -> length md = 20%nat ->
  let fn := obj_path vol_path table key in
  fw False (store table user key len data md sync)
    (fun r s' =>
       (forall p, p <> fn -> content s' p = content s p) /\
       (is_Some (content s fn) -> content s' fn = content s fn /\ r.1 = false) /\
       (r.1 = true -> Z.of_nat (length data) = len /\ content s' fn = Some (obj_file user key md data)) /\
       (r.1 = true -> fs_wf s' /\ f_oracle s' = f_oracle s) /\
       (calm s -> r.1 = false -> content s' fn = content s fn) /\
       (calm s -> key_valid key = true -> dir_free table key s -> Z.of_nat (length data) = len ->
        if content s fn is Some _ then r = (false, che_KeyExists) else r = (true, che_Success))) s.
Proof.
  intros Hg W Hl Hm fn. unfold store. apply fw_bind. eapply fw_mono; [apply (new_spec vol_path garbage Hg); [done|lia]|]. cbn beta.
  intros [[o|] e] s1 (W1 & O1 & Ho & Hx & _ & Hr & Hc); cbn [fst snd] in *; fold fn in Ho, Hx, Hr, Hc.
  2:{ apply fw_ret. split_and!; try done.
      - intros H. by split; [apply Hx|].
      - intros C _. by apply Hr.
      - intros C Hk (Ht & Hd & Hn) _. specialize (Hc C Hk Ht Hd Hn).
        destruct (content s fn); [by injection Hc as ->|]. by destruct Hc as [? ?]. }
  destruct Hr as (-> & Hn & i & G & _). pose proof (wg_name _ _ _ _ _ _ _ G) as Hi.
  apply fw_bind. eapply fw_mono; [apply (write_loop_spec (length data) fn key len i data 0 o s1 []); [done|done|cbn [length]; lia]|].
  cbn beta. intros [n o2] s2 (O2 & F2 & Hw). cbn [fst snd app] in *.
  assert (calm s -> calm s1) as C1 by (by apply calm_oracle).
  destruct Hw as [[-> Hnc]|[-> G2]].
  { cbn [Z.ltb Z.compare]. apply fw_bind. eapply fw_mono; [by apply (free_rest fn i o2 s1 s2 False)|]. cbn beta.
    intros _ s3 (_ & H3 & H4). apply fw_ret. rewrite Hn. split_and!; try done.
    - intros p Hp. by rewrite H3, Ho.
    - intros C. by destruct Hnc; apply C1.
    - intros C. by destruct Hnc; apply C1. }
  rewrite (proj2 (Z.ltb_ge _ _)) by lia.
  apply fw_bind. eapply fw_mono; [by apply (commit_spec fn key len i o2 s2 data user md sync)|]. cbn beta.
  intros [b o3] s3 (O3 & Hb & Hcb). cbn [fst snd] in *. assert (only i s1 s3) as O13 by (by etrans).
  assert (calm s -> calm s2) as C2 by (intros C; eapply calm_oracle; [|by apply C1]; apply O2).
  apply fw_bind. destruct b.
  - destruct Hb as (El & F3 & m & Hf). unfold fs_obj_free. rewrite F3. apply fw_ret, fw_ret. cbn [fst snd]. rewrite Hn.
    split_and!; try done.
    + intros p Hp. rewrite <- (Ho p Hp). by apply (only_content i s1 s3 fn).
    + split; [done|]. unfold content. destruct O13 as (-> & _). rewrite Hi. cbn. by rewrite Hf.
    + intros _. split; [apply (only_wf i s1); eauto; by eapply fs_live|]. rewrite <- O1. apply O13.
  - eapply fw_mono; [by apply (free_rest fn i o3 s1 s3 False)|]. cbn beta. intros _ s4 (_ & H3 & H4). apply fw_ret. cbn [fst snd]. rewrite Hn.
    split_and!; try done.
    + intros p Hp. by rewrite H3, Ho.
    + intros C _. destruct H4 as [H4|H4]; [done|]. by destruct H4; apply C1.
    + intros C _ _ El. specialize (Hcb (C2 C) El). done.
Qed.

(** Storing makes an object: with any system call failing or cut short,
    every other file stays as it was and an existing object of that key too;
    if success is reported the file is exactly header, key, digest table and
    data; if not, and the disk works, nothing is left of it; on a working
    disk success is what happens, unless the key exists. *)
Theorem store_makes_object table user key len data md sync s :
  (forall n, 0 <= n -> Z.of_nat (length (garbage n)) = n) ->
  fs_wf s -> Z.of_nat (length data) <= len <= max_obj -> length md = 20%nat ->
  let fn := obj_path vol_path table key in
  fw False (store table user key len data md sync)
    (fun r s' =>
       (forall p, p <> fn -> content s' p = content s p) /\
       (is_Some (content s fn) -> content s' fn = content s fn /\ r.1 = false) /\
       (r.1 = true -> Z.of_nat (length data) = len /\ content s' fn = Some (obj_file user key md data)) /\
       (calm s -> r.1 = false -> content s' fn = content s fn) /\
       (calm s -> key_valid key = true -> dir_free table key s -> Z.of_nat (length data) = len ->
        if content s fn is Some _ then r = (false, che_KeyExists) else r = (true, che_Success))) s.
Proof.
  intros Hg W Hl Hm fn. eapply fw_mono; [by apply store_spec|]. cbn beta. intros r s' (H1 & H2 & H3 & _ & H4 & H5). by split_and!.
Qed.

(** C25.  What is stored is what is read: on a working disk, after an object
    was stored its owner opens it and reads exactly its data back, and
    anybody else is refused. *)
Theorem store_then_read table user user' key data md sync s :
  (forall n, 0 <= n -> Z.of_nat (length (garbage n)) = n) ->
  fs_wf s -> calm s -> dir_free table key s -> content s (obj_path vol_path table key) = None ->
  key_valid key = true -> Z.of_nat (length data) <= max_obj -> length md = 20%nat ->
  Forall (fun x => x <> 0) user -> (length user < 128)%nat ->
  fw False
    (_ ← store table user key (Z.of_nat (length data)) data md sync;
     r ← fs_obj_open vol_path table user' key;
     match r.1 with
     | None => mret (inl r.2)
     | Some o => b ← fs_obj_read o (Z.of_nat (length data)); mret (inr (b.1, bo_hash o, bo_size o))
     end)
    (fun r _ => r = if decide (user' = user) then inr (Ok data, md, Z.of_nat (length data)) else inl che_AccessDenied) s.
Proof.
  intros Hg W C Hd Hn Hk Hl Hm Hu1 Hu2. apply fw_bind.
  eapply fw_mono; [apply (store_spec table user key (Z.of_nat (length data)) data md sync s Hg W); [lia|done]|]. cbn beta.
  intros r s1 (Ho & _ & Hok & Hwf & _ & Hc). specialize (Hc C Hk Hd eq_refl). rewrite Hn in Hc. subst r. cbn [fst snd] in *.
  destruct (Hok eq_refl) as [_ Ef]. destruct (Hwf eq_refl) as [W1 O1]. clear Hok Hwf. rewrite obj_file_front in Ef.
  assert (calm s1) as C1 by (by eapply calm_oracle). destruct Hd as (Ht & Hd & Hd').
  assert (f_names s1 !! obj_dir vol_path table key = None) as Hd1.
  { assert (content s1 (obj_dir vol_path table key) = None) as E.
    { rewrite Ho; [unfold content; by rewrite Hd|]. intros E. by apply (obj_path_ne_dir vol_path table key); rewrite <- E. }
    unfold content in E. destruct (f_names s1 !! obj_dir vol_path table key) as [j|] eqn:Ej; [|done].
    destruct (fs_live _ W1 _ _ Ej) as [f Hf]. cbn in E. by rewrite Hf in E. }
  apply fw_bind. eapply fw_mono; [apply (obj_open_spec vol_path table user user' key md data data s1); by split|]. cbn beta.
  intros [[o|] e] s2 (D2 & _ & Hr & Hc2); cbn [fst snd] in *; specialize (Hc2 C1 Ht Hd1); destruct (decide (user' = user)) as [->|Hne].
  - destruct Hr as (_ & -> & i & _ & _ & R & _). apply fw_bind. eapply fw_mono; [by apply (read_spec _ _ _ _ _ _ _ _ (Z.of_nat (length data)) R); lia|].
    cbn beta. intros [[b|e'] o3] s3 (S3 & H3); cbn [fst snd] in *; apply fw_ret; assert (calm s2) as C2 by (eapply calm_oracle; [apply D2|done]).
    + destruct H3 as (k & _ & -> & _ & Hkc & _). rewrite Hkc; [|done|unfold max_obj, CHUNK_BLK_SZ in *; lia].
      cbn [Z.to_nat]. rewrite drop_0, take_ge by lia. by rewrite (rd_hash _ _ _ _ _ _ _ _ R), (rd_size _ _ _ _ _ _ _ _ R).
    + by destruct H3 as [_ [?|[? ?]]].
  - by destruct Hr as (? & _).
  - by destruct Hc2 as [? ?].
  - apply fw_ret. by injection Hc2 as ->.
Qed.

End storing.
End props.
