(* ===== verification/BeFsList.v ===== *)
(** * BeFsList: listing the objects of a table (fs_list_objs_* of chunkd/be-fs.c)

    [readdir] gives the entries of a directory in no particular order:
    [Readdir] is any function that enumerates the names below a path. *)

From S2P Require Import Prelude Fs BeFs.
#[local] Open Scope Z_scope.

(** The names directly below [path]. *)
Definition entry_of (path p : bytes) : option bytes :=
  if bool_decide (take (length path) p = path) then
    match drop (length path) p with
    | x :: name => if (x =? SL) && bool_decide (SL ∉ name) && negb (bool_decide (name = [])) then Some name else None
    | [] => None
    end
  else None.

Definition children (path : bytes) (s : fsys) : gset bytes :=
  list_to_set (omap (entry_of path) ((map_to_list (f_names s)).*1 ++ elements (f_dirs s))).

Class Readdir : Type := {
  dir_list : bytes -> fsys -> list bytes;
  dir_list_ok path s : dir_list path s ≡ₚ elements (children path s) }.

(** [opendir]: what [readdir] will return. *)
Definition sys_opendir {RD : Readdir} (path : bytes) : F (res (list bytes)) :=
  e ← f_fault;
  s ← f_get;
  mret (match e with
        | Some e => Err e
        | None => if bool_decide (path ∈ f_dirs s) then Ok (dir_list path s) else Err ENOENT
        end).

(** [struct fs_obj_lister]: what is left of the table's directory, and of the
    subdirectory being read. *)
Record fs_obj_lister : Type := mkLister { t_root : list bytes; t_table_path : bytes; t_sub : option (bytes * list bytes) }.

Section list.
Context {SH : Sha} {RD : Readdir}.
Variable vol_path : bytes.

Definition fs_list_objs_open (table_id : Z) : F (res fs_obj_lister) :=
  ok ← f_malloc_ok;
  if negb ok then mret (Err ENOMEM) else
  d ← sys_opendir (table_path vol_path table_id);
  mret (match d with
        | Err e => Err e
        | Ok root => Ok (mkLister root (table_path vol_path table_id) None)
        end).

Definition dotted (name : bytes) : bool := bool_decide (head name = Some 46).

(** The next entry of an open subdirectory. *)
Fixpoint scan_sub (d : list bytes) : option (bytes * list bytes) :=
  match d with
  | [] => None
  | name :: d => if dotted name then scan_sub d else Some (name, d)
  end.

Definition next_in (t : fs_obj_lister) (sub name : bytes) (d : list bytes) : F (option (option bytes) * fs_obj_lister) :=
  let t := mkLister (t_root t) (t_table_path t) (Some (sub, d)) in
  ok ← f_malloc_ok;
  mret (if ok : bool then (Some (Some (sub ++ [SL] ++ name)), t) else (None, t)).

(** The loop over the table's directory. *)
Fixpoint scan_root (root : list bytes) (table_path : bytes) : F (option (option bytes) * fs_obj_lister) :=
  match root with
  | [] => mret (Some None, mkLister [] table_path None)
  | name :: root =>
      if dotted name || negb (length name =? PREFIX_LEN)%nat then scan_root root table_path else
      ok ← f_malloc_ok;
      if negb ok then mret (None, mkLister root table_path None) else
      let sub := table_path ++ [SL] ++ name in
      d ← sys_opendir sub;
      match d with
      | Err _ => scan_root root table_path
      | Ok d =>
          match scan_sub d with
          | None => scan_root root table_path
          | Some (name, d) => next_in (mkLister root table_path None) sub name d
          end
      end
  end.

(** [None]: error; [Some None]: the end. *)
Definition fs_list_objs_next (t : fs_obj_lister) : F (option (option bytes) * fs_obj_lister) :=
  match t_sub t with
  | None => scan_root (t_root t) (t_table_path t)
  | Some (sub, d) =>
      match scan_sub d with
      | Some (name, d) => next_in t sub name d
      | None => scan_root (t_root t) (t_table_path t)
      end
  end.

(** [struct volume_entry] *)
Record volume_entry : Type := mkVe { ve_size : Z; ve_mtime : Z; ve_key : bytes; ve_hash : bytes; ve_owner : bytes }.

(** One round per name of the volume; [None] when the fuel is not enough. *)
Fixpoint list_objs_loop (fuel : nat) (user : bytes) (t : fs_obj_lister) (acc : list volume_entry) : F (list volume_entry) :=
  match fuel with
  | O => f_ub
  | S fuel =>
      r ← fs_list_objs_next t;
      match r with
      | (Some (Some fn), t) =>
          h ← fs_obj_hdr_read fn;
          match h with
          | None => mret acc
          | Some i =>
              if negb (bool_decide (user = oi_owner i)) then list_objs_loop fuel user t acc else
              ok ← f_malloc_ok;
              if negb ok then mret acc else
              list_objs_loop fuel user t (acc ++ [mkVe (oi_size i) (oi_mtime i) (oi_key i) (hexstr (oi_hash i)) (oi_owner i)])
          end
      | _ => mret acc
      end
  end.

Definition fs_list_objs (table_id : Z) (user : bytes) : F (list volume_entry) :=
  t ← fs_list_objs_open table_id;
  match t with
  | Err _ => mret []
  | Ok t => s ← f_get; list_objs_loop (S (size (f_names s) + size (f_dirs s))) user t []
  end.

End list.
