(* ===== verification/Chunkd.v ===== *)
(** * Chunkd: the chunk server's connections (chunkd/chunkd.h, chunkd/server.c,
    chunkd/object.c, lib/chunksrv.c, include/chunk_msg.h)

    A connection is a state machine driven by the socket's events: it reads a
    fixed request header, the key, possibly a second record, executes the
    request, takes in the object's data, and queues responses that are written
    as the socket accepts them.

    The kernel's side of the socket is part of the connection: [c_rx] has
    arrived and was not read yet, [c_tx] was accepted for sending.  A read or
    write may be cut short, would block or fails as the oracle says; an
    interrupted call is retried by the code and does not show.  TLS is the
    same byte stream with OpenSSL's outcomes.  [None]: undefined behaviour, or
    a loop out of fuel. *)

From stdpp Require Import strings.
From S2P Require Import Prelude ObjCache Fs BeFs BeFsList.
#[local] Open Scope Z_scope.

(** ** Parameters *)

(** GLib's markup escaping and [strftime]. *)
Class Text : Type := { g_markup_escape : bytes -> bytes; strftime : Z -> bytes }.

(** ** Constants *)

Definition CHD_MAGIC_SZ : nat := 8.
Definition CHD_USER_SZ : Z := 64.
Definition CHD_SIG_SZ : nat := 64.
Definition CHUNK_MAX_GETPART : Z := 4.
Definition CLI_DATA_BUF_SZ : Z := CHUNK_BLK_SZ.
Definition CHD_TRASH_MAX : Z := 1000.
Definition CLI_MAX_SENDFILE_SZ : Z := 512 * 1024.
Definition CLI_MAX_WR_IOV : nat := 32.
Definition CHUNKD_MAGIC : bytes := [67; 72; 85; 78; 75; 68; 118; 49].

Definition CHO_NOP : Z := 0.
Definition CHO_GET : Z := 1.
Definition CHO_GET_META : Z := 2.
Definition CHO_PUT : Z := 3.
Definition CHO_DEL : Z := 4.
Definition CHO_LIST : Z := 5.
Definition CHO_LOGIN : Z := 6.
Definition CHO_TABLE_OPEN : Z := 7.
Definition CHO_CHECK_START : Z := 8.
Definition CHO_CHECK_STATUS : Z := 9.
Definition CHO_START_TLS : Z := 10.
Definition CHO_CP : Z := 11.
Definition CHO_GET_PART : Z := 12.

Definition CHF_SYNC : Z := 1.
Definition CHF_TBL_CREAT : Z := 2.
Definition CHF_TBL_EXCL : Z := 4.
Definition CHF_GET_PART_LAST : Z := 8.

Definition EV_READ : Z := 2.
Definition EV_WRITE : Z := 4.
Definition POLLIN : Z := 1.
Definition POLLOUT : Z := 4.
Definition EPIPE : Z := 32.
Definition EAGAIN : Z := 11.

Definition errcode (e : chunk_errcode) : Z :=
  match e with
  | che_Success => 0 | che_AccessDenied => 1 | che_InternalError => 2 | che_InvalidArgument => 3 | che_InvalidURI => 4
  | che_NoSuchKey => 5 | che_SignatureDoesNotMatch => 6 | che_InvalidKey => 7 | che_InvalidTable => 8 | che_Busy => 9
  | che_KeyExists => 10 | che_InvalidSeek => 11
  end.

(** ** Messages *)

(** [struct chunksrv_req], 88 bytes as they came. *)
Definition req_sz : nat := 88.
Definition req_magic (q : bytes) : bytes := slice 0 8 q.
Definition req_op (q : bytes) : Z := le_val (slice 8 1 q).
Definition req_flags (q : bytes) : Z := le_val (slice 9 1 q).
Definition req_key_len (q : bytes) : Z := le_val (slice 10 2 q).
Definition req_nonce (q : bytes) : bytes := slice 12 4 q.
Definition req_data_len (q : bytes) : Z := le_val (slice 16 8 q).
Definition req_sig (q : bytes) : bytes := slice 24 64 q.

(** [struct chunksrv_resp] *)
Record chunksrv_resp : Type := mkResp {
  r_magic : bytes; r_code : Z; r_flags : Z; r_nonce : bytes; r_data_len : Z; r_hash : bytes }.

Definition enc_resp (r : chunksrv_resp) : bytes :=
  r_magic r ++ [r_code r; r_flags r; 0; 0] ++ r_nonce r ++ le_bytes 8 (r_data_len r) ++ r_hash r ++ [0; 0; 0; 0].

Definition resp_init_req (q : bytes) : chunksrv_resp :=
  mkResp (req_magic q) 0 0 (req_nonce q) (req_data_len q) (replicate 20 0).

(** [struct chunksrv_resp_get] *)
Definition enc_resp_get (r : chunksrv_resp) (mtime : Z) : bytes := enc_resp r ++ le_bytes 8 mtime.

Section sign.
Context {SG : Sig}.

Definition req_len (q : bytes) : nat :=
  (req_sz + Z.to_nat (req_key_len q) + (if (req_op q =? CHO_GET_PART)%Z then 8 else 0))%nat.

(** [p] is the request with what follows it in memory. *)
Definition chreq_sign (p key : bytes) : bytes := base64 (HMAC_SHA1 (cstr key) (take (req_len p) p)).

End sign.

(** ** Data *)

Inductive client_state : Type :=
| evt_read_fixed | evt_read_var | evt_exec_req | evt_data_in | evt_dispose | evt_recycle | evt_ssl_accept.

#[global] Instance client_state_eq : EqDecision client_state.
Proof. solve_decision. Defined.

(** What a queued write points to: memory of its own, the connection's
    [netbuf_out] at an offset, nothing ([sendfile]), or freed memory. *)
Inductive wbuf : Type := WMem (b : bytes) | WNet (ofs : Z) | WNull | WDead.

Inductive cli_write_func : Type := cb_none | cb_free | cb_get_more.

(** [struct client_write] *)
Record client_write : Type := mkWr { wr_buf : wbuf; wr_len : Z; wr_cb : cli_write_func; wr_sendfile : bool }.

(** What [req_ptr] points into; its offset there is [req_used]. *)
Inductive req_buf : Type := RbReq | RbKey | RbKey2 | RbGetpart.

Inductive chk_state : Type := CHK_ST_OFF | CHK_ST_INIT | CHK_ST_IDLE | CHK_ST_RUNNING.

(** [struct client]; [c_work]: a worker thread is copying for it; [c_freed]:
    the structure was freed. *)
Record client : Type := mkCli {
  c_state : client_state; c_user : bytes; c_table_len : Z; c_table_id : Z; c_table : bytes; c_ssl : bool; c_read_want_write : bool; c_write_want_read : bool; c_first_req : bool; c_write_q : list client_write; c_writing : bool; c_ev_mask : Z; c_creq : bytes; c_getpart : bytes; c_req_used : Z; c_req_ptr : req_buf; c_key_len : Z; c_var_len : Z; c_second_var : bool; c_key : bytes; c_key2 : bytes; c_out_user : option bytes; c_out_hash : bytes; c_out_len : Z; c_out_bo : option fs_obj; c_out_ce : option nat; c_in_len : Z; c_in_obj : option fs_obj; c_netbuf_out : bytes; c_work : bool; c_freed : bool; c_rx : bytes; c_eof : bool; c_tx : bytes }.

Definition set_c_state (x : client_state) (c : client) : client :=
  mkCli x (c_user c) (c_table_len c) (c_table_id c) (c_table c) (c_ssl c) (c_read_want_write c) (c_write_want_read c) (c_first_req c) (c_write_q c) (c_writing c) (c_ev_mask c) (c_creq c) (c_getpart c) (c_req_used c) (c_req_ptr c) (c_key_len c) (c_var_len c) (c_second_var c) (c_key c) (c_key2 c) (c_out_user c) (c_out_hash c) (c_out_len c) (c_out_bo c) (c_out_ce c) (c_in_len c) (c_in_obj c) (c_netbuf_out c) (c_work c) (c_freed c) (c_rx c) (c_eof c) (c_tx c).
Definition set_c_user (x : bytes) (c : client) : client :=
  mkCli (c_state c) x (c_table_len c) (c_table_id c) (c_table c) (c_ssl c) (c_read_want_write c) (c_write_want_read c) (c_first_req c) (c_write_q c) (c_writing c) (c_ev_mask c) (c_creq c) (c_getpart c) (c_req_used c) (c_req_ptr c) (c_key_len c) (c_var_len c) (c_second_var c) (c_key c) (c_key2 c) (c_out_user c) (c_out_hash c) (c_out_len c) (c_out_bo c) (c_out_ce c) (c_in_len c) (c_in_obj c) (c_netbuf_out c) (c_work c) (c_freed c) (c_rx c) (c_eof c) (c_tx c).
Definition set_c_table_len (x : Z) (c : client) : client :=
  mkCli (c_state c) (c_user c) x (c_table_id c) (c_table c) (c_ssl c) (c_read_want_write c) (c_write_want_read c) (c_first_req c) (c_write_q c) (c_writing c) (c_ev_mask c) (c_creq c) (c_getpart c) (c_req_used c) (c_req_ptr c) (c_key_len c) (c_var_len c) (c_second_var c) (c_key c) (c_key2 c) (c_out_user c) (c_out_hash c) (c_out_len c) (c_out_bo c) (c_out_ce c) (c_in_len c) (c_in_obj c) (c_netbuf_out c) (c_work c) (c_freed c) (c_rx c) (c_eof c) (c_tx c).
Definition set_c_table_id (x : Z) (c : client) : client :=
  mkCli (c_state c) (c_user c) (c_table_len c) x (c_table c) (c_ssl c) (c_read_want_write c) (c_write_want_read c) (c_first_req c) (c_write_q c) (c_writing c) (c_ev_mask c) (c_creq c) (c_getpart c) (c_req_used c) (c_req_ptr c) (c_key_len c) (c_var_len c) (c_second_var c) (c_key c) (c_key2 c) (c_out_user c) (c_out_hash c) (c_out_len c) (c_out_bo c) (c_out_ce c) (c_in_len c) (c_in_obj c) (c_netbuf_out c) (c_work c) (c_freed c) (c_rx c) (c_eof c) (c_tx c).
Definition set_c_table (x : bytes) (c : client) : client :=
  mkCli (c_state c) (c_user c) (c_table_len c) (c_table_id c) x (c_ssl c) (c_read_want_write c) (c_write_want_read c) (c_first_req c) (c_write_q c) (c_writing c) (c_ev_mask c) (c_creq c) (c_getpart c) (c_req_used c) (c_req_ptr c) (c_key_len c) (c_var_len c) (c_second_var c) (c_key c) (c_key2 c) (c_out_user c) (c_out_hash c) (c_out_len c) (c_out_bo c) (c_out_ce c) (c_in_len c) (c_in_obj c) (c_netbuf_out c) (c_work c) (c_freed c) (c_rx c) (c_eof c) (c_tx c).
Definition set_c_ssl (x : bool) (c : client) : client :=
  mkCli (c_state c) (c_user c) (c_table_len c) (c_table_id c) (c_table c) x (c_read_want_write c) (c_write_want_read c) (c_first_req c) (c_write_q c) (c_writing c) (c_ev_mask c) (c_creq c) (c_getpart c) (c_req_used c) (c_req_ptr c) (c_key_len c) (c_var_len c) (c_second_var c) (c_key c) (c_key2 c) (c_out_user c) (c_out_hash c) (c_out_len c) (c_out_bo c) (c_out_ce c) (c_in_len c) (c_in_obj c) (c_netbuf_out c) (c_work c) (c_freed c) (c_rx c) (c_eof c) (c_tx c).
Definition set_c_read_want_write (x : bool) (c : client) : client :=
  mkCli (c_state c) (c_user c) (c_table_len c) (c_table_id c) (c_table c) (c_ssl c) x (c_write_want_read c) (c_first_req c) (c_write_q c) (c_writing c) (c_ev_mask c) (c_creq c) (c_getpart c) (c_req_used c) (c_req_ptr c) (c_key_len c) (c_var_len c) (c_second_var c) (c_key c) (c_key2 c) (c_out_user c) (c_out_hash c) (c_out_len c) (c_out_bo c) (c_out_ce c) (c_in_len c) (c_in_obj c) (c_netbuf_out c) (c_work c) (c_freed c) (c_rx c) (c_eof c) (c_tx c).
Definition set_c_write_want_read (x : bool) (c : client) : client :=
  mkCli (c_state c) (c_user c) (c_table_len c) (c_table_id c) (c_table c) (c_ssl c) (c_read_want_write c) x (c_first_req c) (c_write_q c) (c_writing c) (c_ev_mask c) (c_creq c) (c_getpart c) (c_req_used c) (c_req_ptr c) (c_key_len c) (c_var_len c) (c_second_var c) (c_key c) (c_key2 c) (c_out_user c) (c_out_hash c) (c_out_len c) (c_out_bo c) (c_out_ce c) (c_in_len c) (c_in_obj c) (c_netbuf_out c) (c_work c) (c_freed c) (c_rx c) (c_eof c) (c_tx c).
Definition set_c_first_req (x : bool) (c : client) : client :=
  mkCli (c_state c) (c_user c) (c_table_len c) (c_table_id c) (c_table c) (c_ssl c) (c_read_want_write c) (c_write_want_read c) x (c_write_q c) (c_writing c) (c_ev_mask c) (c_creq c) (c_getpart c) (c_req_used c) (c_req_ptr c) (c_key_len c) (c_var_len c) (c_second_var c) (c_key c) (c_key2 c) (c_out_user c) (c_out_hash c) (c_out_len c) (c_out_bo c) (c_out_ce c) (c_in_len c) (c_in_obj c) (c_netbuf_out c) (c_work c) (c_freed c) (c_rx c) (c_eof c) (c_tx c).
Definition set_c_write_q (x : list client_write) (c : client) : client :=
  mkCli (c_state c) (c_user c) (c_table_len c) (c_table_id c) (c_table c) (c_ssl c) (c_read_want_write c) (c_write_want_read c) (c_first_req c) x (c_writing c) (c_ev_mask c) (c_creq c) (c_getpart c) (c_req_used c) (c_req_ptr c) (c_key_len c) (c_var_len c) (c_second_var c) (c_key c) (c_key2 c) (c_out_user c) (c_out_hash c) (c_out_len c) (c_out_bo c) (c_out_ce c) (c_in_len c) (c_in_obj c) (c_netbuf_out c) (c_work c) (c_freed c) (c_rx c) (c_eof c) (c_tx c).
Definition set_c_writing (x : bool) (c : client) : client :=
  mkCli (c_state c) (c_user c) (c_table_len c) (c_table_id c) (c_table c) (c_ssl c) (c_read_want_write c) (c_write_want_read c) (c_first_req c) (c_write_q c) x (c_ev_mask c) (c_creq c) (c_getpart c) (c_req_used c) (c_req_ptr c) (c_key_len c) (c_var_len c) (c_second_var c) (c_key c) (c_key2 c) (c_out_user c) (c_out_hash c) (c_out_len c) (c_out_bo c) (c_out_ce c) (c_in_len c) (c_in_obj c) (c_netbuf_out c) (c_work c) (c_freed c) (c_rx c) (c_eof c) (c_tx c).
Definition set_c_ev_mask (x : Z) (c : client) : client :=
  mkCli (c_state c) (c_user c) (c_table_len c) (c_table_id c) (c_table c) (c_ssl c) (c_read_want_write c) (c_write_want_read c) (c_first_req c) (c_write_q c) (c_writing c) x (c_creq c) (c_getpart c) (c_req_used c) (c_req_ptr c) (c_key_len c) (c_var_len c) (c_second_var c) (c_key c) (c_key2 c) (c_out_user c) (c_out_hash c) (c_out_len c) (c_out_bo c) (c_out_ce c) (c_in_len c) (c_in_obj c) (c_netbuf_out c) (c_work c) (c_freed c) (c_rx c) (c_eof c) (c_tx c).
Definition set_c_creq (x : bytes) (c : client) : client :=
  mkCli (c_state c) (c_user c) (c_table_len c) (c_table_id c) (c_table c) (c_ssl c) (c_read_want_write c) (c_write_want_read c) (c_first_req c) (c_write_q c) (c_writing c) (c_ev_mask c) x (c_getpart c) (c_req_used c) (c_req_ptr c) (c_key_len c) (c_var_len c) (c_second_var c) (c_key c) (c_key2 c) (c_out_user c) (c_out_hash c) (c_out_len c) (c_out_bo c) (c_out_ce c) (c_in_len c) (c_in_obj c) (c_netbuf_out c) (c_work c) (c_freed c) (c_rx c) (c_eof c) (c_tx c).
Definition set_c_getpart (x : bytes) (c : client) : client :=
  mkCli (c_state c) (c_user c) (c_table_len c) (c_table_id c) (c_table c) (c_ssl c) (c_read_want_write c) (c_write_want_read c) (c_first_req c) (c_write_q c) (c_writing c) (c_ev_mask c) (c_creq c) x (c_req_used c) (c_req_ptr c) (c_key_len c) (c_var_len c) (c_second_var c) (c_key c) (c_key2 c) (c_out_user c) (c_out_hash c) (c_out_len c) (c_out_bo c) (c_out_ce c) (c_in_len c) (c_in_obj c) (c_netbuf_out c) (c_work c) (c_freed c) (c_rx c) (c_eof c) (c_tx c).
Definition set_c_req_used (x : Z) (c : client) : client :=
  mkCli (c_state c) (c_user c) (c_table_len c) (c_table_id c) (c_table c) (c_ssl c) (c_read_want_write c) (c_write_want_read c) (c_first_req c) (c_write_q c) (c_writing c) (c_ev_mask c) (c_creq c) (c_getpart c) x (c_req_ptr c) (c_key_len c) (c_var_len c) (c_second_var c) (c_key c) (c_key2 c) (c_out_user c) (c_out_hash c) (c_out_len c) (c_out_bo c) (c_out_ce c) (c_in_len c) (c_in_obj c) (c_netbuf_out c) (c_work c) (c_freed c) (c_rx c) (c_eof c) (c_tx c).
Definition set_c_req_ptr (x : req_buf) (c : client) : client :=
  mkCli (c_state c) (c_user c) (c_table_len c) (c_table_id c) (c_table c) (c_ssl c) (c_read_want_write c) (c_write_want_read c) (c_first_req c) (c_write_q c) (c_writing c) (c_ev_mask c) (c_creq c) (c_getpart c) (c_req_used c) x (c_key_len c) (c_var_len c) (c_second_var c) (c_key c) (c_key2 c) (c_out_user c) (c_out_hash c) (c_out_len c) (c_out_bo c) (c_out_ce c) (c_in_len c) (c_in_obj c) (c_netbuf_out c) (c_work c) (c_freed c) (c_rx c) (c_eof c) (c_tx c).
Definition set_c_key_len (x : Z) (c : client) : client :=
  mkCli (c_state c) (c_user c) (c_table_len c) (c_table_id c) (c_table c) (c_ssl c) (c_read_want_write c) (c_write_want_read c) (c_first_req c) (c_write_q c) (c_writing c) (c_ev_mask c) (c_creq c) (c_getpart c) (c_req_used c) (c_req_ptr c) x (c_var_len c) (c_second_var c) (c_key c) (c_key2 c) (c_out_user c) (c_out_hash c) (c_out_len c) (c_out_bo c) (c_out_ce c) (c_in_len c) (c_in_obj c) (c_netbuf_out c) (c_work c) (c_freed c) (c_rx c) (c_eof c) (c_tx c).
Definition set_c_var_len (x : Z) (c : client) : client :=
  mkCli (c_state c) (c_user c) (c_table_len c) (c_table_id c) (c_table c) (c_ssl c) (c_read_want_write c) (c_write_want_read c) (c_first_req c) (c_write_q c) (c_writing c) (c_ev_mask c) (c_creq c) (c_getpart c) (c_req_used c) (c_req_ptr c) (c_key_len c) x (c_second_var c) (c_key c) (c_key2 c) (c_out_user c) (c_out_hash c) (c_out_len c) (c_out_bo c) (c_out_ce c) (c_in_len c) (c_in_obj c) (c_netbuf_out c) (c_work c) (c_freed c) (c_rx c) (c_eof c) (c_tx c).
Definition set_c_second_var (x : bool) (c : client) : client :=
  mkCli (c_state c) (c_user c) (c_table_len c) (c_table_id c) (c_table c) (c_ssl c) (c_read_want_write c) (c_write_want_read c) (c_first_req c) (c_write_q c) (c_writing c) (c_ev_mask c) (c_creq c) (c_getpart c) (c_req_used c) (c_req_ptr c) (c_key_len c) (c_var_len c) x (c_key c) (c_key2 c) (c_out_user c) (c_out_hash c) (c_out_len c) (c_out_bo c) (c_out_ce c) (c_in_len c) (c_in_obj c) (c_netbuf_out c) (c_work c) (c_freed c) (c_rx c) (c_eof c) (c_tx c).
Definition set_c_key (x : bytes) (c : client) : client :=
  mkCli (c_state c) (c_user c) (c_table_len c) (c_table_id c) (c_table c) (c_ssl c) (c_read_want_write c) (c_write_want_read c) (c_first_req c) (c_write_q c) (c_writing c) (c_ev_mask c) (c_creq c) (c_getpart c) (c_req_used c) (c_req_ptr c) (c_key_len c) (c_var_len c) (c_second_var c) x (c_key2 c) (c_out_user c) (c_out_hash c) (c_out_len c) (c_out_bo c) (c_out_ce c) (c_in_len c) (c_in_obj c) (c_netbuf_out c) (c_work c) (c_freed c) (c_rx c) (c_eof c) (c_tx c).
Definition set_c_key2 (x : bytes) (c : client) : client :=
  mkCli (c_state c) (c_user c) (c_table_len c) (c_table_id c) (c_table c) (c_ssl c) (c_read_want_write c) (c_write_want_read c) (c_first_req c) (c_write_q c) (c_writing c) (c_ev_mask c) (c_creq c) (c_getpart c) (c_req_used c) (c_req_ptr c) (c_key_len c) (c_var_len c) (c_second_var c) (c_key c) x (c_out_user c) (c_out_hash c) (c_out_len c) (c_out_bo c) (c_out_ce c) (c_in_len c) (c_in_obj c) (c_netbuf_out c) (c_work c) (c_freed c) (c_rx c) (c_eof c) (c_tx c).
Definition set_c_out_user (x : option bytes) (c : client) : client :=
  mkCli (c_state c) (c_user c) (c_table_len c) (c_table_id c) (c_table c) (c_ssl c) (c_read_want_write c) (c_write_want_read c) (c_first_req c) (c_write_q c) (c_writing c) (c_ev_mask c) (c_creq c) (c_getpart c) (c_req_used c) (c_req_ptr c) (c_key_len c) (c_var_len c) (c_second_var c) (c_key c) (c_key2 c) x (c_out_hash c) (c_out_len c) (c_out_bo c) (c_out_ce c) (c_in_len c) (c_in_obj c) (c_netbuf_out c) (c_work c) (c_freed c) (c_rx c) (c_eof c) (c_tx c).
Definition set_c_out_hash (x : bytes) (c : client) : client :=
  mkCli (c_state c) (c_user c) (c_table_len c) (c_table_id c) (c_table c) (c_ssl c) (c_read_want_write c) (c_write_want_read c) (c_first_req c) (c_write_q c) (c_writing c) (c_ev_mask c) (c_creq c) (c_getpart c) (c_req_used c) (c_req_ptr c) (c_key_len c) (c_var_len c) (c_second_var c) (c_key c) (c_key2 c) (c_out_user c) x (c_out_len c) (c_out_bo c) (c_out_ce c) (c_in_len c) (c_in_obj c) (c_netbuf_out c) (c_work c) (c_freed c) (c_rx c) (c_eof c) (c_tx c).
Definition set_c_out_len (x : Z) (c : client) : client :=
  mkCli (c_state c) (c_user c) (c_table_len c) (c_table_id c) (c_table c) (c_ssl c) (c_read_want_write c) (c_write_want_read c) (c_first_req c) (c_write_q c) (c_writing c) (c_ev_mask c) (c_creq c) (c_getpart c) (c_req_used c) (c_req_ptr c) (c_key_len c) (c_var_len c) (c_second_var c) (c_key c) (c_key2 c) (c_out_user c) (c_out_hash c) x (c_out_bo c) (c_out_ce c) (c_in_len c) (c_in_obj c) (c_netbuf_out c) (c_work c) (c_freed c) (c_rx c) (c_eof c) (c_tx c).
Definition set_c_out_bo (x : option fs_obj) (c : client) : client :=
  mkCli (c_state c) (c_user c) (c_table_len c) (c_table_id c) (c_table c) (c_ssl c) (c_read_want_write c) (c_write_want_read c) (c_first_req c) (c_write_q c) (c_writing c) (c_ev_mask c) (c_creq c) (c_getpart c) (c_req_used c) (c_req_ptr c) (c_key_len c) (c_var_len c) (c_second_var c) (c_key c) (c_key2 c) (c_out_user c) (c_out_hash c) (c_out_len c) x (c_out_ce c) (c_in_len c) (c_in_obj c) (c_netbuf_out c) (c_work c) (c_freed c) (c_rx c) (c_eof c) (c_tx c).
Definition set_c_out_ce (x : option nat) (c : client) : client :=
  mkCli (c_state c) (c_user c) (c_table_len c) (c_table_id c) (c_table c) (c_ssl c) (c_read_want_write c) (c_write_want_read c) (c_first_req c) (c_write_q c) (c_writing c) (c_ev_mask c) (c_creq c) (c_getpart c) (c_req_used c) (c_req_ptr c) (c_key_len c) (c_var_len c) (c_second_var c) (c_key c) (c_key2 c) (c_out_user c) (c_out_hash c) (c_out_len c) (c_out_bo c) x (c_in_len c) (c_in_obj c) (c_netbuf_out c) (c_work c) (c_freed c) (c_rx c) (c_eof c) (c_tx c).
Definition set_c_in_len (x : Z) (c : client) : client :=
  mkCli (c_state c) (c_user c) (c_table_len c) (c_table_id c) (c_table c) (c_ssl c) (c_read_want_write c) (c_write_want_read c) (c_first_req c) (c_write_q c) (c_writing c) (c_ev_mask c) (c_creq c) (c_getpart c) (c_req_used c) (c_req_ptr c) (c_key_len c) (c_var_len c) (c_second_var c) (c_key c) (c_key2 c) (c_out_user c) (c_out_hash c) (c_out_len c) (c_out_bo c) (c_out_ce c) x (c_in_obj c) (c_netbuf_out c) (c_work c) (c_freed c) (c_rx c) (c_eof c) (c_tx c).
Definition set_c_in_obj (x : option fs_obj) (c : client) : client :=
  mkCli (c_state c) (c_user c) (c_table_len c) (c_table_id c) (c_table c) (c_ssl c) (c_read_want_write c) (c_write_want_read c) (c_first_req c) (c_write_q c) (c_writing c) (c_ev_mask c) (c_creq c) (c_getpart c) (c_req_used c) (c_req_ptr c) (c_key_len c) (c_var_len c) (c_second_var c) (c_key c) (c_key2 c) (c_out_user c) (c_out_hash c) (c_out_len c) (c_out_bo c) (c_out_ce c) (c_in_len c) x (c_netbuf_out c) (c_work c) (c_freed c) (c_rx c) (c_eof c) (c_tx c).
Definition set_c_netbuf_out (x : bytes) (c : client) : client :=
  mkCli (c_state c) (c_user c) (c_table_len c) (c_table_id c) (c_table c) (c_ssl c) (c_read_want_write c) (c_write_want_read c) (c_first_req c) (c_write_q c) (c_writing c) (c_ev_mask c) (c_creq c) (c_getpart c) (c_req_used c) (c_req_ptr c) (c_key_len c) (c_var_len c) (c_second_var c) (c_key c) (c_key2 c) (c_out_user c) (c_out_hash c) (c_out_len c) (c_out_bo c) (c_out_ce c) (c_in_len c) (c_in_obj c) x (c_work c) (c_freed c) (c_rx c) (c_eof c) (c_tx c).
Definition set_c_work (x : bool) (c : client) : client :=
  mkCli (c_state c) (c_user c) (c_table_len c) (c_table_id c) (c_table c) (c_ssl c) (c_read_want_write c) (c_write_want_read c) (c_first_req c) (c_write_q c) (c_writing c) (c_ev_mask c) (c_creq c) (c_getpart c) (c_req_used c) (c_req_ptr c) (c_key_len c) (c_var_len c) (c_second_var c) (c_key c) (c_key2 c) (c_out_user c) (c_out_hash c) (c_out_len c) (c_out_bo c) (c_out_ce c) (c_in_len c) (c_in_obj c) (c_netbuf_out c) x (c_freed c) (c_rx c) (c_eof c) (c_tx c).
Definition set_c_freed (x : bool) (c : client) : client :=
  mkCli (c_state c) (c_user c) (c_table_len c) (c_table_id c) (c_table c) (c_ssl c) (c_read_want_write c) (c_write_want_read c) (c_first_req c) (c_write_q c) (c_writing c) (c_ev_mask c) (c_creq c) (c_getpart c) (c_req_used c) (c_req_ptr c) (c_key_len c) (c_var_len c) (c_second_var c) (c_key c) (c_key2 c) (c_out_user c) (c_out_hash c) (c_out_len c) (c_out_bo c) (c_out_ce c) (c_in_len c) (c_in_obj c) (c_netbuf_out c) (c_work c) x (c_rx c) (c_eof c) (c_tx c).
Definition set_c_rx (x : bytes) (c : client) : client :=
  mkCli (c_state c) (c_user c) (c_table_len c) (c_table_id c) (c_table c) (c_ssl c) (c_read_want_write c) (c_write_want_read c) (c_first_req c) (c_write_q c) (c_writing c) (c_ev_mask c) (c_creq c) (c_getpart c) (c_req_used c) (c_req_ptr c) (c_key_len c) (c_var_len c) (c_second_var c) (c_key c) (c_key2 c) (c_out_user c) (c_out_hash c) (c_out_len c) (c_out_bo c) (c_out_ce c) (c_in_len c) (c_in_obj c) (c_netbuf_out c) (c_work c) (c_freed c) x (c_eof c) (c_tx c).
Definition set_c_eof (x : bool) (c : client) : client :=
  mkCli (c_state c) (c_user c) (c_table_len c) (c_table_id c) (c_table c) (c_ssl c) (c_read_want_write c) (c_write_want_read c) (c_first_req c) (c_write_q c) (c_writing c) (c_ev_mask c) (c_creq c) (c_getpart c) (c_req_used c) (c_req_ptr c) (c_key_len c) (c_var_len c) (c_second_var c) (c_key c) (c_key2 c) (c_out_user c) (c_out_hash c) (c_out_len c) (c_out_bo c) (c_out_ce c) (c_in_len c) (c_in_obj c) (c_netbuf_out c) (c_work c) (c_freed c) (c_rx c) x (c_tx c).
Definition set_c_tx (x : bytes) (c : client) : client :=
  mkCli (c_state c) (c_user c) (c_table_len c) (c_table_id c) (c_table c) (c_ssl c) (c_read_want_write c) (c_write_want_read c) (c_first_req c) (c_write_q c) (c_writing c) (c_ev_mask c) (c_creq c) (c_getpart c) (c_req_used c) (c_req_ptr c) (c_key_len c) (c_var_len c) (c_second_var c) (c_key c) (c_key2 c) (c_out_user c) (c_out_hash c) (c_out_len c) (c_out_bo c) (c_out_ce c) (c_in_len c) (c_in_obj c) (c_netbuf_out c) (c_work c) (c_freed c) (c_rx c) (c_eof c) x.

(** [struct server], what connections share; [H]: the table of tables. *)
Record server (H : Type) : Type := mkSrv {
  v_hdb : H; v_actives : objcache; v_trash_sz : Z; v_opt_write : Z; v_chk_state : chk_state; v_chk_done : Z; v_chk_pipe : list Z; v_chk_users : list bytes }.
Arguments mkSrv {H}.
Arguments v_hdb {H}.
Arguments v_actives {H}.
Arguments v_trash_sz {H}.
Arguments v_opt_write {H}.
Arguments v_chk_state {H}.
Arguments v_chk_done {H}.
Arguments v_chk_pipe {H}.
Arguments v_chk_users {H}.

Definition set_v_hdb {H} (x : H) (v : server H) : server H :=
  mkSrv x (v_actives v) (v_trash_sz v) (v_opt_write v) (v_chk_state v) (v_chk_done v) (v_chk_pipe v) (v_chk_users v).
Definition set_v_actives {H} (x : objcache) (v : server H) : server H :=
  mkSrv (v_hdb v) x (v_trash_sz v) (v_opt_write v) (v_chk_state v) (v_chk_done v) (v_chk_pipe v) (v_chk_users v).
Definition set_v_trash_sz {H} (x : Z) (v : server H) : server H :=
  mkSrv (v_hdb v) (v_actives v) x (v_opt_write v) (v_chk_state v) (v_chk_done v) (v_chk_pipe v) (v_chk_users v).
Definition set_v_opt_write {H} (x : Z) (v : server H) : server H :=
  mkSrv (v_hdb v) (v_actives v) (v_trash_sz v) x (v_chk_state v) (v_chk_done v) (v_chk_pipe v) (v_chk_users v).
Definition set_v_chk_state {H} (x : chk_state) (v : server H) : server H :=
  mkSrv (v_hdb v) (v_actives v) (v_trash_sz v) (v_opt_write v) x (v_chk_done v) (v_chk_pipe v) (v_chk_users v).
Definition set_v_chk_done {H} (x : Z) (v : server H) : server H :=
  mkSrv (v_hdb v) (v_actives v) (v_trash_sz v) (v_opt_write v) (v_chk_state v) x (v_chk_pipe v) (v_chk_users v).
Definition set_v_chk_pipe {H} (x : list Z) (v : server H) : server H :=
  mkSrv (v_hdb v) (v_actives v) (v_trash_sz v) (v_opt_write v) (v_chk_state v) (v_chk_done v) x (v_chk_users v).
Definition set_v_chk_users {H} (x : list bytes) (v : server H) : server H :=
  mkSrv (v_hdb v) (v_actives v) (v_trash_sz v) (v_opt_write v) (v_chk_state v) (v_chk_done v) (v_chk_pipe v) x.

(** ** The monad *)

Record cst (H : Type) : Type := mkCst { st_cli : client; st_srv : server H; st_fs : fsys }.
Arguments mkCst {H}.
Arguments st_cli {H}.
Arguments st_srv {H}.
Arguments st_fs {H}.

Definition C (H A : Type) : Type := cst H -> option (A * cst H).
#[global] Instance C_ret {H} : MRet (C H) := fun A a s => Some (a, s).
#[global] Instance C_bind {H} : MBind (C H) := fun A B k m s =>
  match m s with
  | Some (a, s') => k a s'
  | None => None
  end.

Definition c_ub {H A} : C H A := fun _ => None.
Definition get_cli {H} : C H client := fun s => Some (st_cli s, s).
Definition get_srv {H} : C H (server H) := fun s => Some (st_srv s, s).
Definition upd_cli {H} (f : client -> client) : C H unit := fun s => Some (tt, mkCst (f (st_cli s)) (st_srv s) (st_fs s)).
Definition upd_srv {H} (f : server H -> server H) : C H unit := fun s => Some (tt, mkCst (st_cli s) (f (st_srv s)) (st_fs s)).
Definition fs_do {H A} (m : F A) : C H A := fun s =>
  match m (st_fs s) with
  | Some (a, f) => Some (a, mkCst (st_cli s) (st_srv s) f)
  | None => None
  end.
Definition malloc_ok {H} : C H bool := fs_do f_malloc_ok.
Definition nondet {H} : C H Z := fs_do f_nondet.

Section chunkd.
Context {H : Type} {HD : TcHdb H} {SH : Sha} {SG : Sig} {TX : Text} {RD : Readdir}.
Variable vol_path : bytes.
Variable garbage : Z -> bytes.

Abbreviation M := (C H).

Definition set_state (s : client_state) : M unit := upd_cli (set_c_state s).

(** ** Events of the socket *)

Definition cli_ev_update (new_mask : Z) : M unit := upd_cli (set_c_ev_mask new_mask).

Definition cli_rd_set_poll (readable : bool) : M unit :=
  c ← get_cli;
  cli_ev_update (if readable then Z.lor (c_ev_mask c) EV_READ else Z.land (c_ev_mask c) (Z.lnot EV_READ)).

Definition cli_wr_set_poll (writable : bool) : M unit :=
  c ← get_cli;
  cli_ev_update (if writable then Z.lor (c_ev_mask c) EV_WRITE else Z.land (c_ev_mask c) (Z.lnot EV_WRITE)).

(** ** Object transfers in progress *)

Definition cli_out_end : M unit :=
  c ← get_cli;
  _ ← (match c_out_bo c with
       | Some o => _ ← fs_do (fs_obj_free o); upd_cli (set_c_out_bo None)
       | None => mret tt
       end);
  _ ← (match c_out_ce c with
       | Some p =>
           v ← get_srv;
           match objcache_put p (v_actives v) with
           | None => c_ub
           | Some a => _ ← upd_srv (set_v_actives a); upd_cli (set_c_out_ce None)
           end
       | None => mret tt
       end);
  upd_cli (set_c_out_user None).

Definition cli_in_end : M unit :=
  c ← get_cli;
  match c_in_obj c with
  | Some o => _ ← fs_do (fs_obj_free o); upd_cli (set_c_in_obj None)
  | None => mret tt
  end.

(** ** The write queue *)

(** 0 or a negated errno; [buf] of [buflen] bytes. *)
Definition cli_writeq (buf : wbuf) (buflen : Z) (cb : cli_write_func) : M Z :=
  if buflen =? 0 then mret (- EINVAL) else
  v ← get_srv;
  ok ← (if v_trash_sz v =? 0 then malloc_ok else _ ← upd_srv (set_v_trash_sz (v_trash_sz v - 1)); mret true);
  if negb ok then mret (- ENOMEM) else
  c ← get_cli;
  _ ← upd_cli (set_c_write_q (c_write_q c ++ [mkWr buf buflen cb false]));
  mret 0.

Definition cli_wr_sendfile (cb : cli_write_func) : M bool :=
  ok ← malloc_ok;
  if negb ok then mret false else
  c ← get_cli;
  _ ← upd_cli (set_c_write_q (c_write_q c ++ [mkWr WNull (c_in_len c) cb true]));
  mret true.

Definition use_sendfile (c : client) : bool := negb (c_ssl c).

Definition object_read_bytes : M bool :=
  c ← get_cli;
  if use_sendfile c then cli_wr_sendfile cb_get_more else
  match c_in_obj c with
  | None => c_ub
  | Some o =>
      r ← fs_do (fs_obj_read o (Z.min (c_in_len c) CLI_DATA_BUF_SZ));
      _ ← upd_cli (set_c_in_obj (Some r.2));
      match r.1 with
      | Err _ => mret false
      | Ok b =>
          let n := Z.of_nat (length b) in
          _ ← upd_cli (set_c_netbuf_out (splice 0 b (c_netbuf_out c)));
          if (n =? 0) && negb (c_in_len c =? 0) then mret false else
          let in_len := c_in_len c - n in
          _ ← upd_cli (set_c_in_len in_len);
          _ ← (if in_len =? 0 then cli_in_end else mret tt);
          rc ← cli_writeq (WNet 0) n (if in_len =? 0 then cb_none else cb_get_more);
          mret (rc =? 0)
      end
  end.

Definition object_get_more (done : bool) : M bool :=
  if negb done then mret false else
  c ← get_cli;
  if c_in_len c =? 0 then _ ← cli_in_end; mret true else
  ok ← object_read_bytes;
  if ok : bool then mret true else _ ← cli_in_end; mret false.

Definition run_wr_cb (wr : client_write) (done : bool) : M bool :=
  match wr_cb wr with
  | cb_none => mret false
  | cb_free => match wr_buf wr with WDead => c_ub | _ => mret false end
  | cb_get_more => object_get_more done
  end.

(** The first record of the queue, which its callback still sees there. *)
Definition cli_write_free (wr : client_write) (done : bool) : M bool :=
  rcb ← run_wr_cb wr done;
  c ← get_cli;
  _ ← upd_cli (set_c_write_q (tail (c_write_q c)));
  v ← get_srv;
  _ ← (if v_trash_sz v <? CHD_TRASH_MAX then upd_srv (set_v_trash_sz (v_trash_sz v + 1)) else mret tt);
  mret rcb.

(** One round per record; a callback that is not told of success adds none. *)
Fixpoint free_all (fuel : nat) : M unit :=
  c ← get_cli;
  match c_write_q c, fuel with
  | [], _ => mret tt
  | _, O => c_ub
  | wr :: _, S fuel => _ ← cli_write_free wr false; free_all fuel
  end.
Definition cli_write_free_all : M unit := c ← get_cli; free_all (length (c_write_q c)).

(** What [n] bytes at a record's buffer are; [None] is a fault of the kernel
    copying from NULL, [c_ub] use of freed memory. *)
Definition wr_bytes (c : client) (wr : client_write) : M (option bytes) :=
  match wr_buf wr with
  | WMem b => mret (Some b)
  | WNet ofs => mret (Some (take (Z.to_nat (wr_len wr)) (drop (Z.to_nat ofs) (c_netbuf_out c))))
  | WNull => mret None
  | WDead => c_ub
  end.

Fixpoint cli_wr_iov (q : list client_write) (max_iov : nat) (total : Z) : list client_write :=
  match q, max_iov with
  | [], _ | _, O => []
  | wr :: q, S max_iov =>
      if (2 ^ 63 - 1 <? wr_len wr) || (u64 (total + wr_len wr) <? total) then []
      else wr :: cli_wr_iov q max_iov (total + wr_len wr)
  end.

(** The bytes [writev] can get at: up to the first that faults. *)
Fixpoint iov_bytes (c : client) (iov : list client_write) : M bytes :=
  match iov with
  | [] => mret []
  | wr :: iov =>
      b ← wr_bytes c wr;
      match b with
      | None => mret []
      | Some b => rest ← iov_bytes c iov; mret (b ++ rest)
      end
  end.

Definition sent (b : bytes) : M unit := c ← get_cli; upd_cli (set_c_tx (c_tx c ++ b)).

(** The number of bytes written (at least one), or an errno. *)
Definition sys_writev (iov : list client_write) : M (res Z) :=
  c ← get_cli;
  b ← iov_bytes c iov;
  x ← nondet;
  if x <? 0 then mret (Err (- x)) else
  if (length b =? 0)%nat then mret (Err 14) else
  let b := take (Z.to_nat (Z.max x 1)) b in
  _ ← sent b;
  mret (Ok (Z.of_nat (length b))).

Inductive ssl_result : Type := SslOk (n : Z) | SslWantRead | SslWantWrite | SslErr.

Definition SSL_write (wr : client_write) : M ssl_result :=
  c ← get_cli;
  b ← wr_bytes c wr;
  match b with
  | None => c_ub
  | Some b =>
      x ← nondet;
      if x =? 0 then mret SslWantWrite else
      if x =? -1 then mret SslWantRead else
      if x <? 0 then mret SslErr else
      let b := take (Z.to_nat x) b in
      _ ← sent b;
      mret (SslOk (Z.of_nat (length b)))
  end.

(** [len] and [buf] of the first record move on by [sz]. *)
Definition wr_advance (sz : Z) (wr : client_write) : client_write :=
  mkWr (match wr_buf wr with
        | WMem b => WMem (drop (Z.to_nat sz) b)
        | WNet ofs => WNet (ofs + sz)
        | b => b
        end) (wr_len wr - sz) (wr_cb wr) (wr_sendfile wr).

(** The completion loop; the fuel is [rc], of which every round takes some. *)
Fixpoint wr_completed (fuel : nat) (rc : Z) (more_work : bool) : M bool :=
  if rc <=? 0 then mret more_work else
  match fuel with
  | O => c_ub
  | S fuel =>
      c ← get_cli;
      match c_write_q c with
      | [] => c_ub
      | wr :: q =>
          let sz := if wr_len wr <? rc then wr_len wr else rc in
          let wr := wr_advance sz wr in
          _ ← upd_cli (set_c_write_q (wr :: q));
          if wr_len wr =? 0 then
            b ← cli_write_free wr true;
            wr_completed fuel (rc - sz) (b || more_work)
          else wr_completed fuel (rc - sz) more_work
      end
  end.
Definition cli_wr_completed (rc : Z) : M bool := wr_completed (Z.to_nat rc) rc false.

(** How one write went. *)
Inductive wr_result : Type := WrOk (n : Z) | WrWait | WrErr.

Definition do_write (wr : client_write) : M wr_result :=
  c ← get_cli;
  if wr_sendfile wr then
    match c_in_obj c with
    | None => c_ub
    | Some o =>
        r ← fs_do (fs_obj_sendfile o (Z.min (c_in_len c) CLI_MAX_SENDFILE_SZ));
        _ ← upd_cli (set_c_in_obj (Some r.2));
        match r.1 with
        | Err _ => mret WrErr
        | Ok b =>
            _ ← sent b;
            _ ← upd_cli (set_c_in_len (c_in_len c - Z.of_nat (length b)));
            mret (WrOk (Z.of_nat (length b)))
        end
    end
  else if c_ssl c then
    r ← SSL_write wr;
    match r with
    | SslOk n => mret (WrOk n)
    | SslWantRead => _ ← upd_cli (set_c_write_want_read true); mret WrWait
    | SslWantWrite => mret WrWait
    | SslErr => mret WrErr
    end
  else
    r ← sys_writev (cli_wr_iov (c_write_q c) CLI_MAX_WR_IOV 0);
    mret (match r with
          | Ok n => WrOk n
          | Err e => if e =? EAGAIN then WrWait else WrErr
          end).

(** From [restart] on: every round writes a byte of the queue or of the object
    being sent, so their number is fuel enough. *)
Fixpoint writable_loop (fuel : nat) : M unit :=
  match fuel with
  | O => c_ub
  | S fuel =>
      c ← get_cli;
      match c_write_q c with
      | [] => c_ub
      | wr :: _ =>
          r ← do_write wr;
          match r with
          | WrWait => mret tt
          | WrErr => _ ← set_state evt_dispose; cli_write_free_all
          | WrOk rc =>
              more_work ← cli_wr_completed rc;
              c ← get_cli;
              match c_write_q c with
              | [] => _ ← upd_cli (set_c_writing false); cli_wr_set_poll false
              | _ => if more_work : bool then writable_loop fuel else mret tt
              end
          end
      end
  end.

Definition wq_len (q : list client_write) : Z := foldr (fun wr n => wr_len wr + n) 0 q.

Definition cli_writable : M unit :=
  c ← get_cli;
  writable_loop (S (Z.to_nat (wq_len (c_write_q c) + c_in_len c))).

Definition cli_write_start : M bool :=
  c ← get_cli;
  match c_write_q c with
  | [] => mret true
  | _ =>
      if c_writing c then mret false else
      _ ← cli_writable;
      c ← get_cli;
      match c_write_q c with
      | [] => v ← get_srv; _ ← upd_srv (set_v_opt_write (v_opt_write v + 1)); mret true
      | _ => _ ← cli_wr_set_poll true; _ ← upd_cli (set_c_writing true); mret false
      end
  end.

(** ** Responses *)

Definition write_mem (b : bytes) : M Z := cli_writeq (WMem b) (Z.of_nat (length b)) cb_free.

Definition cli_err (code : chunk_errcode) (recycle_ok : bool) : M bool :=
  ok ← malloc_ok;
  if negb ok then _ ← set_state evt_dispose; mret true else
  c ← get_cli;
  let r := resp_init_req (c_creq c) in
  let r := mkResp (r_magic r) (errcode code) (r_flags r) (r_nonce r) (r_data_len r) (r_hash r) in
  _ ← set_state (if recycle_ok then evt_recycle else evt_dispose);
  rc ← write_mem (enc_resp r);
  if negb (rc =? 0) then mret true else cli_write_start.

Definition strlist_len (l : list bytes) : Z := foldr (fun s n => Z.of_nat (length s) + n) 0 l.

Fixpoint cli_write_list (l : list bytes) : M Z :=
  match l with
  | [] => mret 0
  | s :: l => rc ← write_mem s; if negb (rc =? 0) then mret rc else cli_write_list l
  end.

Definition cli_resp_xml (content : list bytes) : M bool :=
  ok ← malloc_ok;
  if negb ok then _ ← set_state evt_dispose; mret true else
  c ← get_cli;
  let r := resp_init_req (c_creq c) in
  let r := mkResp (r_magic r) (r_code r) (r_flags r) (r_nonce r) (strlist_len content) (r_hash r) in
  _ ← set_state evt_recycle;
  rc ← write_mem (enc_resp r);
  if negb (rc =? 0) then _ ← set_state evt_dispose; mret true else
  rc ← cli_write_list content;
  if negb (rc =? 0) then _ ← set_state evt_dispose; mret true else
  rcb ← cli_write_start;
  c ← get_cli;
  mret (if bool_decide (c_state c = evt_recycle) then true else rcb).

Definition cli_resp_bin (data : bytes) : M bool :=
  ok ← malloc_ok;
  if negb ok then _ ← set_state evt_dispose; mret true else
  ok ← malloc_ok;
  if negb ok then _ ← set_state evt_dispose; mret true else
  c ← get_cli;
  let r := resp_init_req (c_creq c) in
  let r := mkResp (r_magic r) (r_code r) (r_flags r) (r_nonce r) (Z.of_nat (length data)) (r_hash r) in
  _ ← set_state evt_recycle;
  rc ← write_mem (enc_resp r);
  if negb (rc =? 0) then _ ← set_state evt_dispose; mret true else
  rc ← write_mem data;
  if negb (rc =? 0) then _ ← set_state evt_dispose; mret true else
  rcb ← cli_write_start;
  c ← get_cli;
  mret (if bool_decide (c_state c = evt_recycle) then true else rcb).

(** ** Object requests (chunkd/object.c) *)

Definition the_key (c : client) : bytes := take (Z.to_nat (c_key_len c)) (c_key c).
Definition the_user (c : client) : bytes := cstr (c_user c).

Definition object_del : M bool :=
  ok ← malloc_ok;
  if negb ok then _ ← set_state evt_dispose; mret true else
  c ← get_cli;
  r ← fs_do (fs_obj_delete vol_path (c_table_id c) (the_user c) (the_key c));
  if negb r.1 then cli_err r.2 true else
  rc ← write_mem (enc_resp (resp_init_req (c_creq c)));
  if negb (rc =? 0) then mret true else cli_write_start.

Definition object_put_end : M bool :=
  ok ← malloc_ok;
  if negb ok then _ ← set_state evt_dispose; mret true else
  c ← get_cli;
  let r := resp_init_req (c_creq c) in
  _ ← set_state evt_recycle;
  let md := SHA1 (c_out_hash c) in
  match c_out_bo c, c_out_user c with
  | Some o, Some user =>
      q ← fs_do (fs_obj_write_commit o user md (flag (req_flags (c_creq c)) CHF_SYNC));
      _ ← upd_cli (set_c_out_bo (Some q.2));
      _ ← cli_out_end;
      if negb q.1 then cli_err che_InternalError true else
      rc ← write_mem (enc_resp (mkResp (r_magic r) (r_code r) (r_flags r) (r_nonce r) (r_data_len r) md));
      if negb (rc =? 0) then mret true else cli_write_start
  | _, _ => c_ub
  end.

(** What a read from the socket gives. *)
Inductive rd_result : Type := RdData (b : bytes) | RdEof | RdAgain | RdWantWrite | RdErr (e : Z).

Definition net_take (n x : Z) : M rd_result :=
  c ← get_cli;
  match c_rx c with
  | [] => mret (if c_eof c then RdEof else RdAgain)
  | _ =>
      let k := Z.to_nat (Z.min (Z.min n 0x7ffff000) (Z.max x 1)) in
      _ ← upd_cli (set_c_rx (drop k (c_rx c)));
      mret (RdData (take k (c_rx c)))
  end.

(** [read], or [SSL_read] with its error looked up. *)
Definition net_read (n : Z) : M rd_result :=
  c ← get_cli;
  x ← nondet;
  if c_ssl c then
    if x =? 0 then mret RdAgain else
    if x =? -1 then mret RdWantWrite else
    if x <? 0 then mret (RdErr EIO) else net_take n x
  else
    if x <? 0 then mret (if - x =? EAGAIN then RdAgain else RdErr (- x)) else net_take n x.

(** [fs_obj_write] until all of [p] is written. *)
Fixpoint data_in_loop (fuel : nat) (p : bytes) : M bool :=
  match p, fuel with
  | [], _ => mret true
  | _, O => c_ub
  | _, S fuel =>
      c ← get_cli;
      match c_out_bo c with
      | None => c_ub
      | Some o =>
          r ← fs_do (fs_obj_write o p);
          _ ← upd_cli (set_c_out_bo (Some r.2));
          if r.1 <? 0 then mret false else
          let k := Z.to_nat r.1 in
          _ ← upd_cli (set_c_out_hash (c_out_hash c ++ take k p));
          _ ← upd_cli (set_c_out_len (c_out_len c - r.1));
          data_in_loop fuel (drop k p)
      end
  end.

Definition cli_evt_data_in : M bool :=
  c ← get_cli;
  if c_out_len c =? 0 then object_put_end else
  r ← net_read (Z.min (c_out_len c) CLI_DATA_BUF_SZ);
  match r with
  | RdEof => _ ← set_state evt_dispose; mret true
  | RdAgain => mret false
  | RdWantWrite => _ ← upd_cli (set_c_read_want_write true); _ ← cli_wr_set_poll true; mret false
  | RdErr _ =>
      _ ← (if c_ssl c then mret tt else cli_out_end);
      cli_err che_InternalError false
  | RdData p =>
      ok ← data_in_loop (length p) p;
      if negb ok then _ ← cli_out_end; cli_err che_InternalError false else
      c ← get_cli;
      if c_out_len c =? 0 then object_put_end else mret true
  end.

(** A reference to the entry of a key, marked as being written. *)
Definition out_ce_get (key : bytes) : M unit :=
  mem ← malloc_ok;
  v ← get_srv;
  match objcache_get mem key OC_F_DIRTY (v_actives v) with
  | None => c_ub
  | Some (p, a) => _ ← upd_srv (set_v_actives a); upd_cli (set_c_out_ce (Some p))
  end.

Definition object_put : M bool :=
  c ← get_cli;
  let content_len := req_data_len (c_creq c) in
  _ ← out_ce_get (the_key c);
  r ← fs_do (fs_obj_new vol_path garbage (c_table_id c) (the_key c) content_len);
  _ ← upd_cli (set_c_out_bo r.1);
  match r.1 with
  | None => cli_err r.2 true
  | Some _ =>
      _ ← upd_cli (set_c_out_hash []);
      _ ← upd_cli (set_c_out_len content_len);
      ok ← malloc_ok;
      _ ← upd_cli (set_c_out_user (if ok : bool then Some (the_user c) else None));
      if content_len =? 0 then object_put_end else
      _ ← set_state evt_data_in;
      mret true
  end.

Definition object_get (want_body : bool) : M bool :=
  ok ← malloc_ok;
  if negb ok then _ ← set_state evt_dispose; mret true else
  c ← get_cli;
  let r := resp_init_req (c_creq c) in
  q ← fs_do (fs_obj_open vol_path (c_table_id c) (the_user c) (the_key c));
  _ ← upd_cli (set_c_in_obj q.1);
  match q.1 with
  | None => cli_err q.2 true
  | Some obj =>
      _ ← upd_cli (set_c_in_len (bo_size obj));
      rc ← write_mem (enc_resp_get (mkResp (r_magic r) (r_code r) (r_flags r) (r_nonce r) (bo_size obj) (bo_hash obj)) (bo_mtime obj));
      if negb (rc =? 0) then mret true else
      if negb want_body || (bo_size obj =? 0) then _ ← cli_in_end; cli_write_start else
      ok ← object_read_bytes;
      if negb ok then _ ← cli_in_end; cli_err q.2 false else cli_write_start
  end.

Definition round_blk (n : Z) : Z :=
  if flag n (CHUNK_BLK_SZ - 1) then u64 (n + (CHUNK_BLK_SZ - Z.land n (CHUNK_BLK_SZ - 1))) else n.

(** The length of a part, and the aligned range around it. *)
Definition part_len (size offset data_len : Z) : Z :=
  let remain := u64 (size - offset) in
  let length := if (data_len =? 0) || (remain <? data_len) then remain else data_len in
  Z.min length (CHUNK_MAX_GETPART * CHUNK_BLK_SZ).
Definition part_ofs (offset : Z) : Z := Z.land offset (Z.lnot (CHUNK_BLK_SZ - 1)).
Definition part_span (size offset length : Z) : Z :=
  let aligned_ofs := part_ofs offset in
  Z.min (round_blk (u64 (length + (offset - aligned_ofs)))) (u64 (size - aligned_ofs)).

Definition object_get_part : M bool :=
  ok ← malloc_ok;
  if negb ok then _ ← set_state evt_dispose; mret true else
  c ← get_cli;
  let r := resp_init_req (c_creq c) in
  q ← fs_do (fs_obj_open vol_path (c_table_id c) (the_user c) (the_key c));
  _ ← upd_cli (set_c_in_obj q.1);
  match q.1 with
  | None => cli_err q.2 true
  | Some obj =>
      let size := bo_size obj in
      _ ← upd_cli (set_c_in_len size);
      let offset := le_val (c_getpart c) in
      if size <? offset then cli_err che_InvalidSeek true else
      let length := part_len size offset (req_data_len (c_creq c)) in
      let aligned_ofs := part_ofs offset in
      let aligned_len := part_span size offset length in
      let answer mem :=
        let r := mkResp (r_magic r) (r_code r) (if length =? u64 (size - offset) then CHF_GET_PART_LAST else 0)
                   (r_nonce r) length (SHA1 mem) in
        rc ← write_mem (enc_resp_get r (bo_mtime obj));
        if negb (rc =? 0) then mret true else
        rc ← (if length =? 0 then mret 0
              else cli_writeq (WMem (take (Z.to_nat length) (drop (Z.to_nat (offset - aligned_ofs)) mem))) length cb_free);
        if negb (rc =? 0) then
          (* the response is freed while it is in the queue *)
          c ← get_cli;
          _ ← upd_cli (set_c_write_q (removelast (c_write_q c) ++ [mkWr WDead 56 cb_free false]));
          mret true
        else _ ← cli_in_end; cli_write_start in
      if length =? 0 then
        (* SHA1 of NULL *)
        if 0 <? aligned_len then c_ub else answer []
      else
        s ← fs_do (fs_obj_seek obj aligned_ofs);
        _ ← upd_cli (set_c_in_obj (Some s.2));
        if negb (s.1 =? 0) then cli_err che_InvalidSeek true else
        ok ← malloc_ok;
        if negb ok then cli_err q.2 true else
        m ← fs_do (fs_obj_read s.2 aligned_len);
        _ ← upd_cli (set_c_in_obj (Some m.2));
        match m.1 with
        | Err _ => cli_err q.2 true
        | Ok mem => if negb (Z.of_nat (List.length mem) =? aligned_len) then cli_err q.2 true else answer mem
        end
  end.

(** [worker_cp_thr] after the destination is open; [false]: [goto err_out]. *)
Fixpoint cp_write (fuel : nat) (buf : bytes) (rrc : Z) : M bool :=
  if rrc <=? 0 then mret true else
  match fuel with
  | O => c_ub
  | S fuel =>
      c ← get_cli;
      match c_out_bo c with
      | None => c_ub
      | Some o =>
          r ← fs_do (fs_obj_write o (take (Z.to_nat rrc) buf));
          _ ← upd_cli (set_c_out_bo (Some r.2));
          if r.1 <? 0 then mret false else cp_write fuel buf (rrc - r.1)
      end
  end.

Fixpoint cp_loop (fuel : nat) : M bool :=
  c ← get_cli;
  if c_in_len c <=? 0 then mret true else
  match fuel, c_in_obj c with
  | S fuel, Some obj =>
      r ← fs_do (fs_obj_read obj (Z.min (c_in_len c) CLI_DATA_BUF_SZ));
      _ ← upd_cli (set_c_in_obj (Some r.2));
      match r.1 with
      | Err _ => mret false
      | Ok buf =>
          let rrc := Z.of_nat (length buf) in
          if rrc =? 0 then mret true else
          _ ← upd_cli (set_c_out_hash (c_out_hash c ++ buf));
          _ ← upd_cli (set_c_in_len (c_in_len c - rrc));
          ok ← cp_write (length buf) buf rrc;
          if negb ok then mret false else cp_loop fuel
      end
  | _, _ => c_ub
  end.

(** [worker_cp_thr]: the error code handed to the event loop. *)
Definition worker_cp_thr : M chunk_errcode :=
  let out err := _ ← cli_in_end; _ ← cli_out_end; mret err in
  ok ← malloc_ok;
  if negb ok then out che_InternalError else
  c ← get_cli;
  q ← fs_do (fs_obj_open vol_path (c_table_id c) (the_user c) (take (Z.to_nat (c_var_len c)) (c_key2 c)));
  _ ← upd_cli (set_c_in_obj q.1);
  match q.1 with
  | None => out q.2
  | Some obj =>
      _ ← upd_cli (set_c_in_len (bo_size obj));
      _ ← out_ce_get (the_key c);
      r ← fs_do (fs_obj_new vol_path garbage (c_table_id c) (the_key c) (bo_size obj));
      _ ← upd_cli (set_c_out_bo r.1);
      match r.1 with
      | None => out r.2
      | Some _ =>
          _ ← upd_cli (set_c_out_hash []);
          ok ← cp_loop (S (Z.to_nat (bo_size obj)));
          if negb ok then out r.2 else
          c ← get_cli;
          match c_out_bo c with
          | None => c_ub
          | Some o =>
              w ← fs_do (fs_obj_write_commit o (the_user c) (SHA1 (c_out_hash c)) false);
              _ ← upd_cli (set_c_out_bo (Some w.2));
              out (if w.1 : bool then che_Success else r.2)
          end
      end
  end.

Definition object_cp : M bool :=
  _ ← cli_rd_set_poll false;
  ok ← malloc_ok;
  if negb ok then _ ← cli_rd_set_poll true; cli_err che_InternalError false else
  _ ← upd_cli (set_c_work true);
  mret false.

(** ** Requests about tables, users and the self-check *)

(** Text of a listing; [QT] is the quotation mark. *)
Definition CRLF : bytes := [13; 10].
Definition QT : bytes := [34].
Definition str (s : string) : bytes := (fun a => Z.of_N (Ascii.N_of_ascii a)) <$> String.list_ascii_of_string s.

Definition list_head : bytes :=
  str "<?xml version=" ++ QT ++ str "1.0" ++ QT ++ str " encoding=" ++ QT ++ str "UTF-8" ++ QT ++ str "?>" ++ CRLF ++
  str "<ListVolumeResult xmlns=" ++ QT ++ str "http://indy.yyz.us/doc/2006-03-01/" ++ QT ++ str ">" ++ CRLF ++
  str "  <Name>" ++ g_markup_escape (str "volume") ++ str "</Name>" ++ CRLF.

Definition list_entry (ve : volume_entry) : bytes :=
  str "  <Contents>" ++ CRLF ++
  str "    <Name>" ++ cstr (g_markup_escape (ve_key ve)) ++ str "</Name>" ++ CRLF ++
  str "    <LastModified>" ++ strftime (ve_mtime ve) ++ str "</LastModified>" ++ CRLF ++
  str "    <ETag>" ++ ve_hash ve ++ str "</ETag>" ++ CRLF ++
  str "    <Size>" ++ fmt_lu (ve_size ve) ++ str "</Size>" ++ CRLF ++
  str "    <Owner>" ++ ve_owner ve ++ str "</Owner>" ++ CRLF ++
  str "  </Contents>" ++ CRLF.

Definition volume_list : M bool :=
  c ← get_cli;
  res ← fs_do (fs_list_objs vol_path (c_table_id c) (the_user c));
  cli_resp_xml ([list_head] ++ (list_entry <$> res) ++ [str "</ListVolumeResult>" ++ CRLF]).

Definition volume_open : M bool :=
  c ← get_cli;
  v ← get_srv;
  let fl := req_flags (c_creq c) in
  r ← fs_do (fs_table_open vol_path (the_key c) (flag fl CHF_TBL_CREAT) (flag fl CHF_TBL_EXCL) (v_hdb v));
  let '(ok, id, err, hdb) := r in
  _ ← upd_srv (set_v_hdb hdb);
  _ ← (match id with Some id => upd_cli (set_c_table_id id) | None => mret tt end);
  if negb ok then cli_err err true else
  _ ← upd_cli (set_c_table (the_key c ++ replicate (Z.to_nat (CHD_KEY_SZ - c_key_len c)) 0));
  _ ← upd_cli (set_c_table_len (c_key_len c));
  cli_err err true.

(** The request with its signature blanked, the key and the part record. *)
Definition authcheck (q gpr key secret_key : bytes) : bool :=
  bool_decide (cstr (req_sig q) = cstr (chreq_sign (take 24 q ++ replicate CHD_SIG_SZ 0 ++ key ++ gpr) secret_key)).

Definition login_user : M bool :=
  c ← get_cli;
  if (c_key_len c <? 1) || (CHD_USER_SZ <? c_key_len c) then cli_err che_InvalidArgument false else
  let user := the_key c ++ replicate (Z.to_nat (CHD_USER_SZ + 1 - c_key_len c)) 0 in
  _ ← upd_cli (set_c_user user);
  if negb (authcheck (c_creq c) (c_getpart c) (the_key c) user) then
    _ ← set_state evt_dispose;
    cli_err che_SignatureDoesNotMatch false
  else cli_err che_Success true.

Definition chk_user_authorized (user : bytes) (users : list bytes) : bool := existsb (fun s => bool_decide (user = s)) users.

(** [chk_spawn] fails as the oracle says. *)
Definition chk_start : M bool :=
  c ← get_cli;
  v ← get_srv;
  if negb (chk_user_authorized (the_user c) (v_chk_users v)) then cli_err che_AccessDenied true else
  let rescan := v ← get_srv; _ ← upd_srv (set_v_chk_pipe (v_chk_pipe v ++ [1])); cli_err che_Success true in
  match v_chk_state v with
  | CHK_ST_OFF =>
      _ ← upd_srv (set_v_chk_state CHK_ST_INIT);
      ok ← malloc_ok;
      if negb ok then cli_err che_InternalError true else rescan
  | CHK_ST_INIT | CHK_ST_RUNNING => cli_err che_Busy true
  | CHK_ST_IDLE => _ ← upd_srv (set_v_chk_state CHK_ST_RUNNING); rescan
  end.

(** [struct chunk_check_status] *)
Definition chk_status : M bool :=
  v ← get_srv;
  let st := match v_chk_state v with CHK_ST_IDLE => 1 | CHK_ST_INIT | CHK_ST_RUNNING => 2 | CHK_ST_OFF => 0 end in
  cli_resp_bin ([st; 0; 0; 0] ++ replicate 4 0 ++ le_bytes 8 (v_chk_done v)).

(** ** The state machine *)

(** [creq.sig] holds a string of 1 to 63 bytes. *)
Definition valid_req_hdr (q : bytes) : bool :=
  let len := length (cstr (req_sig q)) in
  bool_decide (req_magic q = CHUNKD_MAGIC) && negb ((len <? 1)%nat || (len =? CHD_SIG_SZ)%nat).

Definition needs_table (op : Z) : bool :=
  (op =? CHO_GET) || (op =? CHO_GET_META) || (op =? CHO_PUT) || (op =? CHO_DEL) || (op =? CHO_LIST).

Definition start_tls : M bool :=
  c ← get_cli;
  if negb (c_first_req c) then _ ← set_state evt_dispose; mret true else
  ok ← malloc_ok;
  if negb ok then _ ← set_state evt_dispose; mret true else
  _ ← upd_cli (set_c_ssl true);
  ok ← malloc_ok;
  if negb ok then _ ← set_state evt_dispose; mret true else
  _ ← set_state evt_ssl_accept;
  mret true.

Definition exec_op (op : Z) : M bool :=
  if op =? CHO_LOGIN then login_user else
  if op =? CHO_NOP then cli_err che_Success true else
  if op =? CHO_GET then object_get true else
  if op =? CHO_GET_META then object_get false else
  if op =? CHO_GET_PART then object_get_part else
  if op =? CHO_PUT then object_put else
  if op =? CHO_DEL then object_del else
  if op =? CHO_CP then object_cp else
  if op =? CHO_LIST then volume_list else
  if op =? CHO_TABLE_OPEN then volume_open else
  if op =? CHO_CHECK_START then chk_start else
  if op =? CHO_CHECK_STATUS then chk_status else
  if op =? CHO_START_TLS then start_tls else
  cli_err che_InvalidURI true.

Definition cli_evt_exec_req : M bool :=
  c ← get_cli;
  let q := c_creq c in
  let op := req_op q in
  let logged_in := negb (bool_decide (the_user c = [])) in
  if negb (valid_req_hdr q) then cli_err che_InvalidArgument false else
  if logged_in && negb (authcheck q (c_getpart c) (the_key c) (c_user c)) then cli_err che_SignatureDoesNotMatch false else
  _ ← set_state evt_recycle;
  if negb logged_in && negb (op =? CHO_LOGIN) && negb (op =? CHO_START_TLS) then _ ← set_state evt_dispose; mret true else
  if needs_table op && negb (0 <? c_table_len c) then cli_err che_InvalidTable false else
  if (op =? CHO_LOGIN) && logged_in then cli_err che_InvalidArgument false else
  rcb ← exec_op op;
  _ ← upd_cli (set_c_first_req false);
  mret rcb.

(** The number of bytes read into [req_ptr], or a negated errno.  Writing
    outside the array is undefined. *)
Definition store_req (b : bytes) : M unit :=
  c ← get_cli;
  let p := Z.to_nat (c_req_used c) in
  let buf := match c_req_ptr c with RbReq => c_creq c | RbKey => c_key c | RbKey2 => c_key2 c | RbGetpart => c_getpart c end in
  if (length buf <? p + length b)%nat then c_ub else
  let buf := splice p b buf in
  upd_cli (match c_req_ptr c with
           | RbReq => set_c_creq buf | RbKey => set_c_key buf | RbKey2 => set_c_key2 buf | RbGetpart => set_c_getpart buf
           end).

Definition cli_read_data (buflen : Z) : M Z :=
  if buflen =? 0 then mret 0 else
  r ← net_read buflen;
  match r with
  | RdEof => mret (- EPIPE)
  | RdAgain => mret 0
  | RdWantWrite => _ ← upd_cli (set_c_read_want_write true); _ ← cli_wr_set_poll true; mret 0
  | RdErr e => mret (- e)
  | RdData b => _ ← store_req b; mret (Z.of_nat (length b))
  end.

Definition goto_var (p : req_buf) (len : Z) (second : bool) : M unit :=
  _ ← upd_cli (set_c_req_ptr p);
  _ ← upd_cli (set_c_var_len len);
  _ ← upd_cli (set_c_req_used 0);
  _ ← set_state evt_read_var;
  upd_cli (set_c_second_var second).

Definition cli_evt_read_fixed : M bool :=
  c ← get_cli;
  rc ← cli_read_data (Z.of_nat req_sz - c_req_used c);
  if rc <? 0 then _ ← set_state evt_dispose; mret true else
  let used := c_req_used c + rc in
  _ ← upd_cli (set_c_req_used used);
  if used <? Z.of_nat req_sz then mret false else
  c ← get_cli;
  let klen := req_key_len (c_creq c) in
  _ ← upd_cli (set_c_key_len klen);
  if klen =? 0 then _ ← set_state evt_exec_req; mret true else
  if CHD_KEY_SZ <? klen then _ ← set_state evt_dispose; mret true else
  _ ← goto_var RbKey klen false;
  mret true.

Definition cli_evt_read_var : M bool :=
  c ← get_cli;
  rc ← cli_read_data (u32 (c_var_len c - c_req_used c));
  if rc <? 0 then _ ← set_state evt_dispose; mret true else
  let used := u32 (c_req_used c + rc) in
  _ ← upd_cli (set_c_req_used used);
  if used <? c_var_len c then mret false else
  c ← get_cli;
  let op := req_op (c_creq c) in
  if (op =? CHO_CP) && negb (c_second_var c) then _ ← goto_var RbKey2 (u32 (req_data_len (c_creq c))) true; mret true else
  if (op =? CHO_GET_PART) && negb (c_second_var c) then _ ← goto_var RbGetpart 8 true; mret true else
  _ ← set_state evt_exec_req;
  mret true.

Definition cli_free : M unit :=
  _ ← cli_write_free_all;
  _ ← cli_out_end;
  _ ← cli_in_end;
  upd_cli (set_c_freed true).

Definition cli_evt_dispose : M bool :=
  c ← get_cli;
  _ ← (match c_write_q c with [] => cli_free | _ => mret tt end);
  mret false.

Definition cli_evt_recycle : M bool :=
  c ← get_cli;
  match c_write_q c with
  | [] =>
      _ ← upd_cli (set_c_req_ptr RbReq);
      _ ← upd_cli (set_c_req_used 0);
      _ ← set_state evt_read_fixed;
      mret true
  | _ => mret false
  end.

Definition cli_evt_ssl_accept : M bool :=
  x ← nondet;
  if 0 <? x then _ ← set_state evt_recycle; mret true else
  if x =? 0 then mret false else
  if x =? -1 then _ ← upd_cli (set_c_read_want_write true); _ ← cli_wr_set_poll true; mret false else
  _ ← set_state evt_dispose;
  mret true.

Definition state_funcs (s : client_state) : M bool :=
  match s with
  | evt_read_fixed => cli_evt_read_fixed
  | evt_read_var => cli_evt_read_var
  | evt_exec_req => cli_evt_exec_req
  | evt_data_in => cli_evt_data_in
  | evt_dispose => cli_evt_dispose
  | evt_recycle => cli_evt_recycle
  | evt_ssl_accept => cli_evt_ssl_accept
  end.

Definition tcp_cli_wr_event : M unit :=
  c ← get_cli;
  if c_read_want_write c then _ ← upd_cli (set_c_read_want_write false); cli_wr_set_poll false else cli_writable.

(** [while (loop)] *)
Fixpoint state_loop (fuel : nat) : M unit :=
  match fuel with
  | O => c_ub
  | S fuel =>
      c ← get_cli;
      loop ← state_funcs (c_state c);
      if loop : bool then state_loop fuel else mret tt
  end.

(** Rounds that are enough: eight for every byte to read, and eight more. *)
Definition loop_fuel (c : client) : nat := (8 * length (c_rx c) + 8)%nat.

Definition tcp_cli_event (events : Z) : M unit :=
  _ ← (if flag events EV_WRITE then tcp_cli_wr_event else mret tt);
  c ← get_cli;
  loop ← (if c_write_want_read c then _ ← upd_cli (set_c_write_want_read false); _ ← cli_writable; mret false else mret true);
  c ← get_cli;
  if negb (flag events EV_READ) && negb (bool_decide (c_state c = evt_dispose)) then mret tt else
  if loop : bool then state_loop (loop_fuel c) else mret tt.

(** [worker_cp_pipe]: the worker's result reaches the event loop. *)
Definition worker_cp_pipe (err : chunk_errcode) : M unit :=
  _ ← upd_cli (set_c_work false);
  _ ← cli_rd_set_poll true;
  rcb ← cli_err err (match err with che_Success => true | _ => false end);
  if rcb : bool then
    c ← get_cli;
    tcp_cli_event (if c_writing c then Z.lor POLLIN POLLOUT else POLLIN)
  else mret tt.

End chunkd.

(** ** A new connection *)

Definition cli_alloc : client :=
  mkCli evt_read_fixed (replicate 65 0) 0 0 (replicate (Z.to_nat CHD_KEY_SZ) 0)
    false false false true [] false EV_READ
    (replicate req_sz 0) (replicate 8 0) 0 RbReq 0 0 false
    (replicate (Z.to_nat CHD_KEY_SZ) 0) (replicate (Z.to_nat CHD_KEY_SZ) 0)
    None [] 0 None None 0 None (replicate (Z.to_nat CLI_DATA_BUF_SZ) 0)
    false false [] false [].
