(* ===== verification/ChunkLogic.v ===== *)
(** * ChunkLogic: reasoning about the chunk server's connections

    [hw m Q s]: running [m] from [s] is defined and ends in [Q].  [steps]: the
    state machine gets from one state to another.  [spec_calm] and the rules
    below describe runs in which no system call and no allocation fails. *)

From S2P Require Import Prelude ObjCache Fs BeFs BeFsSpec BeFsProps BeFsList Chunkd.
#[local] Open Scope Z_scope.

Section hw.
Context {H : Type}.
Implicit Types (s : cst H) (c : client) (v : server H) (f : fsys).

Definition hw {A} (m : C H A) (Q : A -> cst H -> Prop) s : Prop :=
  match m s with Some (a, s') => Q a s' | None => False end.

Lemma hw_ret {A} (a : A) (Q : A -> cst H -> Prop) s : Q a s -> hw (mret a) Q s.
Proof. done. Qed.

Lemma hw_bind {A B} (m : C H A) (k : A -> C H B) (Q : B -> cst H -> Prop) s :
  hw m (fun a s' => hw (k a) Q s') s -> hw (m ≫= k) Q s.
Proof. unfold hw, mbind, C_bind. by destruct (m s) as [[a s']|]. Qed.

Lemma hw_mono {A} (m : C H A) (Q R : A -> cst H -> Prop) s :
  hw m Q s -> (forall a s', Q a s' -> R a s') -> hw m R s.
Proof. unfold hw. destruct (m s) as [[a s']|]; auto. Qed.

Lemma hw_eq {A} (m : C H A) (Q : A -> cst H -> Prop) s : hw m Q s <-> exists a s', m s = Some (a, s') /\ Q a s'.
Proof. unfold hw. destruct (m s) as [[a s']|]; [|split; [done|by intros (? & ? & ? & ?)]]. split; [eauto|]. by intros (? & ? & [= -> ->] & ?). Qed.

Lemma hw_get_cli (Q : client -> cst H -> Prop) c v f : Q c (mkCst c v f) -> hw get_cli Q (mkCst c v f).
Proof. done. Qed.

Lemma hw_get_srv (Q : server H -> cst H -> Prop) c v f : Q v (mkCst c v f) -> hw get_srv Q (mkCst c v f).
Proof. done. Qed.

Lemma hw_upd_cli g (Q : unit -> cst H -> Prop) c v f : Q tt (mkCst (g c) v f) -> hw (upd_cli g) Q (mkCst c v f).
Proof. done. Qed.

Lemma hw_upd_srv g (Q : unit -> cst H -> Prop) c v f : Q tt (mkCst c (g v) f) -> hw (upd_srv g) Q (mkCst c v f).
Proof. done. Qed.

Lemma hw_fs {A} (m : F A) (Q : A -> cst H -> Prop) c v f :
  fw False m (fun a f' => Q a (mkCst c v f')) f -> hw (fs_do m) Q (mkCst c v f).
Proof. unfold hw, fs_do, fw. cbn. by destruct (m f) as [[a f']|]. Qed.

(** No failures: the file system moves on without changing. *)
Lemma hw_malloc (Q : bool -> cst H -> Prop) c v f :
  calm f -> (forall f', same_fs f f' -> calm f' -> Q true (mkCst c v f')) -> hw malloc_ok Q (mkCst c v f).
Proof.
  intros Hc HQ. apply hw_fs, fw_malloc_ok. intros b f' S Hb. rewrite (Hb Hc). apply HQ; [done|]. eapply calm_oracle; [|done]. apply S.
Qed.

Lemma hw_nondet (Q : Z -> cst H -> Prop) c v f :
  calm f -> (forall x f', same_fs f f' -> calm f' -> 2 ^ 48 <= x -> Q x (mkCst c v f')) -> hw nondet Q (mkCst c v f).
Proof.
  intros Hc HQ. apply hw_fs, fw_nondet. intros x f' S Hx. apply HQ; [done| |by apply Hx]. eapply calm_oracle; [|done]. apply S.
Qed.

End hw.
#[global] Arguments hw : simpl never.

(** One primitive of the goal. *)
Ltac hstep :=
  lazymatch goal with
  | |- hw (_ ≫= _) _ _ => apply hw_bind; hstep
  | |- hw (mret _) _ _ => apply hw_ret
  | |- hw get_cli _ _ => apply hw_get_cli
  | |- hw get_srv _ _ => apply hw_get_srv
  | |- hw (upd_cli _) _ _ => apply hw_upd_cli
  | |- hw (set_state _) _ _ => unfold set_state; apply hw_upd_cli
  | |- hw (upd_srv _) _ _ => apply hw_upd_srv
  end; cbn beta iota.
Ltac hsteps := repeat hstep.
Ltac hmalloc f' S' C' := apply hw_bind, hw_malloc; [assumption|intros f' S' C'; cbn [negb]].

(** ** Sending on an idle connection *)

(** Bookkeeping of write records apart, the server is as it was. *)
Definition same_srv {H} (v v' : server H) : Prop :=
  v_hdb v' = v_hdb v /\ v_actives v' = v_actives v /\ v_chk_state v' = v_chk_state v /\ v_chk_done v' = v_chk_done v /\
  v_chk_pipe v' = v_chk_pipe v /\ v_chk_users v' = v_chk_users v.

#[export] Instance same_srv_preorder {H} : PreOrder (@same_srv H).
Proof.
  unfold same_srv. split; [by intros v|].
  intros v1 v2 v3 (? & ? & ? & ? & ? & ?) (? & ? & ? & ? & ? & ?). split_and!; congruence.
Qed.

(** All of [b] has been sent. *)
Definition after_tx (b : bytes) (c : client) : client :=
  set_c_ev_mask (Z.land (c_ev_mask c) (Z.lnot EV_WRITE))
    (set_c_writing false (set_c_write_q [] (set_c_tx (c_tx c ++ b) c))).

Section send.
Context {H : Type} {SH : Sha}.
Implicit Types (c : client) (v : server H) (f : fsys).

Definition quiet_post (c' : client) (v : server H) (f : fsys) (s : cst H) : Prop :=
  exists v' f', s = mkCst c' v' f' /\ same_srv v v' /\ same_fs f f' /\ calm f'.

Lemma writeq_spec buf n cb c v f :
  calm f -> 0 < n ->
  hw (cli_writeq buf n cb) (fun rc s => rc = 0 /\
    quiet_post (set_c_write_q (c_write_q c ++ [mkWr buf n cb false]) c) v f s) (mkCst c v f).
Proof.
  intros Cf Hn. unfold cli_writeq. rewrite (proj2 (Z.eqb_neq n 0)) by lia. hstep. apply hw_bind.
  destruct (v_trash_sz v =? 0).
  - apply hw_malloc; [done|]. intros f' S' C'. cbn [negb]. hstep. hstep. hstep. split; [done|]. exists v, f'. done.
  - hstep. hstep. cbn [negb]. hstep. hstep. hstep. split; [done|]. eexists _, f. done.
Qed.

Lemma u64_add_ge total n : 0 <= total -> 0 <= n -> total + n < 2 ^ 64 -> (u64 (total + n) <? total) = false.
Proof. intros H1 H2 H3. apply Z.ltb_ge. unfold u64. rewrite uw_small by lia. lia. Qed.

(** ** Buffers of the connection's own, all written at once *)

Definition mem_wr (b : bytes) : client_write := mkWr (WMem b) (Z.of_nat (length b)) cb_free false.

Lemma mem_iov bs : forall n total,
  (length bs <= n)%nat -> 0 <= total -> total + Z.of_nat (length (concat bs)) <= 2 ^ 48 ->
  cli_wr_iov (mem_wr <$> bs) n total = mem_wr <$> bs.
Proof.
  induction bs as [|b bs IH]; intros [|n] total Hn Ht Hl; cbn [length] in Hn; try done; [lia|].
  cbn [concat fmap list_fmap] in *. rewrite length_app in Hl. cbn [cli_wr_iov wr_len mem_wr].
  rewrite u64_add_ge by lia. rewrite (proj2 (Z.ltb_ge _ _)) by lia. cbn [orb]. by rewrite IH by lia.
Qed.

Lemma mem_bytes c0 bs (Q : bytes -> cst H -> Prop) s : Q (concat bs) s -> hw (iov_bytes c0 (mem_wr <$> bs)) Q s.
Proof.
  revert Q. induction bs as [|b bs IH]; intros Q HQ; cbn [fmap list_fmap iov_bytes concat]; [by hstep|].
  cbn [wr_bytes mem_wr wr_buf]. hstep. apply hw_bind, IH. by hstep.
Qed.

Lemma mem_completed bs : forall fuel c v f,
  (length bs <= fuel)%nat -> Forall (fun b => b <> []) bs -> c_write_q c = mem_wr <$> bs ->
  hw (wr_completed fuel (Z.of_nat (length (concat bs))) false)
     (fun r s => r = false /\ exists v', s = mkCst (set_c_write_q [] c) v' f /\ same_srv v v') (mkCst c v f).
Proof.
  induction bs as [|b bs IH]; intros fuel c v f Hf Hne Eq.
  { assert (set_c_write_q [] c = c) as Ec by (cbn in Eq; destruct c; cbn in *; unfold set_c_write_q; cbn; by rewrite Eq).
    destruct fuel; cbn; (split; [done|]); exists v; by rewrite Ec. }
  apply Forall_cons in Hne as [Hb Hne]. destruct fuel as [|fuel]; cbn [length] in Hf; [lia|].
  assert (0 < Z.of_nat (length b)) as Hl by (destruct b; [done|cbn; lia]).
  cbn [concat wr_completed]. rewrite length_app, Nat2Z.inj_add, (proj2 (Z.leb_gt _ _)) by lia. hstep. rewrite Eq.
  cbn [fmap list_fmap wr_len mem_wr]. set (n := Z.of_nat (length b)) in *. set (m := Z.of_nat (length (concat bs))).
  assert ((if n <? n + m then n else n + m) = n) as -> by (destruct (Z.ltb_spec n (n + m)); unfold m in *; lia).
  hstep. unfold wr_advance. cbn [wr_len wr_buf wr_cb wr_sendfile mem_wr]. rewrite Z.sub_diag, Z.eqb_refl.
  apply hw_bind. unfold cli_write_free. cbn [run_wr_cb wr_cb wr_buf]. hstep. hstep. hstep. hstep. apply hw_bind.
  eapply (hw_mono _ (fun _ s => exists v', s = mkCst (set_c_write_q (mem_wr <$> bs) c) v' f /\ same_srv v v')).
  { destruct (_ <? _); hstep; eexists; by split. }
  intros _ s (v1 & -> & V1). hstep. cbn [orb]. replace (n + m - n) with m by lia.
  eapply hw_mono; [apply (IH fuel (set_c_write_q (mem_wr <$> bs) c)); [lia|done|done]|]. cbn beta.
  intros r s (-> & v2 & -> & V2). split; [done|]. exists v2. split; [done|by etrans].
Qed.

Lemma send_mems bs c v f :
  calm f -> c_write_q c = mem_wr <$> bs -> bs <> [] -> (length bs <= CLI_MAX_WR_IOV)%nat -> Forall (fun b => b <> []) bs ->
  c_ssl c = false -> c_writing c = false -> Z.of_nat (length (concat bs)) <= 2 ^ 48 ->
  hw cli_write_start (fun r s => r = true /\ quiet_post (after_tx (concat bs) c) v f s) (mkCst c v f).
Proof.
  intros Cf Eq Hbs Hn Hne Es Ew Hl. unfold cli_write_start. hstep. rewrite Eq, Ew.
  assert (length bs <= length (concat bs))%nat as Hcount.
  { clear -Hne. induction Hne as [|b bs Hb _ IH]; cbn [concat length]; [lia|]. rewrite length_app. destruct b; [done|cbn; lia]. }
  destruct bs as [|b bs]; [done|]. cbn [fmap list_fmap] in *. apply hw_bind. unfold cli_writable. hstep. cbn [writable_loop]. hstep. rewrite Eq.
  unfold do_write. apply hw_bind. hstep. cbn [wr_sendfile mem_wr]. rewrite Es, Eq. unfold sys_writev. apply hw_bind. hstep.
  change (mem_wr b :: (mem_wr <$> bs)) with (mem_wr <$> (b :: bs)) in *.
  rewrite (mem_iov (b :: bs)) by (done || lia). apply hw_bind, mem_bytes.
  apply hw_bind, hw_nondet; [done|]. intros x f1 S1 C1 Hx. rewrite (proj2 (Z.ltb_ge _ _)) by lia.
  set (d := concat (b :: bs)) in *. cbn [length] in Hcount.
  rewrite (proj2 (Nat.eqb_neq _ _)) by lia. rewrite take_ge by lia.
  unfold sent. hstep. hstep. hstep. hstep. apply hw_bind. unfold cli_wr_completed.
  eapply hw_mono; [apply (mem_completed (b :: bs)); [fold d; cbn [length]; lia|done|done]|]. cbn beta.
  intros r s (-> & v1 & -> & V1). hstep. cbn [c_write_q set_c_write_q]. hstep.
  unfold cli_wr_set_poll, cli_ev_update. hstep. hstep. hstep. cbn [c_write_q set_c_write_q set_c_writing set_c_ev_mask]. hstep. hstep. hstep.
  split; [done|]. eexists _, f1. split; [done|]. by split.
Qed.

(** A response to an idle connection. *)
Lemma answer_spec b c v f :
  calm f -> c_write_q c = [] -> c_ssl c = false -> c_writing c = false -> b <> [] -> Z.of_nat (length b) <= 2 ^ 48 ->
  hw (rc ← write_mem b; if negb (rc =? 0) then mret true else cli_write_start)
     (fun r s => r = true /\ quiet_post (after_tx b c) v f s) (mkCst c v f).
Proof.
  intros Cf Eq Es Ew Hb Hl. apply hw_bind. unfold write_mem. eapply hw_mono.
  - apply writeq_spec; [done|]. destruct b; [done|cbn; lia].
  - cbn beta. intros rc s (-> & v1 & f1 & -> & V1 & S1 & C1). cbn [Z.eqb negb].
    eapply hw_mono; [apply (send_mems [b]); cbn [c_write_q set_c_write_q concat length]; rewrite ?app_nil_r; try done|].
    { by rewrite Eq. }
    { unfold CLI_MAX_WR_IOV. lia. }
    { by constructor. }
    cbn [concat]. rewrite app_nil_r.
    cbn beta. intros r s (-> & v2 & f2 & -> & V2 & S2 & C2). split; [done|]. exists v2, f2. split; [done|].
    split; [by etrans|]. split; [by etrans|done].
Qed.

Definition resp_err (q : bytes) (code : chunk_errcode) : bytes :=
  enc_resp (mkResp (req_magic q) (errcode code) 0 (req_nonce q) (req_data_len q) (replicate 20 0)).

Lemma length_resp r : length (r_magic r) = 8%nat -> length (r_nonce r) = 4%nat -> length (r_hash r) = 20%nat -> length (enc_resp r) = 48%nat.
Proof. intros H1 H2 H3. unfold enc_resp. rewrite !length_app, length_le_bytes, H1, H2, H3. done. Qed.

Lemma length_slice pos n (b : bytes) : (pos + n <= length b)%nat -> length (slice pos n b) = n.
Proof. intros Hl. unfold slice. rewrite length_take, length_drop. lia. Qed.

Lemma cli_err_spec code ok c v f :
  calm f -> c_write_q c = [] -> c_ssl c = false -> c_writing c = false -> length (c_creq c) = req_sz ->
  hw (cli_err code ok) (fun r s => r = true /\
    quiet_post (after_tx (resp_err (c_creq c) code) (set_c_state (if ok : bool then evt_recycle else evt_dispose) c)) v f s) (mkCst c v f).
Proof.
  intros Cf Eq Es Ew Hq. unfold cli_err. hmalloc f1 S1 C1. hstep. hstep. set (r := mkResp _ _ _ _ _ _).
  assert (length (enc_resp r) = 48%nat) as Hr.
  { apply length_resp; cbn [r r_magic r_nonce r_hash resp_init_req]; [| |done]; apply length_slice; rewrite Hq; unfold req_sz; lia. }
  eapply hw_mono; [apply (answer_spec (enc_resp r)); try done|].
  - intros E. by rewrite E in Hr.
  - rewrite Hr. lia.
  - cbn beta. intros b s (-> & v2 & f2 & -> & V2 & S2 & C2). split; [done|]. exists v2, f2. split; [done|]. split; [done|].
    split; [by etrans|done].
Qed.

(** ** Opening an object of one's own *)

Lemma stored_same user key md data cur p f f' : stored user key md data cur p f -> dirs_only f f' -> stored user key md data cur p f'.
Proof. intros [] D. split; try done. by rewrite (dirs_only_content f f'). Qed.

Lemma open_own vol_path user table key md data cur (Q : option fs_obj * chunk_errcode -> cst H -> Prop) c v f :
  stored user key md data cur (obj_path vol_path table key) f -> calm f -> table <> 0 -> f_names f !! obj_dir vol_path table key = None ->
  (forall o i f', dirs_only f f' /\ (fs_wf f -> fs_wf f') /\ f_dirs f' ⊆ {[obj_dir vol_path table key]} ∪ f_dirs f ->
   calm f' -> sendfile_ofs o = 0 -> reading key md data cur i o f' 0 ->
   Q (Some o, che_Success) (mkCst c v f')) ->
  hw (fs_do (fs_obj_open vol_path table user key)) Q (mkCst c v f).
Proof.
  intros St Cf Ht Hn HQ. apply hw_fs. eapply fw_mono; [by apply (obj_open_spec vol_path table user user key md data cur f)|]. cbn beta.
  intros [r e] f2 (D2 & W2 & Hr & Hc). cbn [fst snd] in *. specialize (Hc Cf Ht Hn). rewrite decide_True in Hc by done.
  destruct r as [o|]; [|by destruct Hc]. destruct Hr as (_ & -> & i & _ & Hsf & R & Hd). eapply HQ; try done. eapply calm_oracle; [apply D2|done].
Qed.

(** ** The end of a transfer *)

Lemma in_end_spec c v f (Q : unit -> cst H -> Prop) o :
  c_in_obj c = Some o -> out_fn o = None -> Q tt (mkCst (set_c_in_obj None c) v f) -> hw cli_in_end Q (mkCst c v f).
Proof.
  intros Eo Ef HQ. unfold cli_in_end. hstep. rewrite Eo. apply hw_bind, hw_fs. unfold fs_obj_free. rewrite Ef. apply fw_ret. by hstep.
Qed.

Lemma out_end_gen held p o (R : fsys -> Prop) c v f :
  c_out_bo c = Some o -> c_out_ce c = Some p -> oc_inv (p :: held) (v_actives v) -> fw False (fs_obj_free o) (fun _ f' => R f') f ->
  hw cli_out_end (fun _ s => exists a f', oc_inv held a /\ R f' /\
    s = mkCst (set_c_out_user None (set_c_out_ce None (set_c_out_bo None c))) (set_v_actives a v) f') (mkCst c v f).
Proof.
  intros Eb Ec I HR. unfold cli_out_end. hstep. rewrite Eb, Ec. apply hw_bind, hw_bind, hw_fs.
  eapply fw_mono; [exact HR|]. cbn beta. intros _ f' HR'. hstep. apply hw_bind. hstep.
  destruct (objcache_put_spec (p :: held) p (v_actives v) I) as (e & a & _ & -> & I' & _); [by constructor|].
  hsteps. exists a, f'. split; [|done]. cbn [remove_first] in I'. by rewrite decide_True in I' by done.
Qed.

End send.
