(* ===== verification/ChunkReq.v ===== *)
(** * ChunkReq: requests through the chunk server's state machine *)

From S2P Require Import Prelude ObjCache Fs BeFs BeFsSpec BeFsProps BeFsList Chunkd ChunkLogic.
#[local] Open Scope Z_scope.

Section req.
Context {H : Type} {HD : TcHdb H} {SH : Sha} {SG : Sig} {TX : Text} {RD : Readdir}.
Variable vol_path : bytes.
Variable garbage : Z -> bytes.
Implicit Types (c : client) (v : server H) (f : fsys).

(** Within [n] rounds the state machine gets to a state where [R] holds. *)
Definition reach (n : nat) (R : cst H -> Prop) (s : cst H) : Prop :=
  exists m s', (m <= n)%nat /\ (forall k, state_loop vol_path garbage (m + k) s = state_loop vol_path garbage k s') /\ R s'.

Lemma reach_now n (R : cst H -> Prop) s : R s -> reach n R s.
Proof. intros HR. exists 0%nat, s. split; [lia|done]. Qed.

Lemma reach_step n (R : cst H -> Prop) c v f :
  hw (state_funcs vol_path garbage (c_state c)) (fun b s' => b = true /\ reach n R s') (mkCst c v f) -> reach (S n) R (mkCst c v f).
Proof.
  intros (b & s1 & E & -> & m & s2 & Hm & Hn & HR)%hw_eq. exists (S m), s2. split; [lia|]. split; [|done]. intros k.
  cbn [state_loop Nat.add]. unfold mbind, C_bind, get_cli. cbn. rewrite E. apply Hn.
Qed.

Lemma reach_trans n1 n2 (P R : cst H -> Prop) s : reach n1 P s -> (forall s', P s' -> reach n2 R s') -> reach (n1 + n2) R s.
Proof.
  intros (m1 & s1 & L1 & H1 & HP) HPR. destruct (HPR s1 HP) as (m2 & s2 & L2 & H2 & HR). exists (m1 + m2)%nat, s2. split; [lia|].
  split; [|done]. intros k. by rewrite <- Nat.add_assoc, H1, H2.
Qed.

Lemma reach_mono n1 n2 (P R : cst H -> Prop) s : reach n1 P s -> (n1 <= n2)%nat -> (forall s', P s' -> R s') -> reach n2 R s.
Proof. intros (m & s' & L & H1 & HP) Hl HPR. exists m, s'. split; [lia|]. auto. Qed.

(** What else of a connection stays the same over requests. *)
Definition env c : bytes * bool * bool := (c_getpart c, c_eof c, c_read_want_write c).

(** An idle connection of [user] with table [table] open. *)
Record idle (user : bytes) (table : Z) c : Prop := {
  id_creq : length (c_creq c) = req_sz;
  id_key : length (c_key c) = Z.to_nat CHD_KEY_SZ;
  id_wq : c_write_q c = [];
  id_writing : c_writing c = false;
  id_ssl : c_ssl c = false;
  id_want : c_write_want_read c = false;
  id_user : the_user c = user;
  id_login : user <> [];
  id_table : c_table_id c = table;
  id_tlen : 0 < c_table_len c;
  id_in : c_in_obj c = None }.

Lemma idle_state user table st c : idle user table c -> idle user table (set_c_state st c).
Proof. intros []. by split. Qed.

Lemma the_key_state st c : the_key (set_c_state st c) = the_key c.
Proof. reflexivity. Qed.

(** It waits for a request. *)
Record ready (user : bytes) (table : Z) c : Prop := {
  rdy_idle : idle user table c;
  rdy_state : c_state c = evt_read_fixed;
  rdy_used : c_req_used c = 0;
  rdy_ptr : c_req_ptr c = RbReq;
  rdy_out : c_out_bo c = None }.

(** A request of operation [op] for [key], signed by the user of [c]. *)
Record request (op : Z) (q key : bytes) c : Prop := {
  rq_len : length q = req_sz;
  rq_op : req_op q = op;
  rq_klen : req_key_len q = Z.of_nat (length key);
  rq_key : key_valid key = true;
  rq_valid : valid_req_hdr q = true;
  rq_sig : authcheck q (c_getpart c) key (c_user c) = true }.

Lemma key_valid_len key : key_valid key = true -> 0 < Z.of_nat (length key) <= CHD_KEY_SZ.
Proof. unfold key_valid. intros [H1%Nat.ltb_ge H2%Z.ltb_ge]%negb_true_iff%orb_false_iff. lia. Qed.

(** Reading [n] bytes that have arrived. *)
Lemma net_read_spec n b rest c v f :
  calm f -> c_ssl c = false -> c_rx c = b ++ rest -> Z.of_nat (length b) = n -> 0 < n <= 0x7ffff000 ->
  hw (net_read n) (fun r s => r = RdData b /\ quiet_post (set_c_rx rest c) v f s) (mkCst c v f).
Proof.
  intros Cf Es Er Hb Hn. unfold net_read. hstep. apply hw_bind, hw_nondet; [done|]. intros x f1 S1 C1 Hx.
  rewrite Es, (proj2 (Z.ltb_ge _ _)) by lia. unfold net_take. hstep. rewrite Er. destruct (b ++ rest) as [|y l] eqn:E.
  { destruct b; [cbn in Hb; lia|done]. }
  rewrite <- E. hstep. hstep. replace (Z.to_nat _) with (length b) by lia. rewrite take_app_length, drop_app_length. split; [done|].
  exists v, f1. by split_and!.
Qed.

Lemma splice_whole b d : length b = length d -> splice 0 b d = b.
Proof. intros E. unfold splice. cbn [take Nat.add app]. rewrite take_0, drop_ge by lia. apply app_nil_r. Qed.

Lemma take_splice b d : (length b <= length d)%nat -> take (length b) (splice 0 b d) = b.
Proof. intros E. unfold splice. rewrite take_0. cbn [app]. by rewrite take_app_length. Qed.

Lemma length_splice0 b d : (length b <= length d)%nat -> length (splice 0 b d) = length d.
Proof. intros E. unfold splice. rewrite take_0. cbn [app Nat.add]. rewrite length_app, length_drop. lia. Qed.

(** The client once header and key are in. *)
Definition has_req (q key rest : bytes) c : client :=
  set_c_state evt_exec_req (set_c_req_used (Z.of_nat (length key))
    (set_c_key (splice 0 key (c_key c)) (set_c_rx rest (set_c_second_var false (set_c_state evt_read_var (set_c_req_used 0
      (set_c_var_len (Z.of_nat (length key)) (set_c_req_ptr RbKey (set_c_key_len (Z.of_nat (length key))
        (set_c_req_used 88 (set_c_creq q (set_c_rx (key ++ rest) c)))))))))))).

Lemma reach_req n (R : cst H -> Prop) user table op q key rest c v f :
  ready user table c -> request op q key c -> op <> CHO_CP -> op <> CHO_GET_PART ->
  c_rx c = q ++ key ++ rest -> calm f ->
  (forall v' f', same_srv v v' -> same_fs f f' -> calm f' -> reach n R (mkCst (has_req q key rest c) v' f')) ->
  reach (S (S n)) R (mkCst c v f).
Proof.
  intros Rd Rq Hop1 Hop2 Erx Cf HR. pose proof (rdy_idle _ _ _ Rd) as Id. pose proof (key_valid_len key (rq_key _ _ _ _ Rq)) as Hk. pose proof (rq_len _ _ _ _ Rq) as Hq.
  apply reach_step. rewrite (rdy_state _ _ _ Rd). cbn [state_funcs]. unfold cli_evt_read_fixed. hstep.
  rewrite (rdy_used _ _ _ Rd), Z.sub_0_r. change (Z.of_nat req_sz) with 88 in *. apply hw_bind. unfold cli_read_data. cbn [Z.eqb Pos.eqb]. apply hw_bind.
  eapply hw_mono; [apply (net_read_spec _ q (key ++ rest)); [done|apply Id|done|by rewrite Hq|lia]|].
  cbn beta. intros r s (-> & v1 & f1 & -> & V1 & S1 & C1). unfold store_req. hstep. cbn [c_req_ptr c_req_used c_creq set_c_rx].
  rewrite (rdy_ptr _ _ _ Rd), (rdy_used _ _ _ Rd), (id_creq _ _ _ Id), Hq. cbn [Z.to_nat Nat.add]. rewrite Nat.ltb_irrefl.
  rewrite splice_whole by (by rewrite (id_creq _ _ _ Id)). hstep. hstep.
  rewrite (proj2 (Z.ltb_ge _ 0)) by lia. change (0 + Z.of_nat req_sz) with 88. hstep. rewrite Z.ltb_irrefl. hstep.
  cbn [c_creq set_c_req_used set_c_creq]. rewrite (rq_klen _ _ _ _ Rq). hstep.
  rewrite (proj2 (Z.eqb_neq _ 0)), (proj2 (Z.ltb_ge CHD_KEY_SZ _)) by lia. unfold goto_var. hsteps. split; [done|].
  apply reach_step. cbn [c_state set_c_second_var set_c_state state_funcs]. unfold cli_evt_read_var. hstep.
  cbn [c_var_len c_req_used set_c_second_var set_c_state set_c_req_used set_c_var_len]. unfold CHD_KEY_SZ in Hk.
  rewrite Z.sub_0_r. assert (u32 (Z.of_nat (length key)) = Z.of_nat (length key)) as Eu by (unfold u32; rewrite uw_small; lia). rewrite Eu.
  apply hw_bind. unfold cli_read_data. rewrite (proj2 (Z.eqb_neq _ 0)) by lia. apply hw_bind.
  eapply hw_mono; [apply (net_read_spec _ key rest); [done|apply Id|done|done|lia]|].
  cbn beta. intros r s (-> & v2 & f2 & -> & V2 & S2 & C2). unfold store_req. hstep.
  cbn [c_req_ptr c_req_used c_key set_c_rx set_c_second_var set_c_state set_c_req_used set_c_var_len set_c_req_ptr set_c_key_len set_c_creq].
  rewrite (id_key _ _ _ Id). cbn [Z.to_nat]. rewrite (proj2 (Nat.ltb_ge _ _)) by (unfold CHD_KEY_SZ; lia). hstep. hstep.
  rewrite (proj2 (Z.ltb_ge _ 0)) by lia. rewrite Z.add_0_l, Eu. hstep. rewrite Z.ltb_irrefl. hstep.
  cbn [c_creq set_c_key set_c_req_used set_c_rx set_c_second_var set_c_state set_c_var_len set_c_req_ptr set_c_key_len set_c_creq].
  rewrite (rq_op _ _ _ _ Rq), (proj2 (Z.eqb_neq op CHO_CP)), (proj2 (Z.eqb_neq op CHO_GET_PART)) by done. cbn [andb]. hstep. hstep.
  split; [done|]. apply HR; [by etrans|by etrans|done].
Qed.

(** ** Executing a request *)

Lemma exec_spec user table op q key rest c v f (Q : bool -> cst H -> Prop) :
  ready user table c -> request op q key c -> op <> CHO_LOGIN ->
  hw (exec_op vol_path garbage op)
     (fun b s => Q b (mkCst (set_c_first_req false (st_cli s)) (st_srv s) (st_fs s)))
     (mkCst (set_c_state evt_recycle (has_req q key rest c)) v f) ->
  hw (cli_evt_exec_req vol_path garbage) Q (mkCst (has_req q key rest c) v f).
Proof.
  intros Rd Rq Hop HQ. pose proof (rdy_idle _ _ _ Rd) as Id. pose proof (key_valid_len key (rq_key _ _ _ _ Rq)) as Hk.
  unfold cli_evt_exec_req. hstep. set (c1 := has_req q key rest c) in *.
  assert (the_key c1 = key) as Ek.
  { unfold the_key, c1, has_req. cbn [c_key_len c_key set_c_state set_c_req_used set_c_key set_c_rx set_c_second_var set_c_var_len set_c_req_ptr set_c_key_len set_c_creq].
    rewrite Nat2Z.id. apply take_splice. rewrite (id_key _ _ _ Id). unfold CHD_KEY_SZ in *. lia. }
  assert (c_creq c1 = q) as Eq by done. assert (the_user c1 = user) as Eu by apply Id.
  assert (c_getpart c1 = c_getpart c) as Eg by done. assert (c_user c1 = c_user c) as Eus by done.
  rewrite Eq, Ek, Eu, Eg, Eus, (rq_valid _ _ _ _ Rq), (rq_sig _ _ _ _ Rq), (rq_op _ _ _ _ Rq). cbn [negb].
  rewrite bool_decide_eq_false_2 by apply Id. cbn [negb andb]. hstep.
  assert (0 <? c_table_len c1 = true) as Et by (apply Z.ltb_lt, Id). rewrite Et. cbn [negb]. rewrite andb_false_r.
  rewrite (proj2 (Z.eqb_neq op CHO_LOGIN)) by done. cbn [andb]. apply hw_bind. eapply hw_mono; [exact HQ|].
  cbn beta. intros b [c2 v2 f2] HQ2. hstep. hstep. done.
Qed.

(** The fields of a connection with a request. *)
Lemma has_req_idle user table q key rest c :
  ready user table c -> length q = req_sz -> key_valid key = true ->
  idle user table (has_req q key rest c) /\ the_key (has_req q key rest c) = key.
Proof.
  intros [[]] Hq Hk%key_valid_len. unfold CHD_KEY_SZ in *. split.
  - split; try done. cbn. rewrite length_splice0; [done|]. rewrite id_key0. unfold CHD_KEY_SZ. lia.
  - unfold the_key, has_req. cbn [c_key_len c_key set_c_state set_c_req_used set_c_key set_c_rx set_c_second_var set_c_var_len set_c_req_ptr set_c_key_len set_c_creq].
    rewrite Nat2Z.id. apply take_splice. rewrite id_key0. unfold CHD_KEY_SZ. lia.
Qed.

(** A connection [c1] that is about to execute [q] for [key]. *)
Record asked (user : bytes) (table : Z) (q key rest : bytes) c c1 : Prop := {
  ak_idle : idle user table c1;
  ak_key : the_key c1 = key;
  ak_creq : c_creq c1 = q;
  ak_rx : c_rx c1 = rest;
  ak_tx : c_tx c1 = c_tx c;
  ak_user : c_user c1 = c_user c;
  ak_part : env c1 = env c;
  ak_out : c_out_bo c1 = None;
  ak_state : c_state c1 = evt_recycle;
  ak_ce : c_out_ce c1 = c_out_ce c }.

Lemma asked_req user table q key rest c :
  ready user table c -> length q = req_sz -> key_valid key = true ->
  asked user table q key rest c (set_c_state evt_recycle (has_req q key rest c)).
Proof.
  intros Rd Hq Hk. destruct (has_req_idle user table q key rest c Rd Hq Hk) as [Id Ek].
  split; [by apply idle_state|by rewrite the_key_state|reflexivity|reflexivity|reflexivity|reflexivity|reflexivity|apply Rd|reflexivity|reflexivity].
Qed.

Lemma reach_exec n (R : cst H -> Prop) user table op q key rest c v f :
  ready user table c -> request op q key c -> op <> CHO_CP -> op <> CHO_GET_PART -> op <> CHO_LOGIN ->
  c_rx c = q ++ key ++ rest -> calm f ->
  (forall c1 v' f', asked user table q key rest c c1 -> same_srv v v' -> same_fs f f' -> calm f' ->
   hw (exec_op vol_path garbage op)
      (fun b s => b = true /\ reach n R (mkCst (set_c_first_req false (st_cli s)) (st_srv s) (st_fs s))) (mkCst c1 v' f')) ->
  reach (S (S (S n))) R (mkCst c v f).
Proof.
  intros Rd Rq H1 H2 H3 Er Cf HR. eapply reach_req; [exact Rd|exact Rq|done|done|exact Er|done|].
  intros v1 f1 V1 S1 C1. apply reach_step. change (c_state _) with evt_exec_req. cbn [state_funcs].
  apply (exec_spec user table op q key rest c v1 f1); [done|done|done|]. apply HR; [|done|done|done].
  apply asked_req; [done|apply Rq|apply Rq].
Qed.

(** The state machine stops after a round that says so. *)
Definition stops (R : cst H -> Prop) (s : cst H) : Prop :=
  hw (state_funcs vol_path garbage (c_state (st_cli s))) (fun b s' => b = false /\ R s') s.

Lemma loop_end n (R : cst H -> Prop) fuel s :
  reach n (stops R) s -> (S n <= fuel)%nat -> hw (state_loop vol_path garbage fuel) (fun _ s' => R s') s.
Proof.
  intros (m & s1 & Hm & Hl & (b & s2 & E & -> & HR)%hw_eq) Hf. unfold hw.
  replace fuel with (m + S (fuel - S m))%nat by lia. rewrite Hl. cbn [state_loop]. unfold mbind, C_bind, get_cli. cbn. by rewrite E.
Qed.

(** An event on a connection that has something to read. *)
Lemma read_event n (R : cst H -> Prop) c v f :
  c_write_want_read c = false -> (S n <= loop_fuel c)%nat -> reach n (stops R) (mkCst c v f) ->
  hw (tcp_cli_event vol_path garbage EV_READ) (fun _ s => R s) (mkCst c v f).
Proof.
  intros Ew Hn Hr. unfold tcp_cli_event. change (flag EV_READ EV_WRITE) with false. change (flag EV_READ EV_READ) with true.
  hstep. hstep. rewrite Ew. hstep. hstep. cbn [negb andb]. by apply (loop_end n).
Qed.

Lemma exec_stops (R : cst H -> Prop) user table op q key rest c v f :
  ready user table c -> request op q key c -> op <> CHO_CP -> op <> CHO_GET_PART -> op <> CHO_LOGIN ->
  c_rx c = q ++ key ++ rest -> calm f ->
  (forall c1 v' f', asked user table q key rest c c1 -> same_srv v v' -> same_fs f f' -> calm f' ->
   hw (exec_op vol_path garbage op)
      (fun b s => b = false /\ R (mkCst (set_c_first_req false (st_cli s)) (st_srv s) (st_fs s))) (mkCst c1 v' f')) ->
  reach 2 (stops R) (mkCst c v f).
Proof.
  intros Rd Rq H1 H2 H3 Er Cf HR. eapply reach_req; [exact Rd|exact Rq|done|done|exact Er|done|].
  intros v1 f1 V1 S1 C1. apply reach_now. unfold stops. cbn [st_cli]. change (c_state (has_req _ _ _ _)) with evt_exec_req. cbn [state_funcs].
  apply (exec_spec user table op q key rest c v1 f1); [done|done|done|]. apply HR; [|done|done|done].
  apply asked_req; [done|apply Rq|apply Rq].
Qed.

(** Nothing more has arrived. *)
Lemma wait_stops user table c v f :
  ready user table c -> c_rx c = [] -> c_eof c = false -> calm f -> stops (quiet_post c v f) (mkCst c v f).
Proof.
  intros Rd Er Ee Cf. pose proof (rdy_idle _ _ _ Rd) as Id. unfold stops. cbn [st_cli]. rewrite (rdy_state _ _ _ Rd). cbn [state_funcs].
  unfold cli_evt_read_fixed. hstep.
  rewrite (rdy_used _ _ _ Rd), Z.sub_0_r. change (Z.of_nat req_sz) with 88. apply hw_bind. unfold cli_read_data. cbn [Z.eqb Pos.eqb]. apply hw_bind.
  unfold net_read. hstep. apply hw_bind, hw_nondet; [done|]. intros x f1 S1 C1 Hx. rewrite (id_ssl _ _ _ Id), (proj2 (Z.ltb_ge _ _)) by lia.
  unfold net_take. hstep. rewrite Er, Ee. hstep. hstep. cbn [Z.ltb Z.compare Z.add Pos.compare Pos.compare_cont]. hsteps. split; [done|].
  exists v, f1. split; [|by split_and!]. f_equal. pose proof (rdy_used _ _ _ Rd) as E. destruct c. cbn in *. unfold set_c_req_used. cbn. by rewrite E.
Qed.

(** From the end of a request to waiting for the next. *)
Lemma reach_recycle n (R : cst H -> Prop) user table c v f :
  idle user table c -> c_state c = evt_recycle -> c_out_bo c = None ->
  (forall c', ready user table c' -> c_out_ce c' = c_out_ce c -> c_rx c' = c_rx c -> c_tx c' = c_tx c -> c_user c' = c_user c -> env c' = env c ->
   R (mkCst c' v f)) ->
  reach (S n) R (mkCst c v f).
Proof.
  intros Id Es Ho HR. apply reach_step. rewrite Es. cbn [state_funcs]. unfold cli_evt_recycle. hstep. rewrite (id_wq _ _ _ Id).
  hsteps. split; [done|]. apply reach_now, HR; try done. destruct Id. by split.
Qed.

End req.
