(* ===== verification/ChunkPut.v ===== *)
(** * ChunkPut: storing an object over a connection *)

From S2P Require Import Prelude ObjCache Fs BeFs BeFsSpec BeFsProps BeFsList Chunkd ChunkLogic ChunkReq.
#[local] Open Scope Z_scope.

Section put.
Context {H : Type} {HD : TcHdb H} {SH : Sha} {SG : Sig} {TX : Text} {RD : Readdir}.
Variable vol_path : bytes.
Variable garbage : Z -> bytes.
Hypothesis garbage_len : forall n, 0 <= n -> Z.of_nat (length (garbage n)) = n.
Implicit Types (c : client) (v : server H) (f : fsys).

(** The server's answer to a stored object. *)
Definition put_resp (q data : bytes) : bytes :=
  enc_resp (mkResp (req_magic q) 0 0 (req_nonce q) (req_data_len q) (SHA1 data)).

(** Everything but the file at [fn]. *)
Definition elsewhere (fn : bytes) (f f' : fsys) : Prop := forall p, p <> fn -> content f' p = content f p.

(** [d] of an object of [len] bytes has been taken in; it began in [f0]. *)
Record receiving (user : bytes) (table : Z) (key : bytes) (len : Z) (d : bytes) (i : nat) (held : list nat) (f0 : fsys)
    c v f : Prop := {
  rcv_idle : idle user table c;
  rcv_bo : exists o, c_out_bo c = Some o /\ writing (obj_path vol_path table key) key len i o f d;
  rcv_ce : exists p, c_out_ce c = Some p /\ oc_inv (p :: held) (v_actives v);
  rcv_user : c_out_user c = Some user;
  rcv_hash : c_out_hash c = d;
  rcv_len : c_out_len c = len - Z.of_nat (length d);
  rcv_wf : fs_wf f;
  rcv_calm : calm f;
  rcv_else : elsewhere (obj_path vol_path table key) f0 f }.

Lemma receiving_go user table key len d i held f0 b st c v f :
  receiving user table key len d i held f0 c v f ->
  receiving user table key len d i held f0 (set_c_first_req b (set_c_state st c)) v f.
Proof. intros [[]]. split; [split|..]; done. Qed.

Lemma out_end_spec held p o c v f :
  c_out_bo c = Some o -> c_out_ce c = Some p -> out_fn o = None -> oc_inv (p :: held) (v_actives v) ->
  hw cli_out_end (fun _ s => exists a, oc_inv held a /\
    s = mkCst (set_c_out_user None (set_c_out_ce None (set_c_out_bo None c))) (set_v_actives a v) f) (mkCst c v f).
Proof.
  intros Eb Ec Eo I. eapply hw_mono; [apply (out_end_gen held p o (eq f)); try done|].
  - unfold fs_obj_free. rewrite Eo. by apply fw_ret.
  - cbn beta. intros _ s (a & f' & Ia & <- & ->). by exists a.
Qed.

Lemma put_end_spec user table key len d i held f0 c v f :
  receiving user table key len d i held f0 c v f -> Z.of_nat (length d) = len ->
  hw object_put_end (fun b s => b = true /\ exists c' v' f', s = mkCst c' v' f' /\
    idle user table c' /\ c_state c' = evt_recycle /\ c_out_bo c' = None /\ c_out_ce c' = None /\
    c_rx c' = c_rx c /\ c_tx c' = c_tx c ++ put_resp (c_creq c) d /\ c_user c' = c_user c /\ env c' = env c /\
    oc_inv held (v_actives v') /\ v_hdb v' = v_hdb v /\ fs_wf f' /\ calm f' /\ elsewhere (obj_path vol_path table key) f0 f' /\
    content f' (obj_path vol_path table key) = Some (obj_file user key (SHA1 d) d)) (mkCst c v f).
Proof.
  intros [Id (o & Eo & W) (p & Ep & I) Eu Eh El Wf Cf He] Hl. set (fn := obj_path vol_path table key) in *.
  unfold object_put_end. hmalloc f1 S1 C1. hstep. hstep. rewrite Eo, Eu, Eh. apply hw_bind, hw_fs.
  assert (writing fn key len i o f1 d) as W1.
  { destruct W. destruct S1 as (E1 & E2 & _). split; try done; [by rewrite E1|by rewrite E2]. }
  eapply fw_mono; [apply (commit_spec fn key len i o f1 d user (SHA1 d) _ W1); apply length_SHA1|]. cbn beta.
  intros [b o'] f2 (O2 & Hb & Hcb). cbn [fst snd] in *. rewrite (Hcb C1 Hl) in *. destruct Hb as (_ & Fn & m & Hf). hstep.
  apply hw_bind. eapply hw_mono; [by apply (out_end_spec held p o')|]. cbn beta. intros _ s (a & Ia & ->). cbn [negb].
  set (c2 := set_c_out_user None _). set (r := mkResp _ _ _ _ _ _).
  assert (calm f2) as C2 by (eapply calm_oracle; [apply O2|done]).
  assert (length (enc_resp r) = 48%nat) as Hr.
  { apply length_resp; cbn [r r_magic r_nonce r_hash resp_init_req]; [| |apply length_SHA1]; apply length_slice; rewrite (id_creq _ _ _ Id); unfold req_sz; lia. }
  eapply hw_mono; [apply (answer_spec (enc_resp r)); try (done || apply Id)|].
  - intros E. by rewrite E in Hr.
  - rewrite Hr. lia.
  - cbn beta. intros b3 s (-> & v3 & f3 & -> & V3 & S3 & C3). split; [done|]. eexists _, v3, f3. split; [done|].
    assert (fs_wf f1) as Wf1 by (by eapply same_wf).
    assert (fs_wf f2) as Wf2 by (apply (only_wf i f1); eauto; eapply fs_live; [done|apply W1]).
    destruct Id. pose proof V3 as (V3a & V3b & _). split_and!; try done.
    + rewrite V3b. done.
    + by eapply same_wf.
    + intros q Hq. rewrite <- (He q Hq). rewrite (dirs_only_content f2 f3) by (by apply same_dirs_only).
      rewrite (only_content i f1 f2 fn) by (done || apply W1). apply dirs_only_content, same_dirs_only. done.
    + rewrite (dirs_only_content f2 f3) by (by apply same_dirs_only). unfold content. destruct O2 as (-> & _).
      rewrite (wg_name _ _ _ _ _ _ _ W1). cbn. by rewrite Hf.
Qed.

(** One buffer of data. *)
Lemma data_in_loop_spec user table key len d p i held f0 c v f :
  receiving user table key len d i held f0 c v f -> p <> [] -> Z.of_nat (length d) + Z.of_nat (length p) <= len ->
  hw (data_in_loop (length p) p) (fun ok s => ok = true /\ exists o f',
    s = mkCst (set_c_out_len (len - Z.of_nat (length (d ++ p))) (set_c_out_hash (d ++ p) (set_c_out_bo (Some o) c))) v f' /\
    receiving user table key len (d ++ p) i held f0 (st_cli s) v f') (mkCst c v f).
Proof.
  intros [Id (o & Eo & W) (pc & Ep & I) Eu Eh El Wf Cf He] Hp Hl. set (fn := obj_path vol_path table key) in *.
  destruct p as [|x p0] eqn:Ep0; [done|]. rewrite <- Ep0 in *. destruct (length p) as [|k] eqn:Ek; [by rewrite Ep0 in Ek|].
  assert (data_in_loop (S k) p = (c ← get_cli;
      match c_out_bo c with
      | None => c_ub
      | Some o =>
          r ← fs_do (fs_obj_write o p);
          _ ← upd_cli (set_c_out_bo (Some r.2));
          if r.1 <? 0 then mret false else
          let k' := Z.to_nat r.1 in
          _ ← upd_cli (set_c_out_hash (c_out_hash c ++ take k' p));
          _ ← upd_cli (set_c_out_len (c_out_len c - r.1));
          data_in_loop (H := H) k (drop k' p)
      end)) as -> by (by rewrite Ep0).
  hstep. rewrite Eo. apply hw_bind, hw_fs. unfold fs_obj_write.
  eapply fw_mono; [apply (write_loop_spec (length p) fn key len i p 0 o f d); [done|done|lia]|]. cbn beta.
  intros [n o2] f2 (O2 & F2 & Hw). cbn [fst snd] in *. destruct Hw as [[-> Hnc]|[-> W2]]; [done|]. hstep. rewrite Z.add_0_l.
  rewrite (proj2 (Z.ltb_ge _ 0)) by lia. cbn zeta. rewrite Nat2Z.id, take_ge, drop_ge by lia. hsteps.
  destruct k; cbn [data_in_loop]; hstep; (split; [done|]); exists o2, f2; rewrite Eh, El, length_app; cbn [st_cli];
    replace (len - Z.of_nat (length d + length p)) with (len - Z.of_nat (length d) - Z.of_nat (length p)) by lia;
    (split; [done|]).
  all: destruct Id; split; cbn [c_out_bo c_out_ce c_out_user c_out_hash c_out_len set_c_out_len set_c_out_hash set_c_out_bo];
    [done|eauto|eauto|done|done|rewrite length_app; lia
    |apply (only_wf i f); [done|done|eapply fs_live; [done|apply W]|destruct (wg_file _ _ _ _ _ _ _ W2) as [? ->]; eauto]
    |eapply calm_oracle; [apply O2|done]
    |intros y Hy; rewrite <- (He y Hy); apply (only_content i f f2 fn); [done|apply W|done|done]].
Qed.

(** The object is stored and acknowledged, the connection waits again. *)
Record put_done (user : bytes) (table : Z) (q key data rest tx0 : bytes) (held : list nat) (c0 : client) (v0 : server H) (f0 : fsys)
    (s : cst H) : Prop := {
  pd_ready : ready user table (st_cli s);
  pd_rx : c_rx (st_cli s) = rest;
  pd_tx : c_tx (st_cli s) = tx0 ++ put_resp q data;
  pd_auth : c_user (st_cli s) = c_user c0 /\ env (st_cli s) = env c0;
  pd_ce : c_out_ce (st_cli s) = None;
  pd_oc : oc_inv held (v_actives (st_srv s));
  pd_hdb : v_hdb (st_srv s) = v_hdb v0;
  pd_wf : fs_wf (st_fs s);
  pd_calm : calm (st_fs s);
  pd_else : elsewhere (obj_path vol_path table key) f0 (st_fs s);
  pd_obj : content (st_fs s) (obj_path vol_path table key) = Some (obj_file user key (SHA1 data) data) }.

Lemma put_end_done user table key q data rest i held c0 v0 f0 c v f :
  receiving user table key (Z.of_nat (length data)) data i held f0 c v f ->
  c_creq c = q -> c_rx c = rest -> c_user c = c_user c0 -> env c = env c0 -> v_hdb v = v_hdb v0 ->
  hw object_put_end (fun b s => b = true /\
    reach vol_path garbage 1 (put_done user table q key data rest (c_tx c) held c0 v0 f0) s) (mkCst c v f).
Proof.
  intros Rc Eq Er Eu Eg Eh. eapply hw_mono; [by apply (put_end_spec user table key (Z.of_nat (length data)) data i held f0)|]. cbn beta.
  intros b s (-> & c1 & v1 & f1 & -> & Id & Es & Eb & Ec & Erx & Etx & Eus & Egp & I & Ehd & Wf & Cf & He & Hc). split; [done|].
  eapply reach_recycle; [done|done|done|]. intros c2 Rd E0 E1 E2 E3 E4. split; cbn [st_cli st_srv st_fs]; try done.
  - by rewrite E1, Erx.
  - by rewrite E2, Etx, Eq.
  - split; congruence.
  - congruence.
  - congruence.
Qed.

Lemma receive_all user table key q data rest i held c0 v0 f0 tx0 : forall n more d c v f,
  (length more <= n)%nat -> more <> [] -> data = d ++ more ->
  receiving user table key (Z.of_nat (length data)) d i held f0 c v f ->
  c_state c = evt_data_in -> c_creq c = q -> c_rx c = more ++ rest -> c_tx c = tx0 ->
  c_user c = c_user c0 -> env c = env c0 -> v_hdb v = v_hdb v0 ->
  reach vol_path garbage (S (length more)) (put_done user table q key data rest tx0 held c0 v0 f0) (mkCst c v f).
Proof.
  induction n as [|n IH]; intros more d c v f Hn Hm Ed Rc Es Eq Er Et Eu Eg Eh; [destruct more; [done|cbn in Hn; lia]|].
  assert (0 < Z.of_nat (length more)) as Hm0 by (destruct more; [done|cbn; lia]).
  assert (Z.of_nat (length data) = Z.of_nat (length d) + Z.of_nat (length more)) as El by (rewrite Ed, length_app; lia).
  apply reach_step. rewrite Es. cbn [state_funcs]. unfold cli_evt_data_in. hstep. rewrite (rcv_len _ _ _ _ _ _ _ _ _ _ _ Rc).
  rewrite (proj2 (Z.eqb_neq _ 0)) by lia. set (k := Z.min _ CLI_DATA_BUF_SZ).
  assert (0 < k <= 65536 /\ k <= Z.of_nat (length more)) as Hk by (unfold k, CLI_DATA_BUF_SZ, CHUNK_BLK_SZ; lia).
  set (b := take (Z.to_nat k) more). set (more' := drop (Z.to_nat k) more).
  assert (more = b ++ more') as Eb by (unfold b, more'; by rewrite take_drop).
  assert (Z.of_nat (length b) = k) as Hb by (unfold b; rewrite length_take; lia).
  apply hw_bind. eapply hw_mono; [apply (net_read_spec k b (more' ++ rest)); [apply Rc|apply Rc|by rewrite Er, Eb, <- app_assoc|done|lia]|].
  cbn beta. intros r s (-> & v1 & f1 & -> & V1 & S1 & C1).
  assert (receiving user table key (Z.of_nat (length data)) d i held f0 (set_c_rx (more' ++ rest) c) v1 f1) as Rc1.
  { destruct Rc as [[] (o & Eo & W) (pc & Ep & I) R4 R5 R6 R7 R8 R9]. split; try done.
    - exists o. split; [done|]. destruct W. destruct S1 as (E1 & E2 & _). split; try done; [by rewrite E1|by rewrite E2].
    - exists pc. destruct V1 as (_ & -> & _). done.
    - by eapply same_wf.
    - intros y Hy. rewrite <- (R9 y Hy). apply dirs_only_content. by apply same_dirs_only. }
  apply hw_bind. eapply hw_mono; [apply (data_in_loop_spec user table key (Z.of_nat (length data)) d b i held f0); [done| |lia]|].
  { intros E. rewrite E in Hb. cbn in Hb. lia. }
  cbn beta. intros ok s (-> & o2 & f2 & -> & Rc2). cbn [negb st_cli] in *. hstep. cbn [c_out_len set_c_out_len].
  assert (v_hdb v1 = v_hdb v0) as Eh1 by (destruct V1 as (-> & _); done).
  destruct (decide (more' = [])) as [Em|Em].
  - assert (d ++ b = data) as Edb by (rewrite Ed, Eb, Em, app_nil_r; done). rewrite Edb in *. rewrite Z.sub_diag in *. rewrite Z.eqb_refl.
    rewrite Em in *. cbn [app] in *.
    eapply hw_mono; [eapply (put_end_done user table key q data rest i held c0 v0 f0); [exact Rc2|done|done|done|done|done]|].
    cbn beta. intros b1 s [-> Hr]. split; [done|]. cbn [c_tx set_c_out_len set_c_out_hash set_c_out_bo set_c_rx] in Hr. rewrite Et in Hr.
    eapply reach_mono; [exact Hr|lia|done].
  - assert (0 < Z.of_nat (length more')) as Hm' by (destruct more'; [done|cbn; lia]).
    assert (Z.of_nat (length more) = k + Z.of_nat (length more')) as Elm by (rewrite Eb, length_app; lia).
    rewrite (proj2 (Z.eqb_neq _ 0)) by (rewrite length_app; lia). hstep. split; [done|].
    eapply reach_mono; [apply (IH more' (d ++ b)); try done; [lia|]|lia|done]. rewrite <- app_assoc, <- Eb. done.
Qed.

(** A reference for the writer. *)
Lemma out_ce_spec key held c v f :
  calm f -> oc_inv held (v_actives v) ->
  hw (out_ce_get key) (fun _ s => exists p a f', oc_inv (p :: held) a /\ same_fs f f' /\ calm f' /\
    s = mkCst (set_c_out_ce (Some p) c) (set_v_actives a v) f') (mkCst c v f).
Proof.
  intros Cf I. unfold out_ce_get. hmalloc f1 S1 C1. hstep.
  destruct (objcache_get_spec held key true (v_actives v) I) as (p & a & E & Ia & _). cbn [dirty_flag] in E. rewrite E. hsteps.
  by exists p, a, f1.
Qed.

(** What the request meets on disk. *)
Record target (table : Z) (key : bytes) f : Prop := {
  tg_wf : fs_wf f;
  tg_calm : calm f;
  tg_dir : dir_free vol_path table key f }.

Lemma target_same table key f f' : target table key f -> same_fs f f' -> target table key f'.
Proof.
  intros [W Cf (D1 & D2 & D3)] S. split; [by eapply same_wf|eapply calm_oracle; [apply S|done]|].
  destruct S as (E1 & _ & E3 & _). split; [done|]. by rewrite E1, E3.
Qed.

Lemma idle_out user table x c : idle user table c -> idle user table (set_c_out_ce x c).
Proof. intros []. by split. Qed.

(** The connection when the file is there. *)
Lemma receiving_init user table key len i o p held f0 f f' c v :
  writing (obj_path vol_path table key) key len i o f [] -> fs_wf f -> same_fs f f' -> calm f' ->
  elsewhere (obj_path vol_path table key) f0 f -> idle user table c -> c_out_ce c = Some p -> oc_inv (p :: held) (v_actives v) ->
  receiving user table key len [] i held f0
    (set_c_out_user (Some user) (set_c_out_len len (set_c_out_hash [] (set_c_out_bo (Some o) c)))) v f'.
Proof.
  intros W Wf S Cf He [] Ep I. split; try done.
  - exists o. split; [done|]. destruct W. destruct S as (E1 & E2 & _). split; try done; [by rewrite E1|by rewrite E2].
  - by exists p.
  - cbn [length]. cbn. lia.
  - by eapply same_wf.
  - intros y Hy. rewrite (dirs_only_content f f') by (by apply same_dirs_only). by apply He.
Qed.

(** From there on. *)
Lemma put_tail user table key q data rest i held c0 v0 f0 c v f :
  receiving user table key (Z.of_nat (length data)) [] i held f0 c v f -> c_creq c = q -> c_rx c = data ++ rest ->
  c_tx c = c_tx c0 -> c_user c = c_user c0 -> env c = env c0 -> v_hdb v = v_hdb v0 ->
  hw (if Z.of_nat (length data) =? 0 then object_put_end else _ ← set_state evt_data_in; mret true)
     (fun b s => b = true /\ reach vol_path garbage (S (length data)) (put_done user table q key data rest (c_tx c0) held c0 v0 f0)
                              (mkCst (set_c_first_req false (st_cli s)) (st_srv s) (st_fs s))) (mkCst c v f).
Proof.
  intros Rc F1 F2 F3 F4 F5 F6. destruct (Z.eqb_spec (Z.of_nat (length data)) 0) as [E0|E0].
  - destruct data as [|x data]; [|cbn in E0; lia]. cbn [app] in F2.
    eapply hw_mono; [apply (put_end_spec user table key 0 [] i held f0); done|]. cbn beta.
    intros b s (-> & c2 & v2 & f4 & -> & Id2 & Es2 & Eb2 & Ec2 & Erx & Etx & Eus & Egp & I2 & Ehd & Wf & Cf & He & Hcn). split; [done|].
    cbn [st_cli st_srv st_fs]. eapply reach_recycle; [by destruct Id2|done|done|]. intros c3 Rd E0' E1 E2 E3 E4.
    split; cbn [st_cli st_srv st_fs]; try done.
    + rewrite E1. cbn [c_rx set_c_first_req]. by rewrite Erx, F2.
    + rewrite E2. cbn [c_tx set_c_first_req]. by rewrite Etx, F1, F3.
    + rewrite E3, E4. cbn [c_user set_c_first_req]. split; [congruence|]. change (env (set_c_first_req false c2)) with (env c2). congruence.
    + rewrite E0'. done.
    + congruence.
  - hstep. hstep. split; [done|]. cbn [st_cli st_srv st_fs].
    apply (receive_all user table key q data rest i held c0 v0 f0 (c_tx c0) (length data) data []); [done|by intros ->|done| |done..].
    by apply receiving_go.
Qed.

(** The object is created. *)
Lemma object_put_spec user table key q data rest held c v f (R : cst H -> Prop) :
  idle user table c -> the_key c = key -> c_creq c = q -> req_data_len q = Z.of_nat (length data) ->
  key_valid key = true -> Z.of_nat (length data) <= max_obj -> c_rx c = data ++ rest ->
  target table key f -> content f (obj_path vol_path table key) = None -> oc_inv held (v_actives v) ->
  c_state c = evt_recycle ->
  hw (object_put vol_path garbage)
     (fun b s => b = true /\ reach vol_path garbage (S (length data)) (put_done user table q key data rest (c_tx c) held c v f)
                              (mkCst (set_c_first_req false (st_cli s)) (st_srv s) (st_fs s))) (mkCst c v f).
Proof.
  intros Id Ek Eq El Hk Hm Er T Hn I Es. unfold object_put. hstep. rewrite Ek, Eq, El. apply hw_bind.
  eapply hw_mono; [apply (out_ce_spec key held); [apply T|done]|]. cbn beta. intros _ s (p & a & f1 & Ia & S1 & C1 & ->).
  destruct (target_same _ _ _ _ T S1) as [W1 _ (D1 & D2 & D3)]. set (fn := obj_path vol_path table key) in *.
  assert (content f1 fn = None) as Hn1 by (rewrite (dirs_only_content f f1); [done|by apply same_dirs_only]).
  rewrite (id_table _ _ _ Id). apply hw_bind, hw_fs.
  eapply fw_mono; [apply (new_spec vol_path garbage garbage_len table key (Z.of_nat (length data)) f1); [done|lia]|]. cbn beta.
  intros [r e] f2 (W2 & O2 & Ho & _ & _ & Hr & Hc). cbn [fst snd] in *. fold fn in Ho, Hr, Hc.
  specialize (Hc C1 Hk D1 D2 D3). rewrite Hn1 in Hc. destruct r as [o|]; [|by destruct Hc]. destruct Hr as (-> & _ & i & Wr & _).
  hstep. hstep. hstep. assert (calm f2) as C2 by (by eapply calm_oracle). hmalloc f3 S3 C3. hstep.
  rewrite (id_user _ _ _ Id).
  eapply hw_mono; [apply (put_tail user table key q data rest i held c v f)|]; try done.
  apply (receiving_init user table key (Z.of_nat (length data)) i o p held f f2 f3); try done; [|by apply idle_out].
  intros y Hy. rewrite (Ho y Hy). apply dirs_only_content. by apply same_dirs_only.
Qed.

(** Request, key and data of a PUT on an idle connection. *)
Lemma put_served user table q key data rest held c v f :
  ready user table c -> request CHO_PUT q key c -> req_data_len q = Z.of_nat (length data) ->
  Z.of_nat (length data) <= max_obj -> c_rx c = q ++ key ++ data ++ rest ->
  target table key f -> content f (obj_path vol_path table key) = None -> oc_inv held (v_actives v) ->
  reach vol_path garbage (4 + length data) (put_done user table q key data rest (c_tx c) held c v f) (mkCst c v f).
Proof.
  intros Rd Rq El Hm Er T Hn I. eapply (reach_exec vol_path garbage); [exact Rd|exact Rq|done|done|done|exact Er|apply T|].
  intros c1 v1 f1 [Id Ek F1 F2 F3 F4 F5 _ Es] V1 S1 C1. unfold exec_op. cbn [Z.eqb CHO_PUT CHO_LOGIN CHO_NOP CHO_GET CHO_GET_META CHO_GET_PART Pos.eqb].
  eapply hw_mono; [apply (object_put_spec user table key q data rest held c1 v1 f1 (fun _ => True)); try done|].
  - apply Rq.
  - by eapply target_same.
  - rewrite (dirs_only_content f f1); [done|by apply same_dirs_only].
  - destruct V1 as (_ & -> & _). done.
  - cbn beta. rewrite F3. intros b s [-> Hr]. split; [done|]. eapply reach_mono; [exact Hr|done|].
    intros s' []. split; try done.
    + destruct pd_auth0 as [-> ->]. by rewrite F4, F5.
    + rewrite pd_hdb0. apply V1.
    + intros y Hy. rewrite (pd_else0 y Hy). apply dirs_only_content. by apply same_dirs_only.
Qed.

(** A PUT for a key that exists: answered, and the data is still to be read. *)
Record put_refused_st (user : bytes) (table : Z) (q key rest tx0 : bytes) (held : list nat) (c0 : client) (f0 : fsys) (s : cst H) : Prop := {
  pr_ready : ready user table (st_cli s);
  pr_rx : c_rx (st_cli s) = rest;
  pr_tx : c_tx (st_cli s) = tx0 ++ resp_err q che_KeyExists;
  pr_auth : c_user (st_cli s) = c_user c0 /\ env (st_cli s) = env c0;
  pr_ce : exists p, c_out_ce (st_cli s) = Some p /\ oc_inv (p :: held) (v_actives (st_srv s));
  pr_calm : calm (st_fs s);
  pr_fs : forall p, content (st_fs s) p = content f0 p }.

Lemma put_refused_spec user table key q rest held c c0 v f :
  asked user table q key rest c0 c -> key_valid key = true -> 0 <= req_data_len q <= max_obj ->
  target table key f -> is_Some (content f (obj_path vol_path table key)) -> oc_inv held (v_actives v) ->
  hw (object_put vol_path garbage)
     (fun b s => b = true /\ reach vol_path garbage 1 (put_refused_st user table q key rest (c_tx c0) held c0 f)
                              (mkCst (set_c_first_req false (st_cli s)) (st_srv s) (st_fs s))) (mkCst c v f).
Proof.
  intros [Id Ek Eq Er Et Eu Eg _ Es] Hk Hm T Hx I. unfold object_put. hstep. rewrite Ek, Eq. apply hw_bind.
  eapply hw_mono; [apply (out_ce_spec key held); [apply T|done]|]. cbn beta. intros _ s (p & a & f1 & Ia & S1 & C1 & ->).
  destruct (target_same _ _ _ _ T S1) as [W1 _ (D1 & D2 & D3)]. set (fn := obj_path vol_path table key) in *.
  assert (forall y, content f1 y = content f y) as Ec by (intros; apply dirs_only_content; by apply same_dirs_only).
  rewrite (id_table _ _ _ Id). apply hw_bind, hw_fs.
  eapply fw_mono; [apply (new_spec vol_path garbage garbage_len table key (req_data_len q) f1); [done|lia]|]. cbn beta.
  intros [r e] f2 (W2 & O2 & Ho & Hsame & _ & _ & Hc). cbn [fst snd] in *. fold fn in Ho, Hsame, Hc.
  specialize (Hc C1 Hk D1 D2 D3). destruct Hx as [x Hx]. rewrite Ec, Hx in Hc. injection Hc as -> ->. hstep.
  assert (calm f2) as C2 by (by eapply calm_oracle).
  assert (forall y, content f2 y = content f y) as Ec2.
  { intros y. destruct (decide (y = fn)) as [->|Hy]; [rewrite Hsame by (rewrite Ec; eauto)|rewrite Ho by done]; apply Ec. }
  eapply hw_mono; [apply cli_err_spec; try done; apply Id|]. cbn beta. intros b s (-> & v3 & f3 & -> & V3 & S3 & C3). split; [done|].
  cbn [st_cli st_srv st_fs]. assert (v_actives v3 = a) as Ea by apply V3. clear V3.
  eapply reach_recycle; [by destruct Id|done|done|]. intros c3 Rd E0 E1 E2 E3 E4.
  split; cbn [st_cli st_srv st_fs]; [done|rewrite E1; exact Er|rewrite E2| |exists p; rewrite E0, Ea; done|done|].
  - cbn [c_tx set_c_first_req after_tx set_c_ev_mask set_c_writing set_c_write_q set_c_tx set_c_state set_c_out_bo set_c_out_ce c_creq]. by rewrite Et, Eq.
  - rewrite E3, E4. split; [exact Eu|exact Eg].
  - intros y. rewrite <- (Ec2 y). apply dirs_only_content. by apply same_dirs_only.
Qed.

Lemma put_refused_served user table q key rest held c v f :
  ready user table c -> request CHO_PUT q key c -> 0 <= req_data_len q <= max_obj -> c_rx c = q ++ key ++ rest ->
  target table key f -> is_Some (content f (obj_path vol_path table key)) -> oc_inv held (v_actives v) ->
  reach vol_path garbage 4 (put_refused_st user table q key rest (c_tx c) held c f) (mkCst c v f).
Proof.
  intros Rd Rq Hm Er T Hx I. eapply (reach_exec vol_path garbage); [exact Rd|exact Rq|done|done|done|exact Er|apply T|].
  intros c1 v1 f1 Ak V1 S1 C1. unfold exec_op. cbn [Z.eqb CHO_PUT CHO_LOGIN CHO_NOP CHO_GET CHO_GET_META CHO_GET_PART Pos.eqb].
  assert (forall y, content f1 y = content f y) as Ec by (intros; apply dirs_only_content; by apply same_dirs_only).
  eapply hw_mono; [apply (put_refused_spec user table key q rest held c1 c v1 f1); [done|apply Rq|done|by eapply target_same|by rewrite Ec|]|].
  - destruct V1 as (_ & -> & _). done.
  - cbn beta. intros b s [-> Hr]. split; [done|]. eapply reach_mono; [exact Hr|done|]. intros s' []. split; try done.
    intros y. by rewrite pr_fs0, Ec.
Qed.

End put.
