(* ===== verification/ChunkGet.v ===== *)
(** * ChunkGet: fetching an object over a plain connection

    The header is written when the request is executed; the object follows by
    [sendfile], one piece for every event that says the socket takes more. *)

From S2P Require Import Prelude ObjCache Fs BeFs BeFsSpec BeFsProps BeFsList Chunkd ChunkLogic ChunkReq.
#[local] Open Scope Z_scope.

Section get.
Context {H : Type} {HD : TcHdb H} {SH : Sha} {SG : Sig} {TX : Text} {RD : Readdir}.
Variable vol_path : bytes.
Variable garbage : Z -> bytes.
Implicit Types (c : client) (v : server H) (f : fsys).

Definition get_hdr (q md : bytes) (size mtime : Z) : bytes :=
  enc_resp_get (mkResp (req_magic q) 0 0 (req_nonce q) size md) mtime.

(** [cur] from [pos] on is still to be sent. *)
Record sending (user : bytes) (table : Z) (key md data cur : bytes) (i : nat) (pos : Z) c f : Prop := {
  sg_idle : idle user table (set_c_in_obj None (set_c_writing false (set_c_write_q [] c)));
  sg_want : c_read_want_write c = false;
  sg_state : c_state c = evt_recycle;
  sg_out : c_out_bo c = None;
  sg_q : c_write_q c = [mkWr WNull (Z.of_nat (length data) - pos) cb_get_more true];
  sg_len : c_in_len c = Z.of_nat (length data) - pos;
  sg_pos : 0 <= pos < Z.of_nat (length data);
  sg_obj : exists o, c_in_obj c = Some o /\ reading key md data cur i o f 0 /\
    ((sendfile_ofs o = 0 /\ pos = 0) \/ sendfile_ofs o = value_ofs o + pos) }.

Lemma sending_first user table key md data cur i pos b c f :
  sending user table key md data cur i pos c f -> sending user table key md data cur i pos (set_c_first_req b c) f.
Proof. intros [[]]. split; [split|..]; done. Qed.

Lemma reading_same key md data cur i o f f' pos :
  reading key md data cur i o f pos -> dirs_only f f' -> reading key md data cur i o f' pos.
Proof. intros [] (_ & E & _). split; try done. by rewrite E. Qed.

(** The header of the answer is written, [sendfile] is queued. *)
Lemma send_header b n c v f :
  calm f -> c_write_q c = [mkWr (WMem b) (Z.of_nat (length b)) cb_free false; mkWr WNull n cb_get_more true] ->
  c_ssl c = false -> c_writing c = false -> b <> [] -> Z.of_nat (length b) <= 2 ^ 48 -> 0 < n <= 2 ^ 48 -> 0 <= c_in_len c ->
  hw cli_write_start (fun r s => r = false /\ exists m, quiet_post
    (set_c_writing true (set_c_ev_mask m (set_c_write_q [mkWr WNull n cb_get_more true] (set_c_tx (c_tx c ++ b) c)))) v f s) (mkCst c v f).
Proof.
  intros Cf Eq Es Ew Hb Hl Hn Hil. set (k := Z.of_nat (length b)) in *. assert (0 < k) as Hk by (unfold k; destruct b; [done|cbn; lia]).
  unfold cli_write_start. hstep. rewrite Eq, Ew. apply hw_bind. unfold cli_writable. hstep.
  cbn [writable_loop]. hstep. rewrite Eq.
  unfold do_write. apply hw_bind. hstep. cbn [wr_sendfile]. rewrite Es, Eq. unfold sys_writev. apply hw_bind. hstep.
  assert (cli_wr_iov [mkWr (WMem b) k cb_free false; mkWr WNull n cb_get_more true] CLI_MAX_WR_IOV 0 =
          [mkWr (WMem b) k cb_free false; mkWr WNull n cb_get_more true]) as Ei.
  { cbn [cli_wr_iov CLI_MAX_WR_IOV wr_len]. rewrite !u64_add_ge by lia. rewrite !(proj2 (Z.ltb_ge _ _)) by lia. done. }
  rewrite Ei. cbn [iov_bytes wr_bytes wr_buf]. hsteps. rewrite app_nil_r.
  apply hw_bind, hw_nondet; [done|]. intros x f1 S1 C1 Hx. rewrite (proj2 (Z.ltb_ge _ _)) by lia.
  rewrite (proj2 (Nat.eqb_neq _ _)) by (unfold k in *; lia). rewrite take_ge by (unfold k in *; lia).
  unfold sent. hstep. hstep. hstep. hstep.
  apply hw_bind. unfold cli_wr_completed. destruct (Z.to_nat (Z.of_nat (length b))) as [|j] eqn:Ek; [unfold k in *; lia|].
  cbn [wr_completed]. rewrite (proj2 (Z.leb_gt _ _)) by (unfold k in *; lia). hstep. cbn [c_write_q set_c_tx]. rewrite Eq.
  cbn [wr_len]. fold k. rewrite Z.ltb_irrefl. hstep. unfold wr_advance. cbn [wr_len wr_buf wr_cb wr_sendfile].
  rewrite Z.sub_diag, Z.eqb_refl. apply hw_bind. unfold cli_write_free. cbn [run_wr_cb wr_cb wr_buf]. hstep. hstep. hstep. hstep.
  apply hw_bind. eapply (hw_mono _ (fun _ s => exists v', s = mkCst (set_c_write_q [mkWr WNull n cb_get_more true] (set_c_tx (c_tx c ++ b) c)) v' f1 /\ same_srv v v')).
  { destruct (_ <? _); hstep; eexists; split; try done. }
  intros _ s (v1 & -> & Sv). hstep. cbn [orb]. destruct j; cbn [wr_completed Z.leb Z.compare]; hstep; hstep; cbn [c_write_q set_c_write_q]; hstep; hstep;
    cbn [c_write_q set_c_write_q]; unfold cli_wr_set_poll, cli_ev_update; hsteps; (split; [done|]); eexists _, v1, f1; (split; [reflexivity|]); by split.
Qed.

(** What an object request meets on disk. *)
Lemma object_get_spec user table key q rest md data cur c c0 v f :
  asked user table q key rest c0 c -> c_read_want_write c = false -> data <> [] ->
  stored user key md data cur (obj_path vol_path table key) f ->
  calm f -> table <> 0 -> f_names f !! obj_dir vol_path table key = None ->
  hw (object_get vol_path true) (fun b s => b = false /\ exists c' v' f' i mtime, s = mkCst c' v' f' /\
    sending user table key md data cur i 0 c' f' /\ c_rx c' = rest /\
    c_tx c' = c_tx c0 ++ get_hdr q md (Z.of_nat (length data)) mtime /\ c_user c' = c_user c0 /\ env c' = env c0 /\
    c_out_ce c' = c_out_ce c /\ same_srv v v' /\ dirs_only f f' /\ calm f') (mkCst c v f).
Proof.
  intros [Id Ek Eq Er Et Eu Eg Eo Es] Hw Hd St Cf Ht Hn. unfold object_get. hmalloc f1 S1 C1. hstep. rewrite Eq, Ek.
  rewrite (id_user _ _ _ Id), (id_table _ _ _ Id). apply hw_bind.
  apply (open_own vol_path user table key md data cur); [by eapply stored_same, same_dirs_only|done|done|by destruct S1 as (-> & _)|].
  intros o i f2 (D2 & _) C2 Hsf R. cbn [fst snd]. hstep. hstep. rewrite (rd_size _ _ _ _ _ _ _ _ R), (rd_hash _ _ _ _ _ _ _ _ R).
  set (b := enc_resp_get _ _). assert (length b = 56%nat) as Hb.
  { unfold b, enc_resp_get. rewrite length_app, length_le_bytes, length_resp; [done|..|apply St]; apply length_slice;
      rewrite <- Eq, (id_creq _ _ _ Id); unfold req_sz; lia. }
  apply hw_bind. eapply hw_mono; [apply writeq_spec; [done|rewrite Hb; lia]|]. cbn beta. intros rc s (-> & v3 & f3 & -> & V3 & S3 & C3).
  cbn [Z.eqb negb orb]. assert (0 < Z.of_nat (length data)) as Hl by (destruct data; [done|cbn; lia]).
  pose proof (rd_max _ _ _ _ _ _ _ _ R) as Hmax. rewrite (proj2 (Z.eqb_neq _ 0)) by lia.
  apply hw_bind. unfold object_read_bytes. hstep.
  unfold use_sendfile. cbn [c_ssl set_c_write_q set_c_in_len set_c_in_obj]. rewrite (id_ssl _ _ _ Id). cbn [negb].
  unfold cli_wr_sendfile. hmalloc f4 S4 C4. hstep. hstep. hstep. cbn [negb].
  cbn [c_write_q set_c_write_q set_c_in_len set_c_in_obj c_in_len]. rewrite (id_wq _ _ _ Id). cbn [app].
  eapply hw_mono; [apply (send_header b (Z.of_nat (length data))); cbn [c_write_q c_ssl c_writing c_in_len set_c_write_q set_c_in_len set_c_in_obj]; try (done || apply Id)|].
  - intros E. by rewrite E in Hb.
  - rewrite Hb. lia.
  - unfold max_obj, CHUNK_BLK_SZ in *. lia.
  - lia.
  - cbn beta. intros b5 s (-> & m & v5 & f5 & -> & V5 & S5 & C5). split; [done|]. eexists _, v5, f5, i, (bo_mtime o). split; [reflexivity|].
    assert (dirs_only f2 f5) as D25 by (etrans; [by apply same_dirs_only|]; etrans; [by apply same_dirs_only|by apply same_dirs_only]).
    assert (dirs_only f f5) as D05 by (etrans; [by apply same_dirs_only|]; by etrans).
    split; [|split; [exact Er|]; split; [|split; [exact Eu|]; split; [exact Eg|]; split; [done|]; split; [by etrans|done]]].
    + destruct Id. split; cbn; rewrite ?Z.sub_0_r; try done. exists o. split; [done|]. split; [by eapply reading_same|]. by left.
    + cbn. by rewrite Et.
Qed.
(** ** A piece of the object *)

Lemma length_slice_le (pos n : nat) (b : bytes) : (pos + n <= length b)%nat -> length (take n (drop pos b)) = n.
Proof. intros Hl. rewrite length_take, length_drop. lia. Qed.

Lemma sendfile_spec key md data cur i o f pos n :
  reading key md data cur i o f 0 -> ((sendfile_ofs o = 0 /\ pos = 0) \/ sendfile_ofs o = value_ofs o + pos) ->
  calm f -> 0 <= pos -> 0 < n <= 2 ^ 48 -> pos + n <= Z.of_nat (length data) ->
  fw False (fs_obj_sendfile o n) (fun r f' => same_fs f f' /\ calm f' /\
    r.1 = Ok (take (Z.to_nat n) (drop (Z.to_nat pos) cur)) /\
    reading key md data cur i r.2 f' 0 /\ sendfile_ofs r.2 = value_ofs r.2 + (pos + n)) f.
Proof.
  intros R Hs Cf Hp Hn Hl. unfold fs_obj_sendfile. rewrite (rd_ino _ _ _ _ _ _ _ _ R).
  assert (hdr_sz + Z.of_nat (length (bo_key o)) + csum_tbl_sz o = value_ofs o) as Ev.
  { rewrite (rd_vofs _ _ _ _ _ _ _ _ R), (rd_key _ _ _ _ _ _ _ _ R). unfold csum_tbl_sz, vofs. rewrite (rd_tbl _ _ _ _ _ _ _ _ R), length_csums.
    pose proof (nblk_bound (Z.of_nat (length data)) ltac:(split; [lia|apply R])). lia. }
  assert (0 < value_ofs o) as Hv by (rewrite <- Ev; unfold hdr_sz, csum_tbl_sz; lia).
  assert ((if sendfile_ofs o =? 0 then hdr_sz + Z.of_nat (length (bo_key o)) + csum_tbl_sz o else sendfile_ofs o) = value_ofs o + pos) as ->.
  { rewrite Ev. destruct Hs as [[-> ->]| ->]; [cbn; lia|]. rewrite (proj2 (Z.eqb_neq _ 0)); lia. }
  apply fw_bind, fw_read; [lia|lia|]. intros [b|e] f1 S1 Hb; [|destruct Hb as [_ Hb]; by destruct (Hb Cf)].
  destruct Hb as (k & _ & -> & _ & Hk). rewrite (Hk Cf) by lia. apply fw_ret. cbn [fst snd].
  destruct (rd_file _ _ _ _ _ _ _ _ R) as (m & front & Hfr & Hi). unfold file_of. rewrite Hi. change (default _ (Some ?x)) with x. cbn [fi_data].
  assert (drop (Z.to_nat (value_ofs o + pos)) (front ++ cur) = drop (Z.to_nat pos) cur) as Ed.
  { replace (Z.to_nat (value_ofs o + pos)) with (length front + Z.to_nat pos)%nat by lia. by rewrite drop_app_add. }
  rewrite Ed. split; [done|]. split; [eapply calm_oracle; [apply S1|done]|]. split; [done|].
  pose proof (rd_cur _ _ _ _ _ _ _ _ R) as Hcur. rewrite length_slice_le by lia. split.
  - eapply reading_same; [|by apply same_dirs_only]. destruct R. split; done.
  - cbn [sendfile_ofs value_ofs set_in]. lia.
Qed.

(** The body is out. *)
Record sent_all (user : bytes) (table : Z) (rest tx : bytes) (c0 : client) c : Prop := {
  sa_idle : idle user table c;
  sa_state : c_state c = evt_recycle;
  sa_out : c_out_bo c = None;
  sa_rx : c_rx c = rest;
  sa_tx : c_tx c = tx;
  sa_auth : c_user c = c_user c0 /\ env c = env c0 }.

Lemma piece_last user table key md data cur i pos c v f :
  sending user table key md data cur i pos c f -> calm f -> Z.of_nat (length data) - pos <= CLI_MAX_SENDFILE_SZ ->
  hw cli_writable (fun _ s => exists c' v' f', s = mkCst c' v' f' /\
    sent_all user table (c_rx c) (c_tx c ++ drop (Z.to_nat pos) cur) c c' /\ c_write_want_read c' = false /\
    c_out_ce c' = c_out_ce c /\ same_srv v v' /\ same_fs f f' /\ calm f') (mkCst c v f).
Proof.
  intros [Id Hw Es Eo Eq El Hp (o & Ei & R & Hs)] Cf Hn. set (n := Z.of_nat (length data) - pos) in *.
  unfold cli_writable. hstep. cbn [writable_loop]. hstep. rewrite Eq. unfold do_write. apply hw_bind. hstep. cbn [wr_sendfile]. rewrite Ei, El.
  rewrite Z.min_l by done. apply hw_bind, hw_fs. unfold CLI_MAX_SENDFILE_SZ in *.
  eapply fw_mono; [apply (sendfile_spec key md data cur i o f pos n); try done; lia|]. cbn beta.
  intros [r o2] f1 (S1 & C1 & E1 & R1 & Hs1). cbn [fst snd] in *. subst r. hstep. set (b := take _ _).
  pose proof (rd_cur _ _ _ _ _ _ _ _ R) as Hcur.
  assert (Z.of_nat (length b) = n) as Hb by (unfold b; rewrite length_slice_le; lia).
  assert (b = drop (Z.to_nat pos) cur) as Eb by (unfold b; apply take_ge; rewrite length_drop; lia).
  unfold sent. hstep. hstep. hstep. hstep. rewrite Hb, Z.sub_diag. cbn [c_tx set_c_in_obj].
  apply hw_bind. unfold cli_wr_completed. destruct (Z.to_nat n) as [|j] eqn:Ej; [lia|]. cbn [wr_completed].
  rewrite (proj2 (Z.leb_gt _ _)) by lia. hstep. cbn [c_write_q set_c_in_len set_c_tx set_c_in_obj]. rewrite Eq. cbn [wr_len].
  rewrite Z.ltb_irrefl. hstep. unfold wr_advance. cbn [wr_len wr_buf wr_cb wr_sendfile]. rewrite Z.sub_diag, Z.eqb_refl.
  apply hw_bind. unfold cli_write_free. cbn [run_wr_cb wr_cb object_get_more negb]. apply hw_bind. unfold object_get_more. cbn [negb]. hstep.
  cbn [c_in_len set_c_write_q set_c_in_len Z.eqb]. unfold cli_in_end. hstep. cbn [c_in_obj set_c_write_q set_c_in_len set_c_tx set_c_in_obj].
  apply hw_bind, hw_fs. unfold fs_obj_free. rewrite (rd_fn _ _ _ _ _ _ _ _ R1). apply fw_ret. hstep. hstep. hstep. hstep. hstep.
  cbn [c_write_q set_c_in_obj set_c_write_q tail].
  apply hw_bind. eapply (hw_mono _ (fun _ s => exists c' v', s = mkCst (set_c_write_q [] c') v' f1 /\
    c' = (set_c_in_obj None (set_c_write_q [mkWr WNull 0 cb_get_more true] (set_c_in_len 0 (set_c_tx (c_tx c ++ b) (set_c_in_obj (Some o2) c))))) /\ same_srv v v')).
  { destruct (_ <? _); hstep; eexists _, _; (split; [reflexivity|]); done. }
  intros _ s (c' & v1 & -> & Ec & Sv). hstep. cbn [orb].
  destruct j; cbn [wr_completed Z.leb Z.compare]; hstep; hstep; cbn [c_write_q set_c_write_q]; hstep;
    unfold cli_wr_set_poll, cli_ev_update; hsteps; eexists _, v1, f1; (split; [reflexivity|]); subst c'; rewrite Eb; destruct Id;
    (split; [split; [split; done|done..]|]); done.
Qed.

Lemma piece_more user table key md data cur i pos c v f :
  sending user table key md data cur i pos c f -> calm f -> CLI_MAX_SENDFILE_SZ < Z.of_nat (length data) - pos ->
  hw cli_writable (fun _ s => exists c' v' f', s = mkCst c' v' f' /\
    sending user table key md data cur i (pos + CLI_MAX_SENDFILE_SZ) c' f' /\ c_rx c' = c_rx c /\
    c_tx c' = c_tx c ++ take (Z.to_nat CLI_MAX_SENDFILE_SZ) (drop (Z.to_nat pos) cur) /\
    c_user c' = c_user c /\ env c' = env c /\ c_out_ce c' = c_out_ce c /\ same_srv v v' /\ same_fs f f' /\ calm f') (mkCst c v f).
Proof.
  intros [Id Hw Es Eo Eq El Hp (o & Ei & R & Hs)] Cf Hn.
  assert (0 < CLI_MAX_SENDFILE_SZ <= 2 ^ 48) as Hn0 by (unfold CLI_MAX_SENDFILE_SZ; lia).
  unfold cli_writable. hstep. cbn [writable_loop]. hstep. rewrite Eq. unfold do_write. apply hw_bind. hstep. cbn [wr_sendfile]. rewrite Ei, El.
  rewrite Z.min_r by lia. remember CLI_MAX_SENDFILE_SZ as n eqn:En. clear En.
  apply hw_bind, hw_fs. eapply fw_mono; [apply (sendfile_spec key md data cur i o f pos n); try done; lia|]. cbn beta.
  intros [r o2] f1 (S1 & C1 & E1 & R1 & Hs1). cbn [fst snd] in *. subst r. hstep. set (b := take _ _).
  pose proof (rd_cur _ _ _ _ _ _ _ _ R) as Hcur.
  assert (Z.of_nat (length b) = n) as Hb by (unfold b; rewrite length_slice_le; lia).
  unfold sent. hstep. hstep. hstep. hstep. rewrite Hb. cbn [c_tx set_c_in_obj].
  apply hw_bind. unfold cli_wr_completed. destruct (Z.to_nat n) as [|j] eqn:Ej; [lia|]. cbn [wr_completed].
  rewrite (proj2 (Z.leb_gt n 0)) by lia. hstep. cbn [c_write_q set_c_in_len set_c_tx set_c_in_obj]. rewrite Eq. cbn [wr_len].
  rewrite (proj2 (Z.ltb_ge _ _)) by lia. hstep. unfold wr_advance. cbn [wr_len wr_buf wr_cb wr_sendfile].
  rewrite (proj2 (Z.eqb_neq (Z.of_nat (length data) - pos - n) 0)) by lia. rewrite Z.sub_diag.
  replace (Z.of_nat (length data) - pos - n) with (Z.of_nat (length data) - (pos + n)) by lia.
  assert (reading key md data cur i o2 f1 0) as R2 by done. destruct Id.
  destruct j; cbn [wr_completed Z.leb Z.compare]; hstep; hstep; cbn [c_write_q set_c_write_q]; hstep;
    eexists _, v, f1; (split; [reflexivity|]); (split; [|by split_and!]).
  all: split; cbn [c_write_q c_in_len c_in_obj set_c_write_q set_c_in_len set_c_tx set_c_in_obj]; try done; try lia.
  all: exists o2; split; [done|]; split; [done|]; by right.
Qed.

(** An event that lets the connection write. *)
Lemma write_event (Q : unit -> cst H -> Prop) c v f :
  c_read_want_write c = false ->
  hw cli_writable (fun _ s => c_write_want_read (st_cli s) = false /\ c_state (st_cli s) = evt_recycle /\ Q tt s) (mkCst c v f) ->
  hw (tcp_cli_event vol_path garbage EV_WRITE) Q (mkCst c v f).
Proof.
  intros Ew HQ. unfold tcp_cli_event. change (flag EV_WRITE EV_WRITE) with true. change (flag EV_WRITE EV_READ) with false. cbn [negb andb].
  apply hw_bind. unfold tcp_cli_wr_event. hstep. rewrite Ew. eapply hw_mono; [exact HQ|]. cbn beta.
  intros _ [c1 v1 f1] (E1 & E2 & HQ1). cbn [st_cli] in *. hstep. rewrite E1. hstep. hstep.
  rewrite bool_decide_eq_false_2 by congruence. cbn [negb]. hstep. done.
Qed.

Fixpoint writes (k : nat) : C H unit :=
  match k with O => mret tt | S k => _ ← tcp_cli_event vol_path garbage EV_WRITE; writes k end.

(** Events until the object is out. *)
Lemma body_sent user table key md data cur i rest tx c0 : forall n pos c v f,
  sending user table key md data cur i pos c f -> calm f -> Z.of_nat (length data) - pos <= Z.of_nat n * CLI_MAX_SENDFILE_SZ ->
  c_rx c = rest -> tx = c_tx c ++ drop (Z.to_nat pos) cur -> c_user c = c_user c0 /\ env c = env c0 ->
  exists k, hw (writes k) (fun _ s => exists c' v' f', s = mkCst c' v' f' /\ sent_all user table rest tx c0 c' /\
    c_out_ce c' = c_out_ce c /\ same_srv v v' /\ same_fs f f' /\ calm f') (mkCst c v f).
Proof.
  induction n as [|n IH]; intros pos c v f Sg Cf Hn Er Et [Eu Eg].
  { pose proof (sg_pos _ _ _ _ _ _ _ _ _ _ Sg). lia. }
  assert (c_write_want_read c = false) as Hww by apply Sg.
  destruct (Z.le_gt_cases (Z.of_nat (length data) - pos) CLI_MAX_SENDFILE_SZ) as [Hl|Hl].
  - exists 1%nat. cbn [writes]. apply hw_bind, write_event; [apply Sg|]. eapply hw_mono; [by apply (piece_last user table key md data cur i pos)|].
    cbn beta. intros _ s (c1 & v1 & f1 & -> & Sa & E1 & E2 & V1 & S1 & C1). split; [done|]. split; [apply Sa|]. hstep.
    exists c1, v1, f1. split; [done|]. split; [|done]. destruct Sa as [A1 A2 A3 A4 A5 [A6 A7]]. split; try done; try congruence.
    split; congruence.
  - assert (hw (tcp_cli_event vol_path garbage EV_WRITE) (fun _ s =>
      exists c' v' f', s = mkCst c' v' f' /\ sending user table key md data cur i (pos + CLI_MAX_SENDFILE_SZ) c' f' /\ c_rx c' = c_rx c /\
        c_tx c' = c_tx c ++ take (Z.to_nat CLI_MAX_SENDFILE_SZ) (drop (Z.to_nat pos) cur) /\
        c_user c' = c_user c /\ env c' = env c /\ c_out_ce c' = c_out_ce c /\ same_srv v v' /\ same_fs f f' /\ calm f') (mkCst c v f)) as He.
    { apply write_event; [apply Sg|]. eapply hw_mono; [by apply (piece_more user table key md data cur i pos)|]. cbn beta.
      intros _ s (c1 & v1 & f1 & -> & Sg1 & Hrest). split; [apply Sg1|]. split; [apply Sg1|]. by exists c1, v1, f1. }
    apply hw_eq in He as (u & s1 & E & c1 & v1 & f1 & -> & Sg1 & Er1 & Et1 & Eu1 & Eg1 & Eo1 & V1 & S1 & C1).
    destruct (IH (pos + CLI_MAX_SENDFILE_SZ) c1 v1 f1) as [k Hk]; [done|done|lia|congruence| |split; congruence|].
    + pose proof (sg_pos _ _ _ _ _ _ _ _ _ _ Sg). rewrite Et, Et1, <- app_assoc. f_equal.
      rewrite Z2Nat.inj_add by (unfold CLI_MAX_SENDFILE_SZ; lia). rewrite <- drop_drop. by rewrite take_drop.
    + exists (S k). cbn [writes]. apply hw_bind. unfold hw. rewrite E. eapply hw_mono; [exact Hk|]. cbn beta.
      intros _ s (c2 & v2 & f2 & -> & Sa & Eo2 & V2 & S2 & C2). exists c2, v2, f2. split; [done|]. split; [done|].
      split; [congruence|]. split; [by etrans|]. split; [by etrans|done].
Qed.

End get.
