(* ===== verification/ChunkPart.v ===== *)
(** * ChunkPart: fetching part of an object

    The range is widened to whole blocks, which are read and checked; of them
    the requested bytes are sent. *)

From S2P Require Import Prelude ObjCache Fs BeFs BeFsSpec BeFsProps BeFsList Chunkd ChunkLogic ChunkReq.
#[local] Open Scope Z_scope.

(** ** The range *)

Lemma part_len_spec size off dl :
  0 <= off <= size -> size <= max_obj -> 0 <= dl ->
  part_len size off dl = Z.min (if dl =? 0 then size - off else Z.min dl (size - off)) (4 * CHUNK_BLK_SZ).
Proof.
  intros Ho Hs Hd. unfold part_len, CHUNK_MAX_GETPART. unfold max_obj, CHUNK_BLK_SZ in *. unfold u64. rewrite uw_small by lia.
  destruct (Z.eqb_spec dl 0); cbn [orb]; [done|]. destruct (Z.ltb_spec (size - off) dl); lia.
Qed.

Lemma round_blk_spec n : 0 <= n <= max_obj -> round_blk n = CHUNK_BLK_SZ * nblk n.
Proof.
  intros Hn. unfold round_blk. rewrite flag_blk, land_blk by lia. unfold nblk.
  pose proof (Z.div_mod n CHUNK_BLK_SZ ltac:(done)) as Hd. pose proof (Z.mod_pos_bound n CHUNK_BLK_SZ ltac:(done)) as Hr.
  destruct (Z.eqb_spec (n mod CHUNK_BLK_SZ) 0) as [E|E]; cbn [negb].
  - rewrite E in Hd. replace (n + CHUNK_BLK_SZ - 1) with ((CHUNK_BLK_SZ - 1) + (n / CHUNK_BLK_SZ) * CHUNK_BLK_SZ) by (unfold CHUNK_BLK_SZ in *; lia).
    rewrite Z.div_add by done. change ((CHUNK_BLK_SZ - 1) / CHUNK_BLK_SZ) with 0. lia.
  - unfold u64. rewrite uw_small by (unfold max_obj, CHUNK_BLK_SZ in *; lia).
    replace (n + CHUNK_BLK_SZ - 1) with ((n mod CHUNK_BLK_SZ - 1) + (n / CHUNK_BLK_SZ + 1) * CHUNK_BLK_SZ) by (unfold CHUNK_BLK_SZ in *; lia).
    rewrite Z.div_add by done. rewrite (Z.div_small (n mod CHUNK_BLK_SZ - 1)) by lia. lia.
Qed.

Record part_range (size off len ofs span : Z) : Prop := {
  pt_ofs : ofs = off - off mod CHUNK_BLK_SZ;
  pt_low : 0 <= ofs <= off;
  pt_algn : ofs mod CHUNK_BLK_SZ = 0;
  pt_in : off - ofs + len <= span;
  pt_high : ofs + span <= size;
  pt_end : (ofs + span) mod CHUNK_BLK_SZ = 0 \/ ofs + span = size;
  pt_max : span <= 5 * CHUNK_BLK_SZ }.

Lemma part_range_ok size off len :
  0 <= off <= size -> size <= max_obj -> 0 <= len <= size - off -> len <= 4 * CHUNK_BLK_SZ ->
  part_range size off len (part_ofs off) (part_span size off len).
Proof.
  intros Ho Hs Hl Hm. unfold part_span, part_ofs. rewrite land_lnot_blk by lia.
  pose proof (Z.div_mod off CHUNK_BLK_SZ ltac:(done)) as Hd. pose proof (Z.mod_pos_bound off CHUNK_BLK_SZ ltac:(done)) as Hr.
  set (m := off mod CHUNK_BLK_SZ) in *. replace (len + (off - (off - m))) with (len + m) by lia.
  assert (0 <= size - (off - m) < 2 ^ 64) by (unfold max_obj, CHUNK_BLK_SZ in *; lia).
  assert (0 <= len + m <= max_obj) as Hlm by (unfold max_obj, CHUNK_BLK_SZ in *; lia).
  unfold u64. rewrite !uw_small by (unfold max_obj, CHUNK_BLK_SZ in *; lia). rewrite round_blk_spec by done.
  assert (len + m <= CHUNK_BLK_SZ * nblk (len + m) < len + m + CHUNK_BLK_SZ) as Hn.
  { unfold nblk. pose proof (Z.div_mod (len + m + CHUNK_BLK_SZ - 1) CHUNK_BLK_SZ ltac:(done)).
    pose proof (Z.mod_pos_bound (len + m + CHUNK_BLK_SZ - 1) CHUNK_BLK_SZ ltac:(done)). unfold CHUNK_BLK_SZ in *. lia. }
  assert ((off - m) = (off / CHUNK_BLK_SZ) * CHUNK_BLK_SZ) as Ea by lia.
  assert (nblk (len + m) <= 5) by (unfold CHUNK_BLK_SZ in *; lia).
  assert (0 <= off / CHUNK_BLK_SZ) by (apply Z.div_pos; [lia|done]).
  split; try lia; [unfold CHUNK_BLK_SZ in *; lia|by rewrite Ea, Z_mod_mult| |unfold CHUNK_BLK_SZ in *; lia].
  destruct (Z.le_gt_cases (CHUNK_BLK_SZ * nblk (len + m)) (size - (off - m))).
  - left. rewrite Z.min_l by lia. rewrite Ea, (Z.mul_comm CHUNK_BLK_SZ), <- Z.mul_add_distr_r. apply Z_mod_mult.
  - right. lia.
Qed.

Section part.
Context {H : Type} {HD : TcHdb H} {SH : Sha} {SG : Sig} {TX : Text} {RD : Readdir}.
Variable vol_path : bytes.
Implicit Types (c : client) (v : server H) (f : fsys).

(** ** The request *)

Definition part_hdr (q : bytes) (last : bool) (len : Z) (mem : bytes) (mtime : Z) : bytes :=
  enc_resp_get (mkResp (req_magic q) 0 (if last then CHF_GET_PART_LAST else 0) (req_nonce q) len (SHA1 mem)) mtime.

(** What was read goes out after its header. *)
Lemma part_answer key md data cur i o o2 f2 pos q last len mem body c v f :
  reading key md data cur i o2 f2 pos -> c_in_obj c = Some o2 ->
  calm f -> c_write_q c = [] -> c_ssl c = false -> c_writing c = false -> length q = req_sz ->
  0 < len -> Z.of_nat (length body) = len -> len <= 2 ^ 40 ->
  hw (rc ← write_mem (part_hdr q last len mem (bo_mtime o));
      if negb (rc =? 0) then mret true else
      rc ← cli_writeq (WMem body) len cb_free;
      if negb (rc =? 0) then
        c ← get_cli;
        _ ← upd_cli (set_c_write_q (removelast (c_write_q c) ++ [mkWr WDead 56 cb_free false]));
        mret true
      else _ ← cli_in_end; cli_write_start)
     (fun b s => b = true /\ c_in_obj (st_cli s) = None /\
        c_tx (st_cli s) = c_tx c ++ part_hdr q last len mem (bo_mtime o) ++ body /\ same_fs f (st_fs s)) (mkCst c v f).
Proof.
  intros R Eo Cf Eq Es Ew Hq Hl Hb Hm. set (h := part_hdr _ _ _ _ _). assert (length h = 56%nat) as Hh.
  { unfold h, part_hdr, enc_resp_get. rewrite length_app, length_le_bytes, length_resp; [done| | |apply length_SHA1];
      apply length_slice; rewrite Hq; unfold req_sz; lia. }
  apply hw_bind. unfold write_mem. eapply hw_mono; [apply writeq_spec; [done|lia]|]. cbn beta.
  intros rc s (-> & v1 & f1 & -> & V1 & S1 & C1). cbn [Z.eqb negb]. apply hw_bind.
  eapply hw_mono; [apply writeq_spec; [done|lia]|]. cbn beta. intros rc s (-> & v2 & f3 & -> & V2 & S2 & C2). cbn [Z.eqb negb].
  apply hw_bind. apply (in_end_spec _ _ _ _ o2); [done|apply R|].
  cbn [c_write_q set_c_write_q]. rewrite Eq. cbn [app].
  eapply hw_mono; [apply (send_mems [h; body]); try done|].
  - cbn [c_write_q set_c_write_q set_c_in_obj fmap list_fmap]. unfold mem_wr. by rewrite Hb.
  - unfold CLI_MAX_WR_IOV. cbn. lia.
  - constructor; [intros E; by rewrite E in Hh|]. constructor; [intros ->; cbn in Hb; lia|done].
  - cbn [concat]. rewrite !length_app. cbn [length]. lia.
  - cbn beta. intros b s (-> & v4 & f4 & -> & _ & S4 & _). cbn [st_cli st_fs]. split; [done|]. split; [done|].
    split; [cbn; by rewrite app_nil_r|]. by do 2 etrans.
Qed.

(** The bytes asked for, inside the blocks that were read. *)
Lemma part_inside (cur : bytes) (ofs off : Z) (span len : nat) :
  0 <= ofs <= off -> off - ofs + Z.of_nat len <= Z.of_nat span ->
  take len (drop (Z.to_nat (off - ofs)) (take span (drop (Z.to_nat ofs) cur))) = take len (drop (Z.to_nat off) cur).
Proof.
  intros Ho Hs. rewrite skipn_firstn_comm, take_take, drop_drop. f_equal; [lia|]. f_equal. lia.
Qed.

(** How a request for [len] bytes at [off] ends. *)
Definition part_post (q data cur tx : bytes) (off len : Z) (f : fsys) (s : cst H) : Prop :=
  let size := Z.of_nat (length data) in
  let mem := take (Z.to_nat (part_span size off len)) (drop (Z.to_nat (part_ofs off)) cur) in
  let body := take (Z.to_nat len) (drop (Z.to_nat off) cur) in
  (forall p, content (st_fs s) p = content f p) /\
  ((exists mtime, c_tx (st_cli s) = tx ++ part_hdr q (off + len =? size) len mem mtime ++ body /\ c_in_obj (st_cli s) = None /\
      (body = take (Z.to_nat len) (drop (Z.to_nat off) data) \/ exists x y, x <> y /\ SHA1 x = SHA1 y)) \/
   (c_tx (st_cli s) = tx ++ resp_err q che_Success /\ exists j, blk cur j <> blk data j)).

Lemma part_spec user table key md data cur off c v f :
  idle user table c -> the_key c = key -> le_val (c_getpart c) = off -> 0 <= off < Z.of_nat (length data) ->
  0 <= req_data_len (c_creq c) -> stored user key md data cur (obj_path vol_path table key) f ->
  calm f -> table <> 0 -> f_names f !! obj_dir vol_path table key = None ->
  hw (object_get_part vol_path) (fun b s => b = true /\
    part_post (c_creq c) data cur (c_tx c) off (part_len (Z.of_nat (length data)) off (req_data_len (c_creq c))) f s) (mkCst c v f).
Proof.
  intros Id Ek Eo Ho Hdl St Cf Ht Hn. pose proof (st_max _ _ _ _ _ _ _ St) as Hmax. set (q := c_creq c) in *.
  set (size := Z.of_nat (length data)) in *. pose proof (part_len_spec size off (req_data_len q) ltac:(lia) Hmax Hdl) as El.
  set (len := part_len size off (req_data_len q)) in *.
  assert (0 < len <= size - off /\ len <= 4 * CHUNK_BLK_SZ) as [Hl Hl4].
  { rewrite El. unfold CHUNK_BLK_SZ. destruct (Z.eqb_spec (req_data_len q) 0); lia. }
  destruct (part_range_ok size off len) as [Po Plow Pal Pin Phigh Pend Pmax]; [lia|done|lia|done|].
  set (ofs := part_ofs off) in *. set (span := part_span size off len) in *.
  unfold object_get_part. hmalloc f1 S1 C1. hstep. rewrite Ek, (id_user _ _ _ Id), (id_table _ _ _ Id). apply hw_bind.
  apply (open_own vol_path user table key md data cur); [by eapply stored_same, same_dirs_only|done|done|by destruct S1 as (-> & _)|].
  intros o i f2 (D2 & _) C2 _ R. cbn [fst snd]. hstep. hstep. rewrite (rd_size _ _ _ _ _ _ _ _ R). fold size q. rewrite Eo.
  rewrite (proj2 (Z.ltb_ge _ _)) by lia. fold len. fold ofs span. rewrite (proj2 (Z.eqb_neq len 0)) by lia.
  apply hw_bind, hw_fs. eapply fw_mono; [apply (seek_spec _ _ _ _ _ _ _ _ ofs R); fold size; lia|]. cbn beta.
  intros [rc o3] f3 (S3 & Hc3 & R3). cbn [fst snd] in *. specialize (Hc3 C2). subst rc. specialize (R3 eq_refl). hstep. cbn [Z.eqb negb].
  assert (calm f3) as C3 by (eapply calm_oracle; [apply S3|done]). hmalloc f4 S4 C4.
  assert (reading key md data cur i o3 f4 ofs) as R4 by (destruct R3; split; try done; by destruct S4 as (_ & -> & _)).
  apply hw_bind, hw_fs. eapply fw_mono; [apply (read_spec _ _ _ _ _ _ _ _ span R4); lia|]. cbn beta.
  intros [r o5] f5 (S5 & Hr5). cbn [fst snd] in *. assert (calm f5) as C5 by (eapply calm_oracle; [apply S5|done]). hstep.
  assert (forall p, content f5 p = content f p) as Ec.
  { intros p. rewrite (dirs_only_content f4 f5), (dirs_only_content f3 f4), (dirs_only_content f2 f3) by (by apply same_dirs_only).
    rewrite (dirs_only_content f1 f2) by done. apply dirs_only_content. by apply same_dirs_only. }
  destruct r as [b|e].
  2:{ eapply hw_mono; [apply cli_err_spec; try done; apply Id|]. cbn beta. intros b s (-> & v6 & f6 & -> & _ & S6 & _). split; [done|].
      split; [intros p; rewrite <- Ec; apply dirs_only_content; by apply same_dirs_only|]. right. split; [done|]. by destruct Hr5 as [_ []]. }
  destruct Hr5 as (k & _ & -> & _ & Hk & R5 & Hok). rewrite (Hk C4) in * by (unfold CHUNK_BLK_SZ in *; lia). clear Hk.
  pose proof (rd_cur _ _ _ _ _ _ _ _ R) as Hcur. set (mem := take _ _) in *.
  assert (Z.of_nat (length mem) = span) as Hmem by (unfold mem; rewrite length_take, length_drop; lia).
  rewrite Hmem, Z.eqb_refl. cbn [negb]. assert (u64 (size - off) = size - off) as -> by (unfold u64; rewrite uw_small; unfold max_obj, CHUNK_BLK_SZ in *; lia).
  assert (take (Z.to_nat len) (drop (Z.to_nat (off - ofs)) mem) = take (Z.to_nat len) (drop (Z.to_nat off) cur)) as ->
    by (apply part_inside; lia).
  assert ((len =? size - off) = (off + len =? size)) as -> by (destruct (Z.eqb_spec len (size - off)), (Z.eqb_spec (off + len) size); lia).
  eapply hw_mono; [apply (part_answer key md data cur i o o5 f5 (ofs + Z.of_nat (length mem))); try done; try apply Id|].
  - lia.
  - rewrite length_take, length_drop. lia.
  - unfold CHUNK_BLK_SZ in *. lia.
  - cbn beta. intros b s (-> & Hin & Htx & S6). split; [done|]. split; [intros p; rewrite <- Ec; apply dirs_only_content; by apply same_dirs_only|].
    left. exists (bo_mtime o). split; [exact Htx|]. split; [done|].
    rewrite Hmem in Hok. assert (mem = take (length mem) (drop (Z.to_nat ofs) data) \/ exists x y, x <> y /\ SHA1 x = SHA1 y) as [E|Hx]; [| |by right].
    { apply range_ok_data; rewrite ?Hmem; try lia. apply Hok. apply (can_csum_spec _ _ _ _ _ _ _ _ _ R4); [lia|lia|split_and!; [lia|done|done]]. }
    left. rewrite <- (part_inside cur ofs off (Z.to_nat span) (Z.to_nat len)) by lia. fold mem. rewrite E.
    replace (length mem) with (Z.to_nat span) by lia. apply part_inside; lia.
Qed.

(** C23.  GET_PART: for an offset inside the object the answer is the requested
    bytes - at most four blocks, up to the end when no length is given, the
    last part marked - after a header with the digest of the whole blocks
    around them, and the bytes are those that were stored or exhibit a SHA-1
    collision; or a block is spoiled and the client gets a bare header whose
    code is success. *)
Theorem part_answered user table key md data cur off c v f :
  idle user table c -> the_key c = key -> le_val (c_getpart c) = off -> 0 <= off < Z.of_nat (length data) ->
  0 <= req_data_len (c_creq c) -> stored user key md data cur (obj_path vol_path table key) f ->
  calm f -> table <> 0 -> f_names f !! obj_dir vol_path table key = None ->
  let q := c_creq c in
  let size := Z.of_nat (length data) in
  let len := Z.min (if req_data_len q =? 0 then size - off else Z.min (req_data_len q) (size - off)) (4 * CHUNK_BLK_SZ) in
  exists s, object_get_part vol_path (mkCst c v f) = Some (true, s) /\ part_post q data cur (c_tx c) off len f s.
Proof.
  intros Id Ek Eo Ho Hdl St Cf Ht Hn q size len.
  destruct (proj1 (hw_eq _ _ _) (part_spec user table key md data cur off c v f Id Ek Eo Ho Hdl St Cf Ht Hn)) as (b & s & E & -> & Hp).
  rewrite part_len_spec in Hp by (lia || apply St || done). exists s. by split.
Qed.

(** At the very end of an object that is not whole blocks there is nothing to
    read, but the digest is taken of the widened range, at NULL. *)
Theorem part_at_end_crashes user table key md data cur c v f :
  idle user table c -> the_key c = key -> le_val (c_getpart c) = Z.of_nat (length data) ->
  Z.of_nat (length data) mod CHUNK_BLK_SZ <> 0 ->
  0 <= req_data_len (c_creq c) -> stored user key md data cur (obj_path vol_path table key) f ->
  calm f -> table <> 0 -> f_names f !! obj_dir vol_path table key = None ->
  object_get_part vol_path (mkCst c v f) = None.
Proof.
  intros Id Ek Eo Hm Hdl St Cf Ht Hn. pose proof (st_max _ _ _ _ _ _ _ St) as Hmax. unfold object_get_part.
  assert (forall A (m : C H A) B (k : A -> C H B) s, hw m (fun a s' => k a s' = None) s -> (m ≫= k) s = None) as Hb.
  { intros A m B k s Hs. unfold mbind, C_bind. apply hw_eq in Hs as (a & s' & -> & E). done. }
  apply Hb, hw_malloc; [done|]. intros f1 S1 C1. cbn [negb]. apply Hb, hw_get_cli. rewrite Ek, (id_user _ _ _ Id), (id_table _ _ _ Id).
  apply Hb. apply (open_own vol_path user table key md data cur); [by eapply stored_same, same_dirs_only|done|done|by destruct S1 as (-> & _)|].
  intros o i f2 (D2 & _) C2 _ R. cbn [fst snd]. apply Hb, hw_upd_cli, Hb, hw_upd_cli. rewrite (rd_size _ _ _ _ _ _ _ _ R), Eo.
  set (size := Z.of_nat (length data)) in *. rewrite Z.ltb_irrefl.
  rewrite (part_len_spec size size) by lia. rewrite Z.sub_diag.
  assert (Z.min (if req_data_len (c_creq c) =? 0 then 0 else Z.min (req_data_len (c_creq c)) 0) (4 * CHUNK_BLK_SZ) = 0) as ->
    by (unfold CHUNK_BLK_SZ; destruct (_ =? _); lia).
  cbn [Z.eqb]. destruct (part_range_ok size size 0) as [Po Pl Pa Pi Ph Pe Px]; [lia|done|lia|unfold CHUNK_BLK_SZ; lia|].
  pose proof (Z.mod_pos_bound size CHUNK_BLK_SZ ltac:(done)). rewrite (proj2 (Z.ltb_lt _ _)) by lia. done.
Qed.

End part.
