(* ===== verification/ChunkCp.v ===== *)
(** * ChunkCp: copying an object on the server

    The worker thread reads the source block by block, checking digests, and
    writes the destination as a new object of the same user. *)

From S2P Require Import Prelude ObjCache Fs BeFs BeFsSpec BeFsProps BeFsList Chunkd ChunkLogic ChunkReq ChunkPut.
#[local] Open Scope Z_scope.

Section cp.
Context {H : Type} {HD : TcHdb H} {SH : Sha} {SG : Sig} {TX : Text} {RD : Readdir}.
Variable vol_path : bytes.
Variable garbage : Z -> bytes.
Implicit Types (c : client) (v : server H) (f : fsys).

Definition collision : Prop := exists x y : bytes, x <> y /\ SHA1 x = SHA1 y.

(** [d] of the source, inode [i], has been copied to inode [j] at [fn]. *)
Record copying (fn key key2 md data cur : bytes) (i j : nat) (d : bytes) (f0 : fsys) c f : Prop := {
  cp_in : exists o, c_in_obj c = Some o /\ reading key2 md data cur i o f (Z.of_nat (length d));
  cp_out : exists o, c_out_bo c = Some o /\ writing fn key (Z.of_nat (length data)) j o f d;
  cp_hash : c_out_hash c = d;
  cp_left : c_in_len c = Z.of_nat (length data) - Z.of_nat (length d);
  cp_ne : i <> j;
  cp_data : d = take (length d) cur;
  cp_ok : d = take (length d) data \/ collision;
  cp_blk : Z.of_nat (length d) mod CHUNK_BLK_SZ = 0 \/ length d = length data;
  cp_calm : calm f;
  cp_wf : fs_wf f;
  cp_else : elsewhere fn f0 f }.

Lemma reading_only key md data cur i j o f f' pos :
  i <> j -> reading key md data cur i o f pos -> only j f f' -> reading key md data cur i o f' pos.
Proof. intros Hij [] (_ & _ & _ & _ & _ & E). split; try done. by rewrite E. Qed.

Lemma writing_same fn key len i o f f' d : writing fn key len i o f d -> same_fs f f' -> writing fn key len i o f' d.
Proof. intros [] (E1 & E2 & _). split; try done; [by rewrite E1|by rewrite E2]. Qed.

(** One block to the destination. *)
Lemma cp_write_spec fn key len j o b d c v f :
  c_out_bo c = Some o -> writing fn key len j o f d -> calm f -> b <> [] -> Z.of_nat (length d) + Z.of_nat (length b) <= len ->
  hw (cp_write (length b) b (Z.of_nat (length b))) (fun ok s => ok = true /\ exists o' f',
    s = mkCst (set_c_out_bo (Some o') c) v f' /\ writing fn key len j o' f' (d ++ b) /\ only j f f' /\ calm f') (mkCst c v f).
Proof.
  intros Eo W Cf Hb Hl. destruct (length b) as [|k] eqn:Ek; [by destruct b|]. cbn [cp_write]. rewrite (proj2 (Z.leb_gt _ _)) by lia.
  hstep. rewrite Eo, Nat2Z.id, take_ge by lia. apply hw_bind, hw_fs. unfold fs_obj_write.
  eapply fw_mono; [apply (write_loop_spec (length b) fn key len j b 0 o f d); [done|done|lia]|]. cbn beta.
  intros [n o2] f2 (O2 & F2 & Hw). cbn [fst snd] in *. destruct Hw as [[-> Hnc]|[-> W2]]; [done|]. hstep. rewrite Z.add_0_l.
  rewrite (proj2 (Z.ltb_ge _ 0)) by lia. rewrite Ek, Z.sub_diag.
  destruct k; cbn [cp_write Z.leb Z.compare]; hstep; (split; [done|]); exists o2, f2; (split; [done|]); (split; [done|]);
    (split; [done|]); (eapply calm_oracle; [apply O2|done]).
Qed.

Lemma copied_piece (data cur d : bytes) (n : nat) :
  d = take (length d) data \/ collision ->
  take n (drop (length d) cur) = take n (drop (length d) data) \/ collision ->
  length (take n (drop (length d) cur)) = n ->
  d ++ take n (drop (length d) cur) = take (length d + n) data \/ collision.
Proof.
  intros [E1|C] [E2|C'] Hn; try (by right). left. rewrite E2. rewrite E1 at 1. by rewrite take_take_drop.
Qed.

(** What the loop leaves: everything copied, or a spoiled block met. *)
Definition cp_end (fn key md data cur : bytes) (j : nat) (f0 : fsys) c0 (ok : bool) c f : Prop :=
  exists d, c_out_hash c = d /\ (exists o, c_out_bo c = Some o /\ writing fn key (Z.of_nat (length data)) j o f d) /\
    (exists o, c_in_obj c = Some o /\ out_fn o = None) /\ c_user c = c_user c0 /\ c_out_ce c = c_out_ce c0 /\
    calm f /\ fs_wf f /\ elsewhere fn f0 f /\
    if ok then d = cur /\ (cur = data \/ collision) else exists j, blk cur j <> blk data j.

Lemma cp_loop_spec fn key key2 md data cur i j f0 : forall fuel d c v f,
  copying fn key key2 md data cur i j d f0 c f -> Z.of_nat (length data) - Z.of_nat (length d) < Z.of_nat fuel ->
  hw (cp_loop fuel) (fun ok s => exists c' f', s = mkCst c' v f' /\ cp_end fn key md data cur j f0 c ok c' f') (mkCst c v f).
Proof.
  induction fuel as [|fuel IH]; intros d c v f Cp Hf; cbn [cp_loop]; hstep;
    pose proof Cp as [(oi & Ei & R) (oo & Eo & W) Eh El Hne Ed Hok Hb Cf Wf He];
    pose proof (rd_range _ _ _ _ _ _ _ _ R) as Hr; pose proof (rd_cur _ _ _ _ _ _ _ _ R) as Hcur; rewrite El; [lia|].
  destruct (Z.leb_spec (Z.of_nat (length data) - Z.of_nat (length d)) 0) as [H0|H0].
  { hstep. exists c, f. split; [done|]. exists d. split_and!; eauto using rd_fn.
    - rewrite Ed, take_ge by lia. done.
    - destruct Hok as [Hok|?]; [left|by right]. rewrite take_ge in Hok, Ed by lia. congruence. }
  rewrite Ei. set (n := Z.min _ CLI_DATA_BUF_SZ).
  assert (0 < n <= CHUNK_BLK_SZ /\ n <= Z.of_nat (length data) - Z.of_nat (length d)) as [Hn Hn2] by (unfold n, CLI_DATA_BUF_SZ, CHUNK_BLK_SZ; lia).
  apply hw_bind, hw_fs. eapply fw_mono; [apply (read_spec _ _ _ _ _ _ _ _ n R); lia|]. cbn beta.
  intros [r o2] f2 (S2 & Hrd). cbn [fst snd] in *. hstep. assert (calm f2) as C2 by (eapply calm_oracle; [apply S2|done]).
  pose proof (writing_same _ _ _ _ _ _ _ _ W S2) as W2. pose proof (same_wf _ _ S2 Wf) as Wf2.
  assert (elsewhere fn f0 f2) as He2 by (intros p Hp; rewrite <- (He p Hp); apply dirs_only_content; by apply same_dirs_only).
  destruct r as [b|e].
  2:{ destruct Hrd as [Hfn [?|Hj]]; [done|]. hstep. eexists _, f2. split; [done|]. exists d. by split_and!; eauto. }
  destruct Hrd as (k & _ & -> & _ & Hk & R2 & Hsum). rewrite (Hk Cf) in * by (unfold CHUNK_BLK_SZ in *; lia). rewrite Nat2Z.id in *.
  set (b := take (Z.to_nat n) (drop (length d) cur)) in *. assert (length b = Z.to_nat n) as Hlb by (unfold b; rewrite length_take, length_drop; lia).
  rewrite Hlb, Z2Nat.id in * by lia. rewrite (proj2 (Z.eqb_neq n 0)) by lia. hstep. hstep.
  assert (Z.of_nat (length d) mod CHUNK_BLK_SZ = 0) as Hal by (destruct Hb; [done|lia]).
  assert ((Z.of_nat (length d) + n) mod CHUNK_BLK_SZ = 0 \/ Z.of_nat (length d) + n = Z.of_nat (length data)) as Hend.
  { unfold n, CLI_DATA_BUF_SZ in *. destruct (Z.le_gt_cases (Z.of_nat (length data) - Z.of_nat (length d)) CHUNK_BLK_SZ).
    - right. lia.
    - left. rewrite Z.min_r by lia. rewrite <- Z.add_mod_idemp_l, Hal by done. by rewrite Z_mod_same_full. }
  assert (b = take (length b) (drop (length d) data) \/ collision) as Hbd.
  { rewrite <- (Nat2Z.id (length d)). apply range_ok_data; rewrite ?Hlb, ?Z2Nat.id by lia; try lia.
    apply Hsum. apply (can_csum_spec _ _ _ _ _ _ _ _ _ R); [lia|lia|]. split_and!; [lia|done|done]. }
  assert (b <> []) as Hb0 by (intros E; rewrite E in Hlb; cbn in Hlb; lia).
  set (c1 := set_c_in_len _ _).
  apply hw_bind. replace (cp_write (H := H) (Z.to_nat n) b n) with (cp_write (H := H) (length b) b (Z.of_nat (length b))) by (by rewrite Hlb, Z2Nat.id by lia).
  eapply hw_mono; [apply (cp_write_spec fn key (Z.of_nat (length data)) j oo b d c1 v f2 Eo W2 C2 Hb0); lia|]. cbn beta.
  intros ok s (-> & o3 & f3 & -> & W3 & O3 & C3). cbn [negb].
  eapply hw_mono; [apply (IH (d ++ b) (set_c_out_bo (Some o3) c1) v f3)|].
  - split; cbn [c_in_obj c_out_bo c_out_hash c_in_len set_c_out_bo c1 set_c_in_len set_c_out_hash set_c_in_obj].
    + exists o2. split; [done|]. eapply (reading_only _ _ _ _ _ j _ f2); [done| |done]. by rewrite length_app, Nat2Z.inj_add, Hlb, Z2Nat.id by lia.
    + eauto.
    + by rewrite Eh.
    + rewrite length_app. lia.
    + done.
    + rewrite length_app, <- take_take_drop, <- Ed. f_equal. rewrite Hlb. done.
    + rewrite length_app, Hlb. apply copied_piece; [done| |done]. rewrite Hlb in Hbd. exact Hbd.
    + rewrite length_app, Nat2Z.inj_add, Hlb, Z2Nat.id by lia. destruct Hend; [by left|right; lia].
    + done.
    + apply (only_wf j f2); [done|done|eapply fs_live; [done|apply W2]|destruct (wg_file _ _ _ _ _ _ _ W3) as [? ->]; eauto].
    + intros y Hy. rewrite <- (He2 y Hy). apply (only_content j f2 f3 fn); [done|apply W2|done|done].
  - rewrite length_app. lia.
  - cbn beta. intros ok s (c' & f' & -> & d' & E). exists c', f'. split; [done|]. by exists d'.
Qed.

(** The start: the destination exists and is empty. *)
Lemma copying_init fn key key2 md data cur i j oi oo f0 f1 f2 c :
  reading key2 md data cur i oi f1 0 -> writing fn key (Z.of_nat (length data)) j oo f2 [] -> f_inodes f1 !! j = None ->
  (forall k, is_Some (f_inodes f1 !! k) -> f_inodes f2 !! k = f_inodes f1 !! k) -> calm f2 -> fs_wf f2 -> elsewhere fn f0 f2 ->
  c_in_obj c = Some oi -> c_out_bo c = Some oo -> c_out_hash c = [] -> c_in_len c = Z.of_nat (length data) ->
  copying fn key key2 md data cur i j [] f0 c f2.
Proof.
  intros R W Hj Hk C2 W2 He Ei Eo Eh El. destruct (rd_file _ _ _ _ _ _ _ _ R) as (m & front & Hfr & Hi).
  split; cbn [length]; try done.
  - exists oi. split; [done|]. destruct R. split; try done. exists m, front. split; [done|]. by rewrite Hk by eauto.
  - eauto.
  - lia.
  - intros ->. congruence.
  - by left.
  - by left.
Qed.

(** Both objects are closed; [R] is what freeing the destination gives. *)
Lemma cp_close held p oi oo (e : chunk_errcode) (R : fsys -> Prop) c v f :
  c_in_obj c = Some oi -> out_fn oi = None -> c_out_bo c = Some oo -> c_out_ce c = Some p -> oc_inv (p :: held) (v_actives v) ->
  fw False (fs_obj_free oo) (fun _ f' => R f') f ->
  hw (_ ← cli_in_end; _ ← cli_out_end; mret e) (fun e' s => e' = e /\ R (st_fs s) /\ oc_inv held (v_actives (st_srv s))) (mkCst c v f).
Proof.
  intros Ei Hi Eo Ec I HR. apply hw_bind. apply (in_end_spec _ _ _ _ oi); [done|done|]. apply hw_bind.
  eapply hw_mono; [by apply (out_end_gen held p oo R (set_c_in_obj None c) v f)|]. cbn beta. intros _ s (a & f' & Ia & HR' & ->). by hstep.
Qed.

Lemma length_hexstr b : length (hexstr b) = (2 * length b)%nat.
Proof. unfold hexstr. induction b as [|x b IH]; [done|]. cbn. cbn in IH. lia. Qed.

Lemma path_ne_dir table key key2 : obj_path vol_path table key <> obj_dir vol_path table key2.
Proof.
  intros E%(f_equal length). unfold obj_path, obj_dir in E. rewrite !length_app, !length_take, !length_hexstr, !length_SHA256 in E.
  unfold PREFIX_LEN in E. cbn in E. lia.
Qed.

Hypothesis garbage_len : forall n, 0 <= n -> Z.of_nat (length (garbage n)) = n.

Lemma copy_spec user table key key2 md data cur held c v f :
  the_user c = user -> c_table_id c = table -> the_key c = key -> take (Z.to_nat (c_var_len c)) (c_key2 c) = key2 ->
  key_valid key = true -> stored user key2 md data cur (obj_path vol_path table key2) f -> f_names f !! obj_dir vol_path table key2 = None ->
  target vol_path table key f -> content f (obj_path vol_path table key) = None -> oc_inv held (v_actives v) ->
  hw (worker_cp_thr vol_path garbage) (fun e s => e = che_Success /\ oc_inv held (v_actives (st_srv s)) /\
    elsewhere (obj_path vol_path table key) f (st_fs s) /\
    ((content (st_fs s) (obj_path vol_path table key) = Some (obj_file user key (SHA1 cur) cur) /\ (cur = data \/ collision)) \/
     (content (st_fs s) (obj_path vol_path table key) = None /\ exists j, blk cur j <> blk data j))) (mkCst c v f).
Proof.
  intros Eu Et Ek Ek2 Hk St Hn2 T Hx I. pose proof (st_max _ _ _ _ _ _ _ St) as Hmax. set (fn := obj_path vol_path table key) in *.
  destruct T as [Wf Cf (D1 & D2 & D3)]. unfold worker_cp_thr. hmalloc f1 S1 C1. hstep. rewrite Eu, Et, Ek, Ek2. apply hw_bind.
  assert (same_fs f f1) as S01 by done. destruct S1 as (N1 & I1 & Di1 & _).
  apply (open_own vol_path user table key2 md data cur); [by eapply stored_same, same_dirs_only|done|done|by rewrite N1|].
  intros oi i f2 (F2 & Wf2 & Hd2) C2 _ R. cbn [fst snd]. hstep. hstep. rewrite (rd_size _ _ _ _ _ _ _ _ R).
  apply hw_bind. eapply hw_mono; [apply (out_ce_spec key held); [done|done]|]. cbn beta. intros _ s (p & a & f3 & Ia & S3 & C3 & ->).
  assert (dirs_only f f3) as F3 by (etrans; [by apply same_dirs_only|]; etrans; [done|by apply same_dirs_only]).
  apply hw_bind, hw_fs.
  eapply fw_mono; [apply (new_spec vol_path garbage garbage_len table key (Z.of_nat (length data)) f3); [|lia]|].
  { eapply same_wf; [done|]. by apply Wf2, (same_wf f). }
  cbn beta. intros [r e] f4 (W4 & O4 & Ho & _ & Hino & Hr & Hc). cbn [fst snd] in *. fold fn in Ho, Hr, Hc.
  assert (forall y, content f3 y = content f y) as Ec by (intros; by apply dirs_only_content).
  assert (is_Some r) as [oo Eoo].
  { rewrite Ec, Hx in Hc. apply Hc; try done; [by rewrite (proj1 F3)|]. destruct S3 as (_ & _ & -> & _).
    intros [E%elem_of_singleton|Hd]%Hd2%elem_of_union; [by apply (path_ne_dir table key key2)|by rewrite Di1 in Hd]. }
  subst r. destruct Hr as (-> & _ & j & Wr & Hj). assert (calm f4) as C4 by (by eapply calm_oracle). hstep. hstep.
  assert (elsewhere fn f f4) as He by (intros y Hy; by rewrite Ho, Ec).
  apply hw_bind. eapply hw_mono; [apply (cp_loop_spec fn key key2 md data cur i j f _ [])|].
  - apply (copying_init fn key key2 md data cur i j oi oo f f3 f4); try done. eapply (reading_only _ _ _ _ _ j _ f2); [|done|by apply same_only].
    intros ->. destruct (rd_file _ _ _ _ _ _ _ _ R) as (m & front & _ & Hi). destruct S3 as (_ & E & _). rewrite E in Hj. congruence.
  - cbn [length]. lia.
  - cbn beta. intros ok s (c5 & f5 & -> & d & Eh & (o5 & Eo5 & W5) & (oi5 & Ei5 & Hi5) & Eu5 & Ec5 & C5 & Wf5 & He5 & Hend).
    destruct ok; cbn [negb].
    + destruct Hend as [-> Hend]. hstep. rewrite Eo5. apply hw_bind, hw_fs.
      assert (the_user c5 = user) as -> by (rewrite <- Eu; unfold the_user; by rewrite Eu5). rewrite Eh.
      eapply fw_mono; [apply (commit_spec fn key _ j o5 f5 cur user (SHA1 cur) _ W5); apply length_SHA1|]. cbn beta.
      intros [b o6] f6 (O6 & Hb & Hcb). cbn [fst snd] in *. rewrite (Hcb C5) in * by (by rewrite (rd_cur _ _ _ _ _ _ _ _ R)).
      destruct Hb as (_ & Fn & m & Hf). hstep.
      eapply hw_mono; [apply (cp_close held p oi5 o6 che_Success (eq f6)); try done|].
      { unfold fs_obj_free. rewrite Fn. by apply fw_ret. }
      cbn beta. intros e [c7 v7 f7] (-> & <- & I7). cbn [st_srv st_fs] in *. split; [done|]. split; [done|]. split.
      * intros y Hy. rewrite <- (He5 y Hy). apply (only_content j f5 f6 fn); [done|apply W5|done|done].
      * left. split; [|done]. unfold content. destruct O6 as (-> & _). rewrite (wg_name _ _ _ _ _ _ _ W5). cbn. by rewrite Hf.
    + eapply hw_mono; [apply (cp_close held p oi5 o5 che_Success (fun f' => elsewhere fn f f' /\ content f' fn = None)); try done|].
      { eapply fw_mono; [apply (free_rest fn j o5 f5 f5 False); [done|apply W5|done|apply W5]|]. cbn beta.
        intros _ f6 (_ & Hoth & Hgone). split; [intros y Hy; by rewrite Hoth, He5|by destruct Hgone]. }
      cbn beta. intros e [c7 v7 f7] (-> & [He7 Hn7] & I7). cbn [st_srv st_fs] in *. split; [done|]. split; [done|]. split; [done|].
      right. done.
Qed.

End cp.
