(* ===== verification/ChunkProps.v ===== *)
(** * ChunkProps: what the chunk server does for its clients, and where it fails

    Stated on the events of a connection; the file system and the table of
    active objects are as in [BeFsProps] and [ObjCache]. *)

From S2P Require Import Prelude ObjCache Fs BeFs BeFsSpec BeFsProps BeFsList Chunkd ChunkLogic ChunkReq ChunkPut ChunkGet ChunkPart ChunkCp.
#[local] Open Scope Z_scope.

Section props.
Context {H : Type} {HD : TcHdb H} {SH : Sha} {SG : Sig} {TX : Text} {RD : Readdir}.
Variable vol_path : bytes.
Variable garbage : Z -> bytes.
Implicit Types (c : client) (v : server H) (f : fsys).

(** ** Storing and fetching *)

(** A connection that has received exactly [rx]. *)
Record received (user : bytes) (table : Z) (rx : bytes) c : Prop := {
  rv_ready : ready user table c;
  rv_rx : c_rx c = rx;
  rv_eof : c_eof c = false;
  rv_want : c_read_want_write c = false }.

Lemma put_event user table q key data held c v f :
  (forall n, 0 <= n -> Z.of_nat (length (garbage n)) = n) ->
  received user table (q ++ key ++ data) c -> request CHO_PUT q key c -> req_data_len q = Z.of_nat (length data) ->
  Z.of_nat (length data) <= max_obj ->
  target vol_path table key f -> content f (obj_path vol_path table key) = None -> oc_inv held (v_actives v) ->
  hw (tcp_cli_event vol_path garbage EV_READ) (fun _ s =>
    received user table [] (st_cli s) /\ c_user (st_cli s) = c_user c /\ c_getpart (st_cli s) = c_getpart c /\
    c_tx (st_cli s) = c_tx c ++ put_resp q data /\ c_out_ce (st_cli s) = None /\ oc_inv held (v_actives (st_srv s)) /\
    fs_wf (st_fs s) /\ calm (st_fs s) /\ elsewhere (obj_path vol_path table key) f (st_fs s) /\
    content (st_fs s) (obj_path vol_path table key) = Some (obj_file user key (SHA1 data) data)) (mkCst c v f).
Proof.
  intros Hg [Rd Er Ee Ew] Rq El Hm T Hn I.
  assert (c_rx c = q ++ key ++ data ++ []) as Er' by (by rewrite app_nil_r).
  eapply (read_event vol_path garbage).
  - apply (id_want _ _ _ (rdy_idle _ _ _ Rd)).
  - assert (S (4 + length data) <= loop_fuel c)%nat as Hf; [|exact Hf]. unfold loop_fuel. rewrite Er, !length_app. lia.
  - eapply reach_mono; [apply (put_served vol_path garbage Hg user table q key data [] held c v f); done|done|].
    intros [c1 v1 f1] [P1 P2 P3 [P4 P5] P6 P7 P8 P9 P10 P11 P12]. cbn [st_cli st_srv st_fs] in *. unfold env in P5.
    injection P5 as Eg Ee1 Ew1. eapply hw_mono; [apply (wait_stops vol_path garbage user table c1 v1 f1); [done|done|congruence|done]|]. cbn beta.
    intros b s (-> & v2 & f2 & -> & V2 & S2 & C2). split; [done|]. cbn [st_cli st_srv st_fs].
    assert (forall p, content f2 p = content f1 p) as Ec by (intros; apply dirs_only_content; by apply same_dirs_only).
    split; [split; try done; congruence|]. split; [done|]. split; [done|]. split; [done|]. split; [done|].
    split; [destruct V2 as (_ & -> & _); done|]. split; [by eapply same_wf|]. split; [done|]. split; [|by rewrite Ec].
    intros p Hp. rewrite Ec. by apply P11.
Qed.

(** A PUT over the wire: on a connection of a logged-in user with a table
    open, when the bytes of a signed PUT request, its key and its data have
    arrived, one event of the loop takes them all in - whatever the size -
    stores exactly that object as that user's, answers success with the SHA-1
    of the data, releases the key's entry, and waits for the next request; no
    other file changes. *)
Theorem put_over_wire user table q key data held c v f :
  (forall n, 0 <= n -> Z.of_nat (length (garbage n)) = n) ->
  received user table (q ++ key ++ data) c -> request CHO_PUT q key c -> req_data_len q = Z.of_nat (length data) ->
  Z.of_nat (length data) <= max_obj ->
  target vol_path table key f -> content f (obj_path vol_path table key) = None -> oc_inv held (v_actives v) ->
  exists s, tcp_cli_event vol_path garbage EV_READ (mkCst c v f) = Some (tt, s) /\
    received user table [] (st_cli s) /\ c_tx (st_cli s) = c_tx c ++ put_resp q data /\
    content (st_fs s) (obj_path vol_path table key) = Some (obj_file user key (SHA1 data) data) /\
    (forall p, p <> obj_path vol_path table key -> content (st_fs s) p = content f p) /\
    oc_inv held (v_actives (st_srv s)).
Proof.
  intros Hg Rv Rq El Hm T Hn I. destruct (proj1 (hw_eq _ _ _) (put_event user table q key data held c v f Hg Rv Rq El Hm T Hn I))
    as ([] & s & E & H1 & _ & _ & H2 & _ & H3 & _ & _ & H4 & H5). exists s. by split_and!.
Qed.

(** GET on such a connection. *)
Lemma get_events user table q key md data cur c v f :
  received user table (q ++ key) c -> request CHO_GET q key c -> data <> [] ->
  stored user key md data cur (obj_path vol_path table key) f -> calm f -> table <> 0 ->
  f_names f !! obj_dir vol_path table key = None ->
  exists k mtime, hw (_ ← tcp_cli_event vol_path garbage EV_READ; writes vol_path garbage k) (fun _ s =>
    c_tx (st_cli s) = c_tx c ++ get_hdr q md (Z.of_nat (length data)) mtime ++ cur /\
    c_write_q (st_cli s) = [] /\ c_in_obj (st_cli s) = None /\ c_state (st_cli s) = evt_recycle /\ idle user table (st_cli s) /\
    forall p, content (st_fs s) p = content f p) (mkCst c v f).
Proof.
  intros [Rd Er Ee Ew] Rq Hd St Cf Ht Hn. pose proof (rdy_idle _ _ _ Rd) as Id.
  assert (hw (tcp_cli_event vol_path garbage EV_READ) (fun _ s => exists c' v' f' i mtime, s = mkCst c' v' f' /\
    sending user table key md data cur i 0 c' f' /\ c_rx c' = [] /\
    c_tx c' = c_tx c ++ get_hdr q md (Z.of_nat (length data)) mtime /\ dirs_only f f' /\ calm f') (mkCst c v f)) as He.
  { eapply (read_event vol_path garbage 2).
    - apply (id_want _ _ _ Id).
    - unfold loop_fuel. rewrite Er, length_app, (rq_len _ _ _ _ Rq). unfold req_sz. lia.
    - apply (exec_stops vol_path garbage _ user table CHO_GET q key []); try done; [by rewrite app_nil_r|].
      intros c1 v1 f1 Ak V1 S1 C1. unfold exec_op. cbn [Z.eqb CHO_GET CHO_LOGIN CHO_NOP Pos.eqb].
      eapply hw_mono; [apply (object_get_spec vol_path user table key q [] md data cur c1 c v1 f1); try done|].
      + pose proof (ak_part _ _ _ _ _ _ _ Ak) as Ep. unfold env in Ep. congruence.
      + destruct St. split; try done. by rewrite (dirs_only_content f f1) by (by apply same_dirs_only).
      + by destruct S1 as (-> & _).
      + cbn beta. intros b s (-> & c2 & v2 & f2 & i & mtime & -> & Sg & Er2 & Et2 & _ & _ & _ & _ & D2 & C2). split; [done|].
        cbn [st_cli st_srv st_fs]. exists (set_c_first_req false c2), v2, f2, i, mtime. split; [done|].
        split; [by apply sending_first|]. split; [done|]. split; [done|]. split; [|done]. etrans; [by apply same_dirs_only|done]. }
  apply hw_eq in He as (u & s1 & E & c1 & v1 & f1 & i & mtime & -> & Sg & Er1 & Et1 & D1 & C1).
  destruct (body_sent vol_path garbage user table key md data cur i [] (c_tx c1 ++ cur) c1 (S (length data)) 0 c1 v1 f1 Sg C1) as [k Hk].
  { unfold CLI_MAX_SENDFILE_SZ. lia. }
  { done. }
  { cbn [Z.to_nat]. by rewrite drop_0. }
  { done. }
  exists k, mtime. apply hw_bind. unfold hw at 1. rewrite E. eapply hw_mono; [exact Hk|]. cbn beta.
  intros _ s (c2 & v2 & f2 & -> & Sa & _ & _ & S2 & _). cbn [st_cli st_fs]. destruct Sa as [A1 A2 A3 A4 A5 A6].
  split; [rewrite A5, Et1; by rewrite <- app_assoc|]. split; [apply A1|]. split; [apply A1|]. split; [done|]. split; [done|].
  intros p. rewrite (dirs_only_content f1 f2) by (by apply same_dirs_only). by apply dirs_only_content.
Qed.

(** A GET over the wire: on such a connection, once the bytes of a signed GET
    request for a stored object have arrived, one read event and some number
    of write events send exactly the header - with the size and the stored
    digest - and the object's bytes, as long as they are and in order; then
    nothing is queued, the object is closed and no file has changed. *)
Theorem get_over_wire user table q key md data cur c v f :
  received user table (q ++ key) c -> request CHO_GET q key c -> data <> [] ->
  stored user key md data cur (obj_path vol_path table key) f -> calm f -> table <> 0 ->
  f_names f !! obj_dir vol_path table key = None ->
  exists k mtime s, (_ ← tcp_cli_event vol_path garbage EV_READ; writes vol_path garbage k) (mkCst c v f) = Some (tt, s) /\
    c_tx (st_cli s) = c_tx c ++ get_hdr q md (Z.of_nat (length data)) mtime ++ cur /\
    c_write_q (st_cli s) = [] /\ c_in_obj (st_cli s) = None /\ c_state (st_cli s) = evt_recycle /\
    forall p, content (st_fs s) p = content f p.
Proof.
  intros Rv Rq Hd St Cf Ht Hn. destruct (get_events user table q key md data cur c v f Rv Rq Hd St Cf Ht Hn) as (k & mtime & He).
  apply hw_eq in He as ([] & s & E & H1 & H2 & H3 & H4 & _ & H5). exists k, mtime, s. by split_and!.
Qed.

Lemma path_not_dir table key : obj_path vol_path table key <> obj_dir vol_path table key.
Proof. intros E. apply (obj_path_ne_dir vol_path table key). by rewrite E. Qed.

Lemma no_file f p : content f p = None -> fs_wf f -> f_names f !! p = None.
Proof.
  intros Hc W. unfold content in Hc. destruct (f_names f !! p) as [i|] eqn:E; [|done]. destruct (fs_live _ W _ _ E) as [x Hx].
  cbn in Hc. by rewrite Hx in Hc.
Qed.

(** More bytes arrive. *)
Definition arrive (b : bytes) : C H unit := c ← get_cli; upd_cli (set_c_rx (c_rx c ++ b)).

(** What is put comes back: a client that sends a PUT and then a GET of the
    same key on one connection is answered success with the digest of its
    data, then the header with the same digest and exactly its data. *)
Theorem put_then_get_wire user table q q' key data held c v f :
  (forall n, 0 <= n -> Z.of_nat (length (garbage n)) = n) ->
  received user table (q ++ key ++ data) c -> request CHO_PUT q key c -> request CHO_GET q' key c ->
  req_data_len q = Z.of_nat (length data) -> data <> [] ->
  Z.of_nat (length data) <= max_obj -> Forall (fun x => x <> 0) user /\ (length user < 128)%nat ->
  target vol_path table key f -> content f (obj_path vol_path table key) = None -> oc_inv held (v_actives v) ->
  exists k mtime s,
    (_ ← tcp_cli_event vol_path garbage EV_READ; _ ← arrive (q' ++ key);
     _ ← tcp_cli_event vol_path garbage EV_READ; writes vol_path garbage k) (mkCst c v f) = Some (tt, s) /\
    c_tx (st_cli s) = c_tx c ++ put_resp q data ++ get_hdr q' (SHA1 data) (Z.of_nat (length data)) mtime ++ data.
Proof.
  intros Hg Rv Rq Rq' El Hd Hm Hu T Hn I. pose proof T as [W _ (Ht & Hdir & _)].
  destruct (proj1 (hw_eq _ _ _) (put_event user table q key data held c v f Hg Rv Rq El Hm T Hn I))
    as ([] & [c1 v1 f1] & E & Rv1 & Eu & Eg & Etx & _ & _ & W1 & C1 & He & Hc). cbn [st_cli st_srv st_fs] in *.
  set (c2 := set_c_rx (c_rx c1 ++ q' ++ key) c1).
  assert (received user table (q' ++ key) c2) as Rv2.
  { destruct Rv1 as [[[]] Er Ee Ew]. split; [split; [split|..]|..]; try done. cbn. by rewrite Er. }
  assert (request CHO_GET q' key c2) as Rq2 by (destruct Rq'; split; try done; cbn; by rewrite Eu, Eg).
  destruct (get_events user table q' key (SHA1 data) data data c2 v1 f1 Rv2 Rq2 Hd) as (k & mtime & Hk).
  - split; try done; [by rewrite Hc, obj_file_front|apply Rq|apply length_SHA1].
  - done.
  - done.
  - apply no_file; [|done]. rewrite He by (by symmetry; apply path_not_dir). unfold content. by rewrite Hdir.
  - apply hw_eq in Hk as ([] & s & E2 & Ht2 & _). exists k, mtime, s. split.
    + unfold mbind, C_bind. rewrite E. unfold arrive, mbind, C_bind, get_cli, upd_cli. cbn [st_cli st_srv st_fs]. fold c2. exact E2.
    + rewrite Ht2. change (c_tx c2) with (c_tx c1). by rewrite Etx, <- !app_assoc.
Qed.

(** COPY: the worker copies an object of the user to a new key.  When all
    blocks of the source are sound the destination is an object of that user
    with exactly the source's bytes - those originally stored, or a SHA-1
    collision; when a block is spoiled the destination is removed again; no
    other file changes and the key's entry is released.  In both cases the
    result handed to the client is success. *)
Theorem copy_result user table key key2 md data cur held c v f :
  (forall n, 0 <= n -> Z.of_nat (length (garbage n)) = n) ->
  the_user c = user -> c_table_id c = table -> the_key c = key -> take (Z.to_nat (c_var_len c)) (c_key2 c) = key2 ->
  key_valid key = true -> stored user key2 md data cur (obj_path vol_path table key2) f -> f_names f !! obj_dir vol_path table key2 = None ->
  target vol_path table key f -> content f (obj_path vol_path table key) = None -> oc_inv held (v_actives v) ->
  exists s, worker_cp_thr vol_path garbage (mkCst c v f) = Some (che_Success, s) /\ oc_inv held (v_actives (st_srv s)) /\
    (forall p, p <> obj_path vol_path table key -> content (st_fs s) p = content f p) /\
    ((content (st_fs s) (obj_path vol_path table key) = Some (obj_file user key (SHA1 cur) cur) /\
        (cur = data \/ exists x y, x <> y /\ SHA1 x = SHA1 y)) \/
     (content (st_fs s) (obj_path vol_path table key) = None /\ exists j, blk cur j <> blk data j)).
Proof.
  intros Hg Eu Et Ek Ek2 Hk St Hn2 T Hx I.
  destruct (proj1 (hw_eq _ _ _) (copy_spec vol_path garbage Hg user table key key2 md data cur held c v f Eu Et Ek Ek2 Hk St Hn2 T Hx I))
    as (e & s & E & -> & H1 & H2 & H3). by exists s.
Qed.

(** ** Who is served *)

(** What the user who is logged in has to sign: the header without its
    signature, the key and, for a part of an object, its offset. *)
Definition signed_text (c : client) : bytes :=
  take 24 (c_creq c) ++ replicate 64 0 ++ the_key c ++ (if req_op (c_creq c) =? CHO_GET_PART then c_getpart c else []).

(** A request that may be executed: its header begins with the magic and ends
    in a string of at least one byte; if a user is logged in, that string is the
    signature of the request under the user's key, and otherwise it asks for no
    more than a login or TLS. *)
Definition permitted (c : client) : Prop :=
  take 8 (c_creq c) = [67; 72; 85; 78; 75; 68; 118; 49] (* CHUNKDv1 *) /\
  (exists sig rest, drop 24 (c_creq c) = sig ++ 0 :: rest /\ sig <> [] /\ Forall (fun x => x <> 0) sig /\
     (the_user c <> [] -> sig = cstr (base64 (HMAC_SHA1 (the_user c) (signed_text c))))) /\
  (the_user c = [] -> req_op (c_creq c) = CHO_LOGIN \/ req_op (c_creq c) = CHO_START_TLS).

Lemma cstr_split b : (length (cstr b) < length b)%nat -> exists rest, b = cstr b ++ 0 :: rest.
Proof.
  induction b as [|x b IH]; cbn; [lia|]. destruct (Z.eqb_spec x 0) as [->|Hx]; [by exists b|].
  cbn. intros Hl. destruct IH as [rest E]; [lia|]. exists rest. by rewrite <- E.
Qed.

Lemma signed_text_take c : length (c_creq c) = req_sz -> c_key_len c = req_key_len (c_creq c) ->
  (Z.to_nat (c_key_len c) <= length (c_key c))%nat -> length (c_getpart c) = 8%nat ->
  let p := take 24 (c_creq c) ++ replicate CHD_SIG_SZ 0 ++ the_key c ++ c_getpart c in take (req_len p) p = signed_text c.
Proof.
  intros Hl Ek Hk Hg. cbv zeta. set (p := _ ++ _). unfold req_sz in Hl.
  assert (forall o n, (o + n <= 24)%nat -> slice o n p = slice o n (c_creq c)) as Hs.
  { intros o n Ho. unfold slice, p. rewrite drop_app_le by (rewrite length_take; lia).
    rewrite take_app_le by (rewrite length_drop, length_take; lia). rewrite <- (take_drop 24 (c_creq c)) at 2.
    rewrite (drop_app_le (take 24 _)) by (rewrite length_take; lia). rewrite take_app_le by (rewrite length_drop, length_take; lia). done. }
  assert (req_len p = 88 + length (the_key c) + (if (req_op (c_creq c) =? CHO_GET_PART)%Z then 8 else 0))%nat as ->.
  { unfold req_len, req_key_len, req_op. rewrite !Hs by lia. fold (req_key_len (c_creq c)). rewrite <- Ek. unfold the_key, req_sz. rewrite length_take. lia. }
  unfold signed_text, p. destruct (_ =? _)%Z.
  - rewrite take_ge; [done|]. rewrite !length_app, length_take, length_replicate. unfold CHD_SIG_SZ. lia.
  - rewrite !app_assoc, take_app_le by (rewrite !length_app, length_take, length_replicate; unfold CHD_SIG_SZ; lia).
    rewrite take_ge, app_nil_r; [done|]. rewrite !length_app, length_take, length_replicate. unfold CHD_SIG_SZ. lia.
Qed.

Lemma checks_permit c : length (c_creq c) = req_sz -> c_key_len c = req_key_len (c_creq c) ->
  (Z.to_nat (c_key_len c) <= length (c_key c))%nat -> length (c_getpart c) = 8%nat ->
  valid_req_hdr (c_creq c) = true -> (the_user c <> [] -> authcheck (c_creq c) (c_getpart c) (the_key c) (c_user c) = true) ->
  (the_user c = [] -> req_op (c_creq c) = CHO_LOGIN \/ req_op (c_creq c) = CHO_START_TLS) -> permitted c.
Proof.
  intros Hl Ek Hk Hg Hv Ha Ho. pose proof (signed_text_take c Hl Ek Hk Hg) as Ht. cbv zeta in Ht. unfold valid_req_hdr in Hv.
  apply andb_true_iff in Hv as [Hm%bool_decide_eq_true Hn]. apply negb_true_iff, orb_false_iff in Hn as [Hn1 Hn2].
  apply Nat.ltb_ge in Hn1. apply Nat.eqb_neq in Hn2. unfold req_sz in Hl.
  assert (req_sig (c_creq c) = drop 24 (c_creq c)) as Es by (unfold req_sig, slice; rewrite take_ge; [done|]; rewrite length_drop; lia).
  rewrite Es in *. destruct (cstr_split (drop 24 (c_creq c))) as [rest Er].
  { pose proof (cstr_le (drop 24 (c_creq c))). rewrite length_drop in *. unfold CHD_SIG_SZ in *. lia. }
  split; [exact Hm|]. split; [|exact Ho]. exists (cstr (drop 24 (c_creq c))), rest. split; [done|].
  split; [intros E; rewrite E in Hn1; cbn in Hn1; lia|]. split; [apply cstr_nonzero|].
  intros Hu. specialize (Ha Hu). unfold authcheck, chreq_sign in Ha. apply bool_decide_eq_true in Ha. rewrite Ht, Es in Ha. exact Ha.
Qed.

(** C24.  The gate, on a connection without TLS and with nothing left to send: a
    request whose header does not begin with the magic and carry a signature,
    which must be the one of this request under the key of the logged-in user -
    or, before a login, anything but LOGIN and START_TLS - is not executed: at
    most an error is answered, the connection is given up, and neither a file
    nor the table of tables nor the active objects change. *)
Theorem request_gate c v f :
  calm f -> c_write_q c = [] -> c_ssl c = false -> c_writing c = false -> length (c_creq c) = req_sz ->
  c_key_len c = req_key_len (c_creq c) -> (Z.to_nat (c_key_len c) <= length (c_key c))%nat -> length (c_getpart c) = 8%nat ->
  ~ permitted c ->
  exists s, cli_evt_exec_req vol_path garbage (mkCst c v f) = Some (true, s) /\ c_state (st_cli s) = evt_dispose /\
    (c_tx (st_cli s) = c_tx c \/ c_tx (st_cli s) = c_tx c ++ resp_err (c_creq c) che_InvalidArgument \/
     c_tx (st_cli s) = c_tx c ++ resp_err (c_creq c) che_SignatureDoesNotMatch) /\
    v_hdb (st_srv s) = v_hdb v /\ v_actives (st_srv s) = v_actives v /\ (forall p, content (st_fs s) p = content f p).
Proof.
  intros Cf Eq Es Ew Hl Ek Hkl Hg Hno.
  assert (forall code, hw (cli_err code false) (fun b s => b = true /\ c_state (st_cli s) = evt_dispose /\
    c_tx (st_cli s) = c_tx c ++ resp_err (c_creq c) code /\
    v_hdb (st_srv s) = v_hdb v /\ v_actives (st_srv s) = v_actives v /\ (forall p, content (st_fs s) p = content f p)) (mkCst c v f)) as He.
  { intros code. eapply hw_mono; [by apply (cli_err_spec code false c v f)|]. cbn beta. intros b s (-> & v1 & f1 & -> & V1 & S1 & _).
    destruct V1 as (V1 & V2 & _). split_and!; try done. intros p. apply dirs_only_content. by apply same_dirs_only. }
  unfold cli_evt_exec_req, mbind, C_bind, get_cli. cbn [st_cli].
  destruct (valid_req_hdr (c_creq c)) eqn:Hv; cbn [negb andb] in *.
  2:{ destruct (proj1 (hw_eq _ _ _) (He che_InvalidArgument)) as (b & s & -> & -> & H1 & H2 & H3). exists s. split_and!; try done; [by right; left|apply H3..]. }
  case_bool_decide as Hu; cbn [negb andb].
  - destruct (Z.eqb_spec (req_op (c_creq c)) CHO_LOGIN) as [E1|_], (Z.eqb_spec (req_op (c_creq c)) CHO_START_TLS) as [E2|_];
      [destruct Hno; apply checks_permit; auto; done..|]. cbn. eexists. split; [done|]. split_and!; try done. by left.
  - destruct (authcheck _ _ _ _) eqn:Ha; cbn [negb]; [destruct Hno; by apply checks_permit|].
    destruct (proj1 (hw_eq _ _ _) (He che_SignatureDoesNotMatch)) as (b & s & -> & -> & H1 & H2 & H3). exists s. split_and!; try done; [by right; right|apply H3..].
Qed.

(** ** Where the stream of requests is lost *)

Lemma nop_served user table q key rest c v f :
  ready user table c -> request CHO_NOP q key c -> c_rx c = q ++ key ++ rest -> calm f ->
  reach vol_path garbage 4 (fun s => exists c' v' f', s = mkCst c' v' f' /\ ready user table c' /\ c_rx c' = rest /\
    c_tx c' = c_tx c ++ resp_err q che_Success /\ env c' = env c /\ c_out_ce c' = c_out_ce c /\
    same_srv v v' /\ same_fs f f' /\ calm f') (mkCst c v f).
Proof.
  intros Rd Rq Er Cf. eapply (reach_exec vol_path garbage); [exact Rd|exact Rq|done|done|done|exact Er|done|].
  intros c1 v1 f1 [Id Ek Eq Er1 Et Eu Eg Eo Es Ece] V1 S1 C1. unfold exec_op. cbn [Z.eqb CHO_NOP CHO_LOGIN].
  eapply hw_mono; [apply cli_err_spec; try done; apply Id|]. cbn beta. intros b s (-> & v2 & f2 & -> & V2 & S2 & C2). split; [done|].
  cbn [st_cli st_srv st_fs].
  eapply reach_recycle; [by destruct Id|done|exact Eo|]. intros c3 Rd3 E0 E1 E2 E3 E4. exists c3, v2, f2.
  split; [done|]. split; [done|]. split; [rewrite E1; exact Er1|]. split; [|split; [rewrite E4; exact Eg|split; [rewrite E0; exact Ece|]]].
  - rewrite E2. cbn [c_tx set_c_first_req after_tx set_c_ev_mask set_c_writing set_c_write_q set_c_tx set_c_state]. by rewrite Et, Eq.
  - split; [by etrans|]. split; [by etrans|done].
Qed.

(** A refused PUT loses the stream: when the key exists the server says so
    but does not take the object's data off the connection, so the data is
    executed as the requests that follow - here a signed NOP inside it - and
    the writer's reference to the key is never given back, which leaves the
    key marked as being written. *)
Theorem refused_put_runs_data user table q key q2 key2 held c v f :
  (forall n, 0 <= n -> Z.of_nat (length (garbage n)) = n) ->
  received user table (q ++ key ++ q2 ++ key2) c -> request CHO_PUT q key c -> request CHO_NOP q2 key2 c ->
  req_data_len q = Z.of_nat (length (q2 ++ key2)) ->
  target vol_path table key f -> is_Some (content f (obj_path vol_path table key)) -> oc_inv held (v_actives v) ->
  exists s p, tcp_cli_event vol_path garbage EV_READ (mkCst c v f) = Some (tt, s) /\
    received user table [] (st_cli s) /\ c_tx (st_cli s) = c_tx c ++ resp_err q che_KeyExists ++ resp_err q2 che_Success /\
    c_out_ce (st_cli s) = Some p /\ oc_inv (p :: held) (v_actives (st_srv s)) /\
    forall p, content (st_fs s) p = content f p.
Proof.
  intros Hg [Rd Er Ee Ew] Rq Rq2 El T Hx I.
  assert (hw (tcp_cli_event vol_path garbage EV_READ) (fun _ s => exists p,
    received user table [] (st_cli s) /\ c_tx (st_cli s) = c_tx c ++ resp_err q che_KeyExists ++ resp_err q2 che_Success /\
    c_out_ce (st_cli s) = Some p /\ oc_inv (p :: held) (v_actives (st_srv s)) /\
    forall p, content (st_fs s) p = content f p) (mkCst c v f)) as He.
  2:{ apply hw_eq in He as ([] & s & E & p & H1). by exists s, p. }
  eapply (read_event vol_path garbage 8).
  - apply (id_want _ _ _ (rdy_idle _ _ _ Rd)).
  - unfold loop_fuel. rewrite Er, length_app, (rq_len _ _ _ _ Rq). unfold req_sz. lia.
  - change 8%nat with (4 + 4)%nat. eapply reach_trans.
    { apply (put_refused_served vol_path garbage Hg user table q key (q2 ++ key2) held c v f); try done.
      rewrite El, length_app, (rq_len _ _ _ _ Rq2), Nat2Z.inj_add. change (Z.of_nat req_sz) with 88.
      pose proof (key_valid_len _ (rq_key _ _ _ _ Rq2)). unfold CHD_KEY_SZ, max_obj, CHUNK_BLK_SZ in *. lia. }
    intros [c1 v1 f1] [P1 P2 P3 [P4 P5] (p & P6 & P7) P8 P9]. cbn [st_cli st_srv st_fs] in *. unfold env in P5. injection P5 as Eg Ee1 Ew1.
    eapply reach_mono; [apply (nop_served user table q2 key2 [] c1 v1 f1); [done| |by rewrite app_nil_r|done]|done|].
    { destruct Rq2. split; try done. by rewrite P4, Eg. }
    intros s (c2 & v2 & f2 & -> & Rd2 & Er2 & Et2 & Ev2 & Eo2 & V2 & S2 & C2). injection Ev2 as _ Ee2 Ew2.
    eapply hw_mono; [apply (wait_stops vol_path garbage user table c2 v2 f2); [done|done|congruence|done]|]. cbn beta.
    intros b s (-> & v3 & f3 & -> & V3 & S3 & C3). split; [done|]. cbn [st_cli st_srv st_fs]. exists p.
    split; [split; try done; congruence|]. split; [rewrite Et2, P3; by rewrite <- app_assoc|]. split; [congruence|].
    split; [destruct V3 as (_ & -> & _), V2 as (_ & -> & _); done|].
    intros y. rewrite (dirs_only_content f2 f3), (dirs_only_content f1 f2) by (by apply same_dirs_only). apply P9.
Qed.

End props.
