(* ===== verification/Chunkdc.v ===== *)
(** * Chunkdc: the client of the chunk server (lib/chunkdc.c, include/chunkc.h)

    A connection is the bytes still to be read from it and those written; a
    call on the socket transfers as much as the oracle says, or fails.  TLS is
    the same byte stream with OpenSSL's outcomes.  Operations run in a monad
    over the connection and the outcomes of allocations and [rand]; [None] is
    an access outside an object, or a loop out of fuel. *)

From Stdlib Require Import String.
From S2P Require Import Prelude Hstor BeFs Chunkd.
#[local] Open Scope Z_scope.

(** ** Data *)

(** [struct st_client]; [req_buf] is scratch space of [req_buf_sz] bytes. *)
Record st_client : Type := mkStc { stc_host : bytes; stc_user : bytes; stc_key : bytes; stc_verbose : bool; stc_ssl : bool }.
Definition req_buf_sz : nat := (req_sz + Z.to_nat CHD_KEY_SZ + 8)%nat.

(** [struct st_object], [struct st_keylist] *)
Record st_object : Type := mkStObj {
  so_name : option bytes; so_time_mod : option bytes; so_etag : option bytes; so_size : Z; so_owner : option bytes }.
Record st_keylist : Type := mkStKl { sk_name : option bytes; sk_contents : list st_object }.

(** [struct stc_put_info] *)
Record stc_put_info : Type := mkStPut { sp_data : bytes; sp_len : Z }.

(** [struct chunk_check_status] *)
Record chunk_check_status : Type := mkChk { ck_state : Z; ck_count : Z; ck_lastdone : Z }.

(** The connection: to be read, written, calls made. *)
Record sock : Type := mkSock { s_rx : bytes; s_tx : bytes; s_calls : nat }.

(** ** Messages *)

(** [struct chunksrv_req] *)
Definition enc_req (op flags key_len : Z) (nonce : bytes) (data_len : Z) (sig : bytes) : bytes :=
  CHUNKD_MAGIC ++ [op; flags] ++ le_bytes 2 key_len ++ nonce ++ le_bytes 8 data_len ++ sig.

(** [struct chunksrv_resp] as it came, 48 bytes; [struct chunksrv_resp_get] has 8 more. *)
Definition resp_sz : nat := 48.
Definition resp_code (r : bytes) : Z := le_val (slice 8 1 r).
Definition resp_data_len (r : bytes) : Z := le_val (slice 16 8 r).

Definition stc_key_valid (key : bytes) : bool :=
  negb ((Z.of_nat (length key) <? 1) || (CHD_KEY_SZ <? Z.of_nat (length key))).

Definition resp_valid (resp : bytes) : bool := bool_decide (slice 0 CHD_MAGIC_SZ resp = CHUNKD_MAGIC).

Definition NETBUF_SZ : Z := 4096.
Definition EIO : Z := 5.
Definition EPIPE : Z := 32.

(** [SSL_get_error] *)
Inductive tls_err : Type := ZeroReturn | WantRead | WantWrite | TlsFailed.

Section chunkdc.
Context {SG : Sig} {LX : Libxml}.

(** [io i]: the [i]-th call on the socket fails, or transfers at most so many
    bytes; [rnd i], [mem i]: what [rand] and the [i]-th allocation give;
    [idle]: how many calls may transfer nothing; [tls i], [fionread i],
    [pending i]: what TLS and the kernel answer the streaming calls. *)
Context (io : nat -> option nat) (rnd : nat -> bytes) (mem : nat -> bool) (idle : nat).
Context (tls : nat -> tls_err + nat) (fionread : nat -> Z + nat) (pending : nat -> nat).

Definition N (A : Type) : Type := sock -> option (A * sock).
#[global] Instance N_ret : MRet N := fun A a s => Some (a, s).
#[global] Instance N_bind : MBind N := fun A B f m s => match m s with Some (a, s) => f a s | None => None end.

Definition n_ub {A} : N A := fun _ => None.
Definition n_lift {A} (o : option A) : N A := match o with Some a => mret a | None => n_ub end.
Definition n_tick {A} (f : nat -> A) : N A := fun s => Some (f (s_calls s), mkSock (s_rx s) (s_tx s) (S (s_calls s))).
Definition n_alloc : N bool := n_tick mem.
Definition n_strdup (s : option bytes) : N (option bytes) :=
  match s with Some s => b ← n_alloc; mret (if b : bool then Some s else None) | None => n_ub end.

(** ** The socket *)

(** [read]: the bytes, none at the end, or [None] for an error. *)
Definition sk_read (n : nat) : N (option bytes) := fun s =>
  match io (s_calls s) with
  | Some k =>
      let m := Nat.min n (S k) in
      Some (Some (take m (s_rx s)), mkSock (drop m (s_rx s)) (s_tx s) (S (s_calls s)))
  | None => Some (None, mkSock (s_rx s) (s_tx s) (S (s_calls s)))
  end.

(** [write]: how many were taken, or [None]. *)
Definition sk_write (b : bytes) : N (option nat) := fun s =>
  match io (s_calls s) with
  | Some k => Some (Some (Nat.min k (length b)), mkSock (s_rx s) (s_tx s ++ take k b) (S (s_calls s)))
  | None => Some (None, mkSock (s_rx s) (s_tx s) (S (s_calls s)))
  end.

(** [SSL_read], [SSL_write] of the streaming calls: [tls i] is an error, or how
    many bytes there are beyond the first. *)
Definition tls_read (n : nat) : N (tls_err + bytes) := fun s =>
  let s1 := mkSock (s_rx s) (s_tx s) (S (s_calls s)) in
  match tls (s_calls s), s_rx s with
  | inl e, _ => Some (inl e, s1)
  | inr _, [] => Some (inl ZeroReturn, s1)
  | inr k, _ =>
      let m := Nat.min n (S k) in
      Some (inr (take m (s_rx s)), mkSock (drop m (s_rx s)) (s_tx s) (S (s_calls s)))
  end.
Definition tls_write (b : bytes) : N (tls_err + nat) := fun s =>
  match tls (s_calls s) with
  | inl e => Some (inl e, mkSock (s_rx s) (s_tx s) (S (s_calls s)))
  | inr k => Some (inr (Nat.min (S k) (length b)), mkSock (s_rx s) (s_tx s ++ take (S k) b) (S (s_calls s)))
  end.

(** The bytes read, or [None] for false. *)
Fixpoint net_read_loop (fuel : nat) (datalen : nat) : N (option bytes) :=
  match datalen, fuel with
  | O, _ => mret (Some [])
  | _, O => n_ub
  | _, S fuel =>
      rc ← sk_read datalen;
      match rc : option bytes with
      | None | Some [] => mret None
      | Some b =>
          r ← net_read_loop fuel (datalen - length b);
          mret (match r : option bytes with Some r => Some (b ++ r) | None => None end)
      end
  end.
Definition net_read (datalen : nat) : N (option bytes) := net_read_loop datalen datalen.

Fixpoint net_write_loop (fuel : nat) (data : bytes) : N bool :=
  match data, fuel with
  | [], _ => mret true
  | _, O => n_ub
  | _, S fuel =>
      rc ← sk_write data;
      match rc : option nat with
      | None => mret false
      | Some n => net_write_loop fuel (drop n data)
      end
  end.
Definition net_write (data : bytes) : N bool := net_write_loop (length data + idle) data.

(** ** Requests and responses *)

(** [req_init], [req_set_key], what follows the key, and the signature: the
    header and all that follows it. *)
Definition build_req (stc : st_client) (op flags data_len : Z) (key extra : bytes) : N bytes :=
  nonce ← n_tick rnd;
  let key_len := u16 (Z.of_nat (length key)) in
  let body := take (Z.to_nat key_len) key ++ extra in
  let p := enc_req op flags key_len nonce data_len (replicate CHD_SIG_SZ 0) ++ body in
  let sig := chreq_sign p (stc_key stc) in
  if (CHD_SIG_SZ <=? length sig)%nat then n_ub else
  mret (enc_req op flags key_len nonce data_len (sig ++ replicate (CHD_SIG_SZ - length sig) 0) ++ body).

(** A request in [req_buf]. *)
Definition buf_req (stc : st_client) (op flags data_len : Z) (key extra : bytes) : N bytes :=
  if (req_buf_sz <? req_sz + Z.to_nat (u16 (Z.of_nat (length key))) + length extra)%nat then n_ub else
  build_req stc op flags data_len key extra.

Definition resp_read : N (option bytes) :=
  r ← net_read resp_sz;
  mret (match r : option bytes with Some r => if resp_valid r then Some r else None | None => None end).

(** [if (!net_write(stc, req, req_len(req))) return false;] and the response
    header, if its code is success. *)
Definition send_req (req : bytes) : N bool := net_write (take (req_len req) req).
Definition resp_ok : N (option bytes) :=
  r ← resp_read;
  mret (match r : option bytes with Some r => if resp_code r =? errcode che_Success then Some r else None | None => None end).
Definition transact (req : bytes) : N (option bytes) :=
  ok ← send_req req;
  if negb ok then mret None else resp_ok.

Definition succeeded (r : option bytes) : bool := match r with Some _ => true | None => false end.

Definition stc_login (stc : st_client) : N bool :=
  req ← buf_req stc CHO_LOGIN 0 0 (stc_user stc ++ [0]) [];
  r ← transact req;
  mret (succeeded r).

Definition stc_start_tls_cmd (stc : st_client) : N bool :=
  nonce ← n_tick rnd;
  net_write (enc_req CHO_START_TLS 0 0 nonce 0 (str "START-TLS" ++ replicate (CHD_SIG_SZ - 9) 0)).

(** The connection is made by the caller's socket; [tls_up]: how the TLS set-up ends. *)
Definition stc_new (service_host : bytes) (port : Z) (user secret_key : bytes) (use_ssl : bool) (connected tls_up : bool) : N (option st_client) :=
  if bool_decide (service_host = []) || (port <? 1) || (65535 <? port) || bool_decide (user = []) || bool_decide (secret_key = []) then mret None else
  if negb connected then mret None else
  b ← n_alloc;
  if negb b then mret None else
  b1 ← n_alloc; b2 ← n_alloc; b3 ← n_alloc;
  if negb (b1 && b2 && b3) then mret None else
  let stc := mkStc service_host user secret_key false use_ssl in
  ok ← (if use_ssl then ok ← stc_start_tls_cmd (mkStc service_host user secret_key false false); mret (ok && tls_up) else mret true);
  if negb ok then mret None else
  ok ← stc_login stc;
  mret (if ok : bool then Some stc else None).

(** ** Reading objects *)

Definition all_data_cb (ptr : bytes) (size nmemb : Z) (all_data : bytes) : option (Z * bytes) :=
  let len := s32 (u64 (size * nmemb)) in
  if Z.of_nat (length ptr) <? u32 len then None else Some (u64 len, all_data ++ take (Z.to_nat (u32 len)) ptr).

(** The rest of a [chunksrv_resp_get]; the length announced. *)
Definition get_resp (req : bytes) : N (option Z) :=
  r ← transact req;
  match r : option bytes with
  | None => mret None
  | Some r =>
      m ← net_read 8;
      mret (match m : option bytes with Some _ => Some (resp_data_len r) | None => None end)
  end.

Definition stc_get_req (stc : st_client) (key : bytes) : N (option Z) :=
  if negb (stc_key_valid key) then mret None else
  req ← buf_req stc CHO_GET 0 0 key [];
  get_resp req.

(** [while (content_len)]: pieces of [netbuf] go to the callback, whose result is ignored. *)
Fixpoint read_body {W} (fuel : nat) (write_cb : bytes -> Z -> Z -> W -> option (Z * W)) (content_len : Z) (w : W) : N (option W) :=
  if content_len =? 0 then mret (Some w) else
  match fuel with
  | O => n_ub
  | S fuel =>
      let xfer_len := Z.min content_len NETBUF_SZ in
      r ← net_read (Z.to_nat xfer_len);
      match r : option bytes with
      | None => mret None
      | Some b =>
          x ← n_lift (write_cb b xfer_len 1 w);
          read_body fuel write_cb (content_len - xfer_len) (snd (x : Z * W))
      end
  end.

Definition body {W} (write_cb : bytes -> Z -> Z -> W -> option (Z * W)) (content_len : Z) (w : W) : N (option W) :=
  read_body (Z.to_nat content_len) write_cb content_len w.

Definition stc_get {W} (stc : st_client) (key : bytes) (write_cb : bytes -> Z -> Z -> W -> option (Z * W)) (user_data : W) : N (option W) :=
  len ← stc_get_req stc key;
  match len : option Z with
  | None => mret None
  | Some content_len => body write_cb content_len user_data
  end.

(** The memory of a byte array; that of an empty one is NULL. *)
Definition array_data (all_data : option bytes) : option bytes := match all_data with Some [] => None | r => r end.

Definition stc_get_inline (stc : st_client) (key : bytes) : N (option bytes) :=
  r ← stc_get stc key all_data_cb []; mret (array_data r).

Definition stc_get_start (stc : st_client) (key : bytes) : N (option Z) := stc_get_req stc key.

(** [for (;;)] over TLS: what is there ([FIONREAD] or its error, [SSL_pending])
    is read until the buffer is full; the bytes, or an error as [size_t]. *)
Fixpoint get_recv_tls (fuel : nat) (data_len : nat) (got : bytes) : N (Z + bytes) :=
  if (length got =? data_len)%nat then mret (inr got) else
  match fuel with
  | O => n_ub
  | S fuel =>
      a ← n_tick fionread;
      match a : Z + nat with
      | inl e => mret (inl (u64 (- e)))
      | inr a =>
          avail ← (if (a =? 0)%nat then n_tick pending else mret a);
          if (avail =? 0)%nat then mret (inr got) else
          rc ← tls_read (Nat.min avail (data_len - length got));
          match rc : tls_err + bytes with
          | inr b => get_recv_tls fuel data_len (got ++ b)
          | inl e =>
              if negb (bool_decide (got = [])) then mret (inr got) else
              match e with
              | ZeroReturn => mret (inl (u64 (- EPIPE)))
              | WantRead | WantWrite => get_recv_tls fuel data_len got
              | TlsFailed => mret (inl (u64 (- EIO)))
              end
          end
      end
  end.

Definition stc_get_recv (stc : st_client) (data_len : nat) : N (Z + bytes) :=
  if stc_ssl stc then get_recv_tls (data_len + idle) data_len [] else
  a ← n_tick fionread;
  match a : Z + nat with
  | inl e => mret (inl (u64 (- e)))
  | inr O => mret (inr [])
  | inr avail =>
      rc ← sk_read (Nat.min avail data_len);
      mret (match rc : option bytes with Some b => inr b | None => inl (u64 (- EIO)) end)
  end.

Definition stc_get_part_req (stc : st_client) (key : bytes) (offset max_len : Z) : N (option Z) :=
  if negb (stc_key_valid key) then mret None else
  req ← buf_req stc CHO_GET_PART 0 max_len key (le_bytes 8 offset);
  get_resp req.

Definition stc_get_part {W} (stc : st_client) (key : bytes) (offset max_len : Z) (write_cb : bytes -> Z -> Z -> W -> option (Z * W)) (user_data : W)
    : N (option W) :=
  len ← stc_get_part_req stc key offset max_len;
  match len : option Z with
  | None => mret None
  | Some content_len => body write_cb content_len user_data
  end.

Definition stc_get_part_start (stc : st_client) (key : bytes) (offset max_len : Z) : N (option Z) := stc_get_part_req stc key offset max_len.
Definition stc_get_part_inline (stc : st_client) (key : bytes) (offset max_len : Z) : N (option bytes) :=
  r ← stc_get_part stc key offset max_len all_data_cb []; mret (array_data r).

(** ** Changing the store *)

Definition stc_table_open (stc : st_client) (key : bytes) (flags : Z) : N bool :=
  if negb (stc_key_valid key) then mret false else
  req ← buf_req stc CHO_TABLE_OPEN (Z.land flags (Z.lor CHF_TBL_CREAT CHF_TBL_EXCL)) 0 key [];
  r ← transact req;
  mret (succeeded r).

(** The data as the callback gives it, through [netbuf]. *)
Fixpoint put_body {S} (fuel : nat) (read_cb : Z -> Z -> S -> option (bytes * Z * S)) (content_len : Z) (st : S) : N bool :=
  if content_len =? 0 then mret true else
  match fuel with
  | O => n_ub
  | Datatypes.S fuel =>
      let xfer_len := Z.min content_len NETBUF_SZ in
      x ← n_lift (read_cb xfer_len 1 st);
      let '(b, rrc, st) := (x : bytes * Z * S) in
      if rrc <? 1 then mret false else
      if (NETBUF_SZ <? rrc) || (Z.of_nat (length b) <? rrc) then n_ub else
      ok ← net_write (take (Z.to_nat rrc) b);
      if negb ok then mret false else
      put_body fuel read_cb (u64 (content_len - rrc)) st
  end.

Definition put_req (stc : st_client) (key : bytes) (len flags : Z) : N bytes := buf_req stc CHO_PUT (Z.land flags CHF_SYNC) len key [].

Definition stc_put {S} (stc : st_client) (key : bytes) (read_cb : Z -> Z -> S -> option (bytes * Z * S)) (len : Z) (user_data : S) (flags : Z) : N bool :=
  if negb (stc_key_valid key) then mret false else
  req ← put_req stc key len flags;
  ok ← send_req req;
  if negb ok then mret false else
  ok ← put_body (Z.to_nat len) read_cb len user_data;
  if negb ok then mret false else
  r ← resp_ok;
  mret (succeeded r).

Definition stc_put_start (stc : st_client) (key : bytes) (cont_len flags : Z) : N bool :=
  if negb (stc_key_valid key) then mret false else
  req ← put_req stc key cont_len flags;
  send_req req.

(** [while (len)] over TLS. *)
Fixpoint put_send_tls (fuel : nat) (data : bytes) (done_cnt : Z) : N Z :=
  match data, fuel with
  | [], _ => mret done_cnt
  | _, O => n_ub
  | _, Datatypes.S fuel =>
      rc ← tls_write data;
      match rc : tls_err + nat with
      | inr n => put_send_tls fuel (drop n data) (done_cnt + Z.of_nat n)
      | inl ZeroReturn => mret (u64 (- EPIPE))
      | inl WantRead => put_send_tls fuel data done_cnt
      | inl WantWrite => mret done_cnt
      | inl TlsFailed => mret (u64 (- EIO))
      end
  end.

(** How many bytes were taken, or an error as [size_t]. *)
Definition stc_put_send (stc : st_client) (data : bytes) : N Z :=
  match data with
  | [] => mret 0
  | _ =>
      if stc_ssl stc then put_send_tls (length data + idle) data 0 else
      rc ← sk_write data;
      mret (match rc : option nat with Some n => Z.of_nat n | None => u64 (- EIO) end)
  end.

Definition stc_put_sync : N bool := r ← resp_ok; mret (succeeded r).

Definition read_inline_cb (size nmemb : Z) (spi : stc_put_info) : option (bytes * Z * stc_put_info) :=
  let n_bytes := u64 (size * nmemb) in
  let len := Z.min n_bytes (sp_len spi) in
  if len =? 0 then Some ([], 0, spi) else
  if Z.of_nat (length (sp_data spi)) <? len then None else
  Some (take (Z.to_nat len) (sp_data spi), len, mkStPut (drop (Z.to_nat len) (sp_data spi)) (sp_len spi - len)).

Definition stc_put_inline (stc : st_client) (key data : bytes) (flags : Z) : N bool :=
  stc_put stc key read_inline_cb (Z.of_nat (length data)) (mkStPut data (Z.of_nat (length data))) flags.

Definition stc_del (stc : st_client) (key : bytes) : N bool :=
  if negb (stc_key_valid key) then mret false else
  req ← buf_req stc CHO_DEL 0 0 key [];
  r ← transact req;
  mret (succeeded r).

(** The request is allocated; both keys are sent.  A first key longer than its
    length field leaves bytes between them unset. *)
Definition stc_cp (stc : st_client) (dest_key src_key : bytes) : N bool :=
  b ← n_alloc;
  if negb b then mret false else
  if 65535 <? Z.of_nat (length dest_key) then n_ub else
  req ← build_req stc CHO_CP 0 (Z.of_nat (length src_key)) dest_key src_key;
  ok ← net_write (take (req_sz + length src_key + length dest_key) req);
  if negb ok then mret false else
  r ← resp_ok;
  mret (succeeded r).

(** ** Lists *)

Fixpoint stc_parse_object (nodes : list node) (obj : st_object) : N st_object :=
  match nodes with
  | [] => mret obj
  | Element name children :: nodes =>
      let '(mkStObj nm tmd etag size owner) := obj in
      let xs := xmlNodeListGetString children in
      if is_name name "Name" then s ← n_strdup xs; stc_parse_object nodes (mkStObj s tmd etag size owner)
      else if is_name name "LastModified" then s ← n_strdup xs; stc_parse_object nodes (mkStObj nm s etag size owner)
      else if is_name name "ETag" then s ← n_strdup xs; stc_parse_object nodes (mkStObj nm tmd s size owner)
      else if is_name name "Size" then n ← n_lift (ato 64 xs); stc_parse_object nodes (mkStObj nm tmd etag (u64 n) owner)
      else if is_name name "Owner" then s ← n_strdup xs; stc_parse_object nodes (mkStObj nm tmd etag size s)
      else stc_parse_object nodes obj
  | _ :: nodes => stc_parse_object nodes obj
  end.

Definition stc_parse_key (nodes : list node) (kl : st_keylist) : N st_keylist :=
  b ← n_alloc;
  if negb b then mret kl else
  obj ← stc_parse_object nodes (mkStObj None None None 0 None);
  mret (match so_name obj with Some _ => mkStKl (sk_name kl) (sk_contents kl ++ [obj]) | None => kl end).

Fixpoint stc_parse_keylist (nodes : list node) (kl : st_keylist) : N st_keylist :=
  match nodes with
  | [] => mret kl
  | Element name children :: nodes =>
      if is_name name "Name" then s ← n_strdup (xmlNodeListGetString children); stc_parse_keylist nodes (mkStKl s (sk_contents kl))
      else if is_name name "Contents" then kl ← stc_parse_key children kl; stc_parse_keylist nodes kl
      else stc_parse_keylist nodes kl
  | _ :: nodes => stc_parse_keylist nodes kl
  end.

Definition stc_keys (stc : st_client) : N (option st_keylist) :=
  req ← buf_req stc CHO_LIST 0 0 [] [];
  r ← transact req;
  match r : option bytes with
  | None => mret None
  | Some r =>
      all_data ← body (fun b len _ w => Some (len, w ++ b)) (resp_data_len r) [];
      match (all_data : option bytes) ≫= fun d => read_doc d "ListVolumeResult" with
      | None => mret None
      | Some nodes =>
          b ← n_alloc;
          if negb b then mret None else
          kl ← stc_parse_keylist nodes (mkStKl None []);
          mret (Some kl)
      end
  end.

(** ** The rest *)

Definition stc_ping (stc : st_client) : N bool := req ← buf_req stc CHO_NOP 0 0 [] []; r ← transact req; mret (succeeded r).
Definition stc_check_start (stc : st_client) : N bool := req ← buf_req stc CHO_CHECK_START 0 0 [] []; r ← transact req; mret (succeeded r).

Definition stc_check_status (stc : st_client) : N (option chunk_check_status) :=
  req ← build_req stc CHO_CHECK_STATUS 0 0 [] [];
  r ← transact req;
  match r : option bytes with
  | None => mret None
  | Some r =>
      if negb (resp_data_len r =? 16) then mret None else
      b ← net_read 16;
      mret (match b : option bytes with
            | Some b => Some (mkChk (le_val (slice 0 1 b)) (le_val (slice 4 4 b)) (le_val (slice 8 8 b)))
            | None => None
            end)
  end.

End chunkdc.
