(* ===== verification/ChunkdcProps.v ===== *)
(** * ChunkdcProps: the client of the chunk server, and the two ends together *)

From S2P Require Import Prelude Hstor ObjCache Fs BeFs BeFsSpec BeFsProps BeFsList Chunkd ChunkLogic ChunkReq ChunkPut ChunkGet ChunkPart ChunkCp ChunkProps Chunkdc.
#[local] Open Scope Z_scope.

(** ** The fields of a request *)

Section req.
Context (op flags klen : Z) (nonce : bytes) (dlen : Z) (sig : bytes).
Hypotheses (Hop : 0 <= op < 256) (Hfl : 0 <= flags < 256) (Hk : 0 <= klen < 65536) (Hd : 0 <= dlen < 2 ^ 64)
  (Hn : length nonce = 4%nat) (Hs : length sig = 64%nat).

Let q : bytes := enc_req op flags klen nonce dlen sig.

Lemma enc_req_len : length q = req_sz.
Proof. unfold q, enc_req. rewrite !length_app, !length_le_bytes, Hn, Hs. done. Qed.

Lemma enc_req_op rest : req_op (q ++ rest) = op.
Proof. unfold req_op, q, enc_req, slice. cbn. unfold le_val. clear -Hop. lia. Qed.

Lemma enc_req_klen rest : req_key_len (q ++ rest) = klen.
Proof.
  unfold req_key_len, q, enc_req. rewrite <- !app_assoc. rewrite (app_assoc CHUNKD_MAGIC). rewrite (slice_app 10 2); [|done|apply length_le_bytes].
  by rewrite le_val_le_bytes_small.
Qed.

Lemma enc_req_dlen rest : req_data_len (q ++ rest) = dlen.
Proof.
  unfold req_data_len, q, enc_req. rewrite <- !app_assoc. rewrite (app_assoc CHUNKD_MAGIC), (app_assoc (_ ++ _)), (app_assoc (_ ++ _)).
  rewrite (slice_app 16 8); [|rewrite !length_app, length_le_bytes, Hn; done|apply length_le_bytes]. by rewrite le_val_le_bytes_small.
Qed.

Lemma enc_req_nonce rest : req_nonce (q ++ rest) = nonce.
Proof.
  unfold req_nonce, q, enc_req. rewrite <- !app_assoc. rewrite (app_assoc CHUNKD_MAGIC), (app_assoc (_ ++ _)).
  rewrite (slice_app 12 4); [done|rewrite !length_app, length_le_bytes; done|done].
Qed.

Lemma enc_req_magic rest : req_magic (q ++ rest) = CHUNKD_MAGIC.
Proof. by unfold req_magic, q, enc_req, slice. Qed.

Lemma enc_req_24 sig' : take 24 q = take 24 (enc_req op flags klen nonce dlen sig').
Proof.
  assert (forall s, take 24 (enc_req op flags klen nonce dlen s) = CHUNKD_MAGIC ++ [op; flags] ++ le_bytes 2 klen ++ nonce ++ le_bytes 8 dlen) as E; [|unfold q; by rewrite !E].
  intros s. unfold enc_req. rewrite !app_assoc. apply take_app_length'. rewrite !length_app, !length_le_bytes, Hn. done.
Qed.

Lemma enc_req_eq : q = take 24 q ++ sig.
Proof.
  rewrite <- (take_drop 24 q) at 1. f_equal. unfold q, enc_req. rewrite !app_assoc. rewrite drop_app_length'; [done|]. rewrite !length_app, !length_le_bytes, Hn. done.
Qed.

Lemma enc_req_sig rest : req_sig (q ++ rest) = sig.
Proof.
  unfold req_sig, q, enc_req. rewrite <- !app_assoc. rewrite (app_assoc CHUNKD_MAGIC), (app_assoc (_ ++ _)), (app_assoc (_ ++ _)), (app_assoc (_ ++ _)).
  rewrite (slice_app 24 64); [done|rewrite !length_app, !length_le_bytes, Hn; done|done].
Qed.

Lemma enc_req_total rest : req_len (q ++ rest) = (req_sz + Z.to_nat klen + (if (op =? CHO_GET_PART)%Z then 8 else 0))%nat.
Proof. unfold req_len. by rewrite enc_req_klen, enc_req_op. Qed.

End req.

(** ** The socket *)

Section run.
Context {SG : Sig} {LX : Libxml}.
Context (io : nat -> option nat) (rnd : nat -> bytes) (mem : nat -> bool) (idle : nat).

(** The socket works: every call transfers something, as long as there is
    something; the four bytes of [rand]; signatures are 28 characters. *)
Hypothesis io_ok : forall i, exists k, io i = Some (S k).
Hypothesis rnd_ok : forall i, length (rnd i) = 4%nat.
Hypothesis sig_ok : forall k t, length (base64 (HMAC_SHA1 k t)) = 28%nat /\ Forall (fun c => c <> 0) (base64 (HMAC_SHA1 k t)).

Implicit Types (s : sock) (stc : st_client).

Lemma n_bind {A B} (m : N A) (f : A -> N B) s a s' : m s = Some (a, s') -> (m ≫= f) s = f a s'.
Proof. intros E. unfold mbind, N_bind. by rewrite E. Qed.

Lemma n_assoc {A B D} (m : N A) (f : A -> N B) (g : B -> N D) s : ((m ≫= f) ≫= g) s = (m ≫= fun a => f a ≫= g) s.
Proof. unfold mbind, N_bind. by destruct (m s) as [[]|]. Qed.

Lemma n_ext {A B} (m : N A) (f g : A -> N B) s : (forall a s', f a s' = g a s') -> (m ≫= f) s = (m ≫= g) s.
Proof. intros E. unfold mbind, N_bind. destruct (m s) as [[]|]; [apply E|done]. Qed.

(** Enough has arrived, or not: what [net_read] gives, how much it takes. *)
Lemma read_loop_run fuel n s : (n <= fuel)%nat ->
  exists c, net_read_loop io fuel n s =
    Some (if (n <=? length (s_rx s))%nat then Some (take n (s_rx s)) else None, mkSock (drop n (s_rx s)) (s_tx s) c).
Proof.
  revert n s. induction fuel as [|fuel IH]; intros n s Hf.
  { destruct n; [|lia]. exists (s_calls s). cbn. rewrite take_0, drop_0. by destruct s. }
  destruct n as [|n]; [exists (s_calls s); cbn; rewrite take_0, drop_0; by destruct s|]. cbn [net_read_loop].
  destruct (io_ok (s_calls s)) as [k Ek]. destruct (s_rx s) as [|x rx] eqn:Er.
  { exists (S (s_calls s)). erewrite n_bind; [|unfold sk_read; rewrite Ek, Er; cbn zeta; rewrite take_nil, drop_nil; done]. done. }
  set (m := Nat.min (S n) (S (S k))). set (r := x :: rx) in *.
  assert (0 < m <= S n)%nat as Hm by lia.
  assert (take m r = x :: take (pred m) rx) as Et by (by destruct m; [lia|]).
  assert (length (take m r) = Nat.min m (length r)) as Hl by apply length_take.
  destruct (IH (S n - length (take m r))%nat (mkSock (drop m r) (s_tx s) (S (s_calls s)))) as [c Ec]; [unfold r in *; cbn [length] in Hl; lia|].
  exists c. erewrite n_bind; [|unfold sk_read; rewrite Ek, Er; fold r; done]. cbn beta zeta. fold m. rewrite Et. cbn beta iota. rewrite <- Et. rewrite (n_bind _ _ _ _ _ Ec). cbn [s_rx s_tx]. rewrite length_drop.
  unfold mret, N_ret. destruct (Nat.leb_spec (S n) (length r)) as [Hle|Hgt].
  - rewrite Hl, Nat.min_l by lia. rewrite (proj2 (Nat.leb_le _ _)) by lia. rewrite drop_drop. replace (m + (S n - m))%nat with (S n) by lia. do 3 f_equal.
    rewrite take_take_drop. f_equal. lia.
  - destruct (Nat.le_gt_cases m (length r)) as [H1|H1].
    + rewrite Hl, Nat.min_l by lia. rewrite (proj2 (Nat.leb_gt _ _)) by lia. rewrite drop_drop. replace (m + (S n - m))%nat with (S n) by lia. done.
    + rewrite Hl, Nat.min_r by lia. rewrite (proj2 (Nat.leb_gt _ _)) by lia. rewrite drop_drop, !drop_ge by lia. done.
Qed.

Lemma read_run n s : exists c, net_read io n s =
  Some (if (n <=? length (s_rx s))%nat then Some (take n (s_rx s)) else None, mkSock (drop n (s_rx s)) (s_tx s) c).
Proof. by apply read_loop_run. Qed.

Lemma write_loop_run fuel b s : (length b <= fuel)%nat -> exists c, net_write_loop io fuel b s = Some (true, mkSock (s_rx s) (s_tx s ++ b) c).
Proof.
  revert b s. induction fuel as [|fuel IH]; intros b s Hf.
  { destruct b; [|cbn in Hf; lia]. exists (s_calls s). cbn. rewrite app_nil_r. by destruct s. }
  destruct b as [|x b]; [exists (s_calls s); cbn; rewrite app_nil_r; by destruct s|]. cbn [net_write_loop].
  destruct (io_ok (s_calls s)) as [k Ek]. set (d := x :: b) in *.
  destruct (IH (drop (Nat.min (S k) (length d)) d) (mkSock (s_rx s) (s_tx s ++ take (S k) d) (S (s_calls s)))) as [c Ec].
  { rewrite length_drop. unfold d in *. cbn [length] in *. lia. }
  exists c. erewrite n_bind; [|unfold sk_write; rewrite Ek; done]. cbn beta iota. rewrite Ec. cbn [s_rx s_tx]. rewrite <- app_assoc. do 4 f_equal.
  destruct (Nat.le_gt_cases (S k) (length d)); [rewrite Nat.min_l by lia; apply take_drop|].
  rewrite Nat.min_r, take_ge, drop_ge, app_nil_r by lia. done.
Qed.

Lemma write_run b s : exists c, net_write io idle b s = Some (true, mkSock (s_rx s) (s_tx s ++ b) c).
Proof. apply write_loop_run. lia. Qed.

(** ** Requests *)

Definition signed stc (op flags dlen : Z) (nonce key extra : bytes) : bytes :=
  let klen := Z.of_nat (length key) in
  let sig := chreq_sign (enc_req op flags klen nonce dlen (replicate CHD_SIG_SZ 0) ++ key ++ extra) (stc_key stc) in
  enc_req op flags klen nonce dlen (sig ++ replicate (CHD_SIG_SZ - length sig) 0).

Lemma build_run stc op flags dlen key extra s : Z.of_nat (length key) <= CHD_KEY_SZ ->
  build_req rnd stc op flags dlen key extra s =
    Some (signed stc op flags dlen (rnd (s_calls s)) key extra ++ key ++ extra, mkSock (s_rx s) (s_tx s) (S (s_calls s))).
Proof.
  intros Hk. unfold CHD_KEY_SZ in Hk. unfold build_req. erewrite n_bind by done. cbn zeta.
  assert (u16 (Z.of_nat (length key)) = Z.of_nat (length key)) as -> by (unfold u16; rewrite uw_small; lia).
  rewrite Nat2Z.id, take_ge by lia. unfold signed, chreq_sign. destruct (sig_ok (cstr (stc_key stc)) (take (req_len (enc_req op flags (Z.of_nat (length key)) (rnd (s_calls s)) dlen (replicate CHD_SIG_SZ 0) ++ key ++ extra))
    (enc_req op flags (Z.of_nat (length key)) (rnd (s_calls s)) dlen (replicate CHD_SIG_SZ 0) ++ key ++ extra))) as [-> _]. done.
Qed.

Lemma buf_run stc op flags dlen key extra s : Z.of_nat (length key) <= CHD_KEY_SZ -> (length extra <= 8)%nat ->
  buf_req rnd stc op flags dlen key extra s =
    Some (signed stc op flags dlen (rnd (s_calls s)) key extra ++ key ++ extra, mkSock (s_rx s) (s_tx s) (S (s_calls s))).
Proof.
  intros Hk Hx. unfold buf_req. rewrite (proj2 (Nat.ltb_ge _ _)); [by apply build_run|]. unfold req_buf_sz. unfold CHD_KEY_SZ in *.
  unfold u16. rewrite uw_small by lia. lia.
Qed.

Lemma signed_sig_len stc op flags dlen nonce key extra :
  length (chreq_sign (enc_req op flags (Z.of_nat (length key)) nonce dlen (replicate CHD_SIG_SZ 0) ++ key ++ extra) (stc_key stc)) = 28%nat.
Proof. apply sig_ok. Qed.

(** What the client signs is what the server checks. *)
Lemma signed_request stc op flags dlen nonce key extra (c : client) :
  0 <= op < 256 -> op <> CHO_GET_PART -> 0 <= flags < 256 -> 0 <= dlen < 2 ^ 64 -> length nonce = 4%nat -> key_valid key = true ->
  cstr (stc_key stc) = the_user c -> request op (signed stc op flags dlen nonce key extra) key c.
Proof.
  intros Hop Hgp Hfl Hd Hn Hk Hu. pose proof (key_valid_len _ Hk) as Hkl. unfold CHD_KEY_SZ in Hkl.
  set (klen := Z.of_nat (length key)) in *. pose proof (signed_sig_len stc op flags dlen nonce key extra) as Hsl. unfold signed. fold klen. fold klen in Hsl.
  set (p := enc_req op flags klen nonce dlen (replicate CHD_SIG_SZ 0) ++ key ++ extra) in *. set (sig := chreq_sign p (stc_key stc)) in *.
  set (fld := sig ++ replicate (CHD_SIG_SZ - length sig) 0).
  assert (length fld = 64%nat) as Hf by (unfold fld; rewrite length_app, length_replicate, Hsl; done).
  assert (Forall (fun c => c <> 0) sig) as Hnz by (unfold sig, chreq_sign; apply sig_ok).
  assert (cstr fld = sig) as Ecs by (unfold fld; rewrite cstr_app by done; rewrite Hsl; cbn; by rewrite app_nil_r).
  pose proof (enc_req_len op flags klen nonce dlen fld Hn Hf) as Hlen. set (q := enc_req op flags klen nonce dlen fld) in *.
  rewrite <- (app_nil_r q). split.
  - by rewrite app_nil_r.
  - by apply enc_req_op.
  - apply enc_req_klen; lia.
  - done.
  - unfold valid_req_hdr. rewrite (enc_req_sig op flags klen nonce dlen fld), Ecs, Hsl by done. rewrite (enc_req_magic op flags klen nonce dlen fld). by rewrite bool_decide_true.
  - unfold authcheck. apply bool_decide_eq_true. rewrite (enc_req_sig op flags klen nonce dlen fld) by done. rewrite app_nil_r, Ecs.
    assert (forall t k, cstr (chreq_sign t k) = chreq_sign t k) as Eid by (intros t k; apply cstr_id; apply sig_ok). rewrite Eid.
    unfold sig, chreq_sign. rewrite Hu. unfold the_user. do 2 f_equal.
    set (z := replicate CHD_SIG_SZ 0) in *. assert (take 24 q ++ z = enc_req op flags klen nonce dlen z) as Ez.
    { rewrite (enc_req_eq op flags klen nonce dlen z) by done. f_equal. exact (enc_req_24 op flags klen nonce dlen fld Hn z). }
    rewrite app_assoc, Ez. set (h := enc_req op flags klen nonce dlen z) in *.
    assert (length h = req_sz) as Hh by (by apply enc_req_len).
    assert (forall t, req_len (h ++ key ++ t) = (length h + length key)%nat) as Erl.
    { intros t. unfold h. rewrite enc_req_total by (done || lia). rewrite (proj2 (Z.eqb_neq _ _) Hgp), Nat.add_0_r. fold h. rewrite Hh. unfold klen. lia. }
    unfold p. fold h. rewrite !Erl. rewrite !(app_assoc h key). rewrite !take_app_length'; rewrite ?length_app; done.
Qed.

Lemma signed_len stc op flags dlen nonce key extra : length nonce = 4%nat -> length (signed stc op flags dlen nonce key extra) = req_sz.
Proof.
  intros Hn. unfold signed. apply enc_req_len; [done|]. rewrite length_app, length_replicate, signed_sig_len. done.
Qed.

Lemma signed_total stc op flags dlen nonce key extra rest :
  0 <= op < 256 -> Z.of_nat (length key) <= CHD_KEY_SZ ->
  req_len (signed stc op flags dlen nonce key extra ++ rest) = (req_sz + length key + (if (op =? CHO_GET_PART)%Z then 8 else 0))%nat.
Proof. intros Hop Hk. unfold CHD_KEY_SZ in Hk. unfold signed. rewrite enc_req_total by lia. by rewrite Nat2Z.id. Qed.

(** ** Responses *)

Lemma resp_code_enc r rest : length (r_magic r) = 8%nat -> 0 <= r_code r < 256 -> resp_code (enc_resp r ++ rest) = r_code r.
Proof.
  intros Hm Hc. unfold resp_code, enc_resp. rewrite <- !app_assoc. change ([r_code r; r_flags r; 0; 0] ++ ?x) with ([r_code r] ++ [r_flags r; 0; 0] ++ x).
  rewrite (slice_app 8 1) by done. unfold le_val. lia.
Qed.

Lemma resp_dlen_enc r rest : length (r_magic r) = 8%nat -> length (r_nonce r) = 4%nat -> 0 <= r_data_len r < 2 ^ 64 ->
  resp_data_len (enc_resp r ++ rest) = r_data_len r.
Proof.
  intros Hm Hn Hd. unfold resp_data_len, enc_resp. rewrite <- !app_assoc. rewrite (app_assoc (r_magic r)), (app_assoc (_ ++ _)).
  rewrite (slice_app 16 8); [|rewrite !length_app, Hm, Hn; done|apply length_le_bytes]. by rewrite le_val_le_bytes_small.
Qed.

Lemma resp_valid_enc r rest : r_magic r = CHUNKD_MAGIC -> resp_valid (enc_resp r ++ rest) = true.
Proof. intros E. unfold resp_valid, enc_resp. rewrite E. by apply bool_decide_eq_true. Qed.

(** A response header that says success. *)
Record good_resp (r : Chunkd.chunksrv_resp) : Prop := {
  gr_magic : r_magic r = CHUNKD_MAGIC; gr_code : r_code r = 0; gr_nonce : length (r_nonce r) = 4%nat; gr_hash : length (r_hash r) = 20%nat }.

Lemma resp_ok_run r rest s : good_resp r -> s_rx s = enc_resp r ++ rest ->
  exists c, resp_ok io s = Some (Some (enc_resp r), mkSock rest (s_tx s) c).
Proof.
  intros [Hm Hc Hn Hh] Er. assert (length (enc_resp r) = resp_sz) as Hl by (apply length_resp; rewrite ?Hm; done).
  destruct (read_run resp_sz s) as [c Ec]. exists c. unfold resp_ok. erewrite n_bind.
  2:{ unfold resp_read. rewrite (n_bind _ _ _ _ _ Ec). rewrite Er, length_app, (proj2 (Nat.leb_le _ _)) by lia.
      rewrite take_app_length', drop_app_length' by lia. rewrite <- (app_nil_r (enc_resp r)) at 1. rewrite resp_valid_enc by done. reflexivity. }
  cbn beta iota. rewrite <- (app_nil_r (enc_resp r)) at 1. rewrite resp_code_enc by (rewrite ?Hm, ?Hc; done || lia). rewrite Hc. done.
Qed.

(** Whatever comes, reading a response writes nothing. *)
Lemma resp_ok_total s : exists r s', resp_ok io s = Some (r, s') /\ s_tx s' = s_tx s /\ forall b, r = Some b -> b = take resp_sz (s_rx s).
Proof.
  destruct (read_run resp_sz s) as [c Ec]. unfold resp_ok. erewrite n_bind by (unfold resp_read; rewrite (n_bind _ _ _ _ _ Ec); reflexivity).
  eexists _, _. split; [reflexivity|]. split; [done|]. intros b. destruct (resp_sz <=? length (s_rx s))%nat; [|done].
  destruct (resp_valid _); [|done]. destruct (_ =? _); [|done]. by intros [= <-].
Qed.

Lemma resp_dlen_nonneg b : Forall (fun x => 0 <= x) b -> 0 <= resp_data_len b.
Proof.
  intros Hb. unfold resp_data_len, slice. apply (Forall_drop _ 16) in Hb. apply (Forall_take _ 8) in Hb. induction Hb as [|x l Hx _ IH]; [done|].
  change (le_val (x :: l)) with (x + 256 * le_val l). lia.
Qed.

(** ** Bodies *)

Lemma inline_run n d : 0 < n <= NETBUF_SZ -> Z.of_nat (length d) < 2 ^ 64 -> d <> [] ->
  let m := Z.min n (Z.of_nat (length d)) in
  read_inline_cb n 1 (mkStPut d (Z.of_nat (length d))) =
    Some (take (Z.to_nat m) d, m, mkStPut (drop (Z.to_nat m) d) (Z.of_nat (length (drop (Z.to_nat m) d)))).
Proof.
  intros Hn Hd H0 m. unfold NETBUF_SZ in Hn. unfold read_inline_cb. cbn [sp_len sp_data].
  assert (u64 (n * 1) = n) as -> by (unfold u64; rewrite uw_small; lia). fold m. assert (0 < m) by (destruct d; [done|]; cbn [length] in *; lia).
  cbn zeta. rewrite (proj2 (Z.eqb_neq m 0)), (proj2 (Z.ltb_ge _ m)) by lia. do 3 f_equal. rewrite length_drop. lia.
Qed.

Lemma put_body_run fuel d s : (length d <= fuel)%nat -> Z.of_nat (length d) < 2 ^ 64 ->
  exists c, put_body io idle fuel read_inline_cb (Z.of_nat (length d)) (mkStPut d (Z.of_nat (length d))) s = Some (true, mkSock (s_rx s) (s_tx s ++ d) c).
Proof.
  revert d s. induction fuel as [|fuel IH]; intros d s Hf Hd.
  { destruct d; [|cbn in Hf; lia]. exists (s_calls s). cbn. rewrite app_nil_r. by destruct s. }
  destruct (decide (d = [])) as [->|Hd0]; [exists (s_calls s); cbn; rewrite app_nil_r; by destruct s|].
  assert (0 < Z.of_nat (length d)) as Hpos by (destruct d; [done|]; cbn; lia).
  cbn [put_body]. rewrite (proj2 (Z.eqb_neq _ 0)) by lia. cbn zeta. unfold NETBUF_SZ. set (x := Z.min (Z.of_nat (length d)) 4096).
  rewrite (inline_run x d) by (unfold NETBUF_SZ; lia || done). replace (Z.min x (Z.of_nat (length d))) with x by lia.
  erewrite n_bind by done. cbn beta iota. rewrite (proj2 (Z.ltb_ge x 1)), (proj2 (Z.ltb_ge 4096 x)) by lia. rewrite length_take, (proj2 (Z.ltb_ge _ x)) by lia. cbn [orb]. rewrite take_take, Nat.min_id.
  destruct (write_run (take (Z.to_nat x) d) s) as [c Ec]. rewrite (n_bind _ _ _ _ _ Ec). cbn [negb].
  assert (u64 (Z.of_nat (length d) - x) = Z.of_nat (length (drop (Z.to_nat x) d))) as -> by (rewrite length_drop; unfold u64; rewrite uw_small; lia).
  destruct (IH (drop (Z.to_nat x) d) (mkSock (s_rx s) (s_tx s ++ take (Z.to_nat x) d) c)) as [c' Ec']; [rewrite length_drop; lia|rewrite length_drop; lia|].
  exists c'. rewrite Ec'. cbn [s_rx s_tx]. by rewrite <- app_assoc, take_drop.
Qed.

Lemma read_body_run fuel d rest acc s : (length d <= fuel)%nat -> s_rx s = d ++ rest ->
  exists c, read_body io fuel all_data_cb (Z.of_nat (length d)) acc s = Some (Some (acc ++ d), mkSock rest (s_tx s) c).
Proof.
  revert d acc s. induction fuel as [|fuel IH]; intros d acc s Hf Er.
  { destruct d; [|cbn in Hf; lia]. exists (s_calls s). cbn. rewrite app_nil_r. destruct s. cbn in Er. by rewrite Er. }
  destruct (decide (d = [])) as [->|Hd0]; [exists (s_calls s); cbn; rewrite app_nil_r; destruct s; cbn in Er; by rewrite Er|].
  assert (0 < Z.of_nat (length d)) as Hpos by (destruct d; [done|]; cbn; lia).
  cbn [read_body]. rewrite (proj2 (Z.eqb_neq _ 0)) by lia. cbn zeta. unfold NETBUF_SZ. set (x := Z.min (Z.of_nat (length d)) 4096).
  destruct (read_run (Z.to_nat x) s) as [c Ec]. rewrite Er, length_app, (proj2 (Nat.leb_le _ _)) in Ec by lia. rewrite take_app_le, drop_app_le in Ec by lia.
  rewrite (n_bind _ _ _ _ _ Ec). cbn beta iota. set (b := take (Z.to_nat x) d). assert (Z.of_nat (length b) = x) as Hb by (unfold b; rewrite length_take; lia).
  assert (all_data_cb b x 1 acc = Some (x, acc ++ b)) as ->.
  { unfold all_data_cb. assert (s32 (u64 (x * 1)) = x) as -> by (unfold u64; rewrite uw_small by lia; unfold s32; rewrite sw_small; lia).
    assert (u32 x = x) as -> by (unfold u32; rewrite uw_small; lia). rewrite (proj2 (Z.ltb_ge _ _)) by lia. unfold u64. rewrite uw_small by lia.
    rewrite take_ge by lia. done. }
  erewrite n_bind by done. cbn [snd]. replace (Z.of_nat (length d) - x) with (Z.of_nat (length (drop (Z.to_nat x) d))) by (rewrite length_drop; lia).
  destruct (IH (drop (Z.to_nat x) d) (acc ++ b) (mkSock (drop (Z.to_nat x) d ++ rest) (s_tx s) c)) as [c' Ec']; [rewrite length_drop; lia|done|].
  exists c'. rewrite Ec'. cbn [s_tx]. unfold b. by rewrite <- app_assoc, take_drop.
Qed.

Lemma read_body_total fuel n acc s : 0 <= n -> (Z.to_nat n <= fuel)%nat ->
  exists r s', read_body io fuel all_data_cb n acc s = Some (r, s') /\ s_tx s' = s_tx s.
Proof.
  revert n acc s. induction fuel as [|fuel IH]; intros n acc s Hn Hf.
  { replace n with 0 by lia. by eexists _, _. }
  cbn [read_body]. destruct (Z.eqb_spec n 0) as [->|Hn0]; [by eexists _, _|]. cbn zeta. unfold NETBUF_SZ. set (x := Z.min n 4096).
  destruct (read_run (Z.to_nat x) s) as [c Ec]. rewrite (n_bind _ _ _ _ _ Ec). destruct (Nat.leb_spec (Z.to_nat x) (length (s_rx s))); cbn beta iota; [|by eexists _, _].
  set (b := take (Z.to_nat x) (s_rx s)). assert (Z.of_nat (length b) = x) as Hb by (unfold b; rewrite length_take; lia).
  assert (exists y, all_data_cb b x 1 acc = Some y) as [y Ey].
  { unfold all_data_cb. assert (s32 (u64 (x * 1)) = x) as -> by (unfold u64; rewrite uw_small by lia; unfold s32; rewrite sw_small; lia).
    assert (u32 x = x) as -> by (unfold u32; rewrite uw_small; lia). rewrite (proj2 (Z.ltb_ge _ _)) by lia. by eexists. }
  rewrite Ey. erewrite n_bind by done. destruct (IH (n - x) y.2 (mkSock (drop (Z.to_nat x) (s_rx s)) (s_tx s) c)) as (r & s' & E & Et); [lia|lia|].
  exists r, s'. by split.
Qed.

(** ** Operations *)

Lemma stc_key_valid_eq key : stc_key_valid key = key_valid key.
Proof.
  unfold stc_key_valid, key_valid. do 2 f_equal. destruct (Nat.ltb_spec (length key) 1), (Z.ltb_spec (Z.of_nat (length key)) 1); try done; lia.
Qed.

Lemma send_run stc op flags dlen nonce key extra s :
  0 <= op < 256 -> Z.of_nat (length key) <= CHD_KEY_SZ -> length nonce = 4%nat -> length extra = (if (op =? CHO_GET_PART)%Z then 8 else 0)%nat ->
  exists c, send_req io idle (signed stc op flags dlen nonce key extra ++ key ++ extra) s =
    Some (true, mkSock (s_rx s) (s_tx s ++ signed stc op flags dlen nonce key extra ++ key ++ extra) c).
Proof.
  intros Hop Hk Hn Hx. unfold send_req. rewrite signed_total by done. rewrite take_ge; [apply write_run|]. rewrite !length_app, signed_len, Hx by done. lia.
Qed.

(** The bytes of a put and of a get. *)
Definition put_bytes stc (flags : Z) (nonce key data : bytes) : bytes :=
  signed stc CHO_PUT (Z.land flags CHF_SYNC) (Z.of_nat (length data)) nonce key [] ++ key ++ data.
Definition get_bytes stc (nonce key : bytes) : bytes := signed stc CHO_GET 0 0 nonce key [] ++ key.

Lemma put_run stc key data flags s :
  key_valid key = true -> Z.of_nat (length data) < 2 ^ 64 ->
  exists c, stc_put_inline io rnd idle stc key data flags s =
    (r ← resp_ok io; mret (succeeded r)) (mkSock (s_rx s) (s_tx s ++ put_bytes stc flags (rnd (s_calls s)) key data) c).
Proof.
  intros Hk Hd. pose proof (key_valid_len _ Hk) as Hkl. unfold stc_put_inline, stc_put, put_req. rewrite stc_key_valid_eq, Hk. cbn [negb].
  rewrite (n_bind _ _ _ _ _ (buf_run stc CHO_PUT _ _ key [] s ltac:(lia) ltac:(cbn; lia))).
  edestruct (send_run stc CHO_PUT (Z.land flags CHF_SYNC) (Z.of_nat (length data)) (rnd (s_calls s)) key []) as [c Ec]; [unfold CHO_PUT; lia|lia|apply rnd_ok|done|].
  rewrite (n_bind _ _ _ _ _ Ec). cbn [negb]. rewrite Nat2Z.id.
  edestruct (put_body_run (length data) data) as [c' Ec']; [lia|done|]. rewrite (n_bind _ _ _ _ _ Ec'). cbn [negb s_rx s_tx]. exists c'.
  unfold put_bytes. by rewrite app_nil_r, <- !app_assoc.
Qed.

Lemma get_run stc key s :
  key_valid key = true ->
  exists c, stc_get io rnd idle stc key all_data_cb [] s =
    (r ← resp_ok io;
     match r with
     | None => mret None
     | Some r =>
         m ← net_read io 8;
         match m with Some _ => body io all_data_cb (resp_data_len r) [] | None => mret None end
     end) (mkSock (s_rx s) (s_tx s ++ get_bytes stc (rnd (s_calls s)) key) c).
Proof.
  intros Hk. pose proof (key_valid_len _ Hk) as Hkl.
  edestruct (send_run stc CHO_GET 0 0 (rnd (s_calls s)) key [] (mkSock (s_rx s) (s_tx s) (S (s_calls s)))) as [c Ec]; [unfold CHO_GET; lia|lia|apply rnd_ok|done|].
  exists c. unfold stc_get, stc_get_req. rewrite stc_key_valid_eq, Hk. cbn [negb].
  rewrite n_assoc, (n_bind _ _ _ _ _ (buf_run stc CHO_GET 0 0 key [] s ltac:(lia) ltac:(cbn; lia))). unfold get_resp, transact.
  rewrite !n_assoc, (n_bind _ _ _ _ _ Ec). cbn [negb s_rx s_tx]. rewrite app_nil_r. apply n_ext. intros [r|] s'; [|done].
  rewrite n_assoc. apply n_ext. by intros [m|] s''.
Qed.

(** A call that hands out the array. *)
Lemma array_bind (m : N (option bytes)) s r s' : m s = Some (r, s') -> (x ← m; mret (array_data x)) s = Some (array_data r, s').
Proof. intros E. by rewrite (n_bind _ _ _ _ _ E). Qed.

(** ** Both ends *)

(** What the two calls send does not depend on the answer. *)
Lemma put_sends stc key data flags n rx : key_valid key = true -> Z.of_nat (length data) < 2 ^ 45 ->
  exists b s', stc_put_inline io rnd idle stc key data flags (mkSock rx [] n) = Some (b, s') /\ s_tx s' = put_bytes stc flags (rnd n) key data.
Proof.
  intros Hk Hd. destruct (put_run stc key data flags (mkSock rx [] n) Hk ltac:(lia)) as [k0 Ek0]. rewrite Ek0. cbn [s_rx s_tx s_calls app].
  destruct (resp_ok_total (mkSock rx (put_bytes stc flags (rnd n) key data) k0)) as (r & s' & E3 & Et3 & _). rewrite (n_bind _ _ _ _ _ E3). eexists _, _. split; [reflexivity|exact Et3].
Qed.

Lemma get_sends stc key m rx : key_valid key = true -> Forall (fun x => 0 <= x) rx ->
  exists b s', stc_get_inline io rnd idle stc key (mkSock rx [] m) = Some (b, s') /\ s_tx s' = get_bytes stc (rnd m) key.
Proof.
  intros Hk Hrx. enough (exists b s', stc_get io rnd idle stc key all_data_cb [] (mkSock rx [] m) = Some (b, s') /\ s_tx s' = get_bytes stc (rnd m) key)
    as (b & s' & E & Ht) by (exists (array_data b), s'; split; [by apply array_bind|done]).
  set (Wg := get_bytes stc (rnd m) key). destruct (get_run stc key (mkSock rx [] m) Hk) as [k0 Ek0]. rewrite Ek0. cbn [s_rx s_tx s_calls app]. fold Wg.
  destruct (resp_ok_total (mkSock rx Wg k0)) as (r & s' & E3 & Et3 & Hr3). rewrite (n_bind _ _ _ _ _ E3). destruct r as [r|]; [|by eexists _, _].
  destruct (read_run 8 s') as [k1 Ek1]. rewrite (n_bind _ _ _ _ _ Ek1). destruct (8 <=? length (s_rx s'))%nat; [|by eexists _, _].
  destruct (read_body_total (Z.to_nat (resp_data_len r)) (resp_data_len r) [] (mkSock (drop 8 (s_rx s')) (s_tx s') k1)) as (r' & s3 & E4 & Et4); [|lia|].
  { apply resp_dlen_nonneg. rewrite (Hr3 r eq_refl). by apply Forall_take. }
  exists r', s3. split; [exact E4|cbn [s_tx] in *; congruence].
Qed.

(** How they take a success. *)
Lemma put_accepts stc key data flags n r : key_valid key = true -> Z.of_nat (length data) < 2 ^ 45 -> good_resp r ->
  exists m, stc_put_inline io rnd idle stc key data flags (mkSock (enc_resp r) [] n) = Some (true, mkSock [] (put_bytes stc flags (rnd n) key data) m).
Proof.
  intros Hk Hd Hgr. destruct (put_run stc key data flags (mkSock (enc_resp r) [] n) Hk ltac:(lia)) as [k0 Ek0]. cbn [s_rx s_tx s_calls app] in Ek0.
  destruct (resp_ok_run _ [] (mkSock (enc_resp r) (put_bytes stc flags (rnd n) key data) k0) Hgr) as [k1 Ek1]; [cbn [s_rx]; rewrite app_nil_r; reflexivity|].
  exists k1. rewrite Ek0. by rewrite (n_bind _ _ _ _ _ Ek1).
Qed.

Lemma get_accepts stc key m r mtime data : key_valid key = true -> good_resp r -> r_data_len r = Z.of_nat (length data) -> Z.of_nat (length data) < 2 ^ 45 -> data <> [] ->
  exists m2, stc_get_inline io rnd idle stc key (mkSock (enc_resp r ++ le_bytes 8 mtime ++ data) [] m) = Some (Some data, mkSock [] (get_bytes stc (rnd m) key) m2).
Proof.
  intros Hk Hr Hl Hd Hne. set (Wg := get_bytes stc (rnd m) key). destruct (get_run stc key (mkSock (enc_resp r ++ le_bytes 8 mtime ++ data) [] m) Hk) as [k0 Ek0]. cbn [s_rx s_tx s_calls app] in Ek0. fold Wg in Ek0.
  destruct (resp_ok_run r (le_bytes 8 mtime ++ data) (mkSock (enc_resp r ++ le_bytes 8 mtime ++ data) Wg k0) Hr eq_refl) as [k1 Ek1].
  rewrite (n_bind _ _ _ _ _ Ek1) in Ek0. cbn [s_tx] in Ek0. destruct (read_run 8 (mkSock (le_bytes 8 mtime ++ data) Wg k1)) as [k2 Ek2].
  cbn [s_rx s_tx] in Ek2. rewrite length_app, length_le_bytes in Ek2. rewrite take_app_length', drop_app_length' in Ek2 by (by rewrite length_le_bytes).
  rewrite (n_bind _ _ _ _ _ Ek2) in Ek0. cbn [Nat.leb Nat.add] in Ek0. destruct Hr as [G1 G2 G3 G4].
  rewrite <- (app_nil_r (enc_resp r)) in Ek0 at 2. rewrite resp_dlen_enc in Ek0; [|by rewrite G1|done|lia]. rewrite Hl in Ek0.
  destruct (read_body_run (length data) data [] [] (mkSock data Wg k2)) as [k3 Ek3]; [lia|by rewrite app_nil_r|].
  exists k3. replace (Some data) with (array_data (Some data)) by (by destruct data). apply array_bind. rewrite Ek0. unfold body. rewrite Nat2Z.id. exact Ek3.
Qed.

Section ends.
Context {H : Type} {HD : TcHdb H} {SH : Sha} {TX : Text} {RD : Readdir}.
Variable vol_path : bytes.
Variable garbage : Z -> bytes.
Implicit Types (c : client) (v : server H) (f : fsys).

Lemma arrived user table rx c : received user table [] c -> received user table rx (set_c_rx (c_rx c ++ rx) c).
Proof. intros [[[]] Er Ee Ew]. split; [split; [split|..]|..]; try done. cbn. by rewrite Er. Qed.

Lemma arrive_run {A} rx (m : C H A) c v f : (_ ← arrive rx; m) (mkCst c v f) = m (mkCst (set_c_rx (c_rx c ++ rx) c) v f).
Proof. done. Qed.

(** C21.  Client and server together: what a client puts it gets back.  On a
    connection of a logged-in user, the bytes [stc_put_inline] writes - the
    same whatever the answer will be - make the server store exactly that
    object and send an answer on which the call returns true; the bytes
    [stc_get_inline] then writes make it send, in some number of write events,
    an answer on which that call returns exactly the data; both calls read
    their answers to the end, however the two sockets cut the streams. *)
Theorem client_put_get user table stc key data flags n held c v f :
  (forall n, 0 <= n -> Z.of_nat (length (garbage n)) = n) ->
  received user table [] c -> cstr (stc_key stc) = user -> key_valid key = true -> data <> [] -> Z.of_nat (length data) <= max_obj ->
  Forall (fun x => x <> 0) user /\ (length user < 128)%nat ->
  target vol_path table key f -> content f (obj_path vol_path table key) = None -> oc_inv held (v_actives v) ->
  exists W resp t W2 resp2 k t2,
    (forall rx, exists b s', stc_put_inline io rnd idle stc key data flags (mkSock rx [] n) = Some (b, s') /\ s_tx s' = W) /\
    (_ ← arrive W; tcp_cli_event vol_path garbage EV_READ) (mkCst c v f) = Some (tt, t) /\ c_tx (st_cli t) = c_tx c ++ resp /\
    content (st_fs t) (obj_path vol_path table key) = Some (obj_file user key (SHA1 data) data) /\
    (exists m, stc_put_inline io rnd idle stc key data flags (mkSock resp [] n) = Some (true, mkSock [] W m) /\
      (forall rx, Forall (fun x => 0 <= x) rx -> exists b s', stc_get_inline io rnd idle stc key (mkSock rx [] m) = Some (b, s') /\ s_tx s' = W2) /\
      (_ ← arrive W2; _ ← tcp_cli_event vol_path garbage EV_READ; writes vol_path garbage k) t = Some (tt, t2) /\
      c_tx (st_cli t2) = c_tx (st_cli t) ++ resp2 /\
      exists m2, stc_get_inline io rnd idle stc key (mkSock resp2 [] m) = Some (Some data, mkSock [] W2 m2)).
Proof.
  intros Hg Rv Hu Hk Hd Hm Huser T Hc I. pose proof T as [_ _ (Ht & Hdir & _)].
  assert (Z.of_nat (length data) < 2 ^ 45) as Hd45 by (unfold max_obj, CHUNK_BLK_SZ in Hm; lia).
  assert (Hid : the_user c = user) by (destruct Rv as [[[]]]; done).
  set (q := signed stc CHO_PUT (Z.land flags CHF_SYNC) (Z.of_nat (length data)) (rnd n) key []).
  assert (0 <= Z.land flags CHF_SYNC < 256) as Hfl.
  { unfold CHF_SYNC. change 1 with (Z.ones 1). rewrite Z.land_ones by lia. pose proof (Z.mod_pos_bound flags 2 ltac:(lia)). change (2 ^ 1) with 2. lia. }
  assert (forall c', the_user c' = user -> request CHO_PUT q key c') as Rq.
  { intros c' Eu. apply signed_request; first [done | lia | apply rnd_ok | congruence]. }
  assert (req_data_len q = Z.of_nat (length data)) as Hql.
  { unfold q, signed. rewrite <- (app_nil_r (enc_req _ _ _ _ _ _)). apply enc_req_dlen; [lia|apply rnd_ok]. }
  assert (req_magic q = CHUNKD_MAGIC /\ req_nonce q = rnd n) as [Hqm Hqn].
  { unfold q, signed. rewrite <- (app_nil_r (enc_req _ _ _ _ _ _)). split; [apply enc_req_magic|]. apply enc_req_nonce. apply rnd_ok. }
  set (W := put_bytes stc flags (rnd n) key data). set (c1 := set_c_rx (c_rx c ++ W) c).
  destruct (proj1 (hw_eq _ _ _) (put_event vol_path garbage user table q key data held c1 v f Hg (arrived _ _ W c Rv) (Rq c1 Hid) Hql Hm T Hc I))
    as ([] & [c2 v2 f2] & E & Rv2 & Eu & Eg & Etx & _ & _ & W2' & C2 & He & Hc2). cbn [st_cli st_srv st_fs] in *.
  set (resp := put_resp q data) in *.
  assert (good_resp (mkResp (req_magic q) 0 0 (req_nonce q) (req_data_len q) (SHA1 data))) as Hgr.
  { split; cbn [r_magic r_code r_nonce r_hash]; try done; [rewrite Hqn; apply rnd_ok|apply length_SHA1]. }
  assert (exists m, stc_put_inline io rnd idle stc key data flags (mkSock resp [] n) = Some (true, mkSock [] W m)) as [m Em].
  { by apply (put_accepts _ _ _ _ _ (mkResp (req_magic q) 0 0 (req_nonce q) (req_data_len q) (SHA1 data))). }
  set (q2 := signed stc CHO_GET 0 0 (rnd m) key []). set (Wg := get_bytes stc (rnd m) key).
  assert (the_user c2 = user) as Hid2 by (destruct Rv2 as [[[]]]; done).
  assert (request CHO_GET q2 key (set_c_rx (c_rx c2 ++ Wg) c2)) as Rq2.
  { apply signed_request; first [done | lia | apply rnd_ok | by rewrite Hu]. }
  assert (req_magic q2 = CHUNKD_MAGIC /\ req_nonce q2 = rnd m) as [Hqm2 Hqn2].
  { unfold q2, signed. rewrite <- (app_nil_r (enc_req _ _ _ _ _ _)). split; [apply enc_req_magic|]. apply enc_req_nonce. apply rnd_ok. }
  destruct (get_events vol_path garbage user table q2 key (SHA1 data) data data (set_c_rx (c_rx c2 ++ Wg) c2) v2 f2 (arrived _ _ Wg c2 Rv2) Rq2 Hd) as (k & mtime & Hget).
  { split; try done; [by rewrite Hc2, obj_file_front|apply length_SHA1]. }
  { done. }
  { done. }
  { apply no_file; [|done]. rewrite He by (by symmetry; apply path_not_dir). unfold content. by rewrite Hdir. }
  apply hw_eq in Hget as ([] & s2 & E2 & Ht2 & _). change (c_tx (set_c_rx (c_rx c2 ++ Wg) c2)) with (c_tx c2) in Ht2.
  exists W, resp, (mkCst c2 v2 f2), Wg, (get_hdr q2 (SHA1 data) (Z.of_nat (length data)) mtime ++ data), k, s2.
  split_and!; [|by rewrite arrive_run|done|done|].
  { intros rx. by apply put_sends. }
  exists m. split; [done|]. split; [|split; [by rewrite arrive_run|split; [done|]]].
  - intros rx Hrx. by apply get_sends.
  - set (r := mkResp (req_magic q2) 0 0 (req_nonce q2) (Z.of_nat (length data)) (SHA1 data)).
    assert (get_hdr q2 (SHA1 data) (Z.of_nat (length data)) mtime ++ data = enc_resp r ++ le_bytes 8 mtime ++ data) as ->
      by (unfold get_hdr, enc_resp_get; by rewrite <- app_assoc).
    apply get_accepts; try done. split; cbn [r r_magic r_code r_nonce r_hash]; try done; [rewrite Hqn2; apply rnd_ok|apply length_SHA1].
Qed.

End ends.

End run.

(** ** Any socket *)

Section any.
Context {SG : Sig} {LX : Libxml}.
Context (io : nat -> option nat) (rnd : nat -> bytes) (mem : nat -> bool) (idle : nat).

(** From the [i]-th call on, at most [n] calls of the socket take nothing. *)
Definition idle_left (i n : nat) : Prop :=
  forall l, NoDup l -> (forall j, j ∈ l -> (i <= j)%nat /\ io j = Some 0%nat) -> (length l <= n)%nat.

(** A call may fail at any time, and may take nothing, but not for ever. *)
Hypothesis io_live : idle_left 0 idle.
Hypothesis rnd_ok : forall i, length (rnd i) = 4%nat.
Hypothesis sig_ok : forall k t, length (base64 (HMAC_SHA1 k t)) = 28%nat /\ Forall (fun c => c <> 0) (base64 (HMAC_SHA1 k t)).

Implicit Types (s : sock) (stc : st_client).

Lemma read_loop_any fuel n s : (n <= fuel)%nat ->
  exists r s', net_read_loop io fuel n s = Some (r, s') /\ s_tx s' = s_tx s /\
    forall b, r = Some b -> length b = n /\ s_rx s = b ++ s_rx s'.
Proof.
  revert n s. induction fuel as [|fuel IH]; intros n s Hf; (destruct n as [|n]; [exists (Some []), s; split_and!; try done; by intros b [= <-]|]); [lia|].
  cbn [net_read_loop]. unfold mbind at 1, N_bind at 1, sk_read.
  destruct (io (s_calls s)) as [k|]; [|by eexists _, _]. destruct (s_rx s) as [|x rx] eqn:Er; [cbn zeta; rewrite take_nil; by eexists _, _|].
  cbn zeta. set (m := Nat.min (S n) (S k)). set (r := x :: rx) in *. assert (take m r = x :: take (pred m) rx) as Et by done. rewrite Et. cbn beta iota. rewrite <- Et. assert (length (take m r) = Nat.min m (length r)) as Hl by apply length_take.
  destruct (IH (S n - length (take m r))%nat (mkSock (drop m r) (s_tx s) (S (s_calls s)))) as (r2 & s2 & E2 & T2 & R2); [unfold r in *; cbn [length] in Hl; lia|].
  rewrite (n_bind _ _ _ _ _ E2). eexists _, s2. split; [reflexivity|]. split; [exact T2|]. destruct r2 as [b2|]; [|done]. intros b Eb.
  assert (b = take m r ++ b2) as -> by congruence.
  destruct (R2 b2 eq_refl) as [L2 X2]. cbn [s_rx] in X2. split; [rewrite length_app; unfold r in *; cbn [length] in *; lia|]. by rewrite <- app_assoc, <- X2, take_drop.
Qed.

Lemma read_any n s : exists r s', net_read io n s = Some (r, s') /\ s_tx s' = s_tx s /\ forall b, r = Some b -> length b = n /\ s_rx s = b ++ s_rx s'.
Proof. by apply read_loop_any. Qed.

Lemma idle_later i j n : (i <= j)%nat -> idle_left i n -> idle_left j n.
Proof. intros Hij Hi l Hn Hl. apply Hi; [done|]. intros k Hk. destruct (Hl k Hk). split; [lia|done]. Qed.

Lemma idle_spent i n : io i = Some 0%nat -> idle_left i n -> exists n', n = S n' /\ idle_left (S i) n'.
Proof.
  intros Hz Hi. assert (forall l, NoDup l -> (forall j, j ∈ l -> (S i <= j)%nat /\ io j = Some 0%nat) -> (S (length l) <= n)%nat) as H.
  { intros l Hn Hl. apply (Hi (i :: l)).
    - apply NoDup_cons. split; [|done]. intros Hin. destruct (Hl i Hin). lia.
    - intros j [->|Hj]%elem_of_cons; [done|]. destruct (Hl j Hj). split; [lia|done]. }
  destruct n as [|n]; [specialize (H [] (NoDup_nil_2) ltac:(by intros j ?%elem_of_nil)); cbn in H; lia|].
  exists n. split; [done|]. intros l Hn Hl. specialize (H l Hn Hl). lia.
Qed.

Lemma write_loop_any fuel n d s : (length d + n <= fuel)%nat -> idle_left (s_calls s) n ->
  exists b s', net_write_loop io fuel d s = Some (b, s') /\ s_rx s' = s_rx s /\ (b = true -> s_tx s' = s_tx s ++ d).
Proof.
  revert n d s. induction fuel as [|fuel IH]; intros n d s Hf Hi; (destruct d as [|x d]; [exists true, s; split_and!; try done; by rewrite app_nil_r|]); [cbn in Hf; lia|].
  cbn [net_write_loop]. unfold mbind at 1, N_bind at 1, sk_write. destruct (io (s_calls s)) as [[|k]|] eqn:Hio; [| |by eexists _, _].
  - cbn beta iota. destruct (idle_spent _ _ Hio Hi) as (n' & -> & Hi').
    destruct (IH n' (x :: d) (mkSock (s_rx s) (s_tx s ++ take 0 (x :: d)) (S (s_calls s)))) as (b & s' & E & R & T); [cbn [length] in *; lia|done|].
    exists b, s'. split; [exact E|]. split; [exact R|]. intros Hb. rewrite (T Hb). cbn [s_tx take]. by rewrite app_nil_r.
  - cbn beta iota. set (e := x :: d) in *.
    destruct (IH n (drop (Nat.min (S k) (length e)) e) (mkSock (s_rx s) (s_tx s ++ take (S k) e) (S (s_calls s)))) as (b & s' & E & R & T).
    { rewrite length_drop. unfold e in *. cbn [length] in *. lia. }
    { eapply idle_later; [|exact Hi]. cbn. lia. }
    exists b, s'. split; [exact E|]. split; [exact R|]. intros Hb. rewrite (T Hb). cbn [s_tx]. rewrite <- app_assoc. f_equal.
    destruct (Nat.le_gt_cases (S k) (length e)); [rewrite Nat.min_l by lia; apply take_drop|]. rewrite Nat.min_r, take_ge, drop_ge, app_nil_r by lia. done.
Qed.

Lemma write_any d s : exists b s', net_write io idle d s = Some (b, s') /\ s_rx s' = s_rx s /\ (b = true -> s_tx s' = s_tx s ++ d).
Proof. apply (write_loop_any _ idle); [lia|]. eapply idle_later; [|exact io_live]. lia. Qed.

(** The first bytes to arrive are a response header, and it says success. *)
Definition told_success s : Prop := exists hdr rest, s_rx s = hdr ++ rest /\ length hdr = resp_sz /\ resp_valid hdr = true /\ resp_code hdr = errcode che_Success.

(** What arrives is a header that says success, 8 bytes of time and the body
    [d] of the announced length; the rest is left. *)
Definition told_body (d : bytes) s s' : Prop := exists hdr mt, s_rx s = hdr ++ mt ++ d ++ s_rx s' /\ length hdr = resp_sz /\
  length mt = 8%nat /\ told_success s /\ resp_data_len hdr = Z.of_nat (length d).

Lemma resp_any s : exists r s', resp_ok io s = Some (r, s') /\ s_tx s' = s_tx s /\
  forall b, r = Some b -> told_success s /\ length b = resp_sz /\ s_rx s = b ++ s_rx s'.
Proof.
  destruct (read_any resp_sz s) as (r & s' & E & T & R). unfold resp_ok. erewrite n_bind by (unfold resp_read; rewrite (n_bind _ _ _ _ _ E); reflexivity).
  eexists _, s'. split; [reflexivity|]. split; [exact T|]. destruct r as [b|]; [|done]. destruct (R b eq_refl) as [L X].
  destruct (resp_valid b) eqn:Ev; [|done]. destruct (Z.eqb_spec (resp_code b) (errcode che_Success)) as [Ec|]; [|done]. intros b' [= <-].
  split; [|done]. by exists b, (s_rx s').
Qed.

Definition msg stc (op flags dlen : Z) (nonce key extra : bytes) : bytes := signed stc op flags dlen nonce key extra ++ key ++ extra.

Lemma simple_any stc op flags dlen key extra s :
  0 <= op < 256 -> Z.of_nat (length key) <= CHD_KEY_SZ -> length extra = (if (op =? CHO_GET_PART)%Z then 8 else 0)%nat ->
  exists b s', (req ← buf_req rnd stc op flags dlen key extra; r ← transact io idle req; mret (succeeded r)) s = Some (b, s') /\
    (b = true -> told_success s /\ s_tx s' = s_tx s ++ msg stc op flags dlen (rnd (s_calls s)) key extra).
Proof.
  intros Hop Hk Hx. assert (length extra <= 8)%nat as Hx8 by (rewrite Hx; destruct (op =? CHO_GET_PART); lia).
  rewrite (n_bind _ _ _ _ _ (buf_run rnd sig_ok stc op flags dlen key extra s Hk Hx8)). set (s1 := mkSock _ _ _).
  set (m := signed stc op flags dlen (rnd (s_calls s)) key extra ++ key ++ extra).
  destruct (write_any m s1) as (b & s2 & E2 & R2 & T2).
  assert (send_req io idle m s1 = Some (b, s2)) as Es.
  { unfold send_req. rewrite take_ge; [exact E2|]. unfold m. rewrite (signed_total stc) by done. rewrite !length_app, (signed_len sig_ok stc), Hx by apply rnd_ok. lia. }
  unfold transact. rewrite n_assoc, (n_bind _ _ _ _ _ Es). destruct b; cbn [negb]; [|by eexists _, _].
  destruct (resp_any s2) as (r & s3 & E3 & T3 & R3). rewrite (n_bind _ _ _ _ _ E3). eexists _, s3. split; [reflexivity|].
  destruct r as [r|]; [|done]. intros _. destruct (R3 r eq_refl) as ((hdr & rest & H1 & H2) & _). rewrite R2 in H1. split; [by exists hdr, rest|]. by rewrite T3, T2.
Qed.

Lemma put_body_any fuel d s : (length d <= fuel)%nat -> Z.of_nat (length d) < 2 ^ 64 ->
  exists b s', put_body io idle fuel read_inline_cb (Z.of_nat (length d)) (mkStPut d (Z.of_nat (length d))) s = Some (b, s') /\
    s_rx s' = s_rx s /\ (b = true -> s_tx s' = s_tx s ++ d).
Proof.
  revert d s. induction fuel as [|fuel IH]; intros d s Hf Hd.
  { destruct d; [|cbn in Hf; lia]. exists true, s. split_and!; try done. by rewrite app_nil_r. }
  destruct (decide (d = [])) as [->|Hd0]; [exists true, s; split_and!; try done; by rewrite app_nil_r|].
  assert (0 < Z.of_nat (length d)) as Hpos by (destruct d; [done|]; cbn; lia).
  cbn [put_body]. rewrite (proj2 (Z.eqb_neq _ 0)) by lia. cbn zeta. unfold NETBUF_SZ. set (x := Z.min (Z.of_nat (length d)) 4096).
  rewrite (inline_run x d) by (unfold NETBUF_SZ; lia || done). replace (Z.min x (Z.of_nat (length d))) with x by lia.
  erewrite n_bind by done. cbn beta iota. rewrite (proj2 (Z.ltb_ge x 1)), (proj2 (Z.ltb_ge 4096 x)) by lia. rewrite length_take, (proj2 (Z.ltb_ge _ x)) by lia. cbn [orb]. rewrite take_take, Nat.min_id.
  destruct (write_any (take (Z.to_nat x) d) s) as (b & s1 & E1 & R1 & T1). rewrite (n_bind _ _ _ _ _ E1). destruct b; cbn [negb]; [|by eexists _, _].
  assert (u64 (Z.of_nat (length d) - x) = Z.of_nat (length (drop (Z.to_nat x) d))) as -> by (rewrite length_drop; unfold u64; rewrite uw_small; lia).
  destruct (IH (drop (Z.to_nat x) d) s1) as (b & s2 & E2 & R2 & T2); [rewrite length_drop; lia|rewrite length_drop; lia|].
  exists b, s2. split; [exact E2|]. split; [congruence|]. intros Hb. by rewrite (T2 Hb), (T1 eq_refl), <- app_assoc, take_drop.
Qed.

Lemma read_body_any fuel n acc s : 0 <= n -> (Z.to_nat n <= fuel)%nat ->
  exists r s', read_body io fuel all_data_cb n acc s = Some (r, s') /\ s_tx s' = s_tx s /\
    forall d, r = Some d -> exists b, d = acc ++ b /\ Z.of_nat (length b) = n /\ s_rx s = b ++ s_rx s'.
Proof.
  revert n acc s. induction fuel as [|fuel IH]; intros n acc s Hn Hf; cbn [read_body];
    (destruct (Z.eqb_spec n 0) as [->|Hn0]; [exists (Some acc), s; split_and!; try done; intros d [= <-]; exists []; by rewrite app_nil_r|]); [lia|].
  cbn zeta. unfold NETBUF_SZ. set (x := Z.min n 4096).
  destruct (read_any (Z.to_nat x) s) as (r & s1 & E1 & T1 & R1). rewrite (n_bind _ _ _ _ _ E1). destruct r as [b|]; cbn beta iota; [|by eexists _, _].
  destruct (R1 b eq_refl) as [Lb Xb]. assert (all_data_cb b x 1 acc = Some (x, acc ++ b)) as ->.
  { unfold all_data_cb. assert (s32 (u64 (x * 1)) = x) as -> by (unfold u64; rewrite uw_small by lia; unfold s32; rewrite sw_small; lia).
    assert (u32 x = x) as -> by (unfold u32; rewrite uw_small; lia). rewrite (proj2 (Z.ltb_ge _ _)) by lia. unfold u64. rewrite uw_small by lia.
    rewrite take_ge by lia. done. }
  erewrite n_bind by done. cbn [snd]. destruct (IH (n - x) (acc ++ b) s1) as (r2 & s2 & E2 & T2 & R2); [lia|lia|].
  exists r2, s2. split; [exact E2|]. split; [congruence|]. intros d Hr. destruct (R2 d Hr) as (b2 & -> & L2 & X2).
  exists (b ++ b2). rewrite !app_assoc. split; [done|]. split; [rewrite length_app; lia|]. by rewrite <- app_assoc, <- X2.
Qed.

Lemma put_any stc key data flags s : Z.of_nat (length data) < 2 ^ 64 ->
  exists b s', stc_put_inline io rnd idle stc key data flags s = Some (b, s') /\
    (b = true -> key_valid key = true /\ told_success s /\ s_tx s' = s_tx s ++ put_bytes stc flags (rnd (s_calls s)) key data).
Proof.
  intros Hd. unfold stc_put_inline, stc_put, put_req. rewrite stc_key_valid_eq. destruct (key_valid key) eqn:Hk; cbn [negb]; [|by eexists _, _].
  pose proof (key_valid_len _ Hk) as Hkl. rewrite (n_bind _ _ _ _ _ (buf_run rnd sig_ok stc CHO_PUT _ _ key [] s ltac:(lia) ltac:(cbn; lia))). set (s1 := mkSock _ _ _).
  set (q := signed stc CHO_PUT _ _ _ key []). rewrite app_nil_r. destruct (write_any (q ++ key) s1) as (b & s2 & E2 & R2 & T2).
  assert (send_req io idle (q ++ key) s1 = Some (b, s2)) as Es.
  { unfold send_req. rewrite take_ge; [exact E2|]. unfold q. rewrite (signed_total stc) by (unfold CHO_PUT; lia). rewrite !length_app, (signed_len sig_ok stc) by apply rnd_ok. cbn. lia. }
  rewrite (n_bind _ _ _ _ _ Es). destruct b; cbn [negb]; [|by eexists _, _]. rewrite Nat2Z.id.
  destruct (put_body_any (length data) data s2) as (b & s3 & E3 & R3 & T3); [lia|done|]. rewrite (n_bind _ _ _ _ _ E3). destruct b; cbn [negb]; [|by eexists _, _].
  destruct (resp_any s3) as (r & s4 & E4 & T4 & R4). rewrite (n_bind _ _ _ _ _ E4). eexists _, s4. split; [reflexivity|]. destruct r as [r|]; [|done]. intros _.
  destruct (R4 r eq_refl) as ((hdr & rest & H1 & H2) & _). rewrite R3, R2 in H1. split; [done|]. split; [by exists hdr, rest|].
  rewrite T4, (T3 eq_refl), (T2 eq_refl). unfold put_bytes. fold q. cbn [s1 s_tx]. by rewrite <- !app_assoc.
Qed.

(** A request whose answer carries a body: the request is sent, and the body
    has the length the header announces. *)
Lemma fetch_any stc op dlen key extra s :
  0 <= op < 256 -> Z.of_nat (length key) <= CHD_KEY_SZ -> length extra = (if (op =? CHO_GET_PART)%Z then 8 else 0)%nat ->
  Forall (fun x => 0 <= x) (s_rx s) ->
  exists r s', (req ← buf_req rnd stc op 0 dlen key extra; len ← get_resp io idle req;
      match len : option Z with None => mret None | Some n => body io all_data_cb n [] end) s = Some (r, s') /\
    (forall d, r = Some d -> told_body d s s' /\ s_tx s' = s_tx s ++ msg stc op 0 dlen (rnd (s_calls s)) key extra).
Proof.
  intros Hop Hkl Hx Hrx. assert (length extra <= 8)%nat as Hx8 by (rewrite Hx; destruct (op =? CHO_GET_PART); lia).
  rewrite (n_bind _ _ _ _ _ (buf_run rnd sig_ok stc op 0 dlen key extra s Hkl Hx8)). set (s1 := mkSock _ _ _).
  set (q := signed stc op _ _ _ key extra). destruct (write_any (q ++ key ++ extra) s1) as (b & s2 & E2 & R2 & T2).
  assert (send_req io idle (q ++ key ++ extra) s1 = Some (b, s2)) as Es.
  { unfold send_req. rewrite take_ge; [exact E2|]. unfold q. rewrite (signed_total stc) by done. rewrite !length_app, (signed_len sig_ok stc), Hx by apply rnd_ok. lia. }
  unfold get_resp, transact. rewrite !n_assoc, (n_bind _ _ _ _ _ Es). destruct b; cbn [negb]; [|by eexists _, _].
  destruct (resp_any s2) as (r & s3 & E3 & T3 & R3). rewrite (n_bind _ _ _ _ _ E3). destruct r as [r|]; [|by eexists _, _].
  destruct (R3 r eq_refl) as (Ht & L3 & X3). rewrite R2 in X3. cbn [s1 s_rx] in X3.
  destruct (read_any 8 s3) as (m & s4 & E4 & T4 & R4). rewrite n_assoc, (n_bind _ _ _ _ _ E4). destruct m as [m|]; [|by eexists _, _].
  destruct (R4 m eq_refl) as [L4 X4].
  destruct (read_body_any (Z.to_nat (resp_data_len r)) (resp_data_len r) [] s4) as (r5 & s5 & E5 & T5 & R5); [|lia|].
  { apply resp_dlen_nonneg. rewrite X3 in Hrx. by apply Forall_app in Hrx as [? _]. }
  exists r5, s5. split; [exact E5|]. intros d Hd. destruct (R5 d Hd) as (b & -> & L5 & X5). cbn [app].
  split; [|rewrite T5, T4, T3, (T2 eq_refl); done]. exists r, m. split_and!; try done.
  - by rewrite X3, X4, X5.
  - destruct Ht as (hdr & rest & H1 & H2). rewrite R2 in H1. by exists hdr, rest.
Qed.

Lemma get_any stc key s : Forall (fun x => 0 <= x) (s_rx s) ->
  exists r s', stc_get_inline io rnd idle stc key s = Some (r, s') /\
    (forall d, r = Some d -> key_valid key = true /\ told_body d s s' /\ s_tx s' = s_tx s ++ msg stc CHO_GET 0 0 (rnd (s_calls s)) key []).
Proof.
  intros Hrx. unfold stc_get_inline. destruct (key_valid key) eqn:Hk.
  - destruct (fetch_any stc CHO_GET 0 key [] s) as (r & s' & E & H); [unfold CHO_GET; lia|by apply key_valid_len|done|done|].
    exists (array_data r), s'. split.
    + apply array_bind. unfold stc_get, stc_get_req. rewrite stc_key_valid_eq, Hk. cbn [negb]. rewrite n_assoc. exact E.
    + intros d Hd. destruct (H d) as [H1 H2]; [|done]. by destruct r as [[]|].
  - eexists None, s. split; [|done]. apply (array_bind _ _ None). unfold stc_get, stc_get_req. rewrite stc_key_valid_eq, Hk. done.
Qed.

Lemma get_part_any stc key offset max_len s : Forall (fun x => 0 <= x) (s_rx s) ->
  exists r s', stc_get_part_inline io rnd idle stc key offset max_len s = Some (r, s') /\
    (forall d, r = Some d -> key_valid key = true /\ told_body d s s' /\
      s_tx s' = s_tx s ++ msg stc CHO_GET_PART 0 max_len (rnd (s_calls s)) key (le_bytes 8 offset)).
Proof.
  intros Hrx. unfold stc_get_part_inline. destruct (key_valid key) eqn:Hk.
  - destruct (fetch_any stc CHO_GET_PART max_len key (le_bytes 8 offset) s) as (r & s' & E & H);
      [unfold CHO_GET_PART; lia|by apply key_valid_len|by rewrite length_le_bytes|done|].
    exists (array_data r), s'. split.
    + apply array_bind. unfold stc_get_part, stc_get_part_req. rewrite stc_key_valid_eq, Hk. cbn [negb]. rewrite n_assoc. exact E.
    + intros d Hd. destruct (H d) as [H1 H2]; [|done]. by destruct r as [[]|].
  - eexists None, s. split; [|done]. apply (array_bind _ _ None). unfold stc_get_part, stc_get_part_req. rewrite stc_key_valid_eq, Hk. done.
Qed.

(** Copying: both keys follow the header. *)
Lemma cp_any stc dest src s : Z.of_nat (length dest) <= CHD_KEY_SZ ->
  exists b s', stc_cp io rnd mem idle stc dest src s = Some (b, s') /\
    (b = true -> told_success s /\
      s_tx s' = s_tx s ++ signed stc CHO_CP 0 (Z.of_nat (length src)) (rnd (S (s_calls s))) dest src ++ dest ++ src).
Proof.
  intros Hk. unfold stc_cp. erewrite n_bind by (unfold n_alloc, n_tick; reflexivity). destruct (mem (s_calls s)); cbn [negb]; [|by eexists _, _].
  unfold CHD_KEY_SZ in Hk. rewrite (proj2 (Z.ltb_ge _ _)) by lia. set (s0 := mkSock (s_rx s) _ _).
  rewrite (n_bind _ _ _ _ _ (build_run rnd sig_ok stc CHO_CP 0 (Z.of_nat (length src)) dest src s0 Hk)). set (s1 := mkSock _ _ _).
  set (q := signed stc CHO_CP _ _ _ dest src). rewrite take_ge; [|unfold q; rewrite !length_app, (signed_len sig_ok stc) by apply rnd_ok; lia].
  destruct (write_any (q ++ dest ++ src) s1) as (b & s2 & E2 & R2 & T2). rewrite (n_bind _ _ _ _ _ E2). destruct b; cbn [negb]; [|by eexists _, _].
  destruct (resp_any s2) as (r & s3 & E3 & T3 & R3). rewrite (n_bind _ _ _ _ _ E3). eexists _, s3. split; [reflexivity|].
  destruct r as [r|]; [|done]. intros _. destruct (R3 r eq_refl) as ((hdr & rest & H1 & H2) & _). rewrite R2 in H1.
  split; [by exists hdr, rest|]. by rewrite T3, (T2 eq_refl).
Qed.

(** The state of the self-check: 16 bytes follow the header. *)
Lemma check_status_any stc s :
  exists r s', stc_check_status io rnd idle stc s = Some (r, s') /\
    (forall c, r = Some c -> told_success s /\ s_tx s' = s_tx s ++ msg stc CHO_CHECK_STATUS 0 0 (rnd (s_calls s)) [] [] /\
      exists hdr b, s_rx s = hdr ++ b ++ s_rx s' /\ length hdr = resp_sz /\ length b = 16%nat /\ resp_data_len hdr = 16 /\
        c = mkChk (le_val (slice 0 1 b)) (le_val (slice 4 4 b)) (le_val (slice 8 8 b))).
Proof.
  unfold stc_check_status. rewrite (n_bind _ _ _ _ _ (build_run rnd sig_ok stc CHO_CHECK_STATUS 0 0 [] [] s ltac:(cbn; unfold CHD_KEY_SZ; lia))).
  set (s1 := mkSock _ _ _). rewrite !app_nil_r. set (q := signed stc CHO_CHECK_STATUS _ _ _ [] []).
  destruct (write_any q s1) as (b & s2 & E2 & R2 & T2).
  assert (send_req io idle q s1 = Some (b, s2)) as Es.
  { unfold send_req. rewrite take_ge; [exact E2|]. pose proof (signed_total stc CHO_CHECK_STATUS 0 0 (rnd (s_calls s)) [] [] []) as Ht.
    rewrite app_nil_r in Ht. unfold q. rewrite Ht by (unfold CHO_CHECK_STATUS, CHD_KEY_SZ; cbn; lia). rewrite (signed_len sig_ok stc) by apply rnd_ok. lia. }
  unfold transact. rewrite n_assoc, (n_bind _ _ _ _ _ Es). destruct b; cbn [negb]; [|by eexists _, _].
  destruct (resp_any s2) as (r & s3 & E3 & T3 & R3). rewrite (n_bind _ _ _ _ _ E3). destruct r as [r|]; [|by eexists _, _].
  destruct (R3 r eq_refl) as (Ht & L3 & X3). rewrite R2 in X3. destruct (Z.eqb_spec (resp_data_len r) 16) as [Hd|Hd]; cbn [negb]; [|by eexists _, _].
  destruct (read_any 16 s3) as (m & s4 & E4 & T4 & R4). rewrite (n_bind _ _ _ _ _ E4). eexists _, s4. split; [reflexivity|].
  destruct m as [m|]; [|done]. intros c [= <-]. destruct (R4 m eq_refl) as [L4 X4].
  split. { destruct Ht as (hdr & rest & H1 & H2). rewrite R2 in H1. by exists hdr, rest. }
  split; [unfold msg; rewrite !app_nil_r, T4, T3, (T2 eq_refl); done|]. exists r, m. split_and!; try done.
  by rewrite <- X4.
Qed.

(** C22.  The client's calls return, whatever the server sends, however the
    socket splits the bytes and whenever it fails or ends, when its calls take
    nothing at most [idle] times in all, for any number [idle].  Success is
    reported only when the request was written in full and the first thing to
    arrive is a header that says so; a get, of an object or of a part of one,
    then returns exactly the bytes announced, and a status is the one sent.
    The name of a user that logs in, and the key that is copied to, fit a key. *)
Theorem calls_return stc key dest data flags offset max_len s :
  Z.of_nat (length data) < 2 ^ 64 -> Forall (fun x => 0 <= x) (s_rx s) ->
  Z.of_nat (length (stc_user stc)) < CHD_KEY_SZ -> Z.of_nat (length dest) <= CHD_KEY_SZ ->
  let nonce := rnd (s_calls s) in
  let done_with (req : bytes) (s' : sock) := told_success s /\ s_tx s' = s_tx s ++ req in
  (exists b s', stc_login io rnd idle stc s = Some (b, s') /\
    (b = true -> done_with (msg stc CHO_LOGIN 0 0 nonce (stc_user stc ++ [0]) []) s')) /\
  (exists b s', stc_put_inline io rnd idle stc key data flags s = Some (b, s') /\
    (b = true -> key_valid key = true /\ done_with (put_bytes stc flags nonce key data) s')) /\
  (exists r s', stc_get_inline io rnd idle stc key s = Some (r, s') /\
    (forall d, r = Some d -> key_valid key = true /\ told_body d s s' /\ s_tx s' = s_tx s ++ msg stc CHO_GET 0 0 nonce key [])) /\
  (exists r s', stc_get_part_inline io rnd idle stc key offset max_len s = Some (r, s') /\
    (forall d, r = Some d -> key_valid key = true /\ told_body d s s' /\
      s_tx s' = s_tx s ++ msg stc CHO_GET_PART 0 max_len nonce key (le_bytes 8 offset))) /\
  (exists b s', stc_del io rnd idle stc key s = Some (b, s') /\ (b = true -> done_with (msg stc CHO_DEL 0 0 nonce key []) s')) /\
  (exists b s', stc_cp io rnd mem idle stc dest key s = Some (b, s') /\
    (b = true -> done_with (signed stc CHO_CP 0 (Z.of_nat (length key)) (rnd (S (s_calls s))) dest key ++ dest ++ key) s')) /\
  (exists b s', stc_table_open io rnd idle stc key flags s = Some (b, s') /\
    (b = true -> done_with (msg stc CHO_TABLE_OPEN (Z.land flags (Z.lor CHF_TBL_CREAT CHF_TBL_EXCL)) 0 nonce key []) s')) /\
  (exists b s', stc_ping io rnd idle stc s = Some (b, s') /\ (b = true -> done_with (msg stc CHO_NOP 0 0 nonce [] []) s')) /\
  (exists b s', stc_check_start io rnd idle stc s = Some (b, s') /\ (b = true -> done_with (msg stc CHO_CHECK_START 0 0 nonce [] []) s')) /\
  (exists r s', stc_check_status io rnd idle stc s = Some (r, s') /\
    (forall c, r = Some c -> done_with (msg stc CHO_CHECK_STATUS 0 0 nonce [] []) s' /\
      exists hdr b, s_rx s = hdr ++ b ++ s_rx s' /\ length hdr = resp_sz /\ length b = 16%nat /\ resp_data_len hdr = 16 /\
        c = mkChk (le_val (slice 0 1 b)) (le_val (slice 4 4 b)) (le_val (slice 8 8 b)))).
Proof.
  intros Hd Hrx Hu Hdest. cbv zeta.
  split; [apply simple_any; [unfold CHO_LOGIN; lia|rewrite length_app; cbn; lia|done]|].
  split. { destruct (put_any stc key data flags s Hd) as (b & s' & E & H). exists b, s'. split; [done|]. intros Hb. destruct (H Hb) as (? & ? & ?). done. }
  split; [by apply get_any|]. split; [by apply get_part_any|].
  unfold stc_del, stc_table_open, stc_ping, stc_check_start. rewrite stc_key_valid_eq.
  split; [destruct (key_valid key) eqn:Hk; cbn [negb]; [|by eexists _, _]; pose proof (key_valid_len _ Hk); apply simple_any; [unfold CHO_DEL; lia|lia|done]|].
  split; [by apply cp_any|].
  split; [destruct (key_valid key) eqn:Hk; cbn [negb]; [|by eexists _, _]; pose proof (key_valid_len _ Hk); apply simple_any; [unfold CHO_TABLE_OPEN; lia|lia|done]|].
  split; [apply simple_any; [unfold CHO_NOP; lia|cbn; unfold CHD_KEY_SZ; lia|done]|].
  split; [apply simple_any; [unfold CHO_CHECK_START; lia|cbn; unfold CHD_KEY_SZ; lia|done]|].
  destruct (check_status_any stc s) as (r & s' & E & H). exists r, s'. split; [done|]. intros c Hc. destruct (H c Hc) as (? & ? & ?). done.
Qed.

(** Writes that take nothing, as [SSL_write] does on a connection shut down,
    are repeated for ever. *)
Lemma write_spins d s : (forall i, io i = Some 0%nat) -> d <> [] -> forall fuel, net_write_loop io fuel d s = None.
Proof.
  intros Hz Hd fuel. revert s. induction fuel as [|fuel IH]; intros s; destruct d as [|x d]; try done. cbn [net_write_loop].
  erewrite n_bind; [|unfold sk_write; by rewrite Hz]. apply IH.
Qed.

(** A user's name longer than a key overruns the request's buffer. *)
Lemma login_overflow stc s : 1031 < Z.of_nat (length (stc_user stc)) < 65535 -> stc_login io rnd idle stc s = None.
Proof.
  intros Hl. unfold stc_login, mbind, N_bind, buf_req. rewrite (proj2 (Nat.ltb_lt _ _)); [done|]. unfold req_buf_sz, CHD_KEY_SZ.
  rewrite length_app. cbn [length]. unfold u16. rewrite uw_small by lia. lia.
Qed.

End any.
