(* ===== verification/Selfcheck.v ===== *)
(** * Selfcheck: the thread that verifies stored objects (chunkd/selfcheck.c)

    The thread walks all tables of the database and all object files of each,
    and moves a file aside when its data does not have the digest its header
    names, unless the object is being changed.  Other threads serve requests
    meanwhile: [others n] is what they do to the table of active objects and
    to the files before the thread's [n]-th access to either.  One access is
    one call of objcache.c, which holds the mutex, or of be-fs.c. *)

From S2P Require Import Prelude Fs BeFs BeFsList ObjCache Chunkd.
#[local] Open Scope Z_scope.

(** [struct chk_tls], less the argument *)
Record chk_tls : Type := mkTls { stat_ok : Z; stat_conflict : Z }.

(** The iterator of Tokyo Cabinet: the keys, in no particular order. *)
Class TcIter (H : Type) : Type := { tchdbiter : H -> list bytes }.

Inductive chk_cmd : Type := CHK_CMD_EXIT | CHK_CMD_RESCAN.
Definition cmd_of (b : Z) : option chk_cmd := if b =? 0 then Some CHK_CMD_EXIT else if b =? 1 then Some CHK_CMD_RESCAN else None.

(** What the thread works on; [k_step] counts its accesses. *)
Record kst (H : Type) : Type := mkK { k_tls : chk_tls; k_srv : server H; k_fs : fsys; k_step : nat }.
Arguments mkK {H}.
Arguments k_tls {H}.
Arguments k_srv {H}.
Arguments k_fs {H}.
Arguments k_step {H}.

Section selfcheck.
Context {H : Type} {HD : TcHdb H} {HI : TcIter H} {SH : Sha} {RD : Readdir}.
Variable vol_path : bytes.

(** [mem n]: does the [n]-th entry fit in memory?  [rounds]: how many files a
    table may have before its listing counts as endless. *)
Context (others : nat -> objcache -> fsys -> objcache * fsys) (mem : nat -> bool) (rounds : nat).

Definition K (A : Type) : Type := kst H -> option (A * kst H).
#[global] Instance K_ret : MRet K := fun A a t => Some (a, t).
#[global] Instance K_bind : MBind K := fun A B f m t => match m t with Some (a, t) => f a t | None => None end.

Definition k_ub {A} : K A := fun _ => None.
Definition k_get : K (kst H) := fun t => Some (t, t).
Definition k_upd (f : server H -> server H) : K unit := fun t => Some (tt, mkK (k_tls t) (f (k_srv t)) (k_fs t) (k_step t)).
Definition set_tls (x : chk_tls) : K unit := fun t => Some (tt, mkK x (k_srv t) (k_fs t) (k_step t)).

(** Some other threads run. *)
Definition k_turn : K unit := fun t =>
  let '(c, f) := others (k_step t) (v_actives (k_srv t)) (k_fs t) in
  Some (tt, mkK (k_tls t) (set_v_actives c (k_srv t)) f (S (k_step t))).

Definition k_fs_do {A} (m : F A) : K A :=
  _ ← k_turn;
  (fun t => match m (k_fs t) with Some (a, f) => Some (a, mkK (k_tls t) (k_srv t) f (k_step t)) | None => None end).

Definition k_cache {A} (m : objcache -> option (A * objcache)) : K A :=
  _ ← k_turn;
  (fun t => match m (v_actives (k_srv t)) with
            | Some (a, c) => Some (a, mkK (k_tls t) (set_v_actives c (k_srv t)) (k_fs t) (k_step t))
            | None => None
            end).

(** The header [i] of [fn] has been read.  When the entry
    cannot be allocated [objcache_get] itself crashes. *)
Definition chk_obj (fn : bytes) (i : obj_info) : K unit :=
  t ← k_get;
  cep ← k_cache (objcache_get (mem (k_step t)) (oi_key i) 0);
  md_act ← k_fs_do (fs_obj_do_sum fn (u32 (Z.of_nat (length (oi_key i)))) (u32 (oi_csumlen i)));
  _ ← (match md_act with
       | Err _ => mret tt
       | Ok md_act =>
           dirty ← k_cache (fun c => d ← objcache_test_dirty cep c; Some (d, c));
           t ← k_get;
           let tls := k_tls t in
           if negb (dirty : bool) then
             if negb (bool_decide (oi_hash i = md_act)) then _ ← k_fs_do (fs_obj_disable vol_path fn); mret tt
             else set_tls (mkTls (s32 (stat_ok tls + 1)) (stat_conflict tls))
           else set_tls (mkTls (stat_ok tls) (s32 (stat_conflict tls + 1)))
       end);
  k_cache (fun c => c ← objcache_put cep c; Some (tt, c)).

Fixpoint chk_loop (fuel : nat) (lister : fs_obj_lister) : K unit :=
  match fuel with
  | O => k_ub
  | S fuel =>
      r ← k_fs_do (fs_list_objs_next lister);
      match r with
      | (Some (Some fn), lister) =>
          h ← k_fs_do (fs_obj_hdr_read fn);
          match h with
          | None => mret tt
          | Some i => _ ← chk_obj fn i; chk_loop fuel lister
          end
      | _ => mret tt
      end
  end.

Definition chk_list_objs (table_id : Z) : K unit :=
  r ← k_fs_do (fs_list_objs_open vol_path table_id);
  match r with
  | Err _ => mret tt
  | Ok lister => chk_loop rounds lister
  end.

(** [strcmp] stops at a NUL. *)
Fixpoint chk_dbscan (keys : list bytes) : K unit :=
  match keys with
  | [] => mret tt
  | kbuf :: keys =>
      if bool_decide (cstr kbuf = cstr MDB_TABLE_ID) then chk_dbscan keys else
      t ← k_get;
      match tchdbget (v_hdb (k_srv t)) kbuf with
      | None => chk_dbscan keys
      | Some val =>
          if negb (length val =? 4)%nat then chk_dbscan keys else
          _ ← chk_list_objs (le_val val);
          chk_dbscan keys
      end
  end.

Definition chk_thread_scan (now : Z) : K unit :=
  _ ← k_upd (set_v_chk_state CHK_ST_RUNNING);
  _ ← set_tls (mkTls 0 0);
  t ← k_get;
  _ ← chk_dbscan (tchdbiter (v_hdb (k_srv t)));
  k_upd (set_v_chk_done now).

(** [rd]: does [read] work?  True when the thread exits. *)
Definition chk_thread_command (rd : bool) (now : Z) : K bool :=
  if negb rd then mret false else
  t ← k_get;
  match v_chk_pipe (k_srv t) with
  | [] => mret true
  | b :: pipe =>
      _ ← k_upd (set_v_chk_pipe pipe);
      match cmd_of b with
      | Some CHK_CMD_EXIT => mret true
      | Some CHK_CMD_RESCAN => _ ← chk_thread_scan now; mret false
      | None => mret false
      end
  end.

(** One pass of [for (;;)]: [poll] fails, finds nothing, or the pipe is ready. *)
Definition chk_thread_pass (poll : Z) (ready rd : bool) (now : Z) : K bool :=
  _ ← k_upd (set_v_chk_state CHK_ST_IDLE);
  if poll <? 0 then mret true else
  if (poll =? 0) || negb ready then mret false else
  chk_thread_command rd now.

End selfcheck.
