(* ===== verification/SelfcheckProps.v ===== *)
(** * SelfcheckProps: what the self-check finds and what it leaves alone

    First the calls it makes: reading a header is parsing the file, the digest
    is that of the file's data.  Then the scan, among other threads. *)

From S2P Require Import Prelude ObjCache Fs BeFs BeFsSpec BeFsList Chunkd Selfcheck.
#[local] Open Scope Z_scope.

(** Calls may fail, but what is read is never cut short. *)
Definition whole (f : fsys) : Prop := forall i, f_oracle f i < 0 \/ 2 ^ 48 <= f_oracle f i.

Lemma calm_whole f : calm f -> whole f.
Proof. intros C i. right. apply C. Qed.

Lemma whole_same f f' : same_fs f f' -> whole f -> whole f'.
Proof. intros (_ & _ & _ & _ & _ & E) W i. rewrite E. apply W. Qed.

Lemma calm_same f f' : same_fs f f' -> calm f -> calm f'.
Proof. intros S. apply calm_oracle, S. Qed.

Section calls.
Context {SH : Sha}.
Implicit Types f : fsys.

(** A read of the whole, or an error. *)
Lemma fw_read_whole i pos n (Q : res bytes -> fsys -> Prop) f :
  whole f -> 0 <= n <= 2 ^ 48 ->
  (forall r f', same_fs f f' ->
     match r with
     | Ok b => b = take (Z.to_nat n) (drop (Z.to_nat pos) (fi_data (file_of f i)))
     | Err e => ~ calm f
     end -> Q r f') -> fw False (sys_read i pos n) Q f.
Proof.
  intros W Hn HQ. unfold sys_read. apply fw_bind. unfold fw, f_nondet. set (f' := set_f_oi _ f).
  assert (same_fs f f') as S by (by split_and!). specialize (W (f_oi f)). cbn. apply HQ; [done|].
  destruct (Z.ltb_spec (f_oracle f (f_oi f)) 0); [intros C; specialize (C (f_oi f)); lia|].
  rewrite (file_of_same f f' i S). do 2 f_equal. lia.
Qed.

(** What the header of a file says, if it is one. *)
Definition parse_hdr (d : bytes) (mtime : Z) : option obj_info :=
  if Z.of_nat (length d) <? hdr_sz then None else
  let hdr := dec_hdr (take (Z.to_nat hdr_sz) d) in
  if negb (bool_decide (oh_magic hdr = BE_FS_OBJ_MAGIC)) then None else
  let klen := oh_key_len hdr in
  if (klen <? 1) || (CHD_KEY_SZ <? klen) then None else
  if u64 (Z.of_nat (length d) - hdr_sz - klen) <? oh_value_len hdr then None else
  if Z.of_nat (length d) <? hdr_sz + klen then None else
  Some (mkInfo (cstr (oh_owner hdr)) (oh_hash hdr) (slice (Z.to_nat hdr_sz) (Z.to_nat klen) d) (csum_bytes_of (oh_n_blk hdr)) (oh_value_len hdr) mtime).

Lemma hdr_read_spec fn f : whole f ->
  fw False (fs_obj_hdr_read fn) (fun r f' => same_fs f f' /\
    match f_names f !! fn with
    | None => r = None
    | Some i => (r = None /\ ~ calm f) \/ r = parse_hdr (fi_data (file_of f i)) (fi_mtime (file_of f i))
    end) f.
Proof.
  intros W. unfold fs_obj_hdr_read. apply fw_bind, fw_open. intros [i|e] f1 S1 Hi.
  2:{ apply fw_ret. split; [done|]. destruct (f_names f !! fn) as [i|]; [|done]. left. split; [done|]. intros C. by destruct Hi as [_ Hi], (Hi C). }
  rewrite Hi. set (d := fi_data (file_of f i)). set (Post := fun r f' => _).
  assert (forall f2, same_fs f f2 -> ~ calm f -> Post None f2) as Hbad by (intros; split; auto).
  assert (forall g, same_fs f g -> fi_data (file_of g i) = d) as Hd by (intros g G; by rewrite (file_of_same _ _ i G)).
  unfold sys_fstat. apply fw_bind, fw_bind, fw_fault. intros e f2 S2 H2 _. assert (same_fs f f2) as T2 by (by etrans). apply fw_bind, fw_get, fw_ret.
  destruct e as [e|]; [apply fw_ret, Hbad; [done|]; intros C; by specialize (H2 (calm_same _ _ S1 C))|]. rewrite (Hd _ T2), (file_of_same _ _ i T2).
  apply fw_bind, fw_read_whole; [by eapply whole_same|unfold hdr_sz; lia|]. intros r f3 S3 Hr. assert (same_fs f f3) as T3 by (by etrans).
  destruct r as [b|e]; [|apply fw_ret, Hbad; [done|]; intros C; by apply Hr, (calm_same f f2)]. rewrite (Hd _ T2) in Hr. cbn [Z.to_nat] in Hr. rewrite drop_0 in Hr.
  assert (forall r f2, same_fs f f2 -> r = parse_hdr d (fi_mtime (file_of f i)) -> Post r f2) as Hgood by (intros; split; auto).
  assert (Z.of_nat (length b) = Z.min hdr_sz (Z.of_nat (length d))) as Hb by (rewrite Hr, length_take; unfold hdr_sz; lia).
  destruct (Z.eqb_spec (Z.of_nat (length b)) hdr_sz) as [E1|E1]; cbn [negb].
  2:{ apply fw_ret, Hgood; [done|]. unfold parse_hdr. by rewrite (proj2 (Z.ltb_lt _ _)) by lia. }
  revert Hgood. unfold parse_hdr. rewrite (proj2 (Z.ltb_ge _ hdr_sz)), <- Hr by lia. cbn zeta. intros Hgood.
  destruct (bool_decide _) eqn:E2; cbn [negb] in *; [|by apply fw_ret, Hgood].
  destruct (_ || _) eqn:E3; [by apply fw_ret, Hgood|]. apply orb_false_iff in E3 as [K1%Z.ltb_ge K2%Z.ltb_ge]. unfold CHD_KEY_SZ in K2.
  destruct (u64 _ <? _); [by apply fw_ret, Hgood|].
  apply fw_bind, fw_malloc_ok. intros b1 f4 S4 H4. assert (same_fs f f4) as T4 by (by etrans).
  destruct b1; cbn [negb]; [|apply fw_ret, Hbad; [done|]; intros C; by specialize (H4 (calm_same _ _ T3 C))].
  apply fw_bind, fw_read_whole; [by eapply whole_same|lia|]. intros r f5 S5 Hr5. assert (same_fs f f5) as T5 by (by etrans).
  destruct r as [key|e]; [|apply fw_ret, Hbad; [done|]; intros C; by apply Hr5, (calm_same f f4)]. rewrite (Hd _ T4) in Hr5. fold (slice (Z.to_nat hdr_sz) (Z.to_nat (oh_key_len (dec_hdr b))) d) in Hr5.
  assert (Z.of_nat (length key) = Z.min (oh_key_len (dec_hdr b)) (Z.of_nat (length d) - hdr_sz)) as Hk by (rewrite Hr5; unfold slice; rewrite length_take, length_drop; unfold hdr_sz in *; lia).
  destruct (Z.eqb_spec (Z.of_nat (length key)) (oh_key_len (dec_hdr b))) as [E5|E5]; cbn [negb].
  2:{ rewrite (proj2 (Z.ltb_lt _ (hdr_sz + _))) in Hgood by lia. by apply fw_ret, Hgood. }
  rewrite (proj2 (Z.ltb_ge _ (hdr_sz + _))) in Hgood by lia.
  apply fw_bind, fw_malloc_ok. intros b1 f6 S6 H6. assert (same_fs f f6) as T6 by (by etrans).
  destruct b1; cbn [negb]; [|apply fw_ret, Hbad; [done|]; intros C; by specialize (H6 (calm_same _ _ T5 C))].
  apply fw_ret, Hgood; [done|]. by rewrite Hr5.
Qed.

(** The digest of all that follows header, key and table. *)
Lemma do_sum_loop_spec fuel i pos ctx f : whole f -> 0 <= pos -> (length (drop (Z.to_nat pos) (fi_data (file_of f i))) < fuel)%nat ->
  fw False (do_sum_loop fuel i pos ctx) (fun r f' => same_fs f f' /\
    match r with Ok md => md = SHA1 (ctx ++ drop (Z.to_nat pos) (fi_data (file_of f i))) | Err _ => ~ calm f end) f.
Proof.
  revert pos ctx f. induction fuel as [|fuel IH]; intros pos ctx f W Hp Hf; [lia|]. cbn [do_sum_loop].
  apply fw_bind, fw_read_whole; [done|lia|]. intros r f1 S1 Hr. destruct r as [b|e]; [|by apply fw_ret]. set (d := fi_data (file_of f i)) in *.
  set (n := Z.to_nat (128 * 1024)) in Hr. assert (Z.of_nat n = 128 * 1024) as Hn by (apply Z2Nat.id; lia). clearbody n.
  destruct (Z.ltb_spec (Z.of_nat (length b)) (128 * 1024)) as [L|L].
  - apply fw_ret. split; [done|]. rewrite Hr, take_ge; [done|]. rewrite Hr, length_take in L. lia.
  - assert (length b = n) as Lb by (rewrite Hr, length_take in *; lia).
    assert (drop (Z.to_nat pos) d = b ++ drop (Z.to_nat (pos + Z.of_nat (length b))) d) as Ed.
    { rewrite <- (take_drop n (drop (Z.to_nat pos) d)), <- Hr at 1. f_equal. rewrite drop_drop. f_equal. lia. }
    eapply fw_mono; [apply IH; [by eapply whole_same|lia|]|].
    { rewrite (file_of_same _ _ i S1). fold d. rewrite Ed, length_app in Hf. lia. }
    cbn beta. intros r f2 [S2 H2]. split; [by etrans|]. rewrite (file_of_same _ _ i S1) in H2. fold d in H2. destruct r as [md|e].
    + by rewrite H2, Ed, app_assoc.
    + intros C. by apply H2, (calm_same f).
Qed.

Lemma do_sum_spec fn klen csumlen f : whole f -> 0 <= klen -> 0 <= csumlen ->
  fw False (fs_obj_do_sum fn klen csumlen) (fun r f' => same_fs f f' /\
    match f_names f !! fn with
    | None => match r with Ok _ => False | Err _ => True end
    | Some i => match r with Ok md => md = SHA1 (drop (Z.to_nat (hdr_sz + klen + csumlen)) (fi_data (file_of f i))) | Err _ => ~ calm f end
    end) f.
Proof.
  intros W Hk Hc. unfold fs_obj_do_sum. set (Post := fun r f' => _).
  assert (forall e f2, same_fs f f2 -> ~ calm f \/ f_names f !! fn = None -> Post (Err e) f2) as Hbad by (intros e f2 S [N|N]; (split; [done|]); destruct (f_names f !! fn); done).
  apply fw_bind, fw_malloc_ok. intros b f1 S1 H1. destruct b; cbn [negb]; [|apply fw_ret, Hbad; [done|]; left; intros C; by specialize (H1 C)].
  apply fw_bind, fw_open. intros r f2 S2 H2. assert (same_fs f f2) as T2 by (by etrans). rewrite (proj1 S1) in H2.
  destruct r as [i|e].
  2:{ apply fw_ret, Hbad; [done|]. destruct (f_names f !! fn) eqn:En; [left|by right]. intros C. destruct H2 as [_ H2], (H2 (calm_same _ _ S1 C)); congruence. }
  apply fw_bind, fw_other. intros rc f3 S3 H3. assert (same_fs f f3) as T3 by (by etrans). rewrite H2 in Hbad.
  destruct (Z.eqb_spec rc 0) as [->|E]; cbn [negb]; [|apply fw_ret, Hbad; [done|]; left; intros C; by apply E, H3, (calm_same f f2)].
  apply fw_bind, fw_get. eapply fw_mono; [apply do_sum_loop_spec; [by eapply whole_same|unfold hdr_sz; lia|rewrite length_drop; lia]|].
  cbn beta. intros r f4 [S4 H4]. rewrite (file_of_same _ _ i T3) in H4. split; [by etrans|]. rewrite H2. destruct r; [done|]. intros C. by apply H4, (calm_same f).
Qed.

End calls.

(** ** Spoiled files *)

Section files.
Context {SH : Sha}.
Variable vol_path : bytes.
Implicit Types f : fsys.

(** The data of a file is not what its header says. *)
Definition spoiled (d : bytes) : bool :=
  match parse_hdr d 0 with
  | Some i => negb (bool_decide (oi_hash i = SHA1 (drop (Z.to_nat (hdr_sz + Z.of_nat (length (oi_key i)) + oi_csumlen i)) d)))
  | None => false
  end.

Lemma parse_time d m i : parse_hdr d m = Some i ->
  parse_hdr d 0 = Some (mkInfo (oi_owner i) (oi_hash i) (oi_key i) (oi_csumlen i) (oi_size i) 0).
Proof. unfold parse_hdr. cbn zeta. repeat case_match; try done. by intros [= <-]. Qed.

Lemma parse_bounds d m i : parse_hdr d m = Some i ->
  1 <= Z.of_nat (length (oi_key i)) <= CHD_KEY_SZ /\ u32 (Z.of_nat (length (oi_key i))) = Z.of_nat (length (oi_key i)) /\
  0 <= oi_csumlen i /\ u32 (oi_csumlen i) = oi_csumlen i.
Proof.
  unfold parse_hdr. cbn zeta. set (hdr := dec_hdr _). destruct (Z.ltb_spec (Z.of_nat (length d)) hdr_sz); [done|]. destruct (negb _); [done|].
  destruct (_ || _) eqn:E3; [done|]. apply orb_false_iff in E3 as [K1%Z.ltb_ge K2%Z.ltb_ge].
  destruct (u64 _ <? _); [done|]. destruct (Z.ltb_spec (Z.of_nat (length d)) (hdr_sz + oh_key_len hdr)) as [|K3]; [done|]. intros E. assert (i = mkInfo (cstr (oh_owner hdr)) (oh_hash hdr) (slice (Z.to_nat hdr_sz) (Z.to_nat (oh_key_len hdr)) d) (csum_bytes_of (oh_n_blk hdr)) (oh_value_len hdr) m) as -> by congruence.
  cbn [oi_key oi_csumlen]. assert (Z.of_nat (length (slice (Z.to_nat hdr_sz) (Z.to_nat (oh_key_len hdr)) d)) = oh_key_len hdr) as ->.
  { unfold slice. rewrite length_take, length_drop. unfold hdr_sz in *. lia. }
  unfold csum_bytes_of, CHD_KEY_SZ, u32 in *. pose proof (uw_bound 32 (oh_n_blk hdr * CHD_CSUM_SZ) ltac:(lia)). split; [lia|]. split; [apply uw_small; lia|]. split; [lia|apply uw_small; lia].
Qed.

(** The file of an object whose data has become [cur]. *)
Lemma parse_obj owner key md data cur m :
  key_valid key = true -> length md = 20%nat -> Forall (fun x => x <> 0) owner /\ (length owner < 128)%nat ->
  Z.of_nat (length data) <= max_obj -> length cur = length data ->
  parse_hdr (obj_front owner key md data ++ cur) m = Some (mkInfo owner md key (20 * nblk (Z.of_nat (length data))) (Z.of_nat (length data)) m) /\
  drop (Z.to_nat (hdr_sz + Z.of_nat (length key) + 20 * nblk (Z.of_nat (length data)))) (obj_front owner key md data ++ cur) = cur.
Proof.
  intros Hkey Hmd [Ho1 Ho2] Hmax Hcur. unfold key_valid in Hkey. apply negb_true_iff, orb_false_iff in Hkey as [Hk0%Nat.ltb_ge Hk%Z.ltb_ge].
  set (len := Z.of_nat (length data)) in *. pose proof (nblk_bound len ltac:(lia)) as Hb. pose proof (length_front owner key md data Hmd) as Hf. fold len in Hf. unfold vofs in Hf.
  set (h := enc_hdr (obj_hdr owner key md len)) in *. assert (length h = 180%nat) as Hh by (unfold h; rewrite length_enc_hdr; [done|done|done|apply length_strncpy]).
  split; [|apply drop_app_length'; lia]. unfold parse_hdr. rewrite length_app, (proj2 (Z.ltb_ge _ hdr_sz)) by (unfold hdr_sz in *; lia).
  assert (take (Z.to_nat hdr_sz) (obj_front owner key md data ++ cur) = h) as ->.
  { unfold obj_front. fold len h. rewrite <- !app_assoc. rewrite take_app_length'; [done|]. by rewrite Hh. }
  assert (dec_hdr h = obj_hdr owner key md len) as ->.
  { pose proof (dec_enc_hdr (obj_hdr owner key md len) []) as E. rewrite app_nil_r in E. apply E; cbn; try done; try apply length_strncpy;
      unfold CHD_KEY_SZ, len, max_obj, CHUNK_BLK_SZ in *; lia. }
  cbn [oh_magic oh_owner oh_key_len oh_value_len oh_n_blk oh_hash obj_hdr]. rewrite bool_decide_eq_true_2 by done. cbn [negb].
  rewrite (proj2 (Z.ltb_ge _ 1)), (proj2 (Z.ltb_ge CHD_KEY_SZ _)) by lia. cbn [orb]. cbn zeta.
  assert (u64 (Z.of_nat (length (obj_front owner key md data) + length cur) - hdr_sz - Z.of_nat (length key)) = 20 * nblk len + len) as ->.
  { unfold u64. rewrite uw_small; unfold max_obj, CHUNK_BLK_SZ in *; lia. }
  rewrite (proj2 (Z.ltb_ge _ len)), (proj2 (Z.ltb_ge _ (hdr_sz + _))), cstr_strncpy, csum_bytes_exact by (done || lia). do 2 f_equal.
  unfold obj_front. fold len h. rewrite <- !app_assoc. apply slice_app; [by rewrite Hh|lia].
Qed.

Lemma spoiled_obj owner key md data cur :
  key_valid key = true -> length md = 20%nat -> Forall (fun x => x <> 0) owner /\ (length owner < 128)%nat ->
  Z.of_nat (length data) <= max_obj -> length cur = length data ->
  spoiled (obj_front owner key md data ++ cur) = negb (bool_decide (md = SHA1 cur)).
Proof. intros. unfold spoiled. destruct (parse_obj owner key md data cur 0) as [-> Hd]; try done. cbn [oi_hash oi_key oi_csumlen]. by rewrite Hd. Qed.

(** ** Where files are *)

Definition bad_dir : bytes := vol_path ++ [47; 98; 97; 100].
Definition bad_path (i : nat) : bytes := vol_path ++ [47; 98; 97; 100; 47] ++ fmt_lu (Z.of_nat i).

(** [sub] is a subdirectory of a table, [q] a file of it. *)
Definition sub_path (table : Z) (a : bytes) : bytes := table_path vol_path table ++ [SL] ++ a.
Definition file_path (table : Z) (a b : bytes) : bytes := sub_path table a ++ [SL] ++ b.

(** Directories are where the server makes them. *)
Record flat f : Prop := {
  fl_obj table a b : length a = PREFIX_LEN -> file_path table a b ∉ f_dirs f;
  fl_bad i : bad_path i ∉ f_dirs f }.

Lemma fmt_X_head n : exists c l, fmt_X n = c :: l /\ c <> 98.
Proof.
  unfold fmt_X. generalize (@nil Z). assert (forall fuel n acc, (exists c l, acc = c :: l /\ c <> 98) \/ (0 < fuel)%nat -> exists c l, fmt_X_loop fuel n acc = c :: l /\ c <> 98) as H.
  { induction fuel as [|fuel IH]; intros m acc Hc; [by destruct Hc; [|lia]|]. cbn [fmt_X_loop]. set (c := Hexdigit _).
    assert (c <> 98) as Hn by (unfold c, Hexdigit; pose proof (Z.mod_pos_bound m 16 ltac:(lia)); destruct (m mod 16 <? 10) eqn:E; lia).
    destruct (_ =? 0); [eauto|]. apply IH. left. eauto. }
  intros acc. apply H. right. lia.
Qed.

(** The names of objects are not those of disabled files. *)
Lemma file_not_bad table a b i : file_path table a b <> bad_path i.
Proof.
  unfold file_path, sub_path, table_path, bad_path. rewrite <- !app_assoc. intros E%app_inv_head. destruct (fmt_X_head table) as (c & l & Ec & Hc). rewrite Ec in E.
  cbn in E. congruence.
Qed.

Lemma file_not_bad_dir table a b : file_path table a b <> bad_dir.
Proof.
  unfold file_path, sub_path, table_path, bad_dir. rewrite <- !app_assoc. intros E%app_inv_head. destruct (fmt_X_head table) as (c & l & Ec & Hc). rewrite Ec in E.
  cbn in E. congruence.
Qed.

Lemma bad_not_dir i : bad_path i <> bad_dir.
Proof. unfold bad_path, bad_dir. intros E%app_inv_head. by injection E. Qed.

Lemma obj_path_file table key : exists a b, obj_path vol_path table key = file_path table a b /\ length a = PREFIX_LEN.
Proof.
  exists (take PREFIX_LEN (hexstr (SHA256 key))), (drop PREFIX_LEN (hexstr (SHA256 key))). split; [done|].
  rewrite length_take. unfold hexstr. pose proof (length_SHA256 key) as L. destruct (SHA256 key) as [|x [|y l]]; [done|done|reflexivity].
Qed.

(** ** Moving aside *)

Definition moved (fn : bytes) (i : nat) f f' : Prop :=
  f_names f !! fn = Some i /\ f_names f' = <[bad_path i := i]> (delete fn (f_names f)).

Lemma ensure_dir_exact path f :
  fw False (ensure_dir path) (fun b f' => dirs_only f f' /\
    (f_dirs f' = f_dirs f \/ (f_names f !! path = None /\ f_dirs f' = {[path]} ∪ f_dirs f)) /\
    (calm f -> f_names f !! path = None -> b = true)) f.
Proof.
  unfold ensure_dir. apply fw_bind, fw_stat. intros st f1 S1 H1. pose proof (same_dirs_only _ _ S1) as D1. destruct S1 as (A1 & A2 & A3 & A4 & A5 & A6).
  destruct st as [|j|e]; [apply fw_ret; auto|apply fw_ret; split_and!; [done|by left|congruence]|]. destruct H1 as [He H1].
  destruct (Z.eqb_spec e ENOENT) as [->|Hne]; [|apply fw_ret; split_and!; [done|by left|intros C _; by destruct (H1 C)]].
  apply fw_bind, fw_mkdir. intros rc f4 D4 Hrc Hc4. apply fw_ret. split; [by etrans|]. rewrite A1, A3 in Hrc. split.
  - destruct Hrc as [(_ & ? & ?)|[_ ?]]; auto.
  - intros C Hb. destruct (H1 C) as (_ & Hd & _). rewrite Hc4; [done|by eapply calm_oracle|congruence|congruence].
Qed.

(** The file is where it was, or was moved; the directory for it may be new. *)
Record put_aside (fn : bytes) f f' : Prop := {
  pa_inodes : f_inodes f' = f_inodes f;
  pa_next : f_next f' = f_next f;
  pa_oracle : f_oracle f' = f_oracle f;
  pa_dirs : f_dirs f' = f_dirs f \/ (f_names f !! bad_dir = None /\ f_dirs f' = {[bad_dir]} ∪ f_dirs f);
  pa_names : f_names f' = f_names f \/ exists i, moved fn i f f';
  pa_done : calm f -> f_names f !! bad_dir = None -> is_Some (f_names f !! fn) -> exists i, moved fn i f f' }.

Lemma disable_spec fn f : fn ∉ f_dirs f -> fw False (fs_obj_disable vol_path fn) (fun _ => put_aside fn f) f.
Proof.
  intros Hn. unfold fs_obj_disable. apply fw_bind, fw_stat. intros r f1 S1 Hr.
  assert (forall f', dirs_only f f' -> f_dirs f' = f_dirs f \/ (f_names f !! bad_dir = None /\ f_dirs f' = {[bad_dir]} ∪ f_dirs f) ->
    (calm f -> f_names f !! bad_dir = None -> is_Some (f_names f !! fn) -> False) -> put_aside fn f f') as Hun.
  { intros f' (A1 & A2 & A3 & A4 & A5) Hd Hc. split; auto. intros C H1 H2. by destruct (Hc C H1 H2). }
  assert (forall f', same_fs f f' -> (calm f -> f_names f !! bad_dir = None -> is_Some (f_names f !! fn) -> False) -> put_aside fn f f') as Hsame.
  { intros f' S. apply Hun; [by apply same_dirs_only|left; apply S]. }
  destruct r as [|i|e]; [done| |].
  2:{ apply fw_ret, Hsame; [done|]. intros C _ [j Hj]. destruct Hr as [_ Hr], (Hr C) as (_ & _ & Hx). congruence. }
  unfold fs_obj_badname. apply fw_bind, fw_bind, fw_malloc_ok. intros b f2 S2 H2. assert (same_fs f f2) as T2 by (by etrans).
  destruct b; cbn [negb]; [|apply fw_ret, fw_ret, Hsame; [done|]; intros C; by specialize (H2 (calm_same _ _ S1 C))].
  apply fw_bind. fold bad_dir. eapply fw_mono; [apply ensure_dir_exact|]. cbn beta. intros b f3 (D3 & Hd3 & Hb). 
  assert (dirs_only f f3) as D by (etrans; [by apply same_dirs_only|done]). destruct T2 as (N2 & _ & E2 & _ & _ & O2). rewrite N2, E2 in Hd3. rewrite N2 in Hb.
  destruct b; cbn [negb]; [|apply fw_ret, fw_ret, Hun; [done|done|]; intros C Hx; by specialize (Hb (calm_oracle _ _ O2 C) Hx)].
  apply fw_bind, fw_malloc_ok. intros b f4 S4 H4. apply fw_ret. assert (dirs_only f f4) as D4 by (etrans; [done|by apply same_dirs_only]).
  rewrite <- (proj1 (proj2 (proj2 S4))) in Hd3. assert (calm f -> calm f3) as C3 by (apply calm_oracle, D).
  destruct b; [|apply fw_ret, Hun; [done|done|]; intros C; by specialize (H4 (C3 C))].
  unfold sys_rename. apply fw_bind, fw_bind, fw_fault. intros e f5 S5 H5 _. apply fw_bind, fw_get. assert (dirs_only f f5) as D5 by (etrans; [done|by apply same_dirs_only]).
  rewrite <- (proj1 (proj2 (proj2 S5))) in Hd3.
  destruct e as [e|]; [apply fw_ret, fw_ret, Hun; [done|done|]; intros C; by specialize (H5 (calm_same _ _ S4 (C3 C)))|].
  destruct D5 as (A1 & A2 & A3 & A4 & A5). rewrite A1, Hr. apply fw_bind, fw_modify, fw_ret, fw_ret.
  assert (moved fn i f (set_f_names (<[vol_path ++ [47; 98; 97; 100; 47] ++ fmt_lu (Z.of_nat i):=i]> (delete fn (f_names f))) f5)) as Hm by (by split).
  split; eauto.
Qed.

End files.

(** ** Listing *)

Lemma omap_short {A B} (g : A -> option B) (l : list A) : (length (omap g l) <= length l)%nat.
Proof. induction l as [|x l IH]; [done|]. cbn. destruct (g x); cbn; unfold omap in *; lia. Qed.

Lemma children_size path f : (size (children path f) <= size (f_names f) + size (f_dirs f))%nat.
Proof.
  unfold children. set (l := omap (entry_of path) _). change (size (f_dirs f)) with (length (elements (f_dirs f))).
  assert (length l <= size (f_names f) + length (elements (f_dirs f)))%nat as Hl.
  { unfold l. etrans; [apply omap_short|]. rewrite length_app, length_fmap, length_map_to_list. done. }
  etrans; [|exact Hl]. unfold size, set_size. cbn. apply submseteq_length, NoDup_submseteq; [apply NoDup_elements|].
  intros x. by rewrite elem_of_elements, elem_of_list_to_set.
Qed.

Section listing.
Context {SH : Sha} {RD : Readdir}.
Variable vol_path : bytes.
Implicit Types f : fsys.

Definition lister_ok (table : Z) (t : fs_obj_lister) : Prop :=
  t_table_path t = table_path vol_path table /\
  forall sub d, t_sub t = Some (sub, d) -> exists a, sub = sub_path vol_path table a /\ length a = PREFIX_LEN.

(** What is left to be listed, at most. *)
Definition mu (cap : nat) (t : fs_obj_lister) : nat :=
  (length (t_root t) * S cap + match t_sub t with Some (_, d) => length d | None => 0 end)%nat.

Lemma scan_sub_shrinks d name d' : scan_sub d = Some (name, d') -> (length d' < length d)%nat.
Proof. induction d as [|x d IH]; [done|]. cbn [scan_sub]. destruct (dotted x); [intros E%IH; cbn; lia|]. intros [= <- <-]. cbn. lia. Qed.

Definition listed (table : Z) (cap n : nat) f (r : option (option bytes) * fs_obj_lister) f' : Prop :=
  same_fs f f' /\
  match r with
  | (Some (Some fn), t') => lister_ok table t' /\ (mu cap t' < n)%nat /\ exists a b, fn = file_path vol_path table a b /\ length a = PREFIX_LEN
  | _ => True
  end.

Lemma next_in_spec table cap n t a name d f f0 :
  same_fs f0 f -> t_table_path t = table_path vol_path table -> length a = PREFIX_LEN -> (length (t_root t) * S cap + length d < n)%nat ->
  fw False (next_in t (sub_path vol_path table a) name d) (listed table cap n f0) f.
Proof.
  intros S Ht Ha Hn. unfold next_in. apply fw_bind, fw_malloc_ok. intros b f1 S1 _. apply fw_ret. destruct b; (split; [by etrans|]); [|done].
  split; [split; [done|]|split; [done|by eexists a, name]]. cbn. intros sub d' [= <- <-]. eauto.
Qed.

Lemma scan_root_spec table cap root f f0 : same_fs f0 f -> (size (f_names f0) + size (f_dirs f0) <= cap)%nat ->
  fw False (scan_root root (table_path vol_path table)) (listed table cap (length root * S cap) f0) f.
Proof.
  revert f. induction root as [|name root IH]; intros f S Hcap; [by apply fw_ret|]. cbn [scan_root].
  assert (forall g, same_fs f0 g -> fw False (scan_root root (table_path vol_path table)) (listed table cap (length (name :: root) * Datatypes.S cap) f0) g) as Hskip.
  { intros g G. eapply fw_mono; [by apply IH|]. intros [[[fn|]|] t'] f' [T R]; (split; [done|]); try done. destruct R as (R1 & R2 & R3). split_and!; [done| |done]. cbn [length]. lia. }
  destruct (_ || _) eqn:E; [by apply Hskip|]. apply orb_false_iff in E as [_ E%negb_false_iff%Nat.eqb_eq].
  apply fw_bind, fw_malloc_ok. intros b f1 S1 _. destruct b; cbn [negb]; [|apply fw_ret; split; [by etrans|done]].
  unfold sys_opendir. apply fw_bind, fw_bind, fw_fault. intros e f2 S2 _ _. assert (same_fs f0 f2) as T2 by (etrans; [|done]; by etrans). apply fw_bind, fw_get, fw_ret.
  destruct e as [e|]; [by apply Hskip|]. case_bool_decide; [|by apply Hskip].
  destruct (scan_sub _) as [[name' d']|] eqn:Es; [|by apply Hskip]. apply scan_sub_shrinks in Es. cbn beta iota.
  apply (next_in_spec table cap _ _ name); [done|done|done|]. cbn [t_root length].
  assert (length (dir_list (table_path vol_path table ++ [SL] ++ name) f2) <= cap)%nat; [|lia].
  rewrite (Permutation_length (dir_list_ok _ _)). destruct T2 as (N2 & _ & E2 & _). etrans; [apply children_size|]. by rewrite N2, E2.
Qed.

Lemma next_spec table cap t f : lister_ok table t -> (size (f_names f) + size (f_dirs f) <= cap)%nat ->
  fw False (fs_list_objs_next t) (listed table cap (mu cap t) f) f.
Proof.
  intros [Ht Hs] Hcap. unfold fs_list_objs_next, mu. destruct (t_sub t) as [[sub d]|].
  - destruct (Hs sub d eq_refl) as (a & -> & Ha). destruct (scan_sub d) as [[name d']|] eqn:Es.
    + apply scan_sub_shrinks in Es. apply next_in_spec; [done|done|done|]. lia.
    + rewrite Ht. eapply fw_mono; [by apply (scan_root_spec table cap)|]. intros [[[fn|]|] t'] f' [T R]; (split; [done|]); try done. destruct R as (R1 & R2 & R3). split_and!; [done|lia|done].
  - rewrite Ht. eapply fw_mono; [by apply (scan_root_spec table cap)|]. intros [[[fn|]|] t'] f' [T R]; (split; [done|]); try done. destruct R as (R1 & R2 & R3). split_and!; [done|lia|done].
Qed.

Lemma list_open_spec table f :
  fw False (fs_list_objs_open vol_path table) (fun r f' => same_fs f f' /\
    match r with
    | Ok t => table_path vol_path table ∈ f_dirs f /\ t = mkLister (dir_list (table_path vol_path table) f') (table_path vol_path table) None
    | Err _ => calm f -> table_path vol_path table ∉ f_dirs f
    end) f.
Proof.
  unfold fs_list_objs_open. apply fw_bind, fw_malloc_ok. intros b f1 S1 H1. destruct b; cbn [negb]; [|apply fw_ret; split; [done|]; intros C; by specialize (H1 C)].
  unfold sys_opendir. apply fw_bind, fw_bind, fw_fault. intros e f2 S2 H2 _. apply fw_bind, fw_get, fw_ret, fw_ret. split; [by etrans|].
  destruct e as [e|]; [intros C; by specialize (H2 (calm_same _ _ S1 C))|]. destruct S1 as (_ & _ & E1 & _), S2 as (_ & _ & E2 & _). rewrite E2, E1. by case_bool_decide.
Qed.

End listing.

(** ** The scan among other threads *)

Lemma put_aside_wf vol_path fn f f' : fs_wf f -> flat vol_path f -> put_aside vol_path fn f f' -> fs_wf f' /\ flat vol_path f'.
Proof.
  intros W [Fo Fb] P. assert (forall q, q ∈ f_dirs f' -> q = bad_dir vol_path /\ f_names f !! q = None \/ q ∈ f_dirs f) as Hd.
  { intros q. destruct (pa_dirs _ _ _ _ P) as [->|[H1 ->]]; [auto|]. intros [->%elem_of_singleton|]%elem_of_union; auto. }
  destruct W as [W1 W2 W3 W4]. split.
  - split; rewrite ?(pa_inodes _ _ _ _ P), ?(pa_next _ _ _ _ P); try done.
    + intros q i. destruct (pa_names _ _ _ _ P) as [->|(j & Ej & ->)]; [apply W1|]. intros [[<- <-]|[_ [_ E]%lookup_delete_Some]]%lookup_insert_Some; eauto.
    + intros q r i. destruct (pa_names _ _ _ _ P) as [->|(j & Ej & ->)]; [apply W3|].
      intros [[Eq Ei]|[N1 [N2 E1]%lookup_delete_Some]]%lookup_insert_Some [[Er Ei']|[N3 [N4 E2]%lookup_delete_Some]]%lookup_insert_Some;
        [congruence|destruct N4; eapply W3; [|exact E2]; congruence|destruct N2; eapply W3; [|exact E1]; congruence|by eapply W3].
    + intros q Hq. destruct (pa_names _ _ _ _ P) as [->|(j & Ej & ->)]; [destruct (Hd q Hq) as [[_ ?]|?]; auto|].
      assert (f_names f !! q = None) as E by (destruct (Hd q Hq) as [[_ ?]|?]; auto). rewrite lookup_insert_ne; [apply lookup_delete_None; by right|].
      intros <-. destruct (Hd _ Hq) as [[Hb _]|Hq']; [by apply bad_not_dir in Hb|by apply Fb in Hq'].
  - split.
    + intros table a b Ha Hq. destruct (Hd _ Hq) as [[Hb _]|Hq']; [by apply file_not_bad_dir in Hb|by eapply Fo].
    + intros i Hq. destruct (Hd _ Hq) as [[Hb _]|Hq']; [by apply bad_not_dir in Hb|by eapply Fb].
Qed.

Section spare.
Context {H : Type} {HD : TcHdb H} {HI : TcIter H} {SH : Sha} {RD : Readdir}.
Variable vol_path : bytes.
Context (others : nat -> objcache -> fsys -> objcache * fsys) (mem : nat -> bool) (rounds : nat).

(** The file [p], in a table, holds [d]; there are at most [cap] names. *)
Context (p d : bytes) (cap : nat) (ptable : Z) (pa pb : bytes).
Hypothesis p_file : p = file_path vol_path ptable pa pb.
Hypothesis p_sound : spoiled d = false.
Hypothesis mem_ok : forall n, mem n = true.

Record safe (f : fsys) : Prop := {
  sf_content : content f p = Some d;
  sf_wf : fs_wf f;
  sf_whole : whole f;
  sf_flat : flat vol_path f;
  sf_cap : (size (f_names f) + size ({[bad_dir vol_path]} ∪ f_dirs f) <= cap)%nat }.

(** Other threads leave [p] alone, and use references as they may: what they
    hold is described by [Own], which they keep. *)
Context (Own : list nat -> Prop).
Hypothesis others_ok : forall n mine held c f, Own held -> oc_inv (mine ++ held) c -> safe f ->
  safe (others n c f).2 /\ exists held', Own held' /\ oc_inv (mine ++ held') (others n c f).1.

(** [mine]: the references of the self-check. *)
Definition J (mine : list nat) (t : kst H) : Prop :=
  safe (k_fs t) /\ exists held, Own held /\ oc_inv (mine ++ held) (v_actives (k_srv t)).

Definition kw {A} (m : K A) (Q : A -> kst H -> Prop) (t : kst H) : Prop := match m t with Some (a, t') => Q a t' | None => False end.

Lemma kw_bind {A B} (m : K A) (k : A -> K B) Q t : kw m (fun a => kw (k a) Q) t -> kw (m ≫= k) Q t.
Proof. unfold kw, mbind, K_bind. by destruct (m t) as [[]|]. Qed.

Lemma kw_mono {A} (m : K A) (Q R : A -> kst H -> Prop) t : kw m Q t -> (forall a t', Q a t' -> R a t') -> kw m R t.
Proof. unfold kw. destruct (m t) as [[]|]; auto. Qed.

Lemma safe_same f f' : same_fs f f' -> safe f -> safe f'.
Proof.
  intros S [A1 A2 A3 A4 A5]. split.
  - by rewrite (dirs_only_content _ _ _ (same_dirs_only _ _ S)).
  - by eapply same_wf.
  - by eapply whole_same.
  - destruct A4 as [B1 B2]. split; destruct S as (_ & _ & -> & _); done.
  - destruct S as (-> & _ & -> & _). done.
Qed.

Lemma put_aside_safe fn f f' : safe f -> put_aside vol_path fn f f' -> fn <> p -> safe f'.
Proof.
  intros [A1 A2 A3 A4 A5] P Hp. destruct (put_aside_wf _ _ _ _ A2 A4 P) as [W' F']. split; try done.
  - unfold content in *. rewrite (pa_inodes _ _ _ _ P). destruct (pa_names _ _ _ _ P) as [->|(j & _ & ->)]; [done|].
    rewrite lookup_insert_ne, lookup_delete_ne; [done|done|]. rewrite p_file. apply not_eq_sym, file_not_bad.
  - intros i. rewrite (pa_oracle _ _ _ _ P). apply A3.
  - assert (size (f_names f') <= size (f_names f))%nat.
    { destruct (pa_names _ _ _ _ P) as [->|(j & Ej & ->)]; [done|]. rewrite map_size_insert, map_size_delete, Ej.
      assert (size (f_names f) <> 0)%nat by (apply map_size_ne_0_lookup_2 with fn; eauto). destruct (delete fn (f_names f) !! bad_path vol_path j); cbn; lia. }
    assert ({[bad_dir vol_path]} ∪ f_dirs f' = {[bad_dir vol_path]} ∪ f_dirs f) as -> by (destruct (pa_dirs _ _ _ _ P) as [->|[_ ->]]; set_solver). lia.
Qed.

Lemma kw_fs {A} (m : F A) (R : A -> Prop) mine t :
  J mine t -> (forall f, safe f -> fw False m (fun a f' => safe f' /\ R a) f) -> kw (k_fs_do others m) (fun a t' => J mine t' /\ R a) t.
Proof.
  intros [Js (held & Jo & Jc)] Hm. unfold k_fs_do. apply kw_bind. unfold kw at 1, k_turn. destruct (others_ok (k_step t) mine held _ _ Jo Jc Js) as [Js' (held' & Jo' & Jc')].
  destruct (others _ _ _) as [c f] eqn:Eo. cbn in Js', Jc'. destruct (fw_total _ _ _ (Hm f Js')) as (a & f' & E & Hs & HR). unfold kw. cbn [k_fs]. rewrite E.
  split; [split; [done|by exists held']|done].
Qed.

Lemma kw_oc {A} (m : objcache -> option (A * objcache)) (R : A -> Prop) (mine : list nat) (mine' : A -> list nat) t :
  J mine t -> (forall held c, oc_inv (mine ++ held) c -> exists a c', m c = Some (a, c') /\ R a /\ oc_inv (mine' a ++ held) c') ->
  kw (k_cache others m) (fun a t' => J (mine' a) t' /\ R a) t.
Proof.
  intros [Js (held & Jo & Jc)] Hm. unfold k_cache. apply kw_bind. unfold kw at 1, k_turn. destruct (others_ok (k_step t) mine held _ _ Jo Jc Js) as [Js' (held' & Jo' & Jc')].
  destruct (others _ _ _) as [c f] eqn:Eo. cbn in Js', Jc'. destruct (Hm held' c Jc') as (a & c' & E & HR & I2). unfold kw. cbn. rewrite E.
  split; [split; [done|by exists held']|done].
Qed.

(** What was read of [p] says its digest is right. *)
Definition info_ok (fn : bytes) (i : obj_info) : Prop :=
  (exists d' m, parse_hdr d' m = Some i) /\ (fn = p -> exists m, parse_hdr d m = Some i).

Lemma safe_names f i : safe f -> f_names f !! p = Some i -> fi_data (file_of f i) = d.
Proof. intros S E. pose proof (sf_content _ S) as C. unfold content in C. rewrite E in C. unfold file_of. cbn in C. destruct (f_inodes f !! i); [|done]. cbn in *. congruence. Qed.

Lemma chk_obj_spares fn i t table a b :
  fn = file_path vol_path table a b -> length a = PREFIX_LEN -> J [] t -> info_ok fn i -> kw (chk_obj vol_path others mem fn i) (fun _ => J []) t.
Proof.
  intros Efn Ha Jt [(d' & m' & Hp') Hp]. destruct (parse_bounds _ _ _ Hp') as (B1 & B2 & B3 & B4). unfold chk_obj. rewrite B2, B4.
  apply kw_bind. unfold kw at 1, k_get. rewrite mem_ok. apply kw_bind.
  eapply kw_mono; [apply (kw_oc _ (fun _ => True) [] (fun cep => [cep])); [done|]|].
  { intros held c I. destruct (objcache_get_spec held (oi_key i) false c I) as (q & c' & E & I' & _). exists q, c'. by split_and!. }
  cbn beta. intros cep t1 [J1 _]. apply kw_bind.
  eapply kw_mono; [apply (kw_fs _ (fun r => match r with Ok md => fn = p -> md = oi_hash i | Err _ => True end) [cep]); [done|]|].
  { intros f Sf. eapply fw_mono; [apply do_sum_spec; [apply Sf|lia|lia]|]. cbn beta. intros r f' [S Hr]. split; [by eapply safe_same|].
    destruct r as [md|]; [|done]. intros ->. destruct (f_names f !! p) as [j|] eqn:Ej; [|done]. rewrite (safe_names _ _ Sf Ej) in Hr. destruct (Hp eq_refl) as [m Hm].
    apply parse_time in Hm. unfold spoiled in p_sound. rewrite Hm in p_sound. cbn [oi_hash oi_key oi_csumlen] in p_sound. apply negb_false_iff, bool_decide_eq_true in p_sound. congruence. }
  cbn beta. intros r t2 [J2 Hr]. apply kw_bind.
  assert (forall t3, J [cep] t3 -> kw (k_cache others (fun c => c ← objcache_put cep c; Some (tt, c))) (fun _ => J []) t3) as Hput.
  { intros t3 J3. eapply kw_mono; [apply (kw_oc _ (fun _ => True) [cep] (fun _ => [])); [done|]|by intros ? ? []].
    intros held c I. destruct (objcache_put_spec ([cep] ++ held) cep c I ltac:(cbn; left)) as (e & c' & _ & E & I' & _).
    exists tt, c'. rewrite E. split_and!; [done|done|]. cbn [app remove_first] in I'. by rewrite decide_True in I'. }
  enough (kw (match r with Err _ => mret tt | Ok md_act => _ end) (fun _ => J [cep]) t2) as Hk by (eapply kw_mono; [exact Hk|]; intros; by apply Hput).
  destruct r as [md|]; [|done]. apply kw_bind. eapply kw_mono; [apply (kw_oc _ (fun _ => True) [cep] (fun _ => [cep])); [done|]|].
  { intros held c I. destruct (ci_held _ _ I cep ltac:(cbn; left)) as [e E]. unfold objcache_test_dirty. rewrite E. eexists _, c. by split_and!. }
  cbn beta. intros dirty t3 [J3 _]. apply kw_bind. unfold kw at 1, k_get. destruct dirty; cbn [negb]; [done|].
  case_bool_decide as Eh; cbn [negb]; [done|]. apply kw_bind. eapply kw_mono; [apply (kw_fs _ (fun _ => True) [cep]); [done|]|by intros ? ? []].
  intros f Sf. eapply fw_mono; [apply disable_spec; rewrite Efn; by apply (sf_flat _ Sf)|]. cbn beta. intros _ f' P. split; [|done].
  eapply put_aside_safe; [done|done|]. intros Efp. by apply Eh; symmetry; apply Hr.
Qed.

Lemma chk_loop_spares table fuel lister t : lister_ok vol_path table lister -> (mu cap lister < fuel)%nat -> J [] t ->
  kw (chk_loop vol_path others mem fuel lister) (fun _ => J []) t.
Proof.
  revert lister t. induction fuel as [|fuel IH]; intros lister t Hl Hf Jt; [lia|]. cbn [chk_loop]. apply kw_bind.
  eapply kw_mono; [apply (kw_fs _ (fun r => match r with (Some (Some fn), t') => lister_ok vol_path table t' /\ (mu cap t' < mu cap lister)%nat /\
    exists a b, fn = file_path vol_path table a b /\ length a = PREFIX_LEN | _ => True end) []); [done|]|].
  { intros f Sf. eapply fw_mono; [apply next_spec; [done|]|].
    - pose proof (sf_cap _ Sf) as Hc. etrans; [|exact Hc]. apply Nat.add_le_mono_l, subseteq_size. set_solver.
    - intros r f' [S R]. split; [by eapply safe_same|done]. }
  cbn beta. intros [[[fn|]|] t'] t1 [J1 R]; try done. destruct R as (R1 & R2 & a & b & Efn & Ha). apply kw_bind.
  eapply kw_mono; [apply (kw_fs _ (fun r => match r with Some i => info_ok fn i | None => True end) []); [done|]|].
  { intros f Sf. eapply fw_mono; [apply hdr_read_spec, Sf|]. cbn beta. intros r f' [S Hr]. split; [by eapply safe_same|]. destruct r as [i|]; [|done].
    destruct (f_names f !! fn) as [j|] eqn:Ej; [|done]. destruct Hr as [[? _]|Hr]; [done|]. split; [eauto|]. intros ->. rewrite (safe_names _ _ Sf Ej) in Hr. eauto. }
  cbn beta. intros [i|] t2 [J2 Hi]; [|done]. apply kw_bind. eapply kw_mono; [by apply (chk_obj_spares fn i t2 table a b)|].
  cbn beta. intros _ t3 J3. apply IH; [done|lia|done].
Qed.

Hypothesis rounds_ok : (cap * S cap < rounds)%nat.

Lemma chk_list_spares table t : J [] t -> kw (chk_list_objs vol_path others mem rounds table) (fun _ => J []) t.
Proof.
  intros Jt. unfold chk_list_objs. apply kw_bind.
  eapply kw_mono; [apply (kw_fs _ (fun r => match r with Ok t => lister_ok vol_path table t /\ (mu cap t < rounds)%nat | Err _ => True end) []); [done|]|].
  { intros f Sf. eapply fw_mono; [apply list_open_spec|]. cbn beta. intros r f' [S Hr]. split; [by eapply safe_same|]. destruct r as [l|]; [|done]. destruct Hr as [_ ->].
    split; [by split|]. unfold mu. cbn [t_root t_sub]. rewrite (Permutation_length (dir_list_ok _ _)). pose proof (safe_same _ _ S Sf) as Sf'.
    assert (size (children (table_path vol_path table) f') <= cap)%nat as Hc; [|change (length (elements ?X)) with (size X); nia].
    etrans; [apply children_size|]. pose proof (sf_cap _ Sf') as Hc. etrans; [|exact Hc]. apply Nat.add_le_mono_l, subseteq_size. set_solver. }
  cbn beta. intros [l|] t1 [J1 R]; [|done]. destruct R. by eapply chk_loop_spares.
Qed.

Lemma chk_dbscan_spares keys t : J [] t -> kw (chk_dbscan vol_path others mem rounds keys) (fun _ => J []) t.
Proof.
  revert t. induction keys as [|k keys IH]; intros t Jt; [done|]. cbn [chk_dbscan]. case_bool_decide; [by apply IH|]. apply kw_bind. unfold kw at 1, k_get.
  destruct (tchdbget _ _) as [v|]; [|by apply IH]. destruct (_ =? _)%nat; cbn [negb]; [|by apply IH].
  apply kw_bind. eapply kw_mono; [by apply chk_list_spares|]. cbn beta. intros _ t1 J1. by apply IH.
Qed.

End spare.

Section claim_spares.
Context {H : Type} {HD : TcHdb H} {HI : TcIter H} {SH : Sha} {RD : Readdir}.
Variable vol_path : bytes.

(** C27. The self-check never puts a sound object aside.  While it scans all
    tables, other threads do what they like except to this object, and calls may
    fail, as long as no read is cut short and no allocation of the table of
    active objects fails.  The scan ends and the object is where it was.  Every
    reference the self-check took is given back: whatever [Own] the other threads
    keep true of the references they hold - that these are exactly the ones held
    at the start, if they take and return none - is in the end true of all the
    references the table of active objects counts. *)
Theorem selfcheck_spares owner key data table others mem rounds cap now (t : kst H) (Own : list nat -> Prop) held :
  let p := obj_path vol_path table key in let d := obj_file owner key (SHA1 data) data in
  key_valid key = true -> Z.of_nat (length data) <= max_obj -> Forall (fun x => x <> 0) owner /\ (length owner < 128)%nat ->
  (forall n, mem n = true) -> (cap * S cap < rounds)%nat ->
  (forall n mine held c f, Own held -> oc_inv (mine ++ held) c -> safe vol_path p d cap f ->
     safe vol_path p d cap (others n c f).2 /\ exists held', Own held' /\ oc_inv (mine ++ held') (others n c f).1) ->
  safe vol_path p d cap (k_fs t) -> Own held -> oc_inv held (v_actives (k_srv t)) ->
  exists t', chk_thread_scan vol_path others mem rounds now t = Some (tt, t') /\
    content (k_fs t') p = Some d /\ v_chk_done (k_srv t') = now /\ exists held', Own held' /\ oc_inv held' (v_actives (k_srv t')).
Proof.
  intros p d Hk Hl Ho Hm Hr Hoth Hs Hown Hc. destruct (obj_path_file vol_path table key) as (a & b & Ep & _). fold p in Ep.
  assert (spoiled d = false) as Hsp.
  { unfold d. rewrite obj_file_front, spoiled_obj by (done || apply length_SHA1). by rewrite bool_decide_eq_true_2. }
  pose proof (chk_dbscan_spares vol_path others mem rounds p d cap table a b Ep Hsp Hm Own Hoth Hr (tchdbiter (v_hdb (k_srv t)))
    (mkK (mkTls 0 0) (set_v_chk_state CHK_ST_RUNNING (k_srv t)) (k_fs t) (k_step t)) ltac:(split; [done|by exists held])) as Hscan.
  unfold kw in Hscan. destruct (chk_dbscan _ _ _ _ _ _) as [[[] t1]|] eqn:E1; [|done]. destruct Hscan as [S1 [held1 I1]].
  exists (mkK (k_tls t1) (set_v_chk_done now (k_srv t1)) (k_fs t1) (k_step t1)). split; [|split_and!; [apply S1|done|by exists held1]].
  unfold chk_thread_scan, mbind, K_bind, k_upd, set_tls, k_get. cbn. cbn in E1. rewrite E1. done.
Qed.

End claim_spares.

(** ** What the self-check finds on a quiet, working volume

    The lister gives every file of the table exactly once, also while files
    already listed are moved away; so every spoiled object is found. *)

(** ** The lister gives each file once *)

Lemma scan_sub_some d name d' : scan_sub d = Some (name, d') -> dotted name = false /\ forall b, dotted b = false -> b ∈ d <-> b = name \/ b ∈ d'.
Proof.
  induction d as [|x d IH]; [done|]. cbn [scan_sub]. destruct (dotted x) eqn:Ex.
  - intros [E1 E2]%IH. split; [done|]. intros b Hb. rewrite elem_of_cons, <- E2 by done. split; [intros [->|]; [congruence|done]|by right].
  - intros [= <- <-]. split; [done|]. intros b _. apply elem_of_cons.
Qed.

Lemma scan_sub_none d : scan_sub d = None -> forall b, dotted b = false -> b ∉ d.
Proof.
  induction d as [|x d IH]; [intros _ b _; apply not_elem_of_nil|]. cbn [scan_sub]. destruct (dotted x) eqn:Ex; [|done].
  intros E b Hb [->|Hin]%elem_of_cons; [congruence|by apply (IH E b)].
Qed.

Lemma scan_sub_nodup d name d' : scan_sub d = Some (name, d') -> NoDup d -> NoDup d' /\ name ∉ d'.
Proof.
  induction d as [|x d IH]; [done|]. cbn [scan_sub]. destruct (dotted x); intros E Hd; inversion Hd; subst; [by apply IH|]. by injection E as <- <-.
Qed.

Section lister.
Context {SH : Sha} {RD : Readdir}.
Variable vol_path : bytes.
Variable table : Z.
Implicit Types f : fsys.
Local Abbreviation sub := (sub_path vol_path table).
Local Abbreviation file := (file_path vol_path table).

Definition good_sub f (a : bytes) : Prop := dotted a = false /\ length a = PREFIX_LEN /\ sub a ∈ f_dirs f.
Definition good_file f (a b : bytes) : Prop := dotted b = false /\ b ∈ children (sub a) f.

(** The files of the table; those still to come. *)
Definition tfile f (q : bytes) : Prop :=
  exists a b, a ∈ children (table_path vol_path table) f /\ good_sub f a /\ good_file f a b /\ q = file a b.
Definition left_root (root : list bytes) f (q : bytes) : Prop := exists a b, a ∈ root /\ good_sub f a /\ good_file f a b /\ q = file a b.
Definition left_sub (t : fs_obj_lister) (q : bytes) : Prop :=
  exists a d b, t_sub t = Some (sub a, d) /\ length a = PREFIX_LEN /\ b ∈ d /\ dotted b = false /\ q = file a b.
Definition left (t : fs_obj_lister) f (q : bytes) : Prop := left_sub t q \/ left_root (t_root t) f q.

Record fresh (t : fs_obj_lister) : Prop := {
  fr_path : t_table_path t = table_path vol_path table;
  fr_root : NoDup (t_root t);
  fr_sub s d : t_sub t = Some (s, d) -> NoDup d /\ exists a, s = sub a /\ length a = PREFIX_LEN /\ a ∉ t_root t }.

Lemma sub_inj a a' : sub a = sub a' -> a = a'.
Proof. unfold sub_path. intros E%app_inv_head. by injection E. Qed.

Lemma file_inj a b a' b' : length a = PREFIX_LEN -> length a' = PREFIX_LEN -> file a b = file a' b' -> a = a' /\ b = b'.
Proof.
  intros La La'. unfold file_path, sub_path. rewrite <- !app_assoc. intros E%app_inv_head. injection E as E. apply app_inj_1 in E as [-> E]; [|congruence]. by injection E.
Qed.

(** One step of the lister. *)
Definition stepped (Left : bytes -> Prop) f0 (r : option (option bytes) * fs_obj_lister) : Prop :=
  match r with
  | (Some None, _) => forall q, ~ Left q
  | (Some (Some fn), t') => fresh t' /\ Left fn /\ ~ left t' f0 fn /\ (forall q, Left q <-> q = fn \/ left t' f0 q) /\
      exists a b, fn = file a b /\ length a = PREFIX_LEN /\ a ∉ t_root t'
  | (None, _) => False
  end.

Lemma next_in_step Left root a name d d' f f0 :
  same_fs f0 f -> calm f0 -> scan_sub d = Some (name, d') -> NoDup d -> NoDup root -> a ∉ root -> length a = PREFIX_LEN ->
  (forall q, Left q <-> (exists b, b ∈ d /\ dotted b = false /\ q = file a b) \/ left_root root f0 q) ->
  fw False (next_in (mkLister root (table_path vol_path table) None) (sub a) name d') (fun r f' => same_fs f0 f' /\ stepped Left f0 r) f.
Proof.
  intros S C Es Hd Hr Ha Hl HL. unfold next_in. apply fw_bind, fw_malloc_ok. intros b f1 S1 H1. apply fw_ret. split; [by etrans|].
  destruct b; [|by specialize (H1 (calm_same _ _ S C))]. cbn [stepped t_root t_table_path]. destruct (scan_sub_some _ _ _ Es) as [Hn Hb]. destruct (scan_sub_nodup _ _ _ Es Hd) as [Hd' Hn'].
  assert (forall q, left (mkLister root (table_path vol_path table) (Some (sub a, d'))) f0 q <-> (exists b, b ∈ d' /\ dotted b = false /\ q = file a b) \/ left_root root f0 q) as Hleft.
  { intros q. unfold left. cbn [t_root]. assert (left_sub (mkLister root (table_path vol_path table) (Some (sub a, d'))) q <-> exists b, b ∈ d' /\ dotted b = false /\ q = file a b); [|tauto].
    split; [|intros (b & ? & ? & ?); by exists a, d', b]. intros (a' & d2 & b & Et & _ & ? & ? & Eq). cbn in Et. injection Et as Ea Ed. assert (a = a') as <- by (apply sub_inj; congruence). subst d2. eauto. }
  split_and!.
  - split; [done|done|]. cbn. intros s d2 [= <- <-]. eauto.
  - change (sub a ++ [SL] ++ name) with (file a name). apply HL. left. exists name. rewrite Hb by done. auto.
  - change (sub a ++ [SL] ++ name) with (file a name). rewrite Hleft. intros [(b & Hin & _ & E)|(a' & b & Hin & (_ & La & _) & _ & E)].
    + apply file_inj in E as [_ <-]; done.
    + apply file_inj in E as [<- _]; done.
  - intros q. rewrite HL, Hleft. change (sub a ++ [SL] ++ name) with (file a name). split.
    + intros [(b & Hin & Hdot & ->)|]; [|auto]. apply Hb in Hin as [->|Hin]; eauto 6.
    + intros [->|[(b & Hin & Hdot & ->)|]]; [| |auto]; left; [exists name|exists b]; rewrite Hb; auto.
  - by exists a, name.
Qed.

Lemma children_same path f f' : same_fs f f' -> children path f' = children path f.
Proof. intros (E1 & _ & E2 & _). unfold children. by rewrite E1, E2. Qed.

Lemma scan_root_step root f f0 : same_fs f0 f -> calm f0 -> NoDup root ->
  fw False (scan_root root (table_path vol_path table)) (fun r f' => same_fs f0 f' /\ stepped (left_root root f0) f0 r) f.
Proof.
  revert f. induction root as [|name root IH]; intros f S C Hr.
  { apply fw_ret. split; [done|]. intros q (a & b & Hin & _). by apply not_elem_of_nil in Hin. }
  inversion_clear Hr as [|? ? Hname Hroot]. cbn [scan_root].
  assert (forall g, same_fs f0 g -> ~ good_sub f0 name \/ (forall b, ~ good_file f0 name b) ->
    fw False (scan_root root (table_path vol_path table)) (fun r f' => same_fs f0 f' /\ stepped (left_root (name :: root) f0) f0 r) g) as Hskip.
  { intros g G Hno. eapply fw_mono; [by apply IH|]. cbn beta. intros r f' [S' R]. split; [done|].
    assert (forall q, left_root (name :: root) f0 q <-> left_root root f0 q) as E.
    { intros q. split; intros (a & b & Hin & G1 & G2 & E); exists a, b; (split; [|done]); [|by right]. apply elem_of_cons in Hin as [->|]; [|done]. exfalso. destruct Hno as [N|N]; [done|by eapply N]. }
    destruct r as [[[fn|]|] t']; [|by intros q; rewrite E; apply R|done]. cbn [stepped] in *. destruct R as (R1 & R2 & R3 & R4 & R5). split_and!; [done|by apply E|done| |done]. intros q. by rewrite E. }
  destruct (_ || _) eqn:E.
  { apply Hskip; [done|]. left. intros (Hd & Hl & _). rewrite Hd, Hl, Nat.eqb_refl in E. done. }
  apply orb_false_iff in E as [Ed El%negb_false_iff%Nat.eqb_eq].
  apply fw_bind, fw_malloc_ok. intros ok f1 S1 H1. assert (same_fs f0 f1) as T1 by (by etrans). rewrite (H1 (calm_same _ _ S C)). cbn [negb].
  unfold sys_opendir. apply fw_bind, fw_bind, fw_fault. intros e f2 S2 H2 _. assert (same_fs f0 f2) as T2 by (by etrans). rewrite (H2 (calm_same _ _ T1 C)). apply fw_bind, fw_get, fw_ret.
  change (table_path vol_path table ++ [SL] ++ name) with (sub name).
  case_bool_decide as Hin; [|apply Hskip; [done|]; left; intros (_ & _ & Hx); by rewrite (proj1 (proj2 (proj2 T2))) in Hin].
  rewrite (proj1 (proj2 (proj2 T2))) in Hin. set (d := dir_list (sub name) f2).
  assert (forall b, b ∈ d <-> b ∈ children (sub name) f0) as Hd. { intros b. unfold d. rewrite (dir_list_ok (sub name) f2), elem_of_elements. by rewrite (children_same _ _ _ T2). }
  assert (NoDup d) as Hnd by (unfold d; rewrite (dir_list_ok (sub name) f2); apply NoDup_elements).
  destruct (scan_sub d) as [[name' d']|] eqn:Es.
  - apply (next_in_step _ root name name' d d'); try done. intros q. split.
    + intros (a & b & Ha & G1 & G2 & ->). apply elem_of_cons in Ha as [->|Ha]; [left|right; by exists a, b]. exists b. rewrite Hd. by destruct G2.
    + intros [(b & Hb & Hdot & ->)|(a & b & Ha & G1 & G2 & ->)].
      * exists name, b. split; [apply elem_of_cons; by left|]. split; [done|]. split; [|done]. split; [done|by apply Hd].
      * exists a, b. split; [by right|done].
  - apply Hskip; [done|]. right. intros b [Hdot Hb]. by eapply (scan_sub_none d Es b); [|apply Hd].
Qed.

Lemma next_step t f : fresh t -> calm f ->
  fw False (fs_list_objs_next t) (fun r f' => same_fs f f' /\ stepped (left t f) f r) f.
Proof.
  intros [Ht Hr Hs] C. unfold fs_list_objs_next.
  assert ((forall q, ~ left_sub t q) -> forall q, left t f q <-> left_root (t_root t) f q) as Hno.
  { intros N q. unfold left. specialize (N q). tauto. }
  assert ((forall q, ~ left_sub t q) -> fw False (scan_root (t_root t) (t_table_path t)) (fun r f' => same_fs f f' /\ stepped (left t f) f r) f) as Hroot.
  { intros N. rewrite Ht. eapply fw_mono; [by apply scan_root_step|]. cbn beta. intros r f' [S R]. split; [done|]. pose proof (Hno N) as E.
    destruct r as [[[fn|]|] t']; [|by intros q; rewrite E; apply R|done]. cbn [stepped] in *. destruct R as (R1 & R2 & R3 & R4 & R5). split_and!; [done|by apply E|done| |done]. intros q. by rewrite E. }
  destruct (t_sub t) as [[s d]|] eqn:Et.
  - destruct (Hs s d eq_refl) as (Hd & a & -> & La & Ha). destruct (scan_sub d) as [[name d']|] eqn:Es.
    + destruct t as [root path sub']. cbn in *. subst path. change (next_in {| t_root := root; t_table_path := table_path vol_path table; t_sub := sub' |}) with (next_in {| t_root := root; t_table_path := table_path vol_path table; t_sub := None |}).
      apply (next_in_step _ root a name d d'); try done. intros q. unfold left. cbn [t_root].
      assert (left_sub (mkLister root (table_path vol_path table) sub') q <-> exists b, b ∈ d /\ dotted b = false /\ q = file a b); [|tauto].
      split; [|intros (b & ? & ? & ?); by exists a, d, b]. intros (a' & d2 & b & E2 & _ & ? & ? & Eq). cbn in E2. rewrite Et in E2. injection E2 as Ea Ed. assert (a = a') as <- by (apply sub_inj; congruence). subst d2. eauto.
    + apply Hroot. intros q (a' & d2 & b & E2 & _ & Hb & Hdot & _). rewrite Et in E2. injection E2 as _ <-. by eapply (scan_sub_none d Es b).
  - apply Hroot. intros q (a' & d2 & b & E2 & _). congruence.
Qed.

(** ** Moving a listed file away *)

Lemma elem_children path f b :
  b ∈ children path f <-> (is_Some (f_names f !! (path ++ [SL] ++ b)) \/ path ++ [SL] ++ b ∈ f_dirs f) /\ SL ∉ b /\ b <> [].
Proof.
  unfold children. rewrite elem_of_list_to_set, list_elem_of_omap.
  assert (forall p, p ∈ (map_to_list (f_names f)).*1 ++ elements (f_dirs f) <-> is_Some (f_names f !! p) \/ p ∈ f_dirs f) as Hp.
  { intros p. rewrite elem_of_app, elem_of_elements, list_elem_of_fmap. assert ((exists y, p = y.1 /\ y ∈ map_to_list (f_names f)) <-> is_Some (f_names f !! p)); [|tauto].
    split; [intros ([q i] & -> & Hq%elem_of_map_to_list); eauto|]. intros [i Hi]. exists (p, i). by rewrite elem_of_map_to_list. }
  split.
  - intros (p & Hin & E). unfold entry_of in E. case_bool_decide as E1; [|done]. destruct (drop (length path) p) as [|x name] eqn:Ed; [done|].
    destruct (Z.eqb_spec x SL) as [->|]; [|done]. case_bool_decide as E2; [|done]. case_bool_decide as E3; [done|]. cbn in E. injection E as <-.
    split; [|done]. apply Hp. replace (path ++ [SL] ++ name) with p; [done|]. rewrite <- (take_drop (length path) p), E1, Ed. done.
  - intros [Hin [H1 H2]]. exists (path ++ [SL] ++ b). split; [by apply Hp|]. unfold entry_of. rewrite take_app_length, drop_app_length.
    rewrite bool_decide_eq_true_2 by done. cbn. by rewrite bool_decide_eq_true_2, bool_decide_eq_false_2.
Qed.

Lemma sub_not_bad_dir a : sub a <> bad_dir vol_path.
Proof.
  unfold sub_path, table_path, bad_dir. rewrite <- !app_assoc. intros E%app_inv_head. destruct (fmt_X_head table) as (c & l & Ec & Hc). rewrite Ec in E.
  cbn in E. congruence.
Qed.

Lemma moved_children a b f f' a' : length a = PREFIX_LEN -> length a' = PREFIX_LEN -> a <> a' -> put_aside vol_path (file a b) f f' ->
  children (sub a') f' = children (sub a') f.
Proof.
  intros La La' Hn P. apply set_eq. intros b'. rewrite !elem_children. change (sub a' ++ [SL] ++ b') with (file a' b').
  assert (f_names f' !! file a' b' = f_names f !! file a' b') as ->.
  { destruct (pa_names _ _ _ _ P) as [->|(i & _ & ->)]; [done|]. rewrite lookup_insert_ne, lookup_delete_ne; [done| |apply not_eq_sym, file_not_bad].
    intros [? _]%file_inj; done. }
  destruct (pa_dirs _ _ _ _ P) as [->|[_ ->]]; [done|]. rewrite elem_of_union, elem_of_singleton. pose proof (file_not_bad_dir vol_path table a' b'). tauto.
Qed.

Lemma left_moved t a b f f' : length a = PREFIX_LEN -> a ∉ t_root t -> put_aside vol_path (file a b) f f' -> forall q, left t f' q <-> left t f q.
Proof.
  intros La Ha P q. unfold left. assert (left_root (t_root t) f' q <-> left_root (t_root t) f q); [|tauto].
  assert (forall a', sub a' ∈ f_dirs f' <-> sub a' ∈ f_dirs f) as Hd.
  { intros a'. destruct (pa_dirs _ _ _ _ P) as [->|[_ ->]]; [done|]. rewrite elem_of_union, elem_of_singleton. pose proof (sub_not_bad_dir a'). tauto. }
  assert (forall a', a' ∈ t_root t -> length a' = PREFIX_LEN -> children (sub a') f' = children (sub a') f) as Hc.
  { intros a' Hin La'. eapply moved_children; [|done| |exact P]; [done|]. intros ->. done. }
  split; intros (a' & b' & Hin & (G1 & G2 & G3) & [G4 G5] & E); exists a', b'; (split; [done|]); (split; [split_and!; [done|done|by apply Hd]|]); (split; [|done]); (split; [done|]);
    [by rewrite <- Hc|by rewrite Hc].
Qed.

Lemma left_same t f f' : same_fs f f' -> forall q, left t f' q <-> left t f q.
Proof.
  intros S q. unfold left, left_root, good_sub, good_file. destruct S as (E1 & E2 & E3 & E4 & E5 & E6). rewrite E3.
  assert (forall p, children p f' = children p f) as Hc by (intros p; apply children_same; by split_and!). setoid_rewrite Hc. done.
Qed.

End lister.

(** Inode numbers are told apart by their decimals. *)
Lemma fmt_lu_value fuel : forall n acc, 0 <= n < 10 ^ Z.of_nat fuel -> (0 < fuel)%nat ->
  foldl (fun a c => 10 * a + (c - 48)) 0 (fmt_lu_loop fuel n acc) = foldl (fun a c => 10 * a + (c - 48)) n acc.
Proof.
  induction fuel as [|fuel IH]; intros n acc Hn Hf; [lia|]. cbn [fmt_lu_loop]. pose proof (Z.div_mod n 10 ltac:(lia)) as Hd. pose proof (Z.mod_pos_bound n 10 ltac:(lia)) as Hr.
  destruct (Z.eqb_spec (n / 10) 0) as [E|E]; [cbn [foldl]; f_equal; lia|].
  assert (0 <= n / 10) by (apply Z.div_pos; lia).
  assert (n / 10 < 10 ^ Z.of_nat fuel) by (apply Z.div_lt_upper_bound; [lia|]; rewrite Nat2Z.inj_succ, Z.pow_succ_r in Hn; lia).
  rewrite IH; [|lia|destruct fuel; [cbn in *; lia|lia]]. cbn [foldl]. f_equal. lia.
Qed.

Lemma bad_path_inj vol_path i j : Z.of_nat i < 10 ^ 20 -> Z.of_nat j < 10 ^ 20 -> bad_path vol_path i = bad_path vol_path j -> i = j.
Proof.
  intros Hi Hj E. unfold bad_path in E. apply app_inv_head in E. apply (app_inv_head [47; 98; 97; 100; 47]) in E.
  pose proof (fmt_lu_value 20 (Z.of_nat i) [] ltac:(lia) ltac:(lia)) as V1. pose proof (fmt_lu_value 20 (Z.of_nat j) [] ltac:(lia) ltac:(lia)) as V2.
  unfold fmt_lu in E. rewrite E in V1. cbn [foldl] in V1, V2. lia.
Qed.

(** ** One object, nobody else running *)

Section finds.
Context {H : Type} {HD : TcHdb H} {HI : TcIter H} {SH : Sha} {RD : Readdir}.
Variable vol_path : bytes.
Context (mem : nat -> bool) (mem_ok : forall n, mem n = true).

Definition alone (_ : nat) (c : objcache) (f : fsys) : objcache * fsys := (c, f).

Lemma alone_turn (t : kst H) : k_turn alone t = Some (tt, mkK (k_tls t) (k_srv t) (k_fs t) (S (k_step t))).
Proof. unfold k_turn, alone. by destruct t as [? [] ? ?]. Qed.

Lemma alone_fs {A} (m : F A) (t : kst H) a f' : m (k_fs t) = Some (a, f') -> k_fs_do alone m t = Some (a, mkK (k_tls t) (k_srv t) f' (S (k_step t))).
Proof. intros E. unfold k_fs_do, mbind, K_bind. rewrite alone_turn. cbn [k_fs]. by rewrite E. Qed.

Lemma alone_cache {A} (m : objcache -> option (A * objcache)) (t : kst H) a c' :
  m (v_actives (k_srv t)) = Some (a, c') -> k_cache alone m t = Some (a, mkK (k_tls t) (set_v_actives c' (k_srv t)) (k_fs t) (S (k_step t))).
Proof. intros E. unfold k_cache, mbind, K_bind. rewrite alone_turn. cbn [k_srv]. by rewrite E. Qed.

Lemma k_bind {A B} (m : K A) (k : A -> K B) (t : kst H) a t' : m t = Some (a, t') -> (m ≫= k) t = k a t'.
Proof. intros E. unfold mbind, K_bind. by rewrite E. Qed.

(** Is the object of [key] being changed? *)
Definition changing (c : objcache) (key : bytes) : bool := match oc_abs c !! objcache_hash key with Some (_, d) => d | None => false end.

Lemma get_put_abs held c key : oc_inv held c -> exists p c', objcache_get true key 0 c = Some (p, c') /\
  objcache_test_dirty p c' = Some (changing c key) /\ exists c2, objcache_put p c' = Some c2 /\ oc_inv held c2 /\ oc_abs c2 = oc_abs c.
Proof.
  intros I. destruct (objcache_get_spec held key false c I) as (p & c' & E & I' & Ha & Ht). change (dirty_flag false) with 0 in E. exists p, c'. split; [done|].
  destruct (objcache_put_spec (p :: held) p c' I' ltac:(left)) as (e & c2 & He & Ep & I2 & Ha2). cbn [remove_first] in I2. rewrite decide_True in I2 by done.
  assert (oe_hash e = objcache_hash key) as Hh. { apply (ci_table _ _ I') in Ht as (e' & He' & Eh). congruence. }
  assert (oc_abs c' !! objcache_hash key = Some (oe_ref e, flag (oe_flags e) OC_F_DIRTY)) as Hl by (rewrite abs_lookup, Ht; cbn; unfold abs_entry; by rewrite He).
  rewrite Ha in Hl. unfold aget in Hl. rewrite lookup_insert_eq in Hl. split.
  - unfold objcache_test_dirty. rewrite He. f_equal. unfold changing. destruct (oc_abs c !! objcache_hash key) as [[n d]|]; [|congruence]. injection Hl as _ <-. by rewrite orb_false_r.
  - exists c2. split_and!; [done|done|]. rewrite Ha2, Ha, Hh. unfold aput, aget. rewrite lookup_insert_eq.
    destruct (oc_abs c !! objcache_hash key) as [[n d]|] eqn:Ea; [|by rewrite Z.eqb_refl, delete_insert_id].
    assert (0 < n) as Hn. { rewrite abs_lookup in Ea. destruct (oc_table c !! _) as [q|]; [|done]. cbn in Ea. unfold abs_entry in Ea. destruct (oc_heap c !! q) as [e0|] eqn:E0; [|done]. cbn in Ea. injection Ea as <- _. by apply (ci_ref _ _ I) in E0 as [_ ?]. }
    rewrite (proj2 (Z.eqb_neq _ 1)) by lia. rewrite insert_insert_eq, orb_false_r. apply insert_id. rewrite Ea. do 2 f_equal. lia.
Qed.

Lemma put_aside_same fn f f1 f2 : same_fs f f1 -> put_aside vol_path fn f1 f2 -> put_aside vol_path fn f f2.
Proof.
  intros (E1 & E2 & E3 & E4 & E5 & E6) [A1 A2 A3 A4 A5 A6]. unfold moved in *. rewrite E1, ?E2, ?E3, ?E4, ?E6 in *. split; try done; try congruence. intros C. apply A6. by eapply calm_oracle.
Qed.

Lemma chk_obj_run fn i m held (t : kst H) j :
  f_names (k_fs t) !! fn = Some j -> parse_hdr (fi_data (file_of (k_fs t) j)) m = Some i -> calm (k_fs t) -> fn ∉ f_dirs (k_fs t) ->
  oc_inv held (v_actives (k_srv t)) ->
  exists t', chk_obj vol_path alone mem fn i t = Some (tt, t') /\ oc_inv held (v_actives (k_srv t')) /\ oc_abs (v_actives (k_srv t')) = oc_abs (v_actives (k_srv t)) /\
    if spoiled (fi_data (file_of (k_fs t) j)) && negb (changing (v_actives (k_srv t)) (oi_key i)) then put_aside vol_path fn (k_fs t) (k_fs t') else same_fs (k_fs t) (k_fs t').
Proof.
  intros Hj Hp C Hfn I. destruct (parse_bounds _ _ _ Hp) as (B1 & B2 & B3 & B4). set (c := v_actives (k_srv t)) in *. set (d := fi_data _) in *.
  destruct (get_put_abs held c (oi_key i) I) as (p & c1 & Eg & Ed & c2 & Epu & I2 & A2). unfold chk_obj. rewrite B2, B4.
  rewrite (k_bind _ _ t t t) by done. rewrite mem_ok. rewrite (k_bind _ _ _ _ _ (alone_cache _ _ _ _ Eg)). cbn [k_tls k_srv k_fs k_step].
  destruct (fw_total _ _ _ (do_sum_spec fn (Z.of_nat (length (oi_key i))) (oi_csumlen i) (k_fs t) (calm_whole _ C) ltac:(lia) ltac:(lia))) as (r & f1 & Es & S1 & Hr).
  rewrite Hj in Hr. destruct r as [md|]; [|done]. fold d in Hr.
  rewrite (k_bind _ _ _ _ _ (alone_fs _ (mkK _ (set_v_actives c1 (k_srv t)) (k_fs t) _) _ _ Es)). cbn [k_tls k_srv k_fs k_step].
  match goal with |- context[(?m ≫= ?k) ?t1] => set (t1' := t1); set (K2 := k) end.
  assert (forall tls n f, exists t', K2 tt (mkK tls (set_v_actives c1 (k_srv t)) f n) = Some (tt, t') /\ v_actives (k_srv t') = c2 /\ k_fs t' = f) as HK2.
  { intros tls n f. eexists. split; [unfold K2; apply alone_cache; cbn; rewrite Epu; done|done]. }
  clearbody K2. assert (spoiled d = negb (bool_decide (oi_hash i = md))) as Hsp.
  { unfold spoiled. rewrite (parse_time _ _ _ Hp). cbn [oi_hash oi_key oi_csumlen]. by rewrite Hr. }
  rewrite Hsp. destruct (changing c (oi_key i)) eqn:Ech; [|case_bool_decide as Eh].
  - destruct (HK2 (mkTls (stat_ok (k_tls t)) (s32 (stat_conflict (k_tls t) + 1))) (S (S (S (k_step t)))) f1) as (t' & E & Ec & Ef). exists t'. rewrite andb_false_r, Ec, Ef. split; [|done].
    erewrite k_bind; [exact E|]. erewrite k_bind; [|apply (alone_cache _ _ true c1); cbn; by rewrite Ed]. by unfold t1'; destruct (k_srv t).
  - destruct (HK2 (mkTls (s32 (stat_ok (k_tls t) + 1)) (stat_conflict (k_tls t))) (S (S (S (k_step t)))) f1) as (t' & E & Ec & Ef). exists t'. rewrite Ec, Ef. split; [|done].
    erewrite k_bind; [exact E|]. erewrite k_bind; [|apply (alone_cache _ _ false c1); cbn; by rewrite Ed]. by unfold t1'; destruct (k_srv t).
  - assert (fn ∉ f_dirs f1) as Hf1 by (destruct S1 as (_ & _ & -> & _); done). destruct (fw_total _ _ _ (disable_spec vol_path fn f1 Hf1)) as (rc & f2 & Edis & P).
    destruct (HK2 (k_tls t) (S (S (S (S (k_step t))))) f2) as (t' & E & Ec & Ef). exists t'. rewrite Ec, Ef. split; [|split_and!; [done|done|by eapply put_aside_same]].
    erewrite k_bind; [exact E|]. erewrite k_bind; [|apply (alone_cache _ _ false c1); cbn; by rewrite Ed]. rewrite (k_bind _ _ _ _ _ (eq_refl : k_get _ = _)). cbn [negb].
    erewrite k_bind; [|apply alone_fs; exact Edis]. by unfold t1'; destruct (k_srv t).
Qed.

(** ** The whole table *)

Definition key_of (d : bytes) : bytes := match parse_hdr d 0 with Some i => oi_key i | None => [] end.

(** To be put aside: the file is spoiled and nobody changes the object. *)
Definition condemned (f : fsys) (c : objcache) (q : bytes) : bool :=
  match content f q with Some d => spoiled d && negb (changing c (key_of d)) | None => false end.

Record scanned (f0 : fsys) (c0 : objcache) (held : list nat) (seen : list bytes) (t : kst H) : Prop := {
  sc_names q : (forall i, q <> bad_path vol_path i) ->
    f_names (k_fs t) !! q = if bool_decide (q ∈ seen) && condemned f0 c0 q then None else f_names f0 !! q;
  sc_bad q i : q ∈ seen -> condemned f0 c0 q = true -> f_names f0 !! q = Some i -> f_names (k_fs t) !! bad_path vol_path i = Some i;
  sc_inodes : f_inodes (k_fs t) = f_inodes f0;
  sc_calm : calm (k_fs t);
  sc_wf : fs_wf (k_fs t);
  sc_flat : flat vol_path (k_fs t);
  sc_cache : oc_inv held (v_actives (k_srv t));
  sc_abs : oc_abs (v_actives (k_srv t)) = oc_abs c0 }.

Lemma scanned_same f0 c0 held seen (t t' : kst H) : scanned f0 c0 held seen t -> same_fs (k_fs t) (k_fs t') -> k_srv t' = k_srv t -> scanned f0 c0 held seen t'.
Proof.
  intros [A1 A2 A3 A4 A5 A6 A7 A8] S Ev. split; rewrite ?Ev; try done.
  - intros q Hq. destruct S as (-> & _). by apply A1.
  - intros q i. destruct S as (-> & _). by apply A2.
  - destruct S as (_ & -> & _). done.
  - by eapply calm_same.
  - by eapply same_wf.
  - destruct S as (_ & _ & E & _). destruct A6 as [B1 B2]. split; rewrite E; done.
Qed.

Lemma chk_obj_scanned f0 c0 held seen (t : kst H) fn i m j table a b :
  scanned f0 c0 held seen t -> fn = file_path vol_path table a b -> length a = PREFIX_LEN -> fn ∉ seen -> f_names f0 !! fn = Some j -> Z.of_nat j < 10 ^ 20 ->
  (forall q k, f_names f0 !! q = Some k -> Z.of_nat k < 10 ^ 20) -> is_Some (f_inodes f0 !! j) -> f_names f0 !! bad_dir vol_path = None -> bad_dir vol_path ∉ seen ->
  (forall q, q ∈ seen -> exists a b, q = file_path vol_path table a b /\ length a = PREFIX_LEN) -> fs_wf f0 ->
  parse_hdr (fi_data (file_of f0 j)) m = Some i ->
  exists t', chk_obj vol_path alone mem fn i t = Some (tt, t') /\ scanned f0 c0 held (fn :: seen) t' /\ (same_fs (k_fs t) (k_fs t') \/ put_aside vol_path fn (k_fs t) (k_fs t')).
Proof.
  intros [A1 A2 A3 A4 A5 A6 A7 A8] Efn La Hfn Hj Hj20 Hall [[d tm] Hin] Hbd Hbs Hseen W0 Hp.
  assert (forall k, fn <> bad_path vol_path k) as Hnb by (intros k; rewrite Efn; apply file_not_bad).
  assert (f_names (k_fs t) !! fn = Some j) as Hjt by (rewrite A1, bool_decide_eq_false_2 by done; done).
  assert (file_of (k_fs t) j = file_of f0 j) as Hfo by (unfold file_of; by rewrite A3).
  assert (condemned f0 c0 fn = spoiled (fi_data (file_of f0 j)) && negb (changing c0 (oi_key i))) as Hc.
  { unfold condemned, content. rewrite Hj. cbn. rewrite Hin. cbn. unfold file_of in *. rewrite Hin in *. cbn in *. unfold key_of. by rewrite (parse_time _ _ _ Hp). }
  assert (changing (v_actives (k_srv t)) (oi_key i) = changing c0 (oi_key i)) as Hch by (unfold changing; by rewrite A8).
  assert (fn ∉ f_dirs (k_fs t)) as Hnd by (rewrite Efn; by apply A6).
  destruct (chk_obj_run fn i m held t j Hjt) as (t' & E & I' & Ab & R); [by rewrite Hfo|done|done|done|]. rewrite Hfo, Hch, <- Hc in R. exists t'. split; [done|].
  assert (forall q, bool_decide (q ∈ fn :: seen) = bool_decide (q = fn) || bool_decide (q ∈ seen)) as Hmem.
  { intros q. rewrite <- bool_decide_or. apply bool_decide_ext, elem_of_cons. }
  destruct (condemned f0 c0 fn) eqn:Econ; [|split; [|by left]].
  - split; [|by right]. assert (exists k, moved vol_path fn k (k_fs t) (k_fs t')) as (k & Hk & En).
    { apply (pa_done _ _ _ _ R); [done| |eauto]. rewrite A1; [|intros k; apply not_eq_sym, bad_not_dir]. by rewrite bool_decide_eq_false_2. }
    assert (k = j) as -> by congruence. destruct (put_aside_wf _ _ _ _ A5 A6 R) as [W' F']. split; rewrite ?(pa_inodes _ _ _ _ R); try done; try congruence.
    + intros q Hq. rewrite En, lookup_insert_ne by (by apply not_eq_sym). rewrite Hmem. case_bool_decide as Hqf; cbn [orb].
      * subst q. by rewrite lookup_delete_eq, Econ.
      * rewrite lookup_delete_ne by done. by apply A1.
    + intros q i' Hq Hcq Hqi. rewrite En. destruct (decide (i' = j)) as [->|Hne]; [apply lookup_insert_eq|].
      rewrite lookup_insert_ne by (intros Eb%bad_path_inj; [by apply Hne|done|by eapply Hall]). rewrite lookup_delete_ne by done.
      apply elem_of_cons in Hq as [->|Hq]; [congruence|by apply (A2 q)].
    + eapply calm_oracle; [apply (pa_oracle _ _ _ _ R)|done].
  - assert (scanned f0 c0 held seen (mkK (k_tls t) (k_srv t') (k_fs t) (k_step t))) as Hs by (split; try done; cbn; congruence).
    apply (scanned_same _ _ _ _ _ t') in Hs; [|done|done]. destruct Hs as [D1 D2 D3 D4 D5 D6 D7 D8]. split; try done.
    + intros q Hq. rewrite Hmem. case_bool_decide as Hqf; cbn [orb]; [subst q|by apply D1]. rewrite D1, Econ, andb_false_r by done. done.
    + intros q i' [->|Hq]%elem_of_cons Hcq; [congruence|by apply D2].
Qed.

(** The volume before the scan. *)
Context (f0 : fsys) (c0 : objcache) (held : list nat) (table : Z).
Hypothesis wf0 : fs_wf f0.
Hypothesis flat0 : flat vol_path f0.
Hypothesis no_bad : f_names f0 !! bad_dir vol_path = None.
Hypothesis inodes0 : forall q k, f_names f0 !! q = Some k -> Z.of_nat k < 10 ^ 20.
(** Every file of the table has a proper header. *)
Hypothesis parsed : forall q, tfile vol_path table f0 q -> exists j, f_names f0 !! q = Some j /\ is_Some (parse_hdr (fi_data (file_of f0 j)) 0).

Lemma parse_any d m : is_Some (parse_hdr d 0) -> is_Some (parse_hdr d m).
Proof. unfold parse_hdr. cbn zeta. repeat case_match; done. Qed.

Lemma seen_bound seen : NoDup seen -> (forall q, q ∈ seen -> tfile vol_path table f0 q) -> (length seen <= size (f_names f0))%nat.
Proof.
  intros Hn Hs. rewrite <- length_map_to_list, <- (length_fmap fst). apply submseteq_length, NoDup_submseteq; [done|].
  intros q Hq. destruct (parsed q (Hs q Hq)) as (j & Hj & _). apply list_elem_of_fmap. exists (q, j). by rewrite elem_of_map_to_list.
Qed.

Lemma chk_loop_finds fuel lister (t : kst H) seen :
  scanned f0 c0 held seen t -> fresh vol_path table lister -> (forall q, tfile vol_path table f0 q <-> q ∈ seen \/ left vol_path table lister (k_fs t) q) ->
  (forall q, q ∈ seen -> ~ left vol_path table lister (k_fs t) q) -> NoDup seen -> (size (f_names f0) - length seen < fuel)%nat ->
  exists t' seen', chk_loop vol_path alone mem fuel lister t = Some (tt, t') /\ scanned f0 c0 held seen' t' /\ forall q, tfile vol_path table f0 q <-> q ∈ seen'.
Proof.
  revert lister t seen. induction fuel as [|fuel IH]; intros lister t seen Hs Hf Hq Hd Hn Hfuel; [lia|]. cbn [chk_loop].
  destruct (fw_total _ _ _ (next_step vol_path table lister (k_fs t) Hf (sc_calm _ _ _ _ _ Hs))) as (r & f1 & E1 & S1 & R).
  rewrite (k_bind _ _ _ _ _ (alone_fs _ t _ _ E1)). set (t1 := mkK (k_tls t) (k_srv t) f1 (S (k_step t))).
  assert (scanned f0 c0 held seen t1) as Hs1 by (by eapply scanned_same).
  destruct r as [[[fn|]|] l']; cbn [stepped] in R; [| |done].
  2:{ exists t1, seen. split; [done|]. split; [done|]. intros q. rewrite Hq. pose proof (R q). tauto. }
  destruct R as (Hf' & HL & HnL & Hiff & a & b & Efn & La & Ha). cbn beta iota.
  assert (tfile vol_path table f0 fn) as Htf by (apply Hq; by right). destruct (parsed fn Htf) as (j & Hj & Hpj).
  assert (fn ∉ seen) as Hns by (intros Hin; by apply (Hd fn Hin)).
  assert (forall k, fn <> bad_path vol_path k) as Hnb by (intros k; rewrite Efn; apply file_not_bad).
  assert (f_names f1 !! fn = Some j) as Hj1 by (change f1 with (k_fs t1); rewrite (sc_names _ _ _ _ _ Hs1), bool_decide_eq_false_2 by done; done).
  assert (file_of f1 j = file_of f0 j) as Hfo by (unfold file_of; change f1 with (k_fs t1); by rewrite (sc_inodes _ _ _ _ _ Hs1)).
  pose proof (sc_calm _ _ _ _ _ Hs1) as C1. destruct (fw_total _ _ _ (hdr_read_spec fn f1 (calm_whole _ C1))) as (r & f2 & E2 & S2 & Hr). rewrite Hj1, Hfo in Hr.
  rewrite (k_bind _ _ _ _ _ (alone_fs _ t1 _ _ E2)). set (t2 := mkK (k_tls t1) (k_srv t1) f2 (S (k_step t1))).
  assert (scanned f0 c0 held seen t2) as Hs2 by (by eapply scanned_same). destruct (parse_any _ (fi_mtime (file_of f0 j)) Hpj) as [i Hi].
  destruct Hr as [[_ Hr]|Hr]; [done|]. rewrite Hi in Hr. subst r.
  assert (forall q, q ∈ seen -> exists a b, q = file_path vol_path table a b /\ length a = PREFIX_LEN) as Hshape.
  { intros q Hin. destruct (proj2 (Hq q) (or_introl Hin)) as (a' & b' & _ & (_ & La' & _) & _ & Eq). eauto. }
  assert (bad_dir vol_path ∉ seen) as Hbs by (intros Hin; destruct (Hshape _ Hin) as (a' & b' & Eb & _); symmetry in Eb; by apply file_not_bad_dir in Eb).
  destruct (chk_obj_scanned f0 c0 held seen t2 fn i _ j table a b Hs2 Efn La Hns Hj (inodes0 _ _ Hj) inodes0 (fs_live _ wf0 _ _ Hj) no_bad Hbs Hshape wf0 Hi) as (t3 & E3 & Hs3 & Hmv).
  rewrite (k_bind _ _ _ _ _ E3).
  assert (forall q, left vol_path table l' (k_fs t3) q <-> left vol_path table l' (k_fs t) q) as Hl3.
  { intros q. assert (same_fs (k_fs t) f2) as S02 by (by etrans). rewrite <- (left_same vol_path table l' _ _ S02 q).
    destruct Hmv as [S3|P3]; [by apply left_same|]. rewrite Efn in P3. by apply (left_moved vol_path table l' a b). }
  destruct (IH l' t3 (fn :: seen)) as (t' & seen' & E & Hs' & Hq'); try done.
  - intros q. rewrite Hq, Hiff, elem_of_cons, Hl3. tauto.
  - intros q Hin. rewrite Hl3. apply elem_of_cons in Hin as [->|Hin]; [done|]. intros Hl. apply (Hd q Hin), Hiff. by right.
  - by constructor.
  - assert (length (fn :: seen) <= size (f_names f0))%nat as Hb; [|cbn [length] in *; lia]. apply seen_bound; [by constructor|]. intros q [->|Hin]%elem_of_cons; [done|apply Hq; by left].
  - eauto.
Qed.

Lemma obj_path_tfile key : table_path vol_path table ∈ f_dirs f0 -> obj_dir vol_path table key ∈ f_dirs f0 -> is_Some (f_names f0 !! obj_path vol_path table key) ->
  tfile vol_path table f0 (obj_path vol_path table key).
Proof.
  intros Ht Hd Hn. set (h := hexstr (SHA256 key)). assert (Forall (fun x => 48 <= x) h) as Hh.
  { unfold h, hexstr. apply Forall_concat, Forall_fmap, Forall_true. intros x. cbn. assert (forall n, 0 <= n -> 48 <= hexdigit n) as Hx by (intros n ?; unfold hexdigit; destruct (n <? 10); lia).
    repeat constructor; apply Hx; [apply Z.shiftr_nonneg|]; apply Z.land_nonneg; lia. }
  assert (length (take PREFIX_LEN h) = PREFIX_LEN /\ drop PREFIX_LEN h <> [] /\ head (take PREFIX_LEN h) = head h) as (L1 & L2 & L3).
  { unfold h. pose proof (length_SHA256 key) as L. destruct (SHA256 key) as [|x [|y l]]; done. }
  assert (forall l, Forall (fun x => 48 <= x) l -> SL ∉ l /\ dotted l = false) as Hl.
  { intros l Fl. split; [intros Hin; rewrite Forall_forall in Fl; apply Fl in Hin; unfold SL in Hin; lia|]. unfold dotted. apply bool_decide_eq_false_2. destruct Fl; [done|]. cbn. intros [= ->]. lia. }
  destruct (Hl (take PREFIX_LEN h)) as [T1 T2]; [by apply Forall_take|]. destruct (Hl (drop PREFIX_LEN h)) as [D1 D2]; [by apply Forall_drop|].
  exists (take PREFIX_LEN h), (drop PREFIX_LEN h). split; [|split; [by split_and!|split; [|done]]].
  - apply elem_children. split; [by right|]. split; [done|]. intros E. by rewrite E in L1.
  - split; [done|]. apply elem_children. split; [by left|done].
Qed.

(** C28. On a quiet, working volume whose object files have proper headers, the
    self-check of a table moves exactly the spoiled objects that nobody is
    changing to the directory of bad files; every other file keeps its name
    and contents, and the table of active objects is as before. *)
Theorem selfcheck_finds tls (v : server H) n rounds :
  calm f0 -> v_actives v = c0 -> oc_inv held c0 -> table_path vol_path table ∈ f_dirs f0 -> (size (f_names f0) < rounds)%nat ->
  exists t', chk_list_objs vol_path alone mem rounds table (mkK tls v f0 n) = Some (tt, t') /\
    oc_inv held (v_actives (k_srv t')) /\ oc_abs (v_actives (k_srv t')) = oc_abs c0 /\
    (forall key d, content f0 (obj_path vol_path table key) = Some d -> obj_dir vol_path table key ∈ f_dirs f0 ->
       if spoiled d && negb (changing c0 (key_of d))
       then content (k_fs t') (obj_path vol_path table key) = None /\
         exists i, f_names f0 !! obj_path vol_path table key = Some i /\ content (k_fs t') (bad_path vol_path i) = Some d
       else content (k_fs t') (obj_path vol_path table key) = Some d) /\
    forall q, ~ tfile vol_path table f0 q -> (forall i, q <> bad_path vol_path i) -> content (k_fs t') q = content f0 q.
Proof.
  intros C Ev I Ht Hr. unfold chk_list_objs. destruct (fw_total _ _ _ (list_open_spec vol_path table f0)) as (r & f1 & E1 & S1 & Ho).
  rewrite (k_bind _ _ _ _ _ (alone_fs _ (mkK tls v f0 n) _ _ E1)). destruct r as [l|e]; [|by destruct (Ho C)]. destruct Ho as [_ ->]. cbn [k_tls k_srv k_step].
  assert (scanned f0 c0 held [] (mkK tls v f1 (S n))) as Hs.
  { apply (scanned_same _ _ _ _ (mkK tls v f0 n)); [|done|done]. split; cbn; rewrite ?Ev; try done.
    - intros q i Hin. by apply not_elem_of_nil in Hin. }
  assert (forall a, a ∈ dir_list (table_path vol_path table) f1 <-> a ∈ children (table_path vol_path table) f0) as Hdl.
  { intros a. rewrite (dir_list_ok _ f1), elem_of_elements. by rewrite (children_same _ _ _ S1). }
  destruct (chk_loop_finds rounds (mkLister (dir_list (table_path vol_path table) f1) (table_path vol_path table) None) _ [] Hs) as (t' & seen & E & Hs' & Hq).
  - split; [done| |done]. cbn. rewrite (dir_list_ok _ f1). apply NoDup_elements.
  - intros q. cbn [k_fs]. rewrite (left_same vol_path table _ _ _ S1). unfold left, tfile, left_root, left_sub. cbn [t_root t_sub]. setoid_rewrite Hdl.
    split; [intros Hx; right; by right|]. intros [Hx%not_elem_of_nil|[(a & d & b & [=] & _)|Hx]]; done.
  - intros q Hx. by apply not_elem_of_nil in Hx.
  - constructor.
  - cbn. lia.
  - exists t'. split; [done|]. split; [apply Hs'|]. split; [apply Hs'|].
    assert (forall q, (forall i, q <> bad_path vol_path i) -> content (k_fs t') q = if bool_decide (q ∈ seen) && condemned f0 c0 q then None else content f0 q) as Hct.
    { intros q Hb. unfold content. rewrite (sc_names _ _ _ _ _ Hs' q Hb), (sc_inodes _ _ _ _ _ Hs'). by destruct (_ && _). }
    split.
    + intros key d Hd Hdir. destruct (obj_path_file vol_path table key) as (a & b & Ep & _).
      assert (forall i, obj_path vol_path table key <> bad_path vol_path i) as Hb by (intros i; rewrite Ep; apply file_not_bad).
      assert (exists i, f_names f0 !! obj_path vol_path table key = Some i) as [i Hi] by (unfold content in Hd; destruct (f_names f0 !! obj_path vol_path table key) as [i|]; [by exists i|done]).
      assert (obj_path vol_path table key ∈ seen) as Hin by (apply Hq, obj_path_tfile; eauto).
      rewrite (Hct _ Hb), bool_decide_eq_true_2 by done.
      assert (condemned f0 c0 (obj_path vol_path table key) = spoiled d && negb (changing c0 (key_of d))) as Hcon by (unfold condemned; by rewrite Hd). rewrite Hcon, Hd. cbn [andb].
      destruct (spoiled d && negb (changing c0 (key_of d))) eqn:Ec; [|done]. split; [done|]. exists i. split; [done|]. unfold content.
      rewrite (sc_bad _ _ _ _ _ Hs' _ _ Hin); [|congruence|done]. cbn. rewrite (sc_inodes _ _ _ _ _ Hs'). unfold content in Hd. by rewrite Hi in Hd.
    + intros q Hn Hb. rewrite (Hct q Hb), bool_decide_eq_false_2; [done|]. by rewrite <- Hq.
Qed.

End finds.
