(* ===== verification/DirCur.v ===== *)
(** * DirCur: reading a directory on the client side

    The directory walkers of lib/cldc.c ([cldc_dirent_count],
    [cldc_dirent_first], [cldc_dirent_next], [cldc_dirent_name]) and the loop
    of their callers (tools/cldcli.c, tools/cldfuse.c).  They walk the data the
    server builds with [dirdata_append]; listing is shown to invert it, and to
    stay inside the buffer whatever the buffer holds. *)

From S2P Require Import Prelude Dirent.
#[local] Open Scope Z_scope.

(** A [struct cld_dirent_cur] is the data from [p] on; [tmp_len] is its length. *)
Abbreviation dirent_cur := bytes.

(** [Err (-2)]: malformed data. *)
Fixpoint count_loop (fuel : nat) (p : bytes) (count : Z) : res Z :=
  match fuel with
  | O => Err (-2)
  | S fuel =>
      let tmp_len := Z.of_nat (length p) in
      if tmp_len =? 0 then Ok count else
      if tmp_len <? 2 then Err (-2) else
      let total_len := rec_total_len (rec_str_len p) in
      if tmp_len <? total_len then Err (-2) else
      count_loop fuel (drop (Z.to_nat total_len) p) (count + 1)
  end.

Definition cldc_dirent_count (data : bytes) : res Z := count_loop (S (length data)) data 0.

(** [None]: -1. *)
Definition dirent_length (buf : bytes) : option Z :=
  if Z.of_nat (length buf) <? 2 then None else
  let total_len := rec_total_len (rec_str_len buf) in
  if Z.of_nat (length buf) <? total_len then None else Some total_len.

Definition cldc_dirent_cur_init (buf : bytes) : dirent_cur := buf.

Definition cldc_dirent_first (dc : dirent_cur) : Z :=
  match dirent_length dc with None => -2 | Some _ => 0 end.

(** Return code and the cursor, which stays advanced when the next record is bad. *)
Definition cldc_dirent_next (dc : dirent_cur) : Z * dirent_cur :=
  match dirent_length dc with
  | None => (-2, dc)
  | Some len =>
      let dc := drop (Z.to_nat len) dc in
      match dirent_length dc with None => (-2, dc) | Some _ => (0, dc) end
  end.

(** The name, [Some None] for a failed [malloc], [None] for a read past the
    data: the function itself checks nothing. *)
Definition cldc_dirent_name (alloc : bool) (dc : dirent_cur) : option (option bytes) :=
  if Z.of_nat (length dc) <? 2 then None else
  let str_len := rec_str_len dc in
  if negb alloc then Some None else
  if Z.of_nat (length dc) <? str_len + 2 then None else
  Some (Some (take (Z.to_nat str_len) (drop 2 dc))).

(** The callers' loop, [n] records to go. *)
Fixpoint list_loop (alloc : nat -> bool) (n : nat) (first : bool) (dc : dirent_cur) : option (list (option bytes)) :=
  match n with
  | O => Some []
  | S n =>
      let '(rc, dc) := if first then (cldc_dirent_first dc, dc) else cldc_dirent_next dc in
      if rc <? 0 then Some [] else
      match cldc_dirent_name (alloc n) dc with
      | None => None
      | Some s => cons s <$> list_loop alloc n false dc
      end
  end.

(** The printed names; [Some (Err _)]: reported as unreadable. *)
Definition list_dir (alloc : nat -> bool) (data : bytes) : option (res (list (option bytes))) :=
  match cldc_dirent_count data with
  | Err e => Some (Err e)
  | Ok n_records => Ok <$> list_loop alloc (Z.to_nat n_records) true (cldc_dirent_cur_init data)
  end.

(** ** Any data *)

(** [n] whole records and nothing else. *)
Inductive records : nat -> bytes -> Prop :=
| records_nil : records 0 []
| records_cons n p total : dirent_length p = Some total ->
    records n (drop (Z.to_nat total) p) -> records (S n) p.

Lemma dirent_length_ge (p : bytes) (t : Z) :
  Forall (fun b => is_byte b) p -> dirent_length p = Some t ->
  2 <= t <= Z.of_nat (length p) /\ rec_str_len p + 2 <= t.
Proof.
  intros Hp. unfold dirent_length. destruct (Z.ltb_spec (Z.of_nat (length p)) 2); [done|].
  destruct (Z.ltb_spec (Z.of_nat (length p)) (rec_total_len (rec_str_len p))); [done|].
  intros [= <-]. pose proof (rec_total_len_ge (rec_str_len p)).
  pose proof (rec_str_len_nonneg p Hp). lia.
Qed.

Lemma count_loop_spec (fuel : nat) (p : bytes) (c : Z) :
  (length p < fuel)%nat -> Forall (fun b => is_byte b) p ->
  match count_loop fuel p c with
  | Ok n => c <= n /\ records (Z.to_nat (n - c)) p
  | Err e => e = -2 /\ forall n, ~ records n p
  end.
Proof.
  revert p c. induction fuel as [|fuel IH]; intros p c Hf Hp; [lia|]. cbn [count_loop].
  assert (p <> [] -> dirent_length p = None -> forall n, ~ records n p) as Hbad.
  { intros Hne Hd n Hr. inversion Hr; subst; [done|congruence]. }
  destruct (Z.eqb_spec (Z.of_nat (length p)) 0) as [He|He].
  { destruct p; [|done]. rewrite Z.sub_diag. split; [lia|constructor]. }
  assert (p <> []) as Hne by (intros ->; done).
  destruct (dirent_length p) as [t|] eqn:Ed.
  - pose proof (dirent_length_ge _ _ Hp Ed) as [Ht _]. pose proof Ed as Ed'. unfold dirent_length in Ed.
    destruct (Z.of_nat (length p) <? 2); [done|].
    destruct (Z.of_nat (length p) <? rec_total_len (rec_str_len p)); [done|]. injection Ed as ->.
    specialize (IH (drop (Z.to_nat t) p) (c + 1)). rewrite length_drop in IH.
    specialize (IH ltac:(lia) ltac:(by apply Forall_drop)).
    destruct (count_loop fuel _ _) as [n|e].
    + destruct IH as [Hc Hr]. split; [lia|]. replace (Z.to_nat (n - c)) with (S (Z.to_nat (n - (c + 1)))) by lia.
      by econstructor.
    + destruct IH as [-> Hno]. split; [done|]. intros n Hr. inversion Hr; subst; [done|].
      simplify_eq. by eapply Hno.
  - specialize (Hbad Hne eq_refl). unfold dirent_length in Ed.
    destruct (Z.of_nat (length p) <? 2); [done|].
    destruct (Z.of_nat (length p) <? rec_total_len (rec_str_len p)); done.
Qed.

Lemma dirent_name_ok (alloc : bool) (p : bytes) (t : Z) :
  Forall (fun b => is_byte b) p -> dirent_length p = Some t ->
  cldc_dirent_name alloc p = Some (if alloc then Some (take (Z.to_nat (rec_str_len p)) (drop 2 p)) else None).
Proof.
  intros Hp Hd. destruct (dirent_length_ge _ _ Hp Hd) as [H1 H2]. unfold cldc_dirent_name.
  rewrite (proj2 (Z.ltb_ge _ _)) by lia. destruct alloc; cbn [negb]; [|done].
  by rewrite (proj2 (Z.ltb_ge _ _)) by lia.
Qed.

(** The walk over [n] records that follow the one the cursor is on. *)
Lemma list_loop_next (alloc : nat -> bool) (n : nat) (p : bytes) (t : Z) :
  Forall (fun b => is_byte b) p -> dirent_length p = Some t -> records n (drop (Z.to_nat t) p) ->
  exists l, list_loop alloc n false p = Some l /\ length l = n.
Proof.
  revert p t. induction n as [|n IH]; intros p t Hp Hd Hr; [by exists []|].
  inversion Hr as [|? ? t' Hd' Hr']; subst. cbn [list_loop]. unfold cldc_dirent_next. rewrite Hd, Hd'.
  cbn [Z.ltb Z.compare]. rewrite (dirent_name_ok _ _ t') by (try apply Forall_drop; done).
  destruct (IH (drop (Z.to_nat t) p) t') as (l & -> & Hl); [by apply Forall_drop|done|done|].
  cbn. eexists. split; [done|]. cbn. by rewrite Hl.
Qed.

Lemma list_loop_first (alloc : nat -> bool) (n : nat) (p : bytes) :
  Forall (fun b => is_byte b) p -> records n p ->
  exists l, list_loop alloc n true p = Some l /\ length l = n.
Proof.
  intros Hp Hr. inversion Hr as [|m ? t Hd Hr']; subst; [by exists []|].
  cbn [list_loop]. unfold cldc_dirent_first. rewrite Hd. cbn [Z.ltb Z.compare].
  rewrite (dirent_name_ok _ _ t) by done.
  destruct (list_loop_next alloc m p t Hp Hd Hr') as (l & -> & Hl).
  cbn. eexists. split; [done|]. cbn. by rewrite Hl.
Qed.

(** Reading a directory is memory safe and total on arbitrary data: the
    count ends, either refusing the data (exactly when it is not a whole number
    of records) or with the number of records, and then the callers' loop reads
    inside the buffer only and produces that many entries, whichever
    allocations fail. *)
Theorem list_dir_safe (alloc : nat -> bool) (data : bytes) :
  Forall (fun b => is_byte b) data ->
  (list_dir alloc data = Some (Err (-2)) /\ forall n, ~ records n data) \/
  exists n l, list_dir alloc data = Some (Ok l) /\ length l = n /\ records n data.
Proof.
  intros Hp. unfold list_dir, cldc_dirent_cur_init.
  pose proof (count_loop_spec (S (length data)) data 0 ltac:(lia) Hp) as Hc. fold (cldc_dirent_count data) in Hc.
  destruct (cldc_dirent_count data) as [n|e].
  - right. destruct Hc as [_ Hr]. rewrite Z.sub_0_r in Hr.
    destruct (list_loop_first alloc _ _ Hp Hr) as (l & -> & Hl). cbn. eauto.
  - left. destruct Hc as [-> Hno]. done.
Qed.

(** ** Data the server made *)

Lemma dirent_length_ent (name rest : bytes) :
  name_fits name -> dirent_length (enc_ent name ++ rest) = Some (Z.of_nat (length (enc_ent name))).
Proof.
  intros Hn. unfold dirent_length. rewrite enc_ent_str_len, <- length_enc_ent, length_app by done.
  pose proof (length_enc_ent name). pose proof (rec_total_len_ge (Z.of_nat (length name))).
  by rewrite (proj2 (Z.ltb_ge _ 2)), (proj2 (Z.ltb_ge _ _)) by lia.
Qed.

Lemma dirent_name_ent (name rest : bytes) :
  name_fits name -> cldc_dirent_name true (enc_ent name ++ rest) = Some (Some name).
Proof.
  intros Hn. unfold cldc_dirent_name. rewrite enc_ent_str_len, length_app by done.
  pose proof (length_enc_ent name). pose proof (rec_total_len_ge (Z.of_nat (length name))).
  rewrite (proj2 (Z.ltb_ge _ 2)), (proj2 (Z.ltb_ge _ _)) by lia. cbn [negb].
  by rewrite Nat2Z.id, enc_ent_name.
Qed.

Lemma count_loop_dir (names : list bytes) (fuel : nat) (c : Z) :
  Forall name_fits names -> (length names < fuel)%nat ->
  count_loop fuel (enc_dir names) c = Ok (c + Z.of_nat (length names)).
Proof.
  intros Hn. revert fuel c. induction Hn as [|n ns Hn Hns IH]; intros fuel c Hf.
  { destruct fuel; [lia|]. cbn. by rewrite Z.add_0_r. }
  destruct fuel as [|fuel]; [lia|]. change (enc_dir (n :: ns)) with (enc_ent n ++ enc_dir ns).
  cbn [count_loop]. rewrite enc_ent_str_len, <- length_enc_ent, length_app by done.
  pose proof (length_enc_ent n). pose proof (rec_total_len_ge (Z.of_nat (length n))).
  rewrite (proj2 (Z.eqb_neq _ 0)), (proj2 (Z.ltb_ge _ 2)), (proj2 (Z.ltb_ge _ _)) by lia.
  rewrite Nat2Z.id, drop_app_length, IH by (cbn in Hf; lia). cbn [length]. f_equal. lia.
Qed.

Lemma list_loop_dir_next (alloc : nat -> bool) (ns : list bytes) (n : bytes) :
  (forall i, alloc i = true) -> name_fits n -> Forall name_fits ns ->
  list_loop alloc (length ns) false (enc_ent n ++ enc_dir ns) = Some (Some <$> ns).
Proof.
  intros Ha Hn Hns. revert n Hn. induction Hns as [|m ns Hm Hns IH]; intros n Hn; [done|].
  change (enc_dir (m :: ns)) with (enc_ent m ++ enc_dir ns).
  cbn [list_loop length]. unfold cldc_dirent_next.
  rewrite dirent_length_ent, Nat2Z.id, drop_app_length, dirent_length_ent by done.
  cbn [Z.ltb Z.compare]. rewrite Ha, dirent_name_ent by done. rewrite IH by done. done.
Qed.

(** Listing inverts the server's directory encoding: for the data of a
    directory with the given entries ([enc_dir], which the server's
    [dirdata_append] and [dirdata_delete] maintain), the client counts and
    prints exactly these names, in order. *)
Theorem list_dir_roundtrip (alloc : nat -> bool) (names : list bytes) :
  (forall i, alloc i = true) -> Forall name_fits names ->
  cldc_dirent_count (enc_dir names) = Ok (Z.of_nat (length names)) /\
  list_dir alloc (enc_dir names) = Some (Ok (Some <$> names)).
Proof.
  intros Ha Hn. assert (cldc_dirent_count (enc_dir names) = Ok (Z.of_nat (length names))) as Hc.
  { unfold cldc_dirent_count. pose proof (length_enc_dir_ge names). rewrite count_loop_dir by (done || lia). done. }
  split; [done|]. unfold list_dir. rewrite Hc, Nat2Z.id. unfold cldc_dirent_cur_init.
  destruct Hn as [|n ns Hn Hns]; [done|]. change (enc_dir (n :: ns)) with (enc_ent n ++ enc_dir ns).
  cbn [list_loop length]. unfold cldc_dirent_first. rewrite dirent_length_ent by done.
  cbn [Z.ltb Z.compare]. rewrite Ha, dirent_name_ent, list_loop_dir_next by done. done.
Qed.
