(* ===== verification/Cldc.v ===== *)
(** * Cldc: the CLD client library (lib/cldc.c, include/cldc.h)

    One client session with the messages it has sent and the handles it has
    opened.  Messages and handles are heap objects named by pointers: the
    session's lists, the completion callbacks and the application share them.

    A computation is a function from the state of the library to a result and
    a new state, or [None] where the C code touches freed memory or memory
    outside an object, or a signed subtraction overflows.  What the library
    asks of the application - sending a packet, (un)arming the timer,
    delivering an event, running the callback of a call - is recorded in a
    trace, newest last; return values of these functions, [rand] and the
    success of allocations come from an arbitrary oracle.  The application
    does not call back into the library from inside a callback.

    The XDR routines of the client side are the parameter [XdrCli]. *)

From S2P Require Import Prelude Dirent Wire.
#[local] Open Scope Z_scope.

(** ** Constants *)

Definition CLDC_MSG_EXPIRE : Z := 5 * 60.
Definition CLDC_MSG_SCAN : Z := 60.
Definition CLDC_MSG_RETRY : Z := 5.
Definition CLDC_MSG_REMEMBER : Z := 25.
Definition CLDC_SESS_EXPIRE : Z := 2 * 60.
Definition CLD_MAX_SECRET_KEY : Z := 128.

Definition EIO : Z := 5.
Definition EACCES : Z := 13.
Definition EPIPE : Z := 32.
Definition EBADE : Z := 52.
Definition EBADRQC : Z := 56.
Definition EBADSLT : Z := 57.
Definition EPROTO : Z := 71.

(** [enum cle_err_codes], as the number on the wire. *)
Definition cle_code (e : cle_err) : Z :=
  match e with
  | CLE_OK => 0 | CLE_SESS_EXISTS => 1 | CLE_SESS_INVAL => 2 | CLE_DB_ERR => 3
  | CLE_BAD_PKT => 4 | CLE_INODE_INVAL => 5 | CLE_NAME_INVAL => 6 | CLE_OOM => 7
  | CLE_FH_INVAL => 8 | CLE_DATA_INVAL => 9 | CLE_LOCK_INVAL => 10
  | CLE_LOCK_CONFLICT => 11 | CLE_LOCK_PENDING => 12 | CLE_MODE_INVAL => 13
  | CLE_INODE_EXISTS => 14 | CLE_DIR_NOTEMPTY => 15 | CLE_INTERNAL_ERR => 16
  | CLE_TIMEOUT => 17 | CLE_SIG_INVAL => 18
  end.

(** ** Data *)

(** The fixed part of [struct cld_msg_get_resp]; its name and data are in the
    session's buffers, of which it holds the data's length. *)
Record get_resp : Type := mkCResp {
  cr_code : Z; cr_xid_in : Z;
  cr_inum : Z; cr_vers : Z; cr_time_create : Z; cr_time_modify : Z; cr_flags : Z;
  cr_data_len : Z }.

Definition zero_resp : get_resp := mkCResp 0 0 0 0 0 0 0 0.

(** [co_cb]: the application's callback ([None]: NULL). *)
Record cldc_call_opts : Type := mkCopts { co_cb : option Z; co_resp : get_resp }.

Record cldc_pkt_info : Type := mkPi { pi_retries : Z; pi_user : bytes; pi_data : bytes }.
(** [pkt_len] is the size of [data]. *)
Definition pi_pkt_len (pi : cldc_pkt_info) : Z := Z.of_nat (length (pi_data pi)).

(** The values of [msg->cb]. *)
Inductive msg_cb : Type :=
| no_cb | new_sess_cb | end_sess_cb | generic_end_cb | open_end_cb | close_end_cb | get_end_cb.

#[global] Instance msg_cb_eq_dec : EqDecision msg_cb.
Proof. solve_decision. Defined.

Record cldc_msg : Type := mkMsg {
  m_xid : Z;
  m_op : Z;
  m_cb : msg_cb;
  m_cb_private : option nat;                 (* a cldc_fh *)
  m_copts : cldc_call_opts;
  m_done : bool;
  m_expire_time : Z;
  m_pkt_info : list (option cldc_pkt_info) }. (* NULL once acknowledged *)

Record cldc_fh : Type := mkFh { f_fh : Z; f_valid : bool }.

Record cldc_session : Type := mkCSess {
  cs_sid : Z;
  cs_addr : bytes;
  cs_cfh : list nat;
  cs_out_msg : list nat;
  cs_msg_scan_time : Z;
  cs_expire_time : Z;
  cs_expired : bool;
  cs_next_seqid_in : Z;
  cs_next_seqid_in_tr : Z;
  cs_next_seqid_out : Z;
  cs_user : bytes;
  cs_secret_key : bytes;
  cs_confirmed : bool;
  cs_msg_buf_op : Z;
  cs_msg_buf : bytes;          (* the first msg_buf_len bytes *)
  cs_payload : bytes;
  cs_inode_name_temp : bytes }.

(** What the application sees. *)
Inductive eff : Type :=
| Sent (addr pkt : bytes)
| TimerCtl (add : bool) (secs : Z)
| Event (fh : option nat) (events : Z)
| Complete (msg : nat) (cb : Z) (code : Z).

Record cli : Type := mkCli {
  c_sess : option cldc_session;              (* [None]: not created, or freed *)
  c_msgs : gmap nat cldc_msg;
  c_fhs : gmap nat cldc_fh;
  c_next : nat;
  c_now : Z;                                 (* gettimeofday *)
  c_trace : list eff;
  c_oracle : nat -> Z;
  c_oracle_i : nat }.

Definition set_c_sess (x : option cldc_session) (c : cli) : cli :=
  mkCli x (c_msgs c) (c_fhs c) (c_next c) (c_now c) (c_trace c) (c_oracle c) (c_oracle_i c).
Definition set_c_msgs (x : gmap nat cldc_msg) (c : cli) : cli :=
  mkCli (c_sess c) x (c_fhs c) (c_next c) (c_now c) (c_trace c) (c_oracle c) (c_oracle_i c).
Definition set_c_fhs (x : gmap nat cldc_fh) (c : cli) : cli :=
  mkCli (c_sess c) (c_msgs c) x (c_next c) (c_now c) (c_trace c) (c_oracle c) (c_oracle_i c).
Definition set_c_next (x : nat) (c : cli) : cli :=
  mkCli (c_sess c) (c_msgs c) (c_fhs c) x (c_now c) (c_trace c) (c_oracle c) (c_oracle_i c).
Definition set_c_now (x : Z) (c : cli) : cli :=
  mkCli (c_sess c) (c_msgs c) (c_fhs c) (c_next c) x (c_trace c) (c_oracle c) (c_oracle_i c).
Definition set_c_trace (x : list eff) (c : cli) : cli :=
  mkCli (c_sess c) (c_msgs c) (c_fhs c) (c_next c) (c_now c) x (c_oracle c) (c_oracle_i c).
Definition set_c_oracle_i (x : nat) (c : cli) : cli :=
  mkCli (c_sess c) (c_msgs c) (c_fhs c) (c_next c) (c_now c) (c_trace c) (c_oracle c) x.

(** Updates of session fields that come together in the code. *)
Definition cs_lists (cfh out : list nat) (s : cldc_session) : cldc_session :=
  mkCSess (cs_sid s) (cs_addr s) cfh out (cs_msg_scan_time s) (cs_expire_time s) (cs_expired s)
    (cs_next_seqid_in s) (cs_next_seqid_in_tr s) (cs_next_seqid_out s) (cs_user s) (cs_secret_key s)
    (cs_confirmed s) (cs_msg_buf_op s) (cs_msg_buf s) (cs_payload s) (cs_inode_name_temp s).
Definition cs_times (scan expire : Z) (s : cldc_session) : cldc_session :=
  mkCSess (cs_sid s) (cs_addr s) (cs_cfh s) (cs_out_msg s) scan expire (cs_expired s)
    (cs_next_seqid_in s) (cs_next_seqid_in_tr s) (cs_next_seqid_out s) (cs_user s) (cs_secret_key s)
    (cs_confirmed s) (cs_msg_buf_op s) (cs_msg_buf s) (cs_payload s) (cs_inode_name_temp s).
Definition cs_flags (expired confirmed : bool) (s : cldc_session) : cldc_session :=
  mkCSess (cs_sid s) (cs_addr s) (cs_cfh s) (cs_out_msg s) (cs_msg_scan_time s) (cs_expire_time s) expired
    (cs_next_seqid_in s) (cs_next_seqid_in_tr s) (cs_next_seqid_out s) (cs_user s) (cs_secret_key s)
    confirmed (cs_msg_buf_op s) (cs_msg_buf s) (cs_payload s) (cs_inode_name_temp s).
Definition cs_seqids (inn intr out : Z) (s : cldc_session) : cldc_session :=
  mkCSess (cs_sid s) (cs_addr s) (cs_cfh s) (cs_out_msg s) (cs_msg_scan_time s) (cs_expire_time s) (cs_expired s)
    inn intr out (cs_user s) (cs_secret_key s)
    (cs_confirmed s) (cs_msg_buf_op s) (cs_msg_buf s) (cs_payload s) (cs_inode_name_temp s).
Definition cs_bufs (op : Z) (buf payload name : bytes) (s : cldc_session) : cldc_session :=
  mkCSess (cs_sid s) (cs_addr s) (cs_cfh s) (cs_out_msg s) (cs_msg_scan_time s) (cs_expire_time s) (cs_expired s)
    (cs_next_seqid_in s) (cs_next_seqid_in_tr s) (cs_next_seqid_out s) (cs_user s) (cs_secret_key s)
    (cs_confirmed s) op buf payload name.

(** ** The monad *)

Definition C (A : Type) : Type := cli -> option (A * cli).
#[global] Instance C_ret : MRet C := fun A a c => Some (a, c).
#[global] Instance C_bind : MBind C := fun A B k m c =>
  match m c with
  | Some (a, c') => k a c'
  | None => None
  end.

(** Undefined behaviour. *)
Definition ub {A} : C A := fun _ => None.

Definition c_get : C cli := fun c => Some (c, c).
Definition c_modify (f : cli -> cli) : C unit := fun c => Some (tt, f c).

Definition c_nondet : C Z := fun c => Some (c_oracle c (c_oracle_i c), set_c_oracle_i (S (c_oracle_i c)) c).
Definition c_malloc_ok : C bool := x ← c_nondet; mret (negb (x =? 0)).
(** [cld_rand64] (lib/common.c) *)
Definition c_rand64 : C Z :=
  lo ← c_nondet; hi ← c_nondet; mret (lo mod 2 ^ 31 + Z.shiftl (hi mod 2 ^ 31) 32).

Definition emit (e : eff) : C unit := c_modify (fun c => set_c_trace (c_trace c ++ [e]) c).

(** Dereferences. *)
Definition c_get_sess : C cldc_session :=
  fun c => match c_sess c with Some s => Some (s, c) | None => None end.
Definition c_upd_sess (f : cldc_session -> cldc_session) : C unit :=
  fun c => match c_sess c with Some s => Some (tt, set_c_sess (Some (f s)) c) | None => None end.
Definition get_msg (p : nat) : C cldc_msg :=
  fun c => match c_msgs c !! p with Some m => Some (m, c) | None => None end.
Definition store_msg (p : nat) (m : cldc_msg) : C unit := c_modify (fun c => set_c_msgs (<[p := m]> (c_msgs c)) c).
Definition get_fh (p : nat) : C cldc_fh :=
  fun c => match c_fhs c !! p with Some f => Some (f, c) | None => None end.
Definition store_fh (p : nat) (f : cldc_fh) : C unit := c_modify (fun c => set_c_fhs (<[p := f]> (c_fhs c)) c).

(** A fresh address. *)
Definition c_fresh : C nat := fun c => Some (c_next c, set_c_next (S (c_next c)) c).

(** ** XDR on the client side *)

(** Messages the client sends. *)
Inductive msg_req : Type :=
| ReqVoid
| ReqDel (inode_name : bytes)
| ReqOpen (o : cld_msg_open)
| ReqClose (fh : Z)
| ReqLock (l : cld_msg_lock)
| ReqUnlock (fh : Z)
| ReqPut (p : cld_msg_put)
| ReqGet (fh : Z).

Class XdrCli : Type := {
  xdr_req_enc : msg_req -> option bytes;
  (** [code], [xid_in] *)
  xdr_generic_resp_dec : bytes -> option (Z * Z);
  (** [fh] *)
  xdr_open_resp_dec : bytes -> option Z;
  (** decodes into the two buffers it is given, payload and name: the
      structure and what the buffers hold afterwards *)
  xdr_get_resp_dec : bytes -> bytes -> bytes -> option get_resp * bytes * bytes;
  (** [fh], [events] *)
  xdr_event_dec : bytes -> option (Z * Z);
  (** [seqid] *)
  xdr_ack_frag_dec : bytes -> option Z }.

(** ** Sequence numbers (include/cldc.h) *)

(** [None]: the 64-bit subtraction overflows. *)
Definition seqid_after_eq (a_ b_ : Z) : option bool :=
  let d := s64 a_ - s64 b_ in
  if (- 2 ^ 63 <=? d) && (d <? 2 ^ 63) then Some (0 <=? d) else None.

Definition seqid_before_eq (a_ b_ : Z) : option bool := seqid_after_eq b_ a_.

Definition seqid_in_range (a b c : Z) : option bool :=
  match seqid_after_eq a b with
  | Some true => seqid_before_eq a c
  | r => r
  end.

Section cldc.
Context {XL : XdrLib} {XC : XdrCli} {HL : HmacLib}.

(** ** Results handed to the application *)

(** [cldc_copts_get_data]: the bytes at the pointer and length it returns. *)
Definition cldc_copts_get_data (copts : cldc_call_opts) : C bytes :=
  sess ← c_get_sess;
  mret (take (Z.to_nat (cr_data_len (co_resp copts))) (cs_payload sess)).

Record cldc_node_metadata : Type := mkMeta {
  md_inum : Z; md_vers : Z; md_time_create : Z; md_time_modify : Z; md_flags : Z;
  md_inode_name : bytes }.

(** A C string: up to the first NUL. *)
Fixpoint c_string (b : bytes) : bytes :=
  match b with
  | [] => []
  | x :: b => if x =? 0 then [] else x :: c_string b
  end.

(** [cldc_copts_get_metadata]; the name is read through the pointer. *)
Definition cldc_copts_get_metadata (copts : cldc_call_opts) : C cldc_node_metadata :=
  sess ← c_get_sess;
  let r := co_resp copts in
  mret (mkMeta (cr_inum r) (cr_vers r) (cr_time_create r) (cr_time_modify r) (cr_flags r)
          (c_string (cs_inode_name_temp sess))).

(** ** Sending one packet *)

Definition sess_send_pkt (pkt : bytes) : C Z :=
  sess ← c_get_sess;
  _ ← emit (Sent (cs_addr sess) pkt);
  c_nondet.

(** [user_key]: the session's own user, with the key it was given. *)
Definition cldc_user_key (sess : cldc_session) (user : bytes) : option bytes :=
  if (length user =? 0)%nat || (32 <=? Nat.min (length user) 32)%nat then None else
  if negb (bool_decide (cs_user sess = user)) then None
  else Some (cs_secret_key sess).

(** [seqid_le]: the sequence number as received. *)
Definition ack_seqid (seqid_le : bytes) : C Z :=
  sess ← c_get_sess;
  let pkt := mkHdr (le_val CLD_PKT_MAGIC) (cs_sid sess) (cs_user sess)
               (CLD_PKT_ORD_FIRST_LAST (mkInfos 0 CMO_ACK)) in
  match xdr_hdr_enc pkt with
  | None => mret (-1009)
  | Some hb =>
      if CLD_MAX_PKT_MSG_SZ - CLD_PKT_FTR_LEN <? Z.of_nat (length hb) then mret (-1009) else
      let '(ret, sha) := cld_authsign (cldc_user_key sess (cs_user sess)) (hb ++ seqid_le) in
      if negb (ret =? 0) then mret ret else
      sess_send_pkt (hb ++ seqid_le ++ sha)
  end.

(** ** Freeing *)

Definition cldc_msg_free (p : nat) : C unit :=
  _ ← get_msg p;
  c_modify (fun c => set_c_msgs (delete p (c_msgs c)) c).

Definition fh_free (p : nat) : C unit :=
  _ ← get_fh p;
  c_modify (fun c => set_c_fhs (delete p (c_fhs c)) c).

Fixpoint c_iter (f : nat -> C unit) (l : list nat) : C unit :=
  match l with
  | [] => mret tt
  | p :: l => _ ← f p; c_iter f l
  end.

Definition sess_free : C unit :=
  sess ← c_get_sess;
  _ ← c_iter fh_free (cs_cfh sess);
  _ ← c_iter cldc_msg_free (cs_out_msg sess);
  c_modify (set_c_sess None).

(** Messages past their time are freed and unlinked. *)
Fixpoint expire_loop (current_time : Z) (l : list nat) : C (list nat) :=
  match l with
  | [] => mret []
  | p :: l =>
      msg ← get_msg p;
      if m_expire_time msg <? current_time then
        _ ← cldc_msg_free p; expire_loop current_time l
      else
        l' ← expire_loop current_time l; mret (p :: l')
  end.

Definition sess_expire_outmsg (current_time : Z) : C unit :=
  sess ← c_get_sess;
  l ← expire_loop current_time (cs_out_msg sess);
  _ ← c_upd_sess (fun s => cs_lists (cs_cfh s) l s);
  c_upd_sess (fun s => cs_times (current_time + CLDC_MSG_SCAN) (cs_expire_time s) s).

(** ** Completion callbacks *)

(** [msg->copts.cb(&msg->copts, code)] if there is one, else [k]. *)
Definition copts_cb (p : nat) (code : Z) (k : C Z) : C Z :=
  msg ← get_msg p;
  match co_cb (m_copts msg) with
  | Some cb => _ ← emit (Complete p cb code); c_nondet
  | None => k
  end.

Definition run_new_sess_cb (p : nat) (resp_rc : Z) : C Z :=
  _ ← (if resp_rc =? cle_code CLE_OK
       then c_upd_sess (fun s => cs_flags (cs_expired s) true s) else mret tt);
  copts_cb p resp_rc (mret 0).

Definition run_end_sess_cb (p : nat) (resp_rc : Z) : C Z :=
  copts_cb p resp_rc (_ ← sess_free; mret 0).

Definition run_generic_end_cb (p : nat) (resp_rc : Z) : C Z := copts_cb p resp_rc (mret 0).

(** [resp]: the message received ([NULL] and 0 from a dropped session). *)
Definition run_open_end_cb (p : nat) (resp : bytes) (resp_rc : Z) : C Z :=
  if resp_rc =? cle_code CLE_OK then
    msg ← get_msg p;
    match xdr_open_resp_dec resp, m_cb_private msg with
    | None, _ => mret (-1009)
    | Some _, None => ub
    | Some fh, Some fp =>
        _ ← get_fh fp;
        _ ← store_fh fp (mkFh fh true);
        copts_cb p resp_rc (mret 0)
    end
  else copts_cb p resp_rc (mret 0).

Definition run_close_end_cb (p : nat) (resp_rc : Z) : C Z :=
  msg ← get_msg p;
  match m_cb_private msg with
  | None => ub
  | Some fp =>
      _ ← get_fh fp;
      copts_cb p resp_rc
        (_ ← c_upd_sess (fun s => cs_lists (remove_first fp (cs_cfh s)) (cs_out_msg s) s);
         _ ← fh_free fp;
         mret 0)
  end.

(** The response is decoded into the message's [copts] and the session's
    buffers, of 128 KiB and 256 bytes. *)
Definition run_get_end_cb (p : nat) (resp : bytes) (resp_rc : Z) : C Z :=
  if resp_rc =? cle_code CLE_OK then
    msg ← get_msg p;
    sess ← c_get_sess;
    let '(r, payload, name) := xdr_get_resp_dec resp (cs_payload sess) (cs_inode_name_temp sess) in
    if (CLD_MAX_PAYLOAD_SZ <? Z.of_nat (length payload))
       || (CLD_INODE_NAME_MAX <? Z.of_nat (length name)) then ub else
    _ ← c_upd_sess (fun s => cs_bufs (cs_msg_buf_op s) (cs_msg_buf s) payload name s);
    _ ← store_msg p (mkMsg (m_xid msg) (m_op msg) (m_cb msg) (m_cb_private msg)
                       (mkCopts (co_cb (m_copts msg)) (default zero_resp r))
                       (m_done msg) (m_expire_time msg) (m_pkt_info msg));
    match r with
    | None => mret (-1009)
    | Some _ => copts_cb p resp_rc (mret 0)
    end
  else copts_cb p resp_rc (mret 0).

(** [msg->cb(msg, resp, len, code)] *)
Definition run_msg_cb (p : nat) (resp : bytes) (resp_rc : Z) : C Z :=
  msg ← get_msg p;
  match m_cb msg with
  | no_cb => mret 0
  | new_sess_cb => run_new_sess_cb p resp_rc
  | end_sess_cb => run_end_sess_cb p resp_rc
  | generic_end_cb => run_generic_end_cb p resp_rc
  | open_end_cb => run_open_end_cb p resp resp_rc
  | close_end_cb => run_close_end_cb p resp_rc
  | get_end_cb => run_get_end_cb p resp resp_rc
  end.

(** ** Receiving *)

(** The first queued message with this xid. *)
Fixpoint find_xid (xid : Z) (l : list nat) : C (option nat) :=
  match l with
  | [] => mret None
  | p :: l =>
      req ← get_msg p;
      if m_xid req =? xid then mret (Some p) else find_xid xid l
  end.

Definition set_done (m : cldc_msg) : cldc_msg :=
  mkMsg (m_xid m) (m_op m) (m_cb m) (m_cb_private m) (m_copts m) true (m_expire_time m) (m_pkt_info m).

Definition rxmsg_generic (seqid_le : bytes) : C Z :=
  sess ← c_get_sess;
  match xdr_generic_resp_dec (cs_msg_buf sess) with
  | None => mret (-1008)
  | Some (code, xid_in) =>
      oreq ← find_xid xid_in (cs_out_msg sess);
      match oreq with
      | None => mret (-1005)
      | Some p =>
          req ← get_msg p;
          if m_done req then ack_seqid seqid_le else
          _ ← store_msg p (set_done req);
          rc ← run_msg_cb p (cs_msg_buf sess) code;
          if rc <? 0 then mret rc else ack_seqid seqid_le
      end
  end.

(** The footer pointer is computed in units of footers, not bytes: the read is
    at offset [28 * (pkt_len - 28)] of the packet. *)
Definition frag_seqid (pi : cldc_pkt_info) : C Z :=
  let off := CLD_PKT_FTR_LEN * (pi_pkt_len pi - CLD_PKT_FTR_LEN) in
  if (off <? 0) || (pi_pkt_len pi <? off + 8) then ub
  else mret (le_val (take 8 (drop (Z.to_nat off) (pi_data pi)))).

Fixpoint ack_frag_pkts (seqid : Z) (l : list (option cldc_pkt_info)) : C (list (option cldc_pkt_info)) :=
  match l with
  | [] => mret []
  | None :: l => l' ← ack_frag_pkts seqid l; mret (None :: l')
  | Some pi :: l =>
      s ← frag_seqid pi;
      l' ← ack_frag_pkts seqid l;
      mret ((if s =? seqid then None else Some pi) :: l')
  end.

Definition set_pkt_info (l : list (option cldc_pkt_info)) (m : cldc_msg) : cldc_msg :=
  mkMsg (m_xid m) (m_op m) (m_cb m) (m_cb_private m) (m_copts m) (m_done m) (m_expire_time m) l.

Definition ack_frag_msg (seqid : Z) (p : nat) : C unit :=
  req ← get_msg p;
  l ← ack_frag_pkts seqid (m_pkt_info req);
  store_msg p (set_pkt_info l req).

Definition rxmsg_ack_frag : C Z :=
  sess ← c_get_sess;
  match xdr_ack_frag_dec (cs_msg_buf sess) with
  | None => mret (-1008)
  | Some seqid =>
      _ ← c_iter (ack_frag_msg seqid) (cs_out_msg sess);
      mret 0
  end.

Fixpoint find_fh (fh : Z) (l : list nat) : C (option nat) :=
  match l with
  | [] => mret None
  | p :: l =>
      f ← get_fh p;
      if f_fh f =? fh then mret (Some p) else find_fh fh l
  end.

Definition rxmsg_event : C Z :=
  sess ← c_get_sess;
  match xdr_event_dec (cs_msg_buf sess) with
  | None => mret (-1008)
  | Some (fh, events) =>
      ofh ← find_fh fh (cs_cfh sess);
      match ofh with
      | None => mret (-1011)
      | Some p => _ ← emit (Event (Some p) events); mret 0
      end
  end.

Definition rx_complete (seqid_le : bytes) : C Z :=
  sess ← c_get_sess;
  let op := cs_msg_buf_op sess in
  if op =? CMO_ACK then mret (- EBADRQC) else
  if op =? CMO_PING then ack_seqid seqid_le else
  if op =? CMO_NOT_MASTER then mret (-1055) else
  if op =? CMO_EVENT then rxmsg_event else
  if op =? CMO_ACK_FRAG then rxmsg_ack_frag else
  rxmsg_generic seqid_le.

Definition accept_seqid (seqid op : Z) : C Z :=
  sess ← c_get_sess;
  if op =? CMO_NEW_SESS then
    let next := u64 (seqid + 1) in
    _ ← c_upd_sess (fun s => cs_seqids next (u64 (next - CLDC_MSG_REMEMBER)) (cs_next_seqid_out s) s);
    mret 0
  else if (op =? CMO_NOT_MASTER) || (op =? CMO_ACK_FRAG) then mret 0
  else if seqid =? cs_next_seqid_in sess then
    _ ← c_upd_sess (fun s => cs_seqids (u64 (cs_next_seqid_in s + 1)) (u64 (cs_next_seqid_in_tr s + 1))
                               (cs_next_seqid_out s) s);
    mret 0
  else
    match seqid_in_range seqid (cs_next_seqid_in_tr sess) (cs_next_seqid_in sess) with
    | None => ub
    | Some true => mret 0
    | Some false => mret (- EBADSLT)
    end.

Definition cldc_receive_pkt (net_addr pktbuf : bytes) : C Z :=
  c ← c_get;
  let current_time := c_now c in
  let pkt_len := length pktbuf in
  if Z.of_nat pkt_len <? CLD_PKT_FTR_LEN then mret (- EPROTO) else
  match xdr_hdr_dec (take (pkt_len - 28) pktbuf) with
  | None => mret (- EPROTO)
  | Some (pkt, hdr_len) =>
      if negb (ph_magic pkt =? le_val CLD_PKT_MAGIC) then mret (- EPROTO) else
      sess ← c_get_sess;
      let ret := cld_authcheck (cldc_user_key sess (ph_user pkt)) (take (pkt_len - 20) pktbuf) (foot_sha pktbuf) in
      if negb (ret =? 0) then mret (- EACCES) else
      if negb (bool_decide (cs_addr sess = net_addr)) then mret (- EBADE) else
      _ ← (if cs_msg_scan_time sess <=? current_time then sess_expire_outmsg current_time else mret tt);
      let first := flag (pkt_order (ph_mi pkt)) CLD_PKT_IS_FIRST in
      _ ← (if first then
             c_upd_sess (fun s => cs_bufs (mi_op (pkt_infos (ph_mi pkt))) (cs_msg_buf s) (cs_payload s)
                                    (cs_inode_name_temp s) s)
           else mret tt);
      let seqid := foot_seqid pktbuf in
      sess ← c_get_sess;
      ret ← accept_seqid seqid (cs_msg_buf_op sess);
      if negb (ret =? 0) then mret ret else
      _ ← (if first then
             c_upd_sess (fun s => cs_bufs (cs_msg_buf_op s) [] (cs_payload s) (cs_inode_name_temp s) s)
           else mret tt);
      let msg_len := (pkt_len - hdr_len - 28)%nat in
      sess ← c_get_sess;
      if CLD_MAX_MSG_SZ <? Z.of_nat (length (cs_msg_buf sess) + msg_len) then mret (- EPROTO) else
      _ ← c_upd_sess (fun s => cs_bufs (cs_msg_buf_op s)
                                 (cs_msg_buf s ++ take msg_len (drop hdr_len pktbuf))
                                 (cs_payload s) (cs_inode_name_temp s) s);
      _ ← c_upd_sess (fun s => cs_times (cs_msg_scan_time s) (current_time + CLDC_SESS_EXPIRE) s);
      let seqid_le := take 8 (pkt_foot pktbuf) in
      if flag (pkt_order (ph_mi pkt)) CLD_PKT_IS_LAST then rx_complete seqid_le
      else ack_seqid seqid_le
  end.

(** ** Building and sending messages *)

(** [sess_next_seqid]: the number handed out, at 64 bits. *)
Definition sess_next_seqid : C Z :=
  sess ← c_get_sess;
  _ ← c_upd_sess (fun s => cs_seqids (cs_next_seqid_in s) (cs_next_seqid_in_tr s)
                             (u64 (cs_next_seqid_out s + 1)) s);
  mret (u64 (cs_next_seqid_out sess)).

(** The header of packet [i] of [n]. *)
Definition msg_pkt_hdr (sess : cldc_session) (first last : bool) (xid op : Z) : cld_pkt_hdr :=
  mkHdr (le_val CLD_PKT_MAGIC) (cs_sid sess) (cs_user sess)
    (if first then
       if last then CLD_PKT_ORD_FIRST_LAST (mkInfos xid op) else CLD_PKT_ORD_FIRST (mkInfos xid op)
     else if last then CLD_PKT_ORD_LAST else CLD_PKT_ORD_MID).

(** The loop over the packets, [n] still to make; [None]: the jump to [err_out]. *)
Fixpoint new_msg_pkts (n : nat) (xid op : Z) (first : bool) (body : bytes) : C (option (list cldc_pkt_info)) :=
  match n with
  | O => mret (Some [])
  | S n =>
      sess ← c_get_sess;
      let hdr := xdr_hdr_enc (msg_pkt_hdr sess first (n =? 0)%nat xid op) in
      let body_chunk_len := Nat.min (length body) (Z.to_nat CLD_MAX_PKT_MSG_SZ) in
      ok ← c_malloc_ok;
      if negb ok then mret None else
      match hdr with
      | None => mret None
      | Some hb =>
          rest ← new_msg_pkts n xid op false (drop body_chunk_len body);
          mret (match rest with
                | None => None
                | Some l => Some (mkPi 0 (take 31 (cs_user sess))
                                    (hb ++ take body_chunk_len body ++ replicate 28 0) :: l)
                end)
      end
  end.

(** The number of packets: one for an empty body, else rounded up. *)
Definition n_pkts (body_len : nat) : nat :=
  if (body_len =? 0)%nat then 1%nat else ((body_len + 1024 - 1) / 1024)%nat.

(** The message is not yet on any list; its callback is set by the caller. *)
Definition cldc_new_msg (copts : option Z) (op : Z) (req : msg_req) (cb : msg_cb) (priv : option nat)
  : C (option cldc_msg) :=
  match xdr_req_enc req with
  | None => mret None
  | Some body =>
      ok ← c_malloc_ok;
      if negb ok then mret None else
      xid ← c_rand64;
      c ← c_get;
      l ← new_msg_pkts (n_pkts (length body)) xid op true body;
      mret (match l with
            | None => None
            | Some l => Some (mkMsg xid op cb priv (mkCopts copts zero_resp) false
                                (c_now c + CLDC_MSG_EXPIRE) (Some <$> l))
            end)
  end.

(** One packet of [sess_send]: number, signature, first transmission.  The
    packet as it is now, or the error. *)
Definition send_one (secret_key : option bytes) (pi : cldc_pkt_info) : C (res cldc_pkt_info) :=
  seqid ← sess_next_seqid;
  let body := take (length (pi_data pi) - 28) (pi_data pi) ++ le_bytes 8 seqid in
  let '(ret, sha) := cld_authsign secret_key body in
  if negb (ret =? 0) then mret (Err ret) else
  rc ← sess_send_pkt (body ++ sha);
  if rc <? 0 then mret (Err (- EIO)) else
  mret (Ok (mkPi (pi_retries pi) (pi_user pi) (body ++ sha))).

Fixpoint send_all (secret_key : option bytes) (l : list (option cldc_pkt_info))
  : C (res (list (option cldc_pkt_info))) :=
  match l with
  | [] => mret (Ok [])
  | None :: l => ub
  | Some pi :: l =>
      r ← send_one secret_key pi;
      match r with
      | Err e => mret (Err e)
      | Ok pi =>
          r ← send_all secret_key l;
          mret (match r with Err e => Err e | Ok l => Ok (Some pi :: l) end)
      end
  end.

(** Only a message whose packets were all sent is put on the list. *)
Definition sess_send (msg : cldc_msg) : C Z :=
  sess ← c_get_sess;
  r ← send_all (cldc_user_key sess (cs_user sess)) (m_pkt_info msg);
  match r with
  | Err e => mret e
  | Ok l =>
      p ← c_fresh;
      _ ← store_msg p (set_pkt_info l msg);
      _ ← c_upd_sess (fun s => cs_lists (cs_cfh s) (p :: cs_out_msg s) s);
      mret 0
  end.

(** A call: build the message, send it. *)
Definition cldc_call (copts : option Z) (op : Z) (req : msg_req) (cb : msg_cb) (priv : option nat) : C Z :=
  msg ← cldc_new_msg copts op req cb priv;
  match msg with
  | None => mret (- ENOMEM)
  | Some msg => sess_send msg
  end.

(** ** Session loss and retransmission *)

Definition drop_one (p : nat) : C unit :=
  msg ← get_msg p;
  _ ← (if negb (m_done msg) then run_msg_cb p [] (cle_code CLE_TIMEOUT) else mret 0);
  cldc_msg_free p.

Definition sess_msg_drop : C unit :=
  sess ← c_get_sess;
  _ ← c_iter drop_one (cs_out_msg sess);
  c_upd_sess (fun s => cs_lists (cs_cfh s) [] s).

Definition sess_expire : C unit :=
  _ ← c_upd_sess (fun s => cs_flags true (cs_confirmed s) s);
  _ ← sess_msg_drop;
  _ ← emit (TimerCtl false 0);
  emit (Event None CE_SESS_FAILED).

Definition retry_pkt (pi : cldc_pkt_info) : cldc_pkt_info :=
  mkPi (pi_retries pi + 1) (pi_user pi) (pi_data pi).

Fixpoint resend_pkts (l : list (option cldc_pkt_info)) : C unit :=
  match l with
  | [] => mret tt
  | None :: l => resend_pkts l
  | Some pi :: l => _ ← sess_send_pkt (pi_data pi); resend_pkts l
  end.

Definition resend_msg (p : nat) : C unit :=
  msg ← get_msg p;
  if m_done msg then mret tt else
  _ ← store_msg p (set_pkt_info (map (option_map retry_pkt) (m_pkt_info msg)) msg);
  resend_pkts (m_pkt_info msg).

Definition sess_timer : C Z :=
  sess ← c_get_sess;
  c ← c_get;
  if cs_expire_time sess <? c_now c then _ ← sess_expire; mret 0 else
  _ ← c_iter resend_msg (cs_out_msg sess);
  _ ← emit (TimerCtl true CLDC_MSG_RETRY);
  mret CLDC_MSG_RETRY.

(** ** The calls *)

(** [cldc_new_sess]; [user] and [secret_key] are C strings, [None] is NULL. *)
Definition cldc_new_sess (copts : option Z) (addr : bytes) (user secret_key : option bytes) : C Z :=
  if 64 <? Z.of_nat (length addr) then mret (- EINVAL) else
  match user, secret_key with
  | Some (u0 :: user), Some (k0 :: key) =>
      let user := u0 :: user in let key := k0 :: key in
      if CLD_MAX_USERNAME <=? Z.of_nat (length user) then mret (- EINVAL) else
      if CLD_MAX_SECRET_KEY <=? Z.of_nat (length key) then mret (- EINVAL) else
      ok ← c_malloc_ok;
      if negb ok then mret (- ENOMEM) else
      sid ← c_rand64;
      next ← c_rand64;
      _ ← c_modify (set_c_sess (Some
            (mkCSess sid addr [] [] 0 0 false 0 0 next user key false 0 [] [] [])));
      msg ← cldc_new_msg copts CMO_NEW_SESS ReqVoid new_sess_cb None;
      match msg with
      | None => _ ← sess_free; mret (- ENOMEM)
      | Some msg =>
          c ← c_get;
          _ ← c_upd_sess (fun s => cs_times (cs_msg_scan_time s) (c_now c + CLDC_SESS_EXPIRE) s);
          _ ← emit (TimerCtl true CLDC_MSG_RETRY);
          sess_send msg
      end
  | _, _ => mret (- EINVAL)
  end.

Definition cldc_kill_sess : C unit :=
  _ ← c_get_sess;
  _ ← emit (TimerCtl false 0);
  sess_free.

Definition cldc_end_sess (copts : option Z) : C Z :=
  sess ← c_get_sess;
  if negb (cs_confirmed sess) then mret (- EINVAL) else
  cldc_call copts CMO_END_SESS ReqVoid end_sess_cb None.

Definition cldc_nop (copts : option Z) : C Z :=
  sess ← c_get_sess;
  if negb (cs_confirmed sess) then mret (- EINVAL) else
  cldc_call copts CMO_NOP ReqVoid generic_end_cb None.

(** A path the library lets through. *)
Definition bad_path (pathname : bytes) : bool :=
  negb (bool_decide (head pathname = Some slash)) || (CLD_INODE_NAME_MAX <? Z.of_nat (length pathname)).

Definition cldc_del (copts : option Z) (pathname : bytes) : C Z :=
  sess ← c_get_sess;
  if negb (cs_confirmed sess) then mret (- EINVAL) else
  if bad_path pathname then mret (- EINVAL) else
  cldc_call copts CMO_DEL (ReqDel pathname) generic_end_cb None.

(** Return code and [*fh_out]. *)
Definition cldc_open (copts : option Z) (pathname : bytes) (open_mode events : Z) : C (Z * option nat) :=
  sess ← c_get_sess;
  if negb (cs_confirmed sess) then mret (- EINVAL, None) else
  if bad_path pathname then mret (- EINVAL, None) else
  msg ← cldc_new_msg copts CMO_OPEN (ReqOpen (mkOpen open_mode events pathname)) open_end_cb None;
  match msg with
  | None => mret (- ENOMEM, None)
  | Some msg =>
      ok ← c_malloc_ok;
      if negb ok then mret (- ENOMEM, None) else
      fp ← c_fresh;
      _ ← store_fh fp (mkFh 0 false);
      _ ← c_upd_sess (fun s => cs_lists (cs_cfh s ++ [fp]) (cs_out_msg s) s);
      ret ← sess_send (mkMsg (m_xid msg) (m_op msg) (m_cb msg) (Some fp) (m_copts msg) (m_done msg)
                         (m_expire_time msg) (m_pkt_info msg));
      mret (ret, Some fp)
  end.

Definition cldc_close (fp : nat) (copts : option Z) : C Z :=
  fh ← get_fh fp;
  if negb (f_valid fh) then mret (- EINVAL) else
  sess ← c_get_sess;
  if cs_expired sess then _ ← store_fh fp (mkFh (f_fh fh) false); mret (- EPIPE) else
  msg ← cldc_new_msg copts CMO_CLOSE (ReqClose (f_fh fh)) close_end_cb (Some fp);
  match msg with
  | None => mret (- ENOMEM)
  | Some msg => _ ← store_fh fp (mkFh (f_fh fh) false); sess_send msg
  end.

Definition cldc_lock (fp : nat) (copts : option Z) (lock_flags : Z) (wait_for_lock : bool) : C Z :=
  fh ← get_fh fp;
  if negb (f_valid fh) then mret (- EINVAL) else
  cldc_call copts (if wait_for_lock then CMO_LOCK else CMO_TRYLOCK)
    (ReqLock (mkLock (f_fh fh) lock_flags)) generic_end_cb None.

Definition cldc_unlock (fp : nat) (copts : option Z) : C Z :=
  fh ← get_fh fp;
  if negb (f_valid fh) then mret (- EINVAL) else
  cldc_call copts CMO_UNLOCK (ReqUnlock (f_fh fh)) generic_end_cb None.

(** [data]: [None] is NULL.  The result of [sess_send] is dropped. *)
Definition cldc_put (fp : nat) (copts : option Z) (data : option bytes) : C Z :=
  match data with
  | None | Some [] => mret (- EINVAL)
  | Some data =>
      if CLD_MAX_PAYLOAD_SZ <? Z.of_nat (length data) then mret (- EINVAL) else
      fh ← get_fh fp;
      if negb (f_valid fh) then mret (- EINVAL) else
      msg ← cldc_new_msg copts CMO_PUT (ReqPut (mkPut (f_fh fh) data)) generic_end_cb None;
      match msg with
      | None => mret (- ENOMEM)
      | Some msg => _ ← sess_send msg; mret 0
      end
  end.

Definition cldc_get (fp : nat) (copts : option Z) (metadata_only : bool) : C Z :=
  fh ← get_fh fp;
  if negb (f_valid fh) then mret (- EINVAL) else
  cldc_call copts CMO_GET (ReqGet (f_fh fh)) get_end_cb None.

End cldc.
