(* ===== verification/CldcLogic.v ===== *)
(** * CldcLogic: reasoning about the client library

    [cw U m Q c]: running [m] from [c] ends with a result and a state that
    satisfy [Q], or is undefined and [U] holds.  [cw False] is total
    correctness, [cw True] partial.

    [lawful] is a preorder on states that says what may happen to a call:
    messages are only ever added at fresh addresses, a finished one stays
    finished, and the application's callback runs for unfinished messages
    only and leaves them finished or freed.  Every function of the library is
    lawful, hence every callback runs at most once. *)

From S2P Require Import Prelude Dirent Wire Cldc.
#[local] Open Scope Z_scope.

Section cw.
Variable U : Prop.

Definition cw {A} (m : C A) (Q : A -> cli -> Prop) (c : cli) : Prop :=
  match m c with Some (a, c') => Q a c' | None => U end.

Lemma cw_ret {A} (a : A) (Q : A -> cli -> Prop) c : Q a c -> cw (mret a) Q c.
Proof. done. Qed.

Lemma cw_bind {A B} (m : C A) (k : A -> C B) (Q : B -> cli -> Prop) c :
  cw m (fun a c' => cw (k a) Q c') c -> cw (m ≫= k) Q c.
Proof. unfold cw, mbind, C_bind. by destruct (m c) as [[a c']|]. Qed.

Lemma cw_mono {A} (m : C A) (Q R : A -> cli -> Prop) c :
  cw m Q c -> (forall a c', Q a c' -> R a c') -> cw m R c.
Proof. unfold cw. destruct (m c) as [[a c']|]; auto. Qed.

Lemma cw_get (Q : cli -> cli -> Prop) c : Q c c -> cw c_get Q c.
Proof. done. Qed.

Lemma cw_modify (f : cli -> cli) (Q : unit -> cli -> Prop) c : Q tt (f c) -> cw (c_modify f) Q c.
Proof. done. Qed.

Lemma cw_nondet (Q : Z -> cli -> Prop) c :
  Q (c_oracle c (c_oracle_i c)) (set_c_oracle_i (S (c_oracle_i c)) c) -> cw c_nondet Q c.
Proof. done. Qed.

Lemma cw_ub {A} (Q : A -> cli -> Prop) c : U -> cw ub Q c.
Proof. done. Qed.

Lemma cw_get_sess (Q : cldc_session -> cli -> Prop) c :
  (c_sess c = None -> U) -> (forall x, c_sess c = Some x -> Q x c) -> cw c_get_sess Q c.
Proof. intros H1 H2. unfold cw, c_get_sess. destruct (c_sess c); auto. Qed.

Lemma cw_upd_sess (f : cldc_session -> cldc_session) (Q : unit -> cli -> Prop) c :
  (c_sess c = None -> U) -> (forall x, c_sess c = Some x -> Q tt (set_c_sess (Some (f x)) c)) ->
  cw (c_upd_sess f) Q c.
Proof. intros H1 H2. unfold cw, c_upd_sess. destruct (c_sess c); auto. Qed.

Lemma cw_get_msg (p : nat) (Q : cldc_msg -> cli -> Prop) c :
  (c_msgs c !! p = None -> U) -> (forall m, c_msgs c !! p = Some m -> Q m c) -> cw (get_msg p) Q c.
Proof. intros H1 H2. unfold cw, get_msg. destruct (c_msgs c !! p); auto. Qed.

Lemma cw_get_fh (p : nat) (Q : cldc_fh -> cli -> Prop) c :
  (c_fhs c !! p = None -> U) -> (forall f, c_fhs c !! p = Some f -> Q f c) -> cw (get_fh p) Q c.
Proof. intros H1 H2. unfold cw, get_fh. destruct (c_fhs c !! p); auto. Qed.

Lemma cw_run {A} (m : C A) (Q : A -> cli -> Prop) c a c' : cw m Q c -> m c = Some (a, c') -> Q a c'.
Proof. unfold cw. intros HQ E. by rewrite E in HQ. Qed.

End cw.
#[global] Arguments cw : simpl never.

Lemma cw_total {A} (m : C A) (Q : A -> cli -> Prop) c : cw False m Q c -> exists a c', m c = Some (a, c') /\ Q a c'.
Proof. unfold cw. destruct (m c) as [[a c']|]; [|done]. eauto. Qed.

Lemma cw_weaken (U V : Prop) {A} (m : C A) (Q : A -> cli -> Prop) c : (U -> V) -> cw U m Q c -> cw V m Q c.
Proof. unfold cw. destruct (m c) as [[a c']|]; auto. Qed.

Lemma cw_any {A} (m : C A) (Q : A -> cli -> Prop) c : (forall a c', m c = Some (a, c') -> Q a c') -> cw True m Q c.
Proof. unfold cw. destruct (m c) as [[a c']|]; auto. Qed.

(** ** What may happen to a call *)

(** Is there a message at [p], and is it finished? *)
Definition mstate (c : cli) (p : nat) : option bool := m_done <$> c_msgs c !! p.

Definition completes (p : nat) (e : eff) : Prop :=
  match e with Complete q _ _ => q = p | _ => False end.
#[global] Instance completes_dec p e : Decision (completes p e).
Proof. destruct e; cbn; apply _. Defined.

(** How often the callback of [p] has run. *)
Definition ncomp (p : nat) (c : cli) : nat := length (filter (completes p) (c_trace c)).

(** Every message lies below the next free address. *)
Definition bounded (c : cli) : Prop := forall p, (c_next c <= p)%nat -> c_msgs c !! p = None.

Record lawful_at (c c' : cli) : Prop := {
  lw_next : (c_next c <= c_next c')%nat;
  lw_bounded : bounded c';
  lw_state p d' : mstate c' p = Some d' ->
    (exists d, mstate c p = Some d /\ (d = true -> d' = true)) \/
    (mstate c p = None /\ (c_next c <= p)%nat);
  lw_comp p : ncomp p c' = ncomp p c \/
    (ncomp p c' = S (ncomp p c) /\ (mstate c p = Some false \/ (c_next c <= p)%nat) /\
     (p < c_next c')%nat /\ mstate c' p <> Some false) }.

Definition lawful (c c' : cli) : Prop := bounded c -> lawful_at c c'.

Lemma mstate_lt c p d : bounded c -> mstate c p = Some d -> (p < c_next c)%nat.
Proof.
  intros B E. destruct (decide (c_next c <= p)%nat) as [H|H]; [|lia].
  unfold mstate in E. by rewrite B in E.
Qed.

#[global] Instance lawful_preorder : PreOrder lawful.
Proof.
  split.
  - intros c B. split; [done|done| |by left]. intros p d' H. left. eauto.
  - intros c1 c2 c3 L12 L23 B1. destruct (L12 B1) as [N1 B2 S1 C1]. destruct (L23 B2) as [N2 B3 S2 C2].
    split; [lia|done| |].
    + intros p d3 H3. destruct (S2 _ _ H3) as [(d2 & H2 & D2)|[H2 L2]].
      * destruct (S1 _ _ H2) as [(d1 & H1 & D1)|[H1 L1]]; [left; eauto|right; split; [done|lia]].
      * right. split; [|lia]. destruct (mstate c1 p) as [d1|] eqn:E1; [|done].
        pose proof (mstate_lt _ _ _ B1 E1). lia.
    + intros p. destruct (C2 p) as [E2|(E2 & P2 & L2 & F2)], (C1 p) as [E1|(E1 & P1 & L1 & F1)].
      * left. congruence.
      * right. split_and!; [congruence|done|lia|]. intros H3.
        destruct (S2 _ _ H3) as [(d2 & H2 & D2)|[H2 L2]]; [|lia].
        destruct d2; [by specialize (D2 eq_refl)|done].
      * right. split_and!; [congruence| |done|done]. destruct P2 as [P2|P2]; [|right; lia].
        destruct (S1 _ _ P2) as [(d1 & H1 & D1)|[H1 ?]]; [|by right]. left.
        destruct d1; [by specialize (D1 eq_refl)|done].
      * exfalso. destruct P2 as [P2|P2]; [done|lia].
Qed.

(** A computation that is lawful from every state. *)
Definition is_lawful {A} (m : C A) : Prop := forall c, cw True m (fun _ c' => lawful c c') c.

Lemma is_lawful_ret {A} (a : A) : is_lawful (mret a).
Proof. intros c. apply cw_ret. done. Qed.

Lemma is_lawful_bind {A B} (m : C A) (k : A -> C B) :
  is_lawful m -> (forall a, is_lawful (k a)) -> is_lawful (m ≫= k).
Proof.
  intros Hm Hk c. apply cw_bind. eapply cw_mono; [apply Hm|]. intros a c1 H1. cbn in H1.
  eapply cw_mono; [apply Hk|]. intros b c2 H2. cbn in *. by etrans.
Qed.

(** Steps that leave messages, the address counter and the callbacks alone. *)
Lemma lawful_same c c' :
  c_msgs c' = c_msgs c -> c_next c' = c_next c -> (forall p, ncomp p c' = ncomp p c) -> lawful c c'.
Proof.
  intros Em En Ec B. split; [lia| | |by left].
  - intros p Hp. rewrite Em. apply B. lia.
  - intros p d'. unfold mstate. rewrite Em. intros H. left. eauto.
Qed.

Lemma is_lawful_modify (f : cli -> cli) :
  (forall c, c_msgs (f c) = c_msgs c /\ c_next (f c) = c_next c /\ c_trace (f c) = c_trace c) ->
  is_lawful (c_modify f).
Proof.
  intros Hf c. apply cw_modify. destruct (Hf c) as (H1 & H2 & H3).
  apply lawful_same; [done|done|]. intros p. unfold ncomp. by rewrite H3.
Qed.

Lemma ncomp_app p l c : ncomp p (set_c_trace (c_trace c ++ l) c) = (ncomp p c + length (filter (completes p) l))%nat.
Proof. unfold ncomp. cbn. by rewrite filter_app, length_app. Qed.

Lemma is_lawful_emit (e : eff) : (forall p, ~ completes p e) -> is_lawful (emit e).
Proof.
  intros He c. unfold emit. apply cw_modify. apply lawful_same; [done|done|]. intros p.
  rewrite ncomp_app, filter_cons_False by done. cbn. lia.
Qed.

Lemma is_lawful_get : is_lawful c_get.
Proof. intros c. by apply cw_get. Qed.

Lemma is_lawful_nondet : is_lawful c_nondet.
Proof. intros c. apply cw_nondet. by apply lawful_same. Qed.

Lemma is_lawful_ub {A} : is_lawful (@ub A).
Proof. intros c. by apply cw_ub. Qed.

Lemma is_lawful_get_sess : is_lawful c_get_sess.
Proof. intros c. by apply cw_get_sess. Qed.

Lemma is_lawful_upd_sess f : is_lawful (c_upd_sess f).
Proof. intros c. apply cw_upd_sess; [done|]. intros x _. by apply lawful_same. Qed.

Lemma is_lawful_get_msg p : is_lawful (get_msg p).
Proof. intros c. by apply cw_get_msg. Qed.

Lemma is_lawful_get_fh p : is_lawful (get_fh p).
Proof. intros c. by apply cw_get_fh. Qed.

Lemma is_lawful_store_fh p f : is_lawful (store_fh p f).
Proof. by apply is_lawful_modify. Qed.

Lemma is_lawful_fresh : is_lawful c_fresh.
Proof.
  intros c B. cbn. split; [cbn; lia| | |by left].
  - intros p Hp. apply B. cbn in Hp. lia.
  - intros p d' H. left. eauto.
Qed.

Lemma is_lawful_msg_free p : is_lawful (cldc_msg_free p).
Proof.
  intros c. unfold cldc_msg_free. apply cw_bind, cw_get_msg; [done|]. intros m Hm. apply cw_modify.
  intros B. split; [done| | |by left].
  - intros q Hq. cbn. rewrite lookup_delete_None. right. by apply B.
  - intros q d'. unfold mstate. cbn. destruct (decide (q = p)) as [->|Hn].
    + by rewrite lookup_delete_eq.
    + rewrite lookup_delete_ne by done. intros H. left. eauto.
Qed.

(** Overwriting an existing message without reviving it. *)
Lemma lawful_store c p m m' :
  c_msgs c !! p = Some m -> (m_done m = true -> m_done m' = true) ->
  lawful c (set_c_msgs (<[p := m']> (c_msgs c)) c).
Proof.
  intros Hm Hd B. pose proof (mstate_lt c p (m_done m) B ltac:(unfold mstate; by rewrite Hm)).
  split; [done| | |by left].
  - intros q Hq. cbn in *. rewrite lookup_insert_ne by lia. by apply B.
  - intros q d'. unfold mstate. cbn. destruct (decide (q = p)) as [->|Hn].
    + rewrite lookup_insert_eq. intros [= <-]. left. rewrite Hm. cbn. eauto.
    + rewrite lookup_insert_ne by done. intros H'. left. eauto.
Qed.

(** ** Callbacks *)

(** Messages are kept as they are or freed, and only the callback of [P] may
    have run, once. *)
Record cb_at (P : nat -> Prop) (c c' : cli) : Prop := {
  cb_next : c_next c' = c_next c;
  cb_state q : mstate c' q = mstate c q \/ mstate c' q = None;
  cb_other q : ~ P q -> ncomp q c' = ncomp q c;
  cb_once q : ncomp q c' = ncomp q c \/ ncomp q c' = S (ncomp q c) }.

Abbreviation silent := (cb_at (fun _ => False)).

Lemma cb_at_refl P c : cb_at P c c.
Proof. split; auto. Qed.

Lemma cb_at_silent P c1 c2 c3 : cb_at P c1 c2 -> silent c2 c3 -> cb_at P c1 c3.
Proof.
  intros [N1 S1 O1 C1] [N2 S2 O2 C2]. split; [congruence| | |].
  - intros q. destruct (S2 q) as [-> | ->]; auto.
  - intros q Hq. rewrite O2 by tauto. auto.
  - intros q. rewrite O2 by tauto. auto.
Qed.

Lemma silent_cb_at P c1 c2 c3 : silent c1 c2 -> cb_at P c2 c3 -> cb_at P c1 c3.
Proof.
  intros [N1 S1 O1 C1] [N2 S2 O2 C2]. split; [congruence| | |].
  - intros q. destruct (S2 q) as [-> | ->]; auto.
  - intros q Hq. rewrite O2 by done. apply O1. tauto.
  - intros q. destruct (C2 q) as [-> | ->]; rewrite O1 by tauto; auto.
Qed.

Definition is_silent {A} (m : C A) : Prop := forall c, cw True m (fun _ c' => silent c c') c.

Lemma is_silent_ret {A} (a : A) : is_silent (mret a).
Proof. intros c. apply cw_ret, cb_at_refl. Qed.

Lemma is_silent_bind {A B} (m : C A) (k : A -> C B) :
  is_silent m -> (forall a, is_silent (k a)) -> is_silent (m ≫= k).
Proof.
  intros Hm Hk c. apply cw_bind. eapply cw_mono; [apply Hm|]. intros a c1 H1. cbn in H1.
  eapply cw_mono; [apply Hk|]. intros b c2 H2. cbn in *. by eapply cb_at_silent.
Qed.

Lemma silent_same c c' :
  c_msgs c' = c_msgs c -> c_next c' = c_next c -> (forall q, ncomp q c' = ncomp q c) -> silent c c'.
Proof. intros Em En Ec. split; auto. intros q. left. unfold mstate. by rewrite Em. Qed.

Lemma is_silent_modify (f : cli -> cli) :
  (forall c, c_msgs (f c) = c_msgs c /\ c_next (f c) = c_next c /\ c_trace (f c) = c_trace c) ->
  is_silent (c_modify f).
Proof.
  intros Hf c. apply cw_modify. destruct (Hf c) as (H1 & H2 & H3).
  apply silent_same; [done|done|]. intros p. unfold ncomp. by rewrite H3.
Qed.

Lemma is_silent_get_sess : is_silent c_get_sess.
Proof. intros c. apply cw_get_sess; [done|]. intros. apply cb_at_refl. Qed.

Lemma is_silent_upd_sess f : is_silent (c_upd_sess f).
Proof. intros c. apply cw_upd_sess; [done|]. intros x _. by apply silent_same. Qed.

Lemma is_silent_get_msg p : is_silent (get_msg p).
Proof. intros c. apply cw_get_msg; [done|]. intros. apply cb_at_refl. Qed.

Lemma is_silent_get_fh p : is_silent (get_fh p).
Proof. intros c. apply cw_get_fh; [done|]. intros. apply cb_at_refl. Qed.

Lemma is_silent_store_fh p f : is_silent (store_fh p f).
Proof. by apply is_silent_modify. Qed.

Lemma is_silent_ub {A} : is_silent (@ub A).
Proof. intros c. by apply cw_ub. Qed.

Lemma is_silent_nondet : is_silent c_nondet.
Proof. intros c. apply cw_nondet. by apply silent_same. Qed.

Lemma is_silent_fh_free p : is_silent (fh_free p).
Proof. apply is_silent_bind; [apply is_silent_get_fh|]. intros _. by apply is_silent_modify. Qed.

Lemma is_silent_msg_free p : is_silent (cldc_msg_free p).
Proof.
  intros c. unfold cldc_msg_free. apply cw_bind, cw_get_msg; [done|]. intros m Hm. apply cw_modify.
  split; auto. intros q. unfold mstate. cbn. destruct (decide (q = p)) as [->|Hn].
  - right. by rewrite lookup_delete_eq.
  - left. by rewrite lookup_delete_ne.
Qed.

Lemma is_silent_iter (f : nat -> C unit) (l : list nat) : (forall p, is_silent (f p)) -> is_silent (c_iter f l).
Proof.
  intros Hf. induction l as [|p l IH]; cbn [c_iter]; [apply is_silent_ret|].
  by apply is_silent_bind.
Qed.

Lemma is_silent_sess_free : is_silent sess_free.
Proof.
  unfold sess_free. apply is_silent_bind; [apply is_silent_get_sess|]. intros sess.
  apply is_silent_bind; [apply is_silent_iter, is_silent_fh_free|]. intros _.
  apply is_silent_bind; [apply is_silent_iter, is_silent_msg_free|]. intros _. by apply is_silent_modify.
Qed.

#[export] Hint Resolve is_silent_ret is_silent_get_sess is_silent_upd_sess is_silent_get_msg
  is_silent_get_fh is_silent_store_fh is_silent_fh_free is_silent_msg_free is_silent_iter
  is_silent_sess_free is_silent_nondet is_silent_ub : cld.

Section callbacks.
Context {XL : XdrLib} {XC : XdrCli} {HL : HmacLib}.

Lemma copts_cb_spec (p : nat) (code : Z) (k : C Z) c :
  is_silent k -> cw True (copts_cb p code k) (fun _ c' => cb_at (eq p) c c') c.
Proof.
  intros Hk. unfold copts_cb. apply cw_bind, cw_get_msg; [done|]. intros m _.
  destruct (co_cb (m_copts m)) as [cb|].
  - unfold emit. apply cw_bind, cw_modify, cw_nondet. split; auto; intros q.
    + intros Hq. unfold ncomp. cbn. rewrite filter_app, filter_cons_False, app_nil_r by done. done.
    + unfold ncomp. cbn. rewrite filter_app, length_app. cbn. case_decide; cbn; lia.
  - eapply cw_mono; [apply Hk|]. cbn. intros a c' Hk'. eapply silent_cb_at; [done|apply cb_at_refl].
Qed.

Lemma copts_cb_after (p : nat) (code : Z) (k : C Z) c c1 :
  silent c c1 -> is_silent k -> cw True (copts_cb p code k) (fun _ c' => cb_at (eq p) c c') c1.
Proof.
  intros Hs Hk. eapply cw_mono; [by apply copts_cb_spec|]. cbn. intros a c' H. by eapply silent_cb_at.
Qed.

Lemma run_msg_cb_spec (p : nat) (resp : bytes) (code : Z) c :
  cw True (run_msg_cb p resp code) (fun _ c' => cb_at (eq p) c c') c.
Proof.
  unfold run_msg_cb. apply cw_bind, cw_get_msg; [done|]. intros m Hm. destruct (m_cb m).
  - apply cw_ret, cb_at_refl.
  - unfold run_new_sess_cb. apply cw_bind. case_match.
    + apply cw_upd_sess; [done|]. intros x _. apply copts_cb_after; auto with cld. by apply silent_same.
    + apply cw_ret. apply copts_cb_spec. auto with cld.
  - apply copts_cb_spec. apply is_silent_bind; auto with cld.
  - apply copts_cb_spec. auto with cld.
  - unfold run_open_end_cb. case_match; [|apply copts_cb_spec; auto with cld].
    apply cw_bind, cw_get_msg; [done|]. intros m' _. destruct (xdr_open_resp_dec resp) as [fh|].
    2:{ apply cw_ret, cb_at_refl. }
    destruct (m_cb_private m') as [fp|]; [|done].
    apply cw_bind, cw_get_fh; [done|]. intros f _. apply cw_bind, cw_modify.
    apply copts_cb_after; auto with cld. by apply silent_same.
  - unfold run_close_end_cb. apply cw_bind, cw_get_msg; [done|]. intros m' _.
    destruct (m_cb_private m') as [fp|]; [|done]. apply cw_bind, cw_get_fh; [done|]. intros f _.
    apply copts_cb_spec. do 2 (apply is_silent_bind; [auto with cld|intros _]). auto with cld.
  - unfold run_get_end_cb. case_match; [|apply copts_cb_spec; auto with cld].
    apply cw_bind, cw_get_msg; [done|]. intros m' Hm'. apply cw_bind, cw_get_sess; [done|]. intros x _.
    destruct (xdr_get_resp_dec _ _ _) as [[r payload] name]. case_match; [done|].
    apply cw_bind, cw_upd_sess; [done|]. intros x' _. apply cw_bind, cw_modify.
    set (c1 := set_c_msgs _ _).
    assert (silent c c1) as Hs.
    { split; auto. intros q. left. unfold mstate, c1. cbn. destruct (decide (q = p)) as [->|Hn].
      - rewrite lookup_insert_eq, Hm'. done.
      - by rewrite lookup_insert_ne. }
    destruct r as [r|].
    + apply copts_cb_after; auto with cld.
    + apply cw_ret. eapply silent_cb_at; [done|apply cb_at_refl].
Qed.

End callbacks.

(** ** Every function is lawful *)

#[export] Hint Resolve is_lawful_ret is_lawful_get is_lawful_nondet is_lawful_ub is_lawful_get_sess
  is_lawful_upd_sess is_lawful_get_msg is_lawful_get_fh is_lawful_store_fh is_lawful_msg_free
  is_lawful_fresh : cld.
#[export] Hint Extern 1 (is_lawful (emit _)) => apply is_lawful_emit; tauto : cld.

(** Walk through a computation. *)
Ltac solve_lawful :=
  repeat match goal with
  | |- forall _, _ => intros ?
  | |- is_lawful (_ ≫= _) => apply is_lawful_bind
  | |- is_lawful (match ?x with _ => _ end) => destruct x
  | |- is_lawful (let '(_, _) := ?x in _) => destruct x
  end; auto with cld.

Lemma is_lawful_iter (f : nat -> C unit) (l : list nat) : (forall p, is_lawful (f p)) -> is_lawful (c_iter f l).
Proof. intros Hf. induction l as [|p l IH]; cbn [c_iter]; solve_lawful. Qed.

Lemma is_lawful_silent {A} (m : C A) : is_silent m -> is_lawful m.
Proof.
  intros Hm c. eapply cw_mono; [apply Hm|]. cbn. intros a c' [N S O Co] B. split; [lia| | |].
  - intros p Hp. rewrite N in Hp. specialize (B p Hp). unfold mstate in S. specialize (S p).
    rewrite B in S. destruct (c_msgs c' !! p); [by destruct S|done].
  - intros p d' H. left. destruct (S p) as [E|E]; rewrite E in H; [eauto|done].
  - intros p. left. apply O. tauto.
Qed.

Section lawful.
Context {XL : XdrLib} {XC : XdrCli} {HL : HmacLib}.

Lemma is_lawful_send_pkt pkt : is_lawful (sess_send_pkt pkt).
Proof. unfold sess_send_pkt. solve_lawful. Qed.

Lemma is_lawful_malloc_ok : is_lawful c_malloc_ok.
Proof. unfold c_malloc_ok. solve_lawful. Qed.

Lemma is_lawful_rand64 : is_lawful c_rand64.
Proof. unfold c_rand64. solve_lawful. Qed.

#[local] Hint Resolve is_lawful_send_pkt is_lawful_malloc_ok is_lawful_rand64 is_lawful_iter : cld.

Lemma is_lawful_ack_seqid seqid : is_lawful (ack_seqid seqid).
Proof. unfold ack_seqid. solve_lawful. Qed.

Lemma is_lawful_sess_free : is_lawful sess_free.
Proof. apply is_lawful_silent. auto with cld. Qed.

Lemma is_lawful_expire_loop t l : is_lawful (expire_loop t l).
Proof. induction l as [|p l IH]; cbn [expire_loop]; solve_lawful. Qed.

Lemma is_lawful_expire_outmsg t : is_lawful (sess_expire_outmsg t).
Proof. unfold sess_expire_outmsg. solve_lawful. apply is_lawful_expire_loop. Qed.

Lemma is_lawful_find_xid xid l : is_lawful (find_xid xid l).
Proof. induction l as [|p l IH]; cbn [find_xid]; solve_lawful. Qed.

Lemma is_lawful_find_fh fh l : is_lawful (find_fh fh l).
Proof. induction l as [|p l IH]; cbn [find_fh]; solve_lawful. Qed.

(** Mark the message finished, then run its callback. *)
Lemma is_lawful_finish (p : nat) (resp : bytes) (code : Z) (m : cldc_msg) c :
  c_msgs c !! p = Some m -> m_done m = false ->
  cw True (_ ← store_msg p (set_done m); run_msg_cb p resp code) (fun _ c' => lawful c c') c.
Proof.
  intros Hm Hd. apply cw_bind, cw_modify. set (c1 := set_c_msgs _ c).
  eapply cw_mono; [apply run_msg_cb_spec|]. cbn. intros rc c' [N S O Co] B.
  destruct (lawful_store c p m (set_done m) Hm ltac:(done) B) as [N1 B1 S1 C1]. fold c1 in N1, B1, S1, C1.
  assert (p < c_next c)%nat as Hp.
  { apply (mstate_lt c p (m_done m) B). unfold mstate. by rewrite Hm. }
  assert (mstate c1 p = Some true) as E1 by (unfold mstate, c1; cbn; by rewrite lookup_insert_eq).
  split; [rewrite N; done| | |].
  - intros q Hq. rewrite N in Hq. specialize (B1 q Hq). specialize (S q). unfold mstate in S.
    rewrite B1 in S. destruct (c_msgs c' !! q); [by destruct S|done].
  - intros q d' Hq. destruct (S q) as [E|E]; rewrite E in Hq; [by apply S1|done].
  - intros q. destruct (decide (p = q)) as [<-|Hq].
    + destruct (Co p) as [E|E]; [by left|right]. rewrite E. split_and!; [done| |rewrite N; cbn; lia|].
      * left. unfold mstate. rewrite Hm. cbn. by rewrite Hd.
      * destruct (S p) as [->| ->]; [by rewrite E1|done].
    + left. rewrite O by done. done.
Qed.

Lemma is_lawful_rxmsg_generic seqid : is_lawful (rxmsg_generic seqid).
Proof.
  intros c. unfold rxmsg_generic. apply cw_bind, cw_get_sess; [done|]. intros x Hx.
  destruct (xdr_generic_resp_dec _) as [[code xid]|]; [|by apply cw_ret].
  apply cw_bind. eapply cw_mono; [apply is_lawful_find_xid|]. cbn. intros [p|] c1 H1; [|by apply cw_ret].
  apply cw_bind, cw_get_msg; [done|]. intros m Hm. destruct (m_done m) eqn:Hd.
  { eapply cw_mono; [apply is_lawful_ack_seqid|]. cbn. intros a c2 H2. by etrans. }
  apply cw_bind. pose proof (is_lawful_finish p (cs_msg_buf x) code m c1 Hm Hd) as Hf.
  unfold cw at 1. unfold cw at 1 in Hf. unfold mbind at 1, C_bind at 1 in Hf.
  destruct (store_msg p (set_done m) c1) as [[[] c2]|]; [|done].
  apply cw_bind. unfold cw at 1. destruct (run_msg_cb p (cs_msg_buf x) code c2) as [[rc c3]|]; [|done].
  assert (lawful c c3) as H3 by by etrans.
  case_match; [by apply cw_ret|]. eapply cw_mono; [apply is_lawful_ack_seqid|]. cbn. intros a c4 H4. by etrans.
Qed.

Lemma is_lawful_frag_seqid pi : is_lawful (frag_seqid pi).
Proof. unfold frag_seqid. solve_lawful. Qed.

Lemma is_silent_ack_frag_pkts seqid l : is_silent (ack_frag_pkts seqid l).
Proof.
  induction l as [|[pi|] l IH]; cbn [ack_frag_pkts]; [apply is_silent_ret| |].
  - apply is_silent_bind; [unfold frag_seqid; case_match; auto with cld|]. intros s.
    apply is_silent_bind; [done|]. auto with cld.
  - apply is_silent_bind; [done|]. auto with cld.
Qed.

Lemma ack_frag_pkts_same seqid l c l' c' : ack_frag_pkts seqid l c = Some (l', c') -> c' = c.
Proof.
  revert l'. induction l as [|[pi|] l IH]; intros l'; cbn [ack_frag_pkts]; unfold mbind, C_bind, mret, C_ret.
  - by intros [= _ <-].
  - unfold frag_seqid. destruct (_ || _); [done|]. cbn. destruct (ack_frag_pkts seqid l c) as [[l1 c1]|]; [|done].
    intros [= _ <-]. by eapply IH.
  - destruct (ack_frag_pkts seqid l c) as [[l1 c1]|]; [|done]. intros [= _ <-]. by eapply IH.
Qed.

Lemma is_lawful_ack_frag_msg seqid p : is_lawful (ack_frag_msg seqid p).
Proof.
  intros c. unfold ack_frag_msg. apply cw_bind, cw_get_msg; [done|]. intros m Hm. apply cw_bind.
  unfold cw at 1. destruct (ack_frag_pkts seqid (m_pkt_info m) c) as [[l c1]|] eqn:E; [|done].
  apply ack_frag_pkts_same in E as ->. apply cw_modify. by apply (lawful_store c p m).
Qed.

Lemma is_lawful_ack_frag : is_lawful rxmsg_ack_frag.
Proof. unfold rxmsg_ack_frag. solve_lawful. auto using is_lawful_iter, is_lawful_ack_frag_msg. Qed.

Lemma is_lawful_event : is_lawful rxmsg_event.
Proof. unfold rxmsg_event. solve_lawful. auto using is_lawful_find_fh. Qed.

Lemma is_lawful_rx_complete seqid : is_lawful (rx_complete seqid).
Proof.
  unfold rx_complete. solve_lawful;
    auto using is_lawful_ack_seqid, is_lawful_event, is_lawful_ack_frag, is_lawful_rxmsg_generic.
Qed.

Lemma is_lawful_accept_seqid seqid op : is_lawful (accept_seqid seqid op).
Proof. unfold accept_seqid. solve_lawful. Qed.

Lemma is_lawful_receive addr pkt : is_lawful (cldc_receive_pkt addr pkt).
Proof.
  unfold cldc_receive_pkt. solve_lawful;
    auto using is_lawful_expire_outmsg, is_lawful_accept_seqid, is_lawful_rx_complete, is_lawful_ack_seqid.
Qed.

Lemma is_lawful_new_msg copts op req cb priv : is_lawful (cldc_new_msg copts op req cb priv).
Proof.
  assert (forall n xid first body, is_lawful (new_msg_pkts n xid op first body)).
  { induction n as [|n IH]; intros; cbn [new_msg_pkts]; solve_lawful. }
  unfold cldc_new_msg. solve_lawful.
Qed.

Lemma is_lawful_send_all key l : is_lawful (send_all key l).
Proof.
  induction l as [|[pi|] l IH]; cbn [send_all]; solve_lawful.
  unfold send_one, sess_next_seqid. solve_lawful.
Qed.

(** A message enters the heap at a fresh address. *)
Lemma is_lawful_sess_send msg : is_lawful (sess_send msg).
Proof.
  unfold sess_send. apply is_lawful_bind; [auto with cld|]. intros x.
  apply is_lawful_bind; [apply is_lawful_send_all|]. intros [l|e]; [|auto with cld].
  intros c. apply cw_bind. unfold cw at 1, c_fresh. apply cw_bind, cw_modify.
  apply cw_bind, cw_upd_sess; [done|]. intros y _. apply cw_ret. intros B. split; [cbn; lia| | |by left].
  - intros q Hq. cbn in *. rewrite lookup_insert_ne by lia. apply B. lia.
  - intros q d'. unfold mstate. cbn. destruct (decide (q = c_next c)) as [->|Hn].
    + intros _. right. by rewrite B.
    + rewrite lookup_insert_ne by done. intros H'. left. eauto.
Qed.

Lemma is_lawful_call copts op req cb priv : is_lawful (cldc_call copts op req cb priv).
Proof. unfold cldc_call. solve_lawful; auto using is_lawful_new_msg, is_lawful_sess_send. Qed.

(** Run the callback, then free the message. *)
Lemma is_lawful_drop_one p : is_lawful (drop_one p).
Proof.
  intros c. unfold drop_one. apply cw_bind, cw_get_msg; [done|]. intros m Hm. apply cw_bind.
  destruct (m_done m) eqn:Hd; cbn [negb]; [apply cw_ret, is_lawful_msg_free|].
  eapply cw_mono; [apply run_msg_cb_spec|]. cbn. intros rc c1 [N S O Co].
  unfold cldc_msg_free. apply cw_bind, cw_get_msg; [done|]. intros m1 Hm1. apply cw_modify. intros B.
  assert (p < c_next c)%nat as Hp.
  { apply (mstate_lt c p (m_done m) B). unfold mstate. by rewrite Hm. }
  split; [cbn; lia| | |].
  - intros q Hq. cbn in *. rewrite lookup_delete_None. right. rewrite N in Hq. specialize (B q Hq).
    specialize (S q). unfold mstate in S. rewrite B in S. destruct (c_msgs c1 !! q); [by destruct S|done].
  - intros q d'. unfold mstate at 1. cbn. destruct (decide (q = p)) as [->|Hn]; [by rewrite lookup_delete_eq|].
    rewrite lookup_delete_ne by done. change (m_done <$> c_msgs c1 !! q) with (mstate c1 q).
    intros Hq. left. destruct (S q) as [E|E]; rewrite E in Hq; [eauto|done].
  - intros q. change (ncomp q (set_c_msgs _ c1)) with (ncomp q c1). destruct (decide (p = q)) as [<-|Hq].
    + destruct (Co p) as [E|E]; [by left|right]. split_and!; [done| |cbn; lia|].
      * left. unfold mstate. rewrite Hm. cbn. by rewrite Hd.
      * unfold mstate. cbn. by rewrite lookup_delete_eq.
    + left. by apply O.
Qed.

Lemma is_lawful_sess_expire : is_lawful sess_expire.
Proof. unfold sess_expire, sess_msg_drop. solve_lawful. auto using is_lawful_iter, is_lawful_drop_one. Qed.

Lemma is_lawful_resend_msg p : is_lawful (resend_msg p).
Proof.
  assert (forall l, is_lawful (resend_pkts l)) as Hr.
  { induction l as [|[pi|] l IH]; cbn [resend_pkts]; solve_lawful. }
  intros c. unfold resend_msg. apply cw_bind, cw_get_msg; [done|]. intros m Hm.
  destruct (m_done m); [by apply cw_ret|]. apply cw_bind, cw_modify.
  eapply cw_mono; [apply Hr|]. cbn. intros a c' H. etrans; [|done]. by apply (lawful_store c p m).
Qed.

Lemma is_lawful_timer : is_lawful sess_timer.
Proof.
  unfold sess_timer. solve_lawful; auto using is_lawful_iter, is_lawful_sess_expire, is_lawful_resend_msg.
Qed.

Lemma is_lawful_new_sess copts addr user key : is_lawful (cldc_new_sess copts addr user key).
Proof.
  unfold cldc_new_sess. solve_lawful;
    auto using is_lawful_modify, is_lawful_new_msg, is_lawful_sess_free, is_lawful_sess_send.
Qed.

Lemma is_lawful_kill : is_lawful cldc_kill_sess.
Proof. unfold cldc_kill_sess. solve_lawful. apply is_lawful_sess_free. Qed.

Lemma is_lawful_open copts path mode events : is_lawful (cldc_open copts path mode events).
Proof. unfold cldc_open. solve_lawful; auto using is_lawful_new_msg, is_lawful_sess_send. Qed.

Lemma is_lawful_close fp copts : is_lawful (cldc_close fp copts).
Proof. unfold cldc_close. solve_lawful; auto using is_lawful_new_msg, is_lawful_sess_send. Qed.

Lemma is_lawful_put fp copts data : is_lawful (cldc_put fp copts data).
Proof. unfold cldc_put. solve_lawful; auto using is_lawful_new_msg, is_lawful_sess_send. Qed.

End lawful.
