(* ===== verification/CldcSys.v ===== *)
(** * CldcSys: runs of the client library

    What an application and the network can make the library do, as steps; the
    memory invariant of the library; at-most-once completion. *)

From S2P Require Import Prelude Dirent Wire Cldc CldcLogic.
#[local] Open Scope Z_scope.

Section sys.
Context {XL : XdrLib} {XC : XdrCli} {HL : HmacLib}.

(** ** Steps *)

Inductive cli_op : Type :=
| OpReceive (net_addr pkt : bytes)
| OpTimer
| OpNewSess (copts : option Z) (addr : bytes) (user key : option bytes)
| OpKill
| OpEndSess (copts : option Z)
| OpNop (copts : option Z)
| OpDel (copts : option Z) (path : bytes)
| OpOpen (copts : option Z) (path : bytes) (mode events : Z)
| OpClose (fh : nat) (copts : option Z)
| OpLock (fh : nat) (copts : option Z) (flags : Z) (wait : bool)
| OpUnlock (fh : nat) (copts : option Z)
| OpPut (fh : nat) (copts : option Z) (data : option bytes)
| OpGet (fh : nat) (copts : option Z) (metadata_only : bool).

Definition run_op (o : cli_op) : C Z :=
  match o with
  | OpReceive a pkt => cldc_receive_pkt a pkt
  | OpTimer => sess_timer
  | OpNewSess co a u k => cldc_new_sess co a u k
  | OpKill => _ ← cldc_kill_sess; mret 0
  | OpEndSess co => cldc_end_sess co
  | OpNop co => cldc_nop co
  | OpDel co path => cldc_del co path
  | OpOpen co path mode ev => r ← cldc_open co path mode ev; mret (r.1)
  | OpClose fh co => cldc_close fh co
  | OpLock fh co fl w => cldc_lock fh co fl w
  | OpUnlock fh co => cldc_unlock fh co
  | OpPut fh co d => cldc_put fh co d
  | OpGet fh co m => cldc_get fh co m
  end.

(** A new session is opened only when there is none. *)
Definition op_allowed (o : cli_op) (c : cli) : Prop :=
  match o with OpNewSess _ _ _ _ => c_sess c = None | _ => True end.

Inductive cstep : cli -> cli -> Prop :=
| cstep_time t c : cstep c (set_c_now t c)
| cstep_op o r c c' : op_allowed o c -> run_op o c = Some (r, c') -> cstep c c'.

Inductive creach (c0 : cli) : cli -> Prop :=
| creach_refl : creach c0 c0
| creach_step c c' : creach c0 c -> cstep c c' -> creach c0 c'.

(** Nothing allocated, nothing seen by the application yet. *)
Definition cli_init (now : Z) (orc : nat -> Z) : cli := mkCli None ∅ ∅ 0 now [] orc 0.

Lemma is_lawful_op (o : cli_op) : is_lawful (run_op o).
Proof.
  destruct o; cbn [run_op]; unfold cldc_end_sess, cldc_nop, cldc_del, cldc_lock, cldc_unlock, cldc_get;
    solve_lawful; auto using is_lawful_receive, is_lawful_timer, is_lawful_new_sess, is_lawful_kill,
      is_lawful_call, is_lawful_open, is_lawful_close, is_lawful_put.
Qed.

Lemma lawful_step c c' : cstep c c' -> lawful c c'.
Proof.
  intros [t c1|o r c1 c2 _ Hr]; [by apply lawful_same|].
  pose proof (is_lawful_op o c1) as H. unfold cw in H. by rewrite Hr in H.
Qed.

Lemma lawful_reach c0 c : creach c0 c -> lawful c0 c.
Proof. induction 1 as [|c c' _ IH Hs]; [done|]. etrans; [done|by apply lawful_step]. Qed.

(** C18.  At-most-once completion: in any run of the library - packets of
    arbitrary bytes in any order and repetition, timers, calls, failing sends
    and allocations - the application's callback for a call has run at most
    once, and not at all while the call is still pending. *)
Theorem completes_at_most_once (now : Z) (orc : nat -> Z) c (p : nat) :
  creach (cli_init now orc) c ->
  (ncomp p c <= 1)%nat /\
  (forall m, c_msgs c !! p = Some m -> m_done m = false -> ncomp p c = 0%nat).
Proof.
  intros Hr. assert (bounded (cli_init now orc)) as B0 by (intros q _; apply lookup_empty).
  destruct (lawful_reach _ _ Hr B0) as [_ _ _ Hc].
  assert (ncomp p (cli_init now orc) = 0%nat) as E0 by done.
  specialize (Hc p). rewrite E0 in Hc. split; [lia|].
  intros m Hm Hd. destruct Hc as [->|(_ & _ & _ & Hn)]; [done|].
  destruct Hn. unfold mstate. rewrite Hm. cbn. by rewrite Hd.
Qed.

End sys.
