(* ===== verification/CldcWf.v ===== *)
(** * CldcWf: the memory invariant of the client library

    [wf]: the session's lists name exactly the live messages and handles, and
    a pending open or close refers to a live, not yet (or no longer) valid
    handle that no other pending call refers to.  Every operation keeps it,
    and under it the timer never touches freed memory. *)

From S2P Require Import Prelude Dirent Wire Cldc CldcLogic CldcSys.
#[local] Open Scope Z_scope.

(** Callbacks that use [cb_private]. *)
Definition needs_fh (m : cldc_msg) : bool :=
  match m_cb m with open_end_cb | close_end_cb => true | _ => false end.

Definition pending_on (c : cli) (p fp : nat) : Prop :=
  exists m, c_msgs c !! p = Some m /\ m_done m = false /\ needs_fh m = true /\ m_cb_private m = Some fp.

(** The invariant with the list of live messages [out] made explicit, and a
    set [ex] of messages whose handle may be gone. *)
Record wfb (ex : nat -> Prop) (out : list nat) (c : cli) (x : cldc_session) : Prop := {
  wb_out : NoDup out;
  wb_msgs p : p ∈ out <-> is_Some (c_msgs c !! p);
  wb_cfh : NoDup (cs_cfh x);
  wb_fhs p : p ∈ cs_cfh x <-> is_Some (c_fhs c !! p);
  wb_mnext p : is_Some (c_msgs c !! p) -> (p < c_next c)%nat;
  wb_fnext p : is_Some (c_fhs c !! p) -> (p < c_next c)%nat;
  wb_pend p m : c_msgs c !! p = Some m -> m_done m = false -> ~ ex p -> needs_fh m = true ->
    exists fp f, m_cb_private m = Some fp /\ c_fhs c !! fp = Some f /\ f_valid f = false;
  wb_uniq p q fp : pending_on c p fp -> pending_on c q fp -> p = q }.

Abbreviation nobody := (fun _ : nat => False).

Definition creds_ok (x : cldc_session) : Prop :=
  (0 < length (cs_user x) < 32)%nat /\ (0 < length (cs_secret_key x) < 128)%nat.

Definition wf_sess (c : cli) (x : cldc_session) : Prop :=
  wfb nobody (cs_out_msg x) c x /\ creds_ok x.

Definition wf (c : cli) : Prop :=
  match c_sess c with
  | None => c_msgs c = ∅ /\ c_fhs c = ∅
  | Some x => wf_sess c x
  end.

(** Same messages and handles. *)
Lemma wfb_frame ex out c c' x x' :
  c_msgs c' = c_msgs c -> c_fhs c' = c_fhs c -> (c_next c <= c_next c')%nat -> cs_cfh x' = cs_cfh x ->
  wfb ex out c x -> wfb ex out c' x'.
Proof.
  intros Em Ef En Ex [H1 H2 H3 H4 H5 H6 H7 H8]. split; rewrite ?Em, ?Ef, ?Ex; try done.
  - intros p Hp. specialize (H5 p Hp). lia.
  - intros p Hp. specialize (H6 p Hp). lia.
  - intros p q fp. unfold pending_on. rewrite Em. apply H8.
Qed.

Lemma wfb_weaken (ex ex' : nat -> Prop) out c x :
  (forall p, ex p -> ex' p) -> wfb ex out c x -> wfb ex' out c x.
Proof. intros He [H1 H2 H3 H4 H5 H6 H7 H8]. split; try done. intros p m Hm Hd Hp Hn. apply (H7 p m); auto. Qed.

(** A finished message needs its handle no more. *)
Lemma wfb_strengthen ex p out c x :
  (forall m, c_msgs c !! p = Some m -> m_done m = true) ->
  wfb (fun q => q = p \/ ex q) out c x -> wfb ex out c x.
Proof.
  intros Hp [H1 H2 H3 H4 H5 H6 H7 H8]. split; try done. intros q m Hm Hd Hq. apply (H7 q m); auto.
  intros [->|?]; [|tauto]. by rewrite (Hp m Hm) in Hd.
Qed.

Lemma pending_store c p m m' q fp :
  c_msgs c !! p = Some m -> m_cb m' = m_cb m -> m_cb_private m' = m_cb_private m ->
  (m_done m = true -> m_done m' = true) ->
  pending_on (set_c_msgs (<[p := m']> (c_msgs c)) c) q fp -> pending_on c q fp.
Proof.
  intros Hm Hc Hp Hd (n & Hn & Hdn & Hcn & Hpn). cbn in Hn. destruct (decide (q = p)) as [->|Hq].
  - rewrite lookup_insert_eq in Hn. simplify_eq. exists m. split_and!; [done| | |congruence].
    + destruct (m_done m); [|done]. by rewrite Hd in Hdn.
    + unfold needs_fh in *. by rewrite <- Hc.
  - rewrite lookup_insert_ne in Hn by done. by exists n.
Qed.

Lemma wfb_store ex out c x p m m' :
  c_msgs c !! p = Some m -> m_cb m' = m_cb m -> m_cb_private m' = m_cb_private m ->
  (m_done m = true -> m_done m' = true) ->
  wfb ex out c x -> wfb ex out (set_c_msgs (<[p := m']> (c_msgs c)) c) x.
Proof.
  intros Hm Hc Hp Hd [H1 H2 H3 H4 H5 H6 H7 H8].
  assert (forall q, is_Some (<[p := m']> (c_msgs c) !! q) <-> is_Some (c_msgs c !! q)) as Hdom.
  { intros q. destruct (decide (q = p)) as [->|Hq]; [|by rewrite lookup_insert_ne].
    rewrite lookup_insert_eq, Hm. done. }
  split; cbn [c_msgs c_fhs c_next set_c_msgs]; try done.
  - intros q. by rewrite Hdom.
  - intros q Hq. apply H5. by apply Hdom.
  - intros q n Hn Hdn Hex Hnn. destruct (decide (q = p)) as [->|Hq].
    + rewrite lookup_insert_eq in Hn. simplify_eq. unfold needs_fh in *. rewrite Hc in Hnn. rewrite Hp.
      apply (H7 p m); auto. destruct (m_done m); [|done]. by rewrite Hd in Hdn.
    + rewrite lookup_insert_ne in Hn by done. by apply (H7 q n).
  - intros q1 q2 fp P1 P2. apply (H8 q1 q2 fp); by eapply pending_store.
Qed.

Lemma wfb_free_msg ex l1 p l2 c x :
  wfb ex (l1 ++ p :: l2) c x -> wfb ex (l1 ++ l2) (set_c_msgs (delete p (c_msgs c)) c) x.
Proof.
  intros [H1 H2 H3 H4 H5 H6 H7 H8]. apply NoDup_app in H1 as (N1 & N2 & N3). apply NoDup_cons in N3 as [N4 N3].
  assert (forall q, is_Some (delete p (c_msgs c) !! q) <-> is_Some (c_msgs c !! q) /\ q <> p) as Hdom.
  { intros q. destruct (decide (q = p)) as [->|Hq].
    - rewrite lookup_delete_eq. split; [by intros []|by intros []].
    - rewrite lookup_delete_ne by done. tauto. }
  split; cbn [c_msgs c_fhs c_next set_c_msgs]; try done.
  - apply NoDup_app. split_and!; [done| |done]. intros q Hq Hq2. apply (N2 q Hq). by right.
  - intros q. rewrite Hdom, <- H2. split.
    + intros Hq. split; [set_solver|]. intros ->. apply elem_of_app in Hq as [Hq|Hq]; [|done].
      apply (N2 p Hq). by left.
    + set_solver.
  - intros q Hq. apply H5. by apply Hdom.
  - intros q n Hn Hdn Hex Hnn. apply lookup_delete_Some in Hn as [_ Hn]. by apply (H7 q n).
  - assert (forall q fp, pending_on (set_c_msgs (delete p (c_msgs c)) c) q fp -> pending_on c q fp) as Hp.
    { intros q fp (n & Hn & Hr). cbn in Hn. apply lookup_delete_Some in Hn as [_ Hn]. by exists n. }
    intros q1 q2 fp P1 P2. apply (H8 q1 q2 fp); auto.
Qed.

(** A new message at a fresh address. *)
Lemma wfb_add_msg out c x p m :
  wfb nobody out c x -> c_msgs c !! p = None -> (p < c_next c)%nat -> p ∉ out ->
  (m_done m = false -> needs_fh m = true -> exists fp f, m_cb_private m = Some fp /\ c_fhs c !! fp = Some f /\
     f_valid f = false /\ forall q, ~ pending_on c q fp) ->
  wfb nobody (p :: out) (set_c_msgs (<[p := m]> (c_msgs c)) c) x.
Proof.
  intros [H1 H2 H3 H4 H5 H6 H7 H8] Hn Hlt Hni Hm.
  split; cbn [c_msgs c_fhs c_next set_c_msgs]; try done.
  - by constructor.
  - intros q. rewrite elem_of_cons, H2. destruct (decide (q = p)) as [->|Hq].
    + rewrite lookup_insert_eq. split; [done|by left].
    + rewrite lookup_insert_ne by done. split; [by intros [|]|by right].
  - intros q. destruct (decide (q = p)) as [->|Hq]; [done|]. rewrite lookup_insert_ne by done. apply H5.
  - intros q n Hn' Hd Hex Hnn. destruct (decide (q = p)) as [->|Hq].
    + rewrite lookup_insert_eq in Hn'. simplify_eq. destruct (Hm Hd Hnn) as (fp & f & ? & ? & ? & _). eauto.
    + rewrite lookup_insert_ne in Hn' by done. by apply (H7 q n).
  - assert (forall q fp, pending_on (set_c_msgs (<[p := m]> (c_msgs c)) c) q fp ->
      q = p \/ pending_on c q fp) as Hp.
    { intros q fp (n & Hn' & Hr). cbn in Hn'. destruct (decide (q = p)) as [->|Hq]; [by left|right].
      rewrite lookup_insert_ne in Hn' by done. by exists n. }
    assert (forall q fp, pending_on (set_c_msgs (<[p := m]> (c_msgs c)) c) p fp -> ~ pending_on c q fp) as Hx.
    { intros q fp (n & Hn' & Hd & Hnn & Hpr). cbn in Hn'. rewrite lookup_insert_eq in Hn'. simplify_eq.
      destruct (Hm Hd Hnn) as (fp' & f & E & _ & _ & Hno). simplify_eq. apply Hno. }
    intros q1 q2 fp P1 P2. destruct (Hp _ _ P1) as [->|Q1], (Hp _ _ P2) as [->|Q2]; try done.
    + by destruct (Hx q2 fp P1).
    + by destruct (Hx q1 fp P2).
    + by apply (H8 q1 q2 fp).
Qed.

(** A handle that no pending call waits for may be changed at will. *)
Lemma wfb_store_fh ex out c x fp f :
  wfb ex out c x -> is_Some (c_fhs c !! fp) ->
  (f_valid f = true -> forall q, pending_on c q fp -> ex q) ->
  wfb ex out (set_c_fhs (<[fp := f]> (c_fhs c)) c) x.
Proof.
  intros [H1 H2 H3 H4 H5 H6 H7 H8] Hf Hp.
  assert (forall q, is_Some (<[fp := f]> (c_fhs c) !! q) <-> is_Some (c_fhs c !! q)) as Hdom.
  { intros q. destruct (decide (q = fp)) as [->|Hq]; [|by rewrite lookup_insert_ne].
    by rewrite lookup_insert_eq. }
  split; cbn [c_msgs c_fhs c_next set_c_fhs]; try done.
  - intros q. by rewrite Hdom.
  - intros q Hq. by apply H6, Hdom.
  - intros q m Hm Hd Hex Hn. destruct (H7 q m Hm Hd Hex Hn) as (fp' & f' & E & Ef & Ev).
    destruct (decide (fp' = fp)) as [->|Hne].
    + exists fp, f. rewrite lookup_insert_eq. split_and!; [done|done|].
      destruct (f_valid f); [|done]. destruct Hex. apply Hp; [done|]. by exists m.
    + exists fp', f'. by rewrite lookup_insert_ne.
Qed.

Lemma wfb_free_fh ex out c x fp :
  wfb ex out c x -> (forall q, pending_on c q fp -> ex q) ->
  forall x', cs_cfh x' = remove_first fp (cs_cfh x) ->
  wfb ex out (set_c_fhs (delete fp (c_fhs c)) c) x'.
Proof.
  intros [H1 H2 H3 H4 H5 H6 H7 H8] Hp x' Ex.
  assert (forall q, q ∈ remove_first fp (cs_cfh x) <-> q ∈ cs_cfh x /\ q <> fp) as Hrm.
  { clear -H3. induction H3 as [|a l Ha Hl IH]; intros q; cbn [remove_first]; [set_solver|].
    case_decide; subst; set_solver. }
  split; cbn [c_msgs c_fhs c_next set_c_fhs]; rewrite ?Ex; try done.
  - eapply sublist_NoDup; [done|apply remove_first_sublist].
  - intros q. rewrite Hrm, H4. destruct (decide (q = fp)) as [->|Hq].
    + rewrite lookup_delete_eq. split; [by intros []|by intros []].
    + rewrite lookup_delete_ne by done. tauto.
  - intros q Hq. apply H6. destruct (decide (q = fp)) as [->|Hne]; [by rewrite lookup_delete_eq in Hq; destruct Hq|].
    by rewrite lookup_delete_ne in Hq.
  - intros q m Hm Hd Hex Hn. destruct (H7 q m Hm Hd Hex Hn) as (fp' & f' & E & Ef & Ev).
    exists fp', f'. rewrite lookup_delete_ne; [done|]. intros <-. destruct Hex. apply Hp. by exists m.
Qed.

(** ** Sending leaves the heap alone *)

Record still (c c' : cli) : Prop := {
  st_sess : c_sess c' = c_sess c;
  st_msgs : c_msgs c' = c_msgs c;
  st_fhs : c_fhs c' = c_fhs c;
  st_next : c_next c' = c_next c;
  st_now : c_now c' = c_now c;
  st_oracle : c_oracle c' = c_oracle c;
  st_trace : exists l, c_trace c' = c_trace c ++ l }.

#[global] Instance still_preorder : PreOrder still.
Proof.
  split.
  - intros c. split; try done. exists []. by rewrite app_nil_r.
  - intros c1 c2 c3 [A1 A2 A3 A4 A5 A6 [l1 A7]] [B1 B2 B3 B4 B5 B6 [l2 B7]].
    split; try congruence. exists (l1 ++ l2). rewrite B7, A7. by rewrite app_assoc.
Qed.

Lemma wfb_still ex out c c' x : still c c' -> wfb ex out c x -> wfb ex out c' x.
Proof. intros [H1 H2 H3 H4 H5 H6 H7]. by apply wfb_frame; [..|lia|]. Qed.

Lemma wf_still c c' : still c c' -> wf c -> wf c'.
Proof.
  intros S. unfold wf. rewrite (st_sess _ _ S). destruct (c_sess c) as [x|].
  - intros [Hw Hc]. split; [by eapply wfb_still|done].
  - by rewrite (st_msgs _ _ S), (st_fhs _ _ S).
Qed.

Definition is_still {A} (m : C A) : Prop :=
  forall c x, c_sess c = Some x -> cw False m (fun _ c' => still c c') c.

Lemma is_still_ret {A} (a : A) : is_still (mret a).
Proof. intros c x _. by apply cw_ret. Qed.

Lemma is_still_bind {A B} (m : C A) (k : A -> C B) :
  is_still m -> (forall a, is_still (k a)) -> is_still (m ≫= k).
Proof.
  intros Hm Hk c x Hx. apply cw_bind. eapply cw_mono; [by eapply Hm|]. cbn. intros a c1 H1.
  eapply cw_mono; [eapply Hk; by rewrite (st_sess _ _ H1)|]. cbn. intros b c2 H2. by etrans.
Qed.

Lemma is_still_emit (e : eff) : is_still (emit e).
Proof. intros c x _. unfold emit. apply cw_modify. split; try done. by eexists. Qed.

Lemma is_still_nondet : is_still c_nondet.
Proof. intros c x _. apply cw_nondet. split; try done. exists []. by rewrite app_nil_r. Qed.

Lemma is_still_get : is_still c_get.
Proof. intros c x _. by apply cw_get. Qed.

Lemma is_still_get_sess : is_still c_get_sess.
Proof. intros c x Hx. apply cw_get_sess; [by rewrite Hx|done]. Qed.

#[export] Hint Resolve is_still_ret is_still_emit is_still_nondet is_still_get is_still_get_sess : cld.

Ltac solve_still :=
  repeat match goal with
  | |- forall _, _ => intros ?
  | |- is_still (_ ≫= _) => apply is_still_bind
  | |- is_still (match ?x with _ => _ end) => destruct x
  end; auto with cld.

Lemma is_still_send_pkt pkt : is_still (sess_send_pkt pkt).
Proof. unfold sess_send_pkt. solve_still. Qed.

Lemma is_still_malloc_ok : is_still c_malloc_ok.
Proof. unfold c_malloc_ok. solve_still. Qed.

Lemma is_still_rand64 : is_still c_rand64.
Proof. unfold c_rand64. solve_still. Qed.

Lemma is_still_resend_pkts l : is_still (resend_pkts l).
Proof. induction l as [|[pi|] l IH]; cbn [resend_pkts]; solve_still. apply is_still_send_pkt. Qed.

#[export] Hint Resolve is_still_send_pkt is_still_malloc_ok is_still_rand64 is_still_resend_pkts : cld.

(** A computation that keeps the heap in a state where it is known to be live. *)
Lemma cw_still {A} (m : C A) (U : Prop) (Q : A -> cli -> Prop) c x :
  is_still m -> c_sess c = Some x -> (forall a c', still c c' -> Q a c') -> cw U m Q c.
Proof.
  intros Hm Hx HQ. eapply (cw_weaken False); [done|]. eapply cw_mono; [by eapply Hm|]. cbn. auto.
Qed.

Section send.
Context {XL : XdrLib} {XC : XdrCli} {HL : HmacLib}.

Lemma is_still_ack_seqid seqid : is_still (ack_seqid seqid).
Proof.
  unfold ack_seqid. apply is_still_bind; [auto with cld|]. intros x. destruct (xdr_hdr_enc _) as [hb|]; [|auto with cld].
  destruct (_ <? _); [auto with cld|]. destruct (cld_authsign _ _) as [rc sha]. case_match; auto with cld.
Qed.

Lemma is_still_new_msg copts op req cb priv : is_still (cldc_new_msg copts op req cb priv).
Proof.
  assert (forall n xid first body, is_still (new_msg_pkts n xid op first body)).
  { induction n as [|n IH]; intros; cbn [new_msg_pkts]; solve_still. }
  unfold cldc_new_msg. solve_still.
Qed.

End send.

(** ** Freeing *)

Lemma iter_free_msgs (l : list nat) c :
  NoDup l -> (forall p, p ∈ l -> is_Some (c_msgs c !! p)) ->
  cw False (c_iter cldc_msg_free l) (fun _ c' => c' = set_c_msgs (c_msgs c') c /\
    forall q, (q ∈ l -> c_msgs c' !! q = None) /\ (q ∉ l -> c_msgs c' !! q = c_msgs c !! q)) c.
Proof.
  intros Hn. revert c. induction Hn as [|p l Hp Hl IH]; intros c Hs; cbn [c_iter].
  { apply cw_ret. split; [by destruct c|]. intros q. split; [|done]. intros H. inversion H. }
  apply cw_bind. unfold cldc_msg_free. apply cw_bind, cw_get_msg.
  { intros E. destruct (Hs p) as [m E']; [by left|congruence]. }
  intros m Hm. apply cw_modify. eapply cw_mono; [apply IH|].
  - intros q Hq. cbn. rewrite lookup_delete_ne by (intros ->; done). apply Hs. by right.
  - cbn. intros _ c' [E Hq]. rewrite E. split; [done|]. intros q. cbn. destruct (Hq q) as [H1 H2].
    destruct (decide (q = p)) as [->|Hqp].
    + split; [intros _|intros []; by left]. rewrite H2 by done. by rewrite lookup_delete_eq.
    + rewrite lookup_delete_ne in H2 by done. rewrite elem_of_cons. split.
      * intros [?|?]; auto; done.
      * intros Hn. apply H2. tauto.
Qed.

Lemma iter_free_fhs (l : list nat) c :
  NoDup l -> (forall p, p ∈ l -> is_Some (c_fhs c !! p)) ->
  cw False (c_iter fh_free l) (fun _ c' => c' = set_c_fhs (c_fhs c') c /\
    forall q, (q ∈ l -> c_fhs c' !! q = None) /\ (q ∉ l -> c_fhs c' !! q = c_fhs c !! q)) c.
Proof.
  intros Hn. revert c. induction Hn as [|p l Hp Hl IH]; intros c Hs; cbn [c_iter].
  { apply cw_ret. split; [by destruct c|]. intros q. split; [|done]. intros H. inversion H. }
  apply cw_bind. unfold fh_free. apply cw_bind, cw_get_fh.
  { intros E. destruct (Hs p) as [m E']; [by left|congruence]. }
  intros m Hm. apply cw_modify. eapply cw_mono; [apply IH|].
  - intros q Hq. cbn. rewrite lookup_delete_ne by (intros ->; done). apply Hs. by right.
  - cbn. intros _ c' [E Hq]. rewrite E. split; [done|]. intros q. cbn. destruct (Hq q) as [H1 H2].
    destruct (decide (q = p)) as [->|Hqp].
    + split; [intros _|intros []; by left]. rewrite H2 by done. by rewrite lookup_delete_eq.
    + rewrite lookup_delete_ne in H2 by done. rewrite elem_of_cons. split.
      * intros [?|?]; auto; done.
      * intros Hn. apply H2. tauto.
Qed.

(** Freeing the session frees everything, once. *)
Lemma sess_free_spec ex c x :
  c_sess c = Some x -> wfb ex (cs_out_msg x) c x ->
  cw False sess_free (fun _ c' => c_sess c' = None /\ c_msgs c' = ∅ /\ c_fhs c' = ∅ /\
    c_trace c' = c_trace c) c.
Proof.
  intros Hx W. unfold sess_free. apply cw_bind, cw_get_sess; [by rewrite Hx|]. intros x' E. simplify_eq.
  apply cw_bind. eapply cw_mono; [apply iter_free_fhs; [by apply W|intros p; by apply W]|].
  cbn. intros _ c1 [E1 F1]. apply cw_bind. eapply cw_mono; [apply iter_free_msgs; [by apply W|]|].
  - intros p. rewrite E1. apply W.
  - cbn. intros _ c2 [E2 F2]. apply cw_modify. cbn. rewrite E2, E1. cbn. split_and!; [done| | |done].
    + apply map_empty. intros q. destruct (decide (q ∈ cs_out_msg x)) as [Hq|Hq]; [by apply F2|].
      rewrite (proj2 (F2 q)) by done. rewrite E1. cbn. apply eq_None_not_Some.
      by rewrite <- (wb_msgs _ _ _ _ W).
    + apply map_empty. intros q. destruct (decide (q ∈ cs_cfh x)) as [Hq|Hq]; [by apply F1|].
      rewrite (proj2 (F1 q)) by done. apply eq_None_not_Some. by rewrite <- (wb_fhs _ _ _ _ W).
Qed.

(** ** Callbacks *)

(** What identifies the session on the wire, and whether it is lost. *)
Definition ident (x : cldc_session) : Z * bytes * bytes * bytes * bool :=
  (cs_sid x, cs_addr x, cs_user x, cs_secret_key x, cs_expired x).

Section cbs.
Context {XL : XdrLib} {XC : XdrCli} {HL : HmacLib}.

(** The response to a read does not fit the session's buffers. *)
Definition get_overflow (x : cldc_session) (resp : bytes) : Prop :=
  let '(_, payload, name) := xdr_get_resp_dec resp (cs_payload x) (cs_inode_name_temp x) in
  CLD_MAX_PAYLOAD_SZ < Z.of_nat (length payload) \/ CLD_INODE_NAME_MAX < Z.of_nat (length name).

(** What the application sees of the completion of [m]. *)
Definition seen (p : nat) (m : cldc_msg) (code : Z) : list eff :=
  match m_cb m, co_cb (m_copts m) with
  | no_cb, _ | _, None => []
  | _, Some cb => [Complete p cb code]
  end.

(** After a callback: the session is freed, or all is as it was but for the
    handle of [m]. *)
Definition after_cb (p : nat) (m : cldc_msg) (out : list nat) (code : Z) (c : cli) (x : cldc_session) (c' : cli) : Prop :=
  (m_cb m = end_sess_cb /\ co_cb (m_copts m) = None /\ c_sess c' = None /\ c_msgs c' = ∅ /\ c_fhs c' = ∅) \/
  exists x' m', c_sess c' = Some x' /\ wfb (eq p) out c' x' /\ cs_out_msg x' = cs_out_msg x /\
    ident x' = ident x /\ c_msgs c' !! p = Some m' /\ m_done m' = m_done m /\
    (forall q, q <> p -> c_msgs c' !! q = c_msgs c !! q) /\
    (code <> 0 -> c_trace c' = c_trace c ++ seen p m code).

Lemma copts_cb_wf (U : Prop) p m out code k c c1 x x1 m1 :
  m_cb m <> no_cb -> c_sess c1 = Some x1 -> wfb (eq p) out c1 x1 -> cs_out_msg x1 = cs_out_msg x -> ident x1 = ident x ->
  c_msgs c1 !! p = Some m1 -> m_done m1 = m_done m -> co_cb (m_copts m1) = co_cb (m_copts m) ->
  (forall q, q <> p -> c_msgs c1 !! q = c_msgs c !! q) -> c_trace c1 = c_trace c ->
  (co_cb (m_copts m) = None -> cw U k (fun _ c' => after_cb p m out code c x c') c1) ->
  cw U (copts_cb p code k) (fun _ c' => after_cb p m out code c x c') c1.
Proof.
  intros Hno Hx W Ho Hi Hm Hd Hc Hq Ht Hk. unfold copts_cb. apply cw_bind, cw_get_msg; [by rewrite Hm|].
  intros m2 E. rewrite Hm in E. injection E as <-. rewrite Hc. destruct (co_cb (m_copts m)) as [cb|] eqn:Ecb; [|by apply Hk].
  unfold emit. apply cw_bind, cw_modify, cw_nondet. right. exists x1, m1. split_and!; try done.
  - by eapply wfb_frame; [..|apply W].
  - intros _. cbn. rewrite Ht. unfold seen. rewrite Ecb. by destruct (m_cb m).
Qed.

(** Nothing else to do: the state is as it was when the callback started. *)
Lemma after_cb_same p m out code c c' x x' m' :
  co_cb (m_copts m) = None \/ code = 0 -> c_sess c' = Some x' -> wfb (eq p) out c' x' ->
  cs_out_msg x' = cs_out_msg x -> ident x' = ident x -> c_msgs c' !! p = Some m' -> m_done m' = m_done m ->
  (forall q, q <> p -> c_msgs c' !! q = c_msgs c !! q) -> c_trace c' = c_trace c ->
  after_cb p m out code c x c'.
Proof.
  intros Hn Hx W Ho Hi Hm Hd Hq Ht. right. exists x', m'. split_and!; try done.
  intros Hc. destruct Hn as [E|]; [|done]. rewrite Ht. unfold seen. rewrite E.
  destruct (m_cb m); by rewrite app_nil_r.
Qed.

Section one_cb.
Variables (U : Prop) (p : nat) (m : cldc_msg) (out : list nat) (resp : bytes) (code : Z) (c : cli) (x : cldc_session).
Hypothesis Hx : c_sess c = Some x.
Hypothesis Hm : c_msgs c !! p = Some m.
Hypothesis W : wfb (eq p) out c x.
Hypothesis Hex : forall q fp, q <> p -> needs_fh m = true -> m_cb_private m = Some fp -> ~ pending_on c q fp.
Hypothesis Hfh : needs_fh m = true -> exists fp f, m_cb_private m = Some fp /\ c_fhs c !! fp = Some f.
Notation ends k := (cw U k (fun _ c' => after_cb p m out code c x c') c).

Lemma cb_same : co_cb (m_copts m) = None \/ code = 0 -> after_cb p m out code c x c.
Proof. intros Hc. by eapply after_cb_same. Qed.

Lemma cb_plain : m_cb m <> no_cb -> forall k, (co_cb (m_copts m) = None -> ends k) -> ends (copts_cb p code k).
Proof. intros Hno k Hk. by eapply (copts_cb_wf U p m out code k c c x x m). Qed.

Lemma cb_plain_ret : m_cb m <> no_cb -> ends (copts_cb p code (mret 0)).
Proof. intros Hno. apply cb_plain; [done|]. intros Hn. apply cw_ret, cb_same. by left. Qed.

(** No other request is pending on the handle. *)
Lemma cb_alone fp q : needs_fh m = true -> m_cb_private m = Some fp -> pending_on c q fp -> p = q.
Proof. intros Hn Hp Hq. destruct (decide (p = q)); [done|]. exfalso. by eapply (Hex q fp); [congruence|..]. Qed.

Lemma new_sess_cb_wf : m_cb m = new_sess_cb -> ends (run_new_sess_cb p code).
Proof.
  intros Ecb. unfold run_new_sess_cb. apply cw_bind. destruct (code =? cle_code CLE_OK); [|apply cw_ret, cb_plain_ret; by rewrite Ecb].
  apply cw_upd_sess; [by rewrite Hx|]. intros ? E. rewrite Hx in E. injection E as <-.
  set (c1 := set_c_sess _ c). set (y1 := cs_flags _ _ _) in *.
  eapply (copts_cb_wf U p m out code _ c c1 x y1 m); try done; [by rewrite Ecb|by eapply wfb_frame; [..|apply W]|].
  intros Hn. apply cw_ret. eapply (after_cb_same _ _ _ _ c c1 x y1); try done; [by left|]. by eapply wfb_frame; [..|apply W].
Qed.

Lemma open_end_cb_wf : m_cb m = open_end_cb -> ends (run_open_end_cb p resp code).
Proof.
  intros Ecb. assert (needs_fh m = true) as Hnf by (unfold needs_fh; by rewrite Ecb). unfold run_open_end_cb.
  destruct (Z.eqb_spec code (cle_code CLE_OK)) as [Hc|Hc]; [|apply cb_plain_ret; by rewrite Ecb].
  apply cw_bind, cw_get_msg; [by rewrite Hm|]. intros ? E. rewrite Hm in E. injection E as <-.
  destruct (xdr_open_resp_dec resp) as [fh|]; [|apply cw_ret, cb_same; by right].
  destruct Hfh as (fp & f & Ep & Ef); [done|]. rewrite Ep.
  apply cw_bind, cw_get_fh; [by rewrite Ef|]. intros f' _. apply cw_bind, cw_modify. set (c1 := set_c_fhs _ c).
  assert (wfb (eq p) out c1 x) as W1.
  { apply wfb_store_fh; [done|by rewrite Ef|]. intros _ q Hq. by apply (cb_alone fp). }
  eapply (copts_cb_wf U p m out _ _ c c1 x x m); try done; [by rewrite Ecb|].
  intros Hn. apply cw_ret. eapply (after_cb_same _ _ _ _ c c1 x x); try done. by left.
Qed.

Lemma close_end_cb_wf : m_cb m = close_end_cb -> ends (run_close_end_cb p code).
Proof.
  intros Ecb. assert (needs_fh m = true) as Hnf by (unfold needs_fh; by rewrite Ecb).
  unfold run_close_end_cb. apply cw_bind, cw_get_msg; [by rewrite Hm|]. intros ? E. rewrite Hm in E. injection E as <-.
  destruct Hfh as (fp & f & Ep & Ef); [done|]. rewrite Ep.
  apply cw_bind, cw_get_fh; [by rewrite Ef|]. intros f' _. apply cb_plain; [by rewrite Ecb|]. intros Hn.
  apply cw_bind, cw_upd_sess; [by rewrite Hx|]. intros ? E. rewrite Hx in E. injection E as <-. set (y1 := cs_lists _ _ x).
  apply cw_bind. unfold fh_free. apply cw_bind, cw_get_fh; [cbn; by rewrite Ef|]. intros f2 _.
  apply cw_modify, cw_ret. eapply (after_cb_same _ _ _ _ c _ x y1 m); try done; [by left|].
  eapply (wfb_frame _ _ (set_c_fhs (delete fp (c_fhs c)) c) _ y1 y1); try done.
  apply (wfb_free_fh _ _ _ x); [done| |done]. intros q Hq. by apply (cb_alone fp).
Qed.

Lemma get_end_cb_wf : m_cb m = get_end_cb -> (code = 0 -> get_overflow x resp -> U) -> ends (run_get_end_cb p resp code).
Proof.
  intros Ecb HU. unfold run_get_end_cb. destruct (Z.eqb_spec code (cle_code CLE_OK)) as [Hc|Hc]; [|apply cb_plain_ret; by rewrite Ecb].
  apply cw_bind, cw_get_msg; [by rewrite Hm|]. intros ? E. rewrite Hm in E. injection E as <-.
  apply cw_bind, cw_get_sess; [by rewrite Hx|]. intros ? E. rewrite Hx in E. injection E as <-.
  specialize (HU Hc). unfold get_overflow in HU. destruct (xdr_get_resp_dec resp _ _) as [[r payload] name].
  destruct ((_ <? _) || _) eqn:Eo.
  { apply cw_ub, HU. apply orb_true_iff in Eo as [Eo|Eo]; apply Z.ltb_lt in Eo; auto. }
  apply cw_bind, cw_upd_sess; [by rewrite Hx|]. intros ? E. rewrite Hx in E. injection E as <-. apply cw_bind, cw_modify.
  set (z1 := cs_bufs _ _ _ _ _). set (m3 := mkMsg _ _ _ _ _ _ _ _). set (c1 := set_c_msgs _ _).
  assert (wfb (eq p) out c1 z1) as W1.
  { eapply (wfb_frame _ _ (set_c_msgs (<[p := m3]> (c_msgs c)) c) _ x); try done. by apply (wfb_store _ _ _ _ _ m). }
  assert (c_msgs c1 !! p = Some m3) as E3 by (cbn; by rewrite lookup_insert_eq).
  assert (forall q, q <> p -> c_msgs c1 !! q = c_msgs c !! q) as Hq by (intros q Hqp; cbn; by rewrite lookup_insert_ne).
  destruct r as [r|].
  - eapply (copts_cb_wf U p m out _ _ c c1 x z1 m3); try done; [by rewrite Ecb|].
    intros Hn. apply cw_ret. eapply (after_cb_same _ _ _ _ c c1 x z1 m3); try done. by left.
  - apply cw_ret. eapply (after_cb_same _ _ _ _ c c1 x z1 m3); try done. by right.
Qed.

Lemma run_msg_cb_wf :
  (m_cb m = end_sess_cb -> co_cb (m_copts m) = None -> out = cs_out_msg x) ->
  (m_cb m = get_end_cb -> code = 0 -> get_overflow x resp -> U) -> ends (run_msg_cb p resp code).
Proof.
  intros Hend HU. unfold run_msg_cb. apply cw_bind, cw_get_msg; [by rewrite Hm|]. intros ? E. rewrite Hm in E. injection E as <-.
  destruct (m_cb m) eqn:Ecb; auto using new_sess_cb_wf, open_end_cb_wf, close_end_cb_wf, get_end_cb_wf.
  - apply cw_ret. right. exists x, m. split_and!; try done. intros _. unfold seen. rewrite Ecb. by rewrite app_nil_r.
  - apply cb_plain; [by rewrite Ecb|]. intros Hn. apply cw_bind. pose proof (Hend eq_refl Hn) as Eo.
    eapply (cw_weaken False); [done|]. eapply cw_mono; [eapply sess_free_spec; try done; by rewrite <- Eo|].
    intros _ c' (H1 & H2 & H3 & H4). apply cw_ret. by left.
  - apply cb_plain_ret. by rewrite Ecb.
Qed.
End one_cb.

End cbs.

(** ** Receiving *)

Lemma find_xid_spec (xid : Z) (l : list nat) c :
  (forall p, p ∈ l -> is_Some (c_msgs c !! p)) ->
  cw False (find_xid xid l) (fun o c' => c' = c /\
    match o with
    | Some p => p ∈ l /\ exists m, c_msgs c !! p = Some m /\ m_xid m = xid
    | None => forall p m, p ∈ l -> c_msgs c !! p = Some m -> m_xid m <> xid
    end) c.
Proof.
  induction l as [|p l IH]; intros Hl; cbn [find_xid].
  { apply cw_ret. split; [done|]. intros p m Hp. inversion Hp. }
  destruct (Hl p) as [m Hm]; [by left|]. apply cw_bind, cw_get_msg; [by rewrite Hm|].
  intros ? E. rewrite Hm in E. injection E as <-. destruct (Z.eqb_spec (m_xid m) xid) as [He|He].
  { apply cw_ret. split; [done|]. split; [by left|eauto]. }
  eapply cw_mono; [apply IH; intros q Hq; apply Hl; by right|]. cbn. intros [q|] c' [-> Hc]; (split; [done|]).
  - destruct Hc as [Hq Hc]. split; [by right|done].
  - intros q n [->|Hq]%elem_of_cons Hn; [congruence|by eapply Hc].
Qed.

Lemma wf_set_sess c x x' :
  c_sess c = Some x -> wf_sess c x -> cs_cfh x' = cs_cfh x -> cs_out_msg x' = cs_out_msg x ->
  cs_user x' = cs_user x -> cs_secret_key x' = cs_secret_key x ->
  wf_sess (set_c_sess (Some x') c) x'.
Proof.
  intros Hx [W Hc] H1 H2 H3 H4. split; [|unfold creds_ok; by rewrite H3, H4].
  rewrite H2. by eapply wfb_frame; [..|apply W].
Qed.

Section rx.
Context {XL : XdrLib} {XC : XdrCli} {HL : HmacLib}.

(** A response completes the call it belongs to; undefined only if that is the
    end of the session with no callback, or the response overflows a buffer. *)
Lemma rxmsg_generic_wf (U : Prop) seqid c x :
  c_sess c = Some x -> wf_sess c x ->
  (forall p m, c_msgs c !! p = Some m -> m_done m = false -> m_cb m = end_sess_cb ->
     co_cb (m_copts m) = None -> U) ->
  (get_overflow x (cs_msg_buf x) -> U) ->
  cw U (rxmsg_generic seqid) (fun _ c' => wf c') c.
Proof.
  intros Hx [W Hcr] HU1 HU2. unfold rxmsg_generic. apply cw_bind, cw_get_sess; [by rewrite Hx|].
  intros ? E. rewrite Hx in E. injection E as <-. assert (wf c) as Hwf by (unfold wf; by rewrite Hx).
  destruct (xdr_generic_resp_dec _) as [[code xid]|]; [|by apply cw_ret].
  apply cw_bind. eapply (cw_weaken False); [done|]. eapply cw_mono; [apply find_xid_spec; intros p; apply W|].
  cbn. intros [p|] c1 [-> Hp]; [|by apply cw_ret]. destruct Hp as (Hp & m & Hm & _).
  apply cw_bind, cw_get_msg; [by rewrite Hm|]. intros ? E. rewrite Hm in E. injection E as <-.
  destruct (m_done m) eqn:Hd.
  { eapply cw_still; [apply is_still_ack_seqid|done|]. intros a c' Hs. by eapply wf_still. }
  apply cw_bind, cw_modify. set (c1 := set_c_msgs _ c). apply cw_bind.
  assert (wfb nobody (cs_out_msg x) c1 x) as W1 by (by apply (wfb_store _ _ _ _ _ m)).
  assert (c_msgs c1 !! p = Some (set_done m)) as Hm1 by (cbn; by rewrite lookup_insert_eq).
  eapply cw_mono; [apply (run_msg_cb_wf U p (set_done m) (cs_out_msg x) _ _ c1 x)|].
  - done.
  - done.
  - eapply wfb_weaken; [|exact W1]. done.
  - intros q fp Hqp Hn Hpr Hpend. apply Hqp. eapply (wb_uniq _ _ _ _ W q p fp); [|by exists m].
    by eapply pending_store in Hpend.
  - intros Hn. destruct (wb_pend _ _ _ _ W p m Hm Hd ltac:(tauto) Hn) as (fp & f & ? & ? & _). eauto.
  - done.
  - intros _ _. apply HU2.
  - cbn. intros rc c2 [(Hc & Hn & Hs & Hms & Hfs)|(x2 & m2 & Hx2 & W2 & Ho & Hi & Hm2 & Hd2 & _ & _)].
    + destruct (rc <? 0); [apply cw_ret; unfold wf; by rewrite Hs|].
      unfold ack_seqid. apply cw_bind, cw_get_sess; [|by rewrite Hs]. intros _. by eapply HU1.
    + assert (wf c2) as Hwf2.
      { unfold wf. rewrite Hx2. injection Hi as _ _ E3 E4 _. split.
        - rewrite Ho. apply (wfb_strengthen _ p); [|eapply wfb_weaken; [|exact W2]; intros q <-; by left].
          intros n Hn. rewrite Hm2 in Hn. by simplify_eq.
        - unfold creds_ok. by rewrite E3, E4. }
      destruct (rc <? 0); [by apply cw_ret|].
      eapply cw_still; [apply is_still_ack_seqid|done|]. intros a c' Hs. by eapply wf_still.
Qed.

Lemma find_fh_still fh l c : cw True (find_fh fh l) (fun _ c' => c' = c) c.
Proof.
  induction l as [|p l IH]; cbn [find_fh]; [by apply cw_ret|].
  apply cw_bind, cw_get_fh; [done|]. intros f _. case_match; [by apply cw_ret|done].
Qed.

(** Partial preservation, as one predicate. *)
Definition keeps_wf {A} (m : C A) : Prop := forall c, wf c -> cw True m (fun _ c' => wf c') c.

Lemma keeps_wf_ret {A} (a : A) : keeps_wf (mret a).
Proof. intros c Hc. by apply cw_ret. Qed.

Lemma keeps_wf_bind {A B} (m : C A) (k : A -> C B) :
  keeps_wf m -> (forall a, keeps_wf (k a)) -> keeps_wf (m ≫= k).
Proof.
  intros Hm Hk c Hc. apply cw_bind. eapply cw_mono; [by apply Hm|]. intros a c1 H1. by apply Hk.
Qed.

Lemma keeps_wf_still {A} (m : C A) : is_still m -> keeps_wf (_ ← c_get_sess; m).
Proof.
  intros Hm c Hc. apply cw_bind, cw_get_sess; [done|]. intros x Hx.
  eapply cw_still; [done|done|]. intros a c' Hs. by eapply wf_still.
Qed.

Lemma keeps_wf_get_sess : keeps_wf c_get_sess.
Proof. intros c Hc. by apply cw_get_sess. Qed.

Lemma keeps_wf_get_fh p : keeps_wf (get_fh p).
Proof. intros c Hc. by apply cw_get_fh. Qed.

Lemma keeps_wf_get : keeps_wf c_get.
Proof. intros c Hc. by apply cw_get. Qed.

Lemma keeps_wf_ub {A} : keeps_wf (@ub A).
Proof. intros c Hc. by apply cw_ub. Qed.

Lemma keeps_wf_upd_sess f :
  (forall x, cs_cfh (f x) = cs_cfh x /\ cs_out_msg (f x) = cs_out_msg x /\
     cs_user (f x) = cs_user x /\ cs_secret_key (f x) = cs_secret_key x) -> keeps_wf (c_upd_sess f).
Proof.
  intros Hf c Hc. apply cw_upd_sess; [done|]. intros x Hx. destruct (Hf x) as (H1 & H2 & H3 & H4).
  unfold wf in Hc. rewrite Hx in Hc. unfold wf. cbn. by eapply wf_set_sess.
Qed.

Lemma keeps_wf_ack_seqid seqid : keeps_wf (ack_seqid seqid).
Proof.
  intros c Hc. destruct (c_sess c) as [x|] eqn:Hx.
  - eapply cw_still; [apply is_still_ack_seqid|done|]. intros a c' Hs. by eapply wf_still.
  - unfold ack_seqid. apply cw_bind, cw_get_sess; [done|]. intros x E. congruence.
Qed.

Lemma keeps_wf_generic seqid : keeps_wf (rxmsg_generic seqid).
Proof.
  intros c Hc. destruct (c_sess c) as [x|] eqn:Hx.
  - unfold wf in Hc. rewrite Hx in Hc. by apply (rxmsg_generic_wf True seqid c x).
  - unfold rxmsg_generic. apply cw_bind, cw_get_sess; [done|]. intros x E. congruence.
Qed.

Lemma keeps_wf_emit e : keeps_wf (emit e).
Proof.
  intros c Hc. unfold emit. apply cw_modify. eapply wf_still; [|done]. split; try done. by eexists.
Qed.

#[local] Hint Resolve keeps_wf_ret keeps_wf_get_sess keeps_wf_get_fh keeps_wf_get keeps_wf_ub
  keeps_wf_ack_seqid keeps_wf_generic keeps_wf_emit : cld.
#[local] Hint Extern 1 (keeps_wf (c_upd_sess _)) => apply keeps_wf_upd_sess; done : cld.

Ltac solve_wf :=
  repeat match goal with
  | |- forall _, _ => intros ?
  | |- keeps_wf (_ ≫= _) => apply keeps_wf_bind
  | |- keeps_wf (match ?x with _ => _ end) => destruct x
  end; auto with cld.

Lemma keeps_wf_event : keeps_wf rxmsg_event.
Proof.
  unfold rxmsg_event. solve_wf. intros c Hc. eapply cw_mono; [apply find_fh_still|]. by intros ? c' ->.
Qed.

Lemma keeps_wf_ack_frag : keeps_wf rxmsg_ack_frag.
Proof.
  unfold rxmsg_ack_frag. apply keeps_wf_bind; [auto with cld|]. intros x. destruct (xdr_ack_frag_dec _) as [z|]; [|auto with cld].
  apply keeps_wf_bind; [|auto with cld]. induction (cs_out_msg x) as [|p l IH]; cbn [c_iter]; [auto with cld|].
  apply keeps_wf_bind; [|done]. clear. intros c Hc. unfold ack_frag_msg.
  apply cw_bind, cw_get_msg; [done|]. intros m Hm. apply cw_bind. unfold cw at 1.
  destruct (ack_frag_pkts z (m_pkt_info m) c) as [[l' c1]|] eqn:E; [|done].
  apply ack_frag_pkts_same in E as ->. apply cw_modify. unfold wf in *. cbn.
  destruct (c_sess c) as [y|]; [|destruct Hc as [E _]; by rewrite E in Hm].
  destruct Hc as [W Hcr]. split; [|done]. by apply (wfb_store _ _ _ _ _ m).
Qed.

Lemma keeps_wf_rx_complete seqid : keeps_wf (rx_complete seqid).
Proof. unfold rx_complete. solve_wf; auto using keeps_wf_event, keeps_wf_ack_frag. Qed.

Lemma keeps_wf_accept_seqid seqid op : keeps_wf (accept_seqid seqid op).
Proof. unfold accept_seqid. solve_wf. Qed.

(** Expiry frees and unlinks the same messages. *)
Lemma expire_loop_spec t l1 l c x :
  wfb nobody (l1 ++ l) c x -> cw False (expire_loop t l) (fun l' c' =>
    c' = set_c_msgs (c_msgs c') c /\ wfb nobody (l1 ++ l') c' x /\ sublist l' l /\
    (forall p m, c_msgs c !! p = Some m -> (p ∈ l1 \/ t <= m_expire_time m) -> c_msgs c' !! p = Some m) /\
    (forall p m, c_msgs c' !! p = Some m -> c_msgs c !! p = Some m)) c.
Proof.
  revert l1 c. induction l as [|p l IH]; intros l1 c W; cbn [expire_loop].
  { apply cw_ret. split; [by destruct c|]. split; [done|]. split; [done|]. auto. }
  destruct (proj1 (wb_msgs _ _ _ _ W p)) as [m Hm]; [set_solver|].
  assert (p ∉ l1) as Hp1.
  { pose proof (wb_out _ _ _ _ W) as N. apply NoDup_app in N as (_ & N & _). intros Hp. apply (N p Hp). by left. }
  apply cw_bind, cw_get_msg; [by rewrite Hm|]. intros ? E. rewrite Hm in E. injection E as <-.
  destruct (Z.ltb_spec (m_expire_time m) t).
  - apply cw_bind. unfold cldc_msg_free. apply cw_bind, cw_get_msg; [by rewrite Hm|]. intros _ _. apply cw_modify.
    eapply cw_mono; [apply (IH l1); by apply wfb_free_msg|]. intros l' c' (E & W' & Hs & Hk & Hold).
    rewrite E. split; [done|]. rewrite <- E. split; [done|]. split; [by constructor|].
    split; [|intros q n Hq; apply Hold in Hq; cbn in Hq; by apply lookup_delete_Some in Hq as [_ ?]].
    intros q n Hq Ho. apply Hk; [|done]. cbn. rewrite lookup_delete_ne; [done|]. intros <-.
    destruct Ho as [|Ho]; [done|]. simplify_eq. lia.
  - apply cw_bind. eapply cw_mono; [apply (IH (l1 ++ [p])); by rewrite <- app_assoc|].
    intros l' c' (E & W' & Hs & Hk & Hold). apply cw_ret. split; [done|]. rewrite <- app_assoc in W'. split; [done|].
    split; [by constructor|]. split; [|done]. intros q n Hq Ho. apply Hk; [done|]. destruct Ho; [left; set_solver|by right].
Qed.

Lemma keeps_wf_expire_outmsg t : keeps_wf (sess_expire_outmsg t).
Proof.
  intros c Hc. unfold sess_expire_outmsg. apply cw_bind, cw_get_sess; [done|]. intros x Hx.
  unfold wf in Hc. rewrite Hx in Hc. destruct Hc as [W Hcr].
  apply cw_bind. eapply (cw_weaken False); [done|]. eapply cw_mono; [by apply (expire_loop_spec t [] _ c x)|].
  cbn. intros l c1 (E & W1 & _). apply cw_bind, cw_upd_sess; [done|]. intros y Ey.
  assert (y = x) as -> by (rewrite E in Ey; cbn in Ey; congruence).
  apply cw_upd_sess; [done|]. cbn. intros z [= <-]. unfold wf. cbn. split; [|done]. cbn.
  by eapply wfb_frame; [..|apply W1].
Qed.

Lemma keeps_wf_receive addr pkt : keeps_wf (cldc_receive_pkt addr pkt).
Proof.
  unfold cldc_receive_pkt. solve_wf;
    auto using keeps_wf_expire_outmsg, keeps_wf_accept_seqid, keeps_wf_rx_complete.
Qed.

End rx.

(** ** Sending *)

Section tx.
Context {XL : XdrLib} {XC : XdrCli} {HL : HmacLib}.

(** Only the outgoing sequence number of the session changes. *)
Record numbering (c c' : cli) (x x' : cldc_session) : Prop := {
  nb_sess : c_sess c' = Some x';
  nb_same : exists n, x' = cs_seqids (cs_next_seqid_in x) (cs_next_seqid_in_tr x) n x;
  nb_msgs : c_msgs c' = c_msgs c;
  nb_fhs : c_fhs c' = c_fhs c;
  nb_next : c_next c' = c_next c }.

Lemma cs_seqids_twice a b n a' b' n' x : cs_seqids a b n (cs_seqids a' b' n' x) = cs_seqids a b n x.
Proof. done. Qed.

Lemma send_one_numbering key pi c x :
  c_sess c = Some x -> cw False (send_one key pi) (fun _ c' => exists x', numbering c c' x x') c.
Proof.
  intros Hx. unfold send_one, sess_next_seqid. apply cw_bind, cw_bind, cw_get_sess; [by rewrite Hx|].
  intros ? E. rewrite Hx in E. injection E as <-. apply cw_bind, cw_upd_sess; [by rewrite Hx|].
  intros ? E. rewrite Hx in E. injection E as <-. apply cw_ret. set (x1 := cs_seqids _ _ _ x). set (c1 := set_c_sess _ c).
  assert (numbering c c1 x x1) as Hn by (split; try done; by eexists).
  destruct (cld_authsign _ _) as [rc sha]. destruct (negb _); [apply cw_ret; eauto|].
  apply cw_bind. eapply cw_still; [apply is_still_send_pkt|done|]. intros r c2 S.
  assert (numbering c c2 x x1) as Hn2.
  { destruct S as [S1 S2 S3 S4 _ _ _], Hn as [N1 N2 N3 N4 N5]. split; congruence || done. }
  destruct (_ <? 0); apply cw_ret; eauto.
Qed.

Lemma send_all_numbering key l c x :
  c_sess c = Some x -> Forall is_Some l ->
  cw False (send_all key l) (fun _ c' => exists x', numbering c c' x x') c.
Proof.
  intros Hx Hl. revert c x Hx. induction Hl as [|o l [pi ->] Hl IH]; intros c x Hx; cbn [send_all].
  { apply cw_ret. exists x. split; try done. exists (cs_next_seqid_out x). by destruct x. }
  apply cw_bind. eapply cw_mono; [by apply send_one_numbering|]. cbn. intros r c1 [x1 N1].
  destruct r as [pi'|e]; [|apply cw_ret; eauto]. apply cw_bind.
  eapply cw_mono; [by apply (IH c1 x1), N1|]. cbn. intros r c2 [x2 N2]. apply cw_ret.
  exists x2. destruct N1 as [A1 [n1 A2] A3 A4 A5], N2 as [B1 [n2 B2] B3 B4 B5]. split; try congruence.
  exists n2. by rewrite B2, A2.
Qed.

(** The new message's handle, if it has one, is nobody else's. *)
Definition fresh_use (c : cli) (msg : cldc_msg) : Prop :=
  needs_fh msg = true -> exists fp f, m_cb_private msg = Some fp /\ c_fhs c !! fp = Some f /\
    f_valid f = false /\ forall q, ~ pending_on c q fp.

Lemma sess_send_wf msg c x :
  c_sess c = Some x -> wf_sess c x -> Forall is_Some (m_pkt_info msg) -> fresh_use c msg ->
  cw False (sess_send msg) (fun _ c' => wf c') c.
Proof.
  intros Hx [W Hcr] Hp Hf. unfold sess_send. apply cw_bind, cw_get_sess; [by rewrite Hx|].
  intros ? E. rewrite Hx in E. injection E as <-.
  apply cw_bind. eapply cw_mono; [by apply send_all_numbering|]. cbn. intros r c1 [x1 [N1 [n N2] N3 N4 N5]].
  assert (wf_sess c1 x1) as [W1 Hcr1].
  { subst x1. split; [|done]. by eapply wfb_frame; [..|apply W]; [..|rewrite N5|]. }
  destruct r as [l|e]; [|apply cw_ret; unfold wf; by rewrite N1].
  apply cw_bind. unfold cw at 1, c_fresh. apply cw_bind, cw_modify. apply cw_bind, cw_upd_sess; cbn; rewrite N1; [done|].
  intros ? [= <-]. apply cw_ret. unfold wf. cbn. split; [|done]. cbn.
  set (c2 := set_c_next (S (c_next c1)) c1).
  assert (c_msgs c1 !! c_next c1 = None) as Hnone.
  { apply eq_None_not_Some. intros Hs. pose proof (wb_mnext _ _ _ _ W1 _ Hs). lia. }
  assert (wfb nobody (cs_out_msg x1) c2 x1) as W2 by (eapply wfb_frame; [..|apply W1]; try done; cbn; lia).
  eapply (wfb_frame _ _ (set_c_msgs (<[c_next c1 := set_pkt_info l msg]> (c_msgs c2)) c2) _ x1); try done.
  apply wfb_add_msg; [done|done|cbn; lia| |].
  - rewrite (wb_msgs _ _ _ _ W1), Hnone. by intros [].
  - intros _ Hn. destruct (Hf Hn) as (fp & f & E1 & E2 & E3 & E4). exists fp, f. cbn.
    rewrite N4. split_and!; try done. intros q (m & Hm & Hr). apply (E4 q). exists m. cbn in Hm. by rewrite N3 in Hm.
Qed.

Lemma new_msg_shape copts op req cb priv c :
  cw True (cldc_new_msg copts op req cb priv) (fun o _ =>
    forall msg, o = Some msg -> m_cb msg = cb /\ m_cb_private msg = priv /\ m_done msg = false /\
      Forall is_Some (m_pkt_info msg) /\ co_cb (m_copts msg) = copts /\ m_op msg = op) c.
Proof.
  unfold cldc_new_msg. destruct (xdr_req_enc req) as [body|]; [|by apply cw_ret].
  apply cw_bind, cw_any. intros ok c1 _. destruct (negb ok); [by apply cw_ret|].
  apply cw_bind, cw_any. intros xid c2 _. apply cw_bind, cw_get, cw_bind, cw_any. intros [l|] c3 _; apply cw_ret; [|done].
  intros msg [= <-]. cbn. split_and!; try done. apply Forall_fmap, Forall_true. intros. by eexists.
Qed.

Lemma call_wf copts op req cb priv c x :
  c_sess c = Some x -> wf_sess c x -> (cb = open_end_cb \/ cb = close_end_cb -> False) ->
  cw False (cldc_call copts op req cb priv) (fun _ c' => wf c') c.
Proof.
  intros Hx Hw Hcb. unfold cldc_call. apply cw_bind. pose proof (is_still_new_msg copts op req cb priv c x Hx) as Hs.
  pose proof (new_msg_shape copts op req cb priv c) as Hsh.
  unfold cw at 1. unfold cw in Hs, Hsh. destruct (cldc_new_msg _ _ _ _ _ _) as [[o c1]|]; [|done].
  assert (c_sess c1 = Some x) as Hx1 by by rewrite (st_sess _ _ Hs).
  assert (wf_sess c1 x) as Hw1.
  { destruct Hw as [W Hcr]. split; [by eapply wfb_still|done]. }
  destruct o as [msg|]; [|apply cw_ret; unfold wf; by rewrite Hx1].
  destruct (Hsh msg eq_refl) as (E1 & E2 & E3 & E4 & _). eapply sess_send_wf; try done.
  unfold fresh_use, needs_fh. rewrite E1. destruct cb; try done; exfalso; auto.
Qed.

Lemma keeps_wf_call_sess (m : cldc_session -> C Z) :
  (forall c x, c_sess c = Some x -> wf_sess c x -> cw True (m x) (fun _ c' => wf c') c) ->
  keeps_wf (x ← c_get_sess; m x).
Proof.
  intros Hm c Hc. apply cw_bind, cw_get_sess; [done|]. intros x Hx. apply Hm; [done|].
  unfold wf in Hc. by rewrite Hx in Hc.
Qed.

Lemma keeps_wf_call copts op req cb priv :
  (cb = open_end_cb \/ cb = close_end_cb -> False) -> keeps_wf (_ ← c_get_sess; cldc_call copts op req cb priv).
Proof.
  intros Hcb. apply keeps_wf_call_sess. intros c x Hx Hw. eapply (cw_weaken False); [done|]. by apply (call_wf _ _ _ _ _ c x).
Qed.

End tx.

(** ** Losing the session *)

Lemma iter_msg_free_gone (l : list nat) c :
  cw True (c_iter cldc_msg_free l) (fun _ c' => forall p, (p ∈ l \/ c_msgs c !! p = None) -> c_msgs c' !! p = None) c.
Proof.
  revert c. induction l as [|q l IH]; intros c; cbn [c_iter].
  { apply cw_ret. intros p [Hp|Hp]; [inversion Hp|done]. }
  apply cw_bind. unfold cldc_msg_free. apply cw_bind, cw_get_msg; [done|]. intros m Hm. apply cw_modify.
  eapply cw_mono; [apply IH|]. cbn. intros _ c' H p Hp. apply H. destruct (decide (p = q)) as [->|Hn].
  - right. by rewrite lookup_delete_eq.
  - rewrite lookup_delete_ne by done. destruct Hp as [[->|Hp]%elem_of_cons|Hp]; [done|by left|by right].
Qed.

Lemma sess_free_gone c x p :
  c_sess c = Some x -> p ∈ cs_out_msg x -> cw True sess_free (fun _ c' => c_msgs c' !! p = None) c.
Proof.
  intros Hx Hp. unfold sess_free. apply cw_bind, cw_get_sess; [done|]. intros ? E. rewrite Hx in E. injection E as <-.
  apply cw_bind, cw_any. intros _ c1 _. apply cw_bind. eapply cw_mono; [apply iter_msg_free_gone|].
  cbn. intros _ c2 H. apply cw_modify. cbn. auto.
Qed.

Section drop.
Context {XL : XdrLib} {XC : XdrCli} {HL : HmacLib}.

(** A request to end the session is pending, and it has no callback. *)
Definition end_pending (c : cli) : Prop :=
  exists p m, c_msgs c !! p = Some m /\ m_done m = false /\ m_cb m = end_sess_cb /\ co_cb (m_copts m) = None.

(** Its completion frees the session, and then the message is freed again. *)
Lemma drop_one_end p m c x :
  c_sess c = Some x -> p ∈ cs_out_msg x -> c_msgs c !! p = Some m -> m_done m = false ->
  m_cb m = end_sess_cb -> co_cb (m_copts m) = None -> drop_one p c = None.
Proof.
  intros Hx Hp Hm Hd Hcb Hco. unfold drop_one, run_msg_cb, run_end_sess_cb, copts_cb, get_msg, mbind, C_bind.
  rewrite Hm. cbn. rewrite Hd. cbn. rewrite Hm, Hcb. cbn. rewrite Hm, Hco.
  pose proof (sess_free_gone c x p Hx Hp) as Hf. unfold cw in Hf. destruct (sess_free c) as [[[] c1]|]; [|done].
  cbn. unfold cldc_msg_free, get_msg, mbind, C_bind. by rewrite Hf.
Qed.

(** What the application sees when the messages of [l] are dropped. *)
Definition drop_trace (c : cli) (l : list nat) : list eff :=
  concat (map (fun p => match c_msgs c !! p with
                        | Some m => if m_done m then [] else seen p m (cle_code CLE_TIMEOUT)
                        | None => []
                        end) l).

Lemma drop_loop_wf (U : Prop) l c x :
  c_sess c = Some x -> wfb nobody l c x -> (forall p, p ∈ l -> p ∈ cs_out_msg x) -> (end_pending c -> U) ->
  cw U (c_iter drop_one l) (fun _ c' => exists x', c_sess c' = Some x' /\ ident x' = ident x /\
    cs_out_msg x' = cs_out_msg x /\ wfb nobody [] c' x' /\ c_trace c' = c_trace c ++ drop_trace c l) c.
Proof.
  revert c x. induction l as [|p l IH]; intros c x Hx W Hin HU; cbn [c_iter].
  { apply cw_ret. exists x. split_and!; try done. unfold drop_trace. cbn. by rewrite app_nil_r. }
  destruct (proj1 (wb_msgs _ _ _ _ W p)) as [m Hm]; [by left|].
  pose proof (wb_out _ _ _ _ W) as Hnd. apply NoDup_cons in Hnd as [Hpl Hnd].
  (* dropping [p] alone *)
  assert (cw U (drop_one p) (fun _ c1 => exists x1, c_sess c1 = Some x1 /\ ident x1 = ident x /\
    cs_out_msg x1 = cs_out_msg x /\ wfb nobody l c1 x1 /\ (forall q, q <> p -> c_msgs c1 !! q = c_msgs c !! q) /\
    c_msgs c1 !! p = None /\
    c_trace c1 = c_trace c ++ if m_done m then [] else seen p m (cle_code CLE_TIMEOUT)) c) as Hone.
  { destruct (m_done m) eqn:Hd.
    - unfold drop_one. apply cw_bind, cw_get_msg; [by rewrite Hm|]. intros ? E. rewrite Hm in E. injection E as <-.
      rewrite Hd. cbn [negb]. apply cw_bind, cw_ret. unfold cldc_msg_free. apply cw_bind, cw_get_msg; [by rewrite Hm|].
      intros _ _. apply cw_modify. exists x. split_and!; try done.
      + by apply (wfb_free_msg _ [] p l).
      + intros q Hq. cbn. by rewrite lookup_delete_ne.
      + cbn. by rewrite lookup_delete_eq.
      + by rewrite app_nil_r.
    - destruct (decide (m_cb m = end_sess_cb /\ co_cb (m_copts m) = None)) as [[Hcb Hco]|Hne].
      { unfold cw. rewrite (drop_one_end p m c x) by (done || apply Hin; by left). apply HU. by exists p, m. }
      unfold drop_one. apply cw_bind, cw_get_msg; [by rewrite Hm|]. intros ? E. rewrite Hm in E. injection E as <-.
      rewrite Hd. cbn [negb]. apply cw_bind.
      eapply cw_mono; [apply (run_msg_cb_wf U p m (p :: l) [] _ c x); try done|].
      + eapply wfb_weaken; [|exact W]. done.
      + intros q fp Hqp Hn Hpr Hpend. apply Hqp. eapply (wb_uniq _ _ _ _ W q p fp); [done|by exists m].
      + intros Hn. destruct (wb_pend _ _ _ _ W p m Hm Hd ltac:(tauto) Hn) as (fp & f & ? & ? & _). eauto.
      + intros H1 H2. destruct Hne. done.
      + cbn. intros rc c1 [(H1 & H2 & _)|(x1 & m1 & Hx1 & W1 & Ho & Hi & Hm1 & Hd1 & Hq & Ht)]; [by destruct Hne|].
        unfold cldc_msg_free. apply cw_bind, cw_get_msg; [by rewrite Hm1|]. intros _ _. apply cw_modify.
        exists x1. split_and!; try done.
        * apply (wfb_strengthen _ p); [cbn; by rewrite lookup_delete_eq|].
          eapply wfb_weaken; [|apply (wfb_free_msg _ [] p l), W1]. intros q <-. by left.
        * intros q Hqp. cbn. rewrite lookup_delete_ne by done. auto.
        * cbn. by rewrite lookup_delete_eq.
        * cbn. by apply Ht. }
  apply cw_bind. eapply cw_mono; [exact Hone|].
  cbn. intros _ c1 (x1 & Hx1 & Hi1 & Ho1 & W1 & Hq1 & Hp1 & Ht1).
  eapply cw_mono; [apply (IH c1 x1); try done|].
  - intros q Hq. rewrite Ho1. apply Hin. by right.
  - intros (q & n & Hn & Hr). apply HU. exists q, n. split; [|done]. rewrite <- Hq1; [done|].
    intros ->. congruence.
  - cbn. intros _ c2 (x2 & Hx2 & Hi2 & Ho2 & W2 & Ht2). exists x2. split_and!; try done; [congruence|congruence|].
    rewrite Ht2, Ht1. unfold drop_trace. cbn [map concat]. rewrite Hm, <- app_assoc. do 3 f_equal.
    apply map_ext_in. intros q Hq%list_elem_of_In. rewrite Hq1; [done|]. by intros ->.
Qed.

(** A tick past the expiry time gives the session up. *)
Lemma expire_spec c x :
  c_sess c = Some x -> wf_sess c x -> ~ end_pending c -> cs_expire_time x < c_now c ->
  exists c' x', sess_timer c = Some (0, c') /\ c_sess c' = Some x' /\ wf_sess c' x' /\ cs_expired x' = true /\
    cs_out_msg x' = [] /\ c_msgs c' = ∅ /\
    c_trace c' = c_trace c ++ drop_trace c (cs_out_msg x) ++ [TimerCtl false 0; Event None CE_SESS_FAILED].
Proof.
  intros Hx [W Hcr] Hend Ht.
  assert (cw False sess_timer (fun r c' => r = 0 /\ exists x', c_sess c' = Some x' /\ wf_sess c' x' /\
    cs_expired x' = true /\ cs_out_msg x' = [] /\ c_msgs c' = ∅ /\
    c_trace c' = c_trace c ++ drop_trace c (cs_out_msg x) ++ [TimerCtl false 0; Event None CE_SESS_FAILED]) c) as H.
  { unfold sess_timer. apply cw_bind, cw_get_sess; [by rewrite Hx|]. intros ? E. rewrite Hx in E. injection E as <-.
    apply cw_bind, cw_get. rewrite (proj2 (Z.ltb_lt _ _)) by done. apply cw_bind. unfold sess_expire.
    apply cw_bind, cw_upd_sess; [by rewrite Hx|]. intros ? E. rewrite Hx in E. injection E as <-.
    set (x1 := cs_flags true _ x). set (c1 := set_c_sess _ c). apply cw_bind. unfold sess_msg_drop.
    apply cw_bind, cw_get_sess; [done|]. intros ? [= <-].
    apply cw_bind. eapply cw_mono; [apply (drop_loop_wf False _ c1 x1); try done|].
    { by eapply wfb_frame; [..|apply W]. }
    cbn. intros _ c2 (x2 & Hx2 & Hi2 & Ho2 & W2 & Ht2). apply cw_upd_sess; [by rewrite Hx2|].
    intros ? E. rewrite Hx2 in E. injection E as <-. unfold emit. apply cw_bind, cw_modify, cw_modify, cw_ret.
    injection Hi2 as _ _ E3 E4 E5. split; [done|]. eexists. split; [done|].
    split; [split; [by eapply wfb_frame; [..|apply W2]|unfold creds_ok; cbn; by rewrite E3, E4]|].
    split; [done|]. split; [done|]. split; [|cbn; by rewrite Ht2, <- !app_assoc].
    cbn. apply map_empty. intros q. apply eq_None_not_Some. rewrite <- (wb_msgs _ _ _ _ W2). set_solver. }
  apply cw_total in H as (r & c' & E & -> & x' & H). by exists c', x'.
Qed.

(** ** Retransmission *)

Definition resent (addr : bytes) (m : cldc_msg) : list eff :=
  if m_done m then [] else
  concat (map (fun o => match o with Some pi => [Sent addr (pi_data pi)] | None => [] end) (m_pkt_info m)).

Definition resend_trace (addr : bytes) (c : cli) (l : list nat) : list eff :=
  concat (map (fun p => match c_msgs c !! p with Some m => resent addr m | None => [] end) l).

Lemma resend_pkts_trace l c x :
  c_sess c = Some x -> cw False (resend_pkts l) (fun _ c' => still c c' /\ c_trace c' = c_trace c ++
    concat (map (fun o => match o with Some pi => [Sent (cs_addr x) (pi_data pi)] | None => [] end) l)) c.
Proof.
  revert c. induction l as [|[pi|] l IH]; intros c Hx; cbn [resend_pkts].
  - apply cw_ret. split; [done|]. cbn. by rewrite app_nil_r.
  - apply cw_bind. unfold sess_send_pkt. apply cw_bind, cw_get_sess; [by rewrite Hx|].
    intros ? E. rewrite Hx in E. injection E as <-. unfold emit. apply cw_bind, cw_modify, cw_nondet.
    eapply cw_mono; [by apply IH|]. cbn. intros _ c' [S ->]. split; [|cbn; by rewrite <- app_assoc].
    etrans; [|exact S]. split; try done. by eexists.
  - by apply IH.
Qed.

(** What a tick does to a queued message: its packets' retry counts go up. *)
Definition retried_msg (m : cldc_msg) : cldc_msg :=
  if m_done m then m else set_pkt_info (map (option_map retry_pkt) (m_pkt_info m)) m.

Lemma resend_loop_wf l c x :
  c_sess c = Some x -> NoDup l -> (forall p, p ∈ l -> is_Some (c_msgs c !! p)) ->
  cw False (c_iter resend_msg l) (fun _ c' => c_sess c' = Some x /\ c_fhs c' = c_fhs c /\ c_next c' = c_next c /\
    c_now c' = c_now c /\
    (forall p m, c_msgs c !! p = Some m -> c_msgs c' !! p = Some (if decide (p ∈ l) then retried_msg m else m)) /\
    (forall p, c_msgs c !! p = None -> c_msgs c' !! p = None) /\
    c_trace c' = c_trace c ++ resend_trace (cs_addr x) c l) c.
Proof.
  intros Hx Hnd. revert c Hx. induction Hnd as [|p l Hpl Hnd IH]; intros c Hx Hin; cbn [c_iter].
  { apply cw_ret. split_and!; try done. unfold resend_trace. cbn. by rewrite app_nil_r. }
  destruct (Hin p) as [m Hm]; [by left|].
  assert (cw False (resend_msg p) (fun _ c1 => c_sess c1 = Some x /\ c_fhs c1 = c_fhs c /\ c_next c1 = c_next c /\
    c_now c1 = c_now c /\ c_msgs c1 = <[p := retried_msg m]> (c_msgs c) /\
    c_trace c1 = c_trace c ++ resent (cs_addr x) m) c) as Hone.
  { unfold resend_msg, retried_msg, resent. apply cw_bind, cw_get_msg; [by rewrite Hm|].
    intros ? E. rewrite Hm in E. injection E as <-. destruct (m_done m) eqn:Hd.
    - apply cw_ret. split_and!; try done; [by rewrite insert_id|by rewrite app_nil_r].
    - apply cw_bind, cw_modify. eapply cw_mono; [by apply (resend_pkts_trace _ _ x)|].
      cbn. intros _ c' [[S1 S2 S3 S4 S5 S6 _] ->]. cbn in *. split_and!; congruence. }
  apply cw_bind. eapply cw_mono; [exact Hone|]. cbn. intros _ c1 (H1 & H2 & H3 & H4 & H5 & H6).
  eapply cw_mono; [apply IH; [done|]|].
  - intros q Hq. rewrite H5. rewrite lookup_insert_ne by (intros ->; done). apply Hin. by right.
  - cbn. intros _ c2 (G1 & G2 & G3 & G4 & G5 & G6 & G7). split_and!; try congruence.
    + intros q n Hn. destruct (decide (q = p)) as [->|Hq].
      * assert (n = m) as -> by congruence. rewrite (G5 p (retried_msg m)) by by rewrite H5, lookup_insert_eq.
        rewrite decide_False by done. rewrite decide_True by by left. done.
      * rewrite (G5 q n) by by rewrite H5, lookup_insert_ne. f_equal.
        apply decide_ext. rewrite elem_of_cons. tauto.
    + intros q Hq. apply G6. rewrite H5. rewrite lookup_insert_ne; [done|]. intros <-. congruence.
    + rewrite G7, H6, <- app_assoc. f_equal. unfold resend_trace. cbn [map concat]. rewrite Hm. f_equal. f_equal.
      apply map_ext_in. intros q Hq%list_elem_of_In. rewrite H5. rewrite lookup_insert_ne; [done|]. by intros ->.
Qed.

(** A tick before it sends the pending packets again. *)
Lemma resend_spec c x :
  c_sess c = Some x -> wf_sess c x -> c_now c <= cs_expire_time x ->
  exists c', sess_timer c = Some (CLDC_MSG_RETRY, c') /\ c_sess c' = Some x /\ wf_sess c' x /\
    c_trace c' = c_trace c ++ resend_trace (cs_addr x) c (cs_out_msg x) ++ [TimerCtl true CLDC_MSG_RETRY] /\
    (forall p, m_done <$> c_msgs c' !! p = m_done <$> c_msgs c !! p) /\ c_fhs c' = c_fhs c.
Proof.
  intros Hx [W Hcr] Ht.
  assert (cw False sess_timer (fun r c' => r = CLDC_MSG_RETRY /\ c_sess c' = Some x /\ wf_sess c' x /\
    c_trace c' = c_trace c ++ resend_trace (cs_addr x) c (cs_out_msg x) ++ [TimerCtl true CLDC_MSG_RETRY] /\
    (forall p, m_done <$> c_msgs c' !! p = m_done <$> c_msgs c !! p) /\ c_fhs c' = c_fhs c) c) as H.
  { unfold sess_timer. apply cw_bind, cw_get_sess; [by rewrite Hx|]. intros ? E. rewrite Hx in E. injection E as <-.
    apply cw_bind, cw_get. rewrite (proj2 (Z.ltb_ge _ _)) by done. apply cw_bind.
    eapply cw_mono; [apply (resend_loop_wf _ c x Hx); [by apply W|intros p; by apply W]|].
    cbn. intros _ c1 (H1 & H2 & H3 & H4 & H5 & H6 & H7). unfold emit. apply cw_bind, cw_modify, cw_ret.
    assert (forall p, m_done <$> c_msgs c1 !! p = m_done <$> c_msgs c !! p /\
       m_cb <$> c_msgs c1 !! p = m_cb <$> c_msgs c !! p /\
       m_cb_private <$> c_msgs c1 !! p = m_cb_private <$> c_msgs c !! p) as Hsame.
    { intros p. destruct (c_msgs c !! p) as [m|] eqn:E; [rewrite (H5 _ _ E)|by rewrite (H6 _ E)].
      unfold retried_msg. case_decide; [|done]. destruct (m_done m) eqn:Ed; cbn; by rewrite ?Ed. }
    split; [done|]. split; [done|]. split; [|split_and!; [cbn; by rewrite H7, <- app_assoc|intros p; apply Hsame|done]].
    split; [|done]. destruct W as [W1 W2 W3 W4 W5 W6 W7 W8].
    assert (forall p, is_Some (c_msgs c1 !! p) <-> is_Some (c_msgs c !! p)) as Hdom.
    { intros p. destruct (Hsame p) as [E _]. by rewrite <- (fmap_is_Some m_done), E, fmap_is_Some. }
    assert (forall p m1, c_msgs c1 !! p = Some m1 -> exists m, c_msgs c !! p = Some m /\ m_done m = m_done m1 /\
      needs_fh m = needs_fh m1 /\ m_cb_private m = m_cb_private m1) as Hback.
    { intros p m1 E. destruct (Hsame p) as (E1 & E2 & E3). rewrite E in *.
      destruct (c_msgs c !! p) as [m|]; [|done]. exists m. injection E1 as E1. injection E2 as E2. injection E3 as E3.
      unfold needs_fh. by rewrite E1, E2, E3. }
    split; cbn [c_msgs c_fhs c_next set_c_trace]; try done.
    - intros p. by rewrite Hdom.
    - by rewrite H2.
    - intros p Hp. rewrite H3. apply W5, Hdom, Hp.
    - by rewrite H2, H3.
    - intros p m1 E Hd Hex Hn. destruct (Hback _ _ E) as (m & Em & D & N & P). rewrite <- P, H2.
      apply (W7 p m); congruence || done.
    - assert (forall p fp, pending_on (set_c_trace (c_trace c1 ++ [TimerCtl true CLDC_MSG_RETRY]) c1) p fp ->
        pending_on c p fp) as Hp.
      { intros p fp (m1 & E & Hd & Hn & Hp). destruct (Hback _ _ E) as (m & Em & D & N & P).
        exists m. split_and!; congruence || done. }
      intros p q fp P1 P2. apply (W8 p q fp); auto. }
  apply cw_total in H as (r & c' & E & -> & H). by exists c'.
Qed.

End drop.

(** ** Every operation keeps the invariant *)

Section ops.
Context {XL : XdrLib} {XC : XdrCli} {HL : HmacLib}.

Lemma wf_live c x : wf c -> c_sess c = Some x -> wf_sess c x.
Proof. unfold wf. intros Hc Hx. by rewrite Hx in Hc. Qed.

Lemma wf_of c x : c_sess c = Some x -> wf_sess c x -> wf c.
Proof. unfold wf. intros Hx. by rewrite Hx. Qed.

Lemma keeps_wf_sess_free : keeps_wf sess_free.
Proof.
  intros c Hc. destruct (c_sess c) as [x|] eqn:Hx.
  - destruct (wf_live _ _ Hc Hx) as [W _]. eapply (cw_weaken False); [done|].
    eapply cw_mono; [by eapply sess_free_spec|]. cbn. intros _ c' (H1 & H2 & H3 & _). unfold wf. by rewrite H1.
  - unfold sess_free. apply cw_bind, cw_get_sess; [done|]. intros x E. congruence.
Qed.

Lemma keeps_wf_timer : keeps_wf sess_timer.
Proof.
  intros c Hc. destruct (c_sess c) as [x|] eqn:Hx.
  2:{ unfold sess_timer. apply cw_bind, cw_get_sess; [done|]. intros x E. congruence. }
  pose proof (wf_live _ _ Hc Hx) as Hw. destruct (Z.le_gt_cases (c_now c) (cs_expire_time x)) as [Ht|Ht].
  { destruct (resend_spec c x Hx Hw Ht) as (c' & E & Hx' & Hw' & _). unfold cw. rewrite E. by eapply wf_of. }
  unfold sess_timer. apply cw_bind, cw_get_sess; [done|]. intros ? E. rewrite Hx in E. injection E as <-.
  apply cw_bind, cw_get. rewrite (proj2 (Z.ltb_lt _ _)) by lia. apply cw_bind. unfold sess_expire.
  apply cw_bind, cw_upd_sess; [done|]. intros ? E. rewrite Hx in E. injection E as <-.
  set (x1 := cs_flags true _ x). set (c1 := set_c_sess _ c). apply cw_bind. unfold sess_msg_drop.
  apply cw_bind, cw_get_sess; [done|]. intros ? [= <-]. destruct Hw as [W Hcr].
  apply cw_bind. eapply cw_mono; [apply (drop_loop_wf True _ c1 x1); try done; by eapply wfb_frame; [..|apply W]|].
  cbn. intros _ c2 (x2 & Hx2 & Hi2 & Ho2 & W2 & Ht2). apply cw_upd_sess; [done|].
  intros ? E. rewrite Hx2 in E. injection E as <-. unfold emit. apply cw_bind, cw_modify, cw_modify, cw_ret.
  injection Hi2 as _ _ E3 E4 _. unfold wf. cbn.
  split; [by eapply wfb_frame; [..|apply W2]|unfold creds_ok; cbn; by rewrite E3, E4].
Qed.

(** The pointers an operation is given are live. *)
Definition op_live (o : cli_op) (c : cli) : Prop :=
  match o with
  | OpNewSess _ _ _ _ => c_sess c = None
  | OpClose fp _ | OpLock fp _ _ _ | OpUnlock fp _ | OpPut fp _ _ | OpGet fp _ _ => is_Some (c_fhs c !! fp)
  | _ => is_Some (c_sess c)
  end.

Lemma wf_fh_live c fp : wf c -> is_Some (c_fhs c !! fp) -> exists x, c_sess c = Some x.
Proof.
  unfold wf. intros Hc Hf. destruct (c_sess c) as [x|]; [eauto|]. destruct Hc as [_ E]. rewrite E in Hf.
  by destruct Hf.
Qed.

Lemma new_msg_total copts op req cb priv c x :
  c_sess c = Some x -> wf_sess c x ->
  cw False (cldc_new_msg copts op req cb priv) (fun o c' => still c c' /\ wf_sess c' x /\
    forall msg, o = Some msg -> m_cb msg = cb /\ m_cb_private msg = priv /\ m_done msg = false /\
      Forall is_Some (m_pkt_info msg)) c.
Proof.
  intros Hx [W Hcr]. pose proof (is_still_new_msg copts op req cb priv c x Hx) as Hs.
  pose proof (new_msg_shape copts op req cb priv c) as Hsh. unfold cw in *.
  destruct (cldc_new_msg _ _ _ _ _ _) as [[o c1]|]; [|done]. split; [done|]. split; [split; [by eapply wfb_still|done]|].
  intros msg E. destruct (Hsh msg E) as (? & ? & ? & ? & _). done.
Qed.

Lemma open_wf copts path mode events c x :
  c_sess c = Some x -> wf_sess c x -> cw False (cldc_open copts path mode events) (fun _ c' => wf c') c.
Proof.
  intros Hx Hw. unfold cldc_open. apply cw_bind, cw_get_sess; [by rewrite Hx|]. intros ? E. rewrite Hx in E. injection E as <-.
  destruct (negb _); [by apply cw_ret; eapply wf_of|]. destruct (bad_path path); [by apply cw_ret; eapply wf_of|].
  apply cw_bind. eapply cw_mono; [by apply (new_msg_total _ _ _ _ _ c x)|]. cbn. intros o c1 (S1 & W1 & Hm).
  assert (c_sess c1 = Some x) as Hx1 by by rewrite (st_sess _ _ S1).
  destruct o as [msg|]; [|apply cw_ret; by eapply wf_of]. destruct (Hm msg eq_refl) as (E1 & E2 & E3 & E4).
  apply cw_bind. eapply cw_still; [apply is_still_malloc_ok|done|]. intros ok c2 S2.
  assert (c_sess c2 = Some x) as Hx2 by by rewrite (st_sess _ _ S2).
  assert (wf_sess c2 x) as [W2 Hcr] by (destruct W1; split; [by eapply wfb_still|done]).
  destruct (negb ok); [apply cw_ret; by eapply wf_of|].
  apply cw_bind. unfold cw at 1, c_fresh. set (fp := c_next c2). apply cw_bind, cw_modify.
  apply cw_bind, cw_upd_sess; cbn; rewrite Hx2; [done|]. intros ? [= <-]. set (x3 := cs_lists _ _ x). set (c3 := set_c_sess _ _).
  assert (c_fhs c2 !! fp = None) as Hnone.
  { apply eq_None_not_Some. intros Hs. pose proof (wb_fnext _ _ _ _ W2 _ Hs). lia. }
  assert (wf_sess c3 x3) as W3.
  { split; [|done]. destruct W2 as [A1 A2 A3 A4 A5 A6 A7 A8]. split; cbn; try done.
    - apply NoDup_app. split_and!; [done| |by apply NoDup_singleton]. intros q Hq Hq'.
      apply list_elem_of_singleton in Hq' as ->. apply A4 in Hq. rewrite Hnone in Hq. by destruct Hq.
    - intros q. rewrite elem_of_app, list_elem_of_singleton. destruct (decide (q = fp)) as [->|Hq].
      + rewrite lookup_insert_eq. split; [done|by right].
      + rewrite lookup_insert_ne by done. rewrite A4. tauto.
    - intros q Hq. specialize (A5 q Hq). lia.
    - intros q. destruct (decide (q = fp)) as [->|Hq]; [lia|]. rewrite lookup_insert_ne by done. intros Hs.
      specialize (A6 q Hs). lia.
    - intros q m Hm' Hd Hex Hn. destruct (A7 q m Hm' Hd Hex Hn) as (fp' & f & P & F & V).
      exists fp', f. rewrite lookup_insert_ne by congruence. done. }
  apply cw_bind. eapply cw_mono; [apply (sess_send_wf _ c3 x3)|]; try done.
  - intros _. exists fp, (mkFh 0 false). cbn. rewrite lookup_insert_eq. split_and!; try done.
    intros q (m & Hm' & Hd & Hn & Hp). destruct (wb_pend _ _ _ _ W2 q m Hm' Hd ltac:(tauto) Hn) as (fp' & f & P & F & V).
    congruence.
Qed.

Lemma close_wf fp copts c f :
  wf c -> c_fhs c !! fp = Some f -> cw False (cldc_close fp copts) (fun _ c' => wf c') c.
Proof.
  intros Hc Hf. destruct (wf_fh_live c fp Hc ltac:(by rewrite Hf)) as [x Hx]. pose proof (wf_live _ _ Hc Hx) as Hw.
  unfold cldc_close. apply cw_bind, cw_get_fh; [by rewrite Hf|]. intros ? E. rewrite Hf in E. injection E as <-.
  destruct (f_valid f) eqn:Hv; cbn [negb]; [|by apply cw_ret].
  apply cw_bind, cw_get_sess; [by rewrite Hx|]. intros ? E. rewrite Hx in E. injection E as <-.
  assert (forall c1, still c c1 -> wf_sess (set_c_fhs (<[fp := mkFh (f_fh f) false]> (c_fhs c1)) c1) x) as Hinv.
  { intros c1 S1. destruct Hw as [W Hcr]. split; [|done]. apply wfb_store_fh; [by eapply wfb_still| |done].
    rewrite (st_fhs _ _ S1), Hf. by eexists. }
  destruct (cs_expired x).
  { apply cw_bind, cw_modify, cw_ret. eapply wf_of; [done|by apply Hinv]. }
  apply cw_bind. eapply cw_mono; [by apply (new_msg_total _ _ _ _ _ c x)|]. cbn. intros o c1 (S1 & W1 & Hm).
  assert (c_sess c1 = Some x) as Hx1 by by rewrite (st_sess _ _ S1).
  destruct o as [msg|]; [|apply cw_ret; by eapply wf_of]. destruct (Hm msg eq_refl) as (E1 & E2 & E3 & E4).
  apply cw_bind, cw_modify. eapply (sess_send_wf _ _ x); [done|by apply Hinv|done|].
  intros _. exists fp, (mkFh (f_fh f) false). cbn. rewrite lookup_insert_eq. split_and!; try done.
  intros q (m & Hm' & Hd & Hn & Hp). cbn in Hm'. destruct W1 as [W1 _].
  destruct (wb_pend _ _ _ _ W1 q m Hm' Hd ltac:(tauto) Hn) as (fp' & f' & P & F & V).
  rewrite (st_fhs _ _ S1) in F. congruence.
Qed.

(** A call on a live handle. *)
Lemma fh_call_wf fp copts op (req : cldc_fh -> msg_req) cb priv c f :
  wf c -> c_fhs c !! fp = Some f -> (cb = open_end_cb \/ cb = close_end_cb -> False) ->
  cw False (fh ← get_fh fp; if negb (f_valid fh) then mret (- EINVAL) else cldc_call copts op (req fh) cb priv)
    (fun _ c' => wf c') c.
Proof.
  intros Hc Hf Hcb. destruct (wf_fh_live c fp Hc ltac:(by rewrite Hf)) as [x Hx].
  apply cw_bind, cw_get_fh; [by rewrite Hf|]. intros g _. destruct (negb _); [by apply cw_ret|].
  eapply call_wf; [done|by apply wf_live|done].
Qed.

Lemma new_sess_wf copts addr user key c :
  wf c -> c_sess c = None -> cw False (cldc_new_sess copts addr user key) (fun _ c' => wf c') c.
Proof.
  intros Hc Hn. unfold cldc_new_sess. destruct (64 <? _); [by apply cw_ret|].
  destruct user as [[|u0 user]|]; [by apply cw_ret| |by apply cw_ret].
  destruct key as [[|k0 key]|]; [by apply cw_ret| |by apply cw_ret]. cbv zeta.
  destruct (Z.leb_spec CLD_MAX_USERNAME (Z.of_nat (length (u0 :: user)))) as [Hu|Hu]; [by apply cw_ret|].
  destruct (Z.leb_spec CLD_MAX_SECRET_KEY (Z.of_nat (length (k0 :: key)))) as [Hk|Hk]; [by apply cw_ret|].
  unfold wf in Hc. rewrite Hn in Hc. destruct Hc as [Em Ef].
  assert (forall c1, c_sess c1 = c_sess c -> c_msgs c1 = c_msgs c -> c_fhs c1 = c_fhs c -> wf c1) as Hidle.
  { intros c1 E1 E2 E3. unfold wf. by rewrite E1, Hn, E2, E3. }
  apply cw_bind. unfold c_malloc_ok. apply cw_bind, cw_nondet, cw_ret.
  destruct (negb _); [apply cw_ret; by apply Hidle|].
  apply cw_bind. unfold c_rand64. apply cw_bind, cw_nondet, cw_bind, cw_nondet, cw_ret.
  apply cw_bind, cw_bind, cw_nondet, cw_bind, cw_nondet, cw_ret. apply cw_bind, cw_modify.
  set (x := mkCSess _ _ _ _ _ _ _ _ _ _ _ _ _ _ _ _ _). set (c1 := set_c_sess _ _).
  assert (wf_sess c1 x) as Hw.
  { split; [|split; cbn [cs_user cs_secret_key x length] in *; unfold CLD_MAX_USERNAME, CLD_MAX_SECRET_KEY in *; cbn [length] in *; lia].
    split; cbn; rewrite ?Em, ?Ef; try by constructor.
    - intros p. rewrite lookup_empty. split; [intros H; inversion H|by intros []].
    - intros p. rewrite lookup_empty. split; [intros H; inversion H|by intros []].
    - intros p. rewrite lookup_empty. by intros [].
    - intros p. rewrite lookup_empty. by intros [].
    - intros p m. by rewrite lookup_empty.
    - intros p q fp (m & Hm & _). cbn in Hm. by rewrite Em, lookup_empty in Hm. }
  apply cw_bind. eapply cw_mono; [by apply (new_msg_total _ _ _ _ _ c1 x)|]. cbn. intros o c2 (S2 & W2 & Hm).
  assert (c_sess c2 = Some x) as Hx2 by by rewrite (st_sess _ _ S2).
  destruct o as [msg|].
  - destruct (Hm msg eq_refl) as (E1 & E2 & E3 & E4). apply cw_bind, cw_get.
    apply cw_bind, cw_upd_sess; [by rewrite Hx2|]. intros ? E. rewrite Hx2 in E. injection E as <-.
    unfold emit. apply cw_bind, cw_modify. set (x3 := cs_times _ _ x).
    eapply (sess_send_wf _ _ x3); [done| |done|unfold fresh_use, needs_fh; by rewrite E1].
    destruct W2 as [W2 Hcr]. split; [|done]. by eapply wfb_frame; [..|apply W2].
  - apply cw_bind. eapply cw_mono; [eapply sess_free_spec; [done|apply W2]|].
    cbn. intros _ c3 (H1 & H2 & H3 & _). apply cw_ret. unfold wf. by rewrite H1.
Qed.

(** Operations other than receiving, on live pointers. *)
Lemma op_wf o c :
  wf c -> op_live o c -> (forall a pkt, o <> OpReceive a pkt) -> (o = OpTimer -> ~ end_pending c) ->
  cw False (run_op o) (fun _ c' => wf c') c.
Proof.
  intros Hc Hl Hr Ht. destruct o; cbn [run_op op_live] in *;
    try match type of Hl with is_Some _ => destruct Hl as [y Hy] end; try (pose proof (wf_live _ _ Hc Hy) as Hw).
  - by destruct (Hr net_addr pkt).
  - destruct (Z.le_gt_cases (c_now c) (cs_expire_time y)) as [Hn|Hn].
    + destruct (resend_spec c y Hy Hw Hn) as (c' & E & Hx' & Hw' & _). unfold cw. rewrite E. by eapply wf_of.
    + destruct (expire_spec c y Hy Hw (Ht eq_refl) ltac:(lia)) as (c' & x' & E & Hx' & Hw' & _).
      unfold cw. rewrite E. by eapply wf_of.
  - by apply new_sess_wf.
  - unfold cldc_kill_sess. apply cw_bind, cw_bind, cw_get_sess; [by rewrite Hy|]. intros _ _.
    unfold emit. apply cw_bind, cw_modify. destruct Hw as [W Hcr].
    eapply cw_mono; [eapply (sess_free_spec nobody _ y); [done|by eapply wfb_frame; [..|apply W]]|].
    cbn. intros _ c' (H1 & H2 & H3 & _). apply cw_ret. unfold wf. by rewrite H1.
  - unfold cldc_end_sess. apply cw_bind, cw_get_sess; [by rewrite Hy|]. intros ? _.
    destruct (negb _); [by apply cw_ret|]. eapply call_wf; [done|done|]. by intros [|].
  - unfold cldc_nop. apply cw_bind, cw_get_sess; [by rewrite Hy|]. intros ? _.
    destruct (negb _); [by apply cw_ret|]. eapply call_wf; [done|done|]. by intros [|].
  - unfold cldc_del. apply cw_bind, cw_get_sess; [by rewrite Hy|]. intros ? _.
    destruct (negb _); [by apply cw_ret|]. destruct (bad_path path); [by apply cw_ret|].
    eapply call_wf; [done|done|]. by intros [|].
  - apply cw_bind. eapply cw_mono; [by apply (open_wf _ _ _ _ c y)|]. intros r c' H. by apply cw_ret.
  - by eapply close_wf.
  - eapply (fh_call_wf fh copts _ (fun fh => ReqLock (mkLock (f_fh fh) flags))); [done|done|]. by intros [|].
  - eapply (fh_call_wf fh copts _ (fun fh => ReqUnlock (f_fh fh))); [done|done|]. by intros [|].
  - unfold cldc_put. destruct data as [[|b data]|]; [by apply cw_ret| |by apply cw_ret].
    destruct (_ <? _); [by apply cw_ret|].
    destruct (wf_fh_live c fh Hc ltac:(by rewrite Hy)) as [x Hx]. pose proof (wf_live _ _ Hc Hx) as Hw'.
    apply cw_bind, cw_get_fh; [by rewrite Hy|]. intros g _. destruct (negb _); [by apply cw_ret|].
    apply cw_bind. eapply cw_mono; [by apply (new_msg_total _ _ _ _ _ c x)|]. cbn. intros o c1 (S1 & W1 & Hm).
    assert (c_sess c1 = Some x) as Hx1 by by rewrite (st_sess _ _ S1).
    destruct o as [msg|]; [|apply cw_ret; by eapply wf_of]. destruct (Hm msg eq_refl) as (E1 & E2 & E3 & E4).
    apply cw_bind. eapply cw_mono; [eapply (sess_send_wf _ _ x); [done|done|done|unfold fresh_use, needs_fh; by rewrite E1]|].
    intros r c2 H. by apply cw_ret.
  - eapply (fh_call_wf fh copts _ (fun fh => ReqGet (f_fh fh))); [done|done|]. by intros [|].
Qed.

Lemma bind_undef {A B} (m : C A) (k : A -> C B) c : m c = None -> (m ≫= k) c = None.
Proof. unfold mbind, C_bind. by intros ->. Qed.

Lemma get_sess_undef {B} (k : cldc_session -> C B) c : c_sess c = None -> (c_get_sess ≫= k) c = None.
Proof. intros Hx. apply bind_undef. unfold c_get_sess. by rewrite Hx. Qed.

Lemma get_fh_undef {B} fp (k : cldc_fh -> C B) c : c_fhs c !! fp = None -> (get_fh fp ≫= k) c = None.
Proof. intros Hx. apply bind_undef. unfold get_fh. by rewrite Hx. Qed.

(** On dead pointers the code is undefined (or returns before using them). *)
Lemma op_dead o c r c' : wf c -> op_allowed o c -> run_op o c = Some (r, c') -> op_live o c \/ c' = c.
Proof.
  intros Hc Ha.
  assert (forall fp co d, cldc_put fp co d c = Some (r, c') -> is_Some (c_fhs c !! fp) \/ c' = c) as Hput.
  { intros fp co d. unfold cldc_put. destruct d as [[|b d]|]; try (intros [= _ <-]; by right).
    destruct (_ <? _); [intros [= _ <-]; by right|]. destruct (c_fhs c !! fp) eqn:E; [eauto|].
    by rewrite get_fh_undef. }
  assert (forall a pkt, c_sess c = None -> cldc_receive_pkt a pkt c = Some (r, c') -> c' = c) as Hrecv.
  { intros a pkt Hx. unfold cldc_receive_pkt, mbind at 1, C_bind at 1, c_get at 1. cbv zeta.
    destruct (_ <? _); [by intros [= _ <-]|]. destruct (xdr_hdr_dec _) as [[h n]|]; [|by intros [= _ <-]].
    destruct (negb _); [by intros [= _ <-]|]. by rewrite get_sess_undef. }
  destruct (c_sess c) as [x|] eqn:Hx; [|unfold wf in Hc; rewrite Hx in Hc; destruct Hc as [Em Ef]];
    destruct o as [a pkt| |co a u k| | | |co path|co path mode ev|fp co|fp co fl w|fp co|fp co d|fp co m];
    cbn in *; rewrite ?Hx in *; try done; eauto.
  all: try (destruct (c_fhs c !! fp) eqn:E; [by left; eauto|];
            unfold cldc_close, cldc_lock, cldc_unlock, cldc_get; by rewrite get_fh_undef).
  all: try (by unfold sess_timer, cldc_end_sess, cldc_nop, cldc_del; rewrite get_sess_undef).
  all: unfold cldc_kill_sess, cldc_open; rewrite bind_undef; [done|]; by apply get_sess_undef.
Qed.

Lemma wf_step c c' : cstep c c' -> wf c -> wf c'.
Proof.
  intros [t c1|o r c1 c2 Ha Hr] Hc.
  { unfold wf in *. cbn. destruct (c_sess c1); [|done]. destruct Hc as [W Hcr]. split; [|done].
    by eapply wfb_frame; [..|apply W]. }
  destruct (op_dead o c1 r c2 Hc Ha Hr) as [Hl|E]; [|congruence].
  destruct o; try (eapply (cw_run False _ (fun _ c' => wf c')); [eapply op_wf; done|exact Hr]).
  - eapply (cw_run True _ (fun _ c' => wf c')); [by apply keeps_wf_receive|exact Hr].
  - eapply (cw_run True _ (fun _ c' => wf c')); [by apply keeps_wf_timer|exact Hr].
Qed.

Lemma wf_reach (now : Z) (orc : nat -> Z) c : creach (cli_init now orc) c -> wf c.
Proof. induction 1 as [|c c' _ IH Hs]; [done|by eapply wf_step]. Qed.

End ops.
