(* ===== verification/CldcHear.v ===== *)
(** * CldcHear: which callbacks a run of the client library can cause

    [heard] relates the states before and after a computation of the library:
    only callbacks of messages that were there before have run, and messages
    keep their callback.  Receiving and timers add no messages ([Hears]); calls
    run no callbacks and add messages with the callback they were given only
    ([Calls]). *)

From S2P Require Import Prelude Dirent Wire Cldc CldcLogic CldcSys CldcWf.
#[local] Open Scope Z_scope.

(** May callbacks run, or what callback may a new message have? *)
Inductive hear_mode : Type := Hears | Calls (copts : option Z).

Definition may_hear (b : hear_mode) : Prop := b = Hears.
Definition may_add (b : hear_mode) (cb : option Z) : Prop := b = Calls cb.

Definition msg_cb_of (c : cli) (p : nat) : option (option Z) := (fun m => co_cb (m_copts m)) <$> c_msgs c !! p.

Record heard (b : hear_mode) (c c' : cli) : Prop := {
  hd_trace : exists l, c_trace c' = c_trace c ++ l /\
    forall p cb code, Complete p cb code ∈ l -> may_hear b /\ msg_cb_of c p = Some (Some cb);
  hd_msgs p cb : msg_cb_of c' p = Some cb -> msg_cb_of c p = Some cb \/ may_add b cb;
  hd_now : c_now c' = c_now c }.

#[global] Instance heard_preorder b : PreOrder (heard b).
Proof.
  split.
  - intros c. split; [exists []; split; [by rewrite app_nil_r|]; intros p cb code H; by apply elem_of_nil in H|auto|done].
  - intros c1 c2 c3 [(l1 & E1 & T1) M1 N1] [(l2 & E2 & T2) M2 N2]. split.
    + exists (l1 ++ l2). rewrite E2, E1, <- app_assoc. split; [done|]. intros p cb code [H|H]%elem_of_app; [by apply (T1 _ _ code)|].
      destruct (T2 _ _ _ H) as [Hh Hm]. split; [done|]. destruct (M1 _ _ Hm) as [?|Ha]; [done|].
      unfold may_hear, may_add in *. by subst.
    + intros p cb H. destruct (M2 _ _ H) as [H'|H']; [by apply M1|by right].
    + congruence.
Qed.

Definition is_heard (b : hear_mode) {A} (m : C A) : Prop := forall c, cw True m (fun _ c' => heard b c c') c.

(** ** Computations *)

Section basic.
Context (b : hear_mode).

Lemma is_heard_ret {A} (a : A) : is_heard b (mret a).
Proof. intros c. by apply cw_ret. Qed.

Lemma is_heard_bind {A B} (m : C A) (k : A -> C B) :
  is_heard b m -> (forall a, is_heard b (k a)) -> is_heard b (m ≫= k).
Proof.
  intros Hm Hk c. apply cw_bind. eapply cw_mono; [apply Hm|]. intros a c1 H1. cbn in H1.
  eapply cw_mono; [apply Hk|]. intros a2 c2 H2. cbn in *. by etrans.
Qed.

(** Messages are kept, changed but for their callback, or dropped, and the
    trace grows by something that is no callback. *)
Lemma heard_quiet c c' l :
  c_trace c' = c_trace c ++ l -> (forall p cb code, Complete p cb code ∉ l) ->
  (forall p cb, msg_cb_of c' p = Some cb -> msg_cb_of c p = Some cb) -> c_now c' = c_now c -> heard b c c'.
Proof.
  intros E H M N. split; [exists l; split; [done|]; intros p cb code H'; by destruct (H p cb code)| |done].
  intros p cb Hm. left. auto.
Qed.

Lemma heard_same c c' : c_trace c' = c_trace c -> c_msgs c' = c_msgs c -> c_now c' = c_now c -> heard b c c'.
Proof.
  intros E M N. apply (heard_quiet c c' []); [by rewrite app_nil_r|set_solver| |done].
  intros p cb. unfold msg_cb_of. by rewrite M.
Qed.

Lemma is_heard_modify (f : cli -> cli) :
  (forall c, c_trace (f c) = c_trace c /\ c_msgs (f c) = c_msgs c /\ c_now (f c) = c_now c) -> is_heard b (c_modify f).
Proof. intros Hf c. apply cw_modify. destruct (Hf c) as (? & ? & ?). by apply heard_same. Qed.

Lemma is_heard_emit (e : eff) : (forall p cb code, e <> Complete p cb code) -> is_heard b (emit e).
Proof.
  intros He c. unfold emit. apply cw_modify. apply (heard_quiet _ _ [e]); [done| |done|done].
  intros p cb code H%list_elem_of_singleton. by destruct (He p cb code).
Qed.

Lemma is_heard_get : is_heard b c_get.
Proof. intros c. by apply cw_get. Qed.

Lemma is_heard_nondet : is_heard b c_nondet.
Proof. intros c. apply cw_nondet. by apply heard_same. Qed.

Lemma is_heard_ub {A} : is_heard b (@ub A).
Proof. intros c. by apply cw_ub. Qed.

Lemma is_heard_get_sess : is_heard b c_get_sess.
Proof. intros c. by apply cw_get_sess. Qed.

Lemma is_heard_upd_sess f : is_heard b (c_upd_sess f).
Proof. intros c. apply cw_upd_sess; [done|]. intros x _. by apply heard_same. Qed.

Lemma is_heard_get_msg p : is_heard b (get_msg p).
Proof. intros c. by apply cw_get_msg. Qed.

Lemma is_heard_get_fh p : is_heard b (get_fh p).
Proof. intros c. by apply cw_get_fh. Qed.

Lemma is_heard_store_fh p f : is_heard b (store_fh p f).
Proof. by apply is_heard_modify. Qed.

Lemma is_heard_fresh : is_heard b c_fresh.
Proof. intros c. by apply heard_same. Qed.

Lemma is_heard_msg_free p : is_heard b (cldc_msg_free p).
Proof.
  intros c. unfold cldc_msg_free. apply cw_bind, cw_get_msg; [done|]. intros m _. apply cw_modify.
  apply (heard_quiet _ _ []); [by rewrite app_nil_r|set_solver| |done]. intros q cb. unfold msg_cb_of. cbn.
  destruct (decide (q = p)) as [->|Hn]; [by rewrite lookup_delete_eq|by rewrite lookup_delete_ne].
Qed.

(** A message stored with the callback it had. *)
Lemma heard_store c c1 p m m' :
  c_msgs c !! p = Some m -> c_msgs c1 = <[p := m']> (c_msgs c) -> co_cb (m_copts m') = co_cb (m_copts m) -> c_trace c1 = c_trace c -> c_now c1 = c_now c -> heard b c c1.
Proof.
  intros Hm M E T N. apply (heard_quiet _ _ []); [by rewrite app_nil_r|set_solver| |done]. intros q cb. unfold msg_cb_of.
  rewrite M. destruct (decide (q = p)) as [->|Hn]; [|by rewrite lookup_insert_ne].
  rewrite lookup_insert_eq, Hm. cbn. by rewrite E.
Qed.

End basic.

#[export] Hint Resolve is_heard_ret is_heard_get is_heard_nondet is_heard_ub is_heard_get_sess
  is_heard_upd_sess is_heard_get_msg is_heard_get_fh is_heard_store_fh is_heard_msg_free is_heard_fresh : cld.
#[export] Hint Extern 1 (is_heard _ (emit _)) => apply is_heard_emit; congruence : cld.

(** Walk through a computation. *)
Ltac solve_heard :=
  repeat match goal with
  | |- forall _, _ => intros ?
  | |- is_heard _ (_ ≫= _) => apply is_heard_bind
  | |- is_heard _ (match ?x with _ => _ end) => destruct x
  | |- is_heard _ (let '(_, _) := ?x in _) => destruct x
  end; auto with cld.

Section hear.
Context {XL : XdrLib} {XC : XdrCli} {HL : HmacLib} (b : hear_mode).

Lemma is_heard_iter (f : nat -> C unit) (l : list nat) : (forall p, is_heard b (f p)) -> is_heard b (c_iter f l).
Proof. intros Hf. induction l as [|p l IH]; cbn [c_iter]; solve_heard. Qed.

Lemma is_heard_send_pkt pkt : is_heard b (sess_send_pkt pkt).
Proof. unfold sess_send_pkt. solve_heard. Qed.

Lemma is_heard_malloc_ok : is_heard b c_malloc_ok.
Proof. unfold c_malloc_ok. solve_heard. Qed.

Lemma is_heard_rand64 : is_heard b c_rand64.
Proof. unfold c_rand64. solve_heard. Qed.

#[local] Hint Resolve is_heard_send_pkt is_heard_malloc_ok is_heard_rand64 is_heard_iter : cld.

Lemma is_heard_ack_seqid seqid : is_heard b (ack_seqid seqid).
Proof. unfold ack_seqid. solve_heard. Qed.

Lemma is_heard_fh_free p : is_heard b (fh_free p).
Proof. unfold fh_free. apply is_heard_bind; [auto with cld|]. intros _. by apply is_heard_modify. Qed.

Lemma is_heard_sess_free : is_heard b sess_free.
Proof.
  unfold sess_free. pose proof is_heard_fh_free. solve_heard. by apply is_heard_modify.
Qed.

Lemma is_heard_new_msg copts op req cb priv : is_heard b (cldc_new_msg copts op req cb priv).
Proof.
  assert (forall n xid o first body, is_heard b (new_msg_pkts n xid o first body)) as H.
  { intros n. induction n as [|n IH]; intros; cbn [new_msg_pkts]; solve_heard. }
  unfold cldc_new_msg. solve_heard.
Qed.

Lemma is_heard_send_all key l : is_heard b (send_all key l).
Proof.
  assert (forall pi, is_heard b (send_one key pi)) as H.
  { intros pi. unfold send_one, sess_next_seqid. solve_heard. }
  induction l as [|[pi|] l IH]; cbn [send_all]; solve_heard.
Qed.

End hear.

#[export] Hint Resolve is_heard_send_pkt is_heard_malloc_ok is_heard_rand64 is_heard_iter is_heard_ack_seqid
  is_heard_sess_free is_heard_fh_free is_heard_new_msg is_heard_send_all : cld.

(** ** Receiving and timers *)

Section hears.
Context {XL : XdrLib} {XC : XdrCli} {HL : HmacLib}.

Abbreviation hears := (is_heard Hears).

Lemma hears_copts_cb (p : nat) (code : Z) (k : C Z) : hears k -> hears (copts_cb p code k).
Proof.
  intros Hk c. unfold copts_cb. apply cw_bind, cw_get_msg; [done|]. intros m Hm.
  destruct (co_cb (m_copts m)) as [cb|] eqn:E; [|by eapply cw_mono; [apply Hk|]].
  unfold emit. apply cw_bind, cw_modify, cw_nondet. split; [|auto|done]. exists [Complete p cb code]. split; [done|].
  intros q cb' code' [= -> -> ->]%list_elem_of_singleton. split; [done|]. unfold msg_cb_of. rewrite Hm. cbn. by rewrite E.
Qed.

#[local] Hint Resolve hears_copts_cb : cld.

Lemma hears_run_get_end_cb p resp code : hears (run_get_end_cb p resp code).
Proof.
  unfold run_get_end_cb. case_match; [|auto with cld].
  intros c. apply cw_bind, cw_get_msg; [done|]. intros m Hm. apply cw_bind, cw_get_sess; [done|]. intros x Hx.
  destruct (xdr_get_resp_dec _ _ _) as [[r payload] name]. case_match; [done|].
  apply cw_bind, cw_upd_sess; [done|]. intros x' _. apply cw_bind, cw_modify. set (c1 := set_c_msgs _ _).
  assert (heard Hears c c1) as H1.
  { by eapply heard_store. }
  destruct r as [r|]; [|by apply cw_ret].
  eapply cw_mono; [apply hears_copts_cb; auto with cld|]. cbn. intros a c' H2. by etrans.
Qed.

Lemma hears_run_msg_cb p resp code : hears (run_msg_cb p resp code).
Proof.
  pose proof hears_run_get_end_cb. unfold run_msg_cb, run_new_sess_cb, run_end_sess_cb, run_generic_end_cb, run_open_end_cb, run_close_end_cb.
  solve_heard; apply hears_copts_cb; solve_heard.
Qed.

Lemma hears_expire_outmsg t : hears (sess_expire_outmsg t).
Proof.
  assert (forall l, hears (expire_loop t l)) as H by (induction l as [|p l IH]; cbn [expire_loop]; solve_heard).
  unfold sess_expire_outmsg. solve_heard.
Qed.

Lemma hears_find_xid xid l : hears (find_xid xid l).
Proof. induction l as [|p l IH]; cbn [find_xid]; solve_heard. Qed.

Lemma hears_find_fh fh l : hears (find_fh fh l).
Proof. induction l as [|p l IH]; cbn [find_fh]; solve_heard. Qed.

#[local] Hint Resolve hears_find_xid hears_find_fh hears_expire_outmsg hears_run_msg_cb : cld.

Lemma hears_generic seqid : hears (rxmsg_generic seqid).
Proof.
  unfold rxmsg_generic. apply is_heard_bind; [auto with cld|]. intros x.
  destruct (xdr_generic_resp_dec _) as [[code xid]|]; [|auto with cld].
  apply is_heard_bind; [auto with cld|]. intros [p|]; [|auto with cld].
  intros c. apply cw_bind, cw_get_msg; [done|]. intros m Hm. destruct (m_done m); [apply is_heard_ack_seqid|].
  apply cw_bind, cw_modify. set (c1 := set_c_msgs _ c).
  assert (heard Hears c c1) as H1.
  { by eapply heard_store. }
  assert (hears (rc ← run_msg_cb p (cs_msg_buf x) code; if rc <? 0 then mret rc else ack_seqid seqid)) as Hk by solve_heard.
  eapply cw_mono; [apply Hk|]. cbn. intros a c2 H2. by etrans.
Qed.

Lemma hears_ack_frag : hears rxmsg_ack_frag.
Proof.
  assert (forall seqid l c, cw True (ack_frag_pkts seqid l) (fun _ c' => c' = c) c) as Hp.
  { intros seqid l c. apply cw_any. intros a c' H. by eapply ack_frag_pkts_same. }
  assert (forall seqid p, hears (ack_frag_msg seqid p)) as H.
  { intros seqid p c. unfold ack_frag_msg. apply cw_bind, cw_get_msg; [done|]. intros m Hm. apply cw_bind.
    eapply cw_mono; [apply Hp|]. cbn. intros l c' ->. apply cw_modify.
    by eapply heard_store. }
  unfold rxmsg_ack_frag. solve_heard.
Qed.

Lemma hears_receive addr pkt : hears (cldc_receive_pkt addr pkt).
Proof.
  pose proof hears_generic. pose proof hears_ack_frag.
  assert (hears rxmsg_event) by (unfold rxmsg_event; solve_heard).
  assert (forall seqid, hears (rx_complete seqid)) by (intros; unfold rx_complete; solve_heard).
  assert (forall seqid op, hears (accept_seqid seqid op)) by (intros; unfold accept_seqid; solve_heard).
  unfold cldc_receive_pkt. solve_heard.
Qed.

Lemma hears_timer : hears sess_timer.
Proof.
  assert (forall p, hears (drop_one p)) by (intros; unfold drop_one; solve_heard).
  assert (hears sess_expire) by (unfold sess_expire, sess_msg_drop; solve_heard).
  assert (forall l, hears (resend_pkts l)) as Hr by (induction l as [|[pi|] l IH]; cbn [resend_pkts]; solve_heard).
  assert (forall p, hears (resend_msg p)).
  { intros p c. unfold resend_msg. apply cw_bind, cw_get_msg; [done|]. intros m Hm. destruct (m_done m); [by apply cw_ret|].
    apply cw_bind, cw_modify. set (c1 := set_c_msgs _ c). assert (heard Hears c c1) as Hc.
    { by eapply heard_store. }
    eapply cw_mono; [apply Hr|]. cbn. intros a c2 H2'. by etrans. }
  unfold sess_timer. solve_heard.
Qed.

Lemma hears_kill : hears cldc_kill_sess.
Proof. unfold cldc_kill_sess. solve_heard. Qed.

End hears.

(** ** Calls *)

Section calls.
Context {XL : XdrLib} {XC : XdrCli} {HL : HmacLib} (copts : option Z).

Abbreviation calls := (is_heard (Calls copts)).

(** The callback a message is made with. *)
Definition made_with (m : C (option cldc_msg)) : Prop :=
  forall c, cw True m (fun r _ => forall msg, r = Some msg -> co_cb (m_copts msg) = copts) c.

Lemma new_msg_made op req cb priv : made_with (cldc_new_msg copts op req cb priv).
Proof.
  intros c. apply cw_any. intros r c' H msg ->. unfold cldc_new_msg in H.
  destruct (xdr_req_enc req); [|by inversion H]. unfold mbind, C_bind, c_malloc_ok, c_rand64, c_get, mret, C_ret in H.
  repeat case_match; simplify_eq/=; done.
Qed.

Lemma calls_sess_send msg : co_cb (m_copts msg) = copts -> calls (sess_send msg).
Proof.
  intros E. unfold sess_send. apply is_heard_bind; [auto with cld|]. intros x. apply is_heard_bind; [auto with cld|].
  intros [l|e]; [|auto with cld]. apply is_heard_bind; [auto with cld|]. intros p. intros c.
  apply cw_bind, cw_modify, cw_bind, cw_upd_sess; [done|]. intros x' _. apply cw_ret. split; [|..|done].
  - exists []. cbn. rewrite app_nil_r. split; [done|]. intros q cb code H. by apply elem_of_nil in H.
  - intros q cb. unfold msg_cb_of. cbn. destruct (decide (q = p)) as [->|Hn]; [|rewrite lookup_insert_ne by done; auto].
    rewrite lookup_insert_eq. cbn. intros [= <-]. right. unfold may_add. cbn. by rewrite E.
Qed.

(** Build a message, then go on with it. *)
Lemma calls_made {A} (m : C (option cldc_msg)) (k : option cldc_msg -> C A) :
  calls m -> made_with m -> calls (k None) -> (forall msg, co_cb (m_copts msg) = copts -> calls (k (Some msg))) ->
  calls (m ≫= k).
Proof.
  intros Hm Hw Hn Hs c. apply cw_bind. specialize (Hm c). specialize (Hw c). unfold cw in Hm, Hw |- * at 1.
  destruct (m c) as [[[msg|] c1]|]; [| |done].
  - eapply cw_mono; [by apply Hs, Hw|]. cbn. intros a c' H. by etrans.
  - eapply cw_mono; [apply Hn|]. cbn. intros a c' H. by etrans.
Qed.

Lemma calls_call op req cb priv : calls (cldc_call copts op req cb priv).
Proof. unfold cldc_call. apply calls_made; auto using new_msg_made, calls_sess_send with cld. Qed.

Lemma calls_del path : calls (cldc_del copts path).
Proof. pose proof calls_call. unfold cldc_del. solve_heard. Qed.

Lemma calls_open path mode events : calls (cldc_open copts path mode events).
Proof.
  unfold cldc_open. apply is_heard_bind; [auto with cld|]. intros x. do 2 (case_match; [auto with cld|]).
  apply calls_made; [auto with cld|apply new_msg_made|auto with cld|]. intros msg E.
  solve_heard. by apply calls_sess_send.
Qed.

Lemma calls_close fp : calls (cldc_close fp copts).
Proof.
  unfold cldc_close. apply is_heard_bind; [auto with cld|]. intros f. case_match; [auto with cld|].
  apply is_heard_bind; [auto with cld|]. intros x. case_match; [solve_heard|].
  apply calls_made; [auto with cld|apply new_msg_made|auto with cld|]. intros msg E. solve_heard. by apply calls_sess_send.
Qed.

Lemma calls_lock fp flags wait : calls (cldc_lock fp copts flags wait).
Proof. pose proof calls_call. unfold cldc_lock. solve_heard. Qed.

Lemma calls_unlock fp : calls (cldc_unlock fp copts).
Proof. pose proof calls_call. unfold cldc_unlock. solve_heard. Qed.

Lemma calls_get fp meta : calls (cldc_get fp copts meta).
Proof. pose proof calls_call. unfold cldc_get. solve_heard. Qed.

Lemma calls_put fp data : calls (cldc_put fp copts data).
Proof.
  unfold cldc_put. destruct data as [[|d data]|]; [auto with cld| |auto with cld]. case_match; [auto with cld|].
  apply is_heard_bind; [auto with cld|]. intros f. case_match; [auto with cld|].
  apply calls_made; [auto with cld|apply new_msg_made|auto with cld|]. intros msg E.
  apply is_heard_bind; [by apply calls_sess_send|auto with cld].
Qed.

Lemma calls_new_sess addr user key : calls (cldc_new_sess copts addr user key).
Proof.
  unfold cldc_new_sess. case_match; [auto with cld|]. destruct user as [[|u0 user]|], key as [[|k0 key]|]; auto with cld.
  do 2 (case_match; [auto with cld|]). do 3 (apply is_heard_bind; [auto with cld|]; intros ?; try (case_match; [by auto with cld|])).
  apply is_heard_bind; [by apply is_heard_modify|]. intros _.
  apply calls_made; [auto with cld|apply new_msg_made|solve_heard|]. intros msg E. solve_heard. by apply calls_sess_send.
Qed.

End calls.

(** ** How many messages a call adds *)

Definition no_msgs (c c' : cli) : Prop := c_msgs c' = c_msgs c /\ (c_next c <= c_next c')%nat.
Definition is_no_msgs {A} (m : C A) : Prop := forall c, cw True m (fun _ c' => no_msgs c c') c.

(** A failed call adds none, a successful one at most one, unfinished and with
    its callback. *)
Definition adds (copts : option Z) (c : cli) (rc : Z) (c' : cli) : Prop :=
  c_msgs c' = c_msgs c \/
  rc = 0 /\ exists p m, (c_next c <= p)%nat /\ c_msgs c' = <[p := m]> (c_msgs c) /\
    co_cb (m_copts m) = copts /\ m_done m = false.

Section adds.
Context {XL : XdrLib} {XC : XdrCli} {HL : HmacLib} (copts : option Z).

Lemma no_msgs_then {A B} (m : C A) (k : A -> C B) (Q : cli -> B -> cli -> Prop) c :
  is_no_msgs m -> (forall a c1, no_msgs c c1 -> cw True (k a) (fun b c2 => no_msgs c c1 -> Q c b c2) c1) ->
  cw True (m ≫= k) (fun b c2 => Q c b c2) c.
Proof.
  intros Hm Hk. apply cw_bind. eapply cw_mono; [apply Hm|]. cbn. intros a c1 H1.
  eapply cw_mono; [by apply Hk|]. cbn. auto.
Qed.

Lemma is_no_msgs_bind {A B} (m : C A) (k : A -> C B) :
  is_no_msgs m -> (forall a, is_no_msgs (k a)) -> is_no_msgs (m ≫= k).
Proof.
  intros Hm Hk c. apply (no_msgs_then _ _ (fun c _ c' => no_msgs c c')); [done|]. intros a c1 [E1 N1].
  eapply cw_mono; [apply Hk|]. cbn. intros b c2 [E2 N2] _. split; [congruence|lia].
Qed.

Lemma is_no_msgs_still {A} (m : C A) : (forall c, cw True m (fun _ c' => c_msgs c' = c_msgs c /\ c_next c' = c_next c) c) -> is_no_msgs m.
Proof. intros H c. eapply cw_mono; [apply H|]. cbn. intros a c' [E N]. split; [done|lia]. Qed.

Lemma is_no_msgs_get_sess : is_no_msgs c_get_sess.
Proof. apply is_no_msgs_still. intros c. by apply cw_get_sess. Qed.
Lemma is_no_msgs_get_fh p : is_no_msgs (get_fh p).
Proof. apply is_no_msgs_still. intros c. by apply cw_get_fh. Qed.
Lemma is_no_msgs_upd_sess f : is_no_msgs (c_upd_sess f).
Proof. apply is_no_msgs_still. intros c. by apply cw_upd_sess. Qed.
Lemma is_no_msgs_nondet : is_no_msgs c_nondet.
Proof. apply is_no_msgs_still. intros c. by apply cw_nondet. Qed.
Lemma is_no_msgs_ret {A} (a : A) : is_no_msgs (mret a).
Proof. apply is_no_msgs_still. intros c. by apply cw_ret. Qed.
Lemma is_no_msgs_ub {A} : is_no_msgs (@ub A).
Proof. intros c. by apply cw_ub. Qed.
Lemma is_no_msgs_get : is_no_msgs c_get.
Proof. apply is_no_msgs_still. intros c. by apply cw_get. Qed.
Lemma is_no_msgs_emit e : is_no_msgs (emit e).
Proof. apply is_no_msgs_still. intros c. by apply cw_modify. Qed.
Lemma is_no_msgs_fresh : is_no_msgs c_fresh.
Proof. intros c. unfold cw, c_fresh. split; [done|cbn; lia]. Qed.
Lemma is_no_msgs_store_fh p f : is_no_msgs (store_fh p f).
Proof. apply is_no_msgs_still. intros c. by apply cw_modify. Qed.

#[local] Hint Resolve is_no_msgs_get_sess is_no_msgs_get_fh is_no_msgs_upd_sess is_no_msgs_nondet is_no_msgs_ret is_no_msgs_ub
  is_no_msgs_get is_no_msgs_emit is_no_msgs_fresh is_no_msgs_store_fh : cld.

Ltac solve_no_msgs :=
  repeat match goal with
  | |- forall _, _ => intros ?
  | |- is_no_msgs (_ ≫= _) => apply is_no_msgs_bind
  | |- is_no_msgs (match ?x with _ => _ end) => destruct x
  | |- is_no_msgs (let '(_, _) := ?x in _) => destruct x
  end; auto with cld.

Lemma is_no_msgs_new_msg op req cb priv : is_no_msgs (cldc_new_msg copts op req cb priv).
Proof.
  assert (is_no_msgs c_malloc_ok) by (unfold c_malloc_ok; solve_no_msgs).
  assert (is_no_msgs c_rand64) by (unfold c_rand64; solve_no_msgs).
  assert (forall n xid o first body, is_no_msgs (new_msg_pkts n xid o first body)).
  { intros n. induction n as [|n IH]; intros; cbn [new_msg_pkts]; solve_no_msgs. }
  unfold cldc_new_msg. solve_no_msgs.
Qed.

Lemma is_no_msgs_send_all key l : is_no_msgs (send_all key l).
Proof.
  assert (forall pi, is_no_msgs (send_one key pi)).
  { intros pi. unfold send_one, sess_next_seqid, sess_send_pkt. solve_no_msgs. }
  induction l as [|[pi|] l IH]; cbn [send_all]; solve_no_msgs.
Qed.

Lemma adds_after c c1 rc c2 : no_msgs c c1 -> adds copts c1 rc c2 -> adds copts c rc c2.
Proof.
  intros [E N] [H|(Hr & p & m & Hp & H & Hc & Hd)]; [left; congruence|right]. rewrite E in H.
  split; [done|]. exists p, m. split_and!; [lia|done..].
Qed.

Definition is_adds (m : C Z) : Prop := forall c, cw True m (fun rc c' => adds copts c rc c') c.

Lemma is_adds_bind {A} (m : C A) (k : A -> C Z) : is_no_msgs m -> (forall a, is_adds (k a)) -> is_adds (m ≫= k).
Proof.
  intros Hm Hk c. apply cw_bind. eapply cw_mono; [apply Hm|]. cbn. intros a c1 H1.
  eapply cw_mono; [apply Hk|]. cbn. intros rc c2. by apply adds_after.
Qed.

Lemma is_adds_none (m : C Z) : is_no_msgs m -> is_adds m.
Proof. intros H c. eapply cw_mono; [apply H|]. cbn. intros rc c' [E _]. by left. Qed.

Lemma is_adds_ret rc : is_adds (mret rc).
Proof. apply is_adds_none; auto with cld. Qed.

Lemma adds_sess_send msg : co_cb (m_copts msg) = copts -> m_done msg = false -> is_adds (sess_send msg).
Proof.
  intros E D. unfold sess_send. apply is_adds_bind; [auto with cld|]. intros x.
  apply is_adds_bind; [apply is_no_msgs_send_all|]. intros [l|e]; [|apply is_adds_ret]. intros c.
  apply cw_bind. unfold cw at 1, c_fresh. apply cw_bind, cw_modify, cw_bind, cw_upd_sess; [done|]. intros x' _.
  apply cw_ret. right. split; [done|]. exists (c_next c), (set_pkt_info l msg). done.
Qed.

(** Build a message, then go on with it. *)
Lemma adds_made op req cb priv (k : option cldc_msg -> C Z) :
  is_adds (k None) -> (forall msg, co_cb (m_copts msg) = copts -> m_done msg = false -> is_adds (k (Some msg))) ->
  is_adds (cldc_new_msg copts op req cb priv ≫= k).
Proof.
  intros Hn Hs c. apply cw_bind. pose proof (is_no_msgs_new_msg op req cb priv c) as H1.
  pose proof (new_msg_shape copts op req cb priv c) as H2. unfold cw in H1, H2 |- * at 1.
  destruct (cldc_new_msg copts op req cb priv c) as [[[msg|] c1]|]; [| |done].
  - destruct (H2 msg eq_refl) as (_ & _ & Hd & _ & Hc & _). eapply cw_mono; [by apply Hs|]. cbn. intros a c'. by apply adds_after.
  - eapply cw_mono; [apply Hn|]. cbn. intros a c'. by apply adds_after.
Qed.

Lemma adds_call op req cb priv : is_adds (cldc_call copts op req cb priv).
Proof. unfold cldc_call. apply adds_made; auto using is_adds_ret, adds_sess_send. Qed.

Ltac solve_adds :=
  repeat match goal with
  | |- forall _, _ => intros ?
  | |- is_adds (_ ≫= _) => apply is_adds_bind
  | |- is_adds (match ?x with _ => _ end) => destruct x
  end; auto using is_adds_ret, adds_call with cld.

Lemma adds_del path : is_adds (cldc_del copts path).
Proof. unfold cldc_del. solve_adds. Qed.
Lemma adds_lock fp flags wait : is_adds (cldc_lock fp copts flags wait).
Proof. unfold cldc_lock. solve_adds. Qed.
Lemma adds_unlock fp : is_adds (cldc_unlock fp copts).
Proof. unfold cldc_unlock. solve_adds. Qed.
Lemma adds_get fp meta : is_adds (cldc_get fp copts meta).
Proof. unfold cldc_get. solve_adds. Qed.

Lemma adds_close fp : is_adds (cldc_close fp copts).
Proof.
  unfold cldc_close. apply is_adds_bind; [auto with cld|]. intros f. case_match; [apply is_adds_ret|].
  apply is_adds_bind; [auto with cld|]. intros x. case_match; [solve_adds|].
  apply adds_made; [apply is_adds_ret|]. intros msg E D. apply is_adds_bind; [auto with cld|]. intros _. by apply adds_sess_send.
Qed.

(** The one call that drops the result of sending. *)
Lemma adds_put fp data : is_adds (cldc_put fp copts data).
Proof.
  unfold cldc_put. destruct data as [[|d data]|]; [apply is_adds_ret| |apply is_adds_ret]. case_match; [apply is_adds_ret|].
  apply is_adds_bind; [auto with cld|]. intros f. case_match; [apply is_adds_ret|].
  apply adds_made; [apply is_adds_ret|]. intros msg E D c. apply cw_bind.
  eapply cw_mono; [by apply adds_sess_send|]. cbn. intros rc c1 [Ha|(_ & Ha)]; apply cw_ret; [by left|by right].
Qed.

Lemma adds_open path mode events : is_adds (r ← cldc_open copts path mode events; mret r.1).
Proof.
  assert (is_no_msgs c_malloc_ok) by (unfold c_malloc_ok; solve_no_msgs).
  unfold cldc_open. intros c. apply cw_bind, cw_bind, cw_get_sess; [done|]. intros x _.
  do 2 (case_match; [apply cw_ret, cw_ret; by left|]). apply cw_bind.
  pose proof (is_no_msgs_new_msg CMO_OPEN (ReqOpen (mkOpen mode events path)) open_end_cb None c) as H1'.
  pose proof (new_msg_shape copts CMO_OPEN (ReqOpen (mkOpen mode events path)) open_end_cb None c) as H2'.
  unfold cw in H1', H2' |- * at 1. destruct (cldc_new_msg _ _ _ _ _ _) as [[[msg|] c1]|]; [| |done].
  2:{ apply cw_ret, cw_ret. left. apply H1'. }
  destruct (H2' msg eq_refl) as (_ & _ & Hd & _ & Hc & _).
  assert (is_adds (ok ← c_malloc_ok; if negb ok then mret (- ENOMEM) else fp ← c_fresh; _ ← store_fh fp (mkFh 0 false);
    _ ← c_upd_sess (fun s => cs_lists (cs_cfh s ++ [fp]) (cs_out_msg s) s);
    sess_send (mkMsg (m_xid msg) (m_op msg) (m_cb msg) (Some fp) (m_copts msg) (m_done msg) (m_expire_time msg) (m_pkt_info msg)))) as Hk.
  { solve_adds. by apply adds_sess_send. }
  specialize (Hk c1). unfold cw, mbind, C_bind, mret, C_ret in Hk |- *.
  destruct (c_malloc_ok c1) as [[[] c2]|]; cbn [negb] in *; [|by eapply adds_after|done].
  unfold c_fresh, store_fh, c_modify, c_upd_sess in *. cbn in *. destruct (c_sess c2); [|done].
  destruct (sess_send _ _) as [[rc c3]|]; [|done]. by eapply adds_after.
Qed.

End adds.

(** What receiving and timers complete: messages that were unfinished, and are
    finished or gone afterwards. *)
Lemma hears_completes {A} (m : C A) c a c' :
  is_heard Hears m -> is_lawful m -> bounded c -> m c = Some (a, c') ->
  exists l, c_trace c' = c_trace c ++ l /\
    (forall p cb code, Complete p cb code ∈ l -> exists msg, c_msgs c !! p = Some msg /\ co_cb (m_copts msg) = Some cb /\
       m_done msg = false /\ mstate c' p <> Some false) /\
    (forall p msg', c_msgs c' !! p = Some msg' -> m_done msg' = false ->
       exists msg, c_msgs c !! p = Some msg /\ m_done msg = false /\ co_cb (m_copts msg') = co_cb (m_copts msg)).
Proof.
  intros Hh Hl B E. specialize (Hh c). specialize (Hl c). unfold cw in Hh, Hl. rewrite E in Hh, Hl.
  destruct Hh as [(l & Et & Ht) Hm _]. destruct (Hl B) as [N B' S Co]. exists l. split; [done|]. split.
  - intros p cb code Hin. destruct (Ht _ _ _ Hin) as [_ Hc]. unfold msg_cb_of in Hc.
    destruct (c_msgs c !! p) as [msg|] eqn:Em; [|done]. injection Hc as Hc. exists msg. split; [done|]. split; [done|].
    destruct (Co p) as [Eq|(_ & [Hs|Hs] & _ & Hn)].
    + exfalso. unfold ncomp in Eq. rewrite Et, filter_app, length_app in Eq.
      apply list_elem_of_split in Hin as (l1 & l2 & ->). rewrite filter_app, filter_cons_True in Eq by done.
      rewrite length_app in Eq. cbn in Eq. lia.
    + unfold mstate in Hs. rewrite Em in Hs. cbn in Hs. by injection Hs.
    + by rewrite (B p Hs) in Em.
  - intros p msg' Hp Hd. assert (msg_cb_of c' p = Some (co_cb (m_copts msg'))) as Hc by (unfold msg_cb_of; by rewrite Hp).
    destruct (Hm _ _ Hc) as [Hc'|Ha]; [|done]. unfold msg_cb_of in Hc'. destruct (c_msgs c !! p) as [msg|] eqn:Em; [|done].
    injection Hc' as Hc'. exists msg. split_and!; [done| |done].
    assert (mstate c' p = Some false) as Hs by (unfold mstate; rewrite Hp; cbn; by rewrite Hd).
    destruct (S _ _ Hs) as [(d & Hd' & Hi)|[Hn _]].
    + unfold mstate in Hd'. rewrite Em in Hd'. injection Hd' as Hd'. rewrite Hd'. destruct d; [by specialize (Hi eq_refl)|done].
    + unfold mstate in Hn. by rewrite Em in Hn.
Qed.
