(* ===== verification/CldcWire.v ===== *)
(** * CldcWire: client and server together

    What one side sends, the other side takes in: the packets of a client's
    request make the server run the handler of that request with the client's
    arguments; the packets of a response put the response into the client's
    buffer and complete the call; the acknowledgement takes the response off
    the server's queue. *)

From S2P Require Import Prelude Htab Dirent Wire Bdb Srv Cldb Outq Msg Session Server.
From S2P Require Import Logic OutqSpec ServerSpec Cldc CldcLogic CldcSys CldcWf.
#[local] Open Scope Z_scope.

(** ** The packets of a message, by their headers *)

Section frags.
Context {XL : XdrLib} {HL : HmacLib}.
Variables (hdr : bool -> bool -> cld_pkt_hdr) (key : option bytes).

Definition pkt_of (hb chunk : bytes) (seq : Z) (sha : bytes) : bytes := hb ++ chunk ++ le_bytes 8 seq ++ sha.

Inductive frags : bool -> Z -> bytes -> list bytes -> Prop :=
| frags_last first seq mb hb sha :
    Z.of_nat (length mb) <= CLD_MAX_PKT_MSG_SZ -> xdr_hdr_enc (hdr first true) = Some hb ->
    cld_authsign key (hb ++ mb ++ le_bytes 8 seq) = (0, sha) ->
    frags first seq mb [pkt_of hb mb seq sha]
| frags_more first seq chunk rest hb sha ps :
    Z.of_nat (length chunk) = CLD_MAX_PKT_MSG_SZ -> rest <> [] -> xdr_hdr_enc (hdr first false) = Some hb ->
    cld_authsign key (hb ++ chunk ++ le_bytes 8 seq) = (0, sha) ->
    frags false (u64 (seq + 1)) rest ps ->
    frags first seq (chunk ++ rest) (pkt_of hb chunk seq sha :: ps).

End frags.

Lemma frags_later `{XdrLib, HmacLib} (hdr hdr' : bool -> bool -> cld_pkt_hdr) (key : option bytes) seq mb ps :
  (forall l, hdr false l = hdr' false l) -> frags hdr key false seq mb ps -> frags hdr' key false seq mb ps.
Proof.
  intros Hh Hf. remember false as first eqn:Ef. induction Hf; subst.
  - econstructor; [done|by rewrite <- Hh|done].
  - econstructor; [done|done|by rewrite <- Hh|done|auto].
Qed.

(** The server's packets, with the transaction id of the first made explicit. *)
Lemma packets_frags `{XdrLib, HmacLib} (x : session) (op : Z) (key : option bytes) first seq mb ps :
  packets x op key first seq mb ps -> exists xid, 0 <= xid < 2 ^ 64 /\
    frags (fun f l => outpkt_hdr x f l xid op) key first seq mb ps.
Proof.
  induction 1 as [first seq mb xid hb sha Hl Hx He Ha|first seq chunk rest xid hb sha ps Hl Hr Hx He Ha Hp [xid' [Hx' IH]]].
  - exists xid. split; [done|]. by constructor.
  - exists xid. split; [done|]. econstructor; try done. by eapply frags_later; [|exact IH].
Qed.

Section client_sends.
Context {XL : XdrLib} {XC : XdrCli} {HL : HmacLib}.

(** Nothing fails. *)
Definition clucky (c : cli) : Prop := forall i, 0 < c_oracle c i.

(** The packets of a message before they are numbered and signed. *)
Inductive blank (hdr : bool -> bool -> cld_pkt_hdr) : bool -> bytes -> list cldc_pkt_info -> Prop :=
| blank_last first mb hb pi :
    Z.of_nat (length mb) <= CLD_MAX_PKT_MSG_SZ -> xdr_hdr_enc (hdr first true) = Some hb ->
    pi_data pi = hb ++ mb ++ replicate 28 0 -> blank hdr first mb [pi]
| blank_more first chunk rest hb pi l :
    Z.of_nat (length chunk) = CLD_MAX_PKT_MSG_SZ -> rest <> [] -> xdr_hdr_enc (hdr first false) = Some hb ->
    pi_data pi = hb ++ chunk ++ replicate 28 0 -> blank hdr false rest l ->
    blank hdr first (chunk ++ rest) (pi :: l).

Lemma n_pkts_one (n : nat) : (n <= 1024)%nat -> n_pkts n = 1%nat.
Proof.
  intros Hn. unfold n_pkts. destruct (Nat.eqb_spec n 0); [done|].
  symmetry. apply (Nat.div_unique _ _ 1 (n - 1)); lia.
Qed.

Lemma n_pkts_more (n : nat) : (1024 < n)%nat -> n_pkts n = S (n_pkts (n - 1024)).
Proof.
  intros Hn. unfold n_pkts. rewrite (proj2 (Nat.eqb_neq n 0)), (proj2 (Nat.eqb_neq (n - 1024) 0)) by lia.
  replace (n + 1024 - 1)%nat with ((n - 1024 + 1024 - 1) + 1 * 1024)%nat by lia.
  rewrite Nat.div_add by lia. lia.
Qed.

Lemma n_pkts_pos (n : nat) : exists k, n_pkts n = S k.
Proof.
  destruct (Nat.le_gt_cases n 1024); [exists 0%nat; by apply n_pkts_one|].
  eexists. by apply n_pkts_more.
Qed.

Lemma new_msg_pkts_spec (k : nat) (xid op : Z) (first : bool) (body : bytes) c x :
  c_sess c = Some x -> clucky c -> k = n_pkts (length body) ->
  (forall f l, is_Some (xdr_hdr_enc (msg_pkt_hdr x f l xid op))) ->
  cw False (new_msg_pkts k xid op first body) (fun o c' => still c c' /\ c_trace c' = c_trace c /\
    exists l, o = Some l /\ blank (fun f l => msg_pkt_hdr x f l xid op) first body l) c.
Proof.
  intros Hx HL' Hk Henc. revert first body c Hx HL' Hk. induction k as [|k IH]; intros first body c Hx HL' Hk.
  { destruct (n_pkts_pos (length body)) as [j E]. congruence. }
  cbn [new_msg_pkts]. apply cw_bind, cw_get_sess; [by rewrite Hx|]. intros ? E. rewrite Hx in E. injection E as <-.
  apply cw_bind. unfold c_malloc_ok. apply cw_bind, cw_nondet, cw_ret. pose proof (HL' (c_oracle_i c)).
  rewrite (proj2 (Z.eqb_neq _ 0)) by lia. cbn [negb]. set (c1 := set_c_oracle_i _ c).
  assert (still c c1) as S1 by (split; try done; exists []; by rewrite app_nil_r).
  set (n := length body) in *. destruct (Nat.le_gt_cases n 1024) as [Hn|Hn].
  - rewrite n_pkts_one in Hk by done. injection Hk as ->.
    destruct (Henc first true) as [hb Ehb]. cbn [Nat.eqb]. rewrite Ehb.
    apply cw_bind. cbn [new_msg_pkts]. apply cw_ret, cw_ret. split; [done|]. split; [done|].
    eexists. split; [done|]. econstructor; [unfold CLD_MAX_PKT_MSG_SZ, n in *; lia|exact Ehb|]. cbn.
    rewrite take_ge by (unfold CLD_MAX_PKT_MSG_SZ, n in *; lia). done.
  - rewrite n_pkts_more in Hk by done. injection Hk as ->.
    destruct (n_pkts_pos (n - 1024)) as [j Ej]. rewrite Ej. cbn [Nat.eqb]. rewrite <- Ej.
    destruct (Henc first false) as [hb Ehb]. rewrite Ehb. fold n.
    replace (Nat.min n (Z.to_nat CLD_MAX_PKT_MSG_SZ)) with 1024%nat by (unfold CLD_MAX_PKT_MSG_SZ; lia).
    apply cw_bind. eapply cw_mono; [apply (IH false (drop 1024 body) c1)|].
    + done.
    + intros i. apply HL'.
    + rewrite length_drop. done.
    + cbn. intros o c2 (S2 & T2 & l & -> & Hb). apply cw_ret. split; [by etrans|]. split; [done|].
      eexists. split; [done|]. rewrite <- (take_drop 1024 body) at 1. eapply blank_more; [| |exact Ehb|done|exact Hb].
      * rewrite length_take. unfold CLD_MAX_PKT_MSG_SZ, n in *. lia.
      * intros E. apply (f_equal length) in E. rewrite length_drop in E. unfold n in *. cbn in E. lia.
Qed.

Definition with_seqid_out (n : Z) (x : cldc_session) : cldc_session :=
  cs_seqids (cs_next_seqid_in x) (cs_next_seqid_in_tr x) n x.

Lemma with_seqid_out_id x : with_seqid_out (cs_next_seqid_out x) x = x.
Proof. by destruct x. Qed.

(** The rest of the library's state. *)
Definition same_rest (c c' : cli) : Prop :=
  c_msgs c' = c_msgs c /\ c_fhs c' = c_fhs c /\ c_next c' = c_next c /\ c_now c' = c_now c /\ c_oracle c' = c_oracle c.

Lemma authsign_some (k0 : Z) (ks buf : bytes) :
  exists sha, cld_authsign (Some (k0 :: ks)) buf = (0, sha) /\ length sha = 20%nat.
Proof.
  unfold cld_authsign. rewrite HMAC_len. cbn. pose proof (HMAC_len (k0 :: ks) buf) as Hl.
  eexists; split; [done|]. unfold SHA_DIGEST_LENGTH in Hl. lia.
Qed.

Lemma send_one_spec (k0 : Z) (ks : bytes) pi hb chunk c x :
  c_sess c = Some x -> clucky c -> 0 <= cs_next_seqid_out x < 2 ^ 64 ->
  pi_data pi = hb ++ chunk ++ replicate 28 0 ->
  cw False (send_one (Some (k0 :: ks)) pi) (fun r c' => exists sha pi',
    let pkt := pkt_of hb chunk (cs_next_seqid_out x) sha in
    cld_authsign (Some (k0 :: ks)) (hb ++ chunk ++ le_bytes 8 (cs_next_seqid_out x)) = (0, sha) /\
    r = Ok pi' /\ pi_data pi' = pkt /\ c_trace c' = c_trace c ++ [Sent (cs_addr x) pkt] /\
    c_sess c' = Some (with_seqid_out (u64 (cs_next_seqid_out x + 1)) x) /\ same_rest c c') c.
Proof.
  intros Hx HL' Hs Hd. unfold send_one, sess_next_seqid. apply cw_bind, cw_bind, cw_get_sess; [by rewrite Hx|].
  intros ? E. rewrite Hx in E. injection E as <-. apply cw_bind, cw_upd_sess; [by rewrite Hx|].
  intros ? E. rewrite Hx in E. injection E as <-. apply cw_ret. fold (with_seqid_out (u64 (cs_next_seqid_out x + 1)) x).
  assert (u64 (cs_next_seqid_out x) = cs_next_seqid_out x) as Eu by (by apply uw_small). rewrite !Eu. clear Eu.
  assert (take (length (pi_data pi) - 28) (pi_data pi) = hb ++ chunk) as ->.
  { rewrite Hd, app_assoc, take_app_length'; [done|]. rewrite !length_app, length_replicate. lia. }
  destruct (authsign_some k0 ks (hb ++ chunk ++ le_bytes 8 (cs_next_seqid_out x))) as (sha & Es & _).
  rewrite <- app_assoc, Es. cbn [Z.eqb negb]. rewrite <- Es. apply cw_bind. unfold sess_send_pkt.
  apply cw_bind, cw_get_sess; [done|]. intros ? [= <-]. unfold emit. apply cw_bind, cw_modify, cw_nondet.
  cbn. rewrite (proj2 (Z.ltb_ge _ _)) by (pose proof (HL' (c_oracle_i c)); lia). apply cw_ret.
  exists sha. eexists. unfold pkt_of. rewrite <- !app_assoc. by split_and!.
Qed.

Lemma send_all_spec hdr (k0 : Z) (ks : bytes) first mb l :
  blank hdr first mb l -> forall c x, c_sess c = Some x -> clucky c -> 0 <= cs_next_seqid_out x < 2 ^ 64 ->
  cw False (send_all (Some (k0 :: ks)) (Some <$> l)) (fun r c' => exists l',
    r = Ok (Some <$> l') /\ frags hdr (Some (k0 :: ks)) first (cs_next_seqid_out x) mb (pi_data <$> l') /\
    c_trace c' = c_trace c ++ (Sent (cs_addr x) <$> (pi_data <$> l')) /\
    c_sess c' = Some (with_seqid_out (seq_after (cs_next_seqid_out x) (length l')) x) /\ same_rest c c') c.
Proof.
  induction 1 as [first mb hb pi Hl Hh Hd|first chunk rest hb pi l Hl Hr Hh Hd Hb IH]; intros c x Hx HL' Hs;
    cbn [fmap list_fmap send_all]; apply cw_bind;
    (eapply cw_mono; [by eapply (send_one_spec k0 ks pi hb _ c x)|]); cbn zeta;
    intros r c1 (sha & pi' & Es & -> & Hd' & Ht & Hx1 & R1); apply cw_bind.
  - apply cw_ret, cw_ret. exists [pi']. cbn. rewrite Hd'. split_and!; try done. by constructor.
  - assert (0 <= u64 (cs_next_seqid_out x + 1) < 2 ^ 64) by apply u64_bound.
    eapply cw_mono; [apply (IH c1 _ Hx1); [|done]|].
    + intros i. destruct R1 as (_ & _ & _ & _ & E). rewrite E. apply HL'.
    + cbn. intros r c2 (l' & -> & Hf & Ht2 & Hx2 & R2). apply cw_ret. exists (pi' :: l'). split; [done|].
      cbn. rewrite Hd'. split; [by econstructor|]. split; [by rewrite Ht2, Ht, <- app_assoc|].
      rewrite Hx2, seq_after_S. split; [done|].
      destruct R1 as (A1 & A2 & A3 & A4 & A5), R2 as (B1 & B2 & B3 & B4 & B5). split_and!; congruence.
Qed.

(** The session can sign and its headers can be encoded. *)
Record can_call (x : cldc_session) : Prop := {
  cc_creds : creds_ok x;
  cc_sid : 0 <= cs_sid x < 2 ^ 64;
  cc_user : Forall (fun b => 0 < b < 256) (cs_user x);
  cc_seq : 0 <= cs_next_seqid_out x < 2 ^ 64 }.

Lemma can_call_key x : creds_ok x -> exists k0 ks, cldc_user_key x (cs_user x) = Some (k0 :: ks) /\ cs_secret_key x = k0 :: ks.
Proof.
  intros [Hu Hk]. unfold cldc_user_key.
  rewrite (proj2 (Nat.eqb_neq _ 0)), (proj2 (Nat.leb_gt _ _)), bool_decide_true by (done || lia). cbn.
  destruct (cs_secret_key x) as [|k0 ks]; [cbn in Hk; lia|eauto].
Qed.

Lemma msg_pkt_hdr_ok x f l xid op :
  can_call x -> 0 <= xid < 2 ^ 64 -> 0 <= op < 2 ^ 31 -> hdr_ok (msg_pkt_hdr x f l xid op).
Proof.
  intros [[Hu _] Hs Hb _] Hx Ho. unfold hdr_ok. cbn [ph_magic ph_sid ph_user ph_mi msg_pkt_hdr].
  split; [split; vm_compute; congruence|]. split; [done|]. split; [unfold CLD_MAX_USERNAME; lia|]. split; [done|].
  destruct f, l; cbn [pkt_infos mi_xid mi_op]; lia.
Qed.

(** A call is queued as message [m] at [p]; the network got the packets [ps]
    of its body. *)
Record issued (c c' : cli) (x : cldc_session) (copts : option Z) (op : Z) (body : bytes)
    (p : nat) (m : cldc_msg) (ps : list bytes) : Prop := {
  is_fresh : c_msgs c !! p = None;
  is_msg : c_msgs c' !! p = Some m;
  is_queued : exists x', c_sess c' = Some x' /\ p ∈ cs_out_msg x';
  is_xid : 0 <= m_xid m < 2 ^ 64;
  is_op : m_op m = op;
  is_pending : m_done m = false;
  is_copts : co_cb (m_copts m) = copts;
  is_pkts : frags (fun f l => msg_pkt_hdr x f l (m_xid m) op) (Some (cs_secret_key x)) true
              (cs_next_seqid_out x) body ps;
  is_trace : c_trace c' = c_trace c ++ (Sent (cs_addr x) <$> ps) }.

Lemma rand64_bound (a b : Z) : 0 <= a mod 2 ^ 31 + Z.shiftl (b mod 2 ^ 31) 32 < 2 ^ 64.
Proof.
  rewrite Z.shiftl_mul_pow2 by lia.
  pose proof (Z.mod_pos_bound a (2 ^ 31) ltac:(lia)). pose proof (Z.mod_pos_bound b (2 ^ 31) ltac:(lia)). lia.
Qed.

Context {XO : XdrOk}.

Lemma new_msg_spec copts op req body cb priv c x :
  c_sess c = Some x -> clucky c -> can_call x -> 0 <= op < 2 ^ 31 -> xdr_req_enc req = Some body ->
  cw False (cldc_new_msg copts op req cb priv) (fun o c1 => still c c1 /\ c_trace c1 = c_trace c /\
    exists xid l, 0 <= xid < 2 ^ 64 /\ blank (fun f l => msg_pkt_hdr x f l xid op) true body l /\
      o = Some (mkMsg xid op cb priv (mkCopts copts zero_resp) false (c_now c + CLDC_MSG_EXPIRE) (Some <$> l))) c.
Proof.
  intros Hx HL' Hc Ho Hb. unfold cldc_new_msg. rewrite Hb. apply cw_bind.
  unfold c_malloc_ok. apply cw_bind, cw_nondet, cw_ret. pose proof (HL' (c_oracle_i c)).
  rewrite (proj2 (Z.eqb_neq _ 0)) by lia. cbn [negb]. apply cw_bind.
  unfold c_rand64. apply cw_bind, cw_nondet, cw_bind, cw_nondet, cw_ret. apply cw_bind, cw_get.
  set (xid := _ + _). assert (0 <= xid < 2 ^ 64) as Hxid by apply rand64_bound. clearbody xid.
  set (c1 := set_c_oracle_i _ _). apply cw_bind.
  eapply cw_mono; [apply (new_msg_pkts_spec _ xid op true body c1 x); try done|].
  { intros f l. destruct (xdr_hdr_rt _ (msg_pkt_hdr_ok x f l xid op Hc Hxid Ho)) as (b & E & _). by eexists. }
  cbn. intros o c2 (S2 & T2 & l & -> & Hbl). apply cw_ret. split; [|by eauto 10].
  etrans; [|exact S2]. split; try done. exists []. by rewrite app_nil_r.
Qed.

Lemma sess_send_spec m l body c x0 x :
  c_sess c = Some x -> clucky c -> can_call x -> (forall p, is_Some (c_msgs c !! p) -> (p < c_next c)%nat) ->
  0 <= m_xid m < 2 ^ 64 -> m_done m = false ->
  m_pkt_info m = Some <$> l -> blank (fun f l => msg_pkt_hdr x0 f l (m_xid m) (m_op m)) true body l ->
  cs_secret_key x = cs_secret_key x0 -> cs_next_seqid_out x = cs_next_seqid_out x0 -> cs_addr x = cs_addr x0 ->
  cw False (sess_send m) (fun r c' => r = 0 /\ exists p m' ps,
    issued c c' x0 (co_cb (m_copts m)) (m_op m) body p m' ps) c.
Proof.
  intros Hx HL' Hc Hnx Hxid Hd Hp Hb Ek0 Es0 Ea0. unfold sess_send. apply cw_bind, cw_get_sess; [by rewrite Hx|].
  intros ? E. rewrite Hx in E. injection E as <-.
  destruct (can_call_key x (cc_creds _ Hc)) as (k0 & ks & Ek & Esk). rewrite Ek, Hp. apply cw_bind.
  eapply cw_mono; [apply (send_all_spec _ k0 ks _ _ _ Hb c x); [done|done|apply Hc]|].
  cbn. intros r c1 (l' & -> & Hf & Ht & Hx1 & (R1 & R2 & R3 & R4 & R5)). apply cw_bind. unfold cw at 1, c_fresh.
  apply cw_bind, cw_modify. apply cw_bind, cw_upd_sess; cbn; rewrite Hx1; [done|]. intros ? [= <-]. apply cw_ret.
  split; [done|]. exists (c_next c1), (set_pkt_info (Some <$> l') m), (pi_data <$> l').
  split; cbn; try done.
  - apply eq_None_not_Some. intros Hs. specialize (Hnx _ Hs). lia.
  - by rewrite lookup_insert_eq.
  - eexists. split; [done|]. by left.
  - by rewrite <- Ek0, <- Es0, Esk.
  - by rewrite Ht, Ea0.
Qed.

Lemma still_lucky c c' : still c c' -> clucky c -> clucky c'.
Proof. intros S HL' i. rewrite (st_oracle _ _ S). apply HL'. Qed.

Lemma call_spec copts op req body cb priv c x :
  c_sess c = Some x -> clucky c -> can_call x -> (forall p, is_Some (c_msgs c !! p) -> (p < c_next c)%nat) ->
  0 <= op < 2 ^ 31 -> xdr_req_enc req = Some body ->
  cw False (cldc_call copts op req cb priv) (fun r c' => r = 0 /\ exists p m ps, issued c c' x copts op body p m ps) c.
Proof.
  intros Hx HL' Hc Hn Ho Hb. unfold cldc_call. apply cw_bind.
  eapply cw_mono; [by eapply (new_msg_spec copts op req body cb priv c x)|].
  cbn. intros o c1 (S1 & T1 & xid & l & Hxid & Hbl & ->).
  eapply cw_mono; [eapply (sess_send_spec _ l body c1 x x); try done|].
  - by rewrite (st_sess _ _ S1).
  - by eapply still_lucky.
  - intros p. rewrite (st_msgs _ _ S1), (st_next _ _ S1). apply Hn.
  - cbn. intros r c2 (-> & p & m & ps & [I1 I2 I3 I4 I5 I6 I7 I8 I9]). split; [done|]. exists p, m, ps. cbn in *.
    split; try done; [by rewrite <- (st_msgs _ _ S1)|by rewrite I9, T1].
Qed.

End client_sends.

(** ** XDR between the two sides *)

Definition str_ok (max : Z) (b : bytes) : Prop := Z.of_nat (length b) <= max /\ Forall (fun x => 0 < x < 256) b.
Definition u32_ok (z : Z) : Prop := 0 <= z < 2 ^ 32.
Definition u64_ok (z : Z) : Prop := 0 <= z < 2 ^ 64.

(** Requests the .x definition can carry. *)
Definition req_ok (r : msg_req) : Prop :=
  match r with
  | ReqVoid => True
  | ReqDel n => str_ok CLD_INODE_NAME_MAX n
  | ReqOpen o => u32_ok (mo_mode o) /\ u32_ok (mo_events o) /\ str_ok CLD_INODE_NAME_MAX (mo_inode_name o)
  | ReqClose fh | ReqUnlock fh | ReqGet fh => u64_ok fh
  | ReqLock l => u64_ok (ml_fh l) /\ u32_ok (ml_flags l)
  | ReqPut p => u64_ok (mp_fh p) /\ Z.of_nat (length (mp_data p)) <= CLD_MAX_PAYLOAD_SZ
  end.

(** What the server's decoder makes of the body. *)
Definition decodes `{XdrLib} (r : msg_req) (b : bytes) : Prop :=
  match r with
  | ReqVoid => b = []
  | ReqDel n => xdr_del_dec b = Some n
  | ReqOpen o => xdr_open_dec b = Some o
  | ReqClose fh => xdr_close_dec b = Some fh
  | ReqLock l => xdr_lock_dec b = Some l
  | ReqUnlock fh => xdr_unlock_dec b = Some fh
  | ReqPut p => xdr_put_dec b = Some p
  | ReqGet fh => xdr_get_dec b = Some fh
  end.

(** Responses it can carry. *)
Definition get_ok (r : cld_msg_get_resp) : Prop :=
  u64_ok (gr_xid_in r) /\ u64_ok (gr_inum r) /\ u64_ok (gr_vers r) /\ u64_ok (gr_time_create r) /\
  u64_ok (gr_time_modify r) /\ u32_ok (gr_flags r) /\ str_ok CLD_INODE_NAME_MAX (gr_inode_name r) /\
  Z.of_nat (length (gr_data r)) <= CLD_MAX_PAYLOAD_SZ.

Definition resp_of (r : cld_msg_get_resp) : get_resp :=
  mkCResp (cle_code (gr_code r)) (gr_xid_in r) (gr_inum r) (gr_vers r) (gr_time_create r) (gr_time_modify r)
    (gr_flags r) (Z.of_nat (length (gr_data r))).

(** RFC 4506 and rpcgen, for the messages of the two sides: a request that can
    be carried is encoded and decodes to itself; a header takes at most 68
    bytes (three [hyper]s, two or three words and the user name); every response starts with the
    generic one; a read response is decoded into the buffers given, data from
    the start of one, the name and its NUL from the start of the other, the
    rest of them untouched. *)
Class XdrCliOk {XL : XdrLib} {XC : XdrCli} : Prop := {
  xc_hdr_len (h : cld_pkt_hdr) (b : bytes) : hdr_ok h -> xdr_hdr_enc h = Some b -> Z.of_nat (length b) <= 68;
  xc_req (r : msg_req) : req_ok r ->
    exists b, xdr_req_enc r = Some b /\ Z.of_nat (length b) <= CLD_MAX_MSG_SZ /\ decodes r b;
  xc_generic (code : cle_err) (xid : Z) (b : bytes) :
    u64_ok xid -> xdr_msg_enc (MGenericResp code xid) = Some b -> xdr_generic_resp_dec b = Some (cle_code code, xid);
  xc_open_resp (code : cle_err) (xid fh : Z) (b : bytes) :
    u64_ok xid -> u64_ok fh -> xdr_msg_enc (MOpenResp code xid fh) = Some b ->
    xdr_generic_resp_dec b = Some (cle_code code, xid) /\ xdr_open_resp_dec b = Some fh;
  xc_get_resp (r : cld_msg_get_resp) (b payload name : bytes) :
    get_ok r -> xdr_msg_enc (MGetResp r) = Some b ->
    xdr_generic_resp_dec b = Some (cle_code (gr_code r), gr_xid_in r) /\
    xdr_get_resp_dec b payload name =
      (Some (resp_of r), gr_data r ++ drop (length (gr_data r)) payload,
       (gr_inode_name r ++ [0]) ++ drop (length (gr_inode_name r) + 1) name) }.

(** ** The server takes the client's packets in *)

Section deliver.
Context {D : Type} {BD : Bdb D} {XL : XdrLib} {XO : XdrOk} {HL : HmacLib}.
Implicit Types s : srv D.

(** Packets handed to the server one after the other; the outcome of the last. *)
Fixpoint deliver (cli : cli_info) (raws : list bytes) : M D (option rx_result) :=
  match raws with
  | [] => ret None
  | raw :: raws =>
      let! r := cli_rd_pkt cli raw in
      match raws with [] => ret r.1 | _ => deliver cli raws end
  end.

(** The server knows the session of user [user] at the client's address. *)
Record ready (cli : cli_info) (sid : Z) (user : bytes) (p : nat) s (y : session) : Prop := {
  rd_get : htab_get sess_hash sess_equal (sessions s) sid = Some p;
  rd_heap : heap s !! p = Some y;
  rd_alive : s_dead y = false;
  rd_user : s_user y = user;
  rd_len : s_addr_len y = cli_addr_len cli;
  rd_addr : take (Z.to_nat (s_addr_len y)) (s_addr y) = take (Z.to_nat (s_addr_len y)) (cli_addr cli);
  rd_master : is_master s = true;
  rd_up : db_up s = true }.

(** The session after a fragment. *)
Definition frag_sess (fd now : Z) (info : pkt_info) (chunk : bytes) (y : session) : session :=
  let y1 := set_sock_fd fd (set_last_contact (u64 now) y) in
  let y2 := if negb (pi_op info =? CMO_ACK) then set_seqid_in (u64 (s_next_seqid_in y1 + 1)) y1 else y1 in
  if flag (pkt_order (ph_mi (pi_pkt info))) CLD_PKT_IS_FIRST then set_msg (pi_op info) (pi_xid info) chunk y2
  else set_msg (s_msg_op y2) (s_msg_xid y2) (s_msg_buf y2 ++ chunk) y2.

Lemma alter_lookup (f : session -> session) (h : gmap nat session) p y :
  h !! p = Some y -> alter f p h = <[p := f y]> h.
Proof.
  intros Hy. apply map_eq. intros i. destruct (decide (p = i)) as [<-|Hi].
  - by rewrite lookup_alter_eq, lookup_insert_eq, Hy.
  - by rewrite lookup_alter_ne, lookup_insert_ne.
Qed.

Lemma rx_fragment_eq (fd : Z) (info : pkt_info) (hb chunk foot : bytes) (p : nat) s y :
  heap s !! p = Some y -> pi_hdr_len info = length hb -> length foot = 28%nat ->
  let have := if flag (pkt_order (ph_mi (pi_pkt info))) CLD_PKT_IS_FIRST then [] else s_msg_buf y in
  Z.of_nat (length (have ++ chunk)) <= CLD_MAX_MSG_SZ ->
  rx_fragment fd info (hb ++ chunk ++ foot) p s =
    (true, set_heap (<[p := frag_sess fd (current_time s) info chunk y]> (heap s)) s).
Proof.
  intros Hy Hh Hf have Hl. unfold rx_fragment, bind, get, upd_sess, modify, get_sess, ret, frag_sess.
  cbn [heap set_heap current_time]. rewrite (alter_lookup _ _ p y Hy), (alter_insert_eq _ p).
  assert (length (hb ++ chunk ++ foot) - length hb - 28 = length chunk)%nat as El by (rewrite !length_app; lia).
  set (y1 := set_sock_fd _ _). rewrite length_app in Hl.
  destruct (negb (pi_op info =? CMO_ACK)); cbn [heap set_heap];
    (destruct (flag _ _) eqn:Ef; subst have; cbn [heap set_heap]; rewrite ?(alter_insert_eq _ p);
     rewrite (lookup_total_insert_eq _ p), Hh, El, (proj2 (Z.ltb_ge _ _)) by (cbn in *; lia);
     cbn [heap set_heap]; rewrite !(alter_insert_eq _ p), drop_app_length, take_app_length; reflexivity).
Qed.

(** The signed part of a packet. *)
Lemma signed_part (hb chunk sha : bytes) (seq : Z) : length sha = 20%nat ->
  take (length (hb ++ chunk ++ le_bytes 8 seq ++ sha) - 20) (hb ++ chunk ++ le_bytes 8 seq ++ sha) =
    hb ++ chunk ++ le_bytes 8 seq.
Proof.
  intros Hs. replace (hb ++ chunk ++ le_bytes 8 seq ++ sha) with ((hb ++ chunk ++ le_bytes 8 seq) ++ sha)
    by by rewrite <- !app_assoc.
  apply take_app_length'. rewrite (length_app _ sha). lia.
Qed.

Lemma cli_rd_pkt_accept (cli : cli_info) (h : cld_pkt_hdr) (hb chunk sha : bytes) (seq : Z) (sid : Z) (user : bytes) p s y :
  hdr_ok h -> xdr_hdr_enc h = Some hb -> ph_magic h = le_val CLD_PKT_MAGIC -> ph_sid h = sid -> ph_user h = user ->
  ready cli sid user p s y ->
  cld_authsign (user_key (Some user)) (hb ++ chunk ++ le_bytes 8 seq) = (0, sha) ->
  let first := flag (pkt_order (ph_mi h)) CLD_PKT_IS_FIRST in
  let mi := if first then pkt_infos (ph_mi h) else mkInfos (s_msg_xid y) (s_msg_op y) in
  mi_op mi <> CMO_NEW_SESS ->
  let info := mkPktInfo h (Some p) (u64 seq) (mi_xid mi) (mi_op mi) (length hb) in
  cli_rd_pkt cli (pkt_of hb chunk seq sha) s =
    (let! r := tcp_rx (cli_fd cli) cli info (pkt_of hb chunk seq sha) in
     match r with
     | RxErr e => simple_sendresp (cli_fd cli) info e ;;; ret (Some r, false)
     | _ => ret (Some r, true)
     end) s.
Proof.
  intros Hh He Hm Hsid Huser R Ha first mi Hop info. unfold cli_rd_pkt, pkt_of.
  pose proof (authsign_check _ _ _ Ha) as [Hck Hs20].
  rewrite (parse_packet h hb chunk sha seq Hh He Hm Hs20). cbv zeta.
  assert (get_pkt_info h (hb ++ chunk ++ le_bytes 8 seq ++ sha) (length hb) s = (Some info, s)) as Ei.
  { unfold get_pkt_info, bind, sess_get, get_sess, ret. rewrite Hsid, (rd_get _ _ _ _ _ _ R).
    assert (foot_seqid (hb ++ chunk ++ le_bytes 8 seq ++ sha) = u64 seq) as ->.
    { rewrite app_assoc. by apply foot_seqid_app. }
    fold first. unfold info, mi. destruct first; [done|].
    by rewrite (lookup_total_correct _ _ _ (rd_heap _ _ _ _ _ _ R)). }
  unfold bind at 1. rewrite Ei.
  assert (validate_pkt_session info cli s = (CLE_OK, s)) as Ev.
  { unfold validate_pkt_session. cbn [pi_sess pi_op info]. rewrite (proj2 (Z.eqb_neq _ _)) by done.
    unfold bind, get_sess, ret. rewrite (lookup_total_correct _ _ _ (rd_heap _ _ _ _ _ _ R)).
    rewrite (rd_len _ _ _ _ _ _ R), Z.eqb_refl, <- (rd_len _ _ _ _ _ _ R), (rd_addr _ _ _ _ _ _ R).
    rewrite bool_decide_true by done. cbn. rewrite Huser, (rd_user _ _ _ _ _ _ R), bool_decide_true by done. cbn.
    by rewrite (rd_alive _ _ _ _ _ _ R). }
  unfold bind at 1. rewrite Ev. rewrite bool_decide_true by done. cbn [negb].
  assert (pkt_chk_sig (hb ++ chunk ++ le_bytes 8 seq ++ sha) h = CLE_OK) as ->.
  { unfold pkt_chk_sig. rewrite Huser, signed_part by done.
    rewrite (app_assoc hb chunk (_ ++ sha)), foot_sha_app, Hck by done. done. }
  rewrite bool_decide_true by done. cbn [negb]. unfold bind at 1, get at 1.
  by rewrite (rd_master _ _ _ _ _ _ R), (rd_up _ _ _ _ _ _ R).
Qed.

Lemma ready_frag cli sid user p s y fd info chunk :
  ready cli sid user p s y ->
  ready cli sid user p (set_heap (<[p := frag_sess fd (current_time s) info chunk y]> (heap s)) s)
    (frag_sess fd (current_time s) info chunk y).
Proof.
  intros [H1 H2 H3 H4 H5 H6 H7 H8]. unfold frag_sess.
  split; cbn; rewrite ?lookup_insert_eq; try done; repeat case_match; done.
Qed.

Lemma quiet_lookup s s' p y : quiet s s' -> heap s !! p = Some y -> exists y', heap s' !! p = Some y' /\ core y' = core y.
Proof.
  intros [Hc _] Hy. pose proof (ce_heap _ _ Hc) as Hh.
  assert (core <$> heap s' !! p = core <$> heap s !! p) as E by by rewrite <- !lookup_fmap, Hh.
  rewrite Hy in E. destruct (heap s' !! p) as [y'|]; [|done]. apply (inj Some) in E. eauto.
Qed.

Lemma ready_quiet cli sid user p s s' y y' :
  quiet s s' -> heap s' !! p = Some y' -> core y' = core y -> ready cli sid user p s y -> ready cli sid user p s' y'.
Proof.
  intros [Hc _] Hy' E [H1 H2 H3 H4 H5 H6 H7 H8].
  pose proof (f_equal s_dead E : s_dead y' = s_dead y). pose proof (f_equal s_user E : s_user y' = s_user y).
  pose proof (f_equal s_addr_len E : s_addr_len y' = s_addr_len y).
  pose proof (f_equal s_addr E : s_addr y' = s_addr y).
  split; [by rewrite (ce_sessions _ _ Hc)|done|congruence|congruence|congruence|congruence| |].
  - by rewrite (ce_master _ _ Hc).
  - by rewrite (ce_up _ _ Hc).
Qed.

(** Headers of the packets of one message. *)
Record hdr_like (hdr : bool -> bool -> cld_pkt_hdr) (sid : Z) (user : bytes) (xid op : Z) : Prop := {
  hk_ok f l : hdr_ok (hdr f l);
  hk_magic f l : ph_magic (hdr f l) = le_val CLD_PKT_MAGIC;
  hk_sid f l : ph_sid (hdr f l) = sid;
  hk_user f l : ph_user (hdr f l) = user;
  hk_first f l : flag (pkt_order (ph_mi (hdr f l))) CLD_PKT_IS_FIRST = f;
  hk_last f l : flag (pkt_order (ph_mi (hdr f l))) CLD_PKT_IS_LAST = l;
  hk_infos l : pkt_infos (ph_mi (hdr true l)) = mkInfos xid op }.

(** How [cli_rd_pkt] ends after dispatch. *)
Definition finish_rx (cli : cli_info) (info : pkt_info) (r : rx_result) : M D (option rx_result) :=
  match r with
  | RxErr e => simple_sendresp (cli_fd cli) info e ;;; ret (Some r)
  | _ => ret (Some r)
  end.

(** The state in which a handler runs: the whole message is in the buffer. *)
Record arrived (cli : cli_info) (sid : Z) (user : bytes) (p : nat) (op xid : Z) (mb : bytes) s s1 (y1 : session)
    (info : pkt_info) : Prop := {
  ar_ready : ready cli sid user p s1 y1;
  ar_buf : s_msg_buf y1 = mb;
  ar_op : s_msg_op y1 = op;
  ar_xid : s_msg_xid y1 = xid;
  ar_db : db s1 = db s;
  ar_sess : pi_sess info = Some p;
  ar_pop : pi_op info = op;
  ar_pxid : pi_xid info = xid }.

(** One packet of the message: the fragment is in the buffer, and what follows. *)
Lemma frag_taken (cli : cli_info) hdr (sid : Z) (user : bytes) (xid op : Z) (p : nat) first lst seq chunk hb sha s y :
  hdr_like hdr sid user xid op -> op <> CMO_NEW_SESS -> xdr_hdr_enc (hdr first lst) = Some hb ->
  cld_authsign (user_key (Some user)) (hb ++ chunk ++ le_bytes 8 seq) = (0, sha) -> ready cli sid user p s y ->
  (first = false -> s_msg_op y = op /\ s_msg_xid y = xid) ->
  let have := if first then [] else s_msg_buf y in
  Z.of_nat (length (have ++ chunk)) <= CLD_MAX_MSG_SZ ->
  exists s1 y1 info, arrived cli sid user p op xid (have ++ chunk) s s1 y1 info /\
    pi_pkt info = hdr first lst /\ pi_seqid info = u64 seq /\
    cli_rd_pkt cli (pkt_of hb chunk seq sha) s =
      (let! r := (if negb lst then
                    simple_sendmsg (D := D) (cli_fd cli) (ph_sid (hdr first lst)) (ph_user (hdr first lst)) 0xdeadbeef
                      (MAckFrag (u64 seq)) CMO_ACK_FRAG ;;; ret RxOk
                  else rx_dispatch (cli_fd cli) cli info) in
       match r with
       | RxErr e => simple_sendresp (cli_fd cli) info e ;;; ret (Some r, false)
       | _ => ret (Some r, true)
       end) s1.
Proof.
  intros K Hop He Ha R Hy have Hlen.
  pose proof (cli_rd_pkt_accept cli (hdr first lst) hb chunk sha seq sid user p s y (hk_ok _ _ _ _ _ K _ _) He
    (hk_magic _ _ _ _ _ K _ _) (hk_sid _ _ _ _ _ K _ _) (hk_user _ _ _ _ _ K _ _) R Ha) as Hacc.
  cbv zeta in Hacc. rewrite (hk_first _ _ _ _ _ K) in Hacc.
  assert ((if first then pkt_infos (ph_mi (hdr first lst)) else mkInfos (s_msg_xid y) (s_msg_op y)) = mkInfos xid op) as E.
  { destruct first; [by rewrite (hk_infos _ _ _ _ _ K)|]. by destruct (Hy eq_refl) as [-> ->]. }
  rewrite E in Hacc. cbn [mi_op mi_xid] in Hacc. specialize (Hacc Hop).
  set (info := mkPktInfo (hdr first lst) (Some p) (u64 seq) xid op (length hb)) in *.
  set (y1 := frag_sess (cli_fd cli) (current_time s) info chunk y). set (s1 := set_heap (<[p := y1]> (heap s)) s).
  assert (flag (pkt_order (ph_mi (pi_pkt info))) CLD_PKT_IS_FIRST = first) as Ef by apply (hk_first _ _ _ _ _ K).
  exists s1, y1, info. split; [|split; [done|split; [done|]]].
  - split; try done; [by apply ready_frag|..]; unfold y1, frag_sess; rewrite Ef; subst have; destruct first;
      try destruct (Hy eq_refl) as [? ?]; case_match; cbn; congruence || done.
  - rewrite Hacc. unfold tcp_rx. cbn [pi_sess pi_pkt pi_seqid info]. pose proof (authsign_check _ _ _ Ha) as [_ Hs20]. unfold pkt_of.
    assert (rx_fragment (cli_fd cli) info (hb ++ chunk ++ le_bytes 8 seq ++ sha) p s = (true, s1)) as Erx.
    { apply rx_fragment_eq; [apply R|done|rewrite length_app, length_le_bytes; lia|by rewrite Ef]. }
    unfold bind at 1 2. rewrite Erx. cbn [negb]. by rewrite (hk_last _ _ _ _ _ K).
Qed.

Lemma deliver_frags (cli : cli_info) hdr (sid : Z) (user : bytes) (xid op : Z) (p : nat) first seq mb ps :
  hdr_like hdr sid user xid op -> op <> CMO_NEW_SESS ->
  frags hdr (user_key (Some user)) first seq mb ps -> forall s y, ready cli sid user p s y ->
  (first = false -> s_msg_op y = op /\ s_msg_xid y = xid) ->
  let have := if first then [] else s_msg_buf y in
  Z.of_nat (length (have ++ mb)) <= CLD_MAX_MSG_SZ ->
  exists s1 y1 info, arrived cli sid user p op xid (have ++ mb) s s1 y1 info /\
    deliver cli ps s = (let! r := rx_dispatch (cli_fd cli) cli info in finish_rx cli info r) s1.
Proof.
  intros K Hop Hf. induction Hf as [first seq mb hb sha Hl He Ha|first seq chunk rest hb sha ps Hl Hr He Ha Hf IH];
    intros s y R Hy have Hlen.
  - destruct (frag_taken cli hdr sid user xid op p first true seq mb hb sha s y K Hop He Ha R Hy Hlen)
      as (s1 & y1 & info & A & _ & _ & Estep). exists s1, y1, info. split; [done|].
    cbn [deliver]. unfold bind at 1. rewrite Estep. cbn [negb]. unfold bind, finish_rx.
    destruct (rx_dispatch (cli_fd cli) cli info s1) as [r s2]. destruct r; try done.
    unfold bind. by destruct (simple_sendresp (cli_fd cli) info e s2).
  - assert (Z.of_nat (length (have ++ chunk)) <= CLD_MAX_MSG_SZ) as Hlc by (rewrite app_assoc, length_app in Hlen; lia).
    destruct (frag_taken cli hdr sid user xid op p first false seq chunk hb sha s y K Hop He Ha R Hy Hlc)
      as (s1 & y1 & info & [R1 B1 O1 X1 D1 _ _ _] & _ & _ & Estep). cbn [negb] in Estep.
    set (ackm := simple_sendmsg (D := D) (cli_fd cli) (ph_sid (hdr first false)) (ph_user (hdr first false)) 0xdeadbeef
      (MAckFrag (u64 seq)) CMO_ACK_FRAG) in *. set (s2 := (ackm s1).2).
    assert (quiet s1 s2) as Q by apply quiet_simple_sendmsg.
    destruct (quiet_lookup s1 s2 p y1 Q (rd_heap _ _ _ _ _ _ R1)) as (y2 & Hy2 & Ec).
    pose proof (f_equal s_msg_buf Ec : s_msg_buf y2 = s_msg_buf y1) as Eb.
    destruct (IH s2 y2) as (s3 & y3 & info3 & A & Ed).
    + by eapply ready_quiet.
    + intros _. rewrite <- O1, <- X1. split; [exact (f_equal s_msg_op Ec)|exact (f_equal s_msg_xid Ec)].
    + rewrite Eb, B1, <- app_assoc. done.
    + exists s3, y3, info3. split.
      * destruct A as [A1 A2 A3 A4 A5 A6 A7 A8]. split; try done.
        -- rewrite A2, Eb, B1. by rewrite <- app_assoc.
        -- rewrite A5. destruct Q as (_ & -> & _). done.
      * cbn [deliver]. unfold bind at 1. rewrite Estep. unfold bind, ret. unfold s2 in Ed. destruct (ackm s1) as [u s2'].
        destruct ps as [|p1 ps]; [inversion Hf|]. exact Ed.
Qed.

End deliver.

(** ** The calls of the library, as requests *)

Section requests.
Context {XL : XdrLib} {XC : XdrCli} {HL : HmacLib} {XO : XdrOk}.

(** The request a call makes when its checks pass. *)
Definition request_of (c : cli) (x : cldc_session) (o : cli_op) : option (Z * msg_req) :=
  let fh_req fp k := match c_fhs c !! fp with
                     | Some f => if f_valid f then k (f_fh f) else None
                     | None => None
                     end in
  let sess_req r := if cs_confirmed x then r else None in
  match o with
  | OpReceive _ _ | OpTimer | OpNewSess _ _ _ _ | OpKill => None
  | OpEndSess _ => sess_req (Some (CMO_END_SESS, ReqVoid))
  | OpNop _ => sess_req (Some (CMO_NOP, ReqVoid))
  | OpDel _ path => sess_req (if bad_path path then None else Some (CMO_DEL, ReqDel path))
  | OpOpen _ path mode ev =>
      sess_req (if bad_path path then None else Some (CMO_OPEN, ReqOpen (mkOpen mode ev path)))
  | OpClose fp _ => fh_req fp (fun fh => if cs_expired x then None else Some (CMO_CLOSE, ReqClose fh))
  | OpLock fp _ fl wait =>
      fh_req fp (fun fh => Some (if wait then CMO_LOCK else CMO_TRYLOCK, ReqLock (mkLock fh fl)))
  | OpUnlock fp _ => fh_req fp (fun fh => Some (CMO_UNLOCK, ReqUnlock fh))
  | OpPut fp _ d =>
      fh_req fp (fun fh => match d with
                           | None | Some [] => None
                           | Some d => if CLD_MAX_PAYLOAD_SZ <? Z.of_nat (length d) then None
                                       else Some (CMO_PUT, ReqPut (mkPut fh d))
                           end)
  | OpGet fp _ _ => fh_req fp (fun fh => Some (CMO_GET, ReqGet fh))
  end.

Definition copts_of (o : cli_op) : option Z :=
  match o with
  | OpReceive _ _ | OpTimer | OpKill => None
  | OpNewSess co _ _ _ | OpEndSess co | OpNop co | OpDel co _ | OpOpen co _ _ _ | OpClose _ co
  | OpLock _ co _ _ | OpUnlock _ co | OpPut _ co _ | OpGet _ co _ => co
  end.

Lemma open_spec copts path mode ev body c x :
  c_sess c = Some x -> clucky c -> can_call x -> (forall p, is_Some (c_msgs c !! p) -> (p < c_next c)%nat) ->
  cs_confirmed x = true -> bad_path path = false -> xdr_req_enc (ReqOpen (mkOpen mode ev path)) = Some body ->
  cw False (cldc_open copts path mode ev) (fun r c' => r.1 = 0 /\ exists p m ps, issued c c' x copts CMO_OPEN body p m ps) c.
Proof.
  intros Hx HL' Hc Hn Hcf Hp Hb. unfold cldc_open. apply cw_bind, cw_get_sess; [by rewrite Hx|].
  intros ? E. rewrite Hx in E. injection E as <-. rewrite Hcf, Hp. cbn [negb]. apply cw_bind.
  eapply cw_mono; [by eapply (new_msg_spec copts CMO_OPEN _ body open_end_cb None c x)|].
  cbn. intros o c1 (S1 & T1 & xid & l & Hxid & Hbl & ->).
  assert (c_sess c1 = Some x) as Hx1 by by rewrite (st_sess _ _ S1).
  apply cw_bind. unfold c_malloc_ok. apply cw_bind, cw_nondet, cw_ret.
  pose proof (still_lucky _ _ S1 HL' (c_oracle_i c1)). rewrite (proj2 (Z.eqb_neq _ 0)) by lia. cbn [negb].
  apply cw_bind. unfold cw at 1, c_fresh. apply cw_bind, cw_modify. apply cw_bind, cw_upd_sess; cbn; rewrite Hx1; [done|].
  intros ? [= <-]. apply cw_bind. set (x2 := cs_lists _ _ x). set (c2 := set_c_sess _ _).
  eapply cw_mono; [eapply (sess_send_spec _ l body c2 x x2); try done|].
  - intros i. apply (still_lucky _ _ S1 HL').
  - destruct Hc as [A1 A2 A3 A4]. by split.
  - intros p. cbn. rewrite (st_msgs _ _ S1), (st_next _ _ S1). intros Hs. specialize (Hn p Hs). lia.
  - cbn. intros r c3 (-> & p & m & ps & [I1 I2 I3 I4 I5 I6 I7 I8 I9]). apply cw_ret. split; [done|].
    exists p, m, ps. cbn in *. split; try done; [by rewrite <- (st_msgs _ _ S1)|by rewrite I9, T1].
Qed.

Lemma close_spec fp copts body c x f :
  c_sess c = Some x -> clucky c -> can_call x -> (forall p, is_Some (c_msgs c !! p) -> (p < c_next c)%nat) ->
  c_fhs c !! fp = Some f -> f_valid f = true -> cs_expired x = false -> xdr_req_enc (ReqClose (f_fh f)) = Some body ->
  cw False (cldc_close fp copts) (fun r c' => r = 0 /\ exists p m ps, issued c c' x copts CMO_CLOSE body p m ps) c.
Proof.
  intros Hx HL' Hc Hn Hf Hv He Hb. unfold cldc_close. apply cw_bind, cw_get_fh; [by rewrite Hf|].
  intros ? E. rewrite Hf in E. injection E as <-. rewrite Hv. cbn [negb].
  apply cw_bind, cw_get_sess; [by rewrite Hx|]. intros ? E. rewrite Hx in E. injection E as <-. rewrite He.
  apply cw_bind. eapply cw_mono; [by eapply (new_msg_spec copts CMO_CLOSE _ body close_end_cb (Some fp) c x)|].
  cbn. intros o c1 (S1 & T1 & xid & l & Hxid & Hbl & ->).
  assert (c_sess c1 = Some x) as Hx1 by by rewrite (st_sess _ _ S1). apply cw_bind, cw_modify. set (c2 := set_c_fhs _ _).
  eapply cw_mono; [eapply (sess_send_spec _ l body c2 x x); try done|].
  - intros i. apply (still_lucky _ _ S1 HL').
  - intros p. cbn. rewrite (st_msgs _ _ S1), (st_next _ _ S1). apply Hn.
  - cbn. intros r c3 (-> & p & m & ps & [I1 I2 I3 I4 I5 I6 I7 I8 I9]). split; [done|].
    exists p, m, ps. cbn in *. split; try done; [by rewrite <- (st_msgs _ _ S1)|by rewrite I9, T1].
Qed.

Lemma put_spec fp copts d body c x f :
  c_sess c = Some x -> clucky c -> can_call x -> (forall p, is_Some (c_msgs c !! p) -> (p < c_next c)%nat) ->
  c_fhs c !! fp = Some f -> f_valid f = true -> d <> [] -> Z.of_nat (length d) <= CLD_MAX_PAYLOAD_SZ ->
  xdr_req_enc (ReqPut (mkPut (f_fh f) d)) = Some body ->
  cw False (cldc_put fp copts (Some d)) (fun r c' => r = 0 /\ exists p m ps, issued c c' x copts CMO_PUT body p m ps) c.
Proof.
  intros Hx HL' Hc Hn Hf Hv Hd Hl Hb. unfold cldc_put. destruct d as [|b0 d]; [done|].
  rewrite (proj2 (Z.ltb_ge _ _)) by done. apply cw_bind, cw_get_fh; [by rewrite Hf|].
  intros ? E. rewrite Hf in E. injection E as <-. rewrite Hv. cbn [negb].
  apply cw_bind. eapply cw_mono; [by eapply (new_msg_spec copts CMO_PUT _ body generic_end_cb None c x)|].
  cbn. intros o c1 (S1 & T1 & xid & l & Hxid & Hbl & ->).
  assert (c_sess c1 = Some x) as Hx1 by by rewrite (st_sess _ _ S1). apply cw_bind.
  eapply cw_mono; [eapply (sess_send_spec _ l body c1 x x); try done|].
  - intros i. apply (still_lucky _ _ S1 HL').
  - intros p. cbn. rewrite (st_msgs _ _ S1), (st_next _ _ S1). apply Hn.
  - cbn. intros r c3 (-> & p & m & ps & [I1 I2 I3 I4 I5 I6 I7 I8 I9]). apply cw_ret. split; [done|].
    exists p, m, ps. cbn in *. split; try done; [by rewrite <- (st_msgs _ _ S1)|by rewrite I9, T1].
Qed.

(** A call whose checks pass and that nothing hinders sends its request. *)
Lemma op_issues o op req body c x :
  wf c -> c_sess c = Some x -> clucky c -> can_call x -> request_of c x o = Some (op, req) ->
  xdr_req_enc req = Some body ->
  cw False (run_op o) (fun r c' => r = 0 /\ exists p m ps, issued c c' x (copts_of o) op body p m ps) c.
Proof.
  intros Hw Hx HL' Hc Hr Hb. pose proof (wf_live _ _ Hw Hx) as [W _].
  assert (forall p, is_Some (c_msgs c !! p) -> (p < c_next c)%nat) as Hn by apply W.
  destruct o as [a pkt| |co a u k| |co|co|co path|co path mode ev|fp co|fp co fl w|fp co|fp co d|fp co mo];
    cbn [request_of run_op copts_of] in *; try done.
  1-4: destruct (cs_confirmed x) eqn:Hcf; [|done].
  5-9: destruct (c_fhs c !! fp) as [f|] eqn:Hf; [|done]; destruct (f_valid f) eqn:Hv; [|done].
  - injection Hr as <- <-. unfold cldc_end_sess. apply cw_bind, cw_get_sess; [by rewrite Hx|].
    intros ? E. rewrite Hx in E. injection E as <-. rewrite Hcf. cbn [negb]. by apply (call_spec _ _ ReqVoid).
  - injection Hr as <- <-. unfold cldc_nop. apply cw_bind, cw_get_sess; [by rewrite Hx|].
    intros ? E. rewrite Hx in E. injection E as <-. rewrite Hcf. cbn [negb]. by apply (call_spec _ _ ReqVoid).
  - destruct (bad_path path) eqn:Hp; [done|]. injection Hr as <- <-. unfold cldc_del. apply cw_bind, cw_get_sess; [by rewrite Hx|].
    intros ? E. rewrite Hx in E. injection E as <-. rewrite Hcf, Hp. cbn [negb]. by apply (call_spec _ _ (ReqDel path)).
  - destruct (bad_path path) eqn:Hp; [done|]. injection Hr as <- <-. apply cw_bind.
    eapply cw_mono; [by apply (open_spec co path mode ev body c x)|]. intros r c' [E H]. by apply cw_ret.
  - destruct (cs_expired x) eqn:He; [done|]. injection Hr as <- <-. by apply (close_spec fp co body c x f).
  - injection Hr as <- <-. unfold cldc_lock. apply cw_bind, cw_get_fh; [by rewrite Hf|].
    intros ? E. rewrite Hf in E. injection E as <-. rewrite Hv. cbn [negb].
    apply (call_spec _ _ (ReqLock (mkLock (f_fh f) fl))); try done. destruct w; done.
  - injection Hr as <- <-. unfold cldc_unlock. apply cw_bind, cw_get_fh; [by rewrite Hf|].
    intros ? E. rewrite Hf in E. injection E as <-. rewrite Hv. cbn [negb]. by apply (call_spec _ _ (ReqUnlock (f_fh f))).
  - destruct d as [[|b0 d]|]; [done| |done].
    destruct (Z.ltb_spec CLD_MAX_PAYLOAD_SZ (Z.of_nat (length (b0 :: d)))) as [|Hl]; [done|].
    injection Hr as <- <-. by apply (put_spec fp co (b0 :: d) body c x f).
  - injection Hr as <- <-. unfold cldc_get. apply cw_bind, cw_get_fh; [by rewrite Hf|].
    intros ? E. rewrite Hf in E. injection E as <-. rewrite Hv. cbn [negb]. by apply (call_spec _ _ (ReqGet (f_fh f))).
Qed.

End requests.

(** ** The request reaches its handler *)

Section handler.
Context {D : Type} {BD : Bdb D} {XL : XdrLib} {XC : XdrCli} {HL : HmacLib} {XO : XdrOk} {XCO : XdrCliOk}.
Implicit Types s : srv D.

(** The server's handler for a request, with its arguments. *)
Definition handler_of (op xid : Z) (req : msg_req) (p : nat) : M D unit :=
  match req with
  | ReqVoid => if op =? CMO_NOP then sess_sendresp_generic p CLE_OK else msg_end_sess p xid
  | ReqDel n => msg_del p n
  | ReqOpen o => msg_open p o
  | ReqClose fh => msg_close p fh
  | ReqLock l => msg_lock p l
  | ReqUnlock fh => msg_unlock p fh
  | ReqPut d => msg_put p d
  | ReqGet fh => msg_get p fh
  end.

(** The operation codes of the calls. *)
Definition sent_as (op : Z) (req : msg_req) : Prop :=
  match req with
  | ReqVoid => op = CMO_NOP \/ op = CMO_END_SESS
  | ReqDel _ => op = CMO_DEL
  | ReqOpen _ => op = CMO_OPEN
  | ReqClose _ => op = CMO_CLOSE
  | ReqLock _ => op = CMO_LOCK \/ op = CMO_TRYLOCK
  | ReqUnlock _ => op = CMO_UNLOCK
  | ReqPut _ => op = CMO_PUT
  | ReqGet _ => op = CMO_GET
  end.

Lemma request_sent_as c x o op req : request_of c x o = Some (op, req) -> sent_as op req.
Proof.
  unfold request_of. destruct o; try done; repeat case_match; intros E; simplify_eq; cbn; auto.
Qed.

Lemma run_ok (m : M D unit) s : (m ;;; ret RxOk) s = (RxOk, (m s).2).
Proof. unfold bind. by destruct (m s). Qed.

Lemma rx_handle_ok {A} p (h : nat -> A -> M D unit) (dec : bytes -> option A) v s y :
  heap s !! p = Some y -> dec (s_msg_buf y) = Some v ->
  tcp_rx_handle (Some p) h dec s = (RxOk, (h p v s).2).
Proof.
  intros Hy Hd. unfold tcp_rx_handle, bind at 1, get_sess. rewrite (lookup_total_correct _ _ _ Hy), Hd. apply run_ok.
Qed.

Lemma dispatch_request cli sid user p op xid body s s1 y1 info req :
  arrived cli sid user p op xid body s s1 y1 info -> sent_as op req -> decodes req body ->
  rx_dispatch (cli_fd cli) cli info s1 = (RxOk, (handler_of op xid req p s1).2).
Proof.
  intros [A1 A2 A3 A4 A5 A6 A7 A8] Hs Hd. unfold rx_dispatch. rewrite A6, A7.
  pose proof (rd_heap _ _ _ _ _ _ A1) as Hy. rewrite <- A2 in Hd.
  destruct req; cbn in Hs, Hd |- *; try (destruct Hs as [Hs|Hs]); rewrite Hs; cbn; try (by apply (rx_handle_ok _ _ _ _ _ y1)); rewrite ?A8.
  - exact (run_ok (sess_sendresp_generic p CLE_OK) s1).
  - exact (run_ok (msg_end_sess p xid) s1).
Qed.

End handler.

(** ** The client takes the server's packets in *)

Section receive.
Context {XL : XdrLib} {XC : XdrCli} {HL : HmacLib} {XO : XdrOk} {XCO : XdrCliOk}.

Definition ack_hdr (x : cldc_session) : cld_pkt_hdr :=
  mkHdr (le_val CLD_PKT_MAGIC) (cs_sid x) (cs_user x) (CLD_PKT_ORD_FIRST_LAST (mkInfos 0 CMO_ACK)).

(** The acknowledgement of sequence number [seq]. *)
Definition is_ack (x : cldc_session) (seq : Z) (pkt : bytes) : Prop :=
  exists hb sha, xdr_hdr_enc (ack_hdr x) = Some hb /\
    cld_authsign (Some (cs_secret_key x)) (hb ++ [] ++ le_bytes 8 seq) = (0, sha) /\ pkt = pkt_of hb [] seq sha.

(** What sending an acknowledgement needs. *)
Definition can_ack (x : cldc_session) : Prop :=
  creds_ok x /\ 0 <= cs_sid x < 2 ^ 64 /\ Forall (fun b => 0 < b < 256) (cs_user x).

Lemma ack_hdr_ok x : can_ack x -> hdr_ok (ack_hdr x).
Proof.
  intros ([Hu _] & Hs & Hb). unfold hdr_ok. cbn.
  split; [split; vm_compute; congruence|]. split; [done|]. split; [unfold CLD_MAX_USERNAME; lia|]. done.
Qed.

Lemma ack_seqid_spec seq c x :
  c_sess c = Some x -> can_ack x ->
  cw False (ack_seqid (le_bytes 8 seq)) (fun r c' => still c c' /\ (clucky c -> 0 < r) /\
    exists pkt, is_ack x seq pkt /\ c_trace c' = c_trace c ++ [Sent (cs_addr x) pkt]) c.
Proof.
  intros Hx Ha. unfold ack_seqid. apply cw_bind, cw_get_sess; [by rewrite Hx|]. intros ? E. rewrite Hx in E. injection E as <-.
  fold (ack_hdr x). pose proof (ack_hdr_ok x Ha) as Hh. destruct (xdr_hdr_rt _ Hh) as (hb & Ehb & _). rewrite Ehb.
  pose proof (xc_hdr_len _ _ Hh Ehb). rewrite (proj2 (Z.ltb_ge _ _)) by (unfold CLD_MAX_PKT_MSG_SZ, CLD_PKT_FTR_LEN; lia).
  destruct (can_call_key x (proj1 Ha)) as (k0 & ks & Ek & Esk). rewrite Ek.
  destruct (authsign_some k0 ks (hb ++ le_bytes 8 seq)) as (sha & Es & _). rewrite Es. cbn [Z.eqb negb].
  unfold sess_send_pkt. apply cw_bind, cw_get_sess; [by rewrite Hx|]. intros ? E. rewrite Hx in E. injection E as <-.
  unfold emit. apply cw_bind, cw_modify, cw_nondet. split; [split; try done; by eexists|]. split; [intros HL'; apply HL'|].
  eexists. split; [|done]. exists hb, sha. by rewrite Esk.
Qed.

(** The state in which a packet's contents have been taken in. *)
Record taken (c c1 : cli) (x x1 : cldc_session) (op seq : Z) (buf : bytes) : Prop := {
  tk_sess : c_sess c1 = Some x1;
  tk_wf : wf_sess c1 x1;
  tk_ident : ident x1 = ident x;
  tk_buf : cs_msg_buf x1 = buf;
  tk_op : cs_msg_buf_op x1 = op;
  tk_in : cs_next_seqid_in x1 = u64 (seq + 1);
  tk_out : cs_next_seqid_out x1 = cs_next_seqid_out x;
  tk_bufs : cs_payload x1 = cs_payload x /\ cs_inode_name_temp x1 = cs_inode_name_temp x;
  tk_cfh : cs_cfh x1 = cs_cfh x;
  tk_alive : cs_expire_time x1 = c_now c + CLDC_SESS_EXPIRE;
  tk_fhs : c_fhs c1 = c_fhs c;
  tk_now : c_now c1 = c_now c;
  tk_oracle : c_oracle c1 = c_oracle c;
  tk_queue : sublist (cs_out_msg x1) (cs_out_msg x);
  tk_old p m : c_msgs c1 !! p = Some m -> c_msgs c !! p = Some m;
  tk_kept p m : c_msgs c !! p = Some m -> c_now c <= m_expire_time m -> c_msgs c1 !! p = Some m }.

Lemma expire_outmsg_spec c x :
  c_sess c = Some x -> wf_sess c x ->
  cw False (sess_expire_outmsg (c_now c)) (fun _ c1 => exists l, let x1 := cs_times (c_now c + CLDC_MSG_SCAN)
      (cs_expire_time x) (cs_lists (cs_cfh x) l x) in
    c1 = set_c_sess (Some x1) (set_c_msgs (c_msgs c1) c) /\ wf_sess c1 x1 /\ sublist l (cs_out_msg x) /\
    (forall p m, c_msgs c1 !! p = Some m -> c_msgs c !! p = Some m) /\
    (forall p m, c_msgs c !! p = Some m -> c_now c <= m_expire_time m -> c_msgs c1 !! p = Some m)) c.
Proof.
  intros Hx [W Hcr]. unfold sess_expire_outmsg. apply cw_bind, cw_get_sess; [by rewrite Hx|].
  intros ? E. rewrite Hx in E. injection E as <-. apply cw_bind.
  eapply cw_mono; [by apply (expire_loop_spec (c_now c) [] _ c x)|]. cbn. intros l c1 (E & W1 & Hs & Hk & Hold).
  assert (c_sess c1 = Some x) as Hx1 by by rewrite E.
  assert (c_fhs c = c_fhs c1) as Ef by by rewrite E. assert (c_next c = c_next c1) as En by by rewrite E.
  apply cw_bind, cw_upd_sess; [by rewrite Hx1|]. intros ? E1. rewrite Hx1 in E1. injection E1 as <-.
  apply cw_upd_sess; [done|]. cbn. intros ? [= <-]. exists l. rewrite E. cbn. split_and!; try done.
  - split; [|done]. cbn. eapply wfb_frame; [..|apply W1]; cbn; [done|done|lia|done].
  - intros p m Hm Ht. apply Hk; [done|by right].
Qed.

(** The sequence number of a message of operation [op] is the one expected
    (the answer to a session request sets it). *)
Definition in_order (x : cldc_session) (op seq : Z) : Prop :=
  (seq = cs_next_seqid_in x \/ op = CMO_NEW_SESS) /\ op <> CMO_NOT_MASTER /\ op <> CMO_ACK_FRAG.

Lemma accept_in_order (op seq : Z) c x :
  c_sess c = Some x -> in_order x op seq -> exists tr,
  accept_seqid seq op c =
    Some (0, set_c_sess (Some (cs_seqids (u64 (seq + 1)) tr (cs_next_seqid_out x) x)) c).
Proof.
  intros Hx (Hs & H1 & H2). unfold accept_seqid, mbind, C_bind, c_get_sess, c_upd_sess, mret, C_ret. rewrite Hx.
  rewrite (proj2 (Z.eqb_neq op CMO_NOT_MASTER)), (proj2 (Z.eqb_neq op CMO_ACK_FRAG)) by done. cbn [orb].
  destruct (Z.eqb_spec op CMO_NEW_SESS) as [E|E]; [rewrite Hx; eauto|].
  destruct Hs as [->|?]; [|done]. rewrite Z.eqb_refl, Hx. eauto.
Qed.

Lemma set_c_sess_id c o : c_sess c = o -> set_c_sess o c = c.
Proof. intros <-. by destruct c. Qed.

(** Expired messages are dropped first; nothing else changes. *)
Lemma receive_expire c x : c_sess c = Some x -> wf_sess c x ->
  exists c1 x1, c_sess c1 = Some x1 /\ wf_sess c1 x1 /\ ident x1 = ident x /\
    cs_next_seqid_in x1 = cs_next_seqid_in x /\ cs_next_seqid_out x1 = cs_next_seqid_out x /\
    cs_payload x1 = cs_payload x /\ cs_inode_name_temp x1 = cs_inode_name_temp x /\ cs_cfh x1 = cs_cfh x /\
    cs_msg_buf x1 = cs_msg_buf x /\ cs_msg_buf_op x1 = cs_msg_buf_op x /\
    c_fhs c1 = c_fhs c /\ c_now c1 = c_now c /\ c_oracle c1 = c_oracle c /\ c_trace c1 = c_trace c /\
    sublist (cs_out_msg x1) (cs_out_msg x) /\
    (forall p m, c_msgs c1 !! p = Some m -> c_msgs c !! p = Some m) /\
    (forall p m, c_msgs c !! p = Some m -> c_now c <= m_expire_time m -> c_msgs c1 !! p = Some m) /\
    (if cs_msg_scan_time x <=? c_now c then sess_expire_outmsg (c_now c) else mret tt) c = Some (tt, c1).
Proof.
  intros Hx Hw. destruct (cs_msg_scan_time x <=? c_now c).
    - pose proof (expire_outmsg_spec c x Hx Hw) as Hex. unfold cw in Hex.
      destruct (sess_expire_outmsg (c_now c) c) as [[[] c1]|]; [|done]. destruct Hex as (l & Ec & W1 & Hsub & Ho & Hk).
      set (x1 := cs_times _ _ _) in *. exists c1, x1.
      assert (c_sess c1 = Some x1) by by rewrite Ec. assert (c_fhs c1 = c_fhs c) by by rewrite Ec.
      assert (c_now c1 = c_now c) by by rewrite Ec. assert (c_oracle c1 = c_oracle c) by by rewrite Ec.
      assert (c_trace c1 = c_trace c) by by rewrite Ec. split_and!; done.
    - exists c, x. split_and!; done.
Qed.

(** The parts of a packet. *)
Lemma pkt_parts (hb chunk sha : bytes) (seq : Z) : length sha = 20%nat -> 0 <= seq < 2 ^ 64 ->
  let raw := pkt_of hb chunk seq sha in
  length raw = (length (hb ++ chunk) + 28)%nat /\ take (length raw - 28) raw = hb ++ chunk /\ pkt_foot raw = le_bytes 8 seq ++ sha /\
  foot_seqid raw = seq /\ foot_sha raw = sha /\ take (length raw - 20) raw = hb ++ chunk ++ le_bytes 8 seq.
Proof.
  intros Hs20 Hseq raw.
  assert (length raw = length (hb ++ chunk) + 28)%nat as Hl.
  { unfold raw, pkt_of. rewrite !length_app, length_le_bytes. lia. }
  assert (take (length raw - 28) raw = hb ++ chunk) as Et.
  { rewrite Hl, Nat.add_sub. unfold raw, pkt_of. by rewrite (app_assoc hb chunk), take_app_length. }
  assert (pkt_foot raw = le_bytes 8 seq ++ sha) as Epf.
  { unfold pkt_foot. rewrite Hl, Nat.add_sub. unfold raw, pkt_of. by rewrite (app_assoc hb chunk), drop_app_length. }
  assert (foot_seqid raw = seq) as Eseq.
  { unfold raw, pkt_of. rewrite (app_assoc hb chunk), foot_seqid_app by done. by apply uw_small. }
  assert (foot_sha raw = sha) as Esha.
  { unfold raw, pkt_of. by rewrite (app_assoc hb chunk), foot_sha_app. }
  assert (take (length raw - 20) raw = hb ++ chunk ++ le_bytes 8 seq) as Esig by by apply signed_part.
  done.
Qed.

Lemma receive_one (h : cld_pkt_hdr) (hb chunk sha : bytes) (seq op : Z) c x :
  c_sess c = Some x -> wf_sess c x -> hdr_ok h -> xdr_hdr_enc h = Some hb -> ph_magic h = le_val CLD_PKT_MAGIC ->
  ph_user h = cs_user x -> cld_authsign (Some (cs_secret_key x)) (hb ++ chunk ++ le_bytes 8 seq) = (0, sha) ->
  let first := flag (pkt_order (ph_mi h)) CLD_PKT_IS_FIRST in
  (if first then mi_op (pkt_infos (ph_mi h)) else cs_msg_buf_op x) = op ->
  0 <= seq < 2 ^ 64 -> in_order x op seq ->
  let have := if first then [] else cs_msg_buf x in
  Z.of_nat (length (have ++ chunk)) <= CLD_MAX_MSG_SZ ->
  exists c1 x1, taken c c1 x x1 op seq (have ++ chunk) /\ c_trace c1 = c_trace c /\
    cldc_receive_pkt (cs_addr x) (pkt_of hb chunk seq sha) c =
      (if flag (pkt_order (ph_mi h)) CLD_PKT_IS_LAST then rx_complete (le_bytes 8 seq)
       else ack_seqid (le_bytes 8 seq)) c1.
Proof.
  intros Hx Hw Hh He Hm Hu Ha first Hop Hseq Hio have Hlen. pose proof Hw as [W Hcr].
  pose proof (authsign_check _ _ _ Ha) as [Hck Hs20]. set (raw := pkt_of hb chunk seq sha).
  destruct (pkt_parts hb chunk sha seq Hs20 Hseq) as (Hl & Et & Epf & Eseq & Esha & Esig). fold raw in Hl, Et, Epf, Eseq, Esha, Esig.
  destruct (xdr_hdr_rt h Hh) as (b & E & Hd). assert (b = hb) as -> by congruence. clear E.
  destruct (can_call_key x Hcr) as (k0 & ks & Ek & Esk).
  destruct (receive_expire c x Hx Hw)
    as (c1 & x1 & Hx1 & W1 & I1 & N1 & O1 & P1 & T1 & F1 & B1 & Op1 & E1 & E2 & E3 & E4 & Q1 & M1 & M2 & Erun).
  set (x2 := if first then cs_bufs op (cs_msg_buf x1) (cs_payload x1) (cs_inode_name_temp x1) x1 else x1).
  assert (in_order x2 op seq) as Hio2.
  { destruct Hio as (H1 & H2 & H3). split; [|done]. unfold x2. destruct first; cbn; by rewrite N1. }
  set (c2 := set_c_sess (Some x2) c1).
  destruct (accept_in_order op seq c2 x2 eq_refl Hio2) as [tr Eacc]. set (x3 := cs_seqids _ tr _ x2) in *.
  assert (cs_msg_buf_op x2 = op) as Hop2 by (unfold x2; destruct first; cbn; congruence).
  set (x4 := cs_times (cs_msg_scan_time x3) (c_now c + CLDC_SESS_EXPIRE)
    (cs_bufs op (have ++ chunk) (cs_payload x3) (cs_inode_name_temp x3) x3)).
  exists (set_c_sess (Some x4) c1), x4. split; [|split; [done|]].
  - destruct W1 as [W1 Hcr1].
    assert (cs_cfh x4 = cs_cfh x1 /\ cs_out_msg x4 = cs_out_msg x1 /\ ident x4 = ident x1 /\
      cs_next_seqid_out x4 = cs_next_seqid_out x1 /\ cs_payload x4 = cs_payload x1 /\
      cs_inode_name_temp x4 = cs_inode_name_temp x1) as (G1 & G2 & G3 & G4 & G5 & G6).
    { unfold x4, x3, x2. by destruct first. }
    assert (cs_user x4 = cs_user x1 /\ cs_secret_key x4 = cs_secret_key x1) as [G7 G8].
    { unfold x4, x3, x2. by destruct first. }
    split; try done; try congruence.
    + split; [rewrite G2; by eapply wfb_frame; [..|apply W1]|unfold creds_ok; by rewrite G7, G8].
    + rewrite G5, G6. done.
  - unfold cldc_receive_pkt. unfold mbind at 1, C_bind at 1, c_get at 1. cbv zeta.
    rewrite (proj2 (Z.ltb_ge _ _)) by (unfold CLD_PKT_FTR_LEN; lia). rewrite Et, Hd, Hm, Z.eqb_refl. cbn [negb].
    unfold mbind at 1, C_bind at 1, c_get_sess at 1. rewrite Hx, Hu, Ek, Esig, Esha, <- Esk, Hck. cbn [Z.eqb negb].
    rewrite bool_decide_true by done. cbn [negb]. unfold mbind at 1, C_bind at 1. rewrite Erun.
    fold first. unfold mbind at 1, C_bind at 1.
    assert ((if first then c_upd_sess (fun s => cs_bufs (mi_op (pkt_infos (ph_mi h))) (cs_msg_buf s) (cs_payload s)
      (cs_inode_name_temp s) s) else mret tt) c1 = Some (tt, c2)) as ->.
    { unfold c2, x2, c_upd_sess, mret, C_ret. destruct first; rewrite ?Hx1; [by rewrite Hop|].
      by rewrite set_c_sess_id. }
    unfold mbind at 1, C_bind at 1, c_get_sess at 1. cbn [c_sess c2 set_c_sess]. fold c2. rewrite Hop2, Eseq.
    unfold mbind at 1, C_bind at 1. rewrite Eacc. cbn [Z.eqb negb].
    set (c3 := set_c_sess (Some x3) c2). unfold mbind at 1, C_bind at 1.
    set (x3' := if first then cs_bufs op [] (cs_payload x3) (cs_inode_name_temp x3) x3 else x3).
    assert (cs_msg_buf_op x3 = op) as Hop3 by done.
    assert ((if first then c_upd_sess (fun s => cs_bufs (cs_msg_buf_op s) [] (cs_payload s) (cs_inode_name_temp s) s)
      else mret tt) c3 = Some (tt, set_c_sess (Some x3') c3)) as ->.
    { unfold x3'. destruct first; [|done]. unfold c_upd_sess. cbn [c_sess c3 set_c_sess]. by rewrite Hop3. }
    unfold mbind at 1, C_bind at 1, c_get_sess at 1. cbn [c_sess set_c_sess].
    assert (cs_msg_buf x3' = have) as Hb3.
    { unfold x3', have, x3, x2. destruct first; [done|]. cbn. done. }
    assert (length raw - length hb - 28 = length chunk)%nat as Eml by (rewrite Hl, length_app; lia).
    rewrite Hb3, Eml. rewrite length_app in Hlen. rewrite (proj2 (Z.ltb_ge _ _)) by lia.
    assert (take (length chunk) (drop (length hb) raw) = chunk) as ->.
    { unfold raw, pkt_of. by rewrite drop_app_length, take_app_length. }
    unfold mbind at 1, C_bind at 1, c_upd_sess at 1. cbn [c_sess set_c_sess].
    unfold mbind at 1, C_bind at 1, c_upd_sess at 1. cbn [c_sess set_c_sess].
    rewrite Epf, take_app_length' by by rewrite length_le_bytes.
    assert (cs_times (cs_msg_scan_time (cs_bufs (cs_msg_buf_op x3') (cs_msg_buf x3' ++ chunk) (cs_payload x3')
      (cs_inode_name_temp x3') x3')) (c_now c + CLDC_SESS_EXPIRE) (cs_bufs (cs_msg_buf_op x3') (cs_msg_buf x3' ++ chunk)
      (cs_payload x3') (cs_inode_name_temp x3') x3') = x4) as Ex4.
    { rewrite Hb3. assert (cs_msg_buf_op x3' = op) as -> by (unfold x3'; destruct first; done).
      unfold x4, x3'. by destruct first. }
    rewrite Ex4. by destruct (flag _ CLD_PKT_IS_LAST).
Qed.


(** Packets received one after the other; the result of the last. *)
Fixpoint receive_all (addr : bytes) (raws : list bytes) : C Z :=
  match raws with
  | [] => mret 0
  | raw :: raws =>
      r ← cldc_receive_pkt addr raw;
      match raws with [] => mret r | _ => receive_all addr raws end
  end.

Lemma taken_still c c1 c2 x x1 op seq buf : still c1 c2 -> taken c c1 x x1 op seq buf -> taken c c2 x x1 op seq buf.
Proof.
  intros [S1 S2 S3 S4 S5 S6 _] [T1 [W Hcr] T3 T4 T5 T6 T7 T8 T9 T10 T11 T12 T13 T14 T15 T16].
  split; try congruence; try done.
  - split; [|done]. apply (wfb_frame _ _ c1 c2 x1 x1 S2 S3); [lia|done|exact W].
  - intros p m. rewrite S2. apply T15.
  - intros p m. rewrite S2. apply T16.
Qed.

Lemma taken_trans c c1 c2 x x1 x2 op seq seq2 buf buf2 :
  taken c c1 x x1 op seq buf -> taken c1 c2 x1 x2 op seq2 buf2 -> taken c c2 x x2 op seq2 buf2.
Proof.
  intros [A1 A2 A3 A4 A5 A6 A7 [A8 A8'] A9 A10 A11 A12 A13 A14 A15 A16]
         [B1 B2 B3 B4 B5 B6 B7 [B8 B8'] B9 B10 B11 B12 B13 B14 B15 B16].
  split; try congruence; try done.
  - split; congruence.
  - by etrans.
  - intros p m Hm. by apply A15, B15.
  - intros p m Hm Ht. apply B16; [by apply A16|]. by rewrite A12.
Qed.

Lemma ident_can_ack x x' : ident x' = ident x -> can_ack x -> can_ack x'.
Proof. unfold ident. intros [= E1 E2 E3 E4 E5] (H1 & H2 & H3). unfold can_ack, creds_ok in *. by rewrite E1, E3, E4. Qed.

Lemma receive_frags hdr (sid xid op : Z) (user : bytes) (key : bytes) first seq mb ps :
  hdr_like hdr sid user xid op -> frags hdr (Some key) first seq mb ps ->
  forall c x, c_sess c = Some x -> wf_sess c x -> can_ack x -> cs_user x = user -> cs_secret_key x = key ->
  0 <= seq < 2 ^ 64 -> in_order x op seq -> (first = false -> cs_msg_buf_op x = op) ->
  let have := if first then [] else cs_msg_buf x in
  Z.of_nat (length (have ++ mb)) <= CLD_MAX_MSG_SZ ->
  exists c1 x1 acks, let last := seq_after seq (length ps - 1) in
    taken c c1 x x1 op last (have ++ mb) /\ c_trace c1 = c_trace c ++ (Sent (cs_addr x) <$> acks) /\
    0 <= last < 2 ^ 64 /\ (length acks = length ps - 1)%nat /\
    (forall i pkt, acks !! i = Some pkt -> is_ack x (seq_after seq i) pkt) /\
    receive_all (cs_addr x) ps c = rx_complete (le_bytes 8 last) c1.
Proof.
  intros K Hf. induction Hf as [first seq mb hb sha Hl He Ha|first seq chunk rest hb sha ps Hl Hr He Ha Hf IH];
    intros c x Hx Hw Hca Hu Hk Hseq Hio Hop have Hlen; subst user key.
  - destruct (receive_one (hdr first true) hb mb sha seq op c x Hx Hw (hk_ok _ _ _ _ _ K _ _) He (hk_magic _ _ _ _ _ K _ _)
      (hk_user _ _ _ _ _ K _ _) Ha) as (c1 & x1 & T1 & Tr & Er).
    { rewrite (hk_first _ _ _ _ _ K). destruct first; [by rewrite (hk_infos _ _ _ _ _ K)|auto]. }
    { done. }
    { done. }
    { by rewrite (hk_first _ _ _ _ _ K). }
    rewrite (hk_first _ _ _ _ _ K) in T1. rewrite (hk_last _ _ _ _ _ K) in Er.
    exists c1, x1, []. cbn. rewrite app_nil_r. split_and!; try done; [lia|lia|].
    unfold mbind, C_bind. rewrite Er. by destruct (rx_complete _ c1) as [[r c2]|].
  - destruct (receive_one (hdr first false) hb chunk sha seq op c x Hx Hw (hk_ok _ _ _ _ _ K _ _) He (hk_magic _ _ _ _ _ K _ _)
      (hk_user _ _ _ _ _ K _ _) Ha) as (c1 & x1 & T1 & Tr & Er).
    { rewrite (hk_first _ _ _ _ _ K). destruct first; [by rewrite (hk_infos _ _ _ _ _ K)|auto]. }
    { done. }
    { done. }
    { rewrite (hk_first _ _ _ _ _ K). fold have. rewrite app_assoc, length_app in Hlen. lia. }
    rewrite (hk_first _ _ _ _ _ K) in T1. fold have in T1. rewrite (hk_last _ _ _ _ _ K) in Er.
    pose proof (ident_can_ack _ _ (tk_ident _ _ _ _ _ _ _ T1) Hca) as Hca1.
    pose proof (ack_seqid_spec seq c1 x1 (tk_sess _ _ _ _ _ _ _ T1) Hca1) as Hack.
    apply cw_total in Hack as (r & c2 & Eack & S2 & _ & pkt & Hpkt & Tr2).
    pose proof (taken_still _ _ _ _ _ _ _ _ S2 T1) as T2. pose proof (tk_ident _ _ _ _ _ _ _ T1) as Hid.
    assert (cs_addr x1 = cs_addr x /\ cs_user x1 = cs_user x /\ cs_secret_key x1 = cs_secret_key x /\ cs_sid x1 = cs_sid x)
      as (I1 & I2 & I3 & I4) by (unfold ident in Hid; by simplify_eq).
    destruct (IH c2 x1) as (c3 & x3 & acks & T3 & Tr3 & Hb & Hla & Hacks & Ercv); try done.
    + apply (tk_sess _ _ _ _ _ _ _ T2).
    + apply (tk_wf _ _ _ _ _ _ _ T2).
    + apply u64_bound.
    + split; [left; by rewrite (tk_in _ _ _ _ _ _ _ T2)|apply Hio].
    + intros _. apply (tk_op _ _ _ _ _ _ _ T2).
    + rewrite (tk_buf _ _ _ _ _ _ _ T2). by rewrite <- app_assoc.
    + rewrite (tk_buf _ _ _ _ _ _ _ T2), <- app_assoc in T3.
      exists c3, x3, (pkt :: acks). destruct ps as [|p1 ps]; [inversion Hf|]. cbn [length] in *.
      replace (S (S (length ps)) - 1)%nat with (S (S (length ps) - 1)) by lia.
      rewrite seq_after_S in T3, Ercv, Hb. split_and!; try done; try (apply Hb); try lia.
      * by eapply taken_trans.
      * rewrite Tr3, Tr2, Tr, I1. cbn. by rewrite <- app_assoc.
      * intros [|i] q Hq; cbn in Hq.
        -- injection Hq as <-. cbn. destruct Hpkt as (hb' & sha' & H1 & H2 & H3). exists hb', sha'.
           unfold ack_hdr in *. rewrite <- I2, <- I3, <- I4. done.
        -- rewrite <- seq_after_S. destruct (Hacks i q Hq) as (hb' & sha' & H1 & H2 & H3). exists hb', sha'.
           unfold ack_hdr in *. rewrite <- I2, <- I3, <- I4. done.
      * rewrite I1 in Ercv. cbn [receive_all] in Ercv |- *. unfold mbind at 1, C_bind at 1. rewrite Er, Eack. exact Ercv.
Qed.

(** ** Completion of a call *)

(** The message at [p] is the one waiting for transaction [xid]. *)
Definition waits_for (c : cli) (x : cldc_session) (p : nat) (m : cldc_msg) (xid : Z) : Prop :=
  c_msgs c !! p = Some m /\ m_xid m = xid /\ p ∈ cs_out_msg x /\ m_done m = false /\
  forall q n, q ∈ cs_out_msg x -> c_msgs c !! q = Some n -> m_xid n = xid -> q = p.

Lemma find_xid_unique xid l c p m :
  (forall q, q ∈ l -> is_Some (c_msgs c !! q)) -> c_msgs c !! p = Some m -> m_xid m = xid -> p ∈ l ->
  (forall q n, q ∈ l -> c_msgs c !! q = Some n -> m_xid n = xid -> q = p) ->
  find_xid xid l c = Some (Some p, c).
Proof.
  intros Hl Hm Hx Hp Hu. pose proof (find_xid_spec xid l c Hl) as H. apply cw_total in H as (o & c' & E & -> & H).
  rewrite E. destruct o as [q|]; [|by destruct (H p m Hp Hm)].
  destruct H as (Hq & n & Hn & Hxn). by rewrite (Hu q n).
Qed.

(** Completion with a user callback: for requests without result data. *)
Lemma complete_generic c x p m cb code xid seq :
  c_sess c = Some x -> wf_sess c x -> can_ack x -> clucky c -> waits_for c x p m xid ->
  xdr_generic_resp_dec (cs_msg_buf x) = Some (code, xid) ->
  m_cb m = generic_end_cb -> co_cb (m_copts m) = Some cb ->
  exists r c' pkt, rxmsg_generic (le_bytes 8 seq) c = Some (r, c') /\ 0 < r /\ is_ack x seq pkt /\
    c_trace c' = c_trace c ++ [Complete p cb code; Sent (cs_addr x) pkt] /\
    c_sess c' = Some x /\ c_msgs c' = <[p := set_done m]> (c_msgs c) /\ c_fhs c' = c_fhs c.
Proof.
  intros Hx [W Hcr] Hca HL' (Hm & Hxid & Hp & Hd & Hu) Hdec Hcb Hco.
  assert (cw False (rxmsg_generic (le_bytes 8 seq)) (fun r c' => 0 < r /\ exists pkt, is_ack x seq pkt /\
    c_trace c' = c_trace c ++ [Complete p cb code; Sent (cs_addr x) pkt] /\
    c_sess c' = Some x /\ c_msgs c' = <[p := set_done m]> (c_msgs c) /\ c_fhs c' = c_fhs c) c) as H.
  { unfold rxmsg_generic. apply cw_bind, cw_get_sess; [by rewrite Hx|]. intros ? E. rewrite Hx in E. injection E as <-.
    rewrite Hdec. apply cw_bind. unfold cw at 1.
    rewrite (find_xid_unique xid _ c p m); [|intros q; apply W|done..].
    apply cw_bind, cw_get_msg; [by rewrite Hm|]. intros ? E. rewrite Hm in E. injection E as <-. rewrite Hd.
    apply cw_bind, cw_modify, cw_bind. unfold run_msg_cb. apply cw_bind, cw_get_msg; [cbn; by rewrite lookup_insert_eq|].
    cbn. intros ? E. rewrite lookup_insert_eq in E. injection E as <-. cbn. rewrite Hcb.
    unfold run_generic_end_cb, copts_cb. apply cw_bind, cw_get_msg; [cbn; by rewrite lookup_insert_eq|].
    cbn. intros ? E. rewrite lookup_insert_eq in E. injection E as <-. cbn. rewrite Hco.
    unfold emit. apply cw_bind, cw_modify, cw_nondet. cbn. pose proof (HL' (c_oracle_i c)).
    rewrite (proj2 (Z.ltb_ge _ _)) by lia. set (c1 := set_c_oracle_i _ _).
    eapply cw_mono; [by apply (ack_seqid_spec seq c1 x)|]. cbn. intros r c' ([S1 S2 S3 _ _ _ _] & Hr & pkt & Hpk & Ht).
    split; [apply Hr; exact HL'|]. exists pkt. rewrite Ht, S1, S2, S3. cbn. rewrite <- app_assoc. by split_and!. }
  apply cw_total in H as (r & c' & E & Hr & pkt & H). by exists r, c', pkt.
Qed.


Lemma c_string_app (b rest : bytes) : Forall (fun x => 0 < x < 256) b -> c_string (b ++ 0 :: rest) = b.
Proof.
  induction 1 as [|z b Hz Hb IH]; [done|]. cbn. rewrite (proj2 (Z.eqb_neq z 0)) by lia. by rewrite IH.
Qed.

(** Completion of a read. *)
Lemma complete_get c x p m cb (g : cld_msg_get_resp) seq :
  c_sess c = Some x -> wf_sess c x -> can_ack x -> clucky c -> waits_for c x p m (gr_xid_in g) ->
  get_ok g -> gr_code g = CLE_OK -> xdr_msg_enc (MGetResp g) = Some (cs_msg_buf x) ->
  Z.of_nat (length (gr_inode_name g)) < CLD_INODE_NAME_MAX ->
  Z.of_nat (length (cs_payload x)) <= CLD_MAX_PAYLOAD_SZ -> Z.of_nat (length (cs_inode_name_temp x)) <= CLD_INODE_NAME_MAX ->
  m_cb m = get_end_cb -> co_cb (m_copts m) = Some cb ->
  exists r c' m' pkt, rxmsg_generic (le_bytes 8 seq) c = Some (r, c') /\
    c_msgs c' !! p = Some m' /\ m_done m' = true /\
    c_trace c' = c_trace c ++ [Complete p cb 0; Sent (cs_addr x) pkt] /\
    cldc_copts_get_data (m_copts m') c' = Some (gr_data g, c') /\
    cldc_copts_get_metadata (m_copts m') c' =
      Some (mkMeta (gr_inum g) (gr_vers g) (gr_time_create g) (gr_time_modify g) (gr_flags g) (gr_inode_name g), c').
Proof.
  intros Hx [W Hcr] Hca HL' (Hm & Hxid & Hp & Hd & Hu) Hg Hcode Henc Hname Hpl Hnm Hcb Hco.
  destruct (xc_get_resp g _ (cs_payload x) (cs_inode_name_temp x) Hg Henc) as [Hdec Hget].
  set (payload := gr_data g ++ _) in *. set (name := (gr_inode_name g ++ [0]) ++ _) in *.
  assert (Z.of_nat (length payload) <= CLD_MAX_PAYLOAD_SZ) as Hlp.
  { unfold payload. rewrite length_app, length_drop. destruct Hg as (_ & _ & _ & _ & _ & _ & _ & Hl). lia. }
  assert (Z.of_nat (length name) <= CLD_INODE_NAME_MAX) as Hln.
  { unfold name. rewrite !length_app, length_drop. cbn [length]. lia. }
  assert (cw False (rxmsg_generic (le_bytes 8 seq)) (fun r c' => exists m' pkt x',
    c_msgs c' !! p = Some m' /\ m_done m' = true /\ co_resp (m_copts m') = resp_of g /\
    c_trace c' = c_trace c ++ [Complete p cb 0; Sent (cs_addr x) pkt] /\
    c_sess c' = Some x' /\ cs_payload x' = payload /\ cs_inode_name_temp x' = name) c) as H.
  { unfold rxmsg_generic. apply cw_bind, cw_get_sess; [by rewrite Hx|]. intros ? E. rewrite Hx in E. injection E as <-.
    rewrite Hdec, Hcode. apply cw_bind. unfold cw at 1.
    rewrite (find_xid_unique (gr_xid_in g) _ c p m); [|intros q; apply W|done..].
    apply cw_bind, cw_get_msg; [by rewrite Hm|]. intros ? E. rewrite Hm in E. injection E as <-. rewrite Hd.
    apply cw_bind, cw_modify, cw_bind. unfold run_msg_cb. apply cw_bind, cw_get_msg; [cbn; by rewrite lookup_insert_eq|].
    cbn. intros ? E. rewrite lookup_insert_eq in E. injection E as <-. cbn. rewrite Hcb.
    unfold run_get_end_cb. cbn [cle_code Z.eqb]. apply cw_bind, cw_get_msg; [cbn; by rewrite lookup_insert_eq|].
    cbn. intros ? E. rewrite lookup_insert_eq in E. injection E as <-. apply cw_bind, cw_get_sess; [cbn; by rewrite Hx|].
    cbn. intros ? E. rewrite Hx in E. injection E as <-. rewrite Hget.
    rewrite !(proj2 (Z.ltb_ge _ _)) by done. cbn [orb]. apply cw_bind, cw_upd_sess; [cbn; by rewrite Hx|].
    cbn. intros ? E. rewrite Hx in E. injection E as <-. apply cw_bind, cw_modify. cbn.
    unfold copts_cb. apply cw_bind, cw_get_msg; [cbn; by rewrite lookup_insert_eq|].
    cbn. intros ? E. rewrite lookup_insert_eq in E. injection E as <-. cbn. rewrite Hco.
    unfold emit. apply cw_bind, cw_modify, cw_nondet. cbn. pose proof (HL' (c_oracle_i c)).
    rewrite (proj2 (Z.ltb_ge _ _)) by lia. set (c1 := set_c_oracle_i _ _). set (x1 := cs_bufs _ _ payload name x) in *.
    eapply cw_mono; [by apply (ack_seqid_spec seq c1 x1)|]. cbn. intros r c' ([S1 S2 S3 _ _ _ _] & Hr & pkt & Hpk & Ht).
    eexists _, pkt, x1. rewrite Ht, S1, S2. cbn. rewrite lookup_insert_eq, <- app_assoc. by split_and!. }
  apply cw_total in H as (r & c' & E & m' & pkt & x' & Hm' & Hd' & Hr' & Ht' & Hx' & Hp' & Hn').
  exists r, c', m', pkt. split_and!; try done.
  - unfold cldc_copts_get_data, mbind, C_bind, c_get_sess. rewrite Hx', Hr', Hp'. cbn. unfold mret, C_ret, payload.
    by rewrite Nat2Z.id, take_app_length.
  - unfold cldc_copts_get_metadata, mbind, C_bind, c_get_sess. rewrite Hx', Hr', Hn'. cbn. unfold mret, C_ret, name.
    rewrite <- app_assoc. cbn [app]. rewrite c_string_app; [done|]. by destruct Hg as (_ & _ & _ & _ & _ & _ & [_ Hs] & _).
Qed.

End receive.
