(* ===== verification/CldcProps.v ===== *)
(** * CldcProps: what the client library guarantees

    Memory safety, completion of calls, the sequence window, and the two
    directions of the protocol put together with the server's side. *)

From S2P Require Import Prelude Htab Dirent Wire Bdb Srv Cldb Outq Msg Session Server.
From S2P Require Import Logic OutqSpec ServerSpec Cldc CldcLogic CldcSys CldcWf CldcWire.
#[local] Open Scope Z_scope.

Section memory.
Context {XL : XdrLib} {XC : XdrCli} {HL : HmacLib}.

(** C19.  The client library's memory invariant [wf] holds in every state it can
    reach, whatever packets, timers, calls and failures come: the message and
    handle lists name exactly the live objects, without duplicates, and the
    callback of a pending open or close has a live handle of its own. *)
Theorem wf_reachable (now : Z) (orc : nat -> Z) c : creach (cli_init now orc) c -> wf c.
Proof. apply wf_reach. Qed.

(** C20.  Calls and timers are memory safe: in a reachable state, an operation on
    a live session or handle - any call, ending or killing the session, the
    timer - is defined, whatever fails, and keeps the invariant.  The one
    exception is the timer while a request to end the session without a
    callback is pending. *)
Theorem calls_safe (now : Z) (orc : nat -> Z) c o :
  creach (cli_init now orc) c -> op_live o c -> (forall a pkt, o <> OpReceive a pkt) ->
  (o = OpTimer -> ~ end_pending c) ->
  exists r c', run_op o c = Some (r, c') /\ wf c'.
Proof. intros Hr Hl Hn Ht. apply cw_total, op_wf; try done. by eapply wf_reach. Qed.

(** A session that has heard nothing from the server for more than
    [CLDC_SESS_EXPIRE] seconds is given up at the next timer tick: every pending
    call's callback runs, in queue order, with [CLE_TIMEOUT]; the timer is
    removed; the application is told [CE_SESS_FAILED]; the queue is empty and
    the invariant holds.  No call is left waiting. *)
Theorem timer_expires c x :
  c_sess c = Some x -> wf_sess c x -> ~ end_pending c -> cs_expire_time x < c_now c ->
  exists c' x', sess_timer c = Some (0, c') /\ c_sess c' = Some x' /\ wf_sess c' x' /\ cs_expired x' = true /\
    cs_out_msg x' = [] /\ c_msgs c' = ∅ /\
    c_trace c' = c_trace c ++ drop_trace c (cs_out_msg x) ++ [TimerCtl false 0; Event None CE_SESS_FAILED].
Proof. apply expire_spec. Qed.

(** While the session is alive, every timer tick sends every packet of every
    pending call again that is still kept for retransmission, byte for byte and
    in queue order, nothing of finished calls, and arms the timer again; no
    message, handle or callback is touched. *)
Theorem timer_retransmits c x :
  c_sess c = Some x -> wf_sess c x -> c_now c <= cs_expire_time x ->
  exists c', sess_timer c = Some (CLDC_MSG_RETRY, c') /\ c_sess c' = Some x /\ wf_sess c' x /\
    c_trace c' = c_trace c ++ resend_trace (cs_addr x) c (cs_out_msg x) ++ [TimerCtl true CLDC_MSG_RETRY] /\
    (forall p, m_done <$> c_msgs c' !! p = m_done <$> c_msgs c !! p) /\ c_fhs c' = c_fhs c.
Proof. apply resend_spec. Qed.

(** Ending the session without a callback is a use after free: when its
    response arrives, the completion frees the session, and the acknowledgement
    that follows reads it; when the session is lost first, the timer frees the
    message a second time. *)
Theorem end_sess_use_after_free c x p m seqid code :
  c_sess c = Some x -> wf_sess c x -> waits_for c x p m (m_xid m) ->
  m_cb m = end_sess_cb -> co_cb (m_copts m) = None ->
  xdr_generic_resp_dec (cs_msg_buf x) = Some (code, m_xid m) ->
  rxmsg_generic seqid c = None /\ drop_one p c = None.
Proof.
  intros Hx [W Hcr] (Hm & _ & Hp & Hd & Hu) Hcb Hco Hdec. split; [|by eapply drop_one_end].
  unfold rxmsg_generic, mbind at 1, C_bind at 1, c_get_sess. rewrite Hx, Hdec. unfold mbind at 1, C_bind at 1.
  rewrite (find_xid_unique (m_xid m) _ c p m); [|intros q; apply W|done..].
  unfold mbind at 1, C_bind at 1, get_msg at 1. rewrite Hm, Hd. unfold mbind at 1, C_bind at 1, store_msg, c_modify.
  set (c1 := set_c_msgs _ c).
  assert (wfb nobody (cs_out_msg x) c1 x) as W1 by by apply (wfb_store _ _ _ _ _ m).
  pose proof (sess_free_spec nobody c1 x Hx W1) as Hf. apply cw_total in Hf as ([] & c2 & Ef & Hs & _).
  assert (run_msg_cb p (cs_msg_buf x) code c1 = Some (0, c2)) as Er.
  { unfold run_msg_cb, run_end_sess_cb, copts_cb, get_msg, mbind, C_bind. cbn. rewrite lookup_insert_eq. cbn.
    rewrite Hcb. cbn. rewrite lookup_insert_eq. cbn. by rewrite Hco, Ef. }
  unfold mbind at 1, C_bind at 1. rewrite Er. cbn [Z.ltb Z.compare]. unfold ack_seqid. by apply get_sess_undef.
Qed.

(** Fragment acknowledgements are read from outside the packet: the footer of
    a pending packet is looked up at 28 times its offset, past the end of any
    packet with a header, so handling one while a packet is pending is
    undefined. *)
Theorem ack_frag_out_of_bounds c x p m pi seqid rest :
  c_sess c = Some x -> cs_out_msg x = p :: rest -> c_msgs c !! p = Some m ->
  m_pkt_info m = [Some pi] -> CLD_PKT_FTR_LEN < pi_pkt_len pi ->
  xdr_ack_frag_dec (cs_msg_buf x) = Some seqid -> rxmsg_ack_frag c = None.
Proof.
  intros Hx Ho Hm Hp Hl Hd. unfold rxmsg_ack_frag, mbind at 1, C_bind at 1, c_get_sess. rewrite Hx, Hd, Ho.
  apply bind_undef. cbn [c_iter]. apply bind_undef. unfold ack_frag_msg, mbind at 1, C_bind at 1, get_msg. rewrite Hm.
  apply bind_undef. rewrite Hp. cbn [ack_frag_pkts]. apply bind_undef. unfold frag_seqid.
  unfold CLD_PKT_FTR_LEN in *. rewrite (proj2 (Z.ltb_lt (pi_pkt_len pi) _)) by lia. by rewrite orb_true_r.
Qed.

End memory.

(** ** The window of accepted sequence numbers *)

(** The window: once a session is set up, a packet of an ordinary message is
    accepted exactly if it carries the next sequence number or one of the
    [CLDC_MSG_REMEMBER] before it (a retransmission), and only the next one
    moves the window; all others are refused with [-EBADSLT] and change
    nothing. *)
Theorem accept_seqid_window (op seq : Z) c x :
  c_sess c = Some x -> op <> CMO_NEW_SESS -> op <> CMO_NOT_MASTER -> op <> CMO_ACK_FRAG ->
  CLDC_MSG_REMEMBER <= cs_next_seqid_in x < 2 ^ 63 - 1 ->
  cs_next_seqid_in_tr x = cs_next_seqid_in x - CLDC_MSG_REMEMBER -> 0 <= seq < 2 ^ 63 ->
  accept_seqid seq op c = Some
    (if (cs_next_seqid_in x - CLDC_MSG_REMEMBER <=? seq) && (seq <=? cs_next_seqid_in x) then 0 else - EBADSLT,
     if seq =? cs_next_seqid_in x
     then set_c_sess (Some (cs_seqids (seq + 1) (seq + 1 - CLDC_MSG_REMEMBER) (cs_next_seqid_out x) x)) c else c).
Proof.
  intros Hx H1 H2 H3 Hn Htr Hs. unfold accept_seqid, mbind, C_bind, c_get_sess, c_upd_sess, mret, C_ret. rewrite Hx.
  rewrite (proj2 (Z.eqb_neq op CMO_NEW_SESS)), (proj2 (Z.eqb_neq op CMO_NOT_MASTER)),
    (proj2 (Z.eqb_neq op CMO_ACK_FRAG)) by done. cbn [orb]. unfold CLDC_MSG_REMEMBER in *.
  destruct (Z.eqb_spec seq (cs_next_seqid_in x)) as [E|E].
  - rewrite Hx, Htr, <- E, (proj2 (Z.leb_le _ _)), (proj2 (Z.leb_le _ _)) by lia. cbn [andb].
    unfold u64. rewrite !uw_small by lia. do 6 f_equal. lia.
  - assert (forall z, 0 <= z < 2 ^ 63 -> s64 z = z) as Hs64 by (intros z Hz; apply sw_small; lia).
    unfold seqid_in_range, seqid_before_eq, seqid_after_eq. rewrite Htr, !Hs64 by lia.
    rewrite !(proj2 (Z.leb_le (- 2 ^ 63) _)), !(proj2 (Z.ltb_lt _ (2 ^ 63))) by lia. cbn [andb].
    destruct (Z.leb_spec 0 (seq - (cs_next_seqid_in x - 25))), (Z.leb_spec (cs_next_seqid_in x - 25) seq); try lia; [|done].
    destruct (Z.leb_spec 0 (cs_next_seqid_in x - seq)), (Z.leb_spec seq (cs_next_seqid_in x)); try lia; done.
Qed.

(** ** Client and server *)

Section both.
Context {D : Type} {BD : Bdb D} {XL : XdrLib} {XC : XdrCli} {HL : HmacLib} {XO : XdrOk} {XCO : XdrCliOk}.
Implicit Types s : srv D.

Lemma msg_hdr_like x xid op :
  can_call x -> 0 <= xid < 2 ^ 64 -> 0 <= op < 2 ^ 31 ->
  hdr_like (fun f l => msg_pkt_hdr x f l xid op) (cs_sid x) (cs_user x) xid op.
Proof.
  intros Hc Hx Ho. split; [intros f l; by apply msg_pkt_hdr_ok|by intros [] []..|by intros []].
Qed.

Lemma out_hdr_like y xid op :
  0 <= s_sid y < 2 ^ 64 -> Z.of_nat (length (s_user y)) <= CLD_MAX_USERNAME ->
  Forall (fun b => 0 < b < 256) (s_user y) -> 0 <= xid < 2 ^ 64 -> 0 <= op < 2 ^ 31 ->
  hdr_like (fun f l => outpkt_hdr y f l xid op) (s_sid y) (s_user y) xid op.
Proof.
  intros H1 H2 H3 H4 H5. split; [intros f l; by apply outpkt_hdr_ok|by intros [] []..|by intros []].
Qed.

Lemma sent_as_bounds op req : sent_as op req -> 0 <= op < 2 ^ 31 /\ op <> CMO_NEW_SESS.
Proof. destruct req; cbn; [intros [->| ->]|..]; try (intros ->); try (intros [->| ->]); by vm_compute. Qed.

Lemma key_is_user (x : cldc_session) : creds_ok x -> user_key (Some (cs_user x)) = Some (cs_user x).
Proof.
  intros [Hu _]. unfold user_key. by rewrite (proj2 (Nat.eqb_neq _ 0)), (proj2 (Nat.leb_gt _ _)) by lia.
Qed.

(** C11.  A call reaches its handler: a call of the client library whose checks pass,
    when nothing fails, queues one pending message and sends packets; a server
    that has the session and takes them in, in order, runs exactly the handler
    of that operation with the client's arguments, once, in a state whose
    database is untouched and whose session expects the client's transaction
    id. *)
Theorem call_reaches_handler o op req c x cli s y p :
  wf c -> c_sess c = Some x -> clucky c -> can_call x -> cs_secret_key x = cs_user x ->
  request_of c x o = Some (op, req) -> req_ok req -> ready cli (cs_sid x) (cs_user x) p s y ->
  exists c' q m ps body, run_op o c = Some (0, c') /\ issued c c' x (copts_of o) op body q m ps /\
    exists s1 y1, heap s1 !! p = Some y1 /\ s_msg_xid y1 = m_xid m /\ s_msg_op y1 = op /\ db s1 = db s /\
      deliver cli ps s = (Some RxOk, (handler_of op (m_xid m) req p s1).2).
Proof.
  intros Hw Hx HL' Hc Hk Hr Hok R. destruct (xc_req req Hok) as (body & Eb & Hlen & Hdec).
  pose proof (request_sent_as _ _ _ _ _ Hr) as Hs. destruct (sent_as_bounds _ _ Hs) as [Ho Hne].
  pose proof (op_issues o op req body c x Hw Hx HL' Hc Hr Eb) as H.
  apply cw_total in H as (r & c' & E & -> & q & m & ps & I). exists c', q, m, ps, body. split; [done|]. split; [done|].
  pose proof (is_pkts _ _ _ _ _ _ _ _ _ I) as Hf. rewrite Hk, <- (key_is_user x (cc_creds _ Hc)) in Hf.
  destruct (deliver_frags cli _ _ _ _ _ p _ _ _ _ (msg_hdr_like x (m_xid m) op Hc (is_xid _ _ _ _ _ _ _ _ _ I) Ho) Hne Hf s y R)
    as (s1 & y1 & info & A & Ed); [done|done|].
  exists s1, y1. pose proof A as [A1 A2 A3 A4 A5 A6 A7 A8]. split_and!; [apply A1|done|done|done|].
  rewrite Ed. unfold bind. rewrite (dispatch_request _ _ _ _ _ _ _ _ _ _ _ _ A Hs Hdec). done.
Qed.

(** The two sides agree on the session. *)
Definition agree (x : cldc_session) (y : session) : Prop :=
  s_sid y = cs_sid x /\ s_user y = cs_user x /\ cs_secret_key x = cs_user x.

Lemma server_frags x y op seq mb ps :
  can_ack x -> agree x y -> packets y op (user_key (Some (s_user y))) true seq mb ps -> 0 <= op < 2 ^ 31 ->
  exists hdr xid, hdr_like hdr (cs_sid x) (cs_user x) xid op /\ frags hdr (Some (cs_secret_key x)) true seq mb ps.
Proof.
  intros (Hcr & Hs & Hu) (A1 & A2 & A3) Hp Ho. destruct (packets_frags _ _ _ _ _ _ _ Hp) as (xid & Hx & Hf).
  exists (fun f l => outpkt_hdr y f l xid op), xid. split.
  - rewrite <- A1, <- A2. apply out_hdr_like; rewrite ?A1, ?A2; try done. destruct Hcr as [? _].
    unfold CLD_MAX_USERNAME. lia.
  - rewrite A2, key_is_user in Hf by done. by rewrite A3.
Qed.

(** Operations whose responses complete a call. *)
Definition call_op (op : Z) : Prop :=
  op <> CMO_ACK /\ op <> CMO_PING /\ op <> CMO_EVENT /\ op <> CMO_NOT_MASTER /\ op <> CMO_ACK_FRAG /\ 0 <= op < 2 ^ 31.

(** The client is ready for the message [mb] that the server sends as [ps]. *)
Record expects (c : cli) (x : cldc_session) (y : session) (op seq : Z) (mb : bytes) (ps : list bytes) : Prop := {
  ex_sess : c_sess c = Some x;
  ex_wf : wf_sess c x;
  ex_ack : can_ack x;
  ex_lucky : clucky c;
  ex_agree : agree x y;
  ex_seq : 0 <= seq < 2 ^ 64 /\ (seq = cs_next_seqid_in x \/ op = CMO_NEW_SESS);
  ex_op : call_op op;
  ex_len : Z.of_nat (length mb) <= CLD_MAX_MSG_SZ;
  ex_pkts : packets y op (user_key (Some (s_user y))) true seq mb ps }.

Lemma response_arrives c x y op seq mb ps p m xid :
  expects c x y op seq mb ps -> waits_for c x p m xid -> c_now c <= m_expire_time m ->
  exists c1 x1 acks, let last := seq_after seq (length ps - 1) in
    taken c c1 x x1 op last mb /\ waits_for c1 x1 p m xid /\ can_ack x1 /\ clucky c1 /\
    c_trace c1 = c_trace c ++ (Sent (cs_addr x) <$> acks) /\ (length acks = length ps - 1)%nat /\
    cs_addr x1 = cs_addr x /\ (forall pkt, is_ack x1 last pkt -> is_ack x last pkt) /\
    receive_all (cs_addr x) ps c = rxmsg_generic (le_bytes 8 last) c1.
Proof.
  intros [Hx Hw Hca HL' Hag [Hseq Hio] (N1 & N2 & N3 & N4 & N5 & Ho) Hlen Hp] (Hm & Hmx & Hq & Hd & Hu) Ht.
  destruct (server_frags _ _ _ _ _ _ Hca Hag Hp Ho) as (hdr & xid' & K & Hf).
  destruct (receive_frags _ _ _ _ _ _ _ _ _ _ K Hf c x Hx Hw Hca eq_refl eq_refl Hseq ltac:(by split) ltac:(done) Hlen)
    as (c1 & x1 & acks & T & Tr & Hb & Hla & Hacks & Er).
  set (last := seq_after seq (length ps - 1)) in *. pose proof (tk_ident _ _ _ _ _ _ _ T) as Hid.
  exists c1, x1, acks. split; [done|]. split; [|split_and!; try done].
  - split_and!; [by apply (tk_kept _ _ _ _ _ _ _ T)|done| |done|].
    + apply (wb_msgs _ _ _ _ (proj1 (tk_wf _ _ _ _ _ _ _ T))). by rewrite (tk_kept _ _ _ _ _ _ _ T p m Hm Ht).
    + intros q n Hq' Hn Hnx. apply (Hu q n); [|by apply (tk_old _ _ _ _ _ _ _ T)|done].
      eapply sublist_elem; [apply (tk_queue _ _ _ _ _ _ _ T)|done].
  - by eapply ident_can_ack.
  - intros i. rewrite (tk_oracle _ _ _ _ _ _ _ T). apply HL'.
  - unfold ident in Hid. by simplify_eq.
  - unfold is_ack, ack_hdr, ident in *. injection Hid as -> _ -> -> _. done.
  - rewrite Er. unfold rx_complete, mbind at 1, C_bind at 1, c_get_sess. rewrite (tk_sess _ _ _ _ _ _ _ T).
    rewrite (tk_op _ _ _ _ _ _ _ T). by rewrite (proj2 (Z.eqb_neq op CMO_ACK)), (proj2 (Z.eqb_neq op CMO_PING)),
      (proj2 (Z.eqb_neq op CMO_NOT_MASTER)), (proj2 (Z.eqb_neq op CMO_EVENT)), (proj2 (Z.eqb_neq op CMO_ACK_FRAG)) by done.
Qed.

(** A response completes its call: the packets the server makes of a response
    ([packets], as [sess_sendmsg] queues them), received in order, run the
    callback of the call that waits for that transaction exactly once, with the
    server's code, after acknowledging the earlier fragments; the call is
    finished and the last packet is acknowledged, in this order. *)
Theorem response_completes c x y p m cb code xid op seq mb ps :
  expects c x y op seq mb ps -> u64_ok xid -> xdr_msg_enc (MGenericResp code xid) = Some mb ->
  waits_for c x p m xid -> c_now c <= m_expire_time m -> m_cb m = generic_end_cb -> co_cb (m_copts m) = Some cb ->
  exists r c' x' acks ack, let last := seq_after seq (length ps - 1) in
    receive_all (cs_addr x) ps c = Some (r, c') /\ 0 < r /\
    c_sess c' = Some x' /\ cs_next_seqid_in x' = u64 (last + 1) /\
    is_ack x last ack /\ (length acks = length ps - 1)%nat /\
    c_trace c' = c_trace c ++ (Sent (cs_addr x) <$> acks) ++ [Complete p cb (cle_code code); Sent (cs_addr x) ack] /\
    c_msgs c' !! p = Some (set_done m).
Proof.
  intros He Hxid Henc Hwait Ht Hcb Hco.
  destruct (response_arrives _ _ _ _ _ _ _ _ _ _ He Hwait Ht) as (c1 & x1 & acks & T & W1 & Hca & HL' & Tr & Hla & Ea & Hia & Er).
  destruct (complete_generic c1 x1 p m cb (cle_code code) xid (seq_after seq (length ps - 1)))
    as (r & c' & pkt & E & Hr & Hpk & Ht' & Hx' & Hm' & _); try done; try apply T.
  { rewrite (tk_buf _ _ _ _ _ _ _ T). by apply xc_generic. }
  exists r, c', x1, acks, pkt. cbn zeta. rewrite Er, E. split_and!; try done.
  - apply (tk_in _ _ _ _ _ _ _ T).
  - auto.
  - rewrite Ht', Tr, Ea. by rewrite <- app_assoc.
  - rewrite Hm'. by rewrite lookup_insert_eq.
Qed.

(** Reading returns the server's data: when the response to a read arrives, the
    callback runs once with its code, and from inside it the application sees
    the node's attributes, its name and exactly its data, for names of up to 255
    bytes. *)
Theorem get_returns_data c x y p m cb (g : cld_msg_get_resp) op seq mb ps :
  expects c x y op seq mb ps -> get_ok g -> gr_code g = CLE_OK -> xdr_msg_enc (MGetResp g) = Some mb ->
  Z.of_nat (length (gr_inode_name g)) < CLD_INODE_NAME_MAX ->
  Z.of_nat (length (cs_payload x)) <= CLD_MAX_PAYLOAD_SZ -> Z.of_nat (length (cs_inode_name_temp x)) <= CLD_INODE_NAME_MAX ->
  waits_for c x p m (gr_xid_in g) -> c_now c <= m_expire_time m -> m_cb m = get_end_cb -> co_cb (m_copts m) = Some cb ->
  exists r c' m' acks ack, receive_all (cs_addr x) ps c = Some (r, c') /\ c_msgs c' !! p = Some m' /\ m_done m' = true /\
    c_trace c' = c_trace c ++ (Sent (cs_addr x) <$> acks) ++ [Complete p cb 0; Sent (cs_addr x) ack] /\
    cldc_copts_get_data (m_copts m') c' = Some (gr_data g, c') /\
    cldc_copts_get_metadata (m_copts m') c' =
      Some (mkMeta (gr_inum g) (gr_vers g) (gr_time_create g) (gr_time_modify g) (gr_flags g) (gr_inode_name g), c').
Proof.
  intros He Hg Hcode Henc Hname Hpl Hnm Hwait Ht Hcb Hco.
  destruct (response_arrives _ _ _ _ _ _ _ _ _ _ He Hwait Ht) as (c1 & x1 & acks & T & W1 & Hca & HL' & Tr & Hla & Ea & Hia & Er).
  destruct (tk_bufs _ _ _ _ _ _ _ T) as [Ep En].
  destruct (complete_get c1 x1 p m cb g (seq_after seq (length ps - 1)))
    as (r & c' & m' & ack & E & Hm' & Hd' & Ht' & Hdata & Hmeta); try done; try apply T.
  { by rewrite (tk_buf _ _ _ _ _ _ _ T). }
  { by rewrite Ep. }
  { by rewrite En. }
  exists r, c', m', acks, ack. rewrite Er, E. split_and!; try done. rewrite Ht', Tr, Ea. by rewrite <- app_assoc.
Qed.

(** The client's acknowledgement takes the response off the server's queue:
    accepted by the server, it removes exactly the packets with its sequence
    number and keeps the others, in order, and touches no data. *)
Theorem ack_clears_queue x seq pkt cli s y p :
  can_ack x -> cs_secret_key x = cs_user x -> is_ack x seq pkt -> 0 <= seq < 2 ^ 64 ->
  ready cli (cs_sid x) (cs_user x) p s y -> Forall (fun op => op_sess op = p) (s_out_q y) ->
  exists s' y', cli_rd_pkt cli pkt s = ((Some RxOk, true), s') /\ heap s' !! p = Some y' /\ db s' = db s /\
    s_out_q y' = filter (fun op => ~ acked_by seq op) (s_out_q y).
Proof.
  intros Hca Hk (hb & sha & Hh & Ha & ->) Hseq R Hq. rewrite Hk, <- (key_is_user x (proj1 Hca)) in Ha.
  pose proof (cli_rd_pkt_accept cli (ack_hdr x) hb [] sha seq (cs_sid x) (cs_user x) p s y (ack_hdr_ok x Hca) Hh
    eq_refl eq_refl eq_refl R Ha ltac:(done)) as Hacc. cbv zeta in Hacc. cbn [ph_mi ack_hdr pkt_order pkt_infos mi_op mi_xid flag] in Hacc.
  change (flag 3 CLD_PKT_IS_FIRST) with true in Hacc. cbv iota in Hacc. cbn [mi_op mi_xid] in Hacc.
  set (info := mkPktInfo _ _ _ _ _ _) in *. set (y1 := frag_sess (cli_fd cli) (current_time s) info [] y).
  set (s1 := set_heap (<[p := y1]> (heap s)) s).
  pose proof (authsign_check _ _ _ Ha) as [_ Hs20].
  assert (rx_fragment (cli_fd cli) info (pkt_of hb [] seq sha) p s = (true, s1)) as Erx.
  { apply (rx_fragment_eq _ _ hb []); [apply R|done|rewrite length_app, length_le_bytes; lia|done]. }
  assert (s_out_q y1 = s_out_q y) as Eq by done.
  exists (set_heap (<[p := acked seq y1]> (heap s1)) s1), (acked seq y1). split_and!.
  - assert (rx_dispatch (cli_fd cli) cli info s1 = (RxOk, set_heap (<[p := acked seq y1]> (heap s1)) s1)) as Edis.
    { change (rx_dispatch (cli_fd cli) cli info s1) with ((msg_ack p (u64 seq) ;;; ret RxOk) s1).
      assert (u64 seq = seq) as -> by by apply uw_small. unfold bind.
      rewrite (msg_ack_eq p seq s1 y1); [done|cbn; by rewrite lookup_insert_eq|by rewrite Eq]. }
    rewrite Hacc. unfold tcp_rx. cbn [pi_sess pi_pkt pi_op info]. unfold bind at 1 2. rewrite Erx. cbn [negb].
    change (flag (pkt_order (ph_mi (ack_hdr x))) CLD_PKT_IS_LAST) with true. cbn [negb]. by rewrite Edis.
  - cbn. by rewrite lookup_insert_eq.
  - done.
  - unfold acked. rewrite Eq. destruct (s_out_q y) as [|o q] eqn:Eo; [done|].
    cbn [length Nat.eqb]. by destruct (length (filter _ _) =? 0)%nat.
Qed.

End both.
