(* ===== verification/Ncld.v ===== *)
(** * Ncld: the synchronous layer of the CLD client (lib/cldc.c, include/ncld.h)

    [ncld_*] turns the callbacks of [Cldc] into blocking calls.  A session has
    a helper thread, which runs the timer and receives packets, a mutex, and
    one condition variable on which every blocked call sleeps; the callback of
    a call marks it done and wakes everybody.

    The model is the interleaving of the helper with any number of application
    threads.  A section under the mutex is one step, and so is each access the
    code makes without it.  [g_cond_wait] is a state of its own: a sleeping
    thread runs again only after a broadcast (or a spurious wake-up).  A step
    is [None] when it touches freed memory, aborts, or the library does.

    The library's requests to its application are read off its trace, in
    order, when its call returns; what the callbacks read of the library does
    not change in between.  Packets the library sends are in the trace; what
    [pkt_send] and the callbacks return to it is the oracle's choice.  The
    session event function of the application is recorded, not run. *)

From S2P Require Import Prelude Dirent Wire Timer Cldc Transport.
#[local] Open Scope Z_scope.

(** ** Data *)

Record ncld_fh : Type := mkNfh {
  nf_fh : option nat;               (* the library's handle *)
  nf_is_open : bool;
  nf_errc : Z;
  nf_nios : Z;
  nf_event_mask : Z }.

(** [nr_ptr]: whether [ptr] is set; it points into the session's payload
    buffer.  The name in [meta] is a pointer into the session, too. *)
Record ncld_read : Type := mkNread {
  nr_ptr : bool;
  nr_length : Z;
  nr_meta : option get_resp;
  nr_fh : nat;
  nr_is_done : bool;
  nr_errc : Z }.

Record ncld_genio : Type := mkGenio { gi_fh : nat; gi_is_done : bool; gi_errc : Z }.
Record ncld_delio : Type := mkDelio { di_is_done : bool; di_errc : Z }.

(** What a waiting call points to. *)
Inductive nobj : Type := ORead (r : ncld_read) | OGenio (g : ncld_genio) | ODelio (d : ncld_delio).

(** The callbacks the layer passes to the library, with their [private]. *)
Inductive ncld_cb : Type :=
| ncld_new_sess
| ncld_open_cb (fh : nat)
| ncld_del_cb (dp : nat)
| ncld_read_cb (rp : nat)
| ncld_read_meta_cb (rp : nat)
| ncld_genio_cb (ap : nat)
| ncld_close_cb (fh : nat).

(** [copts.cb] and [copts.private] as the number the library keeps. *)
Definition copts_of_cb (cb : ncld_cb) : Z :=
  match cb with
  | ncld_new_sess => 0
  | ncld_open_cb p => 8 * Z.of_nat p + 1
  | ncld_del_cb p => 8 * Z.of_nat p + 2
  | ncld_read_cb p => 8 * Z.of_nat p + 3
  | ncld_read_meta_cb p => 8 * Z.of_nat p + 4
  | ncld_genio_cb p => 8 * Z.of_nat p + 5
  | ncld_close_cb p => 8 * Z.of_nat p + 6
  end.

Definition cb_of_copts (z : Z) : option ncld_cb :=
  let p := Z.to_nat (z / 8) in
  if z mod 8 =? 0 then Some ncld_new_sess else
  if z mod 8 =? 1 then Some (ncld_open_cb p) else
  if z mod 8 =? 2 then Some (ncld_del_cb p) else
  if z mod 8 =? 3 then Some (ncld_read_cb p) else
  if z mod 8 =? 4 then Some (ncld_read_meta_cb p) else
  if z mod 8 =? 5 then Some (ncld_genio_cb p) else
  if z mod 8 =? 6 then Some (ncld_close_cb p) else None.

(** ** Threads *)

(** Calls with a [struct ncld_genio]. *)
Inductive genio_op : Type := GWrite (data : option bytes) | GTrylock | GUnlock | GQlock.

Inductive ncall : Type :=
| CallOpen (fname : bytes) (mode events : Z)
| CallDel (fname : bytes)
| CallGet (fh : nat) (meta : bool)
| CallGenio (fh : nat) (o : genio_op)
| CallClose (fh : nat) (in_sess : bool)      (* from [ncld_sess_close]? *)
| CallSessClose.

(** What a thread waits for; [fh] is the argument of its call, [q] tells that
    the call is [ncld_qlock]. *)
Inductive nwait : Type :=
| WSess
| WOpen (fh : nat)
| WDel (dp : nat)
| WRead (fh rp : nat)
| WGenio (fh : nat) (q : bool) (ap : nat)
| WClose (fh : nat) (in_sess : bool)
| WNios (fh : nat) (in_sess : bool).

Inductive nresult : Type := RVoid | RInt (rc : Z) | RPtr (p : nat) | RErr (error : Z).

(** The last lines of [ncld_sess_close], which are those of a failed
    [ncld_sess_open]. *)
Inductive nend : Type := EndKill | EndThread | EndJoin | EndFree.

Inductive tstate : Type :=
| Start (c : ncall)
| Issue (c : ncall) (obj : nat)              (* about to take the mutex and call the library *)
| Waiting (k : nwait)                        (* about to take the mutex and test *)
| Asleep (k : nwait)                         (* in [g_cond_wait] *)
| Linking (fh : nat)
| Freeing (fh : nat) (in_sess : bool)
| Ending (error : option Z) (e : nend)
| Returned (r : nresult).

(** The helper: at the top of its loop, in [poll], with descriptors ready. *)
Inductive hstate : Type := HTop | HPoll (tmo : Z) | HReady (r0 r1 : bool) | HExited.

(** [struct ncld_sess], what it points to, and the threads. *)
Record nworld : Type := mkNw {
  nw_live : bool;
  nw_is_up : bool;
  nw_open_done : bool;
  nw_errc : Z;
  nw_handles : list nat;
  nw_pipe : bytes;                           (* [to_thread] *)
  nw_addr : bytes;
  nw_tcp : cldc_tcp;
  nw_tlist : timers;
  nw_event : bool;                           (* is there an event function? *)
  nw_events : list Z;                        (* what it has been called with *)
  nw_cli : cli;
  nw_fhs : gmap nat ncld_fh;
  nw_objs : gmap nat nobj;
  nw_next : nat;
  nw_helper : hstate;
  nw_app : gmap nat tstate }.

Definition set_nw_live x w := mkNw x (nw_is_up w) (nw_open_done w) (nw_errc w) (nw_handles w) (nw_pipe w) (nw_addr w) (nw_tcp w) (nw_tlist w) (nw_event w) (nw_events w) (nw_cli w) (nw_fhs w) (nw_objs w) (nw_next w) (nw_helper w) (nw_app w).
Definition set_nw_is_up x w := mkNw (nw_live w) x (nw_open_done w) (nw_errc w) (nw_handles w) (nw_pipe w) (nw_addr w) (nw_tcp w) (nw_tlist w) (nw_event w) (nw_events w) (nw_cli w) (nw_fhs w) (nw_objs w) (nw_next w) (nw_helper w) (nw_app w).
Definition set_nw_open_done x e w := mkNw (nw_live w) (nw_is_up w) x e (nw_handles w) (nw_pipe w) (nw_addr w) (nw_tcp w) (nw_tlist w) (nw_event w) (nw_events w) (nw_cli w) (nw_fhs w) (nw_objs w) (nw_next w) (nw_helper w) (nw_app w).
Definition set_nw_handles x w := mkNw (nw_live w) (nw_is_up w) (nw_open_done w) (nw_errc w) x (nw_pipe w) (nw_addr w) (nw_tcp w) (nw_tlist w) (nw_event w) (nw_events w) (nw_cli w) (nw_fhs w) (nw_objs w) (nw_next w) (nw_helper w) (nw_app w).
Definition set_nw_pipe x w := mkNw (nw_live w) (nw_is_up w) (nw_open_done w) (nw_errc w) (nw_handles w) x (nw_addr w) (nw_tcp w) (nw_tlist w) (nw_event w) (nw_events w) (nw_cli w) (nw_fhs w) (nw_objs w) (nw_next w) (nw_helper w) (nw_app w).
Definition set_nw_tcp x w := mkNw (nw_live w) (nw_is_up w) (nw_open_done w) (nw_errc w) (nw_handles w) (nw_pipe w) (nw_addr w) x (nw_tlist w) (nw_event w) (nw_events w) (nw_cli w) (nw_fhs w) (nw_objs w) (nw_next w) (nw_helper w) (nw_app w).
Definition set_nw_tlist x w := mkNw (nw_live w) (nw_is_up w) (nw_open_done w) (nw_errc w) (nw_handles w) (nw_pipe w) (nw_addr w) (nw_tcp w) x (nw_event w) (nw_events w) (nw_cli w) (nw_fhs w) (nw_objs w) (nw_next w) (nw_helper w) (nw_app w).
Definition set_nw_events x w := mkNw (nw_live w) (nw_is_up w) (nw_open_done w) (nw_errc w) (nw_handles w) (nw_pipe w) (nw_addr w) (nw_tcp w) (nw_tlist w) (nw_event w) x (nw_cli w) (nw_fhs w) (nw_objs w) (nw_next w) (nw_helper w) (nw_app w).
Definition set_nw_cli x w := mkNw (nw_live w) (nw_is_up w) (nw_open_done w) (nw_errc w) (nw_handles w) (nw_pipe w) (nw_addr w) (nw_tcp w) (nw_tlist w) (nw_event w) (nw_events w) x (nw_fhs w) (nw_objs w) (nw_next w) (nw_helper w) (nw_app w).
Definition set_nw_fhs x w := mkNw (nw_live w) (nw_is_up w) (nw_open_done w) (nw_errc w) (nw_handles w) (nw_pipe w) (nw_addr w) (nw_tcp w) (nw_tlist w) (nw_event w) (nw_events w) (nw_cli w) x (nw_objs w) (nw_next w) (nw_helper w) (nw_app w).
Definition set_nw_objs x w := mkNw (nw_live w) (nw_is_up w) (nw_open_done w) (nw_errc w) (nw_handles w) (nw_pipe w) (nw_addr w) (nw_tcp w) (nw_tlist w) (nw_event w) (nw_events w) (nw_cli w) (nw_fhs w) x (nw_next w) (nw_helper w) (nw_app w).
Definition set_nw_next x w := mkNw (nw_live w) (nw_is_up w) (nw_open_done w) (nw_errc w) (nw_handles w) (nw_pipe w) (nw_addr w) (nw_tcp w) (nw_tlist w) (nw_event w) (nw_events w) (nw_cli w) (nw_fhs w) (nw_objs w) x (nw_helper w) (nw_app w).
Definition set_nw_helper x w := mkNw (nw_live w) (nw_is_up w) (nw_open_done w) (nw_errc w) (nw_handles w) (nw_pipe w) (nw_addr w) (nw_tcp w) (nw_tlist w) (nw_event w) (nw_events w) (nw_cli w) (nw_fhs w) (nw_objs w) (nw_next w) x (nw_app w).
Definition set_nw_app x w := mkNw (nw_live w) (nw_is_up w) (nw_open_done w) (nw_errc w) (nw_handles w) (nw_pipe w) (nw_addr w) (nw_tcp w) (nw_tlist w) (nw_event w) (nw_events w) (nw_cli w) (nw_fhs w) (nw_objs w) (nw_next w) (nw_helper w) x.

Definition NCLD_CMD_END : Z := 0.
Definition NCLD_CMD_SESEV : Z := 1.
Definition EBUSY : Z := 16.

(** ** Callbacks of the library, under the mutex *)

(** [g_cond_broadcast] *)
Definition wake (s : tstate) : tstate := match s with Asleep k => Waiting k | s => s end.
Definition broadcast (w : nworld) : nworld := set_nw_app (wake <$> nw_app w) w.

Definition with_fh (p : nat) (f : ncld_fh -> ncld_fh) (w : nworld) : option nworld :=
  match nw_fhs w !! p with Some x => Some (set_nw_fhs (<[p := f x]> (nw_fhs w)) w) | None => None end.
Definition with_read (p : nat) (f : ncld_read -> ncld_read) (w : nworld) : option nworld :=
  match nw_objs w !! p with Some (ORead x) => Some (set_nw_objs (<[p := ORead (f x)]> (nw_objs w)) w) | _ => None end.
Definition with_genio (p : nat) (f : ncld_genio -> ncld_genio) (w : nworld) : option nworld :=
  match nw_objs w !! p with Some (OGenio x) => Some (set_nw_objs (<[p := OGenio (f x)]> (nw_objs w)) w) | _ => None end.
Definition with_delio (p : nat) (f : ncld_delio -> ncld_delio) (w : nworld) : option nworld :=
  match nw_objs w !! p with Some (ODelio x) => Some (set_nw_objs (<[p := ODelio (f x)]> (nw_objs w)) w) | _ => None end.

(** Dereferences. *)
Definition get_read (p : nat) (w : nworld) : option ncld_read :=
  match nw_objs w !! p with Some (ORead x) => Some x | _ => None end.
Definition get_genio (p : nat) (w : nworld) : option ncld_genio :=
  match nw_objs w !! p with Some (OGenio x) => Some x | _ => None end.
Definition get_delio (p : nat) (w : nworld) : option ncld_delio :=
  match nw_objs w !! p with Some (ODelio x) => Some x | _ => None end.

(** [fh->sess->cond] goes through the handle. *)
Definition fh_broadcast (p : nat) (w : nworld) : option nworld :=
  match nw_fhs w !! p with Some _ => Some (broadcast w) | None => None end.

(** [cldc_copts_get_data] and [cldc_copts_get_metadata] on the completed
    message. *)
Definition read_done (meta : bool) (r : get_resp) (x : ncld_read) : ncld_read :=
  mkNread (negb meta) (if meta then 0 else cr_data_len r) (Some r) (nr_fh x) true (nr_errc x).

Definition run_read_cb (meta : bool) (rp msg : nat) (errc : Z) (w : nworld) : option nworld :=
  rd ← get_read rp w;
  w ← (if errc =? 0
       then m ← c_msgs (nw_cli w) !! msg; with_read rp (read_done meta (co_resp (m_copts m))) w
       else with_read rp (fun x => mkNread (nr_ptr x) (nr_length x) (nr_meta x) (nr_fh x) true errc) w);
  fh_broadcast (nr_fh rd) w.

Definition do_new_sess (errc : Z) (w : nworld) : nworld :=
  let w := set_nw_open_done true errc w in
  broadcast (if errc =? 0 then set_nw_is_up true w else w).

Definition do_open_cb (fh : nat) (errc : Z) (w : nworld) : option nworld :=
  w ← with_fh fh (fun x => mkNfh (nf_fh x) true errc (nf_nios x) (nf_event_mask x)) w;
  Some (broadcast w).

Definition do_del_cb (dp : nat) (errc : Z) (w : nworld) : option nworld :=
  w ← with_delio dp (fun x => mkDelio true errc) w; Some (broadcast w).

Definition do_genio_cb (ap : nat) (errc : Z) (w : nworld) : option nworld :=
  g ← get_genio ap w;
  w ← with_genio ap (fun x => mkGenio (gi_fh x) true errc) w;
  fh_broadcast (gi_fh g) w.

Definition do_close_cb (fh : nat) (errc : Z) (w : nworld) : option nworld :=
  w ← with_fh fh (fun x => mkNfh (nf_fh x) false errc (nf_nios x) (nf_event_mask x)) w;
  Some (broadcast w).

Definition run_ncld_cb (cb : ncld_cb) (msg : nat) (errc : Z) (w : nworld) : option nworld :=
  match cb with
  | ncld_new_sess => Some (do_new_sess errc w)
  | ncld_open_cb fh => do_open_cb fh errc w
  | ncld_del_cb dp => do_del_cb dp errc w
  | ncld_read_cb rp => run_read_cb false rp msg errc w
  | ncld_read_meta_cb rp => run_read_cb true rp msg errc w
  | ncld_genio_cb ap => do_genio_cb ap errc w
  | ncld_close_cb fh => do_close_cb fh errc w
  end.

(** The lost session is reported through the pipe, from outside the mutex. *)
Definition ncld_p_event (what : Z) (w : nworld) : nworld :=
  if negb (what =? CE_SESS_FAILED) then w else
  if negb (nw_is_up w) then w else
  set_nw_pipe (nw_pipe w ++ [NCLD_CMD_SESEV] ++ le_bytes 4 what) (set_nw_is_up false w).

Definition run_eff (e : eff) (w : nworld) : option nworld :=
  match e with
  | Sent _ _ | TimerCtl _ _ => Some w
  | Event _ what => Some (ncld_p_event what w)
  | Complete msg cb errc =>
      match cb_of_copts cb with Some cb => run_ncld_cb cb msg errc w | None => None end
  end.

Fixpoint run_effs (l : list eff) (w : nworld) : option nworld :=
  match l with
  | [] => Some w
  | e :: l => w ← run_eff e w; run_effs l w
  end.

(** [ncld_p_timer_ctl]: the session's one timer has number 0. *)
Definition ncld_p_timer_ctl (now : Z) (e : eff) : option timer_op :=
  match e with
  | TimerCtl true secs => Some (TAdd 0 (now + secs))
  | TimerCtl false _ => Some (TDel 0)
  | _ => None
  end.

(** What a computation of the library has asked for. *)
Definition asked (c c' : cli) : list eff := drop (length (c_trace c)) (c_trace c').

(** A call into the library, under the mutex. *)
Definition lib_call {A} (m : C A) (w : nworld) : option (A * nworld) :=
  match m (nw_cli w) with
  | None => None
  | Some (a, c') =>
      let l := asked (nw_cli w) c' in
      let tl := foldl run_timer_op (nw_tlist w) (omap (ncld_p_timer_ctl (c_now (nw_cli w))) l) in
      w ← run_effs l (set_nw_tlist tl (set_nw_cli c' w));
      Some (a, w)
  end.

Section ncld.
Context {XL : XdrLib} {XC : XdrCli} {HL : HmacLib}.

(** ** The helper thread *)

(** Is the timer due? *)
Definition timer_due (now : Z) (tl : timers) : bool :=
  match tl_list tl with [] => false | p :: _ => negb (now <? expires tl p) end.

(** [cld_timers_run] with [ncld_tcp_timer_event], which calls [sess_timer]:
    the timer is armed again for a later second, so it fires once. *)
Definition thr_timers (w : nworld) : option nworld :=
  let now := c_now (nw_cli w) in
  if timer_due now (nw_tlist w) then
    match sess_timer (nw_cli w) with
    | None => None
    | Some (_, c') =>
        let l := asked (nw_cli w) c' in
        match cld_timers_run (fun _ _ => omap (ncld_p_timer_ctl now) l) now (nw_tlist w) with
        | None => None
        | Some (tmo, tl) => run_effs l (set_nw_helper (HPoll tmo) (set_nw_tlist tl (set_nw_cli c' w)))
        end
    end
  else
    match cld_timers_run (fun _ _ => []) now (nw_tlist w) with
    | None => None
    | Some (tmo, tl) => Some (set_nw_helper (HPoll tmo) (set_nw_tlist tl w))
    end.

(** [r]: what is left to do after it. *)
Definition ncld_thread_command (r : hstate) (w : nworld) : option nworld :=
  match nw_pipe w with
  | [] => None
  | cmd :: pipe =>
      if cmd =? NCLD_CMD_END then Some (set_nw_helper HExited (set_nw_pipe pipe w)) else
      if cmd =? NCLD_CMD_SESEV then
        let w := set_nw_pipe (drop 4 pipe) w in
        if (length pipe <? 4)%nat then Some (set_nw_helper HExited w) else
        let w := if nw_event w then set_nw_events (nw_events w ++ [le_val (take 4 pipe)]) w else w in
        Some (set_nw_helper r w)
      else None
  end.

(** [cldc_receive_pkt] as the TCP layer calls it; [None] once undefined. *)
Definition tcp_receive (addr pkt : bytes) (y : option cli) : Z * option cli :=
  match y with
  | None => (0, None)
  | Some c => match cldc_receive_pkt addr pkt c with Some (rc, c') => (rc, Some c') | None => (0, None) end
  end.

Definition thr_receive (l1 l2 : Z + nat) (w : nworld) : option nworld :=
  match cldc_tcp_receive_pkt_data (tcp_receive (nw_addr w)) l1 l2 (nw_tcp w) (Some (nw_cli w)) with
  | Some (_, t, Some c') =>
      let l := asked (nw_cli w) c' in
      let tl := foldl run_timer_op (nw_tlist w) (omap (ncld_p_timer_ctl (c_now (nw_cli w))) l) in
      run_effs l (set_nw_helper HTop (set_nw_tlist tl (set_nw_tcp t (set_nw_cli c' w))))
  | _ => None
  end.

(** One step of [ncld_sess_thr].  [r0], [r1]: what [poll] finds ready ([r0]
    only if the pipe holds something); [l1], [l2]: the reads from the socket. *)
Definition ncld_sess_thr (r0 r1 : bool) (l1 l2 : Z + nat) (w : nworld) : option nworld :=
  match nw_helper w with
  | HTop => thr_timers w
  | HPoll _ => Some (set_nw_helper (HReady (r0 && negb (length (nw_pipe w) =? 0)%nat) r1) w)
  | HReady true r1 => ncld_thread_command (if r1 then HReady false true else HTop) w
  | HReady false true => thr_receive l1 l2 w
  | HReady false false => Some (set_nw_helper HTop w)
  | HExited => Some w
  end.

(** ** The calls *)

Definition set_thread (t : nat) (s : tstate) (w : nworld) : nworld := set_nw_app (<[t := s]> (nw_app w)) w.

(** A fresh object; [malloc] may fail. *)
Definition nw_malloc (w : nworld) : bool * nworld :=
  match c_malloc_ok (nw_cli w) with
  | Some (ok, c) => (ok, set_nw_cli c w)
  | None => (false, w)
  end.
Definition nw_fresh (w : nworld) : nat * nworld := (nw_next w, set_nw_next (S (nw_next w)) w).

(** *** Up to taking the mutex *)

Definition ncld_open_start (t : nat) (fname : bytes) (mode events : Z) (w : nworld) : option nworld :=
  if negb (nw_is_up w) then Some (set_thread t (Returned (RErr EBUSY)) w) else
  let '(ok, w) := nw_malloc w in
  if negb ok then Some (set_thread t (Returned (RErr ENOMEM)) w) else
  let '(p, w) := nw_fresh w in
  Some (set_thread t (Issue (CallOpen fname mode events) p)
          (set_nw_fhs (<[p := mkNfh None false 0 0 events]> (nw_fhs w)) w)).

Definition ncld_del_start (t : nat) (fname : bytes) (w : nworld) : option nworld :=
  if negb (nw_is_up w) then Some (set_thread t (Returned (RInt (- EBUSY))) w) else
  let '(p, w) := nw_fresh w in
  Some (set_thread t (Issue (CallDel fname) p) (set_nw_objs (<[p := ODelio (mkDelio false 0)]> (nw_objs w)) w)).

(** [ncld_get], and [ncld_get_meta] if [meta]. *)
Definition ncld_get_start (t fh : nat) (meta : bool) (w : nworld) : option nworld :=
  f ← nw_fhs w !! fh;
  if negb (nf_is_open f) then Some (set_thread t (Returned (RErr EBUSY)) w) else
  let '(ok, w) := nw_malloc w in
  if negb ok then Some (set_thread t (Returned (RErr ENOMEM)) w) else
  let '(p, w) := nw_fresh w in
  Some (set_thread t (Issue (CallGet fh meta) p)
          (set_nw_objs (<[p := ORead (mkNread false 0 None fh false 0)]> (nw_objs w)) w)).

(** [ncld_write], [ncld_trylock], [ncld_unlock] and [ncld_qlock] differ in the
    call they make of the library. *)
Definition ncld_genio_start (t fh : nat) (o : genio_op) (w : nworld) : option nworld :=
  f ← nw_fhs w !! fh;
  if negb (nf_is_open f) then Some (set_thread t (Returned (RInt (- EBUSY))) w) else
  let '(p, w) := nw_fresh w in
  Some (set_thread t (Issue (CallGenio fh o) p) (set_nw_objs (<[p := OGenio (mkGenio fh false 0)]> (nw_objs w)) w)).

Definition ncld_close_start (t fh : nat) (in_sess : bool) (w : nworld) : option nworld :=
  f ← nw_fhs w !! fh;
  if negb (nf_is_open f) then None else Some (set_thread t (Issue (CallClose fh in_sess) fh) w).

Definition ncld_sess_close_start (t : nat) (w : nworld) : option nworld :=
  match nw_handles w with
  | fh :: _ => Some (set_thread t (Start (CallClose fh true)) w)
  | [] => Some (set_thread t (Ending None EndKill) w)
  end.

Definition start_call (t : nat) (c : ncall) (w : nworld) : option nworld :=
  match c with
  | CallOpen fname mode events => ncld_open_start t fname mode events w
  | CallDel fname => ncld_del_start t fname w
  | CallGet fh meta => ncld_get_start t fh meta w
  | CallGenio fh o => ncld_genio_start t fh o w
  | CallClose fh in_sess => ncld_close_start t fh in_sess w
  | CallSessClose => ncld_sess_close_start t w
  end.

Definition add_nios (n : Z) (x : ncld_fh) : ncld_fh :=
  mkNfh (nf_fh x) (nf_is_open x) (nf_errc x) (nf_nios x + n) (nf_event_mask x).

Definition genio_call (o : genio_op) (fp : nat) (copts : option Z) : C Z :=
  match o with
  | GWrite data => cldc_put fp copts data
  | GTrylock => cldc_lock fp copts 0 false
  | GUnlock => cldc_unlock fp copts
  | GQlock => cldc_lock fp copts 0 true
  end.

Definition is_qlock (o : genio_op) : bool := match o with GQlock => true | _ => false end.

(** *** Under the mutex: the call of the library *)

Definition ncld_open_issue (t : nat) (fname : bytes) (mode events : Z) (p : nat) (w : nworld) : option nworld :=
  '((rc, fp), w) ← lib_call (cldc_open (Some (copts_of_cb (ncld_open_cb p))) fname mode events) w;
  w ← with_fh p (fun x => mkNfh fp (nf_is_open x) (nf_errc x) (nf_nios x) (nf_event_mask x)) w;
  if negb (rc =? 0)
  then Some (set_thread t (Returned (RErr (- rc))) (set_nw_fhs (delete p (nw_fhs w)) w))
  else Some (set_thread t (Waiting (WOpen p)) w).

Definition ncld_del_issue (t : nat) (fname : bytes) (p : nat) (w : nworld) : option nworld :=
  '(rc, w) ← lib_call (cldc_del (Some (copts_of_cb (ncld_del_cb p))) fname) w;
  if negb (rc =? 0)
  then Some (set_thread t (Returned (RInt (- rc))) (set_nw_objs (delete p (nw_objs w)) w))
  else Some (set_thread t (Waiting (WDel p)) w).

Definition ncld_get_issue (t fh : nat) (meta : bool) (p : nat) (w : nworld) : option nworld :=
  f ← nw_fhs w !! fh; fp ← nf_fh f;
  '(rc, w) ← lib_call (cldc_get fp (Some (copts_of_cb (if meta then ncld_read_meta_cb p else ncld_read_cb p))) meta) w;
  if negb (rc =? 0)
  then Some (set_thread t (Returned (RErr (- rc))) (set_nw_objs (delete p (nw_objs w)) w))
  else w ← with_fh fh (add_nios 1) w; Some (set_thread t (Waiting (WRead fh p)) w).

Definition ncld_genio_issue (t fh : nat) (o : genio_op) (p : nat) (w : nworld) : option nworld :=
  f ← nw_fhs w !! fh; fp ← nf_fh f;
  '(rc, w) ← lib_call (genio_call o fp (Some (copts_of_cb (ncld_genio_cb p)))) w;
  if negb (rc =? 0)
  then Some (set_thread t (Returned (RInt (- rc))) (set_nw_objs (delete p (nw_objs w)) w))
  else w ← with_fh fh (add_nios 1) w; Some (set_thread t (Waiting (WGenio fh (is_qlock o) p)) w).

Definition ncld_close_issue (t fh : nat) (in_sess : bool) (w : nworld) : option nworld :=
  f ← nw_fhs w !! fh; fp ← nf_fh f;
  '(rc, w) ← lib_call (cldc_close fp (Some (copts_of_cb (ncld_close_cb fh)))) w;
  Some (set_thread t (Waiting (if rc =? 0 then WClose fh in_sess else WNios fh in_sess)) w).

Definition issue_call (t : nat) (c : ncall) (p : nat) (w : nworld) : option nworld :=
  match c with
  | CallOpen fname mode events => ncld_open_issue t fname mode events p w
  | CallDel fname => ncld_del_issue t fname p w
  | CallGet fh meta => ncld_get_issue t fh meta p w
  | CallGenio fh o => ncld_genio_issue t fh o p w
  | CallClose fh in_sess => ncld_close_issue t fh in_sess w
  | CallSessClose => Some w
  end.

(** The value of a finished [ncld_wait_genio] to the caller. *)
Definition genio_result (q : bool) (rc : Z) : Z :=
  if rc =? 0 then 0 else if q && (rc =? cle_code CLE_LOCK_PENDING) then 1 else rc + 1100.

(** *** The loops around [g_cond_wait], and what follows them *)

Definition sleep (t : nat) (k : nwait) (w : nworld) : option nworld := Some (set_thread t (Asleep k) w).

Definition ncld_wait_session (t : nat) (w : nworld) : option nworld :=
  if negb (nw_open_done w) then sleep t WSess w else
  if nw_errc w =? 0 then Some (set_thread t (Returned (RPtr 0)) w)
  else Some (set_thread t (Ending (Some (1100 + Z.rem (nw_errc w) 1000)) EndKill) w).

Definition ncld_wait_open (t fh : nat) (w : nworld) : option nworld :=
  f ← nw_fhs w !! fh;
  if negb (nf_is_open f) then sleep t (WOpen fh) w else
  if nf_errc f =? 0 then Some (set_thread t (Linking fh) w)
  else Some (set_thread t (Returned (RErr (1100 + nf_errc f))) (set_nw_fhs (delete fh (nw_fhs w)) w)).

Definition ncld_wait_del (t dp : nat) (w : nworld) : option nworld :=
  d ← get_delio dp w;
  if negb (di_is_done d) then sleep t (WDel dp) w else
  Some (set_thread t (Returned (RInt (if di_errc d =? 0 then 0 else di_errc d + 1100)))
          (set_nw_objs (delete dp (nw_objs w)) w)).

Definition ncld_wait_read (t fh rp : nat) (w : nworld) : option nworld :=
  rd ← get_read rp w;
  if negb (nr_is_done rd) then sleep t (WRead fh rp) w else
  w ← with_fh (nr_fh rd) (add_nios (-1)) w;
  if nr_errc rd =? 0 then Some (set_thread t (Returned (RPtr rp)) w)
  else Some (set_thread t (Returned (RErr (nr_errc rd + 1100))) (set_nw_objs (delete rp (nw_objs w)) w)).

Definition ncld_wait_genio (t fh : nat) (q : bool) (ap : nat) (w : nworld) : option nworld :=
  g ← get_genio ap w;
  if negb (gi_is_done g) then sleep t (WGenio fh q ap) w else
  w ← with_fh (gi_fh g) (add_nios (-1)) w;
  Some (set_thread t (Returned (RInt (genio_result q (gi_errc g)))) (set_nw_objs (delete ap (nw_objs w)) w)).

Definition ncld_wait_close (t fh : nat) (in_sess : bool) (w : nworld) : option nworld :=
  f ← nw_fhs w !! fh;
  if nf_is_open f then sleep t (WClose fh in_sess) w else Some (set_thread t (Waiting (WNios fh in_sess)) w).

Definition ncld_wait_nios (t fh : nat) (in_sess : bool) (w : nworld) : option nworld :=
  f ← nw_fhs w !! fh;
  if negb (nf_nios f =? 0) then sleep t (WNios fh in_sess) w else Some (set_thread t (Freeing fh in_sess) w).

Definition wait_call (t : nat) (k : nwait) (w : nworld) : option nworld :=
  match k with
  | WSess => ncld_wait_session t w
  | WOpen fh => ncld_wait_open t fh w
  | WDel dp => ncld_wait_del t dp w
  | WRead fh rp => ncld_wait_read t fh rp w
  | WGenio fh q ap => ncld_wait_genio t fh q ap w
  | WClose fh in_sess => ncld_wait_close t fh in_sess w
  | WNios fh in_sess => ncld_wait_nios t fh in_sess w
  end.

(** [cldc_kill_sess], without the mutex; [ncld_thr_end]; the rest. *)
Definition end_sess_step (t : nat) (err : option Z) (e : nend) (w : nworld) : option nworld :=
  match e with
  | EndKill => '(_, w) ← lib_call cldc_kill_sess w; Some (set_thread t (Ending err EndThread) w)
  | EndThread => Some (set_thread t (Ending err EndJoin) (set_nw_pipe (nw_pipe w ++ [NCLD_CMD_END]) w))
  | EndJoin =>
      match nw_helper w with
      | HExited => Some (set_thread t (Ending err EndFree) w)
      | _ => Some w
      end
  | EndFree => Some (set_thread t (Returned (match err with Some x => RErr x | None => RVoid end)) (set_nw_live false w))
  end.

(** The list of handles, without the mutex. *)
Definition ncld_open_link (t fh : nat) (w : nworld) : option nworld :=
  Some (set_thread t (Returned (RPtr fh)) (set_nw_handles (fh :: nw_handles w) w)).

Definition ncld_close_free (t fh : nat) (in_sess : bool) (w : nworld) : option nworld :=
  _ ← nw_fhs w !! fh;
  let w := set_nw_handles (filter (fun p => p <> fh) (nw_handles w)) w in
  let w := set_nw_fhs (delete fh (nw_fhs w)) w in
  Some (set_thread t (if in_sess then Start CallSessClose else Returned RVoid) w).

Definition thread_step (t : nat) (w : nworld) : option nworld :=
  match nw_app w !! t with
  | None | Some (Returned _) | Some (Asleep _) => Some w
  | Some s =>
      if negb (nw_live w) then None else
      match s with
      | Start c => start_call t c w
      | Issue c p => issue_call t c p w
      | Waiting k => wait_call t k w
      | Linking fh => ncld_open_link t fh w
      | Freeing fh in_sess => ncld_close_free t fh in_sess w
      | Ending err e => end_sess_step t err e w
      | _ => Some w
      end
  end.

(** ** Runs *)

Inductive nev : Type :=
| EvTime (t : Z)                                      (* the clock *)
| EvArrive (b : bytes)                                (* bytes from the server *)
| EvHelper (r0 r1 : bool) (l1 l2 : Z + nat)
| EvThread (t : nat)
| EvCall (t : nat) (c : ncall)                        (* an idle thread makes a call *)
| EvSpurious (t : nat).                               (* [g_cond_wait] returns by itself *)

Definition idle (s : option tstate) : bool := match s with None | Some (Returned _) => true | _ => false end.

Definition tcp_arrive (b : bytes) (t : cldc_tcp) : cldc_tcp :=
  mkTcp (ct_ubbp t) (ct_ubbp_read t) (ct_raw_size t) (ct_raw_read t) (ct_buf t) (ct_rx t ++ b).

Definition nstep (e : nev) (w : nworld) : option nworld :=
  match e with
  | EvTime t => Some (set_nw_cli (set_c_now t (nw_cli w)) w)
  | EvArrive b => Some (set_nw_tcp (tcp_arrive b (nw_tcp w)) w)
  | EvHelper r0 r1 l1 l2 => ncld_sess_thr r0 r1 l1 l2 w
  | EvThread t => thread_step t w
  | EvCall t c => Some (if idle (nw_app w !! t) then set_thread t (Start c) w else w)
  | EvSpurious t =>
      Some (match nw_app w !! t with Some (Asleep k) => set_thread t (Waiting k) w | _ => w end)
  end.

Fixpoint nrun (l : list nev) (w : nworld) : option nworld :=
  match l with
  | [] => Some w
  | e :: l => w ← nstep e w; nrun l w
  end.

(** ** Opening a session *)

(** The hosts [cldc_getaddr] found, as pointers into a heap of strings: the
    first one is chosen, and all of them are freed.  [inr]: the chosen
    pointer, its port, and the heap afterwards. *)
Definition ncld_getsrv (gethostname : option Z) (getaddr : option (list (nat * Z))) (strs : gmap nat bytes)
  : option (Z + nat * Z * gmap nat bytes) :=
  match gethostname, getaddr with
  | Some errno, _ => Some (inl errno)
  | None, None => Some (inl 1001)
  | None, Some [] => None
  | None, Some ((h, port) :: l) => Some (inr (h, port, foldr (fun x => delete x.1) strs ((h, port) :: l)))
  end.

Definition ncld_gethost (strdup : option nat) (hostname : bytes) (port : Z) (strs : gmap nat bytes)
  : Z + nat * Z * gmap nat bytes :=
  if (port <=? 0) || (65536 <=? port) then inl EINVAL else
  match strdup with
  | None => inl ENOMEM
  | Some h => inr (h, port, <[h := hostname]> strs)
  end.

(** What the system calls of [ncld_sess_open] do. *)
Record open_env : Type := mkOpenEnv {
  oe_malloc : bool; oe_mutex : bool; oe_cond : bool;
  oe_gethostname : option Z;
  oe_getaddr : option (list (nat * Z));
  oe_strdup : option nat;
  oe_strs : gmap nat bytes;
  oe_pipe : option Z;
  oe_connect : bytes -> Z -> option bytes;      (* [cldc_tcp_new]: the peer's address *)
  oe_thread : bool;
  oe_now : Z;
  oe_oracle : nat -> Z }.

Definition oe_world (event : bool) (addr : bytes) (c : cli) : nworld :=
  mkNw true false false 0 [] [] addr (cldc_tcp_new []) (mkTimers [] 0 {[0%nat := cld_timer_init]} []) event [] c
    ∅ ∅ 1 HTop ∅.

(** Up to the wait: an error, or the state in which thread 0, the caller,
    waits for the session or winds up.  [host]: [None] is NULL. *)
Definition ncld_sess_open (e : open_env) (host : option bytes) (port : Z) (event : bool) (user key : option bytes)
  : option (Z + nworld) :=
  if negb (oe_malloc e && oe_mutex e && oe_cond e) then Some (inl ENOMEM) else
  srv ← (match host with
         | None => ncld_getsrv (oe_gethostname e) (oe_getaddr e) (oe_strs e)
         | Some h => Some (ncld_gethost (oe_strdup e) h port (oe_strs e))
         end);
  match srv with
  | inl err => Some (inl err)
  | inr (h, port, strs) =>
      match oe_pipe e with
      | Some errno => Some (inl errno)
      | None =>
          name ← strs !! h;
          match oe_connect e name port with
          | None => Some (inl 1023)
          | Some addr =>
              if negb (oe_thread e) then Some (inl 1022) else
              let w := oe_world event addr (mkCli None ∅ ∅ 0 (oe_now e) [] (oe_oracle e) 0) in
              '(rc, w) ← lib_call (cldc_new_sess (Some (copts_of_cb ncld_new_sess)) addr user key) w;
              Some (inr (set_thread 0 (if negb (rc =? 0) then Ending (Some 1024) EndThread else Waiting WSess) w))
          end
      end
  end.

(** [ncld_read_free] *)
Definition ncld_read_free (rp : nat) (w : nworld) : option nworld :=
  _ ← get_read rp w; Some (set_nw_objs (delete rp (nw_objs w)) w).

(** What the application finds through [rp->ptr]. *)
Definition read_data (rd : ncld_read) (w : nworld) : option bytes :=
  x ← c_sess (nw_cli w);
  if nr_ptr rd then Some (take (Z.to_nat (nr_length rd)) (cs_payload x)) else None.

End ncld.
