(* ===== verification/NcldLogic.v ===== *)
(** * NcldLogic: what the callbacks of the synchronous layer change

    [eff_rel] is what running the library's requests does to the objects and
    threads of [Ncld]; counting the threads that wait on a handle. *)

From S2P Require Import Prelude Dirent Wire Timer Cldc Transport Ncld.
#[local] Open Scope Z_scope.

(** Unfold the pieces the calls are made of. *)
Ltac open_calls :=
  unfold ncld_open_start, ncld_del_start, ncld_get_start, ncld_genio_start, ncld_close_start, ncld_sess_close_start,
    ncld_open_issue, ncld_del_issue, ncld_get_issue, ncld_genio_issue, ncld_close_issue,
    ncld_wait_session, ncld_wait_open, ncld_wait_del, ncld_wait_read, ncld_wait_genio, ncld_wait_close, ncld_wait_nios, sleep,
    ncld_open_link, ncld_close_free, do_new_sess, do_open_cb, do_del_cb, do_genio_cb, do_close_cb in *.

(** ** Views *)

Definition obj_done (o : nobj) : bool :=
  match o with ORead r => nr_is_done r | OGenio g => gi_is_done g | ODelio d => di_is_done d end.
Definition obj_errc (o : nobj) : Z :=
  match o with ORead r => nr_errc r | OGenio g => gi_errc g | ODelio d => di_errc d end.

(** What never changes: the kind of an object and the handle it belongs to. *)
Inductive nkind : Type := KRead (fh : nat) | KGenio (fh : nat) | KDelio.
Definition obj_kind (o : nobj) : nkind :=
  match o with ORead r => KRead (nr_fh r) | OGenio g => KGenio (gi_fh g) | ODelio d => KDelio end.

(** The object a callback marks done. *)
Definition cb_obj (cb : ncld_cb) : option nat :=
  match cb with
  | ncld_read_cb p | ncld_read_meta_cb p | ncld_genio_cb p | ncld_del_cb p => Some p
  | _ => None
  end.
Definition ptr_of (z : Z) : option nat := cb_of_copts z ≫= cb_obj.

(** [e] is the completion of [p], with this code. *)
Definition completes_obj (p : nat) (code : Z) (e : eff) : Prop :=
  match e with Complete _ z c => ptr_of z = Some p /\ c = code | _ => False end.

Definition fh_fixed (f : ncld_fh) : Z * option nat := (nf_nios f, nf_fh f).

Definition clean (w : nworld) : Prop := forall p o, nw_objs w !! p = Some o -> obj_done o = false -> obj_errc o = 0.

Lemma cb_roundtrip (cb : ncld_cb) : cb_of_copts (copts_of_cb cb) = Some cb.
Proof.
  assert (forall p k, 0 <= k < 8 -> (8 * Z.of_nat p + k) mod 8 = k /\ (8 * Z.of_nat p + k) / 8 = Z.of_nat p) as H.
  { intros p k Hk. split; [rewrite Z.mul_comm, Z.add_comm, Z_mod_plus_full; by apply Z.mod_small|].
    symmetry. apply (Z.div_unique _ _ _ k); lia. }
  destruct cb as [|p|p|p|p|p|p]; [done|..]; unfold cb_of_copts, copts_of_cb;
    match goal with |- context [8 * Z.of_nat p + ?k] => destruct (H p k ltac:(lia)) as [-> ->] end;
    rewrite Nat2Z.id; done.
Qed.

Lemma copts_of_cb_inj (a b : ncld_cb) : copts_of_cb a = copts_of_cb b -> a = b.
Proof. intros H. apply (f_equal cb_of_copts) in H. rewrite !cb_roundtrip in H. by injection H. Qed.

Lemma ptr_of_cb cb : ptr_of (copts_of_cb cb) = cb_obj cb.
Proof. unfold ptr_of. by rewrite cb_roundtrip. Qed.

Lemma wake_idem (m : gmap nat tstate) : wake <$> (wake <$> m) = wake <$> m.
Proof. rewrite <- map_fmap_compose. apply map_fmap_ext. by intros i [] _. Qed.

(** ** Running the library's requests *)

Record eff_rel (l : list eff) (w w' : nworld) : Prop := {
  er_frame : nw_cli w' = nw_cli w /\ nw_live w' = nw_live w /\ nw_handles w' = nw_handles w /\ nw_tcp w' = nw_tcp w /\
    nw_addr w' = nw_addr w /\ nw_tlist w' = nw_tlist w /\ nw_next w' = nw_next w /\ nw_helper w' = nw_helper w /\
    nw_event w' = nw_event w /\ nw_events w' = nw_events w;
  er_app : nw_app w' = nw_app w \/ nw_app w' = wake <$> nw_app w;
  er_quiet : (forall m z c, Complete m z c ∉ l) -> nw_app w' = nw_app w;
  er_wake m z c : Complete m z c ∈ l -> nw_app w' = wake <$> nw_app w;
  er_fhs p : fh_fixed <$> nw_fhs w' !! p = fh_fixed <$> nw_fhs w !! p;
  er_kind p : obj_kind <$> nw_objs w' !! p = obj_kind <$> nw_objs w !! p;
  er_same p : (forall c e, e ∈ l -> ~ completes_obj p c e) -> nw_objs w' !! p = nw_objs w !! p;
  er_fin p c e o : e ∈ l -> completes_obj p c e -> nw_objs w' !! p = Some o -> obj_done o = true;
  er_clean : clean w -> clean w';
  er_done p o : clean w -> nw_objs w' !! p = Some o -> obj_done o = true ->
    (exists o1, nw_objs w !! p = Some o1 /\ obj_done o1 = true /\ obj_errc o1 = obj_errc o) \/
    (exists e, e ∈ l /\ completes_obj p (obj_errc o) e);
  er_stay p o1 o : nw_objs w !! p = Some o1 -> obj_done o1 = true -> nw_objs w' !! p = Some o -> obj_done o = true }.

Lemma eff_rel_nil w : eff_rel [] w w.
Proof. split; try done; try set_solver; tauto. Qed.

Lemma eff_rel_app l1 l2 w1 w2 w3 : eff_rel l1 w1 w2 -> eff_rel l2 w2 w3 -> eff_rel (l1 ++ l2) w1 w3.
Proof.
  intros [F1 A1 Q1 W1 H1 K1 S1 N1 C1 D1 T1] [F2 A2 Q2 W2 H2 K2 S2 N2 C2 D2 T2]. split.
  - destruct_and!. split_and!; congruence.
  - destruct A1 as [A1|A1], A2 as [A2|A2]; rewrite A2, ?A1; auto. right. apply wake_idem.
  - intros H. rewrite Q2, Q1; [done|set_solver..].
  - intros m z c [H|H]%elem_of_app; [|destruct A1 as [A1|A1]; rewrite (W2 _ _ _ H), A1; auto using wake_idem].
    rewrite <- (W1 _ _ _ H). destruct A2 as [A2|A2]; rewrite A2; [done|]. by rewrite (W1 _ _ _ H), wake_idem.
  - intros p. by rewrite H2, H1.
  - intros p. by rewrite K2, K1.
  - intros p H. rewrite S2, S1; [done|set_solver..].
  - intros p c e o [H|H]%elem_of_app He Ho; [|by eapply N2]. destruct (nw_objs w2 !! p) as [o2|] eqn:E2.
    + eapply (T2 p o2); [done|by eapply N1|done].
    + specialize (K2 p). by rewrite E2, Ho in K2.
  - auto.
  - intros p o Hc Ho Hd. destruct (D2 p o (C1 Hc) Ho Hd) as [(o2 & E2 & Hd2 & He2)|(e & He & Hx)]; [|right; set_solver].
    destruct (D1 p o2 Hc E2 Hd2) as [(o1 & E1 & Hd1 & He1)|(e & He & Hx)]; [left|right].
    + exists o1. split_and!; congruence.
    + exists e. rewrite <- He2. set_solver.
  - intros p o1 o E1 Hd1 Ho. destruct (nw_objs w2 !! p) as [o2|] eqn:E2.
    + eapply (T2 p o2); [done|by eapply T1|done].
    + specialize (K2 p). by rewrite E2, Ho in K2.
Qed.

(** One object is marked done. *)
Lemma eff_rel_obj m z code p w o o' :
  ptr_of z = Some p -> nw_objs w !! p = Some o -> obj_kind o' = obj_kind o -> obj_done o' = true ->
  obj_errc o' = code \/ (code = 0 /\ obj_errc o' = obj_errc o) ->
  eff_rel [Complete m z code] w (broadcast (set_nw_objs (<[p := o']> (nw_objs w)) w)).
Proof.
  intros Hz Ho Hk Hd He. split; cbn; try done.
  - auto.
  - intros H. destruct (H m z code). by left.
  - intros q. destruct (decide (q = p)) as [->|Hn]; [|by rewrite lookup_insert_ne]. rewrite lookup_insert_eq, Ho. cbn. by rewrite Hk.
  - intros q H. destruct (decide (q = p)) as [->|Hn]; [|by rewrite lookup_insert_ne].
    destruct (H code (Complete m z code)); [by left|done].
  - intros q c e o1 ->%list_elem_of_singleton [Hq <-] Hl. assert (q = p) as -> by congruence.
    rewrite lookup_insert_eq in Hl. by injection Hl as <-.
  - intros Hc q o1. cbn. destruct (decide (q = p)) as [->|Hn]; [|rewrite lookup_insert_ne by done; apply Hc].
    rewrite lookup_insert_eq. intros [= <-]. by rewrite Hd.
  - intros q o1 Hc. destruct (decide (q = p)) as [->|Hn]; [|rewrite lookup_insert_ne by done; left; eauto].
    rewrite lookup_insert_eq. intros [= <-] _. destruct He as [He|[-> He]]; [right|].
    + eexists. split; [by left|]. done.
    + destruct (obj_done o) eqn:Hod; [left; eauto|right]. eexists. split; [by left|]. split; [done|].
      rewrite He. by rewrite (Hc _ _ Ho Hod).
  - intros q o1 o2 H1 Hd1. destruct (decide (q = p)) as [->|Hn]; [|rewrite lookup_insert_ne by done; congruence].
    rewrite lookup_insert_eq. by intros [= <-].
Qed.

(** No object is touched, but everybody is woken. *)
Lemma eff_rel_woken m z code w w' :
  ptr_of z = None -> nw_objs w' = nw_objs w -> nw_app w' = wake <$> nw_app w ->
  (forall p, fh_fixed <$> nw_fhs w' !! p = fh_fixed <$> nw_fhs w !! p) ->
  nw_cli w' = nw_cli w /\ nw_live w' = nw_live w /\ nw_handles w' = nw_handles w /\ nw_tcp w' = nw_tcp w /\
    nw_addr w' = nw_addr w /\ nw_tlist w' = nw_tlist w /\ nw_next w' = nw_next w /\ nw_helper w' = nw_helper w /\
    nw_event w' = nw_event w /\ nw_events w' = nw_events w ->
  eff_rel [Complete m z code] w w'.
Proof.
  intros Hz Ho Ha Hf Hfr. split; try done.
  - auto.
  - intros H. destruct (H m z code). by left.
  - intros p. by rewrite Ho.
  - intros p _. by rewrite Ho.
  - intros p c e o ->%list_elem_of_singleton [Hq <-]. congruence.
  - unfold clean. by rewrite Ho.
  - intros p o _. rewrite Ho. left. eauto.
  - intros p o1 o. rewrite Ho. congruence.
Qed.

(** Nobody is woken. *)
Lemma eff_rel_silent e w w' :
  (forall m z c, e <> Complete m z c) -> nw_objs w' = nw_objs w -> nw_app w' = nw_app w -> nw_fhs w' = nw_fhs w ->
  nw_cli w' = nw_cli w /\ nw_live w' = nw_live w /\ nw_handles w' = nw_handles w /\ nw_tcp w' = nw_tcp w /\
    nw_addr w' = nw_addr w /\ nw_tlist w' = nw_tlist w /\ nw_next w' = nw_next w /\ nw_helper w' = nw_helper w /\
    nw_event w' = nw_event w /\ nw_events w' = nw_events w ->
  eff_rel [e] w w'.
Proof.
  intros Hne Ho Ha Hf Hfr. split; try done.
  - auto.
  - intros m z c H%list_elem_of_singleton. by destruct (Hne m z c).
  - intros p. by rewrite Hf.
  - intros p. by rewrite Ho.
  - intros p _. by rewrite Ho.
  - intros p c e' o ->%list_elem_of_singleton He. destruct e; try done. by destruct (Hne msg cb code).
  - unfold clean. by rewrite Ho.
  - intros p o _. rewrite Ho. left. eauto.
  - intros p o1 o. rewrite Ho. congruence.
Qed.

Lemma with_fh_same p f w w' :
  with_fh p f w = Some w' -> (forall x, fh_fixed (f x) = fh_fixed x) ->
  exists m, w' = set_nw_fhs m w /\ forall q, fh_fixed <$> m !! q = fh_fixed <$> nw_fhs w !! q.
Proof.
  unfold with_fh. destruct (nw_fhs w !! p) as [x|] eqn:E; [|done]. intros [= <-] Hf. eexists. split; [done|].
  intros q. destruct (decide (q = p)) as [->|Hn]; [|by rewrite lookup_insert_ne]. rewrite lookup_insert_eq, E. cbn. by rewrite Hf.
Qed.

Lemma run_read_rel meta rp m z code w w' :
  ptr_of z = Some rp -> run_read_cb meta rp m code w = Some w' -> eff_rel [Complete m z code] w w'.
Proof.
  intros Hz. unfold run_read_cb, get_read, with_read, fh_broadcast. cbn.
  destruct (nw_objs w !! rp) as [[r| |]|] eqn:E; try done. cbn. destruct (Z.eqb_spec code 0) as [->|Hc].
  - destruct (c_msgs _ !! m) as [msg|]; [|done]. cbn. destruct (nw_fhs w !! nr_fh r); [|done]. intros [= <-].
    eapply eff_rel_obj; try done. by right.
  - cbn. destruct (nw_fhs w !! nr_fh r); [|done]. intros [= <-]. eapply eff_rel_obj; try done. by left.
Qed.

Lemma run_eff_rel e w w' : run_eff e w = Some w' -> eff_rel [e] w w'.
Proof.
  destruct e as [a pkt|add secs|fh what|m z code]; cbn [run_eff].
  - intros [= <-]. by apply eff_rel_silent.
  - intros [= <-]. by apply eff_rel_silent.
  - intros [= <-]. unfold ncld_p_event. do 2 (case_match; [by apply eff_rel_silent|]). by apply eff_rel_silent.
  - destruct (cb_of_copts z) as [cb|] eqn:Hz; [|done].
    assert (ptr_of z = cb_obj cb) as Hp by (unfold ptr_of; by rewrite Hz).
    destruct cb as [|p|p|p|p|p|p]; cbn [run_ncld_cb] in *; open_calls.
    + intros [= <-]. by apply eff_rel_woken; destruct (code =? 0).
    + destruct (with_fh _ _ w) as [w1|] eqn:E; [|done]. intros [= <-].
      apply with_fh_same in E as (fm & -> & Hm); [|done]. by apply eff_rel_woken.
    + unfold with_delio. destruct (nw_objs w !! p) as [[| |d]|] eqn:E; try done. cbn. intros [= <-].
      eapply eff_rel_obj; try done. by left.
    + by apply run_read_rel.
    + by apply run_read_rel.
    + unfold get_genio, with_genio, fh_broadcast. destruct (nw_objs w !! p) as [[|g|]|] eqn:E; try done. cbn.
      destruct (nw_fhs w !! gi_fh g); [|done]. intros [= <-]. eapply eff_rel_obj; try done. by left.
    + destruct (with_fh _ _ w) as [w1|] eqn:E; [|done]. intros [= <-].
      apply with_fh_same in E as (fm & -> & Hm); [|done]. by apply eff_rel_woken.
Qed.

Lemma run_effs_rel l w w' : run_effs l w = Some w' -> eff_rel l w w'.
Proof.
  revert w. induction l as [|e l IH]; intros w; cbn [run_effs]; [intros [= <-]; apply eff_rel_nil|].
  destruct (run_eff e w) as [w1|] eqn:E; [|done]. intros H. apply (eff_rel_app [e] l w w1 w'); [by apply run_eff_rel|by apply IH].
Qed.

(** What a completion needs to find. *)
Definition target_live (w : nworld) (m : nat) (z code : Z) : Prop :=
  match cb_of_copts z with
  | None => False
  | Some ncld_new_sess => True
  | Some (ncld_open_cb fh) | Some (ncld_close_cb fh) => is_Some (nw_fhs w !! fh)
  | Some (ncld_del_cb p) => obj_kind <$> nw_objs w !! p = Some KDelio
  | Some (ncld_read_cb p) | Some (ncld_read_meta_cb p) =>
      exists fh, obj_kind <$> nw_objs w !! p = Some (KRead fh) /\ is_Some (nw_fhs w !! fh) /\
        (code = 0 -> is_Some (c_msgs (nw_cli w) !! m))
  | Some (ncld_genio_cb p) => exists fh, obj_kind <$> nw_objs w !! p = Some (KGenio fh) /\ is_Some (nw_fhs w !! fh)
  end.

Lemma target_live_rel l w w' m z code : eff_rel l w w' -> target_live w m z code -> target_live w' m z code.
Proof.
  intros R. pose proof (er_fhs _ _ _ R) as Hf. pose proof (er_kind _ _ _ R) as Hk. destruct (er_frame _ _ _ R) as [Hc _].
  assert (forall p, is_Some (nw_fhs w !! p) -> is_Some (nw_fhs w' !! p)) as Hf'.
  { intros p [x Hx]. specialize (Hf p). rewrite Hx in Hf. destruct (nw_fhs w' !! p); [by eexists|done]. }
  unfold target_live. destruct (cb_of_copts z) as [[]|]; try done; rewrite ?Hk, ?Hc; try naive_solver.
Qed.

Lemma run_eff_total m z code w : target_live w m z code -> exists w', run_eff (Complete m z code) w = Some w'.
Proof.
  assert (forall p f, is_Some (nw_fhs w !! p) -> exists w', with_fh p f w = Some w') as Hw.
  { intros p f [x Hx]. unfold with_fh. rewrite Hx. eauto. }
  assert (forall meta p fh, obj_kind <$> nw_objs w !! p = Some (KRead fh) -> is_Some (nw_fhs w !! fh) ->
    (code = 0 -> is_Some (c_msgs (nw_cli w) !! m)) -> exists w', run_read_cb meta p m code w = Some w') as Hr.
  { intros meta p fh Hk [f Hf] Hm. unfold run_read_cb, get_read, with_read, fh_broadcast.
    destruct (nw_objs w !! p) as [[r| |]|]; try done. injection Hk as <-. cbn. destruct (Z.eqb_spec code 0) as [Hc|Hc].
    - destruct (Hm Hc) as [x ->]. cbn. rewrite Hf. eauto.
    - cbn. rewrite Hf. eauto. }
  unfold target_live. cbn [run_eff]. destruct (cb_of_copts z) as [[|p|p|p|p|p|p]|]; cbn [run_ncld_cb]; open_calls; try done.
  - eauto.
  - intros H. destruct (Hw p (fun x => mkNfh (nf_fh x) true code (nf_nios x) (nf_event_mask x)) H) as [w' ->]. cbn. eauto.
  - intros H. unfold with_delio. destruct (nw_objs w !! p) as [[]|]; try done. cbn. eauto.
  - intros (fh & H1 & H2 & H3). eauto.
  - intros (fh & H1 & H2 & H3). eauto.
  - intros (fh & H1 & [f H2]). unfold get_genio, with_genio, fh_broadcast. destruct (nw_objs w !! p) as [[]|]; try done.
    injection H1 as <-. cbn. rewrite H2. eauto.
  - intros H. destruct (Hw p (fun x => mkNfh (nf_fh x) false code (nf_nios x) (nf_event_mask x)) H) as [w' ->]. cbn. eauto.
Qed.

Lemma run_effs_total l w :
  (forall m z code, Complete m z code ∈ l -> target_live w m z code) -> exists w', run_effs l w = Some w'.
Proof.
  revert w. induction l as [|e l IH]; intros w H; cbn [run_effs]; [eauto|].
  assert (exists w1, run_eff e w = Some w1) as [w1 E].
  { destruct e; try (cbn; eauto; done). apply run_eff_total, H. by left. }
  rewrite E. cbn. apply IH. intros m z code Hin. eapply target_live_rel; [by apply run_eff_rel|]. apply H. by right.
Qed.

(** What a request does to a handle's flag and code, and to the session's. *)
Definition fh_after (fh : nat) (e : eff) (f : ncld_fh) : ncld_fh :=
  match e with
  | Complete _ z code =>
      match cb_of_copts z with
      | Some (ncld_open_cb p) => if decide (p = fh) then mkNfh (nf_fh f) true code (nf_nios f) (nf_event_mask f) else f
      | Some (ncld_close_cb p) => if decide (p = fh) then mkNfh (nf_fh f) false code (nf_nios f) (nf_event_mask f) else f
      | _ => f
      end
  | _ => f
  end.
Definition sess_after (e : eff) (w : nworld) : bool * Z :=
  match e with
  | Complete _ z code => match cb_of_copts z with Some ncld_new_sess => (true, code) | _ => (nw_open_done w, nw_errc w) end
  | _ => (nw_open_done w, nw_errc w)
  end.

Lemma with_fh_lookup p g w w' fh : with_fh p g w = Some w' ->
  nw_fhs w' !! fh = ((fun f => if decide (p = fh) then g f else f) <$> nw_fhs w !! fh) /\
  nw_open_done w' = nw_open_done w /\ nw_errc w' = nw_errc w.
Proof.
  unfold with_fh. destruct (nw_fhs w !! p) as [x|] eqn:E; [|done]. intros [= <-]. split; [|done]. cbn.
  case_decide as D; [subst fh; by rewrite lookup_insert_eq, E|]. rewrite lookup_insert_ne by done.
  by destruct (nw_fhs w !! fh).
Qed.

Lemma run_eff_after e w w' fh : run_eff e w = Some w' ->
  nw_fhs w' !! fh = (fh_after fh e <$> nw_fhs w !! fh) /\ (nw_open_done w', nw_errc w') = sess_after e w.
Proof.
  assert (forall x : option ncld_fh, x = ((fun f => f) <$> x)) as Hid by by intros [].
  destruct e as [a pkt|add secs|x what|m z code]; unfold fh_after, sess_after; cbn [run_eff];
    [rewrite <- Hid..|].
  - by intros [= <-].
  - by intros [= <-].
  - intros [= <-]. unfold ncld_p_event. by destruct (negb (what =? CE_SESS_FAILED)), (negb (nw_is_up w)).
  - destruct (cb_of_copts z) as [cb|]; [|done].
    destruct cb as [|p|p|p|p|p|p]; cbn [run_ncld_cb]; open_calls; try rewrite <- Hid.
    + intros [= <-]. by destruct (code =? 0).
    + destruct (with_fh _ _ w) as [w1|] eqn:E; [|done]. intros [= <-]. cbn.
      apply (with_fh_lookup _ _ _ _ fh) in E as (-> & -> & ->). done.
    + unfold with_delio. destruct (nw_objs w !! p) as [[| |d]|]; try done. cbn. by intros [= <-].
    + unfold run_read_cb, get_read, with_read, fh_broadcast. cbn. destruct (nw_objs w !! p) as [[r| |]|]; try done. cbn.
      destruct (code =? 0); [destruct (c_msgs _ !! m); [|done]|]; cbn; (destruct (nw_fhs w !! nr_fh r); [|done]); by intros [= <-].
    + unfold run_read_cb, get_read, with_read, fh_broadcast. cbn. destruct (nw_objs w !! p) as [[r| |]|]; try done. cbn.
      destruct (code =? 0); [destruct (c_msgs _ !! m); [|done]|]; cbn; (destruct (nw_fhs w !! nr_fh r); [|done]); by intros [= <-].
    + unfold get_genio, with_genio, fh_broadcast. destruct (nw_objs w !! p) as [[|g|]|]; try done. cbn.
      destruct (nw_fhs w !! gi_fh g); [|done]. by intros [= <-].
    + destruct (with_fh _ _ w) as [w1|] eqn:E; [|done]. intros [= <-]. cbn.
      apply (with_fh_lookup _ _ _ _ fh) in E as (-> & -> & ->). done.
Qed.

(** What one request brings about and the others keep, holds in the end. *)
Lemma run_effs_reach (I P : nworld -> Prop) l e w w' :
  e ∈ l -> I w -> (forall e' w1 w2, e' ∈ l -> run_eff e' w1 = Some w2 -> I w1 -> I w2) ->
  (forall w1 w2, run_eff e w1 = Some w2 -> I w1 -> P w2) ->
  (forall e' w1 w2, e' ∈ l -> run_eff e' w1 = Some w2 -> P w1 -> P w2) -> run_effs l w = Some w' -> P w'.
Proof.
  intros Hin HI HIk He Hk.
  assert (forall l0 w0, (forall x, x ∈ l0 -> x ∈ l) -> P w0 -> run_effs l0 w0 = Some w' -> P w') as Hkeep.
  { induction l0 as [|x l0 IH]; intros w0 Hs HP; cbn [run_effs]; [by intros [= <-]|].
    destruct (run_eff x w0) as [w1|] eqn:E; [|done]. apply IH; [intros y Hy; apply Hs; by right|].
    eapply Hk; [apply Hs; by left|done..]. }
  assert (forall l0 w0, (forall x, x ∈ l0 -> x ∈ l) -> e ∈ l0 -> I w0 -> run_effs l0 w0 = Some w' -> P w') as H.
  { induction l0 as [|x l0 IH]; intros w0 Hs Hi HI0; [by apply not_elem_of_nil in Hi|]. cbn [run_effs].
    destruct (run_eff x w0) as [w1|] eqn:E; [|done]. apply elem_of_cons in Hi as [->|Hi].
    - apply Hkeep; [intros y Hy; apply Hs; by right|by eapply He].
    - apply IH; [intros y Hy; apply Hs; by right|done|]. eapply HIk; [apply Hs; by left|done..]. }
  intros Hr. eapply H; [|done|done|done]. done.
Qed.

(** ** Threads *)

(** The handle a thread waits on for an I/O. *)
Definition io_fh (s : tstate) : option nat :=
  match s with
  | Waiting (WRead fh _) | Asleep (WRead fh _) | Waiting (WGenio fh _ _) | Asleep (WGenio fh _ _) => Some fh
  | _ => None
  end.

(** The object of its own a thread uses, and the kind of it. *)
Definition owns (s : tstate) : option nat :=
  match s with
  | Issue (CallOpen _ _ _) p | Issue (CallDel _) p | Issue (CallGet _ _) p | Issue (CallGenio _ _) p
  | Waiting (WOpen p) | Asleep (WOpen p) | Waiting (WDel p) | Asleep (WDel p)
  | Waiting (WRead _ p) | Asleep (WRead _ p) | Waiting (WGenio _ _ p) | Asleep (WGenio _ _ p) => Some p
  | _ => None
  end.
Definition wants (s : tstate) : option nkind :=
  match s with
  | Issue (CallDel _) _ | Waiting (WDel _) | Asleep (WDel _) => Some KDelio
  | Issue (CallGet fh _) _ | Waiting (WRead fh _) | Asleep (WRead fh _) => Some (KRead fh)
  | Issue (CallGenio fh _) _ | Waiting (WGenio fh _ _) | Asleep (WGenio fh _ _) => Some (KGenio fh)
  | _ => None
  end.
Definition issuing (s : tstate) : bool := match s with Issue _ _ => true | _ => false end.

Definition one (fh : nat) (o : option nat) : Z := if decide (o = Some fh) then 1 else 0.

(** The number of threads that wait for an I/O on a handle. *)
Definition waiters (fh : nat) (m : gmap nat tstate) : Z :=
  Z.of_nat (size (filter (fun kv => io_fh kv.2 = Some fh) m)).

Lemma waiters_delete fh m t s : m !! t = Some s -> waiters fh m = waiters fh (delete t m) + one fh (io_fh s).
Proof.
  intros H. unfold waiters, one. rewrite map_filter_delete. case_decide as E.
  - rewrite map_size_delete_Some by (exists s; by apply map_lookup_filter_Some).
    assert (size (filter (fun kv => io_fh kv.2 = Some fh) m) <> 0%nat).
    { apply map_size_non_empty_iff. intros He. assert (filter (fun kv => io_fh kv.2 = Some fh) m !! t = Some s) as Hs
        by by apply map_lookup_filter_Some. by rewrite He in Hs. }
    lia.
  - rewrite delete_id; [lia|]. apply map_lookup_filter_None. right. intros s' H'. by simplify_eq.
Qed.

Lemma waiters_insert fh m t s :
  waiters fh (<[t := s]> m) = waiters fh m - one fh (m !! t ≫= io_fh) + one fh (io_fh s).
Proof.
  rewrite (waiters_delete fh (<[t := s]> m) t s) by apply lookup_insert_eq. rewrite delete_insert_eq.
  destruct (m !! t) as [s0|] eqn:E; cbn.
  - rewrite (waiters_delete fh m t s0 E). lia.
  - rewrite (delete_id m t E). unfold one at 2. case_decide; [done|lia].
Qed.

Lemma waiters_wake fh m : waiters fh (wake <$> m) = waiters fh m.
Proof.
  induction m as [|t s m Ht IH] using map_ind; [by rewrite fmap_empty|].
  rewrite fmap_insert, !waiters_insert, lookup_fmap, Ht, IH. cbn. by destruct s as [| |k|[]| | | |].
Qed.

Lemma waiters_none fh m : (forall t s, m !! t = Some s -> io_fh s <> Some fh) -> waiters fh m = 0.
Proof.
  intros H. unfold waiters. rewrite (proj2 (map_size_empty_iff _)); [done|]. apply map_empty. intros t.
  apply map_lookup_filter_None. right. intros s Hs. by eapply H.
Qed.

Lemma waiters_pos fh m t s : m !! t = Some s -> io_fh s = Some fh -> 0 < waiters fh m.
Proof.
  intros H E. rewrite (waiters_delete _ _ _ _ H). unfold one. rewrite decide_True by done.
  unfold waiters. lia.
Qed.

Lemma wake_view s : io_fh (wake s) = io_fh s /\ owns (wake s) = owns s /\ wants (wake s) = wants s /\ issuing (wake s) = issuing s.
Proof. by destruct s as [| |k|[]| | | |]. Qed.
