(* ===== verification/NcldInv.v ===== *)
(** * NcldInv: the invariant of the synchronous layer

    [ninv] holds in every state the threads of [Ncld] can reach, in any
    interleaving: it relates the library's pending messages, the objects of
    the waiting calls, and the threads. *)

From S2P Require Import Prelude Dirent Wire Timer Cldc CldcLogic CldcSys CldcWf CldcHear Transport Ncld NcldLogic.
#[local] Open Scope Z_scope.

Definition kind_ok (cb : ncld_cb) (k : nkind) : Prop :=
  match cb, k with
  | ncld_read_cb _, KRead _ | ncld_read_meta_cb _, KRead _ | ncld_genio_cb _, KGenio _ | ncld_del_cb _, KDelio => True
  | _, _ => False
  end.

(** No message and no completion refers to [p] yet. *)
Definition untouched (c : cli) (p : nat) : Prop :=
  (forall m z code, Complete m z code ∈ c_trace c -> ptr_of z <> Some p) /\
  (forall q m z, c_msgs c !! q = Some m -> co_cb (m_copts m) = Some z -> ptr_of z <> Some p).

(** An unfinished message with this callback. *)
Definition pending (c : cli) (q : nat) (cb : ncld_cb) : Prop :=
  exists m, c_msgs c !! q = Some m /\ m_done m = false /\ co_cb (m_copts m) = Some (copts_of_cb cb).

(** Messages and objects.  A pending message's object is there and not done, an
    object has at most one, and one that is done was completed with its code. *)
Record lib_ok (c : cli) (objs : gmap nat nobj) (next : nat) : Prop := {
  lo_wf : wf c;
  lo_bnd : bounded c;
  lo_clean p o : objs !! p = Some o -> obj_done o = false -> obj_errc o = 0;
  lo_lt p : is_Some (objs !! p) -> (p < next)%nat;
  lo_cb q m : c_msgs c !! q = Some m -> exists cb, co_cb (m_copts m) = Some (copts_of_cb cb);
  lo_old p : (next <= p)%nat -> untouched c p;
  lo_pend q cb p : pending c q cb -> cb_obj cb = Some p ->
    exists o, objs !! p = Some o /\ obj_done o = false /\ kind_ok cb (obj_kind o);
  lo_uniq q1 q2 cb1 cb2 p : pending c q1 cb1 -> pending c q2 cb2 -> cb_obj cb1 = Some p -> cb_obj cb2 = Some p -> q1 = q2;
  lo_done p o : objs !! p = Some o -> obj_done o = true -> exists e, e ∈ c_trace c /\ completes_obj p (obj_errc o) e }.

(** Threads.  No two share an object, a call about to be issued has a fresh
    one, and [nios] counts the waiting threads of each handle. *)
Record app_ok (w : nworld) : Prop := {
  ao_lt t s p : nw_app w !! t = Some s -> owns s = Some p -> (p < nw_next w)%nat;
  ao_io t s fh : nw_app w !! t = Some s -> io_fh s = Some fh -> (fh < nw_next w)%nat;
  ao_fh_lt p : is_Some (nw_fhs w !! p) -> (p < nw_next w)%nat;
  ao_wants t s k : nw_app w !! t = Some s -> wants s = Some k ->
    exists p o, owns s = Some p /\ nw_objs w !! p = Some o /\ obj_kind o = k;
  ao_own t1 t2 s1 s2 p : nw_app w !! t1 = Some s1 -> nw_app w !! t2 = Some s2 -> owns s1 = Some p -> owns s2 = Some p -> t1 = t2;
  ao_nios fh f : nw_fhs w !! fh = Some f -> nf_nios f = waiters fh (nw_app w);
  ao_fresh t s p : nw_app w !! t = Some s -> issuing s = true -> owns s = Some p -> untouched (nw_cli w) p }.

Record ninv (w : nworld) : Prop := {
  ni_lib : lib_ok (nw_cli w) (nw_objs w) (nw_next w);
  ni_app : app_ok w;
  ni_timers : timers_wf (nw_tlist w) }.

(** ** Operations of the library *)

Section ops.
Context {XL : XdrLib} {XC : XdrCli} {HL : HmacLib}.

Definition op_mode (o : cli_op) : hear_mode :=
  match o with
  | OpReceive _ _ | OpTimer | OpKill => Hears
  | OpNewSess co _ _ _ | OpEndSess co | OpNop co | OpDel co _ | OpOpen co _ _ _ | OpClose _ co | OpLock _ co _ _
  | OpUnlock _ co | OpPut _ co _ | OpGet _ co _ => Calls co
  end.

Lemma op_heard o : is_heard (op_mode o) (run_op o).
Proof.
  destruct o; cbn [op_mode run_op]; auto using hears_receive, hears_timer, calls_new_sess, calls_del, calls_close,
    calls_lock, calls_unlock, calls_put, calls_get.
  - apply is_heard_bind; [apply hears_kill|auto with cld].
  - pose proof (@calls_call XL XC HL copts). unfold cldc_end_sess. solve_heard.
  - pose proof (@calls_call XL XC HL copts). unfold cldc_nop. solve_heard.
  - apply is_heard_bind; [apply calls_open|auto with cld].
Qed.

(** The calls of this layer. *)
Definition layer_call (o : cli_op) : option (option Z) :=
  match o with
  | OpDel co _ | OpOpen co _ _ _ | OpClose _ co | OpLock _ co _ _ | OpUnlock _ co | OpPut _ co _ | OpGet _ co _ => Some co
  | _ => None
  end.

Lemma op_adds o co : layer_call o = Some co -> op_mode o = Calls co /\ is_adds co (run_op o) /\ forall c, op_allowed o c.
Proof.
  destruct o; cbn [layer_call op_mode run_op op_allowed]; intros [= ->];
    auto using adds_del, adds_open, adds_close, adds_lock, adds_unlock, adds_put, adds_get.
Qed.

Lemma pending_old (l : list eff) c c' q cb :
  (forall p msg', c_msgs c' !! p = Some msg' -> m_done msg' = false ->
     exists msg, c_msgs c !! p = Some msg /\ m_done msg = false /\ co_cb (m_copts msg') = co_cb (m_copts msg)) ->
  (forall p z code, Complete p z code ∈ l -> mstate c' p <> Some false) ->
  pending c' q cb -> pending c q cb /\ forall z code, Complete q z code ∉ l.
Proof.
  intros Hm Hl (m' & Hq & Hd & Hc). destruct (Hm _ _ Hq Hd) as (m & Hq0 & Hd0 & Hc0). split.
  - exists m. split_and!; congruence.
  - intros z code Hin. destruct (Hl _ _ _ Hin). unfold mstate. rewrite Hq. cbn. by rewrite Hd.
Qed.

(** The library has received something, run its timer or been killed, and its
    requests have been run. *)
Lemma lib_ok_hears o rc c c' w w' objs next :
  lib_ok c objs next -> op_mode o = Hears -> run_op o c = Some (rc, c') -> nw_objs w = objs -> nw_cli w = c' ->
  run_effs (asked c c') w = Some w' -> lib_ok c' (nw_objs w') next /\ forall p, untouched c p -> untouched c' p.
Proof.
  intros [Hwf Hb Hcl Hlt Hcb Hold Hpend Huniq Hdone] Hmode Hrun <- Hc Heff. pose proof (op_heard o) as Hh. rewrite Hmode in Hh.
  destruct (hears_completes _ _ _ _ Hh (is_lawful_op o) Hb Hrun) as (l & Et & Hcomp & Hmsgs).
  assert (asked c c' = l) as El by (unfold asked; by rewrite Et, drop_app_length). rewrite El in Heff.
  pose proof (run_effs_rel _ _ _ Heff) as R.
  assert (cstep c c') as Hs by (apply (cstep_op o rc); [by destruct o|done]).
  assert (forall q m', c_msgs c' !! q = Some m' -> exists m, c_msgs c !! q = Some m /\ co_cb (m_copts m') = co_cb (m_copts m)) as Hold'.
  { intros q m' Hq. specialize (Hh c). unfold cw in Hh. rewrite Hrun in Hh. destruct Hh as [_ Hm _].
    destruct (Hm q (co_cb (m_copts m'))) as [E|E]; [unfold msg_cb_of; by rewrite Hq| |done].
    unfold msg_cb_of in E. destruct (c_msgs c !! q) as [m|]; [|done]. injection E as E. eauto. }
  assert (forall p, untouched c p -> untouched c' p) as Hunt.
  { intros p [U1 U2]. split.
    - intros m z code. rewrite Et. intros [H|H]%elem_of_app; [by eapply U1|].
      destruct (Hcomp _ _ _ H) as (msg & Hm & Hz & _). by eapply U2.
    - intros q m' z Hq Hz. destruct (Hold' _ _ Hq) as (m & Hm & E). eapply U2; [done|congruence]. }
  assert (forall q cb, pending c' q cb -> pending c q cb /\ forall z code, Complete q z code ∉ l) as Hpo.
  { intros q cb. apply pending_old; [done|]. intros p z code H. by destruct (Hcomp _ _ _ H) as (? & ? & ? & ? & ?). }
  assert (forall p, is_Some (nw_objs w' !! p) <-> is_Some (nw_objs w !! p)) as Hdom.
  { intros p. pose proof (er_kind _ _ _ R p) as Hk. rewrite <- !fmap_is_Some with (f := obj_kind) (mx := nw_objs w' !! p), Hk, fmap_is_Some. done. }
  split; [|done]. split.
  - by eapply wf_step.
  - by apply (lawful_step _ _ Hs).
  - by apply (er_clean _ _ _ R).
  - intros p Hp. apply Hlt, Hdom, Hp.
  - intros q m' Hq. destruct (Hold' _ _ Hq) as (m & Hm & ->). eauto.
  - auto.
  - intros q cb p Hp Ho. destruct (Hpo _ _ Hp) as [Hp0 Hn]. destruct (Hpend _ _ _ Hp0 Ho) as (o1 & E1 & Hd & Hk).
    exists o1. split; [|done]. rewrite (er_same _ _ _ R p); [done|].
    intros cc e Hin He. destruct e as [| | |m z code]; try done. destruct He as [Hz <-].
    destruct (Hcomp _ _ _ Hin) as (msg & Hm & Hcb' & Hmd & _). destruct (Hcb _ _ Hm) as [cb' Ecb].
    assert (z = copts_of_cb cb') as -> by congruence. rewrite ptr_of_cb in Hz.
    assert (m = q) as ->. { eapply (Huniq m q cb' cb p); try done. by exists msg. }
    by destruct (Hn (copts_of_cb cb') code).
  - intros q1 q2 cb1 cb2 p H1 H2. by apply Huniq; apply Hpo.
  - intros p o' Ho Hd. destruct (er_done _ _ _ R p o' Hcl Ho Hd) as [(o1 & E1 & Hd1 & He)|(e & Hin & He)].
    + destruct (Hdone _ _ E1 Hd1) as (e & Hin & Hx). exists e. rewrite <- He. split; [|done]. rewrite Et. apply elem_of_app. by left.
    + exists e. split; [|done]. rewrite Et. apply elem_of_app. by right.
Qed.

(** Threads are woken at most; what they count on stays. *)
Lemma app_ok_rel l w w1 w' :
  app_ok w -> nw_app w1 = nw_app w -> nw_objs w1 = nw_objs w -> nw_fhs w1 = nw_fhs w -> nw_next w1 = nw_next w ->
  (forall p, untouched (nw_cli w) p -> untouched (nw_cli w1) p) -> eff_rel l w1 w' -> app_ok w'.
Proof.
  intros [Hlt Hio Hfl Hw Hown Hn Hf] Ea Eo Ef En Hu R. destruct (er_frame _ _ _ R) as (Fc & _ & _ & _ & _ & _ & Fn & _).
  assert (forall t s', nw_app w' !! t = Some s' -> exists s, nw_app w !! t = Some s /\ (s' = s \/ s' = wake s)) as Hs.
  { intros t s'. destruct (er_app _ _ _ R) as [->| ->]; rewrite Ea; [eauto|]. rewrite lookup_fmap.
    destruct (nw_app w !! t) as [s|]; [|done]. intros [= <-]. eauto. }
  assert (forall s s', s' = s \/ s' = wake s -> io_fh s' = io_fh s /\ owns s' = owns s /\ wants s' = wants s /\ issuing s' = issuing s) as Hv.
  { intros s s' [->| ->]; [done|apply wake_view]. }
  assert (forall p, fh_fixed <$> nw_fhs w' !! p = fh_fixed <$> nw_fhs w !! p) as Hfx by (intros p; by rewrite (er_fhs _ _ _ R), Ef).
  rewrite En in Fn. split.
  - intros t s' p Ht. destruct (Hs _ _ Ht) as (s & Hts & Hv'%Hv). destruct Hv' as (_ & -> & _). rewrite Fn. by eapply Hlt.
  - intros t s' fh Ht. destruct (Hs _ _ Ht) as (s & Hts & Hv'%Hv). destruct Hv' as (-> & _). rewrite Fn. by eapply Hio.
  - intros p [f Hp]. rewrite Fn. apply Hfl. specialize (Hfx p). rewrite Hp in Hfx. by destruct (nw_fhs w !! p).
  - intros t s' k Ht. destruct (Hs _ _ Ht) as (s & Hts & Hv'%Hv). destruct Hv' as (_ & -> & -> & _). intros Hk.
    destruct (Hw _ _ _ Hts Hk) as (p & o & Hp & Ho & Hkk). pose proof (er_kind _ _ _ R p) as Ek. rewrite Eo, Ho in Ek.
    destruct (nw_objs w' !! p) as [o'|] eqn:Eo'; [|done]. injection Ek as Ek. exists p, o'. split_and!; congruence.
  - intros t1 t2 s1' s2' p H1 H2. destruct (Hs _ _ H1) as (s1 & Hts1 & Hv1%Hv), (Hs _ _ H2) as (s2 & Hts2 & Hv2%Hv).
    destruct Hv1 as (_ & -> & _), Hv2 as (_ & -> & _). by eapply Hown.
  - intros fh f' Hf'. specialize (Hfx fh). rewrite Hf' in Hfx. destruct (nw_fhs w !! fh) as [f|] eqn:E; [|done].
    injection Hfx as -> _. rewrite (Hn _ _ E). destruct (er_app _ _ _ R) as [->| ->]; rewrite Ea; [done|by rewrite waiters_wake].
  - intros t s' p Ht. destruct (Hs _ _ Ht) as (s & Hts & Hv'%Hv). destruct Hv' as (_ & -> & _ & ->). intros Hi Ho.
    rewrite Fc. apply Hu. by eapply Hf.
Qed.

(** Receiving and timers, all in all. *)
Lemma ninv_hears o rc c' w w1 w' :
  ninv w -> op_mode o = Hears -> run_op o (nw_cli w) = Some (rc, c') -> run_effs (asked (nw_cli w) c') w1 = Some w' ->
  nw_app w1 = nw_app w -> nw_objs w1 = nw_objs w -> nw_fhs w1 = nw_fhs w -> nw_next w1 = nw_next w -> nw_cli w1 = c' ->
  timers_wf (nw_tlist w1) -> ninv w'.
Proof.
  intros [Hl Ha Ht] Hm Hr Heff Ea Eo Ef En Ec Htl. pose proof (run_effs_rel _ _ _ Heff) as R.
  destruct (er_frame _ _ _ R) as (Fc & _ & _ & _ & _ & Ft & Fn & _).
  destruct (lib_ok_hears o rc (nw_cli w) c' w1 w' (nw_objs w) (nw_next w) Hl Hm Hr Eo Ec Heff) as [Hl' Hu].
  split.
  - rewrite Fc, Ec, Fn, En. done.
  - eapply (app_ok_rel _ w w1); try done. by rewrite Ec.
  - by rewrite Ft.
Qed.

(** ** Calls *)

(** A call of the library: its state changes and, if it returned 0, it may
    have added a message with the given callback; nothing else does. *)
Record called (z : Z) (rc : Z) (w w' : nworld) : Prop := {
  cd_adds : adds (Some z) (nw_cli w) rc (nw_cli w');
  cd_wf : wf (nw_cli w');
  cd_bnd : bounded (nw_cli w');
  cd_trace : exists l, c_trace (nw_cli w') = c_trace (nw_cli w) ++ l /\ forall m z' code, Complete m z' code ∉ l;
  cd_objs : nw_objs w' = nw_objs w;
  cd_app : nw_app w' = nw_app w;
  cd_fhs p : fh_fixed <$> nw_fhs w' !! p = fh_fixed <$> nw_fhs w !! p;
  cd_next : nw_next w' = nw_next w;
  cd_timers : timers_wf (nw_tlist w');
  cd_rest : nw_live w' = nw_live w /\ nw_handles w' = nw_handles w /\ nw_helper w' = nw_helper w }.

Lemma lib_call_inv {A} (m : C A) w a w' :
  lib_call m w = Some (a, w') -> exists c' tl, m (nw_cli w) = Some (a, c') /\
    tl = foldl run_timer_op (nw_tlist w) (omap (ncld_p_timer_ctl (c_now (nw_cli w))) (asked (nw_cli w) c')) /\
    run_effs (asked (nw_cli w) c') (set_nw_tlist tl (set_nw_cli c' w)) = Some w'.
Proof.
  unfold lib_call. destruct (m (nw_cli w)) as [[x c']|]; [|done]. cbn zeta.
  destruct (run_effs _ _) as [w1|] eqn:E; [|done]. intros [= -> ->]. eauto.
Qed.

Lemma op_called o z rc w w' :
  ninv w -> layer_call o = Some (Some z) -> lib_call (run_op o) w = Some (rc, w') -> called z rc w w'.
Proof.
  intros [Hl Ha Ht] Ho (c' & tl & Hr & Etl & Heff)%lib_call_inv. destruct (op_adds _ _ Ho) as (Hm & Hadds & Hal).
  pose proof (run_effs_rel _ _ _ Heff) as R. destruct (er_frame _ _ _ R) as (Fc & Fl & Fh & _ & _ & Ft & Fn & Fp & _). cbn in *.
  pose proof (op_heard o (nw_cli w)) as Hh. rewrite Hm in Hh. unfold cw in Hh. rewrite Hr in Hh. destruct Hh as [(l & El & Hc) _ _].
  assert (forall m z' code, Complete m z' code ∉ asked (nw_cli w) c') as Hno.
  { intros m z' code. unfold asked. rewrite El, drop_app_length. intros H. by destruct (Hc _ _ _ H) as [? _]. }
  assert (cstep (nw_cli w) c') as Hs by (by apply (cstep_op o rc)).
  split; try done.
  - rewrite Fc. specialize (Hadds (nw_cli w)). unfold cw in Hadds. by rewrite Hr in Hadds.
  - rewrite Fc. eapply wf_step; [done|apply Hl].
  - rewrite Fc. apply (lawful_step _ _ Hs), Hl.
  - rewrite Fc, El. exists l. split; [done|]. intros m z' code H. by destruct (Hc _ _ _ H) as [? _].
  - apply map_eq. intros p. apply (er_same _ _ _ R). intros c [| | |m z' code] He Hx; try by destruct Hx. by destruct (Hno m z' code).
  - by apply (er_quiet _ _ _ R).
  - apply (er_fhs _ _ _ R).
  - rewrite Ft. cbn. subst tl. by apply timer_ops_wf.
Qed.

Lemma called_untouched z rc w w' p : called z rc w w' -> ptr_of z <> Some p -> untouched (nw_cli w) p -> untouched (nw_cli w') p.
Proof.
  intros C Hz [U1 U2]. destruct (cd_trace _ _ _ _ C) as (l & El & Hl). split.
  - intros m z' code. rewrite El. intros [H|H]%elem_of_app; [by eapply U1|by destruct (Hl m z' code)].
  - intros q m z' Hq Hz'. destruct (cd_adds _ _ _ _ C) as [E|(_ & q0 & m0 & _ & E & Hc & _)]; rewrite E in Hq; [by eapply U2|].
    destruct (decide (q = q0)) as [->|Hn]; [|rewrite lookup_insert_ne in Hq by done; by eapply U2].
    rewrite lookup_insert_eq in Hq. injection Hq as <-. congruence.
Qed.

(** ** Steps on objects *)

Lemma lib_ok_same c c' objs next :
  lib_ok c objs next -> c_msgs c' = c_msgs c -> c_trace c' = c_trace c -> wf c' -> bounded c' -> lib_ok c' objs next.
Proof.
  intros [Hwf Hb Hcl Hlt Hcb Hold Hpend Huniq Hdone] Em Et Hw Hb'.
  split; unfold pending, untouched in *; rewrite ?Em, ?Et; try done.
Qed.

Lemma lib_ok_delete c objs next p :
  lib_ok c objs next -> (forall q cb, pending c q cb -> cb_obj cb <> Some p) -> lib_ok c (delete p objs) next.
Proof.
  intros [Hwf Hb Hcl Hlt Hcb Hold Hpend Huniq Hdone] Hp. split; try done.
  - intros q o [_ Hq]%lookup_delete_Some. eauto.
  - intros q [o [_ Hq]%lookup_delete_Some]. eauto.
  - intros q cb r Hq Hr. rewrite lookup_delete_ne; [eauto|]. intros ->. by destruct (Hp _ _ Hq).
  - intros q o [_ Hq]%lookup_delete_Some. eauto.
Qed.

Lemma lib_ok_alloc c objs next o :
  lib_ok c objs next -> obj_done o = false -> obj_errc o = 0 -> lib_ok c (<[next := o]> objs) (S next).
Proof.
  intros [Hwf Hb Hcl Hlt Hcb Hold Hpend Huniq Hdone] Hd He. split; try done.
  - intros q o1 [[-> <-]|[_ Hq]]%lookup_insert_Some; eauto.
  - intros q [o1 [[-> <-]|[_ Hq]]%lookup_insert_Some]; [lia|]. specialize (Hlt q (ex_intro _ _ Hq)). lia.
  - intros q Hq. apply Hold. lia.
  - intros q cb r Hq Hr. destruct (Hpend _ _ _ Hq Hr) as (o1 & Ho & ?). exists o1. split; [|done].
    rewrite lookup_insert_ne; [done|]. specialize (Hlt r (ex_intro _ _ Ho)). lia.
  - intros q o1 [[-> <-]|[_ Hq]]%lookup_insert_Some; [congruence|eauto].
Qed.

(** The handle a new one gets is an address like any other. *)
Lemma lib_ok_next c objs next : lib_ok c objs next -> lib_ok c objs (S next).
Proof.
  intros [Hwf Hb Hcl Hlt Hcb Hold Hpend Huniq Hdone]. split; try done.
  - intros q Hq. specialize (Hlt q Hq). lia.
  - intros q Hq. apply Hold. lia.
Qed.

Lemma lib_ok_called cb rc w w' :
  ninv w -> called (copts_of_cb cb) rc w w' ->
  (forall p, cb_obj cb = Some p -> untouched (nw_cli w) p /\
     exists o, nw_objs w !! p = Some o /\ kind_ok cb (obj_kind o)) ->
  lib_ok (nw_cli w') (nw_objs w) (nw_next w).
Proof.
  intros [[Hwf Hb Hcl Hlt Hcb Hold Hpend Huniq Hdone] Ha Ht] C Hp.
  destruct (cd_trace _ _ _ _ C) as (l & El & Hl).
  assert (forall p o, nw_objs w !! p = Some o -> obj_done o = true ->
    exists e, e ∈ c_trace (nw_cli w') /\ completes_obj p (obj_errc o) e) as Hdone'.
  { intros p o Ho Hd. destruct (Hdone _ _ Ho Hd) as (e & Hin & He). exists e. split; [|done]. rewrite El. apply elem_of_app. by left. }
  assert (forall q cb', pending (nw_cli w') q cb' -> pending (nw_cli w) q cb' \/ cb' = cb) as Hpo.
  { intros q cb' (m & Hq & Hd & Hc). destruct (cd_adds _ _ _ _ C) as [E|(_ & q0 & m0 & _ & E & Hc0 & _)]; rewrite E in Hq.
    - left. by exists m.
    - destruct (decide (q = q0)) as [->|Hn]; [|rewrite lookup_insert_ne in Hq by done; left; by exists m].
      rewrite lookup_insert_eq in Hq. injection Hq as <-. right. apply copts_of_cb_inj. congruence. }
  assert (forall q cb' p, pending (nw_cli w) q cb' -> cb_obj cb' = Some p -> cb_obj cb <> Some p) as Hne.
  { intros q cb' p (m & Hq & Hd & Hc) Ho Hcb'. destruct (Hp _ Hcb') as [[_ U] _]. apply (U _ _ _ Hq Hc). by rewrite ptr_of_cb. }
  split; try done; try apply C.
  - intros q m Hq. destruct (cd_adds _ _ _ _ C) as [E|(_ & q0 & m0 & _ & E & Hc0 & _)]; rewrite E in Hq; [eauto|].
    destruct (decide (q = q0)) as [->|Hn]; [|rewrite lookup_insert_ne in Hq by done; eauto].
    rewrite lookup_insert_eq in Hq. injection Hq as <-. eauto.
  - intros p Hge. apply (called_untouched _ _ _ _ _ C); [|by apply Hold]. rewrite ptr_of_cb. intros Ho.
    destruct (Hp _ Ho) as (_ & o & Hob & _). specialize (Hlt p (ex_intro _ _ Hob)). lia.
  - intros q cb' p Hpend' Ho. destruct (Hpo _ _ Hpend') as [H| ->]; [eauto|]. destruct (Hp _ Ho) as ([U _] & o & Hob & Hk).
    exists o. split; [done|]. split; [|done]. destruct (obj_done o) eqn:Hd; [|done].
    destruct (Hdone _ _ Hob Hd) as (e & Hin & He). destruct e as [| | |m z code]; try done. destruct He as [Hz _]. by destruct (U _ _ _ Hin).
  - intros q1 q2 cb1 cb2 p H1 H2 Ho1 Ho2.
    destruct (Hpo _ _ H1) as [P1| ->], (Hpo _ _ H2) as [P2| ->]; [eauto|by destruct (Hne _ _ _ P1 Ho1)|by destruct (Hne _ _ _ P2 Ho2)|].
    destruct (Hp _ Ho1) as ([_ U] & _). destruct H1 as (m1 & Hq1 & _ & Hc1), H2 as (m2 & Hq2 & _ & Hc2).
    destruct (cd_adds _ _ _ _ C) as [E|(_ & q0 & m0 & _ & E & _)].
    + rewrite E in Hq1. destruct (U _ _ _ Hq1 Hc1). by rewrite ptr_of_cb.
    + rewrite E in Hq1, Hq2. destruct (decide (q1 = q0)) as [->|N1], (decide (q2 = q0)) as [->|N2]; [done|..].
      * rewrite lookup_insert_ne in Hq2 by done. destruct (U _ _ _ Hq2 Hc2). by rewrite ptr_of_cb.
      * rewrite lookup_insert_ne in Hq1 by done. destruct (U _ _ _ Hq1 Hc1). by rewrite ptr_of_cb.
      * rewrite lookup_insert_ne in Hq1 by done. destruct (U _ _ _ Hq1 Hc1). by rewrite ptr_of_cb.
Qed.

(** A failed call leaves no message behind. *)
Lemma called_failed z rc w w' : called z rc w w' -> rc <> 0 -> c_msgs (nw_cli w') = c_msgs (nw_cli w).
Proof. intros C Hr. by destruct (cd_adds _ _ _ _ C) as [E|[E _]]. Qed.

(** ** Steps of one thread *)

Lemma app_ok_thread t s w w' :
  app_ok w -> nw_app w' = <[t := s]> (nw_app w) -> (nw_next w <= nw_next w')%nat ->
  (forall p, owns s = Some p -> (p < nw_next w')%nat /\ ((nw_app w !! t ≫= owns) = Some p \/ (nw_next w <= p)%nat)) ->
  (forall fh, io_fh s = Some fh -> (fh < nw_next w')%nat) ->
  (forall k, wants s = Some k -> exists p o, owns s = Some p /\ nw_objs w' !! p = Some o /\ obj_kind o = k) ->
  (forall q, (nw_app w !! t ≫= owns) <> Some q -> (q < nw_next w)%nat -> nw_objs w' !! q = nw_objs w !! q) ->
  (forall fh f', nw_fhs w' !! fh = Some f' ->
     (exists f, nw_fhs w !! fh = Some f /\ nf_nios f' = nf_nios f - one fh (nw_app w !! t ≫= io_fh) + one fh (io_fh s)) \/
     ((nw_next w <= fh < nw_next w')%nat /\ nf_nios f' = one fh (io_fh s))) ->
  (forall p, untouched (nw_cli w) p -> (nw_app w !! t ≫= owns) <> Some p -> untouched (nw_cli w') p) ->
  (forall p, issuing s = true -> owns s = Some p -> untouched (nw_cli w') p) ->
  app_ok w'.
Proof.
  intros [Hlt Hio Hfl Hw Hown Hn Hf] Ea Hnx Ho Hi Hws Hobj Hfh Hun Hiss.
  assert (forall t1 s1 p, t1 <> t -> nw_app w !! t1 = Some s1 -> owns s1 = Some p -> (nw_app w !! t ≫= owns) <> Some p) as Hoth.
  { intros t1 s1 p Ht H1 Hp H. destruct (nw_app w !! t) as [s0|] eqn:E0; [|done]. cbn in H. by destruct (Ht (Hown _ _ _ _ _ H1 E0 Hp H)). }
  split.
  - intros t1 s1 p. rewrite Ea. intros [[<- <-]|[_ H1]]%lookup_insert_Some Hp; [by apply Ho|]. specialize (Hlt _ _ _ H1 Hp). lia.
  - intros t1 s1 fh. rewrite Ea. intros [[<- <-]|[_ H1]]%lookup_insert_Some Hp; [by apply Hi|]. specialize (Hio _ _ _ H1 Hp). lia.
  - intros p [f Hp]. destruct (Hfh _ _ Hp) as [(f0 & H0 & _)|[? _]]; [|lia]. specialize (Hfl p (ex_intro _ _ H0)). lia.
  - intros t1 s1 k. rewrite Ea. intros [[<- <-]|[Ht H1]]%lookup_insert_Some Hk; [by apply Hws|].
    destruct (Hw _ _ _ H1 Hk) as (p & o & Hp & Hob & Hkk). exists p, o. split_and!; try done. rewrite Hobj; [done| |by eapply Hlt].
    by eapply (Hoth t1).
  - intros t1 t2 s1 s2 p. rewrite Ea. intros [[<- <-]|[Ht1 H1]]%lookup_insert_Some [[<- <-]|[Ht2 H2]]%lookup_insert_Some P1 P2; try done.
    + destruct (Ho _ P1) as [_ [H|H]]; [by destruct (Hoth t2 s2 p)|]. specialize (Hlt _ _ _ H2 P2). lia.
    + destruct (Ho _ P2) as [_ [H|H]]; [by destruct (Hoth t1 s1 p)|]. specialize (Hlt _ _ _ H1 P1). lia.
    + by eapply Hown.
  - intros fh f' Hf'. rewrite Ea, waiters_insert. destruct (Hfh _ _ Hf') as [(f & H0 & ->)|[Hge ->]]; [by rewrite (Hn _ _ H0)|].
    rewrite waiters_none; [|intros t1 s1 H1 H2; specialize (Hio _ _ _ H1 H2); lia].
    unfold one at 2. case_decide as E; [|lia]. destruct (nw_app w !! t) as [s0|] eqn:E0; [|done]. cbn in E.
    specialize (Hio _ _ _ E0 E). lia.
  - intros t1 s1 p. rewrite Ea. intros [[<- <-]|[Ht H1]]%lookup_insert_Some Hs Hp; [by apply Hiss|].
    apply Hun; [by eapply Hf|]. by eapply (Hoth t1).
Qed.

(** The thread goes on without an object; nothing but its state changes, and
    perhaps some handles are gone. *)
Lemma ninv_plain t s w w' :
  ninv w -> nw_app w' = <[t := s]> (nw_app w) ->
  owns s = None -> io_fh s = None -> wants s = None -> (nw_app w !! t ≫= io_fh) = None -> nw_cli w' = nw_cli w -> nw_objs w' = nw_objs w -> nw_next w' = nw_next w ->
  nw_tlist w' = nw_tlist w -> (forall p f, nw_fhs w' !! p = Some f -> nw_fhs w !! p = Some f) -> ninv w'.
Proof.
  intros [Hl Ha Ht] Ea Ho Hi Hw H0 Ec Eo En Et Ef. split; [by rewrite Ec, Eo, En| |by rewrite Et].
  apply (app_ok_thread t s w w'); try done; rewrite ?Ho, ?Hi, ?Hw, ?En, ?Ec; try done.
  - intros q _ _. by rewrite Eo.
  - intros fh f' Hf. left. exists f'. split; [by apply Ef|]. rewrite H0. unfold one. rewrite decide_False by done. lia.
Qed.

Lemma ninv_malloc w ok w1 :
  ninv w -> nw_malloc w = (ok, w1) ->
  ninv w1 /\ exists c1, w1 = set_nw_cli c1 w /\ c_msgs c1 = c_msgs (nw_cli w) /\ c_trace c1 = c_trace (nw_cli w).
Proof.
  intros [Hl Ha Ht] E. unfold nw_malloc, c_malloc_ok, c_nondet, mbind, C_bind, mret, C_ret in E. injection E as _ <-.
  set (c1 := set_c_oracle_i _ (nw_cli w)). assert (wf c1) as Hw.
  { apply (wf_still (nw_cli w)); [|apply Hl]. split; try done. exists []. by rewrite app_nil_r. }
  split; [|by exists c1]. split; [|by destruct Ha; split|done].
  eapply lib_ok_same; [done|done|done|done|apply Hl].
Qed.

(** A new object, or a new handle, and the call that will use it. *)
Lemma ninv_alloc t s w o :
  ninv w -> (nw_app w !! t ≫= io_fh) = None -> obj_done o = false -> obj_errc o = 0 ->
  owns s = Some (nw_next w) -> wants s = Some (obj_kind o) -> io_fh s = None ->
  ninv (set_thread t s (set_nw_objs (<[nw_next w := o]> (nw_objs w)) (set_nw_next (S (nw_next w)) w))).
Proof.
  intros [Hl Ha Ht] H0 Hd He Ho Hw Hi. split; [by apply lib_ok_alloc| |done].
  apply (app_ok_thread t s w); try done; cbn; rewrite ?Hi; try done; [lia|..].
  - intros p. rewrite Ho. intros [= <-]. lia.
  - intros k. rewrite Hw. intros [= <-]. exists (nw_next w), o. by rewrite lookup_insert_eq.
  - intros q _ Hq. rewrite lookup_insert_ne by lia. done.
  - intros fh f' Hf. left. exists f'. rewrite H0. split; [done|]. unfold one. rewrite decide_False by done. lia.
  - intros p _. rewrite Ho. intros [= <-]. by apply (lo_old _ _ _ Hl).
Qed.

Lemma ninv_alloc_fh t fname mode events w :
  ninv w -> (nw_app w !! t ≫= io_fh) = None ->
  ninv (set_thread t (Issue (CallOpen fname mode events) (nw_next w))
          (set_nw_fhs (<[nw_next w := mkNfh None false 0 0 events]> (nw_fhs w)) (set_nw_next (S (nw_next w)) w))).
Proof.
  intros [Hl Ha Ht] H0. split; [by apply lib_ok_next| |done].
  apply (app_ok_thread t (Issue (CallOpen fname mode events) (nw_next w)) w); try done; cbn; [lia|..].
  - intros p [= <-]. lia.
  - intros fh f' [[<- <-]|[_ Hf]]%lookup_insert_Some; cbn; [right; split; [lia|]|left].
    + unfold one. by rewrite decide_False.
    + exists f'. rewrite H0. split; [done|]. unfold one. rewrite decide_False by done. lia.
  - intros p _ [= <-]. by apply (lo_old _ _ _ Hl).
Qed.

Lemma ninv_start t c w w' :
  ninv w -> nw_app w !! t = Some (Start c) -> start_call t c w = Some w' -> ninv w'.
Proof.
  intros Hi Ht. assert (forall w1 c1, ninv w1 -> w1 = set_nw_cli c1 w -> forall s, owns s = None -> io_fh s = None -> wants s = None ->
    ninv (set_thread t s w1)) as Hplain.
  { intros w1 c1 H1 -> s Ho Hio Hw. apply (ninv_plain t s (set_nw_cli c1 w)); try done. cbn. by rewrite Ht. }
  assert (forall s, owns s = None -> io_fh s = None -> wants s = None -> ninv (set_thread t s w)) as Hself.
  { intros s Ho Hio Hw. apply (ninv_plain t s w); try done. by rewrite Ht. }
  assert (forall w1 c1, w1 = set_nw_cli c1 w -> (nw_app w1 !! t ≫= io_fh) = None) as Hst by (intros w1 c1 ->; cbn; by rewrite Ht).
  assert ((nw_app w !! t ≫= io_fh) = None) as Hst0 by by rewrite Ht.
  destruct c as [fname mode events|fname|fh meta|fh o|fh in_sess|]; cbn [start_call]; open_calls.
  - destruct (negb _); [intros [= <-]; by apply Hself|]. destruct (nw_malloc w) as [ok w1] eqn:Em.
    destruct (ninv_malloc _ _ _ Hi Em) as (H1 & c1 & E1 & _). destruct ok; cbn [negb nw_fresh].
    + intros [= <-]. apply ninv_alloc_fh; [done|by eapply Hst].
    + intros [= <-]. by eapply Hplain.
  - destruct (negb _); [intros [= <-]; by apply Hself|]. intros [= <-]. by apply ninv_alloc.
  - destruct (nw_fhs w !! fh) as [f|]; [|done]. cbn. destruct (negb _); [intros [= <-]; by apply Hself|].
    destruct (nw_malloc w) as [ok w1] eqn:Em. destruct (ninv_malloc _ _ _ Hi Em) as (H1 & c1 & E1 & _). destruct ok; cbn [negb].
    + intros [= <-]. apply (ninv_alloc t (Issue (CallGet fh meta) (nw_next w1)) w1 (ORead (mkNread false 0 None fh false 0))); try done. by eapply Hst.
    + intros [= <-]. by eapply Hplain.
  - destruct (nw_fhs w !! fh) as [f|]; [|done]. cbn. destruct (negb _); [intros [= <-]; by apply Hself|].
    intros [= <-]. by apply (ninv_alloc t (Issue (CallGenio fh o) (nw_next w)) w (OGenio (mkGenio fh false 0))).
  - destruct (nw_fhs w !! fh) as [f|]; [|done]. cbn. destruct (negb _); [done|]. intros [= <-]. by apply Hself.
  - destruct (nw_handles w) as [|fh hs]; intros [= <-]; by apply Hself.
Qed.

(** A call of the library has returned: its object is kept for the wait, or
    dropped if the call failed. *)
Lemma ninv_called t s s0 w w1 w' cb rc :
  ninv w -> nw_app w !! t = Some s0 -> issuing s0 = true -> io_fh s0 = None -> called (copts_of_cb cb) rc w w1 ->
  (forall p, cb_obj cb = Some p -> owns s0 = Some p /\ exists o, nw_objs w !! p = Some o /\ kind_ok cb (obj_kind o)) ->
  nw_app w' = <[t := s]> (nw_app w1) -> nw_cli w' = nw_cli w1 -> nw_next w' = nw_next w1 -> nw_tlist w' = nw_tlist w1 ->
  (nw_objs w' = nw_objs w1 \/ exists p, rc <> 0 /\ owns s0 = Some p /\ owns s = None /\ nw_objs w' = delete p (nw_objs w1)) ->
  (forall fh f', nw_fhs w' !! fh = Some f' -> exists f1, nw_fhs w1 !! fh = Some f1 /\ nf_nios f' = nf_nios f1 + one fh (io_fh s)) ->
  (owns s = None /\ wants s = None \/ owns s = owns s0 /\ wants s = wants s0) -> issuing s = false ->
  (forall fh, io_fh s = Some fh -> (fh < nw_next w)%nat) -> ninv w'.
Proof.
  intros Hi Ht Hs0 Hio0 C Hcb Ea Ec En Etl Eo Ef Hs Hiss Hlt. pose proof Hi as [Hl Ha Htm].
  rewrite (cd_app _ _ _ _ C) in Ea. rewrite (cd_next _ _ _ _ C) in En. rewrite (cd_objs _ _ _ _ C) in Eo.
  assert (forall p, owns s0 = Some p -> untouched (nw_cli w) p) as Hu by (intros p; by apply (ao_fresh _ Ha t)).
  assert (forall p, cb_obj cb = Some p -> untouched (nw_cli w) p /\ exists o, nw_objs w !! p = Some o /\ kind_ok cb (obj_kind o)) as Hcb'.
  { intros p Hp. destruct (Hcb p Hp) as [H1 H2]. auto. }
  pose proof (lib_ok_called cb rc w w1 Hi C Hcb') as Hl1. split; [rewrite Ec, En| |rewrite Etl; apply C].
  - destruct Eo as [->|(p & Hrc & Hp & _ & ->)]; [done|]. apply lib_ok_delete; [done|].
    intros q cb' (m & Hq & _ & Hc) Hp'. rewrite (called_failed _ _ _ _ C Hrc) in Hq. destruct (Hu p Hp) as [_ U].
    apply (U _ _ _ Hq Hc). by rewrite ptr_of_cb.
  - apply (app_ok_thread t s w w'); rewrite ?Ht, ?En, ?Ec; cbn; try done.
    + intros p Hp. destruct Hs as [[Hs _]|[Hs _]]; [congruence|]. rewrite Hs in Hp. split; [by eapply (ao_lt _ Ha)|by left].
    + intros k Hk. destruct Hs as [[_ Hs]|[Hs1 Hs2]]; [congruence|]. rewrite Hs2 in Hk.
      destruct (ao_wants _ Ha _ _ _ Ht Hk) as (p & o & Hp & Ho & Hk'). exists p, o. split; [congruence|]. split; [|done].
      destruct Eo as [->|(p' & _ & _ & Hn & _)]; [done|congruence].
    + intros q Hq _. destruct Eo as [->|(p & _ & Hp & _ & ->)]; [done|]. apply lookup_delete_ne. congruence.
    + intros fh f' Hf. destruct (Ef _ _ Hf) as (f1 & Hf1 & ->). left. pose proof (cd_fhs _ _ _ _ C fh) as Hfx. rewrite Hf1 in Hfx.
      destruct (nw_fhs w !! fh) as [f|]; [|done]. injection Hfx as -> _. exists f. split; [done|]. rewrite Hio0.
      unfold one at 2. rewrite decide_False by done. lia.
    + intros p Hp Hn. apply (called_untouched _ _ _ _ _ C); [|done]. rewrite ptr_of_cb. intros Hc. destruct (Hcb _ Hc) as [? _]. congruence.
    + intros p. by rewrite Hiss.
Qed.

(** [with_fh] on the way. *)
Lemma with_fh_nios p f n w w' :
  with_fh p f w = Some w' -> (forall x, nf_nios (f x) = nf_nios x + n) ->
  exists m, w' = set_nw_fhs m w /\ is_Some (nw_fhs w !! p) /\
    forall fh f', m !! fh = Some f' -> exists f1, nw_fhs w !! fh = Some f1 /\ nf_nios f' = nf_nios f1 + (if decide (fh = p) then n else 0).
Proof.
  unfold with_fh. destruct (nw_fhs w !! p) as [x|] eqn:E; [|done]. intros [= <-] Hf. eexists. split; [done|]. split; [done|].
  intros fh f' [[<- <-]|[Hn Hfh]]%lookup_insert_Some.
  - exists x. rewrite decide_True by done. eauto.
  - exists f'. rewrite decide_False by done. split; [done|lia].
Qed.

Lemma one_some fh p : one fh (Some p) = if decide (fh = p) then 1 else 0.
Proof. unfold one. do 2 case_decide; congruence. Qed.

Lemma one_none fh : one fh None = 0.
Proof. unfold one. by rewrite decide_False. Qed.

Lemma lib_call_open copts fname mode events w rc fp w' :
  lib_call (cldc_open copts fname mode events) w = Some ((rc, fp), w') ->
  lib_call (run_op (OpOpen copts fname mode events)) w = Some (rc, w').
Proof.
  unfold lib_call. cbn [run_op]. unfold mbind at 2, C_bind at 1. destruct (cldc_open _ _ _ _ _) as [[[a b] c']|]; [|done].
  cbn. destruct (run_effs _ _) as [w1|]; [|done]. cbn. congruence.
Qed.

Definition genio_cli_op (o : genio_op) (fp : nat) (copts : option Z) : cli_op :=
  match o with
  | GWrite data => OpPut fp copts data
  | GTrylock => OpLock fp copts 0 false
  | GUnlock => OpUnlock fp copts
  | GQlock => OpLock fp copts 0 true
  end.

(** The two ways on from a call with an object. *)
Lemma ninv_issued t c k s p w w1 m cb rc :
  ninv w -> nw_app w !! t = Some (Issue c p) -> owns (Issue c p) = Some p -> wants (Issue c p) = Some k ->
  called (copts_of_cb cb) rc w w1 -> cb_obj cb = Some p -> kind_ok cb k ->
  (rc <> 0 -> owns s = None -> wants s = None -> io_fh s = None -> issuing s = false ->
     ninv (set_thread t s (set_nw_objs (delete p (nw_objs w1)) w1))) /\
  (owns s = Some p -> wants s = Some k -> issuing s = false ->
   (forall fh, io_fh s = Some fh -> is_Some (nw_fhs w1 !! fh)) ->
   (forall fh f', m !! fh = Some f' -> exists f1, nw_fhs w1 !! fh = Some f1 /\ nf_nios f' = nf_nios f1 + one fh (io_fh s)) ->
   ninv (set_thread t s (set_nw_fhs m w1))).
Proof.
  intros Hi Ht Ho Hk C Hcb Hok. pose proof Hi as [Hl Ha _].
  assert (forall q, cb_obj cb = Some q -> owns (Issue c p) = Some q /\ exists o, nw_objs w !! q = Some o /\ kind_ok cb (obj_kind o)) as Hc.
  { intros q Hq. assert (q = p) as -> by congruence. split; [done|].
    destruct (ao_wants _ Ha _ _ _ Ht Hk) as (p' & o & Hp & Hob & Hkk). assert (p' = p) as -> by congruence. exists o. by rewrite Hkk. }
  split.
  - intros Hrc So Sw Sf Si. eapply (ninv_called t s _ w w1 _ cb rc Hi Ht); try done; rewrite ?Sf; cbn -[owns]; try done.
    + right. exists p. done.
    + intros fh f' Hf. exists f'. rewrite one_none. split; [done|lia].
    + by left.
  - intros So Sw Si Sf Hm. eapply (ninv_called t s _ w w1 _ cb rc Hi Ht); try done; cbn -[owns wants].
    + by left.
    + right. by rewrite So, Sw, Ho, Hk.
    + intros fh Hf. apply (ao_fh_lt _ Ha). destruct (Sf _ Hf) as [f Hf1]. pose proof (cd_fhs _ _ _ _ C fh) as Hx. rewrite Hf1 in Hx.
      by destruct (nw_fhs w !! fh).
Qed.

Lemma ninv_issue t c p w w' :
  ninv w -> nw_app w !! t = Some (Issue c p) -> issue_call t c p w = Some w' -> ninv w'.
Proof.
  intros Hi Ht. destruct c as [fname mode events|fname|fh meta|fh o|fh in_sess|]; cbn [issue_call]; open_calls.
  - destruct (lib_call _ w) as [[[rc fp] w1]|] eqn:E; [|done]. cbn. apply lib_call_open in E.
    pose proof (op_called (OpOpen _ fname mode events) _ _ _ _ Hi eq_refl E) as C.
    destruct (with_fh _ _ w1) as [w2|] eqn:E2; [|done]. cbn.
    destruct (with_fh_nios _ _ 0 _ _ E2 ltac:(intros; cbn; lia)) as (m & -> & _ & Hm).
    assert (forall fh f', m !! fh = Some f' -> exists f1, nw_fhs w1 !! fh = Some f1 /\ nf_nios f' = nf_nios f1 + 0) as Hm'.
    { intros fh f' Hf. destruct (Hm _ _ Hf) as (f1 & H1 & ->). exists f1. split; [done|]. by case_decide. }
    destruct (negb _); intros [= <-]; eapply (ninv_called t _ _ _ w1 _ (ncld_open_cb p) rc Hi Ht); try done; cbn; auto.
    intros fh f' [_ Hf]%lookup_delete_Some. rewrite one_none. eauto.
  - destruct (lib_call _ w) as [[rc w1]|] eqn:E; [|done]. cbn.
    pose proof (op_called (OpDel _ fname) _ _ _ _ Hi eq_refl E) as C.
    destruct (ninv_issued t _ KDelio (Returned (RInt (- rc))) p w w1 ∅ (ncld_del_cb p) rc Hi Ht eq_refl eq_refl C eq_refl) as [H1 _]; [done|].
    destruct (ninv_issued t _ KDelio (Waiting (WDel p)) p w w1 (nw_fhs w1) (ncld_del_cb p) rc Hi Ht eq_refl eq_refl C eq_refl) as [_ H2]; [done|].
    destruct (Z.eqb_spec rc 0) as [Hrc|Hrc]; cbn [negb]; intros [= <-]; [|by apply H1].
    apply H2; try done. intros fh f' Hf. cbn. exists f'. rewrite one_none. split; [done|lia].
  - destruct (nw_fhs w !! fh) as [f|]; [|done]. cbn. destruct (nf_fh f) as [fp|]; [|done]. cbn.
    destruct (lib_call _ w) as [[rc w1]|] eqn:E; [|done]. cbn.
    set (cb := if meta then ncld_read_meta_cb p else ncld_read_cb p) in *.
    pose proof (op_called (OpGet fp _ meta) _ _ _ _ Hi eq_refl E) as C.
    assert (cb_obj cb = Some p /\ kind_ok cb (KRead fh)) as [Hc Hk] by by destruct meta.
    destruct (ninv_issued t _ (KRead fh) (Returned (RErr (- rc))) p w w1 ∅ cb rc Hi Ht eq_refl eq_refl C Hc Hk) as [H1 _].
    destruct (Z.eqb_spec rc 0) as [Hrc|Hrc]; cbn [negb]; [|intros [= <-]; by apply H1].
    destruct (with_fh _ _ w1) as [w2|] eqn:E2; [|done]. cbn. intros [= <-].
    destruct (with_fh_nios _ _ 1 _ _ E2 ltac:(done)) as (m & -> & Hs & Hm).
    destruct (ninv_issued t _ (KRead fh) (Waiting (WRead fh p)) p w w1 m cb rc Hi Ht eq_refl eq_refl C Hc Hk) as [_ H2].
    apply H2; try done. { intros fh' [= <-]. done. } intros fh' f' Hf. cbn [io_fh]. rewrite one_some. by apply Hm.
  - destruct (nw_fhs w !! fh) as [f|]; [|done]. cbn. destruct (nf_fh f) as [fp|]; [|done]. cbn.
    destruct (lib_call _ w) as [[rc w1]|] eqn:E; [|done]. cbn.
    assert (called (copts_of_cb (ncld_genio_cb p)) rc w w1) as C.
    { apply (op_called (genio_cli_op o fp (Some (copts_of_cb (ncld_genio_cb p)))) _ _ _ _ Hi); by destruct o. }
    destruct (ninv_issued t _ (KGenio fh) (Returned (RInt (- rc))) p w w1 ∅ _ rc Hi Ht eq_refl eq_refl C eq_refl I) as [H1 _].
    destruct (Z.eqb_spec rc 0) as [Hrc|Hrc]; cbn [negb]; [|intros [= <-]; by apply H1].
    destruct (with_fh _ _ w1) as [w2|] eqn:E2; [|done]. cbn. intros [= <-].
    destruct (with_fh_nios _ _ 1 _ _ E2 ltac:(done)) as (m & -> & Hs & Hm).
    destruct (ninv_issued t _ (KGenio fh) (Waiting (WGenio fh (is_qlock o) p)) p w w1 m _ rc Hi Ht eq_refl eq_refl C eq_refl I) as [_ H2].
    apply H2; try done. { intros fh' [= <-]. done. } intros fh' f' Hf. cbn [io_fh]. rewrite one_some. by apply Hm.
  - destruct (nw_fhs w !! fh) as [f|]; [|done]. cbn. destruct (nf_fh f) as [fp|]; [|done]. cbn.
    destruct (lib_call _ w) as [[rc w1]|] eqn:E; [|done]. cbn. intros [= <-].
    pose proof (op_called (OpClose fp _) _ _ _ _ Hi eq_refl E) as C.
    assert (forall k, k = WClose fh in_sess \/ k = WNios fh in_sess -> owns (Waiting k) = None /\ wants (Waiting k) = None /\ io_fh (Waiting k) = None) as Hk.
    { by intros k [->| ->]. }
    destruct (Hk (if rc =? 0 then WClose fh in_sess else WNios fh in_sess) ltac:(destruct (rc =? 0); auto)) as (K1 & K2 & K3).
    eapply (ninv_called t _ _ _ w1 _ (ncld_close_cb fh) rc Hi Ht); try done; rewrite ?K3; cbn -[owns wants]; auto; try done.
    intros fh' f' Hf. exists f'. rewrite one_none. split; [done|lia].
  - by intros [= <-].
Qed.

Lemma ninv_sleep t k w : ninv w -> nw_app w !! t = Some (Waiting k) -> ninv (set_thread t (Asleep k) w).
Proof.
  intros [Hl Ha Htm] Ht. assert (io_fh (Asleep k) = io_fh (Waiting k) /\ owns (Asleep k) = owns (Waiting k) /\ wants (Asleep k) = wants (Waiting k))
    as (V1 & V2 & V3) by by destruct k.
  split; [done| |done]. apply (app_ok_thread t (Asleep k) w); cbn -[owns wants io_fh]; rewrite ?Ht; cbn -[owns wants io_fh];
    rewrite ?V1, ?V2, ?V3; try done.
  - intros p Hp. split; [by eapply (ao_lt _ Ha)|by left].
  - intros fh. by apply (ao_io _ Ha t).
  - intros kk. by apply (ao_wants _ Ha t).
  - intros fh f' Hf. left. exists f'. split; [done|lia].
Qed.

(** A wait is over: the object may be dropped if it is done. *)
Lemma ninv_finish t s s0 p w m objs :
  ninv w -> nw_app w !! t = Some s0 -> owns s0 = Some p -> owns s = None -> wants s = None -> io_fh s = None -> issuing s = false ->
  (exists o, nw_objs w !! p = Some o /\ obj_done o = true) -> objs = nw_objs w \/ objs = delete p (nw_objs w) ->
  (forall fh f', m !! fh = Some f' -> exists f1, nw_fhs w !! fh = Some f1 /\ nf_nios f' = nf_nios f1 - one fh (io_fh s0)) ->
  ninv (set_thread t s (set_nw_objs objs (set_nw_fhs m w))).
Proof.
  intros [Hl Ha Htm] Ht Ho So Sw Si Ss (o & Hob & Hd) Eo Hm. split; [| |done].
  - cbn. destruct Eo as [->| ->]; [done|]. apply lib_ok_delete; [done|]. intros q cb Hp Hc.
    destruct (lo_pend _ _ _ Hl _ _ _ Hp Hc) as (o' & Hob' & Hd' & _). congruence.
  - apply (app_ok_thread t s w); cbn -[owns wants io_fh issuing]; rewrite ?Ht; cbn -[owns wants io_fh issuing]; rewrite ?So, ?Sw, ?Si, ?Ss; try done.
    + intros q Hq _. destruct Eo as [->| ->]; [done|]. rewrite lookup_delete_ne; [done|congruence].
    + intros fh f' Hf. left. destruct (Hm _ _ Hf) as (f1 & H1 & ->). exists f1. split; [done|]. rewrite one_none. lia.
Qed.

(** Setting a field to what it is. *)
Lemma set_objs_id w : set_nw_objs (nw_objs w) w = w.
Proof. by destruct w. Qed.
Lemma set_fhs_id w : set_nw_fhs (nw_fhs w) w = w.
Proof. by destruct w. Qed.

Lemma ninv_wait t k w w' : ninv w -> nw_app w !! t = Some (Waiting k) -> wait_call t k w = Some w' -> ninv w'.
Proof.
  intros Hi Ht. pose proof (ninv_sleep t k w Hi Ht) as Hsleep. pose proof Hi as [Hl Ha _].
  assert (forall s, io_fh (Waiting k) = None -> owns s = None -> io_fh s = None -> wants s = None -> ninv (set_thread t s w)) as Hplain.
  { intros s H0 Ho Hio Hw. apply (ninv_plain t s w); try done. by rewrite Ht. }
  destruct k as [|fh|dp|fh rp|fh q ap|fh in_sess|fh in_sess]; cbn [wait_call]; open_calls.
  - destruct (negb _); [by intros [= <-]|]. destruct (_ =? 0); intros [= <-]; by apply Hplain.
  - destruct (nw_fhs w !! fh) as [f|]; [|done]. cbn. destruct (negb _); [by intros [= <-]|].
    destruct (_ =? 0); intros [= <-]; [by apply Hplain|]. eapply (ninv_plain t _ w); try done; [by rewrite Ht|].
    cbn. intros p f' [_ H]%lookup_delete_Some. done.
  - unfold get_delio. destruct (nw_objs w !! dp) as [[| |d]|] eqn:E; try done. cbn. destruct (di_is_done d) eqn:Hd; [|by intros [= <-]].
    intros [= <-]. rewrite <- (set_fhs_id w) at 2. eapply (ninv_finish t _ _ dp w (nw_fhs w)); try done; [eauto|by right|].
    intros fh f' Hf. exists f'. cbn. rewrite one_none. split; [done|lia].
  - unfold get_read. destruct (nw_objs w !! rp) as [[r| |]|] eqn:E; try done. cbn. destruct (nr_is_done r) eqn:Hd; [|by intros [= <-]].
    cbn. destruct (with_fh _ _ w) as [w1|] eqn:E1; [|done]. cbn.
    destruct (with_fh_nios _ _ (-1) _ _ E1 ltac:(done)) as (m & -> & _ & Hm).
    destruct (ao_wants _ Ha _ _ _ Ht eq_refl) as (p' & o & [= <-] & Ho & Hk). rewrite E in Ho. injection Ho as <-. injection Hk as Hk.
    assert (forall fh' f', m !! fh' = Some f' -> exists f1, nw_fhs w !! fh' = Some f1 /\ nf_nios f' = nf_nios f1 - one fh' (Some fh)) as Hm'.
    { intros fh' f' Hf. destruct (Hm _ _ Hf) as (f1 & H1 & ->). exists f1. split; [done|]. rewrite one_some, Hk. case_decide; lia. }
    destruct (_ =? 0); intros [= <-].
    + rewrite <- (set_objs_id (set_nw_fhs m w)). eapply (ninv_finish t _ _ rp w m); try done; [eauto|by left].
    + eapply (ninv_finish t _ _ rp w m); try done; [eauto|by right].
  - unfold get_genio. destruct (nw_objs w !! ap) as [[|g|]|] eqn:E; try done. cbn. destruct (gi_is_done g) eqn:Hd; [|by intros [= <-]].
    cbn. destruct (with_fh _ _ w) as [w1|] eqn:E1; [|done]. cbn.
    destruct (with_fh_nios _ _ (-1) _ _ E1 ltac:(done)) as (m & -> & _ & Hm).
    destruct (ao_wants _ Ha _ _ _ Ht eq_refl) as (p' & o & [= <-] & Ho & Hk). rewrite E in Ho. injection Ho as <-. injection Hk as Hk.
    intros [= <-]. eapply (ninv_finish t _ _ ap w m); try done; [eauto|by right|].
    intros fh' f' Hf. destruct (Hm _ _ Hf) as (f1 & H1 & ->). exists f1. split; [done|]. cbn. rewrite one_some, Hk. case_decide; lia.
  - destruct (nw_fhs w !! fh) as [f|]; [|done]. cbn. destruct (nf_is_open f); [by intros [= <-]|]. intros [= <-]. by apply Hplain.
  - destruct (nw_fhs w !! fh) as [f|]; [|done]. cbn. destruct (negb _); [by intros [= <-]|]. intros [= <-]. by apply Hplain.
Qed.

Lemma ninv_end t err e w w' : ninv w -> nw_app w !! t = Some (Ending err e) -> end_sess_step t err e w = Some w' -> ninv w'.
Proof.
  intros Hi Ht. assert (forall s w1, owns s = None -> io_fh s = None -> wants s = None -> nw_app w1 = nw_app w -> nw_cli w1 = nw_cli w ->
    nw_objs w1 = nw_objs w -> nw_next w1 = nw_next w -> nw_tlist w1 = nw_tlist w -> nw_fhs w1 = nw_fhs w -> ninv (set_thread t s w1)) as Hplain.
  { intros s w1 Ho Hio Hw E1 E2 E3 E4 E5 E6. apply (ninv_plain t s w); try done; [cbn; by rewrite E1|by rewrite Ht|cbn; by rewrite E6]. }
  destruct e; cbn [end_sess_step].
  - destruct (lib_call _ w) as [[[] w1]|] eqn:E; [|done]. cbn. intros [= <-].
    apply lib_call_inv in E as (c' & tl & Hk & -> & Heff).
    assert (run_op OpKill (nw_cli w) = Some (0, c')) as Hr by (cbn [run_op]; unfold mbind, C_bind; by rewrite Hk).
    pose proof (run_effs_rel _ _ _ Heff) as R.
    assert (ninv w1) as Hi1.
    { eapply (ninv_hears OpKill 0 c' w _ w1 Hi eq_refl Hr Heff); try done. apply timer_ops_wf, Hi. }
    assert (nw_app w1 !! t = Some (Ending err EndKill)) as Ht1.
    { destruct (er_app _ _ _ R) as [->| ->]; cbn; [done|]. by rewrite lookup_fmap, Ht. }
    eapply (ninv_plain t _ w1); try done. by rewrite Ht1.
  - intros [= <-]. by apply Hplain.
  - destruct (nw_helper w); intros [= <-]; try done. by apply Hplain.
  - intros [= <-]. by apply Hplain.
Qed.

Lemma ninv_thread_step t w w' : ninv w -> thread_step t w = Some w' -> ninv w'.
Proof.
  intros Hi. unfold thread_step. destruct (nw_app w !! t) as [s|] eqn:Ht; [|by intros [= <-]].
  destruct s as [c|c p|k|k|fh|fh in_sess|err e|r]; open_calls; try (by intros [= <-]); destruct (negb (nw_live w)); try done.
  - by apply ninv_start.
  - by apply ninv_issue.
  - by apply ninv_wait.
  - intros [= <-]. eapply (ninv_plain t _ w); try done. by rewrite Ht.
  - destruct (nw_fhs w !! fh) as [f|]; [|done]. cbn. intros [= <-].
    eapply (ninv_plain t _ w); try done; try (by destruct in_sess); [by rewrite Ht|]. cbn. intros p f' [_ H]%lookup_delete_Some. done.
  - by apply ninv_end.
Qed.

(** ** The helper thread *)

Lemma timers_run_wf cb now st :
  timers_wf st -> exists tmo st', cld_timers_run cb now st = Some (tmo, st') /\ timers_wf st'.
Proof.
  intros W. unfold cld_timers_run. set (st0 := mkTimers _ now _ _). assert (timers_wf st0) as W0 by (by destruct W; split).
  destruct (run_loop_spec cb (S (length (tl_list st0))) now st0 W0 eq_refl) as (st' & fired & E & W' & _).
  { unfold due_list. pose proof (length_filter (fun p => expires st0 p <= now) (tl_list st0)). lia. }
  rewrite E. eauto.
Qed.

Lemma ninv_timers w w' : ninv w -> thr_timers w = Some w' -> ninv w'.
Proof.
  intros Hi. pose proof Hi as [Hl Ha Ht]. unfold thr_timers. destruct (timer_due _ _).
  - destruct (sess_timer (nw_cli w)) as [[rc c']|] eqn:Es; [|done]. destruct (cld_timers_run _ _ _) as [[tmo tl]|] eqn:Er; [|done].
    intros Heff. eapply (ninv_hears OpTimer rc c' w _ w' Hi eq_refl Es Heff); try done. cbn.
    match type of Er with cld_timers_run ?cb ?now ?st = _ => destruct (timers_run_wf cb now st Ht) as (? & ? & E & W) end. congruence.
  - destruct (cld_timers_run _ _ _) as [[tmo tl]|] eqn:Er; [|done]. intros [= <-].
    match type of Er with cld_timers_run ?cb ?now ?st = _ => destruct (timers_run_wf cb now st Ht) as (? & ? & E & W) end.
    split; [done|by destruct Ha; split|cbn; congruence].
Qed.

(** One call of the TCP layer receives one packet, or none. *)
Lemma tcp_receive_once addr l1 l2 t c rc t' c' :
  cldc_tcp_receive_pkt_data (tcp_receive addr) l1 l2 t (Some c) = Some (rc, t', Some c') ->
  c' = c \/ exists pkt rc', cldc_receive_pkt addr pkt c = Some (rc', c').
Proof.
  assert (forall l t, receive_raw (tcp_receive addr) l t (Some c) = Some (rc, t', Some c') ->
    c' = c \/ exists pkt rc', cldc_receive_pkt addr pkt c = Some (rc', c')) as Hraw.
  { intros l t0. unfold receive_raw. repeat case_match; intros Heq; simplify_eq/=; try (by left).
    unfold tcp_receive in *. repeat case_match; simplify_eq/=; eauto. }
  unfold cldc_tcp_receive_pkt_data. repeat case_match; try apply Hraw; intros Heq; simplify_eq/=; by left.
Qed.

Lemma ninv_receive l1 l2 w w' : ninv w -> thr_receive l1 l2 w = Some w' -> ninv w'.
Proof.
  intros Hi. pose proof Hi as [Hl Ha Ht]. unfold thr_receive.
  destruct (cldc_tcp_receive_pkt_data _ _ _ _ _) as [[[rc t] [c'|]]|] eqn:E; try done.
  destruct (tcp_receive_once _ _ _ _ _ _ _ _ E) as [->|(pkt & rc' & Hr)].
  - unfold asked. rewrite drop_all. intros [= <-]. split; [done|by destruct Ha; split|done].
  - intros Heff. eapply (ninv_hears (OpReceive (nw_addr w) pkt) rc' c' w _ w' Hi eq_refl Hr Heff); try done. by apply timer_ops_wf.
Qed.

Lemma ninv_helper r0 r1 l1 l2 w w' : ninv w -> ncld_sess_thr r0 r1 l1 l2 w = Some w' -> ninv w'.
Proof.
  intros Hi. pose proof Hi as [Hl Ha Ht]. assert (forall w1, nw_cli w1 = nw_cli w -> nw_objs w1 = nw_objs w -> nw_next w1 = nw_next w ->
    nw_app w1 = nw_app w -> nw_fhs w1 = nw_fhs w -> nw_tlist w1 = nw_tlist w -> ninv w1) as Hsame.
  { intros w1 E1 E2 E3 E4 E5 E6. split; [by rewrite E1, E2, E3| |by rewrite E6].
    destruct Ha; split; rewrite ?E1, ?E2, ?E3, ?E4, ?E5; done. }
  unfold ncld_sess_thr. destruct (nw_helper w) as [|tmo|[] [] |].
  - by apply ninv_timers.
  - intros [= <-]. by apply Hsame.
  - unfold ncld_thread_command. destruct (nw_pipe w); [done|]. repeat case_match; try done; intros [= <-]; by apply Hsame.
  - unfold ncld_thread_command. destruct (nw_pipe w); [done|]. repeat case_match; try done; intros [= <-]; by apply Hsame.
  - by apply ninv_receive.
  - intros [= <-]. by apply Hsame.
  - by intros [= <-].
Qed.

(** ** Runs *)

Lemma ninv_step e w w' : ninv w -> nstep e w = Some w' -> ninv w'.
Proof.
  intros Hi. pose proof Hi as [Hl Ha Ht]. destruct e as [tm|b|r0 r1 l1 l2|t|t c|t]; cbn [nstep].
  - intros [= <-]. split; [|by destruct Ha; split|done]. eapply lib_ok_same; [exact Hl|done|done| |apply Hl].
    eapply wf_step; [apply (cstep_time tm)|apply Hl].
  - intros [= <-]. split; [done|by destruct Ha; split|done].
  - by apply ninv_helper.
  - by apply ninv_thread_step.
  - intros [= <-]. destruct (idle _) eqn:Hid; [|done]. eapply (ninv_plain t _ w); try done.
    by destruct (nw_app w !! t) as [[]|].
  - intros [= <-]. destruct (nw_app w !! t) as [[]|] eqn:E; try done. split; [done| |done].
    assert (io_fh (Asleep k) = io_fh (Waiting k) /\ owns (Asleep k) = owns (Waiting k) /\ wants (Asleep k) = wants (Waiting k))
      as (V1 & V2 & V3) by by destruct k.
    apply (app_ok_thread t (Waiting k) w); cbn -[owns wants io_fh]; rewrite ?E; cbn -[owns wants io_fh]; rewrite <- ?V1, <- ?V2, <- ?V3; try done.
    + intros p Hp. split; [by eapply (ao_lt _ Ha)|by left].
    + intros fh. by apply (ao_io _ Ha t).
    + intros kk. by apply (ao_wants _ Ha t).
    + intros fh f' Hf. left. exists f'. split; [done|lia].
Qed.

Lemma ninv_run l w w' : ninv w -> nrun l w = Some w' -> ninv w'.
Proof.
  revert w. induction l as [|e l IH]; intros w Hi; cbn [nrun]; [by intros [= <-]|].
  destruct (nstep e w) as [w1|] eqn:E; [|done]. cbn. apply IH. by eapply ninv_step.
Qed.

Lemma ninv_open e host port event user key w : ncld_sess_open e host port event user key = Some (inr w) -> ninv w.
Proof.
  unfold ncld_sess_open. destruct (negb _); [done|].
  match goal with |- context [match host with Some _ => _ | None => _ end] => destruct (match host with Some _ => _ | None => _ end) as [srv|]; [|done] end.
  cbn. destruct srv as [err|[[h p] strs]]; [done|]. destruct (oe_pipe e); [done|]. destruct (strs !! h) as [name|]; [|done]. cbn.
  destruct (oe_connect e name p) as [addr|]; [|done]. destruct (negb _); [done|].
  destruct (lib_call _ _) as [[rc w1]|] eqn:E; [|done]. cbn. intros [= <-].
  apply lib_call_inv in E as (c' & tl & Hr & -> & Heff). pose proof (run_effs_rel _ _ _ Heff) as R.
  destruct (er_frame _ _ _ R) as (Fc & _ & _ & _ & _ & Ft & Fn & _). cbn in Fc, Fn, Ft.
  set (c0 := mkCli None ∅ ∅ 0 (oe_now e) [] (oe_oracle e) 0) in *. change (nw_cli (oe_world event addr c0)) with c0 in *.
  assert (cstep c0 c') as Hs by by apply (cstep_op (OpNewSess (Some 0) addr user key) rc).
  pose proof (op_heard (OpNewSess (Some 0) addr user key) c0) as Hh. unfold cw in Hh. cbn [run_op op_mode] in Hh. rewrite Hr in Hh.
  destruct Hh as [(l & El & Hl) Hm _].
  assert (forall m z code, Complete m z code ∉ l) as Hno by (intros m z code H; by destruct (Hl _ _ _ H)).
  assert (asked c0 c' = l) as Easked by (unfold asked; rewrite El; apply drop_app_length). rewrite Easked in *.
  assert (nw_objs w1 = ∅) as Eo.
  { apply map_eq. intros p'. rewrite (er_same _ _ _ R); [done|]. intros c [| | |m z code] He Hx; try by destruct Hx. by destruct (Hno m z code). }
  assert (nw_app w1 = ∅) as Eapp by (rewrite (er_quiet _ _ _ R); done).
  assert (forall q m, c_msgs c' !! q = Some m -> co_cb (m_copts m) = Some 0) as Hmsg.
  { intros q m Hq. destruct (Hm q (co_cb (m_copts m))) as [H|H]; [unfold msg_cb_of; by rewrite Hq|by unfold msg_cb_of in H; cbn in H|].
    unfold may_add in H. by injection H as <-. }
  assert (forall p', untouched c' p') as Hunt.
  { intros p'. split; [intros m z code; rewrite El; cbn; intros H; by destruct (Hno m z code)|].
    intros q m z Hq Hz. rewrite (Hmsg _ _ Hq) in Hz. injection Hz as <-. by vm_compute. }
  assert (forall q cb p', pending c' q cb -> cb_obj cb <> Some p') as Hpend.
  { intros q cb p' (m & Hq & _ & Hc). rewrite (Hmsg _ _ Hq) in Hc. injection Hc as Hc. apply (copts_of_cb_inj ncld_new_sess) in Hc. by subst cb. }
  assert (nw_fhs w1 = ∅) as Efh.
  { apply map_eq. intros p'. pose proof (er_fhs _ _ _ R p') as H. cbn in H. rewrite lookup_empty in *. by destruct (nw_fhs w1 !! p'). }
  split; cbn.
  - rewrite Fc, Eo, Fn. split; try done.
    + eapply wf_step; [done|]. split; [done|]. done.
    + apply (lawful_step _ _ Hs). intros q _. done.
    + intros q [o Ho]. done.
    + intros q m Hq. exists ncld_new_sess. eauto.
    + intros q cb p' Hp Hc. by destruct (Hpend _ _ _ Hp Hc).
    + intros q1 q2 cb1 cb2 p' H1 _ Hc _. by destruct (Hpend _ _ _ H1 Hc).
  - set (s := if negb (rc =? 0) then _ else _). assert (owns s = None /\ wants s = None /\ io_fh s = None /\ issuing s = false) as (S1 & S2 & S3 & S4)
      by (unfold s; by destruct (negb _)).
    split; cbn; rewrite ?Eapp, ?Efh, ?Eo.
    + intros t s' q [[<- <-]|[_ H]]%lookup_insert_Some; [congruence|done].
    + intros t s' q [[<- <-]|[_ H]]%lookup_insert_Some; [congruence|done].
    + by intros q [f Hf].
    + intros t s' q [[<- <-]|[_ H]]%lookup_insert_Some; [congruence|done].
    + intros t1 t2 s1 s2 q [[<- <-]|[_ H1]]%lookup_insert_Some; [congruence|done].
    + intros fh f Hf. done.
    + intros t s' q [[<- <-]|[_ H]]%lookup_insert_Some; [congruence|done].
  - rewrite Ft. apply timer_ops_wf. split; cbn; [constructor|constructor|]. intros q. split; [by intros H%elem_of_nil|].
    destruct (decide (q = 0%nat)) as [->|Hn]; [by rewrite lookup_total_singleton|]. rewrite lookup_total_singleton_ne by done. done.
Qed.

End ops.
