(* ===== verification/NcldProps.v ===== *)
(** * NcldProps: what the blocking calls guarantee

    Stated on every state the threads can reach, in any interleaving: results
    of calls, the count of outstanding I/Os, the lost session; and the ways a
    call can block forever. *)

From S2P Require Import Prelude Dirent Wire Timer Cldc CldcLogic CldcSys CldcWf CldcHear Transport Ncld NcldLogic NcldInv.
#[local] Open Scope Z_scope.

Section props.
Context {XL : XdrLib} {XC : XdrCli} {HL : HmacLib}.

(** Reached from a call of [ncld_sess_open] by any interleaving. *)
Definition nreachable (w : nworld) : Prop :=
  exists e host port event user key w0 l,
    ncld_sess_open e host port event user key = Some (inr w0) /\ nrun l w0 = Some w.

Lemma nreachable_inv w : nreachable w -> ninv w.
Proof. intros (e & host & port & event & user & key & w0 & l & Ho & Hr). eapply ninv_run; [by eapply ninv_open|done]. Qed.

Lemma thread_waits t k w : nw_app w !! t = Some (Waiting k) -> nw_live w = true -> thread_step t w = wait_call t k w.
Proof. intros Ht Hl. unfold thread_step. by rewrite Ht, Hl. Qed.

(** C17.  [ncld_close] waits for exactly the outstanding I/Os: in every reachable
    state [nios] of a handle is the number of threads that wait for an answer
    on it, so a thread in the last loop of [ncld_close] goes on to free the
    handle if there is none, and sleeps if there is one. *)
Theorem close_waits_for_ios w t fh in_sess f :
  nreachable w -> nw_live w = true -> nw_fhs w !! fh = Some f -> nw_app w !! t = Some (Waiting (WNios fh in_sess)) ->
  nf_nios f = waiters fh (nw_app w) /\
  (thread_step t w = Some (set_thread t (Freeing fh in_sess) w) /\
     (forall t' s, nw_app w !! t' = Some s -> io_fh s <> Some fh) \/
   thread_step t w = Some (set_thread t (Asleep (WNios fh in_sess)) w) /\
     exists t' s, nw_app w !! t' = Some s /\ io_fh s = Some fh).
Proof.
  intros Hi%nreachable_inv Hl Hf Ht. pose proof (ao_nios _ (ni_app _ Hi) _ _ Hf) as Hn. split; [done|].
  rewrite (thread_waits _ _ _ Ht Hl). cbn [wait_call]; open_calls. rewrite Hf. cbn.
  destruct (Z.eqb_spec (nf_nios f) 0) as [E|E]; cbn [negb]; [left|right]; (split; [done|]).
  - intros t' s Hs Hio. pose proof (waiters_pos _ _ _ _ Hs Hio). lia.
  - rewrite Hn in E. unfold waiters in E. destruct (map_choose (filter (fun kv => io_fh kv.2 = Some fh) (nw_app w))) as (t' & s & H).
    { intros H. rewrite H in E. done. }
    apply map_lookup_filter_Some in H as [H1 H2]. eauto.
Qed.

(** What a finished wait returns, given the completion code. *)
Definition wait_result (k : nwait) (code : Z) : option nresult :=
  match k with
  | WGenio _ q _ => Some (RInt (genio_result q code))
  | WRead _ rp => Some (if code =? 0 then RPtr rp else RErr (code + 1100))
  | WDel _ => Some (RInt (if code =? 0 then 0 else code + 1100))
  | _ => None
  end.

Definition wait_obj (k : nwait) : option nat :=
  match k with WGenio _ _ p | WRead _ p | WDel p => Some p | _ => None end.

(** A wait for an object that is done. *)
Lemma wait_done t k p w o :
  wait_obj k = Some p -> wants (Waiting k) = Some (obj_kind o) -> nw_objs w !! p = Some o -> obj_done o = true ->
  (forall fh, io_fh (Waiting k) = Some fh -> is_Some (nw_fhs w !! fh)) ->
  exists w' r, wait_call t k w = Some w' /\ wait_result k (obj_errc o) = Some r /\ nw_app w' = <[t := Returned r]> (nw_app w).
Proof.
  intros Hp Hk Ho Hd Hf. destruct k as [|fh|dp|fh rp|fh q ap| |]; try done; injection Hp as ->; cbn [wait_call wait_result]; open_calls.
  - unfold get_delio. rewrite Ho. destruct o as [| |d]; try done. cbn in *. rewrite Hd. cbn. eauto.
  - unfold get_read. rewrite Ho. destruct o as [r| |]; try done. cbn in *. injection Hk as ->. rewrite Hd. cbn.
    destruct (Hf _ eq_refl) as [f Hfh]. unfold with_fh. rewrite Hfh. cbn. destruct (_ =? 0); eauto.
  - unfold get_genio. rewrite Ho. destruct o as [|g|]; try done. cbn in *. injection Hk as ->. rewrite Hd. cbn.
    destruct (Hf _ eq_refl) as [f Hfh]. unfold with_fh. rewrite Hfh. cbn. eauto.
Qed.

(** A wait for an object that is not done. *)
Lemma wait_not_done t k p w o :
  wait_obj k = Some p -> wants (Waiting k) = Some (obj_kind o) -> nw_objs w !! p = Some o -> obj_done o = false ->
  wait_call t k w = Some (set_thread t (Asleep k) w).
Proof.
  intros Hp Hk Ho Hd. destruct k as [|fh|dp|fh rp|fh q ap| |]; try done; injection Hp as ->; cbn [wait_call]; open_calls.
  - unfold get_delio. rewrite Ho. destruct o as [| |d]; try done. cbn in *. by rewrite Hd.
  - unfold get_read. rewrite Ho. destruct o as [r| |]; try done. cbn in *. by rewrite Hd.
  - unfold get_genio. rewrite Ho. destruct o as [|g|]; try done. cbn in *. by rewrite Hd.
Qed.

(** The object a waiting thread looks at. *)
Lemma waiting_obj w t s k :
  ninv w -> nw_app w !! t = Some s -> s = Waiting k \/ s = Asleep k -> is_Some (wait_obj k) ->
  exists p o, wait_obj k = Some p /\ nw_objs w !! p = Some o /\ wants (Waiting k) = Some (obj_kind o) /\ owns s = Some p.
Proof.
  intros Hi Ht Hs [p Hp]. assert (wants s = wants (Waiting k) /\ owns s = wait_obj k /\ is_Some (wants (Waiting k))) as (V1 & V2 & [kd V3]).
  { destruct Hs as [->| ->]; destruct k; try done; split_and!; try done; by eexists. }
  rewrite <- V1 in V3. destruct (ao_wants _ (ni_app _ Hi) _ _ _ Ht V3) as (p' & o & Ho & Hob & Hk).
  exists p, o. rewrite V2 in Ho. assert (p' = p) as -> by congruence. split_and!; try congruence.
Qed.

(** C15.  The result of a blocking call is the answer to that call: in any
    interleaving, nothing has completed with a call's callback when the call is
    about to be issued, and when [ncld_write], [ncld_trylock], [ncld_unlock],
    [ncld_qlock], [ncld_get], [ncld_get_meta] or [ncld_del] returns after
    waiting, the library has run that callback, and the value returned is the
    one of the code it ran with: 0 (or the result) exactly for [CLE_OK]. *)
Theorem result_is_answer w t :
  nreachable w ->
  (forall c p, nw_app w !! t = Some (Issue c p) -> is_Some (wants (Issue c p)) -> untouched (nw_cli w) p) /\
  (forall k w' r, nw_app w !! t = Some (Waiting k) -> is_Some (wait_obj k) ->
     thread_step t w = Some w' -> nw_app w' !! t = Some (Returned r) ->
     exists p m z code, wait_obj k = Some p /\ Complete m z code ∈ c_trace (nw_cli w) /\ ptr_of z = Some p /\
       wait_result k code = Some r).
Proof.
  intros Hi%nreachable_inv. split.
  - intros c p Ht [k Hk]. eapply (ao_fresh _ (ni_app _ Hi) t); [done|done|]. by destruct c.
  - intros k w' r Ht Hk Hs Hr. destruct (waiting_obj w t _ k Hi Ht (or_introl eq_refl) Hk) as (p & o & Hp & Ho & Hw & _).
    unfold thread_step in Hs. rewrite Ht in Hs. destruct (negb (nw_live w)); [done|].
    destruct (obj_done o) eqn:Hd.
    + destruct (lo_done _ _ _ (ni_lib _ Hi) _ _ Ho Hd) as (e & Hin & He). destruct e as [| | |m z code]; try done. destruct He as [Hz ->].
      assert (forall fh, io_fh (Waiting k) = Some fh -> is_Some (nw_fhs w !! fh)) as Hf.
      { intros fh Hfh. destruct k as [| | |fh' rp|fh' q ap| |]; try done; cbn in Hfh, Hw, Hp, Hs; open_calls; cbn in Hs; injection Hfh as ->; injection Hp as ->.
        - unfold get_read in Hs. rewrite Ho in Hs. destruct o as [rd| |]; try done. injection Hw as ->. cbn in Hs, Hd. rewrite Hd in Hs.
          unfold with_fh in Hs. cbn in Hs. destruct (nw_fhs w !! nr_fh rd); [by eexists|done].
        - unfold get_genio in Hs. rewrite Ho in Hs. destruct o as [|g|]; try done. injection Hw as ->. cbn in Hs, Hd. rewrite Hd in Hs.
          unfold with_fh in Hs. cbn in Hs. destruct (nw_fhs w !! gi_fh g); [by eexists|done]. }
      destruct (wait_done t k p w o Hp Hw Ho Hd Hf) as (w1 & r1 & E1 & E2 & E3).
      assert (w1 = w') as -> by congruence. rewrite E3, lookup_insert_eq in Hr. injection Hr as ->.
      exists p, m, z, (obj_errc o). done.
    + rewrite (wait_not_done t k p w o Hp Hw Ho Hd) in Hs. injection Hs as <-. cbn in Hr. by rewrite lookup_insert_eq in Hr.
Qed.

(** A completion ends the wait for its object. *)
Lemma completed_returns l w w1 w3 t s k p q z code o :
  ninv w -> nw_app w1 = nw_app w -> nw_objs w1 = nw_objs w -> nw_fhs w1 = nw_fhs w -> nw_live w3 = true -> eff_rel l w1 w3 ->
  nw_app w !! t = Some s -> s = Waiting k \/ s = Asleep k -> wait_obj k = Some p ->
  Complete q z code ∈ l -> ptr_of z = Some p -> (forall c e, e ∈ l -> completes_obj p c e -> c = code) ->
  nw_objs w !! p = Some o -> obj_done o = false -> (forall fh, io_fh (Waiting k) = Some fh -> is_Some (nw_fhs w !! fh)) ->
  exists w'' r, thread_step t w3 = Some w'' /\ wait_result k code = Some r /\ nw_app w'' !! t = Some (Returned r).
Proof.
  intros Hi Ea Eo Ef Hl R Hs Hsk Hwo Hin Hptr Hcode Ho Hod Hfh.
  destruct (waiting_obj w t s k Hi Hs Hsk ltac:(by eexists)) as (p' & o0 & Hp' & Ho0 & Hw & _). assert (p' = p) as -> by congruence.
  assert (o0 = o) as -> by congruence. pose proof (er_kind _ _ _ R p) as Hkk. rewrite Eo, Ho in Hkk.
  destruct (nw_objs w3 !! p) as [o3|] eqn:Ho3; [|done]. injection Hkk as Hkk.
  pose proof (er_fin _ _ _ R p code _ o3 Hin (conj Hptr eq_refl) Ho3) as Hod3.
  assert (clean w1) as Hcl by (unfold clean; rewrite Eo; apply (lo_clean _ _ _ (ni_lib _ Hi))).
  assert (obj_errc o3 = code) as Herr.
  { destruct (er_done _ _ _ R p o3 Hcl Ho3 Hod3) as [(o1 & H1 & H2 & _)|(e & He & Hce)]; [rewrite Eo in H1; congruence|by eapply Hcode]. }
  assert (nw_app w3 !! t = Some (Waiting k)) as Ht3.
  { rewrite (er_wake _ _ _ R _ _ _ Hin), Ea, lookup_fmap, Hs. cbn. by destruct Hsk as [->| ->]. }
  rewrite <- Hkk in Hw. destruct (wait_done t k p w3 o3 Hwo Hw Ho3 Hod3) as (w4 & r & E4 & Hr & Happ).
  { intros fh Hk. destruct (Hfh _ Hk) as [f Hf]. pose proof (er_fhs _ _ _ R fh) as Hfx. rewrite Ef, Hf in Hfx.
    destruct (nw_fhs w3 !! fh); [by eexists|done]. }
  exists w4, r. rewrite (thread_waits t k w3 Ht3 Hl). rewrite Herr in Hr. split_and!; [done|done|]. by rewrite Happ, lookup_insert_eq.
Qed.

(** ** The lost session *)

(** Handles are not freed while a call on them is under way, and not closed
    before [ncld_open] has returned them. *)
Definition handles_kept (w : nworld) : Prop :=
  (forall p o fh, nw_objs w !! p = Some o -> obj_done o = false -> obj_kind o = KRead fh \/ obj_kind o = KGenio fh ->
     is_Some (nw_fhs w !! fh)) /\
  (forall q cb fh, pending (nw_cli w) q cb -> cb = ncld_open_cb fh \/ cb = ncld_close_cb fh -> is_Some (nw_fhs w !! fh)) /\
  (forall q1 q2 fh, pending (nw_cli w) q1 (ncld_open_cb fh) -> ~ pending (nw_cli w) q2 (ncld_close_cb fh)).

(** The callback that ends a wait; the last loop of [ncld_close] has none. *)
Definition wait_cb (k : nwait) (cb : ncld_cb) : bool :=
  match k, cb with
  | WSess, ncld_new_sess => true
  | WOpen p, ncld_open_cb q | WDel p, ncld_del_cb q | WRead _ p, ncld_read_cb q | WRead _ p, ncld_read_meta_cb q
  | WGenio _ _ p, ncld_genio_cb q | WClose p _, ncld_close_cb q => bool_decide (p = q)
  | _, _ => false
  end.

(** The request of a call that waits so is unanswered. *)
Definition unanswered (w : nworld) (k : nwait) : Prop :=
  exists q m cb, c_msgs (nw_cli w) !! q = Some m /\ m_done m = false /\ m_cb m <> no_cb /\
    co_cb (m_copts m) = Some (copts_of_cb cb) /\ wait_cb k cb = true.

(** What a thread does after a wait that timed out: it returns 1117, the
    application's error for [CLE_TIMEOUT]; [ncld_sess_open] winds up first, to
    return the same, and [ncld_close] goes on to its last loop. *)
Definition timed_out (k : nwait) : tstate :=
  match k with
  | WSess => Ending (Some 1117) EndKill
  | WOpen _ | WRead _ _ => Returned (RErr 1117)
  | WDel _ | WGenio _ _ _ => Returned (RInt 1117)
  | WClose fh in_sess | WNios fh in_sess => Waiting (WNios fh in_sess)
  end.

Lemma run_effs_app l1 l2 w : run_effs (l1 ++ l2) w = run_effs l1 w ≫= run_effs l2.
Proof. revert w. induction l1 as [|e l1 IH]; intros w; cbn; [done|]. destruct (run_eff e w); [apply IH|done]. Qed.

(** Failed calls leave the session's flag and the pipe alone. *)
Lemma failed_flags l w w' :
  (forall e, e ∈ l -> exists m z code, e = Complete m z code /\ code <> 0) -> run_effs l w = Some w' ->
  nw_is_up w' = nw_is_up w /\ nw_pipe w' = nw_pipe w.
Proof.
  revert w. induction l as [|e l IH]; intros w He; cbn [run_effs]; [by intros [= <-]|].
  destruct (run_eff e w) as [w1|] eqn:E; [|done]. cbn. intros H. apply IH in H as [-> ->]; [|intros e' H'; apply He; by right].
  destruct (He e) as (m & z & code & -> & Hc); [by left|]. cbn in E. destruct (cb_of_copts z) as [cb|]; [|done].
  apply Z.eqb_neq in Hc. destruct cb; cbn in E; open_calls; cbn in E; unfold with_fh, with_delio, with_genio, get_genio, fh_broadcast, run_read_cb, get_read, with_read, fh_broadcast in E;
    rewrite ?Hc in E; repeat (case_match; cbn in E; try done); rewrite ?Hc in E; cbn in E; repeat (case_match; cbn in E; try done); by injection E as <-.
Qed.

Lemma drop_trace_elem c l e :
  e ∈ drop_trace c l -> exists p m z, p ∈ l /\ c_msgs c !! p = Some m /\ m_done m = false /\ co_cb (m_copts m) = Some z /\
    e = Complete p z (cle_code CLE_TIMEOUT).
Proof.
  unfold drop_trace. intros (x & Hx & He)%list_elem_of_In%in_concat. apply in_map_iff in Hx as (p & <- & Hp%list_elem_of_In).
  apply list_elem_of_In in He. destruct (c_msgs c !! p) as [m|] eqn:Em; [|by apply elem_of_nil in He].
  destruct (m_done m) eqn:Hd; [by apply elem_of_nil in He|]. unfold seen in He.
  destruct (m_cb m), (co_cb (m_copts m)) as [z|] eqn:Ez; try (by apply elem_of_nil in He);
    apply list_elem_of_singleton in He; exists p, m, z; done.
Qed.

Lemma elem_drop_trace c l p m z :
  p ∈ l -> c_msgs c !! p = Some m -> m_done m = false -> m_cb m <> no_cb -> co_cb (m_copts m) = Some z ->
  Complete p z (cle_code CLE_TIMEOUT) ∈ drop_trace c l.
Proof.
  intros Hp Hm Hd Hn Hz. unfold drop_trace. apply list_elem_of_In, in_concat.
  exists (seen p m (cle_code CLE_TIMEOUT)). split.
  - apply in_map_iff. exists p. rewrite Hm, Hd. split; [done|]. by apply list_elem_of_In.
  - unfold seen. rewrite Hz. by destruct (m_cb m); [|left..].
Qed.

(** A handle whose opening (or closing) is among the completions, when its
    closing (or opening) is not. *)
Lemma fh_settled l w1 w3 q fh (op : bool) z code :
  Complete q z code ∈ l -> cb_of_copts z = Some (if op then ncld_open_cb fh else ncld_close_cb fh) ->
  (forall q' z' c, Complete q' z' c ∈ l -> c = code /\ cb_of_copts z' <> Some (if op then ncld_close_cb fh else ncld_open_cb fh)) ->
  is_Some (nw_fhs w1 !! fh) -> run_effs l w1 = Some w3 ->
  exists f, nw_fhs w3 !! fh = Some f /\ nf_is_open f = op /\ nf_errc f = code.
Proof.
  intros Hin Hz Hall Hf. apply (run_effs_reach (fun w => is_Some (nw_fhs w !! fh)) (fun w =>
    exists f, nw_fhs w !! fh = Some f /\ nf_is_open f = op /\ nf_errc f = code) l _ w1 w3 Hin Hf).
  - intros e w w' _ Hr [f E]. rewrite (proj1 (run_eff_after _ _ _ fh Hr)), E. cbn. eauto.
  - intros w w' Hr [f E]. rewrite (proj1 (run_eff_after _ _ _ fh Hr)), E. cbn. rewrite Hz.
    destruct op; rewrite decide_True by done; eexists; split_and!; done.
  - intros e w w' He Hr (f & E & Ho & Hc). rewrite (proj1 (run_eff_after _ _ _ fh Hr)), E. cbn.
    eexists. split; [done|]. destruct e as [| | |m z' c]; try done. destruct (Hall _ _ _ He) as [-> Hn]. cbn.
    destruct (cb_of_copts z') as [[|p|p|p|p|p|p]|]; try done; (case_decide as D; [|done]); subst p; by destruct op.
Qed.

Lemma sess_settled l w1 w3 q z code :
  Complete q z code ∈ l -> cb_of_copts z = Some ncld_new_sess -> (forall q' z' c, Complete q' z' c ∈ l -> c = code) ->
  run_effs l w1 = Some w3 -> (nw_open_done w3, nw_errc w3) = (true, code).
Proof.
  intros Hin Hz Hall. apply (run_effs_reach (fun _ => True) (fun w => (nw_open_done w, nw_errc w) = (true, code)) l _ w1 w3 Hin); try done.
  - intros w w' Hr _. rewrite (proj2 (run_eff_after _ _ _ 0%nat Hr)). cbn. by rewrite Hz.
  - intros e w w' He Hr E. rewrite (proj2 (run_eff_after _ _ _ 0%nat Hr)). destruct e as [| | |m z' c]; try done. cbn.
    rewrite (Hall _ _ _ He). destruct (cb_of_copts z') as [[]|]; done.
Qed.

(** What the loss makes of a wait that is not for an object. *)
Lemma settled_moves w3 t k cb :
  nw_live w3 = true -> nw_app w3 !! t = Some (Waiting k) -> wait_cb k cb = true -> wait_obj k = None ->
  (cb = ncld_new_sess -> (nw_open_done w3, nw_errc w3) = (true, cle_code CLE_TIMEOUT)) ->
  (forall fh op, cb = (if op : bool then ncld_open_cb fh else ncld_close_cb fh) ->
     exists f, nw_fhs w3 !! fh = Some f /\ nf_is_open f = op /\ nf_errc f = cle_code CLE_TIMEOUT) ->
  exists w'', thread_step t w3 = Some w'' /\ nw_app w'' !! t = Some (timed_out k).
Proof.
  intros Hl Ht Hk Ho Hs Hf. rewrite (thread_waits _ _ _ Ht Hl).
  destruct k as [|fh|dp|fh rp|fh q ap|fh b|fh b]; try done; destruct cb as [|p|p|p|p|p|p]; try done; cbn [wait_call]; open_calls.
  - injection (Hs eq_refl) as -> ->. cbn. eexists. split; [done|]. cbn. by rewrite lookup_insert_eq.
  - apply bool_decide_eq_true in Hk as <-. destruct (Hf fh true eq_refl) as (f & -> & Hop & He). cbn. rewrite Hop, He. cbn.
    eexists. split; [done|]. cbn. by rewrite lookup_insert_eq.
  - apply bool_decide_eq_true in Hk as <-. destruct (Hf fh false eq_refl) as (f & -> & Hop & He). cbn. rewrite Hop.
    eexists. split; [done|]. cbn. by rewrite lookup_insert_eq.
Qed.

(** What it makes of a wait for an object. *)
Lemma lost_object w w1 w3 t s k p q cb l :
  ninv w -> nw_app w1 = nw_app w -> nw_objs w1 = nw_objs w -> nw_fhs w1 = nw_fhs w -> nw_live w3 = true -> eff_rel l w1 w3 ->
  nw_app w !! t = Some s -> s = Waiting k \/ s = Asleep k -> wait_obj k = Some p -> pending (nw_cli w) q cb -> cb_obj cb = Some p ->
  Complete q (copts_of_cb cb) (cle_code CLE_TIMEOUT) ∈ l ->
  (forall q' z c, Complete q' z c ∈ l -> c = cle_code CLE_TIMEOUT) ->
  (forall o fh, nw_objs w !! p = Some o -> obj_done o = false -> obj_kind o = KRead fh \/ obj_kind o = KGenio fh -> is_Some (nw_fhs w !! fh)) ->
  exists w'', thread_step t w3 = Some w'' /\ nw_app w'' !! t = Some (timed_out k).
Proof.
  intros Hi Ea Eo Ef Hl R Hs Hsk Hwo Hp Hcb Hin Hall Hkept.
  destruct (lo_pend _ _ _ (ni_lib _ Hi) q cb p Hp Hcb) as (o & Ho & Hod & _).
  destruct (completed_returns l w w1 w3 t s k p q (copts_of_cb cb) (cle_code CLE_TIMEOUT) o) as (w'' & r & E & Hr & Ha); try done.
  - by rewrite ptr_of_cb.
  - intros c [| | |q' z' c'] He Hce; try done. destruct Hce as [_ <-]. by eapply Hall.
  - intros fh Hfh. destruct (waiting_obj w t s k Hi Hs Hsk ltac:(by eexists)) as (p' & o' & Hp' & Ho' & Hw & _).
    assert (p' = p) as -> by congruence. assert (o' = o) as -> by congruence.
    eapply Hkept; [exact Ho|done|]. destruct k; try done; cbn in Hw, Hfh; injection Hfh as ->; injection Hw as Hw; auto.
  - exists w''. split; [done|]. rewrite Ha. f_equal. destruct k as [|?|?|? ?|? qq ?|? ?|? ?]; try done; cbn in Hr; injection Hr as <-; try done.
    by destruct qq.
Qed.

(** C16.  A lost session ends every wait: when the server has been silent for
    longer than the session lives and the helper runs the timer, then - unless
    a handle was freed under a call, or closed before it was returned - the
    session is marked down, its loss is queued for the event function if it was
    up, and every thread that waits for an unanswered request, asleep or not, in
    whatever call, leaves the wait in its next step with [CLE_TIMEOUT]: the call
    returns 1117; [ncld_sess_open] begins to wind up and return it, and
    [ncld_close] goes on to wait for the I/Os of its handle, which end as well. *)
Theorem lost_session_ends_waits w x r0 r1 l1 l2 :
  nreachable w -> nw_live w = true -> nw_helper w = HTop -> timer_due (c_now (nw_cli w)) (nw_tlist w) = true ->
  c_sess (nw_cli w) = Some x -> cs_expire_time x < c_now (nw_cli w) -> handles_kept w ->
  exists w', ncld_sess_thr r0 r1 l1 l2 w = Some w' /\ nw_is_up w' = false /\ c_msgs (nw_cli w') = ∅ /\
    nw_pipe w' = nw_pipe w ++ (if nw_is_up w then NCLD_CMD_SESEV :: le_bytes 4 CE_SESS_FAILED else []) /\
    forall t s k, nw_app w !! t = Some s -> s = Waiting k \/ s = Asleep k -> unanswered w k ->
      exists w'', thread_step t w' = Some w'' /\ nw_app w'' !! t = Some (timed_out k).
Proof.
  intros Hi%nreachable_inv Hlive Hh Hdue Hx Hexp (Hk1 & Hk2 & Hk3). pose proof Hi as [Hl Ha Htm]. set (c := nw_cli w) in *.
  assert (~ end_pending c) as Hne.
  { intros (q & m & Hq & _ & _ & Hn). destruct (lo_cb _ _ _ Hl _ _ Hq) as [cb Hc]. congruence. }
  destruct (expire_spec c x Hx (wf_live _ _ (lo_wf _ _ _ Hl) Hx) Hne Hexp) as (c' & x' & Es & Hx' & _ & _ & _ & Hm0 & Et).
  set (dt := drop_trace c (cs_out_msg x)) in *.
  assert (asked c c' = dt ++ [TimerCtl false 0; Event None CE_SESS_FAILED]) as Easked.
  { unfold asked. by rewrite Et, drop_app_length. }
  destruct (timers_run_wf (fun _ _ => omap (ncld_p_timer_ctl (c_now c)) (asked c c')) (c_now c) (nw_tlist w) Htm) as (tmo & tl & Er & _).
  set (w1 := set_nw_helper (HPoll tmo) (set_nw_tlist tl (set_nw_cli c' w))).
  assert (forall q m z, c_msgs c !! q = Some m -> m_done m = false -> co_cb (m_copts m) = Some z -> target_live w1 q z (cle_code CLE_TIMEOUT)) as Hlv.
  { intros q m z Hq Hd Hz. destruct (lo_cb _ _ _ Hl _ _ Hq) as [cb Hc]. assert (z = copts_of_cb cb) as -> by congruence.
    assert (pending c q cb) as Hp by by exists m.
    unfold target_live. rewrite cb_roundtrip. destruct cb as [|fh|p|p|p|p|fh]; cbn.
    - done.
    - eapply Hk2; [done|auto].
    - destruct (lo_pend _ _ _ Hl _ _ p Hp eq_refl) as (o & -> & _ & Hk). cbn. by destruct (obj_kind o).
    - destruct (lo_pend _ _ _ Hl _ _ p Hp eq_refl) as (o & Ho & Hod & Hk). destruct (obj_kind o) as [fh| |] eqn:Ek; try done.
      exists fh. rewrite Ho. cbn. rewrite Ek. split_and!; [done|eauto|done].
    - destruct (lo_pend _ _ _ Hl _ _ p Hp eq_refl) as (o & Ho & Hod & Hk). destruct (obj_kind o) as [fh| |] eqn:Ek; try done.
      exists fh. rewrite Ho. cbn. rewrite Ek. split_and!; [done|eauto|done].
    - destruct (lo_pend _ _ _ Hl _ _ p Hp eq_refl) as (o & Ho & Hod & Hk). destruct (obj_kind o) as [|fh|] eqn:Ek; try done.
      exists fh. rewrite Ho. cbn. rewrite Ek. split; [done|eauto].
    - eapply Hk2; [done|auto]. }
  destruct (run_effs_total dt w1) as [w2 E2].
  { intros q z code H. apply drop_trace_elem in H as (q' & m & z' & Hin & Hq & Hd & Hz & [= -> -> ->]). by eapply Hlv. }
  destruct (failed_flags dt w1 w2) as [Hup Hpipe]; [|done|].
  { intros e H. apply drop_trace_elem in H as (q' & m & z' & _ & _ & _ & _ & ->). by eexists _, _, _. }
  set (w3 := ncld_p_event CE_SESS_FAILED w2).
  assert (run_effs (asked c c') w1 = Some w3) as E3 by (rewrite Easked, run_effs_app, E2; done).
  assert (ncld_sess_thr r0 r1 l1 l2 w = Some w3) as Estep.
  { unfold ncld_sess_thr. rewrite Hh. unfold thr_timers. fold c. rewrite Hdue, Es, Er. done. }
  pose proof (run_effs_rel _ _ _ E3) as R. destruct (er_frame _ _ _ R) as (Fc & Fl & _).
  exists w3. split; [done|]. split_and!.
  - unfold w3, ncld_p_event. cbn. by destruct (nw_is_up w2) eqn:E.
  - by rewrite Fc.
  - unfold w3, ncld_p_event. cbn. rewrite Hup. cbn. destruct (nw_is_up w); cbn; rewrite Hpipe; [done|by rewrite app_nil_r].
  - assert (forall q z code, Complete q z code ∈ asked c c' -> code = cle_code CLE_TIMEOUT /\
      exists m, c_msgs c !! q = Some m /\ m_done m = false /\ co_cb (m_copts m) = Some z) as Hall.
    { intros q z code He. rewrite Easked in He. apply elem_of_app in He as [He|He].
      - apply drop_trace_elem in He as (q' & m' & z' & _ & Hq' & Hd' & Hz' & [= -> -> ->]). eauto.
      - apply elem_of_cons in He as [?|He]; [done|]. by apply list_elem_of_singleton in He. }
    intros t s k Hs Hsk (q & m & cb & Hq & Hd & Hncb & Hc & Hcb).
    assert (pending c q cb) as Hpend by by exists m.
    assert (Complete q (copts_of_cb cb) (cle_code CLE_TIMEOUT) ∈ asked c c') as Hin.
    { rewrite Easked. apply elem_of_app. left. eapply elem_drop_trace; try done.
      apply (wb_msgs _ _ _ _ (proj1 (wf_live _ _ (lo_wf _ _ _ Hl) Hx))). by exists m. }
    destruct (wait_obj k) as [p|] eqn:Hwo.
    + eapply (lost_object w w1 w3 t s k p q); try done; [by rewrite Fl| |intros q' z' c0 H; by apply (Hall _ _ _ H)|].
      * by destruct k as [|?|?|? ?|? ? ?|? ?|? ?], cb; try done; injection Hwo as <-; apply bool_decide_eq_true in Hcb as <-.
      * intros o fh Ho Hod Hkk. by eapply Hk1.
    + assert (nw_app w3 !! t = Some (Waiting k)) as Ht3.
      { rewrite (er_wake _ _ _ R _ _ _ Hin). cbn. rewrite lookup_fmap, Hs. cbn. by destruct Hsk as [->| ->]. }
      eapply (settled_moves w3 t k cb); try done; [by rewrite Fl|..].
      * intros ->. eapply sess_settled; [exact Hin|done| |exact E3]. intros q' z' c0 H. by apply (Hall _ _ _ H).
      * intros fh op ->. eapply fh_settled; [exact Hin|apply cb_roundtrip| | |exact E3].
        -- intros q' z' c0 H. destruct (Hall _ _ _ H) as (-> & m' & Hq' & Hd' & Hz'). split; [done|].
           destruct (lo_cb _ _ _ Hl _ _ Hq') as [cb' Hcb']. assert (z' = copts_of_cb cb') as -> by congruence.
           rewrite cb_roundtrip. intros [= ->]. assert (pending c q' (if op then ncld_close_cb fh else ncld_open_cb fh)) as Hp' by by exists m'.
           destruct op; [by destruct (Hk3 q q' fh)|by destruct (Hk3 q' q fh)].
        -- eapply Hk2; [exact Hpend|]. destruct op; auto.
Qed.

End props.
