(* ===== verification/NcldHang.v ===== *)
(** * NcldHang: calls that never return

    A call whose request was never queued waits forever, and [ncld_close] can
    miss the end of the last I/O on its handle. *)

From S2P Require Import Prelude Htab Dirent Wire Bdb Srv Cldb Outq Msg Session Server Logic OutqSpec ServerSpec.
From S2P Require Import Transport Timer Cldc CldcLogic CldcSys CldcWf CldcHear CldcWire CldcProps Ncld.
From S2P Require Import NcldLogic NcldInv NcldProps.
#[local] Open Scope Z_scope.

Section hang.
Context {XL : XdrLib} {XC : XdrCli} {HL : HmacLib}.

(** What a step of thread [t'] leaves of an object that is not its own and has
    no message, and of the other threads. *)
Record apart (p t' : nat) (w w' : nworld) : Prop := {
  ap_obj : nw_objs w' !! p = nw_objs w !! p;
  ap_unt : untouched (nw_cli w') p;
  ap_next : (nw_next w <= nw_next w')%nat;
  ap_app t : t <> t' -> nw_app w' !! t = nw_app w !! t \/ nw_app w' !! t = wake <$> nw_app w !! t }.

Lemma apart_trans p t' w1 w2 w3 : apart p t' w1 w2 -> apart p t' w2 w3 -> apart p t' w1 w3.
Proof.
  intros [A1 A2 A3 A4] [B1 B2 B3 B4]. split; [congruence|done|lia|]. intros t Ht.
  destruct (A4 t Ht) as [E1|E1], (B4 t Ht) as [E2|E2]; rewrite E2, E1; auto. right.
  destruct (nw_app w1 !! t) as [s|]; cbn; [|done]. by destruct s.
Qed.

(** Only the state of [t'], handles and other objects change. *)
Lemma apart_set p t' w w' s :
  untouched (nw_cli w) p -> c_trace (nw_cli w') = c_trace (nw_cli w) -> c_msgs (nw_cli w') = c_msgs (nw_cli w) ->
  (nw_next w <= nw_next w')%nat -> nw_app w' = <[t' := s]> (nw_app w) -> nw_objs w' !! p = nw_objs w !! p -> apart p t' w w'.
Proof.
  intros Hu Et Em En Ea Eo. split; [done| |done|].
  - unfold untouched in *. by rewrite Et, Em.
  - intros t Ht. left. rewrite Ea. by apply lookup_insert_ne.
Qed.

Lemma apart_called p t' z rc w w1 :
  called z rc w w1 -> ptr_of z <> Some p -> untouched (nw_cli w) p -> apart p t' w w1.
Proof.
  intros C Hz Hu. split; [by rewrite (cd_objs _ _ _ _ C)|by eapply called_untouched|by rewrite (cd_next _ _ _ _ C)|].
  intros t _. left. by rewrite (cd_app _ _ _ _ C).
Qed.

(** Requests of the library that complete nothing of [p]. *)
Lemma apart_hears p t' o rc c' w w1 w' :
  ninv w -> op_mode o = Hears -> run_op o (nw_cli w) = Some (rc, c') -> run_effs (asked (nw_cli w) c') w1 = Some w' ->
  nw_app w1 = nw_app w -> nw_objs w1 = nw_objs w -> nw_next w1 = nw_next w -> nw_cli w1 = c' ->
  untouched (nw_cli w) p -> apart p t' w w'.
Proof.
  intros Hi Hm Hr Heff Ea Eo En Ec Hu. pose proof (run_effs_rel _ _ _ Heff) as R. destruct (er_frame _ _ _ R) as (Fc & _ & _ & _ & _ & _ & Fn & _).
  destruct (lib_ok_hears o rc (nw_cli w) c' w1 w' (nw_objs w) (nw_next w) (ni_lib _ Hi) Hm Hr Eo Ec Heff) as [_ Hun].
  specialize (Hun p Hu). pose proof (op_heard o) as Hh. rewrite Hm in Hh.
  destruct (hears_completes _ _ _ _ Hh (is_lawful_op o) (lo_bnd _ _ _ (ni_lib _ Hi)) Hr) as (l & Et & Hc & _).
  split.
  - rewrite (er_same _ _ _ R p), Eo; [done|]. intros c e Hin Hce. destruct e as [| | |m z code]; try done. destruct Hce as [Hz _].
    unfold asked in Hin. rewrite Et, drop_app_length in Hin. destruct (Hc _ _ _ Hin) as (msg & Hmsg & Hz' & _).
    by destruct (proj2 Hu _ _ _ Hmsg Hz').
  - by rewrite Fc, Ec.
  - rewrite Fn, En. done.
  - intros t _. destruct (er_app _ _ _ R) as [->| ->]; rewrite Ea; [by left|right]. by rewrite lookup_fmap.
Qed.

Lemma malloc_apart w ok w1 : nw_malloc w = (ok, w1) -> exists c1, w1 = set_nw_cli c1 w /\ c_msgs c1 = c_msgs (nw_cli w) /\ c_trace c1 = c_trace (nw_cli w).
Proof. unfold nw_malloc, c_malloc_ok, c_nondet, mbind, C_bind, mret, C_ret. intros [= _ <-]. by eexists. Qed.

Lemma start_apart t c p w w' :
  ninv w -> is_Some (nw_objs w !! p) -> untouched (nw_cli w) p -> start_call t c w = Some w' -> apart p t w w'.
Proof.
  intros Hi Hp Hu. assert (p < nw_next w)%nat as Hlt by by apply (lo_lt _ _ _ (ni_lib _ Hi)).
  assert (forall o, <[nw_next w := o]> (nw_objs w) !! p = nw_objs w !! p) as Hins by (intros o; rewrite lookup_insert_ne by lia; done).
  destruct c as [fname mode events|fname|fh meta|fh o|fh in_sess|]; cbn [start_call]; open_calls.
  - destruct (negb _); [intros [= <-]; by eapply apart_set|]. destruct (nw_malloc w) as [ok w1] eqn:Em.
    destruct (malloc_apart _ _ _ Em) as (c1 & -> & E1 & E2). destruct ok; intros [= <-]; eapply apart_set; try done; cbn; lia.
  - destruct (negb _); intros [= <-]; eapply apart_set; try done; cbn; lia || apply Hins.
  - destruct (nw_fhs w !! fh) as [f|]; [|done]. cbn. destruct (negb _); [intros [= <-]; by eapply apart_set|].
    destruct (nw_malloc w) as [ok w1] eqn:Em. destruct (malloc_apart _ _ _ Em) as (c1 & -> & E1 & E2).
    destruct ok; intros [= <-]; eapply apart_set; try done; cbn; lia || apply Hins.
  - destruct (nw_fhs w !! fh) as [f|]; [|done]. cbn. destruct (negb _); intros [= <-]; eapply apart_set; try done; cbn; lia || apply Hins.
  - destruct (nw_fhs w !! fh) as [f|]; [|done]. cbn. destruct (negb _); [done|]. intros [= <-]. by eapply apart_set.
  - destruct (nw_handles w); intros [= <-]; by eapply apart_set.
Qed.

Lemma issue_apart t c q p w w' :
  ninv w -> nw_app w !! t = Some (Issue c q) -> owns (Issue c q) <> Some p -> untouched (nw_cli w) p ->
  issue_call t c q w = Some w' -> apart p t w w'.
Proof.
  intros Hi Ht Hn Hu.
  assert (forall w1 w2 s, apart p t w w1 -> nw_app w2 = <[t := s]> (nw_app w1) -> nw_cli w2 = nw_cli w1 -> nw_next w2 = nw_next w1 ->
    nw_objs w2 !! p = nw_objs w1 !! p -> apart p t w w2) as Hthen.
  { intros w1 w2 s A Ea Ec En Eo. eapply apart_trans; [exact A|]. eapply apart_set; [apply A|by rewrite Ec..| |done|done]. by rewrite En. }
  destruct c as [fname mode events|fname|fh meta|fh o|fh in_sess|]; cbn [issue_call]; open_calls.
  - destruct (lib_call _ w) as [[[rc fp] w1]|] eqn:E; [|done]. cbn. apply lib_call_open in E.
    pose proof (op_called (OpOpen _ fname mode events) _ _ _ _ Hi eq_refl E) as C.
    assert (apart p t w w1) as A by (eapply apart_called; [exact C|by rewrite ptr_of_cb|done]).
    unfold with_fh. destruct (nw_fhs w1 !! q); [|done]. cbn. destruct (negb _); intros [= <-]; by eapply Hthen.
  - destruct (lib_call _ w) as [[rc w1]|] eqn:E; [|done]. cbn.
    pose proof (op_called (OpDel _ fname) _ _ _ _ Hi eq_refl E) as C.
    assert (apart p t w w1) as A by (eapply apart_called; [exact C|by rewrite ptr_of_cb|done]).
    destruct (negb _); intros [= <-]; eapply Hthen; try done. cbn. apply lookup_delete_ne. cbn in Hn. congruence.
  - destruct (nw_fhs w !! fh) as [f|]; [|done]. cbn. destruct (nf_fh f) as [fp|]; [|done]. cbn.
    destruct (lib_call _ w) as [[rc w1]|] eqn:E; [|done]. cbn.
    set (cb := if meta then ncld_read_meta_cb q else ncld_read_cb q) in *.
    pose proof (op_called (OpGet fp _ meta) _ _ _ _ Hi eq_refl E) as C.
    assert (apart p t w w1) as A by (apply (apart_called p t (copts_of_cb cb) rc w w1 C); [rewrite ptr_of_cb; unfold cb; by destruct meta|done]).
    destruct (negb _); [intros [= <-]; eapply Hthen; try done; cbn; apply lookup_delete_ne; cbn in Hn; congruence|].
    unfold with_fh. destruct (nw_fhs w1 !! fh); [|done]. cbn. intros [= <-]. by eapply Hthen.
  - destruct (nw_fhs w !! fh) as [f|]; [|done]. cbn. destruct (nf_fh f) as [fp|]; [|done]. cbn.
    destruct (lib_call _ w) as [[rc w1]|] eqn:E; [|done]. cbn.
    assert (called (copts_of_cb (ncld_genio_cb q)) rc w w1) as C.
    { apply (op_called (genio_cli_op o fp (Some (copts_of_cb (ncld_genio_cb q)))) _ _ _ _ Hi); by destruct o. }
    assert (apart p t w w1) as A by (eapply apart_called; [exact C|by rewrite ptr_of_cb|done]).
    destruct (negb _); [intros [= <-]; eapply Hthen; try done; cbn; apply lookup_delete_ne; cbn in Hn; congruence|].
    unfold with_fh. destruct (nw_fhs w1 !! fh); [|done]. cbn. intros [= <-]. by eapply Hthen.
  - destruct (nw_fhs w !! fh) as [f|]; [|done]. cbn. destruct (nf_fh f) as [fp|]; [|done]. cbn.
    destruct (lib_call _ w) as [[rc w1]|] eqn:E; [|done]. cbn. intros [= <-].
    pose proof (op_called (OpClose fp _) _ _ _ _ Hi eq_refl E) as C.
    assert (apart p t w w1) as A by (apply (apart_called p t (copts_of_cb (ncld_close_cb fh)) rc w w1 C); [by rewrite ptr_of_cb|done]). by eapply Hthen.
  - intros [= <-]. split; try done. auto.
Qed.

Lemma wait_apart t k q p w w' :
  ninv w -> nw_app w !! t = Some (Waiting k) -> (forall q, owns (Waiting k) = Some q -> q <> p) -> untouched (nw_cli w) p ->
  wait_call t k w = Some w' -> q = p -> apart p t w w'.
Proof.
  intros Hi Ht Hn Hu Hw ->. assert (forall w2 s, nw_app w2 = <[t := s]> (nw_app w) -> nw_cli w2 = nw_cli w -> nw_next w2 = nw_next w ->
    nw_objs w2 !! p = nw_objs w !! p -> apart p t w w2) as Hset.
  { intros w2 s Ea Ec En Eo. eapply apart_set; [done|by rewrite Ec..|by rewrite En|done|done]. }
  destruct k as [|fh|dp|fh rp|fh b ap|fh in_sess|fh in_sess]; cbn [wait_call] in Hw; open_calls; cbn in Hn;
    unfold with_fh, get_delio, get_read, get_genio, mbind, option_bind in Hw; cbn in Hw; repeat (case_match; cbn in Hw; try done); simplify_eq/=.
  all: eapply Hset; try done; cbn; apply lookup_delete_ne, Hn; done.
Qed.

Lemma end_apart t err e p w w' :
  ninv w -> untouched (nw_cli w) p -> end_sess_step t err e w = Some w' -> apart p t w w'.
Proof.
  intros Hi Hu. assert (apart p t w w) as Hid by (split; auto).
  destruct e; cbn [end_sess_step].
  - destruct (lib_call _ w) as [[[] w1]|] eqn:E; [|done]. cbn. intros [= <-].
    apply lib_call_inv in E as (c' & tl & Hk & -> & Heff).
    assert (run_op OpKill (nw_cli w) = Some (0, c')) as Hr by (cbn [run_op]; unfold mbind, C_bind; by rewrite Hk).
    assert (apart p t w w1) as A by by eapply (apart_hears p t OpKill 0 c' w _ w1 Hi eq_refl Hr Heff).
    eapply apart_trans; [exact A|]. by eapply apart_set; [apply A|..].
  - intros [= <-]. by eapply apart_set.
  - destruct (nw_helper w); intros [= <-]; try done. by eapply apart_set.
  - intros [= <-]. by eapply apart_set.
Qed.

Lemma thread_apart t p w w' :
  ninv w -> is_Some (nw_objs w !! p) -> (nw_app w !! t ≫= owns) <> Some p -> untouched (nw_cli w) p ->
  thread_step t w = Some w' -> apart p t w w'.
Proof.
  intros Hi Hp Hn Hu. assert (apart p t w w) as Hid by (split; auto). unfold thread_step.
  destruct (nw_app w !! t) as [s|] eqn:Ht; [|by intros [= <-]]. cbn in Hn.
  destruct s as [c|c q|k|k|fh|fh in_sess|err e|r]; open_calls; try (by intros [= <-]); destruct (negb (nw_live w)); try done.
  - by apply start_apart.
  - by apply issue_apart.
  - intros Hw. apply (wait_apart t k p p w w' Hi Ht); try done. intros q Hq ->. done.
  - intros [= <-]. by eapply apart_set.
  - destruct (nw_fhs w !! fh); [|done]. cbn. intros [= <-]. by eapply apart_set.
  - by apply end_apart.
Qed.

Lemma helper_apart r0 r1 l1 l2 t p w w' :
  ninv w -> untouched (nw_cli w) p -> ncld_sess_thr r0 r1 l1 l2 w = Some w' -> apart p t w w'.
Proof.
  intros Hi Hu. assert (forall w1, nw_cli w1 = nw_cli w -> nw_objs w1 = nw_objs w -> nw_next w1 = nw_next w -> nw_app w1 = nw_app w -> apart p t w w1) as Hsame.
  { intros w1 E1 E2 E3 E4. split; [by rewrite E2|by rewrite E1|by rewrite E3|]. intros t' _. left. by rewrite E4. }
  unfold ncld_sess_thr. destruct (nw_helper w) as [|tmo|[] [] |].
  - unfold thr_timers. destruct (timer_due _ _).
    + destruct (sess_timer (nw_cli w)) as [[rc c']|] eqn:Es; [|done]. destruct (cld_timers_run _ _ _) as [[tmo tl]|]; [|done].
      intros Heff. by eapply (apart_hears p t OpTimer rc c' w _ w' Hi eq_refl Es Heff).
    + destruct (cld_timers_run _ _ _) as [[tmo tl]|]; [|done]. intros [= <-]. by apply Hsame.
  - intros [= <-]. by apply Hsame.
  - unfold ncld_thread_command. destruct (nw_pipe w); [done|]. repeat case_match; try done; intros [= <-]; by apply Hsame.
  - unfold ncld_thread_command. destruct (nw_pipe w); [done|]. repeat case_match; try done; intros [= <-]; by apply Hsame.
  - unfold thr_receive. destruct (cldc_tcp_receive_pkt_data _ _ _ _ _) as [[[rc tt] [c'|]]|] eqn:E; try done.
    destruct (tcp_receive_once _ _ _ _ _ _ _ _ E) as [->|(pkt & rc' & Hr)].
    + unfold asked. rewrite drop_all. intros [= <-]. by apply Hsame.
    + intros Heff. by eapply (apart_hears p t (OpReceive (nw_addr w) pkt) rc' c' w _ w' Hi eq_refl Hr Heff).
  - intros [= <-]. by apply Hsame.
  - intros [= <-]. by apply Hsame.
Qed.

(** ** A request that was never queued *)

(** Thread [t] waits for an object no message refers to. *)
Record stuck (t p : nat) (k : nwait) (w : nworld) : Prop := {
  sk_inv : ninv w;
  sk_app : nw_app w !! t = Some (Waiting k) \/ nw_app w !! t = Some (Asleep k);
  sk_k : wait_obj k = Some p;
  sk_unt : untouched (nw_cli w) p }.

Lemma stuck_obj t p k w : stuck t p k w -> exists o, nw_objs w !! p = Some o /\ obj_done o = false /\ wants (Waiting k) = Some (obj_kind o).
Proof.
  intros [Hi Ha Hk Hu]. destruct Ha as [Ha|Ha].
  all: destruct (waiting_obj w t _ k Hi Ha ltac:(auto) ltac:(by eexists)) as (p' & o & Hp & Ho & Hw & _); assert (p' = p) as -> by congruence;
    exists o; split; [done|]; split; [|done]; destruct (obj_done o) eqn:Hd; [|done];
    destruct (lo_done _ _ _ (ni_lib _ Hi) _ _ Ho Hd) as (e & Hin & He); destruct e as [| | |m z code]; try done; destruct He as [Hz _];
    by destruct (proj1 Hu _ _ _ Hin).
Qed.

Lemma stuck_apart t p k t' w w' : stuck t p k w -> ninv w' -> apart p t' w w' -> t <> t' -> stuck t p k w'.
Proof.
  intros [Hi Ha Hk Hu] Hi' A Ht. split; [done| |done|apply A]. destruct (ap_app _ _ _ _ A t Ht) as [->| ->]; [done|].
  left. by destruct Ha as [-> | ->].
Qed.

Lemma stuck_step t p k e w w' : stuck t p k w -> nstep e w = Some w' -> stuck t p k w'.
Proof.
  intros S Hs. pose proof S as [Hi Ha Hk Hu]. pose proof (ninv_step e w w' Hi Hs) as Hi'.
  destruct (stuck_obj _ _ _ _ S) as (o & Ho & Hod & Hw).
  assert (forall t', t' <> t -> (nw_app w !! t' ≫= owns) <> Some p) as Hother.
  { intros t' Ht H. destruct (nw_app w !! t') as [s'|] eqn:E'; [|done]. cbn in H. apply Ht.
    assert (exists s, nw_app w !! t = Some s /\ owns s = Some p) as (s & E & Hos).
    { destruct Ha as [->| ->]; eexists; (split; [done|]); by destruct k. }
    by eapply (ao_own _ (ni_app _ Hi)). }
  destruct e as [tm|b|r0 r1 l1 l2|t'|t' c|t']; cbn [nstep] in Hs.
  - injection Hs as <-. by split.
  - injection Hs as <-. by split.
  - apply (stuck_apart t p k (Datatypes.S t) w w' S Hi'); [by eapply helper_apart|lia].
  - destruct (decide (t' = t)) as [->|Ht]; [|apply (stuck_apart t p k t' w w' S Hi'); [|done]; eapply thread_apart; eauto].
    unfold thread_step in Hs. destruct Ha as [Ha|Ha]; rewrite Ha in Hs; [|by simplify_eq].
    destruct (negb (nw_live w)); [done|]. rewrite (wait_not_done t k p w o Hk Hw Ho Hod) in Hs. injection Hs as <-.
    split; try done. right. cbn. apply lookup_insert_eq.
  - destruct (idle (nw_app w !! t')) eqn:Hid; injection Hs as <-; [|done].
    assert (t' <> t) as Ht by (intros ->; by destruct Ha as [Ha|Ha]; rewrite Ha in Hid).
    split; try done. cbn. by rewrite lookup_insert_ne.
  - destruct (nw_app w !! t') as [[]|] eqn:E; injection Hs as <-; try done. destruct (decide (t' = t)) as [->|Ht].
    + split; try done. left. cbn. rewrite lookup_insert_eq. by destruct Ha as [Ha|Ha]; simplify_eq.
    + split; try done. cbn. by rewrite lookup_insert_ne.
Qed.

Lemma stuck_run t p k l w w' : stuck t p k w -> nrun l w = Some w' -> stuck t p k w'.
Proof.
  revert w. induction l as [|e l IH]; intros w S; cbn [nrun]; [by intros [= <-]|].
  destruct (nstep e w) as [w1|] eqn:E; [|done]. cbn. apply IH. by eapply stuck_step.
Qed.

(** [ncld_write] can block forever: [cldc_put] drops the result of sending
    its packets and returns 0 with nothing queued when the connection refuses
    one; the caller then waits for a callback no message carries, and whatever
    happens from there on - answers, timers, the loss of the session, other
    calls, spurious wake-ups - it never returns. *)
Theorem write_hangs w t fh f fp data p c1 :
  nreachable w -> nw_live w = true -> nw_app w !! t = Some (Issue (CallGenio fh (GWrite data)) p) ->
  nw_fhs w !! fh = Some f -> nf_fh f = Some fp ->
  cldc_put fp (Some (copts_of_cb (ncld_genio_cb p))) data (nw_cli w) = Some (0, c1) -> c_msgs c1 = c_msgs (nw_cli w) ->
  exists w1, thread_step t w = Some w1 /\
    forall l w2, nrun l w1 = Some w2 -> nw_app w2 !! t = Some (Waiting (WGenio fh false p)) \/ nw_app w2 !! t = Some (Asleep (WGenio fh false p)).
Proof.
  intros Hi%nreachable_inv Hl Ht Hf Hfp Hput Hm. cbn [copts_of_cb] in Hput. pose proof (ao_fresh _ (ni_app _ Hi) _ _ p Ht eq_refl eq_refl) as Hu.
  pose proof (op_heard (OpPut fp (Some (8 * Z.of_nat p + 5)) data) (nw_cli w)) as Hh. unfold cw in Hh. cbn [run_op op_mode] in Hh.
  rewrite Hput in Hh. destruct Hh as [(l & El & Hnc) _ _].
  assert (asked (nw_cli w) c1 = l) as Ea by (unfold asked; by rewrite El, drop_app_length).
  set (tl := foldl run_timer_op (nw_tlist w) (omap (ncld_p_timer_ctl (c_now (nw_cli w))) l)).
  destruct (run_effs_total l (set_nw_tlist tl (set_nw_cli c1 w))) as [w2 E2].
  { intros m z code H. by destruct (Hnc _ _ _ H). }
  destruct (run_effs_rel _ _ _ E2) as [(Fc & _) _ _ _ Hfx _ _ _ _ _ _]. specialize (Hfx fh). cbn in Hfx, Fc. rewrite Hf in Hfx.
  destruct (nw_fhs w2 !! fh) as [f2|] eqn:Ef2; [|done].
  set (w1 := set_thread t (Waiting (WGenio fh false p)) (set_nw_fhs (<[fh := add_nios 1 f2]> (nw_fhs w2)) w2)).
  assert (thread_step t w = Some w1) as E1.
  { unfold thread_step. rewrite Ht, Hl. cbn [negb issue_call]; open_calls. rewrite Hf. cbn. rewrite Hfp. cbn. unfold lib_call. rewrite Hput.
    rewrite Ea. fold tl. rewrite E2. cbn. unfold with_fh. by rewrite Ef2. }
  exists w1. split; [done|]. assert (stuck t p (WGenio fh false p) w1) as S.
  { split; [by eapply (ninv_thread_step t w)|left; cbn; apply lookup_insert_eq|done|]. cbn. rewrite Fc. destruct Hu as [U1 U2].
    split; rewrite ?Hm; [|done]. intros m z code. rewrite El. intros [H|H]%elem_of_app; [by eapply U1|]. by destruct (Hnc _ _ _ H). }
  intros l' w3 Hr. apply (sk_app t p), (stuck_run t p _ l' w1 w3 S Hr).
Qed.

(** ** The wake-up [ncld_close] misses *)

Definition all_done (c : cli) : Prop := forall q m, c_msgs c !! q = Some m -> m_done m = true.

(** With every message finished, receiving and timers wake nobody. *)
Lemma hears_quiet o rc c' w w1 w' :
  ninv w -> op_mode o = Hears -> run_op o (nw_cli w) = Some (rc, c') -> run_effs (asked (nw_cli w) c') w1 = Some w' ->
  all_done (nw_cli w) -> nw_app w1 = nw_app w -> nw_cli w1 = c' -> nw_app w' = nw_app w /\ all_done (nw_cli w').
Proof.
  intros Hi Hm Hr Heff Hd Ea Ec. pose proof (run_effs_rel _ _ _ Heff) as R. destruct (er_frame _ _ _ R) as (Fc & _).
  pose proof (op_heard o) as Hh. rewrite Hm in Hh.
  destruct (hears_completes _ _ _ _ Hh (is_lawful_op o) (lo_bnd _ _ _ (ni_lib _ Hi)) Hr) as (l & Et & Hc & Hmsg). split.
  - rewrite (er_quiet _ _ _ R); [done|]. intros m z code Hin. unfold asked in Hin. rewrite Et, drop_app_length in Hin.
    destruct (Hc _ _ _ Hin) as (msg & Hmsg' & _ & Hn & _). by rewrite (Hd _ _ Hmsg') in Hn.
  - rewrite Fc, Ec. intros q m Hq. destruct (m_done m) eqn:E; [done|]. destruct (Hmsg _ _ Hq E) as (m0 & Hq0 & Hn & _).
    by rewrite (Hd _ _ Hq0) in Hn.
Qed.

Lemma helper_quiet r0 r1 l1 l2 w w' :
  ninv w -> all_done (nw_cli w) -> ncld_sess_thr r0 r1 l1 l2 w = Some w' -> nw_app w' = nw_app w /\ all_done (nw_cli w').
Proof.
  intros Hi Hd. unfold ncld_sess_thr. destruct (nw_helper w) as [|tmo|[] [] |].
  - unfold thr_timers. destruct (timer_due _ _).
    + destruct (sess_timer (nw_cli w)) as [[rc c']|] eqn:Es; [|done]. destruct (cld_timers_run _ _ _) as [[tmo tl]|]; [|done].
      intros Heff. by eapply (hears_quiet OpTimer rc c' w _ w' Hi eq_refl Es Heff).
    + destruct (cld_timers_run _ _ _) as [[tmo tl]|]; [|done]. by intros [= <-].
  - by intros [= <-].
  - unfold ncld_thread_command. destruct (nw_pipe w); [done|]. repeat case_match; try done; by intros [= <-].
  - unfold ncld_thread_command. destruct (nw_pipe w); [done|]. repeat case_match; try done; by intros [= <-].
  - unfold thr_receive. destruct (cldc_tcp_receive_pkt_data _ _ _ _ _) as [[[rc tt] [c'|]]|] eqn:E; try done.
    destruct (tcp_receive_once _ _ _ _ _ _ _ _ E) as [->|(pkt & rc' & Hr)].
    + unfold asked. rewrite drop_all. by intros [= <-].
    + intros Heff. by eapply (hears_quiet (OpReceive (nw_addr w) pkt) rc' c' w _ w' Hi eq_refl Hr Heff).
  - by intros [= <-].
  - by intros [= <-].
Qed.

(** What the program does by itself: no new calls, no spurious wake-ups. *)
Definition by_itself (e : nev) : Prop := match e with EvCall _ _ | EvSpurious _ => False | _ => True end.

Record sleeps (t : nat) (k : nwait) (w : nworld) : Prop := {
  sl_inv : ninv w;
  sl_app : nw_app w !! t = Some (Asleep k);
  sl_idle t' : t' <> t -> idle (nw_app w !! t') = true;
  sl_done : all_done (nw_cli w) }.

Lemma sleeps_run t k l w w' : sleeps t k w -> Forall by_itself l -> nrun l w = Some w' -> sleeps t k w'.
Proof.
  intros S Hl. revert w S. induction Hl as [|e l He Hl IH]; intros w S; cbn [nrun]; [by intros [= <-]|].
  destruct (nstep e w) as [w1|] eqn:E; [|done]. cbn. apply IH. destruct S as [Hi Ha Hid Hd].
  pose proof (ninv_step e w w1 Hi E) as Hi1. destruct e as [tm|b|r0 r1 l1 l2|t'| |]; try done; cbn [nstep] in E.
  - injection E as <-. by split.
  - injection E as <-. by split.
  - destruct (helper_quiet _ _ _ _ _ _ Hi Hd E) as [Ea Hd1]. by split; rewrite ?Ea.
  - assert (w1 = w) as ->; [|by split]. unfold thread_step in E. destruct (decide (t' = t)) as [->|Hn]; [rewrite Ha in E; by simplify_eq|].
    specialize (Hid t' Hn). destruct (nw_app w !! t') as [[]|]; try done; by simplify_eq.
Qed.

(** [ncld_close] can miss the end of the last I/O: the thread whose I/O it
    waits for decrements [nios] after waking, without a broadcast, so when the
    closing thread was woken first and went back to sleep, the other one
    returns with [nios] at 0 and nobody left to wake the closing thread: with
    no request outstanding it sleeps on, whatever packets and timers come. *)
Theorem close_misses_wakeup w t u fh in_sess q ap g f :
  nreachable w -> nw_live w = true -> nw_app w !! t = Some (Asleep (WNios fh in_sess)) ->
  nw_app w !! u = Some (Waiting (WGenio fh q ap)) -> (forall t', t' <> t -> t' <> u -> idle (nw_app w !! t') = true) ->
  nw_fhs w !! fh = Some f -> get_genio ap w = Some g -> gi_is_done g = true -> all_done (nw_cli w) ->
  exists w1 f1, thread_step u w = Some w1 /\ nw_app w1 !! u = Some (Returned (RInt (genio_result q (gi_errc g)))) /\
    nw_fhs w1 !! fh = Some f1 /\ nf_nios f1 = 0 /\
    forall l w2, Forall by_itself l -> nrun l w1 = Some w2 -> nw_app w2 !! t = Some (Asleep (WNios fh in_sess)).
Proof.
  intros Hi%nreachable_inv Hl Ht Hu Hid Hf Hg Hd Hall. assert (t <> u) as Htu by congruence.
  assert (nw_objs w !! ap = Some (OGenio g)) as Ho by (unfold get_genio in Hg; repeat case_match; by simplify_eq).
  destruct (ao_wants _ (ni_app _ Hi) _ _ _ Hu eq_refl) as (p' & o & [= <-] & Ho' & Hk). rewrite Ho in Ho'. injection Ho' as <-. injection Hk as Hk.
  set (w1 := set_thread u (Returned (RInt (genio_result q (gi_errc g))))
    (set_nw_objs (delete ap (nw_objs w)) (set_nw_fhs (<[fh := add_nios (-1) f]> (nw_fhs w)) w))).
  assert (thread_step u w = Some w1) as E1.
  { rewrite (thread_waits _ _ _ Hu Hl). cbn [wait_call]; open_calls. rewrite Hg. cbn. rewrite Hd. cbn. unfold with_fh. by rewrite Hk, Hf. }
  pose proof (ninv_thread_step u w w1 Hi E1) as Hi1. exists w1, (add_nios (-1) f). split; [done|].
  split; [cbn; apply lookup_insert_eq|]. assert (nw_fhs w1 !! fh = Some (add_nios (-1) f)) as Hf1 by (cbn; apply lookup_insert_eq).
  assert (nw_app w1 !! t = Some (Asleep (WNios fh in_sess))) as Ht1 by (cbn; by rewrite lookup_insert_ne).
  assert (forall t', t' <> t -> idle (nw_app w1 !! t') = true) as Hid1.
  { intros t' Hn. cbn. destruct (decide (t' = u)) as [->|Hnu]; [by rewrite lookup_insert_eq|rewrite lookup_insert_ne by done; auto]. }
  split; [done|]. split.
  - rewrite (ao_nios _ (ni_app _ Hi1) _ _ Hf1). apply waiters_none. intros t' s Hs Hio. destruct (decide (t' = t)) as [->|Hn]; [by simplify_eq|].
    specialize (Hid1 t' Hn). rewrite Hs in Hid1. by destruct s.
  - intros l w2 Hlb Hr. apply (sl_app t), (sleeps_run t _ l w1 w2); [by split|done|done].
Qed.

(** ** Memory used after it is freed *)

(** With a NULL host the server is looked up, and the name of the chosen one is
    freed with the list before it is used to connect. *)
Theorem srv_lookup_uses_freed e port event user key h hport l :
  oe_malloc e = true -> oe_mutex e = true -> oe_cond e = true -> oe_gethostname e = None ->
  oe_getaddr e = Some ((h, hport) :: l) -> oe_pipe e = None ->
  ncld_sess_open e None port event user key = None.
Proof.
  intros H1 H2 H3 H4 H5 H6. unfold ncld_sess_open. rewrite H1, H2, H3. cbn. unfold ncld_getsrv. rewrite H4, H5. cbn. rewrite H6.
  by rewrite lookup_delete_eq.
Qed.

(** The TCP layer hands over the same packet whoever receives it. *)
Lemma receive_param {Y} (recv : bytes -> Y -> Z * Y) l1 l2 t y rc t' pkt :
  cldc_tcp_receive_pkt_data (fun b l => (0, l ++ [b])) l1 l2 t [] = Some (rc, t', [pkt]) ->
  cldc_tcp_receive_pkt_data recv l1 l2 t y = Some ((recv pkt y).1, t', (recv pkt y).2).
Proof.
  assert (forall l t0, receive_raw (fun b l => (0, l ++ [b])) l t0 [] = Some (rc, t', [pkt]) ->
    receive_raw recv l t0 y = Some ((recv pkt y).1, t', (recv pkt y).2)) as Hraw.
  { intros l t0. unfold receive_raw. repeat case_match; intros; simplify_eq/=; by match goal with H : recv _ _ = _ |- _ => rewrite H end. }
  unfold cldc_tcp_receive_pkt_data. repeat case_match; intros; simplify_eq/=; auto.
Qed.

Lemma kill_gone c : cw True cldc_kill_sess (fun _ c' => c_sess c' = None) c.
Proof.
  unfold cldc_kill_sess, sess_free, emit. apply cw_bind, cw_get_sess; [done|]. intros x _. apply cw_bind, cw_modify, cw_bind, cw_get_sess; [done|].
  intros x' _. apply cw_bind, cw_any. intros _ c1 _. apply cw_bind, cw_any. intros _ c2 _. by apply cw_modify.
Qed.

(** [ncld_sess_close] frees the session without the mutex and before the helper
    has been told to stop: if the helper's [poll] has seen a packet by then,
    receiving it uses the freed session. *)
Theorem close_races_helper w t err w1 r0 r1 l1 l2 rc tcp pkt hdr n :
  nreachable w -> nw_live w = true -> nw_app w !! t = Some (Ending err EndKill) -> nw_helper w = HReady false true ->
  thread_step t w = Some w1 ->
  cldc_tcp_receive_pkt_data (fun b l => (0, l ++ [b])) l1 l2 (nw_tcp w) [] = Some (rc, tcp, [pkt]) ->
  CLD_PKT_FTR_LEN <= Z.of_nat (length pkt) -> xdr_hdr_dec (take (length pkt - 28) pkt) = Some (hdr, n) ->
  ph_magic hdr = le_val CLD_PKT_MAGIC -> ncld_sess_thr r0 r1 l1 l2 w1 = None.
Proof.
  intros Hi%nreachable_inv Hl Ht Hh Hs Hrx Hlen Hdec Hmag. unfold thread_step in Hs. rewrite Ht, Hl in Hs. cbn [negb end_sess_step] in Hs.
  destruct (lib_call _ w) as [[[] w2]|] eqn:E; [|done]. cbn in Hs. injection Hs as <-.
  apply lib_call_inv in E as (c' & tl & Hk & -> & Heff). destruct (er_frame _ _ _ (run_effs_rel _ _ _ Heff)) as (Fc & _ & _ & Ft & Fa & _ & _ & Fh & _).
  cbn in Fc, Ft, Fa, Fh. assert (c_sess c' = None) as Hnone.
  { exact (cw_run True _ _ _ _ _ (kill_gone (nw_cli w)) Hk). }
  unfold ncld_sess_thr. cbn. rewrite Fh, Hh. unfold thr_receive. cbn. rewrite Ft, Fa, Fc.
  rewrite (receive_param _ _ _ _ (Some c') _ _ _ Hrx). unfold tcp_receive at 1. cbn [fst snd].
  assert (cldc_receive_pkt (nw_addr w) pkt c' = None) as ->; [|done].
  unfold cldc_receive_pkt. unfold mbind at 1, C_bind at 1, c_get. rewrite (proj2 (Z.ltb_ge _ _)) by done. rewrite Hdec, Hmag, Z.eqb_refl. cbn [negb].
  by apply get_sess_undef.
Qed.

End hang.

(** ** A blocking call and the server's answer

    The server's queued response, the connection, the library and the blocking
    layer put together. *)

Section answer.
Context {D : Type} {BD : Bdb D} {XL : XdrLib} {XC : XdrCli} {HL : HmacLib} {XO : XdrOk} {XCO : XdrCliOk}.

(** One packet from the connection whose handling completes a call. *)
Lemma receive_returns w t s k p l1 l2 rc tcp pkt r c' q z code r0 r1 o :
  ninv w -> nw_live w = true -> nw_helper w = HReady false true ->
  cldc_tcp_receive_pkt_data (fun b l => (0, l ++ [b])) l1 l2 (nw_tcp w) [] = Some (rc, tcp, [pkt]) ->
  cldc_receive_pkt (nw_addr w) pkt (nw_cli w) = Some (r, c') ->
  (forall e, e ∈ asked (nw_cli w) c' -> e = Complete q z code \/ exists a b, e = Sent a b) -> Complete q z code ∈ asked (nw_cli w) c' ->
  target_live (set_nw_cli c' w) q z code -> ptr_of z = Some p ->
  nw_app w !! t = Some s -> s = Waiting k \/ s = Asleep k -> wait_obj k = Some p ->
  nw_objs w !! p = Some o -> obj_done o = false -> (forall fh, io_fh (Waiting k) = Some fh -> is_Some (nw_fhs w !! fh)) ->
  exists w' w'' res, ncld_sess_thr r0 r1 l1 l2 w = Some w' /\ thread_step t w' = Some w'' /\
    wait_result k code = Some res /\ nw_app w'' !! t = Some (Returned res).
Proof.
  intros Hi Hl Hh Hrx Hr He Hin Hlive Hptr Ht Hsk Hwo Ho Hod Hfh. unfold ncld_sess_thr. rewrite Hh. unfold thr_receive.
  rewrite (receive_param _ _ _ _ (Some (nw_cli w)) _ _ _ Hrx).
  assert (tcp_receive (nw_addr w) pkt (Some (nw_cli w)) = (r, Some c')) as -> by (unfold tcp_receive; by rewrite Hr). cbn [fst snd].
  set (l := asked (nw_cli w) c') in *. set (w1 := set_nw_helper HTop _).
  destruct (run_effs_total l w1) as [w3 E3].
  { intros m z' c Hc. destruct (He _ Hc) as [[= -> -> ->]|(a & b & Hx)]; [|done]. exact Hlive. }
  rewrite E3. pose proof (run_effs_rel _ _ _ E3) as R. destruct (er_frame _ _ _ R) as (_ & Fl & _).
  destruct (completed_returns l w w1 w3 t s k p q z code o) as (w'' & res & H1 & H2 & H3); try done.
  - by rewrite Fl.
  - intros c e Hc Hce. destruct (He _ Hc) as [->|(a & b & ->)]; [by destruct Hce|done].
  - exists w3, w'', res. done.
Qed.

(** C14.  A blocking call returns the server's code: a thread waits in
    [ncld_write], [ncld_trylock], [ncld_unlock] or [ncld_qlock], asleep or not,
    and the packet the server made of the response to that call's request
    reaches the helper over the connection; then the helper's step is defined,
    and the thread's next one returns 0 for [CLE_OK], 1 for a lock that is
    queued in [ncld_qlock], and the code plus 1100 otherwise. *)
Theorem answer_returns w t s fh b ap q m x y op seq mb pkt code xid l1 l2 rc tcp r0 r1 :
  nreachable w -> nw_live w = true -> nw_helper w = HReady false true -> nw_addr w = cs_addr x -> is_Some (nw_fhs w !! fh) ->
  nw_app w !! t = Some s -> s = Waiting (WGenio fh b ap) \/ s = Asleep (WGenio fh b ap) ->
  cldc_tcp_receive_pkt_data (fun b l => (0, l ++ [b])) l1 l2 (nw_tcp w) [] = Some (rc, tcp, [pkt]) ->
  expects (nw_cli w) x y op seq mb [pkt] -> u64_ok xid -> xdr_msg_enc (MGenericResp code xid) = Some mb ->
  waits_for (nw_cli w) x q m xid -> c_now (nw_cli w) <= m_expire_time m -> m_cb m = generic_end_cb ->
  co_cb (m_copts m) = Some (copts_of_cb (ncld_genio_cb ap)) ->
  exists w' w'', ncld_sess_thr r0 r1 l1 l2 w = Some w' /\ thread_step t w' = Some w'' /\
    nw_app w'' !! t = Some (Returned (RInt (genio_result b (cle_code code)))).
Proof.
  intros Hi%nreachable_inv Hl Hh Haddr Hfh Ht Hsk Hrx Hex Hxid Henc Hwait Hnow Hcb Hco. set (z := copts_of_cb (ncld_genio_cb ap)) in *.
  destruct (response_arrives _ _ _ _ _ _ _ _ _ _ Hex Hwait Hnow) as (c1 & x1 & acks & T & W1 & Hca & HL' & Tr & Hla & Ea & _ & Er).
  destruct (complete_generic c1 x1 q m z (cle_code code) xid (seq_after seq (length [pkt] - 1)))
    as (r & c' & ack & E & _ & _ & Ht' & _); try done; try apply T.
  { rewrite (tk_buf _ _ _ _ _ _ _ T). by apply xc_generic. }
  rewrite E in Er. cbn in Er. unfold mbind, C_bind in Er. rewrite <- Haddr in Er.
  destruct (cldc_receive_pkt (nw_addr w) pkt (nw_cli w)) as [[r' c2]|] eqn:Hr; [|done]. injection Er as -> ->.
  destruct acks as [|a acks]; [|done]. cbn in Tr. rewrite app_nil_r in Tr. rewrite Tr in Ht'.
  assert (asked (nw_cli w) c' = [Complete q z (cle_code code); Sent (cs_addr x1) ack]) as Easked.
  { unfold asked. by rewrite Ht', drop_app_length. }
  destruct Hwait as (Hm & _ & _ & Hd & _).
  destruct (lo_pend _ _ _ (ni_lib _ Hi) q (ncld_genio_cb ap) ap) as (o & Ho & Hod & _); [by exists m|done|].
  destruct (waiting_obj w t s (WGenio fh b ap) Hi Ht Hsk ltac:(by eexists)) as (p' & o' & [= <-] & Ho' & Hk & _).
  assert (o' = o) as -> by congruence. injection Hk as Hk.
  destruct (receive_returns w t s (WGenio fh b ap) ap l1 l2 rc tcp pkt r c' q z (cle_code code) r0 r1 o)
    as (w' & w'' & res & H1 & H2 & H3 & H4); try done.
  - rewrite Easked. intros e [->|He]%elem_of_cons; [by left|]. apply list_elem_of_singleton in He as ->. right. eauto.
  - rewrite Easked. by left.
  - unfold target_live, z. rewrite cb_roundtrip. exists fh. cbn. rewrite Ho. cbn. by rewrite Hk.
  - unfold z. by rewrite ptr_of_cb.
  - by intros fh' [= <-].
  - injection H3 as <-. by exists w', w''.
Qed.

End answer.
