(* ===== verification/Props.v ===== *)
(** * Props: what the server guarantees

    The properties of the CLD server that follow from the component
    specifications: safety of reachable states, atomic handlers, session
    expiry, and the behaviour of sending and receiving. *)

From S2P Require Import Prelude Htab Dirent Wire Bdb Srv Cldb Outq Msg Session Server Logic OutqSpec.
From S2P Require Import Abs Inv MsgSpec SessionSpec Mem System ServerSpec.
#[local] Open Scope Z_scope.

(** ** Reachable states *)

Section reach.
Context {D : Type} `{!Bdb D, !BdbOk D} {XL : XdrLib} {XO : XdrOk} {HL : HmacLib}.
Implicit Types s : srv D.

(** States a server gets to that was started on an empty database. *)
Definition from_boot s : Prop :=
  exists d now orc s0, view d = empty_view /\ ensure_root (boot d now orc) = (true, s0) /\ reachable s0 s.

Lemma from_boot_inv s : from_boot s -> sys_inv s.
Proof.
  intros (d & now & orc & s0 & Hd & Hb & Hr). eapply reachable_sys_inv; [|done].
  eapply wp_run in Hb; [|apply ensure_root_inv; [apply boot_mem|by left]]. by apply Hb.
Qed.

(** C1.  Mutual exclusion: in every reachable state, two different lock records
    of an inode that are both held (not pending) are both shared. *)
Theorem lock_exclusion s (inum : Z) (i j : nat) (a b : raw_lock) :
  from_boot s -> i <> j ->
  locks_of (vw s) inum !! i = Some a -> locks_of (vw s) inum !! j = Some b ->
  acquired a = true -> acquired b = true -> shared a = true /\ shared b = true.
Proof.
  intros [_ Hinv]%from_boot_inv Hij Ha Hb.
  by apply (excl_ok_lookup _ i j a b (di_excl _ Hinv inum) Hij Ha Hb).
Qed.

(** C3.  Referential integrity: in every reachable state, each open handle is
    filed under its own key, refers to an existing inode of the kind (directory
    or not) it was opened as, and belongs to a session of the database. *)
Theorem handles_valid s (k : Z * Z) (h : raw_handle) :
  from_boot s -> v_handles (vw s) !! k = Some h ->
  k = (rh_sid h, rh_fh h) /\
  (exists ino, v_inodes (vw s) !! rh_inum h = Some ino /\
     flag (rh_mode h) COM_DIRECTORY = flag (ri_flags ino) CIFL_DIR) /\
  is_Some (v_sessions (vw s) !! rh_sid h).
Proof.
  intros [_ Hinv]%from_boot_inv Hh. split_and!.
  - by rewrite <- (di_hkey _ Hinv k h Hh).
  - by apply (di_href _ Hinv k h).
  - by apply (di_hsess _ Hinv k h).
Qed.

(** C4.  The name space: in every reachable state, names are valid and unique,
    the root directory exists, and the data of a directory is the encoding of a
    list of distinct base names each of which, under the directory's path,
    names an existing inode. *)
Theorem namespace_consistent s : from_boot s ->
  (exists i root, inode_named (vw s) [slash] i root /\ flag (ri_flags root) CIFL_DIR = true) /\
  (forall m i x, inode_named (vw s) m i x -> valid_inode_name (Some m) (length m) = true) /\
  (forall m i x j y, inode_named (vw s) m i x -> inode_named (vw s) m j y -> i = j) /\
  (forall i d, v_inodes (vw s) !! i = Some d -> flag (ri_flags d) CIFL_DIR = true ->
     exists bases, default [] (v_data (vw s) !! i) = enc_dir bases /\ NoDup bases /\
       forall b, b ∈ bases -> exists m j x, inode_named (vw s) m j x /\ (2 <= length m)%nat /\
         pathname_parse m = mkPinfo (ri_name d) b).
Proof.
  intros [_ Hinv]%from_boot_inv. split_and!.
  - apply (di_root _ Hinv).
  - intros m i x Hm. by destruct (inv_valid _ m i x Hinv Hm).
  - apply (di_names _ Hinv).
  - intros i d Hi Hd. destruct (di_ino _ Hinv i d Hi) as [E _].
    destruct (di_dirs _ Hinv i d Hi Hd) as (bases & H1 & H2 & H3). rewrite E in H1. eauto.
Qed.

(** In every reachable state an inode's recorded size is the length of its
    data (at 32 bits), and there is no data without an inode. *)
Theorem sizes_consistent s (i : Z) : from_boot s ->
  (forall ino, v_inodes (vw s) !! i = Some ino ->
     ri_inum ino = i /\ ri_size ino = u32 (Z.of_nat (length (default [] (v_data (vw s) !! i))))) /\
  (forall d, v_data (vw s) !! i = Some d -> is_Some (v_inodes (vw s) !! i)).
Proof.
  intros [_ Hinv]%from_boot_inv. split.
  - intros ino Hi. split; [by apply (di_ino _ Hinv)|by apply (di_size _ Hinv)].
  - apply (di_data _ Hinv).
Qed.

(** In every reachable state, a session the table returns for an id is a
    live object with that id: no handler works on a freed session. *)
Theorem session_lookup_live s (sid : Z) (p : nat) :
  from_boot s -> 0 <= sid < 2 ^ 64 -> (sess_get sid s).1 = Some p ->
  exists x, heap s !! p = Some x /\ s_sid x = sid /\ Z.of_nat (length (s_msg_buf x)) <= CLD_MAX_MSG_SZ.
Proof.
  intros [Hm _]%from_boot_inv Hs Hp. destruct (mem_get s sid p Hm Hs Hp) as (x & Hx & E).
  destruct (mi_obj _ Hm p x Hx) as [_ Hl]. eauto.
Qed.

(** C2.  Atomicity and refinement: each event the server handles (a packet, a
    session or retry timer, a checkpoint) changes the database by one
    transition of the abstract service or not at all, whatever calls to the
    database, the allocator or the network fail on the way. *)
Theorem step_refines s s' :
  from_boot s -> step s s' ->
  vw s' = vw s \/ exists a, astep (current_time s) a (vw s) (vw s').
Proof. intros [Hm Hinv]%from_boot_inv Hst. by destruct (step_good s s' Hm Hinv Hst). Qed.

(** No packet makes the server run a handler without a session. *)
Theorem no_null_session s (cli : cli_info) (raw_pkt : bytes) :
  from_boot s -> (cli_rd_pkt cli raw_pkt s).1.1 <> Some RxNull.
Proof. intros [Hm Hinv]%from_boot_inv. apply (cli_rd_pkt_good cli raw_pkt s Hm Hinv). Qed.

(** Starting the server on an empty database creates the root directory
    and establishes the invariant. *)
Theorem boot_establishes (d : D) (now : Z) (orc : nat -> Z) s0 :
  view d = empty_view -> ensure_root (boot d now orc) = (true, s0) -> mem_inv s0 /\ db_inv (vw s0).
Proof.
  intros Hd Hb. eapply wp_run in Hb; [|apply ensure_root_inv; [apply boot_mem|by left]]. by apply Hb.
Qed.

End reach.

(** A lock record that is held was there before, or was granted by its
    owner's own LOCK/TRYLOCK request: no other request, no unlock and no session
    removal turns a waiting lock into a held one. *)
Theorem held_lock_origin (now : Z) (a : alabel) (v v' : dbview) (inum : Z) (l : raw_lock) :
  astep now a v v' -> l ∈ locks_of v' inum -> acquired l = true ->
  l ∈ locks_of v inum \/
  exists want wait, a = ALock (rl_sid l) (rl_fh l) want wait true.
Proof.
  intros Hst Hl Ha. destruct Hst as
    [sid o fh v i ino raw _ _ _ _ _ _ _ | sid o fh v i parent n raw _ _ _ _ _ _ _ _ _ _ _ |
     sid put v h ino _ _ _ _ _ | sid fh v v' h _ _ Hlocks |
     name v i parent j ino pd pd' _ _ _ _ _ _ _ | sid fh v h l1 lock l2 _ _ E _ _ _ |
     sid fh want wait v v' h pending _ _ Hp _ (l1 & old & l2 & E & _ & ->) | sid v raw _ _ _ |
     sid v v' _ _ _ _ Hlocks _]; try by left.
  - left. rewrite Hlocks in Hl. case_decide; [|done]. by apply list_elem_of_filter in Hl as [_ Hl].
  - left. rewrite locks_of_insert in Hl. case_decide as Hi; [subst inum|done]. rewrite E. set_solver.
  - rewrite locks_of_insert in Hl. case_decide as Hi; [|by left]. rewrite Hi in E.
    apply elem_of_app in Hl as [Hl|Hl]; [left; rewrite E; set_solver|].
    apply elem_of_cons in Hl as [->|Hl]; [right|left; rewrite E; set_solver].
    destruct (new_lock_kind now sid fh (rh_inum h) want pending) as [Hk _].
    rewrite Hk in Ha. exists want, wait. by rewrite Ha.
  - left. destruct (Hlocks inum) as [E|E]; rewrite E in Hl; [done|]. by apply list_elem_of_filter in Hl as [_ Hl].
Qed.

(** ** Handlers

    [replies p s r a]: the run [r] from [s] ends by sending session [p] a
    response; the database made transition [a] if the code is [CLE_OK] and is
    unchanged otherwise. *)

Section handlers.
Context {D : Type} `{!Bdb D, !BdbOk D} {XL : XdrLib} {HL : HmacLib}.
Implicit Types s : srv D.

(** C5.  PUT answers OK exactly when it has replaced the inode's data, size,
    version and modification time, and leaves the database alone otherwise. *)
Theorem msg_put_correct (p : nat) (put : cld_msg_put) s : db_inv (vw s) ->
  replies p s (msg_put p put s) (APut (s_sid (heap s !!! p)) put).
Proof.
  intros Hinv. apply txn_replies; [apply cf_put|].
  by apply (body_at _ (fun sid _ _ => APut sid put) p); [intros; apply msg_put_body_spec|].
Qed.

(** CLOSE answers OK exactly when the handle is gone together with the
    locks taken through it, and leaves the database alone otherwise. *)
Theorem msg_close_correct (p : nat) (fh : Z) s : db_inv (vw s) ->
  replies p s (msg_close p fh s) (AClose (s_sid (heap s !!! p)) fh).
Proof.
  intros Hinv. apply txn_replies; [apply cf_close|].
  by apply (body_at _ (fun sid _ _ => AClose sid fh) p); [intros; apply msg_close_body_spec|].
Qed.

(** DEL answers OK exactly when the inode, its data, its handles and its
    directory entry are gone (a directory only if it was empty), and leaves
    the database alone otherwise; a bad name is refused. *)
Theorem msg_del_correct (p : nat) (name : bytes) s : db_inv (vw s) ->
  replies p s (msg_del p name s) (ADel name).
Proof.
  intros Hinv. unfold msg_del.
  assert (replies p s (sess_sendresp_generic p CLE_NAME_INVAL s) (ADel name)) as Hbad.
  { exists CLE_NAME_INVAL, s. split_and!; [done|done|by right]. }
  destruct (valid_inode_name _ _) eqn:Hv; cbn [negb orb]; [|done].
  destruct (Nat.ltb_spec (length name) 2); [done|].
  apply txn_replies; [apply cf_del|].
  by apply (body_at _ (fun _ _ _ => ADel name) p); [intros; apply msg_del_body_spec|].
Qed.

(** UNLOCK answers OK exactly when it has removed the first lock of the
    handle on its inode, and leaves the database alone otherwise. *)
Theorem msg_unlock_correct (p : nat) (fh : Z) s : db_inv (vw s) ->
  replies p s (msg_unlock p fh s) (AUnlock (s_sid (heap s !!! p)) fh).
Proof.
  intros Hinv. apply txn_replies; [apply cf_unlock|].
  by apply (body_at _ (fun sid _ _ => AUnlock sid fh) p); [intros; apply msg_unlock_body_spec|].
Qed.

(** LOCK and TRYLOCK: OK means a lock was added while nothing held
    conflicts, LOCK_PENDING that one was queued behind a conflicting lock (LOCK
    only), and any other code that the database is unchanged. *)
Theorem msg_lock_correct (p : nat) (lock : cld_msg_lock) s : db_inv (vw s) ->
  exists code s1, msg_lock p lock s = sess_sendresp_generic p code s1 /\ calm_env s s1 /\
    let lab := ALock (s_sid (heap s !!! p)) (ml_fh lock) (flag (ml_flags lock) CLF_SHARED)
                     (s_msg_op (heap s !!! p) =? CMO_LOCK) in
    ((code = CLE_OK /\ astep (current_time s) (lab true) (vw s) (vw s1)) \/
     (code = CLE_LOCK_PENDING /\ astep (current_time s) (lab false) (vw s) (vw s1)) \/
     (code <> CLE_OK /\ vw s1 = vw s)).
Proof.
  intros Hinv. cbv zeta.
  destruct (run_txn_reply (msg_lock_body p lock) (fun got v => astep (current_time s)
    (ALock (s_sid (heap s !!! p)) (ml_fh lock) (flag (ml_flags lock) CLF_SHARED)
       (s_msg_op (heap s !!! p) =? CMO_LOCK) got) (vw s) v) s) as (r & s1 & E & H1 & Hr).
  - apply cf_lock.
  - by apply (body_at _ (fun sid op got =>
      ALock sid (ml_fh lock) (flag (ml_flags lock) CLF_SHARED) (op =? CMO_LOCK) got) p);
      [intros; apply msg_lock_body_spec|].
  - unfold msg_lock, bind. rewrite E. eexists _, s1. split_and!; [done|done|].
    destruct r as [e|[|]]; [right; right; by destruct Hr|by left|by right; left].
Qed.

(** C10.  OPEN answers with the session's next handle number exactly when it has
    recorded that handle on the inode of that name, which it found or, asked to
    create, made and entered into its parent's directory; the session's next
    handle number is recorded with it.  Otherwise the database is unchanged. *)
Theorem msg_open_correct (p : nat) (o : cld_msg_open) s x :
  db_inv (vw s) -> heap s !! p = Some x -> 0 <= s_sid x < 2 ^ 64 ->
  Z.of_nat (length (mo_inode_name o)) <= CLD_INODE_NAME_MAX ->
  (exists s1, msg_open p o s = (tt, (sess_sendmsg p (MOpenResp CLE_OK (s_msg_xid x) (s_next_fh x)) CMO_OPEN cb_null s1).2) /\
     calm_env s s1 /\ astep (current_time s) (AOpen (s_sid x) o (s_next_fh x)) (vw s) (vw s1)) \/
  (exists code s1, msg_open p o s = sess_sendresp_generic p code s1 /\ code <> CLE_OK /\
     calm_env s s1 /\ vw s1 = vw s).
Proof.
  intros Hinv Hx Hs Hl. pose proof (lookup_total_correct _ _ _ Hx) as Et.
  destruct (run_txn_reply (msg_open_body p o) (fun fh v => fh = s_next_fh x /\
    astep (current_time s) (AOpen (s_sid x) o fh) (vw s) v) s) as (r & s1 & E & H1 & Hr).
  - apply cf_open.
  - intros s1 Hc Hh Hv. eapply tspec_mono; [apply msg_open_body_spec|].
    + by rewrite Hv.
    + rewrite Hh. eauto.
    + by rewrite Hh, Et.
    + done.
    + intros fh s2 _ Hst. by rewrite Hh, Hv, (ce_time _ _ Hc), Et in Hst.
  - unfold msg_open, bind. rewrite E. destruct r as [e|fh].
    + right. exists e, s1. destruct Hr. by split_and!.
    + left. destruct Hr as [-> Hst]. exists s1. split; [|done]. unfold get_sess.
      assert (s_msg_xid (heap s1 !!! p) = s_msg_xid x) as ->.
      { pose proof (core_lookup s s1 p H1) as Ec. rewrite Et in Ec. exact (f_equal s_msg_xid Ec). }
      by destruct (sess_sendmsg _ _ _ _ s1).
Qed.

(** [cldb_lock_add] grants a lock exactly when no held lock conflicts with
    it, queues it as pending when one does and the caller may wait, and
    otherwise reports the conflict and changes nothing. *)
Theorem lock_add_correct (sid fh inum : Z) (want wait : bool) s :
  wp (cldb_lock_add sid fh inum want wait) (fun r s' =>
    let conflict := existsb (blocks want) (locks_of (vw s) inum) in
    (r.1 = 0 -> r.2 = negb conflict /\ (conflict = true -> wait = true) /\
       lock_added (new_lock (current_time s) sid fh inum want conflict) (vw s) (vw s')) /\
    (r.1 <> 0 -> r.2 = false /\ vw s' = vw s)) s.
Proof. eapply wp_mono; [apply cldb_lock_add_spec|]. by intros r s' [_ HQ]. Qed.

(** The rescan for waiting locks does not grant any: although it sends the
    "lock acquired" event to the waiters, every lock record stays as it was,
    with its pending flag. *)
Theorem rescan_grants_nothing (inum : Z) s :
  vw (inode_lock_rescan inum s).2 = vw s /\ sessions (inode_lock_rescan inum s).2 = sessions s.
Proof.
  destruct (still_lock_rescan inum s) as [[[Hc _] _] Hv]. split; [done|apply Hc].
Qed.

End handlers.

Section reading.
Context {D : Type} `{!Bdb D, !BdbOk D, !BdbReliable D} {XL : XdrLib} {HL : HmacLib}.
Implicit Types s : srv D.

(** GET and GET_META on a database without internal errors: the response is
    the one [get_reply] reads off the contents, error codes included, sent
    before the transaction ends; the contents are unchanged. *)
Theorem msg_get_correct (p : nat) (fh : Z) s :
  let x := heap s !!! p in
  vw (msg_get p fh s).2 = vw s /\
  exists s1, calm_env s s1 /\ heap s1 = heap s /\ vw s1 = vw s /\
    match get_reply (vw s) (s_sid x) fh (s_msg_xid x) (s_msg_op x =? CMO_GET) with
    | inl e => msg_get p fh s = sess_sendresp_generic p e s1
    | inr r => exists d, (msg_get p fh s).2 = set_db d (sess_sendmsg p (MGetResp r) CMO_GET cb_null s1).2
    end.
Proof.
  cbv zeta. unfold msg_get, bind. pose proof (rel_begin (db s)) as Hb0.
  pose proof (db_txn_begin_ok (db s)) as [Vb Sb]. unfold txn_begin. destruct (db_txn_begin (db s)) as [rc d].
  cbn [fst snd] in *. subst rc. cbn [Z.eqb negb]. specialize (Sb eq_refl).
  set (s0 := set_db d s).
  pose proof (msg_get_body_spec p fh s0) as Hb. unfold wp in Hb.
  destruct (msg_get_body p fh s0) as [r s2]. cbn [fst snd] in Hb.
  destruct Hb as (s1 & [C1 Sv1] & Hh1 & V1 & Hb). change (vw s0) with (view d) in *. rewrite Vb in *.
  change (heap s0) with (heap s) in *.
  assert (calm_env s s1) as Hc by (etrans; [apply (set_db_calm d)|exact C1]).
  destruct (get_reply _ _ _ _ _) as [e|m]; destruct Hb as [-> ->].
  - unfold txn_abort. pose proof (db_txn_abort_ok (db s1)) as Va. destruct (db_txn_abort (db s1)) as [rc d'].
    cbn [snd] in Va.
    assert (vw (set_db d' s1) = vw s) as V2 by (unfold vw in *; cbn in *; congruence).
    split.
    + rewrite (quiet_vw _ _ (quiet_sendresp_generic p e (set_db d' s1))). done.
    + exists (set_db d' s1). split_and!; [etrans; [done|apply set_db_calm]|done|done|done].
  - pose proof (quiet_sess_sendmsg p (MGetResp m) CMO_GET cb_null s1) as Hq.
    set (s3 := (sess_sendmsg p (MGetResp m) CMO_GET cb_null s1).2) in *.
    unfold txn_commit. pose proof (db_txn_commit_ok (db s3)) as Vc. pose proof (rel_commit (db s3)) as Hc0.
    destruct (db_txn_commit (db s3)) as [rc d']. cbn [fst snd] in *. subst rc. cbn [Z.eqb] in Vc.
    split.
    + unfold ret. cbn [snd]. change (vw (set_db d' s3)) with (view d'). rewrite Vc. fold (vw s3).
      by rewrite (quiet_vw _ _ Hq).
    + exists s1. split_and!; [done|done|done|]. by exists d'.
Qed.

(** C6.  Write then read: when a PUT was answered OK, the GET handler - run for
    any session, through any handle that may read the same inode, in any state
    whose database is the one the PUT left - sends that session a GET response
    with code OK and exactly the bytes written, and leaves the database as it
    is. *)
Theorem put_then_get (p q : nat) (put : cld_msg_put) (fh2 : Z) s t (h h2 : raw_handle) :
  db_inv (vw s) ->
  v_handles (vw s) !! (s_sid (heap s !!! p), mp_fh put) = Some h ->
  (run_txn (msg_put_body p put) s).1 = inr tt ->
  vw t = vw (msg_put p put s).2 ->
  v_handles (vw s) !! (s_sid (heap t !!! q), fh2) = Some h2 ->
  s_msg_op (heap t !!! q) = CMO_GET ->
  rh_inum h2 = rh_inum h -> flag (rh_mode h2) COM_READ = true ->
  Z.of_nat (length (mp_data put)) < 2 ^ 32 ->
  vw (msg_get q fh2 t).2 = vw t /\
  exists r t1 d, gr_code r = CLE_OK /\ gr_data r = mp_data put /\
    calm_env t t1 /\ heap t1 = heap t /\
    (msg_get q fh2 t).2 = set_db d (sess_sendmsg q (MGetResp r) CMO_GET cb_null t1).2.
Proof.
  intros Hinv Hh Hrun Ht Hh2 Hop Ei Hr Hl. destruct (msg_get_correct q fh2 t) as [Hv (t1 & C1 & E1 & _ & Hg)].
  split; [done|]. rewrite Hop in Hg. change (CMO_GET =? CMO_GET) with true in Hg.
  destruct (run_txn_reply (msg_put_body p put)
    (fun _ v => astep (current_time s) (APut (s_sid (heap s !!! p)) put) (vw s) v) s) as (r & s1 & E & _ & Hst).
  - apply cf_put.
  - by apply (body_at _ (fun sid _ _ => APut sid put) p); [intros; apply msg_put_body_spec|].
  - assert (vw t = vw s1) as Et.
    { rewrite Ht. unfold msg_put, bind. rewrite E. apply (quiet_vw _ _ (quiet_sendresp_generic _ _ _)). }
    rewrite E in Hrun. cbn in Hrun. subst r. rewrite Et in Hg.
    destruct (write_then_get _ _ _ _ (s_msg_xid (heap t !!! q)) put _ _ h h2 Hh Hh2 Ei Hr Hl Hst) as (m & A & B & C & _).
    rewrite A in Hg. destruct Hg as [d Hg]. by exists m, t1, d.
Qed.

End reading.

(** ** Sessions *)

Section sessions.
Context {D : Type} `{!Bdb D, !BdbOk D} {XL : XdrLib} {HL : HmacLib}.
Implicit Types s : srv D.

(** C8.  When [session_remove] returns 0 and no allocation failed, everything of
    the session is gone and nothing else: exactly its record is removed from the
    sessions, exactly its handles from the handles, and no lock of it is left on
    any inode it had open for locking; on every inode the locks of the other
    sessions are the same, in the same order, and no lock is new; inodes and data
    are untouched. *)
Theorem session_remove_complete (p : nat) s :
  db_inv (vw s) -> 0 <= s_sid (heap s !!! p) < 2 ^ 64 -> lucky s ->
  (session_remove p s).1 = 0 ->
  let sid := s_sid (heap s !!! p) in
  let v' := vw (session_remove p s).2 in
  v_sessions v' = delete sid (v_sessions (vw s)) /\
  (forall k h, v_handles v' !! k = Some h <-> v_handles (vw s) !! k = Some h /\ rh_sid h <> sid) /\
  (forall k h, v_handles (vw s) !! k = Some h -> rh_sid h = sid -> flag (rh_mode h) COM_LOCK = true ->
     forall l, l ∈ locks_of v' (rh_inum h) -> rl_sid l <> sid) /\
  (forall i, filter (fun l => rl_sid l <> sid) (locks_of v' i) = filter (fun l => rl_sid l <> sid) (locks_of (vw s) i) /\
     locks_of v' i ⊆ locks_of (vw s) i) /\
  v_inodes v' = v_inodes (vw s) /\ v_data v' = v_data (vw s).
Proof.
  intros Hinv Hs Hl Hrc. cbv zeta. destruct (session_remove_spec p s Hinv Hs) as [_ Hrm].
  destruct (Hrm Hrc) as [R1 R2 R3 R4 R5 R6 R7]. destruct (R7 Hl) as (F1 & F2 & F3). split_and!; try done.
  - intros k h. split; [intros Hh; split; [by apply R3|by eapply F2]|].
    intros [Hh Hne]. by destruct (R4 k h Hh).
  - intros k h Hh Es Hlk l Hin. specialize (F3 k h Hh Es Hlk). rewrite Forall_forall in F3. by apply F3.
  - intros i. destruct (R5 i) as [->| ->]; [done|]. split.
    + rewrite list_filter_filter. apply list_filter_iff. tauto.
    + intros l. rewrite list_elem_of_filter. tauto.
Qed.

(** A session that is alive and heard from within the timeout survives its
    timer: the database is untouched and the timer is armed again, with a
    positive delay of about half the remaining time. *)
Theorem session_timeout_keeps (p : nat) (now : Z) s x :
  heap s !! p = Some x -> s_dead x = false -> now < u64 (s_last_contact x + CLD_SESS_TIMEOUT) -> lucky s ->
  wp (session_timeout p now) (fun _ s' => db s' = db s /\ sessions s' = sessions s /\
    exists x' delay, heap s' !! p = Some x' /\ s_sid x' = s_sid x /\ s_dead x' = false /\
      s_timer x' = Some delay /\ 0 < delay /\ delay <= u64 (s_last_contact x + CLD_SESS_TIMEOUT) - now + 1) s.
Proof.
  intros Hx Hd Hn Hl. unfold session_timeout. apply wp_bind, wp_get_sess.
  rewrite (lookup_total_correct _ _ _ Hx), Hd. cbv zeta.
  set (e := u64 (s_last_contact x + CLD_SESS_TIMEOUT)) in *.
  rewrite (proj2 (Z.ltb_lt now e)) by done. cbn [negb andb].
  assert (forall (Q : unit -> srv D -> Prop),
    (forall s' y, db s' = db s -> sessions s' = sessions s -> lucky s' -> heap s' !! p = Some y ->
       s_sid y = s_sid x -> s_dead y = false -> Q tt s') ->
    wp (if ping_due x e then upd_sess p (set_ping_open true) ;;;
          sess_sendmsg p MVoid CMO_PING cb_session_ping_done ;;; ret tt else ret tt) Q s) as Hping.
  { intros Q HQ. destruct (ping_due x e); [|by eapply wp_ret, HQ].
    apply wp_bind, wp_upd_sess, wp_bind, wp_quiet; [auto with cld|]. intros ok s1 (H1 & E1 & _). apply wp_ret.
    pose proof (f_equal (lookup p) (ce_heap _ _ H1)) as Eh. rewrite !lookup_fmap in Eh. cbn in Eh.
    rewrite lookup_alter_eq, Hx in Eh. cbn in Eh. apply fmap_Some in Eh as (y & Hy & Ec).
    eapply (HQ s1 y); [done|apply H1| |done|exact (eq_sym (f_equal s_sid Ec))|].
    - eapply lucky_calm; [exact H1|]. exact Hl.
    - rewrite <- Hd. exact (eq_sym (f_equal s_dead Ec)). }
  apply wp_bind, Hping. clear Hping. intros s1 y E1 T1 L1 Hy Es Ed.
  apply wp_bind, wp_ev_ok. intros ok s2 (H2 & E2 & _) Hh2 _ Lok. specialize (Lok L1). subst ok.
  apply wp_upd_sess. cbn. rewrite E2, E1, (ce_sessions _ _ H2), T1, Hh2. split_and!; [done|done|].
  eexists _, _. split; [rewrite lookup_alter_eq, Hy; done|]. cbn. split_and!; try done.
  - assert (0 <= (e - now) / 2) by (apply Z.div_pos; lia). lia.
  - assert ((e - now) / 2 <= e - now) by (apply Z.div_le_upper_bound; lia). lia.
Qed.

(** A dead or silent session is dropped by its timer: the object and its
    table entry are gone, and the database either lost everything of the
    session or - when a database call failed - is unchanged. *)
Theorem session_timeout_expires (p : nat) (now : Z) s x :
  mem_inv s -> db_inv (vw s) -> heap s !! p = Some x ->
  s_dead x = true \/ u64 (s_last_contact x + CLD_SESS_TIMEOUT) <= now -> lucky s ->
  (db_txn_begin (db s)).1 = 0 ->
  let s' := (session_timeout p now s).2 in
  heap s' !! p = None /\ (sess_get (s_sid x) s').1 = None /\
  (vw s' = vw s \/
   v_sessions (vw s') !! s_sid x = None /\ forall k h, v_handles (vw s') !! k = Some h -> rh_sid h <> s_sid x).
Proof.
  intros Hm Hinv Hx Hdead Hl Hb0.
  change (wp (session_timeout p now) (fun _ s' => heap s' !! p = None /\ (sess_get (s_sid x) s').1 = None /\
    (vw s' = vw s \/ v_sessions (vw s') !! s_sid x = None /\
     forall k h, v_handles (vw s') !! k = Some h -> rh_sid h <> s_sid x)) s).
  pose proof (lookup_total_correct _ _ _ Hx) as Et.
  destruct (mi_obj _ Hm _ _ Hx) as [Hsid _].
  unfold session_timeout. apply wp_bind, wp_get_sess. rewrite Et. cbv zeta.
  assert (negb (s_dead x) && (now <? u64 (s_last_contact x + CLD_SESS_TIMEOUT)) = false) as ->.
  { destruct Hdead as [->|Hn]; [done|]. rewrite (proj2 (Z.ltb_ge _ _)) by lia. apply andb_false_r. }
  apply wp_bind. pose proof (db_txn_begin_ok (db s)) as [Vb Sb]. unfold wp at 1, txn_begin.
  destruct (db_txn_begin (db s)) as [rc d]. cbn [fst snd] in *. subst rc. cbn [Z.eqb negb].
  specialize (Sb eq_refl). set (s1 := set_db d s).
  assert (vw s1 = vw s) as V1 by exact Vb.
  apply wp_bind. unfold session_dispose. apply wp_bind.
  eapply wp_mono; [apply (session_remove_spec p s1); [by rewrite V1|cbn; by rewrite Et]|].
  intros rc s2 [[H2 Sv2] Hrm]. rewrite V1 in Hrm. cbn in Hrm. rewrite Et in Hrm.
  apply wp_bind. unfold wp at 1. rewrite session_free_eq. cbn [fst snd]. apply wp_ret.
  assert (calm_env s s2) as H12 by (etrans; [apply (set_db_calm d)|exact H2]).
  pose proof (mem_calm _ _ H12 Hm) as Hm2. pose proof (mem_free s2 p Hm2) as Hm3.
  assert (s_sid (heap s2 !!! p) = s_sid x) as Es.
  { rewrite <- Et. exact (f_equal s_sid (core_lookup s s2 p H12)). }
  set (s3 := set_heap _ _) in *.
  assert (heap s3 !! p = None /\ (sess_get (s_sid x) s3).1 = None) as [Hh3 Hg3].
  { split; [cbn; apply lookup_delete_eq|]. unfold sess_get. cbn [fst].
    destruct (htab_get sess_hash sess_equal (sessions s3) (s_sid x)) as [q|] eqn:Eq; [|done].
    exfalso. unfold s3 in Eq. cbn [sessions set_heap set_sessions] in Eq. rewrite Es in Eq.
    by rewrite del_get_none in Eq. }
  assert (forall s4, calm_env s3 s4 -> heap s4 = heap s3 -> heap s4 !! p = None /\ (sess_get (s_sid x) s4).1 = None) as Hend.
  { intros s4 H4 E4. rewrite E4. split; [done|]. unfold sess_get in *. cbn [fst] in *. by rewrite (ce_sessions _ _ H4). }
  destruct (Z.eqb_spec rc 0) as [->|Hrc]; cbn [negb].
  - apply wp_bind, wp_txn_commit. intros rc s4 H4 Hh4 V4. apply wp_ret.
    destruct (Hend s4 H4 Hh4) as [A B]. split_and!; [done|done|]. rewrite V4.
    change (vw s3) with (vw s2). change (db s3) with (db s2).
    destruct (rc =? 0).
    + right. destruct (rm_full _ _ _ _ (Hrm eq_refl) Hl) as (F1 & F2 & _). rewrite F1.
      split; [apply lookup_delete_eq|done].
    + left. rewrite Sv2. exact Sb.
  - apply wp_bind, wp_txn_abort. intros rc' s4 H4 Hh4 V4. apply wp_ret.
    destruct (Hend s4 H4 Hh4) as [A B]. split_and!; [done|done|]. left. rewrite V4.
    change (db s3) with (db s2). rewrite Sv2. exact Sb.
Qed.

End sessions.

(** ** Sending and receiving *)

Section wire.
Context {D : Type} {XL : XdrLib} {XO : XdrOk} {HL : HmacLib}.
Implicit Types s : srv D.

(** A session that can sign: a 64-bit id and a NUL-free user of 1..31 bytes. *)
Definition can_send (x : session) : Prop :=
  0 <= s_sid x < 2 ^ 64 /\ 0 <= s_next_seqid_out x < 2 ^ 64 /\
  (0 < length (s_user x) < 32)%nat /\ Forall (fun b => 0 < b < 256) (s_user x).

Lemma can_send_hdrs (x : session) (msg_op : Z) : can_send x -> 0 <= msg_op < 2 ^ 31 ->
  forall f l xid, 0 <= xid < 2 ^ 64 -> hdr_ok (outpkt_hdr x f l xid msg_op).
Proof.
  intros (Hs & _ & Hu & Hb) Ho f l xid Hx. apply outpkt_hdr_ok; try done. unfold CLD_MAX_USERNAME. lia.
Qed.

Lemma can_send_encodable (x : session) (msg_op : Z) : can_send x -> 0 <= msg_op < 2 ^ 31 -> hdrs_encodable x msg_op.
Proof.
  intros Hc Ho f l xid Hx. destruct (xdr_hdr_rt _ (can_send_hdrs x msg_op Hc Ho f l xid Hx)) as (b & E & _). eauto.
Qed.

(** A message of up to [CLD_MAX_MSG_SZ] bytes is always sent when nothing
    fails: it is queued, in order and contiguously, as signed packets of at most
    1024 message bytes with consecutive sequence numbers, the first and last
    flagged as such ([packets]), behind what was queued before. *)
Theorem sendmsg_fragments (p : nat) (msg : msg_out) (msg_op : Z) (cb : done_cb) s x (mb : bytes) :
  heap s !! p = Some x -> can_send x -> 0 <= msg_op < 2 ^ 31 -> lucky s ->
  xdr_msg_enc msg = Some mb -> Z.of_nat (length mb) <= CLD_MAX_MSG_SZ ->
  wp (sess_sendmsg p msg msg_op cb) (fun ok s' => ok = true /\ db s' = db s /\ exists ops x',
    heap s' !! p = Some x' /\ s_out_q x' = s_out_q x ++ ops /\
    packets x msg_op (user_key (Some (s_user x))) true (s_next_seqid_out x) mb (op_pkt_data <$> ops) /\
    s_next_seqid_out x' = seq_after (s_next_seqid_out x) (length ops) /\
    Forall (fun op => op_sess op = p /\ op_done_cb op = cb) ops) s.
Proof.
  intros Hx Hc Ho Hl Hm Hlen. pose proof (quiet_sess_sendmsg p msg msg_op cb s) as (_ & Hdb & _).
  destruct (sess_sendmsg_spec p msg msg_op cb s x Hx (proj1 (proj2 Hc))) as [Hok Hyes].
  specialize (Hyes Hl (can_send_encodable x msg_op Hc Ho) (proj1 (proj2 (proj2 Hc))) ltac:(eauto)).
  split; [done|]. split; [done|]. destruct (Hok Hyes) as (mb' & ops & x' & E & _ & H1 & H2 & H3 & H4 & H5).
  assert (mb' = mb) as -> by congruence. eauto 10.
Qed.

Lemma packet_authentic (key : option bytes) (hb mb sha : bytes) (seq : Z) :
  cld_authsign key (hb ++ mb ++ le_bytes 8 seq) = (0, sha) -> 0 <= seq < 2 ^ 64 ->
  let raw := hb ++ mb ++ le_bytes 8 seq ++ sha in
  cld_authcheck key (take (length raw - 20) raw) (foot_sha raw) = 0 /\ foot_seqid raw = seq.
Proof.
  intros Ha Hs. cbv zeta. destruct (authsign_check _ _ _ Ha) as [Hc Hl].
  assert (hb ++ mb ++ le_bytes 8 seq ++ sha = (hb ++ mb) ++ le_bytes 8 seq ++ sha) as -> by by rewrite app_assoc.
  rewrite foot_sha_app, foot_seqid_app by done. split; [|by apply uw_small].
  rewrite (app_assoc _ (le_bytes 8 seq)), take_app_length'; [by rewrite <- app_assoc|].
  rewrite (length_app _ sha). lia.
Qed.

(** Every packet of a message passes the receiver's signature check for the
    sender's key and carries its sequence number in the footer. *)
Theorem packets_authentic (x : session) (msg_op : Z) (user : bytes) (first : bool) (seq : Z) (mb : bytes)
    (ps : list bytes) (i : nat) (raw : bytes) :
  packets x msg_op (user_key (Some user)) first seq mb ps -> 0 <= seq < 2 ^ 64 -> ps !! i = Some raw ->
  cld_authcheck (user_key (Some user)) (take (length raw - 20) raw) (foot_sha raw) = 0 /\
  foot_seqid raw = seq_after seq i.
Proof.
  intros Hp. revert i. induction Hp as [first seq mb xid hb sha _ _ _ Ha|first seq chunk rest xid hb sha ps _ _ _ _ Ha Hp IH];
    intros i Hs Hi.
  - destruct i as [|i]; [|done]. injection Hi as <-. by apply packet_authentic.
  - destruct i as [|i]; [injection Hi as <-; by apply packet_authentic|].
    rewrite <- seq_after_S. apply IH; [apply u64_bound|done].
Qed.

(** C9.  Fragmentation and reassembly are inverse: when [sess_sendmsg] sends a
    message of up to [CLD_MAX_MSG_SZ] bytes and no allocation fails, the packets
    it queues - behind those queued before - all pass the receiver's signature
    check under the sender's key and carry consecutive sequence numbers, and
    parsed and taken in order by a receiver, in any state, they leave exactly the
    encoded message in the reassembly buffer, with its operation; whatever an
    unfinished earlier message had left there is gone. *)
Theorem reassembly_roundtrip (p q : nat) (msg : msg_out) (msg_op fd : Z) (cb : done_cb) s x (mb : bytes) (t : srv D) y :
  heap s !! p = Some x -> can_send x -> 0 <= msg_op < 2 ^ 31 -> lucky s ->
  xdr_msg_enc msg = Some mb -> Z.of_nat (length mb) <= CLD_MAX_MSG_SZ -> heap t !! q = Some y ->
  wp (sess_sendmsg p msg msg_op cb) (fun sent s' => sent = true /\ exists ops x',
    heap s' !! p = Some x' /\ s_out_q x' = s_out_q x ++ ops /\
    let pkts := op_pkt_data <$> ops in
    (forall i raw, pkts !! i = Some raw ->
       cld_authcheck (user_key (Some (s_user x))) (take (length raw - 20) raw) (foot_sha raw) = 0 /\
       foot_seqid raw = seq_after (s_next_seqid_out x) i) /\
    wp (rx_fragments fd q pkts) (fun ok t' => ok = true /\ exists y',
      heap t' !! q = Some y' /\ s_msg_buf y' = mb /\ s_msg_op y' = msg_op) t) s.
Proof.
  intros Hx Hc Ho Hl He Hlen Hy. eapply wp_mono; [by apply sendmsg_fragments|].
  intros sent s' (-> & _ & ops & x' & H1 & H2 & Hp & _). split; [done|]. exists ops, x'. split; [done|]. split; [done|]. split.
  - intros i raw Hi. eapply packets_authentic; [exact Hp|apply Hc|exact Hi].
  - apply (rx_fragments_spec x msg_op _ fd q true _ mb _ (can_send_hdrs x msg_op Hc Ho) Hp t y Hy Hlen).
Qed.

(** The packets answered outside a session ([simple_sendmsg]) are malformed:
    read back as a packet, the footer's sequence number is uninitialised memory
    and its signature field starts with the sequence number; the last 8 bytes of
    the signature are written past the end of the buffer. *)
Theorem simple_pkt_malformed (user hdr msg junk stale : bytes) (seqid : Z) :
  (0 < length user < 32)%nat -> length junk = 8%nat -> Forall (fun b => is_byte b) junk ->
  exists sha, cld_authsign (user_key (Some user)) (hdr ++ msg ++ junk) = (0, sha) /\
    let '(pkt, behind) := simple_pkt user seqid hdr msg junk stale in
    length pkt = (length hdr + length msg + 28)%nat /\
    foot_seqid pkt = le_val junk /\
    foot_sha pkt = le_bytes 8 seqid ++ take 12 sha /\ behind = drop 12 sha /\ length behind = 8%nat.
Proof.
  intros Hu Hj _. destruct (authsign_ok user (hdr ++ msg ++ junk) Hu) as (sha & E & Hl).
  exists sha. split; [done|]. unfold simple_pkt. rewrite E. cbn [Z.eqb].
  assert (length (take 12 sha) = 12%nat) as Ht by (rewrite length_take; lia).
  assert (length ((hdr ++ msg ++ junk) ++ le_bytes 8 seqid ++ take 12 sha) =
    length (hdr ++ msg) + 28)%nat as Hlen.
  { rewrite !length_app, length_le_bytes, Ht. lia. }
  assert (pkt_foot ((hdr ++ msg ++ junk) ++ le_bytes 8 seqid ++ take 12 sha) =
    junk ++ le_bytes 8 seqid ++ take 12 sha) as Ef.
  { unfold pkt_foot. rewrite Hlen, Nat.add_sub, <- !app_assoc, (app_assoc hdr msg). by rewrite drop_app_length. }
  unfold foot_seqid, foot_sha. rewrite Ef. split_and!.
  - rewrite Hlen, length_app. done.
  - by rewrite take_app_length'.
  - rewrite drop_app_length' by done. apply take_ge. rewrite length_app, length_le_bytes, Ht. lia.
  - done.
  - rewrite length_drop. lia.
Qed.

(** An acknowledgement takes exactly the packets with that sequence number
    off the session's queue, in place, and runs their callbacks: the session is
    dead afterwards if an end-of-session response was among them, and no ping is
    outstanding if a ping was; nothing else changes. *)
Theorem msg_ack_correct (p : nat) (seqid : Z) s x :
  heap s !! p = Some x -> Forall (fun op => op_sess op = p) (s_out_q x) ->
  exists x', msg_ack p seqid s = (tt, set_heap (<[p := x']> (heap s)) s) /\
    s_out_q x' = filter (fun op => ~ acked_by seqid op) (s_out_q x) /\
    s_dead x' = s_dead x || existsb (fun op => bool_decide (acked_by seqid op) &&
      match op_done_cb op with cb_end_sess_done => true | _ => false end) (s_out_q x) /\
    s_ping_open x' = s_ping_open x && negb (existsb (fun op => bool_decide (acked_by seqid op) &&
      match op_done_cb op with cb_session_ping_done => true | _ => false end) (s_out_q x)) /\
    (s_out_q x <> [] -> s_out_q x' = [] -> s_retry_timer x' = None).
Proof.
  intros Hx Hq. exists (acked seqid x). split; [by apply msg_ack_eq|].
  destruct (run_cbs_flags seqid (s_out_q x) x) as [Hd Hp]. unfold acked.
  destruct (s_out_q x) as [|op q] eqn:Eq.
  { cbn. by rewrite Eq, orb_false_r, andb_true_r. }
  cbn [length Nat.eqb]. set (q' := filter (fun o => ~ acked_by seqid o) (op :: q)) in *. rewrite <- Hd, <- Hp.
  clearbody q'. by destruct q' as [|op' q''].
Qed.

(** A retransmission pass never loses, reorders or alters a queued packet,
    also when a write fails half-way; when none does, exactly the packets that
    are due get their next retry pushed back by 5 seconds. *)
Theorem retry_preserves (p : nat) s x : heap s !! p = Some x ->
  wp (sess_retry_output p) (fun r s' => exists q',
    heap s' !! p = Some (set_out_q q' x) /\
    op_pkt_data <$> q' = op_pkt_data <$> s_out_q x /\ db s' = db s /\
    (lucky s -> r.1 = 0 /\ q' = retried (current_time s) <$> s_out_q x)) s.
Proof.
  intros Hx. unfold sess_retry_output. apply wp_bind, wp_get_sess. rewrite (lookup_total_correct _ _ _ Hx).
  apply wp_bind. eapply wp_mono; [apply retry_loop_spec|]. intros [[rc nr] q'] s1 ((H1 & E1 & _) & Hh & HF & HL').
  apply wp_bind, wp_upd_sess, wp_ret. exists q'. cbn [heap set_heap db]. rewrite Hh. split_and!.
  - by rewrite lookup_alter_eq, Hx.
  - cbn in HF. clear -HF. induction HF as [|op op' q q' [->| ->] HF IH]; [done| |];
    rewrite !fmap_cons, IH; [done|]. f_equal. unfold retried. by case_match.
  - done.
  - intros L. specialize (HL' L). cbn. by simplify_eq.
Qed.

(** The retry timer spins on a stale clock: when the cached [current_time]
    says nothing is due but the wall clock [now] has passed a packet's retry
    time, the timer callback sends nothing and arms itself again with a delay
    that is not positive. *)
Theorem retry_spins (p : nat) (now : Z) s x (op : session_outpkt) :
  heap s !! p = Some x -> 0 <= current_time s -> lucky s ->
  Forall (fun op => current_time s < op_next_retry op) (s_out_q x) ->
  op ∈ s_out_q x -> op_next_retry op <= now ->
  wp (session_retry p now) (fun _ s' => net s' = net s /\ exists x' delay,
    heap s' !! p = Some x' /\ s_out_q x' = s_out_q x /\ s_retry_timer x' = Some delay /\ delay <= 0) s.
Proof.
  intros Hx Ht Hl Hq Hin Hnow. unfold session_retry. apply wp_bind, wp_get_sess.
  rewrite (lookup_total_correct _ _ _ Hx).
  destruct (s_out_q x) as [|op0 q0] eqn:Eq; [by inversion Hin|]. cbn [length Nat.eqb]. rewrite <- Eq in *.
  apply wp_bind. unfold sess_retry_output. apply wp_bind, wp_get_sess. rewrite (lookup_total_correct _ _ _ Hx).
  apply wp_bind. unfold wp at 1. rewrite retry_loop_idle by done. cbn [fst snd].
  apply wp_bind, wp_upd_sess, wp_ret, wp_bind, wp_ev_ok. intros ok s1 Q1 E1 N1 Lok.
  rewrite (Lok Hl). apply wp_upd_sess. cbn. rewrite N1, E1. split; [done|].
  eexists _, _. rewrite lookup_alter_eq. cbn. rewrite lookup_alter_eq, Hx. cbn. split_and!; [done|done|done|].
  assert (Forall (fun op => 0 < op_next_retry op) (s_out_q x)) as Hpos.
  { eapply Forall_impl; [exact Hq|]. intros o. cbn. lia. }
  destruct (retry_min_le 0 (s_out_q x) ltac:(lia) Hpos) as [_ Hmin]. specialize (Hmin op Hin). lia.
Qed.

End wire.
