(* ===== verification/Corner.v ===== *)
(** * Corner: acceptance of packets, orders and encodings at their edges

    Which packets get through, the round trips of a session record and of a
    UBBP header, the order the lock database keeps, and what happens where the
    code's arithmetic or bookkeeping leaves the range it was meant for. *)

From S2P Require Import Prelude Htab Dirent Wire Bdb Srv Cldb Outq Msg Session Server Logic OutqSpec.
From S2P Require Import Abs Inv MsgSpec SessionSpec Mem System ServerSpec.
#[local] Open Scope Z_scope.

(** ** Acceptance *)

(** C7.  The gate: a packet does nothing but cause at most one error frame to
    its own connection, or be counted as garbage - no handler runs, and the
    session objects with their queues, timers and sequence numbers, the table of
    sessions, the database and all other state are the same - unless its header
    parses, its signature verifies under the key of the user it
    names, the server is master with an open database, and it belongs to a live
    session of that user at that address (or asks for a new one). *)
Theorem packet_gate {D : Type} `{!Bdb D} {XL : XdrLib} {HL : HmacLib}
    (cli : cli_info) (raw_pkt : bytes) (s : srv D) :
  rejected (cli_fd cli) s (cli_rd_pkt cli raw_pkt s).1 (cli_rd_pkt cli raw_pkt s).2 \/
  exists pkt, authentic s raw_pkt pkt /\ sess_matches s cli pkt.
Proof. apply (cli_rd_pkt_gate cli raw_pkt s). Qed.

(** ** Session records *)

(** A session written to the database and read back into a fresh object
    has the same id, address, user, contact time, next handle and sequence
    numbers, so nothing is lost over a restart but timers, queues and partly
    received messages; writing it again gives the same record. *)
Theorem session_reload (host : bytes -> bytes) (x y : session) :
  0 <= s_addr_len x < 2 ^ 16 -> length (s_addr x) = Z.to_nat (s_addr_len x) -> (length (s_user x) <= 32)%nat ->
  let x' := session_decode host (session_encode x) y in
  s_sid x' = s_sid x /\ s_addr_len x' = s_addr_len x /\ s_addr x' = s_addr x /\ s_user x' = s_user x /\
  s_last_contact x' = s_last_contact x /\ s_next_fh x' = s_next_fh x /\
  s_next_seqid_in x' = s_next_seqid_in x /\ s_next_seqid_out x' = s_next_seqid_out x /\
  session_encode x' = session_encode x.
Proof.
  intros Hl Ha Hu. cbv zeta. unfold session_decode, session_encode. cbn.
  assert (u16 (s_addr_len x) = s_addr_len x) as Eu by by apply uw_small. rewrite !Eu.
  rewrite !take_take, !Nat.min_id, !(take_ge (s_addr x)), !(take_ge (s_user x)) by lia. by split_and!.
Qed.

(** ** The order of locks *)

(** The fields whose differences [lock_compare] returns through an [int]. *)
Definition lock_small (l : raw_lock) : Prop :=
  0 <= rl_inum l < 2 ^ 31 /\ 0 <= rl_ctime l < 2 ^ 31 /\ 0 <= rl_fh l < 2 ^ 31 /\ 0 <= rl_sid l < 2 ^ 64.

(** What [lock_compare] then computes: the first difference that is not 0. *)
Definition lock_diff (a b : raw_lock) : Z :=
  if negb (rl_inum a - rl_inum b =? 0) then rl_inum a - rl_inum b else
  if negb (rl_ctime a - rl_ctime b =? 0) then rl_ctime a - rl_ctime b else
  if negb (memcmp (sid_bytes (rl_sid a)) (sid_bytes (rl_sid b)) =? 0)
  then memcmp (sid_bytes (rl_sid a)) (sid_bytes (rl_sid b)) else
  rl_fh a - rl_fh b.

Lemma sid_memcmp_bound (a b : Z) : - 256 < memcmp (sid_bytes a) (sid_bytes b) < 256.
Proof. apply memcmp_bound; apply le_bytes_is_byte. Qed.

Lemma lock_compare_diff (a b : raw_lock) : lock_small a -> lock_small b -> lock_compare a b = lock_diff a b.
Proof.
  intros (A1 & A2 & A3 & _) (B1 & B2 & B3 & _). unfold lock_compare, lock_diff, s64, s32.
  pose proof (sid_memcmp_bound (rl_sid a) (rl_sid b)).
  rewrite !(sw_small 64 (rl_inum a - rl_inum b)), !(sw_small 64 (rl_ctime a - rl_ctime b)) by lia.
  rewrite (sw_small 32 (rl_inum a - rl_inum b)), (sw_small 32 (rl_ctime a - rl_ctime b)),
    (sw_small 32 (memcmp _ _)), (sw_small 32 (rl_fh a - rl_fh b)) by lia. done.
Qed.

Lemma length_sid_bytes (sid : Z) : length (sid_bytes sid) = 8%nat.
Proof. apply length_le_bytes. Qed.

(** Comparing three session ids in a row. *)
Lemma sid_cmp_chain (a b c : Z) :
  let m1 := memcmp (sid_bytes a) (sid_bytes b) in
  let m2 := memcmp (sid_bytes b) (sid_bytes c) in
  let m3 := memcmp (sid_bytes a) (sid_bytes c) in
  (m1 <= 0 -> m2 <= 0 -> m3 <= 0) /\ (m1 = 0 -> m3 = m2) /\ (m2 = 0 -> m3 = m1) /\ (m3 = 0 -> m2 = - m1).
Proof.
  cbv zeta. assert (forall x y, memcmp (sid_bytes x) (sid_bytes y) = 0 -> sid_bytes x = sid_bytes y) as H0.
  { intros x y. apply memcmp_0. by rewrite !length_sid_bytes. }
  split_and!.
  - apply memcmp_trans; by rewrite !length_sid_bytes.
  - by intros ->%H0.
  - by intros <-%H0.
  - intros <-%H0. apply memcmp_antisym. by rewrite !length_sid_bytes.
Qed.

(** [lock_compare] orders the locks of a database: as long as inode and
    handle numbers and times stay below 2^31, it is antisymmetric and
    transitive, and equal only for locks of the same handle of the same session
    taken in the same second on the same inode - what the duplicate sorting of
    the lock database needs. *)
Theorem lock_compare_order (ls : list raw_lock) : Forall lock_small ls ->
  lock_cmp_total ls /\
  forall a b, a ∈ ls -> b ∈ ls -> lock_compare a b = 0 ->
    rl_inum a = rl_inum b /\ rl_ctime a = rl_ctime b /\ rl_sid a = rl_sid b /\ rl_fh a = rl_fh b.
Proof.
  intros Hls. rewrite Forall_forall in Hls. split; [split|].
  - intros a b Ha%Hls Hb%Hls. rewrite !lock_compare_diff by done. unfold lock_diff.
    pose proof (memcmp_antisym (sid_bytes (rl_sid a)) (sid_bytes (rl_sid b)) ltac:(by rewrite !length_sid_bytes)) as ->.
    generalize (memcmp (sid_bytes (rl_sid a)) (sid_bytes (rl_sid b))). intros m. repeat case_match; lia.
  - intros a b c Ha%Hls Hb%Hls Hc%Hls. rewrite !lock_compare_diff by done. unfold lock_diff.
    destruct (sid_cmp_chain (rl_sid a) (rl_sid b) (rl_sid c)) as (T & E1 & E2 & E3).
    set (m1 := memcmp (sid_bytes (rl_sid a)) (sid_bytes (rl_sid b))) in *.
    set (m2 := memcmp (sid_bytes (rl_sid b)) (sid_bytes (rl_sid c))) in *.
    set (m3 := memcmp (sid_bytes (rl_sid a)) (sid_bytes (rl_sid c))) in *.
    clearbody m1 m2 m3. repeat case_match; lia.
  - intros a b Ha%Hls Hb%Hls. rewrite lock_compare_diff by done. unfold lock_diff.
    destruct Ha as (_ & _ & _ & Ha), Hb as (_ & _ & _ & Hb).
    destruct (Z.eqb_spec (rl_inum a - rl_inum b) 0), (Z.eqb_spec (rl_ctime a - rl_ctime b) 0); cbn [negb]; try lia.
    destruct (Z.eqb_spec (memcmp (sid_bytes (rl_sid a)) (sid_bytes (rl_sid b))) 0) as [Em|Em]; cbn [negb]; [|lia].
    intros Hf. split_and!; try lia. apply sid_bytes_inj; [done|done|]. apply memcmp_0; [|done].
    by rewrite !length_sid_bytes.
Qed.

(** ** A freed session that the table still knows *)

(** Dropping a session whose table entry is not in the bucket its id selects
    (where a put that grew the table left it) frees the object but not the
    entry: the table keeps a pointer to freed memory. *)
Theorem session_free_dangling {D : Type} (p b : nat) (c : list (htab_entry Z nat)) (e : htab_entry Z nat) (s : srv D) :
  buckets (sessions s) !! b = Some c -> e ∈ c -> ent_value e = p ->
  b <> Z.to_nat (sess_hash (s_sid (heap s !!! p)) mod htab_sz (sessions s)) ->
  let s' := (session_free (Some p) true s).2 in
  e ∈ concat (buckets (sessions s')) /\ heap s' !! ent_value e = None.
Proof.
  intros Hb He Ep Hne. cbv zeta. rewrite session_free_eq. cbn [snd sessions heap set_heap set_sessions].
  split; [by eapply free_leaves_entry|]. rewrite Ep. apply lookup_delete_eq.
Qed.
