(* ===== verification/Startup.v ===== *)
(** * Startup: files and sockets of the starting daemons

    The pid file ([write_pid_file], chunkd/util.c and cld/util.c), the port
    file that one daemon writes and another reads ([net_write_port] of
    chunkd/server.c, [hail_readport] of lib/common.c), and the listening
    sockets of chunkd ([net_open], chunkd/server.c).

    The kernel is a state - files, descriptors with the port they are bound to -
    and an oracle that decides what each system call does: a negative answer is
    a failure with that errno.  Descriptor numbers are not used twice.  A
    socket points to its [struct listen_cfg] (here: its place in the list of
    listeners), which [net_open_any] changes.  [None]: the code does not go on. *)

From Stdlib Require Import String.
From S2P Require Import Prelude Huri Hutil Hstor HstorProps.
#[local] Open Scope Z_scope.

(** ** Data *)

Record listen_cfg : Type := mkListen {
  lc_node : option bytes;
  lc_port : option bytes;
  lc_port_file : option bytes }.

Record server_socket : Type := mkSock { ss_fd : Z; ss_cfg : nat }.

(** What the kernel knows of a descriptor: the family and the port bound. *)
Record kfd : Type := mkKfd { kf_fam : Z; kf_port : Z }.

Record kernel : Type := mkKernel {
  k_files : gmap bytes bytes;
  k_fds : gmap Z kfd;
  k_next : Z;
  k_socks : list server_socket;         (* [chunkd_srv.sockets] *)
  k_cfgs : list listen_cfg;             (* [chunkd_srv.listeners] *)
  k_oracle : nat -> Z;
  k_oi : nat }.

Definition set_k_files x k := mkKernel x (k_fds k) (k_next k) (k_socks k) (k_cfgs k) (k_oracle k) (k_oi k).
Definition set_k_fds x k := mkKernel (k_files k) x (k_next k) (k_socks k) (k_cfgs k) (k_oracle k) (k_oi k).
Definition set_k_next x k := mkKernel (k_files k) (k_fds k) x (k_socks k) (k_cfgs k) (k_oracle k) (k_oi k).
Definition set_k_socks x k := mkKernel (k_files k) (k_fds k) (k_next k) x (k_cfgs k) (k_oracle k) (k_oi k).
Definition set_k_cfgs x k := mkKernel (k_files k) (k_fds k) (k_next k) (k_socks k) x (k_oracle k) (k_oi k).
Definition set_k_oi x k := mkKernel (k_files k) (k_fds k) (k_next k) (k_socks k) (k_cfgs k) (k_oracle k) x.

(** ** The monad *)

Definition K (A : Type) : Type := kernel -> option (A * kernel).
#[global] Instance K_ret : MRet K := fun A a s => Some (a, s).
#[global] Instance K_bind : MBind K := fun A B f m s => match m s with Some (a, s') => f a s' | None => None end.

Definition k_get : K kernel := fun k => Some (k, k).
Definition k_modify (f : kernel -> kernel) : K unit := fun k => Some (tt, f k).
Definition k_nondet : K Z := fun k => Some (k_oracle k (k_oi k), set_k_oi (S (k_oi k)) k).

(** ** System calls *)

Definition AF_INET : Z := 2.
Definition AF_INET6 : Z := 10.
Definition O_NONBLOCK : Z := 2048.
Definition EPIPE : Z := 32.
Definition EDOM : Z := 33.
Definition ENOENT : Z := 2.
Definition ENOTSOCK : Z := 88.

(** Little-endian host. *)
Definition ntohs (p : Z) : Z := 256 * (p mod 256) + p / 256 mod 256.

(** Calls whose effect does not matter here. *)
Definition k_sys : K Z := k_nondet.

Definition k_socket (fam : Z) : K Z :=
  x ← k_nondet;
  if x <? 0 then mret x else
  k ← k_get;
  _ ← k_modify (fun k => set_k_next (k_next k + 1) (set_k_fds (<[k_next k := mkKfd fam 0]> (k_fds k)) k));
  mret (k_next k).

Definition k_close (fd : Z) : K unit := k_modify (fun k => set_k_fds (delete fd (k_fds k)) k).

(** [bind] to the port in the address, network order; port 0 lets the kernel
    choose one. *)
Definition k_bind (fd sin_port : Z) : K Z :=
  x ← k_nondet;
  if x <? 0 then mret x else
  y ← k_nondet;
  let port := if ntohs sin_port =? 0 then 1 + y mod 65535 else ntohs sin_port in
  _ ← k_modify (fun k => set_k_fds (alter (fun f => mkKfd (kf_fam f) port) fd (k_fds k)) k);
  mret 0.

(** The port field of the address, network order. *)
Definition k_getsockname (fd : Z) : K (Z + Z) :=
  x ← k_nondet;
  if x <? 0 then mret (inl (- x)) else
  k ← k_get;
  mret (match k_fds k !! fd with Some f => inr (ntohs (kf_port f)) | None => inl ENOTSOCK end).

(** ** The pid file *)

(** The loop of [write]: [pos] bytes are written.  A write of nothing is no
    progress; [fuel] is the number of calls made. *)
Fixpoint pid_loop (fuel : nat) (pid_fn : bytes) (pos : nat) (s : bytes) : K Z :=
  match s with
  | [] => mret 0
  | _ =>
      match fuel with
      | O => fun _ => None
      | S fuel =>
          x ← k_nondet;
          if x <? 0 then mret x else
          let n := Nat.min (Z.to_nat x) (length s) in
          _ ← k_modify (fun k => set_k_files (alter (fun d => splice pos (take n s) d) pid_fn (k_files k)) k);
          pid_loop fuel pid_fn (pos + n) (drop n s)
      end
  end.

Definition write_pid_file (fuel : nat) (pid : Z) (pid_fn : bytes) : K Z :=
  let str := fmt_lu pid ++ [10] in
  x ← k_nondet;
  if x <? 0 then mret x else
  k ← k_get;
  let fd := k_next k in
  _ ← k_modify (fun k => set_k_next (fd + 1) (set_k_fds (<[fd := mkKfd 0 0]> (k_fds k))
                           (set_k_files (<[pid_fn := default [] (k_files k !! pid_fn)]> (k_files k)) k)));
  rc ← k_sys;
  if rc <? 0 then _ ← k_close fd; mret rc else
  rc ← pid_loop fuel pid_fn 0 str;
  rc ← (if rc <? 0 then mret rc else k_sys);
  if rc <? 0 then
    _ ← k_modify (fun k => set_k_files (delete pid_fn (k_files k)) k);
    _ ← k_close fd; mret rc
  else mret fd.

(** ** The port file *)

Definition net_write_port (port_file port_str : bytes) : K Z :=
  rc ← k_sys;
  if rc <? 0 then mret rc else
  _ ← k_modify (fun k => set_k_files (<[port_file := port_str ++ [10]]> (k_files k)) k);
  mret 0.

(** [strtol(s, NULL, 10)]: a number that does not fit is cut to the range. *)
Definition LONG_MAX : Z := 2 ^ 63 - 1.
Definition strtol (s : bytes) : Z :=
  let s := skip_space (cstr s) in
  let n := match s with
           | c :: s' => if c =? 45 then - digits s' 0 else if c =? 43 then digits s' 0 else digits s 0
           | [] => 0
           end in
  Z.max (- 2 ^ 63) (Z.min LONG_MAX n).

(** A read of a regular file gets what there is, up to 11 bytes. *)
Definition hail_readport (fname : bytes) : K Z :=
  x ← k_nondet;
  if x <? 0 then mret x else
  k ← k_get;
  match k_files k !! fname with
  | None => mret (- ENOENT)
  | Some d =>
      rc ← k_nondet;
      if rc <? 0 then mret rc else
      let buf := take 11 d in
      match buf with
      | [] => mret (- EPIPE)
      | _ =>
          let port := strtol buf in
          if (port <=? 0) || (65636 <=? port) then mret (- EDOM) else mret port
      end
  end.

(** ** Listening sockets *)

Definition fsetflags (or_flags : Z) : K Z :=
  old_flags ← k_sys;
  if old_flags <? 0 then mret old_flags else
  if Z.lor old_flags or_flags =? old_flags then mret 0 else
  rc ← k_sys;
  mret (if rc <? 0 then rc else 0).

(** [goto err_out_fd] *)
Definition close_ret (fd rc : Z) : K Z := _ ← k_close fd; mret rc.

Definition net_open_socket (cfg : nat) (addr_fam sin_port : Z) : K Z :=
  fd ← k_socket addr_fam;
  if fd <? 0 then mret fd else
  rc ← k_sys;
  if rc <? 0 then close_ret fd rc else
  rc ← k_bind fd sin_port;
  if rc <? 0 then close_ret fd rc else
  rc ← k_sys;
  if rc <? 0 then close_ret fd rc else
  rc ← fsetflags O_NONBLOCK;
  if negb (rc =? 0) then close_ret fd rc else
  ok ← k_nondet;
  if ok =? 0 then close_ret fd (- ENOMEM) else
  ev ← k_sys;
  if ev <? 0 then close_ret fd rc else
  _ ← k_modify (fun k => set_k_socks (k_socks k ++ [mkSock fd cfg]) k);
  mret fd.

Definition upd_cfg (i : nat) (f : listen_cfg -> listen_cfg) : K unit :=
  k_modify (fun k => set_k_cfgs (alter f i (k_cfgs k)) k).

(** The port that was bound goes into the configuration and the port file. *)
Definition any_announce (i : nat) (port : Z) : K Z :=
  ok ← k_nondet;
  if ok =? 0 then _ ← upd_cfg i (fun c => mkListen (lc_node c) None (lc_port_file c)); mret (- ENOMEM) else
  _ ← upd_cfg i (fun c => mkListen (lc_node c) (Some (fmt_lu port)) (lc_port_file c));
  k ← k_get;
  match k_cfgs k !! i ≫= lc_port_file with
  | Some f => net_write_port f (fmt_lu port)
  | None => mret 0
  end.

Definition net_open_any (i : nat) : K Z :=
  fd6 ← net_open_socket i AF_INET6 0;
  p6 ← (if 0 <=? fd6 then k_getsockname fd6 else mret (inr 0));
  match p6 with
  | inl rc => mret (- rc)
  | inr sin6_port =>
      let port := if 0 <=? fd6 then ntohs sin6_port else 0 in
      fd4 ← net_open_socket i AF_INET (if port =? 0 then 0 else port);
      p4 ← (if port =? 0
            then if fd4 <? 0 then mret (inl (- fd4)) else k_getsockname fd4
            else mret (inr 0));
      match p4 with
      | inl rc => mret (- rc)
      | inr sin_port => any_announce i (if port =? 0 then ntohs sin_port else port)
      end
  end.

(** [getaddrinfo]: an error, or families with the port fields of the
    addresses. *)
Class Resolver : Type := { getaddrinfo : option bytes -> bytes -> Z + list (Z * Z) }.

Fixpoint known_loop (i : nat) (ipv6_found : bool) (res : list (Z * Z)) : K Z :=
  match res with
  | [] => mret 0
  | (fam, port) :: res =>
      if ipv6_found && (fam =? AF_INET) then known_loop i ipv6_found res else
      rc ← net_open_socket i fam port;
      if rc <? 0 then mret rc else known_loop i ipv6_found res
  end.

Definition net_open_known `{!Resolver} (i : nat) : K Z :=
  k ← k_get;
  match k_cfgs k !! i with
  | None => fun _ => None
  | Some cfg =>
      match getaddrinfo (lc_node cfg) (default [] (lc_port cfg)) with
      | inl _ => mret (- EINVAL)
      | inr res =>
          let ipv6_found := existsb (fun r => r.1 =? AF_INET6) res in
          rc ← known_loop i ipv6_found res;
          if rc <? 0 then mret rc else
          match lc_port_file cfg with
          | Some f => _ ← net_write_port f (default [] (lc_port cfg)); mret 0
          | None => mret 0
          end
      end
  end.

Definition AUTO : bytes := str "auto".

Definition net_open `{!Resolver} (i : nat) : K Z :=
  k ← k_get;
  match k_cfgs k !! i ≫= lc_port with
  | None => fun _ => None
  | Some port => if bool_decide (port = AUTO) then net_open_any i else net_open_known i
  end.

(** The listeners in [main]: [n] of them from [i] on. *)
Fixpoint listen_loop `{!Resolver} (i n : nat) : K Z :=
  match n with
  | O => mret 0
  | S n =>
      rc ← net_open i;
      if negb (rc =? 0) then mret rc else listen_loop (S i) n
  end.

(** ** What the starting daemons leave behind

    [kw m Q k]: [m] goes on from [k], and ends in [Q]. *)

#[local] Arguments fmt_lu : simpl never.

Definition kw {A} (m : K A) (Q : A -> kernel -> Prop) (k : kernel) : Prop :=
  match m k with Some (a, k') => Q a k' | None => False end.

Lemma kw_ret {A} (a : A) Q k : Q a k -> kw (mret a) Q k.
Proof. done. Qed.
Lemma kp_bind {A B} (m : K A) (f : A -> K B) Q k : kw m (fun a => kw (f a) Q) k -> kw (m ≫= f) Q k.
Proof. unfold kw, mbind, K_bind. by destruct (m k) as [[a k']|]. Qed.
Lemma kp_mono {A} (m : K A) (Q R : A -> kernel -> Prop) k : kw m Q k -> (forall a k', Q a k' -> R a k') -> kw m R k.
Proof. unfold kw. destruct (m k) as [[a k']|]; auto. Qed.
Lemma kw_get Q k : Q k k -> kw k_get Q k.
Proof. done. Qed.
Lemma kw_modify f Q k : Q tt (f k) -> kw (k_modify f) Q k.
Proof. done. Qed.
Lemma kw_nondet Q k : (forall x, Q x (set_k_oi (S (k_oi k)) k)) -> kw k_nondet Q k.
Proof. intros H. apply H. Qed.
Lemma kw_nondet_eq Q k : Q (k_oracle k (k_oi k)) (set_k_oi (S (k_oi k)) k) -> kw k_nondet Q k.
Proof. done. Qed.
Lemma kw_run {A} (m : K A) Q k a k' : kw m Q k -> m k = Some (a, k') -> Q a k'.
Proof. unfold kw. intros H E. by rewrite E in H. Qed.

(** One step of a computation. *)
Ltac kstep :=
  match goal with
  | |- kw (mret _) _ _ => apply kw_ret
  | |- kw (_ ≫= _) _ _ => apply kp_bind
  | |- kw k_get _ _ => apply kw_get
  | |- kw (k_modify _) _ _ => apply kw_modify
  | |- kw k_nondet _ _ => apply kw_nondet; intro
  | |- kw k_sys _ _ => apply kw_nondet; intro
  | |- kw (if ?b then _ else _) _ _ => let E := fresh "E" in destruct b eqn:E
  end; cbv beta.

(** ** The port file *)

Lemma strtol_fmt n r : 0 <= n < 2 ^ 63 -> isdigit (at_ r) = false -> Forall (fun c => c <> 0) r -> strtol (fmt_lu n ++ r) = n.
Proof.
  intros Hn Hr Hz. pose proof (fmt_lu_digits n ltac:(lia)) as Hd. unfold strtol.
  rewrite cstr_id by (apply Forall_app; split; [eapply Forall_impl; [exact Hd|cbn; lia]|exact Hz]).
  assert (digits (fmt_lu n ++ r) 0 = n) as Hdig.
  { unfold fmt_lu. rewrite fmt_lu_app, digits_fmt by (cbn; lia). destruct r as [|c r]; [done|]. cbn in *. by rewrite Hr. }
  destruct (fmt_lu_cons n) as (c & s & E). rewrite E in *. apply Forall_cons in Hd as [Hc _]. cbn [app] in *. cbn [skip_space].
  assert (ISSPACE c = false) as -> by (unfold ISSPACE; rewrite (proj2 (Z.leb_gt c 13)), (proj2 (Z.eqb_neq c 32)), andb_false_r by lia; done).
  rewrite (proj2 (Z.eqb_neq c 45)), (proj2 (Z.eqb_neq c 43)), Hdig by lia. unfold LONG_MAX. lia.
Qed.

Lemma fmt_lu_short fuel n acc : 0 <= n < 10 ^ Z.of_nat fuel -> (0 < fuel)%nat ->
  (length (fmt_lu_loop fuel n acc) <= fuel + length acc)%nat.
Proof.
  revert n acc. induction fuel as [|fuel IH]; intros n acc Hn Hf; [lia|]. cbn [fmt_lu_loop].
  destruct (Z.eqb_spec (n / 10) 0) as [E|E]; [cbn; lia|]. destruct fuel as [|fuel].
  { exfalso. apply E, Z.div_small. cbn in Hn. lia. }
  etrans; [apply IH; [|lia]|cbn; lia]. split; [apply Z.div_pos; lia|].
  apply Z.div_lt_upper_bound; [lia|]. rewrite (Nat2Z.inj_succ (S fuel)), Z.pow_succ_r in Hn; lia.
Qed.

(** Fuel beyond the digits changes nothing. *)
Lemma fmt_lu_fuel f1 f2 n acc : 0 <= n < 10 ^ Z.of_nat f1 -> (0 < f1 <= f2)%nat -> fmt_lu_loop f2 n acc = fmt_lu_loop f1 n acc.
Proof.
  revert f2 n acc. induction f1 as [|f1 IH]; intros f2 n acc Hn Hf; [lia|]. destruct f2 as [|f2]; [lia|]. cbn [fmt_lu_loop].
  destruct (Z.eqb_spec (n / 10) 0) as [E|E]; [done|]. destruct f1 as [|f1].
  { exfalso. apply E, Z.div_small. cbn in Hn. lia. }
  apply IH; [|lia]. split; [apply Z.div_pos; lia|].
  apply Z.div_lt_upper_bound; [lia|]. rewrite (Nat2Z.inj_succ (S f1)), Z.pow_succ_r in Hn; lia.
Qed.

Lemma fmt_port_len n : 0 <= n < 65536 -> (length (fmt_lu n) <= 5)%nat.
Proof.
  intros Hn. unfold fmt_lu. rewrite (fmt_lu_fuel 5 20) by lia. etrans; [apply fmt_lu_short; lia|done].
Qed.

(** A port file says the port: what [net_write_port] of a server writes,
    [hail_readport] of another process reads back, for every port, unless a
    system call fails. *)
Theorem port_file_roundtrip f port k k1 :
  0 < port < 65536 -> net_write_port f (fmt_lu port) k = Some (0, k1) ->
  exists r k2, hail_readport f k1 = Some (r, k2) /\
    (r = port \/ r < 0 /\ (k_oracle k1 (k_oi k1) < 0 \/ k_oracle k1 (S (k_oi k1)) < 0)).
Proof.
  intros Hp Hw. assert (k_files k1 !! f = Some (fmt_lu port ++ [10])) as Hf.
  { revert Hw. unfold net_write_port, k_sys, k_nondet, mbind, K_bind. destruct (_ <? 0) eqn:E; cbn.
    - intros [= H _]. apply Z.ltb_lt in E. lia.
    - intros [= <-]. cbn. by rewrite lookup_insert_eq. }
  unfold hail_readport, mbind, K_bind, k_nondet, k_get. cbn.
  destruct (Z.ltb_spec (k_oracle k1 (k_oi k1)) 0) as [E|E]; [eexists _, _; split; [done|]; right; split; [lia|auto]|]. cbn. rewrite Hf. cbn [k_oracle k_oi set_k_oi].
  destruct (Z.ltb_spec (k_oracle k1 (S (k_oi k1))) 0) as [E2|E2]; [eexists _, _; split; [done|]; right; split; [lia|auto]|]. cbn.
  pose proof (fmt_port_len port ltac:(lia)). rewrite take_ge by (rewrite length_app; cbn [length]; lia).
  assert (strtol (fmt_lu port ++ [10]) = port) as -> by (apply strtol_fmt; [lia|done|by repeat constructor]).
  destruct (fmt_lu_cons port) as (c & s & ->). cbn [app].
  rewrite (proj2 (Z.leb_gt _ _)), (proj2 (Z.leb_gt _ _)) by lia. cbn. eexists _, _. split; [done|by left].
Qed.

(** ** Descriptors *)

(** The open descriptors are those of the sockets. *)
Definition fds_ok (k : kernel) : Prop :=
  (forall fd, is_Some (k_fds k !! fd) <-> exists s, s ∈ k_socks k /\ ss_fd s = fd) /\
  (forall fd, is_Some (k_fds k !! fd) -> 0 < fd < k_next k) /\ 0 < k_next k.

(** What opening a socket for listener [i] does: nothing but new
    descriptors if it fails. *)
Definition opened (i : nat) (fam sin_port : Z) (k : kernel) (rc : Z) (k' : kernel) : Prop :=
  k_files k' = k_files k /\ k_cfgs k' = k_cfgs k /\ k_oracle k' = k_oracle k /\ k_next k <= k_next k' /\
  (rc <= 0 /\ k_fds k' = k_fds k /\ k_socks k' = k_socks k \/
   rc = k_next k /\ k_next k' = k_next k + 1 /\ k_socks k' = k_socks k ++ [mkSock rc i] /\
   exists port, k_fds k' = <[rc := mkKfd fam port]> (k_fds k) /\ 
     (if ntohs sin_port =? 0 then 0 < port < 65536 else port = ntohs sin_port)).

Lemma close_ret_w fd rc Q k : Q rc (set_k_fds (delete fd (k_fds k)) k) -> kw (close_ret fd rc) Q k.
Proof. done. Qed.

Lemma fsetflags_w fl Q k : (forall rc n, rc <= 0 -> Q rc (set_k_oi n k)) -> kw (fsetflags fl) Q k.
Proof.
  intros H. unfold fsetflags. repeat kstep.
  - by apply H, Z.lt_le_incl, Z.ltb_lt.
  - by apply H.
  - destruct (Z.ltb_spec x0 0); apply H; lia.
Qed.

Lemma net_open_socket_w i fam sin_port k :
  k_fds k !! k_next k = None -> 0 <= k_next k -> kw (net_open_socket i fam sin_port) (opened i fam sin_port k) k.
Proof.
  intros Hf Hn. unfold net_open_socket, k_socket, k_bind.
  repeat first [kstep | apply close_ret_w | apply fsetflags_w; intros rc ? ?]; unfold opened; cbn -[Z.add Z.modulo] in *.
  all: rewrite ?Z.ltb_lt, ?Z.ltb_ge, ?negb_true_iff, ?negb_false_iff, ?Z.eqb_eq, ?Z.eqb_neq in *; try lia.
  all: split_and!; try done; try lia.
  all: try (left; split_and!; [unfold ENOMEM; lia|by rewrite ?alter_insert_eq, ?delete_insert_id|done]).
  right. split_and!; [done..|]. eexists. split; [by rewrite alter_insert_eq|].
  destruct (Z.eqb_spec (ntohs sin_port) 0); [|done]. match goal with |- context [?x mod 65535] => pose proof (Z.mod_pos_bound x 65535) end. lia.
Qed.

Lemma sock_opened_ok i fam sin_port k rc k' : opened i fam sin_port k rc k' -> fds_ok k -> fds_ok k'.
Proof.
  intros (_ & _ & _ & Hn & [(_ & Hf & Hs)|(-> & Hn' & Hs & port & Hf & _)]) (H1 & H2 & H3); unfold fds_ok; rewrite Hf, Hs.
  - split_and!; [done| |lia]. intros fd Hfd. specialize (H2 fd Hfd). lia.
  - rewrite Hn'. split_and!; [|intros fd|lia].
    + intros fd. destruct (decide (fd = k_next k)) as [->|Hne].
      * rewrite lookup_insert_eq. split; [|by eexists]. intros _. exists (mkSock (k_next k) i). split; [apply elem_of_app; right; by left|done].
      * rewrite lookup_insert_ne, H1 by done. split; intros (s & Hin & Hfd).
        -- exists s. split; [apply elem_of_app; by left|done].
        -- apply elem_of_app in Hin as [Hin|Hin%list_elem_of_singleton]; [by exists s|]. subst s. by cbn in Hfd.
    + destruct (decide (fd = k_next k)) as [->|Hne]; [lia|]. rewrite lookup_insert_ne by done. intros Hfd%H2. lia.
Qed.

Lemma fds_ok_fresh k : fds_ok k -> k_fds k !! k_next k = None /\ 0 <= k_next k.
Proof. intros (_ & H2 & H3). split; [|lia]. apply eq_None_not_Some. intros Hs%H2. lia. Qed.

(** ** Listening *)

Lemma getsockname_w fd Q k :
  (forall n e, 0 < e -> Q (inl e) (set_k_oi n k)) ->
  (forall n f, k_fds k !! fd = Some f -> Q (inr (ntohs (kf_port f))) (set_k_oi n k)) -> kw (k_getsockname fd) Q k.
Proof. intros H1 H2. unfold k_getsockname. repeat kstep; [apply H1; lia|]. cbn. destruct (k_fds k !! fd) eqn:E'; [by apply H2|by apply H1]. Qed.

Lemma net_write_port_w f s Q k :
  (forall n rc, rc < 0 -> Q rc (set_k_oi n k)) ->
  (forall n files, files !! f = Some (s ++ [10]) -> Q 0 (set_k_files files (set_k_oi n k))) -> kw (net_write_port f s) Q k.
Proof.
  intros H1 H2. unfold net_write_port. repeat kstep; [by apply H1, Z.ltb_lt|]. apply H2. apply lookup_insert_eq.
Qed.

Lemma fds_ok_oi n k : fds_ok (set_k_oi n k) = fds_ok k.
Proof. done. Qed.

Lemma ntohs_involutive p : 0 <= p < 65536 -> ntohs (ntohs p) = p.
Proof.
  intros Hp. unfold ntohs. pose proof (Z.mod_pos_bound p 256 ltac:(lia)). pose proof (Z.div_mod p 256 ltac:(lia)).
  assert (p / 256 < 256) by (apply Z.div_lt_upper_bound; lia). assert (0 <= p / 256) by (apply Z.div_pos; lia).
  rewrite (Z.mod_small (p / 256) 256) by lia.
  replace (256 * (p mod 256) + p / 256) with (p / 256 + p mod 256 * 256) by lia. rewrite Z.mod_add, Z.div_add by lia.
  rewrite (Z.mod_small (p / 256) 256), (Z.div_small (p / 256) 256), Z.add_0_l, Z.mod_mod by lia. lia.
Qed.

Lemma ntohs_nonzero p : 0 < p < 65536 -> ntohs p <> 0.
Proof. intros Hp E. pose proof (ntohs_involutive p ltac:(lia)) as H. rewrite E in H. change (ntohs 0) with 0 in H. lia. Qed.

Lemma any_announce_w i c p Q k : k_cfgs k !! i = Some c ->
  (forall rc n cfgs files, (forall j, j <> i -> cfgs !! j = k_cfgs k !! j) -> (rc = 0 -> cfgs !! i = Some (mkListen (lc_node c) (Some (fmt_lu p)) (lc_port_file c)) /\
     (forall f, lc_port_file c = Some f -> files !! f = Some (fmt_lu p ++ [10]))) ->
     Q rc (set_k_oi n (set_k_files files (set_k_cfgs cfgs k)))) -> kw (any_announce i p) Q k.
Proof.
  intros Hc H. unfold any_announce, upd_cfg. repeat kstep.
  - cbn [k_cfgs set_k_oi]. match goal with |- context [set_k_cfgs ?t _] => set (cs := t) end.
    assert (forall j, j <> i -> cs !! j = k_cfgs k !! j) as Hoth by (intros j Hj; by apply list_lookup_alter_ne). clearbody cs.
    by apply (H (- ENOMEM) (S (k_oi k)) cs (k_files k)).
  - cbn [k_cfgs set_k_cfgs set_k_oi]. match goal with |- context [alter ?g i (k_cfgs k)] => set (cs := alter g i (k_cfgs k)) end.
    assert (cs !! i = Some (mkListen (lc_node c) (Some (fmt_lu p)) (lc_port_file c))) as Hcs by (unfold cs; by rewrite list_lookup_alter_eq, Hc).
    assert (forall j, j <> i -> cs !! j = k_cfgs k !! j) as Hoth by (intros j Hj; by apply list_lookup_alter_ne). clearbody cs. rewrite Hcs. cbn [mbind option_bind lc_port_file]. destruct (lc_port_file c) as [f|] eqn:Hf.
    + apply net_write_port_w.
      * intros n rc Hrc. apply (H rc n cs (k_files k)); [done|lia].
      * intros n files Hfl. apply (H 0 n cs files); [done|]. intros _. split; [done|]. by intros f' [= <-].
    + kstep. by apply (H 0 (S (k_oi k)) cs (k_files k)).
Qed.

(** A socket and the family and port it is bound to. *)
Definition bound (k : kernel) (s : server_socket) (fam port : Z) : Prop := k_fds k !! ss_fd s = Some (mkKfd fam port).

(** The sockets [l] of an automatic port [p]. *)
Definition auto_socks (i : nat) (p : Z) (l : list server_socket) (k : kernel) : Prop :=
  0 < p < 65536 /\ Forall (fun s => ss_cfg s = i) l /\
  ((exists s4, l = [s4] /\ bound k s4 AF_INET p) \/
   (exists s6, l = [s6] /\ bound k s6 AF_INET6 p) \/
   (exists s6 s4, l = [s6; s4] /\ bound k s6 AF_INET6 p /\ bound k s4 AF_INET (ntohs p))).

Definition auto_opened (i : nat) (c : listen_cfg) (k : kernel) (rc : Z) (k' : kernel) : Prop :=
  fds_ok k' /\ (forall j, j <> i -> k_cfgs k' !! j = k_cfgs k !! j) /\
  (exists l, k_socks k' = k_socks k ++ l /\ Forall (fun s => ss_cfg s = i) l) /\
  (rc = 0 -> exists p l, auto_socks i p l k' /\ k_socks k' = k_socks k ++ l /\
     k_cfgs k' !! i = Some (mkListen (lc_node c) (Some (fmt_lu p)) (lc_port_file c)) /\
     (forall f, lc_port_file c = Some f -> k_files k' !! f = Some (fmt_lu p ++ [10]))).

(** Only sockets for listener [i] have been added. *)
Definition grown (i : nat) (k k' : kernel) : Prop :=
  fds_ok k' /\ k_cfgs k' = k_cfgs k /\ exists l, k_socks k' = k_socks k ++ l /\ Forall (fun s => ss_cfg s = i) l.

Lemma grown_refl i k : fds_ok k -> grown i k k.
Proof. intros H. split_and!; [done|done|]. exists []. by rewrite app_nil_r. Qed.

Lemma opened_grown i fam sin_port k k1 rc k2 : opened i fam sin_port k1 rc k2 -> grown i k k1 -> grown i k k2.
Proof.
  intros Ho (Hk & Hc & l & Hs & Hl). split_and!; [by eapply sock_opened_ok|destruct Ho as (_ & -> & _); done|].
  destruct Ho as (_ & _ & _ & _ & [(_ & _ & Hs2)|(_ & _ & Hs2 & _)]); rewrite Hs2, Hs.
  - by exists l.
  - exists (l ++ [mkSock rc i]). split; [by rewrite app_assoc|]. apply Forall_app. by repeat constructor.
Qed.

Lemma auto_finish i c p l k k2 :
  grown i k k2 -> auto_socks i p l k2 -> k_socks k2 = k_socks k ++ l -> k_cfgs k2 !! i = Some c ->
  kw (any_announce i p) (auto_opened i c k) k2.
Proof.
  intros (H1 & Hc & Hg) H2 H3 H4. eapply any_announce_w; [done|]. intros rc n cfgs files Hoth H. split_and!; [done| |done|].
  - intros j Hj. cbn. rewrite Hoth by done. by rewrite Hc.
  - intros Hrc. destruct (H Hrc). by exists p, l.
Qed.

Lemma auto_fail i c k rc k2 : grown i k k2 -> rc <> 0 -> auto_opened i c k rc k2.
Proof. intros (H1 & Hc & Hg) Hrc. split_and!; [done| |done|done]. intros j Hj. by rewrite Hc. Qed.

Lemma net_open_any_w i c k : fds_ok k -> k_cfgs k !! i = Some c -> kw (net_open_any i) (auto_opened i c k) k.
Proof.
  intros Hk Hc. destruct (fds_ok_fresh _ Hk) as [Hf Hn]. unfold net_open_any. apply kp_bind.
  eapply kp_mono; [by apply net_open_socket_w|]. intros fd6 k1 Ho1. pose proof (sock_opened_ok _ _ _ _ _ _ Ho1 Hk) as Hk1.
  pose proof (opened_grown _ _ _ _ _ _ _ Ho1 (grown_refl i k Hk)) as Hg1.
  destruct (fds_ok_fresh _ Hk1) as [Hf1 Hn1]. destruct Ho1 as (_ & Hc1 & _ & _ & Ho1). rewrite <- Hc1 in Hc. apply kp_bind.
  (* the second socket, and what is announced *)
  assert (forall port n, (port = 0 /\ k_socks k1 = k_socks k \/
      0 < port < 65536 /\ fd6 = k_next k /\ k_socks k1 = k_socks k ++ [mkSock fd6 i] /\ k_fds k1 !! fd6 = Some (mkKfd AF_INET6 port)) ->
    kw (fd4 ← net_open_socket i AF_INET (if port =? 0 then 0 else port);
        p4 ← (if port =? 0 then if fd4 <? 0 then mret (inl (- fd4)) else k_getsockname fd4 else mret (inr 0));
        match p4 with
        | inl rc => mret (- rc)
        | inr sin_port => any_announce i (if port =? 0 then ntohs sin_port else port)
        end) (auto_opened i c k) (set_k_oi n k1)) as Hrest.
  { intros port n Hport. apply kp_bind. eapply kp_mono; [by apply net_open_socket_w|]. intros fd4 k2 Ho2.
    pose proof (sock_opened_ok _ _ _ _ _ _ Ho2 Hk1) as Hk2. pose proof (opened_grown _ _ _ _ _ _ _ Ho2 Hg1) as Hg2. destruct Ho2 as (_ & Hc2 & _ & _ & Ho2). cbn [k_cfgs k_socks k_fds k_next set_k_oi] in *.
    rewrite <- Hc2 in Hc. apply kp_bind. destruct Hport as [[-> Hs]|(Hp & -> & Hs & H6)].
    - cbn [Z.eqb]. destruct Ho2 as [(H0 & Hfd & Hso)|(-> & _ & Hso & port & Hfd & Hpo)].
      + destruct (Z.ltb_spec fd4 0); [apply kw_ret; cbn; apply auto_fail; [done|lia]|].
        apply getsockname_w; [intros m e He; apply auto_fail; [done|lia]|]. intros m f Hf'. exfalso.
        assert (is_Some (k_fds k2 !! fd4)) as Hs0 by eauto. apply Hk2 in Hs0. lia.
      + destruct (Z.ltb_spec (k_next k1) 0); [lia|]. apply getsockname_w; [intros m e He; apply auto_fail; [done|lia]|].
        intros m f. rewrite Hfd, lookup_insert_eq. intros [= <-]. cbn [Z.eqb kf_port]. change (ntohs 0) with 0 in Hpo. rewrite Z.eqb_refl in Hpo.
        rewrite ntohs_involutive by lia. eapply (auto_finish _ _ _ [mkSock (k_next k1) i]); [done| |cbn; by rewrite Hso, Hs|done].
        split_and!; [lia|lia|by repeat constructor|]. left. eexists. split; [done|]. unfold bound. cbn. by rewrite Hfd, lookup_insert_eq.
    - rewrite (proj2 (Z.eqb_neq port 0)) in * by lia. cbn match. apply kw_ret.
      destruct Ho2 as [(H0 & Hfd & Hso)|(-> & _ & Hso & port' & Hfd & Hpo)].
      + eapply (auto_finish _ _ _ [mkSock (k_next k) i]); [done| |by rewrite Hso, Hs|done].
        split_and!; [lia|lia|by repeat constructor|]. right; left. eexists. split; [done|]. unfold bound. cbn. by rewrite Hfd.
      + rewrite (proj2 (Z.eqb_neq _ 0)) in Hpo by (apply ntohs_nonzero; lia). subst port'.
        eapply (auto_finish _ _ _ [mkSock (k_next k) i; mkSock (k_next k1) i]); [done| |by rewrite Hso, Hs, <- app_assoc|done].
        split_and!; [lia|lia|by repeat constructor|]. right; right. eexists _, _. split; [done|]. unfold bound. cbn. rewrite Hfd.
        split; [|by rewrite lookup_insert_eq]. rewrite lookup_insert_ne; [done|]. intros E. rewrite <- E in H6. by rewrite H6 in Hf1. }
  destruct Ho1 as [(H0 & Hfd & Hso)|(-> & _ & Hso & port & Hfd & Hpo)].
  - destruct (Z.leb_spec 0 fd6).
    + apply getsockname_w; [intros m e He; apply auto_fail; [done|lia]|]. intros m f Hf'. exfalso.
      assert (is_Some (k_fds k1 !! fd6)) as Hs0 by eauto. apply Hk1 in Hs0. lia.
    + apply kw_ret. apply (Hrest 0 (k_oi k1)). by left.
  - destruct (Z.leb_spec 0 (k_next k)); [|lia]. apply getsockname_w; [intros m e He; apply auto_fail; [done|lia]|].
    intros m f. rewrite Hfd, lookup_insert_eq. intros [= <-]. cbn [kf_port]. change (ntohs 0) with 0 in Hpo. rewrite Z.eqb_refl in Hpo. rewrite ntohs_involutive by lia.
    apply Hrest. right. by rewrite Hfd, lookup_insert_eq.
Qed.


Lemma known_loop_w i v6 res k k0 : grown i k0 k -> kw (known_loop i v6 res) (fun _ => grown i k0) k.
Proof.
  revert k. induction res as [|[fam port] res IH]; intros k Hg; cbn [known_loop]; [by apply kw_ret|].
  kstep; [by apply IH|]. apply kp_bind. destruct (fds_ok_fresh k (proj1 Hg)). eapply kp_mono; [by apply net_open_socket_w|].
  intros rc k1 Ho. pose proof (opened_grown _ _ _ _ _ _ _ Ho Hg). kstep; [by apply kw_ret|by apply IH].
Qed.

(** Opening a listener; if it works its port is known. *)
Definition net_opened (i : nat) (k : kernel) (rc : Z) (k' : kernel) : Prop :=
  fds_ok k' /\ (forall j, j <> i -> k_cfgs k' !! j = k_cfgs k !! j) /\
  (exists l, k_socks k' = k_socks k ++ l /\ Forall (fun s => ss_cfg s = i) l) /\
  (rc = 0 -> exists p, k_cfgs k' !! i ≫= lc_port = Some p /\ p <> AUTO).

Lemma fmt_not_auto n : 0 <= n -> fmt_lu n <> AUTO.
Proof. intros Hn E. pose proof (fmt_lu_digits n Hn) as H. rewrite E in H. inversion H as [|x l Hx _]; subst. lia. Qed.

Section listen.
Context {RS : Resolver}.

Lemma net_open_w i c p k : fds_ok k -> k_cfgs k !! i = Some c -> lc_port c = Some p -> kw (net_open i) (net_opened i k) k.
Proof.
  intros Hk Hc Hp. unfold net_open. do 2 kstep. rewrite Hc. cbn. rewrite Hp. destruct (bool_decide_reflect (p = AUTO)) as [Ha|Ha].
  - eapply kp_mono; [by eapply net_open_any_w|]. intros rc k' (H1 & H2 & H3 & H4). split_and!; [done..|].
    intros Hrc. destruct (H4 Hrc) as (q & l & [Hq _] & _ & Hc' & _). exists (fmt_lu q). rewrite Hc'. split; [done|]. apply fmt_not_auto. lia.
  - assert (forall rc k', grown i k k' -> net_opened i k rc k') as Hg.
    { intros rc k' (H1 & H2 & H3). split_and!; [done|by intros; rewrite H2|done|]. intros _. exists p. rewrite H2, Hc. cbn. done. }
    unfold net_open_known. do 2 kstep. rewrite Hc. cbn [mbind]. destruct (getaddrinfo _ _) as [e|res].
    + kstep. by apply Hg, grown_refl.
    + kstep. eapply kp_mono; [by apply known_loop_w, grown_refl|]. intros rc k1 H1. cbv beta. kstep; [by kstep; apply Hg|].
      destruct (lc_port_file c); [|by kstep; apply Hg]. kstep. apply net_write_port_w; intros; kstep; by apply Hg.
Qed.

(** The first [i] listeners are open. *)
Record listening (i : nat) (k : kernel) : Prop := {
  li_fds : fds_ok k;
  li_socks : Forall (fun s => (ss_cfg s < i)%nat) (k_socks k);
  li_known j : (j < i)%nat -> exists p, k_cfgs k !! j ≫= lc_port = Some p /\ p <> AUTO;
  li_ports j c : k_cfgs k !! j = Some c -> (i <= j)%nat -> lc_port c <> None }.

Lemma listening_step i k rc k' : listening i k -> net_opened i k rc k' -> rc = 0 -> listening (S i) k'.
Proof.
  intros [H1 H2 H3 H4] (G1 & G2 & (l & G3 & Gl) & G4) Hrc. split; [done| | |].
  - rewrite G3. apply Forall_app. split; [eapply Forall_impl; [exact H2|cbn; lia]|]. eapply Forall_impl; [exact Gl|cbn; lia].
  - intros j Hj. destruct (decide (j = i)) as [->|Hne]; [by apply G4|]. rewrite G2 by done. apply H3. lia.
  - intros j c Hc Hj. rewrite G2 in Hc by lia. eapply H4; [done|lia].
Qed.

Lemma listen_loop_w n i k : listening i k -> (forall j, (i <= j < i + n)%nat -> is_Some (k_cfgs k !! j)) ->
  kw (listen_loop i n) (fun rc k' => fds_ok k' /\ (rc = 0 -> listening (i + n) k')) k.
Proof.
  revert i k. induction n as [|n IH]; intros i k Hl Hs; cbn [listen_loop].
  { kstep. split; [apply Hl|]. by rewrite Nat.add_0_r. }
  destruct (Hs i ltac:(lia)) as [c Hc]. destruct (lc_port c) as [p|] eqn:Hp; [|by destruct (li_ports _ _ Hl i c Hc)].
  kstep. eapply kp_mono; [eapply net_open_w; [apply Hl|done|done]|]. intros rc k' Ho. cbv beta.
  destruct (Z.eqb_spec rc 0) as [->|Hrc]; cbn [negb]; [|kstep; split; [apply Ho|done]].
  replace (i + S n)%nat with (S i + n)%nat by lia. apply IH; [by eapply listening_step|]. intros j Hj.
  rewrite (proj1 (proj2 Ho)) by lia. apply Hs. lia.
Qed.

(** When all listeners are open, every open descriptor is a socket's, and no
    port of a socket is left to be chosen: what is registered of it in CLD is
    a number or a service name. *)
Theorem listen_known k :
  fds_ok k -> k_socks k = [] -> Forall (fun c => lc_port c <> None) (k_cfgs k) ->
  exists rc k', listen_loop 0 (length (k_cfgs k)) k = Some (rc, k') /\ fds_ok k' /\
    (rc = 0 -> forall s, s ∈ k_socks k' -> exists p, k_cfgs k' !! ss_cfg s ≫= lc_port = Some p /\ p <> AUTO).
Proof.
  intros Hk Hs Hp. assert (listening 0 k) as Hl.
  { split; [done|by rewrite Hs|lia|]. intros j c Hc _. by apply (Forall_lookup_1 _ _ _ _ Hp Hc). }
  pose proof (listen_loop_w (length (k_cfgs k)) 0 k Hl ltac:(intros; apply lookup_lt_is_Some; lia)) as H. unfold kw in H.
  destruct (listen_loop _ _ k) as [[rc k']|]; [|done]. exists rc, k'. destruct H as [H1 H2]. split_and!; [done|done|].
  intros Hrc s Hin. apply (li_known _ _ (H2 Hrc)). by apply (proj1 (Forall_forall _ _) (li_socks _ _ (H2 Hrc))).
Qed.

End listen.

(** An automatic port: when [net_open_any] returns 0 the listener's
    configuration says a port some new socket of it is bound to, and so does
    the port file if there is one; but when there is an IPv6 socket, the IPv4
    socket next to it listens on that port with its two bytes exchanged.
    Whatever it returns, every descriptor left open belongs to a socket of the
    list. *)
Theorem auto_port i c k :
  fds_ok k -> k_cfgs k !! i = Some c -> exists rc k', net_open_any i k = Some (rc, k') /\ auto_opened i c k rc k'.
Proof.
  intros Hk Hc. pose proof (net_open_any_w i c k Hk Hc) as H. unfold kw in H.
  destruct (net_open_any i k) as [[rc k']|]; [|done]. by exists rc, k'.
Qed.

(** ** The pid file *)

Lemma splice_app pos a b d : (pos <= length d)%nat ->
  splice (pos + length a) b (splice pos a d) = splice pos (a ++ b) d.
Proof.
  intros Hp. unfold splice. rewrite length_app. rewrite (app_assoc (take pos d)).
  rewrite take_app_le, drop_app_ge by (rewrite length_app, length_take; lia).
  rewrite (take_ge (take pos d ++ a)) by (rewrite length_app, length_take; lia).
  rewrite length_app, length_take, drop_drop, <- !app_assoc. do 4 f_equal. lia.
Qed.

Lemma length_splice pos b d : (pos <= length d)%nat -> (pos + length b <= length (splice pos b d))%nat.
Proof. intros H. unfold splice. rewrite !length_app, length_take. lia. Qed.

Lemma pid_loop_w fuel fn pos s d k : (forall j, k_oracle k j <> 0) -> (length s <= fuel)%nat ->
  k_files k !! fn = Some d -> (pos <= length d)%nat ->
  kw (pid_loop fuel fn pos s) (fun rc k' => exists n files, k' = set_k_oi n (set_k_files files k) /\
    (rc < 0 \/ rc = 0 /\ files !! fn = Some (splice pos s d))) k.
Proof.
  revert pos s d k. induction fuel as [|fuel IH]; intros pos s d k Ho Hl Hf Hd; (destruct s as [|c s];
    [cbn [pid_loop]; kstep; exists (k_oi k), (k_files k); split; [by destruct k|right; split; [done|]; unfold splice; cbn; by rewrite Nat.add_0_r, take_drop]|]).
  { cbn in Hl. lia. }
  cbn [pid_loop]. apply kp_bind, kw_nondet_eq. kstep; [kstep; eexists _, (k_files k); split; [by destruct k|left; lia]|].
  cbn [k_files set_k_oi].
  set (x := k_oracle k (k_oi k)) in *. set (m := Nat.min (Z.to_nat x) (length (c :: s))).
  assert (0 < m)%nat as Hm. { specialize (Ho (k_oi k)). fold x in Ho. unfold m. cbn [length]. lia. }
  kstep. kstep. set (k1 := set_k_files _ _). assert (k_files k1 !! fn = Some (splice pos (take m (c :: s)) d)) as Hf1.
  { unfold k1. cbn. by rewrite lookup_alter_eq, Hf. }
  assert (length (take m (c :: s)) = m) as Hlm by (rewrite length_take; lia).
  eapply kp_mono; [eapply (IH _ _ _ k1); [done|rewrite length_drop; lia|exact Hf1|]|].
  - pose proof (length_splice pos (take m (c :: s)) d Hd). lia.
  - intros rc k' (n & files & -> & H). exists n, files. split; [by destruct k|]. destruct H as [H|[-> H]]; [by left|right].
    split; [done|]. rewrite H. f_equal. rewrite <- Hlm at 1. rewrite splice_app by lia. by rewrite take_drop.
Qed.

(** The pid file: if [write_pid_file] returns a descriptor the file begins
    with the line of the process number - and ends as it ended before, since it
    is not truncated; if it fails it leaves no descriptor open.  Writes that
    make progress are assumed; the loop is otherwise endless. *)
Theorem pid_file_written pid fn k :
  (forall j, k_oracle k j <> 0) -> 0 <= k_next k -> k_fds k !! k_next k = None ->
  exists rc k', write_pid_file (length (fmt_lu pid ++ [10])) pid fn k = Some (rc, k') /\
    (rc < 0 /\ k_fds k' = k_fds k \/
     rc = k_next k /\ k_files k' !! fn = Some ((fmt_lu pid ++ [10]) ++ drop (length (fmt_lu pid ++ [10])) (default [] (k_files k !! fn)))).
Proof.
  intros Ho Hn Hf. enough (kw (write_pid_file (length (fmt_lu pid ++ [10])) pid fn) (fun rc k' =>
    rc < 0 /\ k_fds k' = k_fds k \/
     rc = k_next k /\ k_files k' !! fn = Some ((fmt_lu pid ++ [10]) ++ drop (length (fmt_lu pid ++ [10])) (default [] (k_files k !! fn)))) k) as H.
  { unfold kw in H. destruct (write_pid_file _ _ _ k) as [[rc k']|]; [|done]. by exists rc, k'. }
  unfold write_pid_file, k_close. do 2 kstep. kstep; [kstep; left; split; [lia|done]|]. do 5 kstep. do 2 kstep.
  { do 3 kstep. left. split; [lia|]. cbn. by rewrite delete_insert_id. }
  set (str := fmt_lu pid ++ [10]) in *. set (d := default [] (k_files k !! fn)). kstep. match goal with |- kw _ _ ?K => set (k1 := K) end.
  assert (k_files k1 !! fn = Some d) as Hf1 by apply lookup_insert_eq.
  eapply kp_mono; [eapply (pid_loop_w _ fn 0 str d k1); [done|done|exact Hf1|lia]|]. intros rc k2 (n & files & -> & Hrc). cbv beta.
  assert (forall n2 k3 rc, rc < 0 -> k3 = set_k_oi n2 (set_k_oi n (set_k_files files k1)) ->
    kw (_ ← k_modify (fun k => set_k_files (delete fn (k_files k)) k); _ ← k_close (k_next k); mret rc) (fun rc k' =>
      rc < 0 /\ k_fds k' = k_fds k \/ rc = k_next k /\ k_files k' !! fn = Some (str ++ drop (length str) d)) k3) as Hbad.
  { intros n2 k3 rc' Hrc' ->. unfold k_close. do 5 kstep. left. split; [done|]. cbn. by rewrite delete_insert_id. }
  kstep. kstep.
  - kstep. rewrite E1. by apply (Hbad n); [lia|].
  - destruct Hrc as [Hrc|[-> Hfl]]; [lia|]. kstep. kstep; [by eapply Hbad; [lia|]|]. kstep. right. split; [done|]. cbn. rewrite Hfl.
    unfold splice. cbn. done.
Qed.
