(* ===== verification/Dns.v ===== *)
(** * Dns: finding the CLD servers (lib/cldc-dns.c)

    The servers of a domain are the SRV records of [_cld._udp] in it; a host is
    kept if its name can be looked up.  The resolver is a parameter: the answer
    to each try of the query, the records of an answer, the expansion of a name
    in it, and [getaddrinfo].  [mal i] is the outcome of the [i]-th allocation. *)

From Stdlib Require Import String.
From S2P Require Import Prelude Huri Hstor Startup.
#[local] Open Scope Z_scope.

Record cldc_host : Type := mkHost { ch_prio : Z; ch_weight : Z; ch_host : bytes; ch_port : Z }.

(** A resource record; [rr_rdata] is the place of its data in the answer. *)
Record ns_rr : Type := mkRr { rr_class : Z; rr_type : Z; rr_rdlen : Z; rr_rdata : nat }.

(** [dn_expand]: the bytes the name takes in the answer, and the name. *)
Class DnsLib : Type := {
  res_search : nat -> bytes -> Z + bytes;
  ns_initparse : bytes -> option (list (option ns_rr));
  dn_expand : bytes -> nat -> option (Z * bytes) }.

Definition ADDRSIZE : Z := 24.
Definition ns_c_in : Z := 1.
Definition ns_t_srv : Z := 33.
Definition TRY_AGAIN : Z := 2.

(** [sizeof(struct sockaddr_in)], [sizeof(struct sockaddr_in6)]; Unix sockets
    and others are larger. *)
Definition ai_addrlen (fam : Z) : Z := if fam =? AF_INET then 16 else if fam =? AF_INET6 then 28 else 110.

Definition suitable (r : Z * Z) : bool :=
  if negb (r.1 =? AF_INET) && negb (r.1 =? AF_INET6) then false else
  if ADDRSIZE <? ai_addrlen r.1 then false else true.

(** [name]: the buffer the name is in. *)
Definition cldc_saveaddr `{!Resolver} (mal : bool) (priority weight port nlen : Z) (name : bytes) : Z + cldc_host :=
  if negb mal then inl (- ENOMEM) else
  let hostname := cstr (take (Z.to_nat nlen) name) in
  match getaddrinfo (Some hostname) (fmt_lu (u32 port)) with
  | inl rc => inl (- (rc + 1200))
  | inr res0 =>
      if negb (existsb suitable res0) then inl (- 1031)
      else inr (mkHost (u32 priority) (u32 weight) hostname (u16 port))
  end.

(** [strchr] *)
Fixpoint strchr (s : bytes) (c : Z) : option bytes :=
  match s with
  | [] => None
  | x :: s' => if x =? c then Some s else strchr s' c
  end.

(** The contents of [buf] up to its NUL. *)
Definition cldc_make_fqdn (size : Z) (srvname : bytes) (thishost : option bytes) : option bytes :=
  let nlen := Z.of_nat (List.length srvname) in
  if size - 20 <=? nlen then None else
  match thishost with
  | None => None
  | Some thishost =>
      match strchr thishost 46 with
      | None => None
      | Some s =>
          let s := tail s in
          let dlen := Z.of_nat (List.length s) in
          if size <? nlen + 1 + dlen + 1 then None else Some (srvname ++ 46 :: s)
      end
  end.

Definition push_host (mal : bool) (host_list : list cldc_host) (hp : cldc_host) : list cldc_host :=
  if mal then host_list ++ [hp] else host_list.

Section getaddr.
Context {RS : Resolver} {DL : DnsLib}.

(** The loop from [do_try_again], after [try] tries. *)
Fixpoint search (search_retries try : nat) (cldb : bytes) : Z + bytes :=
  match res_search try cldb with
  | inr resp => inr resp
  | inl h_errno =>
      match search_retries with
      | O => inl (- 1)
      | S n => if h_errno =? TRY_AGAIN then search n (S try) cldb else inl (- 1)
      end
  end.

Definition ns_get16 (resp : bytes) (p : nat) : Z := be_val (take 2 (drop p resp)).

(** One record of the answer: the host, if it is kept. *)
Definition rr_host (mal : bool) (resp : bytes) (rr : option ns_rr) : option cldc_host :=
  match rr with
  | None => None
  | Some rrb =>
      if negb (rr_class rrb =? ns_c_in) then None else
      if negb (rr_type rrb =? ns_t_srv) then None else
      if rr_rdlen rrb <? 8 then None else
      let p := rr_rdata rrb in
      match dn_expand resp (p + 6) with
      | None => None
      | Some (rc, hostb) =>
          if rc <? 2 then None else
          match cldc_saveaddr mal (ns_get16 resp p) (ns_get16 resp (p + 2)) (ns_get16 resp (p + 4)) rc (hostb ++ [0]) with
          | inl _ => None
          | inr hp => Some hp
          end
      end
  end.

Fixpoint rr_loop (mal : nat -> bool) (i : nat) (resp : bytes) (rrs : list (option ns_rr)) (host_list : list cldc_host)
  : list cldc_host :=
  match rrs with
  | [] => host_list
  | rr :: rrs =>
      rr_loop mal (S i) resp rrs
        (match rr_host (mal (2 * i)%nat) resp rr with
         | Some hp => push_host (mal (2 * i + 1)%nat) host_list hp
         | None => host_list
         end)
  end.

Definition hostsz : Z := 64.

(** The list to which the hosts are appended is empty at every call. *)
Definition cldc_getaddr (mal : nat -> bool) (thishost : option bytes) : Z + list cldc_host :=
  match cldc_make_fqdn hostsz (str "_cld._udp") thishost with
  | None => inl (- 1)
  | Some cldb =>
      match search 10 0 cldb with
      | inl rc => inl rc
      | inr [] => inl (- 1)
      | inr resp =>
          match ns_initparse resp with
          | None => inl (- 1)
          | Some rrs => inr (rr_loop mal 0 resp rrs [])
          end
      end
  end.

(** ** What is found *)

Lemma fqdn_fits size srv host b : cldc_make_fqdn size srv host = Some b ->
  Z.of_nat (List.length b) + 1 <= size /\ exists h first dom, host = Some h /\ h = first ++ 46 :: dom /\ 46 ∉ first /\ b = srv ++ 46 :: dom.
Proof.
  unfold cldc_make_fqdn. destruct (_ <=? _); [done|]. destruct host as [h|]; [|done]. destruct (strchr h 46) as [s|] eqn:E; [|done].
  destruct (Z.ltb_spec size (Z.of_nat (List.length srv) + 1 + Z.of_nat (List.length (tail s)) + 1)); [done|]. intros [= <-].
  split; [rewrite length_app; cbn [List.length]; lia|]. exists h.
  enough (exists first dom, h = first ++ 46 :: dom /\ 46 ∉ first /\ s = 46 :: dom) as (first & dom & -> & Hf & ->) by by exists first, dom.
  clear -E. revert E. induction h as [|x h IH]; cbn; [done|]. destruct (Z.eqb_spec x 46) as [->|Hx].
  - intros [= <-]. exists [], h. split_and!; [done|by apply not_elem_of_nil|done].
  - intros (first & dom & -> & Hf & ->)%IH. exists (x :: first), dom. split_and!; [done| |done].
    apply not_elem_of_cons. split; [done|done].
Qed.

Lemma search_tries n t cldb resp : search n t cldb = inr resp -> exists j, (t <= j <= t + n)%nat /\ res_search j cldb = inr resp.
Proof.
  revert t. induction n as [|n IH]; intros t; cbn [search]; destruct (res_search t cldb) as [e|r] eqn:E; try done.
  - intros [= ->]. exists t. split; [lia|done].
  - destruct (_ =? _); [|done]. intros (j & Hj & H)%IH. exists j. split; [lia|done].
  - intros [= ->]. exists t. split; [lia|done].
Qed.

(** The hosts kept, with all memory there is. *)
Lemma rr_loop_all mal i resp rrs l : (forall i, mal i = true) -> rr_loop mal i resp rrs l = l ++ omap (rr_host true resp) rrs.
Proof.
  intros Hm. revert i l. induction rrs as [|rr rrs IH]; intros i l; cbn [rr_loop omap list_omap]; [by rewrite app_nil_r|].
  rewrite IH, Hm. destruct (rr_host true resp rr); unfold push_host; rewrite ?Hm; [by rewrite <- app_assoc|done].
Qed.

Lemma cstr_take n (s : bytes) : Forall (fun c => c <> 0) s -> cstr (take n (s ++ [0])) = take n s.
Proof.
  intros Hs. revert n. induction Hs as [|c s Hc _ IH]; intros [|n]; cbn [take app]; [done..|]. 
  cbn [cstr]. rewrite (proj2 (Z.eqb_neq _ _)) by done. by rewrite IH.
Qed.

(** The length [dn_expand] reports is the one of the compressed name, but it is
    used as the length of the expanded one: a name that is compressed by more
    than a byte loses its end. *)
Theorem compressed_name_cut resp p rc hostb prt :
  Forall (fun c => c <> 0) hostb -> dn_expand resp (p + 6) = Some (rc, hostb) -> 2 <= rc ->
  getaddrinfo (Some (take (Z.to_nat rc) hostb)) (fmt_lu (u32 (ns_get16 resp (p + 4)))) = inr [(AF_INET, prt)] ->
  ch_host <$> rr_host true resp (Some (mkRr ns_c_in ns_t_srv 8 p)) = Some (take (Z.to_nat rc) hostb).
Proof.
  intros Hz Hd Hrc Hg. cbn [rr_host rr_class rr_type rr_rdlen rr_rdata Z.eqb negb]. change (ns_c_in =? ns_c_in) with true. change (8 <? 8) with false. cbn match. rewrite Hd, (proj2 (Z.ltb_ge _ _)) by done. unfold cldc_saveaddr. cbn [negb]. rewrite cstr_take by done.
  rewrite Hg. done.
Qed.

(** An address of 28 bytes does not fit [ADDRSIZE], which is meant to hold
    IPv6 addresses: a host with IPv6 addresses only is never kept. *)
Theorem ipv6_host_dropped mal prio weight port nlen name res :
  (forall r, r ∈ res -> r.1 = AF_INET6) ->
  getaddrinfo (Some (cstr (take (Z.to_nat nlen) name))) (fmt_lu (u32 port)) = inr res ->
  exists rc, cldc_saveaddr mal prio weight port nlen name = inl rc.
Proof.
  intros Hr Hg. unfold cldc_saveaddr. destruct mal; [|by eexists]. cbn [negb]. rewrite Hg.
  assert (existsb suitable res = false) as ->; [|by eexists].
  apply not_true_is_false. intros (r & Hin%list_elem_of_In & Hs)%existsb_exists. unfold suitable in Hs. by rewrite (Hr r Hin) in Hs.
Qed.

(** Looking servers up ends, after at most eleven queries, and finds, in the
    order of the answer, exactly the hosts of the SRV records that have an IPv4
    address, with their port, priority and weight; a name is cut as above. *)
Theorem getaddr_finds mal thishost l :
  (forall i, mal i = true) -> cldc_getaddr mal thishost = inr l ->
  exists first dom j resp rrs,
    thishost = Some (first ++ 46 :: dom) /\ 46 ∉ first /\ (j <= 10)%nat /\
    res_search j (str "_cld._udp" ++ 46 :: dom) = inr resp /\ ns_initparse resp = Some rrs /\ l = omap (rr_host true resp) rrs.
Proof.
  intros Hm. unfold cldc_getaddr. destruct (cldc_make_fqdn _ _ _) as [b|] eqn:E; [|done].
  apply fqdn_fits in E as (_ & h & first & dom & -> & -> & Hf & ->).
  destruct (search _ _ _) as [e|resp] eqn:Es; [done|]. apply search_tries in Es as (j & Hj & Hs).
  destruct resp as [|x resp]; [done|]. destruct (ns_initparse _) as [rrs|] eqn:Ei; [|done]. intros [= <-].
  exists first, dom, j, (x :: resp), rrs. split_and!; try done; [lia|]. by rewrite rr_loop_all.
Qed.

End getaddr.
