(* ===== verification/Cldu.v ===== *)
(** * Cldu: the chunk server's entry in CLD (chunkd/cldu.c)

    A chunk server keeps a session with one of several CLD servers, in which it
    holds a file open and locked that describes it.  When the session is lost
    the helper thread of the library leaves a byte in a pipe, and the main
    thread opens another session, with the next server.

    The blocking calls of the library ([Ncld]) are an interface here, over a
    world [W]; [NcldOk] is what the chunk server relies on, in terms of the
    abstract service of [Abs].  A session is named by its id, a handle by its
    number in the session.  The session event of the library may come during
    any call: [api_failures] counts the events so far, and the callback runs for
    the new ones when the call returns.  [None]: an access outside an object,
    or waiting longer than the fuel. *)

From Stdlib Require Import String.
From S2P Require Import Prelude Dirent Wire Bdb Srv Msg Abs Huri Hstor Startup Dns Cldc.
#[local] Open Scope Z_scope.

Class NcldApi (W : Type) : Type := {
  api_sess_open : bytes -> Z -> W -> (Z + Z) * W;
  api_sess_close : Z -> W -> W;
  api_open : Z -> bytes -> Z -> W -> (Z + Z) * W;
  api_close : Z -> Z -> W -> W;
  api_trylock : Z -> Z -> W -> Z * W;
  api_write : Z -> Z -> bytes -> W -> Z * W;
  api_sleep : Z -> W -> W;
  api_failures : W -> nat }.

(** ** Data *)

Definition N_CLD : nat := 10.

Record cld_host : Type := mkCldHost { known : bool; h : cldc_host }.

Record geo : Type := mkGeo { geo_area : option bytes; geo_zone : option bytes; geo_rack : option bytes }.

Record cld_session : Type := mkCs {
  cu_forced_hosts : bool;
  cu_is_dead : bool;
  cu_nsess : option Z;
  cu_actx : nat;
  cu_cldv : list cld_host;
  cu_pipe : nat;                       (* bytes in [event_pipe] *)
  cu_timer : bool;                     (* is [ev_timer] pending? *)
  cu_have_timer : bool;
  cu_ffname : option bytes;
  cu_ffh : option Z;
  cu_nid : Z;
  cu_ourhost : bytes;
  cu_ploc : geo }.

Definition set_cu_forced_hosts x c := mkCs x (cu_is_dead c) (cu_nsess c) (cu_actx c) (cu_cldv c) (cu_pipe c) (cu_timer c) (cu_have_timer c) (cu_ffname c) (cu_ffh c) (cu_nid c) (cu_ourhost c) (cu_ploc c).
Definition set_cu_is_dead x c := mkCs (cu_forced_hosts c) x (cu_nsess c) (cu_actx c) (cu_cldv c) (cu_pipe c) (cu_timer c) (cu_have_timer c) (cu_ffname c) (cu_ffh c) (cu_nid c) (cu_ourhost c) (cu_ploc c).
Definition set_cu_nsess x c := mkCs (cu_forced_hosts c) (cu_is_dead c) x (cu_actx c) (cu_cldv c) (cu_pipe c) (cu_timer c) (cu_have_timer c) (cu_ffname c) (cu_ffh c) (cu_nid c) (cu_ourhost c) (cu_ploc c).
Definition set_cu_actx x c := mkCs (cu_forced_hosts c) (cu_is_dead c) (cu_nsess c) x (cu_cldv c) (cu_pipe c) (cu_timer c) (cu_have_timer c) (cu_ffname c) (cu_ffh c) (cu_nid c) (cu_ourhost c) (cu_ploc c).
Definition set_cu_cldv x c := mkCs (cu_forced_hosts c) (cu_is_dead c) (cu_nsess c) (cu_actx c) x (cu_pipe c) (cu_timer c) (cu_have_timer c) (cu_ffname c) (cu_ffh c) (cu_nid c) (cu_ourhost c) (cu_ploc c).
Definition set_cu_pipe x c := mkCs (cu_forced_hosts c) (cu_is_dead c) (cu_nsess c) (cu_actx c) (cu_cldv c) x (cu_timer c) (cu_have_timer c) (cu_ffname c) (cu_ffh c) (cu_nid c) (cu_ourhost c) (cu_ploc c).
Definition set_cu_timer x c := mkCs (cu_forced_hosts c) (cu_is_dead c) (cu_nsess c) (cu_actx c) (cu_cldv c) (cu_pipe c) x (cu_have_timer c) (cu_ffname c) (cu_ffh c) (cu_nid c) (cu_ourhost c) (cu_ploc c).
Definition set_cu_have_timer x c := mkCs (cu_forced_hosts c) (cu_is_dead c) (cu_nsess c) (cu_actx c) (cu_cldv c) (cu_pipe c) (cu_timer c) x (cu_ffname c) (cu_ffh c) (cu_nid c) (cu_ourhost c) (cu_ploc c).
Definition set_cu_ffname x c := mkCs (cu_forced_hosts c) (cu_is_dead c) (cu_nsess c) (cu_actx c) (cu_cldv c) (cu_pipe c) (cu_timer c) (cu_have_timer c) x (cu_ffh c) (cu_nid c) (cu_ourhost c) (cu_ploc c).
Definition set_cu_ffh x c := mkCs (cu_forced_hosts c) (cu_is_dead c) (cu_nsess c) (cu_actx c) (cu_cldv c) (cu_pipe c) (cu_timer c) (cu_have_timer c) (cu_ffname c) x (cu_nid c) (cu_ourhost c) (cu_ploc c).

(** [static struct cld_session ses] *)
Definition no_host : cld_host := mkCldHost false (mkHost 0 0 [] 0).
Definition ses : cld_session :=
  mkCs false false None 0 (replicate N_CLD no_host) 0 false false None None 0 [] (mkGeo None None None).

(** ** Hosts *)

(** [m] places still to look at, from [n]. *)
Fixpoint nextactive_loop (m n : nat) (cldv : list cld_host) (actx : nat) : nat :=
  match m with
  | O => actx
  | S m =>
      if from_option known false (cldv !! n) then n else
      let n := S n in
      nextactive_loop m (if (N_CLD <=? n)%nat then 0%nat else n) cldv actx
  end.

Definition cldu_nextactive (cs : cld_session) : nat :=
  let n := S (cu_actx cs) in
  nextactive_loop N_CLD (if (N_CLD <=? n)%nat then 0%nat else n) (cu_cldv cs) (cu_actx cs).

Definition cldu_saveargs (infopath : bytes) (thisnid : Z) (thishost : bytes) (loc : geo) (sp : cld_session) : cld_session :=
  mkCs (cu_forced_hosts sp) (cu_is_dead sp) (cu_nsess sp) (cu_actx sp) (cu_cldv sp) (cu_pipe sp) (cu_timer sp) (cu_have_timer sp)
    (Some infopath) (cu_ffh sp) (u32 thisnid) thishost loc.

(** The first place that is free. *)
Fixpoint free_slot (cldv : list cld_host) : option nat :=
  match cldv with
  | [] => None
  | hp :: cldv => if negb (known hp) then Some 0%nat else S <$> free_slot cldv
  end.

Definition cldu_add_host `{!Resolver} (mal : bool) (hostname : bytes) (port : Z) (cs : cld_session) : cld_session :=
  match free_slot (cu_cldv cs) with
  | None => cs
  | Some i =>
      match cldc_saveaddr mal 100 100 port (Z.of_nat (List.length hostname)) hostname with
      | inl _ => cs
      | inr hp => set_cu_forced_hosts true (set_cu_cldv (<[i := mkCldHost true hp]> (cu_cldv cs)) cs)
      end
  end.

(** ** The session event, on the helper thread *)

(** What a pipe holds on Linux. *)
Definition PIPE_BUF_SZ : Z := 65536.

Definition cldu_sess_event (cs : cld_session) : cld_session :=
  let cs := set_cu_is_dead true cs in
  if Z.of_nat (cu_pipe cs) <? PIPE_BUF_SZ then set_cu_pipe (S (cu_pipe cs)) cs else cs.

(** ** The file *)

(** [asprintf]: the [i]-th allocation gets memory. *)
Definition socket_text (ourhost : bytes) (cfg : listen_cfg) : bytes :=
  let host := match lc_node cfg with None | Some [] => ourhost | Some n => n end in
  str " <Socket>" ++ [13; 10] ++ str "  <Host>" ++ host ++ str "</Host>" ++ [13; 10] ++
  str "  <Port>" ++ default (str "(null)") (lc_port cfg) ++ str "</Port>" ++ [13; 10] ++ str " </Socket>" ++ [13; 10].

Fixpoint socket_texts (mal : nat -> bool) (i : nat) (ourhost : bytes) (cfgs : list listen_cfg) (socks : list server_socket)
  : option (list bytes) :=
  match socks with
  | [] => Some []
  | sock :: socks =>
      cfg ← cfgs !! ss_cfg sock;
      if negb (mal i) then None else
      l ← socket_texts mal (S i) ourhost cfgs socks;
      Some (socket_text ourhost cfg :: l)
  end.

Definition geo_text (loc : geo) : bytes :=
  str " <Geo>" ++ [13; 10] ++ str "  <Area>" ++ default (str "-") (geo_area loc) ++ str "</Area>" ++ [13; 10] ++
  str "  <Building>" ++ default (str "-") (geo_zone loc) ++ str "</Building>" ++ [13; 10] ++
  str "  <Rack>" ++ default (str "-") (geo_rack loc) ++ str "</Rack>" ++ [13; 10] ++ str " </Geo>" ++ [13; 10] ++
  str "</Chunk>" ++ [13; 10].

Definition nid_text (nid : Z) : bytes :=
  str "<Chunk>" ++ [13; 10] ++ str " <NID>" ++ fmt_lu nid ++ str "</NID>" ++ [13; 10].

(** [None]: -1, no memory.  The list of strings is put together. *)
Definition cldu_make_ffile (mal : nat -> bool) (k : kernel) (cs : cld_session) : option bytes :=
  if negb (mal 0%nat) then None else
  l ← socket_texts mal 1 (cu_ourhost cs) (k_cfgs k) (k_socks k);
  let n := List.length (k_socks k) in
  if negb (mal (S n)) then None else
  if negb (mal (S (S n))) then None else
  Some (concat (nid_text (cu_nid cs) :: l ++ [geo_text (cu_ploc cs)])).

(** *** What the file says *)

(** Elements with text, and elements with elements. *)
Inductive elt : Type := Leaf (name : string) (text : bytes) | Node (name : string) (children : list elt).

(** Every level is indented by one more blank; lines end with CR and LF. *)
Fixpoint print_elt (depth : nat) (e : elt) : bytes :=
  let line (b : bytes) := replicate depth 32 ++ b ++ [13; 10] in
  match e with
  | Leaf name text => line (str "<" ++ str name ++ str ">" ++ text ++ str "</" ++ str name ++ str ">")
  | Node name children =>
      line (str "<" ++ str name ++ str ">") ++ concat (print_elt (S depth) <$> children) ++ line (str "</" ++ str name ++ str ">")
  end.

(** The host and port announced of a socket: those it is configured with, and
    the server's own name if no host, or an empty one, is. *)
Definition announces (ourhost : bytes) (k : kernel) (sock : server_socket) (hp : bytes * bytes) : Prop :=
  exists cfg, k_cfgs k !! ss_cfg sock = Some cfg /\
    ((lc_node cfg = None \/ lc_node cfg = Some []) /\ hp.1 = ourhost \/ lc_node cfg = Some hp.1 /\ hp.1 <> []) /\
    (lc_port cfg = Some hp.2 \/ lc_port cfg = None /\ hp.2 = str "(null)").

(** The server's number, its sockets in order, and where it stands. *)
Definition describes (k : kernel) (cs : cld_session) (buf : bytes) : Prop :=
  exists hps, Forall2 (announces (cu_ourhost cs) k) (k_socks k) hps /\
    buf = print_elt 0 (Node "Chunk" (Leaf "NID" (fmt_lu (cu_nid cs)) ::
      ((fun hp => Node "Socket" [Leaf "Host" hp.1; Leaf "Port" hp.2]) <$> hps) ++
      [Node "Geo" [Leaf "Area" (default (str "-") (geo_area (cu_ploc cs)));
                   Leaf "Building" (default (str "-") (geo_zone (cu_ploc cs)));
                   Leaf "Rack" (default (str "-") (geo_rack (cu_ploc cs)))]])).

Lemma socket_text_elt ourhost cfg : exists hp,
  ((lc_node cfg = None \/ lc_node cfg = Some []) /\ hp.1 = ourhost \/ lc_node cfg = Some hp.1 /\ hp.1 <> []) /\
  (lc_port cfg = Some hp.2 \/ lc_port cfg = None /\ hp.2 = str "(null)") /\
  socket_text ourhost cfg = print_elt 1 (Node "Socket" [Leaf "Host" hp.1; Leaf "Port" hp.2]).
Proof.
  exists (match lc_node cfg with None | Some [] => ourhost | Some n => n end, default (str "(null)") (lc_port cfg)). cbn [fst snd].
  split; [destruct (lc_node cfg) as [[|c n]|]; auto; by right|]. split; [destruct (lc_port cfg); auto|].
  unfold socket_text. set (x := match lc_node cfg with None | Some [] => ourhost | Some n => n end).
  set (y := default (str "(null)") (lc_port cfg)). cbn [print_elt concat fmap list_fmap]. rewrite app_nil_r, <- !app_assoc. reflexivity.
Qed.

Lemma socket_texts_elts mal i ourhost k socks l : socket_texts mal i ourhost (k_cfgs k) socks = Some l ->
  exists hps, Forall2 (announces ourhost k) socks hps /\
    l = ((fun hp => print_elt 1 (Node "Socket" [Leaf "Host" hp.1; Leaf "Port" hp.2])) <$> hps).
Proof.
  revert i l. induction socks as [|sock socks IH]; intros i l; cbn [socket_texts]; [intros [= <-]; by exists []|].
  destruct (k_cfgs k !! ss_cfg sock) as [cfg|] eqn:E; [|done]. cbn. destruct (mal i); [|done]. cbn.
  destruct (socket_texts mal (S i) ourhost (k_cfgs k) socks) as [l1|] eqn:E1; [|done]. intros [= <-].
  destruct (IH _ _ E1) as (hps & F & ->). destruct (socket_text_elt ourhost cfg) as (hp & H1 & H2 & ->).
  exists (hp :: hps). split; [|done]. constructor; [|done]. by exists cfg.
Qed.

Lemma nid_text_elt nid : nid_text nid = (str "<Chunk>" ++ [13; 10]) ++ print_elt 1 (Leaf "NID" (fmt_lu nid)).
Proof. unfold nid_text. cbn [print_elt]. set (x := fmt_lu nid). rewrite <- !app_assoc. reflexivity. Qed.

Lemma geo_text_elt loc : geo_text loc =
  print_elt 1 (Node "Geo" [Leaf "Area" (default (str "-") (geo_area loc)); Leaf "Building" (default (str "-") (geo_zone loc));
    Leaf "Rack" (default (str "-") (geo_rack loc))]) ++ str "</Chunk>" ++ [13; 10].
Proof.
  unfold geo_text. cbn [print_elt concat fmap list_fmap]. set (x := default _ (geo_area loc)). set (y := default _ (geo_zone loc)).
  set (z := default _ (geo_rack loc)). rewrite app_nil_r, <- !app_assoc. reflexivity.
Qed.

Lemma make_ffile_describes mal k cs buf : cldu_make_ffile mal k cs = Some buf -> describes k cs buf.
Proof.
  unfold cldu_make_ffile. destruct (mal 0%nat); [|done]. cbn [negb].
  destruct (socket_texts _ _ _ _ _) as [l|] eqn:E; [|done]. cbn [mbind option_bind]. destruct (mal _); [|done]. destruct (mal _); [|done]. cbn [negb].
  intros Eb. apply (inj Some) in Eb as <-. destruct (socket_texts_elts _ _ _ _ _ _ E) as (hps & F & ->). exists hps. split; [done|].
  change (print_elt 0 (Node "Chunk" ?c)) with ((str "<Chunk>" ++ [13; 10]) ++ concat (print_elt 1 <$> c) ++ str "</Chunk>" ++ [13; 10]).
  rewrite fmap_cons, fmap_app, <- list_fmap_compose. cbn [concat]. rewrite !concat_app, nid_text_elt, geo_text_elt.
  cbn [concat fmap list_fmap]. rewrite !app_nil_r, <- !app_assoc. done.
Qed.

(** ** The session *)

Section session.
Context {W : Type} {NA : NcldApi W}.

Record cldu : Type := mkCldu { u_cs : cld_session; u_w : W }.

Definition U (A : Type) : Type := cldu -> option (A * cldu).
#[export] Instance U_ret : MRet U := fun A a s => Some (a, s).
#[export] Instance U_bind : MBind U := fun A B f m s => match m s with Some (a, s') => f a s' | None => None end.
Definition u_get : U cld_session := fun s => Some (u_cs s, s).
Definition u_modify (f : cld_session -> cld_session) : U unit := fun s => Some (tt, mkCldu (f (u_cs s)) (u_w s)).
Definition u_ub {A} : U A := fun _ => None.

(** A call of the library, and the session events that came meanwhile. *)
Definition u_call {A} (f : W -> A * W) : U A := fun s =>
  let '(a, w) := f (u_w s) in
  Some (a, mkCldu (Nat.iter (api_failures w - api_failures (u_w s)) cldu_sess_event (u_cs s)) w).
Definition u_do (f : W -> W) : U unit := u_call (fun w => (tt, f w)).

(** The place of the next slash from [pos] on. *)
Definition next_slash (pos : nat) (path : bytes) : option nat :=
  (fun r => (List.length path - List.length r)%nat) <$> strchr (drop pos path) 47.

(** The loop of [cldu_make_path], [compdir] being the text from [pos] on. *)
Fixpoint make_path_loop (fuel : nat) (mal : nat -> bool) (sid : Z) (path : bytes) (pos : nat) : U Z :=
  match fuel with
  | O => u_ub
  | S fuel =>
      if (List.length path =? pos)%nat then mret (- 1) else
      match next_slash pos path with
      | None => mret 0
      | Some compend =>
          if negb (mal fuel) then mret (- 1) else
          dh ← u_call (api_open sid (take compend path) (Z.lor (Z.lor (Z.lor COM_READ COM_WRITE) COM_CREATE) COM_DIRECTORY));
          match dh with
          | inl _ => mret (- 1)
          | inr fh =>
              _ ← u_do (api_close sid fh);
              make_path_loop fuel mal sid path (S compend)
          end
      end
  end.

(** [sizeof('/')] is the size of an [int]. *)
Definition cldu_make_path (mal : nat -> bool) (sid : Z) (path : bytes) : U Z :=
  if negb (at_ path =? 47) then mret (- 1) else
  if (List.length path <? 4)%nat then u_ub else
  make_path_loop (S (List.length path)) mal sid path 4.

(** [for (;;) ncld_trylock] *)
Fixpoint trylock_loop (fuel : nat) (sid fh : Z) : U Z :=
  match fuel with
  | O => u_ub
  | S fuel =>
      rc ← u_call (api_trylock sid fh);
      if rc =? 0 then mret 0 else
      if negb (rc =? cle_code CLE_LOCK_CONFLICT + 1100) then mret rc else
      _ ← u_do (api_sleep 10);
      trylock_loop fuel sid fh
  end.

(** [err_fopen] and [err_lock] *)
Definition err_fopen (sid : Z) : U Z :=
  _ ← u_do (api_sess_close sid); _ ← u_modify (set_cu_nsess None); mret (- 1).
Definition err_lock (sid fh : Z) : U Z := _ ← u_do (api_close sid fh); err_fopen sid.

(** [mal]: the allocations in [cldu_make_path] and [cldu_make_ffile]; [k]: the
    sockets of the server. *)
Definition cldu_set_cldc (fuel : nat) (mal : nat -> bool) (k : kernel) (newactive : nat) : U Z :=
  cs ← u_get;
  _ ← (match cu_nsess cs with
       | Some sid => _ ← u_do (api_sess_close sid); u_modify (set_cu_nsess None)
       | None => mret tt
       end);
  _ ← u_modify (set_cu_actx newactive);
  match cu_cldv cs !! newactive with
  | None => u_ub
  | Some host =>
      if negb (known host) then mret (- 1) else
      r ← u_call (api_sess_open (ch_host (h host)) (ch_port (h host)));
      match r with
      | inl _ => mret (- 1)
      | inr sid =>
          _ ← u_modify (set_cu_nsess (Some sid));
          match cu_ffname cs with
          | None => u_ub
          | Some ffname =>
              rc ← cldu_make_path mal sid ffname;
              if negb (rc =? 0) then err_fopen sid else
              r ← u_call (api_open sid ffname (Z.lor (Z.lor COM_WRITE COM_LOCK) COM_CREATE));
              match r with
              | inl _ => _ ← u_modify (set_cu_ffh None); err_fopen sid
              | inr fh =>
                  _ ← u_modify (set_cu_ffh (Some fh));
                  rc ← trylock_loop fuel sid fh;
                  if negb (rc =? 0) then err_lock sid fh else
                  cs ← u_get;
                  match cldu_make_ffile mal k cs with
                  | None => err_lock sid fh
                  | Some buf =>
                      rc ← u_call (api_write sid fh buf);
                      if negb (rc =? 0) then err_lock sid fh else mret 0
                  end
              end
          end
      end
  end.

(** ** Events of the main thread *)

Definition cldu_sess_proc (fuel : nat) (mal : nat -> bool) (k : kernel) : U unit :=
  cs ← u_get;
  if cu_is_dead cs then
    _ ← (match cu_nsess cs with
         | Some sid => _ ← u_do (api_sess_close sid); u_modify (set_cu_nsess None)
         | None => mret tt
         end);
    _ ← u_modify (set_cu_ffh None);
    cs ← u_get;
    rc ← cldu_set_cldc fuel mal k (cldu_nextactive cs);
    if negb (rc =? 0) then u_modify (fun cs => set_cu_have_timer true (set_cu_timer true cs))
    else u_modify (set_cu_is_dead false)
  else mret tt.

(** The timer has fired; it is no longer pending. *)
Definition cldu_timer_event (fuel : nat) (mal : nat -> bool) (k : kernel) : U unit :=
  _ ← u_modify (set_cu_timer false); cldu_sess_proc fuel mal k.

(** A read of the pipe may fail or find nothing. *)
Definition cldu_pipe_event (fuel : nat) (mal : nat -> bool) (k : kernel) (rc : Z) : U unit :=
  cs ← u_get;
  if (rc <=? 0) || (cu_pipe cs =? 0)%nat then mret tt else
  _ ← u_modify (set_cu_pipe (cu_pipe cs - 1)); cldu_sess_proc fuel mal k.

(** ** Begin and end *)

Section begin.
Context {RS : Resolver} {DL : DnsLib}.

(** The hosts that were found go into the array; those that do not fit are
    dropped. *)
Definition copy_hosts (host_list : list cldc_host) (cldv : list cld_host) : list cld_host :=
  let l := mkCldHost true <$> take N_CLD host_list in l ++ drop (List.length l) cldv.

(** [n] attempts left. *)
Fixpoint begin_loop (fuel : nat) (mal : nat -> nat -> bool) (k : kernel) (n newactive : nat) : U Z :=
  rc ← cldu_set_cldc fuel (mal n) k newactive;
  if rc =? 0 then mret 0 else
  match n with
  | O => mret (- 1)
  | S n => cs ← u_get; begin_loop fuel mal k n (cldu_nextactive cs)
  end.

(** [dns]: the allocations of the lookup; [pipe_ok], [event_ok]: [pipe] and
    [event_add]. *)
Definition cld_begin (fuel : nat) (mal : nat -> nat -> bool) (dns : nat -> bool) (pipe_ok event_ok : bool) (k : kernel)
    (thishost : bytes) (nid : Z) (infopath : bytes) (locp : geo) : U Z :=
  if nid =? 0 then mret 0 else
  _ ← u_modify (cldu_saveargs infopath nid thishost locp);
  cs ← u_get;
  ok ← (if cu_forced_hosts cs then mret true else
        match cldc_getaddr dns (Some thishost) with
        | inl _ => mret false
        | inr host_list => _ ← u_modify (fun cs => set_cu_cldv (copy_hosts host_list (cu_cldv cs)) cs); mret true
        end);
  if negb ok then mret (- 1) else
  if negb pipe_ok then mret (- 1) else
  _ ← u_modify (set_cu_pipe 0);
  if negb event_ok then mret (- 1) else
  begin_loop fuel mal k 4 0.

Definition cld_end : U unit :=
  cs ← u_get;
  if cu_nid cs =? 0 then mret tt else
  _ ← (if cu_have_timer cs then u_modify (fun cs => set_cu_have_timer false (set_cu_timer false cs)) else mret tt);
  _ ← (match cu_nsess cs with
       | Some sid => _ ← u_do (api_sess_close sid); u_modify (set_cu_nsess None)
       | None => mret tt
       end);
  _ ← (if cu_forced_hosts cs then mret tt
       else u_modify (fun cs => set_cu_cldv ((fun hp => mkCldHost false (h hp)) <$> cu_cldv cs) cs));
  u_modify (fun cs => set_cu_ffname None (set_cu_pipe 0 cs)).

End begin.
End session.
Arguments cldu : clear implicits.
