(* ===== verification/CldApi.v ===== *)
(** * CldApi: what the chunk server relies on of CLD

    [NcldOk]: a blocking call that succeeds has made its transition of the
    abstract service; before and after it other clients have made theirs, and
    the server may have removed the session after it, but not if a later call
    of the session gets an answer.  A handle keeps its file and a lock stays
    whatever other clients do. *)

From S2P Require Import Prelude Htab Dirent Wire Bdb Srv Msg Abs Inv Corner Cldc Cldu.
#[local] Open Scope Z_scope.

(** The session a transition belongs to. *)
Definition label_sid (a : alabel) : option Z :=
  match a with
  | AOpen s _ _ | APut s _ | AClose s _ | AUnlock s _ | ALock s _ _ _ _ | ANewSess s | ARemove s => Some s
  | ADel _ => None
  end.

(** Transitions of others; anybody may delete a file. *)
Definition foreign (sid : Z) (a : alabel) : Prop :=
  match label_sid a with Some s => s <> sid /\ 0 <= s < 2 ^ 64 | None => True end.

(** Times of the server's clock fit 32 bits. *)
Definition estep (P : alabel -> Prop) (v v' : dbview) : Prop := exists now a, 0 <= now < 2 ^ 32 /\ P a /\ astep now a v v'.
Definition evolves (P : alabel -> Prop) : dbview -> dbview -> Prop := rtc (estep P).

(** Every inode is filed under its number. *)
Definition keyed (v : dbview) : Prop := forall i ino, v_inodes v !! i = Some ino -> ri_inum ino = i.

Class NcldOk (W : Type) {NA : NcldApi W} : Type := {
  api_view : W -> dbview;
  api_alive : Z -> W -> Prop;
  (* the view is what [v] has become since *)
  api_since (sid : Z) (v : dbview) (w : W) : Prop :=
    evolves (fun a => foreign sid a \/ a = ARemove sid) v (api_view w) /\ (api_alive sid w -> evolves (foreign sid) v (api_view w));
  (* an answered call *)
  api_did (sid : Z) (a : alabel) (w w' : W) : Prop :=
    api_alive sid w /\ exists now v1 v2,
      0 <= now < 2 ^ 32 /\ evolves (foreign sid) (api_view w) v1 /\ astep now a v1 v2 /\ api_since sid v2 w';
  api_keyed w : keyed (api_view w);
  api_open_ok sid path mode w fh w' : api_open sid path mode w = (inr fh, w') -> api_did sid (AOpen sid (mkOpen mode 0 path) fh) w w';
  api_trylock_ok sid fh w w' : api_trylock sid fh w = (0, w') -> api_did sid (ALock sid fh false false true) w w';
  api_trylock_conflict sid fh w w' : api_trylock sid fh w = (cle_code CLE_LOCK_CONFLICT + 1100, w') ->
    api_alive sid w /\ api_since sid (api_view w) w';
  api_write_ok sid fh d w w' : api_write sid fh d w = (0, w') -> api_did sid (APut sid (mkPut fh d)) w w';
  api_sleep_ok sid n w : (api_alive sid (api_sleep n w) -> api_alive sid w) /\ api_since sid (api_view w) (api_sleep n w) }.

(** ** What others cannot change *)

Lemma name_write now ino (d : bytes) : inode_name_key (touched now (set_ri_size (Z.of_nat (length d)) ino)) = inode_name_key ino.
Proof. done. Qed.

Lemma keyed_put_inode v ino : keyed v -> keyed (put_inode ino v).
Proof. intros Hk i x. cbn. rewrite lookup_insert. case_decide; [by intros [= <-]|apply Hk]. Qed.

Lemma keyed_step now a v v' : keyed v -> astep now a v v' -> keyed v'.
Proof.
  intros Hk Hst. destruct Hst as [| | | sid fh v v' h _ (_ & Hi & _) _ | | | sid fh want wait v v' h pending _ _ _ _ (l1 & old & l2 & _ & _ & ->) | | sid v v' Hi _ _ _ _ _]; try done.
  - repeat apply keyed_put_inode. done.
  - by apply (keyed_put_inode v).
  - intros i x. rewrite Hi. apply Hk.
  - apply keyed_put_inode. intros k x. cbn. intros [_ Hx]%lookup_delete_Some. by apply Hk.
  - intros i x. rewrite Hi. apply Hk.
Qed.

(** The inode of [h] has the name it had. *)
Definition same_name (i : Z) (v v' : dbview) : Prop :=
  forall ino, v_inodes v !! i = Some ino -> exists ino', v_inodes v' !! i = Some ino' /\ inode_name_key ino' = inode_name_key ino.

Lemma same_name_write now i parent d v j : v_inodes v !! j = Some parent -> ri_inum parent = j -> same_name i v (write_inode now parent d v).
Proof.
  intros Hp Hj ino Hi. unfold write_inode. cbn. rewrite lookup_insert. case_decide as E; [|eauto].
  eexists. split; [done|]. rewrite name_write. congruence.
Qed.

Lemma handle_kept sid fh hd v v' : keyed v -> estep (foreign sid) v v' -> v_handles v' !! (sid, fh) = Some hd ->
  v_handles v !! (sid, fh) = Some hd /\ same_name (rh_inum hd) v v'.
Proof.
  intros Hk (now & a & _ & Hf & Hst) Hh.
  destruct Hst as
    [s o fh' v i ino raw _ _ _ _ _ _ _ | s o fh' v i parent n raw _ _ _ _ _ [Hp _] Hn _ _ _ _ |
     s put v h' ino _ _ _ Hi Hn | s fh' v v' h' _ (_ & Hi & _ & Hhs) _ |
     name v i parent j ino pd pd' _ _ [Hp _] _ [Hj _] _ _ | s fh' v h' l1 lock l2 _ _ E _ _ _ |
     s fh' want wait v v' h' pending _ _ _ _ (l1 & old & l2 & _ & _ & ->) | s v raw _ _ _ |
     s v v' Hi _ Hsub _ _ _]; cbn in Hf.
  - cbn in Hh. rewrite lookup_insert_ne in Hh by (intros [= E _]; tauto). split; [done|]. intros x Hx. by exists x.
  - cbn in Hh. rewrite lookup_insert_ne in Hh by (intros [= E _]; tauto). split; [done|].
    intros x Hx. cbn. rewrite lookup_insert_ne by congruence. by apply (same_name_write now (rh_inum hd) parent _ v i Hp (Hk _ _ Hp)).
  - split; [done|]. by apply (same_name_write _ _ _ _ _ (rh_inum h')).
  - rewrite Hhs in Hh. cbn in Hh. rewrite lookup_delete_ne in Hh by (intros [= E _]; tauto). split; [done|]. intros x Hx. rewrite Hi. by exists x.
  - cbn in Hh. apply map_lookup_filter_Some in Hh as [Hh Hne]. split; [done|]. cbn in Hne. intros x Hx.
    rewrite (Hk _ _ Hj) in *. assert (v_inodes (upd_handles (filter (fun kh => handle_idx_key kh.2 <> j)) (upd_data (delete j) (upd_inodes (delete j) v))) !! rh_inum hd = Some x) as Hx'.
    { cbn. rewrite lookup_delete_ne; [done|]. unfold handle_idx_key in Hne. congruence. }
    unfold write_inode. cbn. rewrite lookup_insert. case_decide as E; [|cbn in Hx'; eauto]. eexists. split; [done|]. rewrite name_write.
    rewrite (Hk _ _ Hp) in E. congruence.
  - split; [done|]. intros x Hx. by exists x.
  - split; [done|]. intros x Hx. by exists x.
  - split; [done|]. intros x Hx. by exists x.
  - split; [by apply Hsub|]. intros x Hx. rewrite Hi. by exists x.
Qed.

Lemma s32_zero v : - 2 ^ 32 < v < 2 ^ 32 -> s32 v = 0 -> v = 0.
Proof.
  unfold s32, sw. change (2 ^ (32 - 1)) with 2147483648. change (2 ^ 32) with 4294967296. intros Hv E.
  pose proof (Z.div_mod (v + 2147483648) 4294967296 ltac:(lia)).
  assert (-1 <= (v + 2147483648) / 4294967296 <= 1) as Hq.
  { split; [apply Z.div_le_lower_bound|apply Z.lt_succ_r, Z.div_lt_upper_bound]; lia. }
  assert ((v + 2147483648) / 4294967296 = -1 \/ (v + 2147483648) / 4294967296 = 0 \/ (v + 2147483648) / 4294967296 = 1) as [Hd|[Hd|Hd]] by lia;
    rewrite Hd in *; lia.
Qed.

(** Locks of one inode that compare equal are of one session. *)
Lemma compare_same_sid a b : rl_inum a = rl_inum b -> 0 <= rl_ctime a < 2 ^ 32 -> 0 <= rl_ctime b < 2 ^ 32 ->
  0 <= rl_sid a < 2 ^ 64 -> 0 <= rl_sid b < 2 ^ 64 -> lock_compare a b = 0 -> rl_sid a = rl_sid b.
Proof.
  intros Hi Ha Hb Sa Sb. unfold lock_compare. rewrite Hi, Z.sub_diag. change (s64 0) with 0. cbn [Z.eqb negb].
  assert (s64 (rl_ctime a - rl_ctime b) = rl_ctime a - rl_ctime b) as -> by (apply sw_small; lia).
  destruct (Z.eqb_spec (rl_ctime a - rl_ctime b) 0) as [E|E]; cbn [negb].
  - destruct (Z.eqb_spec (memcmp (sid_bytes (rl_sid a)) (sid_bytes (rl_sid b))) 0) as [E2|E2]; cbn [negb].
    + intros _. apply sid_bytes_inj; [done|done|]. apply memcmp_0; [by rewrite !length_sid_bytes|done].
    + intros H%s32_zero; [done|]. pose proof (sid_memcmp_bound (rl_sid a) (rl_sid b)). lia.
  - intros H%s32_zero; [done|lia].
Qed.

Lemma lock_kept sid i l v v' : estep (foreign sid) v v' -> l ∈ locks_of v i -> rl_sid l = sid -> rl_inum l = i ->
  0 <= rl_ctime l < 2 ^ 32 -> 0 <= sid < 2 ^ 64 -> l ∈ locks_of v' i.
Proof.
  intros (now & a & Hnow & Hf & Hst) Hl Hs Hi Hc Hsid.
  destruct Hst as
    [s o fh' v i' ino raw _ _ _ _ _ _ _ | s o fh' v i' parent n raw _ _ _ _ _ _ _ _ _ _ _ |
     s put v h' ino _ _ _ _ _ | s fh' v v' h' _ _ Hlocks |
     name v i' parent j ino pd pd' _ _ _ _ _ _ _ | s fh' v h' l1 lock l2 _ _ E _ El _ |
     s fh' want wait v v' h' pending _ _ _ _ (l1 & old & l2 & E & Hold & ->) | s v raw _ _ _ |
     s v v' _ _ _ _ Hlocks _]; cbn in Hf; try done.
  - rewrite Hlocks. case_decide; [|done]. apply list_elem_of_filter. split; [|done]. unfold lmatch.
    rewrite (proj2 (Z.eqb_neq _ _)) by naive_solver. done.
  - rewrite locks_of_insert. case_decide as Ei; [|done]. rewrite Ei in E. rewrite E in Hl.
    apply elem_of_app in Hl as [Hl|[Hl|Hl]%elem_of_cons]; [set_solver|naive_solver|set_solver].
  - rewrite locks_of_insert. case_decide as Ei; [|done]. rewrite Ei in E. rewrite E in Hl.
    apply elem_of_app in Hl as [Hl|[Hl|Hl]%elem_of_app]; [set_solver| |set_solver]. exfalso.
    destruct Hold as [->|(e & -> & He)]; [by apply not_elem_of_nil in Hl|]. apply list_elem_of_singleton in Hl. subst e.
    apply (proj1 Hf). transitivity (rl_sid l); [|done]. symmetry.
    apply (compare_same_sid l (new_lock now s fh' (rh_inum h') want pending)); cbn [rl_inum rl_ctime rl_sid new_lock] in *; [congruence|done| |congruence|tauto|done].
    unfold u64. rewrite uw_small; lia.
  - destruct (Hlocks i) as [E|E]; rewrite E; [done|]. apply list_elem_of_filter. split; [|done]. naive_solver.
Qed.

Lemma keyed_evolves P v v' : evolves P v v' -> keyed v -> keyed v'.
Proof. induction 1 as [|v v1 v' (now & a & _ & _ & Hst) _ IH]; [done|]. intros Hk. by eapply IH, keyed_step. Qed.

Lemma same_name_trans i v1 v2 v3 : same_name i v1 v2 -> same_name i v2 v3 -> same_name i v1 v3.
Proof. intros H1 H2 ino (ino2 & Hi & E)%H1. apply H2 in Hi as (ino3 & Hi & E3). exists ino3. split; [done|congruence]. Qed.

Lemma handle_stays sid fh hd v v' : evolves (foreign sid) v v' -> keyed v -> v_handles v' !! (sid, fh) = Some hd ->
  v_handles v !! (sid, fh) = Some hd /\ same_name (rh_inum hd) v v'.
Proof.
  induction 1 as [v|v v1 v' Hst Hrest IH]; intros Hk Hh; [split; [done|]; intros x Hx; by exists x|].
  assert (keyed v1) as Hk1 by (eapply keyed_evolves; [by apply rtc_once|done]). destruct (IH Hk1 Hh) as [Hh1 Hn1].
  destruct (handle_kept _ _ _ _ _ Hk Hst Hh1) as [Hh0 Hn0]. split; [done|]. by eapply same_name_trans.
Qed.

Lemma lock_stays sid i l v v' : evolves (foreign sid) v v' -> l ∈ locks_of v i -> rl_sid l = sid -> rl_inum l = i ->
  0 <= rl_ctime l < 2 ^ 32 -> 0 <= sid < 2 ^ 64 -> l ∈ locks_of v' i.
Proof.
  induction 1 as [v|v v1 v' Hst _ IH]; [done|]. intros Hl Hs Hi Hc Hsid. apply IH; try done. by eapply lock_kept.
Qed.

(** ** Sequences of calls *)

Section since.
Context {W : Type} {NA : NcldApi W} {NO : NcldOk W}.

Lemma evolves_weaken (P Q : alabel -> Prop) v v' : (forall a, P a -> Q a) -> evolves P v v' -> evolves Q v v'.
Proof. intros H. apply rtc_subrel. intros x y (now & a & ? & ? & ?). exists now, a. auto. Qed.

Lemma since_trans sid v w w' : api_since sid v w -> (api_alive sid w' -> api_alive sid w) -> api_since sid (api_view w) w' -> api_since sid v w'.
Proof.
  intros [A1 A2] Ha [B1 B2]. split; [by etrans|]. intros H. etrans; [by apply A2, Ha|by apply B2].
Qed.

(** The next call of a session after [v]. *)
Lemma did_next sid a v w w' : api_since sid v w -> api_did sid a w w' ->
  exists now v1 v2, 0 <= now < 2 ^ 32 /\ evolves (foreign sid) v v1 /\ astep now a v1 v2 /\ api_since sid v2 w'.
Proof.
  intros [_ A2] (Ha & now & v1 & v2 & Hn & He & Hst & Hs). exists now, v1, v2. split_and!; [lia|lia| |done|done]. etrans; [by apply A2|done].
Qed.

Lemma since_refl sid w : api_since sid (api_view w) w.
Proof. split; done. Qed.

End since.
