(* ===== verification/ClduProps.v ===== *)
(** * ClduProps: the chunk server in CLD *)

From S2P Require Import Prelude Htab Dirent Wire Bdb Srv Msg Abs Inv Cldc Startup Dns Cldu CldApi.
#[local] Open Scope Z_scope.

(** ** Choosing a server *)

Lemma nextactive_loop_spec m n cldv actx : (n < N_CLD)%nat ->
  (exists j, (j < m)%nat /\ nextactive_loop m n cldv actx = ((n + j) mod N_CLD)%nat /\
     from_option known false (cldv !! ((n + j) mod N_CLD)%nat) = true /\
     forall j', (j' < j)%nat -> from_option known false (cldv !! ((n + j') mod N_CLD)%nat) = false) \/
  nextactive_loop m n cldv actx = actx /\ forall j', (j' < m)%nat -> from_option known false (cldv !! ((n + j') mod N_CLD)%nat) = false.
Proof.
  revert n. induction m as [|m IH]; intros n Hn; cbn [nextactive_loop]; [by right; split; [|lia]|].
  assert ((n + 0) mod N_CLD = n)%nat as H0 by (rewrite Nat.add_0_r; by apply Nat.mod_small).
  destruct (from_option known false (cldv !! n)) eqn:E.
  { left. exists 0%nat. rewrite H0. split_and!; [lia|done|done|lia]. }
  set (n' := if (N_CLD <=? S n)%nat then 0%nat else S n).
  assert (n' < N_CLD)%nat as Hn' by (unfold n'; destruct (Nat.leb_spec N_CLD (S n)); unfold N_CLD in *; lia).
  assert (forall j, (n' + j) mod N_CLD = (n + S j) mod N_CLD)%nat as Hmod.
  { intros j. unfold n'. destruct (Nat.leb_spec N_CLD (S n)) as [Hle|Hlt]; [|f_equal; lia].
    replace (n + S j)%nat with (j + 1 * N_CLD)%nat by (unfold N_CLD in *; lia). by rewrite Nat.Div0.mod_add. }
  destruct (IH n' Hn') as [(j & Hj & Hr & Hk & Hb)|[Hr Hb]].
  - left. exists (S j). rewrite <- Hmod. split_and!; [lia|done|done|]. intros [|j'] Hj'; [by rewrite H0|]. rewrite <- Hmod. apply Hb. lia.
  - right. split; [done|]. intros [|j'] Hj'; [by rewrite H0|]. rewrite <- Hmod. apply Hb. lia.
Qed.

(** The next server is the first known one after the active one, going round;
    the active one again if there is no other. *)
Theorem nextactive_round cs : (cu_actx cs < N_CLD)%nat ->
  let kn i := from_option known false (cu_cldv cs !! i) in
  (exists j, (1 <= j <= N_CLD)%nat /\ cldu_nextactive cs = ((cu_actx cs + j) mod N_CLD)%nat /\ kn (cldu_nextactive cs) = true /\
     forall j', (1 <= j' < j)%nat -> kn ((cu_actx cs + j') mod N_CLD)%nat = false) \/
  cldu_nextactive cs = cu_actx cs /\ forall i, (i < N_CLD)%nat -> kn i = false.
Proof.
  intros Ha kn. unfold cldu_nextactive. set (n := if (N_CLD <=? S (cu_actx cs))%nat then 0%nat else S (cu_actx cs)).
  assert (n < N_CLD)%nat as Hn by (unfold n; destruct (Nat.leb_spec N_CLD (S (cu_actx cs))); unfold N_CLD in *; lia).
  assert (forall j, (n + j) mod N_CLD = (cu_actx cs + S j) mod N_CLD)%nat as Hmod.
  { intros j. unfold n. destruct (Nat.leb_spec N_CLD (S (cu_actx cs))) as [Hle|Hlt]; [|f_equal; lia].
    replace (cu_actx cs + S j)%nat with (j + 1 * N_CLD)%nat by (unfold N_CLD in *; lia). by rewrite Nat.Div0.mod_add. }
  destruct (nextactive_loop_spec N_CLD n (cu_cldv cs) (cu_actx cs) Hn) as [(j & Hj & Hr & Hk & Hb)|[Hr Hb]].
  - left. exists (S j). rewrite Hr, Hmod in *. split_and!; [lia|lia|done|done|]. intros [|j'] Hj'; [lia|]. rewrite <- Hmod. apply Hb. lia.
  - right. split; [done|]. intros i Hi. unfold kn.
    assert ((n + (i + N_CLD - n)) mod N_CLD = i)%nat as E.
    { replace (n + (i + N_CLD - n))%nat with (i + 1 * N_CLD)%nat by lia. rewrite Nat.Div0.mod_add. by apply Nat.mod_small. }
    destruct (Nat.ltb_spec (i + N_CLD - n) N_CLD) as [Hlt|Hge]; [specialize (Hb (i + N_CLD - n)%nat Hlt); by rewrite E in Hb|].
    assert ((n + (i - n)) mod N_CLD = i)%nat as E2 by (replace (n + (i - n))%nat with i by lia; by apply Nat.mod_small).
    specialize (Hb (i - n)%nat ltac:(lia)). by rewrite E2 in Hb.
Qed.

(** ** Computations

    [up m Q s]: if [m] returns from [s], then in [Q]. *)

Section logic.
Context {W : Type} {NA : NcldApi W}.
Implicit Types s : cldu W.

Definition up {A} (m : U A) (Q : A -> cldu W -> Prop) s : Prop := forall a s', m s = Some (a, s') -> Q a s'.

Lemma up_ret {A} (a : A) (Q : A -> cldu W -> Prop) s : Q a s -> up (mret a) Q s.
Proof. intros H a' s' [= <- <-]. done. Qed.
Lemma up_bind {A B} (m : U A) (f : A -> U B) Q s : up m (fun a => up (f a) Q) s -> up (m ≫= f) Q s.
Proof. intros H a s'. unfold mbind, U_bind. destruct (m s) as [[b s1]|] eqn:E; [|done]. by apply (H b s1 E). Qed.
Lemma up_mono {A} (m : U A) (Q R : A -> cldu W -> Prop) s : up m Q s -> (forall a s', Q a s' -> R a s') -> up m R s.
Proof. intros H HQ a s' E. by apply HQ, H. Qed.
Lemma up_get (Q : cld_session -> cldu W -> Prop) s : Q (u_cs s) s -> up u_get Q s.
Proof. intros H a s' [= <- <-]. done. Qed.
Lemma up_modify f (Q : unit -> cldu W -> Prop) s : Q tt (mkCldu (f (u_cs s)) (u_w s)) -> up (u_modify f) Q s.
Proof. intros H a s' [= <- <-]. done. Qed.
Lemma up_ub {A} (Q : A -> cldu W -> Prop) s : up u_ub Q s.
Proof. done. Qed.

(** What the session event may have changed: a dead session, and more in the
    pipe, which is only full if it holds something. *)
Definition evented (cs cs' : cld_session) : Prop := exists n, cs' = Nat.iter n cldu_sess_event cs.

#[local] Instance evented_refl : Reflexive evented.
Proof. intros cs. by exists 0%nat. Qed.

Lemma evented_ind (P : cld_session -> Prop) cs cs' : evented cs cs' -> P cs -> (forall c, P c -> P (cldu_sess_event c)) -> P cs'.
Proof. intros [n ->] H0 HS. induction n as [|n IH]; [done|]. by apply HS. Qed.

(** The fields it leaves alone. *)
Definition same_args (cs cs' : cld_session) : Prop :=
  cu_nsess cs' = cu_nsess cs /\ cu_actx cs' = cu_actx cs /\ cu_cldv cs' = cu_cldv cs /\ cu_ffname cs' = cu_ffname cs /\
  cu_ffh cs' = cu_ffh cs /\ cu_nid cs' = cu_nid cs /\ cu_ourhost cs' = cu_ourhost cs /\ cu_ploc cs' = cu_ploc cs /\
  cu_timer cs' = cu_timer cs.

#[local] Instance same_args_refl : Reflexive same_args.
Proof. by intros cs. Qed.
Lemma same_args_trans a b c : same_args a b -> same_args b c -> same_args a c.
Proof. intros (A1 & A2 & A3 & A4 & A5 & A6 & A7 & A8 & A9) (B1 & B2 & B3 & B4 & B5 & B6 & B7 & B8 & B9). split_and!; congruence. Qed.

Lemma evented_args cs cs' : evented cs cs' -> same_args cs cs'.
Proof.
  intros H. apply (evented_ind (same_args cs) cs cs' H); [done|]. intros c Hc. eapply same_args_trans; [done|].
  unfold cldu_sess_event. destruct (_ <? _); done.
Qed.

Lemma up_call {A} (f : W -> A * W) (Q : A -> cldu W -> Prop) s :
  (forall a w cs, f (u_w s) = (a, w) -> evented (u_cs s) cs -> Q a (mkCldu cs w)) -> up (u_call f) Q s.
Proof.
  intros H a s'. unfold u_call. destruct (f (u_w s)) as [a1 w] eqn:E. intros [= <- <-]. apply H; [done|]. by eexists.
Qed.

End logic.

(** The world after the old session, if there is one, has been closed. *)
Definition old_closed {W} `{!NcldApi W} (s : cldu W) : W :=
  match cu_nsess (u_cs s) with Some old => api_sess_close old (u_w s) | None => u_w s end.

(** One step of a computation. *)
Ltac ustep :=
  match goal with
  | |- up (mret _) _ _ => apply up_ret
  | |- up (_ ≫= _) _ _ => apply up_bind
  | |- up u_get _ _ => apply up_get
  | |- up (u_modify _) _ _ => apply up_modify
  | |- up u_ub _ _ => apply up_ub
  | |- up (u_do _) _ _ => apply up_call; intros [] ?w ?cs ?Hw ?He
  | |- up (u_call _) _ _ => apply up_call; intros ?a ?w ?cs ?Hw ?He
  | |- up (if ?b then _ else _) _ _ => let E := fresh "E" in destruct b eqn:E
  | |- up (match ?x with inl _ => _ | inr _ => _ end) _ _ => destruct x
  | |- up (match ?x with Some _ => _ | None => _ end) _ _ => let E := fresh "E" in destruct x eqn:E
  end; cbv beta.

Section props.
Context {W : Type} {NA : NcldApi W}.
Implicit Types s : cldu W.

(** ** A property of the session object the set-up does not touch *)

Section keeps.
Variable P : cld_session -> Prop.
Hypothesis P_event : forall c, P c -> P (cldu_sess_event c).
Hypothesis P_nsess : forall x c, P c -> P (set_cu_nsess x c).
Hypothesis P_actx : forall x c, P c -> P (set_cu_actx x c).
Hypothesis P_ffh : forall x c, P c -> P (set_cu_ffh x c).

Lemma evented_keeps cs cs' : evented cs cs' -> P cs -> P cs'.
Proof. intros H HP. by apply (evented_ind P cs cs'). Qed.

Ltac keep := repeat first [ustep | progress cbn [u_cs u_w]]; eauto using evented_keeps.

Lemma make_path_keeps fuel mal sid path pos s : P (u_cs s) -> up (make_path_loop fuel mal sid path pos) (fun _ s' => P (u_cs s')) s.
Proof.
  revert pos s. induction fuel as [|fuel IH]; intros pos s HP; cbn [make_path_loop]; [apply up_ub|]. keep.
Qed.

Lemma trylock_keeps fuel sid fh s : P (u_cs s) -> up (trylock_loop fuel sid fh) (fun _ s' => P (u_cs s')) s.
Proof.
  revert s. induction fuel as [|fuel IH]; intros s HP; cbn [trylock_loop]; [apply up_ub|]. keep.
Qed.

Lemma set_cldc_keeps fuel mal k n s : P (u_cs s) -> up (cldu_set_cldc fuel mal k n) (fun _ s' => P (u_cs s')) s.
Proof.
  intros HP. unfold cldu_set_cldc, err_lock, err_fopen, cldu_make_path. do 2 ustep. apply up_bind.
  eapply (up_mono _ (fun _ s' => P (u_cs s'))); [destruct (cu_nsess (u_cs s)); keep|]. intros _ s1 H1.
  repeat first [ustep | progress cbn [u_cs u_w] | eapply up_mono; [apply make_path_keeps|intros] | eapply up_mono; [apply trylock_keeps|intros]];
    eauto 14 using evented_keeps.
Qed.

Lemma begin_keeps fuel mal k m n s : P (u_cs s) -> up (begin_loop fuel mal k m n) (fun _ s' => P (u_cs s')) s.
Proof.
  revert n s. induction m as [|m IH]; intros n s HP; cbn [begin_loop]; apply up_bind; (eapply up_mono; [by apply set_cldc_keeps|]);
    intros rc s1 H1; cbv beta; ustep; try (ustep; done).
  do 2 ustep. by apply IH.
Qed.
End keeps.

(** ** A lost session is replaced *)

(** If the session is known to be dead, opening another one is due: there is a
    byte in the pipe or the timer is pending. *)
Definition retry_due (cs : cld_session) : Prop := cu_is_dead cs = true -> (0 < cu_pipe cs)%nat \/ cu_timer cs = true.

Lemma event_due c : retry_due (cldu_sess_event c).
Proof. intros _. left. unfold cldu_sess_event. destruct (Z.ltb_spec (Z.of_nat (cu_pipe (set_cu_is_dead true c))) PIPE_BUF_SZ); cbn in *; [lia|]. unfold PIPE_BUF_SZ in *. lia. Qed.

Lemma sess_proc_due fuel mal k s : up (cldu_sess_proc fuel mal k) (fun _ s' => retry_due (u_cs s')) s.
Proof.
  unfold cldu_sess_proc. do 3 ustep.
  - apply up_bind, (up_mono _ (fun _ _ => True)); [by intros ???|]. intros _ s1 _. do 4 ustep.
    apply up_bind, (up_mono _ (fun _ _ => True)); [by intros ???|]. intros rc s2 _. ustep; ustep; [by right|done].
  - ustep. intros H. congruence.
Qed.

(** The main thread handles an event, the session fails, or time passes. *)
Inductive cldu_step : cldu W -> cldu W -> Prop :=
| st_pipe fuel mal k rc s s' : cldu_pipe_event fuel mal k rc s = Some (tt, s') -> cldu_step s s'
| st_timer fuel mal k s s' : cu_timer (u_cs s) = true -> cldu_timer_event fuel mal k s = Some (tt, s') -> cldu_step s s'
| st_world cs cs' w w' : evented cs cs' -> cldu_step (mkCldu cs w) (mkCldu cs' w').

Lemma step_due s s' : retry_due (u_cs s) -> cldu_step s s' -> retry_due (u_cs s').
Proof.
  intros Hd Hst. destruct Hst as [fuel mal k rc s s' E|fuel mal k s s' _ E|cs cs' w w' He].
  - enough (up (cldu_pipe_event fuel mal k rc) (fun _ s' => retry_due (u_cs s')) s) as H by exact (H _ _ E).
    unfold cldu_pipe_event. do 3 ustep; [by ustep|]. do 2 ustep. apply sess_proc_due.
  - enough (up (cldu_timer_event fuel mal k) (fun _ s' => retry_due (u_cs s')) s) as H by exact (H _ _ E).
    unfold cldu_timer_event. do 2 ustep. apply sess_proc_due.
  - apply (evented_ind retry_due cs cs' He); [done|]. intros c _. apply event_due.
Qed.

(** A started chunk server: [cld_begin] has returned 0 in a fresh process, in
    which only the configured hosts have been added. *)
Definition started {RS : Resolver} {DL : DnsLib} (s : cldu W) : Prop :=
  exists fuel mal dns p e k host nid path loc s0,
    nid <> 0 /\ cu_is_dead (u_cs s0) = false /\ cld_begin fuel mal dns p e k host nid path loc s0 = Some (0, s).

Lemma started_due {RS : Resolver} {DL : DnsLib} s : started s -> retry_due (u_cs s).
Proof.
  intros (fuel & mal & dns & p & e & k & host & nid & path & loc & s0 & Hnid & Hd & E).
  enough (up (cld_begin fuel mal dns p e k host nid path loc) (fun _ s' => retry_due (u_cs s')) s0) as H by exact (H _ _ E).
  assert (forall c, cu_is_dead c = false -> retry_due c) as H0 by (intros c Hc Hc'; congruence).
  unfold cld_begin. rewrite (proj2 (Z.eqb_neq _ _)) by done. do 4 ustep.
  apply up_bind, (up_mono _ (fun _ s' => cu_is_dead (u_cs s') = false)).
  { repeat ustep; done. }
  intros ok s1 H1. ustep; [ustep; auto|]. ustep; [ustep; auto|]. do 2 ustep. ustep; [ustep; by apply H0|].
  apply begin_keeps; [intros; apply event_due|done..|by apply H0].
Qed.

(** C30.  No lost session is forgotten while it is marked dead: in every state
    after the start, whatever the events, failures and calls, if the session is
    dead another attempt is due - a byte is in the pipe or the timer is
    pending. *)
Theorem dead_session_retried {RS : Resolver} {DL : DnsLib} s s' :
  started s -> rtc cldu_step s s' -> cu_is_dead (u_cs s') = true -> (0 < cu_pipe (u_cs s'))%nat \/ cu_timer (u_cs s') = true.
Proof.
  intros Hs%started_due Hr. change (retry_due (u_cs s')). induction Hr as [s|s s1 s' Hst _ IH]; [done|]. by apply IH, (step_due s).
Qed.

(** Events of the main thread. *)
Inductive main_step : cldu W -> cldu W -> Prop :=
| ms_pipe fuel mal k rc s s' : cldu_pipe_event fuel mal k rc s = Some (tt, s') -> main_step s s'
| ms_timer fuel mal k s s' : cu_timer (u_cs s) = true -> cldu_timer_event fuel mal k s = Some (tt, s') -> main_step s s'.

Lemma alive_idle s s' : cu_is_dead (u_cs s) = false -> main_step s s' ->
  cu_is_dead (u_cs s') = false /\ u_w s' = u_w s /\ cu_nsess (u_cs s') = cu_nsess (u_cs s).
Proof.
  intros Hd Hst. destruct Hst as [fuel mal k rc s s' E|fuel mal k s s' _ E].
  - revert E. unfold cldu_pipe_event, cldu_sess_proc, mbind, U_bind, u_get, u_modify, mret, U_ret. destruct (_ || _); [by intros [= <-]|].
    cbn. rewrite Hd. by intros [= <-].
  - revert E. unfold cldu_timer_event, cldu_sess_proc, mbind, U_bind, u_get, u_modify, mret, U_ret. cbn. rewrite Hd. by intros [= <-].
Qed.

(** *** A failure during the set-up *)

(** Since there were [n] failures, one more has been reported in the pipe, if
    there was one. *)
Definition reported (n : nat) s : Prop := (n < api_failures (u_w s))%nat -> (0 < cu_pipe (u_cs s))%nat.

Lemma event_pipe c : (0 < cu_pipe (cldu_sess_event c))%nat.
Proof.
  unfold cldu_sess_event. destruct (Z.ltb_spec (Z.of_nat (cu_pipe (set_cu_is_dead true c))) PIPE_BUF_SZ); cbn in *; [lia|].
  unfold PIPE_BUF_SZ in *. lia.
Qed.

Lemma up_call_reported {A} (f : W -> A * W) n (Q : A -> cldu W -> Prop) s : reported n s ->
  (forall a w cs, f (u_w s) = (a, w) -> same_args (u_cs s) cs -> reported n (mkCldu cs w) -> Q a (mkCldu cs w)) -> up (u_call f) Q s.
Proof.
  intros Hn HQ a s'. unfold u_call. destruct (f (u_w s)) as [a1 w] eqn:E. intros [= <- <-].
  apply HQ; [done|apply evented_args; by eexists|]. intros Hlt. cbn in *.
  destruct (api_failures w - api_failures (u_w s))%nat as [|m] eqn:Em; [|apply event_pipe]. apply Hn. lia.
Qed.

(** The session stays the same and failures are reported. *)
Definition goes_on (n : nat) (nsess : option Z) s : Prop := reported n s /\ cu_nsess (u_cs s) = nsess.

Lemma up_call_goes {A} (f : W -> A * W) n x (Q : A -> cldu W -> Prop) s : goes_on n x s ->
  (forall a s', goes_on n x s' -> Q a s') -> up (u_call f) Q s.
Proof.
  intros [Hn Hx] HQ. eapply up_call_reported; [exact Hn|]. intros a w cs _ Hs Hr. apply HQ. split; [done|]. rewrite <- Hx. apply Hs.
Qed.

Lemma make_path_goes fuel mal sid path pos n x s : goes_on n x s -> up (make_path_loop fuel mal sid path pos) (fun _ => goes_on n x) s.
Proof.
  revert pos s. induction fuel as [|fuel IH]; intros pos s Hg; cbn [make_path_loop]; [apply up_ub|]. ustep; [by ustep|]. ustep; [|by ustep].
  ustep; [by ustep|]. ustep. eapply up_call_goes; [exact Hg|]. intros [e|fh] s1 Hg1; [by ustep|]. ustep.
  eapply up_call_goes; [exact Hg1|]. intros [] s2 Hg2. by apply IH.
Qed.

Lemma trylock_goes fuel sid fh n x s : goes_on n x s -> up (trylock_loop fuel sid fh) (fun _ => goes_on n x) s.
Proof.
  revert s. induction fuel as [|fuel IH]; intros s Hg; cbn [trylock_loop]; [apply up_ub|]. ustep.
  eapply up_call_goes; [exact Hg|]. intros rc s1 Hg1. ustep; [by ustep|]. ustep; [by ustep|]. ustep.
  eapply up_call_goes; [exact Hg1|]. intros [] s2 Hg2. by apply IH.
Qed.

Lemma err_fopen_fails sid s : up (err_fopen sid) (fun rc _ => rc = - 1) s.
Proof. unfold err_fopen. by repeat ustep. Qed.
Lemma err_lock_fails sid fh s : up (err_lock sid fh) (fun rc _ => rc = - 1) s.
Proof. unfold err_lock. do 2 ustep. apply err_fopen_fails. Qed.

(** The old session is closed in one call. *)
Lemma up_close_old (Q : unit -> cldu W -> Prop) s :
  (forall cs, same_args (u_cs s) (set_cu_nsess (cu_nsess (u_cs s)) cs) -> cu_nsess cs = None -> Q tt (mkCldu cs (old_closed s))) ->
  up (match cu_nsess (u_cs s) with
      | Some sid => _ ← u_do (api_sess_close sid); u_modify (set_cu_nsess None)
      | None => mret tt
      end) Q s.
Proof.
  intros HQ. unfold old_closed in HQ. destruct (cu_nsess (u_cs s)) as [old|] eqn:E.
  - do 3 ustep. apply evented_args in He as (A1 & A2 & A3 & A4 & A5 & A6 & A7 & A8 & A9). injection Hw as <-. apply HQ; [|done].
    split_and!; cbn; congruence.
  - ustep. destruct s as [cs w]. apply HQ; [|done]. cbn in *. split_and!; done.
Qed.

(** A set-up that returns 0 has opened a session with the host, which is the
    session now, and reported every failure since. *)
Lemma set_cldc_opened fuel mal k n s : up (cldu_set_cldc fuel mal k n) (fun rc s' => rc = 0 ->
  exists host sid w1, cu_cldv (u_cs s) !! n = Some host /\ known host = true /\
    api_sess_open (ch_host (h host)) (ch_port (h host)) (old_closed s) = (inr sid, w1) /\
    cu_nsess (u_cs s') = Some sid /\ reported (api_failures w1) s') s.
Proof.
  unfold cldu_set_cldc. do 2 ustep. apply up_bind, up_close_old. intros cs1 _ _. do 2 ustep. cbn [u_cs u_w].
  destruct (cu_cldv (u_cs s) !! n) as [host|] eqn:Eh; [|done]. destruct (known host) eqn:Ek; cbn [negb]; [|by ustep].
  do 2 ustep. cbn [u_cs u_w] in *. destruct a as [e|sid]; [by ustep|]. do 2 ustep. cbn [u_cs u_w].
  assert (goes_on (api_failures w) (Some sid) (mkCldu (set_cu_nsess (Some sid) cs) w)) as Hg by (split; [intros Hlt; cbn in Hlt; lia|done]).
  destruct (cu_ffname (u_cs s)) as [path|]; [|done]. apply up_bind.
  eapply (up_mono _ (fun _ => goes_on (api_failures w) (Some sid))).
  { unfold cldu_make_path. ustep; [by ustep|]. ustep; [done|]. by apply make_path_goes. }
  intros rc s2 Hg2. ustep; [eapply up_mono; [apply err_fopen_fails|]; by intros ?? ->|]. ustep.
  eapply up_call_goes; [exact Hg2|]. intros [e|fh] s3 Hg3; [do 2 ustep; eapply up_mono; [apply err_fopen_fails|]; by intros ?? ->|].
  do 3 ustep. eapply up_mono; [apply (trylock_goes _ _ _ (api_failures w) (Some sid)); exact Hg3|]. cbv beta. intros rc2 s4 Hg4.
  ustep; [eapply up_mono; [apply err_lock_fails|]; by intros ?? ->|]. do 2 ustep.
  destruct (cldu_make_ffile mal k (u_cs s4)); [|eapply up_mono; [apply err_lock_fails|]; by intros ?? ->]. ustep.
  eapply up_call_goes; [exact Hg4|]. intros rc3 s5 [Hr Hn]. ustep; [eapply up_mono; [apply err_lock_fails|]; by intros ?? ->|].
  ustep. intros _. exists host, sid, w. split_and!; done.
Qed.

(** C31.  A session that fails while it is being set up, in place of a dead one,
    is lost: the main thread opens the session [sid] and sets it up without an
    error (no retry is armed), but the library reports a failure of it
    meanwhile.  Then [is_dead] is clear all the same, while [sid] is the session
    and the report is in the pipe; the report is read, nothing comes of it, and
    no sequence of events of the main thread makes another call of the library
    or changes the session. *)
Theorem failure_lost fuel mal k s s1 s2 host sid w1 :
  cu_is_dead (u_cs s) = true -> cldu_sess_proc fuel mal k s = Some (tt, s1) -> cu_timer (u_cs s1) = false ->
  cu_cldv (u_cs s) !! cldu_nextactive (u_cs s) = Some host ->
  api_sess_open (ch_host (h host)) (ch_port (h host)) (old_closed s) = (inr sid, w1) ->
  (api_failures w1 < api_failures (u_w s1))%nat -> rtc main_step s1 s2 ->
  cu_is_dead (u_cs s1) = false /\ cu_nsess (u_cs s1) = Some sid /\ (0 < cu_pipe (u_cs s1))%nat /\
  (exists s', cldu_pipe_event fuel mal k 1 s1 = Some (tt, s') /\ cu_pipe (u_cs s') = (cu_pipe (u_cs s1) - 1)%nat) /\
  cu_is_dead (u_cs s2) = false /\ u_w s2 = u_w s1 /\ cu_nsess (u_cs s2) = Some sid.
Proof.
  intros Hd Hrun Ht Hh Hop Hf Hr.
  assert (cu_is_dead (u_cs s1) = false /\ cu_nsess (u_cs s1) = Some sid /\ reported (api_failures w1) s1) as (H1 & H2 & H3).
  { revert Ht. enough (up (cldu_sess_proc fuel mal k) (fun _ s1 => cu_timer (u_cs s1) = false -> cu_is_dead (u_cs s1) = false /\
      cu_nsess (u_cs s1) = Some sid /\ reported (api_failures w1) s1) s) as H by exact (H _ _ Hrun).
    unfold cldu_sess_proc. do 2 ustep. rewrite Hd. apply up_bind, up_close_old. intros cs (A1 & A2 & A3 & _) Hns. do 4 ustep. cbn [u_cs u_w] in *.
    assert (cldu_nextactive (set_cu_ffh None cs) = cldu_nextactive (u_cs s)) as -> by (unfold cldu_nextactive; cbn in *; by rewrite A2, A3).
    apply up_bind. eapply up_mono; [apply set_cldc_opened|]. cbv beta. intros rc s3 H. ustep; ustep; [done|].
    intros _. apply negb_false_iff, Z.eqb_eq in E. destruct (H E) as (host' & sid' & w' & B1 & _ & B3 & B4 & B5).
    assert (old_closed (mkCldu (set_cu_ffh None cs) (old_closed s)) = old_closed s) as Eo by (unfold old_closed at 1; cbn; by rewrite Hns).
    rewrite Eo in B3. cbn in *. rewrite A3 in B1. assert (host' = host) as -> by congruence.
    rewrite B3 in Hop. injection Hop as -> ->. split_and!; done. }
  split; [done|]. split; [done|]. split; [by apply H3|]. split.
  - unfold cldu_pipe_event, cldu_sess_proc, mbind, U_bind, u_get, u_modify, mret, U_ret. specialize (H3 Hf).
    destruct (Nat.eqb_spec (cu_pipe (u_cs s1)) 0); [lia|]. cbn. rewrite H1. by eexists.
  - clear -Hr H1 H2. revert H2. induction Hr as [s|s s3 s2 Hst _ IH]; [done|]. intros H2.
    destruct (alive_idle _ _ H1 Hst) as (H3 & E1 & E2). rewrite <- E1. apply IH; [done|congruence].
Qed.

End props.

(** ** The file in CLD *)

Section registered.
Context {W : Type} {NA : NcldApi W} {NO : NcldOk W}.
Implicit Types s : cldu W.

(** The lock is taken at last, in a state that has come of [v]. *)
Lemma trylock_did fuel sid fh v s : api_since sid v (u_w s) ->
  up (trylock_loop fuel sid fh) (fun rc s' => same_args (u_cs s) (u_cs s') /\ (rc = 0 -> exists now v1 v2,
    0 <= now < 2 ^ 32 /\ evolves (foreign sid) v v1 /\ astep now (ALock sid fh false false true) v1 v2 /\ api_since sid v2 (u_w s'))) s.
Proof.
  revert s. induction fuel as [|fuel IH]; intros s Hs; cbn [trylock_loop]; [apply up_ub|]. do 2 ustep. apply evented_args in He.
  destruct (Z.eqb_spec a 0) as [->|Ha].
  { ustep. split; [done|]. intros _. eapply did_next; [done|]. by apply api_trylock_ok. }
  destruct (Z.eqb_spec a (cle_code CLE_LOCK_CONFLICT + 1100)) as [->|Hc]; cbn [negb]; [|by ustep].
  apply api_trylock_conflict in Hw as [Hal Hsince]. do 2 ustep. apply evented_args in He0. injection Hw as <-. cbn [u_cs u_w] in *.
  eapply up_mono; [apply IH; cbn|].
  - eapply since_trans; [|apply api_sleep_ok|apply api_sleep_ok]. by eapply since_trans.
  - cbn. intros rc s' [Hargs H]. split; [|done]. eapply same_args_trans; [exact He|]. by eapply same_args_trans.
Qed.

Lemma make_path_args fuel mal sid path pos s : up (make_path_loop fuel mal sid path pos) (fun _ s' => same_args (u_cs s) (u_cs s')) s.
Proof.
  revert pos s. induction fuel as [|fuel IH]; intros pos s; cbn [make_path_loop]; [apply up_ub|]. repeat ustep; try done.
  - by apply evented_args.
  - apply evented_args in He, He0. cbn [u_cs u_w] in *. eapply up_mono; [apply IH|]. cbn. intros _ s' H.
    eapply same_args_trans; [exact He|]. by eapply same_args_trans.
Qed.

(** After an open the handle is on the inode of that name. *)
Lemma open_names now sid o fh v v' : keyed v -> astep now (AOpen sid o fh) v v' -> 0 <= sid < 2 ^ 64 /\
  exists hd ino, v_handles v' !! (sid, fh) = Some hd /\ v_inodes v' !! rh_inum hd = Some ino /\ inode_name_key ino = Some (mo_inode_name o).
Proof.
  intros Hk Hst. inversion Hst as [s o' fh' v0 i ino raw _ [Hi Hn] _ _ Hr Hs _ | s o' fh' v0 i parent n raw _ _ Hlen _ _ _ _ _ Hr Hs _ | | | | | | |]; subst.
  - split; [lia|]. exists (open_handle (rs_sid raw) fh o (ri_inum ino)), ino. cbn. rewrite lookup_insert_eq. split_and!; [done| |done].
    by rewrite (Hk _ _ Hi).
  - split; [lia|]. exists (open_handle (rs_sid raw) fh o n), (new_inode now o n). cbn. rewrite !lookup_insert_eq. split_and!; [done..|].
    unfold inode_name_key. cbn. unfold u32. rewrite uw_small by (unfold CLD_INODE_NAME_MAX in Hlen; lia). by rewrite Z.eqb_refl.
Qed.

(** Open, lock and write by one session, others in between: the write is to the
    file that was opened, under the lock. *)
Lemma locked_write sid fh path mode buf t1 t2 t3 v0 a1 a2 b1 b2 c1 c2 :
  keyed v0 -> evolves (foreign sid) v0 a1 -> astep t1 (AOpen sid (mkOpen mode 0 path) fh) a1 a2 ->
  evolves (foreign sid) a2 b1 -> 0 <= t2 < 2 ^ 32 -> astep t2 (ALock sid fh false false true) b1 b2 ->
  evolves (foreign sid) b2 c1 -> astep t3 (APut sid (mkPut fh buf)) c1 c2 ->
  exists i ino l, inode_named c2 path i ino /\ data_of c2 i = buf /\
    l ∈ locks_of c2 i /\ rl_sid l = sid /\ rl_fh l = fh /\ acquired l = true /\ shared l = false.
Proof.
  intros Hk E1 Hopen E2 Ht Hlock E3 Hput.
  assert (keyed a1) as Ka1 by by eapply keyed_evolves. assert (keyed a2) as Ka2 by by eapply keyed_step.
  assert (keyed b1) as Kb1 by by eapply keyed_evolves. assert (keyed b2) as Kb2 by by eapply keyed_step.
  destruct (open_names _ _ _ _ _ _ Ka1 Hopen) as (Hsid & hd & ino & Hhd & Hino & Hname).
  inversion Hput as [| |s' p' v' h3 ino3 Hh3 Hw Hd Hi3 Hn3| | | | | |]; subst. cbn [mp_fh mp_data] in *.
  destruct (handle_stays _ _ _ _ _ E3 Kb2 Hh3) as [Hh2 Hs2].
  inversion Hlock as [| | | | | |s' fh' want wait v' v'' h2 pending Hh2' Hl2 Hp _ Hadd Eq| |]; subst.
  assert (existsb (blocks false) (locks_of b1 (rh_inum h2)) = false) as Hnp by (by destruct (existsb _ _)). rewrite Hnp in *.
  destruct Hadd as (l1 & old & l2 & El & _ & Eb2). set (l := new_lock t2 sid fh (rh_inum h2) false false) in *.
  assert (v_handles b1 = v_handles b2 /\ v_inodes b1 = v_inodes b2) as [EHb EIb] by (by subst b2).
  rewrite <- EHb in Hh2. assert (h2 = h3) as -> by congruence.
  destruct (handle_stays _ _ _ _ _ E2 Ka2 Hh2) as [Hh1 Hs1]. assert (hd = h3) as -> by (cbn in *; congruence).
  destruct (Hs1 _ Hino) as (ino1 & Hi1 & N1). rewrite EIb in Hi1. destruct (Hs2 _ Hi1) as (ino2 & Hi2 & N2).
  assert (ino2 = ino3) as -> by congruence.
  exists (rh_inum h3), (touched t3 (set_ri_size (Z.of_nat (length buf)) ino3)), l. unfold write_inode. split_and!; try done.
  - split; [cbn; rewrite Hn3; apply lookup_insert_eq|]. rewrite name_write, N2, N1. done.
  - unfold data_of. cbn. rewrite Hn3, lookup_insert_eq. done.
  - change (l ∈ locks_of c1 (rh_inum h3)). eapply (lock_stays sid); [exact E3| |done|done| |done].
    + subst b2. rewrite locks_of_insert. cbn. rewrite decide_True by done. set_solver.
    + cbn. unfold u64. rewrite uw_small; lia.
Qed.

Lemma make_ffile_args mal k cs cs' : same_args cs cs' -> cldu_make_ffile mal k cs' = cldu_make_ffile mal k cs.
Proof. intros (_ & _ & _ & _ & _ & E1 & E2 & E3 & _). unfold cldu_make_ffile. by rewrite E1, E2, E3. Qed.

(** From [s] to [s']: the session was opened with host [n] of the list, after
    the old one had been closed, and is the session now; the file of its name in
    CLD held the server's description when it was written, under the exclusive
    lock of the handle that is kept. *)
Definition registration (k : kernel) (n : nat) (s s' : cldu W) : Prop :=
  exists host sid w1 fh path buf now v1 v2 i ino l,
    cu_cldv (u_cs s) !! n = Some host /\ known host = true /\
    api_sess_open (ch_host (h host)) (ch_port (h host)) (old_closed s) = (inr sid, w1) /\
    cu_nsess (u_cs s') = Some sid /\ cu_actx (u_cs s') = n /\ cu_ffname (u_cs s) = Some path /\ cu_ffh (u_cs s') = Some fh /\
    describes k (u_cs s) buf /\
    astep now (APut sid (mkPut fh buf)) v1 v2 /\ inode_named v2 path i ino /\ data_of v2 i = buf /\
    l ∈ locks_of v2 i /\ rl_sid l = sid /\ rl_fh l = fh /\ acquired l = true /\ shared l = false /\ api_since sid v2 (u_w s').

(** What the session [sid] has done to the file. *)
Definition written (k : kernel) (n : nat) (cs : cld_session) (sid : Z) (path : bytes) (s' : cldu W) : Prop :=
  exists fh buf now v1 v2 i ino l,
    cu_nsess (u_cs s') = Some sid /\ cu_actx (u_cs s') = n /\ cu_ffh (u_cs s') = Some fh /\ describes k cs buf /\
    astep now (APut sid (mkPut fh buf)) v1 v2 /\ inode_named v2 path i ino /\ data_of v2 i = buf /\
    l ∈ locks_of v2 i /\ rl_sid l = sid /\ rl_fh l = fh /\ acquired l = true /\ shared l = false /\ api_since sid v2 (u_w s').

(** From the open of the file on. *)
Lemma file_written fuel mal k n cs sid path s :
  cu_actx (u_cs s) = n -> cu_nsess (u_cs s) = Some sid ->
  cu_nid (u_cs s) = cu_nid cs -> cu_ourhost (u_cs s) = cu_ourhost cs -> cu_ploc (u_cs s) = cu_ploc cs ->
  up (r ← u_call (api_open sid path (Z.lor (Z.lor COM_WRITE COM_LOCK) COM_CREATE));
      match r with
      | inl _ => _ ← u_modify (set_cu_ffh None); err_fopen sid
      | inr fh =>
          _ ← u_modify (set_cu_ffh (Some fh));
          rc ← trylock_loop fuel sid fh;
          if negb (rc =? 0) then err_lock sid fh else
          cs ← u_get;
          match cldu_make_ffile mal k cs with
          | None => err_lock sid fh
          | Some buf =>
              rc ← u_call (api_write sid fh buf);
              if negb (rc =? 0) then err_lock sid fh else mret 0
          end
      end) (fun rc s' => rc = 0 -> written k n cs sid path s') s.
Proof.
  intros Ha Hns Hnid Hour Hloc. do 2 ustep. destruct a as [e|fh].
  { do 2 ustep. eapply up_mono; [apply err_fopen_fails|]. by intros ?? ->. }
  apply api_open_ok in Hw as (_ & t1 & a1 & a2 & _ & E1 & Hopen & Hs1). apply evented_args in He as (A1 & A2 & A3 & A4 & A5 & A6 & A7 & A8 & A9).
  do 3 ustep. cbn [u_cs u_w] in *. eapply up_mono; [by apply trylock_did|]. cbn. intros rc s2 [Hargs Hlk].
  destruct (Z.eqb_spec rc 0) as [->|Hrc]; cbn [negb]; [|eapply up_mono; [apply err_lock_fails|]; by intros ?? ->].
  destruct (Hlk eq_refl) as (t2 & b1 & b2 & Ht2 & E2 & Hlock & Hs2). do 2 ustep.
  destruct Hargs as (B1 & B2 & B3 & B4 & B5 & B6 & B7 & B8 & B9). cbn in *.
  assert (cldu_make_ffile mal k (u_cs s2) = cldu_make_ffile mal k cs) as -> by (unfold cldu_make_ffile; by rewrite B6, B7, B8, A6, A7, A8, Hnid, Hour, Hloc).
  destruct (cldu_make_ffile mal k cs) as [buf|] eqn:Hbuf; [|eapply up_mono; [apply err_lock_fails|]; by intros ?? ->].
  do 2 ustep. destruct (Z.eqb_spec a 0) as [->|Hrc]; cbn [negb]; [|eapply up_mono; [apply err_lock_fails|]; by intros ?? ->].
  apply api_write_ok in Hw. destruct (did_next _ _ _ _ _ Hs2 Hw) as (t3 & c1 & c2 & _ & E3 & Hput & Hs3). ustep. intros _.
  apply evented_args in He as (C1 & C2 & C3 & C4 & C5 & C6 & C7 & C8 & C9).
  destruct (locked_write _ _ _ _ _ _ _ _ _ _ _ _ _ _ _ (api_keyed (u_w s)) E1 Hopen E2 Ht2 Hlock E3 Hput) as (i & ino & l & H).
  exists fh, buf, t3, c1, c2, i, ino, l. cbn. split_and!; try done; try congruence; [by eapply make_ffile_describes|apply H..].
Qed.

(** C29.  A registered chunk server: when [cldu_set_cldc] returns 0, the session
    is the one it opened with the host of the chosen place, after closing the
    old session, and at the moment its write took effect the file of its name
    held the server's description - its number, the host and port of each of its
    sockets in order, and where it stands - with the exclusive lock on it granted
    to the handle it keeps open, however other clients interfered, deleting the
    file included. *)
Theorem registered fuel mal k n s s' : cldu_set_cldc fuel mal k n s = Some (0, s') -> registration k n s s'.
Proof.
  intros E. enough (up (cldu_set_cldc fuel mal k n) (fun rc s' => rc = 0 -> registration k n s s') s) as H by exact (H _ _ E eq_refl).
  clear s' E. unfold cldu_set_cldc. do 2 ustep. apply up_bind, up_close_old. intros cs1 (N1 & N2 & N3 & N4 & N5 & N6 & N7 & N8 & N9) Hns. do 2 ustep.
  destruct (cu_cldv (u_cs s) !! n) as [host|] eqn:Eh; [|done]. destruct (known host) eqn:Ek; cbn [negb]; [|by ustep]. do 2 ustep.
  apply evented_args in He as (A1 & A2 & A3 & A4 & A5 & A6 & A7 & A8 & A9). destruct a as [e|sid]; [by ustep|].
  do 2 ustep. cbn [u_cs u_w] in *. destruct (cu_ffname (u_cs s)) as [path|] eqn:Ep; [|done]. apply up_bind.
  eapply (up_mono _ (fun _ s2 => same_args (set_cu_nsess (Some sid) cs) (u_cs s2))).
  { unfold cldu_make_path. ustep; [by ustep|]. ustep; [done|]. apply make_path_args. }
  intros rc s2 (B1 & B2 & B3 & B4 & B5 & B6 & B7 & B8 & B9). cbn in *. ustep; [eapply up_mono; [apply err_fopen_fails|]; by intros ?? ->|].
  eapply up_mono; [apply (file_written _ _ _ n (u_cs s)); congruence|]. cbv beta.
  intros rc' s3 H Hrc. destruct (H Hrc) as (fh & buf & now & v1 & v2 & i & ino & l & H1 & H2 & H3 & H4 & H5).
  exists host, sid, w, fh, path, buf, now, v1, v2, i, ino, l. do 8 (split; [done|]). exact H5.
Qed.
End registered.

(** ** The directories of the chunk server's file

    [cldu_make_path] against its description, mkdir -p of the directory part. *)

(** The places of slashes from [pos] on. *)
Definition slashes (pos : nat) (path : bytes) : list nat :=
  filter (fun i => path !! i = Some 47) (seq pos (length path - pos)).

Lemma strchr_spec s c : match strchr s c with
  | Some r => exists a, s = a ++ r /\ c ∉ a /\ head r = Some c
  | None => c ∉ s
  end.
Proof.
  induction s as [|x s IH]; cbn; [apply not_elem_of_nil|]. destruct (Z.eqb_spec x c) as [->|Hx].
  - exists []. split_and!; [done|apply not_elem_of_nil|done].
  - destruct (strchr s c) as [r|].
    + destruct IH as (a & -> & Ha & Hr). exists (x :: a). split_and!; [done| |done]. apply not_elem_of_cons. auto.
    + apply not_elem_of_cons. auto.
Qed.

Lemma slashes_none pos path : (forall i, (pos <= i)%nat -> path !! i <> Some 47) -> slashes pos path = [].
Proof. intros H. apply filter_all_false. intros i Hi%elem_of_seq. apply H. lia. Qed.

Lemma slashes_cons pos j path : (pos <= j)%nat -> path !! j = Some 47 -> (forall i, (pos <= i < j)%nat -> path !! i <> Some 47) ->
  slashes pos path = j :: slashes (S j) path.
Proof.
  intros Hp Hj Hb. assert (j < length path)%nat as Hl by (apply lookup_lt_is_Some; eauto). unfold slashes.
  replace (length path - pos)%nat with ((j - pos) + S (length path - S j))%nat by lia. rewrite seq_app, filter_app.
  rewrite filter_all_false by (intros i Hi%elem_of_seq; apply Hb; lia). cbn [app seq].
  replace (pos + (j - pos))%nat with j by lia. by rewrite filter_cons_True.
Qed.

Lemma next_slash_spec pos path : (pos <= length path)%nat ->
  match next_slash pos path with
  | Some j => slashes pos path = j :: slashes (S j) path /\ (pos <= j < length path)%nat /\ path !! j = Some 47
  | None => slashes pos path = []
  end.
Proof.
  intros Hp. unfold next_slash. pose proof (strchr_spec (drop pos path) 47) as H. destruct (strchr _ _) as [r|]; cbn.
  - destruct H as (a & E & Ha & Hr). destruct r as [|x r]; [done|]. injection Hr as ->.
    assert (length path = pos + length a + S (length r))%nat as Hlen.
    { pose proof (f_equal length E) as L. rewrite length_drop, length_app in L. cbn [length] in L. lia. }
    cbn [length]. replace (length path - S (length r))%nat with (pos + length a)%nat by lia.
    assert (forall i, path !! (pos + i)%nat = (a ++ 47 :: r) !! i) as Hlk by (intros i; by rewrite <- E, lookup_drop).
    assert (path !! (pos + length a)%nat = Some 47) as Hj by (rewrite Hlk; by apply list_lookup_middle).
    split_and!; [|lia|lia|done]. apply slashes_cons; [lia|done|]. intros i Hi Hs.
    replace i with (pos + (i - pos))%nat in Hs by lia. rewrite Hlk, lookup_app_l in Hs by lia. apply Ha. by eapply list_elem_of_lookup_2.
  - apply slashes_none. intros i Hi Hs. apply H. apply (list_elem_of_lookup_2 _ (i - pos)). rewrite lookup_drop. by replace (pos + (i - pos))%nat with i by lia.
Qed.

Section path.
Context {W : Type} {NA : NcldApi W}.

(** Create or open each directory of [ds]. *)
Fixpoint open_dirs (sid : Z) (ds : list bytes) (fin : Z) : U (W := W) Z :=
  match ds with
  | [] => mret fin
  | d :: ds =>
      dh ← u_call (api_open sid d (Z.lor (Z.lor (Z.lor COM_READ COM_WRITE) COM_CREATE) COM_DIRECTORY));
      match dh with
      | inl _ => mret (- 1)
      | inr fh => _ ← u_do (api_close sid fh); open_dirs sid ds fin
      end
  end.

(** 0, or -1 for a path that ends with a slash. *)
Definition path_end (path : bytes) : Z := if bool_decide (last path = Some 47) then - 1 else 0.

Lemma make_path_loop_equiv fuel mal sid path pos s :
  (forall i, mal i = true) -> (pos <= length path)%nat -> (length path - pos < fuel)%nat ->
  ((pos < length path)%nat \/ last path = Some 47) ->
  make_path_loop fuel mal sid path pos s = open_dirs sid ((fun i => take i path) <$> slashes pos path) (path_end path) s.
Proof.
  intros Hm. revert pos s. induction fuel as [|fuel IH]; intros pos s Hp Hf Hend; [lia|]. cbn [make_path_loop].
  destruct (Nat.eqb_spec (length path) pos) as [E|E].
  { unfold slashes. replace (length path - pos)%nat with 0%nat by lia. cbn. unfold path_end.
    destruct Hend as [|Hend]; [lia|]. by rewrite bool_decide_true. }
  pose proof (next_slash_spec pos path Hp) as Hns. destruct (next_slash pos path) as [j|].
  - destruct Hns as (-> & Hj & Hsj). rewrite Hm. cbn [negb fmap list_fmap open_dirs]. unfold mbind, U_bind.
    destruct (u_call _ s) as [[[e|fh] s1]|]; [done| |done]. destruct (u_do _ s1) as [[[] s2]|]; [|done].
    apply IH; [lia|lia|]. destruct (decide (S j < length path)%nat); [by left|right].
    rewrite last_lookup. by replace (pred (length path)) with j by lia.
  - rewrite Hns. cbn. unfold path_end. rewrite bool_decide_false; [done|]. rewrite last_lookup. intros Hl.
    assert (pred (length path) ∈ slashes pos path) as Hin by (apply list_elem_of_filter; split; [done|apply elem_of_seq; lia]).
    rewrite Hns in Hin. by apply not_elem_of_nil in Hin.
Qed.

(** C32.  [cldu_make_path] is mkdir -p of the directory part of its path - it
    creates or opens every directory on the way, in order, and refuses a path
    that ends with a slash - provided the first component has at least three
    characters and the path more than four, since [sizeof('/')] is 4. *)
Theorem make_path_equiv mal sid path s :
  (forall i, mal i = true) -> path !! 0%nat = Some 47 -> (4 < length path)%nat ->
  path !! 1%nat <> Some 47 -> path !! 2%nat <> Some 47 -> path !! 3%nat <> Some 47 ->
  cldu_make_path mal sid path s = open_dirs sid ((fun i => take i path) <$> slashes 1 path) (path_end path) s.
Proof.
  intros Hm H0 Hl H1 H2 H3. unfold cldu_make_path. destruct path as [|c path]; [done|]. injection H0 as ->. cbn [Huri.at_ head default from_option Z.eqb negb].
  change (47 =? 47) with true. cbn [negb]. rewrite (proj2 (Nat.ltb_ge _ _)) by (cbn in *; lia).
  etransitivity; [apply make_path_loop_equiv; [done|cbn in *; lia|lia|left; done]|].
  assert (slashes 1 (47 :: path) = slashes 4 (47 :: path)) as ->; [|done]. unfold slashes.
  replace (length (47%Z :: path) - 1)%nat with (3 + (length (47%Z :: path) - 4))%nat by lia. rewrite seq_app, filter_app, filter_all_false; [done|].
  intros i Hi%elem_of_seq. assert (i = 1 \/ i = 2 \/ i = 3)%nat as [->|[->| ->]] by lia; done.
Qed.

(** A file of three characters in the root directory is refused, and with one
    or two characters the text after the path is read. *)
Theorem short_path mal sid path s : path !! 0%nat = Some 47 ->
  (length path = 4%nat -> cldu_make_path mal sid path s = Some (- 1, s)) /\ ((length path < 4)%nat -> cldu_make_path mal sid path s = None).
Proof.
  intros H0. destruct path as [|c path]; [done|]. injection H0 as ->. unfold cldu_make_path. cbn [Huri.at_ head default from_option].
  change (47 =? 47) with true. cbn [negb]. split; intros Hl.
  - destruct path as [|a [|b [|c [|]]]]; done.
  - by rewrite (proj2 (Nat.ltb_lt _ _)).
Qed.

(** A first directory of one character is not created. *)
Theorem short_dir_skipped mal sid c path s : (forall i, mal i = true) -> c <> 47 -> (1 < length path)%nat ->
  cldu_make_path mal sid (47 :: c :: 47 :: path) s =
  open_dirs sid ((fun i => take i (47 :: c :: 47 :: path)) <$> slashes 4 (47 :: c :: 47 :: path)) (path_end (47 :: c :: 47 :: path)) s.
Proof.
  intros Hm Hc Hl. unfold cldu_make_path. cbn [Huri.at_ head default from_option]. change (47 =? 47) with true. cbn [negb].
  rewrite (proj2 (Nat.ltb_ge _ _)) by (cbn; lia). apply make_path_loop_equiv; [done|cbn; lia|lia|left; cbn; lia].
Qed.

End path.
