(* ===== verification/Config.v ===== *)
(** * Config: the configuration file of the chunk server (chunkd/config.c)

    GLib's markup parser calls three functions for the elements and texts of
    the file; they collect values in a context and put them into the server's
    structure and the list of CLD hosts.  The parser is a parameter: a file is
    the events it makes of it.  System calls are an environment; waiting for a
    port file takes fuel, [None] is waiting longer. *)

From Stdlib Require Import String.
From S2P Require Import Prelude Wire Huri Hstor Startup Dns Cldu.
#[local] Open Scope Z_scope.

(** ** Data *)

Record config_context : Type := mkCc {
  cc_text : option bytes;
  cc_badnid : bool;
  cc_in_ssl : bool;
  cc_in_listen : bool;
  cc_in_chk : bool;
  cc_have_ssl : bool;
  cc_in_geo : bool;
  cc_geo : geo;
  cc_in_cld : bool;
  cc_cld_port : Z;
  cc_cld_host : option bytes;
  cc_cld_port_file : option bytes;
  cc_tmp_listen : listen_cfg }.

Definition set_cc_text x c := mkCc x (cc_badnid c) (cc_in_ssl c) (cc_in_listen c) (cc_in_chk c) (cc_have_ssl c) (cc_in_geo c) (cc_geo c) (cc_in_cld c) (cc_cld_port c) (cc_cld_host c) (cc_cld_port_file c) (cc_tmp_listen c).
Definition set_cc_badnid x c := mkCc (cc_text c) x (cc_in_ssl c) (cc_in_listen c) (cc_in_chk c) (cc_have_ssl c) (cc_in_geo c) (cc_geo c) (cc_in_cld c) (cc_cld_port c) (cc_cld_host c) (cc_cld_port_file c) (cc_tmp_listen c).
Definition set_cc_in_ssl x c := mkCc (cc_text c) (cc_badnid c) x (cc_in_listen c) (cc_in_chk c) (cc_have_ssl c) (cc_in_geo c) (cc_geo c) (cc_in_cld c) (cc_cld_port c) (cc_cld_host c) (cc_cld_port_file c) (cc_tmp_listen c).
Definition set_cc_in_listen x c := mkCc (cc_text c) (cc_badnid c) (cc_in_ssl c) x (cc_in_chk c) (cc_have_ssl c) (cc_in_geo c) (cc_geo c) (cc_in_cld c) (cc_cld_port c) (cc_cld_host c) (cc_cld_port_file c) (cc_tmp_listen c).
Definition set_cc_in_chk x c := mkCc (cc_text c) (cc_badnid c) (cc_in_ssl c) (cc_in_listen c) x (cc_have_ssl c) (cc_in_geo c) (cc_geo c) (cc_in_cld c) (cc_cld_port c) (cc_cld_host c) (cc_cld_port_file c) (cc_tmp_listen c).
Definition set_cc_have_ssl x c := mkCc (cc_text c) (cc_badnid c) (cc_in_ssl c) (cc_in_listen c) (cc_in_chk c) x (cc_in_geo c) (cc_geo c) (cc_in_cld c) (cc_cld_port c) (cc_cld_host c) (cc_cld_port_file c) (cc_tmp_listen c).
Definition set_cc_in_geo x c := mkCc (cc_text c) (cc_badnid c) (cc_in_ssl c) (cc_in_listen c) (cc_in_chk c) (cc_have_ssl c) x (cc_geo c) (cc_in_cld c) (cc_cld_port c) (cc_cld_host c) (cc_cld_port_file c) (cc_tmp_listen c).
Definition set_cc_geo x c := mkCc (cc_text c) (cc_badnid c) (cc_in_ssl c) (cc_in_listen c) (cc_in_chk c) (cc_have_ssl c) (cc_in_geo c) x (cc_in_cld c) (cc_cld_port c) (cc_cld_host c) (cc_cld_port_file c) (cc_tmp_listen c).
Definition set_cc_in_cld x c := mkCc (cc_text c) (cc_badnid c) (cc_in_ssl c) (cc_in_listen c) (cc_in_chk c) (cc_have_ssl c) (cc_in_geo c) (cc_geo c) x (cc_cld_port c) (cc_cld_host c) (cc_cld_port_file c) (cc_tmp_listen c).
Definition set_cc_cld_port x c := mkCc (cc_text c) (cc_badnid c) (cc_in_ssl c) (cc_in_listen c) (cc_in_chk c) (cc_have_ssl c) (cc_in_geo c) (cc_geo c) (cc_in_cld c) x (cc_cld_host c) (cc_cld_port_file c) (cc_tmp_listen c).
Definition set_cc_cld_host x c := mkCc (cc_text c) (cc_badnid c) (cc_in_ssl c) (cc_in_listen c) (cc_in_chk c) (cc_have_ssl c) (cc_in_geo c) (cc_geo c) (cc_in_cld c) (cc_cld_port c) x (cc_cld_port_file c) (cc_tmp_listen c).
Definition set_cc_cld_port_file x c := mkCc (cc_text c) (cc_badnid c) (cc_in_ssl c) (cc_in_listen c) (cc_in_chk c) (cc_have_ssl c) (cc_in_geo c) (cc_geo c) (cc_in_cld c) (cc_cld_port c) (cc_cld_host c) x (cc_tmp_listen c).
Definition set_cc_tmp_listen x c := mkCc (cc_text c) (cc_badnid c) (cc_in_ssl c) (cc_in_listen c) (cc_in_chk c) (cc_have_ssl c) (cc_in_geo c) (cc_geo c) (cc_in_cld c) (cc_cld_port c) (cc_cld_host c) (cc_cld_port_file c) x.

(** What [struct server] holds of the configuration. *)
Record server_cfg : Type := mkSv {
  sv_pid_file : option bytes;
  sv_ourhost : option bytes;
  sv_vol_path : option bytes;
  sv_chk_users : list bytes;
  sv_listeners : list listen_cfg;
  sv_nid : Z;
  sv_info_path : option bytes;
  sv_loc : geo;
  sv_ssl : bool }.                          (* is [ssl_ctx] there? *)

Definition set_sv_pid_file x v := mkSv x (sv_ourhost v) (sv_vol_path v) (sv_chk_users v) (sv_listeners v) (sv_nid v) (sv_info_path v) (sv_loc v) (sv_ssl v).
Definition set_sv_ourhost x v := mkSv (sv_pid_file v) x (sv_vol_path v) (sv_chk_users v) (sv_listeners v) (sv_nid v) (sv_info_path v) (sv_loc v) (sv_ssl v).
Definition set_sv_vol_path x v := mkSv (sv_pid_file v) (sv_ourhost v) x (sv_chk_users v) (sv_listeners v) (sv_nid v) (sv_info_path v) (sv_loc v) (sv_ssl v).
Definition set_sv_chk_users x v := mkSv (sv_pid_file v) (sv_ourhost v) (sv_vol_path v) x (sv_listeners v) (sv_nid v) (sv_info_path v) (sv_loc v) (sv_ssl v).
Definition set_sv_listeners x v := mkSv (sv_pid_file v) (sv_ourhost v) (sv_vol_path v) (sv_chk_users v) x (sv_nid v) (sv_info_path v) (sv_loc v) (sv_ssl v).
Definition set_sv_nid x v := mkSv (sv_pid_file v) (sv_ourhost v) (sv_vol_path v) (sv_chk_users v) (sv_listeners v) x (sv_info_path v) (sv_loc v) (sv_ssl v).
Definition set_sv_info_path x v := mkSv (sv_pid_file v) (sv_ourhost v) (sv_vol_path v) (sv_chk_users v) (sv_listeners v) (sv_nid v) x (sv_loc v) (sv_ssl v).
Definition set_sv_loc x v := mkSv (sv_pid_file v) (sv_ourhost v) (sv_vol_path v) (sv_chk_users v) (sv_listeners v) (sv_nid v) (sv_info_path v) x (sv_ssl v).
Definition set_sv_ssl x v := mkSv (sv_pid_file v) (sv_ourhost v) (sv_vol_path v) (sv_chk_users v) (sv_listeners v) (sv_nid v) (sv_info_path v) (sv_loc v) x.

(** The context, the server and the CLD session. *)
Record cfgst : Type := mkCfg { g_cc : config_context; g_sv : server_cfg; g_cs : cld_session }.
Definition on_cc (f : config_context -> config_context) (g : cfgst) : cfgst := mkCfg (f (g_cc g)) (g_sv g) (g_cs g).
Definition on_sv (f : server_cfg -> server_cfg) (g : cfgst) : cfgst := mkCfg (g_cc g) (f (g_sv g)) (g_cs g).

Inductive mevent : Type := MStart (element_name : bytes) | MText (text : bytes) | MEnd (element_name : bytes).

(** [ce_stat]: is it there, and is it a directory?  [ce_readport f i]: the
    [i]-th reading of the port file [f]. *)
Record cfg_env : Type := mkEnv {
  ce_stat : bytes -> option bool;
  ce_malloc : bool;
  ce_saveaddr : bool;
  ce_readport : bytes -> nat -> Z;
  ce_key_ok : bool;
  ce_strdup : bool }.

(** ** Texts *)

Definition isalpha (c : Z) : bool := ((65 <=? c) && (c <=? 90)) || ((97 <=? c) && (c <=? 122)).

(** [n] characters have been passed. *)
Fixpoint good_info_loop (n : Z) (s : bytes) : bool :=
  match s with
  | [] => true
  | c :: s =>
      if CLD_INODE_NAME_MAX <=? n then false else
      if negb (isalpha c || isdigit c || (c =? 45) || (c =? 95) || (c =? 46) || (c =? 47)) then false else
      good_info_loop (n + 1) s
  end.
Definition is_good_info_name (s : bytes) : bool := good_info_loop 0 s.

Definition str_n_isspace (s : bytes) : bool := forallb ISSPACE s.

Definition cfg_elm_text (text : bytes) (g : cfgst) : cfgst :=
  on_cc (set_cc_text (if str_n_isspace text then None else Some text)) g.

(** ** Elements *)

Definition cfg_elm_start (element_name : bytes) (g : cfgst) : cfgst :=
  if is_name element_name "SSL" then on_cc (set_cc_in_ssl true) g else
  if is_name element_name "Listen" then on_cc (set_cc_in_listen true) g else
  if is_name element_name "Geo" then on_cc (set_cc_in_geo true) g else
  if is_name element_name "CLD" then on_cc (set_cc_in_cld true) g else
  if is_name element_name "Check" then on_cc (set_cc_in_chk true) g else g.

Definition no_listen : listen_cfg := mkListen None None None.

Definition cfg_elm_end_listen (e : cfg_env) (g : cfgst) : cfgst :=
  let cc := g_cc g in
  match cc_text cc with
  | Some _ => on_cc (set_cc_text None) g
  | None =>
      match lc_port (cc_tmp_listen cc) with
      | None => on_cc (set_cc_tmp_listen no_listen) g
      | Some _ =>
          if negb (ce_malloc e) then on_cc (set_cc_tmp_listen no_listen) g else
          on_cc (set_cc_tmp_listen no_listen)
            (on_sv (fun v => set_sv_listeners (sv_listeners v ++ [cc_tmp_listen cc]) v) g)
      end
  end.

Definition no_geo : geo := mkGeo None None None.

Definition cfg_elm_end_geo (g : cfgst) : cfgst :=
  match cc_text (g_cc g) with
  | Some _ => on_cc (fun c => set_cc_geo no_geo (set_cc_text None c)) g
  | None => on_cc (set_cc_geo no_geo) (on_sv (set_sv_loc (cc_geo (g_cc g))) g)
  end.

Section elements.
Context {RS : Resolver}.
Variable e : cfg_env.

(** The readings of a port file from the [i]-th on, until there is a port. *)
Fixpoint wait_port (fuel i : nat) (fname : bytes) : option Z :=
  match fuel with
  | O => None
  | S fuel => if 0 <? ce_readport e fname i then Some (ce_readport e fname i) else wait_port fuel (S i) fname
  end.

(** From [end:] on. *)
Definition cld_end_of (c : config_context) : config_context := set_cc_cld_port 0 (set_cc_cld_host None c).

Definition cfg_elm_end_cld (fuel : nat) (g : cfgst) : option cfgst :=
  let cc := g_cc g in
  match cc_text cc with
  | Some _ => Some (on_cc (fun c => cld_end_of (set_cc_text None c)) g)
  | None =>
      match cc_cld_host cc with
      | None => Some (on_cc cld_end_of g)
      | Some host =>
          match cc_cld_port_file cc with
          | None =>
              if cc_cld_port cc =? 0 then Some (on_cc cld_end_of g) else
              Some (on_cc cld_end_of (mkCfg cc (g_sv g) (cldu_add_host (ce_saveaddr e) host (cc_cld_port cc) (g_cs g))))
          | Some fname =>
              port ← wait_port fuel 0 fname;
              Some (on_cc cld_end_of (mkCfg cc (g_sv g) (cldu_add_host (ce_saveaddr e) host (u16 port) (g_cs g))))
          end
      end
  end.

(** [cc->text = NULL] *)
Definition no_text (g : cfgst) : cfgst := on_cc (set_cc_text None) g.

Definition end_path (text : bytes) (g : cfgst) : cfgst :=
  match ce_stat e text with
  | Some true => no_text (on_sv (set_sv_vol_path (Some text)) g)
  | _ => g
  end.

Definition end_port (g : cfgst) : cfgst :=
  let cc := g_cc g in
  match cc_text cc with
  | None => g
  | Some text =>
      if cc_in_listen cc then
        let n := strtol text in
        if ((0 <? n) && (n <? 65536)) || bool_decide (text = AUTO)
        then no_text (on_cc (set_cc_tmp_listen (mkListen (lc_node (cc_tmp_listen cc)) (Some text) (lc_port_file (cc_tmp_listen cc)))) g)
        else no_text g
      else if cc_in_cld cc then
        let n := strtol text in
        if (0 <? n) && (n <? 65536) then no_text (on_cc (set_cc_cld_port n) g) else no_text g
      else g
  end.

Definition end_nid (text : bytes) (g : cfgst) : cfgst :=
  let n := strtol text in
  if (n <=? 0) || (LONG_MAX <=? n) then no_text (on_cc (set_cc_badnid true) g)
  else no_text (on_sv (set_sv_nid (u32 n)) g).

Definition end_port_file (g : cfgst) : cfgst :=
  let cc := g_cc g in
  match cc_text cc with
  | None => g
  | Some text =>
      if cc_in_listen cc
      then no_text (on_cc (set_cc_tmp_listen (mkListen (lc_node (cc_tmp_listen cc)) (lc_port (cc_tmp_listen cc)) (Some text))) g)
      else if cc_in_cld cc then no_text (on_cc (set_cc_cld_port_file (Some text)) g)
      else no_text g
  end.

Definition end_host (g : cfgst) : cfgst :=
  let cc := g_cc g in
  match cc_text cc with
  | None => g
  | Some text => if cc_in_cld cc then no_text (on_cc (set_cc_cld_host (Some text)) g) else g
  end.

(** The tests are in the order of the source; [has] is [cc->text]. *)
Definition cfg_elm_end (fuel : nat) (element_name : bytes) (g : cfgst) : option cfgst :=
  let cc := g_cc g in
  let name := is_name element_name in
  let has := bool_decide (is_Some (cc_text cc)) in
  let text := default [] (cc_text cc) in
  if name "PID"%string && has then
    Some (no_text (match sv_pid_file (g_sv g) with Some _ => g | None => on_sv (set_sv_pid_file (Some text)) g end))
  else if name "ForceHost"%string && has then Some (no_text (on_sv (set_sv_ourhost (Some text)) g))
  else if name "Path"%string && has then Some (end_path text g)
  else if name "SSL"%string then Some (on_cc (set_cc_in_ssl false) g)
  else if cc_in_chk cc && has && name "User"%string then
    Some (no_text (on_sv (fun v => set_sv_chk_users (sv_chk_users v ++ [text]) v) g))
  else if name "Check"%string then Some (on_cc (set_cc_in_chk false) g)
  else if cc_in_ssl cc && has && name "PrivateKey"%string then Some (no_text (on_cc (set_cc_have_ssl true) g))
  else if cc_in_ssl cc && has && name "Cert"%string then Some (no_text (on_cc (set_cc_have_ssl true) g))
  else if name "Listen"%string then Some (on_cc (set_cc_in_listen false) (cfg_elm_end_listen e g))
  else if name "CLD"%string then on_cc (set_cc_in_cld false) <$> cfg_elm_end_cld fuel g
  else if name "Port"%string then Some (end_port g)
  else if cc_in_listen cc && has && name "Node"%string then
    Some (no_text (on_cc (set_cc_tmp_listen (mkListen (Some text) (lc_port (cc_tmp_listen cc)) (lc_port_file (cc_tmp_listen cc)))) g))
  else if name "Host"%string then Some (end_host g)
  else if name "NID"%string && has then Some (end_nid text g)
  else if name "InfoPath"%string then
    Some (if has then no_text (on_sv (set_sv_info_path (Some text)) g) else g)
  else if name "Geo"%string && has then Some (on_cc (set_cc_in_geo false) (cfg_elm_end_geo g))
  else if name "PortFile"%string then Some (end_port_file g)
  else Some g.

Definition cfg_event (fuel : nat) (ev : mevent) (g : cfgst) : option cfgst :=
  match ev with
  | MStart n => Some (cfg_elm_start n g)
  | MText t => Some (cfg_elm_text t g)
  | MEnd n => cfg_elm_end fuel n g
  end.

Fixpoint cfg_events (fuel : nat) (evs : list mevent) (g : cfgst) : option cfgst :=
  match evs with
  | [] => Some g
  | ev :: evs => g ← cfg_event fuel ev g; cfg_events fuel evs g
  end.

(** ** Reading the file *)

Definition no_context : config_context := mkCc None false false false false false false no_geo false 0 None None no_listen.

(** The checks after the file has been parsed; [None] is [exit(1)]. *)
Definition check_config (g : cfgst) : option cfgst :=
  match sv_vol_path (g_sv g) with
  | None => None
  | Some _ =>
      if cc_have_ssl (g_cc g) && negb (ce_key_ok e) then None else
      let g := if cc_have_ssl (g_cc g) then g else on_sv (set_sv_ssl false) g in
      match sv_listeners (g_sv g) with
      | [] => None
      | _ =>
          let pid := match sv_pid_file (g_sv g) with
                     | Some p => Some p
                     | None => if ce_strdup e then Some (str "/var/run/chunkd.pid") else None
                     end in
          match pid with
          | None => None
          | Some _ =>
              let g := on_sv (set_sv_pid_file pid) g in
              match sv_info_path (g_sv g) with
              | None => None
              | Some path =>
                  if negb (at_ path =? 47) then None else
                  if negb (is_good_info_name path) then None else
                  if (sv_nid (g_sv g) =? 0) && cc_badnid (g_cc g) then None else
                  Some g
              end
          end
      end
  end.

(** [evs]: the contents of the file as the parser gives it; it is not there,
    or does not parse, if [None].  The outer [None] is waiting for a port file;
    [Some None] is [exit(1)]. *)
Definition read_config (fuel : nat) (evs : option (list mevent)) (sv : server_cfg) (cs : cld_session) : option (option cfgst) :=
  match evs with
  | None => Some None
  | Some evs => check_config <$> cfg_events fuel evs (mkCfg no_context sv cs)
  end.

End elements.
