(* ===== verification/ConfigProps.v ===== *)
(** * ConfigProps: what is accepted as a configuration, and what it means *)

From Stdlib Require Import String.
From S2P Require Import Prelude Huri Hstor HstorProps Wire Startup Dns Cldu Config.
#[local] Open Scope Z_scope.

(** ** What every configuration leaves *)

Definition good_port (p : bytes) : Prop := 0 < strtol p < 65536 \/ p = AUTO.
Definition good_listener (c : listen_cfg) : Prop := exists p, lc_port c = Some p /\ good_port p.

Section inv.
Context {RS : Resolver}.
Variable e : cfg_env.

Record cfg_ok (loc : geo) (g : cfgst) : Prop := {
  co_geo : cc_geo (g_cc g) = no_geo;
  co_loc : sv_loc (g_sv g) = loc;
  co_tmp : forall p, lc_port (cc_tmp_listen (g_cc g)) = Some p -> good_port p;
  co_listeners : Forall good_listener (sv_listeners (g_sv g));
  co_path : forall p, sv_vol_path (g_sv g) = Some p -> ce_stat e p = Some true;
  co_nid : 0 <= sv_nid (g_sv g) < 2 ^ 32 }.

(** Changes that do not matter. *)
Lemma cfg_ok_same loc g g' : cfg_ok loc g ->
  cc_geo (g_cc g') = cc_geo (g_cc g) -> sv_loc (g_sv g') = sv_loc (g_sv g) -> cc_tmp_listen (g_cc g') = cc_tmp_listen (g_cc g) ->
  sv_listeners (g_sv g') = sv_listeners (g_sv g) -> sv_vol_path (g_sv g') = sv_vol_path (g_sv g) -> sv_nid (g_sv g') = sv_nid (g_sv g) -> cfg_ok loc g'.
Proof. intros [] E1 E2 E3 E4 E5 E6. split; rewrite ?E1, ?E2, ?E3, ?E4, ?E5, ?E6; done. Qed.

Ltac same H := apply (cfg_ok_same _ _ _ H); done.

Lemma cfg_start_ok loc n g : cfg_ok loc g -> cfg_ok loc (cfg_elm_start n g).
Proof. intros H. unfold cfg_elm_start. repeat case_match; try done; same H. Qed.

Lemma listen_ok loc g : cfg_ok loc g -> cfg_ok loc (cfg_elm_end_listen e g).
Proof.
  intros H. unfold cfg_elm_end_listen. destruct (cc_text _); [same H|]. destruct (lc_port _) as [p|] eqn:Ep; [|by destruct H].
  destruct (negb _); destruct H as [H1 H2 H3 H4 H5 H6]; split; try done. cbn. apply Forall_app. split; [done|]. repeat constructor. exists p. auto.
Qed.

Lemma cld_ok loc fuel g g' : cfg_ok loc g -> cfg_elm_end_cld e fuel g = Some g' -> cfg_ok loc g'.
Proof.
  intros H. unfold cfg_elm_end_cld. destruct (cc_text _); [intros [= <-]; same H|]. destruct (cc_cld_host _); [|intros [= <-]; same H].
  destruct (cc_cld_port_file _).
  - destruct (wait_port _ _ _ _); [|done]. intros [= <-]. same H.
  - destruct (_ =? 0); intros [= <-]; same H.
Qed.

Lemma port_ok loc g : cfg_ok loc g -> cfg_ok loc (end_port g).
Proof.
  intros H. unfold end_port. destruct (cc_text _) as [t|]; [|done]. destruct (cc_in_listen _).
  - destruct (_ || _) eqn:E; [|same H]. destruct H as [H1 H2 H3 H4 H5 H6]. split; try done. cbn. intros p [= <-].
    apply orb_true_iff in E as [E|E%bool_decide_eq_true]; [left; lia|by right].
  - destruct (cc_in_cld _); [|done]. destruct (_ && _); same H.
Qed.

Lemma geo_ok loc g : cfg_ok loc g -> is_Some (cc_text (g_cc g)) -> cfg_ok loc (cfg_elm_end_geo g).
Proof. intros [H1 H2 H3 H4 H5 H6] [t Ht]. unfold cfg_elm_end_geo. rewrite Ht. by split. Qed.

Lemma path_ok loc t g : cfg_ok loc g -> cfg_ok loc (end_path e t g).
Proof. intros H. unfold end_path. destruct (ce_stat e t) as [[|]|] eqn:E; try done. destruct H. split; try done. cbn. by intros p [= <-]. Qed.

Lemma nid_ok loc t g : cfg_ok loc g -> cfg_ok loc (end_nid t g).
Proof.
  intros H. unfold end_nid. destruct (_ || _); [same H|]. destruct H as [H1 H2 H3 H4 H5 H6]. split; try done. cbn. by apply uw_bound.
Qed.

Lemma misc_ok loc g : cfg_ok loc g -> cfg_ok loc (end_host g) /\ cfg_ok loc (end_port_file g).
Proof.
  intros H. unfold end_host, end_port_file. destruct (cc_text _); [|done]. split.
  - destruct (cc_in_cld _); [same H|done].
  - destruct (cc_in_listen _); [destruct H; by split|]. destruct (cc_in_cld _); same H.
Qed.

Lemma end_ok loc fuel n g g' : cfg_ok loc g -> cfg_elm_end e fuel n g = Some g' -> cfg_ok loc g'.
Proof.
  intros H. unfold cfg_elm_end. cbv zeta.
  repeat match goal with |- (if ?b then _ else _) = _ -> _ => let E := fresh "E" in destruct b eqn:E end.
  all: try (intros [= <-]; first [same H | by apply path_ok | by apply port_ok | by apply nid_ok | by apply misc_ok]).
  - intros [= <-]. destruct (sv_pid_file _); same H.
  - intros [= <-]. apply (cfg_ok_same _ _ _ (listen_ok _ _ H)); done.
  - intros (g1 & Hg & ->)%fmap_Some. apply (cfg_ok_same _ _ _ (cld_ok _ _ _ _ H Hg)); done.
  - intros [= <-]. destruct H as [H1 H2 H3 H4 H5 H6]. by split.
  - intros [= <-]. destruct (bool_decide _); [same H|done].
  - intros [= <-]. apply andb_true_iff in E14 as [_ Hs%bool_decide_eq_true]. apply (cfg_ok_same _ _ _ (geo_ok _ _ H Hs)); done.
Qed.

Lemma events_ok loc fuel evs g g' : cfg_ok loc g -> cfg_events e fuel evs g = Some g' -> cfg_ok loc g'.
Proof.
  revert g. induction evs as [|ev evs IH]; intros g H; cbn; [by intros [= <-]|]. destruct (cfg_event e fuel ev g) as [g1|] eqn:E; [|done].
  cbn. apply IH. destruct ev; cbn in E.
  - injection E as <-. by apply cfg_start_ok.
  - injection E as <-. same H.
  - by eapply end_ok.
Qed.

Lemma check_ok g g' : check_config e g = Some g' ->
  (g_cc g' = g_cc g /\ sv_loc (g_sv g') = sv_loc (g_sv g) /\ sv_listeners (g_sv g') = sv_listeners (g_sv g) /\
   sv_vol_path (g_sv g') = sv_vol_path (g_sv g) /\ sv_nid (g_sv g') = sv_nid (g_sv g)) /\
  is_Some (sv_vol_path (g_sv g')) /\ sv_listeners (g_sv g') <> [] /\ is_Some (sv_pid_file (g_sv g')) /\
  (exists path, sv_info_path (g_sv g') = Some path /\ at_ path = 47 /\ is_good_info_name path = true).
Proof.
  unfold check_config. destruct (sv_vol_path (g_sv g)) as [vp|] eqn:Ev; [|done]. destruct (_ && _); [done|].
  assert (forall b : bool, let g1 := if b then g else on_sv (set_sv_ssl false) g in
    g_cc g1 = g_cc g /\ sv_loc (g_sv g1) = sv_loc (g_sv g) /\ sv_listeners (g_sv g1) = sv_listeners (g_sv g) /\
    sv_vol_path (g_sv g1) = sv_vol_path (g_sv g) /\ sv_nid (g_sv g1) = sv_nid (g_sv g)) as Hg by (by intros []).
  specialize (Hg (cc_have_ssl (g_cc g))). cbv zeta in *. set (g1 := if cc_have_ssl (g_cc g) then _ else _) in *. clearbody g1.
  destruct Hg as (G1 & G2 & G3 & G4 & G5). destruct (sv_listeners (g_sv g1)) eqn:El; [done|].
  destruct (match sv_pid_file (g_sv g1) with Some p => Some p | None => _ end) as [pid|] eqn:Ep; [|done].
  cbn. destruct (sv_info_path (g_sv g1)) as [path|] eqn:Ei; [|done].
  destruct (Z.eqb_spec (at_ path) 47) as [Ha|Ha]; [|done]. cbn [negb]. destruct (is_good_info_name path) eqn:Eg; [|done]. cbn [negb].
  destruct (_ && _); [done|]. intros [= <-]. cbn. rewrite El, Ei, G4, Ev. split_and!; try done; try congruence; try by eexists.
Qed.

Lemma good_info n s : good_info_loop n s = true -> 0 <= n -> n + Z.of_nat (List.length s) <= Z.max n CLD_INODE_NAME_MAX /\
  Forall (fun c => isalpha c || isdigit c || (c =? 45) || (c =? 95) || (c =? 46) || (c =? 47) = true) s.
Proof.
  revert n. induction s as [|c s IH]; intros n; cbn [good_info_loop]; [intros; split; [cbn; lia|done]|].
  destruct (Z.leb_spec CLD_INODE_NAME_MAX n); [done|]. destruct (negb _) eqn:E; [done|]. apply negb_false_iff in E. intros Hs Hn.
  destruct (IH (n + 1) Hs ltac:(lia)) as [Hl Hf]. split; [cbn [List.length]; lia|by constructor].
Qed.

(** C34.  An accepted configuration is usable: when [read_config] goes on, the
    volume is a directory, there is a listener and each has a port that is a
    number from 1 to 65535 or automatic, there is a pid file, and the name in CLD
    is absolute, at most [CLD_INODE_NAME_MAX] long and of plain characters;
    everything else ends the process. *)
Theorem config_accepted fuel evs sv cs g :
  sv_listeners sv = [] -> sv_vol_path sv = None -> 0 <= sv_nid sv < 2 ^ 32 ->
  read_config e fuel (Some evs) sv cs = Some (Some g) ->
  (exists p, sv_vol_path (g_sv g) = Some p /\ ce_stat e p = Some true) /\
  sv_listeners (g_sv g) <> [] /\ Forall good_listener (sv_listeners (g_sv g)) /\ is_Some (sv_pid_file (g_sv g)) /\
  0 <= sv_nid (g_sv g) < 2 ^ 32 /\
  (exists path, sv_info_path (g_sv g) = Some path /\ head path = Some 47 /\ Z.of_nat (List.length path) <= CLD_INODE_NAME_MAX /\
     Forall (fun c => isalpha c || isdigit c || (c =? 45) || (c =? 95) || (c =? 46) || (c =? 47) = true) path).
Proof.
  intros Hl Hv Hn. unfold read_config. destruct (cfg_events e fuel evs _) as [g1|] eqn:E; [|done]. cbn. intros [= Hc].
  assert (cfg_ok (sv_loc sv) g1) as Hok. { eapply events_ok; [|exact E]. split; cbn; try done; try (by rewrite Hl); try (by rewrite Hv). }
  apply check_ok in Hc as ((_ & _ & E2 & E3 & E4) & [p Hp] & Hne & Hpid & path & Hi & Ha & Hg). destruct Hok as [_ _ _ H4 H5 H6].
  split; [exists p; split; [done|]; apply H5; congruence|]. split; [done|]. split; [by rewrite E2|]. split; [done|]. split; [by rewrite E4|].
  exists path. destruct (good_info 0 path Hg ltac:(lia)) as [HL HF]. split_and!; [done| |unfold CLD_INODE_NAME_MAX in *; lia|done].
  destruct path as [|c path]; [done|]. cbn in Ha. by subst c.
Qed.

(** The place of a chunk server is never announced: whatever the
    configuration says of it, the description registered in CLD ends with a
    location of dashes. *)
Theorem geo_not_announced fuel evs sv cs g mal k host buf :
  sv_loc sv = no_geo -> sv_listeners sv = [] -> sv_vol_path sv = None -> 0 <= sv_nid sv < 2 ^ 32 ->
  read_config e fuel (Some evs) sv cs = Some (Some g) ->
  cldu_make_ffile mal k (cldu_saveargs (default [] (sv_info_path (g_sv g))) (sv_nid (g_sv g)) host (sv_loc (g_sv g)) (g_cs g)) = Some buf ->
  exists front, buf = front ++ geo_text no_geo.
Proof.
  intros Hloc Hl Hv Hn. unfold read_config. destruct (cfg_events e fuel evs _) as [g1|] eqn:E; [|done]. cbn [fmap option_fmap option_map]. intros [= Hc].
  assert (cfg_ok no_geo g1) as Hok. { eapply events_ok; [|exact E]. split; cbn; try done; try (by rewrite Hl); try (by rewrite Hv). }
  apply check_ok in Hc as ((_ & E1 & _) & _). rewrite E1, (co_loc _ _ Hok). unfold cldu_make_ffile.
  destruct (negb _); [done|]. destruct (socket_texts _ _ _ _ _) as [l|]; [|done]. cbn [mbind option_bind]. destruct (negb _); [done|]. destruct (negb _); [done|].
  intros Heq%(inj Some). subst buf. cbn [cu_ploc cldu_saveargs concat]. rewrite concat_app. cbn [concat]. rewrite app_nil_r.
  eexists. by rewrite app_assoc.
Qed.

End inv.

(** ** A configuration that is written is read

    [print_conf]: the elements of a configuration, as the parser reports them;
    between the elements of a block there is white space. *)

#[local] Arguments fmt_lu : simpl never.

Record chunk_conf : Type := mkConf {
  cf_path : bytes;
  cf_listen : list listen_cfg;
  cf_nid : Z;
  cf_info : bytes;
  cf_host : bytes;
  cf_pid : bytes;
  cf_users : list bytes;
  cf_cld : list (bytes * Z) }.

Definition elem (n : string) (t : bytes) : list mevent := [MStart (str n); MText t; MEnd (str n)].
Definition opt_elem (n : string) (t : option bytes) : list mevent := match t with Some t => elem n t | None => [] end.
Definition block (n : string) (body : list mevent) : list mevent := MStart (str n) :: MText [10] :: body ++ [MText [10; 32]; MEnd (str n)].

Definition print_listen (c : listen_cfg) : list mevent :=
  block "Listen" (opt_elem "Node" (lc_node c) ++ opt_elem "Port" (lc_port c) ++ opt_elem "PortFile" (lc_port_file c)).
Definition print_cld (h : bytes * Z) : list mevent := block "CLD" (elem "Host" h.1 ++ elem "Port" (fmt_lu h.2)).

Definition print_conf (c : chunk_conf) : list mevent :=
  elem "PID" (cf_pid c) ++ elem "ForceHost" (cf_host c) ++ elem "Path" (cf_path c) ++
  concat (print_listen <$> cf_listen c) ++ elem "NID" (fmt_lu (cf_nid c)) ++ elem "InfoPath" (cf_info c) ++
  block "Check" (concat (elem "User" <$> cf_users c)) ++ concat (print_cld <$> cf_cld c).

(** Text that is not white space. *)
Definition visible (t : bytes) : Prop := str_n_isspace t = false.

Section print.
Context {RS : Resolver}.
Variable e : cfg_env.
Variable fuel : nat.

Lemma events_app a b g : cfg_events e fuel (a ++ b) g = cfg_events e fuel a g ≫= cfg_events e fuel b.
Proof. revert g. induction a as [|ev a IH]; intros g; cbn; [done|]. destruct (cfg_event _ _ _ _); cbn; [apply IH|done]. Qed.

(** Comparisons of known names. *)
Ltac names :=
  repeat match goal with |- context [is_name (str ?a) ?b] =>
    let v := eval vm_compute in (is_name (str a) b) in change (is_name (str a) b) with v end;
  cbn [andb orb]; rewrite ?andb_false_r, ?andb_true_r.

(** An element with a text, for which [cfg_elm_start] does nothing. *)
Lemma elem_end n t g : visible t -> cfg_elm_start (str n) g = g ->
  cfg_events e fuel (elem n t) g = cfg_elm_end e fuel (str n) (on_cc (set_cc_text (Some t)) g).
Proof.
  intros Hv Hs. cbn [cfg_events elem cfg_event mbind option_bind]. rewrite Hs. unfold cfg_elm_text. rewrite Hv.
  destruct (cfg_elm_end _ _ _ _); done.
Qed.

Ltac run_elem := rewrite elem_end; [|done|unfold cfg_elm_start; names; done]; unfold cfg_elm_end; cbv zeta; names.

(** The top level. *)
Definition top (sv : server_cfg) (cs : cld_session) : cfgst := mkCfg no_context sv cs.

Lemma pid_top t sv cs : visible t -> sv_pid_file sv = None -> cfg_events e fuel (elem "PID" t) (top sv cs) = Some (top (set_sv_pid_file (Some t) sv) cs).
Proof. intros Hv Hp. run_elem. cbn. by rewrite Hp. Qed.

Lemma host_top t sv cs : visible t -> cfg_events e fuel (elem "ForceHost" t) (top sv cs) = Some (top (set_sv_ourhost (Some t) sv) cs).
Proof. intros Hv. by run_elem. Qed.

Lemma path_top t sv cs : visible t -> ce_stat e t = Some true -> cfg_events e fuel (elem "Path" t) (top sv cs) = Some (top (set_sv_vol_path (Some t) sv) cs).
Proof. intros Hv Hs. run_elem. cbn. unfold end_path. by rewrite Hs. Qed.

Lemma info_top t sv cs : visible t -> cfg_events e fuel (elem "InfoPath" t) (top sv cs) = Some (top (set_sv_info_path (Some t) sv) cs).
Proof. intros Hv. by run_elem. Qed.

Lemma visible_fmt n : 0 <= n -> visible (fmt_lu n).
Proof.
  intros Hn. unfold visible, str_n_isspace. pose proof (fmt_lu_digits n Hn) as Hd. destruct (fmt_lu_cons n) as (c & s & E). rewrite E in *.
  apply Forall_cons in Hd as [Hc _]. cbn. unfold ISSPACE. rewrite (proj2 (Z.leb_gt c 13)), (proj2 (Z.eqb_neq c 32)), andb_false_r by lia. done.
Qed.

Lemma strtol_num n : 0 <= n < 2 ^ 63 -> strtol (fmt_lu n) = n.
Proof. intros Hn. rewrite <- (app_nil_r (fmt_lu n)). by apply strtol_fmt. Qed.

Lemma nid_top n sv cs : 0 < n < 2 ^ 32 -> cfg_events e fuel (elem "NID" (fmt_lu n)) (top sv cs) = Some (top (set_sv_nid n sv) cs).
Proof.
  intros Hn. rewrite elem_end; [|by apply visible_fmt; lia|unfold cfg_elm_start; names; done]. unfold cfg_elm_end. cbv zeta. names.
  cbn. unfold end_nid. rewrite strtol_num by lia. unfold LONG_MAX. rewrite (proj2 (Z.leb_gt _ _)), (proj2 (Z.leb_gt _ _)) by lia. cbn.
  unfold u32. rewrite uw_small by lia. done.
Qed.

(** In a block: from the white space after its beginning to its end. *)
Lemma block_run n body g g1 g2 g3 :
  cfg_elm_start (str n) g = g1 -> cfg_events e fuel body (on_cc (set_cc_text None) g1) = Some g2 ->
  cfg_elm_end e fuel (str n) (on_cc (set_cc_text None) g2) = Some g3 -> cfg_events e fuel (block n body) g = Some g3.
Proof.
  intros <- Hb He. unfold block. cbn [cfg_events cfg_event mbind option_bind]. change (cfg_elm_text [10]) with (on_cc (set_cc_text None)).
  rewrite events_app, Hb. cbn [mbind option_bind cfg_events cfg_event]. change (cfg_elm_text [10; 32]) with (on_cc (set_cc_text None)).
  rewrite He. done.
Qed.

(** In a Listen. *)
Definition in_lst (tmp : listen_cfg) (sv : server_cfg) (cs : cld_session) : cfgst :=
  mkCfg (set_cc_tmp_listen tmp (set_cc_in_listen true no_context)) sv cs.

Definition visible_opt (t : option bytes) : Prop := match t with Some t => visible t | None => True end.
Definition conf_listen (c : listen_cfg) : Prop :=
  visible_opt (lc_node c) /\ visible_opt (lc_port_file c) /\ exists p, lc_port c = Some p /\ visible p /\ good_port p.

Lemma node_lst t tmp sv cs : visible_opt t -> lc_node tmp = None ->
  cfg_events e fuel (opt_elem "Node" t) (in_lst tmp sv cs) = Some (in_lst (mkListen t (lc_port tmp) (lc_port_file tmp)) sv cs).
Proof. intros Hv Hn. destruct t as [t|]; cbn [opt_elem]; [by run_elem|]. destruct tmp. cbn in *. by subst. Qed.

Lemma port_lst p tmp sv cs : visible p -> good_port p ->
  cfg_events e fuel (elem "Port" p) (in_lst tmp sv cs) = Some (in_lst (mkListen (lc_node tmp) (Some p) (lc_port_file tmp)) sv cs).
Proof.
  intros Hv Hg. run_elem. unfold end_port. cbn. assert ((0 <? strtol p) && (strtol p <? 65536) || bool_decide (p = AUTO) = true) as ->; [|done].
  apply orb_true_iff. destruct Hg as [Hg| ->]; [left; lia|right; by apply bool_decide_eq_true].
Qed.

Lemma pfile_lst t tmp sv cs : visible_opt t -> lc_port_file tmp = None ->
  cfg_events e fuel (opt_elem "PortFile" t) (in_lst tmp sv cs) = Some (in_lst (mkListen (lc_node tmp) (lc_port tmp) t) sv cs).
Proof. intros Hv Hn. destruct t as [t|]; cbn [opt_elem]; [by run_elem|]. destruct tmp. cbn in *. by subst. Qed.

Lemma listen_top c sv cs : ce_malloc e = true -> conf_listen c ->
  cfg_events e fuel (print_listen c) (top sv cs) = Some (top (set_sv_listeners (sv_listeners sv ++ [c]) sv) cs).
Proof.
  intros Hm (Hn & Hf & p & Hp & Hv & Hg). eapply block_run; [unfold cfg_elm_start; names; reflexivity| |].
  - rewrite Hp. cbn [opt_elem]. change (on_cc _ _) with (in_lst no_listen sv cs). rewrite !events_app, node_lst by done. cbn [mbind option_bind].
    rewrite events_app, port_lst by done. cbn [mbind option_bind]. by rewrite pfile_lst.
  - unfold cfg_elm_end. cbv zeta. names. unfold cfg_elm_end_listen. cbn. rewrite Hm. destruct c. cbn in *. by subst.
Qed.

Lemma listens_top l sv cs : ce_malloc e = true -> Forall conf_listen l ->
  cfg_events e fuel (concat (print_listen <$> l)) (top sv cs) = Some (top (set_sv_listeners (sv_listeners sv ++ l) sv) cs).
Proof.
  intros Hm Hl. revert sv. induction Hl as [|c l Hc _ IH]; intros sv; cbn [fmap list_fmap concat]; [destruct sv; cbn; by rewrite app_nil_r|].
  rewrite events_app, listen_top by done. cbn [mbind option_bind]. rewrite IH. cbn. by rewrite <- app_assoc.
Qed.

(** In a Check. *)
Definition in_chk (sv : server_cfg) (cs : cld_session) : cfgst := mkCfg (set_cc_in_chk true no_context) sv cs.

Lemma user_chk t sv cs : visible t ->
  cfg_events e fuel (elem "User" t) (in_chk sv cs) = Some (in_chk (set_sv_chk_users (sv_chk_users sv ++ [t]) sv) cs).
Proof. intros Hv. by run_elem. Qed.

Lemma users_chk l sv cs : Forall visible l ->
  cfg_events e fuel (concat (elem "User" <$> l)) (in_chk sv cs) = Some (in_chk (set_sv_chk_users (sv_chk_users sv ++ l) sv) cs).
Proof.
  intros Hl. revert sv. induction Hl as [|t l Ht _ IH]; intros sv; cbn [fmap list_fmap concat]; [destruct sv; cbn; by rewrite app_nil_r|].
  rewrite events_app, user_chk by done. cbn [mbind option_bind]. rewrite IH. cbn. by rewrite <- app_assoc.
Qed.

Lemma check_top l sv cs : Forall visible l ->
  cfg_events e fuel (block "Check" (concat (elem "User" <$> l))) (top sv cs) = Some (top (set_sv_chk_users (sv_chk_users sv ++ l) sv) cs).
Proof.
  intros Hl. eapply block_run; [unfold cfg_elm_start; names; reflexivity| |].
  - change (on_cc _ _) with (in_chk sv cs). by apply users_chk.
  - unfold cfg_elm_end. cbv zeta. by names.
Qed.

(** In a CLD. *)
Definition in_cld (host : option bytes) (port : Z) (sv : server_cfg) (cs : cld_session) : cfgst :=
  mkCfg (set_cc_cld_host host (set_cc_cld_port port (set_cc_in_cld true no_context))) sv cs.

Definition conf_cld (h : bytes * Z) : Prop := visible h.1 /\ 0 < h.2 < 65536.

Definition add_host (cs : cld_session) (h : bytes * Z) : cld_session := cldu_add_host (ce_saveaddr e) h.1 h.2 cs.

Lemma host_cld t p sv cs : visible t -> cfg_events e fuel (elem "Host" t) (in_cld None p sv cs) = Some (in_cld (Some t) p sv cs).
Proof. intros Hv. by run_elem. Qed.

Lemma port_cld h n m sv cs : 0 < n < 65536 -> cfg_events e fuel (elem "Port" (fmt_lu n)) (in_cld h m sv cs) = Some (in_cld h n sv cs).
Proof.
  intros Hn. rewrite elem_end; [|by apply visible_fmt; lia|unfold cfg_elm_start; names; done]. unfold cfg_elm_end. cbv zeta. names.
  unfold end_port. cbn. rewrite strtol_num by lia. rewrite (proj2 (Z.ltb_lt _ _)), (proj2 (Z.ltb_lt _ _)) by lia. done.
Qed.

Lemma cld_top h sv cs : conf_cld h -> cfg_events e fuel (print_cld h) (top sv cs) = Some (top sv (add_host cs h)).
Proof.
  intros [Hv Hp]. eapply (block_run _ _ _ _ (in_cld (Some h.1) h.2 sv cs)); [unfold cfg_elm_start; names; reflexivity| |].
  - change (on_cc _ _) with (in_cld None 0 sv cs). rewrite events_app, host_cld by done. cbn [mbind option_bind]. by apply port_cld.
  - unfold cfg_elm_end. cbv zeta. names. unfold cfg_elm_end_cld. cbn. rewrite (proj2 (Z.eqb_neq h.2 0)) by lia. done.
Qed.

Lemma clds_top l sv cs : Forall conf_cld l -> cfg_events e fuel (concat (print_cld <$> l)) (top sv cs) = Some (top sv (foldl add_host cs l)).
Proof.
  intros Hl. revert cs. induction Hl as [|h l Hh _ IH]; intros cs; cbn [fmap list_fmap concat foldl]; [done|].
  rewrite events_app, cld_top by done. cbn [mbind option_bind]. apply IH.
Qed.

(** A configuration that can be used. *)
Record conf_ok (c : chunk_conf) : Prop := {
  cfo_path : visible (cf_path c) /\ ce_stat e (cf_path c) = Some true;
  cfo_listen : Forall conf_listen (cf_listen c) /\ cf_listen c <> [];
  cfo_nid : 0 < cf_nid c < 2 ^ 32;
  cfo_info : visible (cf_info c) /\ at_ (cf_info c) = 47 /\ is_good_info_name (cf_info c) = true;
  cfo_texts : visible (cf_host c) /\ visible (cf_pid c) /\ Forall visible (cf_users c);
  cfo_cld : Forall conf_cld (cf_cld c) }.

(** C33.  A configuration that is written is read: the server gets exactly the
    volume, listeners, number, name, host, pid file and users of a usable
    configuration, the CLD hosts are added in order, and the process goes on. *)
Theorem config_roundtrip c cs :
  ce_malloc e = true -> conf_ok c ->
  read_config e fuel (Some (print_conf c)) (mkSv None None None [] [] 0 None no_geo true) cs =
  Some (Some (top (mkSv (Some (cf_pid c)) (Some (cf_host c)) (Some (cf_path c)) (cf_users c) (cf_listen c) (cf_nid c) (Some (cf_info c)) no_geo false)
    (foldl add_host cs (cf_cld c)))).
Proof.
  intros Hm [[H1 H1'] [H2 H2'] H3 (H4 & H4' & H4'') (H5 & H6 & H7) H8]. unfold read_config, print_conf.
  change (mkCfg no_context ?v ?s) with (top v s).
  rewrite events_app, pid_top by done. cbn [mbind option_bind]. rewrite events_app, host_top by done. cbn [mbind option_bind].
  rewrite events_app, path_top by done. cbn [mbind option_bind]. rewrite events_app, listens_top by done. cbn [mbind option_bind].
  rewrite events_app, nid_top by done. cbn [mbind option_bind]. rewrite events_app, info_top by done. cbn [mbind option_bind].
  rewrite events_app, check_top by done. cbn [mbind option_bind]. rewrite clds_top by done. cbn [fmap option_fmap option_map]. unfold check_config. cbn.
  destruct (cf_listen c) as [|l ls] eqn:El; [done|]. rewrite H4', Z.eqb_refl, H4''. cbn. rewrite (proj2 (Z.eqb_neq _ _)) by lia. done.
Qed.

End print.
