(* ===== verification/Cldcli.v ===== *)
(** * Cldcli: the command line of CLD (tools/cldcli.c)

    The tool reads lines, splits them and runs commands through the blocking
    calls of the client library, an interface over a world [W] as in [Cldu],
    with four calls more.  Output on stdout is bytes; a message on stderr is a
    [diag], its wording left out.  The helper thread's messages about events
    are not modelled.  GLib's file functions work on [cl_files] and fail as
    [rd_ok] and [wr_ok] say.  [None]: an access outside a buffer. *)

From Stdlib Require Import String.
From S2P Require Import Prelude Dirent Wire Bdb Srv Msg Abs Inv Huri Hutil Hstor HstorProps DirCur Startup Dns Cldc Cldu CldApi ClduProps.
#[local] Open Scope Z_scope.

Class CliApi (W : Type) : Type := {
  cli_get : Z -> Z -> W -> (Z + bytes) * W;
  cli_del : Z -> bytes -> W -> Z * W;
  cli_unlock : Z -> Z -> W -> Z * W;
  cli_qlock : Z -> Z -> W -> Z * W }.

(** ** Data *)

Definition CLD_PATH_MAX : nat := 1024.

Inductive creq_cmd : Type := CREQ_RM | CREQ_MKDIR | CREQ_UNLOCK.

Record cldcli_lock_info : Type := mkLi { li_is_wait : bool; li_fh : Z; li_id : Z; li_path : bytes }.

Inductive diag : Type :=
| DArgRequired
| DTwoArgs
| DPathTooLong
| DCannotOpen (path : bytes) (error : Z)
| DCannotGet (path : bytes) (error : Z)
| DCount (path : bytes)
| DCannotLock (path : bytes)
| DReadFs (path : bytes)
| DWriteFs (path : bytes)
| DNoLock
| DOom
| DFailed (rc : Z)
| DHelp
| DInvalid (tok1 tok2 : bytes).

(** The globals of the tool, its output, the file system and the world. *)
Record cli (W : Type) : Type := mkCl {
  cl_cwd : bytes;
  cl_locks : list cldcli_lock_info;
  cl_lock_id : Z;
  cl_out : bytes;
  cl_diags : list diag;
  cl_files : gmap bytes bytes;
  cl_w : W }.
Arguments mkCl {W}. Arguments cl_cwd {W}. Arguments cl_locks {W}. Arguments cl_lock_id {W}. Arguments cl_out {W}.
Arguments cl_diags {W}. Arguments cl_files {W}. Arguments cl_w {W}.

Section cldcli.
Context {W : Type} {NA : NcldApi W} {CA : CliApi W}.
Variable nsess : Z.
Variables rd_ok wr_ok : bytes -> bool.
Variable alloc : nat -> bool.
Variable our_user : bytes.
Variable interactive : bool.
Notation cli := (cli W).
Implicit Types s : cli.

Definition C (A : Type) : Type := cli -> option (A * cli).
#[export] Instance C_ret : MRet C := fun A a s => Some (a, s).
#[export] Instance C_bind : MBind C := fun A B f m s => match m s with Some (a, s') => f a s' | None => None end.

Definition c_get : C cli := fun s => Some (s, s).
Definition c_ub {A} : C A := fun _ => None.
Definition c_call {A} (f : W -> A * W) : C A := fun s =>
  let '(a, w) := f (cl_w s) in Some (a, mkCl (cl_cwd s) (cl_locks s) (cl_lock_id s) (cl_out s) (cl_diags s) (cl_files s) w).
Definition c_do (f : W -> W) : C unit := c_call (fun w => (tt, f w)).
Definition printf (b : bytes) : C unit := fun s =>
  Some (tt, mkCl (cl_cwd s) (cl_locks s) (cl_lock_id s) (cl_out s ++ b) (cl_diags s) (cl_files s) (cl_w s)).
Definition complain (d : diag) : C unit := fun s =>
  Some (tt, mkCl (cl_cwd s) (cl_locks s) (cl_lock_id s) (cl_out s) (cl_diags s ++ [d]) (cl_files s) (cl_w s)).
Definition set_cwd (p : bytes) : C unit := fun s =>
  Some (tt, mkCl p (cl_locks s) (cl_lock_id s) (cl_out s) (cl_diags s) (cl_files s) (cl_w s)).
Definition set_locks (l : list cldcli_lock_info) : C unit := fun s =>
  Some (tt, mkCl (cl_cwd s) l (cl_lock_id s) (cl_out s) (cl_diags s) (cl_files s) (cl_w s)).
Definition set_file (p d : bytes) : C unit := fun s =>
  Some (tt, mkCl (cl_cwd s) (cl_locks s) (cl_lock_id s) (cl_out s) (cl_diags s) (<[p := d]> (cl_files s)) (cl_w s)).

(** [thr_lock_id++] *)
Definition next_lock_id : C Z := fun s =>
  Some (cl_lock_id s, mkCl (cl_cwd s) (cl_locks s) (u64 (cl_lock_id s + 1)) (cl_out s) (cl_diags s) (cl_files s) (cl_w s)).

(** ** Paths *)

(** Into [path], an array of [CLD_PATH_MAX + 1].  [Some None]: false. *)
Definition make_abs_path (cwd src : bytes) : option (option bytes) :=
  let dest_len := S CLD_PATH_MAX in
  if at_ src =? 47 then
    if (dest_len <? List.length src)%nat then Some None else
    if (dest_len <? List.length src + 1)%nat then None else Some (Some src)
  else
    let dest := (if bool_decide (cwd = [47]) then [] else cwd) ++ [47] ++ src in
    if (dest_len <=? List.length dest)%nat then Some None else Some (Some dest).

(** [make_abs_path] of a command with [arg], and [k] with the path. *)
Definition with_path (arg : bytes) (k : bytes -> C unit) : C unit :=
  s ← c_get;
  match make_abs_path (cl_cwd s) arg with
  | None => c_ub
  | Some None => complain DPathTooLong
  | Some (Some path) => k path
  end.

(** [ncld_open] of [path], and [k] with the handle. *)
Definition with_open (path : bytes) (mode : Z) (k : Z -> C unit) : C unit :=
  r ← c_call (api_open nsess path mode);
  match r with
  | inl error => complain (DCannotOpen path error)
  | inr fh => k fh
  end.

Definition ncld_close (fh : Z) : C unit := c_do (api_close nsess fh).

(** ** Commands *)

Definition cmd_cd (arg : bytes) : C unit :=
  with_path (match arg with [] => [47] | _ => arg end) (fun path =>
  with_open path COM_DIRECTORY (fun fh =>
  _ ← ncld_close fh; set_cwd path)).

(** What [printf] makes of the names: a name that could not be allocated is
    printed as [(null)]. *)
Definition ls_line (name : option bytes) : bytes := match name with Some n => cstr n | None => str "(null)" end ++ [10].

Definition cmd_ls (arg : bytes) : C unit :=
  s ← c_get;
  with_path (match arg with [] => cl_cwd s | _ => arg end) (fun path =>
  with_open path (Z.lor COM_DIRECTORY COM_READ) (fun fh =>
  r ← c_call (cli_get nsess fh);
  match r with
  | inl error => _ ← complain (DCannotGet path error); ncld_close fh
  | inr data =>
      match list_dir alloc data with
      | None => c_ub
      | Some (Err _) => _ ← complain (DCount path); ncld_close fh
      | Some (Ok names) => _ ← printf (concat (ls_line <$> names)); ncld_close fh
      end
  end)).

Definition cmd_cat (arg : bytes) : C unit :=
  match arg with
  | [] => complain DArgRequired
  | _ =>
      with_path arg (fun path =>
      with_open path COM_READ (fun fh =>
      r ← c_call (cli_get nsess fh);
      match r with
      | inl error => _ ← complain (DCannotGet path error); ncld_close fh
      | inr data => _ ← printf (data ++ [10]); ncld_close fh
      end))
  end.

Definition cmd_list_locks : C unit :=
  s ← c_get;
  printf (concat ((fun li => fmt_lu (li_id li) ++ [32] ++ li_path li ++ [10]) <$> cl_locks s)).

(** [g_strsplit_set(arg, " \t\f\r\n", 2)] *)
Definition split_delim (c : Z) : bool := is_one [32; 9; 12; 13; 10] c.
Definition strsplit2 (arg : bytes) : option (bytes * bytes) :=
  match span split_delim arg with
  | (_, []) => None
  | (a, _ :: b) => Some (a, b)
  end.

Definition cmd_cpin (arg : bytes) : C unit :=
  match arg with
  | [] => complain DArgRequired
  | _ =>
      match strsplit2 arg with
      | None => complain DTwoArgs
      | Some (fs_path, cld_path) =>
          s ← c_get;
          match (if rd_ok fs_path then cl_files s !! fs_path else None) with
          | None => complain (DReadFs fs_path)
          | Some fs_content =>
              with_path cld_path (fun path =>
              with_open path (Z.lor COM_CREATE COM_WRITE) (fun fh =>
              rc ← c_call (api_write nsess fh fs_content);
              if negb (rc =? 0) then _ ← complain (DFailed rc); ncld_close fh
              else ncld_close fh))
          end
      end
  end.

Definition cmd_cpout (arg : bytes) : C unit :=
  match arg with
  | [] => complain DArgRequired
  | _ =>
      match strsplit2 arg with
      | None => complain DTwoArgs
      | Some (cld_path, fs_path) =>
          with_path cld_path (fun path =>
          with_open path COM_READ (fun fh =>
          r ← c_call (cli_get nsess fh);
          match r with
          | inl error => _ ← complain (DCannotGet path error); ncld_close fh
          | inr data =>
              _ ← (if wr_ok fs_path then set_file fs_path data else complain (DWriteFs fs_path));
              ncld_close fh
          end))
      end
  end.

(** [mem]: [calloc] *)
Definition cmd_lock (mem : bool) (arg : bytes) (wait_for_lock : bool) : C unit :=
  match arg with
  | [] => complain DArgRequired
  | _ =>
      with_path arg (fun path =>
      if negb mem then complain DOom else
      id ← next_lock_id;
      with_open path COM_LOCK (fun fh =>
      rc ← c_call (if wait_for_lock then cli_qlock nsess fh else api_trylock nsess fh);
      if rc <? 0 then _ ← complain (DCannotLock path); ncld_close fh else
      _ ← (if 0 <? rc then printf (str "lock " ++ fmt_lu id ++ str " queued" ++ [10]) else mret tt);
      s ← c_get;
      set_locks (cl_locks s ++ [mkLi wait_for_lock fh id (take CLD_PATH_MAX path)])))
  end.

(** The first lock of that path, and the others. *)
Fixpoint take_lock (path : bytes) (l : list cldcli_lock_info) : option (cldcli_lock_info * list cldcli_lock_info) :=
  match l with
  | [] => None
  | li :: l =>
      if bool_decide (li_path li = path) then Some (li, l) else
      '(x, l') ← take_lock path l; Some (x, li :: l')
  end.

Definition basic_cmd (arg : bytes) (cmd_no : creq_cmd) : C unit :=
  match arg with
  | [] => complain DArgRequired
  | _ =>
      with_path arg (fun path =>
      rc ← (match cmd_no with
            | CREQ_RM => rc ← c_call (cli_del nsess path); mret (Some rc)
            | CREQ_MKDIR =>
                r ← c_call (api_open nsess path (Z.lor (Z.lor COM_DIRECTORY COM_CREATE) COM_EXCL));
                match r with
                | inr fh => _ ← ncld_close fh; mret (Some 0)
                | inl error => mret (Some error)
                end
            | CREQ_UNLOCK =>
                s ← c_get;
                match take_lock path (cl_locks s) with
                | None => _ ← complain DNoLock; mret None
                | Some (li, l) =>
                    _ ← set_locks l;
                    rc ← c_call (cli_unlock nsess (li_fh li));
                    _ ← ncld_close (li_fh li); mret (Some rc)
                end
            end);
      match rc with
      | None => mret tt
      | Some rc => if negb (rc =? 0) then complain (DFailed rc) else mret tt
      end)
  end.

(** ** Lines *)

(** [fgets] into [linebuf], an array of [CLD_PATH_MAX + 1]: the line, up to its
    newline, and what remains of the input; at most [n] characters. *)
Fixpoint get_line (n : nat) (stdin : bytes) : bytes * bytes :=
  match n, stdin with
  | O, _ | _, [] => ([], stdin)
  | S n, c :: stdin =>
      if c =? 10 then ([c], stdin) else let '(l, r) := get_line n stdin in (c :: l, r)
  end.
Definition fgets (stdin : bytes) : option (bytes * bytes) :=
  match stdin with [] => None | _ => Some (get_line CLD_PATH_MAX stdin) end.

(** Trailing white space. *)
Definition trim (line : bytes) : bytes := reverse (skip_space (reverse line)).

(** The first token and the rest of the line. *)
Definition tokens (line : bytes) : bytes * bytes :=
  let '(tok1, s) := span ISSPACE (skip_space line) in
  (tok1, skip_space (tail s)).

Definition prompt : C unit :=
  s ← c_get;
  if interactive then printf (str "[" ++ our_user ++ [32] ++ cl_cwd s ++ str "]$ ") else mret tt.

(** Runs a command; [false] is [break]. *)
Definition dispatch (mem : bool) (tok1 tok2 : bytes) : C bool :=
  let name := is_name tok1 in
  let go (m : C unit) : C bool := _ ← m; mret true in
  if name "cd"%string then go (cmd_cd tok2)
  else if name "ls"%string then go (cmd_ls tok2)
  else if name "rm"%string then go (basic_cmd tok2 CREQ_RM)
  else if name "mkdir"%string then go (basic_cmd tok2 CREQ_MKDIR)
  else if name "cat"%string then go (cmd_cat tok2)
  else if name "cpin"%string then go (cmd_cpin tok2)
  else if name "cpout"%string then go (cmd_cpout tok2)
  else if name "lock"%string then go (cmd_lock mem tok2 true)
  else if name "trylock"%string then go (cmd_lock mem tok2 false)
  else if name "unlock"%string then go (basic_cmd tok2 CREQ_UNLOCK)
  else if name "list"%string && is_name tok2 "locks" then go cmd_list_locks
  else if name "help"%string then go (complain DHelp)
  else if name "quit"%string || name "exit"%string then mret false
  else go (complain (DInvalid tok1 tok2)).

(** The loop of [main], [fuel] lines at most; [mem n]: there is memory while [n]
    lines may follow. *)
Fixpoint main_loop (fuel : nat) (mem : nat -> bool) (stdin : bytes) : C unit :=
  match fuel with
  | O => c_ub
  | S fuel =>
      match fgets stdin with
      | None => mret tt
      | Some (line, stdin) =>
          let linebuf := trim (cstr line) in
          if (at_ linebuf =? 0) || (at_ linebuf =? 35) then _ ← prompt; main_loop fuel mem stdin else
          let '(tok1, tok2) := tokens linebuf in
          go ← dispatch (mem fuel) tok1 tok2;
          if (go : bool) then _ ← prompt; main_loop fuel mem stdin else mret tt
      end
  end.

(** From the first prompt on; [ncld_sess_close] at the end. *)
Definition cldcli_main (mem : nat -> bool) (stdin : bytes) : C unit :=
  _ ← prompt;
  _ ← main_loop (S (List.length stdin)) mem stdin;
  c_do (api_sess_close nsess).

End cldcli.

(** [strrchr] *)
Fixpoint strrchr (s : bytes) (c : Z) : option nat :=
  match s with
  | [] => None
  | x :: s' => match strrchr s' c with Some i => Some (S i) | None => if x =? c then Some 0%nat else None end
  end.

(** [sscanf(s, "%u")], as the C library converts: through an unsigned long. *)
Definition scan_u (s : bytes) : option Z :=
  let s := skip_space s in
  let '(neg, s) := match s with c :: s' => if c =? 45 then (true, s') else if c =? 43 then (false, s') else (false, s) | [] => (false, s) end in
  if isdigit (at_ s)
  then let n := Z.min (digits s 0) (2 ^ 64 - 1) in Some (u32 (if (neg : bool) then - n else n))
  else None.

(** [mem]: [malloc] and [strdup] *)
Definition cli_push_host (mem : bool) (host_list : list cldc_host) (arg : bytes) : option (list cldc_host) :=
  if negb mem then None else
  match strrchr arg 58 with
  | None => None
  | Some colon =>
      match scan_u (drop (S colon) arg) with
      | None => None
      | Some port =>
          if (port <? 1) || (65535 <? port) then None else
          Some (host_list ++ [mkHost 0 0 (take colon arg) port])
      end
  end.

(** ** Every line is safe *)

Definition good_path (p : bytes) : Prop := at_ p = 47 /\ (List.length p <= CLD_PATH_MAX)%nat.

(** Paths fit, or the command is refused; an argument comes out of a line. *)
Lemma make_abs_path_ok cwd src : at_ cwd = 47 -> (List.length src <= CLD_PATH_MAX)%nat ->
  exists r, make_abs_path cwd src = Some r /\ forall path, r = Some path -> good_path path.
Proof.
  intros Hc Hl. unfold make_abs_path. destruct (Z.eqb_spec (at_ src) 47) as [E|E].
  - destruct (Nat.ltb_spec (S CLD_PATH_MAX) (List.length src)); [lia|].
    destruct (Nat.ltb_spec (S CLD_PATH_MAX) (List.length src + 1)); [lia|]. eexists. split; [done|]. by intros path [= <-].
  - set (dest := _ ++ _). destruct (Nat.leb_spec (S CLD_PATH_MAX) (List.length dest)); eexists; (split; [done|]); [done|].
    intros path [= <-]. split; [|lia]. unfold dest. case_bool_decide; [done|]. destruct cwd as [|c cwd]; [done|]. done.
Qed.

Lemma skip_space_le v : (List.length (skip_space v) <= List.length v)%nat.
Proof. induction v as [|c v IH]; cbn [skip_space List.length]; [lia|]. destruct (ISSPACE c); cbn [List.length]; lia. Qed.
Lemma span_le stop p : (List.length (span stop p).1 + List.length (span stop p).2 = List.length p)%nat.
Proof. induction p as [|c p IH]; [done|]. cbn [span]. destruct (stop c); [done|]. destruct (span stop p). cbn in *. lia. Qed.
Lemma tokens_le line : (List.length (tokens line).2 <= List.length line)%nat.
Proof.
  unfold tokens. pose proof (span_le ISSPACE (skip_space line)) as H. destruct (span _ _) as [a r]. cbn [fst snd] in *.
  pose proof (skip_space_le line). pose proof (skip_space_le (tail r)). destruct r; cbn [tail List.length] in *; lia.
Qed.

Lemma trim_le line : (List.length (trim line) <= List.length line)%nat.
Proof. unfold trim. rewrite length_reverse. pose proof (skip_space_le (reverse line)) as H. by rewrite length_reverse in H. Qed.

Lemma get_line_ok n stdin : (List.length (get_line n stdin).1 <= n)%nat /\
  (n <> 0%nat -> stdin <> [] -> (List.length (get_line n stdin).2 < List.length stdin)%nat).
Proof.
  revert stdin. induction n as [|n IH]; intros [|c stdin]; cbn [get_line]; [split; cbn; [lia|done]..|].
  destruct (c =? 10); [cbn; split; lia|]. destruct (IH stdin) as [H1 H2]. destruct (get_line n stdin) as [l r] eqn:E. cbn in *. split; [lia|]. intros _ _.
  destruct n as [|n]; [injection E as <- <-; lia|]. destruct stdin as [|x stdin]; [injection E as <- <-; cbn; lia|]. specialize (H2 ltac:(lia) ltac:(done)). cbn in *. lia.
Qed.

Lemma strsplit2_le arg a b : strsplit2 arg = Some (a, b) -> (List.length a <= List.length arg)%nat /\ (List.length b <= List.length arg)%nat.
Proof.
  unfold strsplit2. pose proof (span_le split_delim arg) as H. destruct (span _ _) as [x [|c r]]; [done|]. intros [= <- <-]. cbn in *. lia.
Qed.

Section safe.
Context {W : Type} {NA : NcldApi W} {CA : CliApi W}.
Variable nsess : Z.
Variables rd_ok wr_ok : bytes -> bool.
Variable alloc : nat -> bool.
Variable our_user : bytes.
Variable interactive : bool.
Variable P : W -> Prop.

(** What is preserved by every call the tool may make: paths are absolute and
    fit.  A read returns bytes. *)
Record service_keeps : Prop := {
  sk_open path mode w : good_path path -> P w -> P (api_open nsess path mode w).2;
  sk_del path w : good_path path -> P w -> P (cli_del nsess path w).2;
  sk_close fh w : P w -> P (api_close nsess fh w);
  sk_write fh d w : P w -> P (api_write nsess fh d w).2;
  sk_trylock fh w : P w -> P (api_trylock nsess fh w).2;
  sk_qlock fh w : P w -> P (cli_qlock nsess fh w).2;
  sk_unlock fh w : P w -> P (cli_unlock nsess fh w).2;
  sk_get fh w : P w -> P (cli_get nsess fh w).2;
  sk_get_bytes fh w d : P w -> (cli_get nsess fh w).1 = inr d -> Forall (fun b => is_byte b) d;
  sk_sess_close w : P w -> P (api_sess_close nsess w) }.

Hypothesis K : service_keeps.

Definition cli_inv (s : cli W) : Prop :=
  P (cl_w s) /\ good_path (cl_cwd s) /\ Forall (fun li => good_path (li_path li)) (cl_locks s).

(** [m] runs from [s], and the invariant holds afterwards. *)
Definition runs {A} (m : C (W := W) A) : Prop := forall s, cli_inv s -> exists a s', m s = Some (a, s') /\ cli_inv s'.

Lemma runs_bind {A B} (m : C A) (f : A -> C B) : runs m -> (forall a, runs (f a)) -> runs (m ≫= f).
Proof. intros Hm Hf s Hs. destruct (Hm s Hs) as (a & s1 & E & H1). unfold mbind, C_bind. rewrite E. by apply Hf. Qed.
Lemma runs_ret {A} (a : A) : runs (mret a).
Proof. intros s Hs. by exists a, s. Qed.
Lemma runs_get (f : cli W -> C unit) : (forall s, cli_inv s -> exists a s', f s s = Some (a, s') /\ cli_inv s') -> runs (c_get ≫= f).
Proof. intros Hf s Hs. exact (Hf s Hs). Qed.
Lemma runs_call {A} (f : W -> A * W) : (forall w, P w -> P (f w).2) -> runs (c_call f).
Proof.
  intros Hf s (H1 & H2 & H3). unfold c_call. specialize (Hf _ H1). destruct (f (cl_w s)) as [a w]. eexists _, _. split; [done|]. done.
Qed.
Lemma runs_printf b : runs (printf b).
Proof. intros s Hs. by eexists _, _. Qed.
Lemma runs_complain d : runs (complain d).
Proof. intros s Hs. by eexists _, _. Qed.
Lemma runs_cwd p : good_path p -> runs (set_cwd p).
Proof. intros Hp s (H1 & H2 & H3). by eexists _, _. Qed.
Lemma runs_file p d : runs (set_file p d).
Proof. intros s Hs. by eexists _, _. Qed.
Lemma runs_lock_id : runs next_lock_id.
Proof. intros s Hs. by eexists _, _. Qed.
Lemma runs_close fh : runs (ncld_close nsess fh).
Proof. apply runs_call. intros w. apply (sk_close K). Qed.

Lemma runs_path arg k : (List.length arg <= CLD_PATH_MAX)%nat -> (forall path, good_path path -> runs (k path)) -> runs (with_path arg k).
Proof.
  intros Ha Hk. apply runs_get. intros s Hs. destruct Hs as (H1 & [H2 H2'] & H3) eqn:E. clear E.
  destruct (make_abs_path_ok (cl_cwd s) arg H2 Ha) as (r & -> & Hr). destruct r as [path|]; [apply Hk; [by apply Hr|done]|by apply runs_complain].
Qed.

Lemma runs_open path mode k : good_path path -> (forall fh, runs (k fh)) -> runs (with_open nsess path mode k).
Proof.
  intros Hp Hk. apply runs_bind; [apply runs_call; intros w; by apply (sk_open K)|]. intros [e|fh]; [apply runs_complain|apply Hk].
Qed.

Lemma runs_read {B} fh (f : Z + bytes -> C B) :
  (forall e, runs (f (inl e))) -> (forall d, Forall (fun b => is_byte b) d -> runs (f (inr d))) -> runs (c_call (cli_get nsess fh) ≫= f).
Proof.
  intros He Hd s (H1 & H2 & H3). unfold mbind, C_bind, c_call. pose proof (sk_get K fh _ H1) as HP. assert (forall d, (cli_get nsess fh (cl_w s)).1 = inr d -> Forall (fun b => is_byte b) d) as HB by (intros d; by apply (sk_get_bytes K)).
  destruct (cli_get nsess fh (cl_w s)) as [[e|d] w]; [by apply He|]. apply Hd; [by apply HB|done].
Qed.
End safe.

(** One step. *)
Ltac crun K :=
  match goal with
  | |- runs _ (mret _) => apply runs_ret
  | |- runs _ (printf _) => apply runs_printf
  | |- runs _ (complain _) => apply runs_complain
  | |- runs _ (set_file _ _) => apply runs_file
  | |- runs _ (set_cwd _) => by apply runs_cwd
  | |- runs _ next_lock_id => apply runs_lock_id
  | |- runs _ (ncld_close _ _) => by apply runs_close
  | |- runs _ (with_path _ _) => apply runs_path; [try lia; try done|intros ?path ?Hpath]
  | |- runs _ (with_open _ _ _ _) => eapply runs_open; [exact K|done|intros ?fh]
  | |- runs _ (c_call (cli_get _ _) ≫= _) => eapply runs_read; [exact K|intros ?e|intros ?d ?Hd]
  | |- runs _ (c_call _) => apply runs_call; intros; (by apply (sk_write _ _ K) || by apply (sk_trylock _ _ K) || by apply (sk_qlock _ _ K) || by apply (sk_unlock _ _ K) || by apply (sk_del _ _ K) || by apply (sk_open _ _ K) || by apply (sk_sess_close _ _ K))
  | |- runs _ (_ ≫= _) => apply runs_bind; [|intros ?x]
  | |- runs _ (match ?x with _ => _ end) => let E := fresh "E" in destruct x eqn:E
  end.

Section safe_commands.
Context {W : Type} {NA : NcldApi W} {CA : CliApi W}.
Variable nsess : Z.
Variables rd_ok wr_ok : bytes -> bool.
Variable alloc : nat -> bool.
Variable our_user : bytes.
Variable interactive : bool.
Variable P : W -> Prop.
Hypothesis K : service_keeps nsess P.
Notation runs := (runs P).

Lemma cd_runs arg : (List.length arg <= CLD_PATH_MAX)%nat -> runs (cmd_cd nsess arg).
Proof. intros Ha. unfold cmd_cd. crun K; [destruct arg; [cbn; unfold CLD_PATH_MAX; lia|done]|]. repeat crun K. Qed.

Lemma ls_runs arg : (List.length arg <= CLD_PATH_MAX)%nat -> runs (cmd_ls nsess alloc arg).
Proof.
  intros Ha. apply runs_get. intros s Hs. destruct Hs as (H1 & [H2 H2'] & H3) eqn:Es. clear Es.
  assert (runs (with_path (match arg with [] => cl_cwd s | _ => arg end) (fun path =>
    with_open nsess path (Z.lor COM_DIRECTORY COM_READ) (fun fh =>
    r ← c_call (cli_get nsess fh);
    match r with
    | inl error => _ ← complain (DCannotGet path error); ncld_close nsess fh
    | inr data =>
        match list_dir alloc data with
        | None => c_ub
        | Some (Err _) => _ ← complain (DCount path); ncld_close nsess fh
        | Some (Ok names) => _ ← printf (concat (ls_line <$> names)); ncld_close nsess fh
        end
    end)))) as H; [|by apply H].
  crun K; [by destruct arg|]. do 2 crun K; [repeat crun K|].
  destruct (list_dir_safe alloc d Hd) as [[-> _]|(n & l & -> & _)]; repeat crun K.
Qed.

Lemma cat_runs arg : (List.length arg <= CLD_PATH_MAX)%nat -> runs (cmd_cat nsess arg).
Proof. intros Ha. unfold cmd_cat. destruct arg as [|c arg]; repeat crun K. Qed.

Lemma cpin_runs arg : (List.length arg <= CLD_PATH_MAX)%nat -> runs (cmd_cpin nsess rd_ok arg).
Proof.
  intros Ha. unfold cmd_cpin. destruct arg as [|c arg]; [crun K|]. destruct (strsplit2 _) as [[a b]|] eqn:E; [|crun K].
  apply strsplit2_le in E as [La Lb]. apply runs_get. intros s Hs. destruct (if rd_ok a then _ else None) as [d|]; [|by apply runs_complain].
  revert s Hs. change (runs (with_path b (fun path => with_open nsess path (Z.lor COM_CREATE COM_WRITE) (fun fh =>
    rc ← c_call (api_write nsess fh d); if negb (rc =? 0) then _ ← complain (DFailed rc); ncld_close nsess fh else ncld_close nsess fh)))).
  repeat crun K.
Qed.

Lemma cpout_runs arg : (List.length arg <= CLD_PATH_MAX)%nat -> runs (cmd_cpout nsess wr_ok arg).
Proof.
  intros Ha. unfold cmd_cpout. destruct arg as [|c arg]; [crun K|]. destruct (strsplit2 _) as [[a b]|] eqn:E; [|crun K].
  apply strsplit2_le in E as [La Lb]. repeat crun K.
Qed.

Lemma lock_runs mem arg wait : (List.length arg <= CLD_PATH_MAX)%nat -> runs (cmd_lock nsess mem arg wait).
Proof.
  intros Ha. unfold cmd_lock. destruct arg as [|c arg]; [crun K|]. crun K. crun K; [crun K|]. crun K; [crun K|]. crun K. crun K; [destruct wait; crun K|]. crun K; [repeat crun K|]. crun K; [repeat crun K|].
  apply runs_get. intros s (H1 & H2 & H3). eexists _, _. split; [done|]. split_and!; [done|done..|]. cbn. apply Forall_app. split; [done|].
  apply Forall_singleton. cbn [li_path]. rewrite take_ge by apply Hpath. done.
Qed.

Lemma take_lock_sub path l li l' : take_lock path l = Some (li, l') -> li ∈ l /\ forall x, x ∈ l' -> x ∈ l.
Proof.
  revert li l'. induction l as [|y l IH]; intros li l'; cbn; [done|]. case_bool_decide; [intros [= <- <-]; set_solver|].
  destruct (take_lock path l) as [[x r]|]; [|done]. cbn. intros [= <- <-]. destruct (IH x r eq_refl). set_solver.
Qed.

Lemma unlock_runs path (k : option Z -> C (W := W) unit) : (forall rc, runs (k rc)) -> runs (
  rc ← (s ← c_get;
        match take_lock path (cl_locks s) with
        | None => _ ← complain DNoLock; mret None
        | Some (li, l) =>
            _ ← set_locks l;
            rc ← c_call (cli_unlock nsess (li_fh li));
            _ ← ncld_close nsess (li_fh li); mret (Some rc)
        end); k rc).
Proof.
  intros Hk. crun K; [|apply Hk]. intros s (H1 & H2 & H3). unfold mbind at 1, C_bind at 1, c_get.
  destruct (take_lock path (cl_locks s)) as [[li l]|] eqn:E.
  - assert (runs (rc ← c_call (cli_unlock nsess (li_fh li)); _ ← ncld_close nsess (li_fh li); mret (Some rc))) as H by (repeat crun K).
    apply H. apply take_lock_sub in E as [_ Hl]. split_and!; [done..|]. cbn. rewrite Forall_forall in *. auto.
  - assert (runs (_ ← complain DNoLock; mret (@None Z))) as H by (repeat crun K). by apply H.
Qed.

Lemma basic_runs arg cmd : (List.length arg <= CLD_PATH_MAX)%nat -> runs (basic_cmd nsess arg cmd).
Proof.
  intros Ha. unfold basic_cmd. destruct arg as [|c arg]; [crun K|]. crun K. destruct cmd.
  - repeat crun K.
  - repeat crun K.
  - apply unlock_runs. intros rc. repeat crun K.
Qed.

Lemma prompt_runs : runs (prompt our_user interactive).
Proof. apply runs_get. intros s Hs. destruct interactive; [by apply runs_printf|by apply runs_ret]. Qed.

Lemma list_locks_runs : runs cmd_list_locks.
Proof. apply runs_get. intros s Hs. by apply runs_printf. Qed.

Lemma dispatch_runs mem t1 t2 : (List.length t2 <= CLD_PATH_MAX)%nat -> runs (dispatch nsess rd_ok wr_ok alloc mem t1 t2).
Proof.
  intros Ht. unfold dispatch. cbv zeta.
  repeat match goal with |- runs (if ?b then _ else _) => destruct b end; try apply runs_ret;
    (apply runs_bind; [|intros; apply runs_ret]);
    auto using cd_runs, ls_runs, cat_runs, cpin_runs, cpout_runs, lock_runs, basic_runs, list_locks_runs, runs_complain.
Qed.

Lemma loop_runs fuel mem stdin : (List.length stdin < fuel)%nat -> runs (main_loop nsess rd_ok wr_ok alloc our_user interactive fuel mem stdin).
Proof.
  revert stdin. induction fuel as [|fuel IH]; intros stdin Hf; [lia|]. cbn [main_loop]. unfold fgets. destruct stdin as [|c stdin]; [apply runs_ret|].
  set (input := c :: stdin) in *. destruct (get_line_ok CLD_PATH_MAX input) as [H1 H2]. specialize (H2 ltac:(done) ltac:(done)).
  destruct (get_line CLD_PATH_MAX input) as [line rest]. cbn [fst snd] in *. set (lb := trim (cstr line)).
  assert (List.length lb <= CLD_PATH_MAX)%nat as Hlb by (unfold lb; pose proof (trim_le (cstr line)); pose proof (cstr_le line); lia).
  destruct (_ || _); [apply runs_bind; [apply prompt_runs|intros; apply IH; lia]|].
  pose proof (tokens_le lb) as Ht. destruct (tokens lb) as [t1 t2]. cbn [fst snd] in *. apply runs_bind; [apply dispatch_runs; lia|].
  intros [|]; [|apply runs_ret]. apply runs_bind; [apply prompt_runs|intros; apply IH; lia].
Qed.

End safe_commands.

(** C35.  No input makes the tool write outside its buffers or loop: whatever
    bytes are typed and whatever the service answers, [main] ends; every path it
    passes to the service, and its working directory, is absolute and has at
    most [CLD_PATH_MAX] bytes.  [P] is any property of the service that calls
    with such paths preserve. *)
Theorem cldcli_safe {W} {NA : NcldApi W} {CA : CliApi W} nsess rd_ok wr_ok alloc our_user interactive (P : W -> Prop) mem stdin s :
  service_keeps nsess P -> P (cl_w s) -> good_path (cl_cwd s) -> cl_locks s = [] ->
  exists s', cldcli_main nsess rd_ok wr_ok alloc our_user interactive mem stdin s = Some (tt, s') /\
    P (cl_w s') /\ good_path (cl_cwd s') /\ Forall (fun li => good_path (li_path li)) (cl_locks s').
Proof.
  intros K HP Hc Hl.
  assert (runs P (cldcli_main nsess rd_ok wr_ok alloc our_user interactive mem stdin)) as H.
  { unfold cldcli_main. apply runs_bind; [apply prompt_runs|intros _]. apply runs_bind; [apply loop_runs; [done|lia]|intros _].
    apply runs_call. intros w. apply (sk_sess_close _ _ K). }
  destruct (H s) as ([] & s' & E & H1 & H2 & H3); [split_and!; [done..|by rewrite Hl]|]. by exists s'.
Qed.

(** ** Copying in and out *)

(** An answered read returns what the file of the handle held at some moment. *)
Class CliOk (W : Type) {NA : NcldApi W} {NO : NcldOk W} {CA : CliApi W} : Type := {
  cli_get_ok sid fh w d w' : cli_get sid fh w = (inr d, w') ->
    api_alive sid w /\ exists v xid r, evolves (foreign sid) (api_view w) v /\ get_reply v sid fh xid true = inr r /\ gr_data r = d /\ api_since sid v w' }.

(** What others did and this session's opens. *)
Definition in_between (sid : Z) (a : alabel) : Prop := foreign sid a \/ exists o fh, a = AOpen sid o fh.

Section copy.
Context {W : Type} {NA : NcldApi W} {NO : NcldOk W} {CA : CliApi W} {CO : CliOk W}.
Variable nsess : Z.
Implicit Types s : cli W.

Lemma complained (l : list diag) d : l ++ [d] <> l.
Proof. intros H%(f_equal List.length). rewrite length_app in H. cbn in H. lia. Qed.

(** The handle of an open is on the file of the name until [v]. *)
Lemma opened_file sid path mode t v0 a1 a2 v fh hd : keyed v0 -> evolves (foreign sid) v0 a1 -> 0 <= t < 2 ^ 32 ->
  astep t (AOpen sid (mkOpen mode 0 path) fh) a1 a2 -> evolves (foreign sid) a2 v -> v_handles v !! (sid, fh) = Some hd ->
  (exists ino, inode_named v path (rh_inum hd) ino) /\ evolves (in_between sid) v0 v.
Proof.
  intros Hk E1 Ht Hopen E2 Hh. assert (keyed a1) as K1 by by eapply keyed_evolves. assert (keyed a2) as K2 by by eapply keyed_step.
  destruct (open_names _ _ _ _ _ _ K1 Hopen) as (_ & hd' & ino & Hhd & Hino & Hname).
  destruct (handle_stays _ _ _ _ _ E2 K2 Hh) as [Hh2 Hs]. assert (hd' = hd) as -> by congruence. split.
  - destruct (Hs _ Hino) as (ino' & Hi & Hn). exists ino'. split; [done|]. rewrite Hn. done.
  - assert (forall a, foreign sid a -> in_between sid a) as Hf by (by left).
    etrans; [by eapply evolves_weaken|]. eapply rtc_l; [|by eapply evolves_weaken].
    exists t, (AOpen sid (mkOpen mode 0 path) fh). split; [done|]. split; [right; eauto|done].
Qed.

(** C36.  A copy into CLD that reports nothing has happened: at some moment the
    file of the name - the argument, in the working directory - held exactly the
    contents of the local file, whatever other clients did meanwhile. *)
Theorem cpin_stores rd_ok arg fs_path cld_path s s' :
  strsplit2 arg = Some (fs_path, cld_path) -> cmd_cpin nsess rd_ok arg s = Some (tt, s') -> cl_diags s' = cl_diags s ->
  exists path data fh now v1 v2 i ino w1,
    make_abs_path (cl_cwd s) cld_path = Some (Some path) /\ cl_files s !! fs_path = Some data /\
    evolves (in_between nsess) (api_view (cl_w s)) v1 /\ astep now (APut nsess (mkPut fh data)) v1 v2 /\
    inode_named v2 path i ino /\ data_of v2 i = data /\ api_since nsess v2 w1 /\ cl_w s' = api_close nsess fh w1 /\
    cl_files s' = cl_files s /\ cl_out s' = cl_out s.
Proof.
  intros Hsp. unfold cmd_cpin. destruct arg as [|c arg]; [done|]. rewrite Hsp. unfold mbind, C_bind, c_get.
  destruct (rd_ok fs_path); [|intros [= <-] H; by apply complained in H].
  destruct (cl_files s !! fs_path) as [data|] eqn:Ef; [|intros [= <-] H; by apply complained in H].
  unfold with_path, mbind, C_bind, c_get. destruct (make_abs_path _ _) as [[path|]|] eqn:Ep; [|intros [= <-] H; by apply complained in H|done].
  unfold with_open, mbind, C_bind, c_call. destruct (api_open _ _ _ _) as [[e|fh] w1] eqn:Eo; [intros [= <-] H; by apply complained in H|]. cbn [cl_w].
  destruct (api_write _ _ _ _) as [rc w2] eqn:Ew. destruct (Z.eqb_spec rc 0) as [->|Hrc]; cbn [negb]; [|intros [= <-] H; by apply complained in H].
  intros [= <-] _. apply api_open_ok in Eo as (_ & t1 & a1 & a2 & Ht1 & E1 & Hopen & Hs1). apply api_write_ok in Ew.
  destruct (did_next _ _ _ _ _ Hs1 Ew) as (t2 & b1 & b2 & _ & E2 & Hput & Hs2).
  inversion Hput as [| |x1 x2 x3 hd ino Hhd Hw Hd Hi Hin| | | | | |]; subst. cbn [mp_fh mp_data] in *.
  destruct (opened_file _ _ _ _ _ _ _ _ _ _ (api_keyed (cl_w s)) E1 Ht1 Hopen E2 Hhd) as [(ino' & Hi' & Hn) He].
  assert (ino' = ino) as -> by congruence.
  exists path, data, fh, t2, b1, (write_inode t2 ino data b1), (rh_inum hd), (touched t2 (set_ri_size (Z.of_nat (List.length data)) ino)), w2.
  split_and!; try done. unfold write_inode.
  - split; [cbn; rewrite Hin; apply lookup_insert_eq|]. by rewrite name_write.
  - unfold write_inode, data_of. cbn. rewrite Hin, lookup_insert_eq. done.
Qed.

(** A copy out of CLD that reports nothing leaves in the local file exactly
    what the file of the name held at some moment during the command, and
    changes no other local file. *)
Theorem cpout_fetches wr_ok arg cld_path fs_path s s' :
  strsplit2 arg = Some (cld_path, fs_path) -> cmd_cpout nsess wr_ok arg s = Some (tt, s') -> cl_diags s' = cl_diags s ->
  exists path v i ino,
    make_abs_path (cl_cwd s) cld_path = Some (Some path) /\ evolves (in_between nsess) (api_view (cl_w s)) v /\
    inode_named v path i ino /\ cl_files s' = <[fs_path := data_of v i]> (cl_files s).
Proof.
  intros Hsp. unfold cmd_cpout. destruct arg as [|c arg]; [done|]. rewrite Hsp.
  unfold with_path, mbind, C_bind, c_get. destruct (make_abs_path _ _) as [[path|]|] eqn:Ep; [|intros [= <-] H; by apply complained in H|done].
  unfold with_open, mbind, C_bind, c_call. destruct (api_open _ _ _ _) as [[e|fh] w1] eqn:Eo; [intros [= <-] H; by apply complained in H|]. cbn [cl_w].
  destruct (cli_get _ _ _) as [[e|data] w2] eqn:Eg; [intros [= <-] H; by apply complained in H|].
  destruct (wr_ok fs_path); [|intros [= <-] H; by apply complained in H]. intros [= <-] _.
  apply api_open_ok in Eo as (_ & t1 & a1 & a2 & Ht1 & E1 & Hopen & Hs1). apply cli_get_ok in Eg as (Ha & v & xid & r & E2 & Hr & <- & _).
  assert (evolves (foreign nsess) a2 v) as E3. { etrans; [by apply Hs1|done]. }
  revert Hr. unfold get_reply. destruct (v_handles v !! (nsess, fh)) as [hd|] eqn:Hh; [|done]. destruct (negb _); [done|].
  destruct (v_inodes v !! rh_inum hd) as [ino|] eqn:Hi; [|done]. destruct (_ && _); [done|]. intros [= <-]. cbn [gr_data].
  destruct (opened_file _ _ _ _ _ _ _ _ _ _ (api_keyed (cl_w s)) E1 Ht1 Hopen E3 Hh) as [(ino' & Hn) He].
  exists path, v, (rh_inum hd), ino'. done.
Qed.

End copy.

(** ** Locks that failed *)

(** A lock the service refuses is kept as if it were queued: every refusal is a
    positive number ([Ncld.genio_result]), and the tool takes only a negative one
    for an error.  [unlock] then sends an unlock for it. *)
Theorem refused_lock_listed {W} {NA : NcldApi W} {CA : CliApi W} nsess arg path s fh w1 rc w2 :
  arg <> [] -> make_abs_path (cl_cwd s) arg = Some (Some path) -> (List.length path <= CLD_PATH_MAX)%nat ->
  api_open nsess path COM_LOCK (cl_w s) = (inr fh, w1) -> api_trylock nsess fh w1 = (rc, w2) -> 0 < rc ->
  exists s', cmd_lock nsess true arg false s = Some (tt, s') /\ cl_locks s' = cl_locks s ++ [mkLi false fh (cl_lock_id s) path] /\
    cl_out s' = cl_out s ++ str "lock " ++ fmt_lu (cl_lock_id s) ++ str " queued" ++ [10] /\ cl_diags s' = cl_diags s.
Proof.
  intros Ha Hp Hl Ho Hw Hrc. destruct arg as [|c arg]; [done|]. unfold cmd_lock, with_path, with_open, next_lock_id, mbind, C_bind, c_get, c_call.
  rewrite Hp. cbn [negb cl_w]. rewrite Ho. cbn [cl_w]. rewrite Hw, (proj2 (Z.ltb_ge _ _)), (proj2 (Z.ltb_lt _ _)) by lia.
  eexists. split; [done|]. cbn. by rewrite take_ge.
Qed.

(** ** Words *)

Definition word (w : bytes) : Prop := w <> [] /\ Forall (fun c => ISSPACE c = false) w.

Lemma span_word w rest : Forall (fun c => ISSPACE c = false) w -> (rest = [] \/ exists c r, rest = c :: r /\ ISSPACE c = true) -> span ISSPACE (w ++ rest) = (w, rest).
Proof.
  intros Hw Hr. induction Hw as [|c w Hc _ IH]; cbn [app span].
  - destruct Hr as [->|(c & r & -> & Hc)]; [done|]. cbn. by rewrite Hc.
  - rewrite Hc, IH. done.
Qed.

Lemma skip_spaces sp rest : Forall (fun c => ISSPACE c = true) sp -> skip_space (sp ++ rest) = skip_space rest.
Proof. induction 1 as [|c sp Hc _ IH]; [done|]. cbn. by rewrite Hc. Qed.
Lemma skip_stop rest : (forall c, head rest = Some c -> ISSPACE c = false) -> skip_space rest = rest.
Proof. destruct rest as [|c rest]; [done|]. intros H. cbn. by rewrite (H c eq_refl). Qed.

Lemma trim_end (a : bytes) sp : Forall (fun c => ISSPACE c = true) sp -> (forall c, last a = Some c -> ISSPACE c = false) -> trim (a ++ sp) = a.
Proof.
  intros Hs Ha. unfold trim. rewrite reverse_app, skip_spaces by by apply Forall_reverse. rewrite skip_stop; [apply reverse_involutive|].
  intros c. rewrite head_reverse. apply Ha.
Qed.

(** A line is taken apart: white space around and between a command and its
    argument does not matter, and the argument may contain some. *)
Theorem line_tokens s1 s2 s3 cmd arg :
  Forall (fun c => ISSPACE c = true) s1 -> Forall (fun c => ISSPACE c = true) s2 -> Forall (fun c => ISSPACE c = true) s3 -> s2 <> [] ->
  word cmd -> (forall c, head arg = Some c -> ISSPACE c = false) -> (forall c, last arg = Some c -> ISSPACE c = false) -> arg <> [] ->
  tokens (trim (s1 ++ cmd ++ s2 ++ arg ++ s3)) = (cmd, arg).
Proof.
  intros H1 H2 H3 Hne [Hc Hw] Hh Hl Ha. rewrite (app_assoc s2), (app_assoc cmd), (app_assoc s1), trim_end; [|done|].
  - unfold tokens. rewrite skip_spaces by done. rewrite skip_stop by (destruct Hw; [done|]; by intros ? [= <-]).
    destruct s2 as [|x s2]; [done|]. apply Forall_cons in H2 as [Hx H2]. rewrite span_word; [|done|right; by exists x, (s2 ++ arg)].
    cbn [tail app]. rewrite skip_spaces by done. by rewrite skip_stop.
  - intros c. rewrite !last_app. destruct (last arg) as [x|] eqn:El; [|by apply last_None in El]. by intros [= <-]; apply Hl.
Qed.

(** ** The option for a host *)

Lemma strrchr_last a b : 58 ∉ b -> strrchr (a ++ 58 :: b) 58 = Some (List.length a).
Proof.
  intros Hb. induction a as [|x a IH]; cbn [app strrchr]; [|by rewrite IH]. assert (strrchr b 58 = None) as ->; [|done].
  induction b as [|x b IH]; [done|]. cbn. apply not_elem_of_cons in Hb as [Hx Hb]. rewrite IH by done.
  rewrite (proj2 (Z.eqb_neq _ _)) by done. done.
Qed.

(** HOST:PORT is understood for every port, and a host with colons too. *)
Theorem host_option mem l host port : mem = true -> 0 < port < 65536 ->
  cli_push_host mem l (host ++ 58 :: fmt_lu port) = Some (l ++ [mkHost 0 0 host port]).
Proof.
  intros -> Hp. unfold cli_push_host. cbn [negb]. pose proof (fmt_lu_digits port ltac:(lia)) as Hd. rewrite strrchr_last.
  2:{ intros Hin. rewrite Forall_forall in Hd. apply Hd in Hin. lia. }
  replace (drop (S (List.length host)) (host ++ 58 :: fmt_lu port)) with (fmt_lu port).
  2:{ rewrite drop_app_ge by lia. by replace (S (List.length host) - List.length host)%nat with 1%nat by lia. }
  assert (scan_u (fmt_lu port) = Some port) as ->.
  { unfold scan_u. assert (digits (fmt_lu port) 0 = port) as Hdig by (apply (digits_fmt 20); [cbn; lia|lia]).
    destruct (fmt_lu_cons port) as (c & t & E). rewrite E in *. apply Forall_cons in Hd as [Hc _]. cbn [skip_space].
    assert (ISSPACE c = false) as -> by (unfold ISSPACE; rewrite (proj2 (Z.leb_gt c 13)), (proj2 (Z.eqb_neq c 32)), andb_false_r by lia; done).
    rewrite (proj2 (Z.eqb_neq c 45)), (proj2 (Z.eqb_neq c 43)) by lia. change (at_ (c :: t)) with c.
    assert (isdigit c = true) as -> by (unfold isdigit; rewrite !(proj2 (Z.leb_le _ _)) by lia; done).
    rewrite Hdig. unfold u32. rewrite Z.min_l, uw_small by lia. done. }
  rewrite (proj2 (Z.ltb_ge _ _)), (proj2 (Z.ltb_ge _ _)) by lia. cbn [orb]. by rewrite take_app_length.
Qed.
