(* ===== verification/MemDb.v ===== *)
(** * MemDb: the library parameters are satisfiable

    An in-memory database that meets Berkeley DB's documented behaviour
    ([BdbOk]) and never fails ([BdbReliable]), and one that fails where a list
    of faults says so; XDR as RFC 4506 defines it for the CLD packet header
    ([XdrOk]); a stand-in of the right length for HMAC-SHA1 ([HmacLib]).  The
    concrete runs of the development use them. *)

From Stdlib Require Import Sorted.
From stdpp Require Import sorting.
From S2P Require Import Prelude Wire Bdb Srv.
#[local] Open Scope Z_scope.

(** ** Database *)

Record memdb : Type := mkMemdb { mdb_view : dbview; mdb_saved : dbview }.

Definition inode_list (v : dbview) : list raw_inode := (map_to_list (v_inodes v)).*2.
Definition find_name (v : dbview) (name : bytes) : option (Z * raw_inode) :=
  head (filter (fun kx => inode_name_key kx.2 = Some name) (map_to_list (v_inodes v))).
Definition handle_list (v : dbview) : list raw_handle := remove_dups (map_to_list (v_handles v)).*2.

Definition hkey_le (a b : raw_handle) : Prop :=
  memcmp (hkey_bytes (rh_sid a) (rh_fh a)) (hkey_bytes (rh_sid b) (rh_fh b)) <= 0.
#[global] Instance hkey_le_dec (a b : raw_handle) : Decision (hkey_le a b).
Proof. unfold hkey_le. apply _. Defined.

Fixpoint lock_insert (lock : raw_lock) (ls : list raw_lock) : list raw_lock :=
  match ls with
  | [] => [lock]
  | e :: ls' => if lock_compare e lock <=? 0 then e :: lock_insert lock ls' else lock :: ls
  end.

Definition mem_call {A} (q : dbreq A) (v : dbview) : res A * dbview :=
  match q in dbreq A return res A * dbview with
  | SessGet sid => (lookup_res (v_sessions v !! sid), v)
  | SessPut r noov =>
      if noov && bool_decide (is_Some (v_sessions v !! rs_sid r)) then (Err DB_KEYEXIST, v)
      else (Ok tt, upd_sessions (insert (rs_sid r) r) v)
  | SessDel sid =>
      if bool_decide (is_Some (v_sessions v !! sid)) then (Ok tt, upd_sessions (delete sid) v)
      else (Err DB_NOTFOUND, v)
  | SessScan => (Ok (remove_dups (map_to_list (v_sessions v)).*2), v)
  | InodeGet inum => (lookup_res (v_inodes v !! inum), v)
  | InodePut ino =>
      match inode_name_key ino with
      | None => (Err EINVAL, v)
      | Some name =>
          match head (filter (fun kx => inode_name_key kx.2 = Some name /\ kx.1 <> ri_inum ino)
                        (map_to_list (v_inodes v))) with
          | None => (Ok tt, upd_inodes (insert (ri_inum ino) ino) v)
          | Some _ => (Err EINVAL, v)
          end
      end
  | InodeDel inum =>
      if bool_decide (is_Some (v_inodes v !! inum)) then (Ok tt, upd_inodes (delete inum) v)
      else (Err DB_NOTFOUND, v)
  | NameGet name => (lookup_res (snd <$> find_name v name), v)
  | DataGet inum => (lookup_res (v_data v !! inum), v)
  | DataPut inum d => (Ok tt, upd_data (insert inum d) v)
  | DataDel inum =>
      if bool_decide (is_Some (v_data v !! inum)) then (Ok tt, upd_data (delete inum) v)
      else (Err DB_NOTFOUND, v)
  | HandleGet sid fh => (lookup_res (v_handles v !! (sid, fh)), v)
  | HandlePut h => (Ok tt, upd_handles (insert (rh_key h) h) v)
  | HandleDel sid fh =>
      if bool_decide (is_Some (v_handles v !! (sid, fh))) then (Ok tt, upd_handles (delete (sid, fh)) v)
      else (Err DB_NOTFOUND, v)
  | HandleCurDel h =>
      if bool_decide (is_Some (v_handles v !! rh_key h)) then (Ok tt, upd_handles (delete (rh_key h)) v)
      else (Err EINVAL, v)
  | HandleIdxDel inum =>
      if bool_decide (filter (fun kh => handle_idx_key kh.2 = inum) (v_handles v) = ∅)
      then (Err DB_NOTFOUND, v)
      else (Ok tt, upd_handles (filter (fun kh => handle_idx_key kh.2 <> inum)) v)
  | HandleIdxScan inum => (Ok (filter (fun h => handle_idx_key h = inum) (handle_list v)), v)
  | HandleRange sid =>
      (Ok (merge_sort hkey_le
             (filter (fun h => memcmp (hkey_bytes sid 0) (hkey_bytes (rh_sid h) (rh_fh h)) <= 0)
                (handle_list v))), v)
  | LockPut lock =>
      let old := locks_of v (rl_inum lock) in
      if existsb (fun e => lock_compare e lock =? 0) old then (Err DB_KEYEXIST, v)
      else (Ok tt, upd_locks (insert (rl_inum lock) (lock_insert lock old)) v)
  | LockScan inum => (Ok (locks_of v inum), v)
  | LockCurPut cur new =>
      if bool_decide (cur ∈ locks_of v (rl_inum cur)) && (lock_compare cur new =? 0)
      then (Ok tt, upd_locks (insert (rl_inum cur) (replace_first cur new (locks_of v (rl_inum cur)))) v)
      else (Err EINVAL, v)
  | LockCurDel cur =>
      if bool_decide (cur ∈ locks_of v (rl_inum cur))
      then (Ok tt, upd_locks (insert (rl_inum cur) (remove_first cur (locks_of v (rl_inum cur)))) v)
      else (Err EINVAL, v)
  | CurGet => (Ok tt, v)
  | CurClose => (Ok tt, v)
  end.

#[global] Instance memdb_bdb : Bdb memdb := {|
  db_call A q d := let '(r, v) := mem_call q (mdb_view d) in (r, mkMemdb v (mdb_saved d));
  db_txn_begin d := (0, mkMemdb (mdb_view d) (mdb_view d));
  db_txn_commit d := (0, d);
  db_txn_abort d := (0, mkMemdb (mdb_saved d) (mdb_saved d)) |}.

(** The same with faults: for each coming call, does it fail? (none when the
    list is exhausted) *)
Record flakydb : Type := mkFlaky { fdb : memdb; fdb_faults : list bool }.

Definition EIO : Z := 5.

#[global] Instance flakydb_bdb : Bdb flakydb := {|
  db_call A q d :=
    match fdb_faults d with
    | true :: fs => (Err EIO, mkFlaky (fdb d) fs)
    | fs => let '(r, d') := db_call q (fdb d) in (r, mkFlaky d' (tail fs))
    end;
  db_txn_begin d := let '(r, d') := db_txn_begin (fdb d) in (r, mkFlaky d' (fdb_faults d));
  db_txn_commit d := let '(r, d') := db_txn_commit (fdb d) in (r, mkFlaky d' (fdb_faults d));
  db_txn_abort d := let '(r, d') := db_txn_abort (fdb d) in (r, mkFlaky d' (fdb_faults d)) |}.

Lemma elem_of_map_values {K A} `{!EqDecision K, !Countable K} (m : gmap K A) (x : A) :
  x ∈ (map_to_list m).*2 <-> exists k, m !! k = Some x.
Proof.
  rewrite list_elem_of_fmap. split.
  - intros ([k y] & -> & Hk%elem_of_map_to_list). eauto.
  - intros [k Hk]. exists (k, x). split; [done|by apply elem_of_map_to_list].
Qed.

Lemma handle_list_spec (v : dbview) (P : raw_handle -> Prop) `{!forall h, Decision (P h)} :
  lists_handles (v_handles v) P (filter P (handle_list v)).
Proof.
  unfold handle_list. split; [apply NoDup_filter, NoDup_remove_dups|]. intros h.
  rewrite list_elem_of_filter, elem_of_remove_dups, elem_of_map_values. tauto.
Qed.

Lemma length_hkey (sid fh : Z) : length (hkey_bytes sid fh) = 16%nat.
Proof. unfold hkey_bytes. by rewrite length_app, !length_le_bytes. Qed.

#[global] Instance hkey_le_trans : Transitive hkey_le.
Proof. intros a b c. unfold hkey_le. apply memcmp_trans; by rewrite !length_hkey. Qed.
#[global] Instance hkey_le_total : Total hkey_le.
Proof.
  intros a b. unfold hkey_le. rewrite (memcmp_antisym (hkey_bytes (rh_sid a) (rh_fh a))).
  - lia.
  - by rewrite !length_hkey.
Qed.

Lemma lock_insert_spec (lock : raw_lock) (old : list raw_lock) :
  exists l1 l2, old = l1 ++ l2 /\ lock_insert lock old = l1 ++ lock :: l2 /\
    Forall (fun e => lock_compare e lock <= 0) l1 /\
    (l2 = [] \/ exists e t, l2 = e :: t /\ 0 < lock_compare e lock).
Proof.
  induction old as [|e old (l1 & l2 & -> & E & Hf & Hl)]; simpl.
  - exists [], []. split_and!; try done. by left.
  - destruct (Z.leb_spec (lock_compare e lock) 0).
    + exists (e :: l1), l2. rewrite E. split_and!; try done. by constructor.
    + exists [], (e :: l1 ++ l2). split_and!; try done. right. eauto.
Qed.

Lemma lock_insert_sorted (lock : raw_lock) (l1 l2 : list raw_lock) :
  lock_cmp_total (lock :: l1 ++ l2) -> locks_sorted (l1 ++ l2) ->
  Forall (fun e => lock_compare e lock <= 0) l1 ->
  (l2 = [] \/ exists e t, l2 = e :: t /\ 0 < lock_compare e lock) ->
  locks_sorted (l1 ++ lock :: l2).
Proof.
  intros [Ha Ht] Hs Hf Hl. unfold locks_sorted in *. induction l1 as [|x l1 IH]; simpl in *.
  - constructor; [done|]. destruct Hl as [->|(e & t & -> & He)]; [constructor|].
    assert (lock_compare lock e <= 0) as Hle.
    { specialize (Ha lock e ltac:(set_solver) ltac:(set_solver)). lia. }
    constructor; [done|]. inversion Hs as [|? ? _ Hall]; subst. rewrite Forall_forall in *.
    intros y Hy. eapply (Ht lock e y); [set_solver..|done|by apply Hall].
  - inversion Hs as [|? ? Hs' Hall]; subst. apply Forall_cons in Hf as [Hx Hf].
    constructor.
    + apply IH; try done.
      * intros a b Hia Hib. apply Ha; set_solver.
      * intros a b c Hia Hib Hic. apply Ht; set_solver.
    + rewrite Forall_app in *. destruct Hall. split; [done|by constructor].
Qed.

Lemma mem_call_ok {A} (q : dbreq A) (v : dbview) : dbdoc q v (mem_call q v).1 (mem_call q v).2.
Proof.
  destruct q; cbn [mem_call dbdoc].
  all: try (split; [done|]; done).
  all: try (repeat case_match; by split).
  - (* SessScan *) split; [done|]. eexists. split; [done|]. split; [apply NoDup_remove_dups|].
    intros x. by rewrite elem_of_remove_dups, elem_of_map_values.
  - (* InodePut *) destruct (inode_name_key ino) as [name|] eqn:En.
    2:{ right. split; [by left|done]. }
    destruct (head _) as [[k x]|] eqn:Eh.
    + apply head_Some_elem_of, list_elem_of_filter in Eh as [[Hn Hk] Hin%elem_of_map_to_list].
      right. split; [right; by exists name, k, x|done].
    + left. exists name. split_and!; [done| |done|done]. intros i x [Hi Hx].
      destruct (decide (i = ri_inum ino)) as [|Hne]; [done|exfalso].
      apply head_None in Eh. assert ((i, x) ∈ []) as Hin; [|by inversion Hin].
      rewrite <- Eh. apply list_elem_of_filter. split; [done|by apply elem_of_map_to_list].
  - (* NameGet *) split; [done|]. unfold find_name. destruct (head _) as [[k x]|] eqn:Eh; cbn.
    + left. apply head_Some_elem_of, list_elem_of_filter in Eh as [Hn Hin%elem_of_map_to_list].
      exists k, x. done.
    + right. split; [|done]. intros i x [Hi Hx]. apply head_None in Eh.
      assert ((i, x) ∈ []) as Hin; [|by inversion Hin].
      rewrite <- Eh. apply list_elem_of_filter. split; [done|by apply elem_of_map_to_list].
  - (* HandleIdxScan *) split; [done|]. eexists. split; [done|]. apply handle_list_spec.
  - (* HandleRange *) split; [done|]. eexists. split; [done|].
    pose proof (handle_list_spec v (fun h => memcmp (hkey_bytes sid 0) (hkey_bytes (rh_sid h) (rh_fh h)) <= 0)) as [Hn Hl].
    split.
    + split; [by rewrite merge_sort_Permutation|]. intros h. by rewrite merge_sort_Permutation.
    + apply (StronglySorted_merge_sort hkey_le).
  - (* LockPut *) destruct (existsb _ _) eqn:Ex.
    + right. apply existsb_exists in Ex as (e & Hin & He%Z.eqb_eq).
      apply list_elem_of_In, list_elem_of_split in Hin as (l1 & l2 & E). exists l1, e, l2. split_and!; [done|done|by left].
    + left. destruct (lock_insert_spec l (locks_of v (rl_inum l))) as (l1 & l2 & E & Ei & Hf & Hl).
      exists l1, l2. rewrite Ei. split_and!; [done| |done|done|].
      * intros e Hin He. assert (existsb (fun e => lock_compare e l =? 0) (locks_of v (rl_inum l)) = true) as Ht; [|congruence].
        apply existsb_exists. exists e. split; [by apply list_elem_of_In|by apply Z.eqb_eq].
      * rewrite E. intros Ht Hs. by apply lock_insert_sorted.
Qed.

#[global] Instance memdb_ok : BdbOk memdb.
Proof.
  refine {| view := mdb_view; saved := mdb_saved |}.
  - intros A q d. cbn. pose proof (mem_call_ok q (mdb_view d)) as Hc.
    destruct (mem_call q (mdb_view d)) as [r v]. split; [by right|done].
  - done.
  - done.
  - done.
Defined.

#[global] Instance memdb_reliable : BdbReliable memdb.
Proof.
  split; [|done|done]. intros A q d. cbn. pose proof (mem_call_ok q (mdb_view d)) as Hc.
  by destruct (mem_call q (mdb_view d)).
Qed.

#[global] Instance flakydb_ok : BdbOk flakydb.
Proof.
  refine {| view d := mdb_view (fdb d); saved d := mdb_saved (fdb d) |}.
  - intros A q d. cbn. pose proof (mem_call_ok q (mdb_view (fdb d))) as Hc.
    destruct (fdb_faults d) as [|[|] fs]; cbn.
    1, 3: destruct (mem_call q (mdb_view (fdb d))) as [r v]; split; [by right|done].
    split; [|done]. left. exists EIO. by split_and!.
  - done.
  - done.
  - done.
Defined.

(** ** XDR (RFC 4506): big-endian integers, counted opaques padded to 4 bytes *)

Definition xpad (n : nat) : nat := Z.to_nat ((- Z.of_nat n) mod 4).
Definition put_hyper (z : Z) : bytes := be_bytes 8 z.
Definition put_int (z : Z) : bytes := be_bytes 4 z.
Definition put_opaque (b : bytes) : bytes :=
  put_int (Z.of_nat (length b)) ++ b ++ replicate (xpad (length b)) 0.
Definition put_bounded (max : Z) (b : bytes) : option bytes :=
  if Z.of_nat (length b) <=? max then Some (put_opaque b) else None.

Definition get_be (n : nat) (b : bytes) : option (Z * bytes) :=
  if (length b <? n)%nat then None else Some (be_val (take n b), drop n b).
Definition get_hyper : bytes -> option (Z * bytes) := fun b =>
  '(x, b) ← get_be 8 b; Some (u64 x, b).
Definition get_int : bytes -> option (Z * bytes) := get_be 4.
Definition get_opaque (max : Z) (b : bytes) : option (bytes * bytes) :=
  '(n, b) ← get_int b;
  let n := Z.to_nat n in
  if (max <? Z.of_nat n) || (length b <? n + xpad n)%nat then None
  else Some (take n b, drop (n + xpad n) b).

Definition put_info (i : cld_pkt_msg_info) : bytes :=
  put_int (pkt_order i) ++
  match i with
  | CLD_PKT_ORD_FIRST mi | CLD_PKT_ORD_FIRST_LAST mi => put_hyper (mi_xid mi) ++ put_int (mi_op mi)
  | _ => []
  end.

Definition get_info (b : bytes) : option (cld_pkt_msg_info * bytes) :=
  '(o, b) ← get_int b;
  if o =? 0 then Some (CLD_PKT_ORD_MID, b) else
  if o =? 2 then Some (CLD_PKT_ORD_LAST, b) else
  if (o =? 1) || (o =? 3) then
    '(xid, b) ← get_hyper b;
    '(op, b) ← get_int b;
    Some ((if o =? 1 then CLD_PKT_ORD_FIRST else CLD_PKT_ORD_FIRST_LAST) (mkInfos xid op), b)
  else None.

Definition put_hdr (h : cld_pkt_hdr) : option bytes :=
  user ← put_bounded CLD_MAX_USERNAME (ph_user h);
  Some (put_hyper (ph_magic h) ++ put_hyper (ph_sid h) ++ user ++ put_info (ph_mi h)).

Definition get_hdr (b0 : bytes) : option (cld_pkt_hdr * nat) :=
  '(magic, b) ← get_hyper b0;
  '(sid, b) ← get_hyper b;
  '(user, b) ← get_opaque CLD_MAX_USERNAME b;
  '(mi, b) ← get_info b;
  Some (mkHdr magic sid user mi, (length b0 - length b)%nat).

Definition code_val (e : cle_err) : Z :=
  match e with
  | CLE_OK => 0 | CLE_SESS_EXISTS => 1 | CLE_SESS_INVAL => 2 | CLE_DB_ERR => 3 | CLE_BAD_PKT => 4
  | CLE_INODE_INVAL => 5 | CLE_NAME_INVAL => 6 | CLE_OOM => 7 | CLE_FH_INVAL => 8 | CLE_DATA_INVAL => 9
  | CLE_LOCK_INVAL => 10 | CLE_LOCK_CONFLICT => 11 | CLE_LOCK_PENDING => 12 | CLE_MODE_INVAL => 13
  | CLE_INODE_EXISTS => 14 | CLE_DIR_NOTEMPTY => 15 | CLE_INTERNAL_ERR => 16 | CLE_TIMEOUT => 17
  | CLE_SIG_INVAL => 18
  end.

Definition put_msg (m : msg_out) : option bytes :=
  match m with
  | MGenericResp code xid => Some (put_int (code_val code) ++ put_hyper xid)
  | MOpenResp code xid fh => Some (put_int (code_val code) ++ put_hyper xid ++ put_hyper fh)
  | MGetResp r =>
      name ← put_bounded CLD_INODE_NAME_MAX (gr_inode_name r);
      data ← put_bounded CLD_MAX_PAYLOAD_SZ (gr_data r);
      Some (put_int (code_val (gr_code r)) ++ put_hyper (gr_xid_in r) ++ put_hyper (gr_inum r) ++
            put_hyper (gr_vers r) ++ put_hyper (gr_time_create r) ++ put_hyper (gr_time_modify r) ++
            put_int (gr_flags r) ++ name ++ data)
  | MEvent fh events => Some (put_hyper fh ++ put_int events)
  | MAckFrag seqid => Some (put_hyper seqid)
  | MVoid => Some []
  end.

#[global] Instance rfc_xdr : XdrLib := {|
  xdr_hdr_enc := put_hdr;
  xdr_msg_enc := put_msg;
  xdr_hdr_dec := get_hdr;
  xdr_get_dec b := fst <$> get_hyper b;
  xdr_open_dec b := '(mode, b) ← get_int b; '(ev, b) ← get_int b;
                    '(name, _) ← get_opaque CLD_INODE_NAME_MAX b; Some (mkOpen mode ev name);
  xdr_put_dec b := '(fh, b) ← get_hyper b; '(d, _) ← get_opaque CLD_MAX_PAYLOAD_SZ b; Some (mkPut fh d);
  xdr_close_dec b := fst <$> get_hyper b;
  xdr_del_dec b := fst <$> get_opaque CLD_INODE_NAME_MAX b;
  xdr_unlock_dec b := fst <$> get_hyper b;
  xdr_lock_dec b := '(fh, b) ← get_hyper b; '(fl, _) ← get_int b; Some (mkLock fh fl) |}.

Lemma get_be_put (n : nat) (z : Z) (rest : bytes) : 0 <= z < 256 ^ Z.of_nat n ->
  get_be n (be_bytes n z ++ rest) = Some (z, rest).
Proof.
  intros Hz. unfold get_be. rewrite length_app, length_be_bytes.
  rewrite (proj2 (Nat.ltb_ge _ _)) by lia.
  rewrite take_app_length', drop_app_length' by by rewrite length_be_bytes.
  rewrite be_val_be_bytes, Z.mod_small by done. done.
Qed.

Lemma get_hyper_put (z : Z) (rest : bytes) : 0 <= z < 2 ^ 64 -> get_hyper (put_hyper z ++ rest) = Some (z, rest).
Proof.
  intros Hz. unfold get_hyper, put_hyper. rewrite get_be_put by done. cbn.
  unfold u64. by rewrite uw_small.
Qed.

Lemma get_int_put (z : Z) (rest : bytes) : 0 <= z < 2 ^ 32 -> get_int (put_int z ++ rest) = Some (z, rest).
Proof. intros Hz. apply get_be_put. done. Qed.

Lemma get_opaque_put (max : Z) (b rest : bytes) : Z.of_nat (length b) <= max -> max < 2 ^ 32 ->
  get_opaque max (put_opaque b ++ rest) = Some (b, rest).
Proof.
  intros Hb Hm. unfold get_opaque, put_opaque. rewrite <- !app_assoc, get_int_put by lia. cbn [mbind option_bind].
  rewrite Nat2Z.id, (proj2 (Z.ltb_ge _ _)) by lia. cbn [orb].
  rewrite (proj2 (Nat.ltb_ge _ _)).
  2:{ rewrite !length_app, length_replicate. lia. }
  rewrite take_app_length. f_equal. f_equal. rewrite app_assoc, drop_app_length'; [done|].
  rewrite length_app, length_replicate. done.
Qed.

Lemma get_info_put (i : cld_pkt_msg_info) (rest : bytes) :
  0 <= mi_xid (pkt_infos i) < 2 ^ 64 -> 0 <= mi_op (pkt_infos i) < 2 ^ 31 ->
  get_info (put_info i ++ rest) = Some (i, rest).
Proof.
  intros Hx Ho. unfold get_info, put_info. rewrite <- app_assoc.
  rewrite get_int_put by (destruct i; cbn; lia). cbn [mbind option_bind].
  destruct i as [|[xid op]| |[xid op]]; cbn in *; rewrite <- ?app_assoc; try done;
    rewrite get_hyper_put by done; cbn [mbind option_bind]; rewrite get_int_put by lia; done.
Qed.

#[global] Instance rfc_xdr_ok : XdrOk.
Proof.
  split.
  - intros h (Hm & Hs & Hu & _ & Hx & Ho). cbn. unfold put_hdr, put_bounded.
    rewrite (proj2 (Z.leb_le _ _)) by done. cbn. eexists. split; [done|]. intros rest.
    unfold get_hdr. rewrite <- !app_assoc. rewrite get_hyper_put by done. cbn [mbind option_bind].
    rewrite get_hyper_put by done. cbn [mbind option_bind].
    rewrite get_opaque_put by done. cbn [mbind option_bind].
    rewrite get_info_put by done. cbn [mbind option_bind]. f_equal. f_equal; [by destruct h|].
    rewrite !length_app. lia.
  - intros b h n. cbn. unfold get_hdr.
    destruct (get_hyper b) as [[m b1]|] eqn:E1; cbn; [|done].
    destruct (get_hyper b1) as [[sid b2]|] eqn:E2; cbn; [|done].
    destruct (get_opaque _ b2) as [[u b3]|]; cbn; [|done].
    destruct (get_info b3) as [[mi b4]|]; cbn; [|done]. intros [= <- <-]. cbn. split; [|lia].
    unfold get_hyper in E2. destruct (get_be 8 b1) as [[x b2']|]; cbn in E2; [|done]. simplify_eq.
    apply u64_bound.
  - intros b o. cbn. destruct (get_int b) as [[m b1]|]; cbn; [|done].
    destruct (get_int b1) as [[ev b2]|]; cbn; [|done].
    destruct (get_opaque _ b2) as [[name b3]|] eqn:E; cbn; [|done]. intros [= <-]. cbn.
    unfold get_opaque in E. destruct (get_int b2) as [[n b4]|]; cbn in E; [|done].
    case_match eqn:Ec; [done|]. simplify_eq. apply orb_false_iff in Ec as [Ec%Z.ltb_ge _].
    rewrite length_take. lia.
Qed.

(** ** A 20-byte keyed digest *)

Definition toy_mac (k m : bytes) : bytes :=
  le_bytes 20 (foldl (fun h c => (h * 33 + c) mod 2 ^ 160) 5381 (k ++ m)).

#[global] Instance toy_hmac : HmacLib.
Proof.
  refine {| HMAC_sha1 := toy_mac |}. intros k m. unfold toy_mac. by rewrite length_le_bytes.
Defined.
