(* ===== verification/Demo.v ===== *)
(** * Demo: concrete runs of the server

    A small cluster on the in-memory database: clients with correctly signed
    packets, and the states the server goes through.  Every property with
    hypotheses is applied to such a state in Witness. *)

From S2P Require Import Prelude Htab Dirent Wire Bdb Srv Cldb Outq Msg Session Server Logic OutqSpec.
From S2P Require Import Abs Inv MsgSpec SessionSpec Mem System ServerSpec Props Corner MemDb.
#[local] Open Scope Z_scope.

(** Everything the environment decides succeeds, with ever new random numbers. *)
Definition orc (i : nat) : Z := Z.of_nat i + 2000.

Lemma orc_pos (i : nat) : 0 < orc i.
Proof. unfold orc. lia. Qed.

Definition alice : bytes := [97; 108; 105; 99; 101].
Definition cli1 : cli_info := mkCli 7 (replicate 16 1) 16 [49].
Definition cli2 : cli_info := mkCli 8 (replicate 16 2) 16 [50].

(** A one-packet message as a client sends it. *)
Definition client_pkt (sid op seqid : Z) (msg : bytes) : bytes :=
  let hdr := default [] (put_hdr (mkHdr (le_val CLD_PKT_MAGIC) sid alice (CLD_PKT_ORD_FIRST_LAST (mkInfos 77 op)))) in
  let body := hdr ++ msg ++ le_bytes 8 seqid in
  body ++ toy_mac (default [] (user_key (Some alice))) body.

Definition open_msg (mode : Z) (name : bytes) : bytes := put_int mode ++ put_int 0 ++ put_opaque name.
Definition put_msg_bytes (fh : Z) (data : bytes) : bytes := put_hyper fh ++ put_opaque data.
Definition lock_msg (fh flags : Z) : bytes := put_hyper fh ++ put_int flags.

Definition RWLC : Z := 0x17.
Definition name_f : bytes := [slash; 102].

Definition event : Type := cli_info * bytes.
Definition handle_event (s : srv memdb) (ev : event) : srv memdb := (cli_rd_pkt ev.1 ev.2 s).2.
Definition run_events (evs : list event) (s : srv memdb) : srv memdb := foldl handle_event s evs.

Definition s_boot : srv memdb := boot (mkMemdb empty_view empty_view) 1000 orc.
(** Runs are kept as the states they compute to. *)
Definition s_root : srv memdb := Eval vm_compute in (ensure_root s_boot).2.

(** ** Reachability of runs *)

Definition small_datab (v : dbview) : bool :=
  bool_decide (map_Forall (fun _ d => Z.of_nat (length d) < 2 ^ 31) (v_data v)).

Lemma small_datab_ok (v : dbview) : small_datab v = true -> small_data v.
Proof. intros H%bool_decide_eq_true. exact H. Qed.

Fixpoint run_small (evs : list event) (s : srv memdb) : bool :=
  match evs with
  | [] => true
  | ev :: evs => small_datab (vw s) && run_small evs (handle_event s ev)
  end.

Lemma run_reachable (evs : list event) (s0 s : srv memdb) :
  reachable s0 s -> run_small evs s = true -> reachable s0 (run_events evs s).
Proof.
  revert s. induction evs as [|ev evs IH]; intros s Hr Hs; [done|]. cbn [run_small] in Hs.
  apply andb_true_iff in Hs as [H1 H2]. apply (IH (handle_event s ev)); [|done].
  eapply reach_step; [done|by apply small_datab_ok|apply step_packet].
Qed.

Lemma root_ok : ensure_root s_boot = (true, s_root).
Proof. vm_compute. reflexivity. Qed.

Lemma root_from_boot : from_boot s_root.
Proof.
  exists (mkMemdb empty_view empty_view), 1000, orc, s_root.
  split; [done|]. split; [apply root_ok|apply reach_init].
Qed.

Lemma run_from_boot (evs : list event) (s s' : srv memdb) :
  from_boot s -> run_small evs s = true -> run_events evs s = s' -> from_boot s'.
Proof.
  intros (d & now & orc' & s0 & H1 & H2 & H3) Hs <-. exists d, now, orc', s0.
  split; [done|]. split; [done|]. by apply run_reachable.
Qed.

(** ** The runs *)

Definition ev_sessions : list event :=
  [(cli1, client_pkt 11 CMO_NEW_SESS 1 []); (cli2, client_pkt 12 CMO_NEW_SESS 1 [])].
Definition ev_opens : list event :=
  [(cli1, client_pkt 11 CMO_OPEN 2 (open_msg RWLC name_f)); (cli2, client_pkt 12 CMO_OPEN 2 (open_msg 0x7 name_f))].
Definition ev_shared : list event :=
  [(cli1, client_pkt 11 CMO_LOCK 3 (lock_msg 2 1)); (cli2, client_pkt 12 CMO_LOCK 3 (lock_msg 2 1))].
Definition ev_excl : list event :=
  [(cli1, client_pkt 11 CMO_LOCK 3 (lock_msg 2 0)); (cli2, client_pkt 12 CMO_LOCK 3 (lock_msg 2 0))].

Definition s_sessions : srv memdb := Eval vm_compute in run_events ev_sessions s_root.
Definition s_opened : srv memdb := Eval vm_compute in run_events ev_opens s_sessions.
Definition s_shared : srv memdb := Eval vm_compute in run_events ev_shared s_opened.
Definition s_queued : srv memdb := Eval vm_compute in run_events ev_excl s_opened.

(** Five sessions: the fifth grows the table. *)
Definition s_five : srv memdb := Eval vm_compute in
  run_events ((fun sid => (cli1, client_pkt sid CMO_NEW_SESS 1 [])) <$> [13; 14; 15]) s_sessions.

Lemma sessions_from_boot : from_boot s_sessions.
Proof. apply (run_from_boot ev_sessions s_root); [apply root_from_boot|vm_compute; reflexivity..]. Qed.
Lemma opened_from_boot : from_boot s_opened.
Proof. apply (run_from_boot ev_opens s_sessions); [apply sessions_from_boot|vm_compute; reflexivity..]. Qed.
Lemma shared_from_boot : from_boot s_shared.
Proof. apply (run_from_boot ev_shared s_opened); [apply opened_from_boot|vm_compute; reflexivity..]. Qed.
Lemma queued_from_boot : from_boot s_queued.
Proof. apply (run_from_boot ev_excl s_opened); [apply opened_from_boot|vm_compute; reflexivity..]. Qed.

Lemma from_boot_db (s : srv memdb) : from_boot s -> db_inv (vw s).
Proof. intros [_ H]%from_boot_inv. done. Qed.
Lemma from_boot_mem (s : srv memdb) : from_boot s -> mem_inv s.
Proof. intros [H _]%from_boot_inv. done. Qed.

Lemma run_lucky (s : srv memdb) : oracle s = orc -> lucky s.
Proof. intros E i. rewrite E. apply orc_pos. Qed.

(** The session objects: [0] is session 11's, [1] session 12's. *)
Definition obj (s : srv memdb) (p : nat) : session := heap s !!! p.

(** A message of two packets, as session object [x] sends it. *)
Definition long_msg : bytes := replicate 1024 5 ++ [6; 7].
Definition sender : session := Eval vm_compute in obj s_sessions 0.
Definition hb1 : bytes := Eval vm_compute in default [] (put_hdr (outpkt_hdr sender true false 99 CMO_GET)).
Definition hb2 : bytes := Eval vm_compute in default [] (put_hdr (outpkt_hdr sender false true 0 CMO_GET)).
Definition sha1 : bytes := Eval vm_compute in
  (cld_authsign (user_key (Some alice)) (hb1 ++ replicate 1024 5 ++ le_bytes 8 40)).2.
Definition sha2 : bytes := Eval vm_compute in
  (cld_authsign (user_key (Some alice)) (hb2 ++ [6; 7] ++ le_bytes 8 41)).2.
Definition two_pkts : list bytes :=
  [hb1 ++ replicate 1024 5 ++ le_bytes 8 40 ++ sha1; hb2 ++ [6; 7] ++ le_bytes 8 41 ++ sha2].

Lemma two_packets : packets sender CMO_GET (user_key (Some alice)) true 40 long_msg two_pkts.
Proof.
  apply (packets_more sender CMO_GET _ true 40 (replicate 1024 5) [6; 7] 99 hb1 sha1);
    [done|done|lia|vm_compute; reflexivity|vm_compute; reflexivity|].
  change (u64 (40 + 1)) with 41.
  apply (packets_last sender CMO_GET _ false 41 [6; 7] 0 hb2 sha2);
    [done|lia|vm_compute; reflexivity|vm_compute; reflexivity].
Qed.

Lemma alice_can_send (x : session) :
  s_sid x = 11 -> s_user x = alice -> 0 <= s_next_seqid_out x < 2 ^ 64 -> can_send x.
Proof.
  intros E1 E2 E3. unfold can_send. rewrite E1, E2. split; [lia|]. split; [done|]. split; [cbn; lia|].
  unfold alice. repeat constructor; lia.
Qed.

Lemma sender_ok : can_send sender.
Proof. apply alice_can_send; [vm_compute; reflexivity|vm_compute; reflexivity|vm_compute; intuition congruence]. Qed.
