(* ===== verification/Witness.v ===== *)
(** * Witness: every property at work on a concrete input

    For each property with hypotheses, an application of it to a state of
    Demo, to a table or to bytes given here. *)

From S2P Require Import Prelude Htab Dirent Wire Bdb Srv Cldb Outq Msg Session Server Logic OutqSpec.
From S2P Require Import Abs Inv MsgSpec SessionSpec Mem System ServerSpec Props Corner MemDb Demo.
#[local] Open Scope Z_scope.

Lemma pair_fst {A B} (r : A * B) (a : A) : r.1 = a -> r = (a, r.2).
Proof. destruct r. cbn. by intros ->. Qed.

Lemma heap_obj (s : srv memdb) (p : nat) : bool_decide (is_Some (heap s !! p)) = true -> heap s !! p = Some (obj s p).
Proof. intros [x Hx]%bool_decide_eq_true. unfold obj. by rewrite (lookup_total_correct _ _ _ Hx). Qed.

(** ** Reachable states *)

Lemma lock_exclusion_witness :
  shared (mkRawLock 2027 11 2 1000 1) = true /\ shared (mkRawLock 2027 12 2 1000 1) = true.
Proof.
  apply (lock_exclusion s_shared 2027 0 1).
  - exact shared_from_boot.
  - lia.
  - vm_compute. reflexivity.
  - vm_compute. reflexivity.
  - reflexivity.
  - reflexivity.
Defined.

Lemma handles_valid_witness :
  (11, 2) = (rh_sid (mkRawHandle 11 2 2027 23 0), rh_fh (mkRawHandle 11 2 2027 23 0)) /\
  (exists ino, v_inodes (vw s_opened) !! 2027 = Some ino /\ flag 23 COM_DIRECTORY = flag (ri_flags ino) CIFL_DIR) /\
  is_Some (v_sessions (vw s_opened) !! 11).
Proof. apply (handles_valid s_opened); [exact opened_from_boot|vm_compute; reflexivity]. Defined.

Lemma namespace_consistent_witness :
  exists bases, default [] (v_data (vw s_opened) !! 10) = enc_dir bases /\ NoDup bases /\
    forall b, b ∈ bases -> exists m j x, inode_named (vw s_opened) m j x /\ (2 <= length m)%nat /\
      pathname_parse m = mkPinfo [slash] b.
Proof.
  destruct (namespace_consistent s_opened opened_from_boot) as (_ & _ & _ & Hdir).
  eapply (Hdir 10 (mkRawInode 10 1 8 2 1000 1000 1 [slash])); vm_compute; reflexivity.
Defined.

Lemma sizes_consistent_witness :
  (forall ino, v_inodes (vw s_opened) !! 10 = Some ino ->
     ri_inum ino = 10 /\ ri_size ino = u32 (Z.of_nat (length (default [] (v_data (vw s_opened) !! 10))))) /\
  (forall d, v_data (vw s_opened) !! 10 = Some d -> is_Some (v_inodes (vw s_opened) !! 10)).
Proof. apply (sizes_consistent s_opened 10 opened_from_boot). Defined.

Lemma session_lookup_live_witness :
  exists x, heap s_opened !! 0%nat = Some x /\ s_sid x = 11 /\ Z.of_nat (length (s_msg_buf x)) <= CLD_MAX_MSG_SZ.
Proof.
  apply (session_lookup_live s_opened 11 0); [exact opened_from_boot|lia|vm_compute; reflexivity].
Defined.

Lemma step_refines_witness :
  let s' := handle_event s_sessions (cli1, client_pkt 11 CMO_OPEN 2 (open_msg RWLC name_f)) in
  vw s' = vw s_sessions \/ exists a, astep (current_time s_sessions) a (vw s_sessions) (vw s').
Proof. apply (step_refines s_sessions); [exact sessions_from_boot|apply step_packet]. Defined.

Lemma no_null_session_witness : (cli_rd_pkt cli1 (client_pkt 99 CMO_PUT 1 []) s_opened).1.1 <> Some RxNull.
Proof. apply (no_null_session s_opened). exact opened_from_boot. Defined.

Lemma boot_establishes_witness : mem_inv s_root /\ db_inv (vw s_root).
Proof.
  apply (boot_establishes (mkMemdb empty_view empty_view) 1000 orc s_root); [reflexivity|exact root_ok].
Defined.

Lemma held_lock_origin_witness :
  mkRawLock 2027 11 2 1000 0 ∈ locks_of (vw s_opened) 2027 \/
  exists want wait, ALock 11 2 false true (negb false) = ALock 11 2 want wait true.
Proof.
  apply (held_lock_origin 1000 (ALock 11 2 false true (negb false)) (vw s_opened)
    (upd_locks (insert 2027 [mkRawLock 2027 11 2 1000 0]) (vw s_opened)) 2027 (mkRawLock 2027 11 2 1000 0)).
  - apply (astep_lock 1000 11 2 false true _ _ (mkRawHandle 11 2 2027 23 0) false).
    + vm_compute. reflexivity.
    + reflexivity.
    + vm_compute. reflexivity.
    + discriminate.
    + exists [], [], []. split; [vm_compute; reflexivity|]. split; [by left|reflexivity].
  - unfold locks_of. cbn [v_locks upd_locks]. rewrite lookup_insert_eq. by left.
  - reflexivity.
Defined.

(** ** Handlers *)

Lemma msg_put_correct_witness :
  replies 0 s_opened (msg_put 0 (mkPut 2 [1; 2; 3]) s_opened) (APut (s_sid (obj s_opened 0)) (mkPut 2 [1; 2; 3])).
Proof. apply (msg_put_correct 0 (mkPut 2 [1; 2; 3]) s_opened), from_boot_db, opened_from_boot. Defined.

Lemma msg_close_correct_witness :
  replies 1 s_shared (msg_close 1 2 s_shared) (AClose (s_sid (obj s_shared 1)) 2).
Proof. apply (msg_close_correct 1 2 s_shared), from_boot_db, shared_from_boot. Defined.

Lemma msg_del_correct_witness : replies 0 s_opened (msg_del 0 name_f s_opened) (ADel name_f).
Proof. apply (msg_del_correct 0 name_f s_opened), from_boot_db, opened_from_boot. Defined.

Lemma msg_unlock_correct_witness :
  replies 0 s_shared (msg_unlock 0 2 s_shared) (AUnlock (s_sid (obj s_shared 0)) 2).
Proof. apply (msg_unlock_correct 0 2 s_shared), from_boot_db, shared_from_boot. Defined.

Lemma msg_lock_correct_witness :
  exists code s1, msg_lock 1 (mkLock 2 0) s_shared = sess_sendresp_generic 1 code s1 /\ calm_env s_shared s1 /\
    let lab := ALock (s_sid (obj s_shared 1)) 2 false (s_msg_op (obj s_shared 1) =? CMO_LOCK) in
    ((code = CLE_OK /\ astep (current_time s_shared) (lab true) (vw s_shared) (vw s1)) \/
     (code = CLE_LOCK_PENDING /\ astep (current_time s_shared) (lab false) (vw s_shared) (vw s1)) \/
     (code <> CLE_OK /\ vw s1 = vw s_shared)).
Proof. apply (msg_lock_correct 1 (mkLock 2 0) s_shared), from_boot_db, shared_from_boot. Defined.

Lemma msg_open_correct_witness :
  let x := obj s_sessions 0 in
  let o := mkOpen RWLC 0 name_f in
  (exists s1, msg_open 0 o s_sessions =
       (tt, (sess_sendmsg 0 (MOpenResp CLE_OK (s_msg_xid x) (s_next_fh x)) CMO_OPEN cb_null s1).2) /\
     calm_env s_sessions s1 /\
     astep (current_time s_sessions) (AOpen (s_sid x) o (s_next_fh x)) (vw s_sessions) (vw s1)) \/
  (exists code s1, msg_open 0 o s_sessions = sess_sendresp_generic 0 code s1 /\ code <> CLE_OK /\
     calm_env s_sessions s1 /\ vw s1 = vw s_sessions).
Proof.
  apply (msg_open_correct 0 (mkOpen RWLC 0 name_f) s_sessions (obj s_sessions 0)).
  - apply from_boot_db, sessions_from_boot.
  - apply heap_obj. vm_compute. reflexivity.
  - vm_compute. intuition congruence.
  - vm_compute. congruence.
Defined.

Lemma lock_add_correct_witness :
  wp (cldb_lock_add 12 2 2027 false true) (fun r s' =>
    let conflict := existsb (blocks false) (locks_of (vw s_queued) 2027) in
    (r.1 = 0 -> r.2 = negb conflict /\ (conflict = true -> true = true) /\
       lock_added (new_lock (current_time s_queued) 12 2 2027 false conflict) (vw s_queued) (vw s')) /\
    (r.1 <> 0 -> r.2 = false /\ vw s' = vw s_queued)) s_queued.
Proof. apply (lock_add_correct 12 2 2027 false true s_queued). Defined.

Lemma rescan_grants_nothing_witness :
  vw (inode_lock_rescan 2027 s_queued).2 = vw s_queued /\
  sessions (inode_lock_rescan 2027 s_queued).2 = sessions s_queued.
Proof. apply (rescan_grants_nothing 2027 s_queued). Defined.

Lemma msg_get_correct_witness : vw (msg_get 0 2 s_opened).2 = vw s_opened.
Proof. apply (msg_get_correct 0 2 s_opened). Defined.

(** After a PUT of session 0, session 1 has sent a GET. *)
Definition s_put_done : srv memdb := (msg_put 0 (mkPut 2 [1; 2; 3]) s_opened).2.
Definition s_get_next : srv memdb := set_heap (alter (set_msg CMO_GET 5 []) 1%nat (heap s_put_done)) s_put_done.

Lemma vw_set_heap (h : gmap nat session) (s : srv memdb) : vw (set_heap h s) = vw s.
Proof. reflexivity. Qed.

Lemma s_get_next_vw : vw s_get_next = vw (msg_put 0 (mkPut 2 [1; 2; 3]) s_opened).2.
Proof. unfold s_get_next. rewrite vw_set_heap. unfold s_put_done. reflexivity. Qed.

Lemma put_then_get_witness : exists r t1 d, gr_code r = CLE_OK /\ gr_data r = [1; 2; 3] /\
  calm_env s_get_next t1 /\ heap t1 = heap s_get_next /\
  (msg_get 1 2 s_get_next).2 = set_db d (sess_sendmsg 1 (MGetResp r) CMO_GET cb_null t1).2.
Proof.
  apply (put_then_get 0 1 (mkPut 2 [1; 2; 3]) 2 s_opened s_get_next (mkRawHandle 11 2 2027 23 0) (mkRawHandle 12 2 2027 7 0)).
  - apply from_boot_db, opened_from_boot.
  - vm_compute. reflexivity.
  - vm_compute. reflexivity.
  - exact s_get_next_vw.
  - vm_compute. reflexivity.
  - vm_compute. reflexivity.
  - reflexivity.
  - reflexivity.
  - vm_compute. reflexivity.
Defined.

(** ** Sessions *)

Lemma session_remove_complete_witness :
  v_sessions (vw (session_remove 0 s_shared).2) = delete (s_sid (obj s_shared 0)) (v_sessions (vw s_shared)).
Proof.
  apply (session_remove_complete 0 s_shared).
  - apply from_boot_db, shared_from_boot.
  - vm_compute. intuition congruence.
  - apply run_lucky. vm_compute. reflexivity.
  - vm_compute. reflexivity.
Defined.

Lemma session_timeout_keeps_witness :
  wp (session_timeout 0 1010) (fun _ s' => db s' = db s_sessions /\ sessions s' = sessions s_sessions /\
    exists x' delay, heap s' !! 0%nat = Some x' /\ s_sid x' = s_sid (obj s_sessions 0) /\ s_dead x' = false /\
      s_timer x' = Some delay /\ 0 < delay /\
      delay <= u64 (s_last_contact (obj s_sessions 0) + CLD_SESS_TIMEOUT) - 1010 + 1) s_sessions.
Proof.
  apply (session_timeout_keeps 0 1010 s_sessions (obj s_sessions 0)).
  - apply heap_obj. vm_compute. reflexivity.
  - vm_compute. reflexivity.
  - vm_compute. reflexivity.
  - apply run_lucky. vm_compute. reflexivity.
Defined.

Lemma session_timeout_expires_witness :
  heap (session_timeout 0 1000000 s_shared).2 !! 0%nat = None.
Proof.
  apply (session_timeout_expires 0 1000000 s_shared (obj s_shared 0)).
  - apply from_boot_mem, shared_from_boot.
  - apply from_boot_db, shared_from_boot.
  - apply heap_obj. vm_compute. reflexivity.
  - right. vm_compute. congruence.
  - apply run_lucky. vm_compute. reflexivity.
  - reflexivity.
Defined.

(** ** Sending and receiving *)

Definition big_reply : msg_out := MGetResp (mkGetResp CLE_OK 77 2027 1 1000 1000 0 name_f (replicate 2000 9)).

Lemma sendmsg_fragments_witness :
  wp (sess_sendmsg 0 big_reply CMO_GET cb_null) (fun ok s' => ok = true /\ db s' = db s_sessions /\ exists ops x',
    heap s' !! 0%nat = Some x' /\ s_out_q x' = s_out_q sender ++ ops /\
    packets sender CMO_GET (user_key (Some (s_user sender))) true
      (s_next_seqid_out sender) (default [] (xdr_msg_enc big_reply)) (op_pkt_data <$> ops) /\
    s_next_seqid_out x' = seq_after (s_next_seqid_out sender) (length ops) /\
    Forall (fun op => op_sess op = 0%nat /\ op_done_cb op = cb_null) ops) s_sessions.
Proof.
  apply (sendmsg_fragments 0 big_reply CMO_GET cb_null s_sessions sender).
  - apply heap_obj. vm_compute. reflexivity.
  - exact sender_ok.
  - unfold CMO_GET. lia.
  - apply run_lucky. vm_compute. reflexivity.
  - reflexivity.
  - vm_compute. congruence.
Defined.

Lemma reassembly_roundtrip_witness :
  wp (sess_sendmsg 0 big_reply CMO_GET cb_null) (fun sent s' => sent = true /\ exists ops x',
    heap s' !! 0%nat = Some x' /\ s_out_q x' = s_out_q sender ++ ops /\
    let pkts := op_pkt_data <$> ops in
    (forall i raw, pkts !! i = Some raw ->
       cld_authcheck (user_key (Some (s_user sender))) (take (length raw - 20) raw) (foot_sha raw) = 0 /\
       foot_seqid raw = seq_after (s_next_seqid_out sender) i) /\
    wp (rx_fragments 7 1 pkts) (fun ok t' => ok = true /\ exists y',
      heap t' !! 1%nat = Some y' /\ s_msg_buf y' = default [] (xdr_msg_enc big_reply) /\ s_msg_op y' = CMO_GET)
      s_sessions) s_sessions.
Proof.
  apply (reassembly_roundtrip 0 1 big_reply CMO_GET 7 cb_null s_sessions sender (default [] (xdr_msg_enc big_reply))
    s_sessions (obj s_sessions 1)).
  - apply heap_obj. vm_compute. reflexivity.
  - exact sender_ok.
  - unfold CMO_GET. lia.
  - apply run_lucky. vm_compute. reflexivity.
  - reflexivity.
  - vm_compute. congruence.
  - apply heap_obj. vm_compute. reflexivity.
Defined.

Lemma packets_authentic_witness :
  let raw := two_pkts !!! 1%nat in
  cld_authcheck (user_key (Some alice)) (take (length raw - 20) raw) (foot_sha raw) = 0 /\
  foot_seqid raw = seq_after 40 1.
Proof.
  apply (packets_authentic sender CMO_GET alice true 40 long_msg two_pkts 1).
  - exact two_packets.
  - lia.
  - vm_compute. reflexivity.
Defined.

Lemma simple_pkt_malformed_witness :
  exists sha, cld_authsign (user_key (Some alice)) ([1; 2] ++ [3] ++ replicate 8 0) = (0, sha) /\
    let '(pkt, behind) := simple_pkt alice 9 [1; 2] [3] (replicate 8 0) (replicate 8 0) in
    length pkt = 31%nat /\
    foot_seqid pkt = le_val (replicate 8 0) /\
    foot_sha pkt = le_bytes 8 9 ++ take 12 sha /\ behind = drop 12 sha /\ length behind = 8%nat.
Proof.
  apply (simple_pkt_malformed alice [1; 2] [3] (replicate 8 0) (replicate 8 0) 9).
  - cbn. lia.
  - reflexivity.
  - repeat constructor.
Defined.

(** The packet at position [i] of the queue of object [p]. *)
Definition queued_pkt (s : srv memdb) (p i : nat) : session_outpkt :=
  default (mkOutpkt 0 [] 0 0 cb_null) (s_out_q (obj s p) !! i).
Definition second_seqid : Z := foot_seqid (op_pkt_data (queued_pkt s_queued 0 1)).

Lemma msg_ack_correct_witness :
  exists x', msg_ack 0 second_seqid s_queued =
      (tt, set_heap (<[0%nat := x']> (heap s_queued)) s_queued) /\
    s_out_q x' = filter (fun op => ~ acked_by second_seqid op)
                   (s_out_q (obj s_queued 0)).
Proof.
  destruct (msg_ack_correct 0 second_seqid s_queued (obj s_queued 0))
    as (x' & H1 & H2 & _).
  - apply heap_obj. vm_compute. reflexivity.
  - apply (bool_decide_unpack _). vm_compute. exact I.
  - exists x'. exact (conj H1 H2).
Defined.

Lemma retry_preserves_witness :
  wp (sess_retry_output 0) (fun r s' => exists q',
    heap s' !! 0%nat = Some (set_out_q q' (obj s_queued 0)) /\
    op_pkt_data <$> q' = op_pkt_data <$> s_out_q (obj s_queued 0) /\ db s' = db s_queued /\
    (lucky s_queued -> r.1 = 0 /\ q' = retried (current_time s_queued) <$> s_out_q (obj s_queued 0))) s_queued.
Proof. apply (retry_preserves 0 s_queued), heap_obj. vm_compute. reflexivity. Defined.

Lemma retry_spins_witness :
  wp (session_retry 0 1005) (fun _ s' => net s' = net s_sessions /\ exists x' delay,
    heap s' !! 0%nat = Some x' /\ s_out_q x' = s_out_q (obj s_sessions 0) /\ s_retry_timer x' = Some delay /\
    delay <= 0) s_sessions.
Proof.
  apply (retry_spins 0 1005 s_sessions (obj s_sessions 0) (queued_pkt s_sessions 0 0)).
  - apply heap_obj. vm_compute. reflexivity.
  - vm_compute. congruence.
  - apply run_lucky. vm_compute. reflexivity.
  - apply (bool_decide_unpack _). vm_compute. exact I.
  - apply (list_elem_of_lookup_2 _ 0). vm_compute. reflexivity.
  - vm_compute. congruence.
Defined.

(** ** Edges *)

Lemma packet_gate_witness :
  rejected (cli_fd cli2) s_opened (cli_rd_pkt cli2 (client_pkt 11 CMO_PUT 3 []) s_opened).1
    (cli_rd_pkt cli2 (client_pkt 11 CMO_PUT 3 []) s_opened).2 \/
  exists pkt, authentic s_opened (client_pkt 11 CMO_PUT 3 []) pkt /\ sess_matches s_opened cli2 pkt.
Proof. apply (packet_gate cli2 (client_pkt 11 CMO_PUT 3 []) s_opened). Defined.

Lemma session_reload_witness :
  session_encode (session_decode (fun _ => []) (session_encode sender) zero_session) = session_encode sender.
Proof.
  apply (session_reload (fun _ => []) sender zero_session); vm_compute; [intuition congruence|reflexivity|lia].
Defined.

Lemma lock_compare_order_witness :
  lock_cmp_total [mkRawLock 2027 11 2 1000 1; mkRawLock 2027 12 2 1000 1].
Proof. apply lock_compare_order. repeat (constructor; [unfold lock_small; cbn; lia|]). constructor. Defined.

Lemma session_free_dangling_witness :
  let s' := (session_free (Some 4%nat) true s_five).2 in
  mkEnt 15 4%nat 15 ∈ concat (buckets (sessions s')) /\ heap s' !! 4%nat = None.
Proof.
  apply (session_free_dangling 4 0 [mkEnt 15 4%nat 15] (mkEnt 15 4%nat 15) s_five).
  - vm_compute. reflexivity.
  - by left.
  - reflexivity.
  - vm_compute. discriminate.
Defined.

(** ** Tables and directories *)

Definition zdiff (a b : Z) : Z := a - b.
Lemma zdiff_eq (a b : Z) : zdiff a b = 0 <-> a = b.
Proof. unfold zdiff. lia. Qed.

Definition tab0 : htab Z Z := mkHtab false false 0 (htab_init_buckets 5) 0 [].
Definition four_puts : list (@hop Z Z) := [HPut 1 10; HPut 2 20; HPut 6 60; HPut 4 40].
Definition tab4 : htab Z Z := run_hops id zdiff tab0 four_puts.

Lemma tab4_wf : htab_wf id tab4.
Proof.
  apply (run_hops_rep id zdiff zdiff_eq four_puts tab0 (fun _ => [])).
  - by apply (htab_new_wf id zdiff true true false false).
  - reflexivity.
Qed.

Lemma htab_ops_refine_witness :
  htab_get id zdiff (run_hops id zdiff tab0 [HPut 1 10; HPut 6 60; HPut 1 11; HDel 6]) 1 = Some 11.
Proof.
  rewrite (htab_ops_refine id zdiff zdiff_eq true true false false tab0); reflexivity.
Defined.

Lemma htab_resize_get_witness :
  htab_get id zdiff (htab_resize true tab4).2 6 = htab_get id zdiff tab4 6.
Proof. apply (htab_resize_get id zdiff zdiff_eq); [vm_compute; lia|exact tab4_wf]. Defined.

Lemma htab_put_lost_witness :
  (htab_put id true true tab4 7 70).1 = true /\
  htab_get id zdiff (htab_put id true true tab4 7 70).2 7 = htab_get id zdiff tab4 7.
Proof.
  apply (htab_put_lost id zdiff zdiff_eq); [vm_compute; lia|exact tab4_wf|reflexivity|vm_compute; discriminate].
Defined.

Definition dir_ab : list bytes := [[97]; [98; 98]].

Lemma dirent_find_correct_witness :
  match dirent_find (enc_dir dir_ab) [98; 98] with
  | Ok (ofs, len) => [98; 98] ∈ dir_ab /\ take (Z.to_nat len) (drop (Z.to_nat ofs) (enc_dir dir_ab)) = enc_ent [98; 98]
  | Err rc => rc = -1 /\ ([98; 98] ∉ dir_ab)
  end.
Proof. apply (dirent_find_correct dir_ab [98; 98]); [by repeat constructor|reflexivity]. Defined.

Lemma dirdata_append_delete_witness :
  let '(ok1, d1) := dirdata_append true (enc_dir dir_ab) [99] in
  let '(ok2, d2) := dirdata_delete d1 [99] in
  ok1 = true /\ ok2 = true /\ d1 = enc_dir (dir_ab ++ [[99]]) /\
  (([99] : bytes) ∉ dir_ab -> d2 = enc_dir dir_ab /\ dirdata_delete d2 [99] = (false, d2)).
Proof. apply (dirdata_append_delete dir_ab [99]); [by repeat constructor|done|reflexivity]. Defined.

Lemma dirent_find_safe_witness :
  dirent_scan 100 [98; 98] (enc_dir dir_ab) 0 = dirent_find (enc_dir dir_ab) [98; 98].
Proof.
  apply (dirent_find_safe (enc_dir dir_ab) [98; 98] 8 8).
  - apply (bool_decide_unpack _). vm_compute. exact I.
  - reflexivity.
  - vm_compute. lia.
Defined.
