(* ===== verification/TransportWitness.v ===== *)
(** * TransportWitness: packets on a connection

    Two requests of a client, cut in odd places; a header cut in two. *)

From S2P Require Import Prelude Htab Dirent Wire Bdb Srv Cldb Outq Msg Session Server MemDb Demo Transport.
#[local] Open Scope Z_scope.

(** The packets of the first client after its session is open. *)
Definition wire_pkts : list bytes := Eval vm_compute in snd <$> filter (fun ev : event => cli_fd ev.1 = 7) (ev_opens ++ ev_shared).
Definition wire_bytes : bytes := Eval vm_compute in send_all 4096 wire_pkts.
Definition wire_evs : list net_ev := [Arrive (take 5 wire_bytes); Ready (Some 2%nat); Ready None; Arrive (drop 5 wire_bytes); Ready (Some 90%nat)].

Lemma packets_cross_witness :
  wire_pkts <> [] /\ exists c0 c, cli_accept (serve cli1) (fun _ => true) 1 s_sessions = Some (c0, s_sessions) /\
    net_run (serve cli1) (fun _ => true) 1 (wire_evs ++ ((fun k => Ready (Some k)) <$> replicate 1000 3%nat)) c0 s_sessions = Some (c, (feed (serve cli1) wire_pkts s_sessions).1).
Proof.
  split; [discriminate|].
  destruct (packets_cross cli1 (fun _ => true) 1 4096 wire_pkts wire_evs (replicate 1000 3%nat) s_sessions) as (c0 & E0 & (c & E1) & _).
  - reflexivity.
  - apply (bool_decide_unpack _). vm_compute. exact I.
  - unfold ubbp_sz. lia.
  - apply (bool_decide_unpack _). vm_compute. exact I.
  - vm_compute. reflexivity.
  - apply Nat.leb_le. vm_compute. reflexivity.
  - exists c0, c. split; [exact E0|exact E1].
Defined.

(** A session that keeps what it is given. *)
Definition keep (p : bytes) (y : list bytes) : Z * list bytes := (0, y ++ [p]).

Lemma client_receives_witness :
  exists n t, receive_calls keep (take n (replicate 30 (7%nat, 1%nat))) (cldc_tcp_new (frames 2 [[1; 2; 3]; [4]])) [] = Some (t, [[1; 2; 3]; [4]]) /\ ct_rx t = [].
Proof.
  destruct (client_receives keep [[1; 2; 3]; [4]] (replicate 30 (7%nat, 1%nat)) []) as (n & t & E & Hr & _).
  - apply (bool_decide_unpack _). vm_compute. exact I.
  - apply (bool_decide_unpack _). vm_compute. exact I.
  - apply Nat.leb_le. vm_compute. reflexivity.
  - exists n, t. split; [exact E|exact Hr].
Defined.

Lemma split_header_replays_witness :
  exists t1, receive_calls keep [(7%nat, 3%nat)] (cldc_tcp_new (frame 2 [1; 2; 3] ++ [67; 76])) [] = Some (t1, [[1; 2; 3]]) /\
    exists crc t2, cldc_tcp_receive_pkt_data keep (inr 7%nat) (inr 7%nat) t1 [[1; 2; 3]] = Some (crc, t2, [[1; 2; 3]; [1; 2; 3]]) /\ ct_rx t2 = [].
Proof.
  destruct (split_header_replays keep [1; 2; 3] [67; 76] []) as (t1 & E1 & _ & H).
  - unfold fits, CLD_RAW_MSG_SZ. cbn. lia.
  - cbn. unfold ubbp_sz. lia.
  - exists t1. split; [exact E1|]. destruct (H 7%nat 7%nat [[1; 2; 3]] ltac:(cbn; lia)) as (crc & t2 & E2 & Hr & _). exists crc, t2. split; [exact E2|exact Hr].
Defined.
