(* ===== verification/CliDemo.v ===== *)
(** * CliDemo: the client's library parameter is satisfiable

    XDR of the client's requests and of the server's responses as RFC 4506
    defines it, over the routines of MemDb, and that it meets what the
    theorems on the two sides ask ([XdrCliOk]). *)

From S2P Require Import Prelude Htab Dirent Wire Bdb Srv Cldb Outq Msg Session Server Logic OutqSpec Abs Inv.
From S2P Require Import MsgSpec SessionSpec Mem System ServerSpec Cldc CldcLogic CldcSys CldcWf CldcWire.
From S2P Require Import CldcProps Props Corner MemDb Demo.
#[local] Open Scope Z_scope.

Definition put_req (r : msg_req) : option bytes :=
  match r with
  | ReqVoid => Some []
  | ReqDel n => put_bounded CLD_INODE_NAME_MAX n
  | ReqOpen o => n ← put_bounded CLD_INODE_NAME_MAX (mo_inode_name o);
                 Some (put_int (mo_mode o) ++ put_int (mo_events o) ++ n)
  | ReqClose fh | ReqUnlock fh | ReqGet fh => Some (put_hyper fh)
  | ReqLock l => Some (put_hyper (ml_fh l) ++ put_int (ml_flags l))
  | ReqPut p => d ← put_bounded CLD_MAX_PAYLOAD_SZ (mp_data p); Some (put_hyper (mp_fh p) ++ d)
  end.

Definition get_generic (b : bytes) : option (Z * Z * bytes) :=
  '(code, b) ← get_int b;
  '(xid, b) ← get_hyper b;
  Some (code, xid, b).

(** The name lies before the data; a failed decoding leaves the buffers alone. *)
Definition get_get_resp (b payload name : bytes) : option get_resp * bytes * bytes :=
  match ('(code, xid, b) ← get_generic b;
         '(inum, b) ← get_hyper b;
         '(vers, b) ← get_hyper b;
         '(tc, b) ← get_hyper b;
         '(tm, b) ← get_hyper b;
         '(flags, b) ← get_int b;
         '(n, b) ← get_opaque CLD_INODE_NAME_MAX b;
         '(d, _) ← get_opaque CLD_MAX_PAYLOAD_SZ b;
         Some (mkCResp code xid inum vers tc tm flags (Z.of_nat (length d)), n, d)) with
  | None => (None, payload, name)
  | Some (r, n, d) => (Some r, d ++ drop (length d) payload, (n ++ [0]) ++ drop (length n + 1) name)
  end.

#[global] Instance rfc_xdr_cli : XdrCli := {|
  xdr_req_enc := put_req;
  xdr_generic_resp_dec b := fst <$> get_generic b;
  xdr_open_resp_dec b := '(_, b) ← get_generic b; fst <$> get_hyper b;
  xdr_get_resp_dec := get_get_resp;
  xdr_event_dec b := '(fh, b) ← get_hyper b; '(ev, _) ← get_int b; Some (fh, ev);
  xdr_ack_frag_dec b := fst <$> get_hyper b |}.

(** ** It is as the .x definition says *)

Lemma length_put_opaque (b : bytes) : Z.of_nat (length (put_opaque b)) <= Z.of_nat (length b) + 7.
Proof.
  unfold put_opaque, put_int. rewrite !length_app, length_be_bytes, length_replicate. unfold xpad.
  pose proof (Z.mod_pos_bound (- Z.of_nat (length b)) 4 ltac:(lia)). lia.
Qed.

Lemma put_hdr_len (h : cld_pkt_hdr) (b : bytes) : hdr_ok h -> put_hdr h = Some b -> Z.of_nat (length b) <= 68.
Proof.
  intros (_ & _ & Hu & _) E. unfold put_hdr, put_bounded in E. rewrite (proj2 (Z.leb_le _ _)) in E by done.
  cbn [mbind option_bind] in E. apply (inj Some) in E as <-. rewrite !length_app. unfold put_hyper. rewrite !length_be_bytes.
  assert (length (put_info (ph_mi h)) <= 16)%nat as Hi.
  { unfold put_info, put_int, put_hyper. rewrite length_app, length_be_bytes.
    destruct (ph_mi h); cbn [length]; rewrite ?length_app, ?length_be_bytes; lia. }
  assert (Z.of_nat (length (put_opaque (ph_user h))) <= 36) as Ho.
  { unfold put_opaque, put_int. rewrite !length_app, length_be_bytes, length_replicate. unfold xpad, CLD_MAX_USERNAME in *.
    pose proof (Z.div_mod (- Z.of_nat (length (ph_user h))) 4 ltac:(lia)).
    pose proof (Z.mod_pos_bound (- Z.of_nat (length (ph_user h))) 4 ltac:(lia)). lia. }
  lia.
Qed.

Lemma put_bounded_ok (max : Z) (b : bytes) : Z.of_nat (length b) <= max -> put_bounded max b = Some (put_opaque b).
Proof. intros H. unfold put_bounded. by rewrite (proj2 (Z.leb_le _ _)). Qed.

Ltac undo :=
  repeat first [ rewrite get_hyper_put by lia | rewrite get_int_put by lia
               | rewrite get_opaque_put by first [done|lia] | progress cbn [mbind option_bind fmap option_fmap option_map fst snd] ].

Lemma put_req_ok (r : msg_req) : req_ok r ->
  exists b, put_req r = Some b /\ Z.of_nat (length b) <= CLD_MAX_MSG_SZ /\ decodes r b.
Proof.
  assert (forall z, Z.of_nat (length (put_hyper z)) = 8) as L8 by (intros z; unfold put_hyper; by rewrite length_be_bytes).
  assert (forall z, Z.of_nat (length (put_int z)) = 4) as L4 by (intros z; unfold put_int; by rewrite length_be_bytes).
  pose proof (fun b => app_nil_r (A := Z) b) as Hnil. unfold CLD_MAX_MSG_SZ, u32_ok, u64_ok, str_ok in *.
  destruct r as [|n|o|fh|l|fh|p|fh]; cbn [req_ok put_req]; unfold u32_ok, u64_ok, str_ok.
  - intros _. exists []. by split_and!.
  - intros [Hn _]. rewrite put_bounded_ok by done. eexists. split; [done|]. pose proof (length_put_opaque n).
    unfold CLD_INODE_NAME_MAX, CLD_MAX_PAYLOAD_SZ in *. split; [lia|]. cbn. rewrite <- (Hnil (put_opaque n)). by undo.
  - intros (H1 & H2 & Hn & _). rewrite put_bounded_ok by done. eexists. split; [done|].
    pose proof (length_put_opaque (mo_inode_name o)). rewrite !length_app, !Nat2Z.inj_add, !L4.
    unfold CLD_INODE_NAME_MAX, CLD_MAX_PAYLOAD_SZ in *. split; [lia|]. cbn. rewrite <- (Hnil (put_opaque _)). undo. by destruct o.
  - intros Hz. eexists. split; [done|]. rewrite L8. split; [unfold CLD_MAX_PAYLOAD_SZ; lia|]. cbn. rewrite <- (Hnil (put_hyper _)). by undo.
  - intros [H1 H2]. eexists. split; [done|]. rewrite length_app, Nat2Z.inj_add, L8, L4. split; [unfold CLD_MAX_PAYLOAD_SZ; lia|].
    cbn. rewrite <- (Hnil (put_int _)). undo. by destruct l.
  - intros Hz. eexists. split; [done|]. rewrite L8. split; [unfold CLD_MAX_PAYLOAD_SZ; lia|]. cbn. rewrite <- (Hnil (put_hyper _)). by undo.
  - intros [H1 H2]. rewrite put_bounded_ok by done. eexists. split; [done|]. pose proof (length_put_opaque (mp_data p)).
    rewrite length_app, Nat2Z.inj_add, L8. unfold CLD_MAX_PAYLOAD_SZ in *. split; [lia|]. cbn.
    rewrite <- (Hnil (put_opaque _)). undo. by destruct p.
  - intros Hz. eexists. split; [done|]. rewrite L8. split; [unfold CLD_MAX_PAYLOAD_SZ; lia|]. cbn. rewrite <- (Hnil (put_hyper _)). by undo.
Qed.

Lemma code_bound (e : cle_err) : 0 <= code_val e < 2 ^ 32.
Proof. destruct e; cbn; lia. Qed.

Lemma code_val_cle (e : cle_err) : code_val e = cle_code e.
Proof. by destruct e. Qed.

Lemma get_generic_put (e : cle_err) (xid : Z) (rest : bytes) : u64_ok xid ->
  get_generic (put_int (code_val e) ++ put_hyper xid ++ rest) = Some (cle_code e, xid, rest).
Proof. intros H. unfold get_generic, u64_ok in *. pose proof (code_bound e). undo. by rewrite code_val_cle. Qed.

Lemma get_get_resp_put (r : cld_msg_get_resp) (b payload name : bytes) :
  get_ok r -> put_msg (MGetResp r) = Some b ->
  fst <$> get_generic b = Some (cle_code (gr_code r), gr_xid_in r) /\
  get_get_resp b payload name =
    (Some (resp_of r), gr_data r ++ drop (length (gr_data r)) payload,
     (gr_inode_name r ++ [0]) ++ drop (length (gr_inode_name r) + 1) name).
Proof.
  intros (H1 & H2 & H3 & H4 & H5 & H6 & [H7 _] & H8) E. unfold u64_ok, u32_ok in *. cbn [put_msg] in E.
  rewrite !put_bounded_ok in E by done. cbn [mbind option_bind] in E. apply (inj Some) in E as <-.
  unfold get_get_resp. rewrite get_generic_put by done. cbn [mbind option_bind fmap option_fmap option_map fst].
  split; [done|]. rewrite <- (app_nil_r (put_opaque (gr_data r))). undo. done.
Qed.

#[global] Instance rfc_xdr_cli_ok : XdrCliOk.
Proof.
  split.
  - apply put_hdr_len.
  - apply put_req_ok.
  - intros code xid b Hx E. apply (inj Some) in E as <-. rewrite <- (app_nil_r (put_hyper xid)).
    cbn [xdr_generic_resp_dec rfc_xdr_cli]. by rewrite get_generic_put.
  - intros code xid fh b Hx Hf E. apply (inj Some) in E as <-. cbn [xdr_generic_resp_dec xdr_open_resp_dec rfc_xdr_cli].
    rewrite get_generic_put by done. unfold u64_ok in *. rewrite <- (app_nil_r (put_hyper fh)). by undo.
  - intros r b payload name. apply get_get_resp_put.
Qed.

(** ** A client and a server talking

    The client library of Cldc and the server of Server, each fed with the
    packets the other makes: a session is opened, then a file, written, read
    and closed.  The states on the way are those the properties of the client
    are applied to in CliWitness. *)

Definition corc (i : nat) : Z := Z.of_nat i + 1.
Definition srv_addr : bytes := [10; 0; 0; 1].

Definition c_zero : cli := cli_init 1000 corc.

(** ** Steps of the pair *)

Definition client (o : cli_op) (c : cli) : cli := match run_op o c with Some (_, c) => c | None => c end.

(** Packets the client has sent since its trace was [n] long. *)
Definition sent_since (n : nat) (c : cli) : list bytes :=
  omap (fun e => match e with Sent _ pkt => Some pkt | _ => None end) (drop n (c_trace c)).

(** The server takes the packets in. *)
Definition serve (pkts : list bytes) (s : srv memdb) : srv memdb := run_events ((fun pkt => (cli1, pkt)) <$> pkts) s.

(** What the server has queued for the session at [p]. *)
Definition queued (s : srv memdb) (p : nat) : list bytes := op_pkt_data <$> s_out_q (obj s p).

(** The client takes the server's packets in. *)
Definition hear (pkts : list bytes) (c : cli) : cli := foldl (fun c pkt => client (OpReceive srv_addr pkt) c) c pkts.

(** A call, its way to the server, the answer, and its acknowledgement. *)
Definition exchange (o : cli_op) (p : nat) (cs : cli * srv memdb) : cli * srv memdb :=
  let c := client o cs.1 in
  let s := serve (sent_since (length (c_trace cs.1)) c) cs.2 in
  let c' := hear (queued s p) c in
  (c', serve (sent_since (length (c_trace c)) c') s).

Definition up : cli * srv memdb := Eval vm_compute in
  exchange (OpNewSess (Some 1) srv_addr (Some alice) (Some alice)) 0 (c_zero, s_root).
Definition opened : cli * srv memdb := Eval vm_compute in exchange (OpOpen (Some 2) name_f RWLC 0) 0 up.

Definition c_fp : nat := Eval vm_compute in default 0%nat (head (from_option cs_cfh [] (c_sess opened.1))).
Definition written : cli * srv memdb := Eval vm_compute in exchange (OpPut c_fp (Some 3) (Some [1; 2; 3])) 0 opened.

(** Calls on their way: sent, and answered by the server but not yet heard. *)
Definition ask (o : cli_op) (cs : cli * srv memdb) : cli * srv memdb :=
  let c := client o cs.1 in (c, serve (sent_since (length (c_trace cs.1)) c) cs.2).

Definition nop_asked : cli * srv memdb := Eval vm_compute in ask (OpNop (Some 4)) opened.
Definition get_asked : cli * srv memdb := Eval vm_compute in ask (OpGet c_fp (Some 5) false) written.
Definition end_asked : cli * srv memdb := Eval vm_compute in ask (OpEndSess None) opened.

Definition csess (c : cli) : cldc_session :=
  default (mkCSess 0 [] [] [] 0 0 false 0 0 0 [] [] false 0 [] [] []) (c_sess c).
(** The newest message. *)
Definition newest (c : cli) : nat := default 0%nat (head (cs_out_msg (csess c))).
Definition nmsg (c : cli) : cldc_msg := default (mkMsg 0 0 no_cb None (mkCopts None zero_resp) true 0 []) (c_msgs c !! newest c).

(** ** The runs are runs of the library *)

Lemma client_reach (o : cli_op) (c0 c : cli) : creach c0 c -> op_allowed o c -> creach c0 (client o c).
Proof.
  intros Hr Ho. unfold client. destruct (run_op o c) as [[r c']|] eqn:E; [|done].
  eapply creach_step; [done|]. by eapply cstep_op.
Qed.

Lemma hear_reach (pkts : list bytes) (c0 c : cli) : creach c0 c -> creach c0 (hear pkts c).
Proof.
  revert c. induction pkts as [|pkt pkts IH]; intros c Hr; [done|]. apply (IH (client (OpReceive srv_addr pkt) c)).
  by apply client_reach.
Qed.

Lemma exchange_reach (o : cli_op) (p : nat) (cs cs' : cli * srv memdb) (c0 : cli) :
  exchange o p cs = cs' -> creach c0 cs.1 -> op_allowed o cs.1 -> creach c0 cs'.1.
Proof. intros <- Hr Ho. cbn. by apply hear_reach, client_reach. Qed.

Lemma ask_reach (o : cli_op) (cs cs' : cli * srv memdb) (c0 : cli) :
  ask o cs = cs' -> creach c0 cs.1 -> op_allowed o cs.1 -> creach c0 cs'.1.
Proof. intros <- Hr Ho. cbn. by apply client_reach. Qed.

Lemma up_reach : creach c_zero up.1.
Proof.
  eapply (exchange_reach (OpNewSess (Some 1) srv_addr (Some alice) (Some alice)) 0 (c_zero, s_root));
    [vm_compute; reflexivity|constructor|reflexivity].
Qed.
Lemma opened_reach : creach c_zero opened.1.
Proof. eapply (exchange_reach (OpOpen (Some 2) name_f RWLC 0) 0 up); [vm_compute; reflexivity|exact up_reach|exact I]. Qed.
Lemma written_reach : creach c_zero written.1.
Proof.
  eapply (exchange_reach (OpPut c_fp (Some 3) (Some [1; 2; 3])) 0 opened); [vm_compute; reflexivity|exact opened_reach|exact I].
Qed.
Lemma nop_reach : creach c_zero nop_asked.1.
Proof. eapply (ask_reach (OpNop (Some 4)) opened); [vm_compute; reflexivity|exact opened_reach|exact I]. Qed.
Lemma get_reach : creach c_zero get_asked.1.
Proof. eapply (ask_reach (OpGet c_fp (Some 5) false) written); [vm_compute; reflexivity|exact written_reach|exact I]. Qed.
Lemma end_reach : creach c_zero end_asked.1.
Proof. eapply (ask_reach (OpEndSess None) opened); [vm_compute; reflexivity|exact opened_reach|exact I]. Qed.

Lemma run_wf (c : cli) : creach c_zero c -> wf c.
Proof. apply wf_reach. Qed.

Lemma run_wf_sess (c : cli) (x : cldc_session) : creach c_zero c -> c_sess c = Some x -> wf_sess c x.
Proof. intros H%run_wf E. unfold wf in H. by rewrite E in H. Qed.

Lemma run_clucky (c : cli) : c_oracle c = corc -> clucky c.
Proof. intros E i. rewrite E. unfold corc. lia. Qed.

(** ** Side conditions, by computation *)

Definition creds_okb (x : cldc_session) : bool :=
  bool_decide (cs_user x = alice) && bool_decide (cs_secret_key x = alice) &&
  (0 <=? cs_sid x) && (cs_sid x <? 2 ^ 64) && (0 <=? cs_next_seqid_out x) && (cs_next_seqid_out x <? 2 ^ 64).

Lemma creds_okb_ok (x : cldc_session) : creds_okb x = true -> can_call x /\ can_ack x /\ cs_secret_key x = cs_user x.
Proof.
  unfold creds_okb. rewrite !andb_true_iff, !bool_decide_eq_true, !Z.leb_le, !Z.ltb_lt. intros (((((E1 & E2) & ?) & ?) & ?) & ?).
  assert (creds_ok x) as Hc by (unfold creds_ok; rewrite E1, E2; cbn; lia).
  assert (Forall (fun b => 0 < b < 256) (cs_user x)) as Hf by (rewrite E1; unfold alice; repeat constructor; lia).
  split; [by split|]. split; [by split|]. congruence.
Qed.

Definition waitsb (c : cli) (x : cldc_session) (p : nat) (m : cldc_msg) : bool :=
  bool_decide (p ∈ cs_out_msg x) && negb (m_done m) &&
  forallb (fun q => match c_msgs c !! q with Some n => negb (m_xid n =? m_xid m) || (q =? p)%nat | None => true end)
    (cs_out_msg x).

Lemma waitsb_ok (c : cli) (x : cldc_session) (p : nat) (m : cldc_msg) :
  c_msgs c !! p = Some m -> waitsb c x p m = true -> waits_for c x p m (m_xid m).
Proof.
  intros Hm. unfold waitsb. rewrite !andb_true_iff, bool_decide_eq_true, negb_true_iff. intros ((Hp & Hd) & Hf).
  split_and!; try done. intros q n Hq Hn Hx. rewrite forallb_forall in Hf. specialize (Hf q (proj1 (list_elem_of_In _ _) Hq)).
  rewrite Hn, Hx, Z.eqb_refl in Hf. cbn in Hf. by apply Nat.eqb_eq.
Qed.

(** A one-packet answer taken apart: header, message, sequence number, digest. *)
Definition pkt_xid (pkt : bytes) : Z := from_option (fun h => mi_xid (pkt_infos (ph_mi h.1))) 0 (get_hdr pkt).
Definition pkt_head (pkt : bytes) : bytes := take (from_option snd 0%nat (get_hdr pkt)) pkt.
Definition pkt_sha (pkt : bytes) : bytes := drop (length pkt - 20) pkt.

Lemma one_packet (y : session) (op seq : Z) (mb pkt : bytes) :
  Z.of_nat (length mb) <=? CLD_MAX_PKT_MSG_SZ = true -> (0 <=? pkt_xid pkt) && (pkt_xid pkt <? 2 ^ 64) = true ->
  put_hdr (outpkt_hdr y true true (pkt_xid pkt) op) = Some (pkt_head pkt) ->
  cld_authsign (user_key (Some (s_user y))) (pkt_head pkt ++ mb ++ le_bytes 8 seq) = (0, pkt_sha pkt) ->
  bool_decide (pkt = pkt_head pkt ++ mb ++ le_bytes 8 seq ++ pkt_sha pkt) = true ->
  packets y op (user_key (Some (s_user y))) true seq mb [pkt].
Proof.
  intros H1%Z.leb_le [H2%Z.leb_le H3%Z.ltb_lt]%andb_true_iff Hh Ha Hp%bool_decide_eq_true. rewrite Hp at 1.
  by eapply packets_last.
Qed.

(** The answer the server has queued is what the client expects. *)
Lemma expects_one (c : cli) (s : srv memdb) (op seq : Z) (mb : bytes) :
  let x := csess c in let y := obj s 0 in
  creach c_zero c -> c_sess c = Some x -> c_oracle c = corc -> creds_okb x = true ->
  (s_sid y =? cs_sid x) && bool_decide (s_user y = cs_user x) = true ->
  (0 <=? seq) && (seq <? 2 ^ 64) && (seq =? cs_next_seqid_in x) = true -> call_op op ->
  Z.of_nat (length mb) <=? CLD_MAX_MSG_SZ = true ->
  packets y op (user_key (Some (s_user y))) true seq mb (queued s 0) ->
  expects c x y op seq mb (queued s 0).
Proof.
  intros x y Hr Hx Ho (Hc & Hk & Hs)%creds_okb_ok [E1%Z.eqb_eq E2%bool_decide_eq_true]%andb_true_iff
    [[H1%Z.leb_le H2%Z.ltb_lt]%andb_true_iff H3%Z.eqb_eq]%andb_true_iff Hop Hl%Z.leb_le Hp.
  split; try done; [by apply run_wf_sess|by apply run_clucky|]. split; [lia|by left].
Qed.

Definition only_pkt (s : srv memdb) : bytes := default [] (head (queued s 0)).
Definition nop_seq : Z := Eval vm_compute in cs_next_seqid_in (csess nop_asked.1).
Definition nop_mb : bytes := Eval vm_compute in default [] (put_msg (MGenericResp CLE_OK (m_xid (nmsg nop_asked.1)))).
Definition get_seq : Z := Eval vm_compute in cs_next_seqid_in (csess get_asked.1).
(** The server's answer to the read. *)
Definition get_answer : cld_msg_get_resp := Eval vm_compute in
  match get_reply (vw get_asked.2) (s_sid (obj get_asked.2 0)) 2 (m_xid (nmsg get_asked.1)) true with
  | inr r => r
  | inl _ => mkGetResp CLE_DB_ERR 0 0 0 0 0 0 [] []
  end.
Definition get_mb : bytes := Eval vm_compute in default [] (put_msg (MGetResp get_answer)).

Lemma nop_expects : expects nop_asked.1 (csess nop_asked.1) (obj nop_asked.2 0) CMO_NOP nop_seq nop_mb (queued nop_asked.2 0).
Proof.
  apply expects_one; [exact nop_reach|vm_compute; reflexivity..| |vm_compute; reflexivity|].
  - unfold call_op. vm_compute. intuition congruence.
  - change (queued nop_asked.2 0) with [only_pkt nop_asked.2]. apply one_packet; vm_compute; reflexivity.
Qed.

Lemma get_expects : expects get_asked.1 (csess get_asked.1) (obj get_asked.2 0) CMO_GET get_seq get_mb (queued get_asked.2 0).
Proof.
  apply expects_one; [exact get_reach|vm_compute; reflexivity..| |vm_compute; reflexivity|].
  - unfold call_op. vm_compute. intuition congruence.
  - change (queued get_asked.2 0) with [only_pkt get_asked.2]. apply one_packet; vm_compute; reflexivity.
Qed.

(** The server of a run knows the client's session. *)
Lemma server_ready (s : srv memdb) (sid : Z) :
  htab_get sess_hash sess_equal (sessions s) sid = Some 0%nat -> heap s !! 0%nat = Some (obj s 0) ->
  s_dead (obj s 0) = false -> s_user (obj s 0) = alice -> s_addr_len (obj s 0) = 16 ->
  take 16 (s_addr (obj s 0)) = replicate 16 1 -> is_master s = true -> db_up s = true ->
  ready cli1 sid alice 0 s (obj s 0).
Proof. intros ? ? ? ? El Ea ? ?. split; try done. rewrite El. exact Ea. Qed.
