(* ===== verification/CliWitness.v ===== *)
(** * CliWitness: the properties of the client side at work

    Each property of the client library, its directory reader, the timer list
    and the write queue, applied to a concrete run or state. *)

From S2P Require Import Prelude Htab Dirent Wire Bdb Srv Cldb Outq Msg Session Server Logic OutqSpec.
From S2P Require Import Abs Inv MsgSpec SessionSpec Mem System ServerSpec Props Corner MemDb Demo Timer Atcp DirCur.
From S2P Require Import Cldc CldcLogic CldcSys CldcWf CldcWire CldcProps CliDemo.
#[local] Open Scope Z_scope.

Lemma completes_at_most_once_witness : (ncomp 2 opened.1 <= 1)%nat.
Proof. apply (completes_at_most_once 1000 corc opened.1 2). exact opened_reach. Defined.

Lemma wf_reachable_witness : wf opened.1.
Proof. apply (wf_reachable 1000 corc). exact opened_reach. Defined.

Lemma calls_safe_witness : exists r c', run_op (OpClose c_fp None) opened.1 = Some (r, c') /\ wf c'.
Proof.
  apply (calls_safe 1000 corc opened.1 (OpClose c_fp None)).
  - exact opened_reach.
  - eexists. vm_compute. reflexivity.
  - discriminate.
  - discriminate.
Defined.

(** The answer to the no-op is lost: two minutes later. *)
Definition c_late : cli := set_c_now 1200 nop_asked.1.

Lemma late_wf : wf_sess c_late (csess nop_asked.1).
Proof.
  apply (run_wf_sess c_late); [|vm_compute; reflexivity].
  eapply creach_step; [exact nop_reach|apply (cstep_time 1200)].
Qed.

Lemma late_not_ending : ~ end_pending c_late.
Proof.
  assert (bool_decide (map_Forall (fun _ m => m_done m = true \/ m_cb m <> end_sess_cb) (c_msgs c_late)) = true) as H
    by (vm_compute; reflexivity).
  apply bool_decide_eq_true in H. intros (p & m & Hm & Hd & Hc & _). destruct (H p m Hm); congruence.
Qed.

Lemma timer_expires_witness :
  exists c' x', sess_timer c_late = Some (0, c') /\ c_sess c' = Some x' /\ wf_sess c' x' /\ cs_expired x' = true /\
    cs_out_msg x' = [] /\ c_msgs c' = ∅ /\
    c_trace c' = c_trace c_late ++ drop_trace c_late (cs_out_msg (csess nop_asked.1)) ++ [TimerCtl false 0; Event None CE_SESS_FAILED].
Proof.
  apply (timer_expires c_late (csess nop_asked.1)).
  - vm_compute. reflexivity.
  - exact late_wf.
  - exact late_not_ending.
  - vm_compute. reflexivity.
Defined.

Lemma timer_retransmits_witness :
  exists c', sess_timer nop_asked.1 = Some (CLDC_MSG_RETRY, c') /\
    c_trace c' = c_trace nop_asked.1 ++ resend_trace srv_addr nop_asked.1 (cs_out_msg (csess nop_asked.1)) ++ [TimerCtl true CLDC_MSG_RETRY].
Proof.
  destruct (timer_retransmits nop_asked.1 (csess nop_asked.1)) as (c' & E & _ & _ & Ht & _).
  - vm_compute. reflexivity.
  - apply run_wf_sess; [exact nop_reach|vm_compute; reflexivity].
  - vm_compute. congruence.
  - exists c'. split; [exact E|exact Ht].
Defined.

(** The answer to the end of the session has arrived. *)
Definition c_ended : cli := Eval vm_compute in
  match c_sess end_asked.1 with
  | Some x => set_c_sess (Some (cs_bufs CMO_END_SESS (default [] (put_msg (MGenericResp CLE_OK (m_xid (nmsg end_asked.1)))))
                                  (cs_payload x) (cs_inode_name_temp x) x)) end_asked.1
  | None => end_asked.1
  end.

Lemma ended_wf : wf_sess c_ended (csess c_ended).
Proof.
  assert (wf_sess end_asked.1 (csess end_asked.1)) as [W Hc] by (apply run_wf_sess; [exact end_reach|vm_compute; reflexivity]).
  split; [|exact Hc]. by eapply wfb_frame; [..|exact W].
Qed.

Lemma end_sess_use_after_free_witness :
  rxmsg_generic (le_bytes 8 9) c_ended = None /\ drop_one (newest c_ended) c_ended = None.
Proof.
  apply (end_sess_use_after_free c_ended (csess c_ended) (newest c_ended) (nmsg c_ended) (le_bytes 8 9) 0).
  - vm_compute. reflexivity.
  - exact ended_wf.
  - apply waitsb_ok; vm_compute; reflexivity.
  - vm_compute. reflexivity.
  - vm_compute. reflexivity.
  - vm_compute. reflexivity.
Defined.

Lemma accept_seqid_window_witness :
  accept_seqid (nop_seq + 1) CMO_PUT nop_asked.1 = Some (- EBADSLT, nop_asked.1).
Proof.
  rewrite (accept_seqid_window CMO_PUT (nop_seq + 1) nop_asked.1 (csess nop_asked.1)); try (vm_compute; intuition congruence).
Defined.

Lemma call_reaches_handler_witness :
  exists c' q m ps body, run_op (OpPut c_fp (Some 3) (Some [1; 2; 3])) opened.1 = Some (0, c') /\
    issued opened.1 c' (csess opened.1) (Some 3) CMO_PUT body q m ps /\
    exists s1 y1, heap s1 !! 0%nat = Some y1 /\ s_msg_xid y1 = m_xid m /\ s_msg_op y1 = CMO_PUT /\ db s1 = db opened.2 /\
      deliver cli1 ps opened.2 = (Some RxOk, (handler_of CMO_PUT (m_xid m) (ReqPut (mkPut 2 [1; 2; 3])) 0 s1).2).
Proof.
  apply (call_reaches_handler (OpPut c_fp (Some 3) (Some [1; 2; 3])) CMO_PUT (ReqPut (mkPut 2 [1; 2; 3])) opened.1
           (csess opened.1) cli1 opened.2 (obj opened.2 0) 0).
  - apply run_wf. exact opened_reach.
  - vm_compute. reflexivity.
  - apply run_clucky. vm_compute. reflexivity.
  - apply creds_okb_ok. vm_compute. reflexivity.
  - vm_compute. reflexivity.
  - vm_compute. reflexivity.
  - split; [unfold u64_ok; cbn; lia|cbn; unfold CLD_MAX_PAYLOAD_SZ; lia].
  - apply server_ready; vm_compute; reflexivity.
Defined.

Lemma response_completes_witness :
  let x := csess nop_asked.1 in
  exists r c' x' acks ack, let last := seq_after nop_seq (length (queued nop_asked.2 0) - 1) in
    receive_all (cs_addr x) (queued nop_asked.2 0) nop_asked.1 = Some (r, c') /\ 0 < r /\
    c_sess c' = Some x' /\ cs_next_seqid_in x' = u64 (last + 1) /\
    is_ack x last ack /\ (length acks = length (queued nop_asked.2 0) - 1)%nat /\
    c_trace c' = c_trace nop_asked.1 ++ (Sent (cs_addr x) <$> acks) ++
      [Complete (newest nop_asked.1) 4 0; Sent (cs_addr x) ack] /\
    c_msgs c' !! newest nop_asked.1 = Some (set_done (nmsg nop_asked.1)).
Proof.
  apply (response_completes nop_asked.1 (csess nop_asked.1) (obj nop_asked.2 0) (newest nop_asked.1) (nmsg nop_asked.1) 4 CLE_OK
           (m_xid (nmsg nop_asked.1)) CMO_NOP nop_seq nop_mb (queued nop_asked.2 0)).
  - exact nop_expects.
  - unfold u64_ok. vm_compute. intuition congruence.
  - vm_compute. reflexivity.
  - apply waitsb_ok; vm_compute; reflexivity.
  - vm_compute. congruence.
  - vm_compute. reflexivity.
  - vm_compute. reflexivity.
Defined.

Lemma get_returns_data_witness :
  exists r c' m', receive_all srv_addr (queued get_asked.2 0) get_asked.1 = Some (r, c') /\
    c_msgs c' !! newest get_asked.1 = Some m' /\ cldc_copts_get_data (m_copts m') c' = Some ([1; 2; 3], c').
Proof.
  destruct (get_returns_data get_asked.1 (csess get_asked.1) (obj get_asked.2 0) (newest get_asked.1) (nmsg get_asked.1) 5
              get_answer CMO_GET get_seq get_mb (queued get_asked.2 0)) as (r & c' & m' & acks & ack & E & Hm & _ & _ & Hd & _).
  - exact get_expects.
  - unfold get_ok, u64_ok, u32_ok, str_ok. split_and!; try (vm_compute; congruence). vm_compute. repeat constructor.
  - vm_compute. reflexivity.
  - vm_compute. reflexivity.
  - vm_compute. reflexivity.
  - vm_compute. congruence.
  - vm_compute. congruence.
  - apply waitsb_ok; vm_compute; reflexivity.
  - vm_compute. congruence.
  - vm_compute. reflexivity.
  - vm_compute. reflexivity.
  - exists r, c', m'. split; [exact E|]. split; [exact Hm|exact Hd].
Defined.

(** The acknowledgement the client sends for it. *)
Definition nop_ack : bytes := Eval vm_compute in
  default [] (head (sent_since (length (c_trace nop_asked.1)) (hear (queued nop_asked.2 0) nop_asked.1))).

Lemma ack_clears_queue_witness :
  exists s' y', cli_rd_pkt cli1 nop_ack nop_asked.2 = ((Some RxOk, true), s') /\ heap s' !! 0%nat = Some y' /\
    db s' = db nop_asked.2 /\
    s_out_q y' = filter (fun op => ~ acked_by nop_seq op) (s_out_q (obj nop_asked.2 0)).
Proof.
  apply (ack_clears_queue (csess nop_asked.1) nop_seq nop_ack cli1 nop_asked.2 (obj nop_asked.2 0) 0).
  - apply creds_okb_ok. vm_compute. reflexivity.
  - vm_compute. reflexivity.
  - exists (pkt_head nop_ack), (pkt_sha nop_ack). split; [vm_compute; reflexivity|].
    split; vm_compute; reflexivity.
  - vm_compute. intuition congruence.
  - apply server_ready; vm_compute; reflexivity.
  - vm_compute. repeat constructor.
Defined.

(** The client hears of a fragment while the no-op is pending. *)
Definition c_frag : cli := Eval vm_compute in
  match c_sess nop_asked.1 with
  | Some x => set_c_sess (Some (cs_bufs CMO_ACK_FRAG (put_hyper 5) (cs_payload x) (cs_inode_name_temp x) x)) nop_asked.1
  | None => nop_asked.1
  end.

Lemma ack_frag_out_of_bounds_witness : rxmsg_ack_frag c_frag = None.
Proof.
  apply (ack_frag_out_of_bounds c_frag (csess c_frag) (newest c_frag) (nmsg c_frag)
           (default (mkPi 0 [] []) (default None (head (m_pkt_info (nmsg c_frag))))) 5 (tail (cs_out_msg (csess c_frag))));
    vm_compute; reflexivity.
Defined.

(** ** Directories *)

Lemma list_dir_safe_witness :
  (list_dir (fun _ => true) [1; 0; 102] = Some (Err (-2)) /\ forall n, ~ records n [1; 0; 102]) \/
  exists n l, list_dir (fun _ => true) [1; 0; 102] = Some (Ok l) /\ length l = n /\ records n [1; 0; 102].
Proof. apply (list_dir_safe (fun _ => true) [1; 0; 102]). repeat constructor. Defined.

Lemma list_dir_roundtrip_witness :
  cldc_dirent_count (enc_dir [[102]; [103; 104]]) = Ok 2 /\
  list_dir (fun _ => true) (enc_dir [[102]; [103; 104]]) = Some (Ok [Some [102]; Some [103; 104]]).
Proof. apply (list_dir_roundtrip (fun _ => true) [[102]; [103; 104]]); [reflexivity|repeat constructor]. Defined.

(** ** Timers: two are due, the first arms itself again, in the past *)

Definition rearm (p : nat) (st : timers) : list timer_op := if (p =? 1)%nat then [TAdd 1 3] else [].
Definition three_timers : timers := Eval vm_compute in
  cld_timer_add 3 500 (cld_timer_add 2 20 (cld_timer_add 1 10
    (mkTimers [] 0 ∅ []))).

Lemma three_wf : timers_wf three_timers.
Proof.
  change three_timers with (cld_timer_add 3 500 (cld_timer_add 2 20 (cld_timer_add 1 10
    (mkTimers [] 0 ∅ [])))).
  do 3 apply timer_add_wf. split; cbn; [constructor..|].
  intros p. rewrite lookup_total_empty. split; [by intros ?%elem_of_nil|done].
Qed.

Lemma timers_run_terminates_witness :
  exists next st' fired, cld_timers_run rearm 100 three_timers = Some (next, st') /\ timers_wf st' /\
    (forall p, p ∈ tl_list st' -> 100 < expires st' p) /\ tl_log st' = tl_log three_timers ++ fired /\
    sublist fired (due_list 100 three_timers) /\ NoDup fired /\
    next = match tl_list st' with [] => 0 | p :: _ => expires st' p - 100 end.
Proof. apply (timers_run_terminates rearm 100 three_timers). exact three_wf. Defined.

Lemma timers_run_fires_due_witness :
  exists next st', cld_timers_run rearm 100 three_timers = Some (next, st') /\ tl_log st' = [1%nat; 2%nat].
Proof.
  apply (timers_run_fires_due rearm 100 three_timers).
  - exact three_wf.
  - intros p st. unfold rearm. destruct (Nat.eqb_spec p 1) as [->|]; repeat constructor.
Defined.

(** ** The write queue: two buffers, a short write, the first callback queues a third *)

Definition again (i : nat) : bool * list wr_req := if (i =? 0)%nat then (false, [mkReq true (Some [9]) (Some 2%nat)]) else (false, []).

Definition wr_acc : list (bytes * option nat) := [([1; 2; 3], Some 0%nat); ([4; 5], Some 1%nat)].
Definition wr_one : wr_state := Eval vm_compute in (atcp_writeq (mkReq true (Some [1; 2; 3]) (Some 0%nat)) atcp_wr_init).2.
Definition wr_two : wr_state := Eval vm_compute in (atcp_writeq (mkReq true (Some [4; 5]) (Some 1%nat)) wr_one).2.
Definition wr_run : wr_state := Eval vm_compute in
  default atcp_wr_init (snd <$> atcp_write_start again (WvOk 4) true true wr_two).

Lemma wr_run_reach : wr_reach again wr_acc wr_run.
Proof.
  change wr_acc with ((([] ++ [([1; 2; 3], Some 0%nat)]) ++ [([4; 5], Some 1%nat)]) ++ []).
  apply (wr_reach_op again _ wr_two (WStart (WvOk 4) true)); [|cbn; lia|vm_compute; reflexivity].
  apply (wr_reach_op again _ wr_one (WQueue (mkReq true (Some [4; 5]) (Some 1%nat)))); [|exact I|vm_compute; reflexivity].
  apply (wr_reach_op again [] atcp_wr_init (WQueue (mkReq true (Some [1; 2; 3]) (Some 0%nat)))); [|exact I|vm_compute; reflexivity].
  constructor.
Qed.

Lemma atcp_stream_witness :
  sent wr_run ++ concat (w_rest <$> write_q wr_run) = [1; 2; 3; 4; 5] /\
  ok_log wr_run ++ omap w_cb (write_compl_q wr_run ++ write_q wr_run) = [0%nat; 1%nat].
Proof. destruct (atcp_stream again wr_acc wr_run wr_run_reach) as (H1 & H2 & _). split; [exact H1|exact H2]. Defined.

Lemma free_all_settles_witness :
  let w' := atcp_write_free_all again wr_run in
  write_q w' = [] /\ write_compl_q w' = [] /\ write_cnt w' = 0 /\
  cb_log w' = [(0%nat, true); (1%nat, false); (2%nat, false)].
Proof.
  destruct (free_all_settles again wr_acc wr_run wr_run_reach) as (H1 & H2 & H3 & _ & H5 & _).
  split; [exact H1|]. split; [exact H2|]. split; [exact H3|]. rewrite H5. vm_compute. reflexivity.
Defined.
