(* ===== verification/NcldWitness.v ===== *)
(** * NcldWitness: blocking calls against a server

    A session opened through [ncld_sess_open], a file opened in it, a lock and
    a close under way at the same time; the states the properties of [NcldProps]
    and [NcldHang] are applied to. *)

From S2P Require Import Prelude Htab Dirent Wire Bdb Srv Cldb Outq Msg Session Server Logic OutqSpec ServerSpec MemDb Demo.
From S2P Require Import Timer Cldc CldcLogic CldcSys CldcWf CldcHear CldcWire CldcProps Transport CliDemo.
From S2P Require Import Ncld NcldLogic NcldInv NcldProps NcldHang.
#[local] Open Scope Z_scope.

Definition n_env (orc : nat -> Z) : open_env :=
  mkOpenEnv true true true None None (Some 1%nat) ∅ None (fun _ _ => Some srv_addr) true 1000 orc.

(** One round of the helper, receiving a packet. *)
Definition n_round : list nev := replicate 3 (EvHelper false true (inr 5000%nat) (inr 5000%nat)).

(** The events a server answers the packets of a run with. *)
Definition n_answer (n : nat) (w : nworld) (s : srv memdb) : list nev * srv memdb :=
  let s := serve (sent_since n (nw_cli w)) s in
  let q := queued s 0 in
  (concat ((fun pkt => EvArrive (frame 2 pkt) :: n_round) <$> q), s).

(** A run so far: client, server, events, and how much of the client's trace
    the server has seen. *)
Record n_run : Type := mkNrun { r_w : nworld; r_s : srv memdb; r_l : list nev; r_n : nat }.

(** Go on, then let the server answer. *)
Definition n_go (l : list nev) (r : n_run) : n_run :=
  match nrun l (r_w r) with
  | None => r
  | Some w => mkNrun w (r_s r) (r_l r ++ l) (r_n r)
  end.
Definition n_exchange (l : list nev) (r : n_run) : n_run :=
  let r := n_go l r in
  let '(l2, s) := n_answer (r_n r) (r_w r) (r_s r) in
  let n := length (c_trace (nw_cli (r_w r))) in
  let r := n_go l2 r in
  mkNrun (r_w r) (serve (sent_since n (nw_cli (r_w r))) s) (r_l r) (length (c_trace (nw_cli (r_w r)))).

Definition n_start (orc : nat -> Z) : nworld :=
  match ncld_sess_open (n_env orc) (Some [104]) 8081 true (Some alice) (Some alice) with
  | Some (inr w) => w
  | _ => oe_world true [] (mkCli None ∅ ∅ 0 0 [] orc 0)
  end.

(** The session is up; the file is open, as handle 1; a lock and a close.
    Each stage is the value of the computation named in its [_ok] lemma. *)
Definition go_up (orc : nat -> Z) : n_run := n_go [EvThread 0] (n_exchange [] (mkNrun (n_start orc) s_root [] 0)).
Definition go_opened (r : n_run) : n_run :=
  n_go [EvThread 1; EvThread 1] (n_exchange [EvCall 1 (CallOpen name_f RWLC 0); EvThread 1; EvThread 1] r).
Definition go_locking (r : n_run) : n_run :=
  n_go [EvCall 2 (CallGenio 1 GTrylock); EvThread 2; EvThread 2; EvThread 2] r.
Definition go_closing (r : n_run) : n_run :=
  n_go [EvThread 3] (n_exchange [EvCall 3 (CallClose 1 false); EvThread 3; EvThread 3] r).

(** The connection refuses one packet. *)
Definition orc_bad (i : nat) : Z := if (i =? 25)%nat then -1 else corc i.

Definition n_up : n_run := Eval vm_compute in go_up corc.
Definition n_opened : n_run := Eval vm_compute in go_opened n_up.
Definition n_locking : n_run := Eval vm_compute in go_locking n_opened.
Definition n_closing : n_run := Eval vm_compute in go_closing n_locking.
Definition n_bad : n_run := Eval vm_compute in go_opened (go_up orc_bad).

(** ** The runs are runs *)

Lemma nrun_app l1 l2 w : nrun (l1 ++ l2) w = nrun l1 w ≫= nrun l2.
Proof. revert w. induction l1 as [|e l1 IH]; intros w; cbn [nrun app]; [done|]. destruct (nstep e w); cbn; [apply IH|done]. Qed.

Definition run_ok (orc : nat -> Z) (r : n_run) : Prop := nrun (r_l r) (n_start orc) = Some (r_w r).

Lemma go_ok orc l r : run_ok orc r -> run_ok orc (n_go l r).
Proof.
  unfold run_ok, n_go. intros H. destruct (nrun l (r_w r)) as [w|] eqn:E; [|done]. cbn. by rewrite nrun_app, H.
Qed.

Lemma exchange_ok orc l r : run_ok orc r -> run_ok orc (n_exchange l r).
Proof.
  intros H. unfold n_exchange. destruct (n_answer _ _ _) as [l2 s]. unfold run_ok. cbn. apply (go_ok orc l2), (go_ok orc l), H.
Qed.

Lemma start_ok orc s : run_ok orc (mkNrun (n_start orc) s [] 0).
Proof. unfold run_ok. cbn [r_l r_w nrun]. reflexivity. Qed.

Lemma up_ok orc : run_ok orc (go_up orc).
Proof. apply go_ok, exchange_ok, start_ok. Qed.

Lemma opened_ok orc r : run_ok orc r -> run_ok orc (go_opened r).
Proof. intros H. apply go_ok, exchange_ok, H. Qed.

Lemma n_opened_ok : run_ok corc n_opened.
Proof.
  assert (go_up corc = n_up) as E1 by (vm_compute; reflexivity). assert (go_opened n_up = n_opened) as E2 by (vm_compute; reflexivity).
  rewrite <- E2. apply opened_ok. rewrite <- E1. apply up_ok.
Qed.

Lemma locking_ok : run_ok corc n_locking.
Proof. assert (go_locking n_opened = n_locking) as E by (vm_compute; reflexivity). rewrite <- E. apply go_ok, n_opened_ok. Qed.

Lemma closing_ok : run_ok corc n_closing.
Proof. assert (go_closing n_locking = n_closing) as E by (vm_compute; reflexivity). rewrite <- E. apply go_ok, exchange_ok, locking_ok. Qed.

Lemma bad_ok : run_ok orc_bad n_bad.
Proof. assert (go_opened (go_up orc_bad) = n_bad) as E by (vm_compute; reflexivity). rewrite <- E. apply opened_ok, up_ok. Qed.

Lemma nrun_reachable orc r :
  ncld_sess_open (n_env orc) (Some [104]) 8081 true (Some alice) (Some alice) = Some (inr (n_start orc)) ->
  run_ok orc r -> nreachable (r_w r).
Proof. intros Ho Hr. by exists (n_env orc), (Some [104]), 8081, true, (Some alice), (Some alice), (n_start orc), (r_l r). Qed.

Lemma start_opens : ncld_sess_open (n_env corc) (Some [104]) 8081 true (Some alice) (Some alice) = Some (inr (n_start corc)).
Proof. vm_compute. reflexivity. Qed.

(** ** Waiting for an I/O *)

Definition w_closing : nworld := r_w n_closing.
Definition f_closing : ncld_fh := mkNfh (Some 1%nat) false 0 1 0.

Lemma closing_reach : nreachable w_closing.
Proof. apply (nrun_reachable corc); [exact start_opens|apply closing_ok]. Qed.

Lemma close_waits_for_ios_witness :
  nf_nios f_closing = waiters 1 (nw_app w_closing) /\
  (thread_step 3 w_closing = Some (set_thread 3 (Freeing 1 false) w_closing) /\
     (forall t' s, nw_app w_closing !! t' = Some s -> io_fh s <> Some 1%nat) \/
   thread_step 3 w_closing = Some (set_thread 3 (Asleep (WNios 1 false)) w_closing) /\
     exists t' s, nw_app w_closing !! t' = Some s /\ io_fh s = Some 1%nat).
Proof.
  apply (close_waits_for_ios w_closing 3 1 false f_closing); [exact closing_reach|vm_compute; reflexivity..].
Defined.

(** The lock has been granted; the thread that asked for it has not run yet. *)
Definition w_granted : nworld := match thread_step 2 w_closing with Some w => w | None => w_closing end.

Lemma result_is_answer_witness :
  exists p m z code, wait_obj (WGenio 1 false 2) = Some p /\ Complete m z code ∈ c_trace (nw_cli w_closing) /\ ptr_of z = Some p /\
    wait_result (WGenio 1 false 2) code = Some (RInt 0).
Proof.
  destruct (result_is_answer w_closing 2 closing_reach) as [_ H]. apply (H (WGenio 1 false 2) w_granted (RInt 0)).
  - vm_compute. reflexivity.
  - eexists. reflexivity.
  - vm_compute. reflexivity.
  - vm_compute. reflexivity.
Defined.

(** The closing thread has looked too early and sleeps again. *)
Definition w_lost : nworld := r_w (n_go [EvThread 3] n_closing).

Lemma idle_check (w : nworld) (t u : nat) :
  bool_decide (map_Forall (fun t' s => t' = t \/ t' = u \/ idle (Some s) = true) (nw_app w)) = true ->
  forall t', t' <> t -> t' <> u -> idle (nw_app w !! t') = true.
Proof.
  intros H%bool_decide_eq_true t' Ht Hu. destruct (nw_app w !! t') as [s|] eqn:E; [|done].
  by destruct (H t' s E) as [?|[?|?]].
Qed.

Lemma close_misses_wakeup_witness :
  exists w1 f1, thread_step 2 w_lost = Some w1 /\ nw_app w1 !! 2%nat = Some (Returned (RInt 0)) /\
    nw_fhs w1 !! 1%nat = Some f1 /\ nf_nios f1 = 0 /\
    forall l w2, Forall by_itself l -> nrun l w1 = Some w2 -> nw_app w2 !! 3%nat = Some (Asleep (WNios 1 false)).
Proof.
  apply (close_misses_wakeup w_lost 3 2 1 false false 2 (mkGenio 1 true 0) f_closing).
  - apply (nrun_reachable corc); [exact start_opens|apply go_ok, closing_ok].
  - vm_compute. reflexivity.
  - vm_compute. reflexivity.
  - vm_compute. reflexivity.
  - apply idle_check. vm_compute. reflexivity.
  - vm_compute. reflexivity.
  - vm_compute. reflexivity.
  - reflexivity.
  - assert (bool_decide (map_Forall (fun _ m => m_done m = true) (c_msgs (nw_cli w_lost))) = true) as H by (vm_compute; reflexivity).
    apply bool_decide_eq_true in H. exact H.
Defined.

(** ** The lost session *)

(** The request for the lock is never answered; two minutes pass. *)
Definition w_silent : nworld := r_w (n_go [EvTime 1200] n_locking).
Definition x_silent : cldc_session := csess (nw_cli w_silent).
Definition q_silent : nat := Eval vm_compute in newest (nw_cli w_silent).

Lemma silent_kept : handles_kept w_silent.
Proof.
  assert (bool_decide (map_Forall (fun _ o => match obj_kind o with KGenio 1 => true | _ => false end = true) (nw_objs w_silent)) = true) as H1 by (vm_compute; reflexivity).
  assert (bool_decide (map_Forall (fun _ m => m_done m = true \/ from_option (fun z => z mod 8) 1 (co_cb (m_copts m)) = 5) (c_msgs (nw_cli w_silent))) = true)
    as H2 by (vm_compute; reflexivity).
  apply bool_decide_eq_true in H1, H2.
  assert (forall q cb fh, pending (nw_cli w_silent) q cb -> cb <> ncld_open_cb fh /\ cb <> ncld_close_cb fh) as H3.
  { intros q cb fh (m & Hm & Hd & Hc). destruct (H2 _ _ Hm) as [|E]; [congruence|]. rewrite Hc in E. cbn [from_option] in E.
    split; intros ->; unfold copts_of_cb in E; rewrite Z.mul_comm, Z.add_comm, Z_mod_plus_full in E; discriminate. }
  split_and!.
  - intros p o fh Ho _ Hk. specialize (H1 _ _ Ho). cbv beta in H1. clear Ho. destruct Hk as [Hk|Hk]; rewrite Hk in H1; [discriminate|].
    destruct fh as [|[|fh]]; try discriminate. eexists. vm_compute. reflexivity.
  - intros q cb fh Hp [E|E]; by destruct (H3 q cb fh Hp).
  - intros q1 q2 fh Hp _. by destruct (H3 q1 _ fh Hp).
Qed.

Lemma lost_session_ends_waits_witness :
  exists w' w'', ncld_sess_thr false false (inr 0%nat) (inr 0%nat) w_silent = Some w' /\ nw_is_up w' = false /\
    nw_pipe w' = NCLD_CMD_SESEV :: le_bytes 4 CE_SESS_FAILED /\
    thread_step 2 w' = Some w'' /\ nw_app w'' !! 2%nat = Some (Returned (RInt 1117)).
Proof.
  destruct (lost_session_ends_waits w_silent x_silent false false (inr 0%nat) (inr 0%nat)) as (w' & E & Hup & _ & Hp & H).
  - apply (nrun_reachable corc); [exact start_opens|apply go_ok, locking_ok].
  - vm_compute. reflexivity.
  - vm_compute. reflexivity.
  - vm_compute. reflexivity.
  - vm_compute. reflexivity.
  - vm_compute. reflexivity.
  - exact silent_kept.
  - destruct (H 2%nat (Asleep (WGenio 1 false 2)) (WGenio 1 false 2)) as (w'' & E2 & Ha).
    + vm_compute. reflexivity.
    + right. reflexivity.
    + exists q_silent, (nmsg (nw_cli w_silent)), (ncld_genio_cb 2). split_and!; [vm_compute; reflexivity..|vm_compute; congruence|vm_compute; reflexivity|reflexivity].
    + exists w', w''. split_and!; [exact E|exact Hup|exact Hp|exact E2|exact Ha].
Defined.

(** ** The write that is never sent *)

Definition w_write : nworld := r_w (n_go [EvCall 2 (CallGenio 1 (GWrite (Some [7]))); EvThread 2] n_bad).
Definition c_unsent : cli :=
  match cldc_put 1 (Some (copts_of_cb (ncld_genio_cb 2))) (Some [7]) (nw_cli w_write) with Some (_, c) => c | None => nw_cli w_write end.

Lemma write_hangs_witness :
  exists w1, thread_step 2 w_write = Some w1 /\
    forall l w2, nrun l w1 = Some w2 -> nw_app w2 !! 2%nat = Some (Waiting (WGenio 1 false 2)) \/ nw_app w2 !! 2%nat = Some (Asleep (WGenio 1 false 2)).
Proof.
  apply (write_hangs w_write 2 1 (mkNfh (Some 1%nat) true 0 0 0) 1 (Some [7]) 2 c_unsent).
  - apply (nrun_reachable orc_bad); [vm_compute; reflexivity|apply go_ok, bad_ok].
  - vm_compute. reflexivity.
  - vm_compute. reflexivity.
  - vm_compute. reflexivity.
  - reflexivity.
  - vm_compute. reflexivity.
  - vm_compute. reflexivity.
Defined.

(** ** The answer arrives *)

(** The server has the request for the lock; its answer is on the connection,
    and the helper has seen it. *)
Definition s_locked : srv memdb := (n_answer (r_n n_locking) (r_w n_locking) (r_s n_locking)).2.
Definition w_answered : nworld :=
  r_w (n_go (EvArrive (frame 2 (only_pkt s_locked)) :: take 2 n_round) n_locking).
#[local] Notation c_answered := (nw_cli w_answered).
Definition lock_seq : Z := Eval vm_compute in cs_next_seqid_in (csess c_answered).
Definition lock_mb : bytes := Eval vm_compute in default [] (put_msg (MGenericResp CLE_OK (m_xid (nmsg c_answered)))).
Definition tcp_after : cldc_tcp :=
  match cldc_tcp_receive_pkt_data (fun b l => (0, l ++ [b])) (inr 5000%nat) (inr 5000%nat) (nw_tcp w_answered) [] with
  | Some (_, t, _) => t
  | None => nw_tcp w_answered
  end.

Lemma answered_reach : nreachable w_answered.
Proof. apply (nrun_reachable corc); [exact start_opens|apply go_ok, locking_ok]. Qed.

Lemma lock_expects : expects c_answered (csess c_answered) (obj s_locked 0) CMO_TRYLOCK lock_seq lock_mb [only_pkt s_locked].
Proof.
  assert (creds_okb (csess c_answered) = true) as (Hc & Hk & Hs)%creds_okb_ok by (vm_compute; reflexivity).
  assert (c_sess c_answered = Some (csess c_answered)) as Hx by (vm_compute; reflexivity).
  split.
  - exact Hx.
  - apply wf_live; [|exact Hx]. apply (lo_wf _ _ _ (ni_lib _ (nreachable_inv _ answered_reach))).
  - exact Hk.
  - apply run_clucky. vm_compute. reflexivity.
  - split_and!; [vm_compute; reflexivity..|exact Hs].
  - split; [vm_compute; intuition congruence|left; vm_compute; reflexivity].
  - unfold call_op. vm_compute. intuition congruence.
  - vm_compute. congruence.
  - apply one_packet; vm_compute; reflexivity.
Qed.

Lemma answer_returns_witness :
  exists w' w'', ncld_sess_thr false false (inr 5000%nat) (inr 5000%nat) w_answered = Some w' /\ thread_step 2 w' = Some w'' /\
    nw_app w'' !! 2%nat = Some (Returned (RInt 0)).
Proof.
  apply (answer_returns w_answered 2 (Asleep (WGenio 1 false 2)) 1 false 2 (newest c_answered) (nmsg c_answered) (csess c_answered)
    (obj s_locked 0) CMO_TRYLOCK lock_seq lock_mb (only_pkt s_locked) CLE_OK (m_xid (nmsg c_answered)) (inr 5000%nat) (inr 5000%nat) 0 tcp_after).
  - exact answered_reach.
  - vm_compute. reflexivity.
  - vm_compute. reflexivity.
  - vm_compute. reflexivity.
  - eexists. vm_compute. reflexivity.
  - vm_compute. reflexivity.
  - right. reflexivity.
  - vm_compute. reflexivity.
  - exact lock_expects.
  - vm_compute. intuition congruence.
  - vm_compute. reflexivity.
  - apply waitsb_ok; vm_compute; reflexivity.
  - vm_compute. congruence.
  - vm_compute. reflexivity.
  - vm_compute. reflexivity.
Defined.
