(* ===== verification/ChunkWitness.v ===== *)
(** * ChunkWitness: the chunk server's properties at work

    A disk with one object, a digest that is a prefix, two writers of one
    key. *)

From S2P Require Import Prelude ObjCache Fs BeFs BeFsSpec BeFsProps BeFsList Chunkd ChunkLogic ChunkReq ChunkPut ChunkGet ChunkPart ChunkCp ChunkProps.
#[local] Open Scope Z_scope.

(** ** The table of active objects *)

Definition k_a : bytes := [97].
Definition oc1 : objcache := default objcache_init (snd <$> objcache_get true k_a OC_F_DIRTY objcache_init).

Lemma oc1_reach : oc_reach [0%nat] oc1.
Proof. apply (oc_reach_step [] objcache_init (OcGet k_a true)); [constructor|exact I|vm_compute; reflexivity]. Qed.

Lemma objcache_refines_witness :
  exists held' c', run_oc (OcGet k_a false) [0%nat] oc1 = Some (held', c') /\
    oc_abs c' = aget (objcache_hash k_a) false (oc_abs oc1).
Proof.
  destruct (objcache_refines [0%nat] oc1 (OcGet k_a false)) as (h & c & E & Ha & _).
  - exact oc1_reach.
  - exact I.
  - exists h, c. split; [exact E|exact Ha].
Defined.

Lemma dirty_visible_witness :
  exists c3, objcache_get true k_a 0 oc1 = Some (0%nat, c3) /\ objcache_test_dirty 0 c3 = Some true.
Proof.
  apply (dirty_visible [] objcache_init k_a k_a 0 oc1 [0%nat] oc1).
  - constructor.
  - vm_compute. reflexivity.
  - apply oc_while_refl. by constructor.
  - reflexivity.
Defined.

(** ** Objects on disk *)

Definition pad (n : nat) (b : bytes) : bytes := strncpy n ((fun x => x mod 256) <$> b).

Lemma length_pad n b : length (pad n b) = n.
Proof. apply length_strncpy. Qed.

Lemma byte_pad n b : Forall (fun x => 0 <= x < 256) (pad n b).
Proof.
  unfold pad, strncpy. apply Forall_app. split.
  - apply Forall_take, Forall_fmap, Forall_true. intros x. cbn. apply Z.mod_pos_bound. lia.
  - apply Forall_replicate. lia.
Qed.

Definition pad_sha : Sha :=
  {| SHA1 := pad 20; SHA256 := pad 32; length_SHA1 := length_pad 20; length_SHA256 := length_pad 32; byte_SHA256 := byte_pad 32 |}.
#[local] Existing Instance pad_sha.

Definition w_vol : bytes := [47; 118].
Definition w_user : bytes := [117; 49].
Definition w_data : bytes := [1; 2; 3].
Definition w_md : bytes := SHA1 w_data.
Definition w_garbage (n : Z) : bytes := replicate (Z.to_nat n) 0xAA.
Definition w_fs : fsys := mkFs ∅ ∅ ∅ 0 0 (fun _ => 2 ^ 48) 0.
Definition w_path : bytes := obj_path w_vol 1 k_a.

Lemma w_garbage_len n : 0 <= n -> Z.of_nat (length (w_garbage n)) = n.
Proof. intros Hn. unfold w_garbage. rewrite length_replicate. lia. Qed.

Lemma w_fs_wf : fs_wf w_fs.
Proof. split; cbn; intros *; by rewrite ?lookup_empty. Qed.

Lemma w_calm : calm w_fs.
Proof. intros i. cbn. lia. Qed.

Lemma w_free : dir_free w_vol 1 k_a w_fs.
Proof. split; [done|]. split; [apply lookup_empty|apply not_elem_of_empty]. Qed.

Lemma store_makes_object_witness :
  exists r s', store w_vol w_garbage 1 w_user k_a 3 w_data w_md true w_fs = Some (r, s') /\
    r = (true, che_Success) /\ content s' w_path = Some (obj_file w_user k_a w_md w_data).
Proof.
  destruct (fw_total _ _ _ (store_makes_object w_vol w_garbage 1 w_user k_a 3 w_data w_md true w_fs w_garbage_len w_fs_wf
    ltac:(vm_compute; split; discriminate) eq_refl)) as (r & s' & E & _ & _ & Hok & _ & Hc).
  specialize (Hc w_calm eq_refl w_free eq_refl). exists r, s'. split; [exact E|]. split; [exact Hc|].
  apply Hok. by rewrite Hc.
Defined.

Lemma store_then_read_witness :
  fw False
    (_ ← store w_vol w_garbage 1 w_user k_a 3 w_data w_md false;
     r ← fs_obj_open w_vol 1 w_user k_a;
     match r.1 with
     | None => mret (inl r.2)
     | Some o => b ← fs_obj_read o 3; mret (inr (b.1, bo_hash o, bo_size o))
     end) (fun r _ => r = inr (Ok w_data, w_md, 3)) w_fs.
Proof.
  apply (store_then_read w_vol w_garbage 1 w_user w_user k_a w_data w_md false w_fs w_garbage_len w_fs_wf w_calm w_free);
    [reflexivity|reflexivity|vm_compute; discriminate|reflexivity| |cbn; lia].
  repeat constructor; discriminate.
Defined.

(** The object with its second byte spoiled. *)
Definition w_cur : bytes := [1; 9; 3].
Definition w_spoiled : fsys :=
  mkFs {[w_path := 0%nat]} {[0%nat := mkFile (obj_front w_user k_a w_md w_data ++ w_cur) 0]} ∅ 1 0 (fun _ => 2 ^ 48) 0.

Lemma w_stored : stored w_user k_a w_md w_data w_cur w_path w_spoiled.
Proof.
  split; [|reflexivity|vm_compute; discriminate|reflexivity|reflexivity|split; [repeat constructor; discriminate|cbn; lia]].
  unfold content. cbn [f_names f_inodes w_spoiled]. rewrite lookup_singleton_eq. cbn. by rewrite lookup_singleton_eq.
Qed.

Lemma read_detects_corruption_witness :
  fw False
    (r ← fs_obj_open w_vol 1 w_user k_a;
     match r.1 with
     | None => mret None
     | Some o => q ← fs_obj_seek o 0; if q.1 =? 0 then b ← fs_obj_read q.2 3; mret (Some b.1) else mret None
     end)
    (fun r _ =>
       match r with
       | None => w_user <> w_user \/ ~ calm w_spoiled \/ ~ dir_free w_vol 1 k_a w_spoiled
       | Some (Err _) => ~ calm w_spoiled \/ exists j, blk w_cur j <> blk w_data j
       | Some (Ok b) => w_user = w_user /\ b = take (length b) (drop (Z.to_nat 0) w_cur) /\
           (0 mod CHUNK_BLK_SZ = 0 ->
            (0 + Z.of_nat (length b)) mod CHUNK_BLK_SZ = 0 \/ 0 + Z.of_nat (length b) = Z.of_nat (length w_data) ->
            b = take (length b) (drop (Z.to_nat 0) w_data) \/ exists x y, x <> y /\ SHA1 x = SHA1 y)
       end) w_spoiled.
Proof. apply (read_detects_corruption w_vol 1 w_user w_user k_a w_md w_data w_cur 0 3); [exact w_stored|cbn; lia|lia]. Defined.

Lemma w_spoiled_wf : fs_wf w_spoiled.
Proof.
  split; cbn.
  - intros p i [_ ->]%lookup_singleton_Some. rewrite lookup_singleton_eq. eauto.
  - intros i [f [-> _]%lookup_singleton_Some]. lia.
  - intros p q i [-> _]%lookup_singleton_Some [-> _]%lookup_singleton_Some. done.
  - intros p Hp. by apply not_elem_of_empty in Hp.
Qed.

Lemma owner_only_witness :
  exists r s', fs_obj_delete w_vol 1 w_user k_a w_spoiled = Some (r, s') /\ r.1 = true /\ content s' w_path = None.
Proof.
  destruct (owner_only w_vol 1 w_user k_a w_spoiled w_spoiled_wf) as [_ H]. apply fw_total in H as (r & s' & E & _ & Hr).
  exists r, s'. assert (r.1 = true) as Er.
  { assert (fst <$> (fst <$> fs_obj_delete w_vol 1 w_user k_a w_spoiled) = Some true) as E2 by (vm_compute; reflexivity).
    rewrite E in E2. by injection E2. }
  rewrite Er in Hr. split; [exact E|]. split; [exact Er|apply Hr].
Defined.

(** An object of 14 TB. *)
Definition w_huge : fs_obj :=
  mkObj k_a (214748365 * CHUNK_BLK_SZ) 0 [] (Some 0%nat) 0 (Some w_path) 0 None 0 0 0 0 0 0 65536 [] 0 (w_garbage 4) 214748365.

Lemma csum_table_overflow_witness : csum_tbl_sz w_huge = 4 /\ obj_flush_csum w_huge w_fs = None.
Proof. apply (csum_table_overflow w_huge w_fs); [reflexivity|reflexivity|cbn; lia]. Defined.

(** ** A connection *)

(** Signatures of one byte: a sum of the key and the message. *)
Definition w_sig : Sig := {| HMAC_SHA1 k m := [1 + foldr Z.add 0 (k ++ m) mod 255]; base64 b := b |}.
#[local] Existing Instance w_sig.
Definition w_text : Text := {| g_markup_escape b := b; strftime _ := [] |}.
#[local] Existing Instance w_text.
Definition w_readdir : Readdir := {| dir_list p s := elements (children p s); dir_list_ok _ _ := reflexivity _ |}.
#[local] Existing Instance w_readdir.
Definition w_hdb : TcHdb unit := {| tchdbget _ _ := None; tchdbput _ _ h := (true, h); tchdbaddint _ _ h := (None, h) |}.
#[local] Existing Instance w_hdb.

(** A request of [w_user] for [key]. *)
Definition w_req (op : Z) (key : bytes) (data_len : Z) : bytes :=
  let hdr := CHUNKD_MAGIC ++ [op; 0] ++ le_bytes 2 (Z.of_nat (length key)) ++ [7; 7; 7; 7] ++ le_bytes 8 data_len in
  hdr ++ strncpy 64 (chreq_sign (hdr ++ replicate 64 0 ++ key) w_user).

(** [w_user] has logged in and opened table 1; [rx] has arrived. *)
Definition w_cli (rx : bytes) : client :=
  set_c_rx rx (set_c_table_len 1 (set_c_table_id 1 (set_c_user (strncpy 65 w_user) cli_alloc))).

Definition w_srv : server unit := mkSrv tt objcache_init 0 0 CHK_ST_OFF 0 [] [].

Definition w_put : bytes := w_req CHO_PUT k_a 3.
Definition w_get : bytes := w_req CHO_GET k_a 0.

Lemma w_request op key n rx :
  length key = 1%nat -> 0 <= n -> In (op, key, n) [(CHO_PUT, k_a, 3); (CHO_GET, k_a, 0); (CHO_PUT, k_a, 89); (CHO_NOP, k_a, 0)] ->
  request op (w_req op key n) key (w_cli rx).
Proof.
  intros Hk Hn Hin. cbn in Hin.
  destruct Hin as [[= <- <- <-]|[[= <- <- <-]|[[= <- <- <-]|[[= <- <- <-]|[]]]]]; split; vm_compute; reflexivity.
Qed.

Lemma w_received rx : received w_user 1 rx (w_cli rx).
Proof. split; [split; [split|..]|..]; try (vm_compute; reflexivity). vm_compute. discriminate. Qed.

Lemma w_target f : fs_wf f -> calm f -> f_names f !! obj_dir w_vol 1 k_a = None -> f_dirs f = ∅ -> target w_vol 1 k_a f.
Proof. intros W Cf Hn Hd. split; [done|done|]. split; [done|]. split; [done|]. rewrite Hd. apply not_elem_of_empty. Qed.

Lemma w_user_ok : Forall (fun x => x <> 0) w_user /\ (length w_user < 128)%nat.
Proof. split; [repeat constructor; discriminate|cbn; lia]. Qed.

Lemma put_over_wire_witness :
  exists s, tcp_cli_event w_vol w_garbage EV_READ (mkCst (w_cli (w_put ++ k_a ++ w_data)) w_srv w_fs) = Some (tt, s) /\
    c_tx (st_cli s) = put_resp w_put w_data /\ content (st_fs s) w_path = Some (obj_file w_user k_a (SHA1 w_data) w_data).
Proof.
  destruct (put_over_wire w_vol w_garbage w_user 1 w_put k_a w_data [] (w_cli (w_put ++ k_a ++ w_data)) w_srv w_fs) as (s & E & _ & Ht & Hc & _).
  - exact w_garbage_len.
  - apply w_received.
  - apply w_request; [reflexivity|lia|cbn; tauto].
  - vm_compute. reflexivity.
  - vm_compute. discriminate.
  - apply w_target; [exact w_fs_wf|exact w_calm|apply lookup_empty|reflexivity].
  - reflexivity.
  - exact oc_init_inv.
  - exists s. split; [exact E|]. split; [exact Ht|exact Hc].
Defined.

Lemma get_over_wire_witness :
  exists k mtime s, (_ ← tcp_cli_event w_vol w_garbage EV_READ; writes w_vol w_garbage k)
      (mkCst (w_cli (w_get ++ k_a)) w_srv w_spoiled) = Some (tt, s) /\
    c_tx (st_cli s) = get_hdr w_get w_md 3 mtime ++ w_cur.
Proof.
  destruct (get_over_wire w_vol w_garbage w_user 1 w_get k_a w_md w_data w_cur (w_cli (w_get ++ k_a)) w_srv w_spoiled) as (k & mtime & s & E & Ht & _).
  - apply w_received.
  - apply w_request; [reflexivity|lia|cbn; tauto].
  - discriminate.
  - exact w_stored.
  - intros i. cbn. lia.
  - lia.
  - vm_compute. reflexivity.
  - exists k, mtime, s. split; [exact E|exact Ht].
Defined.

Lemma put_then_get_wire_witness :
  exists k mtime s,
    (_ ← tcp_cli_event w_vol w_garbage EV_READ; _ ← arrive (w_get ++ k_a);
     _ ← tcp_cli_event w_vol w_garbage EV_READ; writes w_vol w_garbage k)
      (mkCst (w_cli (w_put ++ k_a ++ w_data)) w_srv w_fs) = Some (tt, s) /\
    c_tx (st_cli s) = put_resp w_put w_data ++ get_hdr w_get (SHA1 w_data) 3 mtime ++ w_data.
Proof.
  apply (put_then_get_wire w_vol w_garbage w_user 1 w_put w_get k_a w_data [] (w_cli (w_put ++ k_a ++ w_data)) w_srv w_fs).
  - exact w_garbage_len.
  - apply w_received.
  - apply w_request; [reflexivity|lia|cbn; tauto].
  - apply w_request; [reflexivity|lia|cbn; tauto].
  - vm_compute. reflexivity.
  - discriminate.
  - vm_compute. discriminate.
  - exact w_user_ok.
  - apply w_target; [exact w_fs_wf|exact w_calm|apply lookup_empty|reflexivity].
  - reflexivity.
  - exact oc_init_inv.
Defined.

(** A PUT of 89 bytes for a key that exists, whose data is a signed NOP. *)
Definition w_put89 : bytes := w_req CHO_PUT k_a 89.
Definition w_nop : bytes := w_req CHO_NOP k_a 0.

Lemma refused_put_runs_data_witness :
  exists s p, tcp_cli_event w_vol w_garbage EV_READ (mkCst (w_cli (w_put89 ++ k_a ++ w_nop ++ k_a)) w_srv w_spoiled) = Some (tt, s) /\
    c_tx (st_cli s) = resp_err w_put89 che_KeyExists ++ resp_err w_nop che_Success /\ c_out_ce (st_cli s) = Some p.
Proof.
  destruct (refused_put_runs_data w_vol w_garbage w_user 1 w_put89 k_a w_nop k_a [] (w_cli (w_put89 ++ k_a ++ w_nop ++ k_a)) w_srv w_spoiled)
    as (s & p & E & _ & Ht & Hp & _).
  - exact w_garbage_len.
  - apply w_received.
  - apply w_request; [reflexivity|lia|cbn; tauto].
  - apply w_request; [reflexivity|lia|cbn; tauto].
  - vm_compute. reflexivity.
  - apply w_target; [exact w_spoiled_wf|intros i; cbn; lia|vm_compute; reflexivity|reflexivity].
  - eexists. exact (st_content _ _ _ _ _ _ _ w_stored).
  - exact oc_init_inv.
  - exists s, p. split; [exact E|]. split; [exact Ht|exact Hp].
Defined.

(** The last two bytes of the object, and a copy of it to another key. *)
Definition w_part : client :=
  set_c_getpart (le_bytes 8 1) (set_c_key_len 1 (set_c_key (k_a ++ replicate 1023 0) (set_c_creq (w_req CHO_GET_PART k_a 0) (w_cli [])))).

Definition w_sound : fsys :=
  mkFs {[w_path := 0%nat]} {[0%nat := mkFile (obj_front w_user k_a w_md w_data ++ w_data) 0]} ∅ 1 0 (fun _ => 2 ^ 48) 0.

Lemma w_sound_stored : stored w_user k_a w_md w_data w_data w_path w_sound.
Proof.
  split; [|reflexivity|vm_compute; discriminate|reflexivity|reflexivity|split; [repeat constructor; discriminate|cbn; lia]].
  unfold content. cbn [f_names f_inodes w_sound]. rewrite lookup_singleton_eq. cbn. by rewrite lookup_singleton_eq.
Qed.

Lemma part_answered_witness :
  exists s, object_get_part w_vol (mkCst w_part w_srv w_sound) = Some (true, s) /\
    part_post (c_creq w_part) w_data w_data [] 1 2 w_sound s.
Proof.
  apply (part_answered w_vol w_user 1 k_a w_md w_data w_data 1 w_part w_srv w_sound).
  - split; try (vm_compute; reflexivity). vm_compute. discriminate.
  - vm_compute. reflexivity.
  - vm_compute. reflexivity.
  - cbn. lia.
  - vm_compute. discriminate.
  - exact w_sound_stored.
  - intros i. cbn. lia.
  - lia.
  - vm_compute. reflexivity.
Defined.

Definition k_b : bytes := [98].
Definition w_copy : client :=
  set_c_var_len 1 (set_c_key2 (k_a ++ replicate 1023 0) (set_c_key_len 1 (set_c_key (k_b ++ replicate 1023 0) (w_cli [])))).

Lemma w_sound_wf : fs_wf w_sound.
Proof.
  split; cbn.
  - intros p i [_ ->]%lookup_singleton_Some. rewrite lookup_singleton_eq. eauto.
  - intros i [f [-> _]%lookup_singleton_Some]. lia.
  - intros p q i [-> _]%lookup_singleton_Some [-> _]%lookup_singleton_Some. done.
  - intros p Hp. by apply not_elem_of_empty in Hp.
Qed.

Lemma copy_result_witness :
  exists s, worker_cp_thr w_vol w_garbage (mkCst w_copy w_srv w_sound) = Some (che_Success, s) /\
    ((content (st_fs s) (obj_path w_vol 1 k_b) = Some (obj_file w_user k_b (SHA1 w_data) w_data) /\
        (w_data = w_data \/ exists x y, x <> y /\ SHA1 x = SHA1 y)) \/
     (content (st_fs s) (obj_path w_vol 1 k_b) = None /\ exists j, blk w_data j <> blk w_data j)).
Proof.
  destruct (copy_result w_vol w_garbage w_user 1 k_b k_a w_md w_data w_data [] w_copy w_srv w_sound) as (s & E & _ & _ & Hr).
  - exact w_garbage_len.
  - vm_compute. reflexivity.
  - reflexivity.
  - vm_compute. reflexivity.
  - vm_compute. reflexivity.
  - reflexivity.
  - exact w_sound_stored.
  - vm_compute. reflexivity.
  - split; [exact w_sound_wf|intros i; cbn; lia|]. split; [lia|]. split; [vm_compute; reflexivity|apply not_elem_of_empty].
  - vm_compute. reflexivity.
  - exact oc_init_inv.
  - exists s. split; [exact E|exact Hr].
Defined.

(** A logged-in client whose request is not signed. *)
Definition w_forged : client := set_c_key_len 1 (set_c_creq (CHUNKD_MAGIC ++ [CHO_DEL; 0; 1; 0] ++ replicate 12 0 ++ strncpy 64 [9]) (w_cli [])).

Lemma forged_not_permitted : ~ permitted w_forged.
Proof.
  intros (_ & (sig & rest & E & Hs & Hz & H) & _). assert (sig = [9]) as ->.
  { assert (cstr (drop 24 (c_creq w_forged)) = [9]) as Ec by (vm_compute; reflexivity).
    rewrite E, cstr_app in Ec by done. cbn in Ec. by rewrite app_nil_r in Ec. }
  assert (bool_decide ([9] = cstr (base64 (HMAC_SHA1 (the_user w_forged) (signed_text w_forged)))) = false) as Hf by (vm_compute; reflexivity).
  apply bool_decide_eq_false in Hf. apply Hf, H. vm_compute. discriminate.
Qed.

Lemma request_gate_witness :
  exists s, cli_evt_exec_req w_vol w_garbage (mkCst w_forged w_srv w_sound) = Some (true, s) /\ c_state (st_cli s) = evt_dispose /\
    (forall p, content (st_fs s) p = content w_sound p).
Proof.
  destruct (request_gate w_vol w_garbage w_forged w_srv w_sound) as (s & E & Hd & _ & _ & _ & Hc).
  - intros i. cbn. lia.
  - reflexivity.
  - reflexivity.
  - reflexivity.
  - vm_compute. reflexivity.
  - vm_compute. reflexivity.
  - apply Nat.leb_le. vm_compute. reflexivity.
  - vm_compute. reflexivity.
  - exact forged_not_permitted.
  - exists s. split; [exact E|]. split; [exact Hd|exact Hc].
Defined.
