(* ===== verification/ChunkdcWitness.v ===== *)
(** * ChunkdcWitness: client and server at work

    The server of [ChunkWitness], sockets that take three bytes at a time and
    a digest of 28 characters. *)

From Stdlib Require Import String.
From S2P Require Import Prelude Hstor ObjCache Fs BeFs BeFsSpec BeFsProps BeFsList Chunkd ChunkLogic ChunkReq ChunkPut ChunkGet ChunkPart ChunkCp ChunkProps ChunkWitness Chunkdc ChunkdcProps.
#[local] Open Scope Z_scope.

Definition sum_sig : Sig := {| HMAC_SHA1 k m := replicate 28 (1 + foldr Z.add 0 (k ++ m) mod 255); base64 b := b |}.
#[local] Existing Instance sum_sig.
#[local] Existing Instance pad_sha.
#[local] Existing Instance w_text.
#[local] Existing Instance w_readdir.
#[local] Existing Instance w_hdb.

Lemma sum_sig_ok k t : length (base64 (HMAC_SHA1 k t)) = 28%nat /\ Forall (fun c => c <> 0) (base64 (HMAC_SHA1 k t)).
Proof.
  split; [apply length_replicate|]. apply Forall_replicate. pose proof (Z.mod_pos_bound (foldr Z.add 0 (k ++ t)) 255 ltac:(lia)). lia.
Qed.

Definition three (_ : nat) : option nat := Some 3%nat.
Lemma three_ok i : exists k, three i = Some (S k).
Proof. by exists 2%nat. Qed.

Definition w_rnd (_ : nat) : bytes := [7; 7; 7; 7].
Definition w_stc : st_client := mkStc (str "host") w_user w_user false false.

Lemma client_put_get_witness :
  exists resp W m, stc_put_inline three w_rnd 0 w_stc k_a w_data 0 (mkSock resp [] 0) = Some (true, mkSock [] W m) /\
    exists resp2 W2 m2, stc_get_inline three w_rnd 0 w_stc k_a (mkSock resp2 [] m) = Some (Some w_data, mkSock [] W2 m2).
Proof.
  destruct (client_put_get three w_rnd 0 three_ok (fun _ => eq_refl) sum_sig_ok w_vol w_garbage w_user 1 w_stc k_a w_data 0 0 [] (w_cli []) w_srv w_fs)
    as (W & resp & t & W2 & resp2 & k & t2 & _ & _ & _ & _ & m & Em & _ & _ & _ & m2 & Em2).
  - exact w_garbage_len.
  - apply w_received.
  - vm_compute. reflexivity.
  - reflexivity.
  - discriminate.
  - vm_compute. discriminate.
  - exact w_user_ok.
  - apply w_target; [exact w_fs_wf|exact w_calm|apply lookup_empty|reflexivity].
  - reflexivity.
  - exact oc_init_inv.
  - exists resp, W, m. split; [exact Em|]. exists resp2, W2, m2. exact Em2.
Defined.

(** A socket that takes nothing at its fourth call and fails at the sixth. *)
Definition broken (i : nat) : option nat := if (i =? 3)%nat then Some 0%nat else if (i <? 5)%nat then Some 3%nat else None.
Lemma broken_live : idle_left broken 0 1.
Proof.
  intros l Hn Hl. assert (forall j, j ∈ l -> j = 3%nat) as H3.
  { intros j Hj. destruct (Hl j Hj) as [_ H]. unfold broken in H. destruct (Nat.eqb_spec j 3); [done|]. by destruct (j <? 5)%nat. }
  destruct l as [|a [|b l]]; cbn; [lia|lia|]. apply NoDup_cons in Hn as [Ha _]. destruct Ha.
  rewrite (H3 a), (H3 b) by set_solver. by left.
Qed.

Lemma calls_return_witness : exists b s', stc_put_inline broken w_rnd 1 w_stc k_a w_data 0 (mkSock [] [] 0) = Some (b, s') /\ (b = true -> told_success (mkSock [] [] 0)).
Proof.
  destruct (calls_return broken w_rnd (fun _ => true) 1 broken_live (fun _ => eq_refl) sum_sig_ok w_stc k_a k_a w_data 0 0 0 (mkSock [] [] 0)) as [_ [(b & s' & E & Hb) _]].
  - vm_compute. reflexivity.
  - constructor.
  - vm_compute. reflexivity.
  - vm_compute. congruence.
  - exists b, s'. split; [exact E|]. intros H. by destruct (Hb H) as (_ & T & _).
Defined.
