(* ===== verification/SelfcheckWitness.v ===== *)
(** * SelfcheckWitness: the self-check at work

    One table with one object, sound or spoiled; and a store that comes
    between reading the header and taking the reference. *)

From S2P Require Import Prelude Fs BeFs BeFsSpec BeFsList ObjCache Chunkd Selfcheck SelfcheckProps ChunkWitness.
#[local] Open Scope Z_scope.
#[local] Existing Instance pad_sha.
#[local] Existing Instance w_readdir.

Definition one_hdb : TcHdb unit := {| tchdbget _ _ := Some [1; 0; 0; 0]; tchdbput _ _ h := (true, h); tchdbaddint _ _ h := (None, h) |}.
#[local] Existing Instance one_hdb.
Definition one_iter : TcIter unit := {| tchdbiter _ := [MDB_TABLE_ID; k_a] |}.
#[local] Existing Instance one_iter.

(** The object of key a, its data now [cur]. *)
Definition w_disk (cur : bytes) : fsys :=
  mkFs {[w_path := 0%nat]} {[0%nat := mkFile (obj_front w_user k_a w_md w_data ++ cur) 7]} {[table_path w_vol 1; obj_dir w_vol 1 k_a]} 1 9 (fun _ => 2 ^ 48) 0.
Definition w_kst (cur : bytes) : kst unit := mkK (mkTls 0 0) w_srv (w_disk cur) 0.

Lemma w_disk_name cur q i : f_names (w_disk cur) !! q = Some i -> i = 0%nat.
Proof. unfold w_disk. cbn [f_names]. by intros [_ <-]%lookup_singleton_Some. Qed.

Lemma w_disk_wf cur : fs_wf (w_disk cur).
Proof.
  split; cbn.
  - intros p i [<- <-]%lookup_singleton_Some. rewrite lookup_singleton_eq. eauto.
  - intros i [f [<- _]%lookup_singleton_Some]. lia.
  - by intros p q i [<- _]%lookup_singleton_Some [<- _]%lookup_singleton_Some.
  - intros p [->%elem_of_singleton| ->%elem_of_singleton]%elem_of_union; vm_compute; reflexivity.
Qed.

Lemma w_disk_calm cur : calm (w_disk cur).
Proof. intros i. cbn. lia. Qed.

Lemma w_disk_flat cur : flat w_vol (w_disk cur).
Proof.
  split; cbn [w_disk f_dirs].
  - intros table a b La. assert (8 < length (file_path w_vol table a b))%nat as L.
    { unfold file_path, sub_path, table_path. destruct (fmt_X_head table) as (c & l & Ec & _). rewrite Ec, !length_app, La. change (length w_vol) with 2%nat. unfold PREFIX_LEN. cbn [length]. lia. }
    assert (length (table_path w_vol 1) = 4%nat /\ length (obj_dir w_vol 1 k_a) = 8%nat) as [L1 L2] by (by vm_compute).
    revert L L1 L2. generalize (file_path w_vol table a b) (table_path w_vol 1) (obj_dir w_vol 1 k_a). intros q d1 d2 L L1 L2.
    intros [E|E]%elem_of_union; apply elem_of_singleton in E; subst q; lia.
  - intros i. assert (take 4 (bad_path w_vol i) = [47; 118; 47; 98]) as L by reflexivity.
    assert (take 4 (table_path w_vol 1) = [47; 118; 47; 49] /\ take 4 (obj_dir w_vol 1 k_a) = [47; 118; 47; 49]) as [L1 L2] by (by vm_compute).
    revert L L1 L2. generalize (bad_path w_vol i) (table_path w_vol 1) (obj_dir w_vol 1 k_a). intros q d1 d2 L L1 L2.
    intros [E|E]%elem_of_union; apply elem_of_singleton in E; subst q; congruence.
Qed.

Lemma selfcheck_spares_witness :
  exists t', chk_thread_scan w_vol alone (fun _ => true) 100 5 (w_kst w_data) = Some (tt, t') /\
    content (k_fs t') w_path = Some (obj_file w_user k_a w_md w_data) /\ oc_inv [] (v_actives (k_srv t')).
Proof.
  destruct (selfcheck_spares w_vol w_user k_a w_data 1 alone (fun _ => true) 100 4 5 (w_kst w_data) (eq []) [])
    as (t' & E & C & _ & held' & Eh & Ic).
  - reflexivity.
  - vm_compute. discriminate.
  - exact w_user_ok.
  - reflexivity.
  - lia.
  - intros n mine held c f Io Ic Is. split; [exact Is|exists held; split; [exact Io|exact Ic]].
  - split; [|apply w_disk_wf|apply calm_whole, w_disk_calm|apply w_disk_flat|vm_compute; lia].
    rewrite obj_file_front. vm_compute. reflexivity.
  - reflexivity.
  - apply oc_init_inv.
  - exists t'. split; [exact E|]. split; [exact C|]. rewrite Eh. exact Ic.
Defined.

Lemma selfcheck_finds_witness :
  exists t', chk_list_objs w_vol alone (fun _ => true) 3 1 (w_kst w_cur) = Some (tt, t') /\ content (k_fs t') w_path = None /\
    content (k_fs t') (bad_path w_vol 0) = content (w_disk w_cur) w_path.
Proof.
  destruct (selfcheck_finds (H := unit) w_vol (fun _ => true) (fun _ => eq_refl) (w_disk w_cur) objcache_init [] 1) with (tls := mkTls 0 0) (v := w_srv) (n := 0%nat) (rounds := 3%nat)
    as (t' & E & _ & _ & Hk & _).
  - apply w_disk_wf.
  - apply w_disk_flat.
  - vm_compute. reflexivity.
  - intros q k ->%w_disk_name. lia.
  - intros q (a & b & _ & (_ & La & _) & [_ Hb] & ->). apply elem_children in Hb as [[[i Hi]|Hd] _]; [|by apply (fl_obj _ _ (w_disk_flat w_cur) 1 a b La) in Hd].
    exists i. split; [exact Hi|]. apply w_disk_name in Hi as ->. apply (bool_decide_unpack _). vm_compute. exact Logic.I.
  - apply w_disk_calm.
  - reflexivity.
  - apply oc_init_inv.
  - apply (bool_decide_unpack _). vm_compute. exact Logic.I.
  - vm_compute. lia.
  - destruct (content (w_disk w_cur) w_path) as [d|] eqn:Ed; [|vm_compute in Ed; discriminate].
    specialize (Hk k_a d Ed ltac:(apply (bool_decide_unpack _); vm_compute; exact Logic.I)).
    assert (spoiled d && negb (changing objcache_init (key_of d)) = true) as Hs by (vm_compute in Ed; injection Ed as <-; vm_compute; reflexivity).
    rewrite Hs in Hk. destruct Hk as (H1 & i & Hi & H2). exists t'. split; [exact E|]. split; [exact H1|].
    apply w_disk_name in Hi as ->. exact H2.
Defined.

(** Between reading the header and taking the reference another thread deletes
    the object and stores a new one. *)
Definition new_data : bytes := [4; 5].
Definition replaced : fsys :=
  mkFs {[w_path := 1%nat]} {[1%nat := mkFile (obj_file w_user k_a (SHA1 new_data) new_data) 8]} {[table_path w_vol 1; obj_dir w_vol 1 k_a]} 2 9 (fun _ => 2 ^ 48) 0.
Definition racing (n : nat) (c : objcache) (f : fsys) : objcache * fsys := (c, if (n =? 3)%nat then replaced else f).

(** The new object is sound, and is put aside. *)
Lemma race_disables :
  spoiled (obj_file w_user k_a (SHA1 new_data) new_data) = false /\
  exists t', chk_list_objs w_vol racing (fun _ => true) 3 1 (w_kst w_data) = Some (tt, t') /\ content (k_fs t') w_path = None.
Proof. split; [vm_compute; reflexivity|]. eexists. split; [vm_compute; reflexivity|]. vm_compute. reflexivity. Qed.

(** A read cut short by half does the same to a sound object. *)
Definition short_disk : fsys := mkFs (f_names (w_disk w_data)) (f_inodes (w_disk w_data)) (f_dirs (w_disk w_data)) 1 9 (fun i => if (i =? 14)%nat then 1 else 2 ^ 48) 0.
Lemma short_read_disables :
  exists t', chk_list_objs w_vol alone (fun _ => true) 3 1 (mkK (mkTls 0 0) w_srv short_disk 0) = Some (tt, t') /\ content (k_fs t') w_path = None.
Proof. eexists. split; [vm_compute; reflexivity|]. vm_compute. reflexivity. Qed.
