(* ===== verification/HstorWitness.v ===== *)
(** * HstorWitness: URIs, signatures and the storage client at work

    A digest that is a prefix of the text, insertion sort for [qsort], a
    service that answers every request with one list. *)

From Stdlib Require Import String Sorted.
From S2P Require Import Prelude Htab Huri Hutil Hstor HstorProps.
#[local] Open Scope Z_scope.

Lemma unescape_equiv_witness : huri_field_unescape (str "a%41%zz+") 8 = Some (splice 0 (str "aA%zz+") (str "a%41%zz+"), 6%nat).
Proof. destruct (unescape_equiv (str "a%41%zz+") 8) as [E _]; [vm_compute; lia|]. exact E. Defined.

(** ** Sorting *)

Lemma str_cmp_trans a b c : Forall char a -> Forall char b -> Forall char c -> htab_str_cmp a b <= 0 -> htab_str_cmp b c <= 0 -> htab_str_cmp a c <= 0.
Proof.
  revert b c. induction a as [|x a IH]; intros [|y b] [|z c] Ha Hb Hc; cbn; try done;
    repeat match goal with H : Forall _ (_ :: _) |- _ => apply Forall_cons in H as [? ?] end; unfold char in *; try lia.
  destruct (Z.eqb_spec x y) as [->|], (Z.eqb_spec y z) as [->|].
  - rewrite ?Z.eqb_refl. by apply IH.
  - destruct (Z.eqb_spec y z); [done|]. lia.
  - rewrite (proj2 (Z.eqb_neq x z)) by done. lia.
  - intros. rewrite (proj2 (Z.eqb_neq x z)) by lia. lia.
Qed.

Fixpoint insert (h : custom_hdr) (l : list custom_hdr) : list custom_hdr :=
  match l with
  | [] => [h]
  | x :: l => if cust_cmp h x <=? 0 then h :: x :: l else x :: insert h l
  end.
Definition isort (l : list custom_hdr) : list custom_hdr := foldr insert [] l.

Lemma insert_perm h l : insert h l ≡ₚ h :: l.
Proof. induction l as [|x l IH]; [done|]. cbn. destruct (_ <=? _); [done|]. rewrite IH. by constructor. Qed.

Lemma isort_perm l : isort l ≡ₚ l.
Proof. induction l as [|x l IH]; [done|]. cbn. by rewrite insert_perm, IH. Qed.

Lemma str_cmp_total a b : htab_str_cmp b a <= 0 \/ htab_str_cmp a b <= 0.
Proof. revert b. induction a as [|x a IH]; intros [|y b]; cbn; try lia. rewrite (Z.eqb_sym y x). destruct (Z.eqb_spec x y); [apply IH|lia]. Qed.

Lemma isort_sorted l : Forall (fun h => Forall (fun c => 0 < c < 256) (cu_key h)) l -> StronglySorted (fun a b => cust_cmp a b <= 0) (isort l).
Proof.
  induction 1 as [|h l Hh Hl IH]; [constructor|]. cbn. rewrite <- isort_perm in Hl. unfold isort in *. revert IH Hl. generalize (foldr insert [] l) as s. clear l.
  induction s as [|x s IHs]; intros Hs Hc; [by repeat constructor|]. apply StronglySorted_inv in Hs as [Hs Hx]. apply Forall_cons in Hc as [Hcx Hcs]. cbn.
  destruct (Z.leb_spec (cust_cmp h x) 0) as [Hle|Hgt].
  - constructor; [by constructor|]. constructor; [done|]. rewrite Forall_forall in Hx |- *. intros y Hy. specialize (Hx y Hy). rewrite Forall_forall in Hcs.
    eapply (str_cmp_trans _ (cu_key x)); [done|done|by apply Hcs|done|done].
  - constructor; [by apply IHs|]. rewrite insert_perm. constructor; [|done]. destruct (str_cmp_total (cu_key h) (cu_key x)); [done|unfold cust_cmp in Hgt; lia].
Qed.

#[local] Instance ins_qsort : Qsort := {| qsort := isort; qsort_perm := isort_perm; qsort_sorted := isort_sorted |}.

Definition pad28 (b : bytes) : bytes := take 28 (b ++ replicate 28 65).
Lemma length_pad28 b : length (pad28 b) = 28%nat.
Proof. unfold pad28. rewrite length_take, length_app, length_replicate. lia. Qed.
#[local] Instance pad_sig : Sig := {| HMAC_SHA1 := fun k t => k ++ t; base64 := pad28 |}.

Lemma w_siglen k t : length (base64 (HMAC_SHA1 k t)) = 28%nat.
Proof. apply length_pad28. Qed.

(** ** A service *)

Definition w_list : hstor_keylist :=
  mkKeylist (Some (str "b")) (Some (str "p/")) (Some []) None 1000 true
    [mkObject (Some (str "p/x")) (Some (str "now")) None 12 None (Some (str "me")) None] [Some (str "p/q/")].

Definition w_string (l : list node) : option bytes := match l with [Text t] => Some t | _ => None end.
#[local] Instance one_answer : Curl := {| net := nat; curl_easy_perform _ n := (0, [str "<xml"; str "/>"], S n) |}.
#[local] Instance one_doc : Libxml :=
  {| xmlReadMemory _ := Some (Some (str "ListBucketResult", kl_xml w_list)); xmlNodeListGetString := w_string;
     get_string_nil := eq_refl; get_string_text t _ := eq_refl |}.

Definition all_mem (_ : nat) : bool := true.
Definition w_junk (n : nat) : bytes := replicate n 0xAA.
Definition net0 : @world one_answer := @mkWorld one_answer 0 0%nat.
Definition w_cli : hstor_client := mkClient (str "h:80") (str "h") (str "u") (str "k") false true.

Lemma chars_ok s : forallb (fun c => (0 <? c) && (c <? 256)) s = true -> Forall char s.
Proof. rewrite forallb_forall, Forall_forall. intros H c Hc. apply list_elem_of_In, H, andb_true_iff in Hc. unfold char. lia. Qed.

Lemma w_acc : acc_ok (acc w_cli) (str "h") (Some 80).
Proof.
  split.
  - by vm_compute.
  - split; [done|]. split; [unfold free_of; apply (bool_decide_unpack _); vm_compute; exact I|]. split; [done|by apply chars_ok; vm_compute].
  - intros n [= <-]. lia.
Qed.

Lemma w_sub : sub_ok (subdomain w_cli) (str "b").
Proof. intros _. split; [unfold free_of; apply (bool_decide_unpack _); vm_compute; exact I|done]. Qed.

Lemma w_client : client_ok w_cli (str "b") (str "p/x").
Proof.
  split.
  - eexists _, _. exact w_acc.
  - exact w_sub.
  - by apply chars_ok; vm_compute.
  - by apply chars_ok; vm_compute.
  - vm_compute. lia.
  - by vm_compute.
Qed.

Definition w_uh : option (list bytes) := Some [str "x-amz-b: 2"; str "X-Amz-A: 1"].

Lemma w_uh_ok : user_hdrs_ok (default [] w_uh).
Proof.
  split; [split|].
  - apply (bool_decide_unpack _). by vm_compute.
  - constructor; [by apply chars_ok; vm_compute|]. constructor; [by apply chars_ok; vm_compute|constructor].
  - apply (bool_decide_unpack _). by vm_compute.
Qed.

Lemma sign_order_witness :
  hreq_sign all_mem (mkReq (str "GET") no_uri 1 1 (str "/") [mkHdr (str "Date") (str "d"); mkHdr (str "x-amz-b") (str "2")]) None (str "k") =
  hreq_sign all_mem (mkReq (str "GET") no_uri 1 1 (str "/") [mkHdr (str "x-amz-b") (str "2"); mkHdr (str "Date") (str "d")]) None (str "k").
Proof.
  apply (sign_order all_mem).
  - done.
  - cbn. by constructor.
  - split; [apply (bool_decide_unpack _); by vm_compute|]. constructor; [by apply chars_ok; vm_compute|]. constructor; [by apply chars_ok; vm_compute|constructor].
  - done.
  - done.
  - done.
Defined.

Lemma put_signed_witness :
  exists o rd, co_upload o = Some (3, rd) /\ read_calls (rd_cb rd) [2; 2] (rd_data rd) = Some [1; 2; 3] /\ verifies (str "u") (str "k") (Some (str "b")) o.
Proof.
  destruct (put_signed all_mem w_junk 0 (fun _ => eq_refl) (fun n => length_replicate n 0xAA) w_siglen w_cli all_mem (str "b") (str "p/x") [1; 2; 3] w_uh net0)
    as (o & rd & _ & V & _ & _ & U & R).
  - exact w_client.
  - exact w_uh_ok.
  - vm_compute. lia.
  - done.
  - done.
  - exists o, rd. split; [exact U|]. split; [|exact V]. apply (R [2; 2]). by repeat constructor.
Defined.

Lemma keys_answered_witness :
  exists w', hstor_keys all_mem w_junk 0 all_mem w_cli (str "b") (Some (str "p/")) None (Some (str "/")) 1000 net0 = Some (Some w_list, w') /\ w_net w' = 1%nat.
Proof.
  destruct (keys_answered all_mem w_junk 0 (fun _ => eq_refl) (fun n => length_replicate n 0xAA) w_siglen w_cli all_mem (str "b") (Some (str "p/")) None (Some (str "/")) 1000
    (fun _ => (true, true)) (str "h") (Some 80) net0) as (o & _ & _ & _ & R).
  - exact w_acc.
  - exact w_sub.
  - by apply chars_ok; vm_compute.
  - apply (bool_decide_unpack _). by vm_compute.
  - vm_compute. lia.
  - intros x [= <-]. repeat (constructor; [split; [vm_compute; by split|by vm_compute]|]). constructor.
  - done.
  - intros x [= <-]. repeat (constructor; [split; [vm_compute; by split|by vm_compute]|]). constructor.
  - lia.
  - by vm_compute.
  - done.
  - done.
  - intros o n. repeat (constructor; [by vm_compute|]). constructor.
  - apply (R w_list); [done| |done]. split; [done|vm_compute; by split|..].
    + constructor; [|constructor]. split; [by eexists|by repeat constructor|vm_compute; by split].
    + constructor; [by eexists|constructor].
Defined.

Definition w_long : hstor_client := mkClient (str "h:80") (str "h") (replicate 80 117) (str "k") false true.

Lemma auth_bound_witness : hstor_del all_mem w_junk 0 all_mem w_long (str "b") (str "x") net0 = None.
Proof.
  destruct (auth_bound all_mem w_junk 0 (fun _ => eq_refl) (fun n => length_replicate n 0xAA) w_siglen w_long all_mem (str "b") (str "x") true) as (_ & _ & _ & _ & E & _).
  - by apply chars_ok; vm_compute.
  - by apply chars_ok; vm_compute.
  - vm_compute. lia.
  - apply E.
Defined.

Definition w_uri : parts := mkParts (str "http") (Some (str "me")) (str "h") (Some 80) (str "/p") (Some (str "q=1")) (Some (str "f")).

Lemma parse_print_witness : exists r, huri_parse (str "http://me@h:80/p?q=1#f") = Some r /\ tk_text (query r) = Some (str "q=1") /\ port r = 80.
Proof.
  destruct (parse_print w_uri) as (r & E & _ & _ & _ & P & _ & Q & _).
  - split.
    + unfold free_of. apply (bool_decide_unpack _); vm_compute; exact I.
    + reflexivity.
    + intros x Ex. injection Ex as <-. unfold free_of. apply (bool_decide_unpack _); vm_compute; exact I.
    + split; [discriminate|]. split; [unfold free_of; apply (bool_decide_unpack _); vm_compute; exact I|discriminate].
    + intros n Ex. injection Ex as <-. lia.
    + exists (str "p"). reflexivity.
    + unfold free_of. apply (bool_decide_unpack _); vm_compute; exact I.
    + intros x Ex. injection Ex as <-. unfold free_of. apply (bool_decide_unpack _); vm_compute; exact I.
    + apply (bool_decide_unpack _); vm_compute; exact I.
    + reflexivity.
  - exists r. split; [exact E|]. split; [exact Q|exact P].
Defined.
