(* ===== verification/StartWitness.v ===== *)
(** * StartWitness: a chunk server starting, and the command line

    A small CLD with one client at a time, as an instance of the interface of
    [Cldu]: each call is a transition of the abstract service, computed on its
    contents.  [lw_plan] says how many session failures each call brings. *)

From Stdlib Require Import String.
From S2P Require Import Prelude Htab Huri Hstor HstorProps Dirent Wire Bdb Srv Msg Logic Abs Inv Cldc Corner.
From S2P Require Import Startup Dns Cldu CldApi ClduProps Config ConfigProps DirCur Cldcli MemDb Demo.
#[local] Open Scope Z_scope.

(** ** The service *)

Record lcl : Type := mkLcl { lw_view : dbview; lw_failures : nat; lw_plan : list nat }.

Definition tick (v : dbview) (w : lcl) : lcl :=
  match lw_plan w with
  | [] => mkLcl v (lw_failures w) []
  | n :: p => mkLcl v (lw_failures w + n) p
  end.

Definition keyedb (v : dbview) : bool := bool_decide (map_Forall (fun i ino => ri_inum ino = i) (v_inodes v)).
Definition lcl_view (w : lcl) : dbview := if keyedb (lw_view w) then lw_view w else empty_view.

Lemma keyedb_ok v : keyedb v = true <-> keyed v.
Proof. unfold keyedb. rewrite bool_decide_eq_true. done. Qed.

(** An operation, if the contents are in order. *)
Definition lcl_op {A} (f : dbview -> option (A * dbview)) (w : lcl) : option (A * lcl) :=
  if keyedb (lw_view w) then '(a, v) ← f (lw_view w); Some (a, tick v w) else None.

Definition LCL_NOW : Z := 5.

Definition named (name : bytes) (v : dbview) : option (Z * raw_inode) :=
  head (filter (fun p => inode_name_key p.2 = Some name) (map_to_list (v_inodes v))).

Lemma named_some name v p : named name v = Some p -> inode_named v name p.1 p.2.
Proof.
  unfold named. destruct (filter _ _) as [|x l] eqn:E; [done|]. intros [= <-].
  assert (x ∈ filter (fun p => inode_name_key p.2 = Some name) (map_to_list (v_inodes v))) as Hx by (rewrite E; constructor).
  apply list_elem_of_filter in Hx as [Hn Hx]. destruct x as [i ino]. apply elem_of_map_to_list in Hx. done.
Qed.

Lemma named_none name v i ino : named name v = None -> ~ inode_named v name i ino.
Proof.
  unfold named. destruct (filter _ _) as [|x l] eqn:E; [|done]. intros _ [Hi Hn].
  assert ((i, ino) ∈ filter (fun p => inode_name_key p.2 = Some name) (map_to_list (v_inodes v))) as Hx
    by (apply list_elem_of_filter; split; [done|by apply elem_of_map_to_list]).
  rewrite E in Hx. by apply not_elem_of_nil in Hx.
Qed.

Definition set_rs_next_fh x r := mkRawSess (rs_sid r) (rs_addr_len r) (rs_addr r) (rs_user r) (rs_last_contact r) x (rs_next_seqid_in r) (rs_next_seqid_out r).

Definition do_open (sid : Z) (o : cld_msg_open) (v : dbview) : option (Z * dbview) :=
  let name := mo_inode_name o in
  raw ← v_sessions v !! sid;
  if negb ((rs_sid raw =? sid) && (0 <=? sid) && (sid <? 2 ^ 64) && valid_inode_name (Some name) (List.length name)) then None else
  let fh := rs_next_fh raw in
  let raw := set_rs_next_fh (u64 (fh + 1)) raw in
  match named name v with
  | Some (_, ino) =>
      if flag (mo_mode o) COM_CREATE && flag (mo_mode o) COM_EXCL then None else
      if negb (Bool.eqb (flag (mo_mode o) COM_DIRECTORY) (is_dir ino)) then None else
      Some (fh, put_sess raw (put_handle (open_handle sid fh o (ri_inum ino)) v))
  | None =>
      let n := 1000 + Z.of_nat (size (v_inodes v)) in
      '(_, parent) ← named (pi_dir (pathname_parse name)) v;
      if negb (flag (mo_mode o) COM_CREATE && (2 <=? Z.of_nat (List.length name)) && (Z.of_nat (List.length name) <=? CLD_INODE_NAME_MAX) &&
               bool_decide (v_inodes v !! n = None) && (CLD_INO_RESERVED_LAST <? n) && (n <? 2 ^ 31)) then None else
      Some (fh, put_sess raw (put_inode (new_inode LCL_NOW o n) (put_handle (open_handle sid fh o n)
             (write_inode LCL_NOW parent (data_of v (ri_inum parent) ++ enc_ent (pi_base (pathname_parse name))) v))))
  end.

Lemma do_open_ok sid o v fh v' : do_open sid o v = Some (fh, v') -> astep LCL_NOW (AOpen sid o fh) v v'.
Proof.
  unfold do_open. destruct (v_sessions v !! sid) as [raw|]; [|done]. cbn [mbind option_bind].
  destruct (negb _) eqn:Hg; [done|]. apply negb_false_iff in Hg. repeat rewrite andb_true_iff in Hg. destruct Hg as (((G1 & G2) & G3) & G4).
  destruct (named (mo_inode_name o) v) as [[i ino]|] eqn:En.
  - destruct (flag _ COM_CREATE && _) eqn:E1; [done|]. destruct (negb _) eqn:E2; [done|]. apply negb_false_iff, eqb_prop in E2. intros [= <- <-].
    apply named_some in En. eapply astep_open_old; try done; cbn; lia.
  - destruct (named (pi_dir _) v) as [[i parent]|] eqn:Ep; [|done]. cbn [mbind option_bind]. destruct (negb _) eqn:Hn; [done|].
    apply negb_false_iff in Hn. repeat rewrite andb_true_iff in Hn. destruct Hn as (((((N1 & N2) & N3) & N4) & N5) & N6). apply bool_decide_eq_true in N4.
    intros [= <- <-]. apply named_some in Ep. eapply astep_open_new; try done; try (cbn; lia). intros j x. by apply named_none.
Qed.

Definition do_lock (sid fh : Z) (v : dbview) : option (bool * dbview) :=
  h ← v_handles v !! (sid, fh);
  if negb (flag (rh_mode h) COM_LOCK) then None else
  if existsb (blocks false) (locks_of v (rh_inum h)) then Some (false, v) else
  Some (true, upd_locks (insert (rh_inum h) (locks_of v (rh_inum h) ++ [new_lock LCL_NOW sid fh (rh_inum h) false false])) v).

Lemma do_lock_ok sid fh v v' : do_lock sid fh v = Some (true, v') -> astep LCL_NOW (ALock sid fh false false true) v v'.
Proof.
  unfold do_lock. destruct (v_handles v !! (sid, fh)) as [h|] eqn:Eh; [|done]. cbn [mbind option_bind].
  destruct (flag (rh_mode h) COM_LOCK) eqn:El; [|done]. cbn [negb]. destruct (existsb _ _) eqn:Eb; [done|]. intros [= <-].
  apply (astep_lock LCL_NOW sid fh false false v _ h false); try done. exists (locks_of v (rh_inum h)), [], []. cbn.
  rewrite !app_nil_r. split_and!; [done|by left|done].
Qed.

Definition do_put (sid : Z) (put : cld_msg_put) (v : dbview) : option (unit * dbview) :=
  h ← v_handles v !! (sid, mp_fh put);
  if negb (flag (rh_mode h) COM_WRITE) || flag (rh_mode h) COM_DIRECTORY then None else
  ino ← v_inodes v !! rh_inum h;
  if negb (ri_inum ino =? rh_inum h) then None else
  Some (tt, write_inode LCL_NOW ino (mp_data put) v).

Lemma do_put_ok sid put v u v' : do_put sid put v = Some (u, v') -> astep LCL_NOW (APut sid put) v v'.
Proof.
  unfold do_put. destruct (v_handles v !! _) as [h|] eqn:Eh; [|done]. cbn [mbind option_bind].
  destruct (flag (rh_mode h) COM_WRITE) eqn:Ew; [|done]. destruct (flag (rh_mode h) COM_DIRECTORY) eqn:Ed; [done|]. cbn [negb orb].
  destruct (v_inodes v !! rh_inum h) as [ino|] eqn:Ei; [|done]. cbn [mbind option_bind]. destruct (Z.eqb_spec (ri_inum ino) (rh_inum h)); [|done].
  cbn [negb]. intros [= _ <-]. by eapply astep_put.
Qed.

Definition do_close (sid fh : Z) (v : dbview) : dbview :=
  match v_handles v !! (sid, fh) with
  | None => v
  | Some h => upd_locks (insert (rh_inum h) (filter (fun l => lmatch l sid fh = false) (locks_of v (rh_inum h)))) (upd_handles (delete (sid, fh)) v)
  end.

(** A session has number 5; it ends with its handles and locks. *)
Definition do_new (v : dbview) : dbview := put_sess (mkRawSess 5 0 [] [] LCL_NOW 1 0 0) v.
Definition do_end (sid : Z) (v : dbview) : dbview :=
  upd_locks (fmap (filter (fun l => rl_sid l <> sid))) (upd_sessions (delete sid) (upd_handles (filter (fun kh => kh.1.1 <> sid)) v)).

Definition ERR : Z := 1100 + cle_code CLE_DB_ERR.

#[export] Instance lcl_api : NcldApi lcl := {
  api_sess_open host port w := (inr 5, tick (do_new (lw_view w)) w);
  api_sess_close sid w := tick (do_end sid (lw_view w)) w;
  api_open sid path mode w := match lcl_op (do_open sid (mkOpen mode 0 path)) w with Some (fh, w) => (inr fh, w) | None => (inl ERR, w) end;
  api_close sid fh w := tick (do_close sid fh (lw_view w)) w;
  api_trylock sid fh w :=
    match lcl_op (do_lock sid fh) w with
    | Some (true, w) => (0, w)
    | Some (false, w) => (cle_code CLE_LOCK_CONFLICT + 1100, w)
    | None => (ERR, w)
    end;
  api_write sid fh d w := match lcl_op (do_put sid (mkPut fh d)) w with Some (_, w) => (0, w) | None => (ERR, w) end;
  api_sleep n w := w;
  api_failures := lw_failures }.

Lemma tick_view v w : lw_view (tick v w) = v.
Proof. unfold tick. by destruct (lw_plan w). Qed.

(** A computed transition is an answered call. *)
Lemma lcl_did sid a v w w' : keyedb (lw_view w) = true -> astep LCL_NOW a (lw_view w) v -> w' = tick v w ->
  exists now v1 v2, 0 <= now < 2 ^ 32 /\ evolves (foreign sid) (lcl_view w) v1 /\ astep now a v1 v2 /\
    evolves (fun a => foreign sid a \/ a = ARemove sid) v2 (lcl_view w') /\ (True -> evolves (foreign sid) v2 (lcl_view w')).
Proof.
  intros Hk Hst ->. exists LCL_NOW, (lw_view w), v. assert (lcl_view w = lw_view w) as -> by (unfold lcl_view; by rewrite Hk).
  assert (lcl_view (tick v w) = v) as ->. { unfold lcl_view. rewrite tick_view. by rewrite (proj2 (keyedb_ok v)) by (eapply keyed_step; [by apply keyedb_ok|done]). }
  split; [done|]. split; [done|]. done.
Qed.

#[export] Instance lcl_ok : NcldOk lcl.
Proof.
  refine {| api_view := lcl_view; api_alive _ _ := True |}.
  - intros w. unfold lcl_view. destruct (keyedb (lw_view w)) eqn:E; [by apply keyedb_ok|]. intros i ino Hi. cbn in Hi. by rewrite lookup_empty in Hi.
  - intros sid path mode w fh w'. cbn. unfold lcl_op. destruct (keyedb (lw_view w)) eqn:E; [|done].
    destruct (do_open _ _ _) as [[x v]|] eqn:Eo; [|done]. cbn. intros [= -> <-]. split; [done|]. by eapply lcl_did, eq_refl; [|apply do_open_ok].
  - intros sid fh w w'. cbn. unfold lcl_op. destruct (keyedb (lw_view w)) eqn:E; [|done].
    destruct (do_lock _ _ _) as [[[|] v]|] eqn:Eo; [|done..]. cbn. intros [= <-]. split; [done|]. by eapply lcl_did, eq_refl; [|apply do_lock_ok].
  - intros sid fh w w'. cbn. unfold lcl_op. destruct (keyedb (lw_view w)) eqn:E; [|done].
    destruct (do_lock _ _ _) as [[[|] v]|] eqn:Eo; [done| |done]. cbn. intros [= <-]. split; [done|].
    assert (v = lw_view w) as ->. { revert Eo. unfold do_lock. destruct (v_handles _ !! _); [|done]. cbn. destruct (negb _); [done|]. destruct (existsb _ _); naive_solver. }
    assert (lcl_view (tick (lw_view w) w) = lcl_view w) as E2 by (unfold lcl_view; by rewrite tick_view). rewrite E2. split; [|intros _]; reflexivity.
  - intros sid fh d w w'. cbn. unfold lcl_op. destruct (keyedb (lw_view w)) eqn:E; [|done].
    destruct (do_put _ _ _) as [[x v]|] eqn:Eo; [|done]. cbn. intros [= <-]. split; [done|]. by eapply lcl_did, eq_refl; [|eapply do_put_ok].
  - intros sid n w. split; [done|]. split; [|intros _]; reflexivity.
Defined.

(** ** The machine *)

#[export] Instance d_res : Resolver := { getaddrinfo node port := inr [(AF_INET, ntohs 8081)] }.
#[export] Instance d_dns : DnsLib := { res_search i q := inl 1; ns_initparse ans := None; dn_expand ans i := None }.

Definition d_port_file : bytes := str "/var/run/port".
Definition d_listen : listen_cfg := mkListen None (Some AUTO) (Some d_port_file).
Definition d_kernel : kernel := mkKernel ∅ ∅ 3 [] [d_listen] (fun _ => 300) 0.

(** A description of a server, and one that says where it stands. *)
Definition d_conf : chunk_conf :=
  mkConf (str "/data") [d_listen; mkListen (Some (str "h")) (Some (str "8083")) None] 7 (str "/chunk/s7") (str "h7") (str "/pid") [str "root"]
    [(str "cld1", 8081); (str "cld2", 8082)].
Definition d_env : cfg_env := mkEnv (fun p => if bool_decide (p = str "/data") then Some true else None) true true (fun _ _ => 0) true true.
Definition d_server : server_cfg := mkSv None None None [] [] 0 None no_geo true.
Definition d_geo : list mevent := block "Geo" (elem "Area" (str "eu") ++ elem "Zone" (str "z")).

Definition d_cfg : cfgst := Eval vm_compute in
  match read_config d_env 3 (Some (print_conf d_conf ++ d_geo)) d_server ses with Some (Some g) => g | _ => mkCfg no_context d_server ses end.

Lemma d_cfg_ok : read_config d_env 3 (Some (print_conf d_conf ++ d_geo)) d_server ses = Some (Some d_cfg).
Proof. vm_compute. reflexivity. Qed.

(** ** The client, ready to register *)

Definition d_world (plan : list nat) : lcl := mkLcl (vw s_root) 0 plan.
Definition d_mal (i : nat) : bool := true.
Definition d_args (cs : cld_session) : cld_session := cldu_saveargs (str "/chunk/s7") 7 (str "h7") no_geo cs.

(** ** The properties of the starting chunk server at a concrete
    machine, configuration and CLD service *)

Lemma port_file_roundtrip_witness : exists k1 r k2,
  net_write_port d_port_file (fmt_lu 8083) d_kernel = Some (0, k1) /\ hail_readport d_port_file k1 = Some (r, k2) /\ r = 8083.
Proof.
  destruct (net_write_port d_port_file (fmt_lu 8083) d_kernel) as [[rc k1]|] eqn:E; [|exfalso; revert E; vm_compute; discriminate].
  pose proof E as E'. vm_compute in E'. injection E' as <- Hk1. exists k1.
  destruct (port_file_roundtrip d_port_file 8083 d_kernel k1 ltac:(lia) E) as (r & k2 & Hr & [H|[_ H]]); [by exists r, k2|].
  exfalso. rewrite <- Hk1 in H. cbn in H. lia.
Defined.

Lemma auto_port_witness : exists k', net_open_any 0 d_kernel = Some (0, k') /\ auto_opened 0 d_listen d_kernel 0 k'.
Proof.
  destruct (auto_port 0 d_listen d_kernel) as (rc & k' & E & H).
  - split; [|split; [|done]].
    + intros fd. cbn. rewrite lookup_empty. split; [intros [? ?]; done|]. intros (s & Hs & _). by apply not_elem_of_nil in Hs.
    + intros fd. cbn. rewrite lookup_empty. intros [? ?]. done.
  - done.
  - assert (rc = 0) as ->; [|by exists k'].
    assert (fst <$> net_open_any 0 d_kernel = Some 0) as E2 by (vm_compute; reflexivity). rewrite E in E2. by injection E2.
Defined.

Lemma config_accepted_witness : sv_listeners (g_sv d_cfg) <> [] /\ Forall good_listener (sv_listeners (g_sv d_cfg)).
Proof.
  destruct (config_accepted d_env 3 (print_conf d_conf ++ d_geo) d_server ses d_cfg) as (_ & H1 & H2 & _); [done|done|done|apply d_cfg_ok|done].
Defined.

Definition d_ffile : bytes := Eval vm_compute in
  default [] (cldu_make_ffile d_mal d_kernel (cldu_saveargs (default [] (sv_info_path (g_sv d_cfg))) (sv_nid (g_sv d_cfg)) (str "h7") (sv_loc (g_sv d_cfg)) (g_cs d_cfg))).

Lemma geo_not_announced_witness : exists front, d_ffile = front ++ geo_text no_geo.
Proof.
  apply (geo_not_announced d_env 3 (print_conf d_conf ++ d_geo) d_server ses d_cfg d_mal d_kernel (str "h7"));
    [done|done|done|done|apply d_cfg_ok|vm_compute; reflexivity].
Defined.

Lemma d_conf_ok : conf_ok d_env d_conf.
Proof.
  split; try (split_and!; vm_compute; reflexivity).
  - split; [|done]. repeat constructor; try (eexists; split; [done|split; [vm_compute; reflexivity|]]).
    + by right.
    + left. vm_compute. done.
  - split_and!; [vm_compute; reflexivity..|]. repeat constructor.
  - repeat constructor.
Qed.

Lemma config_roundtrip_witness : exists g, read_config d_env 0 (Some (print_conf d_conf)) d_server ses = Some (Some g) /\
  sv_listeners (g_sv g) = cf_listen d_conf.
Proof. eexists. split; [apply (config_roundtrip d_env 0 d_conf ses); [done|apply d_conf_ok]|done]. Defined.

Definition d_ready (plan : list nat) : cldu lcl := mkCldu (d_args (g_cs d_cfg)) (d_world plan).

Lemma registered_witness : exists s', cldu_set_cldc 3 d_mal d_kernel 0 (d_ready []) = Some (0, s') /\ registration d_kernel 0 (d_ready []) s'.
Proof.
  destruct (cldu_set_cldc 3 d_mal d_kernel 0 (d_ready [])) as [[rc s']|] eqn:E; [|exfalso; revert E; vm_compute; discriminate].
  assert (fst <$> cldu_set_cldc 3 d_mal d_kernel 0 (d_ready []) = Some 0) as E2 by (vm_compute; reflexivity).
  rewrite E in E2. injection E2 as ->. exists s'. split; [done|]. by apply (registered 3 d_mal d_kernel 0 (d_ready []) s').
Defined.

Lemma make_path_equiv_witness : exists s', cldu_make_path d_mal 5 (str "/chunk/s7") (mkCldu ses (tick (do_new (vw s_root)) (d_world []))) = Some (0, s').
Proof.
  eexists. rewrite (make_path_equiv d_mal 5 (str "/chunk/s7")); [|done|done|apply Nat.ltb_lt; reflexivity|done|done|done]. vm_compute. reflexivity.
Defined.

(** The server has started, and its session fails. *)
Definition d_begin (plan : list nat) : option (Z * cldu lcl) :=
  cld_begin 3 (fun _ => d_mal) d_mal true true d_kernel (str "h7") 7 (str "/chunk/s7") no_geo (mkCldu (g_cs d_cfg) (d_world plan)).

Lemma dead_session_retried_witness : exists s s', d_begin [] = Some (0, s) /\ rtc cldu_step s s' /\ cu_is_dead (u_cs s') = true /\
  ((0 < cu_pipe (u_cs s'))%nat \/ cu_timer (u_cs s') = true).
Proof.
  destruct (d_begin []) as [[rc s]|] eqn:E; [|exfalso; revert E; vm_compute; discriminate].
  assert (fst <$> d_begin [] = Some 0) as E2 by (vm_compute; reflexivity). rewrite E in E2. injection E2 as ->.
  set (s' := mkCldu (cldu_sess_event (u_cs s)) (u_w s)).
  assert (rtc cldu_step s s') as Hr. { apply rtc_once. destruct s as [cs w]. apply st_world. by exists 1%nat. }
  assert (cu_is_dead (u_cs s') = true) as Hd by (unfold s', cldu_sess_event; cbn; by destruct (_ <? _)).
  exists s, s'. split; [reflexivity|]. split; [exact Hr|]. split; [exact Hd|]. apply (dead_session_retried s s'); [|exact Hr|exact Hd].
  exists 3%nat, (fun _ => d_mal), d_mal, true, true, d_kernel, (str "h7"), 7, (str "/chunk/s7"), no_geo, (mkCldu (g_cs d_cfg) (d_world [])).
  split; [discriminate|]. split; [reflexivity|exact E].
Defined.

(** A dead session is replaced, and the new one fails before its file has been
    written. *)
Definition d_dead : cldu lcl := mkCldu (set_cu_is_dead true (d_args (g_cs d_cfg))) (d_world [0; 0; 1]%nat).

Definition d_next : cld_host := default no_host (cu_cldv (u_cs d_dead) !! cldu_nextactive (u_cs d_dead)).
Definition d_new : (Z + Z) * lcl := api_sess_open (ch_host (h d_next)) (ch_port (h d_next)) (old_closed d_dead).

Lemma failure_lost_witness : exists s1, cldu_sess_proc 3 d_mal d_kernel d_dead = Some (tt, s1) /\ cu_is_dead (u_cs s1) = false /\
  (0 < cu_pipe (u_cs s1))%nat.
Proof.
  destruct (cldu_sess_proc 3 d_mal d_kernel d_dead) as [[[] s1]|] eqn:E; [|exfalso; revert E; vm_compute; discriminate].
  assert ((fun r => (cu_timer (u_cs r.2), (api_failures d_new.2 <? api_failures (u_w r.2))%nat)) <$> cldu_sess_proc 3 d_mal d_kernel d_dead
          = Some (false, true)) as E2 by (vm_compute; reflexivity).
  rewrite E in E2. injection E2 as T F. exists s1. split; [reflexivity|].
  destruct (failure_lost 3 d_mal d_kernel d_dead s1 s1 d_next (from_option id 0 (match d_new.1 with inr x => Some x | inl _ => None end)) d_new.2)
    as (H1 & _ & H3 & _).
  - reflexivity.
  - exact E.
  - exact T.
  - vm_compute. reflexivity.
  - vm_compute. reflexivity.
  - apply Nat.ltb_lt, F.
  - apply rtc_refl.
  - split; [exact H1|exact H3].
Defined.

(** ** The command line *)

(** Deleting is not allowed here; data that is not bytes is not served. *)
Definition do_get (sid fh : Z) (v : dbview) : option (bytes * dbview) :=
  match get_reply v sid fh 0 true with
  | inr r => if forallb is_byte (gr_data r) then Some (gr_data r, v) else None
  | inl _ => None
  end.

#[export] Instance lcl_cli : CliApi lcl := {
  cli_get sid fh w := match lcl_op (do_get sid fh) w with Some (d, w) => (inr d, w) | None => (inl ERR, w) end;
  cli_del sid path w := (ERR, w);
  cli_unlock sid fh w := (0, tick (do_close sid fh (lw_view w)) w);
  cli_qlock sid fh w :=
    match lcl_op (do_lock sid fh) w with
    | Some (true, w) => (0, w)
    | Some (false, w) => (1, w)
    | None => (ERR, w)
    end }.

#[export] Instance lcl_cli_ok : CliOk lcl.
Proof.
  split. intros sid fh w d w'. cbn. unfold lcl_op, do_get. destruct (keyedb (lw_view w)) eqn:Ek; [|done].
  destruct (get_reply (lw_view w) sid fh 0 true) as [e|r] eqn:Er; [done|]. destruct (forallb _ _); [|done]. cbn. intros [= <- <-]. split; [done|].
  assert (lcl_view w = lw_view w) as E1 by (unfold lcl_view; by rewrite Ek).
  assert (lcl_view (tick (lw_view w) w) = lw_view w) as E2 by (unfold lcl_view; by rewrite tick_view, Ek).
  exists (lw_view w), 0, r. split; [cbn; rewrite E1; reflexivity|]. split; [done|]. split; [done|].
  split; [|intros _]; cbn; rewrite E2; reflexivity.
Defined.

Lemma tick_plan v w : lw_plan w = [] -> lw_plan (tick v w) = [].
Proof. intros H. unfold tick. by rewrite H. Qed.

Lemma lcl_op_plan {A} (f : dbview -> option (A * dbview)) w a w' : lcl_op f w = Some (a, w') -> lw_plan w = [] -> lw_plan w' = [].
Proof. unfold lcl_op. destruct (keyedb _); [|done]. destruct (f _) as [[x v]|]; [|done]. cbn. intros [= _ <-]. apply tick_plan. Qed.

Lemma lcl_keeps : service_keeps 5 (fun w : lcl => lw_plan w = []).
Proof.
  split; cbn; intros; try done; try (by apply tick_plan);
    try (repeat case_match; simplify_eq/=; try done; by eapply lcl_op_plan).
  revert H0. unfold lcl_op. destruct (keyedb _); [|done]. unfold do_get. destruct (get_reply _ _ _ _ _) as [e|r]; [done|].
  destruct (forallb is_byte (gr_data r)) eqn:E; [|done]. cbn. intros [= <-]. rewrite forallb_forall in E. apply Forall_forall.
  intros x Hx. apply Is_true_true_2, E. by apply list_elem_of_In.
Qed.

Definition d_cli : cli lcl :=
  mkCl [47] [] 2 [] [] {[str "/tmp/f" := str "hello"]} (mkLcl (do_new (vw s_root)) 0 []).

Definition d_lines : bytes := str "mkdir d" ++ [10] ++ str " cd d " ++ [10] ++ str "cpin /tmp/f x" ++ [10] ++ str "ls" ++ [10] ++ str "cat x" ++ [10].

Lemma cldcli_safe_witness : exists s', cldcli_main 5 (fun _ => true) (fun _ => true) d_mal (str "u") false d_mal d_lines d_cli = Some (tt, s') /\
  cl_out s' = str "x" ++ [10] ++ str "hello" ++ [10] /\ cl_cwd s' = str "/d" /\ lw_plan (cl_w s') = [].
Proof.
  destruct (cldcli_safe 5 (fun _ => true) (fun _ => true) d_mal (str "u") false (fun w : lcl => lw_plan w = []) d_mal d_lines d_cli) as (s' & E & Hp & _);
    [exact lcl_keeps|reflexivity|split; [reflexivity|apply Nat.leb_le; reflexivity]|reflexivity|].
  assert ((fun r => (cl_out r.2, cl_cwd r.2)) <$> cldcli_main 5 (fun _ => true) (fun _ => true) d_mal (str "u") false d_mal d_lines d_cli
    = Some (str "x" ++ [10] ++ str "hello" ++ [10], str "/d")) as E2 by (vm_compute; reflexivity).
  rewrite E in E2. injection E2 as O1 O2. exists s'. by split_and!.
Defined.

Lemma cpin_stores_witness : exists s' i ino v, cmd_cpin 5 (fun _ => true) (str "/tmp/f x") d_cli = Some (tt, s') /\
  inode_named v (str "/x") i ino /\ data_of v i = str "hello".
Proof.
  destruct (cmd_cpin 5 (fun _ => true) (str "/tmp/f x") d_cli) as [[[] s']|] eqn:E; [|exfalso; revert E; vm_compute; discriminate].
  assert ((fun r => cl_diags r.2) <$> cmd_cpin 5 (fun _ => true) (str "/tmp/f x") d_cli = Some []) as E2 by (vm_compute; reflexivity).
  rewrite E in E2. injection E2 as D.
  destruct (cpin_stores 5 (fun _ => true) (str "/tmp/f x") (str "/tmp/f") (str "x") d_cli s') as (path & data & fh & now & v1 & v2 & i & ino & w1 & Hp & Hf & _ & _ & Hn & Hd & _);
    [vm_compute; reflexivity|exact E|exact D|].
  assert (Some (Some path) = Some (Some (str "/x"))) as [= ->] by (rewrite <- Hp; vm_compute; reflexivity).
  assert (Some data = Some (str "hello")) as [= ->] by (rewrite <- Hf; vm_compute; reflexivity).
  exists s', i, ino, v2. split; [reflexivity|]. by split.
Defined.
